(* ===== verification/_CoqProject ===== *)
-Q . S2P
Prelude.v
PyStr.v
RepoPath.v
Shlex.v
PyValue.v
Models.v
PolicyEngine.v
Regex.v
Security.v
Json.v
Sha256.v
Receipt.v
Approval.v
AuditLog.v
AuditQuery.v
Interceptor.v
OperationStore.v
ApprovalQueue.v
PatchDiff.v
Dependency.v
DiffLimits.v
ChangeRisk.v
ChangeGate.v
PathSafety.v
PatchApproval.v
GuardedApply.v
Codec.v
ReportSummary.v
PatchArtifact.v
ArtifactLifecycle.v
ArtifactExample.v
IntentContract.v
Fnmatch.v
ChangedFiles.v
ResourceGraph.v
ActionNormalizer.v
CapabilityMatcher.v
IntentDecision.v
IntentReview.v
IntentPipeline.v
PatchFinalizer.v
Double.v
ActionIntent.v
Url.v
RiskEngine.v
RiskGate.v
ApprovalService.v
ServiceExample.v
Containment.v
Production.v
Effects.v
RecoverySession.v
SubjectiveRisk.v
GuardedBackend.v
GuardedRunner.v
RunSafety.v
RunExample.v
RunLock.v
Reconciler.v
ReconcilerSafety.v
ReconcilerExample.v
