(* ===== verification/Prelude.v ===== *)
(** * rygnal-core: a verified model of the guarded-change pipeline

    Rygnal stands between a coding agent and the machine it works on.  Its
    parts share approvals and the audit log:

    - the tool half: a tool request is scored, matched against a policy,
      approved by a person if the policy asks for it, logged, and only then
      executed (interceptor.py, risk_engine.py, policy_engine.py);
    - the patch half: the agent edits a copy of the repository, the diff is
      classified, gated, approved if it is risky, and only then applied to the
      trusted repository (safe_apply.py, approved_apply.py, patch_artifact.py,
      guarded_patch_finalizer.py, approval_service.py, operation_store.py);
    - the intent half: what the run did is normalized into actions, matched
      against the contract a person agreed to, and the run goes on, is sent to
      a review or is blocked (intent_contract.py, action_normalizer.py,
      capability_matcher.py, intent_fallback_policy.py);
    - the run: one command in a disposable worktree and a sandbox, under a lock,
      from the checks before it to the cleanup after it, with the other parts
      called on the way (guarded_runner.py, recovery_session.py,
      production_containment.py);
    - the recovery of what crashed runs left behind (recovery_reconciler.py).

    All paths below are under src/src/rygnal/.

    ** Files, in dependency order

    - [Prelude] (this file): the type [result] of a call that returns or
      raises, loops that may raise, de-duplication, reachability [star], the
      shared lemmas on lists and booleans and the hint database [rygnal].
    - [PyStr], [PyValue], [Shlex], [Regex], [Json], [Sha256]: the parts of
      Python the sources use: methods of [str], pure paths, dynamic values
      with their equality, ordering and truth, [shlex.split], regular
      expressions by derivation of matches, [json.dumps] and [json.loads], and
      [hashlib.sha256] with its 32-bit words.
    - [RepoPath]: normalize_repo_relative_path (changed_files.py,
      ignore_rules.py) and the lexical boundary of path_safety.py.
    - [Models]: the enumerations and records of models.py.
    - [PolicyEngine]: policy_engine.py.  [evaluate] is the loop over the
      sorted rules, [engine_of_schema] the load-time validation with the
      production-safe profile; [first_decisive] is the specification.
    - [Security]: security.py: redaction, secret detection, shell and sandbox
      validation.
    - [Receipt]: approval_receipt.py: the canonical text of an approval, its
      digest, attachment and verification.
    - [Approval]: approval_state.py, approval_authorization.py, approval.py:
      the state machine, the authorization of a decision and the workflow.
    - [AuditLog]: audit_logger.py and audit_storage.py: the hash chain in a
      JSON-lines file and in an SQLite table.  [AuditQuery]: audit_query.py.
    - [Interceptor]: interceptor.py and tool_executor.py, against the classes
      [RiskAssessor], [PolicyDecider] and [AuditSink]; the policy engine, the
      audit log and (in [RiskGate]) the risk engine are instances.
    - [OperationStore]: operation_store.py: reservations, repository leases,
      transitions and crash recovery; [op_step] is its step relation.
    - [ApprovalQueue]: approval_queue.py: the in-memory and the SQLite queue;
      [queue_step] is the step relation of the latter.
    - [PatchDiff], [Dependency], [DiffLimits], [ChangeRisk]: the data of a
      patch (patch_diff.py), dependency_governance.py, diff_limits.py, and the
      classification of change_risk.py.
    - [ChangeGate]: change_gate.py, the approval requirement of
      patch_approval.py and the skip reasons of safe_apply.py.
    - [PathSafety]: path_safety.py.
    - [PatchApproval]: patch_approval.py: request, decisions and
      [assert_patch_approval_granted]; [granted] is the specification.
    - [GuardedApply]: safe_apply.py and approved_apply.py, against the classes
      [GitRepo] (the Git commands) and [ApplyAudit] (the log).
    - [Codec], [ReportSummary], [PatchArtifact]: patch_artifact.py: base64 and
      the lossless JSON of stored values, the stored form of a risk report, the
      artifact and its store (a directory of files and lock files, whose system
      calls fail as the argument [disk_faults] says).  [ArtifactLifecycle]: the
      theorems about the store; [astep] is the specification of one artifact
      that its calls refine.  [ArtifactExample]: a concrete host and an artifact
      from end to end.
    - [IntentContract]: intent_contract.py: the enumerations and the models
      with their validators.
    - [Fnmatch], [ChangedFiles]: [fnmatch.fnmatchcase]; ignore_rules.py,
      changed_files.py and the generator of patch_diff.py, against the class
      [GitWorktree].
    - [ResourceGraph], [ActionNormalizer], [CapabilityMatcher]: the files of
      these names; [authorized] and [verdict] are the specification of the
      matcher.
    - [IntentDecision], [IntentReview]: intent_fallback_policy.py,
      intent_evidence.py, intent_receipt.py and intent_review.py.
      [IntentPipeline]: the intent gate of run_guarded (guarded_runner.py),
      from the changed files of the run to the decision.
    - [PatchFinalizer]: guarded_patch_finalizer.py on the artifact store, the
      auto-apply and the queue (class [ApprovalQueueWriter]).
    - [Double], [ActionIntent]: doubles, and the classifier of action_intent.py
      on them.
    - [Url], [RiskEngine], [RiskGate]: URLs and address classes, risk_engine.py
      with its history per trace, and the engine behind the interceptor under
      the policy shipped for production.
    - [ApprovalService]: approval_service.py over the queue (the class
      [ApprovalQueueOps], both queues being instances), the artifact store, the
      log and the operation store.  [ServiceExample]: a service end to end.
    - [Containment], [Production]: execution_backend.py,
      process_containment.py, workspace_mounts.py and repo_state.py; the
      verification of Bubblewrap in production_containment.py.
    - [Effects]: computations that change a state and raise, [catch],
      [finally], invariants ([keeps]) and Hoare triples ([triple]).
    - [RecoverySession]: recovery_session.py and untracked_files.py: the
      disposable worktree and its removal, against [WorktreeHost].
    - [SubjectiveRisk]: subjective_risk.py and classify_and_decide_patch of
      guarded_runner.py, against [SubjectiveHost].
    - [GuardedBackend], [GuardedRunner]: guarded_runner.py: commands, back ends,
      the command line of Bubblewrap, the supervision of a process; then
      [run_guarded] itself.  [RunSafety]: its theorems; [RunExample]: its
      witnesses.  [RunLock]: the lock between several runs, as a step relation.
    - [Reconciler]: recovery_reconciler.py; [ReconcilerSafety]: its theorems;
      [ReconcilerExample]: its witnesses.

    ** What the theorems show

    - No unauthorized effect: the handler of a tool is called only as the
      policy or an approval allows and after the decision is logged
      (Interceptor, Approval); a patch is applied only when every check of the
      code held, an approval is used once, and an automatic apply is harmless
      (GuardedApply); a run changes the trusted repository only by a patch it
      justified, and executes commands only in an admitted back end
      (RunSafety); the service applies only the artifact its approval is bound
      to, and once (ApprovalService).
    - Fail closed: a listed error of a component is returned as a recorded
      block (Interceptor), a critical score is blocked (RiskGate), the
      production-safe profile allows nothing by default (PolicyEngine),
      production mode asks for evidence of containment (Production), a locked
      file cannot be changed (SubjectiveRisk).
    - Containment: what the command line of Bubblewrap mounts and separates
      (GuardedBackend), and that a worktree is detached, apart and registered
      (RecoverySession) and is cleaned up (RunSafety).
    - Detection: safe patches stay inside the repository (PathSafety), doubles
      of confidence are probabilities (ActionIntent), normalisation of shell
      commands ends (RiskEngine).
    - State: mutual exclusion per repository (OperationStore) and per run
      (RunLock), release of the lock on every way out and its recovery
      (RunSafety).
    - Integrity: what a verified query shows and how its pages cover the log
      (AuditQuery).
    - Artifacts: a persisted patch is read back as it was, is applied only as it
      was approved and, under the conditions the theorem names, at most once,
      over sequences of calls, crashes and failures of the disk
      (ArtifactLifecycle).
    - Intent: an exact match is exactly an authorized action, a run that the
      gate lets through has only such actions, built values are well formed
      (CapabilityMatcher, IntentPipeline, IntentContract).
    - Composition: the finalizer applies only what nothing holds back, and
      leaves an applied patch, a pending approval or nothing, or, after a
      failure of the disk, an artifact without an approval (PatchFinalizer).
    - Recovery: a pass settles artifacts and operations only by evidence of the
      log, removes only stale locks, touches a workspace only when the ownership
      marker in it names it, and leaves a live run alone (ReconcilerSafety).
    - Besides these, each file has the lemmas its component is known by: exact
      specifications (policy evaluation, the grant check, the fallback
      evaluation, path normalisation), round trips (JSON, base64, raw diffs),
      finality of operations and decisions, bounds of scores.

    ** Defects the model shows

    Each is a lemma on a concrete or general input.  Among them: a rejected
    self-approval that executes; secrets hidden by a header-like added line; the
    disk-format pattern that misses a space; the in-memory queue that reopens
    decisions; the conflict on the retry of a decision with a secret; the text
    kept by redaction; the approved apply that trusts a declared digest; limits
    of an intent contract that no decision reads; a symbol scope that covers any
    path; a secret argument that is recorded; a self test of Bubblewrap without
    namespace lines that counts as isolation; the identity directory of the
    sandbox that makes the cleanup of a contained run fail; two holders of the
    run's lock after a stale recovery, and the release that removes another
    run's lock; lock files (a huge number, bytes that are no UTF-8) that make
    run_guarded raise; a lock marker lost beside a file whose context cannot be
    collected; a sensitive file in an untracked directory that is missed; a
    recovery pass ended by one missing repository, or that quarantines the
    artifact of a live run; an artifact that stays in the directory when its
    write fails after [os.replace].

    ** Conventions, bounds and fuel

    - A character is a code point below 256 ([Ascii]); [str.lower], [strip]
      and [splitlines] are those of that range.  Bytes are strings.  Floats are
      doubles counted in units of [2^-1074]; address tables, sums of floats and
      parsers are those of Python 3.11.
    - Exceptions are values of [result]; a [try] is [map_err], [catch] or a
      match.  In [GuardedApply] an exception is its message and keeps the state
      it was raised in.
    - Digests are never assumed injective: binding theorems conclude equality
      or an explicit collision.
    - Identifiers, tokens and clocks are arguments ([Fresh.t], [EventFresh.t],
      times in microseconds).
    - Git, the file system, processes and the host are classes ([GitRepo],
      [GitWorktree], [WorktreeHost], [LockHost], [ProcessHost], [ProbeHost],
      [ProductionHost], [SubjectiveHost], [RecoveryHost]); the example files
      give instances.  The trusted repository of a run is the [GitRepo] state of
      the finalizer and is separate from the machine of its worktree;
      [command_touches] says what a command does to it.
    - Disk: the calls on an artifact fail as [disk_faults] says, before or after
      the file changed.  The reads of the approval service and the unlink of
      the artifact lock in a recovery pass do not fail; a temporary file of a
      failed write and file modes are not represented.
    - Bubblewrap: [Backend.parse_options] reads the command line as its manual
      describes the options ([mount_op]: later mounts cover earlier ones).
    - Fuel: the star of a regular expression may repeat at most as often as
      characters remain (every repetition the sources use consumes one), the
      canonical JSON of a value recurses at most its depth [pdepth], the JSON
      parser at most the length of the text plus one, the normalisation of a
      shell command at most the length of its text; the round-trip lemmas of
      [Json] and the recursion equation in [RiskEngine] show that this is
      enough.  The attempts at the run's lock, a [while True] in the source, take
      their bound as an argument; two are enough without a contender
      (RunSafety).
    - A transaction of SQLite is one step; the interleavings of processes are
      the sequences of steps of [op_step], [queue_step] and [RunLock.step].

    ** Not modelled

    The command line, the local application and the HTTP interface; the start-up
    configuration; the loader of intent contracts and the roles (YAML); the YAML
    and TOML parsers and the pydantic constructors that read stored rows, which
    are arguments; the database set-up and migrations; the production
    qualification and the launcher that sets resource limits; the threads and
    signals of run_bounded_process; the handlers that turn a signal into an
    exit; the binding to the Rust kernel, and the programs in Rust and Go.  They
    are I/O, generated text for other programs, or other languages. *)

From stdpp Require Export base tactics list strings gmap.
From Stdlib Require Export ZArith Lia.

(** ** Outcomes of Python code

    A Python call either returns a value or raises; the exception type [E]
    is fixed by each component. *)

Inductive result (E A : Type) : Type :=
  | Ok (a : A)
  | Raise (e : E).
Arguments Ok {E A} a.
Arguments Raise {E A} e.

#[export] Instance result_ret E : MRet (result E) := fun A a => Ok a.
#[export] Instance result_bind E : MBind (result E) := fun A B f m =>
  match m with Ok a => f a | Raise e => Raise e end.
#[export] Instance result_fmap E : FMap (result E) := fun A B f m =>
  match m with Ok a => Ok (f a) | Raise e => Raise e end.

#[export] Instance result_eq_dec {E A} `{EqDecision E, EqDecision A} :
  EqDecision (result E A).
Proof. solve_decision. Defined.

(** [if not b: raise e] *)
Definition ensure {E} (b : bool) (e : E) : result E unit :=
  if b then Ok () else Raise e.

(** [try: m  except ...: raise f(exc)] *)
Definition map_err {E F A} (f : E -> F) (m : result E A) : result F A :=
  match m with Ok a => Ok a | Raise e => Raise (f e) end.

Definition is_ok {E A} (m : result E A) : bool :=
  match m with Ok _ => true | Raise _ => false end.

(** A loop [for x in l] whose body may raise. *)
Fixpoint mapR {E A B} (f : A -> result E B) (l : list A) : result E (list B) :=
  match l with
  | [] => Ok []
  | x :: l' => y ← f x; ys ← mapR f l'; Ok (y :: ys)
  end.

(** Order-preserving de-duplication: keep the first element of every key.
    This is [dict.fromkeys] (with the identity key) and the [seen]-set loops
    the code writes out in several modules. *)
Fixpoint dedupe_by {A K} `{EqDecision K} (key : A -> K) (seen : list K)
    (l : list A) : list A :=
  match l with
  | [] => []
  | x :: l' =>
      if decide (key x ∈ seen) then dedupe_by key seen l'
      else x :: dedupe_by key (key x :: seen) l'
  end.

Definition fromkeys {A} `{EqDecision A} (l : list A) : list A :=
  dedupe_by id [] l.

(** ** Tactics of the development *)

(** Split every [match]/[if] of the goal or of a hypothesis, simplifying the
    equations each case produces. *)
Ltac split_matches :=
  repeat (case_match; simplify_eq/=; try done).

(** Invert a monadic [result] computation that returned. *)
Ltac inv_result :=
  repeat match goal with
  | H : mbind _ ?m = Ok _ |- _ =>
      let E := fresh "E" in destruct m eqn:E; cbn in H; [|discriminate H]
  | H : ensure ?b _ = Ok _ |- _ =>
      let E := fresh "E" in
      unfold ensure in H; destruct b eqn:E; [clear H|discriminate H]
  | H : Ok _ = Ok _ |- _ => injection H as H; subst
  | H : Raise _ = Ok _ |- _ => discriminate H
  | H : Ok _ = Raise _ |- _ => discriminate H
  end.

(** Turn the boolean tests of the code into propositions. *)
Ltac bool_to_prop :=
  rewrite ?andb_true_iff, ?orb_true_iff, ?andb_false_iff, ?orb_false_iff,
    ?negb_true_iff, ?negb_false_iff, ?bool_decide_eq_true,
    ?bool_decide_eq_false, ?Z.ltb_lt, ?Z.leb_le, ?Z.ltb_ge, ?Z.leb_gt,
    ?Z.eqb_eq, ?Z.eqb_neq in *.

(** ** Shared lemmas *)

Lemma bind_Ok_inv {E A B} (m : result E A) (f : A -> result E B) b :
  (m ≫= f) = Ok b -> exists a, m = Ok a /\ f a = Ok b.
Proof. destruct m as [a|e]; cbn; [eauto|discriminate]. Qed.

Lemma bind_Raise_inv {E A B} (m : result E A) (f : A -> result E B) e :
  (m ≫= f) = Raise e -> m = Raise e \/ exists a, m = Ok a /\ f a = Raise e.
Proof.
  destruct m as [a|e']; cbn; [by eauto|]. intros H. left. by injection H as ->.
Qed.

Lemma ensure_Ok {E} (b : bool) (e : E) : ensure b e = Ok () <-> b = true.
Proof. by destruct b. Qed.

Lemma ensure_Raise {E} (b : bool) (e e' : E) :
  ensure b e = Raise e' <-> b = false /\ e = e'.
Proof. destruct b; cbn; naive_solver congruence. Qed.

Lemma mapR_Ok_Forall2 {E A B} (f : A -> result E B) l l' :
  mapR f l = Ok l' <-> Forall2 (fun x y => f x = Ok y) l l'.
Proof.
  revert l'. induction l as [|x l IH]; intros l'; cbn.
  - split; [by intros [= <-]|by intros ->%Forall2_nil_inv_l].
  - split.
    + intros (y & Hy & (ys & Hys & [= <-])%bind_Ok_inv)%bind_Ok_inv.
      constructor; [done|]. by apply IH.
    + intros (y & ys & Hy & Hys & ->)%Forall2_cons_inv_l.
      rewrite Hy. cbn. apply IH in Hys. by rewrite Hys.
Qed.

Lemma mapR_Raise_inv {E A B} (f : A -> result E B) l e :
  mapR f l = Raise e -> exists x, x ∈ l /\ f x = Raise e.
Proof.
  induction l as [|x l IH]; cbn; [done|].
  intros [Hx|(y & _ & [Hl|(ys & _ & H)]%bind_Raise_inv)]%bind_Raise_inv; [| |done].
  - exists x. split; [by apply elem_of_cons; left|done].
  - destruct (IH Hl) as (z & Hz & Hr). exists z. split; [by apply elem_of_cons; right|done].
Qed.

Section Dedupe.
Context {A K : Type} `{EqDecision K} (key : A -> K).
Implicit Types (l : list A) (seen : list K).

Lemma dedupe_by_sublist seen l : dedupe_by key seen l `sublist_of` l.
Proof.
  revert seen. induction l as [|x l IH]; intros seen; cbn; [done|].
  case_decide; [by apply sublist_cons|by apply sublist_skip].
Qed.

Lemma dedupe_by_key_not_seen seen l x :
  x ∈ dedupe_by key seen l -> key x ∉ seen.
Proof.
  revert seen. induction l as [|y l IH]; intros seen; cbn.
  - by intros ?%elem_of_nil.
  - case_decide as Hin; [by apply IH|].
    intros [->|Hx]%elem_of_cons; [done|].
    apply IH in Hx. set_solver.
Qed.

Lemma dedupe_by_NoDup seen l : NoDup (key <$> dedupe_by key seen l).
Proof.
  revert seen. induction l as [|x l IH]; intros seen; cbn; [constructor|].
  case_decide as Hin; [apply IH|]. cbn. constructor; [|apply IH].
  intros (y & Heq & Hy)%list_elem_of_fmap.
  apply dedupe_by_key_not_seen in Hy. rewrite <- Heq in Hy. set_solver.
Qed.

Lemma dedupe_by_keys seen l k :
  k ∈ (key <$> dedupe_by key seen l) <-> k ∈ (key <$> l) /\ k ∉ seen.
Proof.
  revert seen. induction l as [|x l IH]; intros seen; cbn.
  - set_solver.
  - case_decide as Hin; cbn.
    + rewrite IH. set_solver.
    + rewrite !elem_of_cons, IH. destruct (decide (k = key x)); set_solver.
Qed.

Lemma dedupe_by_nil_iff l : dedupe_by key [] l = [] <-> l = [].
Proof. destruct l as [|x l]; cbn; [done|]. split; done. Qed.

Lemma dedupe_by_id seen l :
  NoDup (key <$> l) -> (forall x, x ∈ l -> key x ∉ seen) ->
  dedupe_by key seen l = l.
Proof.
  revert seen. induction l as [|x l IH]; intros seen Hnd Hseen; cbn; [done|].
  cbn in Hnd. apply NoDup_cons in Hnd as [Hx Hnd].
  rewrite decide_False by (apply Hseen; set_solver).
  f_equal. apply IH; [done|]. intros y Hy.
  intros [Heq|Hin]%elem_of_cons.
  - apply Hx. rewrite <- Heq. by apply list_elem_of_fmap_2.
  - apply (Hseen y); set_solver.
Qed.
End Dedupe.

Lemma fromkeys_elem_of {A} `{EqDecision A} (l : list A) x :
  x ∈ fromkeys l <-> x ∈ l.
Proof.
  unfold fromkeys. pose proof (dedupe_by_keys (A:=A) id [] l x) as H.
  rewrite !list_fmap_id in H. rewrite H. set_solver.
Qed.

Lemma fromkeys_NoDup {A} `{EqDecision A} (l : list A) : NoDup (fromkeys l).
Proof.
  unfold fromkeys. pose proof (dedupe_by_NoDup (A:=A) id [] l) as H.
  by rewrite list_fmap_id in H.
Qed.

(** Elements with distinct keys are determined by their keys. *)
Lemma NoDup_fmap_inj {A K} (f : A -> K) (l : list A) x y :
  NoDup (f <$> l) -> x ∈ l -> y ∈ l -> f x = f y -> x = y.
Proof.
  intros Hnd [i Hi]%list_elem_of_lookup [j Hj]%list_elem_of_lookup Heq.
  assert (i = j) as ->; [|congruence].
  eapply (NoDup_lookup (f <$> l)); [done| |]; rewrite list_lookup_fmap.
  - by rewrite Hi.
  - rewrite Hj. cbn. by rewrite Heq.
Qed.

Lemma Forall2_impl_in {A B} (P Q : A -> B -> Prop) l l' :
  Forall2 P l l' -> (forall x y, x ∈ l -> y ∈ l' -> P x y -> Q x y) -> Forall2 Q l l'.
Proof.
  induction 1 as [|x y l l' Hxy _ IH]; intros H; constructor.
  - apply H; set_solver.
  - apply IH. intros. apply H; set_solver.
Qed.

Lemma mapR_ext {E A B} (f g : A -> result E B) l :
  (forall x, x ∈ l -> f x = g x) -> mapR f l = mapR g l.
Proof.
  induction l as [|x l IH]; intros H; cbn; [done|].
  rewrite H by set_solver. destruct (g x); cbn; [|done].
  rewrite IH by (intros; apply H; set_solver). done.
Qed.

(** A boolean list quantifier as a proposition. *)
Lemma forallb_elem_of {A} (p : A -> bool) (l : list A) :
  forallb p l = true <-> forall x, x ∈ l -> p x = true.
Proof.
  rewrite forallb_forall. split; intros H x; rewrite <- ?list_elem_of_In; auto.
  intros Hx. apply H. by apply list_elem_of_In.
Qed.

Lemma existsb_elem_of {A} (p : A -> bool) (l : list A) :
  existsb p l = true <-> exists x, x ∈ l /\ p x = true.
Proof.
  rewrite existsb_exists.
  split; intros (x & Hx & Hp); exists x; split; auto; by apply list_elem_of_In.
Qed.

Lemma existsb_false_elem_of {A} (p : A -> bool) (l : list A) :
  existsb p l = false <-> forall x, x ∈ l -> p x = false.
Proof.
  rewrite <- not_true_iff_false, existsb_elem_of. split.
  - intros H x Hx. destruct (p x) eqn:E; [|done]. exfalso. eauto.
  - intros H (x & Hx & Hp). rewrite (H x Hx) in Hp. done.
Qed.

Lemma filter_id {A} (p : A -> bool) l :
  forallb p l = true -> List.filter p l = l.
Proof.
  induction l as [|x l IH]; cbn; [done|].
  intros [-> Hl]%andb_true_iff. by rewrite IH.
Qed.

Lemma elem_of_lfilter {A} (p : A -> bool) l x :
  x ∈ List.filter p l <-> x ∈ l /\ p x = true.
Proof. rewrite !list_elem_of_In. apply filter_In. Qed.

Lemma elem_of_flat_map {A B} (f : A -> list B) l y :
  y ∈ flat_map f l <-> exists x, x ∈ l /\ y ∈ f x.
Proof. rewrite list_elem_of_In, in_flat_map. by setoid_rewrite list_elem_of_In. Qed.

(** A state relation closed under the steps that preserve an invariant. *)
Inductive star {S : Type} (step : S -> S -> Prop) : S -> S -> Prop :=
  | star_refl s : star step s s
  | star_step s1 s2 s3 : step s1 s2 -> star step s2 s3 -> star step s1 s3.
Arguments star {S} step _ _.

Lemma star_trans {S} (step : S -> S -> Prop) a b c :
  star step a b -> star step b c -> star step a c.
Proof. induction 1; eauto using star_step. Qed.

Lemma star_invariant {S} (step : S -> S -> Prop) (P : S -> Prop) :
  (forall s s', step s s' -> P s -> P s') ->
  forall s s', star step s s' -> P s -> P s'.
Proof. intros Hp s s' Hs. induction Hs; eauto. Qed.

(** ** The hint database of the development *)

Create HintDb rygnal.
#[export] Hint Resolve dedupe_by_sublist dedupe_by_NoDup fromkeys_NoDup : rygnal.
#[export] Hint Resolve star_refl star_step : rygnal.
#[export] Hint Rewrite @dedupe_by_nil_iff @fromkeys_elem_of : rygnal.
