(* ===== verification/PyStr.v ===== *)
(** * Python strings and pure paths

    A Python [str] is modelled as a [String.string] whose characters are its
    code points; the model covers the strings whose code points are below 256
    (Latin-1), where [lower], [strip] and [splitlines] are written out for all
    256 code points.  The file also holds the part of [pathlib.PurePosixPath]
    and [pathlib.PureWindowsPath] the sources use. *)

From S2P Require Export Prelude.
From Stdlib Require Export Ascii String.
From stdpp Require Export strings.

Declare Scope py_scope.
Delimit Scope py_scope with py.
Open Scope py_scope.
Open Scope string_scope.
Open Scope list_scope.

(** Concatenation of Python strings. *)
#[global] Arguments String.append : simpl nomatch.
Infix "+++" := String.append (right associativity, at level 60) : py_scope.

(** ** Characters *)

Definition code (c : ascii) : N := N_of_ascii c.

Definition in_range (lo hi n : N) : bool := (lo <=? n)%N && (n <=? hi)%N.

(** [str.lower] on one code point below 256: A-Z and the upper-case Latin-1
    letters except the multiplication sign. *)
Definition lower_char (c : ascii) : ascii :=
  let n := code c in
  if in_range 65 90 n || (in_range 192 222 n && negb (n =? 215)%N)
  then ascii_of_N (n + 32) else c.

(** [str.isspace] on one code point below 256. *)
Definition is_space (c : ascii) : bool :=
  let n := code c in
  in_range 9 13 n || in_range 28 32 n || (n =? 133)%N || (n =? 160)%N.

(** ** Strings *)

Fixpoint lower (s : string) : string :=
  match s with
  | EmptyString => EmptyString
  | String c s' => String (lower_char c) (lower s')
  end.

Fixpoint lstrip_by (p : ascii -> bool) (s : string) : string :=
  match s with
  | EmptyString => EmptyString
  | String c s' => if p c then lstrip_by p s' else s
  end.

(** Drop the longest suffix of characters satisfying [p]. *)
Fixpoint rstrip_by (p : ascii -> bool) (s : string) : string :=
  match s with
  | EmptyString => EmptyString
  | String c s' =>
      match rstrip_by p s' with
      | EmptyString => if p c then EmptyString else String c EmptyString
      | t => String c t
      end
  end.

Definition strip_by (p : ascii -> bool) (s : string) : string :=
  rstrip_by p (lstrip_by p s).

(** [str.strip()] *)
Definition strip (s : string) : string := strip_by is_space s.

(** [s.startswith(p)] *)
Fixpoint startswith (s p : string) : bool :=
  match p, s with
  | EmptyString, _ => true
  | String a p', String b s' => Ascii.eqb a b && startswith s' p'
  | String _ _, EmptyString => false
  end.

(** [sub in s] *)
Fixpoint contains (s sub : string) : bool :=
  startswith s sub ||
  match s with EmptyString => false | String _ s' => contains s' sub end.

(** [s.endswith(p)] *)
Fixpoint endswith (s p : string) : bool :=
  String.eqb s p ||
  match s with EmptyString => false | String _ s' => endswith s' p end.

(** [s.removeprefix(p)] for a string that starts with [p]: drop [n] characters. *)
Fixpoint drop_chars (n : nat) (s : string) : string :=
  match n, s with
  | S n', String _ s' => drop_chars n' s'
  | _, _ => s
  end.

(** [s.replace(a, b)] for one-character [a] and [b]. *)
Fixpoint replace_char (a b : ascii) (s : string) : string :=
  match s with
  | EmptyString => EmptyString
  | String c s' => String (if Ascii.eqb c a then b else c) (replace_char a b s')
  end.

(** [s.split(sep)] for a one-character separator. *)
Fixpoint split_on (sep : ascii) (s : string) : list string :=
  match s with
  | EmptyString => [EmptyString]
  | String c s' =>
      if Ascii.eqb c sep then EmptyString :: split_on sep s'
      else match split_on sep s' with
           | [] => [String c EmptyString]
           | w :: ws => String c w :: ws
           end
  end.

(** [s.partition(sep)] for a one-character separator; [None] when it does not
    occur. *)
Fixpoint cut (sep : ascii) (s : string) : option (string * string) :=
  match s with
  | EmptyString => None
  | String c s' =>
      if Ascii.eqb c sep then Some (EmptyString, s')
      else match cut sep s' with Some (a, b) => Some (String c a, b) | None => None end
  end.

(** [sep.join(l)] *)
Fixpoint str_join (sep : string) (l : list string) : string :=
  match l with
  | [] => ""
  | [w] => w
  | w :: ws => w +++ sep +++ str_join sep ws
  end.

(** The boundaries of [str.splitlines] below code point 256, a carriage return
    followed by a line feed counting once. *)
Definition is_linebreak (c : ascii) : bool :=
  let n := code c in
  in_range 10 13 n || in_range 28 30 n || (n =? 133)%N.

Fixpoint splitlines_go (cur s : string) : list string :=
  match s with
  | EmptyString => match cur with EmptyString => [] | _ => [cur] end
  | String c s' =>
      if is_linebreak c then
        match s' with
        | String d s'' =>
            if ((code c =? 13) && (code d =? 10))%N
            then cur :: splitlines_go "" s''
            else cur :: splitlines_go "" s'
        | EmptyString => [cur]
        end
      else splitlines_go (cur +++ String c "") s'
  end.

Definition splitlines (s : string) : list string := splitlines_go "" s.

(** [len(s.encode("utf-8"))]: code points from 128 on take two bytes. *)
Fixpoint utf8_len (s : string) : Z :=
  match s with
  | EmptyString => 0
  | String c s' => (if (code c <? 128)%N then 1 else 2) + utf8_len s'
  end%Z.

(** Truth value of a string: [if s:]. *)
Definition truthy (s : string) : bool :=
  match s with EmptyString => false | _ => true end.

Definition truthy_opt (o : option string) : bool :=
  match o with Some s => truthy s | None => false end.

(** [s.split()] *)
Fixpoint split_space_go (cur s : string) : list string :=
  match s with
  | EmptyString => if truthy cur then [cur] else []
  | String c s' =>
      if is_space c then (if truthy cur then [cur] else []) ++ split_space_go "" s'
      else split_space_go (cur +++ String c "") s'
  end.
Definition split_space (s : string) : list string := split_space_go "" s.

(** [any(k in s for k in ks)] *)
Definition contains_any (ks : list string) (s : string) : bool :=
  existsb (fun k => contains s k) ks.

(** [x in {...}] for a set of strings. *)
Definition mem (x : string) (l : list string) : bool :=
  existsb (String.eqb x) l.

Definition slash : ascii := "/"%char.
Definition backslash : ascii := "\"%char.
Definition null_char : string := String (ascii_of_N 0) "".

(** ** [PurePosixPath] *)

Module PurePosixPath.

Record t := mk { root : string; comps : list string }.

Definition keep (w : string) : bool := negb (String.eqb w "") && negb (String.eqb w ".").

(** [PurePosixPath(s)]: POSIX keeps exactly two leading slashes apart from one
    or three and more. *)
Definition parse_root (s : string) : string :=
  if startswith s "//" && negb (startswith s "///") then "//"
  else if startswith s "/" then "/" else "".

Definition of_string (s : string) : t :=
  mk (parse_root s) (List.filter keep (split_on slash s)).

Definition is_absolute (p : t) : bool := truthy (root p).

(** [p.parts] *)
Definition parts (p : t) : list string :=
  if truthy (root p) then root p :: comps p else comps p.

Definition as_posix (p : t) : string :=
  match root p, comps p with
  | EmptyString, [] => "."
  | r, cs => r +++ str_join "/" cs
  end.

(** [p.name] *)
Definition name (p : t) : string := default "" (last (comps p)).

(** [p.parent] *)
Definition parent (p : t) : t := mk (root p) (removelast (comps p)).

(** Position of the last dot. *)
Fixpoint rfind_dot (s : string) : option nat :=
  match s with
  | EmptyString => None
  | String c s' =>
      match rfind_dot s' with
      | Some i => Some (S i)
      | None => if Ascii.eqb c "." then Some 0 else None
      end
  end.

(** [p.suffix] and [p.stem]: the dot must be neither first nor last in the name. *)
Definition suffix_index (n : string) : option nat :=
  match rfind_dot n with
  | Some i => if (0 <? i)%nat && (S i <? String.length n)%nat then Some i else None
  | None => None
  end.

Definition suffix (p : t) : string :=
  match suffix_index (name p) with
  | Some i => drop_chars i (name p) | None => "" end.

Definition stem (p : t) : string :=
  match suffix_index (name p) with
  | Some i => String.substring 0 i (name p) | None => name p end.

End PurePosixPath.

(** ** [PureWindowsPath]: the two tests the sources make *)

Module PureWindowsPath.

Definition is_sep (c : ascii) : bool := Ascii.eqb c slash || Ascii.eqb c backslash.

(** [PureWindowsPath(s).drive] is non-empty ([ntpath.splitroot]): two leading
    separators (a UNC share or a device), or a drive letter and a colon.  An
    absolute Windows path has a drive, so [drive or is_absolute()] is this. *)
Definition has_drive (s : string) : bool :=
  match s with
  | String a (String b _) =>
      (is_sep a && is_sep b) || (negb (is_sep a) && Ascii.eqb b ":")
  | _ => false
  end.

End PureWindowsPath.

(** ** Lemmas *)

Lemma app_empty_r s : s +++ "" = s.
Proof. induction s as [|c s IH]; cbn; [done|by rewrite IH]. Qed.

Lemma app_assoc_str a b c : (a +++ b) +++ c = a +++ (b +++ c).
Proof. induction a as [|x a IH]; cbn; [done|by rewrite IH]. Qed.

Lemma startswith_spec s p : startswith s p = true <-> exists t, s = p +++ t.
Proof.
  revert s. induction p as [|a p IH]; intros s.
  - destruct s; cbn; naive_solver.
  - destruct s as [|b s]; cbn; [naive_solver|].
    rewrite andb_true_iff, Ascii.eqb_eq, IH. naive_solver.
Qed.

Lemma contains_spec s sub :
  contains s sub = true <-> exists a b, s = a +++ sub +++ b.
Proof.
  induction s as [|c s IH].
  - cbn [contains]. rewrite orb_false_r, startswith_spec. split.
    + intros [t Ht]. by exists "", t.
    + intros ([|? ?] & b & H); [by exists b|done].
  - cbn [contains]. rewrite orb_true_iff, startswith_spec, IH. split.
    + intros [[t Ht]|(a & b & ->)]; [by exists "", t|by exists (String c a), b].
    + intros ([|c' a] & b & H); [left; by exists b|].
      injection H as <- ->. right. by exists a, b.
Qed.

Lemma contains_app_l a b sub : contains a sub = true -> contains (a +++ b) sub = true.
Proof.
  rewrite !contains_spec. intros (x & y & ->). exists x, (y +++ b).
  by rewrite !app_assoc_str.
Qed.

Lemma contains_empty s : contains s "" = true.
Proof. rewrite contains_spec. by exists "", s. Qed.

Lemma split_on_not_nil sep s : split_on sep s <> [].
Proof. destruct s as [|c s]; cbn; [done|]. split_matches. Qed.

(** [sep.join(s.split(sep)) == s] *)
Lemma join_split_on sep s : str_join (String sep "") (split_on sep s) = s.
Proof.
  induction s as [|c s IH]; cbn; [done|].
  destruct (Ascii.eqb_spec c sep) as [->|Hne].
  - destruct (split_on sep s) as [|w ws] eqn:E; [by destruct (split_on_not_nil sep s)|].
    cbn. by rewrite <- IH.
  - destruct (split_on sep s) as [|w [|w' ws]] eqn:E; cbn in *; by rewrite <- IH.
Qed.

Definition no_char (a : ascii) (s : string) : Prop := contains s (String a "") = false.

Lemma no_char_cons a c s : no_char a (String c s) <-> c <> a /\ no_char a s.
Proof.
  unfold no_char. cbn. rewrite orb_false_iff.
  assert ((a =? c)%char && startswith s "" = (a =? c)%char) as ->
    by (destruct s; cbn; by rewrite andb_true_r).
  rewrite Ascii.eqb_neq. naive_solver.
Qed.

Lemma no_char_empty a : no_char a "".
Proof. done. Qed.

Lemma no_char_app a s t : no_char a (s +++ t) <-> no_char a s /\ no_char a t.
Proof.
  induction s as [|c s IH]; cbn.
  - split; [by split; [apply no_char_empty|]|by intros [_ ?]].
  - rewrite !no_char_cons, IH. tauto.
Qed.

Lemma split_on_no_sep sep s w : w ∈ split_on sep s -> no_char sep w.
Proof.
  revert w. induction s as [|c s IH]; intros w; cbn.
  - intros ->%list_elem_of_singleton. apply no_char_empty.
  - destruct (Ascii.eqb_spec c sep) as [->|Hne].
    + intros [->|Hw]%elem_of_cons; [apply no_char_empty|by apply IH].
    + destruct (split_on sep s) as [|x xs] eqn:E.
      * intros ->%list_elem_of_singleton. apply no_char_cons. by split; [|apply no_char_empty].
      * intros [->|Hw]%elem_of_cons; [|apply IH; set_solver].
        apply no_char_cons. split; [done|]. apply IH. set_solver.
Qed.

Lemma split_on_no_char sep s : no_char sep s -> split_on sep s = [s].
Proof.
  induction s as [|c s IH]; cbn; [done|].
  intros [Hc Hs]%no_char_cons. destruct (Ascii.eqb_spec c sep); [done|].
  by rewrite IH.
Qed.

Lemma split_on_app_sep sep w s :
  no_char sep w -> split_on sep (w +++ String sep s) = w :: split_on sep s.
Proof.
  induction w as [|c w IH]; cbn.
  - intros _. by rewrite Ascii.eqb_refl.
  - intros [Hc Hw]%no_char_cons. destruct (Ascii.eqb_spec c sep); [done|].
    by rewrite IH.
Qed.

(** Splitting a joined list of separator-free words gives the words back. *)
Lemma split_on_join sep l :
  l <> [] -> Forall (no_char sep) l -> split_on sep (str_join (String sep "") l) = l.
Proof.
  induction l as [|w [|w' l] IH]; intros Hne Hall; [done| |].
  - apply Forall_cons_1 in Hall as [Hw _]. by apply split_on_no_char.
  - apply Forall_cons_1 in Hall as [Hw Hall].
    change (str_join (String sep "") (w :: w' :: l))
      with (w +++ String sep (str_join (String sep "") (w' :: l))).
    rewrite split_on_app_sep by done. f_equal. by apply IH.
Qed.

Lemma lower_char_idemp c : lower_char (lower_char c) = lower_char c.
Proof. destruct c as [[] [] [] [] [] [] [] []]; vm_compute; reflexivity. Qed.

Lemma lower_idemp s : lower (lower s) = lower s.
Proof. induction s as [|c s IH]; cbn; [done|]. by rewrite lower_char_idemp, IH. Qed.

Lemma lower_app a b : lower (a +++ b) = lower a +++ lower b.
Proof. induction a as [|c a IH]; cbn; [done|by rewrite IH]. Qed.

Lemma utf8_len_nonneg s : (0 <= utf8_len s)%Z.
Proof. induction s as [|c s IH]; cbn [utf8_len]; [lia|]. destruct (code c <? 128)%N; lia. Qed.

Lemma utf8_len_app a b : utf8_len (a +++ b) = (utf8_len a + utf8_len b)%Z.
Proof. induction a as [|c a IH]; cbn [utf8_len String.append]; [lia|]. rewrite IH. lia. Qed.

Lemma length_append a b : String.length (a +++ b) = (String.length a + String.length b)%nat.
Proof. induction a as [|c a IH]; [done|]. cbn. by rewrite IH. Qed.

Lemma length_lower s : String.length (lower s) = String.length s.
Proof. induction s as [|c s IH]; [done|]. cbn. by rewrite IH. Qed.

Lemma length_lstrip p s : (String.length (lstrip_by p s) <= String.length s)%nat.
Proof. induction s as [|c s IH]; cbn; [done|]. destruct (p c); cbn; lia. Qed.

Lemma length_rstrip p s : (String.length (rstrip_by p s) <= String.length s)%nat.
Proof.
  induction s as [|c s IH]; cbn; [done|].
  destruct (rstrip_by p s); [destruct (p c); cbn; lia|cbn in *; lia].
Qed.

Lemma length_strip s : (String.length (strip s) <= String.length s)%nat.
Proof. etrans; [apply length_rstrip|apply length_lstrip]. Qed.

Lemma mem_spec x l : mem x l = true <-> x ∈ l.
Proof.
  unfold mem. rewrite existsb_elem_of. setoid_rewrite String.eqb_eq. naive_solver.
Qed.

Lemma strip_no_space_ends s : strip (strip s) = strip s.
Proof.
  unfold strip, strip_by.
  assert (Hl : forall t, (forall c t', t = String c t' -> is_space c = false) ->
            lstrip_by is_space t = t).
  { intros [|c t] H; cbn; [done|]. by rewrite (H c t eq_refl). }
  assert (Hr : forall t, rstrip_by is_space (rstrip_by is_space t) = rstrip_by is_space t).
  { induction t as [|c t IH]; cbn; [done|].
    destruct (rstrip_by is_space t) as [|d u] eqn:E.
    - destruct (is_space c) eqn:Ec; cbn; [done|]. by rewrite Ec.
    - cbn in IH |- *. by rewrite IH. }
  assert (Hhead : forall t c u, lstrip_by is_space t = String c u -> is_space c = false).
  { induction t as [|d t IH]; intros c u; cbn; [done|].
    destruct (is_space d) eqn:Ed; [apply IH|]. by intros [= <- <-]. }
  rewrite (Hl (rstrip_by is_space (lstrip_by is_space s))); [by apply Hr|].
  intros c t' Heq. destruct (lstrip_by is_space s) as [|d u] eqn:E; [done|].
  pose proof (Hhead s d u E) as Hd. cbn in Heq. rewrite Hd in Heq.
  destruct (rstrip_by is_space u); injection Heq as <- <-; exact Hd.
Qed.

#[export] Hint Rewrite app_empty_r app_assoc_str lower_idemp strip_no_space_ends
  contains_empty : rygnal.
