(* ===== verification/RepoPath.v ===== *)
(** * Repository-relative paths

    [normalize_repo_relative_path] (changed_files.py) and its twin
    [normalize_guarded_path] (ignore_rules.py), the lexical repository boundary
    [_relative_target_escapes_repo] (path_safety.py), and the lemmas about
    clean component lists that the path checks share. *)

From S2P Require Export PyStr.

(** ** Definitions *)

(** [ChangedFilePathError], by its message. *)
Inductive path_error :=
  | PathEmpty
  | PathAbsolute (path : string)
  | PathTraverses (path : string)
  | PathNormalizesEmpty.

#[export] Instance path_error_eq_dec : EqDecision path_error.
Proof. solve_decision. Defined.

Definition dotdot (w : string) : bool := String.eqb w "..".

Definition clean_part (w : string) : bool :=
  negb (String.eqb w "") && negb (String.eqb w ".").

(** changed_files.py: [normalize_repo_relative_path].  The order of the tests
    is the source's; the empty string is tested after the path is parsed. *)
Definition normalize_repo_relative_path (path : string) : result path_error string :=
  let normalized := strip (replace_char backslash slash path) in
  let path_obj := PurePosixPath.of_string normalized in
  if String.eqb normalized "" then Raise PathEmpty
  else if PurePosixPath.is_absolute path_obj then Raise (PathAbsolute path)
  else if existsb dotdot (PurePosixPath.parts path_obj) then Raise (PathTraverses path)
  else
    match List.filter clean_part (PurePosixPath.parts path_obj) with
    | [] => Raise PathNormalizesEmpty
    | clean_parts =>
        Ok (PurePosixPath.as_posix (PurePosixPath.of_string (str_join "/" clean_parts)))
    end.

(** ignore_rules.py: [normalize_guarded_path], the same steps raising
    [ValueError]. *)
Definition normalize_guarded_path (path : string) : result path_error string :=
  let normalized := strip (replace_char backslash slash path) in
  let path_obj := PurePosixPath.of_string normalized in
  if String.eqb normalized "" then Raise PathEmpty
  else if PurePosixPath.is_absolute path_obj then Raise (PathAbsolute path)
  else if existsb dotdot (PurePosixPath.parts path_obj) then Raise (PathTraverses path)
  else
    match List.filter clean_part (PurePosixPath.parts path_obj) with
    | [] => Raise PathNormalizesEmpty
    | clean_parts =>
        Ok (PurePosixPath.as_posix (PurePosixPath.of_string (str_join "/" clean_parts)))
    end.

(** The loop of [_relative_target_escapes_repo]: [stack] is the source's
    [parts] list, its last element first.  [None] is [return True]. *)
Fixpoint walk_parts (stack : list string) (ps : list string) : option (list string) :=
  match ps with
  | [] => Some stack
  | p :: ps' =>
      if negb (clean_part p) then walk_parts stack ps'
      else if dotdot p then
        match stack with [] => None | _ :: stack' => walk_parts stack' ps' end
      else walk_parts (p :: stack) ps'
  end.

Definition _relative_target_escapes_repo (link_path target : string) : bool :=
  let link_parent := PurePosixPath.parent (PurePosixPath.of_string link_path) in
  match walk_parts []
          (PurePosixPath.parts link_parent
           ++ PurePosixPath.parts (PurePosixPath.of_string target)) with
  | None => true
  | Some _ => false
  end.

(** ** The specification: clean component lists *)

(** A component that names one directory entry. *)
Definition clean_component (w : string) : Prop :=
  w <> "" /\ w <> "." /\ w <> ".." /\ no_char slash w.

(** A repository-relative path in normal form: its components joined by
    slashes, at least one, all clean. *)
Definition repo_relative (p : string) : Prop :=
  exists cs, cs <> [] /\ Forall clean_component cs /\ p = str_join "/" cs.

(** ** Lemmas *)

Lemma clean_part_true w : clean_part w = true <-> w <> "" /\ w <> ".".
Proof.
  unfold clean_part. rewrite andb_true_iff, !negb_true_iff, !String.eqb_neq. done.
Qed.

Lemma of_string_comps_clean s w :
  w ∈ PurePosixPath.comps (PurePosixPath.of_string s) ->
  w <> "" /\ w <> "." /\ no_char slash w.
Proof.
  unfold PurePosixPath.of_string. cbn. intros [Hw Hk]%elem_of_lfilter.
  change PurePosixPath.keep with clean_part in Hk.
  apply clean_part_true in Hk as [? ?]. split_and!; [done..|].
  eapply split_on_no_sep, Hw.
Qed.

Lemma clean_component_head w t :
  w <> "" -> no_char slash w -> PurePosixPath.parse_root (w +++ t) = "".
Proof.
  destruct w as [|c w]; [done|]. intros _ [Hc _]%no_char_cons.
  unfold PurePosixPath.parse_root, slash in *. cbn -[Ascii.eqb].
  destruct (Ascii.eqb_spec "/" c) as [<-|?]; [done|]. done.
Qed.

(** Parsing a joined list of clean components gives the components back. *)
Lemma of_string_join cs :
  cs <> [] -> Forall (fun w => w <> "" /\ w <> "." /\ no_char slash w) cs ->
  PurePosixPath.of_string (str_join "/" cs) = PurePosixPath.mk "" cs.
Proof.
  intros Hne Hall. unfold PurePosixPath.of_string. f_equal.
  - destruct cs as [|w cs]; [done|]. apply Forall_cons_1 in Hall as [(Hw & _ & Hs) _].
    destruct cs as [|w' cs].
    + cbn [str_join]. rewrite <- (app_empty_r w). by apply clean_component_head.
    + cbn [str_join]. by apply clean_component_head.
  - change "/"%string with (String slash "").
    rewrite split_on_join; [|done|].
    + apply filter_id, forallb_elem_of. intros w Hw.
      rewrite Forall_forall in Hall. apply clean_part_true. by destruct (Hall w Hw) as (?&?&?).
    + eapply Forall_impl; [exact Hall|]. by intros w (_ & _ & ?).
Qed.

Lemma as_posix_comps cs :
  cs <> [] -> PurePosixPath.as_posix (PurePosixPath.mk "" cs) = str_join "/" cs.
Proof. by destruct cs as [|w cs]. Qed.

Lemma normalize_guarded_path_eq path :
  normalize_guarded_path path = normalize_repo_relative_path path.
Proof. reflexivity. Qed.

(** What a successful normalisation computed. *)
Lemma normalize_Ok_inv path r :
  normalize_repo_relative_path path = Ok r ->
  let p := PurePosixPath.of_string (strip (replace_char backslash slash path)) in
  PurePosixPath.root p = "" /\ PurePosixPath.comps p <> [] /\
  Forall clean_component (PurePosixPath.comps p) /\
  r = str_join "/" (PurePosixPath.comps p).
Proof.
  unfold normalize_repo_relative_path.
  set (norm := strip (replace_char backslash slash path)).
  set (p := PurePosixPath.of_string norm). cbn zeta.
  destruct (String.eqb norm ""); [done|].
  unfold PurePosixPath.is_absolute.
  destruct (PurePosixPath.root p) as [|? ?] eqn:Hroot; [|done]. cbn [truthy].
  assert (PurePosixPath.parts p = PurePosixPath.comps p) as ->
    by (unfold PurePosixPath.parts; by rewrite Hroot).
  destruct (existsb dotdot _) eqn:Hdd; [done|].
  assert (Hcl : forall w, w ∈ PurePosixPath.comps p ->
            w <> "" /\ w <> "." /\ no_char slash w).
  { intros w. apply of_string_comps_clean. }
  rewrite filter_id; [|apply forallb_elem_of; intros w Hw; apply clean_part_true;
    by destruct (Hcl w Hw) as (?&?&?)].
  destruct (PurePosixPath.comps p) as [|w ws] eqn:Ecs; [done|].
  intros Hr.
  assert (r = PurePosixPath.as_posix (PurePosixPath.of_string (str_join "/" (w :: ws))))
    as -> by congruence.
  split_and!; [done|done| |].
  - rewrite Forall_forall. intros x Hx. destruct (Hcl x Hx) as (?&?&?).
    split_and!; try done. rewrite existsb_false_elem_of in Hdd.
    specialize (Hdd x Hx). by apply String.eqb_neq in Hdd.
  - rewrite of_string_join; [by apply as_posix_comps|done|].
    rewrite Forall_forall. apply Hcl.
Qed.

Lemma normalize_repo_relative path r :
  normalize_repo_relative_path path = Ok r -> repo_relative r.
Proof.
  intros H%normalize_Ok_inv. destruct H as (_ & Hne & Hall & ->).
  by exists (PurePosixPath.comps (PurePosixPath.of_string
    (strip (replace_char backslash slash path)))).
Qed.

Lemma repo_relative_parse p :
  repo_relative p ->
  exists cs, PurePosixPath.of_string p = PurePosixPath.mk "" cs /\
    cs <> [] /\ Forall clean_component cs.
Proof.
  intros (cs & Hne & Hall & ->). exists cs. split; [|done].
  apply of_string_join; [done|]. eapply Forall_impl; [exact Hall|].
  intros w (?&?&?&?). done.
Qed.

(** Walking clean components without [..] only pushes. *)
Lemma walk_parts_push cs stack :
  Forall clean_component cs -> walk_parts stack cs = Some (rev cs ++ stack).
Proof.
  revert stack. induction cs as [|w cs IH]; intros stack Hall; cbn; [done|].
  apply Forall_cons_1 in Hall as [(H1 & H2 & H3 & H4) Hall].
  assert (clean_part w = true) as -> by (by apply clean_part_true).
  cbn. unfold dotdot. apply String.eqb_neq in H3. rewrite H3.
  rewrite IH by done. by rewrite <- app_assoc.
Qed.

#[export] Hint Resolve normalize_repo_relative : rygnal.

(** ** Theorems *)

(** The normal form of a changed path, exactly: normalisation succeeds
    when the stripped text with its backslashes as slashes is a relative path
    with a component and no [..]; the result joins its components, all clean,
    and reads back as the same path.  Everything else raises. *)
Theorem normalize_path_spec path r :
  normalize_repo_relative_path path = Ok r <->
  let p := PurePosixPath.of_string (strip (replace_char backslash slash path)) in
  PurePosixPath.root p = "" /\ PurePosixPath.comps p <> [] /\
  Forall clean_component (PurePosixPath.comps p) /\
  r = str_join "/" (PurePosixPath.comps p) /\ PurePosixPath.of_string r = p.
Proof.
  cbn zeta. split.
  - intros H. apply normalize_Ok_inv in H as (Hr & Hne & Hall & ->). split_and!; try done.
    rewrite of_string_join; [|done|by eapply Forall_impl; [exact Hall|intros w (?&?&?&?)]].
    destruct (PurePosixPath.of_string _) as [root comps] eqn:E. cbn in *. by subst.
  - unfold normalize_repo_relative_path.
    set (norm := strip (replace_char backslash slash path)).
    intros (Hr & Hne & Hall & -> & _).
    assert (String.eqb norm "" = false) as ->
      by (apply String.eqb_neq; intros E; apply Hne; by rewrite E).
    unfold PurePosixPath.is_absolute. rewrite Hr. cbn [truthy].
    assert (PurePosixPath.parts (PurePosixPath.of_string norm)
            = PurePosixPath.comps (PurePosixPath.of_string norm)) as ->
      by (unfold PurePosixPath.parts; by rewrite Hr).
    rewrite Forall_forall in Hall.
    assert (existsb dotdot (PurePosixPath.comps (PurePosixPath.of_string norm)) = false) as ->.
    { apply existsb_false_elem_of. intros w Hw. apply String.eqb_neq. by apply Hall. }
    rewrite filter_id; [|apply forallb_elem_of; intros w Hw; apply clean_part_true;
      by destruct (Hall w Hw) as (?&?&?)].
    destruct (PurePosixPath.comps (PurePosixPath.of_string norm)) as [|c cs]; [done|].
    rewrite of_string_join; [by rewrite as_posix_comps|done|].
    apply Forall_forall. intros w Hw. by destruct (Hall w Hw) as (?&?&?&?).
Qed.
