(* ===== verification/Shlex.v ===== *)
(** * shlex.split

    The POSIX word splitter of Python's [shlex] module with its default
    arguments ([comments=False], [posix=True]): the state machine of
    [shlex.read_token] with [whitespace_split] set, run to the end of the
    input.  [None] is the [ValueError] of an unterminated quote or escape. *)

From S2P Require Export PyStr.

(** ** Definitions *)

Definition dquote : ascii := ascii_of_N 34.
Definition squote : ascii := ascii_of_N 39.

Inductive shlex_state :=
  | InSpace                 (* state ' ' *)
  | InWord                  (* state 'a' *)
  | InQuote (q : ascii)     (* inside a quote *)
  | InEscape (ret : option ascii)
      (* after a backslash; [ret] is the quote it occurred in, if any *).

Definition is_shlex_space (c : ascii) : bool :=
  mem (String c "") [" "; String (ascii_of_N 9) ""; String (ascii_of_N 13) "";
                     String (ascii_of_N 10) ""].

Definition is_quote (c : ascii) : bool := Ascii.eqb c dquote || Ascii.eqb c squote.

Definition emit (tok : string) (quoted : bool) (rest : list string) : list string :=
  if truthy tok || quoted then tok :: rest else rest.

Fixpoint shlex_go (st : shlex_state) (tok : string) (quoted : bool) (s : string)
    : option (list string) :=
  match s with
  | EmptyString =>
      match st with
      | InSpace | InWord => Some (emit tok quoted [])
      | InQuote _ | InEscape _ => None
      end
  | String c s' =>
      match st with
      | InSpace | InWord =>
          if is_shlex_space c then
            emit tok quoted <$> shlex_go InSpace "" false s'
          else if Ascii.eqb c backslash then shlex_go (InEscape None) tok quoted s'
          else if is_quote c then shlex_go (InQuote c) tok true s'
          else shlex_go InWord (tok +++ String c "") quoted s'
      | InQuote q =>
          if Ascii.eqb c q then shlex_go InWord tok true s'
          else if Ascii.eqb c backslash && Ascii.eqb q dquote
          then shlex_go (InEscape (Some q)) tok true s'
          else shlex_go (InQuote q) (tok +++ String c "") true s'
      | InEscape None => shlex_go InWord (tok +++ String c "") quoted s'
      | InEscape (Some q) =>
          let kept := if negb (Ascii.eqb c backslash) && negb (Ascii.eqb c q)
                      then String backslash "" else "" in
          shlex_go (InQuote q) (tok +++ kept +++ String c "") quoted s'
      end
  end.

(** [shlex.split(s)] *)
Definition shlex_split (s : string) : option (list string) :=
  shlex_go InSpace "" false s.

(** Words without whitespace, quotes and backslashes. *)
Fixpoint plain_word (w : string) : bool :=
  match w with
  | EmptyString => true
  | String c w' =>
      negb (is_shlex_space c) && negb (Ascii.eqb c backslash) && negb (is_quote c)
      && plain_word w'
  end.

(** ** Lemmas *)

Lemma shlex_go_plain w tok s :
  plain_word w = true ->
  shlex_go InWord tok false (w +++ s) = shlex_go InWord (tok +++ w) false s.
Proof.
  revert tok. induction w as [|c w IH]; intros tok; cbn [plain_word String.append].
  - intros _. by rewrite app_empty_r.
  - rewrite !andb_true_iff, !negb_true_iff. intros (((H1 & H2) & H3) & H4).
    cbn [shlex_go]. rewrite H1, H2, H3, IH by done. by rewrite app_assoc_str.
Qed.

(** Splitting plain words joined by single spaces gives the words back. *)
Lemma shlex_split_join ws :
  Forall (fun w => plain_word w = true /\ w <> "") ws ->
  shlex_split (str_join " " ws) = Some ws.
Proof.
  unfold shlex_split. induction ws as [|w ws IH]; intros Hall; [done|].
  apply Forall_cons_1 in Hall as [[Hw Hne] Hall].
  destruct w as [|c w]; [done|]. pose proof Hw as Hpl.
  cbn [plain_word] in Hw. rewrite !andb_true_iff, !negb_true_iff in Hw.
  destruct Hw as (((H1 & H2) & H3) & H4).
  destruct ws as [|w' ws].
  - cbn [str_join shlex_go]. rewrite H1, H2, H3.
    rewrite <- (app_empty_r w) at 1. rewrite shlex_go_plain by done. done.
  - change (str_join " " (String c w :: w' :: ws))
      with (String c (w +++ String " " (str_join " " (w' :: ws)))).
    cbn [shlex_go]. rewrite H1, H2, H3. rewrite shlex_go_plain by done.
    specialize (IH Hall). cbn [shlex_go].
    change (is_shlex_space " ") with true. cbn [fmap option_fmap option_map].
    rewrite IH. done.
Qed.

Example shlex_split_quotes :
  shlex_split "diff --git 'a/x y' b/z"%string
  = Some ["diff"; "--git"; "a/x y"; "b/z"]%string.
Proof. reflexivity. Qed.
