(* ===== verification/PyValue.v ===== *)
(** * Python values

    The values the sources keep under [Any]: JSON-like data plus tuples and
    dictionaries with arbitrary keys.  Dictionaries are association lists in
    insertion order.  A float is a finite binary float [m * 2^e] carried with
    its shortest decimal text, so that [str] needs no float printing; NaN and
    the infinities are outside the model. *)

From S2P Require Export PyStr.
From stdpp Require Export pretty.

(** ** Definitions *)

Inductive pyval : Type :=
  | PNone
  | PBool (b : bool)
  | PInt (z : Z)
  | PFloat (m e : Z) (text : string)
  | PStr (s : string)
  | PList (l : list pyval)
  | PTuple (l : list pyval)
  | PDict (kvs : list (pyval * pyval)).

(** [dict[str, Any]] *)
Definition pydict : Type := list (string * pyval).

(** The number a bool, an int or a float stands for. *)
Definition num_val (v : pyval) : option (Z * Z) :=
  match v with
  | PBool b => Some (if b then 1 else 0, 0)%Z
  | PInt z => Some (z, 0)%Z
  | PFloat m e _ => Some (m, e)
  | _ => None
  end.

(** Comparison of [m1 * 2^e1] with [m2 * 2^e2]. *)
Definition num_compare (a b : Z * Z) : comparison :=
  let '(m1, e1) := a in
  let '(m2, e2) := b in
  let e := Z.min e1 e2 in
  Z.compare (m1 * 2 ^ (e1 - e)) (m2 * 2 ^ (e2 - e)).

Definition num_eqb (a b : Z * Z) : bool :=
  match num_compare a b with Eq => true | _ => false end.

Definition num_ltb (a b : Z * Z) : bool :=
  match num_compare a b with Lt => true | _ => false end.

(** Python's [==]: numbers by value whatever their type, sequences element by
    element, dictionaries by their sets of items. *)
Fixpoint py_eq (a b : pyval) {struct a} : bool :=
  match a, b with
  | PNone, PNone => true
  | PStr s, PStr t => String.eqb s t
  | PList l, PList l' | PTuple l, PTuple l' =>
      (fix go (xs ys : list pyval) : bool :=
         match xs, ys with
         | [], [] => true
         | x :: xs', y :: ys' => py_eq x y && go xs' ys'
         | _, _ => false
         end) l l'
  | PDict d, PDict d' =>
      (List.length d =? List.length d')%nat &&
      forallb (fun kv =>
        match kv with
        | (k, v) => existsb (fun kv' => py_eq k (fst kv') && py_eq v (snd kv')) d'
        end) d
  | PBool _, _ | PInt _, _ | PFloat _ _ _, _ =>
      match num_val a, num_val b with
      | Some x, Some y => num_eqb x y
      | _, _ => false
      end
  | _, _ => false
  end.

(** [d.get(key)], with [PNone] for a missing key. *)
Fixpoint dict_lookup (d : pydict) (key : string) : option pyval :=
  match d with
  | [] => None
  | (k, v) :: d' => if String.eqb k key then Some v else dict_lookup d' key
  end.

Definition dict_get (d : pydict) (key : string) : pyval :=
  default PNone (dict_lookup d key).

(** [d[key] = v]: in place for a known key, appended otherwise. *)
Fixpoint dict_set (d : pydict) (key : string) (v : pyval) : pydict :=
  match d with
  | [] => [(key, v)]
  | (k, w) :: d' => if String.eqb k key then (k, v) :: d' else (k, w) :: dict_set d' key v
  end.

(** [{**d, **d'}] *)
Definition dict_update (d d' : pydict) : pydict :=
  fold_left (fun acc kv => dict_set acc (fst kv) (snd kv)) d' d.

(** [str.__repr__] on one code point below 256. *)
Definition hex_digit (n : N) : ascii :=
  if (n <? 10)%N then ascii_of_N (48 + n) else ascii_of_N (87 + n).

Definition repr_char (q c : ascii) : string :=
  let n := code c in
  if Ascii.eqb c q || Ascii.eqb c backslash then String backslash (String c "")
  else if (n =? 9)%N then String backslash "t"
  else if (n =? 10)%N then String backslash "n"
  else if (n =? 13)%N then String backslash "r"
  else if in_range 32 126 n || (in_range 161 255 n && negb (n =? 173)%N)
  then String c ""
  else String backslash (String "x" (String (hex_digit (n / 16)) (String (hex_digit (n mod 16)) ""))).

Fixpoint repr_chars (q : ascii) (s : string) : string :=
  match s with
  | EmptyString => ""
  | String c s' => repr_char q c +++ repr_chars q s'
  end.

Definition repr_str (s : string) : string :=
  let sq := ascii_of_N 39 in
  let dq := ascii_of_N 34 in
  let q := if contains s (String sq "") && negb (contains s (String dq ""))
           then dq else sq in
  String q (repr_chars q s +++ String q "").

Fixpoint py_repr (v : pyval) : string :=
  match v with
  | PNone => "None"
  | PBool b => if b then "True" else "False"
  | PInt z => pretty z
  | PFloat _ _ t => t
  | PStr s => repr_str s
  | PList l => "[" +++ str_join ", " (List.map py_repr l) +++ "]"
  | PTuple l =>
      match l with
      | [x] => "(" +++ py_repr x +++ ",)"
      | _ => "(" +++ str_join ", " (List.map py_repr l) +++ ")"
      end
  | PDict d =>
      "{" +++ str_join ", " (List.map (fun kv =>
        match kv with (k, x) => py_repr k +++ ": " +++ py_repr x end) d) +++ "}"
  end.

(** [str(v)] *)
Definition py_str (v : pyval) : string :=
  match v with PStr s => s | _ => py_repr v end.

(** [isinstance(v, str)] and the string. *)
Definition as_str (v : pyval) : option string :=
  match v with PStr s => Some s | _ => None end.

(** [bool(v)] *)
Definition py_truth (v : pyval) : bool :=
  match v with
  | PNone => false
  | PBool b => b
  | PInt z => negb (z =? 0)%Z
  | PFloat m _ _ => negb (m =? 0)%Z
  | PStr s => truthy s
  | PList l | PTuple l => match l with [] => false | _ => true end
  | PDict d => match d with [] => false | _ => true end
  end.

(** A [dict[str, Any]] as a value. *)
Definition of_dict (d : pydict) : pyval :=
  PDict (List.map (fun kv => (PStr (fst kv), snd kv)) d).

(** Exceptions: the built-in class of [except] clauses the exception is an
    instance of, [type(exc).__name__] and [str(exc)]. *)
Inductive exn_class :=
  | RuntimeError | ValueError | OSError | LookupError
  | TypeError | AttributeError | OtherError.

Record exn := mk_exn {
  exn_base : exn_class;
  exn_name : string;
  exn_text : string;
}.

#[export] Instance exn_class_eq_dec : EqDecision exn_class.
Proof. solve_decision. Defined.

(** [str | None] as a value. *)
Definition of_opt_str (o : option string) : pyval :=
  match o with Some s => PStr s | None => PNone end.

(** ** Lemmas *)

Lemma num_compare_int (a b : Z) : num_compare (a, 0)%Z (b, 0)%Z = Z.compare a b.
Proof. unfold num_compare. cbn. by rewrite !Z.mul_1_r. Qed.

Lemma num_eqb_refl a : num_eqb a a = true.
Proof. destruct a as [m e]. unfold num_eqb, num_compare. by rewrite Z.compare_refl. Qed.

Lemma py_eq_str s t : py_eq (PStr s) (PStr t) = true <-> s = t.
Proof. apply String.eqb_eq. Qed.

Section PyvalInd.
Context (P : pyval -> Prop).
Context (Hnone : P PNone) (Hbool : forall b, P (PBool b)) (Hint : forall z, P (PInt z))
  (Hfloat : forall m e t, P (PFloat m e t)) (Hstr : forall s, P (PStr s))
  (Hlist : forall l, Forall P l -> P (PList l))
  (Htuple : forall l, Forall P l -> P (PTuple l))
  (Hdict : forall d, Forall (fun kv => P (fst kv) /\ P (snd kv)) d -> P (PDict d)).

Fixpoint pyval_rec' (v : pyval) : P v :=
  let list_rec := fix go (l : list pyval) : Forall P l :=
    match l with
    | [] => List.Forall_nil _
    | x :: l' => List.Forall_cons _ _ _ (pyval_rec' x) (go l')
    end in
  match v with
  | PNone => Hnone
  | PBool b => Hbool b
  | PInt z => Hint z
  | PFloat m e t => Hfloat m e t
  | PStr s => Hstr s
  | PList l => Hlist l (list_rec l)
  | PTuple l => Htuple l (list_rec l)
  | PDict d =>
      Hdict d ((fix go (d : list (pyval * pyval))
                  : Forall (fun kv => P (fst kv) /\ P (snd kv)) d :=
        match d with
        | [] => List.Forall_nil _
        | kv :: d' =>
            List.Forall_cons _ _ _
              (match kv return P (fst kv) /\ P (snd kv) with
               | (k, x) => conj (pyval_rec' k) (pyval_rec' x) end)
              (go d')
        end) d)
  end.
End PyvalInd.

(** Induction over the nested values. *)
Lemma pyval_nested_ind (P : pyval -> Prop) :
  P PNone -> (forall b, P (PBool b)) -> (forall z, P (PInt z)) ->
  (forall m e t, P (PFloat m e t)) -> (forall s, P (PStr s)) ->
  (forall l, Forall P l -> P (PList l)) ->
  (forall l, Forall P l -> P (PTuple l)) ->
  (forall d, Forall (fun kv => P (fst kv) /\ P (snd kv)) d -> P (PDict d)) ->
  forall v, P v.
Proof. intros. by apply pyval_rec'. Qed.

Lemma py_eq_refl v : py_eq v v = true.
Proof.
  induction v as [ | | | | |l IH|l IH|d IH] using pyval_nested_ind.
  - done.
  - apply num_eqb_refl.
  - apply num_eqb_refl.
  - apply num_eqb_refl.
  - apply String.eqb_refl.
  - cbn. induction IH as [|x l Hx _ IHl]; [done|]. by rewrite Hx.
  - cbn. induction IH as [|x l Hx _ IHl]; [done|]. by rewrite Hx.
  - cbn. rewrite Nat.eqb_refl. cbn. apply forallb_elem_of. intros [k x] Hin.
    apply existsb_elem_of. exists (k, x). split; [done|]. cbn.
    rewrite Forall_forall in IH. destruct (IH _ Hin) as [Hk Hx]. cbn in Hk, Hx.
    by rewrite Hk, Hx.
Qed.

Lemma dict_lookup_set_eq d k v : dict_lookup (dict_set d k v) k = Some v.
Proof.
  induction d as [|[k' w] d IH]; cbn; [by rewrite String.eqb_refl|].
  destruct (String.eqb k' k) eqn:E; cbn; by rewrite E.
Qed.

Lemma dict_lookup_set_ne d k k' v :
  k <> k' -> dict_lookup (dict_set d k v) k' = dict_lookup d k'.
Proof.
  intros Hne. induction d as [|[k0 w] d IH]; cbn.
  - apply String.eqb_neq in Hne. by rewrite Hne.
  - destruct (String.eqb_spec k0 k) as [->|Hk]; cbn.
    + apply String.eqb_neq in Hne. by rewrite Hne.
    + by rewrite IH.
Qed.

#[export] Hint Rewrite py_eq_refl dict_lookup_set_eq num_compare_int : rygnal.
