(* ===== verification/Models.v ===== *)
(** * models.py: shared data models

    The enumerations and records every component exchanges.  Identifiers and
    timestamps that the code draws from [uuid4] and the clock are plain fields:
    the operations that create them take them as arguments. *)

From S2P Require Export PyValue.

(** ** Enumerations *)

Inductive Decision := ALLOW | BLOCK | REQUIRE_APPROVAL | SIMULATE.

Inductive Severity := SevLow | SevMedium | SevHigh | SevCritical.

Inductive ExecutionStatus := EXECUTED | SKIPPED | FAILED | SIMULATED.

Inductive ApprovalStatus := PENDING | APPROVED | REJECTED.

Inductive RuntimeMode := OBSERVE | SIMULATE_MODE | ENFORCE | PRODUCTION_SAFE.

#[export] Instance Decision_eq_dec : EqDecision Decision.
Proof. solve_decision. Defined.
#[export] Instance Severity_eq_dec : EqDecision Severity.
Proof. solve_decision. Defined.
#[export] Instance ExecutionStatus_eq_dec : EqDecision ExecutionStatus.
Proof. solve_decision. Defined.
#[export] Instance ApprovalStatus_eq_dec : EqDecision ApprovalStatus.
Proof. solve_decision. Defined.
#[export] Instance RuntimeMode_eq_dec : EqDecision RuntimeMode.
Proof. solve_decision. Defined.

Definition decision_value (d : Decision) : string :=
  match d with
  | ALLOW => "allow" | BLOCK => "block"
  | REQUIRE_APPROVAL => "require_approval" | SIMULATE => "simulate"
  end.

Definition severity_value (s : Severity) : string :=
  match s with
  | SevLow => "low" | SevMedium => "medium" | SevHigh => "high" | SevCritical => "critical"
  end.

Definition approval_status_value (s : ApprovalStatus) : string :=
  match s with
  | PENDING => "pending" | APPROVED => "approved" | REJECTED => "rejected"
  end.

Definition runtime_mode_value (m : RuntimeMode) : string :=
  match m with
  | OBSERVE => "observe" | SIMULATE_MODE => "simulate"
  | ENFORCE => "enforce" | PRODUCTION_SAFE => "production_safe"
  end.

(** ** Records *)

Module RolePermission.
Record t := mk {
  role : string;
  allowed_severities : list Severity;
  allowed_actions : option (list string);
  environments : option (list string);
}.
End RolePermission.

Module ToolRequest.
Record t := mk {
  tool_name : string;
  action : option string;
  target : option string;
  input : pyval;
  user_id : string;
  agent_id : string;
  environment : string;
  metadata : pydict;
}.
End ToolRequest.

Module PolicyRule.
Record t := mk {
  id : string;
  decision : Decision;
  severity : Severity;
  reason : string;
  priority : Z;
  tool_name : option string;
  action : option string;
  environment : option string;
  target_equals : option string;
  target_contains : option string;
  target_matches : option string;
  target_not_matches : option string;
  input_equals : option pyval;      (* None is Python's None *)
  input_contains : option string;
  metadata_equals : pydict;
  metadata_contains : list (string * string);
  risk_level : option string;
  risk_score_min : option (Z * Z);  (* a finite float m * 2^e *)
}.
End PolicyRule.

Module PolicySchema.
Record t := mk {
  policy_version : string;
  default_decision : Decision;
  rules : list PolicyRule.t;
}.
End PolicySchema.

Module PolicyExplanation.
Record t := mk {
  policy_version : string;
  matched : bool;
  matched_rule_id : option string;
  matched_rule_priority : option Z;
  matched_conditions : list string;
  evaluated_rule_ids : list string;
  default_decision : bool;
}.
End PolicyExplanation.

Module PolicyDecision.
Record t := mk {
  decision : Decision;
  allowed : bool;
  severity : Severity;
  reason : string;
  policy_id : option string;
  explanation : option PolicyExplanation.t;
}.
End PolicyDecision.

Module ApprovalRequest.
Record t := mk {
  approval_id : string;
  created_at : string;
  trace_id : string;
  requested_by : string;
  agent_id : string;
  environment : string;
  tool_name : string;
  action : option string;
  target : pyval;
  policy_id : option string;
  reason : string;
  severity : Severity;
  risk_assessment : pydict;
  metadata : pydict;
}.

(** [min_length=1] and [_reject_blank_context] on the context fields. *)
Definition valid (r : t) : bool :=
  forallb (fun v => truthy (strip v))
    [approval_id r; created_at r; trace_id r; requested_by r; agent_id r;
     environment r; tool_name r; reason r].
End ApprovalRequest.

Module ApprovalDecision.
Record t := mk {
  approval_id : string;
  status : ApprovalStatus;
  approved : bool;
  decided_by : option string;
  decided_at : option string;
  reason : string;
  metadata : pydict;
}.
End ApprovalDecision.

Module AuditEvent.
Record t := mk {
  schema_version : string;
  rygnal_package_version : string;
  event_id : string;
  timestamp : string;
  trace_id : string;
  user_id : string;
  agent_id : string;
  environment : string;
  tool_name : string;
  action : option string;
  target : pyval;
  input : pyval;
  decision : Decision;
  allowed : bool;
  severity : Severity;
  policy_id : option string;
  reason : string;
  metadata : pyval;
  prev_event_hash : option string;
  event_hash : option string;
}.
End AuditEvent.

Module ToolExecutionResult.
Record t := mk {
  status : ExecutionStatus;
  executed : bool;
  output : pyval;
  error : option string;
}.
End ToolExecutionResult.

Module InterceptorResult.
Record t := mk {
  request : ToolRequest.t;
  risk_assessment : pydict;
  policy_decision : PolicyDecision.t;
  audit_event : AuditEvent.t;
  execution : ToolExecutionResult.t;
  approval_decision : option ApprovalDecision.t;
}.
End InterceptorResult.
