(* ===== verification/PolicyEngine.v ===== *)
(** * policy_engine.py: ordered rules, first match wins

    [PolicyEngine.evaluate] with its resource guard on regular-expression
    targets, the load-time validation [_validate_policy_schema] with the
    production-safe profile, and the sort by priority of the constructor.

    [re_search] and [re_compiles] stand for the [re] engine on the patterns a
    policy file supplies; [pattern_limit] and [target_limit] are the configured
    byte limits. *)

From S2P Require Export Models.
From Stdlib Require Import Sorting.Sorted.

(** ** Definitions *)

(** [sorted(rules, key=lambda rule: rule.priority)]: a stable insertion sort. *)
Fixpoint insert_rule (r : PolicyRule.t) (l : list PolicyRule.t) : list PolicyRule.t :=
  match l with
  | [] => [r]
  | r' :: l' =>
      if (PolicyRule.priority r <=? PolicyRule.priority r')%Z then r :: l
      else r' :: insert_rule r l'
  end.

Fixpoint sort_rules (l : list PolicyRule.t) : list PolicyRule.t :=
  match l with
  | [] => []
  | r :: l' => insert_rule r (sort_rules l')
  end.

(** The validated engine: the fields [PolicyEngine.__init__] sets. *)
Record PolicyEngine := mk_engine {
  policy_version : string;
  default_decision : Decision;
  rules : list PolicyRule.t;
}.

Definition make_engine (rs : list PolicyRule.t) (version : string) (dflt : Decision)
    : PolicyEngine := mk_engine version dflt (sort_rules rs).

(** [PolicyRuntimeGuardError] *)
Record guard_error := mk_guard {
  ge_rule_id : string;
  ge_field_name : string;
  ge_value_bytes : Z;
  ge_limit : Z;
}.

Definition guard_reason_code : string := "policy_regex_target_too_large".

Definition guard_message (e : guard_error) : string :=
  guard_reason_code +++ ": policy rule " +++ repr_str (ge_rule_id e) +++ " field " +++
  repr_str (ge_field_name e) +++ " target is " +++ pretty (ge_value_bytes e) +++
  " bytes, exceeding limit " +++ pretty (ge_limit e).

(** What [_matches] may raise: the guard, or the [TypeError] of comparing a
    risk score that is not a number, which [evaluate] does not catch. *)
Inductive match_error :=
  | GuardError (e : guard_error)
  | RiskScoreTypeError.

(** The load errors of [_validate_policy_schema]. *)
Inductive load_error :=
  | DuplicateRuleId (id : string)
  | PatternTooLarge (rule_id field : string)
  | InvalidRegex (rule_id field : string)
  | NotFailClosed (profile : string)
  | NoTerminalRule (profile : string)
  | ManyTerminalRules (profile : string)
  | TerminalAllows (profile : string)
  | TerminalNotLast (profile : string).

Record PolicyValidationProfile := mk_profile {
  profile_name : string;
  fail_closed_default : bool;
  require_terminal_catch_all : bool;
  terminal_disallowed_decisions : list Decision;
}.

Definition PRODUCTION_SAFE_POLICY_PROFILE : PolicyValidationProfile :=
  mk_profile "production-safe" true true [ALLOW; SIMULATE].

Definition _is_allowed (d : Decision) : bool :=
  match d with ALLOW | SIMULATE => true | _ => false end.

(** [self._stringify(value)] *)
Definition _stringify (v : pyval) : string :=
  match v with PNone => "" | _ => py_str v end.

Definition _metadata_equals (request_metadata expected : pydict) : bool :=
  forallb (fun kv => py_eq (dict_get request_metadata (fst kv)) (snd kv)) expected.

Definition _metadata_contains (request_metadata : pydict)
    (expected : list (string * string)) : bool :=
  forallb (fun kv => contains (_stringify (dict_get request_metadata (fst kv))) (snd kv))
    expected.

(** The labels of the conditions a rule configures. *)
Definition _matched_conditions (rule : PolicyRule.t) : list string :=
  let is_some {A} (o : option A) := match o with Some _ => true | None => false end in
  let opt (b : bool) (label : string) := if b then [label] else [] in
  opt (truthy_opt (PolicyRule.tool_name rule)) "tool_name" ++
  opt (truthy_opt (PolicyRule.action rule)) "action" ++
  opt (truthy_opt (PolicyRule.environment rule)) "environment" ++
  opt (truthy_opt (PolicyRule.target_equals rule)) "target_equals" ++
  opt (truthy_opt (PolicyRule.target_contains rule)) "target_contains" ++
  opt (truthy_opt (PolicyRule.target_matches rule)) "target_matches" ++
  opt (truthy_opt (PolicyRule.target_not_matches rule)) "target_not_matches" ++
  opt (is_some (PolicyRule.input_equals rule)) "input_equals" ++
  opt (truthy_opt (PolicyRule.input_contains rule)) "input_contains" ++
  opt (match PolicyRule.metadata_equals rule with [] => false | _ => true end)
      "metadata_equals" ++
  opt (match PolicyRule.metadata_contains rule with [] => false | _ => true end)
      "metadata_contains" ++
  opt (truthy_opt (PolicyRule.risk_level rule)) "risk_level" ++
  opt (is_some (PolicyRule.risk_score_min rule)) "risk_score_min".

Definition _is_terminal_catch_all_rule (rule : PolicyRule.t) : bool :=
  match _matched_conditions rule with [] => true | _ => false end.

Definition _default_reason (e : PolicyEngine) : string :=
  match default_decision e with
  | ALLOW => "No matching policy rule. Default allow."
  | d => "No matching policy rule. Default decision: " +++ decision_value d +++ "."
  end.

Section WithRegex.
Context (re_search : string -> string -> bool) (re_compiles : string -> bool).
Context (pattern_limit target_limit : Z).

(** [_safe_policy_regex_search]: the size guard, then the search. *)
Definition _safe_policy_regex_search (rule_id field_name pattern value : string)
    : result match_error bool :=
  if (target_limit <? utf8_len value)%Z
  then Raise (GuardError (mk_guard rule_id field_name (utf8_len value) target_limit))
  else Ok (re_search pattern value).

(** [if cond and not ok: return False] with a plain test, then the rest. *)
Definition unless (bad : bool) (k : result match_error bool) : result match_error bool :=
  if bad then Ok false else k.

(** The condition [rule.f and rule.f != actual] for an optional string. *)
Definition differs (expected : option string) (actual : string) : bool :=
  match expected with
  | Some e => truthy e && negb (String.eqb e actual)
  | None => false
  end.

Definition differs_opt (expected actual : option string) : bool :=
  match expected with
  | Some e => truthy e && negb (bool_decide (actual = Some e))
  | None => false
  end.

(** [risk_score is None or risk_score < minimum] *)
Definition score_below (risk_score : pyval) (minimum : Z * Z) : result match_error bool :=
  match risk_score with
  | PNone => Ok true
  | v => match num_val v with
         | Some s => Ok (num_ltb s minimum)
         | None => Raise RiskScoreTypeError
         end
  end.

(** [_matches]: the conditions in source order, each returning early. *)
Definition _matches (rule : PolicyRule.t) (request : ToolRequest.t) (risk_context : pydict)
    : result match_error bool :=
  let target := default "" (ToolRequest.target request) in
  unless (differs (PolicyRule.tool_name rule) (ToolRequest.tool_name request)) (
  unless (differs_opt (PolicyRule.action rule) (ToolRequest.action request)) (
  unless (differs (PolicyRule.environment rule) (ToolRequest.environment request)) (
  unless (differs (PolicyRule.target_equals rule) target) (
  unless (match PolicyRule.target_contains rule with
          | Some e => truthy e && negb (contains target e) | None => false end) (
  m ← (match PolicyRule.target_matches rule with
       | Some p => if truthy p
           then _safe_policy_regex_search (PolicyRule.id rule) "target_matches" p target
           else Ok true
       | None => Ok true end);
  unless (negb m) (
  n ← (match PolicyRule.target_not_matches rule with
       | Some p => if truthy p
           then _safe_policy_regex_search (PolicyRule.id rule) "target_not_matches" p target
           else Ok false
       | None => Ok false end);
  unless n (
  unless (match PolicyRule.input_equals rule with
          | Some e => negb (py_eq e (ToolRequest.input request)) | None => false end) (
  unless (match PolicyRule.input_contains rule with
          | Some e => truthy e && negb (contains (_stringify (ToolRequest.input request)) e)
          | None => false end) (
  unless (negb (_metadata_equals (ToolRequest.metadata request)
                  (PolicyRule.metadata_equals rule))) (
  unless (negb (_metadata_contains (ToolRequest.metadata request)
                  (PolicyRule.metadata_contains rule))) (
  unless (match PolicyRule.risk_level rule with
          | Some e => truthy e && negb (py_eq (PStr e) (dict_get risk_context "risk_level"))
          | None => false end) (
  below ← (match PolicyRule.risk_score_min rule with
           | Some m => score_below (dict_get risk_context "risk_score") m
           | None => Ok false end);
  unless below (
  Ok true))))))))))))).

Definition guard_decision (e : PolicyEngine) (rule : PolicyRule.t) (exc : guard_error)
    (evaluated : list string) : PolicyDecision.t :=
  PolicyDecision.mk BLOCK false SevHigh (guard_message exc) (Some (PolicyRule.id rule))
    (Some (PolicyExplanation.mk (policy_version e) false (Some (PolicyRule.id rule))
       (Some (PolicyRule.priority rule)) [guard_reason_code; ge_field_name exc]
       evaluated false)).

Definition match_decision (e : PolicyEngine) (rule : PolicyRule.t)
    (evaluated : list string) : PolicyDecision.t :=
  PolicyDecision.mk (PolicyRule.decision rule) (_is_allowed (PolicyRule.decision rule))
    (PolicyRule.severity rule) (PolicyRule.reason rule) (Some (PolicyRule.id rule))
    (Some (PolicyExplanation.mk (policy_version e) true (Some (PolicyRule.id rule))
       (Some (PolicyRule.priority rule)) (_matched_conditions rule) evaluated false)).

Definition fallback_decision (e : PolicyEngine) (evaluated : list string) : PolicyDecision.t :=
  PolicyDecision.mk (default_decision e) (_is_allowed (default_decision e)) SevLow
    (_default_reason e) None
    (Some (PolicyExplanation.mk (policy_version e) false None None [] evaluated true)).

(** The loop of [evaluate] over the remaining rules; the error is the
    [TypeError] that leaves the loop. *)
Fixpoint evaluate_rules (e : PolicyEngine) (rs : list PolicyRule.t) (evaluated : list string)
    (request : ToolRequest.t) (risk_context : pydict) : result match_error PolicyDecision.t :=
  match rs with
  | [] => Ok (fallback_decision e evaluated)
  | rule :: rs' =>
      let evaluated := evaluated ++ [PolicyRule.id rule] in
      match _matches rule request risk_context with
      | Raise (GuardError exc) => Ok (guard_decision e rule exc evaluated)
      | Raise RiskScoreTypeError => Raise RiskScoreTypeError
      | Ok true => Ok (match_decision e rule evaluated)
      | Ok false => evaluate_rules e rs' evaluated request risk_context
      end
  end.

Definition evaluate (e : PolicyEngine) (request : ToolRequest.t) (risk_context : pydict)
    : result match_error PolicyDecision.t :=
  evaluate_rules e (rules e) [] request risk_context.

(** ** Load-time validation *)

Definition _validate_policy_regex_pattern (rule_id field_name pattern : string)
    : result load_error unit :=
  if (pattern_limit <? utf8_len pattern)%Z then Raise (PatternTooLarge rule_id field_name)
  else ensure (re_compiles pattern) (InvalidRegex rule_id field_name).

Definition validate_rule_patterns (rule : PolicyRule.t) : result load_error unit :=
  let field name o :=
    match o with
    | Some p => _validate_policy_regex_pattern (PolicyRule.id rule) name p
    | None => Ok ()
    end in
  _ ← field "target_matches" (PolicyRule.target_matches rule);
  field "target_not_matches" (PolicyRule.target_not_matches rule).

(** The first loop: [seen] is [seen_rule_ids]. *)
Fixpoint validate_rules (seen : list string) (rs : list PolicyRule.t)
    : result load_error unit :=
  match rs with
  | [] => Ok ()
  | rule :: rs' =>
      _ ← ensure (negb (mem (PolicyRule.id rule) seen)) (DuplicateRuleId (PolicyRule.id rule));
      _ ← validate_rule_patterns rule;
      validate_rules (PolicyRule.id rule :: seen) rs'
  end.

Definition _validate_profile_default (schema : PolicySchema.t)
    (profile : PolicyValidationProfile) : result load_error unit :=
  if negb (fail_closed_default profile) then Ok ()
  else ensure (negb (_is_allowed (PolicySchema.default_decision schema)))
         (NotFailClosed (profile_name profile)).

Definition _validate_terminal_catch_all (schema : PolicySchema.t)
    (profile : PolicyValidationProfile) : result load_error unit :=
  match List.filter _is_terminal_catch_all_rule (PolicySchema.rules schema) with
  | [] => Raise (NoTerminalRule (profile_name profile))
  | [terminal_rule] =>
      _ ← ensure (negb (bool_decide (PolicyRule.decision terminal_rule
                          ∈ terminal_disallowed_decisions profile)))
            (TerminalAllows (profile_name profile));
      ensure (forallb (fun rule =>
                String.eqb (PolicyRule.id rule) (PolicyRule.id terminal_rule)
                || negb (PolicyRule.priority terminal_rule <=? PolicyRule.priority rule)%Z)
                (PolicySchema.rules schema))
        (TerminalNotLast (profile_name profile))
  | _ => Raise (ManyTerminalRules (profile_name profile))
  end.

Definition _validate_policy_schema (schema : PolicySchema.t)
    (validation_profile : option PolicyValidationProfile) : result load_error unit :=
  _ ← validate_rules [] (PolicySchema.rules schema);
  match validation_profile with
  | None => Ok ()
  | Some profile =>
      _ ← _validate_profile_default schema profile;
      if require_terminal_catch_all profile
      then _validate_terminal_catch_all schema profile else Ok ()
  end.

(** [PolicyEngine.from_yaml_text] after the YAML parse: validate, then build. *)
Definition engine_of_schema (schema : PolicySchema.t)
    (validation_profile : option PolicyValidationProfile) : result load_error PolicyEngine :=
  _ ← _validate_policy_schema schema validation_profile;
  Ok (make_engine (PolicySchema.rules schema) (PolicySchema.policy_version schema)
        (PolicySchema.default_decision schema)).

End WithRegex.

(** ** The priority sort *)

Definition rule_le (r r' : PolicyRule.t) : Prop :=
  (PolicyRule.priority r <= PolicyRule.priority r')%Z.

Definition has_priority (p : Z) (r : PolicyRule.t) : bool := (PolicyRule.priority r =? p)%Z.

Lemma insert_rule_perm r l : Permutation (insert_rule r l) (r :: l).
Proof.
  induction l as [|r' l IH]; cbn; [done|].
  destruct (PolicyRule.priority r <=? PolicyRule.priority r')%Z; [done|].
  rewrite IH. by apply Permutation_swap.
Qed.

Lemma sort_rules_perm l : Permutation (sort_rules l) l.
Proof. induction l as [|r l IH]; cbn; [done|]. by rewrite insert_rule_perm, IH. Qed.

Lemma insert_rule_sorted r l :
  StronglySorted rule_le l -> StronglySorted rule_le (insert_rule r l).
Proof.
  induction 1 as [|r' l Hl IH Hr']; cbn; [by repeat constructor|].
  destruct (Z.leb_spec (PolicyRule.priority r) (PolicyRule.priority r')) as [Hle|Hlt].
  - constructor; [by constructor|]. constructor; [done|].
    eapply Forall_impl; [exact Hr'|]. unfold rule_le. intros x ?. lia.
  - constructor; [done|]. rewrite Forall_forall. intros x.
    rewrite insert_rule_perm. intros [->|Hx]%elem_of_cons; [unfold rule_le; lia|].
    rewrite Forall_forall in Hr'. by apply Hr'.
Qed.

Lemma sort_rules_sorted l : StronglySorted rule_le (sort_rules l).
Proof. induction l as [|r l IH]; cbn; [constructor|by apply insert_rule_sorted]. Qed.

Lemma insert_rule_stable p r l :
  List.filter (has_priority p) (insert_rule r l)
  = List.filter (has_priority p) (r :: l).
Proof.
  induction l as [|r' l IH]; [done|]. cbn [insert_rule].
  destruct (Z.leb_spec (PolicyRule.priority r) (PolicyRule.priority r')) as [|Hlt]; [done|].
  cbn [List.filter] in *. rewrite IH. unfold has_priority.
  destruct (Z.eqb_spec (PolicyRule.priority r) p), (Z.eqb_spec (PolicyRule.priority r') p);
    try done. lia.
Qed.

Lemma sort_rules_stable p l :
  List.filter (has_priority p) (sort_rules l) = List.filter (has_priority p) l.
Proof.
  induction l as [|r l IH]; cbn [sort_rules]; [done|].
  rewrite insert_rule_stable. cbn. by rewrite IH.
Qed.

(** ** Rule matching *)

Section MatchLemmas.
Context (re_search : string -> string -> bool) (target_limit : Z).

Abbreviation matches := (_matches re_search target_limit).

Lemma truthy_opt_false_differs o a : truthy_opt o = false -> differs o a = false.
Proof. destruct o as [s|]; cbn; [by intros ->|done]. Qed.

Lemma truthy_opt_false_differs_opt o a : truthy_opt o = false -> differs_opt o a = false.
Proof. destruct o as [s|]; cbn; [by intros ->|done]. Qed.

(** A rule without conditions matches every request. *)
Lemma catch_all_matches rule request ctx :
  _is_terminal_catch_all_rule rule = true -> matches rule request ctx = Ok true.
Proof.
  unfold _is_terminal_catch_all_rule, _matched_conditions.
  set (is_some := fun A (o : option A) => match o with Some _ => true | None => false end).
  destruct (truthy_opt (PolicyRule.tool_name rule)) eqn:E1; [done|].
  destruct (truthy_opt (PolicyRule.action rule)) eqn:E2; [done|].
  destruct (truthy_opt (PolicyRule.environment rule)) eqn:E3; [done|].
  destruct (truthy_opt (PolicyRule.target_equals rule)) eqn:E4; [done|].
  destruct (truthy_opt (PolicyRule.target_contains rule)) eqn:E5; [done|].
  destruct (truthy_opt (PolicyRule.target_matches rule)) eqn:E6; [done|].
  destruct (truthy_opt (PolicyRule.target_not_matches rule)) eqn:E7; [done|].
  destruct (PolicyRule.input_equals rule) eqn:E8; [done|].
  destruct (truthy_opt (PolicyRule.input_contains rule)) eqn:E9; [done|].
  destruct (PolicyRule.metadata_equals rule) eqn:E10; [|done].
  destruct (PolicyRule.metadata_contains rule) eqn:E11; [|done].
  destruct (truthy_opt (PolicyRule.risk_level rule)) eqn:E12; [done|].
  destruct (PolicyRule.risk_score_min rule) eqn:E13; [done|]. intros _.
  unfold _matches.
  rewrite !truthy_opt_false_differs, truthy_opt_false_differs_opt, E8, E10, E11, E13 by done.
  destruct (PolicyRule.target_contains rule); cbn in E5; rewrite ?E5;
  destruct (PolicyRule.target_matches rule); cbn in E6; rewrite ?E6;
  destruct (PolicyRule.target_not_matches rule); cbn in E7; rewrite ?E7;
  destruct (PolicyRule.input_contains rule); cbn in E9; rewrite ?E9;
  destruct (PolicyRule.risk_level rule); cbn in E12; rewrite ?E12; done.
Qed.

Lemma unless_Ok_true bad k : unless bad k = Ok true <-> bad = false /\ k = Ok true.
Proof. destruct bad; cbn; naive_solver congruence. Qed.

(** A matching rule with a regular expression saw a target within the limit. *)
Lemma matches_target_within_limit rule request ctx p :
  matches rule request ctx = Ok true ->
  PolicyRule.target_matches rule = Some p \/ PolicyRule.target_not_matches rule = Some p ->
  p <> "" ->
  (utf8_len (default "" (ToolRequest.target request)) <= target_limit)%Z.
Proof.
  unfold _matches, _safe_policy_regex_search. intros Hm Hp Hne.
  assert (truthy p = true) as Htp by by destruct p.
  rewrite !unless_Ok_true in Hm. destruct Hm as (_ & _ & _ & _ & _ & Hm).
  destruct (Z.ltb_spec target_limit (utf8_len (default "" (ToolRequest.target request))));
    [exfalso|lia].
  destruct Hp as [Hp|Hp]; rewrite Hp, Htp in Hm; [done|].
  apply bind_Ok_inv in Hm as (m & Hm1 & Hm2). rewrite unless_Ok_true in Hm2. by destruct Hm2.
Qed.

Abbreviation eval := (evaluate re_search target_limit).
Abbreviation eval_rules := (evaluate_rules re_search target_limit).

(** What the evaluation loop returns, after the rules already evaluated. *)
Definition first_decisive (e : PolicyEngine) (rs : list PolicyRule.t) (seen : list string)
    (request : ToolRequest.t) (ctx : pydict) (d : PolicyDecision.t) : Prop :=
  (exists pre rule post,
     rs = pre ++ rule :: post /\
     (forall r, r ∈ pre -> matches r request ctx = Ok false) /\
     let ids := seen ++ (PolicyRule.id <$> pre) ++ [PolicyRule.id rule] in
     ((matches rule request ctx = Ok true /\ d = match_decision e rule ids) \/
      (exists exc, matches rule request ctx = Raise (GuardError exc) /\
                   d = guard_decision e rule exc ids))) \/
  ((forall r, r ∈ rs -> matches r request ctx = Ok false) /\
   d = fallback_decision e (seen ++ (PolicyRule.id <$> rs))).

Lemma first_decisive_skip e r rs seen request ctx d :
  matches r request ctx = Ok false ->
  first_decisive e (r :: rs) seen request ctx d <->
  first_decisive e rs (seen ++ [PolicyRule.id r]) request ctx d.
Proof.
  intros Hr. unfold first_decisive. split.
  - intros [([|r' pre] & rule & post & Heq & Hpre & Hd)|[Hall ->]].
    + injection Heq as <- <-. rewrite Hr in Hd. naive_solver congruence.
    + injection Heq as <- ->. left. exists pre, rule, post. split; [done|].
      split; [intros x Hx; apply Hpre; set_solver|].
      cbn in Hd |- *. by rewrite <- !app_assoc.
    + right. split; [intros x Hx; apply Hall; set_solver|].
      cbn. by rewrite <- !app_assoc.
  - intros [(pre & rule & post & -> & Hpre & Hd)|[Hall ->]].
    + left. exists (r :: pre), rule, post. split; [done|].
      split; [intros x [->|Hx]%elem_of_cons; [done|by apply Hpre]|].
      cbn in Hd |- *. by rewrite <- !app_assoc in Hd.
    + right. split; [intros x [->|Hx]%elem_of_cons; [done|by apply Hall]|].
      cbn. by rewrite <- !app_assoc.
Qed.

Lemma evaluate_rules_spec e rs seen request ctx d :
  eval_rules e rs seen request ctx = Ok d <-> first_decisive e rs seen request ctx d.
Proof.
  revert seen. induction rs as [|r rs IH]; intros seen; cbn.
  - unfold first_decisive. rewrite app_nil_r. split.
    + intros [= <-]. right. split; [set_solver|done].
    + intros [([|] & ? & ? & ? & _)|[_ ->]]; done.
  - destruct (matches r request ctx) as [[]|[exc|]] eqn:Hm.
    + split.
      * intros [= <-]. left. exists [], r, rs. split; [done|]. split; [set_solver|]. by left.
      * intros [([|r' pre] & rule & post & Heq & Hpre & Hd)|[Hall _]].
        -- injection Heq as <- <-. rewrite Hm in Hd. naive_solver congruence.
        -- injection Heq as <- ->. rewrite (Hpre r) in Hm by set_solver. done.
        -- rewrite (Hall r) in Hm by set_solver. done.
    + rewrite IH. symmetry. by apply first_decisive_skip.
    + split.
      * intros [= <-]. left. exists [], r, rs. split; [done|]. split; [set_solver|].
        right. by exists exc.
      * intros [([|r' pre] & rule & post & Heq & Hpre & Hd)|[Hall _]].
        -- injection Heq as <- <-. rewrite Hm in Hd. naive_solver congruence.
        -- injection Heq as <- ->. rewrite (Hpre r) in Hm by set_solver. done.
        -- rewrite (Hall r) in Hm by set_solver. done.
    + split; [done|].
      intros [([|r' pre] & rule & post & Heq & Hpre & Hd)|[Hall _]].
      * injection Heq as <- <-. rewrite Hm in Hd. naive_solver congruence.
      * injection Heq as <- ->. rewrite (Hpre r) in Hm by set_solver. done.
      * rewrite (Hall r) in Hm by set_solver. done.
Qed.

End MatchLemmas.

Lemma validate_rules_Ok re_compiles pattern_limit seen rs :
  validate_rules re_compiles pattern_limit seen rs = Ok () ->
  NoDup (PolicyRule.id <$> rs) /\
  (forall r, r ∈ rs -> PolicyRule.id r ∉ seen /\
     forall p, PolicyRule.target_matches r = Some p \/ PolicyRule.target_not_matches r = Some p ->
       re_compiles p = true /\ (utf8_len p <= pattern_limit)%Z).
Proof.
  revert seen. induction rs as [|r rs IH]; intros seen; cbn.
  - split; [constructor|set_solver].
  - intros (u & Hu & Hv)%bind_Ok_inv. destruct u. apply ensure_Ok in Hu.
    apply negb_true_iff in Hu. apply bind_Ok_inv in Hv as ([] & Hp & [Hnd Hall]%IH).
    assert (PolicyRule.id r ∉ seen) as Hr by (rewrite <- mem_spec, Hu; done).
    split.
    + constructor; [|done]. intros (r' & Heq & Hr')%list_elem_of_fmap.
      destruct (Hall r' Hr') as [Hns _]. rewrite <- Heq in Hns. set_solver.
    + intros r' [->|Hr']%elem_of_cons; [|destruct (Hall r' Hr') as [? ?]; set_solver].
      split; [done|]. intros p Hor. unfold validate_rule_patterns in Hp.
      apply bind_Ok_inv in Hp as ([] & H1 & H2).
      assert (Hone : forall f, _validate_policy_regex_pattern re_compiles pattern_limit
                (PolicyRule.id r) f p = Ok () ->
                re_compiles p = true /\ (utf8_len p <= pattern_limit)%Z).
      { intros f. unfold _validate_policy_regex_pattern.
        destruct (Z.ltb_spec pattern_limit (utf8_len p)); [done|].
        rewrite ensure_Ok. intros ->. split; [done|lia]. }
      destruct Hor as [Ho|Ho]; rewrite Ho in *; eauto.
Qed.

(** In a sorted list a strictly largest element is last. *)
Lemma sorted_strict_max_last rs t :
  StronglySorted rule_le rs -> t ∈ rs ->
  (forall r, r ∈ rs -> r = t \/ (PolicyRule.priority r < PolicyRule.priority t)%Z) ->
  NoDup (PolicyRule.id <$> rs) ->
  exists pre, rs = pre ++ [t].
Proof.
  induction 1 as [|r rs Hs IH Hr]; [by intros ?%elem_of_nil|].
  intros Hin Hmax [Hnin Hnd]%NoDup_cons.
  destruct rs as [|r' rs].
  - apply list_elem_of_singleton in Hin as ->. by exists [].
  - apply elem_of_cons in Hin as [->|Ht].
    + exfalso. destruct (Hmax r') as [->|Hlt]; [set_solver|set_solver|].
      apply Forall_cons_1 in Hr as [Hr _]. unfold rule_le in Hr. lia.
    + destruct IH as [pre ->]; [done|intros x Hx; apply Hmax; set_solver|done|].
      by exists (r :: pre).
Qed.

(** ** Properties *)

(** The evaluation of a policy is the declarative one: it returns exactly the
    decision of the first rule that guards or matches, in order, or the
    default when none does. *)
Theorem evaluate_first_match re_search target_limit e request ctx d :
  evaluate re_search target_limit e request ctx = Ok d <->
  first_decisive re_search target_limit e (rules e) [] request ctx d.
Proof. apply evaluate_rules_spec. Qed.

(** An engine holds exactly the given rules, in non-increasing priority, and
    rules of one priority keep their order. *)
Theorem make_engine_priority_order rs version dflt :
  Permutation (rules (make_engine rs version dflt)) rs /\
  StronglySorted rule_le (rules (make_engine rs version dflt)) /\
  forall p, List.filter (has_priority p) (rules (make_engine rs version dflt))
            = List.filter (has_priority p) rs.
Proof.
  split; [apply sort_rules_perm|]. split; [apply sort_rules_sorted|].
  intros p. apply sort_rules_stable.
Qed.

(** A schema accepted under the production-safe profile puts its only
    catch-all rule last, and that rule neither allows nor simulates. *)
Lemma matched_conditions_nil rule :
  _matched_conditions rule = [] -> _is_terminal_catch_all_rule rule = true.
Proof. unfold _is_terminal_catch_all_rule. by intros ->. Qed.

Lemma production_safe_shape re_compiles pattern_limit schema e :
  engine_of_schema re_compiles pattern_limit schema (Some PRODUCTION_SAFE_POLICY_PROFILE) = Ok e ->
  exists pre t, rules e = pre ++ [t] /\ _is_terminal_catch_all_rule t = true /\
    _is_allowed (PolicyRule.decision t) = false /\
    (forall r, r ∈ pre -> _is_terminal_catch_all_rule r = false) /\
    (forall r, r ∈ rules e <-> r ∈ PolicySchema.rules schema) /\
    _is_allowed (default_decision e) = false.
Proof.
  unfold engine_of_schema, _validate_policy_schema.
  intros ([] & (  [] & Hrules & ([] & Hdef & Hterm)%bind_Ok_inv)%bind_Ok_inv & [= <-])%bind_Ok_inv.
  cbn in Hdef, Hterm. apply ensure_Ok, negb_true_iff in Hdef.
  apply validate_rules_Ok in Hrules as [Hnd _].
  unfold _validate_terminal_catch_all in Hterm.
  destruct (List.filter _is_terminal_catch_all_rule (PolicySchema.rules schema))
    as [|t [|? ?]] eqn:Hf; [done| |done].
  apply bind_Ok_inv in Hterm as ([] & Hdis & Hlast).
  apply ensure_Ok, negb_true_iff, bool_decide_eq_false in Hdis.
  apply ensure_Ok in Hlast. rewrite forallb_elem_of in Hlast.
  assert (Hmem : forall r, r ∈ sort_rules (PolicySchema.rules schema)
                   <-> r ∈ PolicySchema.rules schema).
  { intros r. by rewrite sort_rules_perm. }
  assert (Ht : t ∈ PolicySchema.rules schema /\ _is_terminal_catch_all_rule t = true).
  { apply elem_of_lfilter. rewrite Hf. set_solver. }
  destruct Ht as [Ht Hct].
  assert (Hnd' : NoDup (PolicyRule.id <$> sort_rules (PolicySchema.rules schema)))
    by (eapply NoDup_Permutation_proper; [apply fmap_Permutation, sort_rules_perm|done]).
  assert (Hid : forall r, r ∈ PolicySchema.rules schema ->
            PolicyRule.id r = PolicyRule.id t -> r = t).
  { intros r Hr Heq. exact (NoDup_fmap_inj PolicyRule.id _ _ _ Hnd Hr Ht Heq). }
  destruct (sorted_strict_max_last (sort_rules (PolicySchema.rules schema)) t) as [pre Hpre];
    [apply sort_rules_sorted|by apply Hmem| |done|].
  { intros r Hr%Hmem. specialize (Hlast r Hr). apply orb_true_iff in Hlast as [Heq|Hlt].
    - left. apply Hid; [done|by apply String.eqb_eq].
    - right. apply negb_true_iff, Z.leb_gt in Hlt. lia. }
  exists pre, t. cbn. rewrite Hpre. split_and!; try done.
  - destruct (PolicyRule.decision t); try done; exfalso; apply Hdis; cbn; set_solver.
  - intros r Hr. destruct (_is_terminal_catch_all_rule r) eqn:Hcr; [|done]. exfalso.
    assert (r = t) as ->.
    { apply list_elem_of_singleton. rewrite <- Hf. apply elem_of_lfilter. split; [|done].
      apply Hmem. rewrite Hpre. set_solver. }
    rewrite Hpre, fmap_app in Hnd'. apply NoDup_app in Hnd' as (_ & Hdisj & _).
    apply (Hdisj (PolicyRule.id t)); [by apply list_elem_of_fmap_2|cbn; set_solver].
  - intros r. rewrite <- Hpre. apply Hmem.
Qed.

(** C35 Under the production-safe profile every decision comes from a rule of the
    policy, never from a default, and an allowed request is one that an
    allowing rule with a condition matched. *)
Theorem production_safe_fail_closed re_search re_compiles pattern_limit target_limit
    schema e request ctx d :
  engine_of_schema re_compiles pattern_limit schema (Some PRODUCTION_SAFE_POLICY_PROFILE) = Ok e ->
  evaluate re_search target_limit e request ctx = Ok d ->
  (exists rule, rule ∈ PolicySchema.rules schema /\
     PolicyDecision.policy_id d = Some (PolicyRule.id rule)) /\
  (PolicyDecision.allowed d = true ->
   exists rule, rule ∈ PolicySchema.rules schema /\
     _matched_conditions rule <> [] /\
     _matches re_search target_limit rule request ctx = Ok true /\
     _is_allowed (PolicyRule.decision rule) = true /\
     PolicyDecision.policy_id d = Some (PolicyRule.id rule)).
Proof.
  intros (pre & t & Hrs & Hct & Hdt & Hpre & Hmem & _)%production_safe_shape Heval.
  apply evaluate_rules_spec in Heval.
  destruct Heval as [(pre' & rule & post & Heq & Hskip & Hd)|[Hall _]].
  - assert (Hin : rule ∈ PolicySchema.rules schema) by (apply Hmem; rewrite Heq; set_solver).
    destruct Hd as [[Hm ->]|(exc & Hm & ->)]; (split; [by exists rule|]); [|done].
    cbn [PolicyDecision.allowed match_decision]. intros Hal. exists rule. split_and!; try done.
    intros Hc%matched_conditions_nil.
    assert (rule ∈ pre ++ [t]) as [Hp|Hp%list_elem_of_singleton]%elem_of_app
      by (rewrite <- Hrs, Heq; set_solver).
    + by rewrite Hpre in Hc.
    + subst. by rewrite Hdt in Hal.
  - rewrite Hrs in Hall.
    pose proof (catch_all_matches re_search target_limit t request ctx Hct) as Hm.
    rewrite Hall in Hm by set_solver. done.
Qed.

(** The runtime guard: a request allowed by a rule with a regular expression
    on the target has a target within the size limit, so that an oversized
    target can not be matched by such a rule. *)
Theorem oversized_target_never_matches re_search target_limit e request ctx d rule p :
  evaluate re_search target_limit e request ctx = Ok d ->
  PolicyDecision.allowed d = true ->
  rule ∈ rules e ->
  PolicyDecision.policy_id d = Some (PolicyRule.id rule) ->
  NoDup (PolicyRule.id <$> rules e) ->
  PolicyRule.target_matches rule = Some p \/ PolicyRule.target_not_matches rule = Some p ->
  p <> "" ->
  (utf8_len (default "" (ToolRequest.target request)) <= target_limit)%Z.
Proof.
  intros Heval Hal Hin Hid Hnd Hp Hne. apply evaluate_rules_spec in Heval.
  destruct Heval as [(pre & r & post & Heq & _ & [[Hm ->]|(exc & _ & ->)])|[_ ->]]; [|done|done].
  cbn in Hid. injection Hid as Hid.
  assert (r = rule) as ->.
  { eapply (NoDup_fmap_inj PolicyRule.id); [done| |done|done]. rewrite Heq. set_solver. }
  eapply matches_target_within_limit; eauto.
Qed.

(** *** Concrete policies *)

(** resources/policies/production_safe_policy.yaml, four of its rules. *)
Definition production_safe_schema : PolicySchema.t :=
  PolicySchema.mk "policy.v2" REQUIRE_APPROVAL
    [PolicyRule.mk "block-critical-risk" BLOCK SevCritical "critical" 5 None None None None None
       None None None None [] [] (Some "critical"%string) None;
     PolicyRule.mk "block-high-risk-score" BLOCK SevCritical "score" 10 None None None None None
       None None None None [] [] None (Some (85, 0)%Z);
     PolicyRule.mk "simulate-external-api-send" SIMULATE SevMedium "simulated" 50
       (Some "external_api_send"%string) None None None None None None None None [] [] None None;
     PolicyRule.mk "production-safe-terminal-approval" REQUIRE_APPROVAL SevHigh "unmatched" 1000
       None None None None None None None None None [] [] None None].

Definition any_pattern (p : string) : bool := true.
Definition never_found (p s : string) : bool := false.

Definition send_request : ToolRequest.t :=
  ToolRequest.mk "external_api_send" None (Some "api") PNone "alice" "agent" "prod" [].

Lemma production_safe_witness :
  match engine_of_schema any_pattern 1000 production_safe_schema
          (Some PRODUCTION_SAFE_POLICY_PROFILE) with
  | Ok e =>
      match evaluate never_found 4096 e send_request [("risk_score", PInt 20)] with
      | Ok d =>
          PolicyDecision.allowed d = true /\
          (exists rule, rule ∈ PolicySchema.rules production_safe_schema /\
             PolicyDecision.policy_id d = Some (PolicyRule.id rule)) /\
          (PolicyDecision.allowed d = true ->
           exists rule, rule ∈ PolicySchema.rules production_safe_schema /\
             _matched_conditions rule <> [] /\
             _matches never_found 4096 rule send_request [("risk_score", PInt 20)] = Ok true /\
             _is_allowed (PolicyRule.decision rule) = true /\
             PolicyDecision.policy_id d = Some (PolicyRule.id rule))
      | Raise _ => False
      end
  | Raise _ => False
  end.
Proof.
  destruct (engine_of_schema any_pattern 1000 production_safe_schema
              (Some PRODUCTION_SAFE_POLICY_PROFILE)) as [e|x] eqn:Ee;
    [|vm_compute in Ee; discriminate Ee].
  destruct (evaluate never_found 4096 e send_request [("risk_score", PInt 20)]) as [d|x] eqn:Ed.
  - split.
    + vm_compute in Ee. injection Ee as <-. vm_compute in Ed. injection Ed as <-. reflexivity.
    + apply (production_safe_fail_closed never_found any_pattern 1000 4096
               production_safe_schema e send_request [("risk_score", PInt 20)] d Ee Ed).
  - vm_compute in Ee. injection Ee as <-. vm_compute in Ed. discriminate Ed.
Defined.

(** A blank catch-all that allows is refused. *)
Example production_safe_rejects_allow :
  engine_of_schema any_pattern 1000
    (PolicySchema.mk "policy.v2" BLOCK
       [PolicyRule.mk "all" ALLOW SevLow "r" 1 None None None None None None None None None [] []
          None None]) (Some PRODUCTION_SAFE_POLICY_PROFILE)
  = Raise (TerminalAllows "production-safe").
Proof. vm_compute. reflexivity. Qed.

Definition read_rule : PolicyRule.t :=
  PolicyRule.mk "docs" ALLOW SevLow "docs" 1 None None None None None (Some "^docs/"%string) None
    None None [] [] None None.

Lemma oversized_target_witness :
  match evaluate (fun p s => startswith s "docs/") 16
          (make_engine [read_rule] "policy.v2" BLOCK)
          (ToolRequest.mk "file_read" None (Some "docs/a.md"%string) PNone "u" "a" "e" []) [] with
  | Ok d => PolicyDecision.allowed d = true /\ (utf8_len "docs/a.md" <= 16)%Z
  | Raise _ => False
  end.
Proof.
  set (req := ToolRequest.mk "file_read" None (Some "docs/a.md"%string) PNone "u" "a" "e" []).
  set (eng := make_engine [read_rule] "policy.v2" BLOCK).
  destruct (evaluate (fun p s => startswith s "docs/") 16 eng req []) as [d|x] eqn:Ed.
  - assert (Ha : PolicyDecision.allowed d = true /\
                 PolicyDecision.policy_id d = Some (PolicyRule.id read_rule)).
    { vm_compute in Ed. injection Ed as <-. split; reflexivity. }
    destruct Ha as [Ha Hid]. split; [exact Ha|].
    apply (oversized_target_never_matches (fun p s => startswith s "docs/") 16 eng req [] d
             read_rule "^docs/" Ed Ha);
      [vm_compute; set_solver|exact Hid|vm_compute; apply NoDup_singleton|left; reflexivity|discriminate].
  - vm_compute in Ed. discriminate Ed.
Defined.
