(* ===== verification/Regex.v ===== *)
(** * Regular expressions

    The part of Python's [re] the sources use: a syntax of expressions, a
    backtracking matcher that lists the ends of all matches at a position in
    the order [re] tries them, and [search] and [sub] built on it.  A position
    is the character before it and the text from it on, so that word
    boundaries can be tested.  [runs_spec] states that the matcher finds
    exactly the matches of the declarative semantics [rmatch]. *)

From S2P Require Export PyStr.

(** ** Definitions *)

Definition pos : Type := option ascii * string.

Inductive regex : Type :=
  | REps
  | RChar (p : ascii -> bool)
  | RSeq (a b : regex)
  | RAlt (a b : regex)
  | RStar (a : regex)
  | RWordB
  | RBegin
  | REnd.

(** [\w] below code point 256: letters, digits, other numerics, underscore. *)
Definition is_word (c : ascii) : bool :=
  let n := code c in
  in_range 48 57 n || in_range 65 90 n || (n =? 95)%N || in_range 97 122 n ||
  existsb (N.eqb n) [170; 178; 179; 181; 185; 186; 188; 189; 190]%N ||
  (in_range 192 255 n && negb (n =? 215)%N && negb (n =? 247)%N).

Definition is_word_opt (o : option ascii) : bool :=
  match o with Some c => is_word c | None => false end.

Definition head_char (s : string) : option ascii :=
  match s with String c _ => Some c | EmptyString => None end.

Definition word_boundary (st : pos) : bool :=
  xorb (is_word_opt (fst st)) (is_word_opt (head_char (snd st))).

Definition plen (st : pos) : nat := String.length (snd st).

(** [$]: at the end or before a final newline. *)
Definition at_end (s : string) : bool :=
  String.eqb s "" || String.eqb s (String (ascii_of_N 10) "").

Section Star.
Context (step : pos -> list pos).

(** Greedy iteration; an iteration that consumes nothing stops the loop. *)
Fixpoint star_runs (fuel : nat) (st : pos) : list pos :=
  match fuel with
  | O => [st]
  | S n =>
      flat_map (fun st' => if (plen st' <? plen st)%nat then star_runs n st' else [])
               (step st) ++ [st]
  end.
End Star.

Fixpoint runs (r : regex) (st : pos) : list pos :=
  match r with
  | REps => [st]
  | RChar p =>
      match snd st with
      | String c s => if p c then [(Some c, s)] else []
      | EmptyString => []
      end
  | RSeq a b => flat_map (runs b) (runs a st)
  | RAlt a b => runs a st ++ runs b st
  | RStar a => star_runs (runs a) (plen st) st
  | RWordB => if word_boundary st then [st] else []
  | RBegin => match fst st with None => [st] | Some _ => [] end
  | REnd => if at_end (snd st) then [st] else []
  end.

(** [bool(re.search(r, s))] *)
Fixpoint search_from (r : regex) (prev : option ascii) (s : string) : bool :=
  match runs r (prev, s) with
  | _ :: _ => true
  | [] => match s with EmptyString => false | String c s' => search_from r (Some c) s' end
  end.

Definition search (r : regex) (s : string) : bool := search_from r None s.

(** The first [n] characters. *)
Fixpoint take_chars (n : nat) (s : string) : string :=
  match n, s with
  | S n', String c s' => String c (take_chars n' s')
  | _, _ => EmptyString
  end.

(** [re.sub(r, f, s)] for an expression that matches no empty string. *)
Fixpoint sub_from (fuel : nat) (r : regex) (f : string -> string)
    (prev : option ascii) (s : string) : string :=
  match fuel with
  | O => s
  | S n =>
      match runs r (prev, s) with
      | (prev', s') :: _ =>
          f (take_chars (String.length s - String.length s') s) +++ sub_from n r f prev' s'
      | [] =>
          match s with
          | EmptyString => EmptyString
          | String c s' => String c (sub_from n r f (Some c) s')
          end
      end
  end.

Definition sub (r : regex) (f : string -> string) (s : string) : string :=
  sub_from (S (String.length s)) r f None s.

(** [re.findall(r, s)] for an expression without groups that matches no empty
    string. *)
Fixpoint findall_from (fuel : nat) (r : regex) (prev : option ascii) (s : string) : list string :=
  match fuel with
  | O => []
  | S n =>
      match runs r (prev, s) with
      | (prev', s') :: _ =>
          take_chars (String.length s - String.length s') s :: findall_from n r prev' s'
      | [] =>
          match s with
          | EmptyString => []
          | String c s' => findall_from n r (Some c) s'
          end
      end
  end.

Definition findall (r : regex) (s : string) : list string :=
  findall_from (S (String.length s)) r None s.

(** *** Combinators *)

Definition rchar (c : ascii) : regex := RChar (Ascii.eqb c).

(** A literal under [(?i)]. *)
Definition ichar (c : ascii) : regex := RChar (fun d => Ascii.eqb (lower_char c) (lower_char d)).

Fixpoint rlit (s : string) : regex :=
  match s with
  | EmptyString => REps
  | String c s' => RSeq (rchar c) (rlit s')
  end.

Fixpoint ilit (s : string) : regex :=
  match s with
  | EmptyString => REps
  | String c s' => RSeq (ichar c) (ilit s')
  end.

Fixpoint ralts (l : list regex) : regex :=
  match l with
  | [] => RChar (fun _ => false)
  | [r] => r
  | r :: l' => RAlt r (ralts l')
  end.

Fixpoint rseqs (l : list regex) : regex :=
  match l with
  | [] => REps
  | [r] => r
  | r :: l' => RSeq r (rseqs l')
  end.

Definition ropt (r : regex) : regex := RAlt r REps.
Definition rplus (r : regex) : regex := RSeq r (RStar r).

Fixpoint rrep (n : nat) (r : regex) : regex :=
  match n with O => REps | S n' => RSeq r (rrep n' r) end.

(** [r{n,}] *)
Definition rrep_ge (n : nat) (r : regex) : regex := RSeq (rrep n r) (RStar r).

Definition is_digit (c : ascii) : bool := in_range 48 57 (code c).
Definition is_ascii_letter (c : ascii) : bool :=
  in_range 65 90 (code c) || in_range 97 122 (code c).

(** ** Declarative semantics *)

Inductive rmatch : regex -> pos -> pos -> Prop :=
  | m_eps st : rmatch REps st st
  | m_char p prev c s : p c = true -> rmatch (RChar p) (prev, String c s) (Some c, s)
  | m_seq a b st1 st2 st3 : rmatch a st1 st2 -> rmatch b st2 st3 -> rmatch (RSeq a b) st1 st3
  | m_alt_l a b st st' : rmatch a st st' -> rmatch (RAlt a b) st st'
  | m_alt_r a b st st' : rmatch b st st' -> rmatch (RAlt a b) st st'
  | m_star_stop a st : rmatch (RStar a) st st
  | m_star_step a st1 st2 st3 :
      rmatch a st1 st2 -> plen st2 < plen st1 -> rmatch (RStar a) st2 st3 ->
      rmatch (RStar a) st1 st3
  | m_wordb st : word_boundary st = true -> rmatch RWordB st st
  | m_begin s : rmatch RBegin (None, s) (None, s)
  | m_end st : at_end (snd st) = true -> rmatch REnd st st.

(** ** Lemmas *)

Lemma star_runs_sound (a : regex) n st st' :
  (forall st st', st' ∈ runs a st -> rmatch a st st') ->
  st' ∈ star_runs (runs a) n st -> rmatch (RStar a) st st'.
Proof.
  intros Ha. revert st. induction n as [|n IH]; intros st; cbn [star_runs].
  - intros ->%list_elem_of_singleton. constructor.
  - intros [(x & Hx & Hin)%elem_of_flat_map|Heq%list_elem_of_singleton]%elem_of_app;
      [|subst; constructor].
    destruct (plen x <? plen st)%nat eqn:Hlt; [|by apply elem_of_nil in Hin].
    apply Nat.ltb_lt in Hlt. eapply m_star_step; eauto.
Qed.

Lemma star_runs_complete (a : regex) :
  (forall st st', rmatch a st st' -> st' ∈ runs a st) ->
  forall st st', rmatch (RStar a) st st' ->
  forall n, plen st <= n -> st' ∈ star_runs (runs a) n st.
Proof.
  intros Ha st st' H. remember (RStar a) as r eqn:Hr.
  induction H; try discriminate Hr.
  - intros [|n] _; cbn; set_solver.
  - injection Hr as ->. intros [|n] Hn; [lia|]. cbn [star_runs].
    apply elem_of_app. left. apply elem_of_flat_map. exists st2. split; [by apply Ha|].
    rewrite (proj2 (Nat.ltb_lt _ _)) by lia. apply IHrmatch2; [done|lia].
Qed.

Lemma runs_sound r st st' : st' ∈ runs r st -> rmatch r st st'.
Proof.
  revert st st'. induction r as [ |p|a IHa b IHb|a IHa b IHb|a IHa| | | ];
    intros st st'; cbn [runs].
  - intros ->%list_elem_of_singleton. constructor.
  - destruct st as [prev [|c s]]; cbn; [by intros ?%elem_of_nil|].
    destruct (p c) eqn:Hp; [|by intros ?%elem_of_nil].
    intros ->%list_elem_of_singleton. by constructor.
  - intros (x & Hx & Hy)%elem_of_flat_map. eapply m_seq; eauto.
  - intros [H|H]%elem_of_app; [apply m_alt_l|apply m_alt_r]; eauto.
  - by apply star_runs_sound.
  - destruct (word_boundary st) eqn:E; [|by intros ?%elem_of_nil].
    intros ->%list_elem_of_singleton. by constructor.
  - destruct st as [[c|] s]; cbn; [by intros ?%elem_of_nil|].
    intros ->%list_elem_of_singleton. constructor.
  - destruct (at_end (snd st)) eqn:E; [|by intros ?%elem_of_nil].
    intros ->%list_elem_of_singleton. by constructor.
Qed.

Local Ltac by_test :=
  match goal with H : _ = true |- _ => rewrite H end; set_solver.

Lemma runs_complete r st st' : rmatch r st st' -> st' ∈ runs r st.
Proof.
  revert st st'. induction r as [ |p|a IHa b IHb|a IHa b IHb|a IHa| | | ];
    intros st st' H; inversion H; subst; cbn [runs].
  - set_solver.
  - cbn. by_test.
  - apply elem_of_flat_map. eauto.
  - apply elem_of_app. eauto.
  - apply elem_of_app. eauto.
  - by apply star_runs_complete.
  - by apply star_runs_complete.
  - by_test.
  - cbn. set_solver.
  - by_test.
Qed.

(** The matcher computes the declarative semantics. *)
Lemma runs_spec r st st' : st' ∈ runs r st <-> rmatch r st st'.
Proof. split; [apply runs_sound|apply runs_complete]. Qed.

(** The text after the prefix [u], with the character before it. *)
Fixpoint last_char (prev : option ascii) (u : string) : option ascii :=
  match u with EmptyString => prev | String c u' => last_char (Some c) u' end.

Lemma search_from_spec r prev s :
  search_from r prev s = true <->
  exists u v st, s = u +++ v /\ rmatch r (last_char prev u, v) st.
Proof.
  revert prev. induction s as [|c s IH]; intros prev; cbn [search_from].
  - destruct (runs r (prev, "")) as [|st l] eqn:E.
    + split; [done|]. intros ([|? ?] & v & st & Heq & Hm); [|done]. cbn in *. subst v.
      apply runs_complete in Hm. rewrite E in Hm. by apply elem_of_nil in Hm.
    + split; [|done]. intros _. exists "", "", st. split; [done|]. cbn.
      apply runs_sound. rewrite E. set_solver.
  - destruct (runs r (prev, String c s)) as [|st l] eqn:E.
    + rewrite IH. split.
      * intros (u & v & st & -> & Hm). by exists (String c u), v, st.
      * intros ([|d u] & v & st & Heq & Hm); cbn in *.
        -- subst v. apply runs_complete in Hm. rewrite E in Hm. by apply elem_of_nil in Hm.
        -- injection Heq as <- ->. by exists u, v, st.
    + split; [|done]. intros _. exists "", (String c s), st. split; [done|]. cbn.
      apply runs_sound. rewrite E. set_solver.
Qed.

(** [re.search] succeeds iff some suffix position has a match. *)
Lemma search_spec r s :
  search r s = true <->
  exists u v st, s = u +++ v /\ rmatch r (last_char None u, v) st.
Proof. apply search_from_spec. Qed.

Example sub_example :
  sub (rplus (RChar is_digit)) (fun m => "<" +++ m +++ ">") "a12b3"
    = "a<12>b<3>"%string.
Proof. reflexivity. Qed.
