(* ===== verification/Security.v ===== *)
(** * security.py: redaction, shell and sandbox validation

    [redact_sensitive_value] and its helpers over nested Python values, the
    secret patterns as expressions of [Regex], the shell-command allowlist on
    top of [Shlex], and the sandbox containment test, whose
    [Path.resolve()] is a parameter (it reads the file system).
    [validate_http_url] is in [Url]. *)

From S2P Require Export PyValue Regex Shlex.

(** ** Definitions *)

Definition REDACTED : string := "[REDACTED]".

Definition SENSITIVE_KEYWORDS : list string :=
  ["password"; "passwd"; "secret"; "token"; "api_key"; "apikey"; "access_key";
   "private_key"; "credential"; "authorization"].

Definition one_of (chars : string) : ascii -> bool :=
  fun c => contains chars (String c "").

Definition spaces : regex := RStar (RChar is_space).

(** [[^\s,;]+] *)
Definition secret_text : regex :=
  rplus (RChar (fun c => negb (is_space c) && negb (one_of ",;" c))).

(** [\s*[:=]\s*[^\s,;]+] *)
Definition assigned : regex := rseqs [spaces; RChar (one_of ":="); spaces; secret_text].

Definition key_char (dash : bool) (c : ascii) : bool :=
  is_ascii_letter c || is_digit c || Ascii.eqb c "_" || (dash && Ascii.eqb c "-").

Definition SECRET_PATTERNS : list regex :=
  [ RSeq (ralts [rseqs [ilit "api"; ropt (RChar (one_of "_-")); ilit "key"];
                 ilit "token"; ilit "secret"; ilit "password"; ilit "passwd"]) assigned;
    rseqs [ilit "private"; ropt (RChar (one_of "_-")); ilit "key"];
    RSeq (ilit "aws_access_key_id") assigned;
    RSeq (ilit "aws_secret_access_key") assigned;
    RSeq (rlit "sk-") (rrep_ge 12 (RChar (key_char true)));
    RSeq (rlit "github_pat_") (rplus (RChar (key_char false))) ].

Definition is_sensitive_key (key : string) : bool :=
  contains_any SENSITIVE_KEYWORDS (replace_char "-" "_" (lower key)).

(** [raw.split(sep, 1)[0]] *)
Definition before (sep : ascii) (raw : string) : string :=
  match split_on sep raw with w :: _ => w | [] => raw end.

Definition _redact_match (raw : string) : string :=
  if contains raw "=" then strip (before "=" raw) +++ "=" +++ REDACTED
  else if contains raw ":" then strip (before ":" raw) +++ ": " +++ REDACTED
  else REDACTED.

Definition redact_sensitive_string (value : string) : string :=
  fold_left (fun redacted pattern => sub pattern _redact_match redacted)
            SECRET_PATTERNS value.

(** [key.lower()] on a key that is not a string. *)
Definition no_lower (k : pyval) : exn :=
  mk_exn AttributeError "AttributeError" "object has no attribute 'lower'".

Fixpoint redact_sensitive_value (value : pyval) : result exn pyval :=
  match value with
  | PStr s => Ok (PStr (redact_sensitive_string s))
  | PList l => l' ← mapR redact_sensitive_value l; Ok (PList l')
  | PTuple l => l' ← mapR redact_sensitive_value l; Ok (PTuple l')
  | PDict d =>
      d' ← mapR (fun kv =>
             match kv with
             | (PStr key, item) =>
                 if is_sensitive_key key then Ok (PStr key, PStr REDACTED)
                 else item' ← redact_sensitive_value item; Ok (PStr key, item')
             | (k, _) => Raise (no_lower k)
             end) d;
      Ok (PDict d')
  | v => Ok v
  end.

(** The same on a [dict[str, Any]]. *)
Definition redact_dict (d : pydict) : result exn pydict :=
  mapR (fun kv =>
    if is_sensitive_key (fst kv) then Ok (fst kv, PStr REDACTED)
    else item' ← redact_sensitive_value (snd kv); Ok (fst kv, item')) d.

Definition stringify (value : pyval) : string :=
  match value with PNone => "" | v => py_str v end.

Definition text_has_secret (text : string) : bool :=
  existsb (fun pattern => search pattern text) SECRET_PATTERNS.

Fixpoint contains_secret (value : pyval) : bool :=
  match value with
  | PNone => false
  | PDict d =>
      existsb (fun kv =>
        match kv with
        | (key, item) => is_sensitive_key (py_str key) || contains_secret item
        end) d
  | PList l | PTuple l => existsb contains_secret l
  | v => text_has_secret (stringify v)
  end.

(** *** Shell commands *)

(** [SecurityViolation], by its message. *)
Inductive security_violation :=
  | TargetRequired | TargetNullByte | TargetOutside
  | ShellEmpty | ShellMetacharacter | ShellInvalid
  | ShellDangerous (name : string) | ShellNotAllowed (name : string).

Definition DANGEROUS_SHELL_TOKENS : list string :=
  ["rm"; "sudo"; "chmod"; "chown"; "mkfs"; "dd"; "nc"; "netcat"; "ssh"; "scp";
   "curl"; "wget"; "python"; "python3"; "bash"; "sh"].

Definition SHELL_METACHARACTERS : list string :=
  [";"; "&&"; "||"; "|"; "`"; "$()"; ">"; ">>"; "<"].

Definition DEFAULT_ALLOWED_SHELL_COMMANDS : list string := ["pwd"; "ls"; "cat"; "echo"].

Definition validate_shell_command (command_text : string)
    (allowed_commands : option (list string)) : result security_violation (list string) :=
  let allowed :=
    match allowed_commands with
    | None | Some [] => DEFAULT_ALLOWED_SHELL_COMMANDS
    | Some l => l
    end in
  if negb (truthy (strip command_text)) then Raise ShellEmpty
  else if contains_any SHELL_METACHARACTERS command_text then Raise ShellMetacharacter
  else
    match shlex_split command_text with
    | None => Raise ShellInvalid
    | Some [] => Raise ShellEmpty
    | Some ((command_name :: _) as command_parts) =>
        if mem command_name DANGEROUS_SHELL_TOKENS && negb (mem command_name allowed)
        then Raise (ShellDangerous command_name)
        else if negb (mem command_name allowed) then Raise (ShellNotAllowed command_name)
        else Ok command_parts
    end.

(** *** Sandbox containment *)

(** [p / target] *)
Definition path_join (p : PurePosixPath.t) (target : string) : PurePosixPath.t :=
  let t := PurePosixPath.of_string target in
  if PurePosixPath.is_absolute t then t
  else PurePosixPath.mk (PurePosixPath.root p)
         (PurePosixPath.comps p ++ PurePosixPath.comps t).

(** [p.parents], nearest first. *)
Fixpoint proper_prefixes (l : list string) : list (list string) :=
  match l with
  | [] => []
  | x :: l' => map (cons x) (proper_prefixes l') ++ [[]]
  end.

Definition path_parents (p : PurePosixPath.t) : list PurePosixPath.t :=
  map (PurePosixPath.mk (PurePosixPath.root p)) (proper_prefixes (PurePosixPath.comps p)).

#[export] Instance posix_path_eq_dec : EqDecision PurePosixPath.t.
Proof. solve_decision. Defined.

Definition resolve_path_inside_sandbox (resolve : PurePosixPath.t -> PurePosixPath.t)
    (sandbox_path : string) (target : option string)
    : result security_violation PurePosixPath.t :=
  match target with
  | None | Some EmptyString => Raise TargetRequired
  | Some target =>
      if contains target null_char then Raise TargetNullByte
      else
        let sandbox := resolve (PurePosixPath.of_string sandbox_path) in
        let candidate := resolve (path_join sandbox target) in
        if bool_decide (candidate <> sandbox) &&
           bool_decide (sandbox ∉ path_parents candidate)
        then Raise TargetOutside
        else Ok candidate
  end.

(** ** What redaction promises *)

(** Every entry under a sensitive key, at any depth, holds the marker. *)
Fixpoint keys_masked (value : pyval) : bool :=
  match value with
  | PList l | PTuple l => forallb keys_masked l
  | PDict d =>
      forallb (fun kv =>
        match kv with
        | (PStr key, item) =>
            if is_sensitive_key key then py_eq item (PStr REDACTED) else keys_masked item
        | _ => false
        end) d
  | _ => true
  end.

(** The shape that redaction keeps: constructors, lengths and keys. *)
Fixpoint same_shape (a b : pyval) {struct a} : bool :=
  let same_list := fix go (xs ys : list pyval) : bool :=
    match xs, ys with
    | [], [] => true
    | x :: xs', y :: ys' => same_shape x y && go xs' ys'
    | _, _ => false
    end in
  match a, b with
  | PStr _, PStr _ => true
  | PList l, PList l' | PTuple l, PTuple l' => same_list l l'
  | PDict d, PDict d' =>
      (fix go (xs ys : list (pyval * pyval)) : bool :=
         match xs, ys with
         | [], [] => true
         | (PStr k, x) :: xs', (PStr k', y) :: ys' =>
             String.eqb k k' && (is_sensitive_key k || same_shape x y) && go xs' ys'
         | _, _ => false
         end) d d'
  | PNone, PNone => true
  | PBool x, PBool y => Bool.eqb x y
  | PInt x, PInt y => (x =? y)%Z
  | PFloat m e _, PFloat m' e' _ => (m =? m')%Z && (e =? e')%Z
  | _, _ => false
  end.

(** ** Lemmas *)

Lemma redact_keys_masked v w : redact_sensitive_value v = Ok w -> keys_masked w = true.
Proof.
  revert w. induction v as [ | | | | |l IH|l IH|d IH] using pyval_nested_ind;
    intros w; cbn [redact_sensitive_value]; try (by intros [= <-]).
  - intros (l' & Hl%mapR_Ok_Forall2 & [= <-])%bind_Ok_inv. cbn.
    apply forallb_elem_of. intros y Hy.
    apply (Forall2_Forall_r _ (fun y => keys_masked y = true)) with (l := l) in Hl;
      [|by eapply Forall_impl; [exact IH|]; cbn; eauto].
    rewrite Forall_forall in Hl. by apply Hl.
  - intros (l' & Hl%mapR_Ok_Forall2 & [= <-])%bind_Ok_inv. cbn.
    apply forallb_elem_of. intros y Hy.
    apply (Forall2_Forall_r _ (fun y => keys_masked y = true)) with (l := l) in Hl;
      [|by eapply Forall_impl; [exact IH|]; cbn; eauto].
    rewrite Forall_forall in Hl. by apply Hl.
  - intros (d' & Hd%mapR_Ok_Forall2 & [= <-])%bind_Ok_inv. cbn [keys_masked].
    apply forallb_elem_of. intros kv Hkv.
    apply list_elem_of_lookup in Hkv as [i Hi].
    eapply Forall2_lookup_r in Hd as ([k x] & Hx & Heq); [|exact Hi].
    rewrite Forall_lookup in IH. specialize (IH i _ Hx) as [_ IHx]. cbn in IHx.
    destruct k; try discriminate Heq. destruct (is_sensitive_key s) eqn:Es.
    + injection Heq as <-. cbn [keys_masked]. rewrite Es. apply py_eq_refl.
    + apply bind_Ok_inv in Heq as (x' & Hx' & [= <-]). rewrite Es. by apply IHx.
Qed.

(** A key that is not a string is all that redaction can stumble over. *)
Lemma redact_raises v exc : redact_sensitive_value v = Raise exc -> exists k, exc = no_lower k.
Proof.
  revert exc. induction v as [ | | | | |l IH|l IH|d IH] using pyval_nested_ind;
    intros exc; cbn [redact_sensitive_value]; try done.
  1-2: intros [(x & Hx & He)%mapR_Raise_inv|(l' & _ & H)]%bind_Raise_inv; [|done];
    rewrite Forall_forall in IH; by apply (IH x Hx).
  intros [([k x] & Hx & He)%mapR_Raise_inv|(l' & _ & H)]%bind_Raise_inv; [|done].
  rewrite Forall_forall in IH. destruct (IH _ Hx) as [_ IHx].
  destruct k; try by (injection He as <-; eexists).
  destruct (is_sensitive_key s); [done|]. apply bind_Raise_inv in He as [He|(y & _ & [=])]. by apply IHx.
Qed.

Lemma redact_dict_raises d e : redact_dict d = Raise e -> exists k, e = no_lower k.
Proof.
  intros ([k x] & _ & He)%mapR_Raise_inv. cbn [fst snd] in He. destruct (is_sensitive_key k); [done|].
  apply bind_Raise_inv in He as [He|(y & _ & [=])]. by apply redact_raises in He.
Qed.

Lemma redact_dict_of_dict d :
  redact_sensitive_value (of_dict d) =
  (d' ← redact_dict d; Ok (of_dict d')).
Proof.
  unfold of_dict, redact_dict. cbn [redact_sensitive_value].
  induction d as [|[k x] d IH]; [done|]. cbn [List.map mapR fst snd].
  destruct (is_sensitive_key k).
  - cbn. destruct (mapR _ d); cbn in *; destruct (mapR _ (List.map _ d)); cbn in *; congruence.
  - destruct (redact_sensitive_value x); cbn; [|done].
    destruct (mapR _ d); cbn in *; destruct (mapR _ (List.map _ d)); cbn in *; congruence.
Qed.

Lemma proper_prefixes_spec l k :
  k ∈ proper_prefixes l -> exists m, l = k ++ m /\ m <> [].
Proof.
  revert k. induction l as [|x l IH]; intros k; cbn; [by intros ?%elem_of_nil|].
  intros [Hk|Hk]%elem_of_app.
  - apply list_elem_of_fmap in Hk as (k' & -> & Hk'). apply IH in Hk' as (m & -> & Hm).
    by exists m.
  - apply list_elem_of_singleton in Hk as ->. by exists (x :: l).
Qed.

Lemma redact_same_shape v w : redact_sensitive_value v = Ok w -> same_shape v w = true.
Proof.
  revert w. induction v as [ | | | | |l IH|l IH|d IH] using pyval_nested_ind;
    intros w; cbn [redact_sensitive_value].
  - by intros [= <-].
  - intros [= <-]. by destruct b.
  - intros [= <-]. apply Z.eqb_refl.
  - intros [= <-]. cbn. by rewrite !Z.eqb_refl.
  - by intros [= <-].
  - intros (l' & Hl%mapR_Ok_Forall2 & [= <-])%bind_Ok_inv. cbn.
    induction Hl as [|x y l l' Hx _ IHl]; [done|].
    apply Forall_cons_1 in IH as [IHx IH]. by rewrite (IHx _ Hx), IHl.
  - intros (l' & Hl%mapR_Ok_Forall2 & [= <-])%bind_Ok_inv. cbn.
    induction Hl as [|x y l l' Hx _ IHl]; [done|].
    apply Forall_cons_1 in IH as [IHx IH]. by rewrite (IHx _ Hx), IHl.
  - intros (d' & Hd%mapR_Ok_Forall2 & [= <-])%bind_Ok_inv. cbn -[is_sensitive_key String.eqb].
    induction Hd as [|[k x] y d d' Hx _ IHd]; [done|].
    apply Forall_cons_1 in IH as [[_ IHx] IH]. cbn in IHx. specialize (IHd IH).
    destruct k; try discriminate Hx. destruct (is_sensitive_key s) eqn:Es.
    + injection Hx as <-. by rewrite String.eqb_refl, IHd.
    + apply bind_Ok_inv in Hx as (x' & Hx' & [= <-]).
      by rewrite String.eqb_refl, (IHx _ Hx'), IHd.
Qed.

(** ** Theorems *)

(** Redaction of a structure masks the value of every sensitive key, at every
    depth, and keeps the shape of the structure. *)
Theorem redaction_masks_sensitive_keys v w :
  redact_sensitive_value v = Ok w -> keys_masked w = true /\ same_shape v w = true.
Proof. intros H. split; [by apply (redact_keys_masked v)|by apply redact_same_shape]. Qed.

Lemma redaction_masks_witness :
  let v := of_dict [("user", PStr "ann"); ("nested", of_dict [("API-Key", PStr "k"); ("n", PInt 3)])] in
  let w := of_dict [("user", PStr "ann");
                    ("nested", of_dict [("API-Key", PStr REDACTED); ("n", PInt 3)])] in
  redact_sensitive_value v = Ok w /\ keys_masked w = true /\ same_shape v w = true.
Proof.
  intros v w.
  assert (H : redact_sensitive_value v = Ok w) by (vm_compute; reflexivity).
  split; [exact H|apply (redaction_masks_sensitive_keys v w H)].
Defined.

(** The redaction of a text keeps everything before its first equals sign: a
    base64 secret with padding survives, and so does the value that follows a
    key whose name is the match. *)
Theorem redaction_keeps_text_before_equals :
  redact_sensitive_string "token: c2VjcmV0LWtleQ==" = "token: c2VjcmV0LWtleQ=[REDACTED]"%string /\
  redact_sensitive_string "private_key=hunter2" = "[REDACTED]=hunter2"%string.
Proof. split; vm_compute; reflexivity. Qed.

(** A validated shell command is the shell's own split of the text, its first
    word is in the allow-list, and it contains none of the metacharacters. *)
Theorem validated_command_is_allowlisted command allowed parts :
  validate_shell_command command allowed = Ok parts ->
  exists name args, parts = name :: args /\ shlex_split command = Some parts /\
    name ∈ (match allowed with
            | None | Some [] => DEFAULT_ALLOWED_SHELL_COMMANDS | Some l => l end) /\
    forall m, m ∈ SHELL_METACHARACTERS -> contains command m = false.
Proof.
  unfold validate_shell_command. intros H.
  destruct (negb (truthy (strip command))); [done|].
  destruct (contains_any SHELL_METACHARACTERS command) eqn:Hmeta; [done|].
  destruct (shlex_split command) as [[|name args]|]; [done| |done].
  destruct (mem name DANGEROUS_SHELL_TOKENS && _); [done|].
  destruct (negb (mem name _)) eqn:Hall in H; [done|]. injection H as <-.
  exists name, args. split_and!; [done|done| |].
  - apply mem_spec, negb_false_iff. exact Hall.
  - by apply existsb_false_elem_of.
Qed.

Lemma validated_command_witness :
  validate_shell_command "cat 'my notes.txt'" None = Ok ["cat"; "my notes.txt"] /\
  exists name args, ["cat"; "my notes.txt"] = name :: args /\
    shlex_split "cat 'my notes.txt'" = Some ["cat"; "my notes.txt"] /\
    name ∈ DEFAULT_ALLOWED_SHELL_COMMANDS /\
    forall m, m ∈ SHELL_METACHARACTERS -> contains "cat 'my notes.txt'" m = false.
Proof.
  assert (H : validate_shell_command "cat 'my notes.txt'" None = Ok ["cat"; "my notes.txt"])
    by (vm_compute; reflexivity).
  split; [exact H|]. apply (validated_command_is_allowlisted _ _ _ H).
Defined.

(** A path resolved inside the sandbox lies below the resolved sandbox, with
    the same root and the sandbox's components first. *)
Theorem sandbox_path_is_contained resolve sandbox_path target candidate :
  resolve_path_inside_sandbox resolve sandbox_path target = Ok candidate ->
  let sandbox := resolve (PurePosixPath.of_string sandbox_path) in
  PurePosixPath.root candidate = PurePosixPath.root sandbox /\
  exists below, PurePosixPath.comps candidate = PurePosixPath.comps sandbox ++ below.
Proof.
  intros H sandbox. unfold resolve_path_inside_sandbox in H.
  destruct target as [[|c t]|]; try done. destruct (contains _ null_char); [done|].
  fold sandbox in H. destruct (_ && _) eqn:E; [done|]. injection H as <-.
  set (cand := resolve (path_join sandbox _)) in *. clearbody cand sandbox.
  apply andb_false_iff in E as [E|E]; apply bool_decide_eq_false in E.
  - apply dec_stable in E as ->. split; [done|]. exists []. by rewrite List.app_nil_r.
  - apply dec_stable in E. unfold path_parents in E.
    apply list_elem_of_fmap in E as (k & Heq & (m & Hm & _)%proper_prefixes_spec).
    rewrite Heq. cbn. split; [done|]. by exists m.
Qed.

(** A file system without links, [..] resolved. *)
Definition lexical_resolve (p : PurePosixPath.t) : PurePosixPath.t :=
  PurePosixPath.mk (PurePosixPath.root p)
    (rev (fold_left (fun acc w => if String.eqb w ".." then tl acc else w :: acc)
                    (PurePosixPath.comps p) [])).

Lemma sandbox_path_witness :
  let p := PurePosixPath.mk "/" ["srv"; "box"; "a.txt"] in
  resolve_path_inside_sandbox lexical_resolve "/srv/box" (Some "x/../a.txt") = Ok p /\
  resolve_path_inside_sandbox lexical_resolve "/srv/box" (Some "../other") = Raise TargetOutside /\
  PurePosixPath.root p = "/"%string /\
  exists below, PurePosixPath.comps p = ["srv"; "box"] ++ below.
Proof.
  intros p.
  assert (H : resolve_path_inside_sandbox lexical_resolve "/srv/box" (Some "x/../a.txt") = Ok p)
    by (vm_compute; reflexivity).
  split; [exact H|]. split; [vm_compute; reflexivity|].
  apply (sandbox_path_is_contained _ _ _ _ H).
Defined.
