(* ===== verification/Json.v ===== *)
(** * json

    Python's [json.dumps] with [ensure_ascii] and optional [sort_keys], in the
    compact and the default spacing, and [json.loads], over the JSON values the
    sources store and hash.  [loads_dumps] is the round trip; it makes the
    canonical text of a value determine the value ([dumps_inj]), which is what
    the hash-based bindings of the other files rest on.  A JSON float is kept
    as its text. *)

From S2P Require Export PyValue.
From Stdlib Require Import Sorting.Sorted.

(** ** Definitions *)

Inductive json : Type :=
  | JNull
  | JBool (b : bool)
  | JInt (z : Z)
  | JFloat (text : string)
  | JStr (s : string)
  | JList (l : list json)
  | JDict (kvs : list (string * json)).

Definition jdict : Type := list (string * json).

(** *** Writing *)

Definition quote : ascii := ascii_of_N 34.

Definition unicode_escape (c : ascii) : string :=
  "\u00" +++ String (hex_digit (code c / 16)) (String (hex_digit (code c mod 16)) "").

Definition escape_char (c : ascii) : string :=
  let n := code c in
  if (n =? 34)%N || (n =? 92)%N then String backslash (String c "")
  else if (n =? 10)%N then "\n"
  else if (n =? 13)%N then "\r"
  else if (n =? 9)%N then "\t"
  else if (n =? 8)%N then "\b"
  else if (n =? 12)%N then "\f"
  else if in_range 32 126 n then String c ""
  else unicode_escape c.

Fixpoint escape (s : string) : string :=
  match s with
  | EmptyString => ""
  | String c s' => escape_char c +++ escape s'
  end.

Definition dumps_str (s : string) : string := String quote (escape s +++ String quote "").

Section Dumps.
Context (compact : bool).

Definition item_sep : string := if compact then "," else ", ".
Definition key_sep : string := if compact then ":" else ": ".

Fixpoint dumps (v : json) : string :=
  match v with
  | JNull => "null"
  | JBool b => if b then "true" else "false"
  | JInt z => pretty z
  | JFloat t => t
  | JStr s => dumps_str s
  | JList l => "[" +++ str_join item_sep (List.map dumps l) +++ "]"
  | JDict d =>
      "{" +++ str_join item_sep (List.map (fun kv =>
        match kv with (k, x) => dumps_str k +++ key_sep +++ dumps x end) d) +++ "}"
  end.
End Dumps.

(** [sort_keys=True]: insertion by key, code point order. *)
Fixpoint insert_key {A} (kv : string * A) (l : list (string * A)) : list (string * A) :=
  match l with
  | [] => [kv]
  | kv' :: l' =>
      if String.leb (fst kv) (fst kv') then kv :: l else kv' :: insert_key kv l'
  end.

Definition sort_by_key {A} (l : list (string * A)) : list (string * A) :=
  fold_right insert_key [] l.

Fixpoint sort_json (v : json) : json :=
  match v with
  | JList l => JList (List.map sort_json l)
  | JDict d => JDict (sort_by_key (List.map (fun kv =>
                 match kv with (k, x) => (k, sort_json x) end) d))
  | v => v
  end.

(** [json.dumps(v, sort_keys=True, separators=(",", ":"))] *)
Definition canonical_json (v : json) : string := dumps true (sort_json v).

(** *** Reading *)

Definition is_json_space (c : ascii) : bool :=
  existsb (N.eqb (code c)) [32; 9; 10; 13]%N.

Fixpoint skip_ws (s : string) : string :=
  match s with
  | String c s' => if is_json_space c then skip_ws s' else s
  | EmptyString => EmptyString
  end.

Definition hex_value (c : ascii) : option N :=
  let n := code c in
  if in_range 48 57 n then Some (n - 48)%N
  else if in_range 97 102 n then Some (n - 87)%N
  else if in_range 65 70 n then Some (n - 55)%N
  else None.

(** [\uXXXX] below code point 256. *)
Definition unicode_char (a b c d : ascii) : option ascii :=
  match hex_value a, hex_value b, hex_value c, hex_value d with
  | Some 0%N, Some 0%N, Some h, Some l => Some (ascii_of_N (h * 16 + l))
  | _, _, _, _ => None
  end.

Definition simple_escape (c : ascii) : option ascii :=
  let n := code c in
  if (n =? 34)%N || (n =? 92)%N || (n =? 47)%N then Some c
  else if (n =? 110)%N then Some (ascii_of_N 10)
  else if (n =? 114)%N then Some (ascii_of_N 13)
  else if (n =? 116)%N then Some (ascii_of_N 9)
  else if (n =? 98)%N then Some (ascii_of_N 8)
  else if (n =? 102)%N then Some (ascii_of_N 12)
  else None.

Definition push_char (c : ascii) (r : option (string * string)) : option (string * string) :=
  match r with Some (w, rest) => Some (String c w, rest) | None => None end.

(** The characters up to the closing quote, and the text after it. *)
Fixpoint parse_chars (s : string) : option (string * string) :=
  match s with
  | EmptyString => None
  | String c s' =>
      if Ascii.eqb c quote then Some ("", s')
      else if Ascii.eqb c backslash then
        match s' with
        | String u s2 =>
            if Ascii.eqb u "u" then
              match s2 with
              | String a (String b (String h (String l s''))) =>
                  match unicode_char a b h l with
                  | Some x => push_char x (parse_chars s'')
                  | None => None
                  end
              | _ => None
              end
            else
              match simple_escape u with
              | Some x => push_char x (parse_chars s2)
              | None => None
              end
        | EmptyString => None
        end
      else if (code c <? 32)%N then None
      else push_char c (parse_chars s')
  end.

Definition is_number_char (c : ascii) : bool :=
  contains "0123456789-+.eE" (String c "").

Fixpoint number_token (s : string) : string * string :=
  match s with
  | String c s' =>
      if is_number_char c then let '(t, rest) := number_token s' in (String c t, rest)
      else ("", s)
  | EmptyString => ("", "")
  end.

Definition digit_value (c : ascii) : option N :=
  if in_range 48 57 (code c) then Some (code c - 48)%N else None.

Fixpoint parse_digits (acc : N) (s : string) : option N :=
  match s with
  | EmptyString => Some acc
  | String c s' =>
      match digit_value c with
      | Some d => parse_digits (acc * 10 + d) s'
      | None => None
      end
  end.

Definition parse_int (s : string) : option Z :=
  match s with
  | String "-" s' => if truthy s' then (fun n => - Z.of_N n)%Z <$> parse_digits 0 s' else None
  | _ => if truthy s then Z.of_N <$> parse_digits 0 s else None
  end.

(** A number with a fraction or an exponent: digits, [.] digits, [e] digits. *)
Fixpoint all_digits (s : string) : bool :=
  match s with
  | EmptyString => true
  | String c s' => in_range 48 57 (code c) && all_digits s'
  end.

Definition some_digits (s : string) : bool := truthy s && all_digits s.

Definition drop_sign (signs s : string) : string :=
  match s with
  | String c s' => if contains signs (String c "") then s' else s
  | EmptyString => EmptyString
  end.

Definition valid_exponent (s : string) : bool := some_digits (drop_sign "+-" s).

Definition valid_int_part (s : string) : bool :=
  some_digits s && (String.eqb s "0" || negb (startswith s "0")).

Definition valid_float (t : string) : bool :=
  let '(mantissa, expo) :=
    match split_on "e" t with
    | [m] => (m, None) | [m; x] => (m, Some x) | _ => ("", None) end in
  match split_on "." (drop_sign "-" mantissa), expo with
  | [i; f], None => valid_int_part i && some_digits f
  | [i; f], Some x => valid_int_part i && some_digits f && valid_exponent x
  | [i], Some x => valid_int_part i && valid_exponent x
  | _, _ => false
  end.

Definition is_float_token (t : string) : bool := contains t "." || contains t "e".

Definition parse_number (t : string) : option json :=
  if is_float_token t then if valid_float t then Some (JFloat t) else None
  else
    match parse_int t with
    | Some z => if String.eqb t (pretty z) || String.eqb t "-0" then Some (JInt z) else None
    | None => None
    end.

(** [d[key] = value] in insertion order, the later of two equal keys winning. *)
Fixpoint jset (d : jdict) (key : string) (v : json) : jdict :=
  match d with
  | [] => [(key, v)]
  | (k, w) :: d' => if String.eqb k key then (k, v) :: d' else (k, w) :: jset d' key v
  end.

Definition jdict_of (kvs : jdict) : jdict :=
  fold_left (fun d kv => jset d (fst kv) (snd kv)) kvs [].

Fixpoint jget (d : jdict) (key : string) : option json :=
  match d with
  | [] => None
  | (k, v) :: d' => if String.eqb k key then Some v else jget d' key
  end.

Definition expect (p s : string) : option string :=
  if startswith s p then Some (drop_chars (String.length p) s) else None.

(** The text after the character [c], if [s] starts with it. *)
Definition next_is (c : ascii) (s : string) : option string :=
  match s with
  | String d s' => if Ascii.eqb d c then Some s' else None
  | EmptyString => None
  end.

Fixpoint parse_value (n : nat) (s : string) : option (json * string) :=
  match n with
  | O => None
  | S n =>
      match s with
      | EmptyString => None
      | String c s' =>
          if Ascii.eqb c quote then
            match parse_chars s' with
            | Some (w, rest) => Some (JStr w, rest)
            | None => None
            end
          else if Ascii.eqb c "[" then
            match next_is "]" (skip_ws s') with
            | Some rest => Some (JList [], rest)
            | None =>
                match parse_items n (skip_ws s') with
                | Some (l, rest) => Some (JList l, rest)
                | None => None
                end
            end
          else if Ascii.eqb c "{" then
            match next_is "}" (skip_ws s') with
            | Some rest => Some (JDict [], rest)
            | None =>
                match parse_members n (skip_ws s') with
                | Some (d, rest) => Some (JDict (jdict_of d), rest)
                | None => None
                end
            end
          else if Ascii.eqb c "n" then (fun rest => (JNull, rest)) <$> expect "null" s
          else if Ascii.eqb c "t" then (fun rest => (JBool true, rest)) <$> expect "true" s
          else if Ascii.eqb c "f" then (fun rest => (JBool false, rest)) <$> expect "false" s
          else
            let '(t, rest) := number_token s in
            (fun v => (v, rest)) <$> parse_number t
      end
  end
with parse_items (n : nat) (s : string) : option (list json * string) :=
  match n with
  | O => None
  | S n =>
      match parse_value n s with
      | Some (v, rest) =>
          match next_is "," (skip_ws rest) with
          | Some rest' =>
              match parse_items n (skip_ws rest') with
              | Some (l, rest'') => Some (v :: l, rest'')
              | None => None
              end
          | None => (fun rest' => ([v], rest')) <$> next_is "]" (skip_ws rest)
          end
      | None => None
      end
  end
with parse_members (n : nat) (s : string) : option (jdict * string) :=
  match n with
  | O => None
  | S n =>
      match next_is quote s with
      | Some s' =>
          match parse_chars s' with
          | Some (k, rest) =>
              match next_is ":" (skip_ws rest) with
              | Some rest1 =>
                  match parse_value n (skip_ws rest1) with
                  | Some (v, rest2) =>
                      match next_is "," (skip_ws rest2) with
                      | Some rest3 =>
                          match parse_members n (skip_ws rest3) with
                          | Some (d, rest4) => Some ((k, v) :: d, rest4)
                          | None => None
                          end
                      | None => (fun rest3 => ([(k, v)], rest3)) <$> next_is "}" (skip_ws rest2)
                      end
                  | None => None
                  end
              | None => None
              end
          | None => None
          end
      | None => None
      end
  end.

(** [json.loads(s)]; [None] is [JSONDecodeError]. *)
Definition loads (s : string) : option json :=
  match parse_value (S (String.length s)) (skip_ws s) with
  | Some (v, rest) => if truthy (skip_ws rest) then None else Some v
  | None => None
  end.

(** *** Values and JSON *)

(** The JSON value [json.dumps] writes for a Python value with string keys;
    [None] outside that domain. *)
Fixpoint to_json (v : pyval) : option json :=
  match v with
  | PNone => Some JNull
  | PBool b => Some (JBool b)
  | PInt z => Some (JInt z)
  | PFloat _ _ t => Some (JFloat t)
  | PStr s => Some (JStr s)
  | PList l | PTuple l => JList <$> mapM to_json l
  | PDict d =>
      JDict <$> mapM (fun kv =>
        match kv with
        | (PStr k, x) => (fun y => (k, y)) <$> to_json x
        | _ => None
        end) d
  end.

(** Values that a text can represent: float texts are JSON numbers, and the
    keys of an object are distinct. *)
Definition wf_float (t : string) : Prop :=
  number_token t = (t, "") /\ is_float_token t = true /\ valid_float t = true /\
  exists c t', t = String c t' /\ (c = "-"%char \/ digit_value c <> None).

Inductive wf_json : json -> Prop :=
  | wf_null : wf_json JNull
  | wf_bool b : wf_json (JBool b)
  | wf_int z : wf_json (JInt z)
  | wf_flt t : wf_float t -> wf_json (JFloat t)
  | wf_str s : wf_json (JStr s)
  | wf_list l : Forall wf_json l -> wf_json (JList l)
  | wf_dict d : NoDup (d.*1) -> Forall (fun kv => wf_json (snd kv)) d -> wf_json (JDict d).

Fixpoint jsize (v : json) : nat :=
  match v with
  | JList l => S (list_sum (List.map (fun x => S (jsize x)) l))
  | JDict d => S (list_sum (List.map (fun kv => match kv with (_, x) => S (jsize x) end) d))
  | _ => 1
  end.

(** ** Lemmas *)

Lemma json_nested_ind (P : json -> Prop) :
  P JNull -> (forall b, P (JBool b)) -> (forall z, P (JInt z)) ->
  (forall t, P (JFloat t)) -> (forall s, P (JStr s)) ->
  (forall l, Forall P l -> P (JList l)) ->
  (forall d, Forall (fun kv => P (snd kv)) d -> P (JDict d)) ->
  forall v, P v.
Proof.
  intros Hn Hb Hi Hf Hs Hl Hd. fix IH 1. intros [ | | | | |l|d];
    [apply Hn|apply Hb|apply Hi|apply Hf|apply Hs| |].
  - apply Hl. induction l as [|x l IHl]; constructor; [apply IH|apply IHl].
  - apply Hd. induction d as [|[k x] d IHd]; constructor; [apply IH|apply IHd].
Qed.

(** *** Strings *)

Lemma parse_chars_escape_char c rest :
  parse_chars (escape_char c +++ rest) = push_char c (parse_chars rest).
Proof. destruct c as [[] [] [] [] [] [] [] []]; reflexivity. Qed.

Lemma parse_chars_escape s rest :
  parse_chars (escape s +++ String quote rest) = Some (s, rest).
Proof.
  induction s as [|c s IH]; [done|].
  cbn [escape]. by rewrite app_assoc_str, parse_chars_escape_char, IH.
Qed.

(** *** Numbers *)

(** Text after which a number cannot go on. *)
Definition num_stop (s : string) : Prop :=
  match s with String c _ => is_number_char c = false | EmptyString => True end.

Lemma number_token_app t rest :
  number_token t = (t, "") -> num_stop rest -> number_token (t +++ rest) = (t, rest).
Proof.
  induction t as [|c t IH]; cbn [number_token String.append]; intros Ht Hr.
  - destruct rest as [|c rest]; [done|]. cbn in *. by rewrite Hr.
  - destruct (is_number_char c); [|done].
    destruct (number_token t) as [t' r]. injection Ht as -> ->. by rewrite IH.
Qed.

Lemma pretty_N_char_digit x :
  (x < 10)%N -> digit_value (pretty_N_char x) = Some x /\ is_number_char (pretty_N_char x) = true.
Proof.
  intros H.
  assert (x = 0 \/ x = 1 \/ x = 2 \/ x = 3 \/ x = 4 \/ x = 5 \/ x = 6 \/ x = 7 \/ x = 8
    \/ x = 9)%N as Hx by lia.
  by repeat destruct Hx as [->|Hx]; subst.
Qed.

Lemma pretty_N_go_facts x s :
  (forall P : string -> Prop,
     (forall d u, (d < 10)%N -> P u -> P (String (pretty_N_char d) u)) ->
     P s -> P (pretty_N_go x s)) /\
  parse_digits 0 (pretty_N_go x s) = parse_digits x s.
Proof.
  revert s. induction (N.lt_wf_0 x) as [x _ IH]; intros s.
  assert (x = 0 \/ 0 < x)%N as [->|Hx] by lia; [by rewrite pretty_N_go_0|].
  rewrite pretty_N_go_step by done.
  destruct (IH (x / 10)%N (N.div_lt x 10 Hx eq_refl)
              (String (pretty_N_char (x mod 10)) s)) as [IH1 IH2].
  assert (x mod 10 < 10)%N as Hm by by apply N.mod_lt. split.
  - intros P HP Hs. apply IH1; auto.
  - rewrite IH2. cbn [parse_digits]. rewrite (proj1 (pretty_N_char_digit _ Hm)).
    f_equal. pose proof (N.div_mod x 10). lia.
Qed.

Lemma pretty_N_parse (x : N) : parse_digits 0 (pretty x) = Some x.
Proof.
  unfold pretty, pretty_N. case_decide; [by subst|].
  by rewrite (proj2 (pretty_N_go_facts x "")).
Qed.

(** The text of a number: digits only, at least one. *)
Lemma pretty_N_text (x : N) (P : string -> Prop) :
  (forall d u, (d < 10)%N -> P u -> P (String (pretty_N_char d) u)) -> P "" -> P (pretty x).
Proof.
  intros HP H0. unfold pretty, pretty_N. case_decide.
  - apply (HP 0%N); [lia|done].
  - by apply (proj1 (pretty_N_go_facts x "")).
Qed.

Lemma pretty_N_cons (x : N) : exists c t, pretty x = String c t /\ digit_value c <> None.
Proof.
  assert (Hp := pretty_N_parse x).
  destruct (pretty x) as [|c t] eqn:E.
  - pose proof (pretty_N_inj x 0%N) as Hi. cbn in Hp.
    assert (x = 0)%N as -> by congruence. discriminate E.
  - exists c, t. split; [done|]. cbn in Hp. by destruct (digit_value c).
Qed.

Lemma pretty_N_token (x : N) : number_token (pretty x) = (pretty x, "").
Proof.
  apply (pretty_N_text x (fun t => number_token t = (t, ""))); [|done].
  intros d u Hd Hu. cbn [number_token]. rewrite (proj2 (pretty_N_char_digit d Hd)).
  by rewrite Hu.
Qed.

Lemma is_float_token_cons c t :
  is_float_token (String c t) =
    (Ascii.eqb "." c || Ascii.eqb "e" c || is_float_token t).
Proof.
  unfold is_float_token. cbn [contains startswith].
  assert (forall a u, (Ascii.eqb a c && startswith u "") = Ascii.eqb a c) as H
    by (intros a [|? ?]; cbn; by rewrite andb_true_r).
  rewrite !H. destruct (Ascii.eqb "." c), (Ascii.eqb "e" c); cbn; try done.
  by rewrite orb_true_r.
Qed.

Lemma pretty_N_not_float (x : N) : is_float_token (pretty x) = false.
Proof.
  apply (pretty_N_text x (fun t => is_float_token t = false)); [|done].
  intros d u Hd Hu. rewrite is_float_token_cons, Hu, orb_false_r.
  assert (d = 0 \/ d = 1 \/ d = 2 \/ d = 3 \/ d = 4 \/ d = 5 \/ d = 6 \/ d = 7 \/ d = 8
    \/ d = 9)%N as Hx by lia.
  by repeat destruct Hx as [->|Hx]; subst.
Qed.

Lemma pretty_Z_shape (z : Z) :
  number_token (pretty z) = (pretty z, "") /\ is_float_token (pretty z) = false /\
  parse_int (pretty z) = Some z /\
  exists c t, pretty z = String c t /\ (c = "-"%char \/ digit_value c <> None).
Proof.
  assert (Hpos : forall p,
    parse_int (pretty (Npos p)) = Some (Z.pos p) /\
    exists c t, pretty (Npos p) = String c t /\ digit_value c <> None).
  { intros p. destruct (pretty_N_cons (Npos p)) as (c & t & E & Hc).
    split; [|by exists c, t]. pose proof (pretty_N_parse (Npos p)) as Hp.
    rewrite E in Hp |- *. unfold parse_int.
    destruct c as [[] [] [] [] [] [] [] []]; try (by destruct Hc); cbn [truthy];
      rewrite Hp; reflexivity. }
  destruct z as [|p|p].
  - split_and!; try done. exists "0"%char, "". split; [done|]. right. done.
  - change (pretty (Z.pos p)) with (pretty (Npos p)).
    destruct (Hpos p) as (Hp & c & t & E & Hc).
    split_and!; [apply pretty_N_token|apply pretty_N_not_float|done|].
    exists c, t. auto.
  - change (pretty (Z.neg p)) with (String "-" (pretty (Npos p))).
    destruct (pretty_N_cons (Npos p)) as (c & t & E & Hc).
    split_and!.
    + cbn [number_token]. by rewrite pretty_N_token.
    + rewrite is_float_token_cons, pretty_N_not_float. done.
    + cbn [parse_int]. rewrite E at 1. cbn [truthy]. by rewrite pretty_N_parse.
    + exists "-"%char, (pretty (Npos p)). auto.
Qed.

Lemma parse_value_number n t rest v :
  number_token t = (t, "") -> num_stop rest ->
  (exists c t', t = String c t' /\ (c = "-"%char \/ digit_value c <> None)) ->
  parse_number t = Some v -> parse_value (S n) (t +++ rest) = Some (v, rest).
Proof.
  intros Ht Hr (c & t' & E & Hc) Hv.
  assert (parse_value (S n) (t +++ rest) =
    (let '(t, rest) := number_token (t +++ rest) in (fun v => (v, rest)) <$> parse_number t)) as ->.
  { rewrite E. cbn [parse_value String.append].
    destruct c as [[] [] [] [] [] [] [] []];
      first [reflexivity|by destruct Hc as [Hc|Hc]]. }
  rewrite number_token_app by done. by rewrite Hv.
Qed.

Lemma parse_number_int z : parse_number (pretty z) = Some (JInt z).
Proof.
  destruct (pretty_Z_shape z) as (_ & Hf & Hp & _). unfold parse_number.
  by rewrite Hf, Hp, String.eqb_refl.
Qed.

(** *** Containers *)

Lemma skip_ws_cons c s : is_json_space c = false -> skip_ws (String c s) = String c s.
Proof. cbn [skip_ws]. by intros ->. Qed.

(** The first character of a value's text. *)
Definition value_head (s : string) : Prop :=
  exists c t, s = String c t /\ is_json_space c = false /\ c <> "]"%char /\ c <> "}"%char.

Lemma dumps_value_head compact v : wf_json v -> value_head (dumps compact v).
Proof.
  intros Hv. unfold value_head. destruct Hv as [ |[]|z|t Ht|s|l _|d _ _]; cbn [dumps].
  1-3: by eexists _, _.
  3: by eexists _, _.
  3-4: by eexists _, _.
  - destruct (pretty_Z_shape z) as (_ & _ & _ & c & t & -> & Hc).
    exists c, t. split; [done|].
    destruct c as [[] [] [] [] [] [] [] []]; first [done|by destruct Hc as [Hc|Hc]].
  - destruct Ht as (_ & _ & _ & c & t' & -> & Hc). exists c, t'. split; [done|].
    destruct c as [[] [] [] [] [] [] [] []]; first [done|by destruct Hc as [Hc|Hc]].
Qed.

Lemma value_head_app s rest : value_head s ->
  skip_ws (s +++ rest) = s +++ rest /\ next_is "]" (s +++ rest) = None /\
  next_is "}" (s +++ rest) = None.
Proof.
  intros (c & t & -> & Hs & H1 & H2). cbn [skip_ws String.append next_is]. rewrite Hs.
  apply Ascii.eqb_neq in H1, H2. by rewrite H1, H2.
Qed.

Lemma jset_fresh d k v : k ∉ d.*1 -> jset d k v = d ++ [(k, v)].
Proof.
  induction d as [|[k' w] d IH]; cbn; [done|]. intros H.
  rewrite (proj2 (String.eqb_neq k' k)) by set_solver. rewrite IH by set_solver. done.
Qed.

Lemma jdict_of_id d : NoDup (d.*1) -> jdict_of d = d.
Proof.
  unfold jdict_of. assert (forall acc, NoDup ((acc ++ d).*1) ->
    fold_left (fun d kv => jset d (fst kv) (snd kv)) d acc = acc ++ d) as H.
  { induction d as [|[k v] d IH]; intros acc Hnd; cbn; [by rewrite List.app_nil_r|].
    assert (acc ++ (k, v) :: d = (acc ++ [(k, v)]) ++ d) as E by by rewrite <- List.app_assoc.
    rewrite jset_fresh, E; [apply IH; by rewrite <- E|].
    rewrite fmap_app in Hnd. apply NoDup_app in Hnd as (_ & Hd & _).
    intros Hk. apply (Hd k Hk). cbn. set_solver. }
  intros Hnd. by apply (H []).
Qed.

Section RoundTrip.
Context (compact : bool).

Definition parses (v : json) : Prop :=
  wf_json v -> forall n rest, jsize v <= n -> num_stop rest ->
  parse_value n (dumps compact v +++ rest) = Some (v, rest).

Lemma skip_item_sep rest s :
  value_head s ->
  skip_ws (item_sep compact +++ s +++ rest) = item_sep compact +++ s +++ rest /\
  exists u, next_is "," (item_sep compact +++ s +++ rest) = Some u /\ skip_ws u = s +++ rest.
Proof.
  intros Hs. destruct (value_head_app s rest Hs) as (Hw & _).
  unfold item_sep. destruct compact; cbn; eauto.
Qed.

Lemma str_join_cons2 sep x y l :
  str_join sep (x :: y :: l) = x +++ sep +++ str_join sep (y :: l).
Proof. done. Qed.

Lemma value_head_join sep x l : value_head x -> value_head (str_join sep (x :: l)).
Proof.
  intros (c & t & -> & H). destruct l as [|y l]; [by exists c, t|].
  rewrite str_join_cons2. eexists c, _. split; [reflexivity|done].
Qed.

Lemma parse_items_dumps l n rest :
  l <> [] -> Forall parses l -> Forall wf_json l ->
  list_sum (List.map (fun x => S (jsize x)) l) <= n ->
  parse_items n (str_join (item_sep compact) (List.map (dumps compact) l) +++ String "]" rest)
    = Some (l, rest).
Proof.
  intros Hne Hp Hw. revert n.
  induction l as [|x l IH]; intros n Hn; [done|].
  apply Forall_cons_1 in Hp as [Hpx Hp], Hw as [Hwx Hw]. clear Hne.
  change (list_sum _) with (S (jsize x) + list_sum (List.map (fun x => S (jsize x)) l)) in Hn.
  destruct n as [|n]; [lia|]. cbn [parse_items].
  destruct l as [|y l].
  - cbn [List.map str_join]. rewrite Hpx by (try done; lia). done.
  - specialize (IH ltac:(done) Hp Hw n ltac:(lia)).
    cbn [List.map] in IH |- *. rewrite str_join_cons2, !app_assoc_str.
    assert (Hh : value_head (str_join (item_sep compact)
                   (dumps compact y :: List.map (dumps compact) l))).
    { apply value_head_join, dumps_value_head. by apply Forall_cons_1 in Hw as [? _]. }
    destruct (skip_item_sep (String "]" rest) _ Hh) as (Hs & u & Hu & Hsu).
    rewrite Hpx; [|done|lia|unfold item_sep; by destruct compact].
    by rewrite Hs, Hu, Hsu, IH.
Qed.

Definition member_text (kv : string * json) : string :=
  match kv with (k, x) => dumps_str k +++ key_sep compact +++ dumps compact x end.

Lemma member_value_head kv : value_head (member_text kv).
Proof. destruct kv as [k x]. by eexists _, _. Qed.

Lemma skip_key_sep rest s : value_head s ->
  exists u, next_is ":" (skip_ws (key_sep compact +++ s +++ rest)) = Some u /\
            skip_ws u = s +++ rest.
Proof.
  intros Hs. destruct (value_head_app s rest Hs) as (Hw & _).
  unfold key_sep. destruct compact; cbn; eauto.
Qed.

Lemma parse_members_dumps d n rest :
  d <> [] -> Forall (fun kv => parses (snd kv)) d -> Forall (fun kv => wf_json (snd kv)) d ->
  list_sum (List.map (fun kv => match kv with (_, x) => S (jsize x) end) d) <= n ->
  parse_members n (str_join (item_sep compact) (List.map member_text d) +++ String "}" rest)
    = Some (d, rest).
Proof.
  intros Hne Hp Hw. revert n.
  induction d as [|[k x] d IH]; intros n Hn; [done|].
  apply Forall_cons_1 in Hp as [Hpx Hp], Hw as [Hwx Hw]. clear Hne. cbn [snd] in Hpx, Hwx.
  change (list_sum _) with
    (S (jsize x) + list_sum (List.map (fun kv => match kv with (_, x) => S (jsize x) end) d)) in Hn.
  destruct n as [|n]; [lia|]. cbn [parse_members].
  assert (Hstep : forall u,
    next_is quote (member_text (k, x) +++ u) =
      Some (escape k +++ String quote (key_sep compact +++ dumps compact x +++ u))).
  { intros u. cbn [member_text dumps_str String.append next_is]. rewrite Ascii.eqb_refl.
    by rewrite !app_assoc_str. }
  destruct d as [|kv d].
  - cbn [List.map str_join]. rewrite Hstep, parse_chars_escape.
    destruct (skip_key_sep (String "}" rest) (dumps compact x)) as (u & Hu & Hsu);
      [by apply dumps_value_head|].
    rewrite Hu, Hsu, Hpx by (try done; lia). done.
  - specialize (IH ltac:(done) Hp Hw n ltac:(lia)).
    cbn [List.map] in IH |- *. rewrite str_join_cons2, !app_assoc_str.
    assert (Hh : value_head (str_join (item_sep compact) (member_text kv :: List.map member_text d)))
      by apply value_head_join, member_value_head.
    destruct (skip_item_sep (String "}" rest) _ Hh) as (Hs & u & Hu & Hsu).
    rewrite Hstep, parse_chars_escape.
    destruct (skip_key_sep (item_sep compact +++ str_join (item_sep compact)
       (member_text kv :: List.map member_text d) +++ String "}" rest) (dumps compact x))
      as (u' & Hu' & Hsu'); [by apply dumps_value_head|].
    rewrite Hu', Hsu', Hpx; [|done|lia|unfold item_sep; by destruct compact].
    by rewrite Hs, Hu, Hsu, IH.
Qed.

Lemma parse_value_dumps v : parses v.
Proof.
  induction v as [ |b|z|t|s|l IH|d IH] using json_nested_ind; intros Hw n rest Hn Hr;
    (destruct n as [|n]; [cbn in Hn; lia|]).
  - by destruct rest.
  - by destruct b, rest.
  - destruct (pretty_Z_shape z) as (Ht & _ & _ & Hc).
    apply parse_value_number; auto. apply parse_number_int.
  - inversion Hw as [ | | |? Ht| | | ]; subst. destruct Ht as (Ht & Hf & Hv & Hc).
    apply parse_value_number; auto. unfold parse_number. cbn [dumps]. by rewrite Hf, Hv.
  - cbn [dumps dumps_str String.append parse_value]. rewrite Ascii.eqb_refl, app_assoc_str.
    cbn [String.append]. by rewrite parse_chars_escape.
  - inversion Hw as [ | | | | |? Hl| ]; subst.
    destruct l as [|x l]; [done|].
    cbn [dumps]. cbn [String.append parse_value].
    rewrite app_assoc_str. set (body := str_join _ _ +++ _).
    assert (Hh : value_head (str_join (item_sep compact) (List.map (dumps compact) (x :: l)))).
    { apply value_head_join, dumps_value_head. by apply Forall_cons_1 in Hl as [? _]. }
    destruct (value_head_app _ (String "]" rest) Hh) as (Hs & Hb & _).
    cbn -[parse_items next_is skip_ws jsize]. unfold body. cbn [String.append].
    rewrite Hs, Hb, parse_items_dumps; try done. cbn [jsize] in Hn. lia.
  - inversion Hw as [ | | | | | |? Hnd Hd]; subst.
    destruct d as [|kv d]; [done|].
    cbn [dumps]. cbn [String.append parse_value].
    rewrite app_assoc_str. change (List.map _ (kv :: d)) with (List.map member_text (kv :: d)).
    set (body := str_join _ _ +++ _).
    assert (Hh : value_head (str_join (item_sep compact) (List.map member_text (kv :: d))))
      by (apply value_head_join, member_value_head).
    destruct (value_head_app _ (String "}" rest) Hh) as (Hs & _ & Hb).
    cbn -[parse_members next_is skip_ws jsize]. unfold body. cbn [String.append].
    rewrite Hs, Hb, parse_members_dumps; try done; [|cbn [jsize] in Hn; lia].
    by rewrite jdict_of_id.
Qed.
End RoundTrip.

Lemma slen_app a b : String.length (a +++ b) = String.length a + String.length b.
Proof. induction a as [|c a IH]; cbn; [done|by rewrite IH]. Qed.

Lemma list_sum_cons n l : list_sum (n :: l) = n + list_sum l.
Proof. done. Qed.

Lemma slen_join sep l :
  1 <= String.length sep ->
  list_sum (List.map (fun w => S (String.length w)) l) <= S (String.length (str_join sep l)).
Proof.
  intros Hs. induction l as [|x [|y l] IH]; [cbn; lia|cbn; lia|].
  rewrite str_join_cons2, !slen_app. cbn [List.map] in *. rewrite !list_sum_cons in *. lia.
Qed.

Lemma list_sum_le {A} (f g : A -> nat) l :
  Forall (fun x => f x <= g x) l -> list_sum (List.map f l) <= list_sum (List.map g l).
Proof. induction 1; cbn [List.map]; rewrite ?list_sum_cons; lia. Qed.

Lemma jsize_dumps compact v : wf_json v -> jsize v <= String.length (dumps compact v).
Proof.
  assert (1 <= String.length (item_sep compact)) as Hsep by (destruct compact; cbn; lia).
  induction v as [ |b|z|t|s|l IH|d IH] using json_nested_ind; intros Hw.
  - cbn. lia.
  - destruct b; cbn; lia.
  - destruct (pretty_Z_shape z) as (_ & _ & _ & c & t & E & _). cbn [dumps]. rewrite E. cbn. lia.
  - inversion Hw as [ | | |? (_ & _ & _ & c & t' & -> & _)| | | ]; subst. cbn. lia.
  - cbn. lia.
  - inversion Hw as [ | | | | |? Hl| ]; subst. cbn [dumps jsize String.append String.length].
    rewrite slen_app. cbn [String.length].
    pose proof (slen_join (item_sep compact) (List.map (dumps compact) l) Hsep) as Hj.
    rewrite List.map_map in Hj.
    assert (list_sum (List.map (fun x => S (jsize x)) l) <=
      list_sum (List.map (fun x => S (String.length (dumps compact x))) l)).
    { apply list_sum_le. rewrite Forall_forall in IH, Hl |- *. intros x Hx.
      specialize (IH x Hx (Hl x Hx)). lia. }
    lia.
  - inversion Hw as [ | | | | | |? _ Hd]; subst. cbn [dumps jsize String.append String.length].
    rewrite slen_app. cbn [String.length]. change (List.map _ d) with (List.map (member_text compact) d) at 2.
    pose proof (slen_join (item_sep compact) (List.map (member_text compact) d) Hsep) as Hj.
    rewrite List.map_map in Hj.
    assert (list_sum (List.map (fun kv => match kv with (_, x) => S (jsize x) end) d) <=
      list_sum (List.map (fun kv => S (String.length (member_text compact kv))) d)).
    { apply list_sum_le. rewrite Forall_forall in IH, Hd |- *. intros [k x] Hx.
      specialize (IH _ Hx (Hd _ Hx)). cbn [snd] in IH. cbn [member_text].
      rewrite !slen_app. lia. }
    lia.
Qed.

(** [json.loads(json.dumps(v))] *)
Lemma loads_dumps compact v : wf_json v -> loads (dumps compact v) = Some v.
Proof.
  intros Hw. unfold loads.
  destruct (value_head_app _ "" (dumps_value_head compact v Hw)) as (Hs & _).
  rewrite app_empty_r in Hs. rewrite Hs.
  rewrite <- (app_empty_r (dumps compact v)) at 2.
  rewrite parse_value_dumps; [done|done| |done].
  pose proof (jsize_dumps compact v Hw). lia.
Qed.

Lemma dumps_inj compact v w :
  wf_json v -> wf_json w -> dumps compact v = dumps compact w -> v = w.
Proof.
  intros Hv Hw Heq. apply (loads_dumps compact) in Hv, Hw. congruence.
Qed.

(** *** Sorting keys *)

Lemma insert_key_perm {A} (kv : string * A) l : Permutation (insert_key kv l) (kv :: l).
Proof.
  induction l as [|kv' l IH]; cbn; [done|]. destruct (String.leb _ _); [done|].
  rewrite IH. apply Permutation_swap.
Qed.

Lemma sort_by_key_perm {A} (l : list (string * A)) : Permutation (sort_by_key l) l.
Proof. induction l as [|kv l IH]; cbn; [done|]. by rewrite insert_key_perm, IH. Qed.

Lemma jget_elem_of d k v : NoDup (d.*1) -> jget d k = Some v <-> (k, v) ∈ d.
Proof.
  induction d as [|[k' w] d IH]; cbn; intros Hnd; [split; [done|by intros ?%elem_of_nil]|].
  apply NoDup_cons in Hnd as [Hk Hnd]. specialize (IH Hnd).
  destruct (String.eqb_spec k' k) as [->|Hne].
  - split; [intros [= ->]; set_solver|].
    intros [[= ->]|Hin]%elem_of_cons; [done|]. exfalso. apply Hk.
    change k with (fst (k, v)). by apply list_elem_of_fmap_2.
  - rewrite IH, elem_of_cons. naive_solver.
Qed.

Lemma jget_sort d k : NoDup (d.*1) -> jget (sort_by_key d) k = jget d k.
Proof.
  intros Hnd. assert (NoDup ((sort_by_key d).*1)) as Hnd'
    by (eapply NoDup_Permutation_proper; [apply fmap_Permutation, sort_by_key_perm|done]).
  apply option_eq. intros v. rewrite !jget_elem_of by done. by rewrite sort_by_key_perm.
Qed.

Definition sort_members (d : jdict) : jdict :=
  List.map (fun kv => match kv with (k, x) => (k, sort_json x) end) d.

Lemma sort_members_keys d : (sort_members d).*1 = d.*1.
Proof. induction d as [|[k x] d IH]; cbn in *; [done|by f_equal]. Qed.

Lemma jget_sort_members d k : jget (sort_members d) k = sort_json <$> jget d k.
Proof. induction d as [|[k' x] d IH]; cbn; [done|]. by destruct (String.eqb k' k). Qed.

Lemma sort_json_wf v : wf_json v -> wf_json (sort_json v).
Proof.
  induction v as [ | | | | |l IH|d IH] using json_nested_ind; intros Hw; cbn [sort_json]; try done.
  - inversion Hw as [ | | | | |? Hl| ]; subst. constructor.
    rewrite Forall_forall in IH, Hl |- *.
    intros y (x & -> & Hx)%list_elem_of_fmap. auto.
  - inversion Hw as [ | | | | | |? Hnd Hd]; subst. fold (sort_members d). constructor.
    + eapply NoDup_Permutation_proper; [apply fmap_Permutation, sort_by_key_perm|].
      by rewrite sort_members_keys.
    + rewrite sort_by_key_perm. rewrite Forall_forall in IH, Hd |- *.
      intros kv ([k x] & -> & Hx)%list_elem_of_fmap. cbn. apply (IH (k, x) Hx (Hd (k, x) Hx)).
Qed.

(** The canonical text determines a value up to the order of its keys. *)
Lemma canonical_json_inj v w :
  wf_json v -> wf_json w -> canonical_json v = canonical_json w -> sort_json v = sort_json w.
Proof. intros Hv Hw. apply dumps_inj; by apply sort_json_wf. Qed.

(** Two objects with the same canonical form agree on every field. *)
Lemma sort_json_field d d' k :
  NoDup (d.*1) -> NoDup (d'.*1) -> sort_json (JDict d) = sort_json (JDict d') ->
  sort_json <$> jget d k = sort_json <$> jget d' k.
Proof.
  intros Hd Hd' [= Heq]. fold (sort_members d) (sort_members d') in Heq.
  rewrite <- !jget_sort_members.
  rewrite <- (jget_sort (sort_members d)), <- (jget_sort (sort_members d'))
    by by rewrite sort_members_keys.
  by rewrite Heq.
Qed.

(** *** The canonical order of keys is unique *)

Lemma leb_cons c s d t :
  String.leb (String c s) (String d t) = true <->
  (code c < code d)%N \/ (c = d /\ String.leb s t = true).
Proof.
  unfold String.leb. cbn [String.compare]. unfold Ascii.compare.
  destruct (N.compare_spec (N_of_ascii c) (N_of_ascii d)) as [Heq|Hlt|Hgt].
  - assert (c = d) as -> by
      (rewrite <- (ascii_N_embedding c), <- (ascii_N_embedding d); by f_equal).
    split; [tauto|]. intros [H|[_ H]]; [unfold code in H; lia|done].
  - split; [left; exact Hlt|done].
  - split; [done|]. intros [H|[-> _]]; unfold code in *; lia.
Qed.

Lemma leb_trans a b c :
  String.leb a b = true -> String.leb b c = true -> String.leb a c = true.
Proof.
  revert b c. induction a as [|x a IH]; intros [|y b] [|z c]; try done.
  rewrite !leb_cons. intros [H1|[-> H1]] [H2|[-> H2]]; [left; lia|auto|auto|].
  right. split; [done|]. by apply (IH b).
Qed.

Definition key_le {A} (x y : string * A) : Prop := String.leb (fst x) (fst y) = true.

Lemma insert_key_sorted {A} (kv : string * A) l :
  StronglySorted key_le l -> StronglySorted key_le (insert_key kv l).
Proof.
  induction 1 as [|x l Hs IH Hx]; cbn; [by repeat constructor|].
  destruct (String.leb (fst kv) (fst x)) eqn:E.
  - constructor; [by constructor|]. constructor; [done|].
    eapply Forall_impl; [exact Hx|]. intros y Hy. by eapply leb_trans.
  - constructor; [done|]. rewrite insert_key_perm. constructor; [|done].
    unfold key_le. by destruct (leb_total (fst kv) (fst x)) as [H|H]; [rewrite H in E|].
Qed.

Lemma sort_by_key_sorted {A} (l : list (string * A)) : StronglySorted key_le (sort_by_key l).
Proof. induction l as [|kv l IH]; cbn; [constructor|]. by apply insert_key_sorted. Qed.

Lemma sorted_keys_unique {A} (l l' : list (string * A)) :
  Permutation l l' -> NoDup (l.*1) ->
  StronglySorted key_le l -> StronglySorted key_le l' -> l = l'.
Proof.
  intros Hp Hnd Hs. revert l' Hp. induction Hs as [|x l Hs IH Hx]; intros l' Hp Hs'.
  - by apply Permutation_nil_l in Hp as ->.
  - destruct Hs' as [|y l' Hs' Hy]; [by apply Permutation_nil_r in Hp|].
    assert (x = y) as ->.
    { apply (NoDup_fmap_inj fst (x :: l)); [done|set_solver|rewrite Hp; set_solver|].
      assert (Hyin : y ∈ x :: l) by (rewrite Hp; set_solver).
      assert (Hxin : x ∈ y :: l') by (rewrite <- Hp; set_solver).
      rewrite Forall_forall in Hx, Hy.
      apply elem_of_cons in Hyin as [->|Hyin]; [done|].
      apply elem_of_cons in Hxin as [->|Hxin]; [done|].
      apply leb_antisym; [by apply Hx|by apply Hy]. }
    f_equal. apply IH; [|by apply Permutation_cons_inv in Hp|done].
    by apply NoDup_cons in Hnd as [_ ?].
Qed.

Lemma sort_by_key_perm_eq {A} (l l' : list (string * A)) :
  Permutation l l' -> NoDup (l.*1) -> sort_by_key l = sort_by_key l'.
Proof.
  intros Hp Hnd. apply sorted_keys_unique.
  - by rewrite !sort_by_key_perm.
  - eapply NoDup_Permutation_proper; [apply fmap_Permutation, sort_by_key_perm|done].
  - apply sort_by_key_sorted.
  - apply sort_by_key_sorted.
Qed.

Lemma sort_by_key_fixpoint {A} (l : list (string * A)) :
  StronglySorted key_le l -> sort_by_key l = l.
Proof.
  induction 1 as [|x l Hs IH Hx]; [done|].
  change (insert_key x (sort_by_key l) = x :: l). rewrite IH.
  destruct Hx as [|y l Hxy Hx]; cbn; [done|]. by rewrite Hxy.
Qed.

Lemma sort_json_idemp v : sort_json (sort_json v) = sort_json v.
Proof.
  induction v as [ | | | | |l IH|d IH] using json_nested_ind; try done; cbn [sort_json].
  - f_equal. rewrite List.map_map. apply map_ext_in. intros x Hx.
    rewrite Forall_forall in IH. by apply IH, list_elem_of_In.
  - f_equal. fold (sort_members d). fold (sort_members (sort_by_key (sort_members d))).
    assert (Hid : forall e, Forall (fun kv => sort_json (snd kv) = snd kv) e ->
              sort_members e = e).
    { induction 1 as [|[k x] e Hx _ IHe]; [done|]. cbn [snd] in Hx.
      change ((k, sort_json x) :: sort_members e = (k, x) :: e). by rewrite Hx, IHe. }
    rewrite Hid.
    + apply sort_by_key_fixpoint, sort_by_key_sorted.
    + rewrite sort_by_key_perm. rewrite Forall_forall in IH |- *.
      intros kv ([k x] & -> & Hx)%list_elem_of_fmap. cbn. by apply (IH (k, x)).
Qed.

(** Two dictionaries with the same members up to order, compared after their
    values are sorted. *)
Definition same_members (d d' : jdict) : Prop :=
  Permutation (sort_members d) (sort_members d').

Lemma sort_json_dict_iff d d' :
  NoDup (d.*1) ->
  sort_json (JDict d) = sort_json (JDict d') <-> same_members d d'.
Proof.
  intros Hnd. cbn [sort_json]. fold (sort_members d) (sort_members d'). unfold same_members. split.
  - intros [= Heq]. rewrite <- (sort_by_key_perm (sort_members d)), Heq. apply sort_by_key_perm.
  - intros Hp. f_equal. apply sort_by_key_perm_eq; [done|]. by rewrite sort_members_keys.
Qed.

Lemma same_members_jget d d' k :
  NoDup (d.*1) -> same_members d d' -> sort_json <$> jget d k = sort_json <$> jget d' k.
Proof.
  intros Hnd Hp. assert (Hnd' : NoDup (d'.*1)).
  { rewrite <- sort_members_keys in Hnd |- *.
    eapply NoDup_Permutation_proper; [apply fmap_Permutation; symmetry; exact Hp|done]. }
  apply sort_json_field; [done|done|]. by apply sort_json_dict_iff.
Qed.

Lemma same_members_sorted d :
  NoDup (d.*1) -> same_members d (sort_by_key (sort_members d)).
Proof.
  intros Hnd. apply sort_json_dict_iff; [done|].
  exact (eq_sym (sort_json_idemp (JDict d))).
Qed.

Definition jremove (d : jdict) (k : string) : jdict :=
  List.filter (fun kv => negb (String.eqb (fst kv) k)) d.

Lemma jremove_fresh d k : k ∉ d.*1 -> jremove d k = d.
Proof.
  intros Hk. apply filter_id, forallb_elem_of. intros [k' v] Hin. cbn.
  apply negb_true_iff, String.eqb_neq. intros ->. apply Hk.
  change k with (fst (k, v)). by apply list_elem_of_fmap_2.
Qed.

Lemma jset_perm d k v : NoDup (d.*1) -> Permutation (jset d k v) ((k, v) :: jremove d k).
Proof.
  induction d as [|[k' w] d IH]; cbn; intros Hnd; [done|].
  apply NoDup_cons in Hnd as [Hk Hnd].
  destruct (String.eqb_spec k' k) as [->|Hne]; cbn.
  - fold (jremove d k). by rewrite jremove_fresh.
  - fold (jremove d k). rewrite IH by done. apply Permutation_swap.
Qed.

Lemma sort_members_jremove d k : sort_members (jremove d k) = jremove (sort_members d) k.
Proof.
  induction d as [|[k' v] d IH]; cbn; [done|].
  destruct (String.eqb k' k); cbn; [done|]. by f_equal.
Qed.

Lemma filter_Permutation {A} (p : A -> bool) l l' :
  Permutation l l' -> Permutation (List.filter p l) (List.filter p l').
Proof.
  induction 1 as [|x l l' _ IH|x y l|l l' l'' _ IH1 _ IH2]; cbn.
  - done.
  - destruct (p x); [by apply perm_skip|done].
  - destruct (p x), (p y); try done. apply Permutation_swap.
  - by etrans.
Qed.

Lemma same_members_jremove d d' k :
  same_members d d' -> same_members (jremove d k) (jremove d' k).
Proof.
  unfold same_members. intros H. rewrite !sort_members_jremove. by apply filter_Permutation.
Qed.

Lemma same_members_jset d d' k v :
  NoDup (d.*1) -> NoDup (d'.*1) -> same_members d d' -> same_members (jset d k v) (jset d' k v).
Proof.
  intros Hnd Hnd' H. unfold same_members.
  assert (forall e, NoDup (e.*1) ->
    Permutation (sort_members (jset e k v)) ((k, sort_json v) :: sort_members (jremove e k))) as Hset.
  { intros e He. unfold sort_members. rewrite (jset_perm e k v He). done. }
  rewrite !Hset by done. apply perm_skip. by apply same_members_jremove.
Qed.

Lemma jremove_NoDup d k : NoDup (d.*1) -> NoDup ((jremove d k).*1).
Proof.
  induction d as [|[k' v] d IH]; cbn; intros Hnd; [done|].
  apply NoDup_cons in Hnd as [Hk Hnd]. destruct (String.eqb k' k); cbn; [by apply IH|].
  constructor; [|by apply IH]. intros Hin. apply Hk.
  apply list_elem_of_fmap in Hin as (kv & -> & Hin). apply elem_of_lfilter in Hin as [Hin _].
  by apply list_elem_of_fmap_2.
Qed.

Lemma jset_keys d k v : NoDup (d.*1) -> NoDup ((jset d k v).*1) /\
  (forall k', k' ∈ (jset d k v).*1 <-> k' = k \/ k' ∈ d.*1).
Proof.
  induction d as [|[k0 w] d IH]; cbn; intros Hnd.
  - split; [by apply NoDup_singleton|]. intros k'. by rewrite elem_of_cons.
  - apply NoDup_cons in Hnd as [Hk Hnd]. destruct (IH Hnd) as [IH1 IH2].
    destruct (String.eqb_spec k0 k) as [->|Hne]; cbn.
    + split; [by constructor|]. intros k'. rewrite elem_of_cons. tauto.
    + split; [constructor; [by rewrite IH2; intros [?|?]|done]|].
      intros k'. rewrite !elem_of_cons, IH2. tauto.
Qed.

Lemma jset_Forall (P : json -> Prop) d k v :
  Forall (fun kv => P (snd kv)) d -> P v -> Forall (fun kv => P (snd kv)) (jset d k v).
Proof.
  intros Hd Hv. induction Hd as [|[k0 w] d Hw Hd IH]; cbn; [by repeat constructor|].
  destruct (String.eqb k0 k); constructor; done.
Qed.

Lemma jget_jset_eq d k v : jget (jset d k v) k = Some v.
Proof.
  induction d as [|[k' w] d IH]; cbn; [by rewrite String.eqb_refl|].
  destruct (String.eqb k' k) eqn:E; cbn; by rewrite E.
Qed.

Lemma jget_jset_ne d k k' v : k <> k' -> jget (jset d k v) k' = jget d k'.
Proof.
  intros Hne. induction d as [|[k0 w] d IH]; cbn.
  - by rewrite (proj2 (String.eqb_neq k k')).
  - destruct (String.eqb_spec k0 k) as [->|Hk]; cbn.
    + by rewrite (proj2 (String.eqb_neq k k')).
    + by rewrite IH.
Qed.

Lemma jget_jremove_ne d k k' : k <> k' -> jget (jremove d k) k' = jget d k'.
Proof.
  intros Hne. induction d as [|[k0 w] d IH]; cbn; [done|].
  destruct (String.eqb_spec k0 k) as [->|Hk]; cbn; fold (jremove d k).
  - by rewrite (proj2 (String.eqb_neq k k')).
  - by rewrite IH.
Qed.

Lemma wf_jset d k v : wf_json (JDict d) -> wf_json v -> wf_json (JDict (jset d k v)).
Proof.
  intros Hd Hv. inversion Hd as [ | | | | | |? Hnd Hf]; subst. constructor.
  - by apply jset_keys.
  - by apply jset_Forall.
Qed.

Lemma wf_jremove d k : wf_json (JDict d) -> wf_json (JDict (jremove d k)).
Proof.
  intros Hd. inversion Hd as [ | | | | | |? Hnd Hf]; subst. constructor.
  - by apply jremove_NoDup.
  - rewrite Forall_forall in Hf |- *. intros kv [Hin _]%elem_of_lfilter. by apply Hf.
Qed.

Lemma wf_dict_NoDup d : wf_json (JDict d) -> NoDup (d.*1).
Proof. by inversion 1. Qed.

#[export] Hint Resolve wf_jset wf_jremove wf_dict_NoDup : rygnal.

#[export] Hint Constructors wf_json : rygnal.
#[export] Hint Resolve sort_json_wf : rygnal.

Example loads_example :
  loads "[1, -2.5e3 ,null, [true, {} ] ]"
   = Some (JList [JInt 1; JFloat "-2.5e3"; JNull; JList [JBool true; JDict []]]).
Proof. vm_compute. reflexivity. Qed.

(** *** What a text is read as *)

Lemma number_token_idem s t rest : number_token s = (t, rest) -> number_token t = (t, "").
Proof.
  revert t rest. induction s as [|c s IH]; cbn [number_token]; intros t rest; [by intros [= <- _]|].
  destruct (is_number_char c) eqn:Ec; [|by intros [= <- _]].
  destruct (number_token s) as [t' r]. intros [= <- _]. cbn [number_token].
  by rewrite Ec, (IH t' r).
Qed.

Lemma split_on_cons sep c s : exists w ws,
  split_on sep (String c s) = (if Ascii.eqb c sep then EmptyString else String c w) :: ws.
Proof.
  cbn. destruct (Ascii.eqb c sep); [by eexists EmptyString, _|].
  destruct (split_on sep s) as [|w ws]; by eexists _, _.
Qed.

Lemma valid_float_head t : valid_float t = true ->
  exists c t', t = String c t' /\ (c = "-"%char \/ digit_value c <> None).
Proof.
  destruct t as [|c t]; [done|]. intros Hv. exists c, t. split; [done|].
  destruct (Ascii.eqb_spec c "-") as [->|Hm]; [by left|right]. intros Hd.
  assert (Hr : in_range 48 57 (code c) = false)
    by (unfold digit_value in Hd; by destruct (in_range 48 57 (code c))).
  assert (Hbad : forall w : string, w = "" \/ (exists w', w = String c w') ->
    valid_int_part w = false /\ exists w' ws,
      split_on "." (drop_sign "-" w) = (match w' with Some x => String c x | None => "" end) :: ws).
  { assert (Hds : forall w, drop_sign "-" (String c w) = String c w).
    { intros w. unfold drop_sign. cbn. by rewrite (proj2 (Ascii.eqb_neq _ _)). }
    intros w [->|[w' ->]]; [split; [done|]; by exists None, []|]. split.
    - unfold valid_int_part, some_digits. cbn. by rewrite Hr.
    - rewrite Hds. destruct (split_on_cons "." c w') as (x & ws & ->).
      destruct (Ascii.eqb c "."); [exists None|exists (Some x)]; by exists ws. }
  assert (Hb2 : forall o, valid_int_part (match o with Some x => String c x | None => "" end) = false)
    by (intros [x|]; apply Hbad; eauto).
  unfold valid_float in Hv. destruct (split_on_cons "e" c t) as (w & ws & E). rewrite E in Hv.
  set (m := if Ascii.eqb c "e" then "" else String c w) in *.
  assert (Hm' : m = "" \/ exists w', m = String c w')
    by (unfold m; destruct (Ascii.eqb c "e"); eauto).
  destruct (proj2 (Hbad m Hm')) as (o & l & Hsp).
  destruct ws as [|x [|y ws]]; [rewrite Hsp in Hv|rewrite Hsp in Hv|done];
    destruct l as [|f [|g l]]; try done; by rewrite Hb2 in Hv.
Qed.

Lemma parse_number_wf s t rest v :
  number_token s = (t, rest) -> parse_number t = Some v -> wf_json v.
Proof.
  intros Ht. unfold parse_number. destruct (is_float_token t) eqn:Ef.
  - destruct (valid_float t) eqn:Ev; [|done]. intros [= <-]. constructor.
    split; [by eapply number_token_idem|]. split_and!; try done. by apply valid_float_head.
  - destruct (parse_int t); [|done]. destruct (_ || _); [|done]. intros [= <-]. constructor.
Qed.

Lemma jdict_of_wf d :
  NoDup ((jdict_of d).*1) /\ (forall P : json -> Prop,
    Forall (fun kv => P (snd kv)) d -> Forall (fun kv => P (snd kv)) (jdict_of d)).
Proof.
  unfold jdict_of. assert (H : forall acc, NoDup (acc.*1) ->
    NoDup ((fold_left (fun d kv => jset d (fst kv) (snd kv)) d acc).*1) /\
    (forall P : json -> Prop, Forall (fun kv => P (snd kv)) acc -> Forall (fun kv => P (snd kv)) d ->
      Forall (fun kv => P (snd kv)) (fold_left (fun d kv => jset d (fst kv) (snd kv)) d acc))).
  { induction d as [|[k v] d IH]; intros acc Hnd; cbn; [by split; intros|].
    destruct (IH (jset acc k v) (proj1 (jset_keys acc k v Hnd))) as [IH1 IH2].
    split; [done|]. intros P Ha [Hv Hd]%Forall_cons_1. apply IH2; [by apply jset_Forall|done]. }
  destruct (H [] ltac:(constructor)) as [H1 H2]. split; [done|]. intros P Hd. by apply H2.
Qed.

Lemma parse_wf n :
  (forall s v rest, parse_value n s = Some (v, rest) -> wf_json v) /\
  (forall s l rest, parse_items n s = Some (l, rest) -> Forall wf_json l) /\
  (forall s d rest, parse_members n s = Some (d, rest) -> Forall (fun kv => wf_json (snd kv)) d).
Proof.
  induction n as [|n (IHv & IHi & IHm)]; [done|]. split_and!.
  - intros s v rest H. cbn -[quote number_token expect next_is] in H.
    destruct s as [|c s]; [done|].
    destruct (Ascii.eqb c quote); [destruct (parse_chars s) as [[w r]|]; simplify_eq; apply wf_str|].
    destruct (Ascii.eqb c "[").
    { destruct (next_is _ _); [simplify_eq; by apply wf_list|].
      destruct (parse_items n _) as [[l r]|] eqn:E; [|done]. simplify_eq.
      constructor. by eapply IHi. }
    destruct (Ascii.eqb c "{").
    { destruct (next_is _ _); [simplify_eq; by apply wf_dict; constructor|].
      destruct (parse_members n _) as [[d r]|] eqn:E; [|done]. simplify_eq.
      constructor; [apply jdict_of_wf|]. apply (proj2 (jdict_of_wf d)). by eapply IHm. }
    destruct (Ascii.eqb c "n"); [destruct (expect _ _); cbn in H; simplify_eq; apply wf_null|].
    destruct (Ascii.eqb c "t"); [destruct (expect _ _); cbn in H; simplify_eq; apply wf_bool|].
    destruct (Ascii.eqb c "f"); [destruct (expect _ _); cbn in H; simplify_eq; apply wf_bool|].
    match type of H with context [let '(_, _) := ?m in _] => destruct m as [t r] eqn:Et end.
    destruct (parse_number t) as [w|] eqn:E; cbn in H; simplify_eq. by eapply parse_number_wf.
  - intros s l rest H. cbn -[next_is] in H. destruct (parse_value n s) as [[v r]|] eqn:E; [|done].
    apply IHv in E. destruct (next_is "," _).
    + destruct (parse_items n _) as [[l' r']|] eqn:Ei; [|done]. simplify_eq.
      constructor; [done|by eapply IHi].
    + destruct (next_is "]" _); cbn in H; simplify_eq. by repeat constructor.
  - intros s d rest H. cbn -[quote next_is] in H. destruct (next_is quote s); [|done].
    destruct (parse_chars _) as [[k r]|]; [|done]. destruct (next_is ":" _); [|done].
    destruct (parse_value n _) as [[v r2]|] eqn:E; [|done]. apply IHv in E.
    destruct (next_is "," _).
    + destruct (parse_members n _) as [[l' r']|] eqn:Ei; [|done]. simplify_eq.
      constructor; [done|by eapply IHm].
    + destruct (next_is "}" _); cbn in H; simplify_eq. by repeat constructor.
Qed.

(** Whatever text is accepted, the value can be written again. *)
Lemma loads_wf s v : loads s = Some v -> wf_json v.
Proof.
  unfold loads. destruct (parse_value _ _) as [[w r]|] eqn:E; [|done].
  destruct (truthy _); [done|]. intros [= <-]. by eapply (proj1 (parse_wf _)).
Qed.
