(* ===== verification/Sha256.v ===== *)
(** * hashlib.sha256

    The digest the sources use for receipts, audit chains, patch artifacts and
    bindings: SHA-256 over the UTF-8 bytes of a text, in hexadecimal.  Words
    are 32-bit integers written as [Z] with their wrap-around.  The binding
    theorems of the other files do not assume that the function is injective:
    they conclude that two texts are equal or are a collision. *)

From S2P Require Export PyValue.

(** ** Definitions *)

(** [s.encode("utf-8")] for code points below 256. *)
Fixpoint utf8_bytes (s : string) : list Z :=
  match s with
  | EmptyString => []
  | String c s' =>
      let n := Z.of_N (code c) in
      if (n <? 128)%Z then n :: utf8_bytes s'
      else (192 + n / 64)%Z :: (128 + n mod 64)%Z :: utf8_bytes s'
  end.

Definition word_size : Z := 4294967296.

Definition add32 (a b : Z) : Z := ((a + b) mod word_size)%Z.
Definition rotr (n x : Z) : Z :=
  Z.lor (Z.shiftr x n) (Z.shiftl x (32 - n) mod word_size).
Definition not32 (x : Z) : Z := (4294967295 - x)%Z.

Definition round_constants : list Z :=
  ([
    1116352408; 1899447441; 3049323471; 3921009573; 961987163; 1508970993; 2453635748;
    2870763221; 3624381080; 310598401; 607225278; 1426881987; 1925078388; 2162078206;
    2614888103; 3248222580; 3835390401; 4022224774; 264347078; 604807628; 770255983;
    1249150122; 1555081692; 1996064986; 2554220882; 2821834349; 2952996808; 3210313671;
    3336571891; 3584528711; 113926993; 338241895; 666307205; 773529912; 1294757372;
    1396182291; 1695183700; 1986661051; 2177026350; 2456956037; 2730485921; 2820302411;
    3259730800; 3345764771; 3516065817; 3600352804; 4094571909; 275423344; 430227734;
    506948616; 659060556; 883997877; 958139571; 1322822218; 1537002063; 1747873779;
    1955562222; 2024104815; 2227730452; 2361852424; 2428436474; 2756734187; 3204031479;
    3329325298
   ])%Z.

Definition initial_hash : list Z :=
  ([
    1779033703; 3144134277; 1013904242; 2773480762; 1359893119; 2600822924; 528734635;
    1541459225
   ])%Z.

(** Big-endian bytes. *)
Fixpoint be_bytes (n : nat) (x : Z) : list Z :=
  match n with
  | O => []
  | S n' => be_bytes n' (x / 256) ++ [(x mod 256)%Z]
  end.

Definition pad (bytes : list Z) : list Z :=
  let len := Z.of_nat (List.length bytes) in
  let zeros := Z.to_nat ((55 - len) mod 64) in
  bytes ++ [128%Z] ++ repeat 0%Z zeros ++ be_bytes 8 (8 * len).

Fixpoint words (bytes : list Z) : list Z :=
  match bytes with
  | a :: b :: c :: d :: rest => (((a * 256 + b) * 256 + c) * 256 + d)%Z :: words rest
  | _ => []
  end.

(** The message schedule, newest word first. *)
Fixpoint extend (n : nat) (w : list Z) : list Z :=
  match n with
  | O => w
  | S n' =>
      let at_ i := nth i w 0%Z in
      let x := at_ 14 in
      let y := at_ 1 in
      let s0 := Z.lxor (Z.lxor (rotr 7 x) (rotr 18 x)) (Z.shiftr x 3) in
      let s1 := Z.lxor (Z.lxor (rotr 17 y) (rotr 19 y)) (Z.shiftr y 10) in
      extend n' (add32 (add32 (at_ 15) s0) (add32 (at_ 6) s1) :: w)
  end.

Definition round (st : list Z) (kw : Z * Z) : list Z :=
  match st with
  | [a; b; c; d; e; f; g; h] =>
      let s1 := Z.lxor (Z.lxor (rotr 6 e) (rotr 11 e)) (rotr 25 e) in
      let ch := Z.lxor (Z.land e f) (Z.land (not32 e) g) in
      let t1 := add32 (add32 (add32 h s1) (add32 ch (fst kw))) (snd kw) in
      let s0 := Z.lxor (Z.lxor (rotr 2 a) (rotr 13 a)) (rotr 22 a) in
      let maj := Z.lxor (Z.lxor (Z.land a b) (Z.land a c)) (Z.land b c) in
      [add32 t1 (add32 s0 maj); a; b; c; add32 d t1; e; f; g]
  | _ => st
  end.

Definition compress (st block : list Z) : list Z :=
  let schedule := rev (extend 48 (rev block)) in
  List.map (fun xy => add32 (fst xy) (snd xy))
    (combine st (fold_left round (combine round_constants schedule) st)).

Fixpoint blocks (fuel : nat) (st ws : list Z) : list Z :=
  match fuel with
  | O => st
  | S n => match ws with
           | [] => st
           | _ => blocks n (compress st (firstn 16 ws)) (skipn 16 ws)
           end
  end.

Definition sha256_bytes (bytes : list Z) : list Z :=
  let ws := words (pad bytes) in
  flat_map (be_bytes 4) (blocks (List.length ws) initial_hash ws).

Fixpoint hex (bytes : list Z) : string :=
  match bytes with
  | [] => ""
  | b :: bs => String (hex_digit (Z.to_N (b / 16)))
                 (String (hex_digit (Z.to_N (b mod 16))) (hex bs))
  end.

(** [hashlib.sha256(s.encode("utf-8")).hexdigest()] *)
Definition sha256_hex (s : string) : string := hex (sha256_bytes (utf8_bytes s)).

#[global] Arguments sha256_hex : simpl never.

(** Two texts are equal or collide under the digest. *)
Definition same_or_collision (x y : string) : Prop :=
  x = y \/ (x <> y /\ sha256_hex x = sha256_hex y).

(** ** Lemmas *)

Lemma digest_eq_same_or_collision x y : sha256_hex x = sha256_hex y -> same_or_collision x y.
Proof. unfold same_or_collision. destruct (decide (x = y)); auto. Qed.

Lemma hex_truthy b bs : truthy (hex (b :: bs)) = true.
Proof. done. Qed.

Example sha256_abc :
  sha256_hex "abc" = "ba7816bf8f01cfea414140de5dae2223b00361a396177a9cb410ff61f20015ad"%string.
Proof. vm_compute. reflexivity. Qed.

Example sha256_two_blocks :
  sha256_hex (String (ascii_of_N 233) "abcdbcdecdefdefgefghfghighijhijkijkljklmklmnlmnomnopnopq")
  = "abdaa1b51a2946190835314b858351a53a17befe2ac8a86ad1ea117fc1ce7226"%string.
Proof. vm_compute. reflexivity. Qed.
