(* ===== verification/Receipt.v ===== *)
(** * approval_receipt.py: approval receipts

    The receipt of an approved decision: a SHA-256 digest of the canonical JSON
    of the request and the decision, stored in the decision's metadata, and its
    verification.  The dictionary keys are strings, so the shape check of
    [_validate_receipt_shape] (missing attributes) cannot fail on the typed
    records and has no counterpart here. *)

From S2P Require Export Models Security Json Sha256.

(** ** Definitions *)

Definition APPROVAL_RECEIPT_SCHEMA_VERSION : string := "approval-receipt.v1".
Definition APPROVAL_RECEIPT_SCHEMA_VERSION_KEY : string := "approval_receipt_schema_version".
Definition APPROVAL_RECEIPT_HASH_KEY : string := "approval_receipt_hash".

Definition _RECEIPT_METADATA_KEYS : list string :=
  [APPROVAL_RECEIPT_SCHEMA_VERSION_KEY; APPROVAL_RECEIPT_HASH_KEY].

Inductive ReceiptStatus := RVALID | RMISSING | RTAMPERED.

Definition receipt_error (name text : string) : exn := mk_exn ValueError name text.

Definition type_name (v : pyval) : string :=
  match v with
  | PNone => "NoneType" | PBool _ => "bool" | PInt _ => "int" | PFloat _ _ _ => "float"
  | PStr _ => "str" | PList _ => "list" | PTuple _ => "tuple" | PDict _ => "dict"
  end.

Definition ApprovalReceiptPayloadError (v : pyval) : exn :=
  receipt_error "ApprovalReceiptPayloadError"
    ("Invalid approval receipt payload for approval 'unknown': " +++
     "non-canonical type in receipt payload: " +++ type_name v +++ ".").

Definition ApprovalReceiptConflictError (approval_id : string) : exn :=
  receipt_error "ApprovalReceiptConflictError"
    ("Approval receipt hash conflict for approval '" +++ approval_id +++ "'.").

(** Nesting depth, the fuel [_stable_json_value] needs. *)
Fixpoint pdepth (v : pyval) : nat :=
  match v with
  | PList l | PTuple l => S (list_max (List.map pdepth l))
  | PDict d => S (list_max (List.map (fun kv => match kv with (_, x) => pdepth x end) d))
  | _ => 1
  end.

(** [_stable_json_value]: redact, then sort the keys and recurse into the
    redacted value.  The recursion follows the redacted value, not the
    argument, so it is bounded by the depth, which redaction does not raise. *)
Fixpoint stable_json (fuel : nat) (value : pyval) : result exn json :=
  match fuel with
  | O => Raise (ApprovalReceiptPayloadError value)
  | S n =>
      redacted ← redact_sensitive_value value;
      match redacted with
      | PDict d =>
          kvs ← mapR (fun kv => v ← stable_json n (snd kv); Ok (fst kv, v))
                  (sort_by_key (List.map (fun kv => (py_str (fst kv), snd kv)) d));
          Ok (JDict (jdict_of kvs))
      | PTuple l | PList l => l' ← mapR (stable_json n) l; Ok (JList l')
      | PStr s => Ok (JStr s)
      | PInt z => Ok (JInt z)
      | PBool b => Ok (JBool b)
      | PNone => Ok JNull
      | PFloat _ _ _ => Raise (ApprovalReceiptPayloadError redacted)
      end
  end.

Definition _stable_json_value (value : pyval) : result exn json :=
  stable_json (pdepth value) value.

Definition _receipt_free_metadata (metadata : pydict) : pydict :=
  List.filter (fun kv => negb (mem (fst kv) _RECEIPT_METADATA_KEYS)) metadata.

Definition _with_metadata (d : ApprovalDecision.t) (metadata : pydict) : ApprovalDecision.t :=
  ApprovalDecision.mk (ApprovalDecision.approval_id d) (ApprovalDecision.status d)
    (ApprovalDecision.approved d) (ApprovalDecision.decided_by d)
    (ApprovalDecision.decided_at d) (ApprovalDecision.reason d) metadata.

Definition _without_receipt_metadata (d : ApprovalDecision.t) : ApprovalDecision.t :=
  _with_metadata d (_receipt_free_metadata (ApprovalDecision.metadata d)).

Definition receipt_request_fields (r : ApprovalRequest.t) : pydict :=
  [("approval_id", PStr (ApprovalRequest.approval_id r));
   ("created_at", PStr (ApprovalRequest.created_at r));
   ("trace_id", PStr (ApprovalRequest.trace_id r));
   ("requested_by", PStr (ApprovalRequest.requested_by r));
   ("agent_id", PStr (ApprovalRequest.agent_id r));
   ("environment", PStr (ApprovalRequest.environment r));
   ("tool_name", PStr (ApprovalRequest.tool_name r));
   ("action", of_opt_str (ApprovalRequest.action r));
   ("target", ApprovalRequest.target r);
   ("policy_id", of_opt_str (ApprovalRequest.policy_id r));
   ("reason", PStr (ApprovalRequest.reason r));
   ("severity", PStr (severity_value (ApprovalRequest.severity r)));
   ("metadata", of_dict (ApprovalRequest.metadata r))].

Definition receipt_decision_fields (d : ApprovalDecision.t) : pydict :=
  [("approval_id", PStr (ApprovalDecision.approval_id d));
   ("status", PStr (approval_status_value (ApprovalDecision.status d)));
   ("approved", PBool (ApprovalDecision.approved d));
   ("decided_by", of_opt_str (ApprovalDecision.decided_by d));
   ("decided_at", of_opt_str (ApprovalDecision.decided_at d));
   ("reason", PStr (ApprovalDecision.reason d));
   ("metadata", of_dict (_receipt_free_metadata (ApprovalDecision.metadata d)))].

Definition receipt_payload_fields (r : ApprovalRequest.t) (d : ApprovalDecision.t) : pydict :=
  [("schema_version", PStr APPROVAL_RECEIPT_SCHEMA_VERSION);
   ("request", of_dict (receipt_request_fields r));
   ("decision", of_dict (receipt_decision_fields d))].

Definition approval_receipt_payload (r : ApprovalRequest.t) (d : ApprovalDecision.t)
    : result exn json :=
  _stable_json_value (of_dict (receipt_payload_fields r d)).

(** The text that is hashed. *)
Definition receipt_text (r : ApprovalRequest.t) (d : ApprovalDecision.t) : result exn string :=
  payload ← approval_receipt_payload r d; Ok (canonical_json payload).

Definition calculate_approval_receipt_hash (r : ApprovalRequest.t) (d : ApprovalDecision.t)
    : result exn string :=
  text ← receipt_text r d; Ok (sha256_hex text).

(** [{**metadata, version key: version, hash key: hash}] *)
Definition receipt_metadata (metadata : pydict) (receipt_hash : string) : pydict :=
  dict_set (dict_set metadata APPROVAL_RECEIPT_SCHEMA_VERSION_KEY
              (PStr APPROVAL_RECEIPT_SCHEMA_VERSION))
           APPROVAL_RECEIPT_HASH_KEY (PStr receipt_hash).

Definition attach_approval_receipt (r : ApprovalRequest.t) (d : ApprovalDecision.t)
    : result exn ApprovalDecision.t :=
  if negb (bool_decide (ApprovalDecision.status d = APPROVED)) || negb (ApprovalDecision.approved d)
  then Ok d
  else
    let existing_hash := dict_get (ApprovalDecision.metadata d) APPROVAL_RECEIPT_HASH_KEY in
    let unsigned_decision := _without_receipt_metadata d in
    receipt_hash ← calculate_approval_receipt_hash r unsigned_decision;
    let conflict := match existing_hash with
                    | PStr h => truthy h && negb (String.eqb h receipt_hash)
                    | _ => false end in
    if conflict then Raise (ApprovalReceiptConflictError (ApprovalDecision.approval_id d))
    else Ok (_with_metadata unsigned_decision
               (receipt_metadata (ApprovalDecision.metadata unsigned_decision) receipt_hash)).

(** Every error of the hash computation is an [ApprovalReceiptPayloadError]
    ([TAMPERED]) except the [AttributeError] of a metadata key that is not a
    string, which escapes. *)
Definition is_payload_error (e : exn) : bool :=
  String.eqb (exn_name e) "ApprovalReceiptPayloadError".

Definition verify_approval_receipt (r : ApprovalRequest.t) (d : ApprovalDecision.t)
    : result exn ReceiptStatus :=
  match dict_get (ApprovalDecision.metadata d) APPROVAL_RECEIPT_HASH_KEY with
  | PStr expected_hash =>
      if truthy expected_hash then
        match calculate_approval_receipt_hash r (_without_receipt_metadata d) with
        | Ok actual_hash =>
            Ok (if String.eqb actual_hash expected_hash then RVALID else RTAMPERED)
        | Raise e => if is_payload_error e then Ok RTAMPERED else Raise e
        end
      else Ok RMISSING
  | _ => Ok RMISSING
  end.

Definition assert_approval_receipt_valid (r : ApprovalRequest.t) (d : ApprovalDecision.t)
    : result exn unit :=
  status ← verify_approval_receipt r d;
  match status with
  | RVALID => Ok ()
  | RMISSING =>
      Raise (receipt_error "ApprovalReceiptMissingError"
        ("Approval receipt hash is missing for approval '" +++
         ApprovalDecision.approval_id d +++ "'."))
  | RTAMPERED =>
      Raise (receipt_error "ApprovalReceiptTamperedError"
        ("Approval receipt hash is invalid for approval '" +++
         ApprovalDecision.approval_id d +++ "'."))
  end.

(** ** Lemmas *)

Lemma filter_twice {A} (p : A -> bool) l : List.filter p (List.filter p l) = List.filter p l.
Proof.
  apply filter_id. apply forallb_elem_of. by intros x [_ ?]%elem_of_lfilter.
Qed.

Lemma without_receipt_idemp d :
  _without_receipt_metadata (_without_receipt_metadata d) = _without_receipt_metadata d.
Proof. unfold _without_receipt_metadata. cbn. unfold _receipt_free_metadata. by rewrite filter_twice. Qed.

Lemma filter_dict_set_drop (p : string -> bool) d k v :
  p k = false ->
  List.filter (fun kv => p (fst kv)) (dict_set d k v) = List.filter (fun kv => p (fst kv)) d.
Proof.
  intros Hk. induction d as [|[k' w] d IH]; cbn; [by rewrite Hk|].
  destruct (String.eqb_spec k' k) as [->|Hne]; cbn.
  - by rewrite Hk.
  - by rewrite IH.
Qed.

(** Stripping the receipt again gives the signed decision back. *)
Lemma without_receipt_attached d h :
  _without_receipt_metadata (_with_metadata (_without_receipt_metadata d)
     (receipt_metadata (ApprovalDecision.metadata (_without_receipt_metadata d)) h))
  = _without_receipt_metadata d.
Proof.
  unfold _without_receipt_metadata at 1. cbn. unfold receipt_metadata, _receipt_free_metadata.
  rewrite !(filter_dict_set_drop (fun k => negb (mem k _RECEIPT_METADATA_KEYS))) by done.
  by rewrite filter_twice.
Qed.

Lemma sha256_hex_truthy s : truthy (sha256_hex s) = true.
Proof.
  unfold sha256_hex, sha256_bytes.
  assert (forall n ws, exists b bs,
    flat_map (be_bytes 4) (blocks n initial_hash ws) = b :: bs) as H; [|].
  { assert (forall n st ws, 0 < List.length st -> 0 < List.length (blocks n st ws)) as Hl.
    { induction n as [|n IH]; intros st ws Hst; cbn [blocks]; [done|].
      destruct ws as [|w ws]; [done|]. apply IH. unfold compress.
      rewrite List.length_map, List.length_combine.
      assert (forall kws st, 0 < List.length st -> 0 < List.length (fold_left round kws st)) as Hr.
      { induction kws as [|kw kws IHk]; intros st' H; cbn [fold_left]; [done|].
        apply IHk. unfold round. repeat (case_match; try done); cbn; lia. }
      specialize (Hr (combine round_constants (rev (extend 48 (rev (firstn 16 (w :: ws)))))) st Hst).
      lia. }
    intros n ws. specialize (Hl n initial_hash ws ltac:(cbn; lia)).
    destruct (blocks n initial_hash ws) as [|x xs]; [cbn in Hl; lia|].
    cbn [flat_map be_bytes app]. by eexists _, _. }
  destruct (H (List.length (words (pad (utf8_bytes s)))) (words (pad (utf8_bytes s)))) as (b & bs & ->).
  apply hex_truthy.
Qed.

Lemma attach_Ok_inv r d d' :
  attach_approval_receipt r d = Ok d' ->
  (d' = d /\ (ApprovalDecision.status d <> APPROVED \/ ApprovalDecision.approved d = false)) \/
  (ApprovalDecision.status d = APPROVED /\ ApprovalDecision.approved d = true /\
   exists h, calculate_approval_receipt_hash r (_without_receipt_metadata d) = Ok h /\
     d' = _with_metadata (_without_receipt_metadata d)
            (receipt_metadata (ApprovalDecision.metadata (_without_receipt_metadata d)) h)).
Proof.
  unfold attach_approval_receipt. destruct (negb _ || negb _) eqn:E.
  - intros [= <-]. left. split; [done|]. bool_to_prop. by destruct E as [?|?]; [left|right].
  - apply orb_false_iff in E as [Es Ea]. apply negb_false_iff in Es, Ea.
    apply bool_decide_eq_true in Es. intros H. right.
    apply bind_Ok_inv in H as (h & Hh & Hif).
    destruct (dict_get (ApprovalDecision.metadata d) APPROVAL_RECEIPT_HASH_KEY);
      try destruct (truthy _ && _); try discriminate Hif; injection Hif as <-; eauto 10.
Qed.

(** Attaching keeps everything the decision says but its metadata. *)
Lemma attach_keeps r d d' :
  attach_approval_receipt r d = Ok d' ->
  ApprovalDecision.approved d' = ApprovalDecision.approved d /\
  ApprovalDecision.status d' = ApprovalDecision.status d /\
  ApprovalDecision.decided_by d' = ApprovalDecision.decided_by d /\
  ApprovalDecision.approval_id d' = ApprovalDecision.approval_id d.
Proof. by intros [[-> _]|(_ & _ & h & _ & ->)]%attach_Ok_inv. Qed.

Lemma verify_valid_inv r d :
  verify_approval_receipt r d = Ok RVALID ->
  exists h, dict_get (ApprovalDecision.metadata d) APPROVAL_RECEIPT_HASH_KEY = PStr h /\
    calculate_approval_receipt_hash r (_without_receipt_metadata d) = Ok h.
Proof.
  unfold verify_approval_receipt.
  destruct (dict_get (ApprovalDecision.metadata d) APPROVAL_RECEIPT_HASH_KEY) as [ | | | |h| | | ]; try done.
  destruct (truthy h); [|done].
  destruct (calculate_approval_receipt_hash r (_without_receipt_metadata d)) as [a|e].
  - destruct (String.eqb_spec a h) as [->|]; [by exists h|done].
  - by destruct (is_payload_error e).
Qed.

Lemma attached_verifies r d d' :
  ApprovalDecision.status d = APPROVED -> ApprovalDecision.approved d = true ->
  attach_approval_receipt r d = Ok d' -> verify_approval_receipt r d' = Ok RVALID.
Proof.
  intros Hs Ha [[_ [?|?]]|(_ & _ & h & Hh & ->)]%attach_Ok_inv; [done|congruence|].
  unfold verify_approval_receipt.
  rewrite without_receipt_attached, Hh. cbn [_with_metadata ApprovalDecision.metadata].
  unfold receipt_metadata, dict_get. rewrite dict_lookup_set_eq. cbn [default from_option id].
  rewrite String.eqb_refl. unfold calculate_approval_receipt_hash in Hh.
  apply bind_Ok_inv in Hh as (text & _ & [= <-]). by rewrite sha256_hex_truthy.
Qed.

(** *** The recursion of [_stable_json_value] *)

Lemma list_max_le_in (l : list nat) x : x ∈ l -> x <= list_max l.
Proof.
  induction l as [|y l IH]; [by intros ?%elem_of_nil|].
  change (list_max (y :: l)) with (Nat.max y (list_max l)).
  intros [->|H]%elem_of_cons; [lia|]. specialize (IH H). lia.
Qed.

Lemma list_max_map_le {A B} (f : A -> nat) (g : B -> nat) l l' :
  Forall2 (fun x y => g y <= f x) l l' ->
  list_max (List.map g l') <= list_max (List.map f l).
Proof.
  induction 1 as [|x y l l' Hxy _ IH]; [done|].
  change (Nat.max (g y) (list_max (List.map g l')) <= Nat.max (f x) (list_max (List.map f l))).
  lia.
Qed.

Lemma redact_depth v w : redact_sensitive_value v = Ok w -> pdepth w <= pdepth v.
Proof.
  revert w. induction v as [ | | | | |l IH|l IH|d IH] using pyval_nested_ind;
    intros w; cbn [redact_sensitive_value]; try (by intros [= <-]).
  1-2: intros (l' & Hl%mapR_Ok_Forall2 & [= <-])%bind_Ok_inv; cbn [pdepth];
       apply le_n_S, list_max_map_le; rewrite Forall_forall in IH;
       eapply Forall2_impl_in; [exact Hl|]; cbn; intros x y Hx _ Hxy; by apply IH.
  intros (d' & Hd%mapR_Ok_Forall2 & [= <-])%bind_Ok_inv. cbn [pdepth].
  apply le_n_S, list_max_map_le. rewrite Forall_forall in IH.
  eapply Forall2_impl_in; [exact Hd|]. intros [k x] y Hx _ Hxy.
  destruct k; try discriminate Hxy. destruct (is_sensitive_key s).
  - injection Hxy as <-. cbn. destruct x; cbn; lia.
  - apply bind_Ok_inv in Hxy as (x' & Hx' & [= <-]). cbn.
    by apply (IH _ Hx).
Qed.

(** Enough fuel: any bound of the depth gives the same result. *)
Lemma stable_json_fuel n m v :
  pdepth v <= n -> pdepth v <= m -> stable_json n v = stable_json m v.
Proof.
  revert m v. induction n as [|n IH]; intros m v Hn Hm; [destruct v; cbn in Hn; lia|].
  destruct m as [|m]; [destruct v; cbn in Hm; lia|]. cbn [stable_json].
  destruct (redact_sensitive_value v) as [w|e] eqn:Ew; [|done].
  apply redact_depth in Ew.
  assert (Hlist : forall l, pdepth w = S (list_max (List.map pdepth l)) ->
            mapR (stable_json n) l = mapR (stable_json m) l).
  { intros l Hl. apply mapR_ext. intros x Hx.
    pose proof (list_max_le_in (List.map pdepth l) (pdepth x)
                  (list_elem_of_fmap_2 pdepth l x Hx)).
    apply IH; lia. }
  cbn. destruct w as [ | | | | |l|l|d]; try done.
  1-2: by rewrite (Hlist l).
  erewrite mapR_ext; [reflexivity|]. intros [k x] Hin. cbn.
  rewrite sort_by_key_perm in Hin. apply list_elem_of_fmap in Hin as ([k' x'] & [= -> ->] & Hin).
  assert (pdepth x' <= list_max (List.map (fun kv => match kv with (_, x) => pdepth x end) d))
    by (apply list_max_le_in;
        exact (list_elem_of_fmap_2 (fun kv => match kv with (_, x) => pdepth x end) d _ Hin)).
  cbn [pdepth] in Ew. by rewrite (IH m x') by lia.
Qed.

Lemma jdict_of_NoDup d : NoDup ((jdict_of d).*1).
Proof.
  unfold jdict_of. assert (forall acc, NoDup (acc.*1) ->
    NoDup ((fold_left (fun d kv => jset d (fst kv) (snd kv)) d acc).*1)) as H.
  { induction d as [|kv d IH]; intros acc Hacc; cbn; [done|].
    apply IH. by apply jset_keys. }
  apply H. constructor.
Qed.

Lemma jdict_of_Forall (P : json -> Prop) d :
  Forall (fun kv => P (snd kv)) d -> Forall (fun kv => P (snd kv)) (jdict_of d).
Proof.
  unfold jdict_of. assert (forall acc, Forall (fun kv => P (snd kv)) acc ->
    Forall (fun kv => P (snd kv)) d ->
    Forall (fun kv => P (snd kv)) (fold_left (fun d kv => jset d (fst kv) (snd kv)) d acc)) as H.
  { induction d as [|kv d IH]; intros acc Hacc Hd; cbn; [done|].
    apply Forall_cons_1 in Hd as [Hkv Hd]. apply IH; [|done]. by apply jset_Forall. }
  intros Hd. by apply H.
Qed.

Lemma stable_json_wf n v j : stable_json n v = Ok j -> wf_json j.
Proof.
  revert v j. induction n as [|n IH]; intros v j; [done|]. cbn [stable_json].
  intros (w & _ & H)%bind_Ok_inv. destruct w; try (injection H as <-; constructor); try done.
  1-2: apply bind_Ok_inv in H as (l' & Hl%mapR_Ok_Forall2 & [= <-]); constructor;
       eapply Forall2_Forall_r; [exact Hl|]; apply Forall_true; cbn; eauto.
  apply bind_Ok_inv in H as (d' & Hd%mapR_Ok_Forall2 & [= <-]).
  constructor; [apply jdict_of_NoDup|]. apply jdict_of_Forall.
  eapply Forall2_Forall_r; [exact Hd|]. apply Forall_true. cbn.
  intros x y (j & Hj & [= <-])%bind_Ok_inv. cbn. eauto.
Qed.

(** *** Fields of the payload *)

Lemma redact_dict_keys d d' : redact_dict d = Ok d' -> d'.*1 = d.*1.
Proof.
  unfold redact_dict. intros H%mapR_Ok_Forall2.
  induction H as [|[k x] y d d' Hx _ IH]; [done|]. cbn [fst snd] in Hx.
  rewrite !fmap_cons, IH. f_equal. cbn [fst].
  destruct (is_sensitive_key k); [by injection Hx as <-|].
  by apply bind_Ok_inv in Hx as (x' & _ & [= <-]).
Qed.

Lemma redact_dict_lookup d d' k x :
  redact_dict d = Ok d' -> is_sensitive_key k = false -> dict_lookup d k = Some x ->
  exists x', redact_sensitive_value x = Ok x' /\ dict_lookup d' k = Some x'.
Proof.
  unfold redact_dict. intros H%mapR_Ok_Forall2 Hk.
  induction H as [|[k0 x0] y d d' Hx _ IH]; [done|]. cbn [dict_lookup fst snd] in *.
  destruct (String.eqb_spec k0 k) as [->|Hne].
  - rewrite Hk in Hx. apply bind_Ok_inv in Hx as (x' & Hx' & [= <-]). cbn.
    rewrite String.eqb_refl. intros [= ->]. by exists x'.
  - intros Hl. destruct (IH Hl) as (x' & Hx' & Hl'). exists x'. split; [done|].
    destruct (is_sensitive_key k0); [injection Hx as <-|
      apply bind_Ok_inv in Hx as (x0' & _ & [= <-])]; cbn;
      by rewrite (proj2 (String.eqb_neq k0 k)).
Qed.

Lemma dict_lookup_elem_of d k x : NoDup (d.*1) -> (k, x) ∈ d -> dict_lookup d k = Some x.
Proof.
  induction d as [|[k0 w] d IH]; cbn; intros Hnd; [by intros ?%elem_of_nil|].
  apply NoDup_cons in Hnd as [Hk Hnd]. intros [[= -> ->]|Hin]%elem_of_cons.
  - by rewrite String.eqb_refl.
  - destruct (String.eqb_spec k0 k) as [->|]; [|by apply IH].
    exfalso. apply Hk. change k with (fst (k, x)). by apply list_elem_of_fmap_2.
Qed.

Lemma dict_lookup_in d k x : dict_lookup d k = Some x -> (k, x) ∈ d.
Proof.
  induction d as [|[k0 w] d IH]; cbn; [done|].
  destruct (String.eqb_spec k0 k) as [->|]; [intros [= ->]; set_solver|].
  intros ?%IH. set_solver.
Qed.

(** A field of a dictionary in its stable form. *)
Lemma stable_json_field n d j k x :
  stable_json (S n) (of_dict d) = Ok j -> NoDup (d.*1) ->
  is_sensitive_key k = false -> dict_lookup d k = Some x ->
  exists kvs x' v, j = JDict kvs /\ NoDup (kvs.*1) /\
    redact_sensitive_value x = Ok x' /\ stable_json n x' = Ok v /\ jget kvs k = Some v.
Proof.
  cbn [stable_json]. rewrite redact_dict_of_dict. intros H Hnd Hk Hx.
  apply bind_Ok_inv in H as (w & Hw & H).
  apply bind_Ok_inv in Hw as (d' & Hd' & [= <-]).
  destruct (redact_dict_lookup d d' k x Hd' Hk Hx) as (x' & Hx' & Hl).
  cbn [of_dict] in H. rewrite List.map_map in H. cbn [fst snd py_str] in H.
  rewrite (List.map_ext _ id), List.map_id in H by by intros [].
  apply bind_Ok_inv in H as (kvs & Hkvs%mapR_Ok_Forall2 & [= <-]).
  assert (Hkeys : kvs.*1 = (sort_by_key d').*1).
  { clear -Hkvs. induction Hkvs as [|a b l l' H _ IH]; [done|].
    apply bind_Ok_inv in H as (v & _ & [= <-]). cbn. by f_equal. }
  assert (Hndk : NoDup (kvs.*1)).
  { rewrite Hkeys. eapply NoDup_Permutation_proper; [apply fmap_Permutation, sort_by_key_perm|].
    by rewrite (redact_dict_keys d d'). }
  rewrite jdict_of_id by done.
  apply dict_lookup_in in Hl. rewrite <- sort_by_key_perm in Hl.
  apply list_elem_of_lookup in Hl as [i Hi].
  destruct (Forall2_lookup_l _ _ _ _ _ Hkvs Hi) as (y & Hy & Hv).
  apply bind_Ok_inv in Hv as (v & Hv & [= <-]). cbn [fst snd] in *.
  exists kvs, x', v. split_and!; try done.
  apply jget_elem_of; [done|]. by apply list_elem_of_lookup_2 in Hy.
Qed.

Lemma stable_json_str n s :
  stable_json (S n) (PStr s) = Ok (JStr (redact_sensitive_string s)).
Proof. reflexivity. Qed.

Local Opaque redact_sensitive_string.

(** What a string field of the request or the decision contributes to the
    payload: redaction runs at each of the three levels above it. *)
Definition receipt_view (s : string) : string :=
  redact_sensitive_string (redact_sensitive_string (redact_sensitive_string s)).

Definition receipt_section (name : string) (r : ApprovalRequest.t) (d : ApprovalDecision.t) : pydict :=
  if String.eqb name "request" then receipt_request_fields r else receipt_decision_fields d.

Lemma receipt_section_keys name r d :
  NoDup ((receipt_section name r d).*1) /\
  forallb (fun k => negb (is_sensitive_key k)) (receipt_section name r d).*1 = true.
Proof.
  unfold receipt_section. destruct (String.eqb name "request"); cbn -[is_sensitive_key];
    (split; [|reflexivity]); apply (bool_decide_eq_true_1 (NoDup _)); vm_compute; reflexivity.
Qed.

Lemma payload_section name r d p :
  name = "request"%string \/ name = "decision"%string ->
  approval_receipt_payload r d = Ok p ->
  exists kvs v, p = JDict kvs /\ NoDup (kvs.*1) /\ jget kvs name = Some v /\ wf_json v /\
    exists fs, v = JDict fs /\ NoDup (fs.*1) /\
      forall k s, dict_lookup (receipt_section name r d) k = Some (PStr s) ->
        jget fs k = Some (JStr (receipt_view s)).
Proof.
  intros Hname Hp. unfold approval_receipt_payload, _stable_json_value in Hp.
  rewrite (stable_json_fuel _ (S (S (S (pdepth (of_dict (receipt_payload_fields r d))))))) in Hp by lia.
  generalize dependent (pdepth (of_dict (receipt_payload_fields r d))). intros n Hp.
  assert (Hl : dict_lookup (receipt_payload_fields r d) name
     = Some (of_dict (receipt_section name r d))) by by destruct Hname as [->| ->].
  assert (Hns : is_sensitive_key name = false) by by destruct Hname as [->| ->].
  assert (Hnd0 : NoDup ((receipt_payload_fields r d).*1))
    by (apply (bool_decide_eq_true_1 (NoDup _)); vm_compute; reflexivity).
  destruct (stable_json_field _ _ _ name _ Hp Hnd0 Hns Hl)
    as (kvs & x' & v & -> & Hnd & Hx' & Hv & Hg).
  exists kvs, v. split_and!; [done|done|done|by eapply stable_json_wf|].
  rewrite redact_dict_of_dict in Hx'. apply bind_Ok_inv in Hx' as (fs' & Hfs' & [= <-]).
  destruct (receipt_section_keys name r d) as [Hndf Hkeys].
  assert (Hnd' : NoDup (fs'.*1)) by (by erewrite redact_dict_keys).
  assert (Hfield : forall k s, dict_lookup (receipt_section name r d) k = Some (PStr s) ->
    exists fs, v = JDict fs /\ NoDup (fs.*1) /\ jget fs k = Some (JStr (receipt_view s))).
  { intros k s Hk. assert (is_sensitive_key k = false) as Hsk.
    { rewrite forallb_elem_of in Hkeys. apply negb_true_iff, Hkeys.
      apply dict_lookup_in in Hk. change k with (fst (k, PStr s)). by apply list_elem_of_fmap_2. }
    destruct (redact_dict_lookup _ _ _ _ Hfs' Hsk Hk) as (x1 & [= <-] & Hl1).
    destruct (stable_json_field _ _ _ _ _ Hv Hnd' Hsk Hl1)
      as (fs & x2 & w & -> & Hndfs & [= <-] & Hw & Hgw).
    exists fs. split_and!; [done|done|]. rewrite stable_json_str in Hw.
    injection Hw as <-. exact Hgw. }
  assert (exists k s, dict_lookup (receipt_section name r d) k = Some (PStr s)) as (k0 & s0 & Hk0).
  { exists "approval_id"%string. destruct Hname as [->| ->]; cbn; eauto. }
  destruct (Hfield _ _ Hk0) as (fs & -> & Hndfs & _).
  exists fs. split_and!; [done|done|]. intros k s Hk.
  destruct (Hfield _ _ Hk) as (fs2 & [= <-] & _ & Hg2). done.
Qed.

(** Equal canonical texts agree on every string field. *)
Lemma receipt_text_fields name r d r0 d0 t k s s0 :
  name = "request"%string \/ name = "decision"%string ->
  receipt_text r d = Ok t -> receipt_text r0 d0 = Ok t ->
  dict_lookup (receipt_section name r d) k = Some (PStr s) ->
  dict_lookup (receipt_section name r0 d0) k = Some (PStr s0) ->
  receipt_view s = receipt_view s0.
Proof.
  intros Hname (p & Hp & [= <-])%bind_Ok_inv (p0 & Hp0 & [= Heq])%bind_Ok_inv Hk Hk0.
  assert (Hwf : wf_json p) by (by eapply stable_json_wf).
  assert (Hwf0 : wf_json p0) by (by eapply stable_json_wf).
  apply canonical_json_inj in Heq; [|done|done].
  destruct (payload_section name r d p Hname Hp)
    as (kvs & v & -> & Hnd & Hg & _ & fs & -> & Hndf & Hf).
  destruct (payload_section name r0 d0 p0 Hname Hp0)
    as (kvs0 & v0 & -> & Hnd0 & Hg0 & _ & fs0 & -> & Hndf0 & Hf0).
  pose proof (sort_json_field kvs0 kvs name Hnd0 Hnd Heq) as Hs.
  rewrite Hg, Hg0 in Hs. injection Hs as Hs.
  pose proof (sort_json_field fs0 fs k Hndf0 Hndf ltac:(cbn; by rewrite Hs)) as Hs2.
  rewrite (Hf _ _ Hk), (Hf0 _ _ Hk0) in Hs2. by injection Hs2.
Qed.

Local Transparent redact_sensitive_string.

(** ** Theorems *)

(** A receipt binds its approval: attaching one to an approved decision makes
    it verify, and any decision that verifies under the same receipt hash has
    the same text in every text field of request and decision that both carry,
    up to the normalisation the receipt applies, or the two payloads collide
    under SHA-256. *)
Theorem receipt_binds_approval r0 d0 d r' d' :
  ApprovalDecision.status d0 = APPROVED -> ApprovalDecision.approved d0 = true ->
  attach_approval_receipt r0 d0 = Ok d ->
  verify_approval_receipt r' d' = Ok RVALID ->
  dict_get (ApprovalDecision.metadata d') APPROVAL_RECEIPT_HASH_KEY
    = dict_get (ApprovalDecision.metadata d) APPROVAL_RECEIPT_HASH_KEY ->
  verify_approval_receipt r0 d = Ok RVALID /\
  exists t t',
    receipt_text r0 (_without_receipt_metadata d0) = Ok t /\
    receipt_text r' (_without_receipt_metadata d') = Ok t' /\
    ((t <> t' /\ sha256_hex t = sha256_hex t') \/
     forall name k s s', name = "request"%string \/ name = "decision"%string ->
       dict_lookup (receipt_section name r0 (_without_receipt_metadata d0)) k = Some (PStr s) ->
       dict_lookup (receipt_section name r' (_without_receipt_metadata d')) k = Some (PStr s') ->
       receipt_view s = receipt_view s').
Proof.
  intros Hs Ha Hatt Hver Hsame. split; [by eapply attached_verifies|].
  apply verify_valid_inv in Hver as (h & Hh & (t' & Ht' & [= Hd'])%bind_Ok_inv).
  apply attach_Ok_inv in Hatt as [[_ [?|?]]|(_ & _ & h0 & Hc & ->)]; [done|congruence|].
  apply bind_Ok_inv in Hc as (t & Ht & [= <-]). exists t, t'. split_and!; [done|done|].
  rewrite Hh in Hsame. cbn [_with_metadata ApprovalDecision.metadata] in Hsame.
  unfold receipt_metadata, dict_get in Hsame. rewrite dict_lookup_set_eq in Hsame.
  injection Hsame as ->.
  destruct (decide (t = t')) as [->|Hne]; [right|left; auto].
  intros name k s s' Hname Hk Hk'. exact (receipt_text_fields name _ _ _ _ _ k s s' Hname Ht Ht' Hk Hk').
Qed.

Definition example_request : ApprovalRequest.t :=
  ApprovalRequest.mk "apr_1" "2026-01-01T00:00:00Z" "trace_1" "alice" "agent-7" "prod"
    "shell" (Some "run") (PStr "deploy") (Some "p1") "needs review" SevHigh []
    [("ticket", PStr "OPS-1")].

Definition example_decision (by_ : string) : ApprovalDecision.t :=
  ApprovalDecision.mk "apr_1" APPROVED true (Some by_) (Some "2026-01-01T00:01:00Z") "ok" [].

Lemma receipt_binds_approval_witness :
  match attach_approval_receipt example_request (example_decision "bob") with
  | Ok d =>
      verify_approval_receipt example_request d = Ok RVALID /\
      exists t t',
        receipt_text example_request (_without_receipt_metadata (example_decision "bob")) = Ok t /\
        receipt_text example_request (_without_receipt_metadata d) = Ok t' /\
        ((t <> t' /\ sha256_hex t = sha256_hex t') \/
         forall name k s s', name = "request"%string \/ name = "decision"%string ->
           dict_lookup (receipt_section name example_request
             (_without_receipt_metadata (example_decision "bob"))) k = Some (PStr s) ->
           dict_lookup (receipt_section name example_request
             (_without_receipt_metadata d)) k = Some (PStr s') ->
           receipt_view s = receipt_view s')
  | Raise _ => False
  end.
Proof.
  destruct (attach_approval_receipt example_request (example_decision "bob")) as [d|e] eqn:E.
  - apply (receipt_binds_approval example_request (example_decision "bob") d example_request d);
      [reflexivity|reflexivity|exact E| |reflexivity].
    apply (attached_verifies example_request (example_decision "bob") d);
      [reflexivity|reflexivity|exact E].
  - vm_compute in E. discriminate E.
Defined.

(** A receipt moved to another reviewer is rejected. *)
Example receipt_reviewer_swap :
  match attach_approval_receipt example_request (example_decision "bob") with
  | Ok d => verify_approval_receipt example_request
              (_with_metadata (example_decision "mallory") (ApprovalDecision.metadata d))
            = Ok RTAMPERED
  | Raise _ => False
  end.
Proof. vm_compute. reflexivity. Qed.
