(* ===== verification/Approval.v ===== *)
(** * Approval: state machine, authorization and workflow

    approval_state.py ([ApprovalStateMachine]), approval_authorization.py
    ([ApprovalAuthorizationEngine]) and approval.py ([ApprovalWorkflow]).  The
    identifiers and times a run draws are the arguments of [fresh]; the
    resolver is an argument that may raise. *)

From S2P Require Export Receipt.

(** ** Definitions *)

Definition strs (l : list (string * string)) : pydict :=
  List.map (fun kv => (fst kv, PStr (snd kv))) l.

(** *** approval_state.py *)

Module Transition.
Record t := mk { allowed : bool; reason : string; metadata : pydict }.
End Transition.

Definition _ALLOWED_TRANSITIONS : list (ApprovalStatus * ApprovalStatus) :=
  [(PENDING, APPROVED); (PENDING, REJECTED)].

Definition validate_transition (current_status next_status : ApprovalStatus) : Transition.t :=
  let cur := approval_status_value current_status in
  let nxt := approval_status_value next_status in
  if bool_decide ((current_status, next_status) ∈ _ALLOWED_TRANSITIONS) then
    Transition.mk true "Approval state transition allowed."
      (strs [("current_status", cur); ("next_status", nxt)])
  else
    Transition.mk false ("Invalid approval state transition: " +++ cur +++ " -> " +++ nxt +++ ".")
      (strs [("guard", "approval-state-transition"); ("current_status", cur); ("next_status", nxt)]).

(** *** approval_authorization.py *)

Module ReviewerPermission.
Record t := mk { role : string; can_approve : bool }.
End ReviewerPermission.

Module AuthResult.
Record t := mk { allowed : bool; reason : string; metadata : pydict }.
End AuthResult.

Module AuthorizationEngine.
Record t := mk {
  reviewer_permissions : gmap string ReviewerPermission.t;
  role_permissions : gmap string RolePermission.t;
}.
End AuthorizationEngine.

Definition authorized (metadata : pydict) : AuthResult.t :=
  AuthResult.mk true "Approval decision authorized." metadata.

Definition decider (d : ApprovalDecision.t) : string := default "" (ApprovalDecision.decided_by d).

Definition _deny_role_permission (reviewer_role denied_constraint : string) (metadata : pydict)
    : AuthResult.t :=
  AuthResult.mk false
    ("Reviewer role '" +++ reviewer_role +++ "' is not permitted to approve this " +++
     denied_constraint +++ ".")
    (dict_update metadata (strs [("guard", "role-permission");
                                 ("denied_constraint", denied_constraint)])).

Definition _authorize_role_constraints (r : ApprovalRequest.t) (d : ApprovalDecision.t)
    (reviewer_role : string) (p : RolePermission.t) : AuthResult.t :=
  let base_metadata := strs [("reviewer_role", reviewer_role);
                             ("attempted_decided_by", decider d)] in
  if negb (bool_decide (ApprovalRequest.severity r ∈ RolePermission.allowed_severities p))
  then _deny_role_permission reviewer_role "severity" base_metadata
  else if match RolePermission.allowed_actions p with
          | Some actions => match ApprovalRequest.action r with
                            | Some a => negb (mem a actions) | None => true end
          | None => false end
  then _deny_role_permission reviewer_role "action" base_metadata
  else if match RolePermission.environments p with
          | Some envs => negb (mem (ApprovalRequest.environment r) envs)
          | None => false end
  then _deny_role_permission reviewer_role "environment" base_metadata
  else authorized base_metadata.

Definition _authorize_role_permission (e : AuthorizationEngine.t) (r : ApprovalRequest.t)
    (d : ApprovalDecision.t) : option AuthResult.t :=
  if bool_decide (AuthorizationEngine.role_permissions e = ∅) then None
  else
    let missing :=
      AuthResult.mk false "Approval decision is missing reviewer role."
        (strs [("guard", "role-permission"); ("attempted_decided_by", decider d);
               ("denied_constraint", "reviewer_role")]) in
    match dict_get (ApprovalDecision.metadata d) "reviewer_role" with
    | PStr reviewer_role =>
        if negb (truthy (strip reviewer_role)) then Some missing
        else
          let normalized_role := lower (strip reviewer_role) in
          match AuthorizationEngine.role_permissions e !! normalized_role with
          | None =>
              Some (AuthResult.mk false
                ("Reviewer role '" +++ reviewer_role +++ "' is not configured.")
                (strs [("guard", "role-permission"); ("attempted_decided_by", decider d);
                       ("reviewer_role", normalized_role);
                       ("denied_constraint", "reviewer_role")]))
          | Some p => Some (_authorize_role_constraints r d normalized_role p)
          end
    | _ => Some missing
    end.

Definition _authorize_reviewer_permission (e : AuthorizationEngine.t) (d : ApprovalDecision.t)
    : option AuthResult.t :=
  let permissions := AuthorizationEngine.reviewer_permissions e in
  match (by_ ← ApprovalDecision.decided_by d; permissions !! by_) with
  | None =>
      if bool_decide (permissions = ∅) then None
      else Some (AuthResult.mk false "Reviewer does not have approval permission."
                   (strs [("guard", "reviewer-role"); ("attempted_decided_by", decider d)]))
  | Some p =>
      let reviewer_role := lower (strip (ReviewerPermission.role p)) in
      if negb (ReviewerPermission.can_approve p) then
        Some (AuthResult.mk false
          ("Reviewer role '" +++ ReviewerPermission.role p +++ "' cannot approve protected actions.")
          (strs [("guard", "reviewer-role"); ("attempted_decided_by", decider d);
                 ("reviewer_role", reviewer_role)]))
      else Some (authorized (strs [("reviewer_role", reviewer_role)]))
  end.

Definition authorize (e : AuthorizationEngine.t) (r : ApprovalRequest.t) (d : ApprovalDecision.t)
    (current_status : ApprovalStatus) : AuthResult.t :=
  let transition_result := validate_transition current_status (ApprovalDecision.status d) in
  if negb (Transition.allowed transition_result) then
    AuthResult.mk false (Transition.reason transition_result) (Transition.metadata transition_result)
  else if bool_decide (ApprovalDecision.status d = REJECTED) then
    AuthResult.mk true "Approval rejection authorized." []
  else
    match ApprovalDecision.decided_by d with
    | None => AuthResult.mk false "Approval decision is missing reviewer identity."
                (strs [("guard", "reviewer-identity")])
    | Some by_ =>
        if String.eqb by_ (ApprovalRequest.requested_by r) then
          AuthResult.mk false "Requester cannot approve their own approval request."
            (strs [("guard", "self-approval"); ("attempted_decided_by", by_)])
        else
          match _authorize_role_permission e r d with
          | Some role_result => role_result
          | None =>
              match _authorize_reviewer_permission e d with
              | Some reviewer_result => reviewer_result
              | None => authorized []
              end
          end
    end.

(** *** approval.py *)

Definition DENIED_APPROVER_ROLES : list string := ["viewer"].

(** [_build_reviewer_permissions]; the role mapping is in insertion order. *)
Definition _build_reviewer_permissions (reviewer_roles : list (string * string))
    (reviewer_permissions : gmap string ReviewerPermission.t)
    : gmap string ReviewerPermission.t :=
  fold_left (fun permissions rr =>
    <[fst rr := ReviewerPermission.mk (snd rr)
                  (negb (mem (lower (strip (snd rr))) DENIED_APPROVER_ROLES))]> permissions)
    reviewer_roles reviewer_permissions.

(** What a call draws from [uuid4] and the clock. *)
Module Fresh.
Record t := mk {
  approval_id : string;
  created_at : string;
  trace_id : string;
  decided_at : string;
}.
End Fresh.

Definition ApprovalResolver : Type := ApprovalRequest.t -> result exn ApprovalDecision.t.

Module Workflow.
Record t := mk {
  resolver : ApprovalResolver;
  authorization_engine : AuthorizationEngine.t;
}.
End Workflow.

Definition reject_by_default (now : string) : ApprovalResolver := fun r =>
  Ok (ApprovalDecision.mk (ApprovalRequest.approval_id r) REJECTED false (Some "system") (Some now)
        "Approval workflow is not configured. Request rejected by default." []).

Definition make_workflow (now : string) (resolver : option ApprovalResolver)
    (reviewer_roles : list (string * string))
    (reviewer_permissions : gmap string ReviewerPermission.t)
    (role_permissions : gmap string RolePermission.t)
    (authorization_engine : option AuthorizationEngine.t) : Workflow.t :=
  Workflow.mk (default (reject_by_default now) resolver)
    (default (AuthorizationEngine.mk
                (_build_reviewer_permissions reviewer_roles reviewer_permissions)
                role_permissions) authorization_engine).

Definition _apply_authorization_result (now : string) (d : ApprovalDecision.t)
    (res : AuthResult.t) : ApprovalDecision.t :=
  let metadata := dict_update (ApprovalDecision.metadata d) (AuthResult.metadata res) in
  if AuthResult.allowed res then _with_metadata d metadata
  else ApprovalDecision.mk (ApprovalDecision.approval_id d) REJECTED false (Some "system")
         (Some now) (AuthResult.reason res) metadata.

(** [str(request.metadata.get("trace_id") or new_trace_id())] *)
Definition trace_id_or (request : ToolRequest.t) (fallback : string) : string :=
  let v := dict_get (ToolRequest.metadata request) "trace_id" in
  if py_truth v then py_str v else fallback.

Definition blank_context : exn :=
  mk_exn ValueError "ValidationError" "Approval request context fields must not be blank.".

Definition id_mismatch : exn :=
  mk_exn ValueError "ValueError" "Approval decision ID does not match approval request ID.".

(** The [ApprovalRequest(...)] of [request_approval], with its validators. *)
Definition build_approval_request (fresh : Fresh.t) (request : ToolRequest.t)
    (policy_decision : PolicyDecision.t) (risk_assessment : pydict)
    : result exn ApprovalRequest.t :=
  risk ← redact_dict risk_assessment;
  metadata ← redact_dict (ToolRequest.metadata request);
  let r := ApprovalRequest.mk (Fresh.approval_id fresh) (Fresh.created_at fresh)
    (trace_id_or request (Fresh.trace_id fresh))
    (ToolRequest.user_id request) (ToolRequest.agent_id request)
    (ToolRequest.environment request) (ToolRequest.tool_name request)
    (ToolRequest.action request) (of_opt_str (ToolRequest.target request))
    (PolicyDecision.policy_id policy_decision) (PolicyDecision.reason policy_decision)
    (PolicyDecision.severity policy_decision) risk metadata in
  if ApprovalRequest.valid r then Ok r else Raise blank_context.

Definition request_approval (w : Workflow.t) (fresh : Fresh.t) (request : ToolRequest.t)
    (policy_decision : PolicyDecision.t) (risk_assessment : pydict)
    : result exn (ApprovalRequest.t * ApprovalDecision.t) :=
  r ← build_approval_request fresh request policy_decision risk_assessment;
  d ← Workflow.resolver w r;
  if negb (String.eqb (ApprovalDecision.approval_id d) (ApprovalRequest.approval_id r))
  then Raise id_mismatch
  else
    let res := authorize (Workflow.authorization_engine w) r d PENDING in
    let authorized_decision := _apply_authorization_result (Fresh.decided_at fresh) d res in
    d' ← attach_approval_receipt r authorized_decision;
    Ok (r, d').

(** ** What an approval must satisfy *)

(** The role [p] may approve the request [r]. *)
Definition role_permits (p : RolePermission.t) (r : ApprovalRequest.t) : Prop :=
  ApprovalRequest.severity r ∈ RolePermission.allowed_severities p /\
  (forall actions, RolePermission.allowed_actions p = Some actions ->
     exists a, ApprovalRequest.action r = Some a /\ a ∈ actions) /\
  (forall envs, RolePermission.environments p = Some envs ->
     ApprovalRequest.environment r ∈ envs).

(** The decision [d], taken by [reviewer], may take effect on [r]. *)
Definition reviewer_entitled (e : AuthorizationEngine.t) (r : ApprovalRequest.t)
    (d : ApprovalDecision.t) (reviewer : string) : Prop :=
  reviewer <> ApprovalRequest.requested_by r /\
  (AuthorizationEngine.role_permissions e <> ∅ ->
   exists role p, dict_get (ApprovalDecision.metadata d) "reviewer_role" = PStr role /\
     AuthorizationEngine.role_permissions e !! lower (strip role) = Some p /\ role_permits p r) /\
  (AuthorizationEngine.role_permissions e = ∅ ->
   AuthorizationEngine.reviewer_permissions e <> ∅ ->
   exists p, AuthorizationEngine.reviewer_permissions e !! reviewer = Some p /\
     ReviewerPermission.can_approve p = true).

(** ** Lemmas *)

Lemma validate_transition_allowed s s' :
  Transition.allowed (validate_transition s s') = true <->
  s = PENDING /\ (s' = APPROVED \/ s' = REJECTED).
Proof. destruct s, s'; vm_compute; naive_solver. Qed.

Lemma role_constraints_allowed r d role p :
  AuthResult.allowed (_authorize_role_constraints r d role p) = true -> role_permits p r.
Proof.
  unfold _authorize_role_constraints, role_permits.
  destruct (bool_decide _) eqn:Hs; [|done]. apply bool_decide_eq_true in Hs. cbn [negb].
  destruct (match RolePermission.allowed_actions p with Some _ => _ | None => _ end) eqn:Ha; [done|].
  destruct (match RolePermission.environments p with Some _ => _ | None => _ end) eqn:He; [done|].
  intros _. split_and!; [done| |].
  - intros actions Hact. rewrite Hact in Ha. destruct (ApprovalRequest.action r) as [a|]; [|done].
    apply negb_false_iff, mem_spec in Ha. by exists a.
  - intros envs Henv. rewrite Henv in He. by apply negb_false_iff, mem_spec in He.
Qed.

Lemma authorize_approved e r d cur :
  AuthResult.allowed (authorize e r d cur) = true ->
  ApprovalDecision.status d = APPROVED ->
  cur = PENDING /\
  exists reviewer, ApprovalDecision.decided_by d = Some reviewer /\ reviewer_entitled e r d reviewer.
Proof.
  unfold authorize. intros H Hs. rewrite Hs in H.
  destruct (Transition.allowed _) eqn:Ht; [|done]. cbn [negb] in H.
  apply validate_transition_allowed in Ht as [-> _]. split; [done|].
  rewrite bool_decide_eq_false_2 in H by done.
  destruct (ApprovalDecision.decided_by d) as [by_|] eqn:Hby; [|done].
  destruct (String.eqb_spec by_ (ApprovalRequest.requested_by r)) as [|Hne]; [done|].
  exists by_. split; [done|]. split; [done|].
  unfold _authorize_role_permission in H.
  destruct (bool_decide (AuthorizationEngine.role_permissions e = ∅)) eqn:Hempty.
  - apply bool_decide_eq_true in Hempty. split; [done|]. intros _ Hrev.
    unfold _authorize_reviewer_permission in H. rewrite Hby in H. cbn [mbind option_bind] in H.
    destruct (AuthorizationEngine.reviewer_permissions e !! by_) as [p|] eqn:Hp.
    + exists p. split; [done|]. by destruct (ReviewerPermission.can_approve p).
    + by rewrite bool_decide_eq_false_2 in H.
  - apply bool_decide_eq_false in Hempty. split; [|done]. intros _.
    destruct (dict_get (ApprovalDecision.metadata d) "reviewer_role") as [ | | | |role| | | ]; try done.
    destruct (negb (truthy (strip role))); [done|].
    destruct (AuthorizationEngine.role_permissions e !! lower (strip role)) as [p|] eqn:Hp; [|done].
    exists role, p. split_and!; [done|done|]. by eapply role_constraints_allowed.
Qed.

Lemma apply_result_approved now d res :
  ApprovalDecision.approved (_apply_authorization_result now d res) = true ->
  AuthResult.allowed res = true /\ ApprovalDecision.approved d = true.
Proof. unfold _apply_authorization_result. by destruct (AuthResult.allowed res). Qed.

Lemma request_approval_inv w fresh request pd risk r d' :
  request_approval w fresh request pd risk = Ok (r, d') ->
  build_approval_request fresh request pd risk = Ok r /\
  exists d, Workflow.resolver w r = Ok d /\
    ApprovalDecision.approval_id d = ApprovalRequest.approval_id r /\
    attach_approval_receipt r
      (_apply_authorization_result (Fresh.decided_at fresh) d
         (authorize (Workflow.authorization_engine w) r d PENDING)) = Ok d'.
Proof.
  unfold request_approval. intros (r1 & Hr & H)%bind_Ok_inv.
  apply bind_Ok_inv in H as (d & Hd & H).
  destruct (String.eqb_spec (ApprovalDecision.approval_id d) (ApprovalRequest.approval_id r1));
    [|done].
  apply bind_Ok_inv in H as (d1 & Hd1 & [= -> ->]). eauto 10.
Qed.

Lemma build_approval_request_inv fresh request pd risk r :
  build_approval_request fresh request pd risk = Ok r ->
  ApprovalRequest.requested_by r = ToolRequest.user_id request /\
  ApprovalRequest.severity r = PolicyDecision.severity pd /\
  ApprovalRequest.action r = ToolRequest.action request /\
  ApprovalRequest.environment r = ToolRequest.environment request /\
  ApprovalRequest.valid r = true.
Proof.
  unfold build_approval_request. intros (risk' & _ & (md & _ & H)%bind_Ok_inv)%bind_Ok_inv.
  destruct (ApprovalRequest.valid _) eqn:E; [|done]. by injection H as <-.
Qed.

(** ** Theorems *)

(** C2 An approval the workflow returns as granted is an authorized one: the
    request it answers was made by the user of the tool request, a resolver
    decided it under a name, that name is not the requester's, the reviewer is
    entitled to approve it, and the decision carries a receipt that verifies. *)
Theorem granted_approval_is_authorized w fresh request pd risk r d' :
  request_approval w fresh request pd risk = Ok (r, d') ->
  ApprovalDecision.approved d' = true -> ApprovalDecision.status d' = APPROVED ->
  ApprovalRequest.requested_by r = ToolRequest.user_id request /\
  verify_approval_receipt r d' = Ok RVALID /\
  exists d reviewer,
    Workflow.resolver w r = Ok d /\
    ApprovalDecision.decided_by d' = Some reviewer /\
    ApprovalDecision.decided_by d = Some reviewer /\
    reviewer <> ToolRequest.user_id request /\
    reviewer_entitled (Workflow.authorization_engine w) r d reviewer.
Proof.
  intros (Hr & d & Hd & _ & Hatt)%request_approval_inv Ha Hs.
  destruct (attach_keeps _ _ _ Hatt) as (Ha' & Hs' & Hby & _). rewrite Ha in Ha'. rewrite Hs in Hs'.
  symmetry in Ha', Hs'. destruct (apply_result_approved _ _ _ Ha') as [Hall _].
  apply build_approval_request_inv in Hr as (Hreq & _).
  split; [done|]. split; [by eapply attached_verifies|].
  unfold _apply_authorization_result in Hs', Hby. rewrite Hall in Hs', Hby. cbn in Hs', Hby.
  apply authorize_approved in Hall as (_ & reviewer & Hrev & Hent); [|done].
  exists d, reviewer. rewrite Hby. split_and!; try done. destruct Hent as [Hne _]. congruence.
Qed.

Definition example_tool_request : ToolRequest.t :=
  ToolRequest.mk "shell" (Some "run") (Some "deploy") (PStr "x") "alice" "agent-7" "prod"
    [("trace_id", PStr "t-1")].

Definition example_policy_decision : PolicyDecision.t :=
  PolicyDecision.mk REQUIRE_APPROVAL false SevHigh "needs review" (Some "p1") None.

Definition example_fresh : Fresh.t := Fresh.mk "apr_1" "2026" "trace_x" "2027".

Definition example_workflow (by_ : string) (st : ApprovalStatus) : Workflow.t :=
  make_workflow "2027"
    (Some (fun r => Ok (ApprovalDecision.mk (ApprovalRequest.approval_id r) st true (Some by_)
                          (Some "2027") "ok" [("reviewer_role", PStr "Lead ")])))
    [] ∅ {[ "lead"%string := RolePermission.mk "lead" [SevHigh] (Some ["run"%string]) None ]} None.

Lemma granted_approval_witness :
  match request_approval (example_workflow "bob" APPROVED) example_fresh example_tool_request
          example_policy_decision [] with
  | Ok (r, d') =>
      ApprovalRequest.requested_by r = ToolRequest.user_id example_tool_request /\
      verify_approval_receipt r d' = Ok RVALID /\
      exists d reviewer,
        Workflow.resolver (example_workflow "bob" APPROVED) r = Ok d /\
        ApprovalDecision.decided_by d' = Some reviewer /\
        ApprovalDecision.decided_by d = Some reviewer /\
        reviewer <> ToolRequest.user_id example_tool_request /\
        reviewer_entitled (Workflow.authorization_engine (example_workflow "bob" APPROVED)) r d reviewer
  | Raise _ => False
  end.
Proof.
  pose (out := request_approval (example_workflow "bob" APPROVED) example_fresh
                 example_tool_request example_policy_decision []).
  assert (Hout : match out with
          | Ok (r, d') => ApprovalDecision.approved d' = true /\ ApprovalDecision.status d' = APPROVED
          | Raise _ => False end) by (vm_compute; auto).
  unfold out in Hout.
  destruct (request_approval (example_workflow "bob" APPROVED) example_fresh
              example_tool_request example_policy_decision []) as [[r d']|e] eqn:E;
    [|destruct Hout].
  destruct Hout as [Ha Hs].
  apply (granted_approval_is_authorized _ _ _ _ _ _ _ E Ha Hs).
Defined.

(** A rejected decision is authorized whatever its flag, and keeps it. *)
Theorem rejected_status_keeps_approved_flag e r d :
  ApprovalDecision.status d = REJECTED ->
  AuthResult.allowed (authorize e r d PENDING) = true /\
  forall now, ApprovalDecision.approved
    (_apply_authorization_result now d (authorize e r d PENDING)) = ApprovalDecision.approved d.
Proof.
  intros Hs. assert (H : authorize e r d PENDING =
    AuthResult.mk true "Approval rejection authorized." []).
  { unfold authorize. by rewrite Hs. }
  rewrite H. by split.
Qed.

Lemma rejected_status_witness :
  let d := ApprovalDecision.mk "apr_1" REJECTED true (Some "alice") None "no" [] in
  ApprovalDecision.status d = REJECTED /\
  AuthResult.allowed (authorize (AuthorizationEngine.mk ∅ ∅) example_request d PENDING) = true /\
  forall now, ApprovalDecision.approved (_apply_authorization_result now d
    (authorize (AuthorizationEngine.mk ∅ ∅) example_request d PENDING)) = true.
Proof.
  intros d. split; [reflexivity|].
  apply (rejected_status_keeps_approved_flag (AuthorizationEngine.mk ∅ ∅) example_request d eq_refl).
Defined.
