(* ===== verification/AuditLog.v ===== *)
(** * Audit log: audit_logger.py and audit_storage.py

    The hash-chained audit log with its two backends: the JSON-lines file of
    [AuditLogger] and the SQLite table of [SQLiteAuditStore], whose transaction
    ([BEGIN IMMEDIATE] .. [COMMIT]) and whose file lock make one append one
    atomic step.  Building an [AuditEvent] from a decoded payload is pydantic's
    work; it is the parameter [validate], and the one fact the theorems use of
    it is [validate_dump]: a dumped event is read back as the same members. *)

From S2P Require Export Models Security Json Sha256.

(** ** Definitions *)

(** *** Events *)

(** What an [AuditEvent] draws from [uuid4], the clock and the package. *)
Module EventFresh.
Record t := mk {
  event_id : string;
  timestamp : string;
  trace_id : string;
  package_version : string;
}.
End EventFresh.

Definition of_opt_json (o : option string) : json :=
  match o with Some s => JStr s | None => JNull end.

Definition with_hashes (e : AuditEvent.t) (prev hash : option string) : AuditEvent.t :=
  AuditEvent.mk (AuditEvent.schema_version e) (AuditEvent.rygnal_package_version e)
    (AuditEvent.event_id e) (AuditEvent.timestamp e) (AuditEvent.trace_id e)
    (AuditEvent.user_id e) (AuditEvent.agent_id e) (AuditEvent.environment e)
    (AuditEvent.tool_name e) (AuditEvent.action e) (AuditEvent.target e) (AuditEvent.input e)
    (AuditEvent.decision e) (AuditEvent.allowed e) (AuditEvent.severity e)
    (AuditEvent.policy_id e) (AuditEvent.reason e) (AuditEvent.metadata e) prev hash.

(** [event.model_dump(mode="json")]; [None] when a value is not serializable. *)
Definition model_dump (e : AuditEvent.t) : option jdict :=
  target ← to_json (AuditEvent.target e);
  input ← to_json (AuditEvent.input e);
  metadata ← to_json (AuditEvent.metadata e);
  Some
    [("schema_version", JStr (AuditEvent.schema_version e));
     ("rygnal_package_version", JStr (AuditEvent.rygnal_package_version e));
     ("event_id", JStr (AuditEvent.event_id e));
     ("timestamp", JStr (AuditEvent.timestamp e));
     ("trace_id", JStr (AuditEvent.trace_id e));
     ("user_id", JStr (AuditEvent.user_id e));
     ("agent_id", JStr (AuditEvent.agent_id e));
     ("environment", JStr (AuditEvent.environment e));
     ("tool_name", JStr (AuditEvent.tool_name e));
     ("action", of_opt_json (AuditEvent.action e));
     ("target", target);
     ("input", input);
     ("decision", JStr (decision_value (AuditEvent.decision e)));
     ("allowed", JBool (AuditEvent.allowed e));
     ("severity", JStr (severity_value (AuditEvent.severity e)));
     ("policy_id", of_opt_json (AuditEvent.policy_id e));
     ("reason", JStr (AuditEvent.reason e));
     ("metadata", metadata);
     ("prev_event_hash", of_opt_json (AuditEvent.prev_event_hash e));
     ("event_hash", of_opt_json (AuditEvent.event_hash e))].

(** The dictionary [_calculate_event_hash] serializes. *)
Definition is_v1 (data : jdict) : bool :=
  match jget data "schema_version" with Some (JStr v) => String.eqb v "audit.v1" | _ => false end.

Definition hash_payload (data : jdict) : jdict :=
  let data := jset data "event_hash" JNull in
  if is_v1 data then jremove data "rygnal_package_version" else data.

Definition hash_text (data : jdict) : string := canonical_json (JDict (hash_payload data)).

Definition _calculate_event_hash (data : jdict) : string := sha256_hex (hash_text data).

(** *** The store *)

(** The columns that are unique or that a query reads. *)
Record row := mk_row {
  row_event_id : string;
  row_event_hash : string;
  row_payload : string;
  row_tool_name : string;
  row_decision : string;
  row_allowed : bool;
  row_severity : string;
  row_policy_id : option string;
}.

Record store := mk_store {
  jsonl : list string;          (* the lines of [log_path] *)
  table : option (list row);    (* [audit_events] by id, with a SQLite backend *)
}.

Definition json_error : exn := mk_exn ValueError "JSONDecodeError" "Expecting value".
Definition no_get : exn := mk_exn AttributeError "AttributeError" "object has no attribute 'get'".
Definition not_serializable : exn :=
  mk_exn ValueError "PydanticSerializationError" "Unable to serialize unknown type".
Definition integrity_error : exn :=
  mk_exn OtherError "IntegrityError" "UNIQUE constraint failed".
Definition missing_hash : exn :=
  mk_exn ValueError "ValueError" "Audit event must have an integrity hash.".

(** [str(value)] of a decoded value; the numbers keep their texts. *)
Fixpoint of_json (v : json) : pyval :=
  match v with
  | JNull => PNone
  | JBool b => PBool b
  | JInt z => PInt z
  | JFloat t => PFloat 0 0 t
  | JStr s => PStr s
  | JList l => PList (List.map of_json l)
  | JDict d => PDict (List.map (fun kv => match kv with (k, x) => (PStr k, of_json x) end) d)
  end.

Definition json_str (v : json) : string := py_str (of_json v).

(** [_last_hash_from_handle] *)
Fixpoint _last_hash_from_handle (last_hash : option string) (lines : list string)
    : result exn (option string) :=
  match lines with
  | [] => Ok last_hash
  | line :: lines' =>
      if negb (truthy (strip line)) then _last_hash_from_handle last_hash lines'
      else
        match loads line with
        | None => Raise json_error
        | Some (JDict payload) =>
            let value := default JNull (jget payload "event_hash") in
            _last_hash_from_handle
              (match value with JNull => None | v => Some (json_str v) end) lines'
        | Some _ => Raise no_get
        end
  end.

Definition dump_or_raise (e : AuditEvent.t) : result exn jdict :=
  match model_dump e with Some d => Ok d | None => Raise not_serializable end.

(** [json.dumps(event.model_dump(mode="json"), sort_keys=True)] *)
Definition jsonl_line (d : jdict) : string := dumps false (sort_json (JDict d)).

(** [SELECT event_hash FROM audit_events ORDER BY id DESC LIMIT 1]: the column
    is not null. *)
Definition last_event_hash (rows : list row) : option string := row_event_hash <$> last rows.

(** [_insert_event] on the table: the two UNIQUE columns. *)
Definition _insert_event (rows : list row) (e : AuditEvent.t) : result exn (list row) :=
  match AuditEvent.event_hash e with
  | None | Some EmptyString => Raise missing_hash
  | Some h =>
      d ← dump_or_raise e;
      if existsb (fun r => String.eqb (row_event_id r) (AuditEvent.event_id e)
                           || String.eqb (row_event_hash r) h) rows
      then Raise integrity_error
      else Ok (rows ++ [mk_row (AuditEvent.event_id e) h (canonical_json (JDict d))
                          (AuditEvent.tool_name e) (decision_value (AuditEvent.decision e))
                          (AuditEvent.allowed e) (severity_value (AuditEvent.severity e))
                          (AuditEvent.policy_id e)])
  end.

(** [event.prev_event_hash = prev; event.event_hash = hash_event(event)] *)
Definition bind_hashes (e : AuditEvent.t) (prev : option string) : result exn AuditEvent.t :=
  let e := with_hashes e prev (AuditEvent.event_hash e) in
  d ← dump_or_raise e;
  Ok (with_hashes e prev (Some (_calculate_event_hash d))).

Definition append_chained_event (rows : list row) (e : AuditEvent.t)
    : result exn (list row * AuditEvent.t) :=
  e' ← bind_hashes e (last_event_hash rows);
  rows' ← _insert_event rows e';
  Ok (rows', e').

Definition write_event (s : store) (e : AuditEvent.t) : result exn (store * AuditEvent.t) :=
  match table s with
  | Some rows =>
      '(rows', e') ← append_chained_event rows e;
      d ← dump_or_raise e';
      Ok (mk_store (jsonl s ++ [jsonl_line d]) (Some rows'), e')
  | None =>
      prev ← _last_hash_from_handle None (jsonl s);
      e' ← bind_hashes e prev;
      d ← dump_or_raise e';
      Ok (mk_store (jsonl s ++ [jsonl_line d]) None, e')
  end.

(** The [AuditEvent(...)] of [log_decision]. *)
Definition build_event (fresh : EventFresh.t) (request : ToolRequest.t)
    (policy_decision : PolicyDecision.t) (metadata : pydict) : result exn AuditEvent.t :=
  let trace_value := dict_get (ToolRequest.metadata request) "trace_id" in
  trace_id ← match trace_value with
             | PNone => Ok (EventFresh.trace_id fresh)
             | v => v' ← redact_sensitive_value v; Ok (py_str v')
             end;
  target ← redact_sensitive_value (of_opt_str (ToolRequest.target request));
  input ← redact_sensitive_value (ToolRequest.input request);
  metadata' ← redact_dict metadata;
  Ok (AuditEvent.mk "audit.v2" (EventFresh.package_version fresh) (EventFresh.event_id fresh)
        (EventFresh.timestamp fresh) trace_id (ToolRequest.user_id request)
        (ToolRequest.agent_id request) (ToolRequest.environment request)
        (ToolRequest.tool_name request) (ToolRequest.action request) target input
        (PolicyDecision.decision policy_decision) (PolicyDecision.allowed policy_decision)
        (PolicyDecision.severity policy_decision) (PolicyDecision.policy_id policy_decision)
        (PolicyDecision.reason policy_decision) (of_dict metadata') None None).

Definition log_decision (s : store) (fresh : EventFresh.t) (request : ToolRequest.t)
    (policy_decision : PolicyDecision.t) (metadata : pydict)
    : result exn (store * AuditEvent.t) :=
  e ← build_event fresh request policy_decision metadata;
  write_event s e.

(** *** Reading and verification *)

Section Verify.
Context (validate : json -> result exn jdict).

Definition read_payload (text : string) : result exn jdict :=
  match loads text with
  | Some v => validate v
  | None => Raise json_error
  end.

(** [read_events], each event by its dump. *)
Definition read_events (s : store) : result exn (list jdict) :=
  match table s with
  | Some rows => mapR (fun r => read_payload (row_payload r)) rows
  | None => mapR read_payload (List.filter (fun line => truthy (strip line)) (jsonl s))
  end.

(** A [str | None] field. *)
Definition opt_field (d : jdict) (k : string) : option string :=
  match jget d k with Some (JStr s) => Some s | _ => None end.

Fixpoint verify_chain (previous_hash : option string) (events : list jdict) : bool :=
  match events with
  | [] => true
  | d :: events' =>
      let expected_hash := opt_field d "event_hash" in
      bool_decide (opt_field d "prev_event_hash" = previous_hash) &&
      bool_decide (Some (_calculate_event_hash d) = expected_hash) &&
      verify_chain expected_hash events'
  end.

Definition verify_integrity (s : store) : result exn bool :=
  events ← read_events s; Ok (verify_chain None events).

(** *** Queries of the table *)

Definition count_events (rows : list row) : Z := Z.of_nat (List.length rows).

Definition get_event (rows : list row) (event_id : string) : result exn (option jdict) :=
  match List.find (fun r => String.eqb (row_event_id r) event_id) rows with
  | Some r => d ← read_payload (row_payload r); Ok (Some d)
  | None => Ok None
  end.

(** [column = ?], when the filter is given. *)
Definition column_is {A} `{EqDecision A} (column : A) (wanted : option A) : bool :=
  match wanted with Some w => bool_decide (column = w) | None => true end.

Definition row_matches (decision policy_id tool_name : option string) (allowed : option bool)
    (severity : option string) (r : row) : bool :=
  column_is (row_decision r) decision && column_is (row_policy_id r) (Some <$> policy_id) &&
  column_is (row_tool_name r) tool_name && column_is (row_allowed r) allowed &&
  column_is (row_severity r) severity.

(** [LIMIT ?]; a negative limit is none. *)
Definition sql_limit {A} (limit : Z) (l : list A) : list A :=
  if (limit <? 0)%Z then l else take (Z.to_nat limit) l.

Definition find_events (rows : list row) (decision policy_id tool_name : option string)
    (allowed : option bool) (severity : option string) (limit : Z) : result exn (list jdict) :=
  mapR (fun r => read_payload (row_payload r))
    (sql_limit limit
       (List.filter (row_matches decision policy_id tool_name allowed severity) rows)).

End Verify.

(** The events the model can store: their dump is a JSON value. *)
Definition storable (e : AuditEvent.t) : Prop :=
  exists d, model_dump e = Some d /\ wf_json (JDict d).

(** One logged event, by any process: the store before and after. *)
Inductive append_step : store -> store -> Prop :=
  | append_ok s s' e e' :
      storable e -> write_event s e = Ok (s', e') -> append_step s s'.

Definition empty_store (sqlite : bool) : store :=
  mk_store [] (if sqlite then Some [] else None).

(** ** Lemmas *)

Local Opaque sha256_hex.

Lemma dump_with_hashes e prev h d :
  model_dump e = Some d ->
  model_dump (with_hashes e prev h) =
    Some (jset (jset d "prev_event_hash" (of_opt_json prev)) "event_hash" (of_opt_json h)).
Proof.
  unfold model_dump. cbn [with_hashes AuditEvent.target AuditEvent.input AuditEvent.metadata].
  destruct (to_json (AuditEvent.target e)); [|done]. destruct (to_json (AuditEvent.input e)); [|done].
  destruct (to_json (AuditEvent.metadata e)); [|done]. by intros [= <-].
Qed.

Lemma of_opt_json_wf o : wf_json (of_opt_json o).
Proof. destruct o; constructor. Qed.

Lemma model_dump_fields e d : model_dump e = Some d ->
  opt_field d "prev_event_hash" = AuditEvent.prev_event_hash e /\
  opt_field d "event_hash" = AuditEvent.event_hash e /\
  jget d "event_hash" = Some (of_opt_json (AuditEvent.event_hash e)) /\
  jget d "schema_version" = Some (JStr (AuditEvent.schema_version e)).
Proof.
  unfold model_dump. destruct (to_json (AuditEvent.target e)); [|done].
  destruct (to_json (AuditEvent.input e)); [|done].
  destruct (to_json (AuditEvent.metadata e)); [|done]. intros [= <-].
  unfold opt_field. cbn. split_and!; try done.
  - by destruct (AuditEvent.prev_event_hash e).
  - by destruct (AuditEvent.event_hash e).
Qed.

Lemma hash_payload_wf d : wf_json (JDict d) -> wf_json (JDict (hash_payload d)).
Proof.
  intros Hd. unfold hash_payload.
  assert (wf_json (JDict (jset d "event_hash" JNull))) by (apply wf_jset; [done|constructor]).
  destruct (is_v1 _); auto using wf_jremove.
Qed.

(** The hash does not depend on the order of the members. *)
Lemma hash_payload_members d d' :
  wf_json (JDict d) -> wf_json (JDict d') -> same_members d d' ->
  same_members (hash_payload d) (hash_payload d').
Proof.
  intros Hd%wf_dict_NoDup Hd'%wf_dict_NoDup Hs.
  assert (Hj : same_members (jset d "event_hash" JNull) (jset d' "event_hash" JNull))
    by by apply same_members_jset.
  unfold hash_payload. assert (is_v1 (jset d' "event_hash" JNull) = is_v1 (jset d "event_hash" JNull)) as ->.
  { unfold is_v1. rewrite !jget_jset_ne by done.
    pose proof (same_members_jget d d' "schema_version" Hd Hs) as Hv.
    destruct (jget d "schema_version") as [[]|], (jget d' "schema_version") as [[]|];
      cbn in Hv; congruence. }
  destruct (is_v1 _); [by apply same_members_jremove|done].
Qed.

Lemma hash_text_members d d' :
  wf_json (JDict d) -> wf_json (JDict d') -> same_members d d' -> hash_text d = hash_text d'.
Proof.
  intros Hd Hd' Hs. unfold hash_text, canonical_json. f_equal.
  apply sort_json_dict_iff; [|by apply hash_payload_members].
  by apply wf_dict_NoDup, hash_payload_wf.
Qed.

Lemma jset_twice d k v w : jset (jset d k v) k w = jset d k w.
Proof.
  induction d as [|[k' u] d IH]; cbn; [by rewrite String.eqb_refl|].
  destruct (String.eqb k' k) eqn:E; cbn; rewrite E; [done|]. by f_equal.
Qed.

Lemma hash_ignores_hash d v : hash_text (jset d "event_hash" v) = hash_text d.
Proof. unfold hash_text, hash_payload. by rewrite jset_twice. Qed.

(** *** The chain invariant *)

(** The dump of an event that could be stored. *)
Definition stored_dump (d : jdict) : Prop :=
  (exists e, model_dump e = Some d) /\ wf_json (JDict d).

(** [ds] continues a chain whose last hash is [p]. *)
Inductive linked : option string -> list jdict -> Prop :=
  | linked_nil p : linked p []
  | linked_cons p d ds :
      stored_dump d -> opt_field d "prev_event_hash" = p ->
      jget d "event_hash" = Some (JStr (_calculate_event_hash d)) ->
      linked (Some (_calculate_event_hash d)) ds -> linked p (d :: ds).

Definition head_hash (p : option string) (ds : list jdict) : option string :=
  match last ds with Some d => Some (_calculate_event_hash d) | None => p end.

Lemma head_hash_cons p d ds :
  head_hash p (d :: ds) = head_hash (Some (_calculate_event_hash d)) ds.
Proof. unfold head_hash. rewrite last_cons. by destruct (last ds). Qed.

Lemma linked_snoc p ds d :
  linked p ds -> linked (head_hash p ds) [d] -> linked p (ds ++ [d]).
Proof.
  induction 1 as [p|p d0 ds Hd Hp Hh Hl IH]; cbn [app]; [done|].
  rewrite head_hash_cons. intros Hd'. constructor; auto.
Qed.

Definition text_field (d : jdict) (k : string) : string := default "" (opt_field d k).

Definition flag_field (d : jdict) (k : string) : bool :=
  match jget d k with Some (JBool b) => b | _ => false end.

(** The row of an event. *)
Definition row_of (d : jdict) : row :=
  mk_row (text_field d "event_id") (_calculate_event_hash d) (canonical_json (JDict d))
    (text_field d "tool_name") (text_field d "decision") (flag_field d "allowed")
    (text_field d "severity") (opt_field d "policy_id").

Lemma row_of_dump e d :
  model_dump e = Some d ->
  mk_row (AuditEvent.event_id e) (_calculate_event_hash d) (canonical_json (JDict d))
    (AuditEvent.tool_name e) (decision_value (AuditEvent.decision e)) (AuditEvent.allowed e)
    (severity_value (AuditEvent.severity e)) (AuditEvent.policy_id e) = row_of d.
Proof.
  intros Hd. unfold row_of. revert Hd. generalize (_calculate_event_hash d). intros h.
  generalize (canonical_json (JDict d)). intros t.
  unfold model_dump. destruct (to_json (AuditEvent.target e)); [|done].
  destruct (to_json (AuditEvent.input e)); [|done].
  destruct (to_json (AuditEvent.metadata e)); [|done]. intros [= <-].
  unfold text_field, flag_field, opt_field. cbn. by destruct (AuditEvent.policy_id e).
Qed.

Definition log_inv (s : store) : Prop :=
  exists ds, linked None ds /\ jsonl s = List.map jsonl_line ds /\
    match table s with
    | None => True
    | Some rows => rows = List.map row_of ds
    end.

Lemma truthy_strip c s : is_space c = false -> truthy (strip (String c s)) = true.
Proof.
  intros Hc. unfold strip, strip_by. cbn [lstrip_by]. rewrite Hc. cbn [rstrip_by].
  rewrite Hc. by destruct (rstrip_by is_space s).
Qed.

Lemma jsonl_line_not_blank d : truthy (strip (jsonl_line d)) = true.
Proof. unfold jsonl_line. cbn [sort_json dumps String.append]. by apply truthy_strip. Qed.

Lemma loads_sorted compact d :
  wf_json (JDict d) ->
  loads (dumps compact (sort_json (JDict d))) = Some (JDict (sort_by_key (sort_members d))).
Proof. intros Hd. by rewrite loads_dumps by by apply sort_json_wf. Qed.

Lemma linked_last_hash p ds :
  linked p ds -> _last_hash_from_handle p (List.map jsonl_line ds) = Ok (head_hash p ds).
Proof.
  induction 1 as [p|p d ds [_ Hwf] Hp Hh Hl IH]; [done|]. rewrite head_hash_cons.
  cbn [List.map _last_hash_from_handle]. rewrite jsonl_line_not_blank. cbn [negb].
  unfold jsonl_line at 1. rewrite loads_sorted by done.
  rewrite jget_sort by (rewrite sort_members_keys; by apply wf_dict_NoDup).
  rewrite jget_sort_members, Hh. exact IH.
Qed.

Lemma last_map {A B} (f : A -> B) l : last (List.map f l) = f <$> last l.
Proof. induction l as [|x [|y l] IH]; [done|done|]. exact IH. Qed.

(** Binding the hashes extends the chain. *)
Lemma bind_hashes_linked e prev e' d' :
  storable e -> bind_hashes e prev = Ok e' -> model_dump e' = Some d' ->
  linked prev [d'] /\ AuditEvent.event_hash e' = Some (_calculate_event_hash d').
Proof.
  intros (d & Hd & Hwf). unfold bind_hashes, dump_or_raise.
  rewrite (dump_with_hashes _ _ _ _ Hd). intros [= <-].
  change (with_hashes (with_hashes e prev ?o) prev ?h) with (with_hashes e prev h).
  rewrite (dump_with_hashes _ _ _ _ Hd). intros [= <-].
  set (d0 := jset d "prev_event_hash" (of_opt_json prev)).
  assert (Hh : forall v w, _calculate_event_hash (jset d0 "event_hash" v)
                     = _calculate_event_hash (jset d0 "event_hash" w))
    by (intros; unfold _calculate_event_hash; by rewrite !hash_ignores_hash).
  assert (Hwf0 : wf_json (JDict d0)) by (apply wf_jset; [done|apply of_opt_json_wf]).
  split; [|cbn; f_equal; apply Hh].
  constructor; [split| | |constructor].
  - eexists.
    exact (dump_with_hashes e prev (Some _) d Hd).
  - apply wf_jset; [done|constructor].
  - unfold opt_field. rewrite jget_jset_ne by done. unfold d0. rewrite jget_jset_eq.
    by destruct prev.
  - rewrite jget_jset_eq. cbn [of_opt_json]. do 2 f_equal. apply Hh.
Qed.

Lemma write_event_inv s e s' e' :
  storable e -> log_inv s -> write_event s e = Ok (s', e') -> log_inv s'.
Proof.
  intros Hst (ds & Hl & Hj & Ht). unfold write_event. destruct (table s) as [rows|] eqn:Etab.
  - assert (Hhash : List.map row_event_hash rows = List.map _calculate_event_hash ds)
      by (by rewrite Ht, List.map_map).
    intros ([rows' e1] & Happ & H)%bind_Ok_inv. cbn in H.
    apply bind_Ok_inv in H as (d & Hd & [= <- <-]).
    unfold append_chained_event in Happ. apply bind_Ok_inv in Happ as (e2 & Hb & Happ).
    apply bind_Ok_inv in Happ as (rows2 & Hins & [= -> ->]).
    unfold dump_or_raise in Hd. destruct (model_dump e1) as [d1|] eqn:Ed; [|done].
    injection Hd as ->.
    assert (Hprev : last_event_hash rows = head_hash None ds).
    { unfold last_event_hash, head_hash. rewrite <- (last_map row_event_hash rows), Hhash, last_map.
      by destruct (last ds). }
    rewrite Hprev in Hb. destruct (bind_hashes_linked _ _ _ _ Hst Hb Ed) as [Hl1 He1].
    unfold _insert_event, dump_or_raise in Hins. rewrite He1, Ed in Hins.
    destruct (_calculate_event_hash d) as [|c h] eqn:Ec; [done|]. cbn [mbind result_bind] in Hins.
    destruct (existsb _ rows); [done|]. injection Hins as <-.
    exists (ds ++ [d]). cbn [jsonl table]. rewrite !List.map_app, Hj, Ht.
    split_and!; try done; [by apply linked_snoc|]. cbn [List.map].
    by rewrite <- Ec, (row_of_dump _ _ Ed).
  - intros (prev & Hprev & H)%bind_Ok_inv. apply bind_Ok_inv in H as (e1 & Hb & H).
    apply bind_Ok_inv in H as (d & Hd & [= <- <-]).
    unfold dump_or_raise in Hd. destruct (model_dump e1) as [d1|] eqn:Ed; [|done].
    injection Hd as ->. rewrite Hj, linked_last_hash in Hprev by done. injection Hprev as <-.
    destruct (bind_hashes_linked _ _ _ _ Hst Hb Ed) as [Hl1 _].
    exists (ds ++ [d]). cbn [jsonl table]. rewrite List.map_app, Hj.
    split_and!; [by apply linked_snoc|done|done].
Qed.

Lemma append_step_inv s s' : append_step s s' -> log_inv s -> log_inv s'.
Proof. destruct 1. eauto using write_event_inv. Qed.

Lemma empty_store_inv sqlite : log_inv (empty_store sqlite).
Proof. exists []. by destruct sqlite; split_and!; try constructor. Qed.

(** *** Verification *)

(** pydantic reads a dumped event back as the same members. *)
Definition reads_back (validate : json -> result exn jdict) : Prop :=
  forall d d', stored_dump d -> wf_json (JDict d') -> same_members d d' ->
  exists d'', validate (JDict d') = Ok d'' /\ wf_json (JDict d'') /\ same_members d d''.

Lemma linked_stored p ds d : linked p ds -> d ∈ ds -> stored_dump d.
Proof.
  induction 1 as [|p d0 ds Hd _ _ _ IH]; [by intros ?%elem_of_nil|].
  by intros [->|?]%elem_of_cons; [|apply IH].
Qed.

Section Reading.
Context (validate : json -> result exn jdict).

Lemma read_back_payload compact d :
  reads_back validate -> stored_dump d ->
  exists d'', read_payload validate (dumps compact (sort_json (JDict d))) = Ok d'' /\
    wf_json (JDict d'') /\ same_members d d''.
Proof.
  intros Hv Hd. pose proof Hd as [_ Hwf]. unfold read_payload. rewrite loads_sorted by done.
  apply Hv; [done| |by apply same_members_sorted, wf_dict_NoDup].
  exact (sort_json_wf (JDict d) Hwf).
Qed.

Lemma same_members_opt_field d d' k :
  wf_json (JDict d) -> same_members d d' -> opt_field d k = opt_field d' k.
Proof.
  intros Hd Hs. pose proof (same_members_jget d d' k (wf_dict_NoDup d Hd) Hs) as H.
  unfold opt_field. destruct (jget d k) as [[]|], (jget d' k) as [[]|]; cbn in H; congruence.
Qed.

Lemma verify_linked p ds ds' :
  linked p ds ->
  Forall2 (fun d d' => wf_json (JDict d') /\ same_members d d') ds ds' ->
  verify_chain p ds' = true.
Proof.
  intros Hl. revert ds'. induction Hl as [p|p d ds [_ Hwf] Hp Hh Hl IH]; intros ds' Hds.
  - by apply Forall2_nil_inv_l in Hds as ->.
  - apply Forall2_cons_inv_l in Hds as (d' & ds1 & [Hwf' Hs] & Hds & ->). cbn [verify_chain].
    assert (Hc : _calculate_event_hash d' = _calculate_event_hash d)
      by (unfold _calculate_event_hash; by rewrite (hash_text_members d d')).
    rewrite <- !(same_members_opt_field d d'), Hp, Hc by done.
    assert (opt_field d "event_hash" = Some (_calculate_event_hash d)) as ->
      by (unfold opt_field; by rewrite Hh).
    rewrite !bool_decide_eq_true_2 by done. by apply IH.
Qed.

Lemma read_events_inv s ds :
  reads_back validate -> linked None ds -> jsonl s = List.map jsonl_line ds ->
  (forall rows, table s = Some rows ->
     List.map row_payload rows = List.map (fun d => canonical_json (JDict d)) ds) ->
  exists ds', read_events validate s = Ok ds' /\
    Forall2 (fun d d' => wf_json (JDict d') /\ same_members d d') ds ds'.
Proof.
  intros Hv Hl Hj Ht.
  assert (Hst : forall d, d ∈ ds -> stored_dump d).
  { intros d. by eapply linked_stored. }
  assert (Hread : forall compact l, (forall d, d ∈ l -> stored_dump d) -> exists ds',
    mapR (read_payload validate) (List.map (fun d => dumps compact (sort_json (JDict d))) l) = Ok ds' /\
    Forall2 (fun d d' => wf_json (JDict d') /\ same_members d d') l ds').
  { intros compact l. induction l as [|d l IH]; intros Hs; [by exists []|].
    destruct (read_back_payload compact d Hv) as (d' & Hd' & Hok); [apply Hs; set_solver|].
    destruct IH as (ds' & Hds' & Hall); [intros; apply Hs; set_solver|].
    exists (d' :: ds'). split; [|by constructor]. cbn [List.map mapR]. by rewrite Hd', Hds'. }
  unfold read_events. destruct (table s) as [rows|].
  - destruct (Hread true ds Hst) as (ds' & Hds' & Hall). exists ds'. split; [|done].
    specialize (Ht rows eq_refl). change (List.map (fun d => dumps true (sort_json (JDict d))) ds)
      with (List.map (fun d => canonical_json (JDict d)) ds) in Hds'.
    rewrite <- Ht in Hds'. rewrite <- Hds'. clear. induction rows as [|r rows IH]; cbn; [done|].
    destruct (read_payload validate (row_payload r)); cbn; [|done]. by rewrite IH.
  - rewrite Hj, filter_id; [by apply (Hread false)|].
    apply forallb_elem_of. intros l (d & -> & _)%list_elem_of_fmap. apply jsonl_line_not_blank.
Qed.

(** *** Two accepted chains *)

(** Chains that agree on everything that is hashed, or a pair of events whose
    texts collide. *)
Definition chains_agree (l l' : list jdict) : Prop :=
  Forall2 (fun d d' => hash_text d = hash_text d') l l' \/
  exists d d', d ∈ l /\ d' ∈ l' /\ hash_text d <> hash_text d' /\
    sha256_hex (hash_text d) = sha256_hex (hash_text d').

Lemma hash_payload_field d k :
  k <> "event_hash"%string -> k <> "rygnal_package_version"%string ->
  jget (hash_payload d) k = jget d k.
Proof.
  intros H1 H2. unfold hash_payload. destruct (is_v1 _); rewrite ?jget_jremove_ne by done;
    by rewrite jget_jset_ne by done.
Qed.

(** Equal hashed texts agree on every hashed field. *)
Lemma hash_text_field d d' k :
  wf_json (JDict d) -> wf_json (JDict d') -> hash_text d = hash_text d' ->
  k <> "event_hash"%string -> k <> "rygnal_package_version"%string ->
  sort_json <$> jget d k = sort_json <$> jget d' k.
Proof.
  intros Hd Hd' Heq H1 H2. apply hash_payload_wf in Hd as Hp, Hd' as Hp'.
  rewrite <- (hash_payload_field d k), <- (hash_payload_field d' k) by done.
  apply sort_json_field; [by apply wf_dict_NoDup..|]. by apply canonical_json_inj.
Qed.

Lemma verify_chain_snoc p l d :
  verify_chain p (l ++ [d]) = true ->
  verify_chain p l = true /\ opt_field d "event_hash" = Some (_calculate_event_hash d) /\
  opt_field d "prev_event_hash" =
    (match last l with Some d0 => opt_field d0 "event_hash" | None => p end).
Proof.
  revert p. induction l as [|d0 l IH]; intros p; cbn [app verify_chain].
  - rewrite !andb_true_iff, !bool_decide_eq_true. naive_solver.
  - rewrite last_cons, !andb_true_iff, !bool_decide_eq_true. intros [[-> Heq] (Hl & Hh & Hp)%IH].
    split_and!; try done. rewrite Hp. by destruct (last l).
Qed.

Lemma verified_chains_agree l l' :
  verify_chain None l = true -> verify_chain None l' = true ->
  Forall (fun d => wf_json (JDict d)) l -> Forall (fun d => wf_json (JDict d)) l' ->
  (match last l with Some d => opt_field d "event_hash" | None => None end) =
  (match last l' with Some d => opt_field d "event_hash" | None => None end) ->
  chains_agree l l'.
Proof.
  revert l'. induction l as [|d l IH] using rev_ind; intros l' Hv Hv' Hwf Hwf' Hlast.
  - destruct l' as [|d' l' _] using rev_ind; [by left|].
    rewrite last_snoc in Hlast. apply verify_chain_snoc in Hv' as (_ & Hh & _).
    rewrite Hh in Hlast. discriminate Hlast.
  - apply verify_chain_snoc in Hv as (Hv & Hh & Hp). rewrite last_snoc in Hlast.
    destruct l' as [|d' l' _] using rev_ind; [by rewrite Hh in Hlast|].
    apply verify_chain_snoc in Hv' as (Hv' & Hh' & Hp'). rewrite last_snoc, Hh, Hh' in Hlast.
    apply Forall_app in Hwf as [Hwf Hd%List.Forall_inv].
    apply Forall_app in Hwf' as [Hwf' Hd'%List.Forall_inv].
    injection Hlast as Hdig.
    destruct (decide (hash_text d = hash_text d')) as [Ht|Ht].
    + pose proof (hash_text_field d d' "prev_event_hash" Hd Hd' Ht ltac:(done) ltac:(done)) as Hprev.
      assert (Hpp : opt_field d "prev_event_hash" = opt_field d' "prev_event_hash").
      { unfold opt_field. destruct (jget d "prev_event_hash") as [[]|],
          (jget d' "prev_event_hash") as [[]|]; cbn in Hprev; congruence. }
      rewrite Hp, Hp' in Hpp.
      destruct (IH l' Hv Hv' Hwf Hwf' Hpp) as [Hall|(x & y & Hx & Hy & Hxy)].
      * left. apply Forall2_app; [done|]. by repeat constructor.
      * right. exists x, y. rewrite !elem_of_app. auto.
    + right. exists d, d'. rewrite !elem_of_app, !list_elem_of_singleton. auto.
Qed.
End Reading.

(** Verification does not see a truncated tail: every prefix of an accepted
    chain is accepted. *)
Lemma verify_chain_prefix p l l' :
  verify_chain p (l ++ l') = true -> verify_chain p l = true.
Proof.
  revert p. induction l as [|d l IH]; intros p; cbn [app verify_chain]; [done|].
  rewrite !andb_true_iff. intros [[H1 H2] H3]. eauto.
Qed.

(** *** Queries of the table *)

Lemma filter_Forall2 {A B} (R : A -> B -> Prop) (f : A -> bool) (g : B -> bool) l l' :
  Forall2 R l l' -> (forall x y, R x y -> f x = g y) ->
  Forall2 R (List.filter f l) (List.filter g l').
Proof.
  intros H Hfg. induction H as [|x y l l' Hxy H IH]; [constructor|]. cbn.
  rewrite (Hfg _ _ Hxy). destruct (g y); [by constructor|done].
Qed.

Lemma Forall2_both {A B} (R S : A -> B -> Prop) l l' :
  Forall2 R l l' -> Forall2 S l l' -> Forall2 (fun x y => R x y /\ S x y) l l'.
Proof. induction 1; intros H'; inversion H'; subst; constructor; auto. Qed.

Lemma flag_field_members d d' k :
  wf_json (JDict d) -> same_members d d' -> flag_field d k = flag_field d' k.
Proof.
  intros Hd Hs. pose proof (same_members_jget d d' k (wf_dict_NoDup d Hd) Hs) as H.
  unfold flag_field. destruct (jget d k) as [[]|], (jget d' k) as [[]|]; cbn in H; congruence.
Qed.

(** The filters of [find_events] on an event. *)
Definition event_matches (decision policy_id tool_name : option string) (allowed : option bool)
    (severity : option string) (d : jdict) : bool :=
  column_is (text_field d "decision") decision &&
  column_is (opt_field d "policy_id") (Some <$> policy_id) &&
  column_is (text_field d "tool_name") tool_name && column_is (flag_field d "allowed") allowed &&
  column_is (text_field d "severity") severity.

Lemma row_matches_event dec pol tool allowed sev d d' :
  wf_json (JDict d) -> same_members d d' ->
  row_matches dec pol tool allowed sev (row_of d) = event_matches dec pol tool allowed sev d'.
Proof.
  intros Hd Hs. unfold row_matches, event_matches, row_of, text_field.
  cbn [row_decision row_policy_id row_tool_name row_allowed row_severity].
  by rewrite !(same_members_opt_field d d'), (flag_field_members d d') by done.
Qed.

Lemma sql_limit_Forall2 {A B} (R : A -> B -> Prop) n l l' :
  Forall2 R l l' -> Forall2 R (sql_limit n l) (sql_limit n l').
Proof. unfold sql_limit. destruct (n <? 0)%Z; [done|]. apply Forall2_take. Qed.

(** ** Theorems *)

(** In a table grown by appending events the columns agree with the payloads:
    [find_events] answers with the events [read_events] reads, filtered and
    cut to the limit. *)
Theorem find_events_filters_the_log validate s rows dec pol tool allowed sev limit :
  reads_back validate -> star append_step (empty_store true) s -> table s = Some rows ->
  exists l, read_events validate s = Ok l /\
    find_events validate rows dec pol tool allowed sev limit =
    Ok (sql_limit limit (List.filter (event_matches dec pol tool allowed sev) l)).
Proof.
  intros Hv Hs Hrows.
  assert (log_inv s) as (ds & Hl & Hj & Ht).
  { eapply star_invariant; [exact append_step_inv|exact Hs|apply empty_store_inv]. }
  rewrite Hrows in Ht.
  destruct (read_events_inv validate s ds Hv Hl Hj) as (l & Hr & Hall).
  { intros rows' Hrows'. assert (rows' = rows) as -> by congruence. by rewrite Ht, List.map_map. }
  exists l. split; [done|]. unfold read_events in Hr. rewrite Hrows in Hr.
  apply mapR_Ok_Forall2 in Hr. unfold find_events. apply mapR_Ok_Forall2.
  assert (Hboth : Forall2 (fun r d => read_payload validate (row_payload r) = Ok d /\
    row_matches dec pol tool allowed sev r = event_matches dec pol tool allowed sev d) rows l).
  { rewrite Ht in Hr |- *. apply Forall2_fmap_l in Hr. apply Forall2_fmap_l.
    eapply Forall2_impl_in; [exact (Forall2_both _ _ _ _ Hr Hall)|].
    intros d d' Hin _ [Hd [_ Hm]]. split; [exact Hd|].
    apply row_matches_event; [|done]. by destruct (linked_stored _ _ _ Hl Hin). }
  eapply Forall2_impl; [apply sql_limit_Forall2, filter_Forall2; [exact Hboth|]|]; naive_solver.
Qed.

(** A log grown from an empty one by appending events, in the JSON-lines file
    or in the SQLite table, always verifies, when the reader of an event gives
    back the members that were written. *)
Theorem appended_log_verifies validate sqlite s :
  reads_back validate -> star append_step (empty_store sqlite) s ->
  verify_integrity validate s = Ok true.
Proof.
  intros Hv Hs.
  assert (log_inv s) as (ds & Hl & Hj & Ht).
  { eapply star_invariant; [exact append_step_inv|exact Hs|apply empty_store_inv]. }
  destruct (read_events_inv validate s ds Hv Hl Hj) as (ds' & Hr & Hall).
  { intros rows Hrows. rewrite Hrows in Ht. by rewrite Ht, List.map_map. }
  unfold verify_integrity. rewrite Hr. cbn. f_equal. by eapply verify_linked.
Qed.

(** A reader that takes the decoded members as they are. *)
Definition plain_reader (v : json) : result exn jdict :=
  match v with JDict d => Ok d | _ => Raise json_error end.

Lemma plain_reader_reads_back : reads_back plain_reader.
Proof. intros d d' _ Hwf Hs. by exists d'. Qed.

Definition example_event (id_ : string) : AuditEvent.t :=
  AuditEvent.mk "audit.v2" "0.1" id_ "2026-01-01T00:00:00Z" "t" "alice" "agent" "prod" "shell"
    (Some "run") (PStr "deploy") PNone ALLOW true SevLow (Some "p1") "ok"
    (of_dict [("n", PInt 1); ("tags", PTuple [PStr "a"])]) None None.

Lemma example_event_storable id_ : storable (example_event id_).
Proof.
  eexists. split; [reflexivity|].
  constructor; [apply (bool_decide_eq_true_1 (NoDup _)); vm_compute; reflexivity|].
  repeat constructor; cbn; set_solver.
Qed.

Lemma appended_log_witness :
  match write_event (empty_store true) (example_event "e1") with
  | Ok (s1, _) =>
      match write_event s1 (example_event "e2") with
      | Ok (s2, _) => verify_integrity plain_reader s2 = Ok true
      | Raise _ => False
      end
  | Raise _ => False
  end.
Proof.
  destruct (write_event (empty_store true) (example_event "e1")) as [[s1 e1]|x] eqn:E1;
    [|vm_compute in E1; discriminate E1].
  destruct (write_event s1 (example_event "e2")) as [[s2 e2]|x] eqn:E2.
  - apply (appended_log_verifies plain_reader true s2 plain_reader_reads_back).
    eapply star_step; [exact (append_ok _ _ _ _ (example_event_storable "e1") E1)|].
    eapply star_step; [exact (append_ok _ _ _ _ (example_event_storable "e2") E2)|].
    apply star_refl.
  - vm_compute in E1. injection E1 as <- <-. vm_compute in E2. discriminate E2.
Defined.

(** Tampering is evident: two logs that both verify and end with the same
    event hash hold the same events, field by field, or exhibit two different
    texts with one SHA-256 digest. *)
Theorem accepted_logs_agree validate s s' l l' :
  read_events validate s = Ok l -> read_events validate s' = Ok l' ->
  verify_integrity validate s = Ok true -> verify_integrity validate s' = Ok true ->
  Forall (fun d => wf_json (JDict d)) l -> Forall (fun d => wf_json (JDict d)) l' ->
  (d ← last l; opt_field d "event_hash") = (d ← last l'; opt_field d "event_hash") ->
  Forall2 (fun d d' => forall k, k <> "event_hash"%string -> k <> "rygnal_package_version"%string ->
             sort_json <$> jget d k = sort_json <$> jget d' k) l l' \/
  exists d d', d ∈ l /\ d' ∈ l' /\ hash_text d <> hash_text d' /\
    sha256_hex (hash_text d) = sha256_hex (hash_text d').
Proof.
  intros Hr Hr' Hv Hv' Hwf Hwf' Hlast.
  unfold verify_integrity in Hv, Hv'. rewrite Hr in Hv. rewrite Hr' in Hv'.
  injection Hv as Hv. injection Hv' as Hv'.
  destruct (verified_chains_agree l l' Hv Hv' Hwf Hwf') as [Hall|Hcol]; [|left|by right].
  - unfold mbind, option_bind in Hlast. exact Hlast.
  - eapply Forall2_impl_in; [exact Hall|]. intros d d' Hd Hd' Heq k H1 H2.
    rewrite Forall_forall in Hwf, Hwf'. apply hash_text_field; auto.
Qed.

Lemma accepted_logs_witness :
  match write_event (empty_store false) (example_event "e1") with
  | Ok (s, _) =>
      match read_events plain_reader s with
      | Ok l =>
          Forall2 (fun d d' => forall k, k <> "event_hash"%string ->
                     k <> "rygnal_package_version"%string ->
                     sort_json <$> jget d k = sort_json <$> jget d' k) l l \/
          exists d d', d ∈ l /\ d' ∈ l /\ hash_text d <> hash_text d' /\
            sha256_hex (hash_text d) = sha256_hex (hash_text d')
      | Raise _ => False
      end
  | Raise _ => False
  end.
Proof.
  destruct (write_event (empty_store false) (example_event "e1")) as [[s e]|x] eqn:E;
    [|vm_compute in E; discriminate E].
  assert (Hinv : log_inv s)
    by exact (write_event_inv _ _ _ _ (example_event_storable "e1") (empty_store_inv false) E).
  destruct Hinv as (ds & Hl & Hj & Ht).
  destruct (read_events_inv plain_reader s ds plain_reader_reads_back Hl Hj) as (l & Hr & Hall).
  { intros rows Hrows. rewrite Hrows in Ht. by rewrite Ht, List.map_map. }
  rewrite Hr.
  assert (Hv : verify_integrity plain_reader s = Ok true)
    by (unfold verify_integrity; rewrite Hr; cbn; f_equal; exact (verify_linked None ds l Hl Hall)).
  assert (Hwf : Forall (fun d => wf_json (JDict d)) l).
  { eapply Forall2_Forall_r; [exact Hall|]. apply Forall_true. by intros ? ? [? _]. }
  apply (accepted_logs_agree plain_reader s s l l Hr Hr Hv Hv Hwf Hwf eq_refl).
Defined.
