(* ===== verification/AuditQuery.v ===== *)
(** * Audit queries: audit_query.py

    Filters, pagination, redaction and the optional integrity check over the
    events of an audit log.  An event is the object of its JSON dump, as in
    [AuditLog]; building an [AuditEvent] from an object is the parameter
    [validate], and [datetime.fromisoformat] is [fromisoformat]: the fields of
    the text as microseconds and its offset from UTC, if it has one. *)

From S2P Require Export AuditLog.

Local Open Scope string_scope.
Local Open Scope list_scope.
Local Open Scope py_scope.

Module Query.

(** ** Data *)

Record AuditQuery := mk_query {
  event_id : option string;
  trace_id : option string;
  decision : option string;
  tool_name : option string;
  action : option string;
  severity : option string;
  policy_id : option string;
  since : option string;
  until : option string;
  limit : Z;
  offset : Z;
  max_limit : Z;
  newest_first : bool;
}.

(** [AuditQuery()] *)
Definition default_query : AuditQuery :=
  mk_query None None None None None None None None None 100 0 500 false.

Record AuditQueryResult := mk_result {
  events : list jdict;
  total_scanned : Z;
  total_matching : Z;
  returned_count : Z;
  malformed_count : Z;
  warnings : list string;
  r_limit : Z;
  r_offset : Z;
  r_newest_first : bool;
  integrity_verified : option bool;
}.

Definition to_dict (r : AuditQueryResult) : jdict :=
  [("events", JList (List.map JDict (events r))); ("total_scanned", JInt (total_scanned r));
   ("total_matching", JInt (total_matching r)); ("returned_count", JInt (returned_count r));
   ("malformed_count", JInt (malformed_count r)); ("warnings", JList (List.map JStr (warnings r)));
   ("limit", JInt (r_limit r)); ("offset", JInt (r_offset r));
   ("newest_first", JBool (r_newest_first r));
   ("integrity_verified", match integrity_verified r with Some b => JBool b | None => JNull end)].

Definition query_error (text : string) : exn := mk_exn ValueError "AuditQueryError" text.

(** What a query can read: the lines of a file, if it exists; an [AuditLogger];
    an object with [read_events], whose items may be anything, and possibly
    [verify_integrity]; any other object. *)
Inductive audit_source :=
  | LogFile (lines : option (list string))
  | Logger (s : store)
  | EventSource (read : result exn (list (option jdict))) (verifier : option (result exn bool))
  | Unsupported.

(** ** Operations *)

Definition _normalize_query (q : AuditQuery) : AuditQuery :=
  if (max_limit q <? limit q)%Z then
    mk_query (event_id q) (trace_id q) (decision q) (tool_name q) (action q) (severity q)
      (policy_id q) (since q) (until q) (max_limit q) (offset q) (max_limit q) (newest_first q)
  else q.

Definition _validate_query (q : AuditQuery) : result exn () :=
  _ ← ensure (0 <=? limit q)%Z (query_error "Audit query limit must not be negative.");
  _ ← ensure (0 <=? offset q)%Z (query_error "Audit query offset must not be negative.");
  ensure (0 <? max_limit q)%Z (query_error "Audit query max_limit must be positive.").

Section Query.
Context (validate : json -> result exn jdict).
Context (fromisoformat : string -> option (Z * option Z)).

(** One line of the log: an event, nothing, or a malformed line. *)
Definition read_line (line : string) : option (option jdict) :=
  if negb (truthy (strip line)) then None
  else match read_payload validate line with Ok d => Some (Some d) | Raise _ => Some None end.

Definition malformed_warning (what : string) (count : Z) : list string :=
  if (0 <? count)%Z then ["Skipped " +++ pretty count +++ " malformed audit " +++ what] else [].

Definition count_missing (items : list (option jdict)) : Z :=
  Z.of_nat (List.length (List.filter (fun x => bool_decide (x = None)) items)).

(** The text of the file is split at every line boundary of [str.splitlines]. *)
Definition _read_jsonl_events (lines : option (list string)) : list jdict * Z * list string :=
  match lines with
  | None => ([], 0%Z, [])
  | Some lines =>
      let items := omap read_line (flat_map splitlines lines) in
      let malformed := count_missing items in
      (omap (fun x => x) items, malformed, malformed_warning "log line(s)." malformed)
  end.

Definition _read_events_from_source (read : result exn (list (option jdict)))
    : result exn (list jdict * Z * list string) :=
  match read with
  | Raise _ => Raise (query_error "Could not read audit events from source.")
  | Ok items =>
      let malformed := count_missing items in
      Ok (omap (fun x => x) items, malformed, malformed_warning "event(s)." malformed)
  end.

Definition _read_audit_events_safely (source : audit_source)
    : result exn (list jdict * Z * list string) :=
  match source with
  | LogFile lines => Ok (_read_jsonl_events lines)
  | Logger s => Ok (_read_jsonl_events (Some (jsonl s)))
  | EventSource read _ => _read_events_from_source read
  | Unsupported => Raise (query_error "Unsupported audit query source.")
  end.

(** [_resolve_integrity_verifier]; the logger checks its authoritative store. *)
Definition _resolve_integrity_verifier (source : audit_source) : option (result exn bool) :=
  match source with
  | Logger s => Some (verify_integrity validate s)
  | EventSource _ verifier => verifier
  | _ => None
  end.

Definition _verify_integrity_if_requested (source : audit_source) (verify : bool)
    : option bool * list string :=
  if negb verify then (None, [])
  else match _resolve_integrity_verifier source with
       | None => (None, ["Audit integrity verification is unavailable for this source."])
       | Some (Ok b) => (Some b, [])
       | Some (Raise _) => (Some false, ["Audit integrity verification failed."])
       end.

(** The years 1 to 9999 in microseconds since 1970. *)
Definition min_time : Z := -62135596800000000.
Definition max_time : Z := 253402300799999999.

Definition overflow : exn := mk_exn OtherError "OverflowError" "date value out of range".

(** A trailing Z is read as +00:00. *)
Definition utc_suffix (s : string) : string :=
  if endswith s "Z" then substring 0 (String.length s - 1) s +++ "+00:00" else s.

Definition _parse_optional_timestamp (value : option string) (field_name : string)
    : result exn (option Z) :=
  match value with
  | None => Ok None
  | Some value =>
      let normalized := strip value in
      if negb (truthy normalized)
      then Raise (query_error ("Audit query " +++ field_name +++ " must not be blank."))
      else match fromisoformat (utc_suffix normalized) with
           | None => Raise (query_error ("Invalid audit query " +++ field_name +++ "."))
           | Some (time, None) => Ok (Some time)
           | Some (time, Some utc_offset) =>
               let utc := (time - utc_offset)%Z in
               if (utc <? min_time)%Z || (max_time <? utc)%Z then Raise overflow else Ok (Some utc)
           end
  end.

(** A filter on a field of the event. *)
Definition field_matches (d : jdict) (k : string) (wanted : option string) : bool :=
  match wanted with None => true | Some w => bool_decide (opt_field d k = Some w) end.

Definition fields_match (d : jdict) (q : AuditQuery) : bool :=
  field_matches d "event_id" (event_id q) && field_matches d "trace_id" (trace_id q) &&
  field_matches d "decision" (decision q) && field_matches d "tool_name" (tool_name q) &&
  field_matches d "action" (action q) && field_matches d "severity" (severity q) &&
  field_matches d "policy_id" (policy_id q).

Definition _matches_query (d : jdict) (q : AuditQuery) (since until : option Z) : result exn bool :=
  if negb (fields_match d q) then Ok false
  else
    event_time ← _parse_optional_timestamp (opt_field d "timestamp") "event timestamp";
    Ok (match event_time with
        | None => true
        | Some t => match since with Some s => (s <=? t)%Z | None => true end &&
                    match until with Some u => (t <=? u)%Z | None => true end
        end).

(** [[event for event in events if _matches_query(...)]] *)
Fixpoint filterR (keep : jdict -> result exn bool) (l : list jdict) : result exn (list jdict) :=
  match l with
  | [] => Ok []
  | d :: l' => b ← keep d; rest ← filterR keep l'; Ok (if (b : bool) then d :: rest else rest)
  end.

Definition _redact_event (d : jdict) : result exn jdict :=
  redacted ← redact_sensitive_value (of_json (JDict d));
  match to_json redacted with
  | Some (JDict d') => validate (JDict d')
  | _ => Raise (query_error "Audit event redaction returned invalid data.")
  end.

(** [filtered[offset : offset + limit]], both not negative. *)
Definition page {A} (offset limit : Z) (l : list A) : list A :=
  take (Z.to_nat limit) (drop (Z.to_nat offset) l).

(** The events that match, in the order of the answer. *)
Definition matching (q : AuditQuery) (evs : list jdict) : result exn (list jdict) :=
  since ← _parse_optional_timestamp (since q) "since";
  until ← _parse_optional_timestamp (until q) "until";
  filtered ← filterR (fun d => _matches_query d q since until) evs;
  Ok (if newest_first q then reverse filtered else filtered).

Definition query_audit_events (source : audit_source) (query : AuditQuery) (verify : bool)
    : result exn AuditQueryResult :=
  let q := _normalize_query query in
  _ ← _validate_query q;
  '(evs, malformed, warnings) ← _read_audit_events_safely source;
  filtered ← matching q evs;
  safe_page ← mapR _redact_event (page (offset q) (limit q) filtered);
  let '(integrity, integrity_warnings) := _verify_integrity_if_requested source verify in
  Ok (mk_result safe_page (Z.of_nat (List.length evs)) (Z.of_nat (List.length filtered))
        (Z.of_nat (List.length safe_page)) malformed (warnings ++ integrity_warnings)
        (limit q) (offset q) (newest_first q) integrity).

(** ** Lemmas *)

(** The query for another page. *)
Definition at_page (q : AuditQuery) (offset limit : Z) : AuditQuery :=
  mk_query (event_id q) (trace_id q) (decision q) (tool_name q) (action q) (severity q)
    (policy_id q) (since q) (until q) limit offset (max_limit q) (newest_first q).

Lemma pages_concat {A} (l : Z) (xs : list A) n :
  (0 <= l)%Z ->
  concat (List.map (fun k => page (Z.of_nat k * l) l xs) (seq 0 n))
  = take (n * Z.to_nat l) xs.
Proof.
  intros Hl. induction n as [|n IH]; [done|].
  rewrite seq_S, List.map_app, concat_app, IH. cbn [List.map concat Nat.add]. rewrite app_nil_r.
  unfold page. rewrite Z2Nat.inj_mul, Nat2Z.id by lia.
  replace (S n * Z.to_nat l)%nat with (n * Z.to_nat l + Z.to_nat l)%nat by lia.
  by rewrite take_take_drop.
Qed.

Lemma mapR_concat {E A B} (f : A -> result E B) ls ls' :
  mapR (mapR f) ls = Ok ls' -> mapR f (concat ls) = Ok (concat ls').
Proof.
  rewrite !mapR_Ok_Forall2. induction 1 as [|x y ls ls' H _ IH]; [constructor|]. cbn.
  apply Forall2_app; [|exact IH]. by apply mapR_Ok_Forall2.
Qed.

(** What a query that returns read and computed. *)
Lemma query_inv source q verify r :
  query_audit_events source q verify = Ok r ->
  let q' := _normalize_query q in
  exists evs malformed ws found,
    _read_audit_events_safely source = Ok (evs, malformed, ws) /\ matching q' evs = Ok found /\
    mapR _redact_event (page (offset q') (limit q') found) = Ok (events r) /\
    total_scanned r = Z.of_nat (List.length evs) /\
    total_matching r = Z.of_nat (List.length found) /\
    returned_count r = Z.of_nat (List.length (events r)) /\ malformed_count r = malformed /\
    integrity_verified r = fst (_verify_integrity_if_requested source verify) /\
    _validate_query q' = Ok ().
Proof.
  unfold query_audit_events. intros ([] & Hv & H)%bind_Ok_inv.
  apply bind_Ok_inv in H as ([[evs malformed] ws] & Hr & H).
  apply bind_Ok_inv in H as (found & Hm & H). apply bind_Ok_inv in H as (safe & Hs & H).
  exists evs, malformed, ws, found.
  destruct (_verify_integrity_if_requested source verify) as [integrity iw]. injection H as <-.
  by split_and!.
Qed.

Lemma matching_at_page q o l evs : matching (at_page q o l) evs = matching q evs.
Proof. reflexivity. Qed.

Lemma omap_read_line lines l :
  mapR (read_payload validate) (List.filter (fun line => truthy (strip line)) lines) = Ok l ->
  omap read_line lines = Some <$> l.
Proof.
  revert l. induction lines as [|line lines IH]; intros l; [by intros [= <-]|].
  cbn [List.filter omap list_omap]. unfold read_line at 1.
  destruct (truthy (strip line)); cbn [negb]; [|apply IH].
  cbn [mapR]. intros (d & Hd & H)%bind_Ok_inv. apply bind_Ok_inv in H as (l' & Hl & [= <-]).
  rewrite Hd. cbn. f_equal. by apply IH.
Qed.

Lemma read_all_lines lines l :
  flat_map splitlines lines = lines ->
  mapR (read_payload validate) (List.filter (fun line => truthy (strip line)) lines) = Ok l ->
  _read_jsonl_events (Some lines) = (l, 0%Z, []).
Proof.
  intros Hs Hl. unfold _read_jsonl_events. rewrite Hs, (omap_read_line _ _ Hl).
  assert (count_missing (Some <$> l) = 0%Z) as -> by (clear; by induction l).
  assert (omap (fun x => x) (Some <$> l) = l) as ->; [|done].
  clear. induction l as [|x l IH]; [done|]. cbn. by f_equal.
Qed.

Lemma filterR_Raise keep d l :
  d ∈ l -> is_ok (keep d) = false -> is_ok (filterR keep l) = false.
Proof.
  induction 1 as [d l|d d' l _ IH]; cbn [filterR]; intros Hk.
  - by destruct (keep d).
  - specialize (IH Hk). destruct (keep d'); [|done]. by destruct (filterR keep l).
Qed.

(** ** Theorems *)

(** C38 Walking the pages of a query shows every event that matches exactly once
    and in order: the pages at offsets 0, l, 2l, ... are together the redacted
    prefix of the matching events, and each reports their number. *)
Theorem pages_cover_the_matches source q verify l n pages :
  (0 < l <= max_limit q)%Z ->
  mapR (fun k => query_audit_events source (at_page q (Z.of_nat k * l) l) verify) (seq 0 (S n))
    = Ok pages ->
  exists evs malformed ws found,
    _read_audit_events_safely source = Ok (evs, malformed, ws) /\ matching q evs = Ok found /\
    mapR _redact_event (take (S n * Z.to_nat l) found) = Ok (concat (List.map events pages)) /\
    Forall (fun r => total_matching r = Z.of_nat (List.length found) /\
                     (returned_count r <= l)%Z) pages.
Proof.
  intros Hl Hp. apply mapR_Ok_Forall2 in Hp.
  assert (Hnorm : forall k, _normalize_query (at_page q (Z.of_nat k * l) l) = at_page q (Z.of_nat k * l) l).
  { intros k. unfold _normalize_query. cbn [max_limit at_page limit].
    by rewrite (proj2 (Z.ltb_ge _ _)) by lia. }
  assert (H0 : exists evs malformed ws found,
    _read_audit_events_safely source = Ok (evs, malformed, ws) /\ matching q evs = Ok found).
  { inversion Hp as [|k r ? ? Hk _]; subst. apply query_inv in Hk as (evs & m & ws & found & Hr & Hm & _).
    rewrite Hnorm, matching_at_page in Hm. by exists evs, m, ws, found. }
  destruct H0 as (evs & m & ws & found & Hr & Hm). exists evs, m, ws, found.
  assert (Hall : Forall2 (fun k r =>
    mapR _redact_event (page (Z.of_nat k * l) l found) = Ok (events r) /\
    total_matching r = Z.of_nat (List.length found) /\ (returned_count r <= l)%Z) (seq 0 (S n)) pages).
  { eapply Forall2_impl; [exact Hp|]. intros k r Hk.
    apply query_inv in Hk as (evs' & m' & ws' & found' & Hr' & Hm' & He & _ & Ht & Hc & _).
    rewrite Hr in Hr'. injection Hr' as <- <- <-. rewrite Hnorm, matching_at_page in Hm'.
    assert (found' = found) as -> by congruence. rewrite Hnorm in He. cbn [offset limit at_page] in He.
    split_and!; [done|done|]. apply mapR_Ok_Forall2, Forall2_length in He.
    rewrite Hc, <- He. unfold page. rewrite length_take. lia. }
  split_and!; [done|done| |].
  - rewrite <- pages_concat by lia. apply mapR_concat, mapR_Ok_Forall2.
    apply Forall2_fmap_l, Forall2_fmap_r. eapply Forall2_impl; [exact Hall|]. by intros k r (? & _).
  - eapply Forall2_Forall_r; [exact Hall|]. apply Forall_true. by intros k r (_ & ? & ?).
Qed.


(** An event whose timestamp cannot be read makes the whole query fail, unless
    another filter removes the event first. *)
Theorem bad_timestamp_fails_query source q verify evs m ws d :
  _read_audit_events_safely source = Ok (evs, m, ws) -> d ∈ evs -> fields_match d q = true ->
  is_ok (_parse_optional_timestamp (opt_field d "timestamp") "event timestamp") = false ->
  is_ok (query_audit_events source q verify) = false.
Proof.
  intros Hr Hd Hf Ht. destruct (query_audit_events source q verify) as [r|e] eqn:E; [exfalso|done].
  apply query_inv in E as (evs' & m' & ws' & found & Hr' & Hm & _).
  rewrite Hr in Hr'. injection Hr' as <- <- <-.
  unfold matching in Hm. apply bind_Ok_inv in Hm as (s & _ & Hm). apply bind_Ok_inv in Hm as (u & _ & Hm).
  apply bind_Ok_inv in Hm as (l & Hl & _).
  assert (Hx : is_ok (filterR (fun d => _matches_query d (_normalize_query q) s u) evs) = false).
  { apply filterR_Raise with (d := d); [done|]. unfold _matches_query.
    assert (fields_match d (_normalize_query q) = true) as ->.
    { unfold _normalize_query. by destruct (_ <? _)%Z. }
    cbn [negb]. by destruct (_parse_optional_timestamp _ _). }
  by rewrite Hl in Hx.
Qed.
End Query.
End Query.

(** ** Concrete runs *)

Section Examples.
Import Query.

(** The clock text of the example events. *)
Definition example_time (s : string) : option (Z * option Z) :=
  if String.eqb s "2026-01-01T00:00:00+00:00" then Some (1767225600000000%Z, Some 0%Z) else None.

Notation ask := (query_audit_events plain_reader example_time).

Definition example_lines : list string :=
  omap (fun id => jsonl_line <$> model_dump (example_event id)) ["e1"; "e2"; "e3"].

Definition no_limit : AuditQuery := at_page default_query 0 500.

(** Two pages of two show the three events. *)
Lemma pages_witness :
  match mapR (fun k => ask (LogFile (Some example_lines)) (at_page default_query (Z.of_nat k * 2) 2) false)
          (seq 0 2) with
  | Ok pages =>
      List.map (fun d => opt_field d "event_id") (concat (List.map events pages))
      = [Some "e1"; Some "e2"; Some "e3"] /\
      exists found : list jdict, Forall (fun r => total_matching r = Z.of_nat (List.length found) /\
                                     (returned_count r <= 2)%Z) pages
  | Raise _ => False
  end.
Proof.
  assert (Hok : is_ok (mapR (fun k => ask (LogFile (Some example_lines))
    (at_page default_query (Z.of_nat k * 2) 2) false) (seq 0 2)) = true) by (vm_compute; reflexivity).
  assert (Hids : match mapR (fun k => ask (LogFile (Some example_lines))
    (at_page default_query (Z.of_nat k * 2) 2) false) (seq 0 2) with
    | Ok pages => List.map (fun d => opt_field d "event_id") (concat (List.map events pages))
                  = [Some "e1"; Some "e2"; Some "e3"]
    | Raise _ => False end) by (vm_compute; reflexivity).
  destruct (mapR _ (seq 0 2)) as [pages|e] eqn:E; [|discriminate Hok]. split; [exact Hids|].
  destruct (pages_cover_the_matches plain_reader example_time (LogFile (Some example_lines))
    default_query false 2 1 pages ltac:(split; [lia|vm_compute; discriminate]) E)
    as (evs & m & ws & found & _ & _ & _ & Hall).
  exists found. exact Hall.
Defined.

Definition example_log (sqlite : bool) : store :=
  match write_event (empty_store sqlite) (example_event "e1") with
  | Ok (s, _) => s
  | Raise _ => empty_store sqlite
  end.


(** The mirror of a SQLite log, rewritten to say that the request was blocked. *)
Definition altered_mirror : store :=
  mk_store (match model_dump (example_event "e1") with
            | Some d => [jsonl_line (jset d "decision" (JStr "block"))]
            | None => []
            end) (table (example_log true)).

(** The query reads the mirror and verifies the table: it reports the altered
    event as verified. *)
Example mirror_is_reported_as_verified :
  match ask (Logger altered_mirror) no_limit true with
  | Ok r => List.map (fun d => opt_field d "decision") (events r) = [Some "block"] /\
            integrity_verified r = Some true
  | Raise _ => False
  end.
Proof. vm_compute. split; reflexivity. Qed.

(** One event without a readable timestamp, and nothing can be queried. *)
Lemma bad_timestamp_witness :
  match model_dump (example_event "e1") with
  | Some d =>
      let bad := jset d "timestamp" (JStr "yesterday") in
      is_ok (ask (LogFile (Some (jsonl_line bad :: example_lines))) default_query false) = false
  | None => False
  end.
Proof.
  destruct (model_dump (example_event "e1")) as [d|] eqn:E; [|vm_compute in E; discriminate E].
  vm_compute in E. injection E as <-. cbn zeta.
  eapply (bad_timestamp_fails_query plain_reader example_time);
    [vm_compute; reflexivity|left|vm_compute; reflexivity|vm_compute; reflexivity].
Defined.
End Examples.
