(* ===== verification/Interceptor.v ===== *)
(** * interceptor.py and tool_executor.py: the runtime control point

    [RygnalInterceptor.intercept] against the interfaces of its collaborators:
    a risk assessor, a policy decider and an audit sink are type classes whose
    operations may raise, and the instances at the end are the components of
    the other files.  The calls of tool handlers are recorded, so that the
    theorems can say when a tool ran. *)

From S2P Require Export Approval AuditLog PolicyEngine.

(** ** Definitions *)

(** *** tool_executor.py *)

Definition ToolHandler : Type := ToolRequest.t -> result exn pyval.

Module ToolExecutor.
Record t := mk { _tools : gmap string ToolHandler }.

Definition empty : t := mk ∅.

Definition register (x : t) (tool_name : string) (handler : ToolHandler) : t :=
  mk (<[tool_name := handler]> (_tools x)).

Definition has_tool (x : t) (tool_name : string) : bool :=
  bool_decide (is_Some (_tools x !! tool_name)).

(** The result and the handler calls made. *)
Definition execute (x : t) (request : ToolRequest.t)
    : ToolExecutionResult.t * list ToolRequest.t :=
  match _tools x !! ToolRequest.tool_name request with
  | None =>
      (ToolExecutionResult.mk FAILED false PNone
         (Some ("No registered tool handler for: " +++ ToolRequest.tool_name request)), [])
  | Some handler =>
      match handler request with
      | Raise exc =>
          (ToolExecutionResult.mk FAILED true PNone
             (Some ("Tool execution failed: " +++ exn_text exc)), [request])
      | Ok output => (ToolExecutionResult.mk EXECUTED true output None, [request])
      end
  end.
End ToolExecutor.

(** *** Collaborators *)

(** [risk_engine.assess(request)], dumped to a dictionary. *)
Class RiskAssessor := assess : ToolRequest.t -> result exn pydict.

(** [policy_engine.evaluate(request, risk_assessment=...)] *)
Class PolicyDecider := decide_policy : ToolRequest.t -> pydict -> result exn PolicyDecision.t.

(** [audit_logger.log_decision(...)] on the state of the log. *)
Class AuditSink (S : Type) :=
  log_event : S -> EventFresh.t -> ToolRequest.t -> PolicyDecision.t -> pydict ->
              result exn (S * AuditEvent.t).

(** *** interceptor.py *)

Definition GLOBAL_FAIL_CLOSED_POLICY_ID : string := "global-fail-closed".
Definition GLOBAL_FAIL_CLOSED_POLICY_VERSION : string := "global-fail-closed.v1".

(** [except FAIL_CLOSED_RUNTIME_ERRORS] *)
Definition is_fail_closed (e : exn) : bool :=
  bool_decide (exn_base e ∈ [RuntimeError; ValueError; OSError; LookupError]).

Definition of_strs (l : list string) : pyval := PList (List.map PStr l).

Definition of_opt_int (o : option Z) : pyval := match o with Some z => PInt z | None => PNone end.

(** [explanation.model_dump(mode="json")] *)
Definition dump_explanation (x : PolicyExplanation.t) : pydict :=
  [("policy_version", PStr (PolicyExplanation.policy_version x));
   ("matched", PBool (PolicyExplanation.matched x));
   ("matched_rule_id", of_opt_str (PolicyExplanation.matched_rule_id x));
   ("matched_rule_priority", of_opt_int (PolicyExplanation.matched_rule_priority x));
   ("matched_conditions", of_strs (PolicyExplanation.matched_conditions x));
   ("evaluated_rule_ids", of_strs (PolicyExplanation.evaluated_rule_ids x));
   ("default_decision", PBool (PolicyExplanation.default_decision x))].

Definition dump_policy_decision (d : PolicyDecision.t) : pydict :=
  [("decision", PStr (decision_value (PolicyDecision.decision d)));
   ("allowed", PBool (PolicyDecision.allowed d));
   ("severity", PStr (severity_value (PolicyDecision.severity d)));
   ("reason", PStr (PolicyDecision.reason d));
   ("policy_id", of_opt_str (PolicyDecision.policy_id d));
   ("explanation", match PolicyDecision.explanation d with
                   | Some x => of_dict (dump_explanation x) | None => PNone end)].

Definition _policy_explanation_metadata (d : PolicyDecision.t) : pydict :=
  match PolicyDecision.explanation d with Some x => dump_explanation x | None => [] end.

Definition skipped (error : string) : ToolExecutionResult.t :=
  ToolExecutionResult.mk SKIPPED false PNone (Some error).

Definition simulated (output : string) : ToolExecutionResult.t :=
  ToolExecutionResult.mk SIMULATED false (PStr output) None.

Section Interceptor.
Context `{RiskAssessor, PolicyDecider} {S : Type} `{AuditSink S}.
Context (tool_executor : ToolExecutor.t) (approval_workflow : option Workflow.t)
  (runtime_mode : RuntimeMode).

Definition _execute_with_decision (request : ToolRequest.t) (policy_decision : PolicyDecision.t)
    (approval_decision : option ApprovalDecision.t)
    : ToolExecutionResult.t * list ToolRequest.t :=
  let decision := PolicyDecision.decision policy_decision in
  match runtime_mode with
  | OBSERVE => (skipped "Tool execution skipped: Rygnal is in observe mode.", [])
  | SIMULATE_MODE =>
      match decision with
      | ALLOW => (simulated "Simulated tool execution (simulate mode).", [])
      | d => (skipped ("Tool execution skipped (simulate mode): " +++ decision_value d), [])
      end
  | ENFORCE | PRODUCTION_SAFE =>
      match decision with
      | ALLOW => ToolExecutor.execute tool_executor request
      | SIMULATE => (simulated "Simulated decision. Tool was not executed.", [])
      | REQUIRE_APPROVAL =>
          match approval_decision with
          | Some a =>
              if ApprovalDecision.approved a then ToolExecutor.execute tool_executor request
              else (skipped "Tool execution skipped because approval was not granted.", [])
          | None => (skipped "Tool execution skipped because approval was not granted.", [])
          end
      | BLOCK => (skipped ("Tool execution skipped because decision is: " +++
                           decision_value decision), [])
      end
  end.

Definition fail_closed_decision (reason_code : string) (exc : exn) : PolicyDecision.t :=
  PolicyDecision.mk BLOCK false SevHigh
    ("global_fail_closed:" +++ reason_code +++ ":" +++ exn_name exc)
    (Some GLOBAL_FAIL_CLOSED_POLICY_ID)
    (Some (PolicyExplanation.mk GLOBAL_FAIL_CLOSED_POLICY_VERSION false None None
             [reason_code] [] false)).

(** The [AuditEvent] built when the audit log itself fails. *)
Definition synthesize_event (ef : EventFresh.t) (request : ToolRequest.t)
    (policy_decision : PolicyDecision.t) (metadata : pydict) : result exn AuditEvent.t :=
  let v := dict_get (ToolRequest.metadata request) "trace_id" in
  target ← redact_sensitive_value (of_opt_str (ToolRequest.target request));
  input ← redact_sensitive_value (ToolRequest.input request);
  metadata' ← redact_dict metadata;
  Ok (AuditEvent.mk "audit.v2" (EventFresh.package_version ef) (EventFresh.event_id ef)
        (EventFresh.timestamp ef) (if py_truth v then py_str v else "")
        (ToolRequest.user_id request) (ToolRequest.agent_id request)
        (ToolRequest.environment request) (ToolRequest.tool_name request)
        (ToolRequest.action request) target input
        (PolicyDecision.decision policy_decision) (PolicyDecision.allowed policy_decision)
        (PolicyDecision.severity policy_decision) (PolicyDecision.policy_id policy_decision)
        (PolicyDecision.reason policy_decision) (of_dict metadata') None None).

Definition _log_or_synthesize (s : S) (ef : EventFresh.t) (request : ToolRequest.t)
    (policy_decision : PolicyDecision.t) (metadata : pydict) : result exn (S * AuditEvent.t) :=
  match log_event s ef request policy_decision metadata with
  | Ok r => Ok r
  | Raise audit_exc =>
      if is_fail_closed audit_exc then
        e ← synthesize_event ef request policy_decision
              (dict_update metadata
                 [("audit_write_failed", PBool true);
                  ("audit_error_type", PStr (exn_name audit_exc));
                  ("audit_error_summary",
                   PStr (exn_name audit_exc +++ " while writing fail-closed audit event"))]);
        Ok (s, e)
      else Raise audit_exc
  end.

(** Result of a call: the returned value or the escaping exception, the state
    of the audit log, and the handler calls. *)
Definition outcome : Type := result exn InterceptorResult.t * S * list ToolRequest.t.

Definition _fail_closed_result (s : S) (ef : EventFresh.t) (request : ToolRequest.t)
    (reason_code : string) (exc : exn) (risk_metadata extra_metadata : pydict) : outcome :=
  let pd := fail_closed_decision reason_code exc in
  let audit_metadata :=
    dict_update (dict_update risk_metadata
      [("runtime_mode", PStr (runtime_mode_value runtime_mode));
       ("fail_closed", PBool true);
       ("fail_closed_reason_code", PStr reason_code);
       ("error_type", PStr (exn_name exc));
       ("error_summary", PStr (exn_name exc +++ " during " +++ reason_code));
       ("policy_explanation", of_dict (_policy_explanation_metadata pd))])
      extra_metadata in
  match _log_or_synthesize s ef request pd audit_metadata with
  | Raise e => (Raise e, s, [])
  | Ok (s', event) =>
      (Ok (InterceptorResult.mk request risk_metadata pd event
             (skipped (PolicyDecision.reason pd)) None), s', [])
  end.

Definition approval_metadata (r : ApprovalRequest.t) (a : ApprovalDecision.t) : pydict :=
  [("approval_id", PStr (ApprovalRequest.approval_id r));
   ("status", PStr (approval_status_value (ApprovalDecision.status a)));
   ("approved", PBool (ApprovalDecision.approved a));
   ("decided_by", of_opt_str (ApprovalDecision.decided_by a));
   ("decided_at", of_opt_str (ApprovalDecision.decided_at a));
   ("reason", PStr (ApprovalDecision.reason a));
   ("metadata", of_dict (ApprovalDecision.metadata a))].

(** [self.approval_workflow or ApprovalWorkflow()] *)
Definition effective_workflow (fresh : Fresh.t) : Workflow.t :=
  default (make_workflow (Fresh.decided_at fresh) None [] ∅ ∅ None) approval_workflow.

(** The audit and execution steps at the end of [intercept]. *)
Definition audit_and_execute (s : S) (ef : EventFresh.t) (request : ToolRequest.t)
    (risk_metadata : pydict) (policy_decision : PolicyDecision.t) (audit_metadata : pydict)
    (approval_decision : option ApprovalDecision.t) : outcome :=
  match log_event s ef request policy_decision audit_metadata with
  | Raise e => (Raise e, s, [])
  | Ok (s', audit_event) =>
      let '(execution, calls) :=
        _execute_with_decision request policy_decision approval_decision in
      (Ok (InterceptorResult.mk request risk_metadata policy_decision audit_event execution
             approval_decision), s', calls)
  end.

Definition intercept (s : S) (ef : EventFresh.t) (fresh : Fresh.t) (request : ToolRequest.t)
    : outcome :=
  match assess request with
  | Raise exc =>
      if is_fail_closed exc
      then _fail_closed_result s ef request "risk_assessment_failed" exc [] []
      else (Raise exc, s, [])
  | Ok risk_metadata =>
      match decide_policy request risk_metadata with
      | Raise exc =>
          if is_fail_closed exc
          then _fail_closed_result s ef request "policy_evaluation_failed" exc risk_metadata []
          else (Raise exc, s, [])
      | Ok policy_decision =>
          let audit_metadata :=
            dict_set risk_metadata "runtime_mode" (PStr (runtime_mode_value runtime_mode)) in
          let policy_explanation := _policy_explanation_metadata policy_decision in
          let audit_metadata :=
            match policy_explanation with
            | [] => audit_metadata
            | x => dict_set audit_metadata "policy_explanation" (of_dict x)
            end in
          if bool_decide (PolicyDecision.decision policy_decision = REQUIRE_APPROVAL) then
            match request_approval (effective_workflow fresh) fresh request policy_decision
                    risk_metadata with
            | Raise exc =>
                if is_fail_closed exc
                then _fail_closed_result s ef request "approval_workflow_failed" exc risk_metadata
                       [("unconfirmed_pre_approval_decision",
                         of_dict (dump_policy_decision policy_decision))]
                else (Raise exc, s, [])
            | Ok (approval_request, approval_decision) =>
                audit_and_execute s ef request risk_metadata policy_decision
                  (dict_set audit_metadata "approval"
                     (of_dict (approval_metadata approval_request approval_decision)))
                  (Some approval_decision)
            end
          else audit_and_execute s ef request risk_metadata policy_decision audit_metadata None
      end
  end.

(** ** Lemmas *)

Lemma execute_calls request r calls :
  ToolExecutor.execute tool_executor request = (r, calls) ->
  (calls = [] /\ ToolExecutionResult.executed r = false) \/
  (calls = [request] /\ ToolExecutionResult.executed r = true /\
   ToolExecutor.has_tool tool_executor (ToolRequest.tool_name request) = true).
Proof.
  unfold ToolExecutor.execute, ToolExecutor.has_tool.
  destruct (ToolExecutor._tools tool_executor !! ToolRequest.tool_name request) as [h|] eqn:E.
  - rewrite bool_decide_eq_true_2 by eauto.
    destruct (h request); intros [= <- <-]; auto.
  - intros [= <- <-]; auto.
Qed.

Lemma execute_with_decision_calls request pd a r calls :
  _execute_with_decision request pd a = (r, calls) -> calls <> [] ->
  calls = [request] /\ ToolExecutionResult.executed r = true /\
  (runtime_mode = ENFORCE \/ runtime_mode = PRODUCTION_SAFE) /\
  (PolicyDecision.decision pd = ALLOW \/
   PolicyDecision.decision pd = REQUIRE_APPROVAL /\
   exists d, a = Some d /\ ApprovalDecision.approved d = true).
Proof.
  unfold _execute_with_decision. intros H2 Hne.
  assert (Hx : ToolExecutor.execute tool_executor request = (r, calls) ->
               calls = [request] /\ ToolExecutionResult.executed r = true)
    by (intros Hx; apply execute_calls in Hx as [[-> _]|(-> & -> & _)]; done).
  destruct runtime_mode, (PolicyDecision.decision pd); try (by injection H2 as <- <-);
    try (destruct (Hx H2); by auto);
    destruct a as [d|]; try (by injection H2 as <- <-);
    destruct (ApprovalDecision.approved d) eqn:Ha; try (by injection H2 as <- <-);
    destruct (Hx H2); eauto 10.
Qed.

Lemma fail_closed_no_calls s ef request code exc risk extra :
  snd (_fail_closed_result s ef request code exc risk extra) = [] /\
  forall res s', fst (_fail_closed_result s ef request code exc risk extra) = (Ok res, s') ->
    PolicyDecision.decision (InterceptorResult.policy_decision res) = BLOCK /\
    ToolExecutionResult.executed (InterceptorResult.execution res) = false.
Proof.
  unfold _fail_closed_result. destruct (_log_or_synthesize _ _ _ _ _) as [[s1 e]|e]; cbn.
  - split; [done|]. by intros res s' [= <- <-].
  - by split.
Qed.

(** The call returned the block [pd] with [event]: nothing was executed. *)
Definition returned_block (out : result exn InterceptorResult.t) (pd : PolicyDecision.t)
    (event : AuditEvent.t) : Prop :=
  exists res, out = Ok res /\ InterceptorResult.policy_decision res = pd /\
    InterceptorResult.audit_event res = event /\ InterceptorResult.approval_decision res = None /\
    ToolExecutionResult.status (InterceptorResult.execution res) = SKIPPED /\
    ToolExecutionResult.executed (InterceptorResult.execution res) = false.

(** [exc] is what a component raised for [request]: its reason code, and the
    risk assessment there was by then. *)
Inductive component_failure (fresh : Fresh.t) (request : ToolRequest.t) (exc : exn)
    : string -> pydict -> Prop :=
  | assessment_failure :
      assess request = Raise exc ->
      component_failure fresh request exc "risk_assessment_failed" []
  | policy_failure risk :
      assess request = Ok risk -> decide_policy request risk = Raise exc ->
      component_failure fresh request exc "policy_evaluation_failed" risk
  | approval_failure risk pd :
      assess request = Ok risk -> decide_policy request risk = Ok pd ->
      PolicyDecision.decision pd = REQUIRE_APPROVAL ->
      request_approval (effective_workflow fresh) fresh request pd risk = Raise exc ->
      component_failure fresh request exc "approval_workflow_failed" risk.

Lemma synthesize_inv ef request pd md r :
  synthesize_event ef request pd md = r ->
  match r with
  | Ok event => AuditEvent.decision event = PolicyDecision.decision pd
  | Raise e => exists k, e = no_lower k
  end.
Proof.
  unfold synthesize_event. intros <-.
  destruct (redact_sensitive_value (of_opt_str _)) eqn:E1; cbn; [|by apply redact_raises in E1].
  destruct (redact_sensitive_value (ToolRequest.input request)) eqn:E2; cbn; [|by apply redact_raises in E2].
  destruct (redact_dict md) eqn:E3; cbn; [done|by apply redact_dict_raises in E3].
Qed.

Lemma dict_lookup_update (d d' : pydict) key :
  dict_lookup d' key = None -> dict_lookup (dict_update d d') key = dict_lookup d key.
Proof.
  unfold dict_update. revert d. induction d' as [|[k v] d' IH]; intros d; cbn; [done|].
  destruct (String.eqb_spec k key) as [|Hk]; [done|]. intros Hd. rewrite IH by done.
  by apply dict_lookup_set_ne.
Qed.

Lemma fail_closed_outcome s ef request code exc risk extra out s' calls :
  dict_lookup extra "fail_closed" = None -> dict_lookup extra "fail_closed_reason_code" = None ->
  _fail_closed_result s ef request code exc risk extra = (out, s', calls) ->
  calls = [] /\
  exists pd md,
    PolicyDecision.decision pd = BLOCK /\ PolicyDecision.allowed pd = false /\
    PolicyDecision.policy_id pd = Some GLOBAL_FAIL_CLOSED_POLICY_ID /\
    PolicyDecision.reason pd = "global_fail_closed:" +++ code +++ ":" +++ exn_name exc /\
    dict_lookup md "fail_closed" = Some (PBool true) /\
    dict_lookup md "fail_closed_reason_code" = Some (PStr code) /\
    match log_event s ef request pd md with
    | Ok (s1, event) => s' = s1 /\ returned_block out pd event
    | Raise e =>
        s' = s /\
        if is_fail_closed e
        then (exists event, returned_block out pd event /\ AuditEvent.decision event = BLOCK) \/
             exists k, out = Raise (no_lower k)
        else out = Raise e
    end.
Proof.
  intros Hx1 Hx2. unfold _fail_closed_result, _log_or_synthesize.
  set (pd := fail_closed_decision code exc). set (md := dict_update (dict_update risk _) extra).
  intros Hr. assert (calls = []) as ->.
  { destruct (match log_event _ _ _ _ _ with Ok r => Ok r | Raise _ => _ end) as [[? ?]|?]; congruence. }
  split; [done|]. exists pd, md. split_and!; try done.
  1-2: subst md; rewrite dict_lookup_update by done; unfold dict_update; cbn [fold_left fst snd];
    rewrite ?dict_lookup_set_ne by done; apply dict_lookup_set_eq.
  destruct (log_event s ef request pd md) as [[s1 event]|e].
  - injection Hr as <- <-. split; [done|]. by eexists.
  - destruct (is_fail_closed e); [|by injection Hr as <- <-].
    destruct (synthesize_event _ _ _ _) as [event|e'] eqn:E; cbn in Hr; injection Hr as <- <-;
      apply synthesize_inv in E; (split; [done|]).
    + left. exists event. split; [by eexists|done].
    + right. destruct E as [k ->]. by exists k.
Qed.

Lemma audit_and_execute_calls s ef request risk pd md a out s' calls :
  audit_and_execute s ef request risk pd md a = (out, s', calls) -> calls <> [] ->
  exists event r, log_event s ef request pd md = Ok (s', event) /\
    _execute_with_decision request pd a = (r, calls) /\
    out = Ok (InterceptorResult.mk request risk pd event r a).
Proof.
  unfold audit_and_execute. destruct (log_event s ef request pd md) as [[s1 event]|e].
  - destruct (_execute_with_decision request pd a) as [r cs]. intros [= <- <- <-]. eauto.
  - by intros [= <- <- <-].
Qed.

(** What must have happened when a tool ran. *)
Definition execution_authorized (fresh : Fresh.t) (request : ToolRequest.t)
    (pd : PolicyDecision.t) (risk : pydict) : Prop :=
  PolicyDecision.decision pd = ALLOW \/
  (PolicyDecision.decision pd = REQUIRE_APPROVAL /\
   exists r d, request_approval (effective_workflow fresh) fresh request pd risk = Ok (r, d) /\
     ApprovalDecision.approved d = true).

Lemma intercept_calls s ef fresh request out s' calls :
  intercept s ef fresh request = (out, s', calls) -> calls <> [] ->
  calls = [request] /\ (runtime_mode = ENFORCE \/ runtime_mode = PRODUCTION_SAFE) /\
  exists risk pd md event res,
    assess request = Ok risk /\ decide_policy request risk = Ok pd /\
    execution_authorized fresh request pd risk /\
    log_event s ef request pd md = Ok (s', event) /\
    out = Ok res /\ InterceptorResult.audit_event res = event /\
    ToolExecutionResult.executed (InterceptorResult.execution res) = true.
Proof.
  unfold intercept. intros Hi Hne.
  assert (Hfc : forall code exc risk extra,
    _fail_closed_result s ef request code exc risk extra = (out, s', calls) -> False).
  { intros code exc risk extra Hf.
    pose proof (proj1 (fail_closed_no_calls s ef request code exc risk extra)) as Hc.
    rewrite Hf in Hc. done. }
  assert (Hraise : forall e : exn, (Raise e : result exn InterceptorResult.t, s, []) = (out, s', calls) -> False)
    by (intros e [= <- <- <-]; done).
  destruct (assess request) as [risk|exc]; [|destruct (is_fail_closed exc); exfalso; eauto].
  destruct (decide_policy request risk) as [pd|exc] eqn:Hpd;
    [|destruct (is_fail_closed exc); exfalso; eauto].
  destruct (bool_decide _) eqn:Hreq.
  - apply bool_decide_eq_true in Hreq.
    destruct (request_approval _ _ _ _ _) as [[r d]|exc] eqn:Happ;
      [|destruct (is_fail_closed exc); exfalso; eauto].
    apply audit_and_execute_calls in Hi as (event & x & Hlog & Hx & ->); [|done].
    apply execute_with_decision_calls in Hx as (-> & Hex & Hmode & Hdec); [|done].
    split_and!; [done|done|]. do 5 eexists. split_and!; try done. right. split; [done|].
    exists r, d. split; [done|]. destruct Hdec as [?|(_ & d' & [= ->] & ?)]; [congruence|done].
  - apply bool_decide_eq_false in Hreq.
    apply audit_and_execute_calls in Hi as (event & x & Hlog & Hx & ->); [|done].
    apply execute_with_decision_calls in Hx as (-> & Hex & Hmode & Hdec); [|done].
    split_and!; [done|done|]. do 5 eexists. split_and!; try done. left.
    by destruct Hdec as [?|[? _]].
Qed.
End Interceptor.

(** *** The components as instances *)

Definition policy_type_error : exn :=
  mk_exn TypeError "TypeError" "'<' not supported between the risk score and the minimum".

#[export] Instance engine_decider (re_search : string -> string -> bool) (target_limit : Z)
    (e : PolicyEngine) : PolicyDecider :=
  fun request risk => map_err (fun _ => policy_type_error)
                        (evaluate re_search target_limit e request risk).

#[export] Instance audit_log_sink : AuditSink store := log_decision.

(** ** Theorems *)

(** C1 The one guarded call: when [intercept] calls a tool handler at all, it
    calls it once with the request, in an enforcing mode, after the policy
    allowed it or an approval was granted, and after the decision was written
    to the audit log, whose event is the one in the result. *)
Theorem tool_runs_only_if_authorized `{RiskAssessor, PolicyDecider} {S : Type} `{AuditSink S}
    (x : ToolExecutor.t) (w : option Workflow.t) (mode : RuntimeMode) (s s' : S) ef fresh request
    out calls :
  intercept x w mode s ef fresh request = (out, s', calls) -> calls <> [] ->
  calls = [request] /\ (mode = ENFORCE \/ mode = PRODUCTION_SAFE) /\
  exists risk pd md event res,
    assess request = Ok risk /\ decide_policy request risk = Ok pd /\
    execution_authorized w fresh request pd risk /\
    log_event s ef request pd md = Ok (s', event) /\
    out = Ok res /\ InterceptorResult.audit_event res = event /\
    ToolExecutionResult.executed (InterceptorResult.execution res) = true.
Proof. apply intercept_calls. Qed.


(** *** Concrete runs *)

Definition low_risk : RiskAssessor :=
  fun _ => Ok [("risk_level", PStr "low"); ("risk_score", PInt 10)].

Definition example_rule (d : Decision) : PolicyRule.t :=
  PolicyRule.mk "r1" d SevHigh "rule" 10 (Some "shell") None None None None None None None None
    [] [] None None.

Definition example_engine (d : Decision) : PolicyEngine :=
  make_engine [example_rule d] "policy.v2" BLOCK.

Definition no_search (p s : string) : bool := false.

Definition echo_executor : ToolExecutor.t :=
  ToolExecutor.register ToolExecutor.empty "shell" (fun r => Ok (ToolRequest.input r)).

Definition example_event_fresh : EventFresh.t := EventFresh.mk "evt_1" "2026" "trace_9" "0.1".

Definition run_example (d : Decision) (w : option Workflow.t) (mode : RuntimeMode) :=
  @intercept low_risk (engine_decider no_search 4096 (example_engine d)) store audit_log_sink
    echo_executor w mode (empty_store false) example_event_fresh example_fresh example_tool_request.

Lemma tool_runs_witness :
  exists out s', run_example ALLOW None ENFORCE = (out, s', [example_tool_request]) /\
  [example_tool_request] = [example_tool_request] /\
  (ENFORCE = ENFORCE \/ ENFORCE = PRODUCTION_SAFE) /\
  exists risk pd md event res,
    @assess low_risk example_tool_request = Ok risk /\
    @decide_policy (engine_decider no_search 4096 (example_engine ALLOW))
      example_tool_request risk = Ok pd /\
    execution_authorized None example_fresh example_tool_request pd risk /\
    log_decision (empty_store false) example_event_fresh example_tool_request pd md = Ok (s', event) /\
    out = Ok res /\ InterceptorResult.audit_event res = event /\
    ToolExecutionResult.executed (InterceptorResult.execution res) = true.
Proof.
  destruct (run_example ALLOW None ENFORCE) as [[out s'] calls] eqn:E.
  assert (Hc : calls = [example_tool_request])
    by (change calls with (snd (out, s', calls)); rewrite <- E; vm_compute; reflexivity).
  subst calls. exists out, s'. split; [reflexivity|].
  apply (tool_runs_only_if_authorized echo_executor None ENFORCE (empty_store false) s'
           example_event_fresh example_fresh example_tool_request out _ E).
  discriminate.
Defined.

Definition failing_assessor : RiskAssessor :=
  fun _ => Raise (mk_exn OSError "OSError" "disk").

Notation failing_run := (@intercept failing_assessor
  (engine_decider no_search 4096 (example_engine ALLOW)) store audit_log_sink echo_executor None ENFORCE
  (empty_store false) example_event_fresh example_fresh example_tool_request).


(** A resolver that answers with status rejected but the approved flag set
    gets the tool executed, even when it is the requester's own answer. *)
Theorem rejected_self_approval_executes :
  match run_example REQUIRE_APPROVAL (Some (example_workflow "alice" REJECTED)) ENFORCE with
  | (Ok res, _, calls) =>
      calls = [example_tool_request] /\
      ToolRequest.user_id example_tool_request = "alice"%string /\
      (ApprovalDecision.status <$> InterceptorResult.approval_decision res) = Some REJECTED /\
      (ApprovalDecision.decided_by <$> InterceptorResult.approval_decision res)
        = Some (Some "alice"%string) /\
      ToolExecutionResult.executed (InterceptorResult.execution res) = true
  | _ => False
  end.
Proof. vm_compute. auto. Qed.

(** With an honest status the same self-approval is refused. *)
Example self_approval_is_refused :
  match run_example REQUIRE_APPROVAL (Some (example_workflow "alice" APPROVED)) ENFORCE with
  | (Ok res, _, calls) => calls = [] /\
      ToolExecutionResult.executed (InterceptorResult.execution res) = false
  | _ => False
  end.
Proof. vm_compute. auto. Qed.
