(* ===== verification/OperationStore.v ===== *)
(** * operation_store.py: durable operations and repository leases

    [SQLiteOperationStore]: the two tables [operations] and [resource_leases]
    as finite maps on their primary keys, every [BEGIN IMMEDIATE] transaction
    as one atomic function on them, and the interleavings of several processes
    as the step relation [op_step].

    What the store reads from the outside is an argument: whether the process
    that wrote a row still runs ([active]), the git state of the repository
    ([inspect]), the clock, and the owner token drawn from [uuid4].  A time is
    an integer number of ticks. *)

From S2P Require Export Json Sha256.

(** ** Definitions *)

Inductive OperationState := RESERVED | APPLYING | APPLIED | OP_FAILED.

Inductive OperationRecoveryStatus := ACTIVE | RELEASED | APPLIED_RECOVERED | UNRESOLVED.

#[export] Instance OperationState_eq_dec : EqDecision OperationState.
Proof. solve_decision. Defined.

Inductive op_error :=
  | OperationConflictError (text : string)
  | OperationRecoveryRequiredError (text : string)
  | OperationTerminalError (text : string)
  | OperationStoreError (text : string)
  | OpIntegrityError.                       (* sqlite3.IntegrityError *)

(** A row of [operations]. *)
Record op_row := mk_op {
  operation_key : string;
  operation_type : string;
  resource_key : string;
  artifact_id : string;
  approval_id : string;
  patch_sha256 : string;
  baseline_commit_sha : string;
  target_repo_path : string;
  state : OperationState;
  owner_token : string;
  owner_pid : Z;
  owner_start_token : string;
  created_at_unix : Z;
  updated_at_unix : Z;
  retryable : bool;
  result_json : option string;
  error_text : option string;
}.

(** A row of [resource_leases]; its key is [resource_key]. *)
Record lease := mk_lease {
  l_operation_key : string;
  l_owner_token : string;
  l_owner_pid : Z;
  l_owner_start_token : string;
  l_created_at_unix : Z;
}.

Record db := mk_db {
  operations : gmap string op_row;
  resource_leases : gmap string lease;
}.

(** [OperationReservation]; the record is the row it was read from. *)
Record reservation := mk_reservation {
  record : op_row;
  acquired : bool;
  replayed : bool;
}.

(** The result stored with an operation, as [_record_from_row] decodes it. *)
Definition row_result (r : op_row) : option json := j ← result_json r; loads j.

Definition OPERATION_TYPE_ARTIFACT_APPLY : string := "artifact_apply".

(** The arguments of [reserve_artifact_apply], its path resolved. *)
Record apply_args := mk_args {
  a_artifact_id : string;
  a_approval_id : string;
  a_patch_sha256 : string;
  a_baseline : string;
  a_target_repo : string;
}.

Definition artifact_apply_operation_key (a : apply_args) : string :=
  sha256_hex (str_join null_char
    [OPERATION_TYPE_ARTIFACT_APPLY; a_artifact_id a; a_approval_id a; a_patch_sha256 a;
     lower (a_baseline a); a_target_repo a]).

Definition repository_resource_key (target_repo_path : string) : string :=
  sha256_hex target_repo_path.

(** What a process brings to a reservation: its token, identity and clock. *)
Record owner := mk_owner {
  o_token : string;
  o_pid : Z;
  o_start_token : string;
  o_now : Z;
}.

Section Store.
Context (active : Z -> string -> bool) (inspect : string -> result op_error (string * bool)).

Definition owner_record_is_active (r : op_row) : bool := active (owner_pid r) (owner_start_token r).

(** [DELETE FROM resource_leases WHERE operation_key = ?] *)
Definition delete_leases_of (key : string) (ls : gmap string lease) : gmap string lease :=
  filter (fun kl => l_operation_key (snd kl) <> key) ls.

(** [DELETE FROM operations WHERE operation_key = ?], cascading to the leases. *)
Definition delete_operation (key : string) (s : db) : db :=
  mk_db (delete key (operations s)) (delete_leases_of key (resource_leases s)).

Definition new_row (a : apply_args) (o : owner) : op_row :=
  mk_op (artifact_apply_operation_key a) OPERATION_TYPE_ARTIFACT_APPLY
    (repository_resource_key (a_target_repo a)) (a_artifact_id a) (a_approval_id a)
    (a_patch_sha256 a) (a_baseline a) (a_target_repo a) RESERVED (o_token o) (o_pid o)
    (o_start_token o) (o_now o) (o_now o) false None None.

Definition new_lease (a : apply_args) (o : owner) : lease :=
  mk_lease (artifact_apply_operation_key a) (o_token o) (o_pid o) (o_start_token o) (o_now o).

(** The lease test and the two INSERTs, after the existing row was handled. *)
Definition acquire (s : db) (a : apply_args) (o : owner) : result op_error (db * reservation) :=
  let row := new_row a o in
  match resource_leases s !! resource_key row with
  | Some l =>
      if active (l_owner_pid l) (l_owner_start_token l)
      then Raise (OperationConflictError
                    "Trusted repository is already owned by another active mutation.")
      else Raise (OperationRecoveryRequiredError
                    "Trusted repository has a stale or ambiguous mutation lease.")
  | None =>
      if bool_decide (is_Some (operations s !! operation_key row)) ||
         existsb (fun kl => String.eqb (l_operation_key (snd kl)) (operation_key row))
                 (map_to_list (resource_leases s))
      then Raise OpIntegrityError
      else Ok (mk_db (<[operation_key row := row]> (operations s))
                     (<[resource_key row := new_lease a o]> (resource_leases s)),
               mk_reservation row true false)
  end.

Definition reserve_artifact_apply (s : db) (a : apply_args) (o : owner)
    : result op_error (db * reservation) :=
  let key := artifact_apply_operation_key a in
  match operations s !! key with
  | None => acquire s a o
  | Some existing =>
      match state existing with
      | APPLIED => Ok (s, mk_reservation existing false true)
      | OP_FAILED =>
          if retryable existing then acquire (delete_operation key s) a o
          else Raise (OperationTerminalError
                 (match error_text existing with
                  | Some (String c e) => String c e
                  | _ => "Artifact application previously failed." end))
      | RESERVED | APPLYING =>
          if owner_record_is_active existing
          then Raise (OperationConflictError
                        "Artifact application is already active in another process.")
          else Raise (OperationRecoveryRequiredError
                 "An incomplete artifact application must be reconciled before retry.")
      end
  end.

Definition update_row (r : op_row) (next_state : OperationState) (now : Z) (res : option json)
    (error : option string) (retry : bool) : op_row :=
  mk_op (operation_key r) (operation_type r) (resource_key r) (artifact_id r) (approval_id r)
    (patch_sha256 r) (baseline_commit_sha r) (target_repo_path r) next_state (owner_token r)
    (owner_pid r) (owner_start_token r) (created_at_unix r) now retry
    (canonical_json <$> res) error.

(** [_owned_transition]: the UPDATE guarded by key, state and token, then the
    release of the lease. *)
Definition _owned_transition (s : db) (rec : op_row) (expected next_state : OperationState)
    (now : Z) (res : option json) (error : option string) (retry release : bool)
    : result op_error (db * op_row) :=
  match operations s !! operation_key rec with
  | Some r =>
      if bool_decide (state r = expected) && String.eqb (owner_token r) (owner_token rec) then
        let r' := update_row r next_state now res error retry in
        let ls := resource_leases s in
        let ls' :=
          if release then
            match ls !! resource_key rec with
            | Some l =>
                if String.eqb (l_operation_key l) (operation_key rec) &&
                   String.eqb (l_owner_token l) (owner_token rec)
                then delete (resource_key rec) ls else ls
            | None => ls
            end
          else ls in
        Ok (mk_db (<[operation_key rec := r']> (operations s)) ls', r')
      else Raise (OperationConflictError "Operation ownership or state changed.")
  | None => Raise (OperationConflictError "Operation ownership or state changed.")
  end.

Definition mark_applying (s : db) (rsv : reservation) (now : Z) : result op_error (db * op_row) :=
  _owned_transition s (record rsv) RESERVED APPLYING now None None false false.

Definition mark_applied (s : db) (rsv : reservation) (now : Z) (res : json)
    : result op_error (db * op_row) :=
  _owned_transition s (record rsv) APPLYING APPLIED now (Some res) None false true.

(** The repository is where the operation found it. *)
Definition unmodified (r : op_row) (head_clean : string * bool) : bool :=
  String.eqb (fst head_clean) (lower (baseline_commit_sha r)) && snd head_clean.

Definition fail_or_preserve_ambiguous (s : db) (rsv : reservation) (now : Z) (error : string)
    : result op_error (db * bool) :=
  match operations s !! operation_key (record rsv) with
  | None => Raise (OperationStoreError "Operation disappeared during failure handling.")
  | Some r =>
      repository ← inspect (target_repo_path r);
      if unmodified r repository then
        '(s', _) ← _owned_transition s (record rsv) APPLYING OP_FAILED now None (Some error) true true;
        Ok (s', true)
      else Ok (s, false)
  end.

(** [list_incomplete]: by creation time. *)
Fixpoint insert_by_created (r : op_row) (l : list op_row) : list op_row :=
  match l with
  | [] => [r]
  | r' :: l' => if (created_at_unix r <=? created_at_unix r')%Z then r :: l
                else r' :: insert_by_created r l'
  end.

Definition incomplete (r : op_row) : bool :=
  match state r with RESERVED | APPLYING => true | _ => false end.

Definition list_incomplete (s : db) : list op_row :=
  fold_right insert_by_created []
    (List.filter incomplete (snd <$> map_to_list (operations s))).

(** [_recover_terminal] *)
Definition _recover_terminal (s : db) (rec : op_row) (next_state : OperationState) (now : Z)
    (res : option json) (error : option string) (retry : bool) : result op_error db :=
  match operations s !! operation_key rec with
  | Some r =>
      if incomplete r then
        Ok (mk_db (<[operation_key rec := update_row r next_state now res error retry]> (operations s))
                  (delete_leases_of (operation_key rec) (resource_leases s)))
      else Raise (OperationConflictError "Operation changed during recovery.")
  | None => Raise (OperationConflictError "Operation changed during recovery.")
  end.

Record recovery := mk_recovery {
  rec_operation_key : string;
  rec_artifact_id : string;
  rec_status : OperationRecoveryStatus;
  rec_message : string;
  rec_target_repo_path : string;
}.

Definition recovered (r : op_row) (st : OperationRecoveryStatus) (message : string) : recovery :=
  mk_recovery (operation_key r) (artifact_id r) st message (target_repo_path r).

Definition recovered_result (r : op_row) : json :=
  JDict [("outcome", JStr "applied"); ("applied", JBool true);
         ("target_repo_path", JStr (target_repo_path r)); ("patch_sha256", JStr (patch_sha256 r));
         ("baseline_commit_sha", JStr (baseline_commit_sha r));
         ("approval_id", JStr (approval_id r)); ("artifact_id", JStr (artifact_id r));
         ("recovered", JBool true)].

Definition error_message (e : op_error) : string :=
  match e with
  | OperationConflictError t | OperationRecoveryRequiredError t | OperationTerminalError t
  | OperationStoreError t => t
  | OpIntegrityError => "UNIQUE constraint failed"
  end.

(** One iteration of [reconcile_incomplete] on a listed record. *)
Definition reconcile_one (has_apply_evidence : op_row -> bool) (now : Z) (s : db) (r : op_row)
    : result op_error (db * recovery) :=
  if owner_record_is_active r then
    Ok (s, recovered r ACTIVE "Operation owner process is still active.")
  else if has_apply_evidence r then
    s' ← _recover_terminal s r APPLIED now (Some (recovered_result r)) None false;
    Ok (s', recovered r APPLIED_RECOVERED
              "Recovered completed operation from durable approved-apply evidence.")
  else
    match inspect (target_repo_path r) with
    | Raise exc => Ok (s, recovered r UNRESOLVED (error_message exc))
    | Ok repository =>
        if unmodified r repository then
          s' ← _recover_terminal s r OP_FAILED now None
                 (Some ("Stale operation released because the " +++
                        "trusted repository remained unmodified.")) true;
          Ok (s', recovered r RELEASED "Released stale pre-mutation operation.")
        else
          Ok (s, recovered r UNRESOLVED
                ("Operation owner is gone, but repository state is mutated or ambiguous and no " +++
                 "durable completion evidence exists."))
    end.

Fixpoint reconcile_all (has_apply_evidence : op_row -> bool) (now : Z) (s : db) (rs : list op_row)
    : result op_error (db * list recovery) :=
  match rs with
  | [] => Ok (s, [])
  | r :: rs' =>
      '(s1, x) ← reconcile_one has_apply_evidence now s r;
      '(s2, xs) ← reconcile_all has_apply_evidence now s1 rs';
      Ok (s2, x :: xs)
  end.

Definition reconcile_incomplete (has_apply_evidence : op_row -> bool) (now : Z) (s : db)
    : result op_error (db * list recovery) :=
  reconcile_all has_apply_evidence now s (list_incomplete s).

End Store.

(** *** Interleavings

    The database with the records the store handed out, newest first: a
    process acts on a reservation it received, at any later moment. *)

Record world := mk_world {
  w_db : db;
  issued : list op_row;
}.

Definition token_fresh (token : string) (w : world) : Prop :=
  token ∉ (owner_token <$> issued w) /\
  forall k r, operations (w_db w) !! k = Some r -> owner_token r <> token.

Inductive op_step : world -> world -> Prop :=
  | step_reserve active w a o s' rsv :
      token_fresh (o_token o) w ->
      reserve_artifact_apply active (w_db w) a o = Ok (s', rsv) ->
      op_step w (mk_world s' (record rsv :: issued w))
  | step_applying w r acq rep now s' r' :
      r ∈ issued w ->
      mark_applying (w_db w) (mk_reservation r acq rep) now = Ok (s', r') ->
      op_step w (mk_world s' (r' :: issued w))
  | step_applied w r acq rep now res s' r' :
      r ∈ issued w ->
      mark_applied (w_db w) (mk_reservation r acq rep) now res = Ok (s', r') ->
      op_step w (mk_world s' (r' :: issued w))
  | step_fail inspect w r acq rep now error s' b :
      r ∈ issued w ->
      fail_or_preserve_ambiguous inspect (w_db w) (mk_reservation r acq rep) now error = Ok (s', b) ->
      op_step w (mk_world s' (issued w))
  | step_reconcile active inspect evidence w r now s' x :
      reconcile_one active inspect evidence now (w_db w) r = Ok (s', x) ->
      op_step w (mk_world s' (issued w)).

Definition empty_world : world := mk_world (mk_db ∅ ∅) [].

(** ** The invariant *)

Record db_inv (s : db) : Prop := mk_inv {
  (* a row is stored under its key *)
  inv_key : forall k r, operations s !! k = Some r -> operation_key r = k;
  (* a lease belongs to an incomplete operation on its resource *)
  inv_lease : forall rk l, resource_leases s !! rk = Some l ->
    exists r, operations s !! l_operation_key l = Some r /\
      incomplete r = true /\ resource_key r = rk /\ owner_token r = l_owner_token l;
  (* an incomplete operation holds the lease of its resource *)
  inv_incomplete : forall k r, operations s !! k = Some r -> incomplete r = true ->
    exists l, resource_leases s !! resource_key r = Some l /\
      l_operation_key l = k /\ l_owner_token l = owner_token r;
}.

(** Rows that carry the same token are versions of the same operation. *)
Definition token_inv (w : world) : Prop :=
  (forall r r', r ∈ issued w -> r' ∈ issued w -> owner_token r = owner_token r' ->
     operation_key r = operation_key r' /\ resource_key r = resource_key r') /\
  (forall k r, operations (w_db w) !! k = Some r -> exists r0, r0 ∈ issued w /\
     owner_token r0 = owner_token r /\ operation_key r0 = operation_key r /\
     resource_key r0 = resource_key r).

Definition world_inv (w : world) : Prop := db_inv (w_db w) /\ token_inv w.

(** ** Lemmas *)

Local Opaque sha256_hex.

Lemma lookup_delete_leases key ls rk l :
  delete_leases_of key ls !! rk = Some l <-> ls !! rk = Some l /\ l_operation_key l <> key.
Proof. unfold delete_leases_of. by rewrite map_lookup_filter_Some. Qed.

(** Rewriting one row into a complete one and dropping its leases. *)
Lemma finish_inv s k r r' ls' :
  db_inv s -> operations s !! k = Some r -> operation_key r' = k -> incomplete r' = false ->
  (forall rk l, ls' !! rk = Some l <-> resource_leases s !! rk = Some l /\ l_operation_key l <> k) ->
  db_inv (mk_db (<[k := r']> (operations s)) ls').
Proof.
  intros [Hkey Hlease Hinc] Hk Hr' Hdone Hls. constructor; cbn [operations resource_leases].
  - intros k' x [[<- <-]|[Hne Hx]]%lookup_insert_Some; [done|by apply Hkey].
  - intros rk l [Hl Hne]%Hls. destruct (Hlease rk l Hl) as (x & Hx & Hrest).
    exists x. rewrite lookup_insert_ne by done. done.
  - intros k' x [[<- <-]|[Hne Hx]]%lookup_insert_Some Hi; [congruence|].
    destruct (Hinc k' x Hx Hi) as (l & Hl & Hlk & Hlt). exists l.
    split; [|done]. apply Hls. split; [done|congruence].
Qed.

(** Rewriting an incomplete row into another version that stays incomplete. *)
Lemma advance_inv s k r r' :
  db_inv s -> operations s !! k = Some r -> incomplete r = true -> incomplete r' = true ->
  operation_key r' = k -> resource_key r' = resource_key r -> owner_token r' = owner_token r ->
  db_inv (mk_db (<[k := r']> (operations s)) (resource_leases s)).
Proof.
  intros [Hkey Hlease Hinc] Hk Hi Hi' Hr' Hres Htok. constructor; cbn [operations resource_leases].
  - intros k' x [[<- <-]|[Hne Hx]]%lookup_insert_Some; [done|by apply Hkey].
  - intros rk l Hl. destruct (Hlease rk l Hl) as (x & Hx & Hxi & Hxr & Hxt).
    destruct (decide (l_operation_key l = k)) as [He|Hne].
    + rewrite He in Hx |- *. rewrite Hk in Hx. injection Hx as <-.
      exists r'. rewrite lookup_insert_eq. split_and!; congruence.
    + exists x. by rewrite lookup_insert_ne.
  - intros k' x [[<- <-]|[Hne Hx]]%lookup_insert_Some Hx'; [|by apply Hinc].
    destruct (Hinc k r Hk Hi) as (l & Hl & Hlk & Hlt). exists l. rewrite Hres, Htok. done.
Qed.

Lemma delete_operation_inv key s : db_inv s -> db_inv (delete_operation key s).
Proof.
  intros [Hkey Hlease Hinc]. constructor; cbn [delete_operation operations resource_leases].
  - intros k r [_ Hr]%lookup_delete_Some. by apply Hkey.
  - intros rk l [Hl Hne]%lookup_delete_leases. destruct (Hlease rk l Hl) as (r & Hr & Hrest).
    exists r. by rewrite lookup_delete_ne.
  - intros k r [Hne Hr]%lookup_delete_Some Hi. destruct (Hinc k r Hr Hi) as (l & Hl & Hlk & Hlt).
    exists l. split; [|done]. apply lookup_delete_leases. split; [done|congruence].
Qed.

Lemma acquire_Ok active s a o s' rsv :
  acquire active s a o = Ok (s', rsv) ->
  resource_leases s !! resource_key (new_row a o) = None /\
  operations s !! operation_key (new_row a o) = None /\
  (forall rk l, resource_leases s !! rk = Some l -> l_operation_key l <> operation_key (new_row a o)) /\
  s' = mk_db (<[operation_key (new_row a o) := new_row a o]> (operations s))
             (<[resource_key (new_row a o) := new_lease a o]> (resource_leases s)) /\
  rsv = mk_reservation (new_row a o) true false.
Proof.
  unfold acquire. destruct (resource_leases s !! _) as [l|] eqn:Hl; [by destruct (active _ _)|].
  destruct (bool_decide _ || existsb _ _) eqn:Hb; [done|]. intros [= <- <-].
  apply orb_false_iff in Hb as [Hop Hex].
  rewrite bool_decide_eq_false, <- eq_None_not_Some in Hop. split_and!; try done.
  intros rk l Hrk Heq. rewrite existsb_false_elem_of in Hex.
  apply elem_of_map_to_list in Hrk. specialize (Hex _ Hrk). cbn in Hex.
  by apply String.eqb_neq in Hex.
Qed.

Lemma acquire_inv active s a o s' rsv :
  db_inv s -> acquire active s a o = Ok (s', rsv) -> db_inv s'.
Proof.
  intros [Hkey Hlease Hinc] (Hl & Hop & Hno & -> & _)%acquire_Ok.
  constructor; cbn [operations resource_leases].
  - intros k r [[<- <-]|[_ Hr]]%lookup_insert_Some; [done|by apply Hkey].
  - intros rk l [[<- <-]|[Hne Hrk]]%lookup_insert_Some.
    + exists (new_row a o). cbn [new_lease l_operation_key]. split; [apply lookup_insert_eq|done].
    + destruct (Hlease rk l Hrk) as (r & Hr & Hrest). exists r.
      rewrite lookup_insert_ne; [done|]. intros He. by apply (Hno rk l Hrk).
  - intros k r [[<- <-]|[Hne Hr]]%lookup_insert_Some Hi.
    + exists (new_lease a o). by rewrite lookup_insert_eq.
    + destruct (Hinc k r Hr Hi) as (l & Hlr & Hlk & Hlt). exists l.
      rewrite lookup_insert_ne; [done|]. intros He. congruence.
Qed.

(** What a reservation did: it replayed a finished operation, or it wrote the
    new row and lease. *)
Lemma reserve_Ok active s a o s' rsv :
  reserve_artifact_apply active s a o = Ok (s', rsv) ->
  (s' = s /\ acquired rsv = false /\ replayed rsv = true /\
   operations s !! artifact_apply_operation_key a = Some (record rsv) /\
   state (record rsv) = APPLIED) \/
  (exists s0, (s0 = s \/ s0 = delete_operation (artifact_apply_operation_key a) s) /\
   acquire active s0 a o = Ok (s', rsv) /\
   (forall r, operations s !! artifact_apply_operation_key a = Some r ->
      state r = OP_FAILED /\ retryable r = true)).
Proof.
  unfold reserve_artifact_apply.
  destruct (operations s !! artifact_apply_operation_key a) as [r|] eqn:Hr.
  - destruct (state r) eqn:Hs.
    1-2: by destruct (owner_record_is_active active r).
    + intros [= <- <-]. left. done.
    + destruct (retryable r) eqn:Hret; [|done]. intros H. right.
      exists (delete_operation (artifact_apply_operation_key a) s).
      split_and!; [by right|done|]. intros r' [= <-]. done.
  - intros H. right. exists s. split_and!; [by left|done|done].
Qed.

Lemma reserve_inv active s a o s' rsv :
  db_inv s -> reserve_artifact_apply active s a o = Ok (s', rsv) -> db_inv s'.
Proof.
  intros Hinv [(-> & _)|(s0 & Hs0 & Hacq & _)]%reserve_Ok; [done|].
  eapply acquire_inv; [|exact Hacq]. destruct Hs0 as [->| ->]; [done|by apply delete_operation_inv].
Qed.

Lemma owned_transition_Ok s rec expected next now res err retry release s' r' :
  _owned_transition s rec expected next now res err retry release = Ok (s', r') ->
  exists r, operations s !! operation_key rec = Some r /\ state r = expected /\
    owner_token r = owner_token rec /\ r' = update_row r next now res err retry /\
    operations s' = <[operation_key rec := r']> (operations s).
Proof.
  unfold _owned_transition. destruct (operations s !! operation_key rec) as [r|]; [|done].
  destruct (bool_decide (state r = expected) && _) eqn:E; [|done].
  apply andb_true_iff in E as [Es Et]. apply bool_decide_eq_true in Es. apply String.eqb_eq in Et.
  intros [= <- <-]. exists r. done.
Qed.

Lemma owned_transition_inv s rec expected next now res err retry release s' r' :
  db_inv s -> (expected = RESERVED \/ expected = APPLYING) ->
  (release = false /\ next = APPLYING \/ release = true /\ (next = APPLIED \/ next = OP_FAILED)) ->
  (forall r, operations s !! operation_key rec = Some r -> owner_token r = owner_token rec ->
     resource_key r = resource_key rec) ->
  _owned_transition s rec expected next now res err retry release = Ok (s', r') -> db_inv s'.
Proof.
  intros Hinv Hexp Hmode Hres H.
  destruct (owned_transition_Ok _ _ _ _ _ _ _ _ _ _ _ H) as (r & Hr & Hs & Ht & -> & _).
  specialize (Hres r Hr Ht).
  assert (Hi : incomplete r = true) by (unfold incomplete; rewrite Hs; by destruct Hexp as [->| ->]).
  pose proof (inv_key s Hinv _ _ Hr) as Hk.
  destruct (inv_incomplete s Hinv _ _ Hr Hi) as (l & Hl & Hlk & Hlt).
  unfold _owned_transition in H. rewrite Hr, Hs, bool_decide_eq_true_2, Ht, String.eqb_refl in H by done.
  injection H as <-. destruct Hmode as [[-> ->]|[-> Hnext]].
  - by apply (advance_inv s (operation_key rec) r).
  - rewrite <- Hres, Hl, Hlk, Hlt, Ht, !String.eqb_refl. cbn [andb].
    apply (finish_inv s (operation_key rec) r); try done; [by destruct Hnext as [->| ->]|].
    intros rk l0. split.
    + intros [Hne Hl0]%lookup_delete_Some. split; [done|]. intros He.
      destruct (inv_lease s Hinv rk l0 Hl0) as (r0 & Hr0 & _ & Hrk & _). congruence.
    + intros [Hl0 Hne]. apply lookup_delete_Some. split; [|done]. intros He. congruence.
Qed.

Lemma recover_inv s rec next now res err retry s' :
  db_inv s -> (next = APPLIED \/ next = OP_FAILED) ->
  _recover_terminal s rec next now res err retry = Ok s' -> db_inv s'.
Proof.
  intros Hinv Hnext. unfold _recover_terminal.
  destruct (operations s !! operation_key rec) as [r|] eqn:Hr; [|done].
  destruct (incomplete r); [|done]. intros [= <-].
  apply (finish_inv s (operation_key rec) r); try done.
  - exact (inv_key s Hinv _ _ Hr).
  - by destruct Hnext as [->| ->].
  - apply lookup_delete_leases.
Qed.

Lemma reconcile_one_cases active inspect ev now s r s' x :
  reconcile_one active inspect ev now s r = Ok (s', x) ->
  s' = s \/
  (owner_record_is_active active r = false /\ ev r = true /\
   _recover_terminal s r APPLIED now (Some (recovered_result r)) None false = Ok s') \/
  (owner_record_is_active active r = false /\ ev r = false /\
   (exists hc, inspect (target_repo_path r) = Ok hc /\ unmodified r hc = true) /\
   exists err, _recover_terminal s r OP_FAILED now None (Some err) true = Ok s').
Proof.
  unfold reconcile_one. destruct (owner_record_is_active active r); [by intros [= <- _]; left|].
  destruct (ev r).
  - intros (s1 & Hs1 & [= <- _])%bind_Ok_inv. right. left. done.
  - destruct (inspect (target_repo_path r)) as [hc|e] eqn:Hi; [|by intros [= <- _]; left].
    destruct (unmodified r hc) eqn:Hu; [|by intros [= <- _]; left].
    intros (s1 & Hs1 & [= <- _])%bind_Ok_inv. right. right. split_and!; eauto.
Qed.

Lemma reconcile_one_inv active inspect ev now s r s' x :
  db_inv s -> reconcile_one active inspect ev now s r = Ok (s', x) -> db_inv s'.
Proof.
  intros Hinv [->|[(_ & _ & H)|(_ & _ & _ & err & H)]]%reconcile_one_cases; [done| |];
    (eapply recover_inv; [exact Hinv| |exact H]; auto).
Qed.

(** *** Steps of several processes *)

Lemma record_of_step_reserve active s a o s' rsv :
  db_inv s -> reserve_artifact_apply active s a o = Ok (s', rsv) ->
  operations s' !! operation_key (record rsv) = Some (record rsv) /\
  (forall k r, operations s' !! k = Some r -> operations s !! k = Some r \/ r = record rsv) /\
  (acquired rsv = true -> record rsv = new_row a o) /\
  (acquired rsv = false -> s' = s).
Proof.
  intros Hinv [(-> & Ha & _ & Hr & _)|(s0 & Hs0 & Hacq & _)]%reserve_Ok.
  - rewrite (inv_key s Hinv _ _ Hr). split_and!; [done|by left|congruence|done].
  - apply acquire_Ok in Hacq as (_ & _ & _ & -> & ->). cbn [operations record acquired].
    split_and!; [apply lookup_insert_eq| |done|done].
    intros k r [[_ <-]|[_ Hr]]%lookup_insert_Some; [by right|left].
    destruct Hs0 as [->| ->]; [done|].
    cbn [delete_operation operations] in Hr. by apply lookup_delete_Some in Hr as [_ Hr].
Qed.

Lemma token_inv_same w s' r' :
  token_inv w ->
  (exists r0, r0 ∈ issued w /\ owner_token r0 = owner_token r' /\
     operation_key r0 = operation_key r' /\ resource_key r0 = resource_key r') ->
  (forall k r, operations s' !! k = Some r ->
     operations (w_db w) !! k = Some r \/
     (owner_token r = owner_token r' /\ operation_key r = operation_key r' /\
      resource_key r = resource_key r')) ->
  token_inv (mk_world s' (r' :: issued w)) /\ token_inv (mk_world s' (issued w)).
Proof.
  intros [Hiss Hdb] (r0 & Hin0 & Ht0 & Hk0 & Hr0) Hops.
  assert (Hnew : forall x, x ∈ issued w -> owner_token x = owner_token r' ->
            operation_key x = operation_key r' /\ resource_key x = resource_key r').
  { intros x Hx Hxt. destruct (Hiss x r0 Hx Hin0) as [? ?]; [congruence|]. split; congruence. }
  assert (Hops' : forall k r, operations s' !! k = Some r -> exists y, y ∈ issued w /\
     owner_token y = owner_token r /\ operation_key y = operation_key r /\
     resource_key y = resource_key r).
  { intros k r Hk. destruct (Hops k r Hk) as [Hold|(Ht & Hok & Hres)]; [by apply (Hdb k)|].
    exists r0. split_and!; congruence. }
  split; (split; cbn [issued w_db]; [|]).
  - intros x y [->|Hx]%elem_of_cons [->|Hy]%elem_of_cons Hxy; [done| |by apply Hnew|by apply Hiss].
    destruct (Hnew y Hy (eq_sym Hxy)). split; congruence.
  - intros k r Hk. destruct (Hops' k r Hk) as (y & Hy & Hrest). exists y.
    rewrite elem_of_cons. auto.
  - exact Hiss.
  - exact Hops'.
Qed.

Lemma issued_resource w r rec :
  world_inv w -> rec ∈ issued w -> operations (w_db w) !! operation_key rec = Some r ->
  owner_token r = owner_token rec ->
  resource_key r = resource_key rec /\ operation_key r = operation_key rec.
Proof.
  intros [_ [Hiss Hdb]] Hrec Hr Ht. destruct (Hdb _ _ Hr) as (r0 & Hin & Ht0 & Hk0 & Hr0).
  destruct (Hiss r0 rec Hin Hrec) as [? ?]; [congruence|]. split; congruence.
Qed.

Lemma transition_step_inv w rec expected next now res err retry release s' r' :
  world_inv w -> rec ∈ issued w -> (expected = RESERVED \/ expected = APPLYING) ->
  (release = false /\ next = APPLYING \/ release = true /\ (next = APPLIED \/ next = OP_FAILED)) ->
  _owned_transition (w_db w) rec expected next now res err retry release = Ok (s', r') ->
  db_inv s' /\ token_inv (mk_world s' (r' :: issued w)) /\ token_inv (mk_world s' (issued w)).
Proof.
  intros Hw Hrec Hexp Hmode H. split.
  - eapply owned_transition_inv; [apply Hw|exact Hexp|exact Hmode| |exact H].
    intros r Hr Ht. by apply (issued_resource w).
  - apply owned_transition_Ok in H as (r & Hr & _ & Ht & -> & Hops).
    destruct (issued_resource w r rec Hw Hrec Hr Ht) as [Hres Hk].
    apply (token_inv_same w); [apply Hw| |].
    + exists rec. split_and!; [done|cbn; congruence|cbn; congruence|cbn; congruence].
    + intros k x. rewrite Hops. intros [[_ <-]|[_ Hx]]%lookup_insert_Some; [by right|by left].
Qed.

Lemma op_step_inv w w' : op_step w w' -> world_inv w -> world_inv w'.
Proof.
  intros Hstep Hw. pose proof Hw as [Hinv [Hiss Hdb]].
  destruct Hstep as [active w a o s' rsv Hfresh H|w r acq rep now s' r' Hr H
    |w r acq rep now res s' r' Hr H|inspect w r acq rep now error s' b Hr H
    |active inspect ev w r now s' x H].
  - split; [by eapply reserve_inv|].
    destruct (record_of_step_reserve _ _ _ _ _ _ Hinv H) as (Hrec & Hops & Hacq & Hnacq).
    destruct (acquired rsv) eqn:Ha.
    + rewrite Hacq in * by done. destruct Hfresh as [Hf1 Hf2].
      split; cbn [issued w_db].
      * assert (Hno : forall x, x ∈ issued w -> owner_token x <> owner_token (new_row a o)).
        { intros x Hx He. apply Hf1. cbn in He. rewrite <- He. by apply list_elem_of_fmap_2. }
        intros x y [->|Hx]%elem_of_cons [->|Hy]%elem_of_cons Hxy; [done| | |by apply Hiss].
        -- by destruct (Hno y Hy).
        -- by destruct (Hno x Hx).
      * intros k r Hk. destruct (Hops k r Hk) as [Hold| ->].
        -- destruct (Hdb k r Hold) as (y & Hy & Hrest). exists y. rewrite elem_of_cons. auto.
        -- exists (new_row a o). rewrite elem_of_cons. auto.
    + rewrite Hnacq in * by done. apply (token_inv_same w); [done|by apply (Hdb _ _ Hrec)|].
      intros k r Hk. by left.
  - unfold mark_applying in H. cbn [record] in H.
    apply (transition_step_inv w) in H as (? & ? & _); [done|done|done|by left|by left].
  - unfold mark_applied in H. cbn [record] in H.
    apply (transition_step_inv w) in H as (? & ? & _); [done|done|done|by right|by right; auto].
  - unfold fail_or_preserve_ambiguous in H. cbn [record] in H.
    destruct (operations (w_db w) !! operation_key r) as [r0|]; [|done].
    apply bind_Ok_inv in H as (hc & _ & H). destruct (unmodified r0 hc).
    + apply bind_Ok_inv in H as ([s1 r1] & H & [= <- _]).
      apply (transition_step_inv w) in H as (? & _ & ?); [done|done|done|by right|by right; auto].
    + by injection H as <- _.
  - split; [by eapply reconcile_one_inv|]. split; [done|]. cbn [w_db issued].
    assert (Hrt : forall next res err retry s1,
      _recover_terminal (w_db w) r next now res err retry = Ok s1 ->
      forall k y, operations s1 !! k = Some y -> exists r0, r0 ∈ issued w /\
        owner_token r0 = owner_token y /\ operation_key r0 = operation_key y /\
        resource_key r0 = resource_key y).
    { unfold _recover_terminal. intros next res err retry s1 H1.
      destruct (operations (w_db w) !! operation_key r) as [r0|] eqn:Hr0; [|done].
      destruct (incomplete r0); [|done]. injection H1 as <-. cbn [operations].
      intros k y [[_ <-]|[_ Hy]]%lookup_insert_Some; [|by apply (Hdb k)].
      destruct (Hdb _ _ Hr0) as (y0 & ? & ? & ? & ?). by exists y0. }
    apply reconcile_one_cases in H as [->|[(_ & _ & H)|(_ & _ & _ & err & H)]]; [done| |];
      by eapply Hrt.
Qed.

Lemma empty_world_inv : world_inv empty_world.
Proof. split; [by constructor|]. split; [by intros r r' ?%elem_of_nil|done]. Qed.

Lemma reachable_inv w : star op_step empty_world w -> world_inv w.
Proof.
  intros H. eapply star_invariant; [exact op_step_inv|exact H|exact empty_world_inv].
Qed.

(** An applied operation never changes again. *)
Lemma op_step_applied w w' k r :
  op_step w w' -> world_inv w -> operations (w_db w) !! k = Some r -> state r = APPLIED ->
  operations (w_db w') !! k = Some r.
Proof.
  intros Hstep Hw Hk Hs. pose proof Hw as [Hinv _].
  assert (Htr : forall rec expected next now res err retry release s' r',
    (expected = RESERVED \/ expected = APPLYING) ->
    _owned_transition (w_db w) rec expected next now res err retry release = Ok (s', r') ->
    operations s' !! k = Some r).
  { intros rec expected next now res err retry release s' r' Hexp H.
    apply owned_transition_Ok in H as (r0 & Hr0 & Hs0 & _ & -> & ->).
    rewrite lookup_insert_ne; [done|]. intros <-. rewrite Hk in Hr0. injection Hr0 as <-.
    destruct Hexp; congruence. }
  assert (Hrt : forall rec next now res err retry s1,
      _recover_terminal (w_db w) rec next now res err retry = Ok s1 -> operations s1 !! k = Some r).
  { unfold _recover_terminal. intros rec next now res err retry s1 H1.
    destruct (operations (w_db w) !! operation_key rec) as [r0|] eqn:Hr0; [|done].
    destruct (incomplete r0) eqn:Hi; [|done]. injection H1 as <-. cbn [operations].
    rewrite lookup_insert_ne; [done|]. intros <-. rewrite Hk in Hr0. injection Hr0 as <-.
    unfold incomplete in Hi. by rewrite Hs in Hi. }
  destruct Hstep as [active w a o s' rsv Hfresh H|w rec acq rep now s' r' Hr H
    |w rec acq rep now res s' r' Hr H|inspect w rec acq rep now error s' b Hr H
    |active inspect ev w rec now s' x H]; cbn [w_db] in *.
  - apply reserve_Ok in H as [(-> & _)|(s0 & Hs0 & Hacq & Hold)]; [done|].
    apply acquire_Ok in Hacq as (_ & Hnone & _ & -> & _). cbn [operations].
    assert (Hne : artifact_apply_operation_key a <> k).
    { intros <-. destruct (Hold r Hk) as [? _]. congruence. }
    rewrite lookup_insert_ne by done. destruct Hs0 as [->| ->]; [done|].
    cbn [delete_operation operations]. by rewrite lookup_delete_ne.
  - eapply Htr; [|exact H]. by left.
  - eapply Htr; [|exact H]. by right.
  - unfold fail_or_preserve_ambiguous in H.
    destruct (operations (w_db w) !! operation_key _) as [r0|]; [|done].
    apply bind_Ok_inv in H as (hc & _ & H). destruct (unmodified r0 hc).
    + apply bind_Ok_inv in H as ([s1 r1] & H & [= <- _]). eapply Htr; [|exact H]. by right.
    + by injection H as <- _.
  - apply reconcile_one_cases in H as [->|[(_ & _ & H)|(_ & _ & _ & err & H)]]; eauto.
Qed.

Lemma star_world_inv w w' : star op_step w w' -> world_inv w -> world_inv w'.
Proof. apply star_invariant, op_step_inv. Qed.

Lemma star_applied w w' k r :
  star op_step w w' -> world_inv w -> operations (w_db w) !! k = Some r -> state r = APPLIED ->
  operations (w_db w') !! k = Some r.
Proof.
  induction 1 as [w|w1 w2 w3 H12 _ IH]; intros Hw Hk Hs; [done|].
  apply IH; [by eapply op_step_inv| |done]. by eapply op_step_applied.
Qed.

Lemma incomplete_same_resource s k1 r1 k2 r2 :
  db_inv s -> operations s !! k1 = Some r1 -> operations s !! k2 = Some r2 ->
  incomplete r1 = true -> incomplete r2 = true -> resource_key r1 = resource_key r2 -> k1 = k2.
Proof.
  intros Hinv H1 H2 Hi1 Hi2 Hres.
  destruct (inv_incomplete s Hinv k1 r1 H1 Hi1) as (l1 & Hl1 & Hk1 & _).
  destruct (inv_incomplete s Hinv k2 r2 H2 Hi2) as (l2 & Hl2 & Hk2 & _). congruence.
Qed.

(** After a terminal update nobody can move the operation any more. *)
Lemma terminal_blocks_transition s k r rec expected next now res err retry release :
  operations s !! k = Some r -> incomplete r = false -> operation_key rec = k ->
  expected = RESERVED \/ expected = APPLYING ->
  _owned_transition s rec expected next now res err retry release
    = Raise (OperationConflictError "Operation ownership or state changed.").
Proof.
  intros Hk Hi Hrec Hexp. unfold _owned_transition. rewrite Hrec, Hk.
  unfold incomplete in Hi. rewrite bool_decide_eq_false_2; [done|].
  destruct Hexp as [->| ->]; by destruct (state r).
Qed.

(** A dead owner's incomplete operation on an unmodified repository is released. *)
Lemma reconcile_releases active inspect ev now s r hc :
  operations s !! operation_key r = Some r -> incomplete r = true ->
  owner_record_is_active active r = false -> ev r = false ->
  inspect (target_repo_path r) = Ok hc -> unmodified r hc = true ->
  exists s' x, reconcile_one active inspect ev now s r = Ok (s', x) /\ s' <> s.
Proof.
  intros Hk Hi Ha He Hin Hu. unfold reconcile_one, _recover_terminal.
  rewrite Ha, He, Hin, Hu, Hk, Hi. cbn [mbind result_bind].
  eexists _, _. split; [reflexivity|]. intros Heq.
  apply (f_equal (fun d => operations d !! operation_key r)) in Heq. cbn [operations] in Heq.
  rewrite lookup_insert_eq, Hk in Heq. injection Heq as Heq.
  apply (f_equal incomplete) in Heq. rewrite Hi in Heq. discriminate Heq.
Qed.

Lemma reserve_on_empty active a o :
  reserve_artifact_apply active (mk_db ∅ ∅) a o =
  Ok (mk_db {[operation_key (new_row a o) := new_row a o]}
            {[resource_key (new_row a o) := new_lease a o]},
      mk_reservation (new_row a o) true false).
Proof.
  unfold reserve_artifact_apply, acquire. cbn [operations resource_leases].
  rewrite !lookup_empty, map_to_list_empty. reflexivity.
Qed.

(** A reservation, its use and its completion, then a replay. *)
Lemma cycle_Ok active a o s rsv res now1 now2 :
  reserve_artifact_apply active (mk_db ∅ ∅) a o = Ok (s, rsv) -> wf_json res ->
  exists s1 r1 s2 r2,
    mark_applying s rsv now1 = Ok (s1, r1) /\ state r1 = APPLYING /\
    mark_applied s1 (mk_reservation r1 true false) now2 res = Ok (s2, r2) /\
    state r2 = APPLIED /\ row_result r2 = Some (sort_json res) /\ resource_leases s2 = ∅ /\
    forall active' o', reserve_artifact_apply active' s2 a o' = Ok (s2, mk_reservation r2 false true).
Proof.
  intros H Hwf. apply reserve_Ok in H as [(_ & _ & _ & H & _)|(s0 & Hs0 & Hacq & _)];
    [cbn [operations] in H; by rewrite lookup_empty in H|].
  assert (s0 = mk_db ∅ ∅) as ->.
  { destruct Hs0 as [->| ->]; [done|]. unfold delete_operation, delete_leases_of. cbn [operations resource_leases].
    by rewrite delete_empty, map_filter_empty. }
  apply acquire_Ok in Hacq as (_ & _ & _ & -> & ->).
  set (k := operation_key (new_row a o)). set (row := new_row a o).
  do 4 eexists. split_and!.
  - unfold mark_applying, _owned_transition. cbn [record operations].
    rewrite lookup_insert_eq, String.eqb_refl. reflexivity.
  - done.
  - unfold mark_applied, _owned_transition. cbn [record operations resource_leases].
    rewrite lookup_insert_eq, String.eqb_refl. cbn [update_row resource_key].
    rewrite lookup_insert_eq. cbn [new_lease l_operation_key l_owner_token update_row operation_key owner_token].
    rewrite !String.eqb_refl. reflexivity.
  - done.
  - unfold row_result. cbn [update_row result_json]. apply (loads_dumps true). by apply sort_json_wf.
  - cbn [resource_leases]. by rewrite delete_insert_id.
  - intros active' o'. unfold reserve_artifact_apply. cbn [operations].
    by rewrite lookup_insert_eq.
Qed.

(** ** Theorems *)

(** C32 Mutual exclusion: in every reachable state of the operation store, a
    repository has at most one incomplete operation, and while it has one no
    reservation for that repository is acquired or changes the store. *)
Theorem repository_mutual_exclusion w :
  star op_step empty_world w ->
  (forall k1 r1 k2 r2,
     operations (w_db w) !! k1 = Some r1 -> operations (w_db w) !! k2 = Some r2 ->
     incomplete r1 = true -> incomplete r2 = true ->
     resource_key r1 = resource_key r2 -> k1 = k2) /\
  (forall active a o s' rsv k r,
     operations (w_db w) !! k = Some r -> incomplete r = true ->
     resource_key r = repository_resource_key (a_target_repo a) ->
     reserve_artifact_apply active (w_db w) a o = Ok (s', rsv) ->
     acquired rsv = false /\ s' = w_db w).
Proof.
  intros [Hinv _]%reachable_inv. split; [intros *; by apply incomplete_same_resource|].
  intros active a o s' rsv k r Hk Hi Hres H.
  apply reserve_Ok in H as [(-> & Ha & _)|(s0 & Hs0 & Hacq & Hold)]; [done|exfalso].
  apply acquire_Ok in Hacq as (Hl & _). cbn [new_row resource_key] in Hl.
  destruct (inv_incomplete _ Hinv k r Hk Hi) as (l & Hlr & Hlk & _). rewrite Hres in Hlr.
  destruct Hs0 as [->| ->]; [congruence|]. cbn [delete_operation resource_leases] in Hl.
  assert (delete_leases_of (artifact_apply_operation_key a) (resource_leases (w_db w))
            !! repository_resource_key (a_target_repo a) = Some l) as Hl'.
  { apply lookup_delete_leases. split; [done|]. intros He. rewrite <- Hlk, He in Hk.
    destruct (Hold r Hk) as [Hf _]. unfold incomplete in Hi. by rewrite Hf in Hi. }
  congruence.
Qed.

(** An applied operation stays applied: nothing that happens later changes
    its row, and reserving it again returns the recorded operation as a replay
    without acquiring anything. *)
Theorem applied_operation_is_final w w' a r :
  star op_step empty_world w -> star op_step w w' ->
  operations (w_db w) !! artifact_apply_operation_key a = Some r -> state r = APPLIED ->
  operations (w_db w') !! artifact_apply_operation_key a = Some r /\
  forall active o, reserve_artifact_apply active (w_db w') a o
    = Ok (w_db w', mk_reservation r false true).
Proof.
  intros Hw%reachable_inv Hstar Hk Hs.
  assert (Hk' : operations (w_db w') !! artifact_apply_operation_key a = Some r)
    by by eapply star_applied.
  split; [done|]. intros active o. unfold reserve_artifact_apply. by rewrite Hk', Hs.
Qed.

(** Recovery changes an operation only when its owner is gone, and then only
    to applied, on positive evidence, or to retryable failure, when there is no
    evidence and the repository is clean at the baseline; its leases are gone,
    and the old owner's reservation no longer allows any transition. *)
Theorem recovery_is_conservative active inspect evidence now s r s' x k row :
  reconcile_one active inspect evidence now s r = Ok (s', x) ->
  operation_key r = k -> operations s !! k = Some row -> s' <> s ->
  owner_record_is_active active r = false /\
  (exists row', operations s' !! k = Some row' /\
     ((state row' = APPLIED /\ evidence r = true) \/
      (state row' = OP_FAILED /\ retryable row' = true /\ evidence r = false /\
       exists hc, inspect (target_repo_path r) = Ok hc /\
         fst hc = lower (baseline_commit_sha r) /\ snd hc = true))) /\
  (forall rk l, resource_leases s' !! rk = Some l -> l_operation_key l <> k) /\
  (forall rsv now', operation_key (record rsv) = k ->
     mark_applying s' rsv now' = Raise (OperationConflictError "Operation ownership or state changed.") /\
     forall res, mark_applied s' rsv now' res
       = Raise (OperationConflictError "Operation ownership or state changed.")).
Proof.
  intros H <- Hk Hne.
  assert (Hcommon : forall next res err retry, next = APPLIED \/ next = OP_FAILED ->
    _recover_terminal s r next now res err retry = Ok s' ->
    (exists row', operations s' !! operation_key r = Some row' /\ state row' = next /\
       retryable row' = retry) /\
    (forall rk l, resource_leases s' !! rk = Some l -> l_operation_key l <> operation_key r) /\
    (forall rsv now', operation_key (record rsv) = operation_key r ->
     mark_applying s' rsv now' = Raise (OperationConflictError "Operation ownership or state changed.") /\
     forall res, mark_applied s' rsv now' res
       = Raise (OperationConflictError "Operation ownership or state changed."))).
  { unfold _recover_terminal. rewrite Hk. intros next res err retry Hnext Hr.
    destruct (incomplete row); [|done]. injection Hr as <-.
    set (row' := update_row row next now res err retry).
    assert (Hrow : <[operation_key r := row']> (operations s) !! operation_key r = Some row')
      by apply lookup_insert_eq.
    assert (Hdone : incomplete row' = false) by by destruct Hnext as [->| ->].
    split_and!.
    - by exists row'.
    - by intros rk l [_ ?]%lookup_delete_leases.
    - intros rsv now' Hrec. split; [|intros res'];
        (eapply terminal_blocks_transition; [exact Hrow|exact Hdone|exact Hrec|auto]). }
  apply reconcile_one_cases in H as [->|[(Ha & He & H)|(Ha & He & (hc & Hi & Hu) & err & H)]]; [done| |].
  - apply Hcommon in H as ((row' & Hrow & Hst & _) & Hrest); [|by left].
    split_and!; [done| |apply Hrest|apply Hrest]. exists row'. auto.
  - apply Hcommon in H as ((row' & Hrow & Hst & Hret) & Hrest); [|by right].
    split_and!; [done| |apply Hrest|apply Hrest]. exists row'. split; [done|]. right.
    split_and!; [done|done|done|]. exists hc. split; [done|].
    unfold unmodified in Hu. apply andb_true_iff in Hu as [Hh Hc].
    split; [by apply String.eqb_eq|done].
Qed.

(** The life of an apply: a fresh reservation can be marked applying and then
    applied with a result; the result reads back, the lease is released, and
    every later reservation of the same apply is a replay of that record. *)
Theorem apply_cycle_then_replay active a o s rsv res now1 now2 :
  reserve_artifact_apply active (mk_db ∅ ∅) a o = Ok (s, rsv) -> wf_json res ->
  exists s1 r1 s2 r2,
    mark_applying s rsv now1 = Ok (s1, r1) /\ state r1 = APPLYING /\
    mark_applied s1 (mk_reservation r1 true false) now2 res = Ok (s2, r2) /\
    state r2 = APPLIED /\ row_result r2 = Some (sort_json res) /\ resource_leases s2 = ∅ /\
    forall active' o', reserve_artifact_apply active' s2 a o' = Ok (s2, mk_reservation r2 false true).
Proof. apply cycle_Ok. Qed.

(** *** Concrete runs *)

Definition example_args : apply_args := mk_args "art1" "apr1" "p4tch" "ABC" "/srv/repo".
Definition example_owner : owner := mk_owner "tok1" 42 "start1" 1000.
Definition all_dead (pid : Z) (start : string) : bool := false.

Definition example_world : world :=
  mk_world (mk_db {[operation_key (new_row example_args example_owner) := new_row example_args example_owner]}
                  {[resource_key (new_row example_args example_owner) := new_lease example_args example_owner]})
           [new_row example_args example_owner].

Lemma example_world_step : op_step empty_world example_world.
Proof.
  apply (step_reserve all_dead empty_world example_args example_owner (w_db example_world)
           (mk_reservation (new_row example_args example_owner) true false)).
  - split; [by intros ?%elem_of_nil|].
    intros k r Hk. cbn [empty_world w_db operations] in Hk. by rewrite lookup_empty in Hk.
  - exact (reserve_on_empty all_dead example_args example_owner).
Qed.

Lemma repository_mutual_exclusion_witness :
  (forall k1 r1 k2 r2,
     operations (w_db example_world) !! k1 = Some r1 -> operations (w_db example_world) !! k2 = Some r2 ->
     incomplete r1 = true -> incomplete r2 = true ->
     resource_key r1 = resource_key r2 -> k1 = k2) /\
  (forall active a o s' rsv k r,
     operations (w_db example_world) !! k = Some r -> incomplete r = true ->
     resource_key r = repository_resource_key (a_target_repo a) ->
     reserve_artifact_apply active (w_db example_world) a o = Ok (s', rsv) ->
     acquired rsv = false /\ s' = w_db example_world).
Proof.
  apply (repository_mutual_exclusion example_world).
  eapply star_step; [exact example_world_step|apply star_refl].
Defined.

Lemma applied_operation_is_final_witness :
  exists w r, state r = APPLIED /\
    operations (w_db w) !! artifact_apply_operation_key example_args = Some r /\
    forall active o, reserve_artifact_apply active (w_db w) example_args o
      = Ok (w_db w, mk_reservation r false true).
Proof.
  destruct (cycle_Ok all_dead example_args example_owner _ _ JNull 1001 1002
              (reserve_on_empty all_dead example_args example_owner) wf_null)
    as (s1 & r1 & s2 & r2 & H1 & _ & H2 & Hst & _ & _ & Hre).
  assert (Hk : operations s2 !! artifact_apply_operation_key example_args = Some r2).
  { specialize (Hre all_dead example_owner). apply reserve_Ok in Hre as [(_ & _ & _ & Hk & _)|(s0 & _ & Hacq & _)].
    - exact Hk.
    - apply acquire_Ok in Hacq as (_ & _ & _ & _ & Heq). discriminate Heq. }
  set (w2 := mk_world s1 (r1 :: issued example_world)).
  set (w3 := mk_world s2 (r2 :: issued w2)).
  assert (Hs1 : op_step example_world w2)
    by exact (step_applying example_world (new_row example_args example_owner) true false 1001 s1 r1
                (list_elem_of_here _ _) H1).
  assert (Hs2 : op_step w2 w3)
    by exact (step_applied w2 r1 true false 1002 JNull s2 r2 (list_elem_of_here _ _) H2).
  exists w3, r2. split; [exact Hst|].
  apply (applied_operation_is_final w3 w3 example_args r2);
    [|apply star_refl|exact Hk|exact Hst].
  eapply star_step; [exact example_world_step|].
  eapply star_step; [exact Hs1|]. eapply star_step; [exact Hs2|apply star_refl].
Defined.

Definition clean_at_baseline (path : string) : result op_error (string * bool) := Ok ("abc"%string, true).

Lemma recovery_is_conservative_witness :
  exists s' x row',
    reconcile_one all_dead clean_at_baseline (fun _ => false) 2000 (w_db example_world)
      (new_row example_args example_owner) = Ok (s', x) /\
    owner_record_is_active all_dead (new_row example_args example_owner) = false /\
    operations s' !! artifact_apply_operation_key example_args = Some row' /\
    (state row' = APPLIED /\ false = true \/
     state row' = OP_FAILED /\ retryable row' = true /\ false = false /\
     exists hc, clean_at_baseline "/srv/repo" = Ok hc /\ fst hc = "abc"%string /\ snd hc = true).
Proof.
  set (r := new_row example_args example_owner).
  assert (Hr : operations (w_db example_world) !! operation_key r = Some r)
    by apply lookup_singleton_eq.
  destruct (reconcile_releases all_dead clean_at_baseline (fun _ => false) 2000
              (w_db example_world) r ("abc"%string, true) Hr eq_refl eq_refl eq_refl eq_refl eq_refl)
    as (s' & x & H & Hne).
  destruct (recovery_is_conservative all_dead clean_at_baseline (fun _ => false) 2000
              (w_db example_world) r s' x (operation_key r) r H eq_refl Hr Hne)
    as (Ha & (row' & Hrow & Hcase) & _).
  exists s', x, row'. split; [exact H|]. split; [exact Ha|]. split; [exact Hrow|exact Hcase].
Defined.

Lemma apply_cycle_witness :
  exists s1 r1 s2 r2,
    mark_applying (w_db example_world) (mk_reservation (new_row example_args example_owner) true false) 1001
      = Ok (s1, r1) /\ state r1 = APPLYING /\
    mark_applied s1 (mk_reservation r1 true false) 1002 (JDict [("applied", JBool true)]) = Ok (s2, r2) /\
    state r2 = APPLIED /\ row_result r2 = Some (sort_json (JDict [("applied", JBool true)])) /\
    resource_leases s2 = ∅ /\
    forall active' o', reserve_artifact_apply active' s2 example_args o' = Ok (s2, mk_reservation r2 false true).
Proof.
  apply (apply_cycle_then_replay all_dead example_args example_owner _ _ _ 1001 1002
           (reserve_on_empty all_dead example_args example_owner)).
  constructor; [apply NoDup_singleton|]. repeat constructor.
Defined.
