(* ===== verification/ApprovalQueue.v ===== *)
(** * approval_queue.py: the approval queues

    [InMemoryApprovalQueue] on an insertion-ordered dictionary and
    [SQLiteApprovalQueue] on the rows of its table, each transaction one atomic
    function that returns the table and the outcome.  Building a model object
    from stored JSON is pydantic's work: [load_request] and [load_decision] are
    parameters.  The SQLite queue reloads its cache from the table in [list]
    and [get], so the cache has no state of its own here. *)

From S2P Require Export Approval.

(** ** Definitions *)

Module Queued.
Record t := mk {
  request : ApprovalRequest.t;
  status : ApprovalStatus;
  decision : option ApprovalDecision.t;
}.
Definition approval_id (q : t) : string := ApprovalRequest.approval_id (request q).
End Queued.

Inductive queue_error :=
  | ApprovalNotFoundError (approval_id : string)
  | ApprovalDeniedError (reason : string)
  | ApprovalStateConflictError (reason : string)
  | ApprovalQueueError (text : string)
  | QueueExn (e : exn).                  (* an exception of redaction or pydantic *)

(** *** The in-memory queue *)

Definition items : Type := list (string * Queued.t).

Fixpoint items_get (l : items) (id : string) : option Queued.t :=
  match l with
  | [] => None
  | (k, q) :: l' => if String.eqb k id then Some q else items_get l' id
  end.

Fixpoint items_set (l : items) (id : string) (q : Queued.t) : items :=
  match l with
  | [] => [(id, q)]
  | (k, x) :: l' => if String.eqb k id then (k, q) :: l' else (k, x) :: items_set l' id q
  end.

Definition mem_store_item (l : items) (q : Queued.t) : items := items_set l (Queued.approval_id q) q.

Definition mem_submit (l : items) (r : ApprovalRequest.t) : items :=
  mem_store_item l (Queued.mk r PENDING None).

Definition mem_list (l : items) (st : option ApprovalStatus) : list Queued.t :=
  match st with
  | None => snd <$> l
  | Some st => List.filter (fun q => bool_decide (Queued.status q = st)) (snd <$> l)
  end.

Definition mem_get (l : items) (id : string) : result queue_error Queued.t :=
  match items_get l id with Some q => Ok q | None => Raise (ApprovalNotFoundError id) end.

Definition mem_record_decision (e : AuthorizationEngine.t) (l : items) (id : string)
    (d : ApprovalDecision.t) : result queue_error (items * Queued.t) :=
  item ← mem_get l id;
  if negb (String.eqb (ApprovalDecision.approval_id d) id)
  then Raise (ApprovalQueueError "Approval decision ID does not match the queued request.")
  else
    let transition := validate_transition (Queued.status item) (ApprovalDecision.status d) in
    if negb (Transition.allowed transition)
    then Raise (ApprovalStateConflictError (Transition.reason transition))
    else
      let authorization := authorize e (Queued.request item) d (Queued.status item) in
      if negb (AuthResult.allowed authorization)
      then Raise (ApprovalDeniedError (AuthResult.reason authorization))
      else
        let updated := Queued.mk (Queued.request item) (ApprovalDecision.status d) (Some d) in
        Ok (mem_store_item l updated, updated).

(** The decision [_decide] builds for [approve] and [reject]. *)
Definition decide_decision (id : string) (status : ApprovalStatus) (approved : bool)
    (decided_by reason now : string) : ApprovalDecision.t :=
  ApprovalDecision.mk id status approved (Some decided_by) (Some now)
    (redact_sensitive_string reason) [].

Definition mem_approve e l id decided_by reason now :=
  mem_record_decision e l id (decide_decision id APPROVED true decided_by reason now).

Definition mem_reject e l id decided_by reason now :=
  mem_record_decision e l id (decide_decision id REJECTED false decided_by reason now).

(** *** The SQLite queue *)

Record qrow := mk_qrow {
  q_approval_id : string;
  q_status : ApprovalStatus;
  q_request_json : string;
  q_decision_json : option string;
  q_created_at : string;
  q_updated_at : string;
}.

Definition dump_request (r : ApprovalRequest.t) : pydict :=
  [("approval_id", PStr (ApprovalRequest.approval_id r));
   ("created_at", PStr (ApprovalRequest.created_at r));
   ("trace_id", PStr (ApprovalRequest.trace_id r));
   ("requested_by", PStr (ApprovalRequest.requested_by r));
   ("agent_id", PStr (ApprovalRequest.agent_id r));
   ("environment", PStr (ApprovalRequest.environment r));
   ("tool_name", PStr (ApprovalRequest.tool_name r));
   ("action", of_opt_str (ApprovalRequest.action r));
   ("target", ApprovalRequest.target r);
   ("policy_id", of_opt_str (ApprovalRequest.policy_id r));
   ("reason", PStr (ApprovalRequest.reason r));
   ("severity", PStr (severity_value (ApprovalRequest.severity r)));
   ("risk_assessment", of_dict (ApprovalRequest.risk_assessment r));
   ("metadata", of_dict (ApprovalRequest.metadata r))].

Definition dump_decision (d : ApprovalDecision.t) : pydict :=
  [("approval_id", PStr (ApprovalDecision.approval_id d));
   ("status", PStr (approval_status_value (ApprovalDecision.status d)));
   ("approved", PBool (ApprovalDecision.approved d));
   ("decided_by", of_opt_str (ApprovalDecision.decided_by d));
   ("decided_at", of_opt_str (ApprovalDecision.decided_at d));
   ("reason", PStr (ApprovalDecision.reason d));
   ("metadata", of_dict (ApprovalDecision.metadata d))].

(** [_redacted_model_json] of a dumped model. *)
Definition _redacted_model_json (dump : pydict) : result exn string :=
  payload ← redact_dict dump;
  match to_json (of_dict payload) with
  | Some j => Ok (dumps false (sort_json j))
  | None => Raise (mk_exn TypeError "TypeError" "not JSON serializable")
  end.

Definition _same_terminal_decision (l r : ApprovalDecision.t) : bool :=
  String.eqb (ApprovalDecision.approval_id l) (ApprovalDecision.approval_id r) &&
  bool_decide (ApprovalDecision.status l = ApprovalDecision.status r) &&
  Bool.eqb (ApprovalDecision.approved l) (ApprovalDecision.approved r) &&
  bool_decide (ApprovalDecision.decided_by l = ApprovalDecision.decided_by r) &&
  String.eqb (ApprovalDecision.reason l) (ApprovalDecision.reason r) &&
  py_eq (of_dict (ApprovalDecision.metadata l)) (of_dict (ApprovalDecision.metadata r)).

Definition find_row (rows : list qrow) (id : string) : option qrow :=
  List.find (fun r => String.eqb (q_approval_id r) id) rows.

(** The UPDATE of [record_decision], guarded by the pending status. *)
Definition set_decision (id : string) (status : ApprovalStatus) (json_ now : string) (r : qrow) : qrow :=
  if String.eqb (q_approval_id r) id && bool_decide (q_status r = PENDING)
  then mk_qrow (q_approval_id r) status (q_request_json r) (Some json_) (q_created_at r) now
  else r.

Section SQLite.
Context (load_request : json -> result exn ApprovalRequest.t).
Context (load_decision : json -> result exn ApprovalDecision.t).

Definition json_loads_error : exn := mk_exn ValueError "JSONDecodeError" "Expecting value".

Definition read_with {A} (load : json -> result exn A) (text : string) : result queue_error A :=
  match loads text with
  | Some v => map_err QueueExn (load v)
  | None => Raise (QueueExn json_loads_error)
  end.

Definition read_decision (o : option string) : result queue_error (option ApprovalDecision.t) :=
  match o with
  | None => Ok None
  | Some text => d ← read_with load_decision text; Ok (Some d)
  end.

Definition load_row (r : qrow) : result queue_error Queued.t :=
  request ← read_with load_request (q_request_json r);
  decision ← read_decision (q_decision_json r);
  Ok (Queued.mk request (q_status r) decision).

(** [_load_items]: later rows win on equal ids of the loaded requests. *)
Definition _load_items (rows : list qrow) : result queue_error items :=
  loaded ← mapR load_row rows;
  Ok (fold_left (fun l q => items_set l (Queued.approval_id q) q) loaded []).

Definition sql_get (rows : list qrow) (id : string) : result queue_error Queued.t :=
  l ← _load_items rows; mem_get l id.

Definition sql_list (rows : list qrow) (st : option ApprovalStatus) : result queue_error (list Queued.t) :=
  l ← _load_items rows; Ok (mem_list l st).

(** The table after the call, and what the call returned or raised. *)
Definition sql_submit (rows : list qrow) (r : ApprovalRequest.t) (now : string)
    : list qrow * result queue_error ApprovalRequest.t :=
  match _redacted_model_json (dump_request r) with
  | Raise e => (rows, Raise (QueueExn e))
  | Ok request_json =>
      let after rows' := (rows', (_ ← _load_items rows'; Ok r)) in
      match find_row rows (ApprovalRequest.approval_id r) with
      | Some row =>
          if negb (String.eqb (q_request_json row) request_json)
          then (rows, Raise (ApprovalQueueError "Approval ID is already bound to a different request."))
          else after rows
      | None =>
          after (rows ++ [mk_qrow (ApprovalRequest.approval_id r) PENDING request_json None
                            (ApprovalRequest.created_at r) now])
      end
  end.

Definition sql_record_decision (e : AuthorizationEngine.t) (rows : list qrow) (id : string)
    (d : ApprovalDecision.t) (now : string) : list qrow * result queue_error Queued.t :=
  if negb (String.eqb (ApprovalDecision.approval_id d) id)
  then (rows, Raise (ApprovalQueueError "Approval decision ID does not match the queued request."))
  else
    match find_row rows id with
    | None => (rows, Raise (ApprovalNotFoundError id))
    | Some row =>
        match load_row row with
        | Raise x => (rows, Raise x)
        | Ok current =>
            let request := Queued.request current in
            let current_status := q_status row in
            if negb (bool_decide (current_status = PENDING)) then
              match Queued.decision current with
              | Some current_decision =>
                  if _same_terminal_decision current_decision d
                  then (rows, Ok (Queued.mk request current_status (Some current_decision)))
                  else (rows, Raise (ApprovalStateConflictError
                                "Approval already has a different terminal decision."))
              | None => (rows, Raise (ApprovalStateConflictError
                                "Approval already has a different terminal decision."))
              end
            else
              let transition := validate_transition current_status (ApprovalDecision.status d) in
              if negb (Transition.allowed transition)
              then (rows, Raise (ApprovalStateConflictError (Transition.reason transition)))
              else
                let authorization := authorize e request d current_status in
                if negb (AuthResult.allowed authorization)
                then (rows, Raise (ApprovalDeniedError (AuthResult.reason authorization)))
                else
                  match _redacted_model_json (dump_decision d) with
                  | Raise x => (rows, Raise (QueueExn x))
                  | Ok json_ =>
                      (List.map (set_decision id (ApprovalDecision.status d) json_ now) rows,
                       Ok (Queued.mk request (ApprovalDecision.status d) (Some d)))
                  end
        end
    end.

(** Calls of any number of processes on one table. *)
Inductive queue_step : list qrow -> list qrow -> Prop :=
  | step_submit rows r now : queue_step rows (fst (sql_submit rows r now))
  | step_record e rows id d now : queue_step rows (fst (sql_record_decision e rows id d now)).

(** ** Lemmas *)

Lemma find_row_id rows id row : find_row rows id = Some row -> q_approval_id row = id.
Proof. unfold find_row. intros [_ H]%find_some. by apply String.eqb_eq. Qed.

Lemma find_row_app rows x id row :
  find_row rows id = Some row -> find_row (rows ++ [x]) id = Some row.
Proof.
  unfold find_row. induction rows as [|r rows IH]; cbn; [done|].
  destruct (String.eqb (q_approval_id r) id); [done|apply IH].
Qed.

Lemma find_row_map rows id id' st j now row :
  find_row rows id = Some row ->
  find_row (List.map (set_decision id' st j now) rows) id = Some (set_decision id' st j now row).
Proof.
  unfold find_row. induction rows as [|r rows IH]; cbn; [done|].
  assert (q_approval_id (set_decision id' st j now r) = q_approval_id r) as ->
    by (unfold set_decision; by destruct (_ && _)).
  destruct (String.eqb (q_approval_id r) id); [by intros [= ->]|apply IH].
Qed.

Lemma submit_keeps rows r now id row :
  find_row rows id = Some row -> find_row (fst (sql_submit rows r now)) id = Some row.
Proof.
  unfold sql_submit. intros H. destruct (_redacted_model_json _); [|done].
  destruct (find_row rows (ApprovalRequest.approval_id r)) as [x|];
    [by destruct (negb _)|]. by apply find_row_app.
Qed.

(** How [record_decision] changes a row: not at all, or from pending to the
    decision it accepted. *)
Lemma record_changes e rows id d now id' row :
  find_row rows id' = Some row ->
  find_row (fst (sql_record_decision e rows id d now)) id' = Some row \/
  (id' = id /\ q_status row = PENDING /\
   exists j q, snd (sql_record_decision e rows id d now) = Ok q /\
     Queued.decision q = Some d /\ Queued.status q = ApprovalDecision.status d /\
     AuthResult.allowed (authorize e (Queued.request q) d PENDING) = true /\
     read_with load_request (q_request_json row) = Ok (Queued.request q) /\
     find_row (fst (sql_record_decision e rows id d now)) id'
       = Some (mk_qrow id' (ApprovalDecision.status d) (q_request_json row) (Some j)
                 (q_created_at row) now)).
Proof.
  unfold sql_record_decision. intros H.
  destruct (negb _); [by left|]. destruct (find_row rows id) as [row0|] eqn:Hid; [|by left].
  destruct (load_row row0) as [current|x] eqn:Hload; [|by left].
  destruct (bool_decide (q_status row0 = PENDING)) eqn:Hp; cbn [negb].
  - apply bool_decide_eq_true in Hp. destruct (negb (Transition.allowed _)); [by left|].
    destruct (negb (AuthResult.allowed _)) eqn:Hauth; [by left|].
    destruct (_redacted_model_json _) as [j|x]; [|by left]. cbn [fst snd].
    destruct (decide (id' = id)) as [->|Hne].
    + right. rewrite Hid in H. injection H as <-. rewrite Hp in *.
      split_and!; [done|done|]. exists j. eexists. split; [reflexivity|].
      cbn [Queued.decision Queued.status Queued.request]. apply negb_false_iff in Hauth.
      split_and!; [done|done|done| |].
      * unfold load_row in Hload. apply bind_Ok_inv in Hload as (q & Hq & Hload).
        apply bind_Ok_inv in Hload as (dd & _ & [= <-]). exact Hq.
      * rewrite (find_row_map _ _ _ _ _ _ _ Hid). f_equal. unfold set_decision.
        apply find_row_id in Hid. by rewrite Hid, String.eqb_refl, Hp.
    + left. rewrite (find_row_map _ _ _ _ _ _ _ H). f_equal. unfold set_decision.
      apply find_row_id in H. rewrite H. by rewrite (proj2 (String.eqb_neq id' id)).
  - destruct (Queued.decision current) as [cd|]; [|by left].
    by destruct (_same_terminal_decision cd d); left.
Qed.

Lemma queue_step_terminal rows rows' id row :
  queue_step rows rows' -> find_row rows id = Some row -> q_status row <> PENDING ->
  find_row rows' id = Some row.
Proof.
  intros Hstep H Hne. destruct Hstep as [rows r now|e rows id' d now].
  - by apply submit_keeps.
  - by destruct (record_changes e rows id' d now id row H) as [?|(_ & Hp & _)].
Qed.

Lemma queue_star_terminal rows rows' id row :
  star queue_step rows rows' -> find_row rows id = Some row -> q_status row <> PENDING ->
  find_row rows' id = Some row.
Proof.
  induction 1 as [|r1 r2 r3 Hs _ IH]; intros H Hne; [done|].
  apply IH; [|done]. by eapply queue_step_terminal.
Qed.
End SQLite.

Lemma items_get_set_eq l id q : items_get (items_set l id q) id = Some q.
Proof.
  induction l as [|[k x] l IH]; cbn; [by rewrite String.eqb_refl|].
  destruct (String.eqb k id) eqn:E; cbn; by rewrite E.
Qed.

Lemma items_get_set_ne l id id' q : id <> id' -> items_get (items_set l id q) id' = items_get l id'.
Proof.
  intros Hne. induction l as [|[k x] l IH]; cbn.
  - by rewrite (proj2 (String.eqb_neq id id')).
  - destruct (String.eqb_spec k id) as [->|Hk]; cbn.
    + by rewrite (proj2 (String.eqb_neq id id')).
    + by rewrite IH.
Qed.

Lemma mem_record_Ok e l id d l' q :
  mem_record_decision e l id d = Ok (l', q) ->
  exists item, items_get l id = Some item /\ Queued.status item = PENDING /\
    ApprovalDecision.approval_id d = id /\
    AuthResult.allowed (authorize e (Queued.request item) d PENDING) = true /\
    q = Queued.mk (Queued.request item) (ApprovalDecision.status d) (Some d) /\
    l' = mem_store_item l q.
Proof.
  unfold mem_record_decision, mem_get.
  destruct (items_get l id) as [item|]; [|done]. cbn [mbind result_bind].
  destruct (String.eqb_spec (ApprovalDecision.approval_id d) id) as [He|]; [|done]. cbn [negb].
  destruct (Transition.allowed _) eqn:Ht; [|done]. cbn [negb].
  apply validate_transition_allowed in Ht as [Hp _].
  destruct (AuthResult.allowed _) eqn:Ha; [|done]. intros [= <- <-].
  rewrite Hp in Ha. exists item. auto 10.
Qed.

(** *** A reader of stored models *)

Definition field_str (d : jdict) (k : string) : string :=
  match jget d k with Some (JStr s) => s | _ => "" end.

Definition field_opt (d : jdict) (k : string) : option string :=
  match jget d k with Some (JStr s) => Some s | _ => None end.

Fixpoint json_value (v : json) : pyval :=
  match v with
  | JNull => PNone | JBool b => PBool b | JInt z => PInt z | JFloat t => PFloat 0 0 t
  | JStr s => PStr s | JList l => PList (List.map json_value l)
  | JDict d => PDict (List.map (fun kv => match kv with (k, x) => (PStr k, json_value x) end) d)
  end.

Definition field_dict (d : jdict) (k : string) : pydict :=
  match jget d k with
  | Some (JDict m) => List.map (fun kv => (fst kv, json_value (snd kv))) m
  | _ => [] end.

Definition severity_of (s : string) : Severity :=
  if String.eqb s "critical" then SevCritical else if String.eqb s "high" then SevHigh
  else if String.eqb s "medium" then SevMedium else SevLow.

Definition status_of (s : string) : ApprovalStatus :=
  if String.eqb s "approved" then APPROVED else if String.eqb s "rejected" then REJECTED else PENDING.

Definition plain_load_request (v : json) : result exn ApprovalRequest.t :=
  match v with
  | JDict d =>
      Ok (ApprovalRequest.mk (field_str d "approval_id") (field_str d "created_at")
            (field_str d "trace_id") (field_str d "requested_by") (field_str d "agent_id")
            (field_str d "environment") (field_str d "tool_name") (field_opt d "action")
            (json_value (default JNull (jget d "target"))) (field_opt d "policy_id")
            (field_str d "reason") (severity_of (field_str d "severity"))
            (field_dict d "risk_assessment") (field_dict d "metadata"))
  | _ => Raise json_loads_error
  end.

Definition plain_load_decision (v : json) : result exn ApprovalDecision.t :=
  match v with
  | JDict d =>
      Ok (ApprovalDecision.mk (field_str d "approval_id") (status_of (field_str d "status"))
            (match jget d "approved" with Some (JBool b) => b | _ => false end)
            (field_opt d "decided_by") (field_opt d "decided_at") (field_str d "reason")
            (field_dict d "metadata"))
  | _ => Raise json_loads_error
  end.

Definition no_permissions : AuthorizationEngine.t := AuthorizationEngine.mk ∅ ∅.

Definition example_rows : list qrow :=
  fst (sql_submit plain_load_request plain_load_decision [] example_request "2026").

(** ** Theorems *)

(** A decided row of the SQLite queue never changes: after any sequence of
    submissions and decisions its row is the one that was there. *)
Theorem terminal_decision_is_final load_request load_decision rows rows' id row :
  star (queue_step load_request load_decision) rows rows' ->
  find_row rows id = Some row -> q_status row <> PENDING ->
  find_row rows' id = Some row.
Proof. apply queue_star_terminal. Qed.

Lemma terminal_decision_witness :
  exists rows row,
    find_row rows "apr_1" = Some row /\ q_status row = APPROVED /\
    find_row (fst (sql_record_decision plain_load_request plain_load_decision no_permissions rows
                     "apr_1" (decide_decision "apr_1" REJECTED false "carol" "no" "2028") "2028"))
      "apr_1" = Some row.
Proof.
  pose (rows := fst (sql_record_decision plain_load_request plain_load_decision no_permissions
                       example_rows "apr_1" (decide_decision "apr_1" APPROVED true "bob" "ok" "2027")
                       "2027")).
  destruct (find_row rows "apr_1") as [row|] eqn:E; [|vm_compute in E; discriminate E].
  exists rows, row. split; [exact E|].
  assert (Hs : q_status row = APPROVED) by (vm_compute in E; injection E as <-; reflexivity).
  split; [exact Hs|].
  apply (terminal_decision_is_final plain_load_request plain_load_decision rows _ "apr_1" row);
    [|exact E|rewrite Hs; discriminate].
  eapply star_step; [|apply star_refl]. apply step_record.
Defined.

(** A decision the SQLite queue records for a pending request is terminal,
    is the decision given, belongs to a reviewer entitled to it when it
    approves, and the stored row keeps the request and has the new status. *)
Theorem recorded_decision_is_authorized load_request load_decision e rows id d now rows' q row :
  sql_record_decision load_request load_decision e rows id d now = (rows', Ok q) ->
  find_row rows id = Some row -> q_status row = PENDING ->
  Queued.decision q = Some d /\ Queued.status q = ApprovalDecision.status d /\
  (ApprovalDecision.status d = APPROVED \/ ApprovalDecision.status d = REJECTED) /\
  (ApprovalDecision.status d = APPROVED ->
   exists reviewer, ApprovalDecision.decided_by d = Some reviewer /\
     reviewer_entitled e (Queued.request q) d reviewer) /\
  exists row', find_row rows' id = Some row' /\ q_status row' = ApprovalDecision.status d /\
    q_request_json row' = q_request_json row.
Proof.
  intros H Hrow Hp.
  assert (Hq : Queued.decision q = Some d /\ Queued.status q = ApprovalDecision.status d /\
    AuthResult.allowed (authorize e (Queued.request q) d PENDING) = true /\
    exists j, find_row rows' id = Some (mk_qrow id (ApprovalDecision.status d) (q_request_json row)
                                      (Some j) (q_created_at row) now)).
  { destruct (record_changes load_request load_decision e rows id d now id row Hrow)
      as [Hsame|(_ & _ & j & q' & Hok & Hd & Hs & Ha & _ & Hf)]; rewrite H in *; cbn [fst snd] in *.
    - exfalso. revert H. unfold sql_record_decision. rewrite Hrow.
      destruct (negb _); [done|]. destruct (load_row _ _ row) as [c|]; [|done].
      rewrite bool_decide_eq_true_2 by done. cbn [negb].
      destruct (negb (Transition.allowed _)) eqn:Ht; [done|].
      destruct (negb (AuthResult.allowed _)); [done|].
      destruct (_redacted_model_json _) as [j|]; [|done]. intros [= <- _].
      rewrite (find_row_map _ _ _ _ _ _ _ Hrow) in Hsame. injection Hsame as Hsame.
      apply negb_false_iff, validate_transition_allowed in Ht as [_ Hst].
      unfold set_decision in Hsame. apply find_row_id in Hrow.
      rewrite Hrow, String.eqb_refl, Hp in Hsame. cbn in Hsame.
      apply (f_equal q_status) in Hsame. rewrite Hp, bool_decide_eq_true_2 in Hsame by done.
      cbn in Hsame. destruct Hst as [Hst|Hst]; congruence.
    - injection Hok as ->. eauto. }
  destruct Hq as (Hd & Hs & Ha & j & Hf).
  split_and!; [done|done| | |by eexists].
  - unfold authorize in Ha. destruct (Transition.allowed _) eqn:Ht; [|done].
    by apply validate_transition_allowed in Ht as [_ ?].
  - intros Hst. by apply authorize_approved in Ha as [_ ?].
Qed.

Lemma recorded_decision_witness :
  let d := decide_decision "apr_1" APPROVED true "bob" "ok" "2027" in
  match sql_record_decision plain_load_request plain_load_decision no_permissions example_rows
          "apr_1" d "2027", find_row example_rows "apr_1" with
  | (rows', Ok q), Some row =>
      Queued.decision q = Some d /\ Queued.status q = ApprovalDecision.status d /\
      (ApprovalDecision.status d = APPROVED \/ ApprovalDecision.status d = REJECTED) /\
      (ApprovalDecision.status d = APPROVED ->
       exists reviewer, ApprovalDecision.decided_by d = Some reviewer /\
         reviewer_entitled no_permissions (Queued.request q) d reviewer) /\
      exists row', find_row rows' "apr_1" = Some row' /\ q_status row' = ApprovalDecision.status d /\
        q_request_json row' = q_request_json row
  | _, _ => False
  end.
Proof.
  intros d.
  destruct (sql_record_decision plain_load_request plain_load_decision no_permissions example_rows
              "apr_1" d "2027") as [rows' [q|x]] eqn:E;
    [|vm_compute in E; discriminate E].
  destruct (find_row example_rows "apr_1") as [row|] eqn:F; [|vm_compute in F; discriminate F].
  apply (recorded_decision_is_authorized plain_load_request plain_load_decision no_permissions
           example_rows "apr_1" d "2027" rows' q row E F).
  vm_compute in F. injection F as <-. reflexivity.
Defined.

(** Submitting a decided request again to the in-memory queue puts it back
    to pending and drops its decision, where the SQLite queue refuses. *)
Theorem memory_resubmission_reopens e l id d l' q :
  mem_record_decision e l id d = Ok (l', q) ->
  (forall k item, items_get l k = Some item -> Queued.approval_id item = k) ->
  mem_get l' id = Ok q /\ Queued.status q <> PENDING /\
  mem_get (mem_submit l' (Queued.request q)) id = Ok (Queued.mk (Queued.request q) PENDING None).
Proof.
  intros (item & Hg & Hp & Hid & Ha & -> & ->)%mem_record_Ok Hkeys.
  assert (Hk : ApprovalRequest.approval_id (Queued.request item) = id) by apply (Hkeys id item Hg).
  unfold mem_get, mem_submit, mem_store_item, Queued.approval_id. cbn [Queued.request].
  rewrite Hk, !items_get_set_eq. split_and!; [done| |done].
  unfold authorize in Ha. cbn [Queued.status].
  destruct (Transition.allowed _) eqn:Ht; [|done].
  apply validate_transition_allowed in Ht as [_ [->| ->]]; done.
Qed.

Lemma memory_resubmission_witness :
  let l := mem_submit [] example_request in
  match mem_reject no_permissions l "apr_1" "bob" "no" "2027" with
  | Ok (l', q) =>
      mem_get l' "apr_1" = Ok q /\ Queued.status q <> PENDING /\
      mem_get (mem_submit l' (Queued.request q)) "apr_1"
        = Ok (Queued.mk (Queued.request q) PENDING None)
  | Raise _ => False
  end.
Proof.
  intros l. destruct (mem_reject no_permissions l "apr_1" "bob" "no" "2027") as [[l' q]|x] eqn:E;
    [|vm_compute in E; discriminate E].
  unfold mem_reject in E.
  apply (memory_resubmission_reopens no_permissions l "apr_1" _ l' q E).
  intros k item. cbn [l mem_submit mem_store_item Queued.approval_id Queued.request
    items_set items_get ApprovalRequest.approval_id example_request].
  destruct (String.eqb_spec "apr_1" k) as [<-|]; [intros [= <-]; reflexivity|discriminate].
Defined.

(** The durable queue refuses to reopen: resubmission of the same request is
    idempotent. *)
Example sqlite_resubmission_is_idempotent :
  fst (sql_submit plain_load_request plain_load_decision example_rows example_request "2030")
    = example_rows.
Proof. vm_compute. reflexivity. Qed.

(** The SQLite queue stores a decision with its secrets redacted but compares
    a retry with the unredacted one: the identical retry of a decision whose
    reason holds a secret is reported as a different decision. *)
Theorem retried_secret_decision_conflicts :
  let d := ApprovalDecision.mk "apr_1" APPROVED true (Some "bob"%string) (Some "2027"%string)
             "token=abc123" [] in
  let '(rows, first) := sql_record_decision plain_load_request plain_load_decision no_permissions
                          example_rows "apr_1" d "2027" in
  let '(_, second) := sql_record_decision plain_load_request plain_load_decision no_permissions
                        rows "apr_1" d "2028" in
  is_ok first = true /\
  second = Raise (ApprovalStateConflictError "Approval already has a different terminal decision.").
Proof. vm_compute. auto. Qed.
