(* ===== verification/PatchDiff.v ===== *)
(** * Guarded patches

    The data the guarded pipeline passes around: [PatchDiff] and
    [PatchFileDiff] (patch_diff.py), [ChangedFileKind] and
    [IgnoredChangedFile] (changed_files.py), and the mode lines of the raw
    patch, [parse_git_patch_modes]. *)

From Stdlib Require Import Sorting.Sorted.
From S2P Require Export PyValue RepoPath Shlex Json.

(** ** Definitions *)

Inductive ChangedFileKind :=
  | ADDED | MODIFIED | DELETED | RENAMED | MODE_CHANGED | UNTRACKED.

Definition kind_value (k : ChangedFileKind) : string :=
  match k with
  | ADDED => "added" | MODIFIED => "modified" | DELETED => "deleted"
  | RENAMED => "renamed" | MODE_CHANGED => "mode_changed" | UNTRACKED => "untracked"
  end.

(** [ChangedFileKind(text)]; [None] is its [ValueError]. *)
Definition kind_of_value (s : string) : option ChangedFileKind :=
  find (fun k => String.eqb (kind_value k) s)
    [ADDED; MODIFIED; DELETED; RENAMED; MODE_CHANGED; UNTRACKED].

Inductive IgnoredFileReason := GENERATED_OR_HEAVY_PATH.

Definition ignored_reason_value (r : IgnoredFileReason) : string :=
  match r with GENERATED_OR_HEAVY_PATH => "generated_or_heavy_path" end.

Definition ignored_reason_of_value (s : string) : option IgnoredFileReason :=
  if String.eqb s "generated_or_heavy_path" then Some GENERATED_OR_HEAVY_PATH else None.

#[export] Instance ChangedFileKind_eq_dec : EqDecision ChangedFileKind.
Proof. solve_decision. Defined.
#[export] Instance IgnoredFileReason_eq_dec : EqDecision IgnoredFileReason.
Proof. solve_decision. Defined.

Module IgnoredChangedFile.
Record t := mk {
  path : string;
  reason : IgnoredFileReason;
}.
End IgnoredChangedFile.

Module PatchFileDiff.
Record t := mk {
  path : string;
  kind : ChangedFileKind;
  additions : option Z;
  deletions : option Z;
  binary : bool;
  old_path : option string;
  old_mode : option string;
  new_mode : option string;
  mode_changed : bool;
}.

Definition of_opt_int (o : option Z) : pyval :=
  match o with Some z => PInt z | None => PNone end.

Definition audit_summary (f : t) : pydict :=
  [("path", PStr (path f)); ("old_path", of_opt_str (old_path f));
   ("kind", PStr (kind_value (kind f))); ("additions", of_opt_int (additions f));
   ("deletions", of_opt_int (deletions f)); ("binary", PBool (binary f));
   ("old_mode", of_opt_str (old_mode f)); ("new_mode", of_opt_str (new_mode f));
   ("mode_changed", PBool (mode_changed f))]%string.
End PatchFileDiff.

#[export] Instance IgnoredChangedFile_eq_dec : EqDecision IgnoredChangedFile.t.
Proof. solve_decision. Defined.
#[export] Instance PatchFileDiff_eq_dec : EqDecision PatchFileDiff.t.
Proof. solve_decision. Defined.

Module PatchDiff.
Record t := mk {
  workspace_path : string;
  baseline_commit_sha : string;
  patch : string;
  patch_sha256 : string;
  patch_size_bytes : Z;
  files : list PatchFileDiff.t;
  ignored_files : list IgnoredChangedFile.t;
}.

Definition changed_file_count (d : t) : Z := Z.of_nat (List.length (files d)).
Definition ignored_file_count (d : t) : Z := Z.of_nat (List.length (ignored_files d)).

(** [sum(...)] *)
Definition zsum (l : list Z) : Z := fold_left Z.add l 0%Z.

(** [file.additions or 0] *)
Definition total_additions (d : t) : Z :=
  zsum (List.map (fun f => default 0%Z (PatchFileDiff.additions f)) (files d)).
Definition total_deletions (d : t) : Z :=
  zsum (List.map (fun f => default 0%Z (PatchFileDiff.deletions f)) (files d)).
Definition binary_file_count (d : t) : Z :=
  Z.of_nat (List.length (List.filter PatchFileDiff.binary (files d))).

Definition audit_summary (d : t) : pydict :=
  [("workspace_path", PStr (workspace_path d)); ("baseline_commit_sha", PStr (baseline_commit_sha d));
   ("patch_sha256", PStr (patch_sha256 d)); ("patch_size_bytes", PInt (patch_size_bytes d));
   ("changed_file_count", PInt (changed_file_count d)); ("ignored_file_count", PInt (ignored_file_count d));
   ("total_additions", PInt (total_additions d)); ("total_deletions", PInt (total_deletions d));
   ("binary_file_count", PInt (binary_file_count d));
   ("files", PTuple (List.map (fun f => of_dict (PatchFileDiff.audit_summary f)) (files d)));
   ("ignored_paths", PTuple (List.map (fun f => PStr (IgnoredChangedFile.path f)) (ignored_files d)))]%string.
End PatchDiff.

(** [str.removeprefix] *)
Definition removeprefix (s p : string) : string :=
  if startswith s p then drop_chars (String.length p) s else s.

(** [sorted(set(l))] *)
Definition sorted_set (l : list string) : list string :=
  List.map fst (sort_by_key (List.map (fun x => (x, tt)) (fromkeys l))).

(** [sorted(l)] by a total preorder. *)
Fixpoint insert_by {A} (leb : A -> A -> bool) (x : A) (l : list A) : list A :=
  match l with
  | [] => [x]
  | y :: l' => if leb x y then x :: l else y :: insert_by leb x l'
  end.

Definition sort_by {A} (leb : A -> A -> bool) (l : list A) : list A :=
  fold_right (insert_by leb) [] l.

(** *** [parse_git_patch_modes] *)

Record mode_metadata := mk_modes {
  m_old_mode : option string;
  m_new_mode : option string;
  m_mode_changed : bool;
}.

(** [_strip_git_patch_prefix] *)
Definition _strip_git_patch_prefix (path : string) : result path_error (option string) :=
  if String.eqb path "/dev/null" then Ok None
  else
    let path := if startswith path "a/" || startswith path "b/"
                then drop_chars 2 path else path in
    normalized ← normalize_repo_relative_path path; Ok (Some normalized).

Inductive patch_error :=
  | InvalidPatchHeader (line : string)
  | PatchPathError (e : path_error).

(** [_parse_diff_git_paths] *)
Definition _parse_diff_git_paths (line : string)
    : result patch_error (option string * option string) :=
  match shlex_split line with
  | Some (_ :: _ :: old :: new :: _) =>
      old_path ← map_err PatchPathError (_strip_git_patch_prefix old);
      new_path ← map_err PatchPathError (_strip_git_patch_prefix new);
      Ok (old_path, new_path)
  | _ => Raise (InvalidPatchHeader line)
  end.

(** The loop's variables: the finished map in insertion order, and
    [current_path], [old_mode], [new_mode]. *)
Record mode_state := mk_mode_state {
  ms_modes : list (string * mode_metadata);
  ms_path : option string;
  ms_old : option string;
  ms_new : option string;
}.

(** [d[key] = v] on a dictionary kept as an association list. *)
Fixpoint assoc_set {A} (d : list (string * A)) (key : string) (v : A) : list (string * A) :=
  match d with
  | [] => [(key, v)]
  | (k, w) :: d' => if String.eqb k key then (k, v) :: d' else (k, w) :: assoc_set d' key v
  end.

Fixpoint assoc_get {A} (d : list (string * A)) (key : string) : option A :=
  match d with
  | [] => None
  | (k, v) :: d' => if String.eqb k key then Some v else assoc_get d' key
  end.

(** [bool(old_mode and new_mode and old_mode != new_mode)] *)
Definition modes_differ (old new : option string) : bool :=
  match old, new with
  | Some o, Some n => truthy o && truthy n && negb (String.eqb o n)
  | _, _ => false
  end.

Definition flush_current_file (st : mode_state) : list (string * mode_metadata) :=
  match ms_path st with
  | None => ms_modes st
  | Some path =>
      match ms_old st, ms_new st with
      | None, None => ms_modes st
      | old, new => assoc_set (ms_modes st) path (mk_modes old new (modes_differ old new))
      end
  end.

Definition mode_line (st : mode_state) (line : string) : result patch_error mode_state :=
  if startswith line "diff --git " then
    let modes := flush_current_file st in
    paths ← _parse_diff_git_paths line;
    Ok (mk_mode_state modes (snd paths) None None)
  else
    match ms_path st with
    | None => Ok st
    | Some path =>
        if startswith line "new file mode " then
          Ok (mk_mode_state (ms_modes st) (ms_path st) (ms_old st)
                (Some (strip (removeprefix line "new file mode "))))
        else if startswith line "deleted file mode " then
          Ok (mk_mode_state (ms_modes st) (ms_path st)
                (Some (strip (removeprefix line "deleted file mode "))) (ms_new st))
        else if startswith line "old mode " then
          Ok (mk_mode_state (ms_modes st) (ms_path st)
                (Some (strip (removeprefix line "old mode "))) (ms_new st))
        else if startswith line "new mode " then
          Ok (mk_mode_state (ms_modes st) (ms_path st) (ms_old st)
                (Some (strip (removeprefix line "new mode "))))
        else Ok st
    end.

Fixpoint mode_lines (st : mode_state) (lines : list string) : result patch_error mode_state :=
  match lines with
  | [] => Ok st
  | line :: lines' => st' ← mode_line st line; mode_lines st' lines'
  end.

Definition parse_git_patch_modes (patch : string)
    : result patch_error (list (string * mode_metadata)) :=
  st ← mode_lines (mk_mode_state [] None None None) (splitlines patch);
  Ok (flush_current_file st).

(** *** Lines of the patch texts used in examples *)

Definition newline : string := String (ascii_of_N 10) "".

Definition patch_text (lines : list string) : string :=
  fold_right (fun l acc => l +++ newline +++ acc) "" lines.

(** ** Lemmas *)

Lemma kind_of_value_value k : kind_of_value (kind_value k) = Some k.
Proof. by destruct k. Qed.

Lemma ignored_reason_of_value_value r : ignored_reason_of_value (ignored_reason_value r) = Some r.
Proof. by destruct r. Qed.

Lemma assoc_get_set_eq {A} (d : list (string * A)) k v : assoc_get (assoc_set d k v) k = Some v.
Proof.
  induction d as [|[k' w] d IH]; cbn; [by rewrite String.eqb_refl|].
  destruct (String.eqb k' k) eqn:E; cbn; by rewrite E.
Qed.

Lemma assoc_get_set_ne {A} (d : list (string * A)) k k' v :
  k <> k' -> assoc_get (assoc_set d k v) k' = assoc_get d k'.
Proof.
  intros Hne. induction d as [|[k0 w] d IH]; cbn.
  - by rewrite (proj2 (String.eqb_neq k k') Hne).
  - destruct (String.eqb_spec k0 k) as [->|]; cbn.
    + by rewrite (proj2 (String.eqb_neq k k') Hne).
    + by rewrite IH.
Qed.

Lemma sorted_set_elem_of l x : x ∈ sorted_set l <-> x ∈ l.
Proof.
  unfold sorted_set. rewrite (list_elem_of_fmap fst), <- fromkeys_elem_of.
  setoid_rewrite (sort_by_key_perm _). split.
  - intros ([y u] & -> & (z & [= -> ->] & Hz)%list_elem_of_fmap). exact Hz.
  - intros Hx. exists (x, tt). split; [done|]. by apply list_elem_of_fmap_2 with (f := fun z => (z, tt)).
Qed.

Lemma insert_by_perm {A} (leb : A -> A -> bool) x l : Permutation (insert_by leb x l) (x :: l).
Proof.
  induction l as [|y l IH]; cbn; [done|]. destruct (leb x y); [done|].
  rewrite IH. apply perm_swap.
Qed.

Lemma sort_by_perm {A} (leb : A -> A -> bool) l : Permutation (sort_by leb l) l.
Proof. induction l as [|x l IH]; cbn; [done|]. by rewrite insert_by_perm, IH. Qed.

Lemma insert_by_sorted {A} (leb : A -> A -> bool) x l :
  (forall a b, leb a b = true \/ leb b a = true) ->
  Sorted (fun a b => leb a b = true) l -> Sorted (fun a b => leb a b = true) (insert_by leb x l).
Proof.
  intros Ht. induction 1 as [|y l Hl IH Hy]; cbn; [by repeat constructor|].
  destruct (leb x y) eqn:E; [by repeat constructor|].
  constructor; [done|]. destruct l as [|z l]; cbn in *.
  - constructor. by destruct (Ht x y) as [H|H]; [rewrite H in E|].
  - inversion Hy; subst. destruct (leb x z); constructor; [|done].
    by destruct (Ht x y) as [H'|H']; [rewrite H' in E|].
Qed.

Lemma sort_by_sorted {A} (leb : A -> A -> bool) l :
  (forall a b, leb a b = true \/ leb b a = true) -> Sorted (fun a b => leb a b = true) (sort_by leb l).
Proof. intros Ht. induction l as [|x l IH]; cbn; [constructor|]. by apply insert_by_sorted. Qed.

Lemma zsum_acc l a : fold_left Z.add l a = (a + PatchDiff.zsum l)%Z.
Proof.
  unfold PatchDiff.zsum. revert a. induction l as [|x l IH]; intros a; cbn [fold_left]; [lia|].
  rewrite (IH (a + x)%Z), (IH (0 + x)%Z). lia.
Qed.

Lemma zsum_cons x l : PatchDiff.zsum (x :: l) = (x + PatchDiff.zsum l)%Z.
Proof. unfold PatchDiff.zsum at 1. cbn. by rewrite zsum_acc. Qed.

#[export] Hint Rewrite kind_of_value_value ignored_reason_of_value_value @assoc_get_set_eq : rygnal.

Example modes_example :
  parse_git_patch_modes (patch_text
    ["diff --git a/run.sh b/run.sh"; "old mode 100644"; "new mode 100755";
     "diff --git a/link b/link"; "new file mode 120000"; "+++ b/link"; "+target"]%string)
  = Ok [("run.sh", mk_modes (Some "100644") (Some "100755") true);
        ("link", mk_modes None (Some "120000") false)]%string.
Proof. vm_compute. reflexivity. Qed.
