(* ===== verification/Dependency.v ===== *)
(** * Dependency governance

    dependency_governance.py: which changed paths are dependency files, how
    they are grouped into workspaces by directory, ecosystem and toolchain,
    and what the resulting plan requires. *)

From S2P Require Export PatchDiff.

(** ** Definitions *)

Inductive DependencyFileKind := MANIFEST | LOCKFILE | PRIVATE_REGISTRY_CONFIG.
Inductive EcosystemKind := PYTHON | NODE.
Inductive ToolchainKind :=
  | PYTHON_PYPROJECT | PYTHON_REQUIREMENTS | PYTHON_PIPENV | NODE_NPM | NODE_YARN | NODE_PNPM.

#[export] Instance DependencyFileKind_eq_dec : EqDecision DependencyFileKind.
Proof. solve_decision. Defined.
#[export] Instance EcosystemKind_eq_dec : EqDecision EcosystemKind.
Proof. solve_decision. Defined.
#[export] Instance ToolchainKind_eq_dec : EqDecision ToolchainKind.
Proof. solve_decision. Defined.

Definition ecosystem_value (e : EcosystemKind) : string :=
  match e with PYTHON => "python" | NODE => "node" end.

Definition toolchain_value (t : ToolchainKind) : string :=
  match t with
  | PYTHON_PYPROJECT => "python_pyproject" | PYTHON_REQUIREMENTS => "python_requirements"
  | PYTHON_PIPENV => "python_pipenv" | NODE_NPM => "node_npm" | NODE_YARN => "node_yarn"
  | NODE_PNPM => "node_pnpm"
  end.

Module DependencyFileChange.
Record t := mk {
  path : string;
  directory : string;
  ecosystem : EcosystemKind;
  toolchain : ToolchainKind;
  kind : DependencyFileKind;
}.
End DependencyFileChange.

Module WorkspaceDependencyTarget.
Record t := mk {
  directory : string;
  ecosystem : EcosystemKind;
  toolchain : ToolchainKind;
  manifests : list string;
  lockfiles : list string;
  private_registry_configs : list string;
}.

Definition nonempty {A} (l : list A) : bool := match l with [] => false | _ => true end.

Definition requires_tree_delta_analysis (w : t) : bool :=
  nonempty (manifests w) || nonempty (lockfiles w).
Definition requires_manifest_lock_sync_check (w : t) : bool :=
  nonempty (manifests w) || nonempty (lockfiles w).
Definition has_possible_manifest_lock_desync (w : t) : bool :=
  nonempty (manifests w) || nonempty (lockfiles w).
Definition requires_private_registry_approval (w : t) : bool :=
  nonempty (private_registry_configs w) || nonempty (manifests w).
End WorkspaceDependencyTarget.

(** [DependencyGovernancePlan], by its workspaces. *)
Module Plan.
Definition t : Type := list WorkspaceDependencyTarget.t.

Definition dependency_changes_detected (p : t) : bool := WorkspaceDependencyTarget.nonempty p.
Definition resolver_environment_required (p : t) : bool :=
  existsb WorkspaceDependencyTarget.requires_tree_delta_analysis p.
Definition resolver_environment_must_be_separate_from_host (p : t) : bool :=
  dependency_changes_detected p.
Definition resolver_environment_must_be_separate_from_runtime_workspace (p : t) : bool :=
  dependency_changes_detected p.
Definition shared_writable_cache_allowed (p : t) : bool := false.
Definition per_run_writable_cache_allowed (p : t) : bool := dependency_changes_detected p.
Definition shared_readonly_cache_requires_hash_verification (p : t) : bool :=
  dependency_changes_detected p.
Definition transitive_dependency_delta_required (p : t) : bool := resolver_environment_required p.
Definition vulnerability_scan_required (p : t) : bool := resolver_environment_required p.
Definition network_resolution_requires_approval (p : t) : bool := resolver_environment_required p.
Definition private_registry_access_requires_approval (p : t) : bool :=
  existsb WorkspaceDependencyTarget.requires_private_registry_approval p.
Definition new_dependency_tree_requires_approval (p : t) : bool := resolver_environment_required p.
Definition audit_secret_redaction_required (p : t) : bool := dependency_changes_detected p.
Definition has_possible_manifest_lock_desync (p : t) : bool :=
  existsb WorkspaceDependencyTarget.has_possible_manifest_lock_desync p.
End Plan.

(** [normalize_repo_relative_path] of this module: the empty path is found by
    its missing parts instead of by its text.  [None] is
    [DependencyGovernanceError]. *)
Definition normalize_dependency_path (path : string) : option string :=
  let candidate := PurePosixPath.of_string (strip (replace_char backslash slash path)) in
  if PurePosixPath.is_absolute candidate then None
  else
    match PurePosixPath.parts candidate with
    | [] => None
    | parts =>
        if existsb dotdot parts then None
        else
          match List.filter clean_part parts with
          | [] => None
          | clean_parts =>
              Some (PurePosixPath.as_posix (PurePosixPath.of_string (str_join "/" clean_parts)))
          end
    end.

Definition _REQUIREMENTS_EXACT : list string :=
  ["requirements.txt"; "requirements-dev.txt"; "requirements.prod.txt"; "requirements.in";
   "reqs.txt"]%string.

Definition _is_python_requirements_file (p : PurePosixPath.t) : bool :=
  mem (PurePosixPath.name p) _REQUIREMENTS_EXACT
  || (mem (PurePosixPath.name (PurePosixPath.parent p)) ["requirements"; "reqs"]%string
      && mem (PurePosixPath.suffix p) [".txt"; ".in"]%string).

Definition classify_dependency_file_change (path : string) : option DependencyFileChange.t :=
  match normalize_dependency_path path with
  | None => None
  | Some normalized_path =>
      let path_obj := PurePosixPath.of_string normalized_path in
      let filename := PurePosixPath.name path_obj in
      let directory := PurePosixPath.as_posix (PurePosixPath.parent path_obj) in
      let change eco tool kind :=
        Some (DependencyFileChange.mk normalized_path directory eco tool kind) in
      if String.eqb filename "package.json" then change NODE NODE_NPM MANIFEST
      else if mem filename ["package-lock.json"; "npm-shrinkwrap.json"]%string
      then change NODE NODE_NPM LOCKFILE
      else if String.eqb filename "yarn.lock" then change NODE NODE_YARN LOCKFILE
      else if String.eqb filename "pnpm-lock.yaml" then change NODE NODE_PNPM LOCKFILE
      else if String.eqb filename ".npmrc" then change NODE NODE_NPM PRIVATE_REGISTRY_CONFIG
      else if mem filename ["pyproject.toml"; "setup.py"; "setup.cfg"]%string
      then change PYTHON PYTHON_PYPROJECT MANIFEST
      else if mem filename ["poetry.lock"; "uv.lock"]%string
      then change PYTHON PYTHON_PYPROJECT LOCKFILE
      else if String.eqb filename "Pipfile" then change PYTHON PYTHON_PIPENV MANIFEST
      else if String.eqb filename "Pipfile.lock" then change PYTHON PYTHON_PIPENV LOCKFILE
      else if mem filename ["pip.conf"; "pip.ini"; ".pypirc"]%string
      then change PYTHON PYTHON_REQUIREMENTS PRIVATE_REGISTRY_CONFIG
      else if _is_python_requirements_file path_obj
      then change PYTHON PYTHON_REQUIREMENTS MANIFEST
      else None
  end.

(** The key of [grouped] and its order in [sorted(grouped.items())]. *)
Definition group_key : Type := string * EcosystemKind * ToolchainKind.

Definition key_of (c : DependencyFileChange.t) : group_key :=
  (DependencyFileChange.directory c, DependencyFileChange.ecosystem c,
   DependencyFileChange.toolchain c).

Definition key_leb (a b : group_key) : bool :=
  let '(d, e, t) := a in
  let '(d', e', t') := b in
  if negb (String.eqb d d') then String.leb d d'
  else if negb (String.eqb (ecosystem_value e) (ecosystem_value e'))
  then String.leb (ecosystem_value e) (ecosystem_value e')
  else String.leb (toolchain_value t) (toolchain_value t').

Definition paths_of_kind (k : DependencyFileKind) (cs : list DependencyFileChange.t) : list string :=
  List.map DependencyFileChange.path
    (List.filter (fun c => bool_decide (DependencyFileChange.kind c = k)) cs).

Definition workspace_of (changes : list DependencyFileChange.t) (k : group_key)
    : WorkspaceDependencyTarget.t :=
  let mine := List.filter (fun c => bool_decide (key_of c = k)) changes in
  let '(directory, ecosystem, toolchain) := k in
  WorkspaceDependencyTarget.mk directory ecosystem toolchain
    (paths_of_kind MANIFEST mine) (paths_of_kind LOCKFILE mine)
    (paths_of_kind PRIVATE_REGISTRY_CONFIG mine).

Definition build_dependency_governance_plan (changed_paths : list string) : Plan.t :=
  let changes := omap classify_dependency_file_change (sorted_set changed_paths) in
  List.map (workspace_of changes) (sort_by key_leb (fromkeys (List.map key_of changes))).

(** ** Lemmas *)

(** The two normalisations of the repository accept the same paths and agree
    on them. *)
Lemma normalize_dependency_path_eq path :
  normalize_dependency_path path =
  match normalize_repo_relative_path path with Ok r => Some r | Raise _ => None end.
Proof.
  unfold normalize_dependency_path, normalize_repo_relative_path.
  set (norm := strip (replace_char backslash slash path)).
  destruct (String.eqb_spec norm "") as [->|_]; [reflexivity|].
  destruct (PurePosixPath.is_absolute _); [done|].
  destruct (PurePosixPath.parts _) as [|p ps] eqn:E; [done|].
  destruct (existsb dotdot (p :: ps)); [done|]. by destruct (List.filter _ _).
Qed.

Lemma paths_of_kind_elem_of k cs p :
  p ∈ paths_of_kind k cs <->
  exists c, c ∈ cs /\ DependencyFileChange.kind c = k /\ DependencyFileChange.path c = p.
Proof.
  unfold paths_of_kind. rewrite list_elem_of_fmap. setoid_rewrite elem_of_lfilter.
  setoid_rewrite bool_decide_eq_true. naive_solver.
Qed.

Lemma plan_elem_of paths w :
  w ∈ build_dependency_governance_plan paths <->
  exists c p, p ∈ paths /\ classify_dependency_file_change p = Some c /\
    w = workspace_of (omap classify_dependency_file_change (sorted_set paths)) (key_of c).
Proof.
  unfold build_dependency_governance_plan. rewrite list_elem_of_fmap.
  setoid_rewrite (sort_by_perm _ _). setoid_rewrite fromkeys_elem_of. split.
  - intros (k & -> & (c & -> & Hc)%list_elem_of_fmap).
    apply list_elem_of_omap in Hc as (p & Hp & Hc). rewrite sorted_set_elem_of in Hp. eauto.
  - intros (c & p & Hp & Hc & ->). exists (key_of c). split; [done|].
    apply list_elem_of_fmap_2, list_elem_of_omap. exists p. by rewrite sorted_set_elem_of.
Qed.

(** The workspace of [c] holds the path of [c] in the list of its kind. *)
Lemma workspace_holds changes c :
  c ∈ changes ->
  DependencyFileChange.path c ∈
  match DependencyFileChange.kind c with
  | MANIFEST => WorkspaceDependencyTarget.manifests (workspace_of changes (key_of c))
  | LOCKFILE => WorkspaceDependencyTarget.lockfiles (workspace_of changes (key_of c))
  | PRIVATE_REGISTRY_CONFIG =>
      WorkspaceDependencyTarget.private_registry_configs (workspace_of changes (key_of c))
  end.
Proof.
  intros Hc. unfold workspace_of. destruct (key_of c) as [[d e] t] eqn:Hk.
  assert (Hm : c ∈ List.filter (fun c' => bool_decide (key_of c' = (d, e, t))) changes)
    by (apply elem_of_lfilter; split; [done|]; by apply bool_decide_eq_true).
  destruct (DependencyFileChange.kind c) eqn:Hkind; cbn; apply paths_of_kind_elem_of;
    exists c; auto.
Qed.

Lemma nonempty_elem {A} (l : list A) x : x ∈ l -> WorkspaceDependencyTarget.nonempty l = true.
Proof. destruct l; [set_solver|done]. Qed.

(** ** Theorems *)

(** No dependency change is lost: every changed path that is a
    dependency file is listed, by its normalised path and under its kind, in a
    workspace of the plan with its directory, ecosystem and toolchain; and
    then the plan requires approval of the network resolution and of the new
    dependency tree for a manifest or a lockfile, and of private registry
    access for a manifest or a registry configuration. *)
Theorem dependency_change_is_governed paths p c :
  p ∈ paths -> classify_dependency_file_change p = Some c ->
  let plan := build_dependency_governance_plan paths in
  (exists w, w ∈ plan /\
    WorkspaceDependencyTarget.directory w = DependencyFileChange.directory c /\
    WorkspaceDependencyTarget.ecosystem w = DependencyFileChange.ecosystem c /\
    WorkspaceDependencyTarget.toolchain w = DependencyFileChange.toolchain c /\
    DependencyFileChange.path c ∈
    match DependencyFileChange.kind c with
    | MANIFEST => WorkspaceDependencyTarget.manifests w
    | LOCKFILE => WorkspaceDependencyTarget.lockfiles w
    | PRIVATE_REGISTRY_CONFIG => WorkspaceDependencyTarget.private_registry_configs w
    end) /\
  (DependencyFileChange.kind c <> PRIVATE_REGISTRY_CONFIG ->
     Plan.network_resolution_requires_approval plan = true /\
     Plan.new_dependency_tree_requires_approval plan = true) /\
  (DependencyFileChange.kind c <> LOCKFILE ->
     Plan.private_registry_access_requires_approval plan = true).
Proof.
  intros Hp Hc plan.
  set (changes := omap classify_dependency_file_change (sorted_set paths)).
  assert (Hin : c ∈ changes)
    by (apply list_elem_of_omap; exists p; split; [by apply sorted_set_elem_of|done]).
  assert (Hw : workspace_of changes (key_of c) ∈ plan) by (apply plan_elem_of; eauto).
  pose proof (workspace_holds changes c Hin) as Hh.
  split; [|split].
  - exists (workspace_of changes (key_of c)). split; [done|].
    split_and!; done.
  - intros Hk. assert (Plan.resolver_environment_required plan = true) as Hr; [|done].
    apply existsb_elem_of. exists (workspace_of changes (key_of c)). split; [done|].
    unfold WorkspaceDependencyTarget.requires_tree_delta_analysis.
    destruct (DependencyFileChange.kind c); [| |done]; apply nonempty_elem in Hh; rewrite Hh;
      [done|apply orb_true_r].
  - intros Hk. apply existsb_elem_of. exists (workspace_of changes (key_of c)). split; [done|].
    unfold WorkspaceDependencyTarget.requires_private_registry_approval.
    destruct (DependencyFileChange.kind c); [|done|]; apply nonempty_elem in Hh; rewrite Hh;
      [apply orb_true_r|done].
Qed.

Lemma dependency_change_witness :
  let plan := build_dependency_governance_plan ["web/package.json"; "README.md"]%string in
  Plan.network_resolution_requires_approval plan = true /\
  Plan.private_registry_access_requires_approval plan = true.
Proof.
  pose (c := DependencyFileChange.mk "web/package.json" "web" NODE NODE_NPM MANIFEST).
  destruct (dependency_change_is_governed ["web/package.json"; "README.md"]%string
              "web/package.json" c) as (_ & Hn & Hr).
  - apply list_elem_of_here.
  - reflexivity.
  - split; [apply Hn; discriminate|apply Hr; discriminate].
Defined.
