(* ===== verification/DiffLimits.v ===== *)
(** * Risk levels and diff limits

    [RiskLevel] (risk_engine.py), its order and [_highest_risk]
    (change_risk.py), and the size limits of diff_limits.py. *)

From S2P Require Export PatchDiff.

(** ** Definitions *)

Inductive RiskLevel := LOW | MEDIUM | HIGH | CRITICAL.

#[export] Instance RiskLevel_eq_dec : EqDecision RiskLevel.
Proof. solve_decision. Defined.

Definition risk_value (r : RiskLevel) : string :=
  match r with LOW => "low" | MEDIUM => "medium" | HIGH => "high" | CRITICAL => "critical" end.

(** [RiskLevel(text)]; [None] is its [ValueError]. *)
Definition risk_of_value (s : string) : option RiskLevel :=
  find (fun r => String.eqb (risk_value r) s) [LOW; MEDIUM; HIGH; CRITICAL].

Definition RISK_LEVEL_ORDER (r : RiskLevel) : Z :=
  match r with LOW => 0 | MEDIUM => 1 | HIGH => 2 | CRITICAL => 3 end.

Definition risk_le (a b : RiskLevel) : Prop := (RISK_LEVEL_ORDER a <= RISK_LEVEL_ORDER b)%Z.

Definition raise_risk (highest r : RiskLevel) : RiskLevel :=
  if (RISK_LEVEL_ORDER highest <? RISK_LEVEL_ORDER r)%Z then r else highest.

(** [_highest_risk(levels, default=LOW)] *)
Definition _highest_risk (levels : list RiskLevel) : RiskLevel := fold_left raise_risk levels LOW.

Module DiffLimitPolicy.
Record t := mk {
  soft_max_changed_files : Z;
  soft_max_total_changed_lines : Z;
  soft_max_patch_size_bytes : Z;
  soft_max_binary_files : Z;
  hard_max_changed_files : Z;
  hard_max_total_changed_lines : Z;
  hard_max_patch_size_bytes : Z;
  hard_max_binary_files : Z;
}.
End DiffLimitPolicy.

(** [_validate_limit_pair]; the error is the message of its [ValueError]. *)
Definition _validate_limit_pair (metric : string) (soft_limit hard_limit : Z)
    (allow_zero_soft : bool) : result string unit :=
  let min_soft := if allow_zero_soft then 0%Z else 1%Z in
  if (soft_limit <? min_soft)%Z
  then Raise (metric +++ " soft limit must be at least " +++ pretty min_soft +++ ".")
  else if (hard_limit <? 1)%Z then Raise (metric +++ " hard limit must be at least 1.")
  else if (hard_limit <? soft_limit)%Z
  then Raise (metric +++ " soft limit must be <= hard limit.")
  else Ok ().

(** The constructor, with its [__post_init__]. *)
Definition make_diff_limit_policy (p : DiffLimitPolicy.t) : result string DiffLimitPolicy.t :=
  _ ← _validate_limit_pair "changed_files" (DiffLimitPolicy.soft_max_changed_files p)
        (DiffLimitPolicy.hard_max_changed_files p) false;
  _ ← _validate_limit_pair "total_changed_lines" (DiffLimitPolicy.soft_max_total_changed_lines p)
        (DiffLimitPolicy.hard_max_total_changed_lines p) false;
  _ ← _validate_limit_pair "patch_size_bytes" (DiffLimitPolicy.soft_max_patch_size_bytes p)
        (DiffLimitPolicy.hard_max_patch_size_bytes p) false;
  _ ← _validate_limit_pair "binary_files" (DiffLimitPolicy.soft_max_binary_files p)
        (DiffLimitPolicy.hard_max_binary_files p) true;
  Ok p.

Definition DEFAULT_DIFF_LIMIT_POLICY : DiffLimitPolicy.t :=
  DiffLimitPolicy.mk 25 800 100000 0 250 10000 1000000 10.

Module DiffLimitReason.
Record t := mk {
  code : string;
  risk_level : RiskLevel;
  reason : string;
  metric : string;
  observed : Z;
  limit : Z;
}.

Definition evidence (r : t) : pydict :=
  [("limit", PInt (limit r)); ("metric", PStr (metric r)); ("observed", PInt (observed r))]%string.
End DiffLimitReason.

Definition _limit_reason (metric : string) (observed soft_limit hard_limit : Z)
    : option DiffLimitReason.t :=
  let words := replace_char "_" " " metric in
  if (hard_limit <? observed)%Z then
    Some (DiffLimitReason.mk ("hard-diff-" +++ metric) CRITICAL
            ("Patch exceeds hard " +++ words +++ " limit.") metric observed hard_limit)
  else if (soft_limit <? observed)%Z then
    Some (DiffLimitReason.mk ("large-diff-" +++ metric) HIGH
            ("Patch exceeds reviewable auto-apply " +++ words +++ " limit.") metric observed soft_limit)
  else None.

(** The report, by its reasons; the counts it repeats are those of the patch. *)
Definition evaluate_diff_limits (patch_diff : PatchDiff.t) (policy : DiffLimitPolicy.t)
    : list DiffLimitReason.t :=
  let total_changed_lines :=
    (PatchDiff.total_additions patch_diff + PatchDiff.total_deletions patch_diff)%Z in
  omap id
    [_limit_reason "changed_files" (PatchDiff.changed_file_count patch_diff)
       (DiffLimitPolicy.soft_max_changed_files policy) (DiffLimitPolicy.hard_max_changed_files policy);
     _limit_reason "total_changed_lines" total_changed_lines
       (DiffLimitPolicy.soft_max_total_changed_lines policy)
       (DiffLimitPolicy.hard_max_total_changed_lines policy);
     _limit_reason "patch_size_bytes" (PatchDiff.patch_size_bytes patch_diff)
       (DiffLimitPolicy.soft_max_patch_size_bytes policy)
       (DiffLimitPolicy.hard_max_patch_size_bytes policy);
     _limit_reason "binary_files" (PatchDiff.binary_file_count patch_diff)
       (DiffLimitPolicy.soft_max_binary_files policy) (DiffLimitPolicy.hard_max_binary_files policy)].

Definition hard_limit_exceeded (reasons : list DiffLimitReason.t) : bool :=
  existsb (fun r => bool_decide (DiffLimitReason.risk_level r = CRITICAL)) reasons.

Definition approval_limit_exceeded (reasons : list DiffLimitReason.t) : bool :=
  existsb (fun r => bool_decide (DiffLimitReason.risk_level r = HIGH)) reasons.

(** ** The specification: how a patch is measured *)

Definition within_hard (d : PatchDiff.t) (p : DiffLimitPolicy.t) : Prop :=
  (PatchDiff.changed_file_count d <= DiffLimitPolicy.hard_max_changed_files p /\
   PatchDiff.total_additions d + PatchDiff.total_deletions d
     <= DiffLimitPolicy.hard_max_total_changed_lines p /\
   PatchDiff.patch_size_bytes d <= DiffLimitPolicy.hard_max_patch_size_bytes p /\
   PatchDiff.binary_file_count d <= DiffLimitPolicy.hard_max_binary_files p)%Z.

Definition within_soft (d : PatchDiff.t) (p : DiffLimitPolicy.t) : Prop :=
  (PatchDiff.changed_file_count d <= DiffLimitPolicy.soft_max_changed_files p /\
   PatchDiff.total_additions d + PatchDiff.total_deletions d
     <= DiffLimitPolicy.soft_max_total_changed_lines p /\
   PatchDiff.patch_size_bytes d <= DiffLimitPolicy.soft_max_patch_size_bytes p /\
   PatchDiff.binary_file_count d <= DiffLimitPolicy.soft_max_binary_files p)%Z.

(** ** Lemmas *)

Lemma risk_of_value_value r : risk_of_value (risk_value r) = Some r.
Proof. by destruct r. Qed.

Lemma risk_value_inj a b : risk_value a = risk_value b -> a = b.
Proof. by destruct a, b. Qed.

Lemma risk_le_trans a b c : risk_le a b -> risk_le b c -> risk_le a c.
Proof. unfold risk_le. lia. Qed.

Lemma risk_le_antisym a b : risk_le a b -> risk_le b a -> a = b.
Proof. destruct a, b; unfold risk_le; cbn; lia || done. Qed.

Lemma raise_risk_spec a b :
  risk_le a (raise_risk a b) /\ risk_le b (raise_risk a b) /\
  (raise_risk a b = a \/ raise_risk a b = b).
Proof. unfold raise_risk, risk_le. destruct (Z.ltb_spec (RISK_LEVEL_ORDER a) (RISK_LEVEL_ORDER b)); split_and!; auto; lia. Qed.

Lemma fold_raise_spec l a :
  risk_le a (fold_left raise_risk l a) /\ Forall (fun r => risk_le r (fold_left raise_risk l a)) l /\
  (fold_left raise_risk l a = a \/ fold_left raise_risk l a ∈ l).
Proof.
  revert a. induction l as [|r l IH]; intros a; cbn.
  - split_and!; [unfold risk_le; lia|constructor|by left].
  - destruct (raise_risk_spec a r) as (Ha & Hr & He).
    destruct (IH (raise_risk a r)) as (H1 & H2 & H3). split_and!.
    + by eapply risk_le_trans.
    + constructor; [by eapply risk_le_trans|done].
    + destruct H3 as [->|H3]; [|right; by right].
      destruct He as [-> | ->]; [by left|right; apply list_elem_of_here].
Qed.

(** [_highest_risk] is the maximum. *)
Lemma highest_risk_upper l r : r ∈ l -> risk_le r (_highest_risk l).
Proof. destruct (fold_raise_spec l LOW) as (_ & H & _). rewrite Forall_forall in H. apply H. Qed.

Lemma highest_risk_reached l : _highest_risk l = LOW \/ _highest_risk l ∈ l.
Proof. by destruct (fold_raise_spec l LOW) as (_ & _ & H). Qed.

Lemma highest_risk_critical l : _highest_risk l = CRITICAL <-> CRITICAL ∈ l.
Proof.
  split.
  - intros H. destruct (highest_risk_reached l) as [E|E]; rewrite H in E; [done|done].
  - intros H%highest_risk_upper. apply risk_le_antisym; [|done].
    destruct (_highest_risk l); unfold risk_le; cbn; lia.
Qed.

Lemma highest_risk_low l : _highest_risk l = LOW <-> Forall (eq LOW) l.
Proof.
  split.
  - intros H. rewrite Forall_forall. intros r Hr%highest_risk_upper. rewrite H in Hr.
    by destruct r; unfold risk_le in Hr; cbn in Hr; try lia.
  - intros H. destruct (highest_risk_reached l) as [E|E]; [done|].
    rewrite Forall_forall in H. symmetry. by apply H.
Qed.

Lemma limit_reason_None m o s h : (s <= h)%Z -> _limit_reason m o s h = None <-> (o <= s)%Z.
Proof.
  unfold _limit_reason. destruct (Z.ltb_spec h o), (Z.ltb_spec s o); split; try done; lia.
Qed.

Lemma limit_reason_Some m o s h r : _limit_reason m o s h = Some r ->
  (DiffLimitReason.risk_level r = CRITICAL /\ (h < o)%Z) \/
  (DiffLimitReason.risk_level r = HIGH /\ (o <= h)%Z /\ (s < o)%Z).
Proof.
  unfold _limit_reason. destruct (Z.ltb_spec h o); [intros [= <-]; by left|].
  destruct (Z.ltb_spec s o); [intros [= <-]; by right|done].
Qed.

Lemma limit_reason_hard m o s h :
  (exists r, _limit_reason m o s h = Some r /\ DiffLimitReason.risk_level r = CRITICAL) <-> (h < o)%Z.
Proof.
  split.
  - intros (r & Hr & Hc). destruct (limit_reason_Some _ _ _ _ _ Hr) as [[_ ?]|[E _]]; [done|].
    by rewrite Hc in E.
  - intros H. unfold _limit_reason. destruct (Z.ltb_spec h o); [|lia]. eauto.
Qed.

Lemma make_policy_Ok p q : make_diff_limit_policy p = Ok q ->
  q = p /\
  (DiffLimitPolicy.soft_max_changed_files p <= DiffLimitPolicy.hard_max_changed_files p /\
   DiffLimitPolicy.soft_max_total_changed_lines p <= DiffLimitPolicy.hard_max_total_changed_lines p /\
   DiffLimitPolicy.soft_max_patch_size_bytes p <= DiffLimitPolicy.hard_max_patch_size_bytes p /\
   DiffLimitPolicy.soft_max_binary_files p <= DiffLimitPolicy.hard_max_binary_files p)%Z.
Proof.
  unfold make_diff_limit_policy, _validate_limit_pair. intros H.
  repeat match type of H with
  | context [if (?a <? ?b)%Z then _ else _] => destruct (Z.ltb_spec a b); [done|]
  end.
  cbn in H. injection H as <-. split; [done|lia].
Qed.

Lemma omap_id_elem_of {A} (l : list (option A)) x : x ∈ omap id l <-> Some x ∈ l.
Proof.
  rewrite list_elem_of_omap. split.
  - intros (y & Hy & E). unfold id in E. by subst y.
  - intros H. by exists (Some x).
Qed.

(** A policy accepted by its constructor: the reasons are empty exactly within
    the soft limits, and one of them is critical exactly beyond a hard one. *)
Lemma evaluate_diff_limits_spec d p q :
  make_diff_limit_policy p = Ok q ->
  (evaluate_diff_limits d q = [] <-> within_soft d q) /\
  (hard_limit_exceeded (evaluate_diff_limits d q) = true <-> ~ within_hard d q).
Proof.
  intros [-> (H1 & H2 & H3 & H4)]%make_policy_Ok. unfold evaluate_diff_limits, within_soft, within_hard.
  split.
  - rewrite <- !(limit_reason_None "changed_files" _ _ _ H1),
      <- !(limit_reason_None "total_changed_lines" _ _ _ H2),
      <- !(limit_reason_None "patch_size_bytes" _ _ _ H3),
      <- !(limit_reason_None "binary_files" _ _ _ H4).
    repeat destruct (_limit_reason _ _ _ _); cbn; naive_solver.
  - unfold hard_limit_exceeded. rewrite existsb_elem_of.
    pose proof (limit_reason_hard "changed_files" (PatchDiff.changed_file_count d)
      (DiffLimitPolicy.soft_max_changed_files p) (DiffLimitPolicy.hard_max_changed_files p)) as A1.
    pose proof (limit_reason_hard "total_changed_lines"
      (PatchDiff.total_additions d + PatchDiff.total_deletions d)
      (DiffLimitPolicy.soft_max_total_changed_lines p)
      (DiffLimitPolicy.hard_max_total_changed_lines p)) as A2.
    pose proof (limit_reason_hard "patch_size_bytes" (PatchDiff.patch_size_bytes d)
      (DiffLimitPolicy.soft_max_patch_size_bytes p) (DiffLimitPolicy.hard_max_patch_size_bytes p)) as A3.
    pose proof (limit_reason_hard "binary_files" (PatchDiff.binary_file_count d)
      (DiffLimitPolicy.soft_max_binary_files p) (DiffLimitPolicy.hard_max_binary_files p)) as A4.
    revert A1 A2 A3 A4.
    repeat match goal with
    | |- context [_limit_reason ?a ?b ?c ?e] => generalize (_limit_reason a b c e)
    end.
    intros o4 o3 o2 o1 A1 A2 A3 A4. split.
    + intros (r & Hx & Hc%bool_decide_eq_true). rewrite omap_id_elem_of in Hx.
      assert (Hl : Some r = o1 \/ Some r = o2 \/ Some r = o3 \/ Some r = o4) by set_solver.
      destruct Hl as [<-|[<-|[<-|<-]]].
      * pose proof (proj1 A1 ltac:(eauto)). lia.
      * pose proof (proj1 A2 ltac:(eauto)). lia.
      * pose proof (proj1 A3 ltac:(eauto)). lia.
      * pose proof (proj1 A4 ltac:(eauto)). lia.
    + intros Hn. 
      assert (DiffLimitPolicy.hard_max_changed_files p < PatchDiff.changed_file_count d \/
        DiffLimitPolicy.hard_max_total_changed_lines p
          < PatchDiff.total_additions d + PatchDiff.total_deletions d \/
        DiffLimitPolicy.hard_max_patch_size_bytes p < PatchDiff.patch_size_bytes d \/
        DiffLimitPolicy.hard_max_binary_files p < PatchDiff.binary_file_count d)%Z as Hl by lia.
      rewrite <- A1, <- A2, <- A3, <- A4 in Hl.
      destruct Hl as [Hl|[Hl|[Hl|Hl]]]; destruct Hl as (r & Hr & Hc); exists r;
        (split; [rewrite omap_id_elem_of, <- Hr; set_solver|by apply bool_decide_eq_true]).
Qed.

Example default_policy_accepted :
  make_diff_limit_policy DEFAULT_DIFF_LIMIT_POLICY = Ok DEFAULT_DIFF_LIMIT_POLICY.
Proof. reflexivity. Qed.
