(* ===== verification/ChangeRisk.v ===== *)
(** * Risk classification of guarded patches

    change_risk.py: the reasons a changed file gets from its path, its
    metadata and its added lines, the Rust criticality shadow with its lockfile
    and generated-file bypasses, and the patch-level report.  The file
    contents, the Rust kernel, the TOML reader and the action-intent
    classifier are the fields of [RiskSources]. *)

From S2P Require Export DiffLimits Dependency Regex.

(** ** Data *)

(** A Python float, as in [PFloat]. *)
Record pyfloat := mk_float { f_mantissa : Z; f_exponent : Z; f_text : string }.
Definition of_float (f : pyfloat) : pyval := PFloat (f_mantissa f) (f_exponent f) (f_text f).

Module ChangeRiskReason.
Record t := mk {
  code : string;
  risk_level : RiskLevel;
  reason : string;
  evidence : pydict;
}.

Definition audit_summary (r : t) : pydict :=
  [("code", PStr (code r)); ("risk_level", PStr (risk_value (risk_level r)));
   ("reason", PStr (reason r)); ("evidence", of_dict (evidence r))]%string.
End ChangeRiskReason.

(** [_reason]: the evidence sorted by key. *)
Definition _reason (code : string) (level : RiskLevel) (reason : string) (evidence : pydict)
    : ChangeRiskReason.t :=
  ChangeRiskReason.mk code level reason (sort_by_key evidence).

Module RustCriticalityShadow.
Record t := mk {
  available : bool;
  criticality_index : option pyfloat;
  risk_level : option string;
  reasons : list string;
  semantic_metrics : option pydict;
  path_category : option string;
  path_severity : option string;
  error_code : option string;
  error_reason : option string;
  criticality_bypass_verdict : option string;
  criticality_bypass_reason : option string;
}.

Definition audit_summary (s : t) : pydict :=
  [("available", PBool (available s));
   ("criticality_index", match criticality_index s with Some f => of_float f | None => PNone end);
   ("risk_level", of_opt_str (risk_level s));
   ("reasons", PTuple (List.map PStr (reasons s)));
   ("semantic_metrics", match semantic_metrics s with Some d => of_dict d | None => PNone end);
   ("path_category", of_opt_str (path_category s));
   ("path_severity", of_opt_str (path_severity s));
   ("error_code", of_opt_str (error_code s));
   ("error_reason", of_opt_str (error_reason s));
   ("criticality_bypass_verdict", of_opt_str (criticality_bypass_verdict s));
   ("criticality_bypass_reason", of_opt_str (criticality_bypass_reason s))]%string.
End RustCriticalityShadow.

Module FileRiskClassification.
Record t := mk {
  path : string;
  kind : ChangedFileKind;
  risk_level : RiskLevel;
  reasons : list ChangeRiskReason.t;
  additions : option Z;
  deletions : option Z;
  binary : bool;
  old_path : option string;
  old_mode : option string;
  new_mode : option string;
  mode_changed : bool;
  rust_criticality : option RustCriticalityShadow.t;
}.

Definition audit_summary (f : t) : pydict :=
  [("path", PStr (path f)); ("old_path", of_opt_str (old_path f));
   ("kind", PStr (kind_value (kind f))); ("risk_level", PStr (risk_value (risk_level f)));
   ("additions", PatchFileDiff.of_opt_int (additions f));
   ("deletions", PatchFileDiff.of_opt_int (deletions f));
   ("binary", PBool (binary f)); ("old_mode", of_opt_str (old_mode f));
   ("new_mode", of_opt_str (new_mode f)); ("mode_changed", PBool (mode_changed f));
   ("reasons", PTuple (List.map (fun r => of_dict (ChangeRiskReason.audit_summary r)) (reasons f)));
   ("rust_criticality",
    match rust_criticality f with
    | Some s => of_dict (RustCriticalityShadow.audit_summary s)
    | None => PNone
    end)]%string.
End FileRiskClassification.

Module ChangeRiskReport.
Record t := mk {
  baseline_commit_sha : string;
  patch_sha256 : string;
  files : list FileRiskClassification.t;
  report_reasons : list ChangeRiskReason.t;
}.

Definition overall_risk_level (r : t) : RiskLevel :=
  _highest_risk (List.map FileRiskClassification.risk_level (files r)
                 ++ List.map ChangeRiskReason.risk_level (report_reasons r)).

Definition changed_file_count (r : t) : Z := Z.of_nat (List.length (files r)).

Definition risk_counts (r : t) : pydict :=
  List.map (fun level =>
    (risk_value level,
     PInt (Z.of_nat (List.length (List.filter (fun f =>
       bool_decide (FileRiskClassification.risk_level f = level)) (files r))))))
    [LOW; MEDIUM; HIGH; CRITICAL].

Definition audit_summary (r : t) : pydict :=
  [("baseline_commit_sha", PStr (baseline_commit_sha r));
   ("patch_sha256", PStr (patch_sha256 r));
   ("overall_risk_level", PStr (risk_value (overall_risk_level r)));
   ("changed_file_count", PInt (changed_file_count r));
   ("risk_counts", of_dict (risk_counts r));
   ("files", PTuple (List.map (fun f => of_dict (FileRiskClassification.audit_summary f)) (files r)));
   ("report_reasons", PTuple (List.map (fun x => of_dict (ChangeRiskReason.audit_summary x))
                                (report_reasons r)))]%string.
End ChangeRiskReport.

(** ** Tables *)

Definition GIT_SUBMODULE_MODE : string := "160000".
Definition GIT_SYMLINK_MODE : string := "120000".
Definition MAX_CRITICALITY_SHADOW_BYTES : Z := 1000000.
Definition MAX_CRITICALITY_RAW_BYTES : Z := MAX_CRITICALITY_SHADOW_BYTES * 2.
Definition MIN_ENFORCED_CRITICALITY_INDEX : Z * Z := (5, 0)%Z.

(** A critical verdict of the kernel only raises a file to [HIGH]. *)
Definition RUST_CRITICALITY_ENFORCED_LEVELS (level : string) : option RiskLevel :=
  if mem level ["high"; "critical"]%string then Some HIGH else None.

Definition CRITICALITY_LOCKFILE_NAMES : list string :=
  ["bun.lockb"; "cargo.lock"; "composer.lock"; "gemfile.lock"; "go.sum"; "gradle.lockfile";
   "package-lock.json"; "pipfile.lock"; "pnpm-lock.yaml"; "poetry.lock"; "pubspec.lock";
   "uv.lock"; "yarn.lock"]%string.

Definition CRITICALITY_GENERATED_MARKERS : list string :=
  ["@generated"; "auto-generated"; "autogenerated"; "do not edit"]%string.

Definition DOC_EXTENSIONS : list string := [".adoc"; ".md"; ".rst"; ".txt"]%string.

Definition DOC_FILE_NAMES : list string :=
  ["changelog"; "code_of_conduct"; "contributing"; "license"; "readme"; "security"]%string.

Definition SOURCE_EXTENSIONS : list string :=
  [".c"; ".cc"; ".cpp"; ".cs"; ".css"; ".go"; ".html"; ".java"; ".js"; ".jsx"; ".kt"; ".mjs";
   ".php"; ".py"; ".rb"; ".rs"; ".scala"; ".swift"; ".ts"; ".tsx"]%string.

Definition SCRIPT_EXTENSIONS : list string :=
  [".bash"; ".bat"; ".cmd"; ".fish"; ".ps1"; ".sh"; ".zsh"]%string.

Definition BINARY_EXTENSIONS : list string :=
  [".bin"; ".class"; ".dll"; ".dylib"; ".exe"; ".jar"; ".o"; ".pyc"; ".so"; ".wasm"; ".war"]%string.

Definition DEPENDENCY_FILE_NAMES : list string :=
  ["build.gradle"; "cargo.lock"; "cargo.toml"; "composer.json"; "composer.lock"; "gemfile";
   "gemfile.lock"; "go.mod"; "go.sum"; "gradle.lockfile"; "package-lock.json"; "package.json";
   "pipfile"; "pipfile.lock"; "pnpm-lock.yaml"; "poetry.lock"; "pom.xml"; "pubspec.lock";
   "pubspec.yaml"; "pyproject.toml"; "requirements.txt"; "uv.lock"; "yarn.lock"]%string.

Definition DEPENDENCY_NAME_PATTERNS : list string :=
  ["requirements-*.txt"; "requirements_*.txt"; "requirements*.in"; "requirements*.txt"]%string.

Definition CI_PATH_PATTERNS : list string :=
  [".circleci/*"; ".github/actions/*"; ".github/workflows/*"; ".gitlab-ci.yml";
   "azure-pipelines.yml"; "bitbucket-pipelines.yml"; "buildkite.yml"; "jenkinsfile"]%string.

Definition INFRA_PATH_PATTERNS : list string :=
  [".dockerignore"; ".gitignore"; "docker-compose*.yaml"; "docker-compose*.yml"; "dockerfile";
   "helm/*"; "k8s/*"; "kubernetes/*"; "makefile"; "mkdocs.yml"; "terraform/*"; "tox.ini";
   "*.tf"]%string.

Definition SECURITY_SENSITIVE_PATH_PATTERNS : list string :=
  [".aws/*"; ".aws/credentials"; ".azure/*"; ".config/gcloud/*"; ".docker/config.json"; ".env";
   ".env.*"; ".gnupg/*"; ".netrc"; ".npmrc"; ".pypirc"; ".ssh/*"; ".ssh/config"; ".ssh/id_*";
   "*/.aws/*"; "*/.aws/credentials"; "*/.azure/*"; "*/.config/gcloud/*"; "*/.docker/config.json";
   "*/.env"; "*/.env.*"; "*/.gnupg/*"; "*/.netrc"; "*/.npmrc"; "*/.pypirc"; "*/.ssh/*";
   "*/.ssh/config"; "*/.ssh/id_*"; "*/credentials"; "*/credentials.*"; "*/credentials*.json";
   "*/id_dsa"; "*/id_ecdsa"; "*/id_ed25519"; "*/id_rsa"; "*/private*.key"; "*/private*.pem";
   "*/secret"; "*/secret.*"; "*/secrets"; "*/secrets.*"; "*/service-account*.json";
   "*/service_account*.json"; "*.key"; "*.p12"; "*.pem"; "*.pfx"; "credentials";
   "credentials.*"; "credentials*.json"; "id_dsa"; "id_ecdsa"; "id_ed25519"; "id_rsa"; "secret";
   "secret.*"; "secrets"; "secrets.*"]%string.

Definition AUTH_SECURITY_PATH_SEGMENTS : list string :=
  ["auth"; "authentication"; "iam"; "jwt"; "oauth"; "permission"; "permissions"; "rbac";
   "security"; "session"; "sessions"]%string.

Definition DEPLOY_PATH_SEGMENTS : list string :=
  ["deploy"; "deployment"; "deployments"; "helm"; "k8s"; "kubernetes"; "terraform"]%string.

Definition SCRIPT_PATH_SEGMENTS : list string := ["bin"; "script"; "scripts"; "tool"; "tools"]%string.

(** *** The patterns searched in added lines *)

Definition letter_ci : regex := RChar (fun c => in_range 97 122 (code (lower_char c))).
Definition upper_digit (c : ascii) : bool := in_range 48 57 (code c) || in_range 65 90 (code c).
Definition spaces_star : regex := RStar (RChar is_space).
Definition any_char : regex := RChar (fun c => negb (code c =? 10)%N).
Definition dash_or_underscore : regex := ropt (RChar (fun c => Ascii.eqb c "_" || Ascii.eqb c "-")).
Definition is_key_char (c : ascii) : bool :=
  upper_digit c || in_range 97 122 (code c) || Ascii.eqb c "_" || Ascii.eqb c "-".

Definition SECRET_ADDED_LINE_PATTERNS : list (string * regex) :=
  [("private-key-header"%string,
    rseqs [rlit "-----BEGIN "; RStar (RChar (fun c => in_range 65 90 (code c) || Ascii.eqb c " "));
           rlit "PRIVATE KEY-----"]);
   ("aws-access-key-id"%string,
    rseqs [RWordB; rlit "AKIA"; rrep 16 (RChar upper_digit); RWordB]);
   ("openai-api-key"%string,
    rseqs [RWordB; rlit "sk-"; rrep_ge 20 (RChar is_key_char); RWordB]);
   ("credential-assignment"%string,
    rseqs [RWordB;
           ralts [rseqs [ilit "api"; dash_or_underscore; ilit "key"];
                  rseqs [ilit "access"; dash_or_underscore; ilit "token"];
                  rseqs [ilit "auth"; dash_or_underscore; ilit "token"];
                  ilit "password";
                  rseqs [ilit "private"; dash_or_underscore; ilit "key"];
                  ilit "secret";
                  rseqs [ilit "client"; dash_or_underscore; ilit "secret"]];
           RWordB; spaces_star; RChar (fun c => Ascii.eqb c ":" || Ascii.eqb c "="); spaces_star;
           ropt (RChar is_quote);
           rrep_ge 8 (RChar (fun c => negb (is_quote c) && negb (is_space c)))])].

(** The fourth pattern is written [r"\bmkfs(\.|\\s)"]: in a raw string the
    second alternative is a backslash and the letter s, not white space. *)
Definition DESTRUCTIVE_ADDED_LINE_PATTERNS : list (string * regex) :=
  [("recursive-force-delete"%string,
    rseqs [RWordB; ilit "rm"; rplus (RChar is_space); rlit "-"; RStar letter_ci; ilit "r";
           RStar letter_ci; ilit "f"; RStar letter_ci; RWordB]);
   ("world-writable-permission"%string,
    rseqs [RWordB; ilit "chmod"; rplus (RChar is_space); rlit "777"; RWordB]);
   ("pipe-to-shell"%string,
    rseqs [RWordB; ralts [ilit "curl"; ilit "wget"]; RWordB; rplus any_char; rlit "|"; spaces_star;
           ralts [ilit "sh"; ilit "bash"]; RWordB]);
   ("disk-format"%string,
    rseqs [RWordB; ilit "mkfs"; ralts [rlit "."; RSeq (rchar backslash) (ilit "s")]]);
   ("raw-disk-write"%string,
    rseqs [RWordB; ilit "dd"; rplus (RChar is_space); RStar any_char; RWordB; ilit "of=/dev/"])].

(** ** Collaborators outside the model *)

Inductive load_error := InvalidEncoding | GitLfsPointer | ContentUnavailable (text : string).

Inductive kernel_error :=
  | KernelUnavailable (text : string)
  | EvaluationError (error_code reason : string)
  | KernelError (text : string)
  | UnexpectedError (text : string).

Record RustSemanticMetrics := mk_metrics {
  old_node_count : Z; new_node_count : Z; old_token_count : Z; new_token_count : Z;
  matched_node_count : Z; survival_ratio : pyfloat;
}.

Record RustCriticalityInput := mk_criticality_input {
  ci_file_path : string; ci_action_type : string; ci_old_code : string; ci_new_code : string;
  ci_elevated : bool;
}.

Record RustCriticalityAssessment := mk_assessment {
  a_criticality_index : pyfloat; a_risk_level : string; a_reasons : list string;
  a_semantic_metrics : RustSemanticMetrics; a_path_category : string; a_path_severity : string;
}.

(** [ActionIntent] and [ActionIntentEvidence], enumerations by their values. *)
Record ActionIntentEvidence := mk_intent_evidence {
  ie_source : string; ie_signal : string; ie_subject : string; ie_detail : string;
  ie_confidence_weight : pyfloat;
}.

Record ActionIntent := mk_intent {
  in_code : string; in_severity : RiskLevel; in_confidence : pyfloat; in_recommendation : string;
  in_reason : string; in_evidence : list ActionIntentEvidence;
}.

(** File contents and their sizes, at the baseline commit and in the
    workspace; the names of the top-level keys of a TOML text; the Rust
    kernel; the action-intent classifier (action_intent.py). *)
Class RiskSources := {
  _baseline_file_size : string -> string -> string -> result load_error Z;
  _workspace_file_size : string -> string -> result load_error Z;
  _read_baseline_file_text : string -> string -> string -> result load_error string;
  _read_workspace_file_text : string -> string -> result load_error string;
  toml_keys : string -> option (list string);
  evaluate_criticality : RustCriticalityInput -> result kernel_error RustCriticalityAssessment;
  classify_action_intent : list string -> list (string * list string) -> list ActionIntent;
}.

(** ** Matching *)

(** [fnmatch.fnmatchcase] for the patterns of the tables: [*] is any run of
    characters, [?] any one; none of them has a bracket. *)
Fixpoint any_suffix (p : string -> bool) (s : string) : bool :=
  p s || match s with String _ s' => any_suffix p s' | EmptyString => false end.

Fixpoint fnmatchcase (pattern s : string) : bool :=
  match pattern with
  | EmptyString => String.eqb s ""
  | String c pattern' =>
      if Ascii.eqb c "*" then any_suffix (fnmatchcase pattern') s
      else match s with
           | String d s' => (Ascii.eqb c "?" || Ascii.eqb c d) && fnmatchcase pattern' s'
           | EmptyString => false
           end
  end.

Definition _matches_any (path : string) (patterns : list string) : bool :=
  existsb (fun pattern => fnmatchcase pattern path) patterns.

Definition _matches_name (path : string) (names : list string) : bool :=
  mem (PurePosixPath.name (PurePosixPath.of_string path)) names.

Definition _matches_name_pattern (path : string) (patterns : list string) : bool :=
  _matches_any (PurePosixPath.name (PurePosixPath.of_string path)) patterns.

Definition _has_any_segment (path : string) (segments : list string) : bool :=
  existsb (fun segment => mem segment segments) (split_on slash path).

Definition _extension (path : string) : string :=
  lower (PurePosixPath.suffix (PurePosixPath.of_string path)).

Definition _is_script_like_path (path : string) : bool :=
  mem (_extension path) SCRIPT_EXTENSIONS || _has_any_segment path SCRIPT_PATH_SEGMENTS
  || mem (PurePosixPath.name (PurePosixPath.of_string path)) ["makefile"; "dockerfile"]%string.

Definition _is_documentation_path (path : string) : bool :=
  let p := PurePosixPath.of_string path in
  startswith path "docs/" || mem (_extension path) DOC_EXTENSIONS
  || mem (PurePosixPath.name p) ["license"; "notice"]%string
  || mem (PurePosixPath.stem p) DOC_FILE_NAMES.

Definition _is_test_path (path : string) : bool :=
  let p := PurePosixPath.of_string path in
  startswith path "tests/" || startswith path "test/" || contains path "/tests/"
  || startswith (PurePosixPath.name p) "test_" || endswith (PurePosixPath.stem p) "_test".

(** ** Reasons of one file *)

Definition at_path (path : string) : pydict := [("path"%string, PStr path)].

Definition when (b : bool) (r : ChangeRiskReason.t) : list ChangeRiskReason.t :=
  if b then [r] else [].

Definition _path_risk_reasons (path : string) : list ChangeRiskReason.t :=
  let lower_path := lower path in
  when (_matches_any lower_path SECURITY_SENSITIVE_PATH_PATTERNS)
    (_reason "security-sensitive-path" CRITICAL
       "File path indicates credential, key, secret, or environment material." (at_path path))
  ++ when (_matches_name lower_path DEPENDENCY_FILE_NAMES
           || _matches_name_pattern lower_path DEPENDENCY_NAME_PATTERNS)
    (_reason "dependency-file-change" HIGH "Dependency manifest or lockfile changed." (at_path path))
  ++ when (_matches_any lower_path CI_PATH_PATTERNS)
    (_reason "ci-config-change" HIGH "CI/CD workflow or pipeline configuration changed."
       (at_path path))
  ++ when (_matches_any lower_path INFRA_PATH_PATTERNS
           || _has_any_segment lower_path DEPLOY_PATH_SEGMENTS)
    (_reason "infrastructure-or-deploy-change" HIGH
       "Infrastructure, container, deployment, or release configuration changed." (at_path path))
  ++ when (_has_any_segment lower_path AUTH_SECURITY_PATH_SEGMENTS)
    (_reason "auth-security-path-change" HIGH
       "Authentication, authorization, session, or security-sensitive code path changed."
       (at_path path))
  ++ when (_is_script_like_path lower_path)
    (_reason "script-change" HIGH "Executable script or automation path changed." (at_path path)).

Definition is_mode (mode : string) (o : option string) : bool :=
  match o with Some m => String.eqb m mode | None => false end.

Definition _metadata_risk_reasons (f : PatchFileDiff.t) : list ChangeRiskReason.t :=
  let path := PatchFileDiff.path f in
  when (PatchFileDiff.binary f)
    (_reason "binary-file-change" HIGH "Binary file changed and cannot be reviewed as plain text."
       (at_path path))
  ++ (if is_mode GIT_SYMLINK_MODE (PatchFileDiff.old_mode f)
         || is_mode GIT_SYMLINK_MODE (PatchFileDiff.new_mode f)
      then [_reason "symlink-change" CRITICAL "Symlink changes can alter filesystem boundaries."
              (at_path path)]
      else when (PatchFileDiff.mode_changed f)
        (_reason "file-mode-change" HIGH
           "File mode changed, which may alter executability or access behavior."
           [("path", PStr path); ("old_mode", PStr (default "" (PatchFileDiff.old_mode f)));
            ("new_mode", PStr (default "" (PatchFileDiff.new_mode f)))]%string))
  ++ when (mem (_extension (lower path)) BINARY_EXTENSIONS)
    (_reason "generated-executable-artifact" HIGH
       "Generated executable or compiled artifact changed." (at_path path)).

Definition secret_reason (path code : string) : ChangeRiskReason.t :=
  _reason ("added-secret-" +++ code) CRITICAL
    "Added line appears to contain credential or secret material."
    [("path", PStr path); ("pattern", PStr code)]%string.

Definition destructive_reason (path code : string) : ChangeRiskReason.t :=
  _reason ("destructive-command-" +++ code)
    (if _is_script_like_path path then CRITICAL else HIGH)
    "Added line appears to contain a destructive command pattern."
    [("path", PStr path); ("pattern", PStr code)]%string.

(** One pattern on one line; the state is [seen_codes] and [reasons]. *)
Definition content_step (reason_of : string -> ChangeRiskReason.t) (line : string)
    (st : list string * list ChangeRiskReason.t) (pattern : string * regex)
    : list string * list ChangeRiskReason.t :=
  let '(seen, reasons) := st in
  let '(code, re) := pattern in
  if mem code seen || negb (search re line) then st
  else (code :: seen, reasons ++ [reason_of code]).

Definition content_line (path : string) (st : list string * list ChangeRiskReason.t)
    (line : string) : list string * list ChangeRiskReason.t :=
  fold_left (content_step (destructive_reason path) line) DESTRUCTIVE_ADDED_LINE_PATTERNS
    (fold_left (content_step (secret_reason path) line) SECRET_ADDED_LINE_PATTERNS st).

Definition _content_risk_reasons (path : string) (added_lines : list string)
    : list ChangeRiskReason.t :=
  snd (fold_left (content_line path) added_lines ([], [])).

Definition _baseline_path_reason (path : string) : ChangeRiskReason.t :=
  let lower_path := lower path in
  if _is_documentation_path lower_path
  then _reason "documentation-change" LOW "Documentation-only path changed." (at_path path)
  else if _is_test_path lower_path
  then _reason "test-change" LOW "Test path changed without privileged file indicators."
         (at_path path)
  else if mem (_extension lower_path) SOURCE_EXTENSIONS
  then _reason "source-code-change" MEDIUM "Source code changed." (at_path path)
  else _reason "project-file-change" MEDIUM
         "Project file changed without a lower-risk classification." (at_path path).

Definition classify_patch_file_risk (f : PatchFileDiff.t) (added : list (string * list string))
    : result path_error FileRiskClassification.t :=
  path ← normalize_repo_relative_path (PatchFileDiff.path f);
  let added_lines := default [] (assoc_get added path) in
  let found := _path_risk_reasons path ++ _metadata_risk_reasons f
               ++ _content_risk_reasons path added_lines in
  let reasons := match found with [] => [_baseline_path_reason path] | _ => found end in
  Ok (FileRiskClassification.mk path (PatchFileDiff.kind f)
        (_highest_risk (List.map ChangeRiskReason.risk_level reasons)) reasons
        (PatchFileDiff.additions f) (PatchFileDiff.deletions f) (PatchFileDiff.binary f)
        (PatchFileDiff.old_path f) (PatchFileDiff.old_mode f) (PatchFileDiff.new_mode f)
        (PatchFileDiff.mode_changed f) None).

(** ** Added lines of a patch *)

Definition _parse_new_patch_path (raw_path : string) : result path_error (option string) :=
  if String.eqb raw_path "/dev/null" then Ok None
  else
    path ← normalize_repo_relative_path
             (if startswith raw_path "b/" then drop_chars 2 raw_path else raw_path);
    Ok (Some path).

(** The state is [added_lines] and [current_path]. *)
Definition added_state : Type := list (string * list string) * option string.

(** [d.setdefault(path, [])] *)
Definition setdefault_nil (d : list (string * list string)) (path : string) :=
  match assoc_get d path with Some _ => d | None => assoc_set d path [] end.

(** [added_lines[current_path].append(line)] *)
Definition append_line (d : list (string * list string)) (path line : string) :=
  assoc_set d path (default [] (assoc_get d path) ++ [line]).

Definition added_line (st : added_state) (line : string) : result path_error added_state :=
  let '(added, current_path) := st in
  if startswith line "diff --git " then Ok (added, None)
  else if startswith line "+++ " then
    new_path ← _parse_new_patch_path (strip (drop_chars 4 line));
    Ok (match new_path with Some p => setdefault_nil added p | None => added end, new_path)
  else
    match current_path with
    | None => Ok st
    | Some p =>
        if startswith line "+" && negb (startswith line "+++")
        then Ok (append_line added p (drop_chars 1 line), current_path)
        else Ok st
    end.

Fixpoint added_lines_from (st : added_state) (lines : list string) : result path_error added_state :=
  match lines with
  | [] => Ok st
  | line :: lines' => st' ← added_line st line; added_lines_from st' lines'
  end.

Definition extract_added_lines_by_path (patch : string)
    : result path_error (list (string * list string)) :=
  st ← added_lines_from ([], None) (splitlines patch); Ok (fst st).

(** ** The Rust criticality shadow *)

Module CriticalityBypassVerdict.
Record t := mk {
  allowed : bool;
  reason_code : string;
  verdict : string;
  is_candidate : bool;
}.
End CriticalityBypassVerdict.

Definition rust_invoked (reason_code : string) (is_candidate : bool) : CriticalityBypassVerdict.t :=
  CriticalityBypassVerdict.mk false reason_code "rust-invoked" is_candidate.
Definition bypassed (reason_code : string) : CriticalityBypassVerdict.t :=
  CriticalityBypassVerdict.mk true reason_code "bypassed" true.
Definition invalid_structure : CriticalityBypassVerdict.t :=
  CriticalityBypassVerdict.mk false "lockfile-claim-invalid-structure" "elevated-risk" true.

Definition failure_shadow (error_code error_reason : string)
    (v : option CriticalityBypassVerdict.t) : RustCriticalityShadow.t :=
  RustCriticalityShadow.mk false None None [] None None None (Some error_code) (Some error_reason)
    (CriticalityBypassVerdict.verdict <$> v) (CriticalityBypassVerdict.reason_code <$> v).

Definition success_shadow (a : RustCriticalityAssessment)
    (v : option CriticalityBypassVerdict.t) : RustCriticalityShadow.t :=
  let m := a_semantic_metrics a in
  RustCriticalityShadow.mk true (Some (a_criticality_index a)) (Some (a_risk_level a)) (a_reasons a)
    (Some [("old_node_count", PInt (old_node_count m)); ("new_node_count", PInt (new_node_count m));
           ("old_token_count", PInt (old_token_count m));
           ("new_token_count", PInt (new_token_count m));
           ("matched_node_count", PInt (matched_node_count m));
           ("survival_ratio", of_float (survival_ratio m))]%string)
    (Some (a_path_category a)) (Some (a_path_severity a)) None None
    (CriticalityBypassVerdict.verdict <$> v) (CriticalityBypassVerdict.reason_code <$> v).

Definition exception_shadow (e : kernel_error) (v : option CriticalityBypassVerdict.t)
    : RustCriticalityShadow.t :=
  match e with
  | KernelUnavailable text => failure_shadow "rust-kernel-unavailable" text v
  | EvaluationError error_code reason => failure_shadow error_code reason v
  | KernelError text => failure_shadow "rust-kernel-error" text v
  | UnexpectedError text => failure_shadow "rust-criticality-unexpected-error" text v
  end.

Definition path_error_message (e : path_error) : string :=
  match e with
  | PathEmpty | PathNormalizesEmpty => "Changed file path must not be empty."
  | PathAbsolute path => "Changed file path must be relative: " +++ path
  | PathTraverses path => "Changed file path must not traverse: " +++ path
  end.

Definition is_symlink_file (f : PatchFileDiff.t) : bool :=
  is_mode GIT_SYMLINK_MODE (PatchFileDiff.old_mode f)
  || is_mode GIT_SYMLINK_MODE (PatchFileDiff.new_mode f).
Definition is_git_submodule (f : PatchFileDiff.t) : bool :=
  is_mode GIT_SUBMODULE_MODE (PatchFileDiff.old_mode f)
  || is_mode GIT_SUBMODULE_MODE (PatchFileDiff.new_mode f).
Definition is_jupyter_notebook (path : string) : bool :=
  String.eqb (lower (PurePosixPath.suffix (PurePosixPath.of_string path))) ".ipynb".

(** [_is_valid_lockfile_bypass_path] with the empty allowlist. *)
Definition _is_valid_lockfile_bypass_path (path : string)
    : result path_error CriticalityBypassVerdict.t :=
  normalized ← normalize_repo_relative_path path;
  let posix_path := PurePosixPath.of_string normalized in
  if negb (mem (lower (PurePosixPath.name posix_path)) CRITICALITY_LOCKFILE_NAMES)
  then Ok (rust_invoked "not-bypass-candidate" false)
  else if String.eqb (PurePosixPath.as_posix (PurePosixPath.parent posix_path)) "."
  then Ok (bypassed "lockfile-root-path-valid")
  else Ok (rust_invoked "rust-invoked:lockfile-nested-path" true).

(** The JSON and TOML shape checks: any expected key, or all of them. *)
Definition _validate_json_lockfile (expected_keys : list string) (content : string)
    : CriticalityBypassVerdict.t :=
  match loads content with
  | Some (JDict parsed) =>
      if existsb (fun k => mem k expected_keys) (List.map fst parsed)
      then bypassed "bypassed:lockfile-root-valid-json"
      else rust_invoked "shape-mismatch-json" true
  | _ => rust_invoked "parse-failed-json" true
  end.

Section Shadow.
Context `{RiskSources}.

Definition _validate_toml_lockfile (expected_keys : list string) (content : string)
    : CriticalityBypassVerdict.t :=
  match toml_keys content with
  | Some keys =>
      if forallb (fun k => mem k keys) expected_keys
      then bypassed "bypassed:lockfile-root-valid-toml"
      else rust_invoked "shape-mismatch-toml" true
  | None => rust_invoked "parse-failed-toml" true
  end.

(** [CRITICALITY_LOCKFILE_VALIDATORS] *)
Definition lockfile_validator (name : string) : option (string -> CriticalityBypassVerdict.t) :=
  if String.eqb name "cargo.lock" then Some (_validate_toml_lockfile ["package"%string])
  else if String.eqb name "composer.lock"
  then Some (_validate_json_lockfile ["packages"; "packages-dev"]%string)
  else if String.eqb name "package-lock.json"
  then Some (_validate_json_lockfile ["lockfileVersion"; "packages"; "dependencies"]%string)
  else if String.eqb name "pipfile.lock"
  then Some (_validate_json_lockfile ["_meta"; "default"; "develop"]%string)
  else if String.eqb name "poetry.lock"
  then Some (_validate_toml_lockfile ["package"; "metadata"]%string)
  else if String.eqb name "uv.lock" then Some (_validate_toml_lockfile ["package"%string])
  else None.

Definition _validate_lockfile_structure (path content : string) : CriticalityBypassVerdict.t :=
  match lockfile_validator (lower (PurePosixPath.name (PurePosixPath.of_string path))) with
  | None => rust_invoked "parse-failed-pattern" true
  | Some validator => validator content
  end.

(** The loop over the snapshots returns the verdict of the last one. *)
Fixpoint validate_snapshots (path : string) (last : CriticalityBypassVerdict.t)
    (snapshots : list string) : CriticalityBypassVerdict.t :=
  match snapshots with
  | [] => last
  | snapshot :: rest =>
      let v := _validate_lockfile_structure path snapshot in
      if CriticalityBypassVerdict.allowed v then validate_snapshots path v rest
      else invalid_structure
  end.

Definition _validate_lockfile_snapshots (path old_code new_code : string)
    : CriticalityBypassVerdict.t :=
  validate_snapshots path invalid_structure
    (List.filter (fun code => truthy (strip code)) [old_code; new_code]).

Definition _has_generated_marker (code : string) : bool :=
  contains_any CRITICALITY_GENERATED_MARKERS
    (lower (str_join newline (take 5 (splitlines code)))).

Definition _is_valid_generated_bypass (path old_code new_code : string)
    : result path_error CriticalityBypassVerdict.t :=
  normalized ← normalize_repo_relative_path path;
  let has_marker := _has_generated_marker old_code || _has_generated_marker new_code in
  let posix_path := PurePosixPath.of_string (lower normalized) in
  let has_path_evidence :=
    existsb (fun part => mem part ["generated"; "gen"; "__generated__"; "autogenerated"]%string)
      (PurePosixPath.parts posix_path)
    || contains_any ["generated"; "autogenerated_"; "_pb2.py"; "_pb2_grpc.py"; ".pb."; ".g."]%string
         (PurePosixPath.name posix_path) in
  Ok (if has_marker && has_path_evidence then bypassed "bypassed:generated-marker-and-path"
      else if has_marker then rust_invoked "rust-invoked:generated-marker-without-path" true
      else if has_path_evidence then rust_invoked "rust-invoked:generated-path-without-marker" true
      else rust_invoked "not-bypass-candidate" false).

Definition _evaluate_criticality_bypass_claim (path old_code new_code : string)
    : result path_error CriticalityBypassVerdict.t :=
  normalized ← normalize_repo_relative_path path;
  v ← _is_valid_lockfile_bypass_path normalized;
  if CriticalityBypassVerdict.allowed v
  then Ok (_validate_lockfile_snapshots normalized old_code new_code)
  else if CriticalityBypassVerdict.is_candidate v then Ok v
  else _is_valid_generated_bypass normalized old_code new_code.

Fixpoint repeat_char (c : ascii) (n : nat) : string :=
  match n with O => EmptyString | S n' => String c (repeat_char c n') end.

Definition reads_baseline (f : PatchFileDiff.t) : bool :=
  negb (bool_decide (PatchFileDiff.kind f = ADDED) || bool_decide (PatchFileDiff.kind f = UNTRACKED)).
Definition reads_workspace (f : PatchFileDiff.t) : bool :=
  negb (bool_decide (PatchFileDiff.kind f = DELETED)).

(** [file_diff.old_path or file_diff.path] *)
Definition old_path_or_path (f : PatchFileDiff.t) : string :=
  match PatchFileDiff.old_path f with
  | Some p => if truthy p then p else PatchFileDiff.path f
  | None => PatchFileDiff.path f
  end.

(** The workspace path stays as the patch names it; resolving it is left to
    the sources. *)
Definition _load_criticality_file_contents (d : PatchDiff.t) (f : PatchFileDiff.t)
    : result load_error (string * string) :=
  let unavailable e := ContentUnavailable (path_error_message e) in
  let workspace := PatchDiff.workspace_path d in
  let baseline := PatchDiff.baseline_commit_sha d in
  old_path ← map_err unavailable (normalize_repo_relative_path (old_path_or_path f));
  new_path ← map_err unavailable (normalize_repo_relative_path (PatchFileDiff.path f));
  old_size ← (if reads_baseline f then _baseline_file_size workspace baseline old_path else Ok 0%Z);
  new_size ← (if reads_workspace f then _workspace_file_size workspace new_path else Ok 0%Z);
  if (MAX_CRITICALITY_RAW_BYTES <? old_size + new_size)%Z
  then Ok (repeat_char "x" (Z.to_nat (MAX_CRITICALITY_SHADOW_BYTES + 1)), "")%string
  else
    old_code ← (if reads_baseline f
                then _read_baseline_file_text workspace baseline old_path else Ok ""%string);
    new_code ← (if reads_workspace f then _read_workspace_file_text workspace new_path
                else Ok ""%string);
    Ok (old_code, new_code).

(** The part of [_criticality_shadow_for_file] after the contents are read. *)
Definition shadow_of_contents (f : PatchFileDiff.t) (old_code new_code : string)
    : result path_error RustCriticalityShadow.t :=
  claim ← _evaluate_criticality_bypass_claim (PatchFileDiff.path f) old_code new_code;
  if CriticalityBypassVerdict.allowed claim
  then Ok (failure_shadow "criticality-bypass" (CriticalityBypassVerdict.reason_code claim)
             (Some claim))
  else
    let v := if CriticalityBypassVerdict.is_candidate claim then Some claim else None in
    if (MAX_CRITICALITY_SHADOW_BYTES <? utf8_len (strip old_code) + utf8_len (strip new_code))%Z
    then Ok (failure_shadow "file-too-large" "file size exceeds shadow mode criticality limits" v)
    else
      Ok (match normalize_repo_relative_path (PatchFileDiff.path f) with
          | Raise e => exception_shadow (UnexpectedError (path_error_message e)) v
          | Ok path =>
              match evaluate_criticality
                      (mk_criticality_input path (kind_value (PatchFileDiff.kind f)) old_code new_code
                         match v with
                         | Some c => String.eqb (CriticalityBypassVerdict.verdict c) "elevated-risk"
                         | None => false
                         end) with
              | Ok assessment => success_shadow assessment v
              | Raise e => exception_shadow e v
              end
          end).

Definition _criticality_shadow_for_file (d : PatchDiff.t) (f : PatchFileDiff.t)
    : result path_error RustCriticalityShadow.t :=
  if is_symlink_file f
  then Ok (failure_shadow "symlink-file"
             "Symlink entries are excluded from Rust criticality analysis" None)
  else if is_git_submodule f
  then Ok (failure_shadow "git-submodule"
             "Git submodule entries are excluded from Rust criticality analysis" None)
  else if PatchFileDiff.binary f
  then Ok (failure_shadow "binary-file"
             "binary files are excluded from Rust criticality shadow analysis" None)
  else if is_jupyter_notebook (PatchFileDiff.path f)
  then Ok (failure_shadow "jupyter-notebook-unsupported"
             "Jupyter notebook files are excluded from Rust criticality analysis" None)
  else
    match _load_criticality_file_contents d f with
    | Raise InvalidEncoding =>
        Ok (failure_shadow "invalid-encoding"
              "file contents are not valid UTF-8 for Rust criticality analysis" None)
    | Raise GitLfsPointer =>
        Ok (failure_shadow "git-lfs-pointer"
              "Git LFS pointer files are excluded from Rust criticality analysis" None)
    | Raise (ContentUnavailable text) =>
        Ok (failure_shadow "content-unavailable"
              ("file contents could not be loaded for Rust criticality shadow analysis: " +++ text)
              None)
    | Ok (old_code, new_code) => shadow_of_contents f old_code new_code
    end.

Definition _criticality_bypass_risk_reason (s : RustCriticalityShadow.t)
    : option ChangeRiskReason.t :=
  if is_mode "lockfile-claim-invalid-structure" (RustCriticalityShadow.criticality_bypass_reason s)
  then Some (_reason "lockfile-claim-invalid-structure" HIGH
               "Lockfile bypass claim failed structural validation before Rust analysis."
               [("bypass_verdict",
                 PStr (default "" (RustCriticalityShadow.criticality_bypass_verdict s)));
                ("bypass_reason",
                 PStr (default "" (RustCriticalityShadow.criticality_bypass_reason s)))]%string)
  else None.

Definition _rust_criticality_risk_reason (f : FileRiskClassification.t)
    (s : RustCriticalityShadow.t) : option ChangeRiskReason.t :=
  match RustCriticalityShadow.available s, RustCriticalityShadow.risk_level s,
        RustCriticalityShadow.criticality_index s with
  | true, Some level, Some index =>
      if num_ltb (f_mantissa index, f_exponent index) MIN_ENFORCED_CRITICALITY_INDEX then None
      else
        match RUST_CRITICALITY_ENFORCED_LEVELS (lower (strip level)) with
        | None => None
        | Some rust_risk_level =>
            if (RISK_LEVEL_ORDER rust_risk_level
                <=? RISK_LEVEL_ORDER (FileRiskClassification.risk_level f))%Z then None
            else Some (_reason "rust-criticality-signal" rust_risk_level
                         "Rust criticality analysis reported higher semantic or file risk."
                         [("path", PStr (FileRiskClassification.path f));
                          ("criticality_index", of_float index); ("rust_risk_level", PStr level);
                          ("path_category",
                           PStr (default "" (RustCriticalityShadow.path_category s)));
                          ("path_severity",
                           PStr (default "" (RustCriticalityShadow.path_severity s)))]%string)
        end
  | _, _, _ => None
  end.

Definition opt_list {A} (o : option A) : list A := match o with Some x => [x] | None => [] end.

Definition _attach_criticality_shadow (f : FileRiskClassification.t)
    (s : RustCriticalityShadow.t) : FileRiskClassification.t :=
  let reasons := FileRiskClassification.reasons f
                 ++ opt_list (_criticality_bypass_risk_reason s)
                 ++ opt_list (_rust_criticality_risk_reason f s) in
  FileRiskClassification.mk (FileRiskClassification.path f) (FileRiskClassification.kind f)
    (_highest_risk (List.map ChangeRiskReason.risk_level reasons)) reasons
    (FileRiskClassification.additions f) (FileRiskClassification.deletions f)
    (FileRiskClassification.binary f) (FileRiskClassification.old_path f)
    (FileRiskClassification.old_mode f) (FileRiskClassification.new_mode f)
    (FileRiskClassification.mode_changed f) (Some s).
End Shadow.

(** ** The report *)

Definition _from_diff_limit_reason (r : DiffLimitReason.t) : ChangeRiskReason.t :=
  _reason (DiffLimitReason.code r) (DiffLimitReason.risk_level r) (DiffLimitReason.reason r)
    (DiffLimitReason.evidence r).

Definition _dependency_governance_risk_level (plan : Plan.t) : RiskLevel :=
  if Plan.vulnerability_scan_required plan || Plan.network_resolution_requires_approval plan
     || Plan.private_registry_access_requires_approval plan
     || Plan.new_dependency_tree_requires_approval plan
  then HIGH else MEDIUM.

Definition _dependency_workspace_target_id (w : WorkspaceDependencyTarget.t) : string :=
  let directory := WorkspaceDependencyTarget.directory w in
  (if truthy directory then directory else ".") +++ ":"
  +++ ecosystem_value (WorkspaceDependencyTarget.ecosystem w) +++ ":"
  +++ toolchain_value (WorkspaceDependencyTarget.toolchain w).

Definition count_paths (f : WorkspaceDependencyTarget.t -> list string) (plan : Plan.t) : pyval :=
  PInt (PatchDiff.zsum (List.map (fun w => Z.of_nat (List.length (f w))) plan)).

Definition _dependency_governance_evidence (plan : Plan.t) : pydict :=
  [("workspace_count", PInt (Z.of_nat (List.length plan)));
   ("workspace_targets",
    PTuple (List.map (fun w => PStr (_dependency_workspace_target_id w)) plan));
   ("manifest_count", count_paths WorkspaceDependencyTarget.manifests plan);
   ("lockfile_count", count_paths WorkspaceDependencyTarget.lockfiles plan);
   ("private_registry_config_count",
    count_paths WorkspaceDependencyTarget.private_registry_configs plan);
   ("resolver_environment_required", PBool (Plan.resolver_environment_required plan));
   ("resolver_environment_must_be_separate_from_host",
    PBool (Plan.resolver_environment_must_be_separate_from_host plan));
   ("resolver_environment_must_be_separate_from_runtime_workspace",
    PBool (Plan.resolver_environment_must_be_separate_from_runtime_workspace plan));
   ("shared_writable_cache_allowed", PBool (Plan.shared_writable_cache_allowed plan));
   ("per_run_writable_cache_allowed", PBool (Plan.per_run_writable_cache_allowed plan));
   ("shared_readonly_cache_requires_hash_verification",
    PBool (Plan.shared_readonly_cache_requires_hash_verification plan));
   ("transitive_dependency_delta_required", PBool (Plan.transitive_dependency_delta_required plan));
   ("vulnerability_scan_required", PBool (Plan.vulnerability_scan_required plan));
   ("network_resolution_requires_approval",
    PBool (Plan.network_resolution_requires_approval plan));
   ("private_registry_access_requires_approval",
    PBool (Plan.private_registry_access_requires_approval plan));
   ("new_dependency_tree_requires_approval",
    PBool (Plan.new_dependency_tree_requires_approval plan));
   ("audit_secret_redaction_required", PBool (Plan.audit_secret_redaction_required plan));
   ("has_possible_manifest_lock_desync",
    PBool (Plan.has_possible_manifest_lock_desync plan))]%string.

Definition _dependency_governance_reasons (plan : Plan.t) : list ChangeRiskReason.t :=
  when (Plan.dependency_changes_detected plan)
    (_reason "dependency-governance-required" (_dependency_governance_risk_level plan)
       "Dependency governance checks are required before applying dependency-related changes."
       (_dependency_governance_evidence plan)).

Definition dump_intent_evidence (e : ActionIntentEvidence) : pyval :=
  of_dict [("source", PStr (ie_source e)); ("signal", PStr (ie_signal e));
           ("subject", PStr (ie_subject e)); ("detail", PStr (ie_detail e));
           ("confidence_weight", of_float (ie_confidence_weight e))]%string.

(** [_action_intent_report_reasons]: the intents of severity [HIGH] or more. *)
Definition _action_intent_report_reasons (intents : list ActionIntent) : list ChangeRiskReason.t :=
  flat_map (fun intent =>
    if (RISK_LEVEL_ORDER (in_severity intent) <? RISK_LEVEL_ORDER HIGH)%Z then []
    else [_reason ("action-intent-" +++ in_code intent) (in_severity intent) (in_reason intent)
            [("intent_code", PStr (in_code intent)); ("confidence", of_float (in_confidence intent));
             ("recommended_action", PStr (in_recommendation intent));
             ("evidence_count", PInt (Z.of_nat (List.length (in_evidence intent))));
             ("evidence", PTuple (List.map dump_intent_evidence (take 8 (in_evidence intent))))]%string])
    intents.

Section Report.
Context `{RiskSources}.

Definition classify_file (d : PatchDiff.t) (added : list (string * list string))
    (f : PatchFileDiff.t) : result path_error FileRiskClassification.t :=
  file_risk ← classify_patch_file_risk f added;
  shadow ← _criticality_shadow_for_file d f;
  Ok (_attach_criticality_shadow file_risk shadow).

Definition classify_patch_risk (d : PatchDiff.t) (validation_reasons : list ChangeRiskReason.t)
    (policy : DiffLimitPolicy.t) : result path_error ChangeRiskReport.t :=
  added ← extract_added_lines_by_path (PatchDiff.patch d);
  files ← mapR (classify_file d added) (PatchDiff.files d);
  let paths := List.map PatchFileDiff.path (PatchDiff.files d) in
  Ok (ChangeRiskReport.mk (PatchDiff.baseline_commit_sha d) (PatchDiff.patch_sha256 d) files
        (validation_reasons
         ++ List.map _from_diff_limit_reason (evaluate_diff_limits d policy)
         ++ _dependency_governance_reasons (build_dependency_governance_plan paths)
         ++ _action_intent_report_reasons (classify_action_intent paths added))).
End Report.

(** ** The specification of the added lines of a patch

    A patch as Git writes it: for every file its [diff --git] header, further
    header lines, the [+++] line, and the lines of the hunks. *)

Inductive hunk_line := Added (text : string) | OtherLine (text : string).

Record file_section := mk_section {
  fs_diff : string;            (* what follows "diff --git " *)
  fs_headers : list string;    (* index, mode and --- lines *)
  fs_path : string;            (* the path of the +++ line, without b/ *)
  fs_lines : list hunk_line;
}.

Definition render_line (l : hunk_line) : string :=
  match l with Added t => "+" +++ t | OtherLine t => t end.

Definition section_lines (s : file_section) : list string :=
  ("diff --git " +++ fs_diff s) :: fs_headers s ++ ("+++ b/" +++ fs_path s)
  :: List.map render_line (fs_lines s).

Definition added_texts (ls : list hunk_line) : list string :=
  omap (fun l => match l with Added t => Some t | OtherLine _ => None end) ls.

(** Lines with no line break inside; an added line that does not start with
    two plus signs; the others start with something else than a plus sign or
    the [diff --git] header. *)
Fixpoint no_break (s : string) : bool :=
  match s with EmptyString => true | String c s' => negb (is_linebreak c) && no_break s' end.

Definition other_ok (s : string) : Prop :=
  startswith s "+" = false /\ startswith s "diff --git " = false.

Definition plain_line (l : hunk_line) : Prop :=
  match l with
  | Added t => startswith t "++" = false
  | OtherLine t => other_ok t
  end.

Definition plain_section (s : file_section) : Prop :=
  Forall other_ok (fs_headers s) /\ Forall plain_line (fs_lines s) /\
  Forall (fun l => no_break l = true) (section_lines s) /\
  normalize_repo_relative_path (fs_path s) = Ok (fs_path s) /\
  strip ("b/" +++ fs_path s) = "b/" +++ fs_path s.

Definition section_entry (s : file_section) : string * list string :=
  (fs_path s, added_texts (fs_lines s)).

(** ** Lemmas *)

(** *** Splitting the text of a patch into its lines *)

Lemma splitlines_go_no_break l cur rest :
  no_break l = true ->
  splitlines_go cur (l +++ newline +++ rest) = (cur +++ l) :: splitlines_go "" rest.
Proof.
  revert cur. induction l as [|c l IH]; intros cur; cbn [no_break String.append].
  - intros _. rewrite app_empty_r. cbn. by destruct rest.
  - intros [Hc Hl]%andb_true_iff. apply negb_true_iff in Hc.
    cbn [splitlines_go]. rewrite Hc, IH by done. by rewrite app_assoc_str.
Qed.

Lemma splitlines_patch_text ls :
  Forall (fun l => no_break l = true) ls -> splitlines (patch_text ls) = ls.
Proof.
  unfold splitlines. induction 1 as [|l ls Hl _ IH]; [done|].
  change (patch_text (l :: ls)) with (l +++ newline +++ patch_text ls).
  rewrite splitlines_go_no_break by done. by rewrite IH.
Qed.

(** *** Reading the added lines back *)

Lemma added_lines_from_app st l1 l2 :
  added_lines_from st (l1 ++ l2) = st' ← added_lines_from st l1; added_lines_from st' l2.
Proof.
  revert st. induction l1 as [|l l1 IH]; intros st; cbn [added_lines_from app]; [done|].
  destruct (added_line st l) as [st'|e]; [|done]. cbn. apply IH.
Qed.

Lemma startswith_empty s : startswith s "" = true.
Proof. by destruct s. Qed.

Lemma startswith_app_false s p q : startswith s p = false -> startswith s (p +++ q) = false.
Proof.
  revert p. induction s as [|c s IH]; intros [|d p]; cbn; try done.
  destruct (Ascii.eqb d c); [|done]. apply IH.
Qed.

Lemma added_line_other d cur l :
  other_ok l -> added_line (d, cur) l = Ok (d, cur).
Proof.
  intros [Hp Hd]. unfold added_line. rewrite Hd.
  change "+++ "%string with ("+" +++ "++ "). rewrite startswith_app_false by done.
  rewrite Hp. by destruct cur.
Qed.

Lemma added_line_others d cur ls :
  Forall other_ok ls -> added_lines_from (d, cur) ls = Ok (d, cur).
Proof.
  induction 1 as [|l ls Hl _ IH]; cbn [added_lines_from]; [done|].
  by rewrite added_line_other.
Qed.

Lemma added_line_added d p t :
  startswith t "++" = false ->
  added_line (d, Some p) ("+" +++ t) = Ok (append_line d p t, Some p).
Proof.
  intros Ht. unfold added_line.
  assert (startswith ("+" +++ t) "diff --git " = false) as -> by done.
  assert (startswith ("+" +++ t) "+++ " = false) as ->.
  { change "+++ "%string with ("+" +++ ("++" +++ " ")). cbn [String.append startswith].
    by apply startswith_app_false with (p := "++"%string). }
  assert (startswith ("+" +++ t) "+++" = false) as -> by (cbn; exact Ht).
  cbn. by rewrite startswith_empty.
Qed.

Lemma added_line_diff d cur t : added_line (d, cur) ("diff --git " +++ t) = Ok (d, None).
Proof. unfold added_line. cbn. by rewrite startswith_empty. Qed.

Lemma added_lines_section_body d p ls :
  Forall plain_line ls ->
  added_lines_from (d, Some p) (List.map render_line ls)
  = Ok (fold_left (fun acc t => append_line acc p t) (added_texts ls) d, Some p).
Proof.
  intros H. revert d. induction H as [|[t|t] ls Hl _ IH]; intros d; cbn [List.map added_lines_from].
  - done.
  - cbn [render_line]. rewrite added_line_added by done. cbn. apply IH.
  - cbn [render_line]. rewrite added_line_other by done. cbn. apply IH.
Qed.

Lemma append_lines_spec d p ts :
  fold_left (fun acc t => append_line acc p t) ts (assoc_set d p [])
  = assoc_set d p ts.
Proof.
  assert (Hset : forall a b, assoc_set (assoc_set d p a) p b = assoc_set d p b).
  { intros a b. induction d as [|[k w] d IH]; cbn; [by rewrite String.eqb_refl|].
    destruct (String.eqb k p) eqn:E; cbn; rewrite E; [done|by rewrite IH]. }
  change (assoc_set d p ts) with (assoc_set d p ([] ++ ts)). generalize (@nil string) as pre.
  induction ts as [|t ts IH]; intros pre; cbn [fold_left]; [by rewrite app_nil_r|].
  unfold append_line at 2. rewrite assoc_get_set_eq, Hset. cbn [default].
  by rewrite IH, <- app_assoc.
Qed.

Lemma assoc_set_fresh {A} (d : list (string * A)) k v :
  assoc_get d k = None -> assoc_set d k v = d ++ [(k, v)].
Proof.
  induction d as [|[k' w] d IH]; cbn; [done|]. destruct (String.eqb k' k); [done|].
  intros H. by rewrite IH.
Qed.

Lemma assoc_get_None {A} (d : list (string * A)) k : assoc_get d k = None <-> k ∉ d.*1.
Proof.
  induction d as [|[k' w] d IH]; cbn; [by split; [intros _ ?%elem_of_nil|]|].
  rewrite not_elem_of_cons. destruct (String.eqb_spec k' k) as [->|Hne]; naive_solver.
Qed.

Lemma assoc_get_elem {A} (d : list (string * A)) k v :
  NoDup (d.*1) -> (k, v) ∈ d -> assoc_get d k = Some v.
Proof.
  induction d as [|[k' w] d IH]; cbn; [by intros _ ?%elem_of_nil|].
  intros [Hk Hd]%NoDup_cons [[= <- <-]|Hin]%elem_of_cons; [by rewrite String.eqb_refl|].
  destruct (String.eqb_spec k' k) as [->|]; [|by apply IH].
  destruct Hk. by apply (list_elem_of_fmap_2 fst) in Hin.
Qed.

Lemma added_lines_section s d cur :
  plain_section s -> assoc_get d (fs_path s) = None ->
  added_lines_from (d, cur) (section_lines s) = Ok (d ++ [section_entry s], Some (fs_path s)).
Proof.
  intros (Hh & Hl & _ & Hn & Hs) Hd. unfold section_lines. cbn [added_lines_from].
  rewrite added_line_diff. cbn [mbind result_bind].
  rewrite added_lines_from_app, added_line_others by done. cbn [mbind result_bind added_lines_from].
  assert (added_line (d, None) ("+++ b/" +++ fs_path s)
          = Ok (assoc_set d (fs_path s) [], Some (fs_path s))) as ->.
  { change ("+++ b/" +++ fs_path s) with ("+++ " +++ ("b/" +++ fs_path s)).
    unfold added_line. cbn [startswith String.append Ascii.eqb Bool.eqb andb].
    change (drop_chars 4 _) with ("b/" +++ fs_path s). rewrite Hs.
    unfold _parse_new_patch_path. cbn [String.eqb String.append startswith drop_chars].
    cbn. rewrite startswith_empty, Hn. cbn. unfold setdefault_nil. by rewrite Hd. }
  cbn [mbind result_bind]. rewrite added_lines_section_body, append_lines_spec by done.
  by rewrite assoc_set_fresh.
Qed.

Lemma added_lines_sections secs d cur :
  Forall plain_section secs -> NoDup (fs_path <$> secs) ->
  Forall (fun s => assoc_get d (fs_path s) = None) secs ->
  exists cur', added_lines_from (d, cur) (flat_map section_lines secs)
    = Ok (d ++ List.map section_entry secs, cur').
Proof.
  intros Hp. revert d cur. induction Hp as [|s secs Hs _ IH]; intros d cur; cbn [flat_map].
  - intros _ _. exists cur. cbn. by rewrite app_nil_r.
  - rewrite fmap_cons. intros [Hn Hnd]%NoDup_cons [Hd Hds]%Forall_cons_1.
    rewrite added_lines_from_app, added_lines_section by done. cbn [mbind result_bind].
    destruct (IH (d ++ [section_entry s]) (Some (fs_path s)) Hnd) as [cur' ->].
    + rewrite Forall_forall in Hds |- *. intros s' Hs'. apply assoc_get_None.
      rewrite fmap_app, not_elem_of_app. split; [by apply assoc_get_None, Hds|].
      cbn. rewrite list_elem_of_singleton. intros E. apply Hn. rewrite <- E.
      by apply list_elem_of_fmap_2.
    + exists cur'. cbn [List.map]. by rewrite <- app_assoc.
Qed.

(** On a patch of plain sections the extraction returns the added lines of
    every file, in order. *)
Lemma extract_sections secs :
  Forall plain_section secs -> NoDup (fs_path <$> secs) ->
  extract_added_lines_by_path (patch_text (flat_map section_lines secs))
  = Ok (List.map section_entry secs).
Proof.
  intros Hp Hnd. unfold extract_added_lines_by_path. rewrite splitlines_patch_text.
  - destruct (added_lines_sections secs [] None Hp Hnd) as [cur' ->]; [|done].
    apply Forall_forall. done.
  - apply Forall_forall. intros l (s & Hs & Hl)%list_elem_of_In%in_flat_map.
    apply list_elem_of_In in Hs, Hl. rewrite Forall_forall in Hp.
    destruct (Hp s Hs) as (_ & _ & Hb & _). rewrite Forall_forall in Hb. by apply Hb.
Qed.

(** *** Reasons found in added lines *)

Section Content.
Context (path : string).

Definition secret_codes : list string := List.map fst SECRET_ADDED_LINE_PATTERNS.

(** Every secret code seen has its reason. *)
Definition content_inv (st : list string * list ChangeRiskReason.t) : Prop :=
  forall c, c ∈ fst st -> c ∈ secret_codes -> secret_reason path c ∈ snd st.

Lemma content_step_seen reason_of line st p c :
  c ∈ fst st -> c ∈ fst (content_step reason_of line st p).
Proof. destruct st as [seen rs], p as [code re]. cbn. intros H. case_match; set_solver. Qed.

Lemma content_step_reasons reason_of line st p r :
  r ∈ snd st -> r ∈ snd (content_step reason_of line st p).
Proof. destruct st as [seen rs], p as [code re]. cbn. intros H. case_match; set_solver. Qed.

Lemma content_step_inv reason_of line st p :
  (fst p ∈ secret_codes -> reason_of (fst p) = secret_reason path (fst p)) ->
  content_inv st -> content_inv (content_step reason_of line st p).
Proof.
  destruct st as [seen rs], p as [code re]. cbn [fst]. intros Hr Hi c. unfold content_step.
  destruct (mem code seen || negb (search re line)); [apply Hi|]. cbn [fst snd].
  intros [->|Hc]%elem_of_cons Hs; [rewrite Hr by done; set_solver|].
  apply elem_of_app. left. by apply Hi.
Qed.

Lemma content_step_matches reason_of line st code re :
  search re line = true -> code ∈ fst (content_step reason_of line st (code, re)).
Proof.
  destruct st as [seen rs]. intros Hs. unfold content_step. rewrite Hs. cbn [negb].
  rewrite orb_false_r. destruct (mem code seen) eqn:E; cbn [fst]; [by apply mem_spec|set_solver].
Qed.

(** A fold of steps keeps what a step keeps, and sees every pattern that
    matches. *)
Lemma content_fold reason_of line ps st :
  (forall p, p ∈ ps -> fst p ∈ secret_codes -> reason_of (fst p) = secret_reason path (fst p)) ->
  content_inv st ->
  let st' := fold_left (content_step reason_of line) ps st in
  content_inv st' /\ (forall c, c ∈ fst st -> c ∈ fst st') /\
  (forall r, r ∈ snd st -> r ∈ snd st') /\
  (forall code re, (code, re) ∈ ps -> search re line = true -> code ∈ fst st').
Proof.
  revert st. induction ps as [|p ps IH]; intros st Hr Hi; cbn zeta; cbn [fold_left].
  - split_and!; [done|done|done|]. intros code re H. by apply elem_of_nil in H.
  - destruct (IH (content_step reason_of line st p)) as (H1 & H2 & H3 & H4).
    + intros p' Hp'. apply Hr. by apply list_elem_of_further.
    + apply content_step_inv; [|done]. apply Hr, list_elem_of_here.
    + split_and!; [done| | |].
      * intros c Hc. by apply H2, content_step_seen.
      * intros r Hc. by apply H3, content_step_reasons.
      * intros code re [<-|Hin]%elem_of_cons Hs; [|by eapply H4].
        by apply H2, content_step_matches.
Qed.

Lemma content_line_fold st line :
  content_inv st ->
  content_inv (content_line path st line) /\
  (forall c, c ∈ fst st -> c ∈ fst (content_line path st line)) /\
  (forall code re, (code, re) ∈ SECRET_ADDED_LINE_PATTERNS -> search re line = true ->
     code ∈ fst (content_line path st line)).
Proof.
  intros Hi. unfold content_line.
  destruct (content_fold (secret_reason path) line SECRET_ADDED_LINE_PATTERNS st) as (H1 & H2 & _ & H4);
    [done|done|].
  destruct (content_fold (destructive_reason path) line DESTRUCTIVE_ADDED_LINE_PATTERNS
    (fold_left (content_step (secret_reason path) line) SECRET_ADDED_LINE_PATTERNS st))
    as (K1 & K2 & _ & _); [|done|].
  - intros p Hp Hs. exfalso. revert Hs.
    assert (Forall (fun p => mem (fst p) secret_codes = false) DESTRUCTIVE_ADDED_LINE_PATTERNS) as Hf
      by (repeat constructor).
    rewrite Forall_forall in Hf. rewrite <- mem_spec. by rewrite (Hf p Hp).
  - split_and!; [done|auto|]. intros code re Hin Hs. by eapply K2, H4.
Qed.

Lemma content_reasons_complete lines st line code re :
  content_inv st -> line ∈ lines -> (code, re) ∈ SECRET_ADDED_LINE_PATTERNS ->
  search re line = true ->
  secret_reason path code ∈ snd (fold_left (content_line path) lines st).
Proof.
  intros Hi Hl Hp Hs.
  assert (Hcode : code ∈ secret_codes) by apply (list_elem_of_fmap_2 fst _ _ Hp).
  assert (Hfold : forall ls st', content_inv st' ->
    content_inv (fold_left (content_line path) ls st') /\
    (forall c, c ∈ fst st' -> c ∈ fst (fold_left (content_line path) ls st')) /\
    (line ∈ ls -> code ∈ fst (fold_left (content_line path) ls st'))).
  { induction ls as [|l ls IH]; intros st' Hi'; cbn [fold_left].
    - split_and!; [done|done|]. intros H. by apply elem_of_nil in H.
    - destruct (content_line_fold st' l Hi') as (H1 & H2 & H3).
      destruct (IH _ H1) as (K1 & K2 & K3). split_and!; [done|auto|].
      intros [<-|H]%elem_of_cons; [|auto]. eapply K2, H3; done. }
  destruct (Hfold lines st Hi) as (H1 & _ & H3). apply H1; auto.
Qed.
End Content.

(** A secret in an added line is a critical reason of its file. *)
Lemma secret_line_reason f added c line code re :
  classify_patch_file_risk f added = Ok c ->
  line ∈ default [] (assoc_get added (FileRiskClassification.path c)) ->
  (code, re) ∈ SECRET_ADDED_LINE_PATTERNS -> search re line = true ->
  secret_reason (FileRiskClassification.path c) code ∈ FileRiskClassification.reasons c.
Proof.
  unfold classify_patch_file_risk. intros H Hl Hp Hs.
  destruct (normalize_repo_relative_path (PatchFileDiff.path f)) as [path|e]; [|done].
  cbn in H. injection H as <-. cbn [FileRiskClassification.path FileRiskClassification.reasons] in *.
  pose proof (content_reasons_complete path _ ([], []) line code re
    ltac:(intros c H; by apply elem_of_nil in H) Hl Hp Hs) as Hin.
  fold (_content_risk_reasons path (default [] (assoc_get added path))) in Hin.
  assert (Hall : secret_reason path code ∈ _path_risk_reasons path ++ _metadata_risk_reasons f
     ++ _content_risk_reasons path (default [] (assoc_get added path)))
    by (apply elem_of_app; right; apply elem_of_app; by right).
  revert Hall. generalize (_path_risk_reasons path ++ _metadata_risk_reasons f
     ++ _content_risk_reasons path (default [] (assoc_get added path))).
  intros [|r rs] Hall; [by apply elem_of_nil in Hall|done].
Qed.

(** *** Reports *)

(** What [classify_patch_risk] computes for every file. *)
Lemma classify_file_Ok `{RiskSources} d added f c :
  classify_file d added f = Ok c ->
  exists base shadow,
    classify_patch_file_risk f added = Ok base /\
    c = _attach_criticality_shadow base shadow.
Proof.
  unfold classify_file. intros Hc.
  destruct (classify_patch_file_risk f added) as [base|e]; [|done].
  destruct (_criticality_shadow_for_file d f) as [shadow|e]; cbn in Hc; [|done].
  injection Hc as <-. eauto.
Qed.

Lemma classify_patch_file_path f added base :
  classify_patch_file_risk f added = Ok base ->
  normalize_repo_relative_path (PatchFileDiff.path f) = Ok (FileRiskClassification.path base) /\
  FileRiskClassification.binary base = PatchFileDiff.binary f /\
  FileRiskClassification.old_mode base = PatchFileDiff.old_mode f /\
  FileRiskClassification.new_mode base = PatchFileDiff.new_mode f /\
  FileRiskClassification.mode_changed base = PatchFileDiff.mode_changed f /\
  FileRiskClassification.reasons base <> [].
Proof.
  unfold classify_patch_file_risk. intros H.
  destruct (normalize_repo_relative_path (PatchFileDiff.path f)) as [path|e]; cbn in H; [|done].
  injection H as <-. split_and!; try done. cbn [FileRiskClassification.reasons]. by case_match.
Qed.

(** Every file of a report: its level is the maximum of its reasons, there is
    one, and the reasons of the base classification are among them. *)
Definition level_is_max (c : FileRiskClassification.t) : Prop :=
  FileRiskClassification.risk_level c
    = _highest_risk (List.map ChangeRiskReason.risk_level (FileRiskClassification.reasons c)).

Lemma classify_file_facts `{RiskSources} d added f c :
  classify_file d added f = Ok c ->
  level_is_max c /\ FileRiskClassification.reasons c <> [] /\
  normalize_repo_relative_path (PatchFileDiff.path f) = Ok (FileRiskClassification.path c) /\
  FileRiskClassification.binary c = PatchFileDiff.binary f /\
  FileRiskClassification.old_mode c = PatchFileDiff.old_mode f /\
  FileRiskClassification.new_mode c = PatchFileDiff.new_mode f /\
  FileRiskClassification.mode_changed c = PatchFileDiff.mode_changed f.
Proof.
  intros (base & shadow & Hb & ->)%classify_file_Ok.
  destruct (classify_patch_file_path _ _ _ Hb) as (H1 & H2 & H3 & H4 & H5 & H6).
  split_and!; try done. cbn [FileRiskClassification.reasons _attach_criticality_shadow].
  destruct (FileRiskClassification.reasons base); [done|]. done.
Qed.

Lemma classify_patch_risk_Ok `{RiskSources} d vr policy report :
  classify_patch_risk d vr policy = Ok report ->
  exists added,
    extract_added_lines_by_path (PatchDiff.patch d) = Ok added /\
    Forall2 (fun f c => classify_file d added f = Ok c) (PatchDiff.files d)
      (ChangeRiskReport.files report) /\
    ChangeRiskReport.report_reasons report
      = vr ++ List.map _from_diff_limit_reason (evaluate_diff_limits d policy)
        ++ _dependency_governance_reasons
             (build_dependency_governance_plan (List.map PatchFileDiff.path (PatchDiff.files d)))
        ++ _action_intent_report_reasons
             (classify_action_intent (List.map PatchFileDiff.path (PatchDiff.files d)) added) /\
    ChangeRiskReport.patch_sha256 report = PatchDiff.patch_sha256 d /\
    ChangeRiskReport.baseline_commit_sha report = PatchDiff.baseline_commit_sha d.
Proof.
  unfold classify_patch_risk. intros H1.
  destruct (extract_added_lines_by_path (PatchDiff.patch d)) as [added|e]; [|done]. cbn in H1.
  destruct (mapR (classify_file d added) (PatchDiff.files d)) as [files|e] eqn:E; [|done].
  cbn in H1. injection H1 as <-. exists added. split_and!; try done.
  by apply mapR_Ok_Forall2.
Qed.

Lemma classified_levels_max `{RiskSources} d vr policy report :
  classify_patch_risk d vr policy = Ok report ->
  Forall level_is_max (ChangeRiskReport.files report).
Proof.
  intros (added & _ & Hf & _)%classify_patch_risk_Ok.
  induction Hf as [|f c fs cs Hc _ IH]; [done|]. constructor; [|done].
  by destruct (classify_file_facts _ _ _ _ Hc).
Qed.

(** The reasons of a report, with the path of the file they belong to. *)
Definition all_reasons (r : ChangeRiskReport.t) : list ChangeRiskReason.t :=
  flat_map FileRiskClassification.reasons (ChangeRiskReport.files r)
  ++ ChangeRiskReport.report_reasons r.

Lemma overall_critical r :
  Forall level_is_max (ChangeRiskReport.files r) ->
  ChangeRiskReport.overall_risk_level r = CRITICAL <->
  exists x, x ∈ all_reasons r /\ ChangeRiskReason.risk_level x = CRITICAL.
Proof.
  intros Hmax. unfold ChangeRiskReport.overall_risk_level, all_reasons.
  rewrite highest_risk_critical, elem_of_app. rewrite Forall_forall in Hmax.
  setoid_rewrite elem_of_app. split.
  - intros [(c & Hl & Hc)%list_elem_of_fmap|(x & Hl & Hx)%list_elem_of_fmap].
    + symmetry in Hl. rewrite (Hmax c Hc) in Hl.
      apply highest_risk_critical, list_elem_of_fmap in Hl as (x & Hl & Hx).
      exists x. split; [left|done]. apply list_elem_of_In, in_flat_map. exists c.
      by rewrite <- !list_elem_of_In.
    + exists x. auto.
  - intros (x & [Hx|Hx] & Hl).
    + left. apply list_elem_of_In, in_flat_map in Hx as (c & Hc & Hx).
      apply list_elem_of_In in Hc, Hx. apply list_elem_of_fmap. exists c. split; [|done].
      symmetry. rewrite (Hmax c Hc). apply highest_risk_critical, list_elem_of_fmap. eauto.
    + right. apply list_elem_of_fmap. eauto.
Qed.
