(* ===== verification/PatchApproval.v ===== *)
(** * The approval boundary of patches

    patch_approval.py: the request made for a risky patch, the decisions made
    on it, [assert_patch_approval_granted], and the audit events.  Times are
    microseconds; [datetime.fromisoformat] is the argument [fromisoformat],
    which gives an instant and whether the text had a time zone (an instant
    without one is read as UTC). *)

From S2P Require Export PathSafety ApprovalQueue.

(** ** Definitions *)

Definition PatchApprovalError (text : string) : exn :=
  mk_exn RuntimeError "PatchApprovalError" text.

Definition is_patch_approval_error (e : exn) : bool := String.eqb (exn_name e) "PatchApprovalError".

Definition path_exn (e : path_error) : exn :=
  mk_exn RuntimeError "ChangedFilePathError" (path_error_message e).

Definition DEFAULT_PATCH_APPROVAL_TTL_SECONDS : Z := 60 * 60.

(** *** The request *)

Definition patch_request_metadata (d : PatchDiff.t) : pydict :=
  [("patch_sha256", PStr (PatchDiff.patch_sha256 d));
   ("baseline_commit_sha", PStr (PatchDiff.baseline_commit_sha d));
   ("patch_size_bytes", PInt (PatchDiff.patch_size_bytes d));
   ("changed_file_count", PInt (PatchDiff.changed_file_count d));
   ("files", PTuple (List.map (fun f => PStr (PatchFileDiff.path f)) (PatchDiff.files d)))]%string.

Definition create_patch_approval_request `{RiskSources} (fresh : Fresh.t) (d : PatchDiff.t)
    (requested_by agent_id environment : string) (risk_report : option ChangeRiskReport.t)
    (gate_decision : option GuardedChangeGateDecision.t) (trace_id : option string)
    : result exn ApprovalRequest.t :=
  _ ← map_err (fun _ => PatchApprovalError "Patch path safety validation failed.")
        (ensure_patch_path_forms_safe id d);
  requirement ← map_err path_exn
                  (evaluate_patch_approval_requirement d risk_report gate_decision);
  let report := PatchApprovalRequirement.risk_report requirement in
  if GuardedChangeGateDecision.blocked (PatchApprovalRequirement.gate_decision requirement)
  then Raise (PatchApprovalError "Blocked patches cannot be approved.")
  else if negb (PatchApprovalRequirement.required requirement)
  then Raise (PatchApprovalError "Patch does not require approval.")
  else
    let r := ApprovalRequest.mk (Fresh.approval_id fresh) (Fresh.created_at fresh)
      (match trace_id with
       | Some t => if truthy t then t else Fresh.trace_id fresh
       | None => Fresh.trace_id fresh
       end)
      requested_by agent_id environment "guarded_workspace" (Some "approve_patch_apply"%string)
      (PStr (PatchDiff.patch_sha256 d)) (Some "guarded-workspace-risky-patch-approval"%string)
      "Risky guarded workspace patch requires approval before apply."
      (_severity_from_risk_level (ChangeRiskReport.overall_risk_level report))
      [("requirement", of_dict (PatchApprovalRequirement.audit_summary requirement));
       ("risk_report", of_dict (ChangeRiskReport.audit_summary report))]%string
      (patch_request_metadata d) in
    if ApprovalRequest.valid r then Ok r else Raise blank_context.

(** *** The decisions *)

(** [approval_request.target != patch_sha256] *)
Definition target_is (r : ApprovalRequest.t) (sha : string) : bool :=
  py_eq (ApprovalRequest.target r) (PStr sha).

Definition _validate_decision_context (r : ApprovalRequest.t) (patch_sha256 : option string)
    : result exn unit :=
  match patch_sha256 with
  | Some sha => if target_is r sha then Ok ()
                else Raise (PatchApprovalError "Approval request patch digest mismatch.")
  | None => Ok ()
  end.

Definition _decision_binding_metadata (r : ApprovalRequest.t) : pydict :=
  ("patch_sha256"%string, ApprovalRequest.target r)
  :: match dict_get (ApprovalRequest.metadata r) "baseline_commit_sha" with
     | PStr baseline => if truthy (strip baseline)
                        then [("baseline_commit_sha"%string, PStr baseline)] else []
     | _ => []
     end.

Definition decision_of (r : ApprovalRequest.t) (status : ApprovalStatus) (approved : bool)
    (decided_by reason now : string) : ApprovalDecision.t :=
  ApprovalDecision.mk (ApprovalRequest.approval_id r) status approved (Some decided_by) (Some now)
    (redact_sensitive_string reason) (_decision_binding_metadata r).

Definition approve_patch_request (r : ApprovalRequest.t) (decided_by reason : string)
    (patch_sha256 : option string) (now : string) : result exn ApprovalDecision.t :=
  _ ← _validate_decision_context r patch_sha256;
  attach_approval_receipt r (decision_of r APPROVED true decided_by reason now).

Definition reject_patch_request (r : ApprovalRequest.t) (decided_by reason : string)
    (patch_sha256 : option string) (now : string) : result exn ApprovalDecision.t :=
  _ ← _validate_decision_context r patch_sha256;
  Ok (decision_of r REJECTED false decided_by reason now).

(** *** What is required before a patch is applied *)

(** [normalized[:-1] + "+00:00"] for a text that ends in Z. *)
Definition normalize_zulu (s : string) : string :=
  if endswith s "Z" then take_chars (String.length s - 1) s +++ "+00:00" else s.

Section Granted.
Context (fromisoformat : string -> option (Z * bool)).

Definition _parse_approval_timestamp (value field_name : string) : result exn Z :=
  match fromisoformat (normalize_zulu (strip value)) with
  | Some (instant, _) => Ok instant
  | None => Raise (PatchApprovalError ("Invalid " +++ field_name +++ "."))
  end.

Definition _ensure_patch_approval_not_expired (r : ApprovalRequest.t) (d : ApprovalDecision.t)
    (now ttl_seconds : Z) : result exn unit :=
  if (ttl_seconds <=? 0)%Z then Raise (PatchApprovalError "Patch approval TTL must be positive.")
  else
    created_at ← _parse_approval_timestamp (ApprovalRequest.created_at r)
                   "approval request creation time";
    match ApprovalDecision.decided_at d with
    | None => Raise (PatchApprovalError "Approval decision time is required.")
    | Some text =>
        decided_at ← _parse_approval_timestamp text "approval decision time";
        if (decided_at <? created_at)%Z
        then Raise (PatchApprovalError "Approval decision predates approval request.")
        else if (now <? created_at)%Z
        then Raise (PatchApprovalError "Approval request creation time is in the future.")
        else if (now <? decided_at)%Z
        then Raise (PatchApprovalError "Approval decision time is in the future.")
        else if (ttl_seconds * 1000000 <? now - created_at)%Z
        then Raise (PatchApprovalError "Patch approval is stale or expired.")
        else Ok ()
    end.

Definition meta_is (metadata : pydict) (key value : string) : bool :=
  py_eq (dict_get metadata key) (PStr value).

(** Every [ApprovalReceiptError] becomes a [PatchApprovalError]; the
    [AttributeError] of a metadata key that is no string escapes. *)
Definition receipt_exn (e : exn) : exn :=
  if bool_decide (exn_base e = AttributeError) then e else PatchApprovalError (exn_text e).

Definition assert_patch_approval_granted (r : ApprovalRequest.t) (d : ApprovalDecision.t)
    (patch : PatchDiff.t) (now ttl_seconds : Z) : result exn unit :=
  let transition := validate_transition PENDING (ApprovalDecision.status d) in
  _ ← ensure (Transition.allowed transition) (PatchApprovalError (Transition.reason transition));
  _ ← ensure (String.eqb (ApprovalRequest.approval_id r) (ApprovalDecision.approval_id d))
        (PatchApprovalError "Approval decision does not match request.");
  _ ← ensure (target_is r (PatchDiff.patch_sha256 patch))
        (PatchApprovalError "Approval request is not bound to this patch digest.");
  _ ← ensure (meta_is (ApprovalDecision.metadata d) "patch_sha256" (PatchDiff.patch_sha256 patch))
        (PatchApprovalError "Approval decision is not bound to this patch digest.");
  _ ← ensure (meta_is (ApprovalRequest.metadata r) "baseline_commit_sha"
                (PatchDiff.baseline_commit_sha patch))
        (PatchApprovalError "Approval request baseline does not match guarded patch.");
  _ ← ensure (meta_is (ApprovalDecision.metadata d) "baseline_commit_sha"
                (PatchDiff.baseline_commit_sha patch))
        (PatchApprovalError "Approval decision baseline does not match guarded patch.");
  _ ← _ensure_patch_approval_not_expired r d now ttl_seconds;
  _ ← ensure (bool_decide (ApprovalDecision.status d = APPROVED) && ApprovalDecision.approved d)
        (PatchApprovalError "Patch approval was not granted.");
  map_err receipt_exn (assert_approval_receipt_valid r d).
End Granted.

(** *** Audit events *)

(** [model_dump(mode="json")]: tuples become lists. *)
Fixpoint json_mode (v : pyval) : pyval :=
  match v with
  | PList l | PTuple l => PList (List.map json_mode l)
  | PDict d => PDict (List.map (fun kv => match kv with (k, x) => (k, json_mode x) end) d)
  | _ => v
  end.

Definition dumped_request (r : ApprovalRequest.t) : pyval := json_mode (of_dict (dump_request r)).
Definition dumped_decision (d : ApprovalDecision.t) : pyval := json_mode (of_dict (dump_decision d)).

Definition _tool_request_from_approval_request (r : ApprovalRequest.t) (action : string)
    (input_payload : pyval) : ToolRequest.t :=
  ToolRequest.mk (ApprovalRequest.tool_name r) (Some action)
    (Some (py_str (ApprovalRequest.target r))) input_payload (ApprovalRequest.requested_by r)
    (ApprovalRequest.agent_id r) (ApprovalRequest.environment r)
    [("trace_id", PStr (ApprovalRequest.trace_id r));
     ("event_type", PStr ("guarded_workspace." +++ action));
     ("approval_id", PStr (ApprovalRequest.approval_id r));
     ("patch_sha256", ApprovalRequest.target r)]%string.

Definition write_patch_approval_request_audit_event (s : store) (fresh : EventFresh.t)
    (r : ApprovalRequest.t) : result exn (store * AuditEvent.t) :=
  log_decision s fresh
    (_tool_request_from_approval_request r "approval_requested" (dumped_request r))
    (PolicyDecision.mk REQUIRE_APPROVAL false (ApprovalRequest.severity r)
       (ApprovalRequest.reason r) (ApprovalRequest.policy_id r) None)
    [("approval_request"%string, dumped_request r)].

(** What the event of a decision records. *)
Definition decision_event (r : ApprovalRequest.t) (d : ApprovalDecision.t)
    : ToolRequest.t * PolicyDecision.t * pydict :=
  let payload := [("approval_request", dumped_request r);
                  ("approval_decision", dumped_decision d)]%string in
  let approved := ApprovalDecision.approved d in
  (_tool_request_from_approval_request r "approval_decided" (of_dict payload),
   PolicyDecision.mk (if approved then ALLOW else BLOCK) approved (ApprovalRequest.severity r)
     (ApprovalDecision.reason d) (ApprovalRequest.policy_id r) None,
   payload).

Definition write_patch_approval_decision_audit_event (s : store) (fresh : EventFresh.t)
    (r : ApprovalRequest.t) (d : ApprovalDecision.t) : result exn (store * AuditEvent.t) :=
  let '(request, decision, payload) := decision_event r d in
  log_decision s fresh request decision payload.

(** ** What a granted approval is *)

Record granted (fromisoformat : string -> option (Z * bool)) (r : ApprovalRequest.t)
    (d : ApprovalDecision.t) (patch : PatchDiff.t) (now ttl : Z) : Prop := mk_granted {
  g_status : ApprovalDecision.status d = APPROVED /\ ApprovalDecision.approved d = true;
  g_id : ApprovalDecision.approval_id d = ApprovalRequest.approval_id r;
  g_digest : ApprovalRequest.target r = PStr (PatchDiff.patch_sha256 patch) /\
    dict_get (ApprovalDecision.metadata d) "patch_sha256" = PStr (PatchDiff.patch_sha256 patch);
  g_baseline :
    dict_get (ApprovalRequest.metadata r) "baseline_commit_sha"
      = PStr (PatchDiff.baseline_commit_sha patch) /\
    dict_get (ApprovalDecision.metadata d) "baseline_commit_sha"
      = PStr (PatchDiff.baseline_commit_sha patch);
  g_receipt : verify_approval_receipt r d = Ok RVALID;
  g_times : exists created decided text,
    _parse_approval_timestamp fromisoformat (ApprovalRequest.created_at r)
      "approval request creation time" = Ok created /\
    ApprovalDecision.decided_at d = Some text /\
    _parse_approval_timestamp fromisoformat text "approval decision time" = Ok decided /\
    (created <= decided <= now)%Z /\ (now - created <= ttl * 1000000)%Z;
}.

(** ** Lemmas *)

Lemma py_eq_PStr v s : py_eq v (PStr s) = true <-> v = PStr s.
Proof.
  split; [|intros ->; apply py_eq_refl].
  destruct v as [ |b|z|m e t|t| | | ]; cbn; try done. by intros ->%String.eqb_eq.
Qed.

Lemma not_expired_iff fromisoformat r d now ttl :
  _ensure_patch_approval_not_expired fromisoformat r d now ttl = Ok () <->
  (0 < ttl)%Z /\
  exists created decided text,
    _parse_approval_timestamp fromisoformat (ApprovalRequest.created_at r)
      "approval request creation time" = Ok created /\
    ApprovalDecision.decided_at d = Some text /\
    _parse_approval_timestamp fromisoformat text "approval decision time" = Ok decided /\
    (created <= decided <= now)%Z /\ (now - created <= ttl * 1000000)%Z.
Proof.
  unfold _ensure_patch_approval_not_expired. split.
  - destruct (Z.leb_spec ttl 0); [done|].
    destruct (_parse_approval_timestamp _ _ "approval request creation time") as [created|] eqn:Ec;
      [|done]. cbn [mbind result_bind].
    destruct (ApprovalDecision.decided_at d) as [text|] eqn:Ed; [|done].
    destruct (_parse_approval_timestamp _ text _) as [decided|] eqn:Et; [|done].
    cbn [mbind result_bind].
    destruct (Z.ltb_spec decided created), (Z.ltb_spec now created), (Z.ltb_spec now decided),
      (Z.ltb_spec (ttl * 1000000) (now - created)); try done.
    intros _. split; [lia|]. exists created, decided, text. split_and!; done || lia.
  - intros (Ht & created & decided & text & Hc & Hd & He & H1 & H2).
    rewrite Hc, Hd. cbn [mbind result_bind]. rewrite He. cbn [mbind result_bind].
    rewrite (proj2 (Z.leb_gt _ _)) by lia. rewrite !(proj2 (Z.ltb_ge _ _)) by lia. done.
Qed.

Lemma receipt_valid_iff r d :
  map_err receipt_exn (assert_approval_receipt_valid r d) = Ok () <->
  verify_approval_receipt r d = Ok RVALID.
Proof.
  unfold assert_approval_receipt_valid.
  destruct (verify_approval_receipt r d) as [[]|e]; cbn; split; done.
Qed.

Lemma bind_unit_iff {E} (m n : result E unit) :
  (_ ← m; n) = Ok () <-> m = Ok () /\ n = Ok ().
Proof. destruct m as [[]|e]; cbn; naive_solver. Qed.

(** The whole check, as an equivalence. *)
Lemma assert_granted_iff fromisoformat r d patch now ttl :
  assert_patch_approval_granted fromisoformat r d patch now ttl = Ok () <->
  (0 < ttl)%Z /\ granted fromisoformat r d patch now ttl.
Proof.
  unfold assert_patch_approval_granted.
  rewrite !bind_unit_iff, !ensure_Ok, not_expired_iff, receipt_valid_iff, String.eqb_eq,
    andb_true_iff, bool_decide_eq_true, validate_transition_allowed.
  unfold target_is, meta_is. rewrite !py_eq_PStr. split.
  - intros (_ & H2 & H3 & H4 & H5 & H6 & (Ht & H7) & (H8 & H9) & H10).
    split; [done|]. by constructor.
  - intros (Ht & [[H8 H9] H2 [H3 H4] [H5 H6] H10 H7]). rewrite H8. auto 20.
Qed.

Lemma binding_metadata r baseline :
  dict_get (ApprovalRequest.metadata r) "baseline_commit_sha" = PStr baseline ->
  truthy (strip baseline) = true ->
  _decision_binding_metadata r
  = [("patch_sha256"%string, ApprovalRequest.target r); ("baseline_commit_sha"%string, PStr baseline)].
Proof. unfold _decision_binding_metadata. by intros -> ->. Qed.

Lemma receipt_metadata_get metadata h k :
  k <> APPROVAL_RECEIPT_SCHEMA_VERSION_KEY -> k <> APPROVAL_RECEIPT_HASH_KEY ->
  dict_get (receipt_metadata metadata h) k = dict_get metadata k.
Proof. intros H1 H2. unfold dict_get, receipt_metadata. by rewrite !dict_lookup_set_ne. Qed.

(** What an approved decision carries once its receipt is attached. *)
Lemma approved_decision_fields r by_ reason sha now d :
  approve_patch_request r by_ reason sha now = Ok d ->
  ApprovalDecision.status d = APPROVED /\ ApprovalDecision.approved d = true /\
  ApprovalDecision.approval_id d = ApprovalRequest.approval_id r /\
  ApprovalDecision.decided_by d = Some by_ /\ ApprovalDecision.decided_at d = Some now /\
  verify_approval_receipt r d = Ok RVALID /\
  (match sha with Some s => ApprovalRequest.target r = PStr s | None => True end) /\
  dict_get (ApprovalDecision.metadata d) "patch_sha256" = ApprovalRequest.target r /\
  (forall baseline, dict_get (ApprovalRequest.metadata r) "baseline_commit_sha" = PStr baseline ->
     truthy (strip baseline) = true ->
     dict_get (ApprovalDecision.metadata d) "baseline_commit_sha" = PStr baseline).
Proof.
  unfold approve_patch_request. intros H. apply bind_Ok_inv in H as ([] & Hs & H).
  set (d0 := decision_of r APPROVED true by_ reason now) in H.
  pose proof (attached_verifies r d0 d eq_refl eq_refl H) as Hv.
  apply attach_Ok_inv in H as [[_ [?|?]]|(_ & _ & h & _ & ->)]; [done|done|].
  cbn [_with_metadata _without_receipt_metadata ApprovalDecision.metadata ApprovalDecision.status
    ApprovalDecision.approved ApprovalDecision.approval_id ApprovalDecision.decided_by
    ApprovalDecision.decided_at decision_of d0] in *.
  split_and!; try done.
  - destruct sha as [s|]; [|done]. cbn in Hs. unfold target_is in Hs.
    destruct (py_eq (ApprovalRequest.target r) (PStr s)) eqn:E; [|done]. by apply py_eq_PStr.
  - intros baseline Hb Ht. rewrite receipt_metadata_get by discriminate.
    unfold _receipt_free_metadata. rewrite (binding_metadata r baseline Hb Ht). reflexivity.
Qed.

Lemma approved_is_granted fromisoformat r by_ reason sha text d patch now created decided :
  approve_patch_request r by_ reason sha text = Ok d ->
  ApprovalRequest.target r = PStr (PatchDiff.patch_sha256 patch) ->
  dict_get (ApprovalRequest.metadata r) "baseline_commit_sha"
    = PStr (PatchDiff.baseline_commit_sha patch) ->
  truthy (strip (PatchDiff.baseline_commit_sha patch)) = true ->
  _parse_approval_timestamp fromisoformat (ApprovalRequest.created_at r)
    "approval request creation time" = Ok created ->
  _parse_approval_timestamp fromisoformat text "approval decision time" = Ok decided ->
  (created <= decided <= now)%Z -> (now - created <= 3600 * 1000000)%Z ->
  assert_patch_approval_granted fromisoformat r d patch now DEFAULT_PATCH_APPROVAL_TTL_SECONDS = Ok ().
Proof.
  intros Ha Ht Hb Hn Hc He H1 H2.
  destruct (approved_decision_fields _ _ _ _ _ _ Ha) as (A1 & A2 & A3 & A4 & A5 & A6 & A7 & A8 & A9).
  apply assert_granted_iff. split; [done|]. constructor; try done.
  - split; [done|]. by rewrite A8.
  - split; [done|]. by apply A9.
  - exists created, decided, text. auto.
Qed.

(** An approval can be made whenever the receipt text exists. *)
Lemma approve_Ok r by_ reason now :
  is_ok (receipt_text r (_without_receipt_metadata (decision_of r APPROVED true by_ reason now))) = true ->
  dict_get (_decision_binding_metadata r) APPROVAL_RECEIPT_HASH_KEY = PNone ->
  exists d, approve_patch_request r by_ reason None now = Ok d.
Proof.
  intros Ht Hn. unfold approve_patch_request, attach_approval_receipt. cbn [_validate_decision_context].
  cbn [mbind result_bind decision_of ApprovalDecision.status ApprovalDecision.approved
    ApprovalDecision.metadata]. rewrite bool_decide_eq_true_2 by done. cbn [negb orb].
  unfold calculate_approval_receipt_hash. rewrite Hn. unfold decision_of in Ht.
  destruct (receipt_text r _) as [t|e]; [|done]. eexists. reflexivity.
Qed.

(** *** Examples *)

(** Times as decimal texts. *)
Definition decimal_time (s : string) : option (Z * bool) :=
  (fun z => (z, true)) <$> parse_int s.

Definition patch_request (sha : string) : ApprovalRequest.t :=
  ApprovalRequest.mk "apr_9" "1000000" "trace_9" "alice" "agent-7" "prod" "guarded_workspace"
    (Some "approve_patch_apply"%string) (PStr sha)
    (Some "guarded-workspace-risky-patch-approval"%string) "risky" SevHigh []
    [("patch_sha256", PStr sha); ("baseline_commit_sha", PStr "abc")]%string.

(** ** Theorems *)

(** The patch approval check accepts exactly the granted approvals: an
    approved decision for this request, both bound to the digest and the
    baseline of this patch, with a valid receipt, made after the request, not
    in the future, and within the time to live. *)
Theorem patch_approval_granted_iff fromisoformat r d patch now :
  assert_patch_approval_granted fromisoformat r d patch now DEFAULT_PATCH_APPROVAL_TTL_SECONDS = Ok ()
  <-> granted fromisoformat r d patch now DEFAULT_PATCH_APPROVAL_TTL_SECONDS.
Proof. rewrite assert_granted_iff. split; [by intros [_ ?]|done]. Qed.

(** An approval made for a patch is granted for that patch while the
    request is fresh: if a reviewer approves a request whose target and
    baseline are those of the patch, the check accepts the decision at every
    time from the decision until an hour after the request; and a rejection
    of it is never granted. *)
Theorem approved_patch_is_granted fromisoformat r by_ reason sha text d patch now created decided :
  approve_patch_request r by_ reason sha text = Ok d ->
  ApprovalRequest.target r = PStr (PatchDiff.patch_sha256 patch) ->
  dict_get (ApprovalRequest.metadata r) "baseline_commit_sha"
    = PStr (PatchDiff.baseline_commit_sha patch) ->
  truthy (strip (PatchDiff.baseline_commit_sha patch)) = true ->
  _parse_approval_timestamp fromisoformat (ApprovalRequest.created_at r)
    "approval request creation time" = Ok created ->
  _parse_approval_timestamp fromisoformat text "approval decision time" = Ok decided ->
  (created <= decided <= now)%Z -> (now - created <= 3600 * 1000000)%Z ->
  assert_patch_approval_granted fromisoformat r d patch now DEFAULT_PATCH_APPROVAL_TTL_SECONDS = Ok () /\
  forall d', reject_patch_request r by_ reason sha text = Ok d' ->
    assert_patch_approval_granted fromisoformat r d' patch now DEFAULT_PATCH_APPROVAL_TTL_SECONDS
    = Raise (PatchApprovalError "Patch approval was not granted.").
Proof.
  intros Ha Ht Hb Hn Hc He H1 H2. split; [by eapply approved_is_granted|].
  intros d' Hr. unfold reject_patch_request in Hr. apply bind_Ok_inv in Hr as ([] & _ & [= <-]).
  unfold assert_patch_approval_granted.
  assert (Hexp : _ensure_patch_approval_not_expired fromisoformat r
    (decision_of r REJECTED false by_ reason text) now DEFAULT_PATCH_APPROVAL_TTL_SECONDS = Ok ())
    by (apply not_expired_iff; split; [done|]; exists created, decided, text; auto).
  rewrite Hexp. unfold target_is, meta_is. cbn [decision_of ApprovalDecision.metadata
    ApprovalDecision.approval_id ApprovalDecision.status ApprovalDecision.approved].
  rewrite Ht, Hb, String.eqb_refl, (binding_metadata r _ Hb Hn), Ht.
  unfold dict_get at 1 2. cbn [dict_lookup String.eqb default from_option id].
  cbn -[py_eq PatchApprovalError]. rewrite !py_eq_refl. done.
Qed.

Lemma approved_patch_witness :
  let patch := docs_patch ["x"%string] in
  match approve_patch_request (patch_request "d1gest") "bob" "ok" (Some "d1gest"%string) "2000000" with
  | Ok d =>
      assert_patch_approval_granted decimal_time (patch_request "d1gest") d patch 3000000
        DEFAULT_PATCH_APPROVAL_TTL_SECONDS = Ok ()
  | Raise _ => False
  end.
Proof.
  intros patch.
  destruct (approve_patch_request (patch_request "d1gest") "bob" "ok" (Some "d1gest"%string) "2000000")
    as [d|e] eqn:E; [|vm_compute in E; discriminate E].
  refine (proj1 (approved_patch_is_granted decimal_time (patch_request "d1gest") "bob" "ok"
    (Some "d1gest"%string) "2000000" d patch 3000000 1000000 2000000 E _ _ _ _ _ _ _));
    try reflexivity; lia.
Defined.
