(* ===== verification/GuardedApply.v ===== *)
(** * Applying patches to the trusted repository

    safe_apply.py: [auto_apply_safe_patch], with its verification and its
    rollback; approved_apply.py: [apply_approved_patch], with its single use of
    an approval.  The repository is an abstract state [R] on which Git's
    commands act ([GitRepo]); the operations pass the repository, the audit
    log and the used approvals explicitly, and an exception keeps the state it
    was raised in. *)

From S2P Require Export PatchApproval.

(** ** Interfaces *)

(** The Git commands the module runs in the target repository, by what they
    print or do; an error is the text of the exception made from it.
    [git_reset_reverse] is [git apply --reverse]; [current_diff] is
    [generate_patch_diff] against the baseline. *)
Class GitRepo (R : Type) := {
  repo_exists : R -> bool;
  is_toplevel : R -> result string bool;
  status_porcelain : R -> result string string;
  rev_parse_head : R -> result string string;
  apply_check : R -> string -> result string unit;
  git_apply : R -> string -> result string R;
  git_reset_reverse : R -> string -> result string R;
  current_diff : R -> string -> result string PatchDiff.t;
}.

(** The audit log as the two modules use it: writing an event (identifiers and
    clock inside), and the metadata of the stored events of one policy. *)
Class ApplyAudit (L : Type) := {
  write_audit : L -> ToolRequest.t -> PolicyDecision.t -> pydict -> L * result string unit;
  policy_events : L -> string -> result string (list pydict);
}.

(** The keys of [_USED_PATCH_APPROVALS]. *)
Definition approval_use : Type := string * string * string.

Record world (R L : Type) := mk_world {
  w_repo : R;
  w_log : option L;             (* [logger], when one is given *)
  w_used : list approval_use;
}.
Arguments mk_world {R L} w_repo w_log w_used.
Arguments w_repo {R L} w.
Arguments w_log {R L} w.
Arguments w_used {R L} w.

(** A computation that keeps its state when it raises. *)
Definition action (W A : Type) : Type := W -> W * result string A.

Definition a_ret {W A} (a : A) : action W A := fun w => (w, Ok a).
Definition a_raise {W A} (e : string) : action W A := fun w => (w, Raise e).
Definition a_bind {W A B} (m : action W A) (f : A -> action W B) : action W B := fun w =>
  match m w with
  | (w', Ok a) => f a w'
  | (w', Raise e) => (w', Raise e)
  end.
Definition a_lift {W A} (f : W -> result string A) : action W A := fun w => (w, f w).
Definition a_when {W} (b : bool) (e : string) : action W unit := fun w =>
  (w, if b then Raise e else Ok ()).

Declare Scope action_scope.
Delimit Scope action_scope with action.
Notation "'let!' x ':=' m 'in' k" := (a_bind m (fun x => k))
  (at level 200, x name, m at level 100, k at level 200) : action_scope.
Notation "m ';;;' k" := (a_bind m (fun _ => k)) (at level 100, k at level 200, right associativity)
  : action_scope.
Open Scope action_scope.

Section Apply.
Context {R L : Type} {GR : GitRepo R} {AA : ApplyAudit L} {RS : RiskSources}.
Context (resolve : PurePosixPath.t -> PurePosixPath.t).
Local Notation W := (world R L).

Definition set_repo (w : W) (r : R) : W := mk_world r (w_log w) (w_used w).

(** [_ensure_git_repo] and its twin; the two modules differ in their messages
    only. *)
Definition _ensure_git_repo (target : string) : action W unit := fun w =>
  if negb (repo_exists (w_repo w))
  then (w, Raise ("Target repository does not exist: " +++ target))
  else
    match is_toplevel (w_repo w) with
    | Raise e => (w, Raise e)
    | Ok true => (w, Ok ())
    | Ok false => (w, Raise ("Target path is not the Git repository root: " +++ target))
    end.

Definition _ensure_clean_repo (message : string) : action W unit := fun w =>
  match status_porcelain (w_repo w) with
  | Raise e => (w, Raise e)
  | Ok out => (w, if truthy (strip out) then Raise message else Ok ())
  end.

(** [write_path_safety_audit_event] on the log, if there is one. *)
Definition log_event (request : ToolRequest.t) (decision : PolicyDecision.t) (metadata : pydict)
    : action W unit := fun w =>
  match w_log w with
  | None => (w, Ok ())
  | Some log =>
      let '(log', r) := write_audit log request decision metadata in
      (mk_world (w_repo w) (Some log') (w_used w), r)
  end.

Definition path_safety_event (r : PatchPathSafetyReport.t) (ctx : run_context) : action W unit :=
  log_event
    (guarded_request ctx "validate_patch_paths" "guarded_workspace.path_safety"
       (PatchPathSafetyReport.patch_sha256 r) (PatchPathSafetyReport.baseline_commit_sha r)
       (PatchPathSafetyReport.audit_summary r))
    (PolicyDecision.mk BLOCK false SevCritical "Patch contains unsafe paths."
       (Some "guarded-workspace-path-safety"%string) None)
    (PatchPathSafetyReport.audit_summary r).

Definition ensure_paths (d : PatchDiff.t) (target : string) (ctx : run_context) : action W unit :=
  fun w =>
  match ensure_patch_paths_safe resolve d target with
  | Ok _ => (w, Ok ())
  | Raise report =>
      (path_safety_event report ctx ;;; a_raise "Patch path safety validation failed.") w
  end.

Definition git_unit (f : R -> result string unit) : action W unit := a_lift (fun w => f (w_repo w)).

Definition git_step (f : R -> result string R) : action W unit := fun w =>
  match f (w_repo w) with
  | Ok r => (set_repo w r, Ok ())
  | Raise e => (w, Raise e)
  end.

Definition classify_action (d : PatchDiff.t) (risk_report : option ChangeRiskReport.t)
    : action W ChangeRiskReport.t :=
  a_lift (fun _ => map_err path_error_message (report_or_classify d risk_report)).

(** *** safe_apply.py *)

Inductive SafePatchApplyOutcome := SAFE_APPLIED | SAFE_SKIPPED.

Definition safe_outcome_value (o : SafePatchApplyOutcome) : string :=
  match o with SAFE_APPLIED => "applied" | SAFE_SKIPPED => "skipped" end.

Record SafePatchApplyResult := mk_safe_result {
  sr_outcome : SafePatchApplyOutcome;
  sr_target_repo_path : string;
  sr_patch_sha256 : string;
  sr_baseline_commit_sha : string;
  sr_files : list string;
  sr_risk_report : ChangeRiskReport.t;
  sr_skip_reasons : list SafePatchSkipReason.t;
}.

Definition safe_applied (r : SafePatchApplyResult) : bool :=
  match sr_outcome r with SAFE_APPLIED => true | SAFE_SKIPPED => false end.

Definition safe_audit_summary (r : SafePatchApplyResult) : pydict :=
  [("outcome", PStr (safe_outcome_value (sr_outcome r))); ("applied", PBool (safe_applied r));
   ("target_repo_path", PStr (sr_target_repo_path r)); ("patch_sha256", PStr (sr_patch_sha256 r));
   ("baseline_commit_sha", PStr (sr_baseline_commit_sha r));
   ("files", PTuple (List.map PStr (sr_files r)));
   ("overall_risk_level",
    PStr (risk_value (ChangeRiskReport.overall_risk_level (sr_risk_report r))));
   ("risk_counts", of_dict (ChangeRiskReport.risk_counts (sr_risk_report r)));
   ("skip_reasons",
    PTuple (List.map (fun x => of_dict (SafePatchSkipReason.audit_summary x)) (sr_skip_reasons r)));
   ("risk_report", of_dict (ChangeRiskReport.audit_summary (sr_risk_report r)))]%string.

Definition _result (outcome : SafePatchApplyOutcome) (target : string) (d : PatchDiff.t)
    (report : ChangeRiskReport.t) (skip : list SafePatchSkipReason.t) : SafePatchApplyResult :=
  mk_safe_result outcome target (PatchDiff.patch_sha256 d) (PatchDiff.baseline_commit_sha d)
    (List.map PatchFileDiff.path (PatchDiff.files d)) report skip.

(** [hashlib.sha256(patch_bytes).hexdigest()] for the UTF-8 bytes of a text. *)
Definition _ensure_patch_integrity (d : PatchDiff.t) : action W unit :=
  a_when (negb (String.eqb (sha256_hex (PatchDiff.patch d)) (PatchDiff.patch_sha256 d)))
    "Patch content does not match its declared SHA-256." ;;;
  a_when (negb (utf8_len (PatchDiff.patch d) =? PatchDiff.patch_size_bytes d)%Z)
    "Patch content does not match its declared byte length.".

Definition _ensure_target_at_baseline (baseline message : string) : action W unit := fun w =>
  match rev_parse_head (w_repo w) with
  | Raise e => (w, Raise e)
  | Ok out => (w, if String.eqb (strip out) baseline then Ok () else Raise message)
  end.

Definition _verify_applied_patch (expected : PatchDiff.t) : action W unit :=
  let! actual := a_lift (fun w => current_diff (w_repo w) (PatchDiff.baseline_commit_sha expected)) in
  a_when (negb (String.eqb (PatchDiff.patch_sha256 actual) (PatchDiff.patch_sha256 expected)))
    "Applied repository diff does not match the approved patch digest." ;;;
  a_when (negb (PatchDiff.patch_size_bytes actual =? PatchDiff.patch_size_bytes expected)%Z)
    "Applied repository diff does not match the approved patch length." ;;;
  a_when (negb (bool_decide (PatchDiff.files actual = PatchDiff.files expected)))
    "Applied repository file metadata does not match the approved patch." ;;;
  a_when (negb (bool_decide (PatchDiff.ignored_files actual = PatchDiff.ignored_files expected)))
    "Applied repository contains ignored changes outside the patch.".

Definition safe_clean_message : string := "Target repository must be clean before auto-apply.".
Definition safe_baseline_message : string :=
  "Target repository HEAD does not match the patch baseline.".
Definition rolled_back_prefix : string :=
  "Automatic apply failed after mutation; the trusted repository was rolled back safely: ".
Definition not_restored_prefix : string :=
  "Automatic apply failed and rollback could not restore the trusted repository: ".

(** [_rollback_after_failed_apply] always raises. *)
Definition _rollback_after_failed_apply (d : PatchDiff.t) (failure : string)
    : action W SafePatchApplyResult := fun w =>
  match (git_step (fun r => git_reset_reverse r (PatchDiff.patch d)) ;;;
         _ensure_target_at_baseline (PatchDiff.baseline_commit_sha d) safe_baseline_message ;;;
         _ensure_clean_repo safe_clean_message) w with
  | (w', Raise e) => (w', Raise (not_restored_prefix +++ e))
  | (w', Ok _) => (w', Raise (rolled_back_prefix +++ failure))
  end.

Definition write_safe_patch_apply_audit_event (r : SafePatchApplyResult) (ctx : run_context)
    : action W unit :=
  log_event
    (guarded_request ctx "auto_apply_safe_patch" "guarded_workspace.safe_patch_apply"
       (sr_patch_sha256 r) (sr_baseline_commit_sha r) (safe_audit_summary r))
    (PolicyDecision.mk ALLOW true SevLow "Low-risk guarded workspace patch auto-applied."
       (Some "guarded-workspace-safe-patch-auto-apply"%string) None)
    (safe_audit_summary r).

(** The part of [auto_apply_safe_patch] after the patch is applied. *)
Definition verify_and_log (d : PatchDiff.t) (target : string) (report : ChangeRiskReport.t)
    (ctx : run_context) : action W SafePatchApplyResult := fun w =>
  let result := _result SAFE_APPLIED target d report [] in
  match (_verify_applied_patch d ;;; write_safe_patch_apply_audit_event result ctx) w with
  | (w', Ok _) => (w', Ok result)
  | (w', Raise failure) => _rollback_after_failed_apply d failure w'
  end.

Definition auto_apply_safe_patch (d : PatchDiff.t) (target : string)
    (risk_report : option ChangeRiskReport.t) (gate_decision : option GuardedChangeGateDecision.t)
    (ctx : run_context) : action W SafePatchApplyResult :=
  _ensure_git_repo target ;;;
  ensure_paths d target ctx ;;;
  _ensure_clean_repo safe_clean_message ;;;
  _ensure_patch_integrity d ;;;
  _ensure_target_at_baseline (PatchDiff.baseline_commit_sha d) safe_baseline_message ;;;
  let! report := classify_action d risk_report in
  let gate := default (gate_of_report report) gate_decision in
  match _auto_apply_skip_reasons d report gate with
  | [] =>
      git_unit (fun r => apply_check r (PatchDiff.patch d)) ;;;
      git_step (fun r => git_apply r (PatchDiff.patch d)) ;;;
      verify_and_log d target report ctx
  | skip => a_ret (_result SAFE_SKIPPED target d report skip)
  end.

(** *** approved_apply.py *)

Definition APPROVED_PATCH_APPLY_POLICY_ID : string := "guarded-workspace-approved-patch-apply".

Record ApprovedPatchApplyResult := mk_approved_result {
  ar_target_repo_path : string;
  ar_patch_sha256 : string;
  ar_baseline_commit_sha : string;
  ar_approval_id : string;
  ar_approved_by : option string;
  ar_files : list string;
  ar_risk_report : ChangeRiskReport.t;
}.

Definition approved_audit_summary (r : ApprovedPatchApplyResult) : pydict :=
  [("outcome", PStr "applied"); ("applied", PBool true);
   ("target_repo_path", PStr (ar_target_repo_path r)); ("patch_sha256", PStr (ar_patch_sha256 r));
   ("baseline_commit_sha", PStr (ar_baseline_commit_sha r));
   ("approval_id", PStr (ar_approval_id r)); ("approved_by", of_opt_str (ar_approved_by r));
   ("files", PTuple (List.map PStr (ar_files r)));
   ("overall_risk_level",
    PStr (risk_value (ChangeRiskReport.overall_risk_level (ar_risk_report r))));
   ("risk_counts", of_dict (ChangeRiskReport.risk_counts (ar_risk_report r)));
   ("risk_report", of_dict (ChangeRiskReport.audit_summary (ar_risk_report r)))]%string.

Definition write_approved_patch_apply_audit_event (r : ApprovedPatchApplyResult)
    (request : ApprovalRequest.t) : action W unit :=
  log_event
    (ToolRequest.mk "guarded_workspace" (Some "apply_approved_patch"%string)
       (Some (ar_patch_sha256 r)) (of_dict (approved_audit_summary r))
       (ApprovalRequest.requested_by request) (ApprovalRequest.agent_id request)
       (ApprovalRequest.environment request)
       [("trace_id", PStr (ApprovalRequest.trace_id request));
        ("event_type", PStr "guarded_workspace.approved_patch_apply");
        ("approval_id", PStr (ar_approval_id r)); ("patch_sha256", PStr (ar_patch_sha256 r));
        ("baseline_commit_sha", PStr (ar_baseline_commit_sha r))]%string)
    (PolicyDecision.mk ALLOW true (ApprovalRequest.severity request)
       "Approved guarded workspace patch applied to trusted repository."
       (Some APPROVED_PATCH_APPLY_POLICY_ID) None)
    (approved_audit_summary r).

Definition _approval_use_key (request : ApprovalRequest.t) (d : PatchDiff.t) : approval_use :=
  (ApprovalRequest.approval_id request, PatchDiff.patch_sha256 d, PatchDiff.baseline_commit_sha d).

Definition already_used : string := "Approval has already been used for this guarded patch.".

Definition _reserve_approval_use (key : approval_use) : action W unit := fun w =>
  if bool_decide (key ∈ w_used w) then (w, Raise already_used)
  else (mk_world (w_repo w) (w_log w) (key :: w_used w), Ok ()).

Definition _release_approval_use (key : approval_use) (w : W) : W :=
  mk_world (w_repo w) (w_log w) (List.filter (fun k => negb (bool_decide (k = key))) (w_used w)).

Definition _approved_patch_apply_event_matches_key (metadata : pydict) (key : approval_use) : bool :=
  let '(approval_id, patch_sha256, baseline_commit_sha) := key in
  meta_is metadata "approval_id" approval_id && meta_is metadata "patch_sha256" patch_sha256
  && meta_is metadata "baseline_commit_sha" baseline_commit_sha.

Definition _ensure_approval_not_previously_applied (key : approval_use) : action W unit := fun w =>
  match w_log w with
  | None => (w, Raise "Approved patch apply requires an audit logger for durable replay protection.")
  | Some log =>
      match policy_events log APPROVED_PATCH_APPLY_POLICY_ID with
      | Raise e => (w, Raise e)
      | Ok events =>
          (w, if existsb (fun m => _approved_patch_apply_event_matches_key m key) events
              then Raise already_used else Ok ())
      end
  end.

Definition supported_policy_ids : list string :=
  ["guarded-workspace-risky-patch-approval"; "guarded-workspace-intent-approval";
   "guarded-workspace-non-auto-apply-approval"; "guarded-workspace-explicit-approval"]%string.

Definition _validate_request_for_apply (request : ApprovalRequest.t) : action W unit :=
  a_when (negb (String.eqb (ApprovalRequest.tool_name request) "guarded_workspace"))
    "Approval request tool mismatch." ;;;
  a_when (negb (bool_decide (ApprovalRequest.action request = Some "approve_patch_apply"%string)))
    "Approval request action mismatch." ;;;
  a_when (negb match ApprovalRequest.policy_id request with
               | Some p => mem p supported_policy_ids | None => false end)
    "Approval request policy mismatch.".

Definition approved_clean_message : string := "Target repository must be clean before apply.".

(** Here both sides are lower-cased. *)
Definition ensure_head_at_baseline (baseline : string) : action W unit := fun w =>
  match rev_parse_head (w_repo w) with
  | Raise e => (w, Raise e)
  | Ok out =>
      (w, if String.eqb (lower (strip out)) (lower baseline) then Ok ()
          else Raise "Target repository HEAD does not match guarded patch baseline.")
  end.

(** [forced_approval = bool(metadata.get("forced_approval", False))] *)
Definition forced_approval (request : ApprovalRequest.t) : bool :=
  py_truth (dict_get (ApprovalRequest.metadata request) "forced_approval").

Definition request_context (request : ApprovalRequest.t) : run_context :=
  mk_run_context (ApprovalRequest.requested_by request) (ApprovalRequest.agent_id request)
    (ApprovalRequest.environment request) (ApprovalRequest.trace_id request).

(** Everything before the reservation of the approval. *)
Definition apply_preconditions (fromisoformat : string -> option (Z * bool)) (now : Z)
    (d : PatchDiff.t) (target : string) (request : ApprovalRequest.t)
    (decision : ApprovalDecision.t) (risk_report : option ChangeRiskReport.t)
    : action W ChangeRiskReport.t :=
  _ensure_git_repo target ;;;
  ensure_paths d target (request_context request) ;;;
  let! report := classify_action d risk_report in
  let gate := gate_of_report report in
  a_when (GuardedChangeGateDecision.blocked gate) "Blocked patches cannot be applied." ;;;
  a_when (negb (PatchApprovalRequirement.required (requirement_of d report gate))
          && negb (forced_approval request))
    "Patch does not require approval; use the safe auto-apply flow." ;;;
  a_lift (fun _ => map_err exn_text
    (assert_patch_approval_granted fromisoformat request decision d now
       DEFAULT_PATCH_APPROVAL_TTL_SECONDS)) ;;;
  _validate_request_for_apply request ;;;
  _ensure_clean_repo approved_clean_message ;;;
  ensure_head_at_baseline (PatchDiff.baseline_commit_sha d) ;;;
  _ensure_approval_not_previously_applied (_approval_use_key request d) ;;;
  a_ret report.

(** The reservation and the two Git commands, which release it when they fail. *)
Definition reserve_and_apply (d : PatchDiff.t) (key : approval_use) : action W unit :=
  _reserve_approval_use key ;;;
  fun w =>
    match (git_unit (fun r => apply_check r (PatchDiff.patch d)) ;;;
           git_step (fun r => git_apply r (PatchDiff.patch d))) w with
    | (w', Ok _) => (w', Ok ())
    | (w', Raise e) => (_release_approval_use key w', Raise e)
    end.

Definition apply_approved_patch (fromisoformat : string -> option (Z * bool)) (now : Z)
    (d : PatchDiff.t) (target : string) (request : ApprovalRequest.t)
    (decision : ApprovalDecision.t) (risk_report : option ChangeRiskReport.t)
    : action W ApprovedPatchApplyResult :=
  let! report := apply_preconditions fromisoformat now d target request decision risk_report in
  reserve_and_apply d (_approval_use_key request d) ;;;
  let result := mk_approved_result target (PatchDiff.patch_sha256 d)
    (PatchDiff.baseline_commit_sha d) (ApprovalRequest.approval_id request)
    (ApprovalDecision.decided_by decision) (List.map PatchFileDiff.path (PatchDiff.files d)) report in
  write_approved_patch_apply_audit_event result request ;;;
  a_ret result.
End Apply.

(** ** Lemmas *)

Lemma a_bind_Ok {W A B} (m : action W A) (f : A -> action W B) w w' b :
  a_bind m f w = (w', Ok b) -> exists w1 a, m w = (w1, Ok a) /\ f a w1 = (w', Ok b).
Proof. unfold a_bind. destruct (m w) as [w1 [a|e]]; [by eauto|by intros [= _ ?]]. Qed.

Lemma a_bind_Raise {W A B} (m : action W A) (f : A -> action W B) w w' e :
  a_bind m f w = (w', Raise e) ->
  m w = (w', Raise e) \/ exists w1 a, m w = (w1, Ok a) /\ f a w1 = (w', Raise e).
Proof. unfold a_bind. destruct (m w) as [w1 [a|e']]; [by eauto|by intros [= -> ->]; left]. Qed.

Lemma a_when_Ok {W} b e (w w' : W) u : a_when b e w = (w', Ok u) -> w' = w /\ b = false.
Proof. unfold a_when. by destruct b; intros [= <-]. Qed.

Lemma a_lift_Ok {W A} (f : W -> result string A) w w' a :
  a_lift f w = (w', Ok a) -> w' = w /\ f w = Ok a.
Proof. by intros [= <- ?]. Qed.

Section Facts.
Context {R L : Type} {GR : GitRepo R} {AA : ApplyAudit L} {RS : RiskSources}.
Context (resolve : PurePosixPath.t -> PurePosixPath.t).
Local Notation W := (world R L).

(** A computation that changes neither the repository nor the used approvals,
    whatever its outcome. *)
Definition keeps_repo {A} (m : action W A) : Prop :=
  forall w, w_repo (fst (m w)) = w_repo w /\ w_used (fst (m w)) = w_used w.

(** A computation that changes nothing when it returns. *)
Definition reads {A} (m : action W A) : Prop :=
  forall w w' a, m w = (w', Ok a) -> w' = w.

Lemma keeps_bind {A B} (m : action W A) (f : A -> action W B) :
  keeps_repo m -> (forall a, keeps_repo (f a)) -> keeps_repo (a_bind m f).
Proof.
  intros Hm Hf w. unfold a_bind. destruct (Hm w) as [H1 H2]. destruct (m w) as [w1 [a|e]];
    cbn [fst] in *; [|done]. destruct (Hf a w1) as [H3 H4]. by rewrite H3, H4.
Qed.

(** One step of such a computation: it stops with the repository as it was, or
    goes on. *)
Lemma keeps_step {A B} (m : action W A) (f : A -> action W B) w w' res :
  a_bind m f w = (w', res) -> keeps_repo m ->
  (w_repo w' = w_repo w /\ exists e, res = Raise e) \/
  exists w1 a, m w = (w1, Ok a) /\ f a w1 = (w', res).
Proof.
  unfold a_bind. intros Hx Hm. destruct (Hm w) as [Hr _]. destruct (m w) as [w1 [a|e]].
  - right. eauto.
  - left. injection Hx as <- <-. eauto.
Qed.

Lemma keeps_when b e : keeps_repo (a_when b e).
Proof. by intros w. Qed.
Lemma keeps_lift {A} (f : W -> result string A) : keeps_repo (a_lift f).
Proof. by intros w. Qed.
Lemma keeps_ret {A} (a : A) : keeps_repo (a_ret a).
Proof. by intros w. Qed.

Lemma keeps_git_repo target : keeps_repo (_ensure_git_repo target).
Proof. intros w. unfold _ensure_git_repo. by repeat case_match. Qed.
Lemma keeps_clean m : keeps_repo (_ensure_clean_repo m).
Proof. intros w. unfold _ensure_clean_repo. by case_match. Qed.
Lemma keeps_log r p m : keeps_repo (log_event r p m).
Proof. intros w. unfold log_event. case_match; [|done]. by case_match. Qed.
Lemma keeps_paths d target ctx : keeps_repo (ensure_paths resolve d target ctx).
Proof.
  intros w. unfold ensure_paths. case_match; [done|].
  apply keeps_bind; [apply keeps_log|by intros ? w1].
Qed.
Lemma keeps_baseline b m : keeps_repo (_ensure_target_at_baseline b m).
Proof. intros w. unfold _ensure_target_at_baseline. by case_match. Qed.
Lemma keeps_head b : keeps_repo (ensure_head_at_baseline b).
Proof. intros w. unfold ensure_head_at_baseline. by case_match. Qed.
Lemma keeps_unused key : keeps_repo (_ensure_approval_not_previously_applied key).
Proof. intros w. unfold _ensure_approval_not_previously_applied. by repeat case_match. Qed.

Hint Resolve keeps_bind keeps_when keeps_lift keeps_ret keeps_git_repo keeps_clean keeps_log
  keeps_paths keeps_baseline keeps_head keeps_unused : keeps.

(** The goals [keeps_repo m] for a sequence of such computations. *)
Ltac keeps := repeat (apply keeps_bind; [solve [auto with keeps]|intros ?]); auto with keeps.

Lemma keeps_preconditions iso now d target req dec rr :
  keeps_repo (apply_preconditions resolve iso now d target req dec rr).
Proof.
  unfold apply_preconditions, classify_action, _validate_request_for_apply. keeps.
Qed.

Lemma keeps_verify d : keeps_repo (_verify_applied_patch d).
Proof.
  unfold _verify_applied_patch. keeps.
Qed.

Lemma git_repo_Ok target (w w' : W) u :
  _ensure_git_repo target w = (w', Ok u) -> w' = w /\ repo_exists (w_repo w) = true /\
  is_toplevel (w_repo w) = Ok true.
Proof.
  unfold _ensure_git_repo. destruct (repo_exists (w_repo w)); [cbn [negb]|done].
  by destruct (is_toplevel (w_repo w)) as [[]|]; intros [= <-].
Qed.

Lemma paths_Ok d target ctx (w w' : W) u :
  ensure_paths resolve d target ctx w = (w', Ok u) -> w' = w /\
  PatchPathSafetyReport.safe (validate_patch_paths resolve d target) = true.
Proof.
  unfold ensure_paths, ensure_patch_paths_safe, ensure_safe.
  destruct (PatchPathSafetyReport.safe (validate_patch_paths resolve d target)); [by intros [= <-]|].
  intros Hx. apply a_bind_Ok in Hx as (w1 & [] & _ & [=]).
Qed.

Lemma clean_Ok m (w w' : W) u :
  _ensure_clean_repo m w = (w', Ok u) -> w' = w /\
  exists out, status_porcelain (w_repo w) = Ok out /\ truthy (strip out) = false.
Proof.
  unfold _ensure_clean_repo. destruct (status_porcelain (w_repo w)) as [out|e]; [|done].
  destruct (truthy (strip out)) eqn:E; intros [= <-]. eauto.
Qed.

Lemma baseline_Ok b m (w w' : W) u :
  _ensure_target_at_baseline b m w = (w', Ok u) -> w' = w /\
  exists out, rev_parse_head (w_repo w) = Ok out /\ strip out = b.
Proof.
  unfold _ensure_target_at_baseline. destruct (rev_parse_head (w_repo w)) as [out|e]; [|done].
  destruct (String.eqb_spec (strip out) b); intros [= <-]. eauto.
Qed.

Lemma head_Ok b (w w' : W) u :
  ensure_head_at_baseline b w = (w', Ok u) -> w' = w /\
  exists out, rev_parse_head (w_repo w) = Ok out /\ lower (strip out) = lower b.
Proof.
  unfold ensure_head_at_baseline. destruct (rev_parse_head (w_repo w)) as [out|e]; [|done].
  destruct (String.eqb_spec (lower (strip out)) (lower b)); intros [= <-]. eauto.
Qed.

Lemma unused_Ok key (w w' : W) u :
  _ensure_approval_not_previously_applied key w = (w', Ok u) -> w' = w /\
  exists log events, w_log w = Some log /\
    policy_events log APPROVED_PATCH_APPLY_POLICY_ID = Ok events /\
    existsb (fun m => _approved_patch_apply_event_matches_key m key) events = false.
Proof.
  unfold _ensure_approval_not_previously_applied. destruct (w_log w) as [log|]; [|done].
  destruct (policy_events log _) as [events|] eqn:E; [|done].
  destruct (existsb _ events) eqn:Ex; intros [= <-]. eauto 10.
Qed.

Lemma git_step_Ok f (w w' : W) u :
  git_step f w = (w', Ok u) -> exists r, f (w_repo w) = Ok r /\ w' = set_repo w r.
Proof. unfold git_step. destruct (f (w_repo w)); intros [= <-]. eauto. Qed.

(** What held before an approval was reserved. *)
Record preconditions (iso : string -> option (Z * bool)) (now : Z) (d : PatchDiff.t)
    (target : string) (req : ApprovalRequest.t) (dec : ApprovalDecision.t)
    (rr : option ChangeRiskReport.t) (w : W) (report : ChangeRiskReport.t) : Prop := mk_pre {
  p_root : repo_exists (w_repo w) = true /\ is_toplevel (w_repo w) = Ok true;
  p_report : report_or_classify d rr = Ok report;
  p_paths : PatchPathSafetyReport.safe (validate_patch_paths resolve d target) = true;
  p_gate : GuardedChangeGateDecision.blocked (gate_of_report report) = false;
  p_required : PatchApprovalRequirement.required (requirement_of d report (gate_of_report report))
               = true \/ forced_approval req = true;
  p_granted : granted iso req dec d now DEFAULT_PATCH_APPROVAL_TTL_SECONDS;
  p_tool : ApprovalRequest.tool_name req = "guarded_workspace"%string;
  p_action : ApprovalRequest.action req = Some "approve_patch_apply"%string;
  p_policy : exists p, ApprovalRequest.policy_id req = Some p /\ p ∈ supported_policy_ids;
  p_clean : exists out, status_porcelain (w_repo w) = Ok out /\ truthy (strip out) = false;
  p_head : exists out, rev_parse_head (w_repo w) = Ok out /\
             lower (strip out) = lower (PatchDiff.baseline_commit_sha d);
  p_fresh : exists log events, w_log w = Some log /\
    policy_events log APPROVED_PATCH_APPLY_POLICY_ID = Ok events /\
    existsb (fun m => _approved_patch_apply_event_matches_key m (_approval_use_key req d)) events
      = false;
}.

Lemma preconditions_Ok iso now d target req dec rr (w w' : W) report :
  apply_preconditions resolve iso now d target req dec rr w = (w', Ok report) ->
  w' = w /\ preconditions iso now d target req dec rr w report.
Proof.
  unfold apply_preconditions. intros Hx.
  apply a_bind_Ok in Hx as (w1 & u1 & [-> Hroot]%git_repo_Ok & Hx).
  apply a_bind_Ok in Hx as (w2 & u2 & [-> Hpaths]%paths_Ok & Hx).
  apply a_bind_Ok in Hx as (w3 & r & [-> Hr]%a_lift_Ok & Hx).
  apply a_bind_Ok in Hx as (w4 & u4 & [-> Hb]%a_when_Ok & Hx).
  apply a_bind_Ok in Hx as (w5 & u5 & [-> Hq]%a_when_Ok & Hx).
  apply a_bind_Ok in Hx as (w6 & [] & [-> Hg]%a_lift_Ok & Hx).
  apply a_bind_Ok in Hx as (w7 & u7 & Hv & Hx).
  apply a_bind_Ok in Hx as (w8 & u8 & [-> Hc]%clean_Ok & Hx).
  apply a_bind_Ok in Hx as (w9 & u9 & [-> Hh]%head_Ok & Hx).
  apply a_bind_Ok in Hx as (w10 & u10 & [-> Hu]%unused_Ok & [= <- <-]).
  unfold _validate_request_for_apply in Hv.
  apply a_bind_Ok in Hv as (w11 & u11 & [-> Htool]%a_when_Ok & Hv).
  apply a_bind_Ok in Hv as (w12 & u12 & [-> Hact]%a_when_Ok & [-> Hpol]%a_when_Ok).
  split; [done|]. constructor; try done.
  - destruct (report_or_classify d rr) as [r'|e]; cbn in Hr; [|done]. by injection Hr as <-.
  - destruct (PatchApprovalRequirement.required _); [by left|right].
    cbn in Hq. by apply negb_false_iff.
  - destruct (assert_patch_approval_granted iso req dec d now _) as [[]|e] eqn:E; cbn in Hg; [|done].
    by apply assert_granted_iff in E as [_ ?].
  - by apply negb_false_iff, String.eqb_eq in Htool.
  - by apply negb_false_iff, bool_decide_eq_true in Hact.
  - apply negb_false_iff in Hpol. destruct (ApprovalRequest.policy_id req) as [p|]; [|done].
    exists p. split; [done|]. by apply mem_spec.
Qed.

Lemma reserve_and_apply_spec d key (w w' : W) res :
  reserve_and_apply d key w = (w', res) ->
  match res with
  | Ok _ => key ∉ w_used w /\ apply_check (w_repo w) (PatchDiff.patch d) = Ok () /\
      git_apply (w_repo w) (PatchDiff.patch d) = Ok (w_repo w') /\
      w_used w' = key :: w_used w /\ w_log w' = w_log w
  | Raise _ => w_repo w' = w_repo w /\ w_used w' = w_used w
  end.
Proof.
  unfold reserve_and_apply, a_bind at 1, _reserve_approval_use. intros Hx.
  destruct (bool_decide_reflect (key ∈ w_used w)) as [Hin|Hnot]; cbn in Hx;
    [by injection Hx as <- <-|].
  unfold a_bind, git_unit, a_lift, git_step in Hx. cbn [w_repo] in Hx.
  assert (Hrel : List.filter (fun k => negb (bool_decide (k = key))) (key :: w_used w) = w_used w).
  { cbn. rewrite bool_decide_eq_true_2 by done. cbn. apply filter_id, forallb_elem_of.
    intros k Hk. apply negb_true_iff, bool_decide_eq_false. by intros ->. }
  destruct (apply_check (w_repo w) (PatchDiff.patch d)) as [[]|e] eqn:Ec; cbn in Hx.
  - destruct (git_apply (w_repo w) (PatchDiff.patch d)) as [r|e] eqn:Eg; cbn in Hx;
      injection Hx as <- <-; [by split_and!|split; [done|exact Hrel]].
  - injection Hx as <- <-. split; [done|exact Hrel].
Qed.

(** Before the patch of an auto-apply: nothing it does touches the repository
    or the used approvals. *)
Lemma keeps_integrity d : keeps_repo (_ensure_patch_integrity d).
Proof. unfold _ensure_patch_integrity. keeps. Qed.

Lemma integrity_Ok d (w w' : W) u :
  _ensure_patch_integrity d w = (w', Ok u) -> w' = w /\
  sha256_hex (PatchDiff.patch d) = PatchDiff.patch_sha256 d /\
  utf8_len (PatchDiff.patch d) = PatchDiff.patch_size_bytes d.
Proof.
  unfold _ensure_patch_integrity. intros Hx.
  apply a_bind_Ok in Hx as (w1 & u1 & [-> Hs]%a_when_Ok & [-> Hl]%a_when_Ok).
  split; [done|]. by apply negb_false_iff, String.eqb_eq in Hs; apply negb_false_iff, Z.eqb_eq in Hl.
Qed.

(** What [_verify_applied_patch] established about a repository. *)
Definition verified (r : R) (d : PatchDiff.t) : Prop :=
  exists actual, current_diff r (PatchDiff.baseline_commit_sha d) = Ok actual /\
    PatchDiff.patch_sha256 actual = PatchDiff.patch_sha256 d /\
    PatchDiff.patch_size_bytes actual = PatchDiff.patch_size_bytes d /\
    PatchDiff.files actual = PatchDiff.files d /\
    PatchDiff.ignored_files actual = PatchDiff.ignored_files d.

Lemma verify_Ok d (w w' : W) u :
  _verify_applied_patch d w = (w', Ok u) -> w' = w /\ verified (w_repo w) d.
Proof.
  unfold _verify_applied_patch. intros Hx.
  apply a_bind_Ok in Hx as (w1 & actual & [-> Ha]%a_lift_Ok & Hx).
  apply a_bind_Ok in Hx as (w2 & u2 & [-> H1]%a_when_Ok & Hx).
  apply a_bind_Ok in Hx as (w3 & u3 & [-> H2]%a_when_Ok & Hx).
  apply a_bind_Ok in Hx as (w4 & u4 & [-> H3]%a_when_Ok & [-> H4]%a_when_Ok).
  apply negb_false_iff in H1, H2, H3, H4. apply String.eqb_eq in H1. apply Z.eqb_eq in H2.
  apply bool_decide_eq_true in H3, H4. split; [done|]. by exists actual.
Qed.

(** Before the patch: either the state is as it was and the patch is next, or
    the run stops with the repository as it was. *)
Record safe_preconditions (d : PatchDiff.t) (target : string) (rr : option ChangeRiskReport.t)
    (gd : option GuardedChangeGateDecision.t) (w : W) (report : ChangeRiskReport.t) : Prop := mk_safe_pre {
  sp_root : repo_exists (w_repo w) = true /\ is_toplevel (w_repo w) = Ok true;
  sp_report : report_or_classify d rr = Ok report;
  sp_paths : PatchPathSafetyReport.safe (validate_patch_paths resolve d target) = true;
  sp_clean : exists out, status_porcelain (w_repo w) = Ok out /\ truthy (strip out) = false;
  sp_head : exists out, rev_parse_head (w_repo w) = Ok out /\
              strip out = PatchDiff.baseline_commit_sha d;
  sp_digest : sha256_hex (PatchDiff.patch d) = PatchDiff.patch_sha256 d;
}.

(** The report of the caller, if there is one, classifies the patch under
    these validated limits; without one the defaults apply. *)
Definition classified_under (d : PatchDiff.t) (rr : option ChangeRiskReport.t)
    (policy : DiffLimitPolicy.t) : Prop :=
  match rr with
  | None => policy = DEFAULT_DIFF_LIMIT_POLICY
  | Some report => exists vr policy0, make_diff_limit_policy policy0 = Ok policy /\
                     classify_patch_risk d vr policy = Ok report
  end.

Lemma skip_free_is_harmless d rr gate policy report :
  report_or_classify d rr = Ok report -> _auto_apply_skip_reasons d report gate = [] ->
  classified_under d rr policy ->
  within_soft d policy /\
  exists added, extract_added_lines_by_path (PatchDiff.patch d) = Ok added /\
    Forall (harmless_file added) (PatchDiff.files d).
Proof.
  intros Hrep Hskip Hpol.
  assert (Hc : exists vr policy0, make_diff_limit_policy policy0 = Ok policy /\
                 classify_patch_risk d vr policy = Ok report).
  { destruct rr as [report'|]; cbn in Hrep, Hpol; [by injection Hrep as <-|].
    subst policy. by exists [], DEFAULT_DIFF_LIMIT_POLICY. }
  destruct Hc as (vr & policy0 & Hp & Hc).
  by destruct (eligible_patch_is_harmless _ _ _ _ _ _ Hp Hc Hskip).
Qed.

(** [auto_apply_safe_patch] up to the choice between skipping and applying. *)
Lemma auto_apply_steps d target rr gd ctx (w w' : W) res :
  auto_apply_safe_patch resolve d target rr gd ctx w = (w', res) ->
  (w_repo w' = w_repo w /\ exists e, res = Raise e) \/
  exists report, safe_preconditions d target rr gd w report /\
    (let gate := default (gate_of_report report) gd in
     (_auto_apply_skip_reasons d report gate <> [] /\ w' = w /\
      res = Ok (_result SAFE_SKIPPED target d report (_auto_apply_skip_reasons d report gate))) \/
     (_auto_apply_skip_reasons d report gate = [] /\
      (git_unit (fun r => apply_check r (PatchDiff.patch d)) ;;;
       git_step (fun r => git_apply r (PatchDiff.patch d)) ;;;
       verify_and_log d target report ctx) w = (w', res))).
Proof.
  unfold auto_apply_safe_patch. intros Hx.
  apply keeps_step in Hx as [?|(w1 & u1 & [-> Hroot]%git_repo_Ok & Hx)]; [by left| |apply keeps_git_repo].
  apply keeps_step in Hx as [?|(w2 & u2 & [-> Hp]%paths_Ok & Hx)]; [by left| |apply keeps_paths].
  apply keeps_step in Hx as [?|(w3 & u3 & [-> Hc]%clean_Ok & Hx)]; [by left| |apply keeps_clean].
  apply keeps_step in Hx as [?|(w4 & u4 & [-> [Hs _]]%integrity_Ok & Hx)];
    [by left| |apply keeps_integrity].
  apply keeps_step in Hx as [?|(w5 & u5 & [-> Hh]%baseline_Ok & Hx)]; [by left| |apply keeps_baseline].
  apply keeps_step in Hx as [?|(w6 & report & [-> Hr]%a_lift_Ok & Hx)]; [by left| |apply keeps_lift].
  right. exists report. split.
  { constructor; try done. destruct (report_or_classify d rr); cbn in Hr; [|done].
    by injection Hr as ->. }
  cbn zeta. destruct (_auto_apply_skip_reasons d report _) as [|x xs]; [by right|left].
  by injection Hx as <- <-.
Qed.

(** After a successful [git apply]: the result and the audit event, or the
    rollback. *)
Lemma verify_and_log_steps d target report ctx (w w' : W) res :
  verify_and_log d target report ctx w = (w', res) ->
  (exists r, res = Ok r /\ sr_outcome r = SAFE_APPLIED /\ verified (w_repo w) d /\
     w_repo w' = w_repo w) \/
  exists failure w1, w_repo w1 = w_repo w /\
    _rollback_after_failed_apply d failure w1 = (w', res).
Proof.
  unfold verify_and_log. intros Hx.
  match type of Hx with context [a_bind ?m ?f w] => destruct (a_bind m f w) as [w1 [u|failure]] eqn:E end.
  - injection Hx as <- <-. left. eexists. split_and!; [done|done| |].
    + by apply a_bind_Ok in E as (w2 & u2 & [-> Hv]%verify_Ok & _).
    + apply keeps_step in E as [[? [? ?]]|(w2 & u2 & [-> _]%verify_Ok & E)]; [done| |apply keeps_verify].
      unfold write_safe_patch_apply_audit_event in E.
      match type of E with log_event ?a ?b ?c w = _ => pose proof (keeps_log a b c w) as [K _] end.
      by rewrite E in K.
  - right. exists failure, w1. split; [|done].
    assert (K : keeps_repo (_verify_applied_patch d ;;;
      write_safe_patch_apply_audit_event (_result SAFE_APPLIED target d report []) ctx)).
    { apply keeps_bind; [apply keeps_verify|intros ?; apply keeps_log]. }
    destruct (K w) as [Kr _]. by rewrite E in Kr.
Qed.

(** Reversing a patch that was just applied restores the repository. *)
Definition reverse_restores : Prop :=
  forall r r' patch, git_apply r patch = Ok r' -> git_reset_reverse r' patch = Ok r.

Lemma rollback_restores d failure (w w' : W) r0 res :
  reverse_restores -> git_apply r0 (PatchDiff.patch d) = Ok (w_repo w) ->
  (exists out, status_porcelain r0 = Ok out /\ truthy (strip out) = false) ->
  (exists out, rev_parse_head r0 = Ok out /\ strip out = PatchDiff.baseline_commit_sha d) ->
  _rollback_after_failed_apply d failure w = (w', res) ->
  w_repo w' = r0 /\ res = Raise (rolled_back_prefix +++ failure).
Proof.
  intros Hrev Ha (out & Hs & Ht) (head & Hh & Hb) Hx.
  unfold _rollback_after_failed_apply, a_bind, git_step in Hx. rewrite (Hrev _ _ _ Ha) in Hx.
  unfold _ensure_target_at_baseline, _ensure_clean_repo in Hx. cbn [w_repo set_repo] in Hx.
  rewrite Hh, Hb, String.eqb_refl in Hx. cbn [w_repo set_repo] in Hx. rewrite Hs, Ht in Hx.
  by injection Hx as <- <-.
Qed.
(** [apply_approved_patch] after its preconditions: every outcome. *)
Lemma apply_steps iso now d target req dec rr (w w' : W) res :
  apply_approved_patch resolve iso now d target req dec rr w = (w', res) ->
  let key := _approval_use_key req d in
  (w_repo w' = w_repo w /\ w_used w' = w_used w /\ exists e, res = Raise e) \/
  exists report w1,
    preconditions iso now d target req dec rr w report /\
    key ∉ w_used w /\ apply_check (w_repo w) (PatchDiff.patch d) = Ok () /\
    git_apply (w_repo w) (PatchDiff.patch d) = Ok (w_repo w') /\
    w_used w' = key :: w_used w /\ w_log w1 = w_log w /\
    let result := mk_approved_result target (PatchDiff.patch_sha256 d)
      (PatchDiff.baseline_commit_sha d) (ApprovalRequest.approval_id req)
      (ApprovalDecision.decided_by dec) (List.map PatchFileDiff.path (PatchDiff.files d)) report in
    exists r, write_approved_patch_apply_audit_event result req w1 = (w', r) /\
      (match r with Ok _ => res = Ok result | Raise e => res = Raise e end).
Proof.
  unfold apply_approved_patch. intros Hx. cbn zeta.
  unfold a_bind at 1 in Hx.
  pose proof (keeps_preconditions iso now d target req dec rr w) as [Kr Ku].
  destruct (apply_preconditions _ iso now d target req dec rr w) as [w0 [report|e]] eqn:Ep;
    cbn [fst] in Kr, Ku; [|left; injection Hx as <- <-; eauto].
  apply preconditions_Ok in Ep as [-> Hpre]. clear Kr Ku.
  unfold a_bind at 1 in Hx.
  destruct (reserve_and_apply d (_approval_use_key req d) w) as [w1 ra] eqn:Er.
  pose proof (reserve_and_apply_spec _ _ _ _ _ Er) as Hs. destruct ra as [u|e].
  2: { left. injection Hx as <- <-. destruct Hs. eauto. }
  destruct Hs as (Hn & Hc & Hg & Hu & Hl). right. exists report, w1.
  unfold a_bind, a_ret in Hx. unfold write_approved_patch_apply_audit_event in *.
  match type of Hx with context [log_event ?a ?b ?c w1] =>
    pose proof (keeps_log a b c w1) as [Kr Ku]; destruct (log_event a b c w1) as [w2 ra] eqn:El end.
  cbn [fst] in Kr, Ku. assert (w2 = w') as -> by (by destruct ra; injection Hx as <- <-).
  rewrite Kr, Ku. split_and!; try done. exists ra. split; [done|].
  by destruct ra as [[]|e]; injection Hx as <-.
Qed.

(** Some use of the key is on record: in this process or in the log. *)
Definition use_recorded (key : approval_use) (w : W) : Prop :=
  key ∈ w_used w \/
  exists log events metadata, w_log w = Some log /\
    policy_events log APPROVED_PATCH_APPLY_POLICY_ID = Ok events /\ metadata ∈ events /\
    _approved_patch_apply_event_matches_key metadata key = true.

Lemma recorded_refuses iso now d target req dec rr (w w' : W) res :
  use_recorded (_approval_use_key req d) w ->
  apply_approved_patch resolve iso now d target req dec rr w = (w', res) ->
  w_repo w' = w_repo w /\ w_used w' = w_used w /\ exists e, res = Raise e.
Proof.
  intros Hrec Hx. apply apply_steps in Hx as [?|(report & w1 & Hpre & Hn & _)]; [done|exfalso].
  destruct Hrec as [Hin|(log & events & m & Hl & He & Hm & Hk)]; [done|].
  destruct (p_fresh _ _ _ _ _ _ _ _ _ Hpre) as (log' & events' & Hl' & He' & Hx).
  assert (log' = log) as -> by congruence. rewrite He in He'. injection He' as <-.
  apply not_true_iff_false in Hx. apply Hx, existsb_exists. exists m.
  by rewrite <- list_elem_of_In.
Qed.

Lemma summary_matches req d target dec report :
  _approved_patch_apply_event_matches_key
    (approved_audit_summary (mk_approved_result target (PatchDiff.patch_sha256 d)
      (PatchDiff.baseline_commit_sha d) (ApprovalRequest.approval_id req)
      (ApprovalDecision.decided_by dec) (List.map PatchFileDiff.path (PatchDiff.files d)) report))
    (_approval_use_key req d) = true.
Proof.
  unfold _approved_patch_apply_event_matches_key, _approval_use_key, meta_is, dict_get.
  cbn [approved_audit_summary dict_lookup String.eqb Ascii.eqb Bool.eqb ar_approval_id
    ar_patch_sha256 ar_baseline_commit_sha default from_option id].
  unfold dict_lookup. cbn -[py_eq]. by rewrite !py_eq_refl.
Qed.
End Facts.

(** *** Examples: a repository that lists the patches applied to it *)

Definition toy_repo : Type := list string.

Section Toy.
Context (diff : PatchDiff.t) (broken : bool).

(** [broken] makes the verification after the apply find another patch. *)
Definition toy_git : GitRepo toy_repo := {|
  repo_exists := fun _ => true;
  is_toplevel := fun _ => Ok true;
  status_porcelain := fun r => Ok (match r with [] => "" | _ => " M docs/guide.md" end)%string;
  rev_parse_head := fun _ => Ok "abc"%string;
  apply_check := fun _ _ => Ok ();
  git_apply := fun r p => Ok (p :: r);
  git_reset_reverse := fun r p =>
    match r with
    | q :: r' => if String.eqb p q then Ok r' else Raise "patch does not apply"%string
    | [] => Raise "patch does not apply"%string
    end;
  current_diff := fun _ _ => if broken then Raise "git diff failed"%string else Ok diff;
|}.
End Toy.

(** A log of requests by the metadata of their events. *)
Definition toy_audit : ApplyAudit (list (string * pydict)) := {|
  write_audit := fun l _ decision metadata =>
    (l ++ [(default ""%string (PolicyDecision.policy_id decision), metadata)], Ok ());
  policy_events := fun l policy =>
    Ok (List.map snd (List.filter (fun e => String.eqb (fst e) policy) l));
|}.

Definition guide_text : string := patch_text (section_lines (docs_section ["Use pip."%string])).

Definition guide_patch : PatchDiff.t :=
  PatchDiff.mk "/w" "abc" guide_text (sha256_hex guide_text) (utf8_len guide_text) [docs_file] [].

Definition toy_context : run_context := mk_run_context "alice" "agent-7" "local" "trace_7".

Definition toy_world : world toy_repo (list (string * pydict)) := mk_world [] (Some []) [].

Notation toy_run broken :=
  (@auto_apply_safe_patch toy_repo (list (string * pydict)) (toy_git guide_patch broken) toy_audit
    example_sources lexical_resolve guide_patch "/srv/repo" None None toy_context toy_world).

Lemma a_bind_step {W A B} (m : action W A) (f : A -> action W B) w w1 a :
  m w = (w1, Ok a) -> a_bind m f w = f a w1.
Proof. unfold a_bind. by intros ->. Qed.

(** The run up to the apply, without evaluating the digest. *)
Lemma toy_run_steps broken :
  exists report, @report_or_classify example_sources guide_patch None = Ok report /\
    toy_run broken =
    @verify_and_log toy_repo (list (string * pydict)) (toy_git guide_patch broken) toy_audit
      guide_patch "/srv/repo" report toy_context (mk_world [guide_text] (Some []) []).
Proof.
  assert (Hskip : match @report_or_classify example_sources guide_patch None with
    | Ok report => _auto_apply_skip_reasons guide_patch report (gate_of_report report)
    | Raise _ => [SafePatchSkipReason.mk "" "" None]
    end = []) by (vm_compute; reflexivity).
  destruct (@report_or_classify example_sources guide_patch None) as [report|e] eqn:Er; [|done].
  exists report. split; [done|]. unfold auto_apply_safe_patch.
  rewrite (a_bind_step _ _ _ toy_world tt) by reflexivity.
  rewrite (a_bind_step _ _ _ toy_world tt).
  2: { unfold ensure_paths, ensure_patch_paths_safe, ensure_safe.
       assert (PatchPathSafetyReport.safe (validate_patch_paths lexical_resolve guide_patch "/srv/repo")
               = true) as -> by (vm_compute; reflexivity). reflexivity. }
  rewrite (a_bind_step _ _ _ toy_world tt) by reflexivity.
  rewrite (a_bind_step _ _ _ toy_world tt).
  2: { unfold _ensure_patch_integrity, a_bind, a_when. cbn [guide_patch PatchDiff.patch
         PatchDiff.patch_sha256 PatchDiff.patch_size_bytes].
       rewrite String.eqb_refl, Z.eqb_refl. reflexivity. }
  rewrite (a_bind_step _ _ _ toy_world tt) by reflexivity.
  rewrite (a_bind_step _ _ _ toy_world report) by (unfold classify_action, a_lift; by rewrite Er).
  cbn zeta. cbn [default from_option]. unfold id. rewrite Hskip. reflexivity.
Qed.

Lemma toy_run_applies :
  exists w' r, toy_run false = (w', Ok r) /\ sr_outcome r = SAFE_APPLIED /\ w_repo w' = [guide_text].
Proof.
  destruct (toy_run_steps false) as (report & _ & ->). unfold verify_and_log.
  erewrite a_bind_step.
  2: { instantiate (1 := tt). instantiate (1 := mk_world [guide_text] (Some []) []).
       unfold _verify_applied_patch, a_bind, a_when, a_lift.
       cbn [current_diff toy_git PatchDiff.patch_sha256 PatchDiff.patch_size_bytes guide_patch].
       rewrite String.eqb_refl, Z.eqb_refl, !bool_decide_eq_true_2 by reflexivity. reflexivity. }
  eexists _, _. split; [reflexivity|]. split; reflexivity.
Qed.

Lemma toy_run_rolls_back :
  exists w', toy_run true = (w', Raise (rolled_back_prefix +++ "git diff failed")).
Proof.
  destruct (toy_run_steps true) as (report & _ & ->). unfold verify_and_log.
  assert (Hv : (@_verify_applied_patch toy_repo (list (string * pydict)) (toy_git guide_patch true)
    guide_patch ;;;
    @write_safe_patch_apply_audit_event toy_repo (list (string * pydict)) toy_audit
      (_result SAFE_APPLIED "/srv/repo" guide_patch report []) toy_context)
    (mk_world [guide_text] (Some []) []) = (mk_world [guide_text] (Some []) [],
                                            Raise "git diff failed"%string)) by reflexivity.
  rewrite Hv. unfold _rollback_after_failed_apply.
  rewrite (a_bind_step _ _ _ toy_world tt).
  2: { unfold git_step. cbn [git_reset_reverse toy_git w_repo guide_patch PatchDiff.patch].
       rewrite String.eqb_refl. reflexivity. }
  eexists. reflexivity.
Qed.

Lemma toy_reverse_restores diff broken : @reverse_restores _ (toy_git diff broken).
Proof. intros r r' p [= <-]. cbn. by rewrite String.eqb_refl. Qed.

(** *** An approved patch, whatever digest it declares *)

(** The digest is declared, not computed. *)
Definition declared_patch (sha : string) : PatchDiff.t :=
  PatchDiff.mk "/w" "abc" guide_text sha (utf8_len guide_text) [docs_file] [].

Definition explicit_request (sha : string) : ApprovalRequest.t :=
  ApprovalRequest.mk "apr_9" "1000000" "trace_9" "alice" "agent-7" "prod" "guarded_workspace"
    (Some "approve_patch_apply"%string) (PStr sha)
    (Some "guarded-workspace-explicit-approval"%string) "explicit" SevHigh []
    [("patch_sha256", PStr sha); ("baseline_commit_sha", PStr "abc");
     ("forced_approval", PBool true); ("artifact_id", PStr "art_1")]%string.

Notation toy_apply sha d w :=
  (@apply_approved_patch toy_repo (list (string * pydict)) (toy_git (declared_patch sha) false)
    toy_audit example_sources lexical_resolve decimal_time 3000000 (declared_patch sha) "/srv/repo"
    (explicit_request sha) d None w).

Lemma toy_approval :
  exists d, approve_patch_request (explicit_request "not-the-sha") "bob" "reviewed" None "2000000" = Ok d.
Proof. apply approve_Ok; [vm_compute; reflexivity|reflexivity]. Qed.

(** A clean repository and an empty log, with the given approvals used. *)
Definition used_world (used : list approval_use) : world toy_repo (list (string * pydict)) :=
  mk_world [] (Some []) used.

Lemma toy_preconditions d used :
  approve_patch_request (explicit_request "not-the-sha") "bob" "reviewed" None "2000000" = Ok d ->
  exists report, @apply_preconditions toy_repo (list (string * pydict))
    (toy_git (declared_patch "not-the-sha") false) toy_audit example_sources lexical_resolve
    decimal_time 3000000 (declared_patch "not-the-sha") "/srv/repo" (explicit_request "not-the-sha")
    d None (used_world used) = (used_world used, Ok report).
Proof.
  intros Ha.
  assert (Hgate : match @report_or_classify example_sources (declared_patch "not-the-sha") None with
    | Ok report => GuardedChangeGateDecision.blocked (gate_of_report report)
    | Raise _ => true
    end = false) by (vm_compute; reflexivity).
  destruct (@report_or_classify example_sources (declared_patch "not-the-sha") None)
    as [report|e] eqn:Er; [|done].
  assert (Hg : assert_patch_approval_granted decimal_time (explicit_request "not-the-sha") d
    (declared_patch "not-the-sha") 3000000 DEFAULT_PATCH_APPROVAL_TTL_SECONDS = Ok ()).
  { eapply (approved_is_granted decimal_time _ _ _ _ _ _ _ _ 1000000 2000000 Ha);
      first [reflexivity|lia]. }
  exists report. unfold apply_preconditions.
  rewrite (a_bind_step _ _ _ (used_world used) tt) by reflexivity.
  rewrite (a_bind_step _ _ _ (used_world used) tt).
  2: { unfold ensure_paths, ensure_patch_paths_safe, ensure_safe.
       assert (PatchPathSafetyReport.safe (validate_patch_paths lexical_resolve
         (declared_patch "not-the-sha") "/srv/repo") = true) as -> by (vm_compute; reflexivity).
       reflexivity. }
  rewrite (a_bind_step _ _ _ (used_world used) report) by (unfold classify_action, a_lift; by rewrite Er).
  cbn zeta. rewrite (a_bind_step _ _ _ (used_world used) tt) by (unfold a_when; by rewrite Hgate).
  rewrite (a_bind_step _ _ _ (used_world used) tt) by (unfold a_when; by rewrite andb_false_r).
  rewrite (a_bind_step _ _ _ (used_world used) tt) by (unfold a_lift; by rewrite Hg).
  rewrite !(a_bind_step _ _ _ (used_world used) tt) by reflexivity. reflexivity.
Qed.

Lemma toy_apply_steps d :
  approve_patch_request (explicit_request "not-the-sha") "bob" "reviewed" None "2000000" = Ok d ->
  exists r w', toy_apply "not-the-sha" d toy_world = (w', Ok r) /\ w_repo w' = [guide_text] /\
    w_used w' = [("apr_9", "not-the-sha", "abc")%string].
Proof.
  intros Ha. destruct (toy_preconditions d [] Ha) as (report & Hpre).
  unfold apply_approved_patch. rewrite (a_bind_step _ _ _ _ _ Hpre).
  eexists _, _. split; [reflexivity|]. split; reflexivity.
Qed.

Lemma hex_length l : String.length (hex l) = 2 * List.length l.
Proof. induction l as [|b l IH]; cbn; [done|]. rewrite IH. lia. Qed.

Lemma sha256_hex_not_odd s t n : String.length t = 2 * n + 1 -> sha256_hex s <> t.
Proof. intros Ht <-. unfold sha256_hex in Ht. rewrite hex_length in Ht. lia. Qed.

(** ** Theorems *)

(** C23 What auto-apply does when it applies, whatever report and gate
    decision the caller passes or leaves out: the target was the root of a Git
    repository, clean and at the baseline of the patch, the text of the patch
    has its declared digest, its paths are safe, it has files and ignores none,
    and the gate that was consulted does not block; the state afterwards is
    [git apply] of that text and its diff was found to be the patch.  When the
    report is the classification of this patch, under any validated limits and
    with any validation reasons, be it passed by the caller (as the finalizer
    does) or made by auto-apply itself, the patch is within the soft limits and
    every file is harmless (documentation or tests, no secret among the lines
    attributed to it, mode 100644, not binary). *)
Theorem auto_applied_patch_is_harmless {R L} `{GitRepo R, ApplyAudit L, RiskSources}
    resolve d target rr gd ctx (w w' : world R L) r :
  auto_apply_safe_patch resolve d target rr gd ctx w = (w', Ok r) ->
  sr_outcome r = SAFE_APPLIED ->
  git_apply (w_repo w) (PatchDiff.patch d) = Ok (w_repo w') /\ verified (w_repo w') d /\
  sha256_hex (PatchDiff.patch d) = PatchDiff.patch_sha256 d /\
  repo_exists (w_repo w) = true /\ is_toplevel (w_repo w) = Ok true /\
  (exists out, status_porcelain (w_repo w) = Ok out /\ truthy (strip out) = false) /\
  (exists out, rev_parse_head (w_repo w) = Ok out /\ strip out = PatchDiff.baseline_commit_sha d) /\
  PatchPathSafetyReport.safe (validate_patch_paths resolve d target) = true /\
  PatchDiff.files d <> [] /\ PatchDiff.ignored_files d = [] /\
  exists report, report_or_classify d rr = Ok report /\
    GuardedChangeGateDecision.blocked (default (gate_of_report report) gd) = false /\
    forall policy, classified_under d rr policy ->
      within_soft d policy /\
      exists added, extract_added_lines_by_path (PatchDiff.patch d) = Ok added /\
        Forall (harmless_file added) (PatchDiff.files d).
Proof.
  intros Hrun Hout. apply auto_apply_steps in Hrun as [[_ [e He]]|(report & Hpre & Hcase)]; [done|].
  cbn zeta in Hcase. destruct Hcase as [(_ & _ & Hr)|[Hskip Hrun]].
  { injection Hr as ->. done. }
  apply a_bind_Ok in Hrun as (w1 & u1 & [-> _]%a_lift_Ok & Hrun).
  apply a_bind_Ok in Hrun as (w2 & u2 & (repo & Ha & ->)%git_step_Ok & Hrun).
  destruct Hpre as [[Hex Htop] Hrep Hpath Hclean Hhead Hsha].
  apply verify_and_log_steps in Hrun as [(r' & _ & _ & Hv & Hw)|(f & w3 & _ & Hrb)].
  - cbn [w_repo set_repo] in Hv, Hw. rewrite Hw.
    destruct (skip_reasons_nil _ _ _ Hskip) as (Hb & Hf & Hi & _).
    split_and!; try done. exists report. split_and!; [done|done|].
    intros policy Hpol. by eapply skip_free_is_harmless.
  - exfalso. unfold _rollback_after_failed_apply in Hrb. by destruct (a_bind _ _ w3) as [w4 [?|?]].
Qed.

Lemma auto_applied_witness :
  exists w' r, toy_run false = (w', Ok r) /\ w_repo w' = [guide_text] /\
    within_soft guide_patch DEFAULT_DIFF_LIMIT_POLICY.
Proof.
  destruct toy_run_applies as (w' & r & E & Hout & Hrepo).
  exists w', r. split; [exact E|]. split; [exact Hrepo|].
  destruct (@auto_applied_patch_is_harmless toy_repo (list (string * pydict))
    (toy_git guide_patch false) toy_audit example_sources lexical_resolve guide_patch "/srv/repo"
    None None toy_context toy_world w' r E Hout)
    as (_ & _ & _ & _ & _ & _ & _ & _ & _ & _ & report & _ & _ & Hsoft).
  exact (proj1 (Hsoft DEFAULT_DIFF_LIMIT_POLICY eq_refl)).
Defined.

(** Auto-apply is all or nothing: provided reversing a patch undoes
    [git apply], the repository is the applied one when the result says
    applied, and in every other case, be it a skip, a failed check, a failed
    verification or a failed audit write, it is the repository it was. *)
Theorem auto_apply_is_all_or_nothing {R L} `{GitRepo R, ApplyAudit L, RiskSources}
    resolve d target rr gd ctx (w w' : world R L) res :
  reverse_restores ->
  auto_apply_safe_patch resolve d target rr gd ctx w = (w', res) ->
  (exists r, res = Ok r /\ sr_outcome r = SAFE_APPLIED /\
     git_apply (w_repo w) (PatchDiff.patch d) = Ok (w_repo w')) \/
  (w_repo w' = w_repo w /\ forall r, res = Ok r -> sr_outcome r = SAFE_SKIPPED).
Proof.
  intros Hrev Hrun.
  apply auto_apply_steps in Hrun as [[Hw [e ->]]|(report & [_ _ _ Hc Hh _] & Hcase)]; [by right|].
  cbn zeta in Hcase. destruct Hcase as [(_ & -> & ->)|[_ Hrun]].
  { right. split; [done|]. by intros r [= <-]. }
  apply keeps_step in Hrun as [[Hw [e ->]]|(w1 & u1 & [-> _]%a_lift_Ok & Hrun)];
    [by right| |apply keeps_lift].
  unfold a_bind, git_step in Hrun.
  destruct (git_apply (w_repo w) (PatchDiff.patch d)) as [repo|e] eqn:Ea;
    [|right; by injection Hrun as <- <-].
  apply verify_and_log_steps in Hrun as [(r & -> & Ho & _ & Hw)|(f & w2 & Hw & Hrb)];
    cbn [w_repo set_repo] in Hw.
  - left. exists r. by rewrite Hw.
  - right. destruct (rollback_restores d f w2 w' (w_repo w) res Hrev) as [Hr ->]; try done.
    by rewrite Hw.
Qed.

Lemma auto_apply_rollback_witness :
  exists w', toy_run true = (w', Raise (rolled_back_prefix +++ "git diff failed")) /\
    w_repo w' = w_repo toy_world.
Proof.
  destruct toy_run_rolls_back as (w' & E). exists w'. split; [exact E|].
  destruct (@auto_apply_is_all_or_nothing toy_repo (list (string * pydict))
    (toy_git guide_patch true) toy_audit example_sources lexical_resolve guide_patch "/srv/repo"
    None None toy_context toy_world w' _ (toy_reverse_restores guide_patch true) E)
    as [(r & Hr & _)|[Hw _]].
  - discriminate Hr.
  - exact Hw.
Defined.

(** C3 The approved apply: when it returns, the target was an existing
    directory and the root of its Git repository, a granted approval of this
    patch by its declared digest and baseline had been given, for a request of
    the tool guarded_workspace, the action approve_patch_apply and a supported
    policy, the approval was needed or forced, the gate of the patch did not
    block and its paths are safe; the repository was clean and at the baseline, and
    is now [git apply] of the text; no use of the approval was on record, and
    one is recorded in the process and written to the log. *)
Theorem approved_apply_is_authorized {R L} `{GitRepo R, ApplyAudit L, RiskSources}
    resolve iso now d target req dec rr (w w' : world R L) r :
  apply_approved_patch resolve iso now d target req dec rr w = (w', Ok r) ->
  preconditions resolve iso now d target req dec rr w (ar_risk_report r) /\
  apply_check (w_repo w) (PatchDiff.patch d) = Ok () /\
  git_apply (w_repo w) (PatchDiff.patch d) = Ok (w_repo w') /\
  ~ use_recorded (_approval_use_key req d) w /\
  w_used w' = _approval_use_key req d :: w_used w /\
  exists log log' request decision metadata,
    w_log w = Some log /\ write_audit log request decision metadata = (log', Ok ()) /\
    w_log w' = Some log' /\
    PolicyDecision.policy_id decision = Some APPROVED_PATCH_APPLY_POLICY_ID /\
    _approved_patch_apply_event_matches_key metadata (_approval_use_key req d) = true.
Proof.
  intros Hrun. pose proof Hrun as Hx.
  apply apply_steps in Hx as [(_ & _ & e & [=])|(report & w1 & Hpre & Hn & Hc & Hg & Hu & Hl & rr' & Hw & Hr)].
  destruct rr' as [[]|e]; [injection Hr as ->|done]. cbn [ar_risk_report]. split_and!; try done.
  { intros Hrec. by destruct (recorded_refuses _ _ _ _ _ _ _ _ _ _ _ Hrec Hrun) as (_ & _ & e & [=]). }
  pose proof (p_fresh _ _ _ _ _ _ _ _ _ _ Hpre) as (log & _ & Hlog & _).
  unfold write_approved_patch_apply_audit_event, log_event in Hw. rewrite Hl, Hlog in Hw.
  match type of Hw with context [write_audit log ?a ?b ?c] =>
    destruct (write_audit log a b c) as [log' ra] eqn:Ew; exists log, log', a, b, c end.
  injection Hw as <- ->. split_and!; try done. apply summary_matches.
Qed.

Lemma approved_apply_witness :
  exists d r w', toy_apply "not-the-sha" d toy_world = (w', Ok r) /\ w_repo w' = [guide_text] /\
    granted decimal_time (explicit_request "not-the-sha") d (declared_patch "not-the-sha") 3000000
      DEFAULT_PATCH_APPROVAL_TTL_SECONDS.
Proof.
  destruct toy_approval as (d & Ha). destruct (toy_apply_steps d Ha) as (r & w' & E & Hrepo & _).
  exists d, r, w'. split; [exact E|]. split; [exact Hrepo|].
  exact (p_granted _ _ _ _ _ _ _ _ _ _
    (proj1 (@approved_apply_is_authorized toy_repo (list (string * pydict))
      (toy_git (declared_patch "not-the-sha") false) toy_audit example_sources lexical_resolve
      decimal_time 3000000 (declared_patch "not-the-sha") "/srv/repo"
      (explicit_request "not-the-sha") d None toy_world w' r E))).
Defined.

(** When the approved apply raises, either nothing happened, the
    repository and the used approvals being what they were, or the patch was
    applied and only the write of its audit event failed: then the approval
    stays used, so that it cannot be applied again. *)
Theorem failed_apply_leaves_no_partial_state {R L} `{GitRepo R, ApplyAudit L, RiskSources}
    resolve iso now d target req dec rr (w w' : world R L) e :
  apply_approved_patch resolve iso now d target req dec rr w = (w', Raise e) ->
  (w_repo w' = w_repo w /\ w_used w' = w_used w) \/
  (git_apply (w_repo w) (PatchDiff.patch d) = Ok (w_repo w') /\
   w_used w' = _approval_use_key req d :: w_used w /\
   exists log log' request decision metadata,
     w_log w = Some log /\ write_audit log request decision metadata = (log', Raise e)).
Proof.
  intros Hx.
  apply apply_steps in Hx as [(? & ? & _)|(report & w1 & Hpre & Hn & Hc & Hg & Hu & Hl & rr' & Hw & Hr)];
    [by left|right]. destruct rr' as [[]|e']; [done|injection Hr as <-]. split_and!; try done.
  pose proof (p_fresh _ _ _ _ _ _ _ _ _ _ Hpre) as (log & _ & Hlog & _).
  unfold write_approved_patch_apply_audit_event, log_event in Hw. rewrite Hl, Hlog in Hw.
  match type of Hw with context [write_audit log ?a ?b ?c] =>
    destruct (write_audit log a b c) as [log' ra] eqn:Ew; exists log, log', a, b, c end.
  by injection Hw as <- ->.
Qed.

Lemma failed_apply_witness :
  exists d w', toy_apply "not-the-sha" d (used_world [("apr_9", "not-the-sha", "abc")%string])
      = (w', Raise already_used) /\ w_repo w' = [].
Proof.
  destruct toy_approval as (d & Ha).
  assert (exists w', toy_apply "not-the-sha" d (used_world [("apr_9", "not-the-sha", "abc")%string])
      = (w', Raise already_used)) as (w' & E).
  { destruct (toy_preconditions d [("apr_9", "not-the-sha", "abc")%string] Ha) as (report & Hpre).
    unfold apply_approved_patch. rewrite (a_bind_step _ _ _ _ _ Hpre). eexists. reflexivity. }
  exists d, w'. split; [exact E|].
  destruct (@failed_apply_leaves_no_partial_state toy_repo (list (string * pydict))
      (toy_git (declared_patch "not-the-sha") false) toy_audit example_sources lexical_resolve
      decimal_time 3000000 (declared_patch "not-the-sha") "/srv/repo"
      (explicit_request "not-the-sha") d None _ w' _ E)
    as [[Hw _]|(_ & _ & log & log' & rq & dec & md & [=] & Hwr)].
  - exact Hw.
  - exfalso. subst log. discriminate Hwr.
Defined.

(** C4 An approval is used once: after a successful apply, in every
    later state whose process still remembers the approvals used, or whose log
    still holds the event of an apply with this approval, digest and baseline,
    every apply of a patch with this digest and baseline under this approval
    raises, and leaves the repository as it is, whatever the decision, the
    text, the time or the classification presented with it. *)
Theorem approval_is_used_once {R L} `{GitRepo R, ApplyAudit L, RiskSources}
    resolve iso now d target req dec rr (w w1 : world R L) r
    iso' now' d' target' req' dec' rr' (w2 w' : world R L) res :
  apply_approved_patch resolve iso now d target req dec rr w = (w1, Ok r) ->
  ApprovalRequest.approval_id req' = ApprovalRequest.approval_id req ->
  PatchDiff.patch_sha256 d' = PatchDiff.patch_sha256 d ->
  PatchDiff.baseline_commit_sha d' = PatchDiff.baseline_commit_sha d ->
  w_used w1 ⊆ w_used w2 \/
    (exists log events metadata, w_log w2 = Some log /\
       policy_events log APPROVED_PATCH_APPLY_POLICY_ID = Ok events /\ metadata ∈ events /\
       _approved_patch_apply_event_matches_key metadata (_approval_use_key req d) = true) ->
  apply_approved_patch resolve iso' now' d' target' req' dec' rr' w2 = (w', res) ->
  w_repo w' = w_repo w2 /\ exists e, res = Raise e.
Proof.
  intros Hrun Hid Hsha Hb Hlater Hx.
  assert (Hkey : _approval_use_key req' d' = _approval_use_key req d)
    by (unfold _approval_use_key; congruence).
  apply recorded_refuses in Hx as (Hr & _ & He); [done|]. rewrite Hkey.
  destruct Hlater as [Hin|Hlog]; [left|by right]. apply Hin.
  apply apply_steps in Hrun as [(_ & _ & e & [=])|(report & w0 & _ & _ & _ & _ & -> & _)].
  apply list_elem_of_here.
Qed.

Lemma single_use_witness :
  exists d r w1, toy_apply "not-the-sha" d toy_world = (w1, Ok r) /\
    exists w' e, toy_apply "not-the-sha" d (used_world [("apr_9", "not-the-sha", "abc")%string])
      = (w', Raise e) /\ w_repo w' = [].
Proof.
  destruct toy_approval as (d & Ha). destruct (toy_apply_steps d Ha) as (r & w1 & E & _ & Hused).
  exists d, r, w1. split; [exact E|].
  destruct (toy_apply "not-the-sha" d (used_world [("apr_9", "not-the-sha", "abc")%string]))
    as [w' res] eqn:E2.
  assert (Hsub : w_used w1 ⊆ w_used (used_world [("apr_9", "not-the-sha", "abc")%string]))
    by (rewrite Hused; done).
  destruct (@approval_is_used_once toy_repo (list (string * pydict))
    (toy_git (declared_patch "not-the-sha") false) toy_audit example_sources lexical_resolve
    decimal_time 3000000 (declared_patch "not-the-sha") "/srv/repo"
    (explicit_request "not-the-sha") d None toy_world w1 r decimal_time 3000000%Z
    (declared_patch "not-the-sha") "/srv/repo"%string (explicit_request "not-the-sha") d None _ w' res
    E eq_refl eq_refl eq_refl (or_introl Hsub) E2) as (Hrepo & e & He).
  exists w', e. split; [by rewrite He|exact Hrepo].
Defined.

(** The digest an approval is bound to is the declared one: the
    approved apply never digests the text itself, as the automatic apply does,
    so that a patch object whose text has another digest is applied under the
    approval of its declared digest. *)
Theorem approved_apply_trusts_declared_digest :
  exists d r w',
    toy_apply "not-the-sha" d toy_world = (w', Ok r) /\
    w_repo w' = [PatchDiff.patch (declared_patch "not-the-sha")] /\
    sha256_hex (PatchDiff.patch (declared_patch "not-the-sha"))
      <> PatchDiff.patch_sha256 (declared_patch "not-the-sha").
Proof.
  destruct toy_approval as (d & Ha). destruct (toy_apply_steps d Ha) as (r & w' & E & Hrepo & _).
  exists d, r, w'. split_and!; [done|done|].
  by apply (sha256_hex_not_odd _ _ 5).
Qed.
