(* ===== verification/Codec.v ===== *)
(** * Encodings of patch artifacts

    patch_artifact.py: the base64 text of the patch bytes, and the lossless
    encoding that keeps tuples apart from lists and dictionaries with any keys
    apart from objects, in JSON.  Every codec has its round trip as an instance
    of [Codec].  Decoding recurses with fuel [jsize]; [decode_total] shows that
    it is enough. *)

From S2P Require Export Json.

(** ** Definitions *)

(** [dec] undoes [enc] on [dom]. *)
Class Codec {A B E : Type} (dom : A -> Prop) (enc : A -> B) (dec : B -> result E A) : Prop :=
  decode_encode : forall a, dom a -> dec (enc a) = Ok a.

(** *** base64 *)

Definition b64_char (n : Z) : ascii :=
  ascii_of_N (Z.to_N (if n <? 26 then 65 + n else if n <? 52 then 71 + n
                      else if n <? 62 then n - 4 else if n =? 62 then 43 else 47)%Z).

Definition b64_value (c : ascii) : option Z :=
  let n := Z.of_N (code c) in
  (if (65 <=? n) && (n <=? 90) then Some (n - 65)
   else if (97 <=? n) && (n <=? 122) then Some (n - 71)
   else if (48 <=? n) && (n <=? 57) then Some (n + 4)
   else if n =? 43 then Some 62 else if n =? 47 then Some 63 else None)%Z.

Definition pad_char : ascii := "="%char.

(** [base64.b64encode(bytes).decode("ascii")] *)
Fixpoint b64encode (bytes : list Z) : string :=
  match bytes with
  | [] => ""
  | [a] => String (b64_char (a / 4)) (String (b64_char (a mod 4 * 16))
             (String pad_char (String pad_char "")))
  | [a; b] => String (b64_char (a / 4)) (String (b64_char (a mod 4 * 16 + b / 16))
                (String (b64_char (b mod 16 * 4)) (String pad_char "")))
  | a :: b :: c :: rest =>
      String (b64_char (a / 4)) (String (b64_char (a mod 4 * 16 + b / 16))
        (String (b64_char (b mod 16 * 4 + c / 64)) (String (b64_char (c mod 64)) (b64encode rest))))
  end.

(** [base64.b64decode(text, validate=True)]: no character outside the
    alphabet, full groups, padding only at the end; bits left over by the
    padding are dropped.  [None] is [binascii.Error]. *)
Fixpoint b64decode (s : string) : option (list Z) :=
  match s with
  | EmptyString => Some []
  | String c1 (String c2 (String c3 (String c4 rest))) =>
      match b64_value c1, b64_value c2 with
      | Some a, Some b =>
          let first := (a * 4 + b / 16)%Z in
          match b64_value c3 with
          | None =>
              if Ascii.eqb c3 pad_char && Ascii.eqb c4 pad_char && String.eqb rest ""
              then Some [first] else None
          | Some c =>
              let second := (b mod 16 * 16 + c / 4)%Z in
              match b64_value c4 with
              | None => if Ascii.eqb c4 pad_char && String.eqb rest ""
                        then Some [first; second] else None
              | Some d =>
                  (fun bytes => first :: second :: (c mod 4 * 64 + d)%Z :: bytes) <$> b64decode rest
              end
          end
      | _, _ => None
      end
  | _ => None
  end.

Definition is_byte (b : Z) : Prop := (0 <= b < 256)%Z.

(** *** The lossless encoding *)

Definition _LOSSLESS_TYPE_KEY : string := "__rygnal_serialized_type__".
Definition _LOSSLESS_ITEMS_KEY : string := "items".

Definition is_plain_key (k : pyval) : bool :=
  match k with PStr s => negb (String.eqb s _LOSSLESS_TYPE_KEY) | _ => false end.

Definition key_text (k : pyval) : string := match k with PStr s => s | _ => "" end.

Definition container (type : string) (items : list json) : json :=
  JDict [(_LOSSLESS_TYPE_KEY, JStr type); (_LOSSLESS_ITEMS_KEY, JList items)].

(** The values of the model are all of supported types. *)
Fixpoint _encode_lossless_value (v : pyval) : json :=
  match v with
  | PNone => JNull
  | PBool b => JBool b
  | PInt z => JInt z
  | PFloat _ _ t => JFloat t
  | PStr s => JStr s
  | PTuple l => container "tuple" (List.map _encode_lossless_value l)
  | PList l => JList (List.map _encode_lossless_value l)
  | PDict d =>
      if forallb (fun kv => is_plain_key (fst kv)) d
      then JDict (List.map (fun kv =>
             match kv with (k, x) => (key_text k, _encode_lossless_value x) end) d)
      else container "mapping" (List.map (fun kv =>
             match kv with
             | (k, x) => JList [_encode_lossless_value k; _encode_lossless_value x]
             end) d)
  end.

(** [hash(v)] exists. *)
Fixpoint hashable (v : pyval) : bool :=
  match v with
  | PList _ | PDict _ => false
  | PTuple l => forallb hashable l
  | _ => true
  end.

Definition tampered (text : string) : exn :=
  mk_exn RuntimeError "PatchArtifactTamperedError" text.

(** The interpreter's own limit, which the fuel stands for. *)
Definition recursion_error : exn :=
  mk_exn RuntimeError "RecursionError" "maximum recursion depth exceeded".

Section Decode.
(** [float(text)] as mantissa and exponent. *)
Context (float_of_text : string -> Z * Z).

(** The loop over the pairs of a mapping, with the decoded pairs so far. *)
Fixpoint decode_pairs (decode : json -> result exn pyval) (decoded : list (pyval * pyval))
    (items : list json) : result exn (list (pyval * pyval)) :=
  match items with
  | [] => Ok decoded
  | JList [k; x] :: items' =>
      key ← decode k;
      item ← decode x;
      if negb (hashable key) then Raise (tampered "Encoded mapping contains an unhashable key.")
      else if existsb (fun kv => py_eq (fst kv) key) decoded
      then Raise (tampered "Encoded mapping contains a duplicate key.")
      else decode_pairs decode (decoded ++ [(key, item)]) items'
  | _ => Raise (tampered "Encoded mapping item must contain two values.")
  end.

(** [set(value) == {type key, items key}] *)
Definition is_container (d : jdict) : bool :=
  forallb (fun kv => mem (fst kv) [_LOSSLESS_TYPE_KEY; _LOSSLESS_ITEMS_KEY]) d
  && mem _LOSSLESS_TYPE_KEY d.*1 && mem _LOSSLESS_ITEMS_KEY d.*1.

Fixpoint decode_fuel (n : nat) (v : json) : result exn pyval :=
  match n with
  | O => Raise recursion_error
  | S n =>
      match v with
      | JNull => Ok PNone
      | JBool b => Ok (PBool b)
      | JInt z => Ok (PInt z)
      | JFloat t => let '(m, e) := float_of_text t in Ok (PFloat m e t)
      | JStr s => Ok (PStr s)
      | JList l => PList <$> mapR (decode_fuel n) l
      | JDict d =>
          match default JNull (jget d _LOSSLESS_TYPE_KEY) with
          | JNull =>
              PDict <$> mapR (fun kv => (fun x => (PStr (fst kv), x)) <$> decode_fuel n (snd kv)) d
          | marker =>
              if negb (is_container d)
              then Raise (tampered "Encoded artifact container has unexpected fields.")
              else
                match jget d _LOSSLESS_ITEMS_KEY with
                | Some (JList items) =>
                    match marker with
                    | JStr type =>
                        if String.eqb type "tuple" then PTuple <$> mapR (decode_fuel n) items
                        else if String.eqb type "mapping"
                        then PDict <$> decode_pairs (decode_fuel n) [] items
                        else Raise (tampered "Unknown encoded artifact container")
                    | _ => Raise (tampered "Unknown encoded artifact container")
                    end
                | _ => Raise (tampered "Encoded artifact container items must be a list.")
                end
          end
      end
  end.

Definition _decode_lossless_value (v : json) : result exn pyval := decode_fuel (jsize v) v.

(** Values Python can hold: floats agree with their text, the keys of a
    dictionary are hashable and pairwise different. *)
Inductive py_wf : pyval -> Prop :=
  | py_wf_none : py_wf PNone
  | py_wf_bool b : py_wf (PBool b)
  | py_wf_int z : py_wf (PInt z)
  | py_wf_float m e t : float_of_text t = (m, e) -> wf_float t -> py_wf (PFloat m e t)
  | py_wf_str s : py_wf (PStr s)
  | py_wf_list l : Forall py_wf l -> py_wf (PList l)
  | py_wf_tuple l : Forall py_wf l -> py_wf (PTuple l)
  | py_wf_dict d :
      ForallOrdPairs (fun kv kv' => py_eq (fst kv) (fst kv') = false) d ->
      Forall (fun kv => hashable (fst kv) = true) d ->
      Forall (fun kv => py_wf (fst kv) /\ py_wf (snd kv)) d ->
      py_wf (PDict d).
End Decode.

(** A value after its objects went through [json.dumps(sort_keys=True)]: the
    members of string-keyed dictionaries are in key order, and nothing else
    changes. *)
Fixpoint canon (v : pyval) : pyval :=
  match v with
  | PList l => PList (List.map canon l)
  | PTuple l => PTuple (List.map canon l)
  | PDict d =>
      if forallb (fun kv => is_plain_key (fst kv)) d
      then of_dict (sort_by_key (List.map (fun kv =>
             match kv with (k, x) => (key_text k, canon x) end) d))
      else PDict (List.map (fun kv => match kv with (k, x) => (canon k, canon x) end) d)
  | _ => v
  end.

(** ** Lemmas *)

(** *** base64 *)

Lemma b64_value_char n : (0 <= n < 64)%Z -> b64_value (b64_char n) = Some n.
Proof.
  intros Hn. unfold b64_value, b64_char.
  set (x := (if n <? 26 then _ else _)%Z).
  assert (Hx : (0 <= x < 256)%Z) by (unfold x; destruct (Z.ltb_spec n 26), (Z.ltb_spec n 52), (Z.ltb_spec n 62), (Z.eqb_spec n 62); lia).
  unfold code. rewrite N_ascii_embedding, Z2N.id by lia.
  unfold x. clear Hx.
  repeat match goal with |- context [if (?a <? ?b)%Z then _ else _] => destruct (Z.ltb_spec a b)
         | |- context [if (?a =? ?b)%Z then _ else _] => destruct (Z.eqb_spec a b)
         | |- context [if (?a <=? ?b)%Z && (?c <=? ?d)%Z then _ else _] =>
             destruct (Z.leb_spec a b), (Z.leb_spec c d); cbn [andb] end;
  first [lia|f_equal; lia].
Qed.

Lemma b64_value_pad : b64_value pad_char = None.
Proof. reflexivity. Qed.

Lemma list_ind3 {A} (P : list A -> Prop) :
  P [] -> (forall a, P [a]) -> (forall a b, P [a; b]) ->
  (forall a b c l, P l -> P (a :: b :: c :: l)) -> forall l, P l.
Proof.
  intros H0 H1 H2 H3. fix IH 1. intros [|a [|b [|c l]]]; [done|apply H1|apply H2|].
  apply H3, IH.
Qed.

Lemma b64_round_trip bytes : Forall is_byte bytes -> b64decode (b64encode bytes) = Some bytes.
Proof.
  induction bytes as [|a|a b|a b c l IH] using list_ind3; intros Hb; [done| | |];
    rewrite ?Forall_cons in Hb; unfold is_byte in Hb.
  - destruct Hb as [Ha _]. cbn -[Z.div Z.modulo b64_char b64_value].
    rewrite !b64_value_char by (Z.div_mod_to_equations; lia). rewrite b64_value_pad.
    cbn -[Z.div Z.modulo]. do 2 f_equal. Z.div_mod_to_equations; lia.
  - destruct Hb as (Ha & Hb & _).
    cbn -[Z.div Z.modulo b64_char b64_value].
    rewrite !b64_value_char by (Z.div_mod_to_equations; lia). rewrite b64_value_pad.
    cbn -[Z.div Z.modulo]. do 2 f_equal; [|f_equal]; Z.div_mod_to_equations; lia.
  - destruct Hb as (Ha & Hb & Hc & Hl).
    cbn -[Z.div Z.modulo b64_char b64_value].
    rewrite !b64_value_char by (Z.div_mod_to_equations; lia). rewrite IH by done. cbn.
    do 2 f_equal; [|f_equal; [|f_equal]]; Z.div_mod_to_equations; lia.
Qed.

#[export] Instance base64_codec :
  Codec (E := exn) (Forall is_byte) b64encode
    (fun s => match b64decode s with Some b => Ok b | None => Raise (tampered s) end).
Proof. intros bytes Hb. by rewrite b64_round_trip. Qed.

(** *** The lossless encoding *)

(** The same keys, other values. *)
Definition map_values {A B} (f : A -> B) (d : list (string * A)) : list (string * B) :=
  List.map (fun kv => (fst kv, f (snd kv))) d.

Lemma insert_key_map_values {A B} (f : A -> B) kv d :
  insert_key (fst kv, f (snd kv)) (map_values f d) = map_values f (insert_key kv d).
Proof.
  induction d as [|kv' d IH]; cbn; [done|]. destruct (String.leb _ _); cbn; [done|].
  f_equal. apply IH.
Qed.

Lemma sort_by_key_map_values {A B} (f : A -> B) d : sort_by_key (map_values f d) = map_values f (sort_by_key d).
Proof.
  induction d as [|kv d IH]; [done|]. change (sort_by_key (map_values f (kv :: d)))
    with (insert_key (fst kv, f (snd kv)) (sort_by_key (map_values f d))).
  rewrite IH. apply insert_key_map_values.
Qed.

Lemma map_values_keys {A B} (f : A -> B) d : (map_values f d).*1 = d.*1.
Proof. induction d as [|kv d IH]; cbn; [done|by f_equal]. Qed.

Lemma map_values_map_values {A B C} (g : B -> C) (f : A -> B) d : map_values g (map_values f d) = map_values (fun x => g (f x)) d.
Proof. induction d as [|kv d IH]; cbn; [done|by f_equal]. Qed.

Lemma jget_None d k : k ∉ d.*1 -> jget d k = None.
Proof.
  induction d as [|[k' v] d IH]; cbn; intros Hk; [done|].
  rewrite not_elem_of_cons in Hk. destruct Hk as [Hne Hk].
  destruct (String.eqb_spec k' k); [congruence|by apply IH].
Qed.

Lemma jget_in d k v : jget d k = Some v -> (k, v) ∈ d.
Proof.
  induction d as [|[k' w] d IH]; cbn; [done|]. destruct (String.eqb_spec k' k) as [->|_].
  - intros [= ->]. apply list_elem_of_here.
  - intros H. by apply list_elem_of_further, IH.
Qed.

Lemma jsize_elem x l : x ∈ l -> jsize x < jsize (JList l).
Proof.
  cbn [jsize]. induction l as [|y l IH]; intros Hx; [by apply elem_of_nil in Hx|].
  cbn [List.map]. rewrite list_sum_cons.
  apply elem_of_cons in Hx as [->|Hx]; [lia|]. specialize (IH Hx). lia.
Qed.

Lemma jsize_member kv d : kv ∈ d -> jsize (snd kv) < jsize (JDict d).
Proof.
  cbn [jsize]. induction d as [|[k y] d IH]; intros Hx; [by apply elem_of_nil in Hx|].
  cbn [List.map]. rewrite list_sum_cons.
  apply elem_of_cons in Hx as [->|Hx]; [cbn [snd]; lia|]. specialize (IH Hx). lia.
Qed.

Lemma jsize_zero v : jsize v <> 0.
Proof. by destruct v. Qed.

Lemma list_sum_perm l l' : Permutation l l' -> list_sum l = list_sum l'.
Proof. induction 1; rewrite ?list_sum_cons; lia. Qed.

Lemma jsize_sort v : jsize (sort_json v) = jsize v.
Proof.
  induction v as [ | | | | |l IH|d IH] using json_nested_ind; cbn [sort_json]; try done.
  - cbn [jsize]. f_equal. rewrite List.map_map. f_equal. apply map_ext_in.
    intros x Hx%list_elem_of_In. rewrite Forall_forall in IH. f_equal. by apply IH.
  - cbn [jsize]. f_equal.
    rewrite (list_sum_perm _ _ (Permutation_map _ (sort_by_key_perm _))).
    rewrite List.map_map. f_equal. apply map_ext_in.
    intros [k x] Hx%list_elem_of_In. rewrite Forall_forall in IH. f_equal. by apply (IH (k, x)).
Qed.

Lemma mapR_map_Ok {E A B C} (f : B -> result E C) (g : A -> B) (h : A -> C) l :
  (forall x, x ∈ l -> f (g x) = Ok (h x)) -> mapR f (List.map g l) = Ok (List.map h l).
Proof.
  induction l as [|x l IH]; intros H; [done|]. cbn.
  rewrite H by apply list_elem_of_here. cbn.
  rewrite IH; [done|]. intros y Hy. by apply H, list_elem_of_further.
Qed.

Lemma mapR_Raise {E A B} (f : A -> result E B) l e :
  mapR f l = Raise e -> exists x, x ∈ l /\ f x = Raise e.
Proof.
  induction l as [|x l IH]; cbn; [done|]. destruct (f x) as [y|e'] eqn:Ex; cbn.
  - destruct (mapR f l) as [ys|e'] eqn:El; cbn; [done|]. intros [= ->].
    destruct (IH eq_refl) as (z & Hz & Hf). exists z. split; [by apply list_elem_of_further|done].
  - intros [= ->]. exists x. split; [apply list_elem_of_here|done].
Qed.

Lemma canon_hashable v : hashable v = true -> canon v = v.
Proof.
  induction v as [ | | | | |l IH|l IH|d IH] using pyval_nested_ind; cbn; try done.
  intros Hl. f_equal. induction IH as [|x l Hx _ IHl]; cbn in *; [done|].
  apply andb_true_iff in Hl as [H1 H2]. by rewrite Hx, IHl.
Qed.

(** Through a file the encoding is sorted, in memory it is not. *)
Definition stored (sorted : bool) (v : json) : json := if sorted then sort_json v else v.
Definition reread (sorted : bool) (v : pyval) : pyval := if sorted then canon v else v.

Section RoundTrip.
Context (float_of_text : string -> Z * Z) (b : bool).
Local Notation decode := (decode_fuel float_of_text).

Definition decodes (v : pyval) : Prop :=
  forall n, py_wf float_of_text v -> jsize (_encode_lossless_value v) <= n ->
    decode n (stored b (_encode_lossless_value v)) = Ok (reread b v).

Lemma stored_list l : stored b (JList l) = JList (List.map (stored b) l).
Proof. unfold stored. destruct b; [done|]. by rewrite List.map_id. Qed.

Lemma stored_container ty items :
  stored b (container ty items) = container ty (List.map (stored b) items).
Proof. unfold stored. destruct b; [done|]. by rewrite List.map_id. Qed.

Lemma decode_items n l :
  Forall decodes l -> Forall (py_wf float_of_text) l ->
  (forall x, x ∈ l -> jsize (_encode_lossless_value x) <= n) ->
  mapR (decode n) (List.map (stored b) (List.map _encode_lossless_value l))
  = Ok (List.map (reread b) l).
Proof.
  intros Hd Hw Hn. rewrite List.map_map. rewrite Forall_forall in Hd, Hw.
  apply (mapR_map_Ok (decode n) (fun x => stored b (_encode_lossless_value x)) (reread b)).
  intros x Hx. apply Hd; auto.
Qed.

Lemma decode_pairs_spec n d acc :
  Forall (fun kv => decodes (fst kv) /\ decodes (snd kv)) d ->
  Forall (fun kv => py_wf float_of_text (fst kv) /\ py_wf float_of_text (snd kv)) d ->
  Forall (fun kv => hashable (fst kv) = true) d ->
  (forall kv, kv ∈ d -> jsize (_encode_lossless_value (fst kv)) <= n /\
                        jsize (_encode_lossless_value (snd kv)) <= n) ->
  ForallOrdPairs (fun kv kv' => py_eq (fst kv) (fst kv') = false) d ->
  (forall kv kv', kv ∈ acc -> kv' ∈ d -> py_eq (fst kv) (fst kv') = false) ->
  decode_pairs (decode n) acc
    (List.map (fun kv => JList [stored b (_encode_lossless_value (fst kv));
                                stored b (_encode_lossless_value (snd kv))]) d)
  = Ok (acc ++ List.map (fun kv => (fst kv, reread b (snd kv))) d).
Proof.
  revert acc. induction d as [|[k x] d IH]; intros acc Hd Hw Hh Hn Hp Ha; cbn;
    [by rewrite app_nil_r|].
  apply Forall_cons_1 in Hd as [[Hk Hx] Hd]. apply Forall_cons_1 in Hw as [[Wk Wx] Hw].
  apply Forall_cons_1 in Hh as [Hhk Hh]. cbn in Hk, Hx, Wk, Wx, Hhk.
  destruct (Hn (k, x) (list_elem_of_here _ _)) as [Nk Nx]. cbn in Nk, Nx.
  rewrite Hk, Hx by done. cbn.
  assert (reread b k = k) as -> by (unfold reread; destruct b; [by apply canon_hashable|done]).
  rewrite Hhk. cbn.
  assert (existsb (fun kv => py_eq (fst kv) k) acc = false) as ->.
  { apply existsb_false_elem_of. intros kv Hkv. apply (Ha kv (k, x)); [done|apply list_elem_of_here]. }
  inversion Hp as [|? ? Hk1 Hp']; subst.
  rewrite IH; try done.
  - by rewrite <- app_assoc.
  - intros kv Hkv. by apply Hn, list_elem_of_further.
  - intros kv kv' [Hkv| ->%list_elem_of_singleton]%elem_of_app Hkv'.
    + apply Ha; [done|by apply list_elem_of_further].
    + rewrite Forall_forall in Hk1. by apply Hk1.
Qed.

(** A dictionary all of whose keys are plain strings, by its members. *)
Definition members (d : list (pyval * pyval)) : pydict :=
  List.map (fun kv => (key_text (fst kv), snd kv)) d.

Lemma plain_members d :
  forallb (fun kv => is_plain_key (fst kv)) d = true ->
  of_dict (members d) = PDict d /\ _LOSSLESS_TYPE_KEY ∉ (members d).*1.
Proof.
  unfold of_dict, members. intros H. rewrite List.map_map. cbn. split.
  - f_equal. induction d as [|[k x] d IH]; cbn in *; [done|].
    apply andb_true_iff in H as [Hk H]. rewrite IH by done. by destruct k.
  - induction d as [|[k x] d IH]; cbn in *; [apply not_elem_of_nil|].
    apply andb_true_iff in H as [Hk H]. apply not_elem_of_cons. split; [|by apply IH].
    destruct k; try done. cbn in *. intros <-. by rewrite String.eqb_refl in Hk.
Qed.

Lemma encode_plain d :
  forallb (fun kv => is_plain_key (fst kv)) d = true ->
  _encode_lossless_value (PDict d) = JDict (map_values _encode_lossless_value (members d)).
Proof.
  intros H. cbn. rewrite H. unfold map_values, members. rewrite List.map_map. f_equal.
  by apply List.map_ext; intros [k x].
Qed.

Lemma stored_dict d :
  stored b (JDict d) = JDict ((if b then sort_by_key else id) (map_values (stored b) d)).
Proof.
  unfold stored. destruct b; cbn; do 2 f_equal; unfold map_values.
  - by apply List.map_ext; intros [k x].
  - induction d as [|[k x] d IH]; cbn; [done|f_equal; apply IH].
Qed.

Lemma reread_plain d :
  forallb (fun kv => is_plain_key (fst kv)) d = true ->
  reread b (PDict d) = of_dict ((if b then sort_by_key else id) (map_values (reread b) (members d))).
Proof.
  intros H. unfold reread. destruct b; cbn.
  - rewrite H. unfold map_values, members. rewrite List.map_map. do 2 f_equal.
    by apply List.map_ext; intros [k x].
  - rewrite <- (proj1 (plain_members d H)). unfold id. f_equal.
    induction (members d) as [|[k x] l IH]; cbn; [done|f_equal; apply IH].
Qed.

Lemma decode_plain n d :
  Forall (fun kv => decodes (snd kv)) d -> Forall (fun kv => py_wf float_of_text (snd kv)) d ->
  (forall kv, kv ∈ d -> jsize (_encode_lossless_value (snd kv)) <= n) ->
  forallb (fun kv => is_plain_key (fst kv)) d = true ->
  decode (S n) (stored b (_encode_lossless_value (PDict d))) = Ok (reread b (PDict d)).
Proof.
  intros Hd Hw Hn Hp. rewrite encode_plain, stored_dict, reread_plain by done.
  rewrite !map_values_map_values. destruct (plain_members d Hp) as [_ Hty].
  set (order := if b then _ else _).
  assert (Hord : forall B (f : pyval -> B), (if b then sort_by_key else id) (map_values f (members d))
    = map_values f ((if b then sort_by_key else id) (members d))).
  { intros B f. destruct b; [apply sort_by_key_map_values|done]. }
  unfold order. rewrite !Hord. clear order.
  assert (Hperm : Permutation ((if b then sort_by_key else id) (members d)) (members d))
    by (destruct b; [apply sort_by_key_perm|done]).
  set (l := (if b then sort_by_key else id) (members d)) in *.
  cbn [decode_fuel]. rewrite jget_None by (by rewrite map_values_keys, Hperm). cbn [default from_option].
  unfold map_values at 1.
  rewrite (mapR_map_Ok _ _ (fun kv => (PStr (fst kv), reread b (snd kv)))).
  - unfold of_dict, map_values. cbn. by rewrite List.map_map.
  - intros [k x] Hin. cbn. rewrite Hperm in Hin. unfold members in Hin.
    apply list_elem_of_fmap in Hin as ([k' x'] & [= -> ->] & Hin). cbn in *.
    rewrite Forall_forall in Hd, Hw. specialize (Hd _ Hin). specialize (Hw _ Hin).
    cbn in Hd, Hw. rewrite Hd; [done|done|]. by apply (Hn (k', x')).
Qed.

Lemma map_pair_id {A B} (d : list (A * B)) : List.map (fun kv => (fst kv, snd kv)) d = d.
Proof. induction d as [|[k x] d IH]; cbn; [done|by rewrite IH]. Qed.

Lemma decode_mapping n d :
  Forall (fun kv => decodes (fst kv) /\ decodes (snd kv)) d ->
  ForallOrdPairs (fun kv kv' => py_eq (fst kv) (fst kv') = false) d ->
  Forall (fun kv => hashable (fst kv) = true) d ->
  Forall (fun kv => py_wf float_of_text (fst kv) /\ py_wf float_of_text (snd kv)) d ->
  forallb (fun kv => is_plain_key (fst kv)) d = false ->
  jsize (_encode_lossless_value (PDict d)) <= S n ->
  decode (S n) (stored b (_encode_lossless_value (PDict d))) = Ok (reread b (PDict d)).
Proof.
  intros IH Hp Hh Hd Ep Hn. cbn [_encode_lossless_value] in *. rewrite Ep in *.
  rewrite stored_container, List.map_map. cbn [decode_fuel container jget].
  rewrite !String.eqb_refl. cbn [default from_option id]. unfold is_container.
  cbn -[decode_pairs]. erewrite List.map_ext.
  - rewrite decode_pairs_spec; try done.
    + cbn. unfold reread. destruct b; cbn; [rewrite Ep; do 2 f_equal|].
      * apply map_ext_in. intros [k x] Hin%list_elem_of_In. rewrite Forall_forall in Hh.
        cbn. by rewrite (canon_hashable k) by apply (Hh _ Hin).
      * by rewrite map_pair_id.
    + intros kv Hin.
      assert (Hin' : JList [_encode_lossless_value (fst kv); _encode_lossless_value (snd kv)]
        ∈ List.map (fun kv => match kv with
            | (k, x) => JList [_encode_lossless_value k; _encode_lossless_value x] end) d).
      { apply list_elem_of_fmap. exists kv. by destruct kv. }
      apply jsize_elem in Hin'. unfold container in Hn. cbn in Hn, Hin'. lia.
    + intros kv kv' Hin. by apply elem_of_nil in Hin.
  - intros [k x]. by rewrite stored_list.
Qed.

Lemma decode_stored v : decodes v.
Proof.
  unfold decodes. induction v as [ |v|z|m e t|s|l IH|l IH|d IH] using pyval_nested_ind;
    (intros [|n] Hw Hn; [by apply Nat.le_0_r, jsize_zero in Hn|]);
    try (unfold stored, reread; by destruct b).
  - unfold stored, reread. inversion Hw as [ | | |? ? ? Hf _| | | | ]; subst.
    destruct b; cbn; by rewrite Hf.
  - cbn [_encode_lossless_value] in *. rewrite stored_list. cbn [decode_fuel].
    inversion Hw as [ | | | | |? Hl| | ]; subst. rewrite decode_items; [|done|done|].
    + unfold reread. destruct b; [done|]. cbn. by rewrite List.map_id.
    + intros x Hx. assert (Hin : _encode_lossless_value x ∈ List.map _encode_lossless_value l)
        by (by apply list_elem_of_fmap_2).
      apply jsize_elem in Hin. lia.
  - cbn [_encode_lossless_value] in *. rewrite stored_container. cbn [decode_fuel container].
    inversion Hw as [ | | | | | |? Hl| ]; subst. cbn [jget default from_option].
    unfold is_container. cbn. rewrite decode_items; [|done|done|].
    + unfold reread. destruct b; [done|]. cbn. by rewrite List.map_id.
    + intros x Hx. assert (Hin : _encode_lossless_value x ∈ List.map _encode_lossless_value l)
        by (by apply list_elem_of_fmap_2).
      apply jsize_elem in Hin. unfold container in Hn. cbn in Hn, Hin. lia.
  - inversion Hw as [ | | | | | | |? Hp Hh Hd]; subst.
    destruct (forallb (fun kv => is_plain_key (fst kv)) d) eqn:Ep.
    + apply decode_plain; [| | |done].
      * eapply Forall_impl; [exact IH|]. by intros ? [_ ?].
      * eapply Forall_impl; [exact Hd|]. by intros ? [_ ?].
      * intros kv Hin. rewrite encode_plain in Hn by done.
        assert (Hin' : (key_text (fst kv), _encode_lossless_value (snd kv))
          ∈ map_values _encode_lossless_value (members d)).
        { unfold map_values, members. rewrite List.map_map.
          by apply (list_elem_of_fmap_2 (fun kv => (key_text (fst kv), _encode_lossless_value (snd kv)))). }
        apply jsize_member in Hin'. cbn [snd] in Hin'. lia.
    + by apply decode_mapping.
Qed.

Lemma wf_items l :
  Forall (fun v => py_wf float_of_text v -> wf_json (_encode_lossless_value v)) l ->
  Forall (py_wf float_of_text) l -> Forall wf_json (List.map _encode_lossless_value l).
Proof.
  intros IH Hl. apply Forall_forall. intros j (x & -> & Hx)%list_elem_of_fmap.
  rewrite Forall_forall in IH, Hl. auto.
Qed.

Lemma wf_container ty items : Forall wf_json items -> wf_json (container ty items).
Proof.
  intros H. constructor.
  - cbn. apply NoDup_cons. split; [by intros [=]%list_elem_of_singleton|apply NoDup_singleton].
  - repeat constructor. done.
Qed.

Lemma members_NoDup d :
  forallb (fun kv => is_plain_key (fst kv)) d = true ->
  ForallOrdPairs (fun kv kv' => py_eq (fst kv) (fst kv') = false) d -> NoDup ((members d).*1).
Proof.
  intros Ep. induction 1 as [|[k x] d Hk _ IH]; cbn in *; [constructor|].
  apply andb_true_iff in Ep as [Hp Ep]. apply NoDup_cons. split; [|by apply IH].
  unfold members. intros ([t y] & Ht & Hin)%list_elem_of_fmap. cbn in Ht.
  apply list_elem_of_fmap in Hin as ([k' x'] & [= -> ->] & Hin).
  rewrite Forall_forall in Hk. specialize (Hk _ Hin). cbn in Hk.
  assert (Hp' : is_plain_key k' = true).
  { rewrite forallb_elem_of in Ep. apply (Ep (k', x') Hin). }
  destruct k, k'; try done. cbn in Ht, Hk. subst. by rewrite String.eqb_refl in Hk.
Qed.

Lemma encode_wf v : py_wf float_of_text v -> wf_json (_encode_lossless_value v).
Proof.
  induction v as [ |v|z|m e t|s|l IH|l IH|d IH] using pyval_nested_ind; intros Hw;
    try (constructor; fail).
  - inversion Hw as [ | | |? ? ? _ Hf| | | | ]; subst. by constructor.
  - inversion Hw as [ | | | | |? Hl| | ]; subst. by apply wf_list, wf_items.
  - inversion Hw as [ | | | | | |? Hl| ]; subst. by apply wf_container, wf_items.
  - inversion Hw as [ | | | | | | |? Hp Hh Hd]; subst.
    destruct (forallb (fun kv => is_plain_key (fst kv)) d) eqn:Ep.
    + rewrite encode_plain by done. constructor.
      * rewrite map_values_keys. by apply members_NoDup.
      * apply Forall_forall. intros kv Hin.
        unfold map_values, members in Hin. rewrite List.map_map in Hin.
        apply list_elem_of_fmap in Hin as (kv' & -> & Hin). cbn [snd].
        rewrite Forall_forall in IH, Hd. by apply (IH _ Hin), (Hd _ Hin).
    + cbn. rewrite Ep. apply wf_container, Forall_forall.
      intros j ([k x] & -> & Hin)%list_elem_of_fmap. rewrite Forall_forall in IH, Hd.
      destruct (IH _ Hin) as [Ik Ix], (Hd _ Hin) as [Wk Wx]. cbn in *.
      apply wf_list. by repeat constructor; auto.
Qed.
End RoundTrip.

(** Enough fuel: an item of a value is smaller than the value. *)
Lemma decode_pairs_Raise decode decoded items e :
  decode_pairs decode decoded items = Raise e ->
  (exists text, e = tampered text) \/
  exists k x, JList [k; x] ∈ items /\ (decode k = Raise e \/ decode x = Raise e).
Proof.
  revert decoded. induction items as [|i items IH]; intros decoded; cbn; [done|].
  destruct i as [ | | | | |[|k [|x [|]]]| ]; try (intros [= <-]; left; by eexists).
  destruct (decode k) as [key|e1] eqn:Ek; cbn.
  - destruct (decode x) as [item|e2] eqn:Ex; cbn.
    + destruct (negb (hashable key)); [intros [= <-]; left; by eexists|].
      destruct (existsb _ decoded); [intros [= <-]; left; by eexists|].
      intros [?|(k' & x' & Hin & Hr)]%IH; [by left|right]. exists k', x'.
      split; [by apply list_elem_of_further|done].
    + intros [= ->]. right. exists k, x. split; [apply list_elem_of_here|by right].
  - intros [= ->]. right. exists k, x. split; [apply list_elem_of_here|by left].
Qed.

Lemma decode_fuel_enough float_of_text n v :
  jsize v <= n -> decode_fuel float_of_text n v <> Raise recursion_error.
Proof.
  revert v. induction n as [|n IH]; intros v Hn; [by apply Nat.le_0_r, jsize_zero in Hn|].
  destruct v as [ | | |t|s|l|d]; cbn [decode_fuel]; try done.
  - by destruct (float_of_text t).
  - intros H. destruct (mapR _ l) as [|e] eqn:El; cbn in H; [done|]. injection H as ->.
    apply mapR_Raise in El as (x & Hx & He). apply (IH x); [|done].
    apply jsize_elem in Hx. lia.
  - destruct (default JNull (jget d _LOSSLESS_TYPE_KEY)) as [ |b|z|t|marker|lm|dm] eqn:Em.
    { intros H. match type of H with context [mapR ?f d] => destruct (mapR f d) as [|e] eqn:El end;
        cbn in H; [done|]. injection H as ->.
      apply mapR_Raise in El as (kv & Hx & He).
      destruct (decode_fuel float_of_text n (snd kv)) as [|e] eqn:Ed; cbn in He; [done|].
      injection He as ->. apply (IH (snd kv)); [|done]. apply jsize_member in Hx. lia. }
    all: destruct (negb (is_container d)); [done|].
    all: destruct (jget d _LOSSLESS_ITEMS_KEY) as [[ | | | | |items| ]|] eqn:Ei; try done.
    apply jget_in in Ei. apply jsize_member in Ei. cbn [snd] in Ei.
    destruct (String.eqb marker "tuple"); [|destruct (String.eqb marker "mapping"); [|done]].
    + intros H. destruct (mapR _ items) as [|e] eqn:El; cbn in H; [done|]. injection H as ->.
      apply mapR_Raise in El as (x & Hx & He). apply (IH x); [|done].
      apply jsize_elem in Hx. lia.
    + intros H. destruct (decode_pairs _ [] items) as [|e] eqn:El; cbn in H; [done|].
      injection H as ->.
      apply decode_pairs_Raise in El as [[text [=]]|(k & x & Hin & Hr)].
      apply jsize_elem in Hin.
      assert (jsize k < jsize (JList [k; x])) by apply jsize_elem, list_elem_of_here.
      assert (jsize x < jsize (JList [k; x]))
        by apply jsize_elem, list_elem_of_further, list_elem_of_here.
      destruct Hr as [Hr|Hr]; [apply (IH k)|apply (IH x)]; first [exact Hr|lia].
Qed.

(** *** An example value *)

Definition example_float (t : string) : Z * Z := if String.eqb t "0.5" then (1, -1)%Z else (0, 0)%Z.

Definition example_value : pyval :=
  PDict [(PStr "paths", PTuple [PStr "a.py"; PStr "b.py"]);
         (PStr "__rygnal_serialized_type__", PList [PNone; PBool true]);
         (PInt 7, PDict [(PStr "b", PFloat 1 (-1) "0.5"); (PStr "a", PTuple [])])]%string.

Lemma example_value_wf : py_wf example_float example_value.
Proof.
  assert (Hf : wf_float "0.5").
  { split_and!; try reflexivity. exists "0"%char, ".5"%string. split; [done|]. right. by vm_compute. }
  unfold example_value.
  repeat first [apply Forall_nil | apply Forall_cons; split | split
    | apply py_wf_float; [reflexivity|exact Hf] | constructor | reflexivity].
Qed.

(** ** Theorems *)

(** The lossless encoding loses nothing: every value is decoded from
    its encoding as it was, tuples, non-string keys and the marker key
    included; and a value written with sorted keys and read back from the text
    is the same up to the order of the members of its objects. *)
Theorem lossless_round_trip float_of_text v :
  py_wf float_of_text v ->
  _decode_lossless_value float_of_text (_encode_lossless_value v) = Ok v /\
  exists j, loads (canonical_json (_encode_lossless_value v)) = Some j /\
    _decode_lossless_value float_of_text j = Ok (canon v).
Proof.
  intros Hw. split.
  - by apply (decode_stored float_of_text false v).
  - exists (sort_json (_encode_lossless_value v)). split.
    + by apply loads_dumps, sort_json_wf, (encode_wf float_of_text).
    + apply (decode_stored float_of_text true v); [done|]. by rewrite jsize_sort.
Qed.

Lemma lossless_round_trip_witness :
  py_wf example_float example_value /\ canon example_value <> example_value /\
  _decode_lossless_value example_float (_encode_lossless_value example_value) = Ok example_value.
Proof.
  split; [exact example_value_wf|]. split; [intros H; vm_compute in H; discriminate H|].
  exact (proj1 (lossless_round_trip example_float example_value example_value_wf)).
Defined.

(** Decoding always ends: on every JSON value, well-formed or not, the
    recursion returns a value or reports tampering before its fuel, the size
    of the value, runs out. *)
Theorem decode_total float_of_text v :
  (exists w, _decode_lossless_value float_of_text v = Ok w) \/
  exists e, _decode_lossless_value float_of_text v = Raise e /\ e <> recursion_error.
Proof.
  pose proof (decode_fuel_enough float_of_text (jsize v) v (le_n _)) as H.
  unfold _decode_lossless_value. destruct (decode_fuel _ _ v) as [w|e]; [left; by exists w|right].
  exists e. split; [done|]. by intros ->.
Qed.
