(* ===== verification/ReportSummary.v ===== *)
(** * Risk reports read back from their summaries

    patch_artifact.py: [_risk_report_from_summary] and its parts.  A summary is
    a decoded value of any shape: subscripts, [get], [int], [dict] and
    iteration are written out with the exceptions they raise.  The theorem is
    that a report survives [audit_summary], the lossless encoding and the
    text, up to the order of members inside its evidence. *)

From S2P Require Export Codec ChangeGate.

(** ** Definitions *)

(** *** Operations on decoded values *)

Definition type_error (text : string) : exn := mk_exn TypeError "TypeError" text.
Definition value_error (text : string) : exn := mk_exn ValueError "ValueError" text.
Definition key_error (key : string) : exn := mk_exn LookupError "KeyError" key.
Definition attribute_error (text : string) : exn := mk_exn AttributeError "AttributeError" text.

Definition pdict_lookup (d : list (pyval * pyval)) (key : string) : option pyval :=
  snd <$> List.find (fun kv => py_eq (fst kv) (PStr key)) d.

(** [v[key]] *)
Definition item_get (v : pyval) (key : string) : result exn pyval :=
  match v with
  | PDict d => match pdict_lookup d key with Some x => Ok x | None => Raise (key_error key) end
  | _ => Raise (type_error "object is not subscriptable by a string")
  end.

(** [v.get(key, default)] *)
Definition dict_get_or (v : pyval) (key : string) (dflt : pyval) : result exn pyval :=
  match v with
  | PDict d => Ok (default dflt (pdict_lookup d key))
  | _ => Raise (attribute_error "object has no attribute 'get'")
  end.

(** [tuple(v)] *)
Fixpoint chars_of (s : string) : list pyval :=
  match s with
  | EmptyString => []
  | String c s' => PStr (String c "") :: chars_of s'
  end.

Definition py_iter (v : pyval) : result exn (list pyval) :=
  match v with
  | PList l | PTuple l => Ok l
  | PStr s => Ok (chars_of s)
  | PDict d => Ok (List.map fst d)
  | _ => Raise (type_error "object is not iterable")
  end.

(** The digits of [int(text)], with single underscores between them. *)
Fixpoint int_digits (acc : Z) (after_digit : bool) (s : string) : option Z :=
  match s with
  | EmptyString => if after_digit then Some acc else None
  | String c s' =>
      if Ascii.eqb c "_" then if after_digit then int_digits acc false s' else None
      else match digit_value c with
           | Some n => int_digits (acc * 10 + Z.of_N n)%Z true s'
           | None => None
           end
  end.

Fixpoint digit_count (s : string) : Z :=
  match s with
  | EmptyString => 0
  | String c s' => (if digit_value c then 1 else 0) + digit_count s'
  end.

(** [int(text)]; Python refuses a text of more than 4300 digits. *)
Definition int_of_text (s : string) : option Z :=
  if (4300 <? digit_count s)%Z then None
  else
    match strip s with
    | String "-" s' => Z.opp <$> int_digits 0 false s'
    | String "+" s' => int_digits 0 false s'
    | s' => int_digits 0 false s'
    end.

(** [int(v)] *)
Definition py_int (v : pyval) : result exn Z :=
  match v with
  | PBool b => Ok (if b then 1 else 0)%Z
  | PInt z => Ok z
  | PFloat m e _ => Ok (if (0 <=? e)%Z then m * 2 ^ e else Z.quot m (2 ^ (- e)))%Z
  | PStr s => match int_of_text s with
              | Some z => Ok z
              | None => Raise (value_error "invalid literal for int() with base 10")
              end
  | _ => Raise (type_error "int() argument must be a string or a real number")
  end.

(** [dict(v)] with string keys. *)
Definition pair_of (v : pyval) : result exn (string * pyval) :=
  match v with
  | PList [k; x] | PTuple [k; x] => Ok (py_str k, x)
  | PStr (String a (String b EmptyString)) => Ok (String a "", PStr (String b ""))
  | PList _ | PTuple _ | PStr _ =>
      Raise (value_error "dictionary update sequence element has the wrong length; 2 is required")
  | _ => Raise (type_error "cannot convert dictionary update sequence element to a sequence")
  end.

Definition py_dict (v : pyval) : result exn pydict :=
  match v with
  | PDict d => Ok (List.map (fun kv => (py_str (fst kv), snd kv)) d)
  | _ => items ← py_iter v; pairs ← mapR pair_of items; Ok (dict_update [] pairs)
  end.

Definition _optional_string (v : pyval) : option string :=
  match v with PNone => None | _ => Some (py_str v) end.

Definition _optional_integer (v : pyval) : result exn (option Z) :=
  match v with PNone => Ok None | _ => Some <$> py_int v end.

(** [RiskLevel(text)], [ChangedFileKind(text)] *)
Definition risk_level_of (text : string) : result exn RiskLevel :=
  match risk_of_value text with
  | Some r => Ok r
  | None => Raise (value_error "not a valid RiskLevel")
  end.

Definition changed_kind_of (text : string) : result exn ChangedFileKind :=
  match kind_of_value text with
  | Some k => Ok k
  | None => Raise (value_error "not a valid ChangedFileKind")
  end.

(** *** The report *)

(** The evidence pairs are sorted by their text keys, which are different. *)
Definition _risk_reason_from_summary (summary : pyval) : result exn ChangeRiskReason.t :=
  evidence ← dict_get_or summary "evidence" (PDict []);
  match evidence with
  | PDict d =>
      code ← item_get summary "code";
      level ← item_get summary "risk_level";
      risk_level ← risk_level_of (py_str level);
      reason ← item_get summary "reason";
      Ok (ChangeRiskReason.mk (py_str code) risk_level (py_str reason)
            (sort_by_key (List.map (fun kv => (py_str (fst kv), snd kv)) d)))
  | _ => Raise (tampered "Risk reason evidence must be an object.")
  end.

Section Summary.
(** [float(v)] *)
Context (to_float : pyval -> result exn pyfloat).

Definition get_text (summary : pyval) (key : string) : result exn (option string) :=
  _optional_string <$> dict_get_or summary key PNone.

Definition get_flag (summary : pyval) (key : string) : result exn bool :=
  py_truth <$> dict_get_or summary key (PBool false).

Definition get_integer (summary : pyval) (key : string) : result exn (option Z) :=
  v ← dict_get_or summary key PNone; _optional_integer v.

Definition _rust_shadow_from_summary (summary : pyval)
    : result exn (option RustCriticalityShadow.t) :=
  match summary with
  | PNone => Ok None
  | _ =>
      metrics ← dict_get_or summary "semantic_metrics" PNone;
      semantic_metrics ← match metrics with PNone => Ok None | _ => Some <$> py_dict metrics end;
      available ← get_flag summary "available";
      index ← dict_get_or summary "criticality_index" PNone;
      criticality_index ← match index with PNone => Ok None | _ => Some <$> to_float index end;
      risk_level ← get_text summary "risk_level";
      items ← dict_get_or summary "reasons" (PTuple []);
      reasons ← py_iter items;
      path_category ← get_text summary "path_category";
      path_severity ← get_text summary "path_severity";
      error_code ← get_text summary "error_code";
      error_reason ← get_text summary "error_reason";
      verdict ← get_text summary "criticality_bypass_verdict";
      bypass_reason ← get_text summary "criticality_bypass_reason";
      Ok (Some (RustCriticalityShadow.mk available criticality_index risk_level
                  (List.map py_str reasons) semantic_metrics path_category path_severity error_code
                  error_reason verdict bypass_reason))
  end.

Definition file_from_summary (item : pyval) : result exn FileRiskClassification.t :=
  path ← item_get item "path";
  old_path ← get_text item "old_path";
  kind_text ← item_get item "kind";
  kind ← changed_kind_of (py_str kind_text);
  level ← item_get item "risk_level";
  risk_level ← risk_level_of (py_str level);
  additions ← get_integer item "additions";
  deletions ← get_integer item "deletions";
  binary ← get_flag item "binary";
  old_mode ← get_text item "old_mode";
  new_mode ← get_text item "new_mode";
  mode_changed ← get_flag item "mode_changed";
  reason_items ← dict_get_or item "reasons" (PTuple []);
  reasons_raw ← py_iter reason_items;
  reasons ← mapR _risk_reason_from_summary reasons_raw;
  rust ← dict_get_or item "rust_criticality" PNone;
  rust_criticality ← _rust_shadow_from_summary rust;
  Ok (FileRiskClassification.mk (py_str path) kind risk_level reasons additions deletions binary
        old_path old_mode new_mode mode_changed rust_criticality).

Definition _risk_report_from_summary (summary : pyval) : result exn ChangeRiskReport.t :=
  files_raw ← dict_get_or summary "files" (PTuple []);
  report_reasons_raw ← dict_get_or summary "report_reasons" (PTuple []);
  file_items ← py_iter files_raw;
  files ← mapR file_from_summary file_items;
  reason_items ← py_iter report_reasons_raw;
  report_reasons ← mapR _risk_reason_from_summary reason_items;
  baseline ← item_get summary "baseline_commit_sha";
  sha ← item_get summary "patch_sha256";
  Ok (ChangeRiskReport.mk (py_str baseline) (py_str sha) files report_reasons).
End Summary.

(** ** What a report is after the round trip *)

Definition canon_dict (d : pydict) : pydict := sort_by_key (map_values canon d).

Definition canon_reason (r : ChangeRiskReason.t) : ChangeRiskReason.t :=
  ChangeRiskReason.mk (ChangeRiskReason.code r) (ChangeRiskReason.risk_level r)
    (ChangeRiskReason.reason r) (canon_dict (ChangeRiskReason.evidence r)).

Definition canon_shadow (s : RustCriticalityShadow.t) : RustCriticalityShadow.t :=
  RustCriticalityShadow.mk (RustCriticalityShadow.available s)
    (RustCriticalityShadow.criticality_index s) (RustCriticalityShadow.risk_level s)
    (RustCriticalityShadow.reasons s) (canon_dict <$> RustCriticalityShadow.semantic_metrics s)
    (RustCriticalityShadow.path_category s) (RustCriticalityShadow.path_severity s)
    (RustCriticalityShadow.error_code s) (RustCriticalityShadow.error_reason s)
    (RustCriticalityShadow.criticality_bypass_verdict s)
    (RustCriticalityShadow.criticality_bypass_reason s).

Definition canon_file (f : FileRiskClassification.t) : FileRiskClassification.t :=
  FileRiskClassification.mk (FileRiskClassification.path f) (FileRiskClassification.kind f)
    (FileRiskClassification.risk_level f) (List.map canon_reason (FileRiskClassification.reasons f))
    (FileRiskClassification.additions f) (FileRiskClassification.deletions f)
    (FileRiskClassification.binary f) (FileRiskClassification.old_path f)
    (FileRiskClassification.old_mode f) (FileRiskClassification.new_mode f)
    (FileRiskClassification.mode_changed f)
    (canon_shadow <$> FileRiskClassification.rust_criticality f).

Definition canon_report (r : ChangeRiskReport.t) : ChangeRiskReport.t :=
  ChangeRiskReport.mk (ChangeRiskReport.baseline_commit_sha r) (ChangeRiskReport.patch_sha256 r)
    (List.map canon_file (ChangeRiskReport.files r))
    (List.map canon_reason (ChangeRiskReport.report_reasons r)).

(** No evidence uses the key that marks containers, and floats are floats. *)
Definition plain_dict (d : pydict) : Prop := _LOSSLESS_TYPE_KEY ∉ d.*1.

Definition plain_reason (r : ChangeRiskReason.t) : Prop := plain_dict (ChangeRiskReason.evidence r).

Definition plain_shadow (to_float : pyval -> result exn pyfloat) (s : RustCriticalityShadow.t) : Prop :=
  (forall d, RustCriticalityShadow.semantic_metrics s = Some d -> plain_dict d) /\
  (forall f, RustCriticalityShadow.criticality_index s = Some f -> to_float (of_float f) = Ok f).

Definition plain_file (to_float : pyval -> result exn pyfloat) (f : FileRiskClassification.t) : Prop :=
  Forall plain_reason (FileRiskClassification.reasons f) /\
  forall s, FileRiskClassification.rust_criticality f = Some s -> plain_shadow to_float s.

Definition plain_report (to_float : pyval -> result exn pyfloat) (r : ChangeRiskReport.t) : Prop :=
  Forall plain_reason (ChangeRiskReport.report_reasons r) /\
  Forall (plain_file to_float) (ChangeRiskReport.files r).

(** ** Lemmas *)

Lemma sort_by_key_idemp {A} (d : list (string * A)) : sort_by_key (sort_by_key d) = sort_by_key d.
Proof. apply sort_by_key_fixpoint, sort_by_key_sorted. Qed.

Lemma dict_lookup_None (d : pydict) k : k ∉ d.*1 -> dict_lookup d k = None.
Proof.
  induction d as [|[k' v] d IH]; cbn; [done|]. rewrite not_elem_of_cons. intros [Hne Hk].
  destruct (String.eqb_spec k' k); [congruence|by apply IH].
Qed.

Lemma dict_lookup_iff (d : pydict) k v : NoDup (d.*1) -> dict_lookup d k = Some v <-> (k, v) ∈ d.
Proof.
  induction d as [|[k' w] d IH]; cbn; intros Hnd; [split; [done|by intros ?%elem_of_nil]|].
  apply NoDup_cons in Hnd as [Hk Hnd]. specialize (IH Hnd).
  destruct (String.eqb_spec k' k) as [->|Hne].
  - split; [intros [= ->]; set_solver|]. intros [[= ->]|Hin]%elem_of_cons; [done|].
    exfalso. apply Hk. change k with (fst (k, v)). by apply list_elem_of_fmap_2.
  - rewrite IH, elem_of_cons. naive_solver.
Qed.

Lemma dict_lookup_map_values f (d : pydict) k :
  dict_lookup (map_values f d) k = f <$> dict_lookup d k.
Proof. induction d as [|[k' v] d IH]; cbn; [done|]. by destruct (String.eqb k' k). Qed.

Lemma dict_lookup_canon (d : pydict) k :
  NoDup (d.*1) -> dict_lookup (canon_dict d) k = canon <$> dict_lookup d k.
Proof.
  intros Hnd. rewrite <- dict_lookup_map_values. unfold canon_dict.
  assert (Hnd' : NoDup ((map_values canon d).*1)) by by rewrite map_values_keys.
  apply option_eq. intros v. rewrite !dict_lookup_iff; [by rewrite sort_by_key_perm|done|].
  eapply NoDup_Permutation_proper; [apply fmap_Permutation, sort_by_key_perm|done].
Qed.

Lemma pdict_lookup_of_dict (d : pydict) k :
  pdict_lookup (List.map (fun kv => (PStr (fst kv), snd kv)) d) k = dict_lookup d k.
Proof.
  unfold pdict_lookup. induction d as [|[k' v] d IH]; cbn; [done|]. by destruct (String.eqb k' k).
Qed.

Lemma canon_of_dict (d : pydict) : plain_dict d -> canon (of_dict d) = of_dict (canon_dict d).
Proof.
  unfold plain_dict, of_dict. intros Hp. cbn.
  assert (forallb (fun kv => is_plain_key (fst kv))
    (List.map (fun kv => (PStr (fst kv), snd kv)) d) = true) as ->.
  { apply forallb_elem_of. intros x (kv & -> & Hin)%list_elem_of_fmap. cbn.
    apply negb_true_iff, String.eqb_neq. intros Heq. apply Hp. rewrite <- Heq.
    by apply list_elem_of_fmap_2. }
  unfold of_dict, canon_dict, map_values. rewrite List.map_map. done.
Qed.

(** A dictionary as a value, and its members as Python lists them. *)
Lemma of_dict_entries (d : pydict) :
  exists l, of_dict d = PDict l /\ List.map (fun kv => (py_str (fst kv), snd kv)) l = d.
Proof.
  eexists. split; [reflexivity|]. rewrite List.map_map. cbn. apply map_pair_id.
Qed.

(** Reading a known member of a summary that went through a file. *)
Section Member.
Context (d : pydict) (Hnd : NoDup (d.*1)) (Hp : plain_dict d).

Lemma canon_item k v : dict_lookup d k = Some v -> item_get (canon (of_dict d)) k = Ok (canon v).
Proof using Hnd Hp.
  intros Hk. rewrite canon_of_dict by done. unfold of_dict. cbn [item_get].
  by rewrite pdict_lookup_of_dict, dict_lookup_canon, Hk.
Qed.

Lemma canon_get k v dflt :
  dict_lookup d k = Some v -> dict_get_or (canon (of_dict d)) k dflt = Ok (canon v).
Proof using Hnd Hp.
  intros Hk. rewrite canon_of_dict by done. unfold of_dict. cbn [dict_get_or].
  by rewrite pdict_lookup_of_dict, dict_lookup_canon, Hk.
Qed.

Lemma canon_text k o :
  dict_lookup d k = Some (of_opt_str o) -> get_text (canon (of_dict d)) k = Ok o.
Proof using Hnd Hp. intros Hk. unfold get_text. rewrite (canon_get _ _ _ Hk). by destruct o. Qed.

Lemma canon_flag k b :
  dict_lookup d k = Some (PBool b) -> get_flag (canon (of_dict d)) k = Ok b.
Proof using Hnd Hp. intros Hk. unfold get_flag. by rewrite (canon_get _ _ _ Hk). Qed.

Lemma canon_integer k o :
  dict_lookup d k = Some (PatchFileDiff.of_opt_int o) -> get_integer (canon (of_dict d)) k = Ok o.
Proof using Hnd Hp. intros Hk. unfold get_integer. rewrite (canon_get _ _ _ Hk). by destruct o. Qed.
End Member.

(** The keys of the summaries are written out: different and plain. *)
Ltac concrete_keys := first
  [ apply (bool_decide_unpack _); vm_compute; exact I
  | unfold plain_dict; apply (bool_decide_unpack _); vm_compute; exact I ].

Lemma reason_round_trip r :
  plain_reason r ->
  _risk_reason_from_summary (canon (of_dict (ChangeRiskReason.audit_summary r))) = Ok (canon_reason r).
Proof.
  intros Hp. assert (Hnd : NoDup ((ChangeRiskReason.audit_summary r).*1)) by concrete_keys.
  assert (Hk : plain_dict (ChangeRiskReason.audit_summary r)) by concrete_keys.
  unfold _risk_reason_from_summary.
  rewrite (canon_get _ Hnd Hk "evidence" (of_dict (ChangeRiskReason.evidence r))) by reflexivity.
  rewrite (canon_of_dict (ChangeRiskReason.evidence r)) by done.
  destruct (of_dict_entries (canon_dict (ChangeRiskReason.evidence r))) as (l & -> & Hl).
  cbn [mbind result_bind].
  rewrite (canon_item _ Hnd Hk "code" (PStr (ChangeRiskReason.code r))) by reflexivity.
  rewrite (canon_item _ Hnd Hk "risk_level" (PStr (risk_value (ChangeRiskReason.risk_level r)))) by reflexivity.
  rewrite (canon_item _ Hnd Hk "reason" (PStr (ChangeRiskReason.reason r))) by reflexivity.
  cbn [mbind result_bind canon py_str]. unfold risk_level_of. rewrite risk_of_value_value.
  cbn [mbind result_bind]. unfold canon_reason. do 2 f_equal.
  rewrite Hl. apply sort_by_key_idemp.
Qed.

(** A tuple of summaries, read back one by one. *)
Lemma summaries_round_trip {A B} (summary : A -> pydict) (from : pyval -> result exn B) (h : A -> B) l :
  (forall x, x ∈ l -> from (canon (of_dict (summary x))) = Ok (h x)) ->
  mapR from (List.map canon (List.map (fun x => of_dict (summary x)) l)) = Ok (List.map h l).
Proof.
  intros H. rewrite List.map_map.
  by apply (mapR_map_Ok from (fun x => canon (of_dict (summary x))) h).
Qed.

Section RoundTrip.
Context (to_float : pyval -> result exn pyfloat).

Lemma py_dict_canon (d : pydict) : plain_dict d -> py_dict (canon (of_dict d)) = Ok (canon_dict d).
Proof.
  intros Hp. rewrite canon_of_dict by done. unfold of_dict. cbn [py_dict].
  rewrite List.map_map. cbn. by rewrite map_pair_id.
Qed.

Lemma shadow_round_trip s :
  plain_shadow to_float s ->
  _rust_shadow_from_summary to_float (canon (of_dict (RustCriticalityShadow.audit_summary s)))
  = Ok (Some (canon_shadow s)).
Proof.
  intros [Hm Hf].
  assert (Hnd : NoDup ((RustCriticalityShadow.audit_summary s).*1)) by concrete_keys.
  assert (Hk : plain_dict (RustCriticalityShadow.audit_summary s)) by concrete_keys.
  assert (Hdict : exists d, canon (of_dict (RustCriticalityShadow.audit_summary s)) = PDict d)
    by (rewrite canon_of_dict by done; by eexists).
  destruct Hdict as [d Hd]. unfold _rust_shadow_from_summary. rewrite Hd. rewrite <- Hd. clear d Hd.
  erewrite (canon_get _ Hnd Hk "semantic_metrics") by reflexivity. cbn [mbind result_bind].
  rewrite (canon_flag _ Hnd Hk "available" (RustCriticalityShadow.available s)) by reflexivity.
  erewrite (canon_get _ Hnd Hk "criticality_index") by reflexivity.
  rewrite (canon_text _ Hnd Hk "risk_level" (RustCriticalityShadow.risk_level s)) by reflexivity.
  erewrite (canon_get _ Hnd Hk "reasons") by reflexivity.
  rewrite (canon_text _ Hnd Hk "path_category" (RustCriticalityShadow.path_category s)) by reflexivity.
  rewrite (canon_text _ Hnd Hk "path_severity" (RustCriticalityShadow.path_severity s)) by reflexivity.
  rewrite (canon_text _ Hnd Hk "error_code" (RustCriticalityShadow.error_code s)) by reflexivity.
  rewrite (canon_text _ Hnd Hk "error_reason" (RustCriticalityShadow.error_reason s)) by reflexivity.
  rewrite (canon_text _ Hnd Hk "criticality_bypass_verdict"
    (RustCriticalityShadow.criticality_bypass_verdict s)) by reflexivity.
  rewrite (canon_text _ Hnd Hk "criticality_bypass_reason"
    (RustCriticalityShadow.criticality_bypass_reason s)) by reflexivity.
  unfold canon_shadow. cbn [mbind result_bind canon py_iter].
  assert (Hreasons : List.map py_str (List.map canon (List.map PStr (RustCriticalityShadow.reasons s)))
    = RustCriticalityShadow.reasons s).
  { rewrite !List.map_map. cbn. apply List.map_id. }
  destruct (RustCriticalityShadow.semantic_metrics s) as [m|] eqn:Em.
  - assert (Hcase : exists d, canon (of_dict m) = PDict d)
      by (rewrite canon_of_dict by (by apply Hm); by eexists).
    destruct Hcase as [d Hd]. rewrite Hd. rewrite <- Hd, py_dict_canon by (by apply Hm).
    cbn [fmap result_fmap mbind result_bind].
    destruct (RustCriticalityShadow.criticality_index s) as [f|] eqn:Ef; cbn [canon].
    + unfold of_float. cbn [canon]. change (PFloat (f_mantissa f) (f_exponent f) (f_text f)) with (of_float f).
      rewrite (Hf f) by done. cbn [fmap result_fmap mbind result_bind]. by rewrite Hreasons.
    + cbn [fmap result_fmap mbind result_bind]. by rewrite Hreasons.
  - cbn [canon fmap result_fmap mbind result_bind].
    destruct (RustCriticalityShadow.criticality_index s) as [f|] eqn:Ef; cbn [canon].
    + unfold of_float. cbn [canon]. change (PFloat (f_mantissa f) (f_exponent f) (f_text f)) with (of_float f).
      rewrite (Hf f) by done. cbn [fmap result_fmap mbind result_bind]. by rewrite Hreasons.
    + cbn [fmap result_fmap mbind result_bind]. by rewrite Hreasons.
Qed.

Lemma file_round_trip f :
  plain_file to_float f ->
  file_from_summary to_float (canon (of_dict (FileRiskClassification.audit_summary f)))
  = Ok (canon_file f).
Proof.
  intros [Hr Hs].
  assert (Hnd : NoDup ((FileRiskClassification.audit_summary f).*1)) by concrete_keys.
  assert (Hk : plain_dict (FileRiskClassification.audit_summary f)) by concrete_keys.
  unfold file_from_summary.
  rewrite (canon_item _ Hnd Hk "path" (PStr (FileRiskClassification.path f))) by reflexivity.
  rewrite (canon_text _ Hnd Hk "old_path" (FileRiskClassification.old_path f)) by reflexivity.
  rewrite (canon_item _ Hnd Hk "kind" (PStr (kind_value (FileRiskClassification.kind f)))) by reflexivity.
  rewrite (canon_item _ Hnd Hk "risk_level"
    (PStr (risk_value (FileRiskClassification.risk_level f)))) by reflexivity.
  rewrite (canon_integer _ Hnd Hk "additions" (FileRiskClassification.additions f)) by reflexivity.
  rewrite (canon_integer _ Hnd Hk "deletions" (FileRiskClassification.deletions f)) by reflexivity.
  rewrite (canon_flag _ Hnd Hk "binary" (FileRiskClassification.binary f)) by reflexivity.
  rewrite (canon_text _ Hnd Hk "old_mode" (FileRiskClassification.old_mode f)) by reflexivity.
  rewrite (canon_text _ Hnd Hk "new_mode" (FileRiskClassification.new_mode f)) by reflexivity.
  rewrite (canon_flag _ Hnd Hk "mode_changed" (FileRiskClassification.mode_changed f)) by reflexivity.
  erewrite (canon_get _ Hnd Hk "reasons") by reflexivity.
  erewrite (canon_get _ Hnd Hk "rust_criticality") by reflexivity.
  cbn [mbind result_bind canon py_str py_iter]. unfold changed_kind_of, risk_level_of.
  rewrite kind_of_value_value, risk_of_value_value. cbn [mbind result_bind].
  rewrite Forall_forall in Hr.
  rewrite (summaries_round_trip ChangeRiskReason.audit_summary _ canon_reason)
    by (intros x Hx; by apply reason_round_trip, Hr).
  cbn [mbind result_bind]. unfold canon_file.
  destruct (FileRiskClassification.rust_criticality f) as [s|] eqn:Es; [|done].
  by rewrite shadow_round_trip by (by apply Hs).
Qed.

Lemma summary_round_trip r :
  plain_report to_float r ->
  _risk_report_from_summary to_float (canon (of_dict (ChangeRiskReport.audit_summary r)))
  = Ok (canon_report r).
Proof.
  intros [Hr Hf].
  assert (Hnd : NoDup ((ChangeRiskReport.audit_summary r).*1)) by concrete_keys.
  assert (Hk : plain_dict (ChangeRiskReport.audit_summary r)) by concrete_keys.
  unfold _risk_report_from_summary.
  erewrite (canon_get _ Hnd Hk "files") by reflexivity.
  erewrite (canon_get _ Hnd Hk "report_reasons") by reflexivity.
  rewrite (canon_item _ Hnd Hk "baseline_commit_sha"
    (PStr (ChangeRiskReport.baseline_commit_sha r))) by reflexivity.
  rewrite (canon_item _ Hnd Hk "patch_sha256"
    (PStr (ChangeRiskReport.patch_sha256 r))) by reflexivity.
  cbn [mbind result_bind canon py_str py_iter].
  rewrite Forall_forall in Hr. rewrite Forall_forall in Hf.
  rewrite (summaries_round_trip FileRiskClassification.audit_summary _ canon_file)
    by (intros x Hx; by apply file_round_trip, Hf).
  cbn [mbind result_bind].
  rewrite (summaries_round_trip ChangeRiskReason.audit_summary _ canon_reason)
    by (intros x Hx; by apply reason_round_trip, Hr). done.
Qed.
End RoundTrip.

(** Nothing the gate and the approval requirement look at is evidence. *)
Lemma canon_overall r :
  ChangeRiskReport.overall_risk_level (canon_report r) = ChangeRiskReport.overall_risk_level r.
Proof.
  unfold ChangeRiskReport.overall_risk_level, canon_report. cbn. by rewrite !List.map_map.
Qed.

Lemma canon_filter (p : ChangeRiskReason.t -> bool) l :
  (forall x, p (canon_reason x) = p x) ->
  List.filter p (List.map canon_reason l) = List.map canon_reason (List.filter p l).
Proof.
  intros Hp. induction l as [|x l IH]; cbn; [done|]. rewrite Hp, IH. by destruct (p x).
Qed.

Lemma canon_all_reasons r : all_reasons (canon_report r) = List.map canon_reason (all_reasons r).
Proof.
  unfold all_reasons, canon_report. cbn. rewrite List.map_app. f_equal.
  induction (ChangeRiskReport.files r) as [|f l IH]; cbn; [done|]. by rewrite List.map_app, IH.
Qed.

Lemma canon_blocked r :
  GuardedChangeGateDecision.blocked (gate_of_report (canon_report r))
  = GuardedChangeGateDecision.blocked (gate_of_report r).
Proof.
  apply eq_true_iff_eq. rewrite !blocked_gate_of, canon_all_reasons. split.
  - intros (x & (y & -> & Hy)%list_elem_of_fmap & Hl). by exists y.
  - intros (x & Hx & Hl). exists (canon_reason x). split; [by apply list_elem_of_fmap_2|done].
Qed.

Lemma canon_file_reasons f : _file_approval_reasons (canon_file f) = _file_approval_reasons f.
Proof.
  unfold _file_approval_reasons, _is_low_risk_docs_or_tests. cbn [canon_file
    FileRiskClassification.path FileRiskClassification.risk_level FileRiskClassification.reasons].
  rewrite canon_filter by done. rewrite List.map_map.
  assert (forallb is_docs_or_tests_code (List.map canon_reason (FileRiskClassification.reasons f))
          = forallb is_docs_or_tests_code (FileRiskClassification.reasons f)) as ->.
  { induction (FileRiskClassification.reasons f) as [|x l IH]; cbn; [done|by rewrite IH]. }
  by destruct (FileRiskClassification.reasons f).
Qed.

Lemma canon_required d r :
  PatchApprovalRequirement.required
    (requirement_of d (canon_report r) (gate_of_report (canon_report r)))
  = PatchApprovalRequirement.required (requirement_of d r (gate_of_report r)).
Proof.
  unfold requirement_of. rewrite canon_blocked.
  destruct (GuardedChangeGateDecision.blocked (gate_of_report r)); [done|].
  assert (_approval_reasons d (canon_report r) = _approval_reasons d r) as ->; [|done].
  unfold _approval_reasons. rewrite canon_overall. cbn [canon_report ChangeRiskReport.report_reasons
    ChangeRiskReport.files]. rewrite canon_filter by done. rewrite List.map_map.
  do 4 f_equal. rewrite !flat_map_concat_map, List.map_map. f_equal.
  apply List.map_ext. intros f. apply canon_file_reasons.
Qed.

(** *** Example *)

Definition float_of_pyval (v : pyval) : result exn pyfloat :=
  match v with PFloat m e t => Ok (mk_float m e t) | _ => Raise (type_error "float()") end.

Definition example_reason : ChangeRiskReason.t :=
  ChangeRiskReason.mk "action-intent-example" HIGH "An example."
    [("evidence", PTuple [PDict [(PStr "subject", PStr "setup.py"); (PStr "source", PStr "path")]]);
     ("confidence", PFloat 1 (-1) "0.5")]%string.

Definition example_report : ChangeRiskReport.t :=
  ChangeRiskReport.mk "abc" "d1gest"
    [FileRiskClassification.mk "setup.py" MODIFIED HIGH [example_reason] (Some 2)%Z None false None
       (Some "100644"%string) (Some "100644"%string) false
       (Some (RustCriticalityShadow.mk true (Some (mk_float 1 (-1) "0.5")) (Some "low"%string)
                ["r1"; "r2"]%string (Some [("b", PInt 1); ("a", PInt 2)]%string)
                None None None None None None))]
    [example_reason].

Lemma example_report_plain : plain_report float_of_pyval example_report.
Proof.
  assert (Hr : plain_reason example_reason) by (unfold plain_reason; concrete_keys).
  split; [by repeat constructor|]. repeat constructor; [done| |].
  - intros d Hd. cbn in H. injection H as <-. injection Hd as <-. concrete_keys.
  - intros f Hf. cbn in H. injection H as <-. by injection Hf as <-.
Qed.

(** ** Theorems *)

(** A risk report survives its artifact: written as its audit summary
    in the lossless encoding with sorted keys, and read back from the text, it
    is the same report up to the order of members inside its evidence; the
    gate decides the same on it, and the same approval is required. *)
Theorem report_survives_artifact float_of_text to_float r :
  py_wf float_of_text (of_dict (ChangeRiskReport.audit_summary r)) -> plain_report to_float r ->
  exists j summary r',
    loads (canonical_json (_encode_lossless_value (of_dict (ChangeRiskReport.audit_summary r))))
      = Some j /\
    _decode_lossless_value float_of_text j = Ok summary /\
    _risk_report_from_summary to_float summary = Ok r' /\ r' = canon_report r /\
    GuardedChangeGateDecision.blocked (gate_of_report r')
      = GuardedChangeGateDecision.blocked (gate_of_report r) /\
    forall d, PatchApprovalRequirement.required (requirement_of d r' (gate_of_report r'))
              = PatchApprovalRequirement.required (requirement_of d r (gate_of_report r)).
Proof.
  intros Hw Hp. set (v := of_dict (ChangeRiskReport.audit_summary r)) in *.
  exists (sort_json (_encode_lossless_value v)), (canon v), (canon_report r). split_and!; try done.
  - by apply loads_dumps, sort_json_wf, (encode_wf float_of_text).
  - apply (decode_stored float_of_text true v); [done|]. by rewrite jsize_sort.
  - by apply summary_round_trip.
  - apply canon_blocked.
  - intros d. apply canon_required.
Qed.

Lemma report_survives_witness :
  exists r', r' = canon_report example_report /\
    GuardedChangeGateDecision.blocked (gate_of_report r') = false.
Proof.
  assert (Hf : wf_float "0.5").
  { split_and!; try reflexivity. exists "0"%char, ".5"%string. split; [done|]. right. by vm_compute. }
  assert (Hw : py_wf example_float (of_dict (ChangeRiskReport.audit_summary example_report))).
  { vm_compute. repeat first [apply Forall_nil | apply Forall_cons; split | split
    | apply py_wf_float; [reflexivity|exact Hf] | constructor | reflexivity]. }
  destruct (report_survives_artifact example_float float_of_pyval example_report Hw
    example_report_plain) as (j & s & r' & _ & _ & _ & Hr & Hb & _).
  exists r'. split; [exact Hr|]. rewrite Hb. vm_compute. reflexivity.
Defined.
