(* ===== verification/PatchArtifact.v ===== *)
(** * The store of patch artifacts

    patch_artifact.py: [PatchArtifact], its integrity checks, and
    [PatchArtifactStore]: persist, load, delete, mark_consumed and
    apply_approved under the lock file of an artifact.  The directory is a map
    from artifact identifiers to files and a set of lock files; an operation
    runs on the directory and on the rest of the world, so that the apply of
    [GuardedApply] happens under the lock.  The JSON text, the base64 text and
    the digests are concrete. *)

From S2P Require Export ReportSummary GuardedApply.

(** ** The host *)

(** What the module takes from Python's library and the file system: paths
    ([Path(p).expanduser().resolve().as_posix()], [is_dir]), times in
    microseconds, float texts, and the decoding of patch bytes
    ([surrogateescape]). *)
Class ArtifactHost := {
  resolve_path : string -> string;
  is_directory : string -> bool;
  iso_parse : string -> option (Z * bool);     (* the instant; has a time zone *)
  iso_format : Z -> string;
  float_value : string -> Z * Z;
  float_cast : pyval -> result exn pyfloat;
  decode_text : list Z -> string;
}.

(** What is documented of them. *)
Class HostLaws `{ArtifactHost} : Prop := {
  resolve_idemp p : resolve_path (resolve_path p) = resolve_path p;
  iso_round_trip t : iso_parse (iso_format t) = Some (t, true);
  decode_utf8 s : decode_text (utf8_bytes s) = s;
}.

(** What the disk does to one operation of the store: the failures of its
    system calls, chosen by the environment.  [Before]: the call that fails
    comes before the file of the directory changed; [After]: it comes after. *)
Inductive disk_fault := Before (text : string) | After (text : string).

(** A failure of [load]: in [exists], [is_file] and [stat], whose [OSError]
    passes, or in [read_text], where it becomes [PatchArtifactTamperedError]. *)
Inductive read_fault := FailStat (text : string) | FailRead.

Record disk_faults := mk_disk_faults {
  lock_fault : option disk_fault;      (* the lock's [os.open]; writing its contents *)
  first_fault : option read_fault;     (* the [load] the operation begins with *)
  write_fault : option disk_fault;     (* [_atomic_write], before or after [os.replace] *)
  reload_fault : option read_fault;    (* the [load] of what was written *)
  remove_fault : option string;        (* [path.unlink()] of [delete] *)
  unlock_fault : option string;        (* [lock_path.unlink()] *)
}.

Definition no_faults : disk_faults := mk_disk_faults None None None None None None.

#[global] Instance disk_fault_eq_dec : EqDecision disk_fault.
Proof. solve_decision. Defined.
#[global] Instance read_fault_eq_dec : EqDecision read_fault.
Proof. solve_decision. Defined.
#[global] Instance disk_faults_eq_dec : EqDecision disk_faults.
Proof. solve_decision. Defined.

(** ** Definitions *)

Definition os_error (text : string) : exn := mk_exn OSError "OSError" text.

Definition PATCH_ARTIFACT_SCHEMA_VERSION : string := "patch-artifact.v1".
Definition PATCH_ARTIFACT_STATE_PENDING : string := "pending".
Definition PATCH_ARTIFACT_STATE_CONSUMED : string := "consumed".
Definition DEFAULT_PATCH_ARTIFACT_TTL_SECONDS : Z := 60 * 60.
Definition MAX_PATCH_ARTIFACT_BYTES : Z := 64 * 1024 * 1024.

Definition artifact_error (text : string) : exn := mk_exn RuntimeError "PatchArtifactError" text.
Definition artifact_not_found (text : string) : exn :=
  mk_exn RuntimeError "PatchArtifactNotFoundError" text.
Definition artifact_expired (text : string) : exn :=
  mk_exn RuntimeError "PatchArtifactExpiredError" text.
Definition artifact_consumed (text : string) : exn :=
  mk_exn RuntimeError "PatchArtifactConsumedError" text.

Definition sha256_of_bytes (bytes : list Z) : string := hex (sha256_bytes bytes).

#[global] Arguments sha256_of_bytes : simpl never.

Module PatchArtifact.
Record t := mk {
  schema_version : string;
  artifact_id : string;
  run_id : string;
  trace_id : string;
  approval_request_id : string;
  trusted_repo_path : string;
  trusted_repo_identity_sha256 : string;
  baseline_commit_sha : string;
  workspace_path : string;
  patch_base64 : string;
  patch_sha256 : string;
  patch_size_bytes : Z;
  files : list jdict;
  ignored_files : list jdict;
  risk_summary : jdict;
  intent_summary : jdict;
  created_at : string;
  expires_at : string;
  state : string;
  consumed_at : option string;
  artifact_digest : string;
}.

(** [to_payload(include_digest=False)] *)
Definition payload (a : t) : jdict :=
  [("schema_version", JStr (schema_version a)); ("artifact_id", JStr (artifact_id a));
   ("run_id", JStr (run_id a)); ("trace_id", JStr (trace_id a));
   ("approval_request_id", JStr (approval_request_id a));
   ("trusted_repo_path", JStr (trusted_repo_path a));
   ("trusted_repo_identity_sha256", JStr (trusted_repo_identity_sha256 a));
   ("baseline_commit_sha", JStr (baseline_commit_sha a));
   ("workspace_path", JStr (workspace_path a)); ("patch_base64", JStr (patch_base64 a));
   ("patch_sha256", JStr (patch_sha256 a)); ("patch_size_bytes", JInt (patch_size_bytes a));
   ("files", JList (List.map JDict (files a)));
   ("ignored_files", JList (List.map JDict (ignored_files a)));
   ("risk_summary", JDict (risk_summary a)); ("intent_summary", JDict (intent_summary a));
   ("created_at", JStr (created_at a)); ("expires_at", JStr (expires_at a));
   ("state", JStr (state a));
   ("consumed_at", match consumed_at a with Some s => JStr s | None => JNull end)]%string.

Definition to_payload (a : t) (include_digest : bool) : jdict :=
  if include_digest then payload a ++ [("artifact_digest"%string, JStr (artifact_digest a))]
  else payload a.

Definition with_digest (a : t) (digest : string) : t :=
  mk (schema_version a) (artifact_id a) (run_id a) (trace_id a) (approval_request_id a)
    (trusted_repo_path a) (trusted_repo_identity_sha256 a) (baseline_commit_sha a)
    (workspace_path a) (patch_base64 a) (patch_sha256 a) (patch_size_bytes a) (files a)
    (ignored_files a) (risk_summary a) (intent_summary a) (created_at a) (expires_at a) (state a)
    (consumed_at a) digest.

(** The keys replaced by [_mark_consumed_unlocked]. *)
Definition consumed (a : t) (now : string) : t :=
  mk (schema_version a) (artifact_id a) (run_id a) (trace_id a) (approval_request_id a)
    (trusted_repo_path a) (trusted_repo_identity_sha256 a) (baseline_commit_sha a)
    (workspace_path a) (patch_base64 a) (patch_sha256 a) (patch_size_bytes a) (files a)
    (ignored_files a) (risk_summary a) (intent_summary a) (created_at a) (expires_at a)
    PATCH_ARTIFACT_STATE_CONSUMED (Some now) "".

Definition patch_bytes (a : t) : result exn (list Z) :=
  match b64decode (patch_base64 a) with
  | Some bytes => Ok bytes
  | None => Raise (tampered "Patch artifact contains invalid base64 patch data.")
  end.
End PatchArtifact.

(** [_artifact_digest]; the canonical text is ASCII. *)
Definition _artifact_digest (payload : jdict) : string := sha256_hex (canonical_json (JDict payload)).

#[global] Arguments _artifact_digest : simpl never.

Definition _with_integrity_digest (a : PatchArtifact.t) : PatchArtifact.t :=
  PatchArtifact.with_digest a (_artifact_digest (PatchArtifact.to_payload a false)).

Definition identifier_char (c : ascii) : bool :=
  let n := code c in
  in_range 97 122 n || in_range 65 90 n || in_range 48 57 n || (n =? 45)%N || (n =? 95)%N.

Fixpoint identifier_chars (s : string) : bool :=
  match s with EmptyString => true | String c s' => identifier_char c && identifier_chars s' end.

Definition _require_identifier (value label : string) : result exn string :=
  let normalized := strip value in
  if negb (truthy normalized) then Raise (artifact_error (label +++ " must not be blank."))
  else if negb (identifier_chars normalized)
  then Raise (artifact_error (label +++ " contains unsupported characters."))
  else if (160 <? Z.of_nat (String.length normalized))%Z
  then Raise (artifact_error (label +++ " is too long."))
  else Ok normalized.

Section Artifact.
Context `{AH : ArtifactHost}.

Definition _repo_identity (path : string) : string := sha256_hex (resolve_path path).

Definition _parse_timestamp (value : string) : result exn Z :=
  match iso_parse value with
  | Some (instant, true) => Ok instant
  | Some (_, false) => Raise (tampered "Artifact timestamps must include timezone information.")
  | None => Raise (tampered ("Invalid artifact timestamp: " +++ value))
  end.

Definition expired (a : PatchArtifact.t) (now : Z) : result exn bool :=
  expires ← _parse_timestamp (PatchArtifact.expires_at a); Ok (expires <? now)%Z.

(** *** Reading the patch and the report out of an artifact *)

(** A loaded JSON value. *)
Fixpoint py_of_json (v : json) : pyval :=
  match v with
  | JNull => PNone
  | JBool b => PBool b
  | JInt z => PInt z
  | JFloat t => let '(m, e) := float_value t in PFloat m e t
  | JStr s => PStr s
  | JList l => PList (List.map py_of_json l)
  | JDict d => PDict (List.map (fun kv => match kv with (k, x) => (PStr k, py_of_json x) end) d)
  end.

Definition file_diff_of (item : jdict) : result exn PatchFileDiff.t :=
  let v := py_of_json (JDict item) in
  path ← item_get v "path";
  old_path ← get_text v "old_path";
  kind_text ← item_get v "kind";
  kind ← changed_kind_of (py_str kind_text);
  additions ← get_integer v "additions";
  deletions ← get_integer v "deletions";
  binary ← get_flag v "binary";
  old_mode ← get_text v "old_mode";
  new_mode ← get_text v "new_mode";
  mode_changed ← get_flag v "mode_changed";
  Ok (PatchFileDiff.mk (py_str path) kind additions deletions binary old_path old_mode new_mode
        mode_changed).

Definition ignored_file_of (item : jdict) : result exn IgnoredChangedFile.t :=
  let v := py_of_json (JDict item) in
  path ← item_get v "path";
  reason_text ← item_get v "reason";
  match ignored_reason_of_value (py_str reason_text) with
  | Some reason => Ok (IgnoredChangedFile.mk (py_str path) reason)
  | None => Raise (value_error "not a valid IgnoredFileReason")
  end.

Definition to_patch_diff (a : PatchArtifact.t) : result exn PatchDiff.t :=
  bytes ← PatchArtifact.patch_bytes a;
  _ ← ensure (String.eqb (sha256_of_bytes bytes) (PatchArtifact.patch_sha256 a))
        (tampered "Patch bytes do not match the persisted patch SHA-256.");
  _ ← ensure (Z.of_nat (List.length bytes) =? PatchArtifact.patch_size_bytes a)%Z
        (tampered "Patch bytes do not match the persisted patch length.");
  files ← mapR file_diff_of (PatchArtifact.files a);
  ignored_files ← mapR ignored_file_of (PatchArtifact.ignored_files a);
  Ok (PatchDiff.mk (PatchArtifact.workspace_path a) (PatchArtifact.baseline_commit_sha a)
        (decode_text bytes) (PatchArtifact.patch_sha256 a) (PatchArtifact.patch_size_bytes a)
        files ignored_files).

Definition to_risk_report (a : PatchArtifact.t) : result exn ChangeRiskReport.t :=
  decoded ← _decode_lossless_value float_value (JDict (PatchArtifact.risk_summary a));
  match decoded with
  | PDict _ => _risk_report_from_summary float_cast decoded
  | _ => Raise (tampered "Decoded risk summary must be an object.")
  end.

(** *** Reading an artifact from its payload *)

Definition required_fields : list string :=
  ["schema_version"; "artifact_id"; "run_id"; "trace_id"; "approval_request_id";
   "trusted_repo_path"; "trusted_repo_identity_sha256"; "baseline_commit_sha"; "workspace_path";
   "patch_base64"; "patch_sha256"; "patch_size_bytes"; "files"; "ignored_files"; "risk_summary";
   "intent_summary"; "created_at"; "expires_at"; "state"; "consumed_at"; "artifact_digest"]%string.

(** [for item in v] over a loaded value; [None] is a [TypeError]. *)
Fixpoint json_chars (s : string) : list json :=
  match s with
  | EmptyString => []
  | String c s' => JStr (String c "") :: json_chars s'
  end.

Definition json_iter (v : json) : option (list json) :=
  match v with
  | JList l => Some l
  | JStr s => Some (json_chars s)
  | JDict d => Some (List.map (fun kv => JStr (fst kv)) d)
  | _ => None
  end.

(** [dict(v)]; [None] is a [TypeError] or [ValueError].  A pair whose key is
    not a string is outside the model and rejected. *)
Definition json_pair (v : json) : option (string * json) :=
  match json_iter v with
  | Some [JStr k; x] => Some (k, x)
  | _ => None
  end.

Definition json_dict (v : json) : option jdict :=
  match v with
  | JDict d => Some d
  | _ => items ← json_iter v; pairs ← mapM json_pair items; Some (jdict_of pairs)
  end.

Definition json_dicts (v : json) : option (list jdict) := items ← json_iter v; mapM json_dict items.

Definition payload_fields (d : jdict) : option PatchArtifact.t :=
  let get k := default JNull (jget d k) in
  let text k := py_str (py_of_json (get k)) in
  match py_int (py_of_json (get "patch_size_bytes"%string)) with
  | Raise _ => None
  | Ok size =>
      files ← json_dicts (get "files"%string);
      ignored ← json_dicts (get "ignored_files"%string);
      risk ← json_dict (get "risk_summary"%string);
      intent ← json_dict (get "intent_summary"%string);
      Some (PatchArtifact.mk (text "schema_version") (text "artifact_id") (text "run_id")
              (text "trace_id") (text "approval_request_id") (text "trusted_repo_path")
              (text "trusted_repo_identity_sha256") (text "baseline_commit_sha")
              (text "workspace_path") (text "patch_base64") (text "patch_sha256") size files ignored
              risk intent (text "created_at") (text "expires_at") (text "state")
              (_optional_string (py_of_json (get "consumed_at"))) (text "artifact_digest"))%string
  end.

Definition _artifact_from_payload (payload : json) : result exn PatchArtifact.t :=
  match payload with
  | JDict d =>
      let missing := List.filter (fun k => negb (mem k d.*1)) required_fields in
      let extra := List.filter (fun k => negb (mem k required_fields)) d.*1 in
      match missing, extra with
      | _ :: _, _ => Raise (tampered ("Patch artifact is missing fields: " +++
                              str_join ", " (sorted_set missing)))
      | [], _ :: _ => Raise (tampered ("Patch artifact contains unknown fields: " +++
                               str_join ", " (sorted_set extra)))
      | [], [] => match payload_fields d with
                  | Some a => Ok a
                  | None => Raise (tampered "Patch artifact fields have invalid types.")
                  end
      end
  | _ => Raise (tampered "Patch artifact root must be a JSON object.")
  end.

Definition _verify_artifact (a : PatchArtifact.t) : result exn unit :=
  _ ← ensure (String.eqb (PatchArtifact.schema_version a) PATCH_ARTIFACT_SCHEMA_VERSION)
        (tampered ("Unsupported patch artifact schema: " +++ PatchArtifact.schema_version a));
  _ ← _require_identifier (PatchArtifact.artifact_id a) "artifact ID";
  _ ← _require_identifier (PatchArtifact.run_id a) "run ID";
  _ ← _require_identifier (PatchArtifact.trace_id a) "trace ID";
  _ ← _require_identifier (PatchArtifact.approval_request_id a) "approval request ID";
  let is_pending := String.eqb (PatchArtifact.state a) PATCH_ARTIFACT_STATE_PENDING in
  let is_consumed := String.eqb (PatchArtifact.state a) PATCH_ARTIFACT_STATE_CONSUMED in
  let has_time := match PatchArtifact.consumed_at a with Some _ => true | None => false end in
  _ ← ensure (is_pending || is_consumed)
        (tampered ("Invalid patch artifact state: " +++ PatchArtifact.state a));
  _ ← ensure (negb (is_consumed && negb has_time))
        (tampered "Consumed artifact is missing consumed_at.");
  _ ← ensure (negb (is_pending && has_time))
        (tampered "Pending artifact must not have consumed_at.");
  created ← _parse_timestamp (PatchArtifact.created_at a);
  expires ← _parse_timestamp (PatchArtifact.expires_at a);
  _ ← ensure (negb (expires <=? created)%Z)
        (tampered "Patch artifact expiration must follow creation.");
  bytes ← PatchArtifact.patch_bytes a;
  _ ← ensure (String.eqb (sha256_of_bytes bytes) (PatchArtifact.patch_sha256 a))
        (tampered "Patch artifact patch digest is invalid.");
  _ ← ensure (Z.of_nat (List.length bytes) =? PatchArtifact.patch_size_bytes a)%Z
        (tampered "Patch artifact patch byte length is invalid.");
  _ ← ensure (String.eqb (_repo_identity (PatchArtifact.trusted_repo_path a))
                (PatchArtifact.trusted_repo_identity_sha256 a))
        (tampered "Patch artifact trusted repository identity is invalid.");
  ensure (String.eqb (_artifact_digest (PatchArtifact.to_payload a false))
            (PatchArtifact.artifact_digest a))
    (tampered "Patch artifact integrity digest is invalid.").

(** *** The directory *)

(** What a name of the directory leads to. *)
Inductive fs_entry :=
  | RegularText (text : string)          (* a regular file with a UTF-8 text *)
  | RegularBinary (size : Z)             (* a regular file that is no UTF-8 *)
  | NotRegular.                          (* a directory, a symbolic link *)

(** [<artifact_id>.json] and [.<artifact_id>.lock], by identifier. *)
Record artifact_store := mk_artifact_store {
  st_files : gmap string fs_entry;
  st_locks : gset string;
}.

Definition put_file (s : artifact_store) (id : string) (f : fs_entry) : artifact_store :=
  mk_artifact_store (<[id := f]> (st_files s)) (st_locks s).

Definition entry_size (f : fs_entry) : Z :=
  match f with RegularText t => utf8_len t | RegularBinary n => n | NotRegular => 0 end.

(** [load]: the checks on the file, on the artifact, and on its state. *)
Definition load (s : artifact_store) (artifact_id : string) (allow_expired allow_consumed : bool)
    (now : Z) : result exn PatchArtifact.t :=
  normalized_id ← _require_identifier artifact_id "artifact ID";
  match st_files s !! normalized_id with
  | None => Raise (artifact_not_found ("Patch artifact was not found: " +++ normalized_id))
  | Some NotRegular =>
      Raise (tampered "Patch artifact path is not a regular non-symlink file.")
  | Some f =>
      let size := entry_size f in
      _ ← ensure (negb ((size <=? 0)%Z || (MAX_PATCH_ARTIFACT_BYTES <? size)%Z))
            (tampered ("Patch artifact has invalid size: " +++ pretty size));
      match f with
      | RegularText text =>
          match loads text with
          | None => Raise (tampered "Patch artifact is not valid UTF-8 JSON.")
          | Some payload =>
              artifact ← _artifact_from_payload payload;
              _ ← _verify_artifact artifact;
              _ ← ensure (String.eqb (PatchArtifact.artifact_id artifact) normalized_id)
                    (tampered "Patch artifact ID does not match its filename.");
              _ ← ensure (negb (String.eqb (PatchArtifact.state artifact) PATCH_ARTIFACT_STATE_CONSUMED
                                && negb allow_consumed))
                    (artifact_consumed ("Patch artifact has already been consumed: " +++ artifact_id));
              is_expired ← expired artifact now;
              _ ← ensure (negb (is_expired && negb allow_expired))
                    (artifact_expired ("Patch artifact has expired: " +++ artifact_id));
              Ok artifact
          end
      | _ => Raise (tampered "Patch artifact is not valid UTF-8 JSON.")
      end
  end.

(** A [load] under a failure: an error where the text is read. *)
Definition failing_read {A} (f : option read_fault) (r : result exn A) : result exn A :=
  match f with
  | Some (FailStat e) => Raise (os_error e)
  | Some FailRead => Raise (tampered "Patch artifact is not valid UTF-8 JSON.")
  | None => r
  end.

Definition read_first {A} (f : disk_faults) (r : result exn A) : result exn A :=
  failing_read (first_fault f) r.
Definition read_back {A} (f : disk_faults) (r : result exn A) : result exn A :=
  failing_read (reload_fault f) r.

(** [_atomic_write]: a text over the limit is refused; otherwise the file is
    written under a temporary name, which [os.replace] gives the name of the
    artifact.  An [OSError] up to that call leaves the file as it was; one
    after it ([chmod], opening and flushing the directory) is raised over a
    file that has been replaced. *)
Definition _atomic_write (f : disk_faults) (s : artifact_store) (id : string) (payload : jdict)
    : artifact_store * result exn unit :=
  let serialized := canonical_json (JDict payload) in
  if (MAX_PATCH_ARTIFACT_BYTES <? utf8_len serialized)%Z
  then (s, Raise (artifact_error "Serialized patch artifact exceeds the configured size limit."))
  else
    match write_fault f with
    | Some (Before e) => (s, Raise (os_error e))
    | Some (After e) => (put_file s id (RegularText serialized), Raise (os_error e))
    | None => (put_file s id (RegularText serialized), Ok ())
    end.

(** *** Operations on the directory and the rest of the world *)

Definition lock_file (s : artifact_store) (id : string) : artifact_store :=
  mk_artifact_store (st_files s) ({[id]} ∪ st_locks s).

Definition unlock_file (s : artifact_store) (id : string) : artifact_store :=
  mk_artifact_store (st_files s) (st_locks s ∖ {[id]}).

Definition op (W A : Type) : Type := artifact_store * W -> (artifact_store * W) * result exn A.

(** [with self._artifact_lock(id)]: after the retries a lock file that is
    still there is an error.  The lock is made by [os.open], which may fail;
    writing its contents may fail as well, and then the body does not run.  On
    every way out of the rest the lock is unlinked; when that fails, the lock
    file stays and this error takes the place of the outcome. *)
Definition with_lock {W A} (f : disk_faults) (id : string) (body : op W A) : op W A := fun '(s, w) =>
  if bool_decide (id ∈ st_locks s)
  then ((s, w), Raise (artifact_error ("Patch artifact is locked: " +++ id)))
  else
    let finish '((s', w'), r) :=
      match unlock_fault f with
      | Some e => ((s', w'), Raise (os_error e))
      | None => ((unlock_file s' id, w'), r)
      end in
    match lock_fault f with
    | Some (Before e) => ((s, w), Raise (os_error e))
    | Some (After e) => finish ((lock_file s id, w), Raise (os_error e))
    | None => finish (body (lock_file s id, w))
    end.

Definition file_payload (f : PatchFileDiff.t) : jdict :=
  let text o := match o with Some s => JStr s | None => JNull end in
  let int o := match o with Some z => JInt z | None => JNull end in
  [("path", JStr (PatchFileDiff.path f)); ("old_path", text (PatchFileDiff.old_path f));
   ("kind", JStr (kind_value (PatchFileDiff.kind f)));
   ("additions", int (PatchFileDiff.additions f)); ("deletions", int (PatchFileDiff.deletions f));
   ("binary", JBool (PatchFileDiff.binary f)); ("old_mode", text (PatchFileDiff.old_mode f));
   ("new_mode", text (PatchFileDiff.new_mode f));
   ("mode_changed", JBool (PatchFileDiff.mode_changed f))]%string.

Definition ignored_payload (f : IgnoredChangedFile.t) : jdict :=
  [("path", JStr (IgnoredChangedFile.path f));
   ("reason", JStr (ignored_reason_value (IgnoredChangedFile.reason f)))]%string.

(** The encoding of a dictionary is an object. *)
Definition encode_dict (d : pydict) : jdict :=
  match _encode_lossless_value (of_dict d) with JDict j => j | _ => [] end.

(** The artifact [persist] builds, with its digest. *)
Definition new_artifact (d : PatchDiff.t) (run_id trace_id : string) (request : ApprovalRequest.t)
    (trusted_repo : string) (report : ChangeRiskReport.t) (intent_summary : pydict)
    (ttl_seconds : Z) (artifact_id : string) (created : Z) : PatchArtifact.t :=
  _with_integrity_digest
    (PatchArtifact.mk PATCH_ARTIFACT_SCHEMA_VERSION artifact_id run_id trace_id
       (ApprovalRequest.approval_id request) trusted_repo (_repo_identity trusted_repo)
       (PatchDiff.baseline_commit_sha d) (PatchDiff.workspace_path d)
       (b64encode (utf8_bytes (PatchDiff.patch d))) (PatchDiff.patch_sha256 d)
       (PatchDiff.patch_size_bytes d) (List.map file_payload (PatchDiff.files d))
       (List.map ignored_payload (PatchDiff.ignored_files d))
       (encode_dict (ChangeRiskReport.audit_summary report)) (encode_dict intent_summary)
       (iso_format created) (iso_format (created + ttl_seconds * 1000000)%Z)
       PATCH_ARTIFACT_STATE_PENDING None "").

(** Everything of [persist] before the artifact is written; [uuid4().hex] and
    [now()] are arguments. *)
Definition prepare (d : PatchDiff.t) (run_id trace_id : string) (request : ApprovalRequest.t)
    (trusted_repo_path : string) (report : ChangeRiskReport.t) (intent_summary : pydict)
    (ttl_seconds : Z) (artifact_id : string) (now : Z) : result exn PatchArtifact.t :=
  _ ← ensure (negb (ttl_seconds <=? 0)%Z) (artifact_error "Patch artifact TTL must be positive.");
  let trusted_repo := resolve_path trusted_repo_path in
  _ ← ensure (is_directory trusted_repo)
        (artifact_error ("Trusted repository does not exist: " +++ trusted_repo));
  _ ← ensure (target_is request (PatchDiff.patch_sha256 d))
        (artifact_error "Approval request target does not match patch digest.");
  _ ← ensure (meta_is (ApprovalRequest.metadata request) "baseline_commit_sha"
                (PatchDiff.baseline_commit_sha d))
        (artifact_error "Approval request baseline does not match patch baseline.");
  let patch_bytes := utf8_bytes (PatchDiff.patch d) in
  _ ← ensure (String.eqb (sha256_of_bytes patch_bytes) (PatchDiff.patch_sha256 d))
        (artifact_error "Patch content does not match PatchDiff SHA-256.");
  _ ← ensure (Z.of_nat (List.length patch_bytes) =? PatchDiff.patch_size_bytes d)%Z
        (artifact_error "Patch content does not match PatchDiff byte length.");
  run_id ← _require_identifier run_id "run ID";
  trace_id ← _require_identifier trace_id "trace ID";
  Ok (new_artifact d run_id trace_id request trusted_repo report intent_summary ttl_seconds
        artifact_id now).

Definition persist {W} (f : disk_faults) (d : PatchDiff.t) (run_id trace_id : string) (request : ApprovalRequest.t)
    (trusted_repo_path : string) (report : ChangeRiskReport.t) (intent_summary : pydict)
    (ttl_seconds : Z) (artifact_id : string) (now : Z) : op W PatchArtifact.t := fun '(s, w) =>
  match prepare d run_id trace_id request trusted_repo_path report intent_summary ttl_seconds
          artifact_id now with
  | Raise e => ((s, w), Raise e)
  | Ok artifact =>
      let written :=
        with_lock f artifact_id (fun '(s, w) =>
          match st_files s !! artifact_id with
          | Some _ => ((s, w), Raise (artifact_error ("Artifact ID collision: " +++ artifact_id)))
          | None =>
              let '(s', r) := _atomic_write f s artifact_id (PatchArtifact.to_payload artifact true) in
              ((s', w), r)
          end) (s, w) in
      match written with
      | (sw, Raise e) => (sw, Raise e)
      | ((s', w'), Ok _) =>
          ((s', w'),
           loaded ← read_back f (load s' artifact_id true true now);
           _ ← ensure (String.eqb (PatchArtifact.artifact_digest loaded)
                         (PatchArtifact.artifact_digest artifact))
                 (tampered "Persisted artifact verification did not reproduce its digest.");
           Ok loaded)
      end
  end.

Definition _mark_consumed_unlocked {W} (f : disk_faults) (a : PatchArtifact.t) (now : Z) : op W PatchArtifact.t :=
  fun '(s, w) =>
  if String.eqb (PatchArtifact.state a) PATCH_ARTIFACT_STATE_CONSUMED
  then ((s, w), Raise (artifact_consumed ("Patch artifact has already been consumed: " +++
                         PatchArtifact.artifact_id a)))
  else
    let consumed := _with_integrity_digest (PatchArtifact.consumed a (iso_format now)) in
    match _atomic_write f s (PatchArtifact.artifact_id a) (PatchArtifact.to_payload consumed true) with
    | (s', Raise e) => ((s', w), Raise e)
    | (s', Ok _) => ((s', w), read_back f (load s' (PatchArtifact.artifact_id a) true true now))
    end.

Definition mark_consumed {W} (f : disk_faults) (artifact_id : string) (now : Z) : op W PatchArtifact.t := fun '(s, w) =>
  match _require_identifier artifact_id "artifact ID" with
  | Raise e => ((s, w), Raise e)
  | Ok normalized_id =>
      with_lock f normalized_id (fun '(s, w) =>
        match read_first f (load s normalized_id true true now) with
        | Raise e => ((s, w), Raise e)
        | Ok artifact => _mark_consumed_unlocked f artifact now (s, w)
        end) (s, w)
  end.

Definition delete_artifact {W} (f : disk_faults) (artifact_id : string) : op W unit := fun '(s, w) =>
  match _require_identifier artifact_id "artifact ID" with
  | Raise e => ((s, w), Raise e)
  | Ok normalized_id =>
      with_lock f normalized_id (fun '(s, w) =>
        match st_files s !! normalized_id with
        | None => ((s, w), Ok ())
        | Some NotRegular =>
            ((s, w), Raise (tampered "Refusing to delete a non-regular artifact path."))
        | Some _ =>
            match remove_fault f with
            | Some e => ((s, w), Raise (os_error e))
            | None => ((mk_artifact_store (delete normalized_id (st_files s)) (st_locks s), w), Ok ())
            end
        end) (s, w)
  end.

(** *** Applying the patch of an artifact *)

Section Apply.
Context {R L : Type} {GR : GitRepo R} {AA : ApplyAudit L} {RS : RiskSources}.
Context (resolve : PurePosixPath.t -> PurePosixPath.t).

Definition apply_error (text : string) : exn := mk_exn RuntimeError "ApprovedPatchApplyError" text.

(** What [apply_approved] checks between the load and the apply: the patch and
    the report to apply. *)
Definition apply_inputs (a : PatchArtifact.t) (target : string) (request : ApprovalRequest.t)
    : result exn (PatchDiff.t * ChangeRiskReport.t) :=
  _ ← ensure (String.eqb (PatchArtifact.approval_request_id a) (ApprovalRequest.approval_id request))
        (artifact_error "Patch artifact is bound to a different approval request.");
  let bound := dict_get (ApprovalRequest.metadata request) "artifact_id" in
  _ ← ensure (match bound with PNone => true | v => py_eq v (PStr (PatchArtifact.artifact_id a)) end)
        (artifact_error "Approval request artifact binding does not match.");
  _ ← ensure (String.eqb (_repo_identity (resolve_path target))
                (PatchArtifact.trusted_repo_identity_sha256 a))
        (artifact_error "Patch artifact is bound to a different trusted repository.");
  d ← to_patch_diff a;
  report ← to_risk_report a;
  Ok (d, report).

(** The body of [apply_approved], under the lock. *)
Definition apply_loaded (f : disk_faults) (id target : string) (request : ApprovalRequest.t)
    (decision : ApprovalDecision.t) (now : Z) : op (world R L) ApprovedPatchApplyResult := fun '(s, w) =>
  match (a ← read_first f (load s id false false now); i ← apply_inputs a target request; Ok (a, i)) with
  | Raise e => ((s, w), Raise e)
  | Ok (a, (d, report)) =>
      match apply_approved_patch resolve (fun t => iso_parse t) now d (resolve_path target) request
              decision (Some report) w with
      | (w', Raise text) => ((s, w'), Raise (apply_error text))
      | (w', Ok result) =>
          match _mark_consumed_unlocked f a now (s, w') with
          | (sw, Raise e) => (sw, Raise e)
          | (sw, Ok _) => (sw, Ok result)
          end
      end
  end.

Definition apply_approved (f : disk_faults) (artifact_id target : string) (request : ApprovalRequest.t)
    (decision : ApprovalDecision.t) (now : Z) : op (world R L) ApprovedPatchApplyResult := fun '(s, w) =>
  match _require_identifier artifact_id "artifact ID" with
  | Raise e => ((s, w), Raise e)
  | Ok normalized_id =>
      with_lock f normalized_id (apply_loaded f normalized_id target request decision now) (s, w)
  end.
End Apply.
End Artifact.

(** [bind_artifact_to_approval] *)
Definition bind_artifact_to_approval (r : ApprovalRequest.t) (a : PatchArtifact.t)
    : ApprovalRequest.t :=
  ApprovalRequest.mk (ApprovalRequest.approval_id r) (ApprovalRequest.created_at r)
    (ApprovalRequest.trace_id r) (ApprovalRequest.requested_by r) (ApprovalRequest.agent_id r)
    (ApprovalRequest.environment r) (ApprovalRequest.tool_name r) (ApprovalRequest.action r)
    (ApprovalRequest.target r) (ApprovalRequest.policy_id r) (ApprovalRequest.reason r)
    (ApprovalRequest.severity r) (ApprovalRequest.risk_assessment r)
    (dict_update (ApprovalRequest.metadata r)
       [("artifact_id", PStr (PatchArtifact.artifact_id a));
        ("artifact_schema_version", PStr (PatchArtifact.schema_version a));
        ("artifact_expires_at", PStr (PatchArtifact.expires_at a))]%string).

#[global] Arguments encode_dict : simpl never.

(** ** Lemmas *)

(** *** Identifiers *)

Definition identifier (s : string) : Prop :=
  strip s = s /\ truthy s = true /\ identifier_chars s = true /\
  (Z.of_nat (String.length s) <= 160)%Z.

Lemma require_identifier_inv value label id :
  _require_identifier value label = Ok id -> id = strip value /\ identifier id.
Proof.
  unfold _require_identifier, identifier. destruct (truthy (strip value)) eqn:Et; [cbn|done].
  destruct (identifier_chars (strip value)) eqn:Ec; [cbn|done].
  destruct (Z.ltb_spec 160 (Z.of_nat (String.length (strip value)))); intros [= <-].
  by rewrite strip_no_space_ends.
Qed.

Lemma require_identifier_Ok id label : identifier id -> _require_identifier id label = Ok id.
Proof.
  intros (Hs & Ht & Hc & Hl). unfold _require_identifier. rewrite Hs, Ht, Hc. cbn.
  by rewrite (proj2 (Z.ltb_ge _ _)).
Qed.

(** *** Objects written with sorted keys *)

Definition sorted_dict (d : jdict) : jdict := sort_by_key (sort_members d).

Lemma sort_json_dict d : sort_json (JDict d) = JDict (sorted_dict d).
Proof. reflexivity. Qed.

Lemma jget_sorted d k : NoDup (d.*1) -> jget (sorted_dict d) k = sort_json <$> jget d k.
Proof.
  intros Hnd. unfold sorted_dict. rewrite jget_sort by by rewrite sort_members_keys.
  apply jget_sort_members.
Qed.

Lemma sorted_dict_keys d k : k ∈ (sorted_dict d).*1 <-> k ∈ d.*1.
Proof. unfold sorted_dict. by rewrite sort_by_key_perm, sort_members_keys. Qed.

Lemma sorted_dict_NoDup d : NoDup (d.*1) -> NoDup ((sorted_dict d).*1).
Proof.
  intros Hnd. unfold sorted_dict.
  eapply NoDup_Permutation_proper; [apply fmap_Permutation, sort_by_key_perm|].
  by rewrite sort_members_keys.
Qed.

(** The artifact after its text was read back: nested objects sorted. *)
Definition canon_artifact (a : PatchArtifact.t) : PatchArtifact.t :=
  PatchArtifact.mk (PatchArtifact.schema_version a) (PatchArtifact.artifact_id a)
    (PatchArtifact.run_id a) (PatchArtifact.trace_id a) (PatchArtifact.approval_request_id a)
    (PatchArtifact.trusted_repo_path a) (PatchArtifact.trusted_repo_identity_sha256 a)
    (PatchArtifact.baseline_commit_sha a) (PatchArtifact.workspace_path a)
    (PatchArtifact.patch_base64 a) (PatchArtifact.patch_sha256 a)
    (PatchArtifact.patch_size_bytes a) (List.map sorted_dict (PatchArtifact.files a))
    (List.map sorted_dict (PatchArtifact.ignored_files a))
    (sorted_dict (PatchArtifact.risk_summary a)) (sorted_dict (PatchArtifact.intent_summary a))
    (PatchArtifact.created_at a) (PatchArtifact.expires_at a) (PatchArtifact.state a)
    (PatchArtifact.consumed_at a) (PatchArtifact.artifact_digest a).

Lemma sort_json_dicts l :
  List.map sort_json (List.map JDict l) = List.map JDict (List.map sorted_dict l).
Proof. by rewrite !List.map_map. Qed.

Lemma canon_members a :
  sort_members (PatchArtifact.payload (canon_artifact a)) = sort_members (PatchArtifact.payload a).
Proof.
  assert (H : forall d, sort_json (JDict (sorted_dict d)) = sort_json (JDict d))
    by (intros d; rewrite <- sort_json_dict; apply sort_json_idemp).
  assert (Hl : forall l, sort_json (JList (List.map JDict (List.map sorted_dict l)))
    = sort_json (JList (List.map JDict l))).
  { intros l. rewrite <- sort_json_dicts.
    change (JList (List.map sort_json (List.map JDict l)))
      with (sort_json (JList (List.map JDict l))). apply sort_json_idemp. }
  unfold sort_members. cbn [List.map PatchArtifact.payload canon_artifact PatchArtifact.files
    PatchArtifact.ignored_files PatchArtifact.risk_summary PatchArtifact.intent_summary].
  by rewrite !H, !Hl.
Qed.

Lemma canon_payload a b : sort_json (JDict (PatchArtifact.to_payload (canon_artifact a) b))
  = sort_json (JDict (PatchArtifact.to_payload a b)).
Proof.
  rewrite !sort_json_dict. unfold sorted_dict. do 2 f_equal.
  destruct b; [|apply canon_members]. unfold PatchArtifact.to_payload, sort_members.
  rewrite !List.map_app. f_equal. apply canon_members.
Qed.

Lemma canon_digest a : _artifact_digest (PatchArtifact.to_payload (canon_artifact a) false)
  = _artifact_digest (PatchArtifact.to_payload a false).
Proof. unfold _artifact_digest, canonical_json. by rewrite canon_payload. Qed.

Lemma payload_keys a : (PatchArtifact.to_payload a true).*1 = required_fields.
Proof. reflexivity. Qed.

Lemma required_NoDup : NoDup required_fields.
Proof. apply (bool_decide_unpack _). vm_compute. exact I. Qed.

Lemma filter_nil {A} (p : A -> bool) l : (forall x, x ∈ l -> p x = false) -> List.filter p l = [].
Proof.
  induction l as [|x l IH]; intros H; [done|]. cbn. rewrite H by apply list_elem_of_here.
  apply IH. intros y Hy. by apply H, list_elem_of_further.
Qed.

Lemma mapM_Some_map {A B C} (f : B -> option C) (g : A -> B) (h : A -> C) l :
  (forall x, f (g x) = Some (h x)) -> mapM f (List.map g l) = Some (List.map h l).
Proof. intros H. induction l as [|x l IH]; cbn; [done|]. by rewrite H, IH. Qed.

Section Facts.
Context `{AH : ArtifactHost}.

Lemma artifact_from_written a :
  _artifact_from_payload (sort_json (JDict (PatchArtifact.to_payload a true)))
  = Ok (canon_artifact a).
Proof.
  rewrite sort_json_dict. unfold _artifact_from_payload.
  rewrite filter_nil by (intros k Hk; apply negb_false_iff, mem_spec, sorted_dict_keys;
    by rewrite payload_keys).
  rewrite filter_nil by (intros k Hk; apply (proj1 (sorted_dict_keys _ _)) in Hk; rewrite payload_keys in Hk;
    by apply negb_false_iff, mem_spec).
  assert (Hnd : NoDup ((PatchArtifact.to_payload a true).*1))
    by (rewrite payload_keys; apply required_NoDup).
  unfold payload_fields. rewrite !jget_sorted by done.
  cbn -[json_dicts json_dict sorted_dict sort_json py_of_json py_int].
  assert (Hd : forall l, json_dicts (sort_json (JList (List.map JDict l)))
    = Some (List.map sorted_dict l)).
  { intros l. cbn [sort_json]. rewrite sort_json_dicts. unfold json_dicts. cbn.
    rewrite (mapM_Some_map json_dict JDict id) by done. by rewrite List.map_id. }
  rewrite !Hd, !sort_json_dict. cbn.
  unfold canon_artifact. by destruct (PatchArtifact.consumed_at a).
Qed.

Lemma verify_canon a : _verify_artifact (canon_artifact a) = _verify_artifact a.
Proof. unfold _verify_artifact. by rewrite canon_digest. Qed.

Lemma expired_canon a now : expired (canon_artifact a) now = expired a now.
Proof. reflexivity. Qed.

(** The artifact a file of the directory holds. *)
Record stored_artifact (s : artifact_store) (id : string) (a : PatchArtifact.t) : Prop := mk_stored {
  sa_file : exists text payload, st_files s !! id = Some (RegularText text) /\
    (0 < utf8_len text <= MAX_PATCH_ARTIFACT_BYTES)%Z /\ loads text = Some payload /\
    _artifact_from_payload payload = Ok a;
  sa_verified : _verify_artifact a = Ok ();
  sa_id : PatchArtifact.artifact_id a = id;
}.

(** A stored artifact is refused for its state only. *)
Lemma load_stored s id ae ac now a :
  identifier id -> stored_artifact s id a ->
  load s id ae ac now =
    (_ ← ensure (negb (String.eqb (PatchArtifact.state a) PATCH_ARTIFACT_STATE_CONSUMED && negb ac))
           (artifact_consumed ("Patch artifact has already been consumed: " +++ id));
     is_expired ← expired a now;
     _ ← ensure (negb (is_expired && negb ae))
           (artifact_expired ("Patch artifact has expired: " +++ id));
     Ok a).
Proof.
  intros Hid [(text & payload & Hf & Hsz & Hl & Ha) Hv Hi]. unfold load.
  rewrite require_identifier_Ok by done. cbn [mbind result_bind]. rewrite Hf. cbn [entry_size].
  rewrite (proj2 (Z.leb_gt _ _)), (proj2 (Z.ltb_ge _ _)) by lia.
  cbn [orb negb ensure mbind result_bind]. rewrite Hl, Ha. cbn [mbind result_bind].
  rewrite Hv. cbn [mbind result_bind]. rewrite Hi, String.eqb_refl. reflexivity.
Qed.

Lemma load_iff s id ae ac now a :
  identifier id ->
  load s id ae ac now = Ok a <->
  stored_artifact s id a /\
  (PatchArtifact.state a = PATCH_ARTIFACT_STATE_CONSUMED -> ac = true) /\
  exists x, expired a now = Ok x /\ (x = true -> ae = true).
Proof.
  intros Hid. split.
  - unfold load. rewrite require_identifier_Ok by done. cbn [mbind result_bind]. destruct (st_files s !! id) as [[text|n|]|] eqn:Ef; [|intros Hx|done|done].
    2: { apply bind_Ok_inv in Hx as (? & _ & ?). done. }
    cbn [entry_size]. intros ([] & H1 & H)%bind_Ok_inv.
    destruct (loads text) as [payload|] eqn:El; [|done].
    apply bind_Ok_inv in H as (a' & Ha & H). apply bind_Ok_inv in H as ([] & Hv & H).
    apply bind_Ok_inv in H as ([] & H2 & H). apply bind_Ok_inv in H as ([] & H3 & H).
    apply bind_Ok_inv in H as (x & Hx & H). apply bind_Ok_inv in H as ([] & H4 & [= ->]).
    apply ensure_Ok in H1, H2, H3, H4. apply String.eqb_eq in H2.
    apply negb_true_iff, orb_false_iff in H1 as [H1a H1b].
    apply Z.leb_gt in H1a. apply Z.ltb_ge in H1b.
    split; [constructor; [by exists text, payload|done|done]|].
    apply negb_true_iff, andb_false_iff in H3, H4. split.
    + intros Hs. destruct H3 as [H3|H3]; [|by apply negb_false_iff].
      by rewrite Hs in H3.
    + exists x. split; [done|]. intros ->. destruct H4 as [?|H4]; [done|by apply negb_false_iff].
  - intros (Hst & Hc & x & Hx & He). rewrite (load_stored _ _ _ _ _ _ Hid Hst).
    destruct (String.eqb_spec (PatchArtifact.state a) PATCH_ARTIFACT_STATE_CONSUMED) as [Hs|Hs];
      [rewrite (Hc Hs)|]; cbn [andb negb ensure mbind result_bind]; rewrite Hx;
      destruct x; [rewrite (He eq_refl)| |rewrite (He eq_refl)|]; done.
Qed.

Lemma loads_written v : wf_json v -> loads (canonical_json v) = Some (sort_json v).
Proof. intros Hw. by apply loads_dumps, sort_json_wf. Qed.

(** What [_atomic_write] wrote can only be loaded as what it wrote. *)
Lemma written_stored s a id a' :
  st_files s !! id = Some (RegularText (canonical_json (JDict (PatchArtifact.to_payload a true)))) ->
  wf_json (JDict (PatchArtifact.to_payload a true)) ->
  stored_artifact s id a' -> a' = canon_artifact a.
Proof.
  intros Hf Hw [(text & payload & Hf' & _ & Hl & Ha) _ _].
  assert (text = canonical_json (JDict (PatchArtifact.to_payload a true))) as -> by congruence.
  rewrite loads_written in Hl by done. apply (inj Some) in Hl. rewrite <- Hl in Ha.
  rewrite artifact_from_written in Ha. congruence.
Qed.

Lemma json_text_size d :
  (0 < utf8_len (canonical_json (JDict d)))%Z.
Proof.
  unfold canonical_json. rewrite sort_json_dict. cbn [dumps]. rewrite utf8_len_app.
  match goal with |- context [(utf8_len "{" + ?x)%Z] => assert (0 <= x)%Z by apply utf8_len_nonneg end.
  change (utf8_len "{") with 1%Z. lia.
Qed.

Lemma stored_written s a id :
  st_files s !! id = Some (RegularText (canonical_json (JDict (PatchArtifact.to_payload a true)))) ->
  (utf8_len (canonical_json (JDict (PatchArtifact.to_payload a true))) <= MAX_PATCH_ARTIFACT_BYTES)%Z ->
  wf_json (JDict (PatchArtifact.to_payload a true)) ->
  PatchArtifact.artifact_id a = id -> _verify_artifact a = Ok () ->
  stored_artifact s id (canon_artifact a).
Proof.
  intros Hf Hmax Hw Ha Hv. constructor; [|by rewrite verify_canon|done].
  eexists _, _. split; [exact Hf|]. split; [split; [apply json_text_size|done]|]. split.
  - by apply loads_written.
  - apply artifact_from_written.
Qed.

(** *** The files of a patch *)

Lemma py_of_json_dict d : py_of_json (JDict d) = of_dict (map_values py_of_json d).
Proof.
  unfold of_dict, map_values. cbn. rewrite List.map_map. f_equal. by apply List.map_ext; intros [k x].
Qed.

Lemma dict_lookup_py_of_json d k :
  dict_lookup (map_values py_of_json d) k = py_of_json <$> jget d k.
Proof. induction d as [|[k' v] d IH]; cbn; [done|]. by destruct (String.eqb k' k). Qed.

Section Item.
Context (d : jdict) (Hnd : NoDup (d.*1)).

Lemma loaded_lookup k v : jget d k = Some v ->
  item_get (py_of_json (JDict (sorted_dict d))) k = Ok (py_of_json (sort_json v)) /\
  forall dflt, dict_get_or (py_of_json (JDict (sorted_dict d))) k dflt = Ok (py_of_json (sort_json v)).
Proof using Hnd.
  intros Hk. rewrite py_of_json_dict. unfold of_dict. cbn [item_get dict_get_or].
  by rewrite pdict_lookup_of_dict, dict_lookup_py_of_json, jget_sorted, Hk by done.
Qed.

Lemma loaded_text k (o : option string) :
  jget d k = Some (match o with Some s => JStr s | None => JNull end) ->
  get_text (py_of_json (JDict (sorted_dict d))) k = Ok o.
Proof using Hnd.
  intros Hk. unfold get_text. rewrite (proj2 (loaded_lookup _ _ Hk)). by destruct o.
Qed.

Lemma loaded_integer k (o : option Z) :
  jget d k = Some (match o with Some z => JInt z | None => JNull end) ->
  get_integer (py_of_json (JDict (sorted_dict d))) k = Ok o.
Proof using Hnd.
  intros Hk. unfold get_integer. rewrite (proj2 (loaded_lookup _ _ Hk)). by destruct o.
Qed.

Lemma loaded_flag k b :
  jget d k = Some (JBool b) -> get_flag (py_of_json (JDict (sorted_dict d))) k = Ok b.
Proof using Hnd. intros Hk. unfold get_flag. by rewrite (proj2 (loaded_lookup _ _ Hk)). Qed.
End Item.

Lemma file_payload_back f : file_diff_of (sorted_dict (file_payload f)) = Ok f.
Proof.
  assert (Hnd : NoDup ((file_payload f).*1)) by concrete_keys. unfold file_diff_of.
  rewrite (proj1 (loaded_lookup _ Hnd "path" (JStr (PatchFileDiff.path f)) eq_refl)).
  rewrite (loaded_text _ Hnd "old_path" (PatchFileDiff.old_path f)) by reflexivity.
  rewrite (proj1 (loaded_lookup _ Hnd "kind" (JStr (kind_value (PatchFileDiff.kind f))) eq_refl)).
  rewrite (loaded_integer _ Hnd "additions" (PatchFileDiff.additions f)) by reflexivity.
  rewrite (loaded_integer _ Hnd "deletions" (PatchFileDiff.deletions f)) by reflexivity.
  rewrite (loaded_flag _ Hnd "binary" (PatchFileDiff.binary f)) by reflexivity.
  rewrite (loaded_text _ Hnd "old_mode" (PatchFileDiff.old_mode f)) by reflexivity.
  rewrite (loaded_text _ Hnd "new_mode" (PatchFileDiff.new_mode f)) by reflexivity.
  rewrite (loaded_flag _ Hnd "mode_changed" (PatchFileDiff.mode_changed f)) by reflexivity.
  cbn [mbind result_bind sort_json py_of_json py_str]. unfold changed_kind_of.
  rewrite kind_of_value_value. by destruct f.
Qed.

Lemma ignored_payload_back f : ignored_file_of (sorted_dict (ignored_payload f)) = Ok f.
Proof.
  assert (Hnd : NoDup ((ignored_payload f).*1)) by concrete_keys. unfold ignored_file_of.
  rewrite (proj1 (loaded_lookup _ Hnd "path" (JStr (IgnoredChangedFile.path f)) eq_refl)).
  rewrite (proj1 (loaded_lookup _ Hnd "reason"
    (JStr (ignored_reason_value (IgnoredChangedFile.reason f))) eq_refl)).
  cbn [mbind result_bind sort_json py_of_json py_str]. rewrite ignored_reason_of_value_value.
  by destruct f.
Qed.

Lemma utf8_is_byte s : Forall is_byte (utf8_bytes s).
Proof.
  unfold is_byte. induction s as [|c s IH]; cbn; [done|].
  assert (Hc : (Z.of_N (code c) < 256)%Z).
  { unfold code. pose proof (N_ascii_bounded c). lia. }
  destruct (Z.ltb_spec (Z.of_N (code c)) 128); repeat constructor; try done;
    Z.div_mod_to_equations; lia.
Qed.

Lemma encode_dict_eq d : JDict (encode_dict d) = _encode_lossless_value (of_dict d).
Proof. unfold encode_dict, of_dict. cbn. by destruct (forallb _ _). Qed.

Lemma file_payload_wf f : wf_json (JDict (file_payload f)).
Proof.
  constructor; [concrete_keys|]. unfold file_payload.
  repeat (apply Forall_cons; split); try apply Forall_nil; cbn; repeat case_match; constructor.
Qed.

Lemma ignored_payload_wf f : wf_json (JDict (ignored_payload f)).
Proof. constructor; [concrete_keys|]. repeat constructor. Qed.

Lemma payload_wf a :
  Forall (fun d => wf_json (JDict d)) (PatchArtifact.files a) ->
  Forall (fun d => wf_json (JDict d)) (PatchArtifact.ignored_files a) ->
  wf_json (JDict (PatchArtifact.risk_summary a)) ->
  wf_json (JDict (PatchArtifact.intent_summary a)) ->
  wf_json (JDict (PatchArtifact.to_payload a true)).
Proof.
  intros Hf Hi Hr Hs. constructor; [rewrite payload_keys; apply required_NoDup|].
  assert (Hl : forall l, Forall (fun d => wf_json (JDict d)) l -> wf_json (JList (List.map JDict l))).
  { intros l Hl. constructor. apply Forall_forall. intros v (d & -> & Hd)%list_elem_of_fmap.
    rewrite Forall_forall in Hl. by apply Hl. }
  cbn [PatchArtifact.to_payload PatchArtifact.payload app].
  repeat (apply Forall_cons; split); try apply Forall_nil; cbn [snd];
    first [by auto|by constructor|idtac].
  by destruct (PatchArtifact.consumed_at a); constructor.
Qed.

Lemma encode_dict_wf d : py_wf float_value (of_dict d) -> wf_json (JDict (encode_dict d)).
Proof. intros Hw. rewrite encode_dict_eq. by apply (encode_wf float_value). Qed.

Lemma new_payload_wf d run trace req repo report intent ttl id now :
  py_wf float_value (of_dict (ChangeRiskReport.audit_summary report)) ->
  py_wf float_value (of_dict intent) ->
  wf_json (JDict (PatchArtifact.to_payload
    (new_artifact d run trace req repo report intent ttl id now) true)).
Proof.
  intros Hr Hi. apply payload_wf; cbn.
  - apply Forall_forall. intros x (f & -> & _)%list_elem_of_fmap. apply file_payload_wf.
  - apply Forall_forall. intros x (f & -> & _)%list_elem_of_fmap. apply ignored_payload_wf.
  - by apply encode_dict_wf.
  - by apply encode_dict_wf.
Qed.

(** The locks after an operation: as before, or the operation raised since
    its own lock file could not be unlinked, and that file is left. *)
Definition locks_after {A} (f : disk_faults) (id : string) (s s' : artifact_store)
    (r : result exn A) : Prop :=
  st_locks s' = st_locks s \/
  (unlock_fault f <> None /\ id ∉ st_locks s /\ st_locks s' = {[id]} ∪ st_locks s /\
   exists e, r = Raise e).

(** Every outcome of an operation under the lock: the body did not run and
    the files are as they were, or it ran and its outcome is that of the
    operation, unless the lock could not be unlinked. *)
Lemma with_lock_inv {W A} f id (body : op W A) s w s' w' r :
  with_lock f id body (s, w) = ((s', w'), r) ->
  (st_files s' = st_files s /\ w' = w /\ locks_after f id s s' r /\ exists e, r = Raise e) \/
  (id ∉ st_locks s /\ lock_fault f = None /\ exists s1 r1,
     body (lock_file s id, w) = ((s1, w'), r1) /\ st_files s' = st_files s1 /\
     (st_locks s1 = {[id]} ∪ st_locks s -> locks_after f id s s' r) /\
     (r = r1 \/ (unlock_fault f <> None /\ exists e, r = Raise e))).
Proof.
  unfold with_lock. destruct (bool_decide_reflect (id ∈ st_locks s)) as [Hin|Hin].
  { intros [= <- <- <-]. left. split_and!; eauto. by left. }
  assert (Hset : ({[id]} ∪ st_locks s) ∖ {[id]} = st_locks s) by (apply leibniz_equiv; set_solver).
  destruct (lock_fault f) as [[e|e]|] eqn:El.
  - intros [= <- <- <-]. left. split_and!; eauto. by left.
  - destruct (unlock_fault f) eqn:Eu; intros [= <- <- <-]; left; split_and!; eauto;
      [right; rewrite Eu; eauto 10|by left].
  - destruct (body _) as [[s1 w1] r1] eqn:E. destruct (unlock_fault f) eqn:Eu;
      intros [= <- <- <-]; right; (split; [done|]; split; [done|]); exists s1, r1; split_and!; eauto.
    + intros Hk. right. rewrite Eu. eauto 10.
    + intros Hk. left. cbn. by rewrite Hk.
Qed.

Lemma locks_after_Ok {A} f id s s' (x : A) : locks_after f id s s' (Ok x) -> st_locks s' = st_locks s.
Proof. by intros [?|(_ & _ & _ & e & [=])]. Qed.

Lemma locks_after_raise {A B} f id s s' (r : result exn A) e :
  locks_after f id s s' r -> locks_after f id s s' (Raise (A := B) e).
Proof. intros [?|(? & ? & ? & _)]; [by left|right; eauto]. Qed.

Lemma locks_after_no_fault {A} f id s s' (r : result exn A) :
  locks_after f id s s' r -> st_files s' = st_files s -> unlock_fault f = None -> s' = s.
Proof. intros [Hk|[? _]] Hf Hu; [|done]. destruct s, s'. cbn in *. congruence. Qed.

(** A lock that was there stays. *)
Lemma locks_after_mono {A} f id s s' (r : result exn A) j :
  locks_after f id s s' r -> j ∈ st_locks s -> j ∈ st_locks s'.
Proof. intros [->|(_ & _ & -> & _)]; set_solver. Qed.

Lemma atomic_write_inv f s id p s' r :
  _atomic_write f s id p = (s', r) ->
  (s' = s /\ (exists e, r = Raise e) /\
   ((MAX_PATCH_ARTIFACT_BYTES < utf8_len (canonical_json (JDict p)))%Z \/ write_fault f <> None)) \/
  (s' = put_file s id (RegularText (canonical_json (JDict p))) /\
   (utf8_len (canonical_json (JDict p)) <= MAX_PATCH_ARTIFACT_BYTES)%Z /\
   ((write_fault f = None /\ r = Ok ()) \/ (write_fault f <> None /\ exists e, r = Raise e))).
Proof.
  unfold _atomic_write.
  destruct (Z.ltb_spec MAX_PATCH_ARTIFACT_BYTES (utf8_len (canonical_json (JDict p))));
    [intros [= <- <-]; left; eauto|].
  destruct (write_fault f) as [[e|e]|]; intros [= <- <-]; [left|right|right]; split_and!; eauto.
Qed.

Lemma failing_read_Ok {A} f (r : result exn A) a : failing_read f r = Ok a -> f = None /\ r = Ok a.
Proof. by destruct f as [[]|]. Qed.

Lemma prepare_inv d run trace req path report intent ttl id now a :
  prepare d run trace req path report intent ttl id now = Ok a ->
  (0 < ttl)%Z /\ target_is req (PatchDiff.patch_sha256 d) = true /\
  sha256_of_bytes (utf8_bytes (PatchDiff.patch d)) = PatchDiff.patch_sha256 d /\
  Z.of_nat (List.length (utf8_bytes (PatchDiff.patch d))) = PatchDiff.patch_size_bytes d /\
  exists run' trace', identifier run' /\ identifier trace' /\
    a = new_artifact d run' trace' req (resolve_path path) report intent ttl id now.
Proof.
  unfold prepare. intros ([] & H1%ensure_Ok & H)%bind_Ok_inv.
  apply bind_Ok_inv in H as ([] & _ & H). apply bind_Ok_inv in H as ([] & H3%ensure_Ok & H).
  apply bind_Ok_inv in H as ([] & _ & H). apply bind_Ok_inv in H as ([] & H5%ensure_Ok & H).
  apply bind_Ok_inv in H as ([] & H6%ensure_Ok & H).
  apply bind_Ok_inv in H as (run' & Hr & H). apply bind_Ok_inv in H as (trace' & Ht & [= <-]).
  apply require_identifier_inv in Hr as [_ Hr], Ht as [_ Ht].
  apply negb_true_iff, Z.leb_gt in H1. apply String.eqb_eq in H5. apply Z.eqb_eq in H6.
  split_and!; try done. by exists run', trace'.
Qed.

Lemma persist_inv {W} f d run trace req path report intent ttl id now s (w : W) s' w' a :
  persist f d run trace req path report intent ttl id now (s, w) = ((s', w'), Ok a) ->
  exists artifact, prepare d run trace req path report intent ttl id now = Ok artifact /\
    w' = w /\ st_files s !! id = None /\ st_locks s' = st_locks s /\
    st_files s' = <[id := RegularText (canonical_json
                            (JDict (PatchArtifact.to_payload artifact true)))]> (st_files s) /\
    (utf8_len (canonical_json (JDict (PatchArtifact.to_payload artifact true)))
       <= MAX_PATCH_ARTIFACT_BYTES)%Z /\
    load s' id true true now = Ok a /\
    PatchArtifact.artifact_digest a = PatchArtifact.artifact_digest artifact.
Proof.
  unfold persist. destruct (prepare _ _ _ _ _ _ _ _ _ _) as [artifact|e] eqn:Ep; [|done].
  match goal with |- context [with_lock f id ?b (s, w)] =>
    destruct (with_lock f id b (s, w)) as [[s1 w1] [u|e]] eqn:El end; [|done].
  intros H. exists artifact. split; [done|].
  destruct (read_back f (load s1 id true true now)) as [loaded|e] eqn:Eload; cbn in H; [|congruence].
  apply failing_read_Ok in Eload as [_ Eload].
  destruct (String.eqb_spec (PatchArtifact.artifact_digest loaded)
    (PatchArtifact.artifact_digest artifact)) as [Hd|Hd]; cbn in H; [|congruence].
  injection H as <- <- <-.
  apply with_lock_inv in El as [(_ & _ & _ & e & [=])|(Hl & _ & s2 & r2 & Hb & Hf & Hk & Hr)].
  destruct Hr as [<-|(_ & e & [=])].
  cbn [st_files st_locks lock_file] in Hb. destruct (st_files s !! id) eqn:Es; [done|].
  destruct (_atomic_write _ _ _ _) as [s3 r3] eqn:Ew. injection Hb as <- <- ->.
  apply atomic_write_inv in Ew as [(_ & [e [=]] & _)|(-> & Hmax & _)].
  split_and!; try done. eapply locks_after_Ok, Hk. done.
Qed.
End Facts.

Section Persisted.
Context `{HL : HostLaws}.

Lemma new_artifact_patch d run trace req repo report intent ttl id now :
  sha256_of_bytes (utf8_bytes (PatchDiff.patch d)) = PatchDiff.patch_sha256 d ->
  Z.of_nat (List.length (utf8_bytes (PatchDiff.patch d))) = PatchDiff.patch_size_bytes d ->
  to_patch_diff (canon_artifact (new_artifact d run trace req repo report intent ttl id now)) = Ok d.
Proof.
  intros Hs Hl. unfold to_patch_diff, PatchArtifact.patch_bytes.
  cbn [canon_artifact new_artifact _with_integrity_digest PatchArtifact.with_digest
    PatchArtifact.patch_base64 PatchArtifact.patch_sha256 PatchArtifact.patch_size_bytes
    PatchArtifact.files PatchArtifact.ignored_files PatchArtifact.workspace_path
    PatchArtifact.baseline_commit_sha].
  rewrite b64_round_trip by apply utf8_is_byte. cbn [mbind result_bind].
  rewrite Hs, Hl, String.eqb_refl, Z.eqb_refl. cbn [ensure mbind result_bind].
  rewrite !List.map_map.
  rewrite (mapR_map_Ok file_diff_of (fun f => sorted_dict (file_payload f)) (fun f => f))
    by (intros; apply file_payload_back).
  rewrite (mapR_map_Ok ignored_file_of (fun f => sorted_dict (ignored_payload f)) (fun f => f))
    by (intros; apply ignored_payload_back).
  cbn [mbind result_bind]. rewrite !List.map_id, decode_utf8. by destruct d.
Qed.

Lemma new_artifact_report d run trace req repo report intent ttl id now :
  py_wf float_value (of_dict (ChangeRiskReport.audit_summary report)) ->
  plain_report float_cast report ->
  to_risk_report (canon_artifact (new_artifact d run trace req repo report intent ttl id now))
  = Ok (canon_report report).
Proof.
  intros Hw Hp. unfold to_risk_report.
  cbn [canon_artifact new_artifact _with_integrity_digest PatchArtifact.with_digest
    PatchArtifact.risk_summary].
  rewrite <- sort_json_dict, encode_dict_eq.
  assert (Hd : _decode_lossless_value float_value (sort_json (_encode_lossless_value
    (of_dict (ChangeRiskReport.audit_summary report))))
    = Ok (canon (of_dict (ChangeRiskReport.audit_summary report)))).
  { apply (decode_stored float_value true); [done|]. by rewrite jsize_sort. }
  rewrite Hd. cbn [mbind result_bind].
  assert (Hk : plain_dict (ChangeRiskReport.audit_summary report)) by concrete_keys.
  assert (Hc : exists l, canon (of_dict (ChangeRiskReport.audit_summary report)) = PDict l)
    by (rewrite canon_of_dict by done; by eexists).
  destruct Hc as [l Hc]. rewrite Hc. rewrite <- Hc. by apply summary_round_trip.
Qed.
End Persisted.

(** *** What a verified artifact is *)

Section Verified.
Context `{AH : ArtifactHost}.

Record artifact_ok (a : PatchArtifact.t) : Prop := mk_artifact_ok {
  ok_schema : PatchArtifact.schema_version a = PATCH_ARTIFACT_SCHEMA_VERSION;
  ok_ids : is_ok (_require_identifier (PatchArtifact.artifact_id a) "artifact ID") = true /\
    is_ok (_require_identifier (PatchArtifact.run_id a) "run ID") = true /\
    is_ok (_require_identifier (PatchArtifact.trace_id a) "trace ID") = true /\
    is_ok (_require_identifier (PatchArtifact.approval_request_id a) "approval request ID") = true;
  ok_state : (PatchArtifact.state a = PATCH_ARTIFACT_STATE_PENDING /\ PatchArtifact.consumed_at a = None) \/
    (PatchArtifact.state a = PATCH_ARTIFACT_STATE_CONSUMED /\ PatchArtifact.consumed_at a <> None);
  ok_times : exists created expires, _parse_timestamp (PatchArtifact.created_at a) = Ok created /\
    _parse_timestamp (PatchArtifact.expires_at a) = Ok expires /\ (created < expires)%Z;
  ok_patch : exists bytes, PatchArtifact.patch_bytes a = Ok bytes /\
    sha256_of_bytes bytes = PatchArtifact.patch_sha256 a /\
    Z.of_nat (List.length bytes) = PatchArtifact.patch_size_bytes a;
  ok_repo : _repo_identity (PatchArtifact.trusted_repo_path a)
            = PatchArtifact.trusted_repo_identity_sha256 a;
  ok_digest : _artifact_digest (PatchArtifact.to_payload a false) = PatchArtifact.artifact_digest a;
}.

Lemma state_flags st (t : option string) :
  let has_time := match t with Some _ => true | None => false end in
  let is_pending := String.eqb st PATCH_ARTIFACT_STATE_PENDING in
  let is_consumed := String.eqb st PATCH_ARTIFACT_STATE_CONSUMED in
  is_pending || is_consumed = true /\ negb (is_consumed && negb has_time) = true /\
  negb (is_pending && has_time) = true <->
  (st = PATCH_ARTIFACT_STATE_PENDING /\ t = None) \/
  (st = PATCH_ARTIFACT_STATE_CONSUMED /\ t <> None).
Proof.
  cbn zeta. destruct (String.eqb_spec st PATCH_ARTIFACT_STATE_PENDING) as [->|Hp].
  - destruct t; cbn; split; [by intros (_ & _ & [=])|by intros [[_ [=]]|[[=] _]]|by left|done].
  - destruct (String.eqb_spec st PATCH_ARTIFACT_STATE_CONSUMED) as [->|Hc]; [|naive_solver].
    destruct t; cbn; split; [by right|done|by intros (_ & [=] & _)|].
    by intros [[[=] _]|[_ []]].
Qed.

Lemma verify_iff a : _verify_artifact a = Ok () <-> artifact_ok a.
Proof.
  unfold _verify_artifact. split.
  - intros ([] & H1%ensure_Ok & H)%bind_Ok_inv.
    apply bind_Ok_inv in H as (i1 & I1 & H). apply bind_Ok_inv in H as (i2 & I2 & H).
    apply bind_Ok_inv in H as (i3 & I3 & H). apply bind_Ok_inv in H as (i4 & I4 & H).
    apply bind_Ok_inv in H as ([] & S1%ensure_Ok & H). apply bind_Ok_inv in H as ([] & S2%ensure_Ok & H).
    apply bind_Ok_inv in H as ([] & S3%ensure_Ok & H).
    apply bind_Ok_inv in H as (c & Hc & H). apply bind_Ok_inv in H as (e & He & H).
    apply bind_Ok_inv in H as ([] & Hce%ensure_Ok & H). apply bind_Ok_inv in H as (b & Hb & H).
    apply bind_Ok_inv in H as ([] & P1%ensure_Ok & H). apply bind_Ok_inv in H as ([] & P2%ensure_Ok & H).
    apply bind_Ok_inv in H as ([] & R1%ensure_Ok & D1%ensure_Ok).
    apply String.eqb_eq in H1, P1, R1, D1. apply Z.eqb_eq in P2. apply negb_true_iff, Z.leb_gt in Hce.
    constructor; try done.
    + by rewrite I1, I2, I3, I4.
    + by apply state_flags.
    + by exists c, e.
    + by exists b.
  - intros [H1 (I1 & I2 & I3 & I4) HS (c & e & Hc & He & Hce) (b & Hb & P1 & P2) R1 D1].
    apply state_flags in HS as (S1 & S2 & S3).
    destruct (_require_identifier _ "artifact ID"); [|done].
    destruct (_require_identifier _ "run ID"); [|done].
    destruct (_require_identifier _ "trace ID"); [|done].
    destruct (_require_identifier _ "approval request ID"); [|done].
    rewrite H1, S1, S2, S3, Hc, He, Hb. cbn [mbind result_bind ensure].
    rewrite P1, P2, R1, D1, !String.eqb_refl, Z.eqb_refl, (proj2 (Z.leb_gt _ _)) by done. reflexivity.
Qed.

(** Marking an artifact consumed and writing its digest again keeps it
    verifiable. *)
Lemma consumed_ok a now :
  artifact_ok a -> artifact_ok (_with_integrity_digest (PatchArtifact.consumed a now)).
Proof. intros [H1 H2 _ H4 H5 H6 _]. constructor; try done. by right. Qed.

Lemma stored_ok s id a : stored_artifact s id a -> artifact_ok a.
Proof. intros H. apply verify_iff, H. Qed.

Lemma stored_unique s id a b : stored_artifact s id a -> stored_artifact s id b -> a = b.
Proof.
  intros [(t & p & Hf & _ & Hl & Ha) _ _] [(t' & p' & Hf' & _ & Hl' & Hb) _ _].
  assert (t' = t) as -> by congruence. assert (p' = p) as -> by congruence. congruence.
Qed.

Lemma stored_files s s' id a :
  st_files s' !! id = st_files s !! id -> stored_artifact s id a -> stored_artifact s' id a.
Proof. intros E [Hf Hv Hi]. constructor; [by rewrite E|done|done]. Qed.

(** *** Whatever was read can be written *)

Lemma json_iter_wf v l : wf_json v -> json_iter v = Some l -> Forall wf_json l.
Proof.
  intros Hv. destruct v as [ | | | |s|l'|d]; try done; cbn; intros [= <-].
  - clear Hv. induction s as [|c s IH]; cbn; [constructor|]. constructor; [constructor|done].
  - by inversion Hv.
  - apply Forall_forall. intros x ([k y] & -> & _)%list_elem_of_fmap. constructor.
Qed.

Lemma json_dict_wf v d : wf_json v -> json_dict v = Some d -> wf_json (JDict d).
Proof.
  intros Hv. unfold json_dict.
  assert (Hp : match json_iter v ≫= mapM json_pair with
               | Some l => Forall (fun kv => wf_json (snd kv)) l | None => True end).
  { destruct (json_iter v) as [items|] eqn:Ei; [cbn|done].
    apply json_iter_wf in Ei; [|done]. destruct (mapM json_pair items) as [l|] eqn:El; [|done].
    apply mapM_Some in El. clear -Ei El. induction El as [|x [k y] items l Hx _ IH]; [constructor|].
    apply Forall_cons_1 in Ei as [Hw Ei]. constructor; [cbn|by apply IH].
    unfold json_pair in Hx. destruct (json_iter x) as [[|[] [|? [|]]]|] eqn:E; try done.
    injection Hx as <- <-. apply json_iter_wf in E; [|done].
    by apply Forall_cons_1 in E as [_ [? _]%Forall_cons_1]. }
  assert (Hj : forall l, Forall (fun kv => wf_json (snd kv)) l -> wf_json (JDict (jdict_of l))).
  { intros l Hl. constructor; [apply jdict_of_wf|by apply (proj2 (jdict_of_wf l))]. }
  destruct v as [ | | | |s|l'|d']; [| | | | | |by intros [= <-]];
    match goal with |- (items ← ?m; _) = _ -> _ => destruct m as [items|]; [cbn in *|done] end;
    destruct (mapM json_pair items) as [l|]; cbn in *; try done; intros [= <-]; by apply Hj.
Qed.

Lemma json_dicts_wf v l :
  wf_json v -> json_dicts v = Some l -> Forall (fun d => wf_json (JDict d)) l.
Proof.
  intros Hv. unfold json_dicts. destruct (json_iter v) as [items|] eqn:Ei; [cbn|done].
  apply json_iter_wf in Ei; [|done]. intros El%mapM_Some.
  clear -Ei El. induction El as [|x d items l Hx _ IH]; [constructor|].
  apply Forall_cons_1 in Ei as [Hw Ei]. constructor; [by eapply json_dict_wf|by apply IH].
Qed.

Lemma jget_wf d k : wf_json (JDict d) -> wf_json (default JNull (jget d k)).
Proof.
  intros Hd. inversion Hd as [ | | | | | |? _ Hf]; subst.
  induction Hf as [|[k' v] d Hv Hf IH]; cbn; [constructor|].
  destruct (String.eqb k' k); [done|]. apply IH. constructor; [|done].
  by apply wf_dict_NoDup in Hd; inversion Hd.
Qed.

Lemma from_payload_wf v a :
  wf_json v -> _artifact_from_payload v = Ok a -> wf_json (JDict (PatchArtifact.to_payload a true)).
Proof.
  intros Hv. destruct v as [ | | | | | |d]; try done. unfold _artifact_from_payload.
  destruct (List.filter _ _); [|done]. destruct (List.filter _ _); [|done].
  unfold payload_fields. destruct (py_int _) as [size|]; [cbn zeta|done].
  match goal with |- context [json_dicts ?v ≫= _] =>
    destruct (json_dicts v) as [fs|] eqn:E1; cbn [mbind option_bind]; [|done] end.
  match goal with |- context [json_dicts ?v ≫= _] =>
    destruct (json_dicts v) as [ig|] eqn:E2; cbn [mbind option_bind]; [|done] end.
  match goal with |- context [json_dict ?v ≫= _] =>
    destruct (json_dict v) as [risk|] eqn:E3; cbn [mbind option_bind]; [|done] end.
  match goal with |- context [json_dict ?v ≫= _] =>
    destruct (json_dict v) as [intent|] eqn:E4; cbn [mbind option_bind]; [|done] end.
  intros [= <-].
  apply payload_wf; cbn; eauto using json_dicts_wf, json_dict_wf, jget_wf.
Qed.

Lemma stored_wf s id a : stored_artifact s id a -> wf_json (JDict (PatchArtifact.to_payload a true)).
Proof.
  intros [(t & p & _ & _ & Hl & Ha) _ _]. apply loads_wf in Hl. by eapply from_payload_wf.
Qed.

Lemma consumed_wf s id a now : stored_artifact s id a ->
  wf_json (JDict (PatchArtifact.to_payload
    (_with_integrity_digest (PatchArtifact.consumed a now)) true)).
Proof.
  intros (t & p & _ & _ & Hl & Ha)%sa_file. apply loads_wf in Hl.
  apply from_payload_wf in Ha; [|done]. clear Hl t p.
  inversion Ha as [ | | | | | |? Hnd Hf]; subst. constructor; [apply required_NoDup|].
  cbn in Hf |- *. rewrite !Forall_cons in Hf |- *. cbn in *. intuition constructor.
Qed.
End Verified.
