(* ===== verification/ArtifactLifecycle.v ===== *)
(** * The life of a patch artifact

    What the operations of [PatchArtifact] make of one artifact: persisted it
    can be read back until it expires; applied under its lock it is the patch
    that was approved, and it is consumed; its patch is applied at most once by
    sequences of calls, disk failures, deaths, restarts and interference, but
    for those in which a process is lost and an apply raised after it applied.
    The last is a refinement of a four-state specification, [astep]. *)

From S2P Require Export PatchArtifact.

(** ** Definitions *)

(** *** A repository that records the patches applied to it *)

Definition recording {R} (G : GitRepo R) : GitRepo (R * list string) := {|
  repo_exists := fun r => repo_exists (fst r);
  is_toplevel := fun r => is_toplevel (fst r);
  status_porcelain := fun r => status_porcelain (fst r);
  rev_parse_head := fun r => rev_parse_head (fst r);
  apply_check := fun r p => apply_check (fst r) p;
  git_apply := fun r p => r' ← git_apply (fst r) p; Ok (r', p :: snd r);
  git_reset_reverse := fun r p => r' ← git_reset_reverse (fst r) p; Ok (r', snd r);
  current_diff := fun r b => current_diff (fst r) b;
|}.

Section Calls.
Context `{AH : ArtifactHost}.
Context {R L : Type} {G : GitRepo R} {AA : ApplyAudit L} {RS : RiskSources}.
Context (resolve : PurePosixPath.t -> PurePosixPath.t).
#[local] Instance recorded_git : GitRepo (R * list string) := recording G.
Local Notation W := (world (R * list string) L).

Definition state : Type := artifact_store * W.

(** The calls of the store's interface, each with the failures its system
    calls meet; a crash of the process inside [apply_approved]; a restart; and a
    change of the repository and of the log by others. *)
Inductive call :=
  | Persist (f : disk_faults) (d : PatchDiff.t) (run_id trace_id : string)
      (request : ApprovalRequest.t) (trusted_repo_path : string) (report : ChangeRiskReport.t)
      (intent_summary : pydict) (ttl_seconds : Z) (artifact_id : string) (now : Z)
  | Apply (f : disk_faults) (artifact_id target : string) (request : ApprovalRequest.t)
      (decision : ApprovalDecision.t) (now : Z)
  | CrashInApply (f : disk_faults) (artifact_id target : string) (request : ApprovalRequest.t)
      (decision : ApprovalDecision.t) (now : Z) (consumed : bool)
  | MarkConsumed (f : disk_faults) (artifact_id : string) (now : Z)
  | Delete (f : disk_faults) (artifact_id : string)
  | Restart
  | Others (repo : R) (log : option L).

(** What a process that dies under the lock leaves: the lock file, the
    directory before or after the artifact was marked consumed, the repository
    with the patch, and no memory of used approvals. *)
Definition crash (f : disk_faults) (id target : string) (request : ApprovalRequest.t)
    (decision : ApprovalDecision.t) (now : Z) (consumed : bool) (st : state) : state :=
  let '(s, w) := st in
  if bool_decide (id ∈ st_locks s) then (s, mk_world (w_repo w) (w_log w) [])
  else
    let locked := lock_file s id in
    let '((s', w'), _) := apply_loaded resolve f id target request decision now (locked, w) in
    (if consumed then s' else locked, mk_world (w_repo w') (w_log w') []).

(** A process that dies in another call leaves what that call leaves when its
    lock cannot be unlinked, and a restart. *)
Definition run_call (c : call) (st : state) : state :=
  match c with
  | Persist f d run trace req path report intent ttl id now =>
      fst (persist f d run trace req path report intent ttl id now st)
  | Apply f id target req dec now => fst (apply_approved resolve f id target req dec now st)
  | CrashInApply f id target req dec now consumed =>
      match _require_identifier id "artifact ID" with
      | Ok normalized_id => crash f normalized_id target req dec now consumed st
      | Raise _ => st
      end
  | MarkConsumed f id now => fst (mark_consumed f id now st)
  | Delete f id => fst (delete_artifact f id st)
  | Restart => let '(s, w) := st in (s, mk_world (w_repo w) (w_log w) [])
  | Others repo log =>
      let '(s, w) := st in (s, mk_world (repo, snd (w_repo w)) log (w_used w))
  end.

(** What a call is to the artifact [id]: its patch was applied, and the call
    returned or its process died under the lock, or the call raised; or it was
    not applied, and the process lived or died. *)
Inductive event := Applied (safely : bool) | Quiet (died : bool).

#[global] Instance event_eq_dec : EqDecision event.
Proof. solve_decision. Defined.

Definition patched (c : call) (st : state) : bool :=
  negb (bool_decide (snd (w_repo (snd (run_call c st))) = snd (w_repo (snd st)))).

Definition event_of (id : string) (c : call) (st : state) : event :=
  match c with
  | Apply f i target req dec now =>
      if String.eqb (strip i) id && patched c st
      then Applied (is_ok (snd (apply_approved resolve f i target req dec now st)))
      else Quiet false
  | CrashInApply _ i _ _ _ _ _ =>
      if String.eqb (strip i) id && patched c st then Applied true else Quiet true
  | Restart => Quiet true
  | _ => Quiet false
  end.

Fixpoint events (id : string) (cs : list call) (st : state) : list event :=
  match cs with
  | [] => []
  | c :: cs' => event_of id c st :: events id cs' (run_call c st)
  end.

Definition is_application (e : event) : bool :=
  match e with Applied _ => true | Quiet _ => false end.

(** [uuid4] does not repeat: no call persists the artifact [id]. *)
Definition other_artifact (id : string) (c : call) : Prop :=
  match c with Persist _ _ _ _ _ _ _ _ _ i _ => i <> id | _ => True end.

(** *** The specification *)

(** [Pending]: may be applied.  [Used]: the approval was used in this process,
    the artifact is still pending.  [Spent]: consumed or deleted.  [Stuck]: the
    lock file of a dead process is in the way.  A process that dies forgets
    which approvals it used.  A call that raises after it applied the patch
    leaves the artifact spent, when the error came after the new text replaced
    the old one, and used otherwise. *)
Inductive astatus := Pending | Used | Spent | Stuck.

Inductive astep : astatus -> event -> astatus -> Prop :=
  | as_stutter q died : astep q (Quiet died) q
  | as_apply safely : astep Pending (Applied safely) Spent
  | as_apply_die : astep Pending (Applied true) Stuck
  | as_apply_raise : astep Pending (Applied false) Used
  | as_use : astep Pending (Quiet false) Used
  | as_forget : astep Used (Quiet true) Pending
  | as_retire q : q <> Stuck -> astep q (Quiet false) Spent
  | as_die q : astep q (Quiet true) Stuck.

Inductive asteps : astatus -> list event -> astatus -> Prop :=
  | ass_nil q : asteps q [] q
  | ass_cons q e q' es q'' : astep q e q' -> asteps q' es q'' -> asteps q (e :: es) q''.

(** The key under which the use of an artifact's approval is recorded. *)
Definition artifact_key (a : PatchArtifact.t) : approval_use :=
  (PatchArtifact.approval_request_id a, PatchArtifact.patch_sha256 a,
   PatchArtifact.baseline_commit_sha a).

Definition pending_at (s : artifact_store) (id : string) (a : PatchArtifact.t) : Prop :=
  stored_artifact s id a /\ PatchArtifact.state a = PATCH_ARTIFACT_STATE_PENDING.

Definition spent (s : artifact_store) (id : string) : Prop :=
  st_files s !! id = None \/
  exists a, stored_artifact s id a /\ PatchArtifact.state a = PATCH_ARTIFACT_STATE_CONSUMED.

(** The states the code may be in when the specification is in [q]. *)
Definition represents (id : string) (st : state) (q : astatus) : Prop :=
  match q with
  | Pending => exists a, pending_at (fst st) id a /\ artifact_key a ∉ w_used (snd st)
  | Used => exists a, pending_at (fst st) id a /\ artifact_key a ∈ w_used (snd st)
  | Spent => spent (fst st) id
  | Stuck => id ∈ st_locks (fst st)
  end.
End Calls.

(** ** Lemmas *)

Section Facts.
Context `{AH : ArtifactHost}.
Context {R L : Type} {GR : GitRepo R} {AA : ApplyAudit L} {RS : RiskSources}.
Context (resolve : PurePosixPath.t -> PurePosixPath.t).
Local Notation W := (world R L).

(** The artifact's entry after it was marked consumed at [now]. *)
Definition consumed_text (a : PatchArtifact.t) (now : Z) : string :=
  canonical_json (JDict (PatchArtifact.to_payload
    (_with_integrity_digest (PatchArtifact.consumed a (iso_format now))) true)).

Lemma mark_unlocked_inv {W'} f s id a now (w : W') s' w' r :
  identifier id -> stored_artifact s id a ->
  _mark_consumed_unlocked f a now (s, w) = ((s', w'), r) ->
  w' = w /\
  ((s' = s /\ (exists e, r = Raise e) /\
    (PatchArtifact.state a = PATCH_ARTIFACT_STATE_CONSUMED \/
     (MAX_PATCH_ARTIFACT_BYTES < utf8_len (consumed_text a now))%Z \/ write_fault f <> None)) \/
   (PatchArtifact.state a = PATCH_ARTIFACT_STATE_PENDING /\
    s' = put_file s id (RegularText (consumed_text a now)) /\ spent s' id /\
    ((exists c, r = Ok c) \/ write_fault f <> None \/ reload_fault f <> None))).
Proof.
  intros Hid Hs. unfold _mark_consumed_unlocked.
  destruct (String.eqb_spec (PatchArtifact.state a) PATCH_ARTIFACT_STATE_CONSUMED) as [Hc|Hc].
  { intros [= <- <- <-]. split; [done|]. left. eauto 10. }
  pose proof (stored_ok _ _ _ Hs) as Hok. rewrite (sa_id _ _ _ Hs).
  set (c := _with_integrity_digest (PatchArtifact.consumed a (iso_format now))).
  assert (Hp : PatchArtifact.state a = PATCH_ARTIFACT_STATE_PENDING)
    by by destruct (ok_state _ Hok) as [[? _]|[? _]].
  assert (Hcok : artifact_ok c) by by apply consumed_ok.
  assert (Hst : (utf8_len (consumed_text a now) <= MAX_PATCH_ARTIFACT_BYTES)%Z ->
    stored_artifact (put_file s id (RegularText (consumed_text a now))) id (canon_artifact c)).
  { intros Hmax. apply stored_written; [by cbn; rewrite lookup_insert_eq|done| | |by apply verify_iff].
    - by eapply consumed_wf.
    - apply (sa_id _ _ _ Hs). }
  destruct (_atomic_write f s id _) as [s1 rw] eqn:Ew.
  apply atomic_write_inv in Ew as [(-> & [e ->] & Hbig)|(-> & Hmax & Hrw)].
  { intros [= <- <- <-]. split; [done|]. left. destruct Hbig; eauto 10. }
  assert (Hsp : spent (put_file s id (RegularText (consumed_text a now))) id)
    by (right; exists (canon_artifact c); auto).
  destruct Hrw as [(Hwf & ->)|(Hwf & e & ->)]; intros [= <- <- <-]; (split; [done|]); right;
    split_and!; auto.
  destruct (reload_fault f) eqn:Er; [by right; right|left]. unfold read_back. rewrite Er.
  destruct (ok_times _ Hcok) as (cr & ex & _ & He & _).
  exists (canon_artifact c). apply load_iff; [done|]. split; [by apply Hst|]. split; [done|].
  exists (ex <? now)%Z. split; [|done]. rewrite expired_canon. unfold expired. by rewrite He.
Qed.

(** What [apply_approved] relied on when it applied the patch [d] of [a]. *)
Record application (s : artifact_store) (id target : string) (req : ApprovalRequest.t)
    (dec : ApprovalDecision.t) (now : Z) (w w' : W) (a : PatchArtifact.t) (d : PatchDiff.t)
    (report : ChangeRiskReport.t) : Prop := mk_application {
  ap_stored : pending_at s id a;
  ap_live : expired a now = Ok false;
  ap_request : PatchArtifact.approval_request_id a = ApprovalRequest.approval_id req;
  ap_bound : dict_get (ApprovalRequest.metadata req) "artifact_id" = PNone \/
    py_eq (dict_get (ApprovalRequest.metadata req) "artifact_id") (PStr id) = true;
  ap_repo : _repo_identity (resolve_path target) = PatchArtifact.trusted_repo_identity_sha256 a;
  ap_diff : to_patch_diff a = Ok d;
  ap_report : to_risk_report a = Ok report;
  ap_pre : exists report', preconditions resolve iso_parse now d (resolve_path target) req dec
    (Some report) w report';
  ap_fresh : artifact_key a ∉ w_used w;
  ap_git : git_apply (w_repo w) (PatchDiff.patch d) = Ok (w_repo w');
  ap_used : w_used w' = artifact_key a :: w_used w;
}.

Lemma patch_diff_fields a d : to_patch_diff a = Ok d ->
  PatchDiff.patch_sha256 d = PatchArtifact.patch_sha256 a /\
  PatchDiff.baseline_commit_sha d = PatchArtifact.baseline_commit_sha a /\
  exists bytes, PatchArtifact.patch_bytes a = Ok bytes /\ PatchDiff.patch d = decode_text bytes /\
    sha256_of_bytes bytes = PatchArtifact.patch_sha256 a.
Proof.
  unfold to_patch_diff. intros (bytes & Hb & H)%bind_Ok_inv.
  apply bind_Ok_inv in H as ([] & Hs%ensure_Ok & H). apply bind_Ok_inv in H as ([] & _ & H).
  apply bind_Ok_inv in H as (fs & _ & H). apply bind_Ok_inv in H as (ig & _ & [= <-]).
  apply String.eqb_eq in Hs. cbn. split_and!; try done. by exists bytes.
Qed.

Lemma apply_inputs_inv a target req d report :
  apply_inputs a target req = Ok (d, report) ->
  PatchArtifact.approval_request_id a = ApprovalRequest.approval_id req /\
  (dict_get (ApprovalRequest.metadata req) "artifact_id" = PNone \/
   py_eq (dict_get (ApprovalRequest.metadata req) "artifact_id")
     (PStr (PatchArtifact.artifact_id a)) = true) /\
  _repo_identity (resolve_path target) = PatchArtifact.trusted_repo_identity_sha256 a /\
  to_patch_diff a = Ok d /\ to_risk_report a = Ok report.
Proof.
  unfold apply_inputs. intros ([] & H1%ensure_Ok & H)%bind_Ok_inv.
  apply bind_Ok_inv in H as ([] & H2%ensure_Ok & H). apply bind_Ok_inv in H as ([] & H3%ensure_Ok & H).
  apply bind_Ok_inv in H as (d' & Hd & H). apply bind_Ok_inv in H as (rep & Hr & [= <- <-]).
  apply String.eqb_eq in H1, H3. split_and!; try done.
  destruct (dict_get _ _); auto.
Qed.

Lemma apply_loaded_inv f id target req dec now s (w : W) s' w' r :
  identifier id ->
  apply_loaded resolve f id target req dec now (s, w) = ((s', w'), r) ->
  (s' = s /\ w_repo w' = w_repo w /\ w_used w' = w_used w /\ exists e, r = Raise e) \/
  exists a d report, application s id target req dec now w w' a d report /\
    ((s' = put_file s id (RegularText (consumed_text a now)) /\ spent s' id) \/
     (s' = s /\ exists e, r = Raise e)).
Proof.
  intros Hid. unfold apply_loaded.
  destruct (read_first f (load s id false false now)) as [a|e] eqn:El; cbn [mbind result_bind].
  2: { intros [= <- <- <-]. left. eauto. }
  apply failing_read_Ok in El as [_ El].
  apply load_iff in El as (Hs & Hc & x & Hx & He); [|done].
  assert (x = false) as -> by (destruct x; [by discriminate He|done]).
  assert (Hp : PatchArtifact.state a = PATCH_ARTIFACT_STATE_PENDING).
  { destruct (ok_state _ (stored_ok _ _ _ Hs)) as [[? _]|[H _]]; [done|by discriminate Hc]. }
  destruct (apply_inputs a target req) as [[d report]|e] eqn:Ei; cbn [mbind result_bind];
    [|intros [= <- <- <-]; left; eauto].
  apply apply_inputs_inv in Ei as (E1 & E2 & E3 & E4 & E5).
  destruct (apply_approved_patch _ _ _ _ _ _ _ _ _) as [w1 ra] eqn:Ea.
  apply apply_steps in Ea as [(Hr & Hu & e & ->)|(report' & w2 & Hpre & Hf & _ & Hg & Hu & _ & H)].
  { intros [= <- <- <-]. left. eauto. }
  destruct (patch_diff_fields _ _ E4) as (F1 & F2 & _).
  assert (Hk : _approval_use_key req d = artifact_key a)
    by (unfold _approval_use_key, artifact_key; by rewrite F1, F2, E1).
  rewrite Hk in Hf, Hu.
  assert (Happ : application s id target req dec now w w1 a d report).
  { constructor; try done; [|by exists report'].
    by rewrite (sa_id _ _ _ Hs) in E2. }
  intros Hx'. right. exists a, d, report. destruct H as (ra' & _ & Hra).
  destruct ra' as [u|e]; subst ra; cbn [mbind result_bind] in Hx'.
  - destruct (_mark_consumed_unlocked f a now (s, w1)) as [[s2 w3] rm] eqn:Em.
    apply (mark_unlocked_inv f s id) in Em as (-> & [(-> & [e ->] & _)|(_ & -> & Hsp & _)]); try done;
      [|destruct rm]; injection Hx' as <- <- <-; split; eauto.
  - injection Hx' as <- <- <-. split; eauto.
Qed.

Lemma spent_files s s' id : st_files s' !! id = st_files s !! id -> spent s id -> spent s' id.
Proof.
  intros E [Hn|(a & Ha & Hc)]; [left; congruence|right]. exists a.
  split; [by eapply stored_files|done].
Qed.

Lemma application_files s s' id target req dec now (w w' : W) a d report :
  st_files s' !! id = st_files s !! id ->
  application s id target req dec now w w' a d report ->
  application s' id target req dec now w w' a d report.
Proof.
  intros E [[H1 H2] ? ? ? ? ? ? ? ? ? ?]. constructor; try done. split; [by eapply stored_files|done].
Qed.

(** [apply_approved]: every outcome. *)
Lemma apply_approved_inv f i target req dec now s (w : W) s' w' r :
  apply_approved resolve f i target req dec now (s, w) = ((s', w'), r) ->
  let id := strip i in
  locks_after f id s s' r /\
  ((st_files s' = st_files s /\ w_repo w' = w_repo w /\ w_used w' = w_used w /\
    exists e, r = Raise e) \/
   (identifier id /\ id ∉ st_locks s /\ exists a d report,
      application s id target req dec now w w' a d report /\
      ((st_files s' = <[id := RegularText (consumed_text a now)]> (st_files s) /\ spent s' id) \/
       (st_files s' = st_files s /\ exists e, r = Raise e)))).
Proof.
  unfold apply_approved. cbn zeta.
  destruct (_require_identifier i "artifact ID") as [id|e] eqn:Ei;
    [|intros [= <- <- <-]; split; [by left|left; eauto]].
  apply require_identifier_inv in Ei as [-> Hid]. set (id := strip i) in *.
  intros [(Hf & -> & Hk & He)|(Hl & _ & s1 & r1 & Hb & Hf & Hk & Hr)]%with_lock_inv; [auto 6|].
  apply apply_loaded_inv in Hb as
    [(-> & Hrepo & Hu & e & ->)|(a & d & report & Happ & H)]; [| |done].
  - split; [by apply Hk|]. left. destruct Hr as [->|[_ ?]]; eauto.
  - assert (Hk1 : st_locks s1 = {[id]} ∪ st_locks s) by by destruct H as [[-> _]|[-> _]].
    split; [by apply Hk|]. right. split; [done|]. split; [done|]. exists a, d, report.
    split; [by eapply application_files, Happ|].
    destruct H as [(-> & Hs)|(-> & e & ->)]; [left|right].
    + split; [done|]. eapply spent_files, Hs. by rewrite Hf.
    + destruct Hr as [->|[_ ?]]; eauto.
Qed.

(** A spent artifact is never applied, by whoever asks. *)
Lemma spent_refuses f i target req dec now s (w : W) :
  spent s (strip i) ->
  exists e s' w', apply_approved resolve f i target req dec now (s, w) = ((s', w'), Raise e) /\
    st_files s' = st_files s /\ locks_after f (strip i) s s' (Raise (A := unit) e) /\
    w_repo w' = w_repo w /\ w_used w' = w_used w.
Proof.
  intros Hs. destruct (apply_approved resolve f i target req dec now (s, w)) as [[s' w'] r] eqn:E.
  apply apply_approved_inv in E as [Hk [(Hf & ? & ? & e & ->)|(_ & _ & a & d & rep & Happ & _)]].
  { exists e, s', w'. split_and!; try done. by eapply locks_after_raise. }
  exfalso. destruct (ap_stored _ _ _ _ _ _ _ _ _ _ _ Happ) as [Ha Hp].
  destruct Hs as [Hn|(b & Hb & Hc)].
  - destruct (sa_file _ _ _ Ha) as (t & p & Hf & _). congruence.
  - by rewrite (stored_unique _ _ _ _ Ha Hb), Hc in Hp.
Qed.

Lemma mark_consumed_inv {W'} f i now s (w : W') s' w' r :
  mark_consumed f i now (s, w) = ((s', w'), r) ->
  w' = w /\ locks_after f (strip i) s s' r /\
  (st_files s' = st_files s \/ (strip i ∉ st_locks s /\ spent s' (strip i) /\
    exists x, st_files s' = <[strip i := x]> (st_files s))).
Proof.
  unfold mark_consumed. destruct (_require_identifier i "artifact ID") as [id|e] eqn:Ei;
    [|intros [= <- <- <-]; split_and!; auto; by left].
  apply require_identifier_inv in Ei as [-> Hid]. set (id := strip i) in *.
  intros [(Hf & -> & Hk & _)|(Hl & _ & s1 & r1 & Hb & Hf & Hk & _)]%with_lock_inv; [auto|].
  destruct (read_first f (load (lock_file s id) id true true now)) as [a|e] eqn:El.
  2: { injection Hb as <- <- <-. auto. }
  apply failing_read_Ok in El as [_ El]. apply load_iff in El as (Hs & _); [|done].
  apply (mark_unlocked_inv _ _ id) in Hb as (-> & [(-> & _)|(_ & -> & Hsp & _)]); try done; [auto|].
  split; [done|]. split; [by apply Hk|]. right.
  split_and!; [done| |eexists; exact Hf]. eapply spent_files, Hsp. by rewrite Hf.
Qed.

Lemma delete_inv {W'} f i s (w : W') s' w' r :
  delete_artifact f i (s, w) = ((s', w'), r) ->
  w' = w /\ locks_after f (strip i) s s' r /\
  (st_files s' = st_files s \/ (strip i ∉ st_locks s /\
    st_files s' = delete (strip i) (st_files s))).
Proof.
  unfold delete_artifact. destruct (_require_identifier i "artifact ID") as [id|e] eqn:Ei;
    [|intros [= <- <- <-]; split_and!; auto; by left].
  apply require_identifier_inv in Ei as [-> Hid]. set (id := strip i) in *.
  intros [(Hf & -> & Hk & _)|(Hl & _ & s1 & r1 & Hb & Hf & Hk & _)]%with_lock_inv; [auto|].
  destruct (st_files (lock_file s id) !! id) as [[]|]; [destruct (remove_fault f)..|];
    injection Hb as <- <- <-; (split; [done|]); (split; [by apply Hk|]); rewrite Hf; auto.
Qed.

Lemma persist_frame {W'} f d run trace req path report intent ttl id now s (w : W') s' w' r :
  persist f d run trace req path report intent ttl id now (s, w) = ((s', w'), r) ->
  w' = w /\ locks_after f id s s' r /\
  (st_files s' = st_files s \/ exists x, st_files s' = <[id := x]> (st_files s)).
Proof.
  unfold persist. destruct (prepare _ _ _ _ _ _ _ _ _ _) as [artifact|e];
    [|intros [= <- <- <-]; split_and!; auto; by left].
  match goal with |- context [with_lock f id ?b (s, w)] =>
    destruct (with_lock f id b (s, w)) as [[s1 w1] rl] eqn:El end.
  assert (H : w1 = w /\ locks_after f id s s1 rl /\
    (st_files s1 = st_files s \/ exists x, st_files s1 = <[id := x]> (st_files s))).
  { apply with_lock_inv in El as [(Hf & -> & Hk & _)|(Hl & _ & s2 & r2 & Hb & Hf & Hk & _)]; [auto|].
    destruct (st_files (lock_file s id) !! id); [injection Hb as <- <- <-; auto|].
    destruct (_atomic_write _ _ _ _) as [s3 r3] eqn:Ew. injection Hb as <- <- <-.
    apply atomic_write_inv in Ew as [(-> & _)|(-> & _)]; [auto|].
    split; [done|]. split; [by apply Hk|]. right. eexists. exact Hf. }
  destruct H as (-> & Hk & Hf).
  destruct rl as [u|e]; intros [= <- <- <-]; (split; [done|]); (split; [|exact Hf]).
  - left. by eapply locks_after_Ok.
  - by eapply locks_after_raise.
Qed.
End Facts.

Section Simulation.
Context `{AH : ArtifactHost}.
Context {R L : Type} {G : GitRepo R} {AA : ApplyAudit L} {RS : RiskSources}.
Context (resolve : PurePosixPath.t -> PurePosixPath.t).
#[local] Existing Instance recorded_git.
Local Notation W := (world (R * list string) L).

Lemma recording_apply (r r' : R * list string) p :
  git_apply r p = Ok r' -> snd r' = p :: snd r.
Proof. cbn. destruct (git_apply (fst r) p); cbn; [by intros [= <-]|done]. Qed.

Lemma cons_ne {A} (x : A) l : x :: l <> l.
Proof. intros H. apply (f_equal List.length) in H. cbn in H. lia. Qed.

(** A call that leaves the artifact alone and uses at most one approval. *)
Lemma sim_quiet id s s' (w w' : W) q :
  represents id (s, w) q ->
  st_files s' !! id = st_files s !! id -> (id ∈ st_locks s -> id ∈ st_locks s') ->
  (w_used w' = w_used w \/ exists k, w_used w' = k :: w_used w) ->
  exists q', astep q (Quiet false) q' /\ represents id (s', w') q'.
Proof.
  intros Hq Hf Hl Hu. destruct q; cbn in *.
  - destruct Hq as (a & [Ha Hp] & Hk).
    assert (Hp' : pending_at s' id a) by (split; [by eapply stored_files|done]).
    destruct (decide (artifact_key a ∈ w_used w')) as [Hin|Hnot].
    + exists Used. split; [constructor|by exists a].
    + exists Pending. split; [constructor|by exists a].
  - destruct Hq as (a & [Ha Hp] & Hk). exists Used. split; [constructor|]. exists a.
    split; [split; [by eapply stored_files|done]|]. cbn. destruct Hu as [->|(k & ->)]; [done|].
    by apply list_elem_of_further.
  - exists Spent. split; [constructor|by eapply spent_files].
  - exists Stuck. split; [constructor|by apply Hl].
Qed.

(** A process that dies without having touched the artifact. *)
Lemma sim_forget id s s' (w w' : W) q :
  represents id (s, w) q ->
  st_files s' !! id = st_files s !! id -> (id ∈ st_locks s -> id ∈ st_locks s') ->
  w_used w' = [] ->
  exists q', astep q (Quiet true) q' /\ represents id (s', w') q'.
Proof.
  intros Hq Hf Hl Hu.
  assert (Hp' : forall a, pending_at s id a -> pending_at s' id a)
    by (intros a [Ha Hp]; split; [by eapply stored_files|done]).
  destruct q; cbn in *.
  - destruct Hq as (a & Ha & _). exists Pending. split; [constructor|]. exists a.
    cbn. rewrite Hu. split; [auto|set_solver].
  - destruct Hq as (a & Ha & _). exists Pending. split; [constructor|]. exists a.
    cbn. rewrite Hu. split; [auto|set_solver].
  - exists Spent. split; [constructor|by eapply spent_files].
  - exists Stuck. split; [constructor|by apply Hl].
Qed.

Lemma only_pending_applies id s target req dec now (w w' : W) a d report q :
  represents id (s, w) q -> id ∉ st_locks s ->
  application resolve s id target req dec now w w' a d report -> q = Pending.
Proof.
  intros Hq Hl Happ. destruct (ap_stored _ _ _ _ _ _ _ _ _ _ _ _ Happ) as [Ha Hp].
  destruct q; cbn in Hq; [done| | |done].
  - destruct Hq as (b & [Hb _] & Hk). rewrite (stored_unique _ _ _ _ Hb Ha) in Hk.
    by destruct (ap_fresh _ _ _ _ _ _ _ _ _ _ _ _ Happ).
  - destruct Hq as [Hn|(b & Hb & Hc)].
    + destruct (sa_file _ _ _ Ha) as (t & p & Hf & _). congruence.
    + by rewrite (stored_unique _ _ _ _ Ha Hb), Hc in Hp.
Qed.

Lemma sim_apply id f i target req dec now s (w : W) q :
  represents id (s, w) q ->
  exists q', astep q (event_of resolve id (Apply f i target req dec now) (s, w)) q' /\
    represents id (run_call resolve (Apply f i target req dec now) (s, w)) q'.
Proof.
  intros Hq. unfold event_of, patched. cbn [run_call].
  destruct (apply_approved resolve f i target req dec now (s, w)) as [[s' w'] r] eqn:E.
  cbn [fst snd]. apply apply_approved_inv in E as
    [Hk [(Hf & Hr & Hu & _)|(Hid & Hl & a & d & report & Happ & H)]].
  - rewrite Hr, bool_decide_eq_true_2, andb_false_r by done.
    apply (sim_quiet id s s' w w'); auto; [by rewrite Hf|by eapply locks_after_mono].
  - rewrite bool_decide_eq_false_2, andb_true_r
      by (rewrite (recording_apply _ _ _ (ap_git _ _ _ _ _ _ _ _ _ _ _ _ Happ)); apply cons_ne).
    pose proof (ap_used _ _ _ _ _ _ _ _ _ _ _ _ Happ) as Hu.
    destruct (String.eqb_spec (strip i) id) as [Hi|Hi].
    + rewrite Hi in *. pose proof (only_pending_applies _ _ _ _ _ _ _ _ _ _ _ _ Hq Hl Happ) as ->.
      destruct H as [(_ & Hs)|(Hf & e & ->)].
      * exists Spent. split; [constructor|done].
      * exists Used. split; [constructor|]. destruct (ap_stored _ _ _ _ _ _ _ _ _ _ _ _ Happ).
        exists a. split; [split; [by eapply stored_files; [cbn; rewrite Hf|]|done]|].
        cbn. rewrite Hu. apply list_elem_of_here.
    + apply (sim_quiet id s s' w w'); eauto; [|by eapply locks_after_mono].
      destruct H as [(Hf & _)|(Hf & _)]; rewrite Hf; [by rewrite lookup_insert_ne|done].
Qed.

Lemma crash_inv f id target req dec now consumed s (w : W) s' w' :
  identifier id -> crash resolve f id target req dec now consumed (s, w) = (s', w') ->
  w_used w' = [] /\ id ∈ st_locks s' /\
  (forall j, j ∈ st_locks s -> j ∈ st_locks s') /\
  (forall j, j <> id -> st_files s' !! j = st_files s !! j) /\
  (w_repo w' = w_repo w \/
   id ∉ st_locks s /\ snd (w_repo w') <> snd (w_repo w) /\
   exists w1 a d report, application resolve s id target req dec now w w1 a d report).
Proof.
  intros Hid. unfold crash. destruct (bool_decide_reflect (id ∈ st_locks s)) as [Hin|Hl].
  { intros [= <- <-]. split_and!; auto. }
  destruct (apply_loaded resolve f id target req dec now (lock_file s id, w)) as [[s1 w1] r] eqn:E.
  intros [= <- <-]. cbn [w_used w_repo].
  assert (Hc : forall j, j ∈ st_locks s -> j ∈ st_locks (lock_file s id)) by (cbn; set_solver).
  assert (Hi : id ∈ st_locks (lock_file s id)) by (cbn; set_solver).
  apply apply_loaded_inv in E as [(-> & Hr & _)|(a & d & report & Happ & H)]; [| |done].
  - rewrite Hr. destruct consumed; split_and!; auto.
  - assert (Hf : st_locks s1 = st_locks (lock_file s id) /\
      forall j, j <> id -> st_files s1 !! j = st_files s !! j).
    { destruct H as [(-> & _)|(-> & _)]; [|done]. split; [done|]. intros j Hj. cbn.
      by rewrite lookup_insert_ne. }
    destruct Hf as [Hf1 Hf2].
    split_and!; try by destruct consumed; rewrite ?Hf1; auto.
    right. split; [done|]. split.
    + rewrite (recording_apply _ _ _ (ap_git _ _ _ _ _ _ _ _ _ _ _ _ Happ)). apply cons_ne.
    + exists w1, a, d, report. by eapply application_files, Happ.
Qed.

Lemma sim_crash id f i target req dec now consumed s (w : W) q :
  represents id (s, w) q ->
  exists q', astep q (event_of resolve id (CrashInApply f i target req dec now consumed) (s, w)) q' /\
    represents id (run_call resolve (CrashInApply f i target req dec now consumed) (s, w)) q'.
Proof.
  intros Hq. unfold event_of, patched. cbn [run_call].
  destruct (_require_identifier i "artifact ID") as [n|e] eqn:Ei.
  2: { rewrite bool_decide_eq_true_2, andb_false_r by done. exists q. split; [constructor|done]. }
  apply require_identifier_inv in Ei as [-> Hid].
  destruct (crash resolve f (strip i) target req dec now consumed (s, w)) as [s' w'] eqn:E.
  cbn [fst snd]. apply crash_inv in E as (Hu & Hi & Hl & Hf & H); [|done].
  destruct (String.eqb_spec (strip i) id) as [He|He].
  - rewrite He in *. cbn [andb]. exists Stuck. split; [|done].
    destruct H as [->|(Hn & Hp & w1 & a & d & rep & Happ)].
    + rewrite bool_decide_eq_true_2 by done. constructor.
    + pose proof (only_pending_applies _ _ _ _ _ _ _ _ _ _ _ _ Hq Hn Happ) as ->.
      rewrite bool_decide_eq_false_2 by done. constructor.
  - cbn [andb]. apply (sim_forget id s s' w w'); auto.
Qed.

Lemma sim_retire id s s' (w : W) q i :
  represents id (s, w) q -> i ∉ st_locks s ->
  spent s' i -> (id ∈ st_locks s -> id ∈ st_locks s') ->
  (forall j, j <> i -> st_files s' !! j = st_files s !! j) ->
  exists q', astep q (Quiet false) q' /\ represents id (s', w) q'.
Proof.
  intros Hq Hn Hsp Hl Hf. destruct (decide (id = i)) as [->|Hne].
  - destruct q; [| | |done]; exists Spent; (split; [by constructor|done]).
  - apply (sim_quiet id s s' w w); auto.
Qed.
End Simulation.

(** *** Persisting and consuming succeed *)

Section Succeeds.
Context `{HL : HostLaws}.

Lemma new_artifact_ok d run trace req repo report intent ttl id now :
  identifier id -> identifier run -> identifier trace -> identifier (ApprovalRequest.approval_id req) ->
  (0 < ttl)%Z -> sha256_of_bytes (utf8_bytes (PatchDiff.patch d)) = PatchDiff.patch_sha256 d ->
  Z.of_nat (List.length (utf8_bytes (PatchDiff.patch d))) = PatchDiff.patch_size_bytes d ->
  artifact_ok (new_artifact d run trace req repo report intent ttl id now).
Proof.
  intros H1 H2 H3 H4 Ht Hs Hl. constructor; try done; cbn -[iso_format].
  - by rewrite !require_identifier_Ok.
  - by left.
  - exists now, (now + ttl * 1000000)%Z. unfold _parse_timestamp. rewrite !iso_round_trip.
    split_and!; [done|done|lia].
  - exists (utf8_bytes (PatchDiff.patch d)). unfold PatchArtifact.patch_bytes. cbn.
    by rewrite b64_round_trip by apply utf8_is_byte.
Qed.

Lemma persist_succeeds {W} f d run trace req path report intent ttl id now s (w : W) a :
  f = no_faults -> prepare d run trace req path report intent ttl id now = Ok a ->
  identifier id -> artifact_ok a -> PatchArtifact.artifact_id a = id ->
  wf_json (JDict (PatchArtifact.to_payload a true)) ->
  (utf8_len (canonical_json (JDict (PatchArtifact.to_payload a true))) <= MAX_PATCH_ARTIFACT_BYTES)%Z ->
  st_files s !! id = None -> id ∉ st_locks s ->
  let s' := put_file s id (RegularText (canonical_json (JDict (PatchArtifact.to_payload a true)))) in
  stored_artifact s' id (canon_artifact a) /\
  persist f d run trace req path report intent ttl id now (s, w) = ((s', w), Ok (canon_artifact a)).
Proof.
  intros -> Hp Hid Hok Hai Hw Hmax Hn Hl. cbn zeta.
  set (s' := put_file s id _).
  assert (Hs : stored_artifact s' id (canon_artifact a))
    by (apply stored_written; try done; [apply lookup_insert_eq|by apply verify_iff]).
  split; [done|].
  assert (Hload : load s' id true true now = Ok (canon_artifact a)).
  { apply load_iff; [done|]. split; [done|]. split; [done|].
    destruct (ok_times _ Hok) as (c & e & _ & He & _). exists (e <? now)%Z. split; [|done].
    rewrite expired_canon. unfold expired. by rewrite He. }
  unfold persist, with_lock, _atomic_write. rewrite Hp, bool_decide_eq_false_2 by done.
  cbn [no_faults lock_fault unlock_fault write_fault st_files lock_file]. rewrite Hn, (proj2 (Z.ltb_ge _ _)) by done.
  assert (Hs' : unlock_file (put_file (lock_file s id) id (RegularText (canonical_json
    (JDict (PatchArtifact.to_payload a true))))) id = s').
  { unfold s', unlock_file, put_file, lock_file. cbn [st_files st_locks]. f_equal.
    apply leibniz_equiv. set_solver. }
  rewrite Hs'. unfold read_back. cbn [no_faults reload_fault failing_read].
  rewrite Hload. cbn [mbind result_bind]. cbn [canon_artifact PatchArtifact.artifact_digest].
  by rewrite String.eqb_refl.
Qed.

(** Marking a pending artifact consumed succeeds when its text fits. *)
Lemma mark_unlocked_succeeds {W} f s id a now (w : W) :
  identifier id -> stored_artifact s id a -> PatchArtifact.state a = PATCH_ARTIFACT_STATE_PENDING ->
  (utf8_len (consumed_text a now) <= MAX_PATCH_ARTIFACT_BYTES)%Z ->
  write_fault f = None -> reload_fault f = None ->
  exists c, _mark_consumed_unlocked f a now (s, w)
    = ((put_file s id (RegularText (consumed_text a now)), w), Ok c).
Proof.
  intros Hid Hs Hp Hmax Hw Hr. destruct (_mark_consumed_unlocked f a now (s, w)) as [[s' w'] r] eqn:E.
  apply (mark_unlocked_inv f s id) in E
    as (-> & [(_ & _ & [Hc|[Hb|?]])|(_ & -> & _ & [(c & ->)|[?|?]])]);
    try done; [by rewrite Hp in Hc|lia|by exists c].
Qed.

(** Without failures of the disk, [apply_approved] of an artifact that loads, is bound as it should be and
    fits when consumed: what the apply of its patch gives. *)
Lemma apply_approved_runs {R L} {GR : GitRepo R} {AA : ApplyAudit L} {RS : RiskSources}
    resolve id target req dec now s (w w' : world R L) a d report r :
  identifier id -> id ∉ st_locks s -> stored_artifact s id a ->
  PatchArtifact.state a = PATCH_ARTIFACT_STATE_PENDING -> expired a now = Ok false ->
  apply_inputs a target req = Ok (d, report) ->
  (utf8_len (consumed_text a now) <= MAX_PATCH_ARTIFACT_BYTES)%Z ->
  apply_approved_patch resolve (fun t => iso_parse t) now d (resolve_path target) req dec
    (Some report) w = (w', r) ->
  apply_approved resolve no_faults id target req dec now (s, w)
  = match r with
    | Ok res => ((put_file s id (RegularText (consumed_text a now)), w'), Ok res)
    | Raise text => ((s, w'), Raise (apply_error text))
    end.
Proof.
  intros Hid Hl Hst Hp Hx Hi Hmax Hap. unfold apply_approved.
  rewrite require_identifier_Ok by done. unfold with_lock. rewrite bool_decide_eq_false_2 by done.
  assert (Hst' : stored_artifact (lock_file s id) id a) by by apply (stored_files s).
  unfold apply_loaded, read_first. cbn [no_faults lock_fault unlock_fault first_fault failing_read].
  rewrite (load_stored _ _ _ _ _ _ Hid Hst'), Hp, Hx.
  change (String.eqb PATCH_ARTIFACT_STATE_PENDING PATCH_ARTIFACT_STATE_CONSUMED) with false.
  cbn [andb negb ensure mbind result_bind]. rewrite Hi. cbn [mbind result_bind]. rewrite Hap.
  assert (Hlocks : ({[id]} ∪ st_locks s) ∖ {[id]} = st_locks s) by (apply leibniz_equiv; set_solver).
  destruct r as [res|text].
  - destruct (mark_unlocked_succeeds no_faults (lock_file s id) id a now w' Hid Hst' Hp Hmax) as (c & ->);
      [done|done|]. unfold put_file, unlock_file. cbn [st_files st_locks lock_file]. by rewrite Hlocks.
  - unfold unlock_file. cbn [st_files st_locks lock_file]. rewrite Hlocks. by destruct s.
Qed.
End Succeeds.

(** ** Theorems *)

Section Theorems.
Context `{HL : HostLaws}.

(** C33 An artifact that [persist] returned is the given patch, report
    and approval under a fresh name: nothing else in the directory changed; the
    patch read back is the patch given, field by field; the report is the given
    one up to the canonical order of its dictionaries; it loads until it
    expires, and is refused as expired afterwards. *)
Theorem persisted_artifact_is_the_patch {W} f d run trace req path report intent ttl id now s (w : W)
    s' w' a :
  identifier id -> plain_report float_cast report ->
  py_wf float_value (of_dict (ChangeRiskReport.audit_summary report)) ->
  py_wf float_value (of_dict intent) ->
  persist f d run trace req path report intent ttl id now (s, w) = ((s', w'), Ok a) ->
  (w' = w /\ st_files s !! id = None /\ st_locks s' = st_locks s /\
   forall j, j <> id -> st_files s' !! j = st_files s !! j) /\
  to_patch_diff a = Ok d /\ to_risk_report a = Ok (canon_report report) /\
  PatchArtifact.approval_request_id a = ApprovalRequest.approval_id req /\
  target_is req (PatchDiff.patch_sha256 d) = true /\
  (forall t, (t <= now + ttl * 1000000)%Z -> load s' id false false t = Ok a) /\
  (forall t, (now + ttl * 1000000 < t)%Z ->
     load s' id false false t = Raise (artifact_expired ("Patch artifact has expired: " +++ id))).
Proof.
  intros Hid Hp Hw Hi Hx.
  apply persist_inv in Hx as (art & Ha & -> & Hn & Hk & Hf & Hmax & Hl & _).
  apply prepare_inv in Ha as (_ & Ht & Hs & Hlen & run' & trace' & _ & _ & ->).
  apply load_iff in Hl as (Hst & _); [|done].
  pose proof (stored_ok _ _ _ Hst) as Hok. pose proof (sa_verified _ _ _ Hst) as Hv.
  assert (Hst' := Hst).
  eapply written_stored in Hst as E; [|by rewrite Hf; apply lookup_insert_eq|by apply new_payload_wf].
  subst a.
  assert (He : forall t, expired (canon_artifact (new_artifact d run' trace' req (resolve_path path)
    report intent ttl id now)) t = Ok (now + ttl * 1000000 <? t)%Z).
  { intros t. unfold expired, _parse_timestamp. cbn. by rewrite iso_round_trip. }
  split_and!; try done.
  - intros j Hj. by rewrite Hf, lookup_insert_ne.
  - by apply new_artifact_patch.
  - by apply new_artifact_report.
  - intros t Hle. rewrite (load_stored _ _ _ _ _ _ Hid Hst'), He. cbn.
    by rewrite (proj2 (Z.ltb_ge _ _)).
  - intros t Hlt. rewrite (load_stored _ _ _ _ _ _ Hid Hst'), He. cbn.
    by rewrite (proj2 (Z.ltb_lt _ _)).
Qed.

(** C5 When [apply_approved] returns, the directory held a pending,
    unexpired artifact with valid digests that is bound to this request and to
    this repository; the bytes whose SHA-256 is the approved target were
    applied, all the preconditions of an approved apply held, the approval's
    use is recorded, and the artifact is consumed: every later [apply_approved]
    on it raises and leaves the directory, the repository and the recorded uses
    as they are. *)
Theorem applied_artifact_was_approved {R L} {GR : GitRepo R} {AA : ApplyAudit L} {RS : RiskSources}
    resolve f i target req dec now s (w : world R L) s' w' res :
  apply_approved resolve f i target req dec now (s, w) = ((s', w'), Ok res) ->
  let id := strip i in
  (exists a d report report' bytes,
     pending_at s id a /\ artifact_ok a /\ expired a now = Ok false /\
     PatchArtifact.approval_request_id a = ApprovalRequest.approval_id req /\
     _repo_identity (resolve_path target) = PatchArtifact.trusted_repo_identity_sha256 a /\
     PatchArtifact.patch_bytes a = Ok bytes /\ PatchDiff.patch d = decode_text bytes /\
     ApprovalRequest.target req = PStr (sha256_of_bytes bytes) /\ to_risk_report a = Ok report /\
     preconditions resolve iso_parse now d (resolve_path target) req dec (Some report) w report' /\
     git_apply (w_repo w) (PatchDiff.patch d) = Ok (w_repo w') /\
     artifact_key a ∉ w_used w /\ w_used w' = artifact_key a :: w_used w) /\
  (forall j, j <> id -> st_files s' !! j = st_files s !! j) /\ st_locks s' = st_locks s /\
  forall f2 target2 req2 dec2 now2 (w2 : world R L), exists e s3 w3,
    apply_approved resolve f2 i target2 req2 dec2 now2 (s', w2) = ((s3, w3), Raise e) /\
    st_files s3 = st_files s' /\ (unlock_fault f2 = None -> s3 = s') /\
    w_repo w3 = w_repo w2 /\ w_used w3 = w_used w2.
Proof.
  intros Hx. cbn zeta. apply apply_approved_inv in Hx as [Hk [(_ & _ & _ & e & [=])|(_ & _ & Hx)]].
  destruct Hx as (a & d & report & Happ & [(Hf' & Hs)|(_ & e & [=])]).
  destruct Happ as [[Hst Hp] Hlive Hreq _ Hrepo Hd Hr (report' & Hpre) Hf Hg Hu].
  destruct (patch_diff_fields _ _ Hd) as (F1 & _ & bytes & Hb & Hpatch & Hsha). split_and!.
  - exists a, d, report, report', bytes. split_and!; try done; [by eapply stored_ok|].
    rewrite Hsha, <- F1. apply (g_digest _ _ _ _ _ _ (p_granted _ _ _ _ _ _ _ _ _ _ Hpre)).
  - intros j Hj. by rewrite Hf', lookup_insert_ne.
  - by eapply locks_after_Ok.
  - intros f2 target2 req2 dec2 now2 w2.
    destruct (spent_refuses resolve f2 i target2 req2 dec2 now2 s' w2 Hs)
      as (e & s3 & w3 & E & H1 & H2 & H3 & H4).
    exists e, s3, w3. split_and!; try done. intros Hu2. by eapply locks_after_no_fault.
Qed.

(** When [apply_approved] raises, the lock file of the artifact is gone
    unless unlinking it failed, and either nothing else happened: the files, the
    repository and the recorded uses are as before; or the patch of a pending
    artifact was applied, the use of its approval is recorded, and the error
    came after it, from the audit log, from marking the artifact, or from the
    lock: then the artifact is consumed, or its file is as before, and any
    later [apply_approved] on the artifact in this process raises without
    touching the repository, whatever the request, the time, the repository and
    the disk. *)
Theorem failed_artifact_apply {R L} {GR : GitRepo R} {AA : ApplyAudit L} {RS : RiskSources}
    resolve f i target req dec now s (w : world R L) s' w' e :
  apply_approved resolve f i target req dec now (s, w) = ((s', w'), Raise e) ->
  locks_after f (strip i) s s' (Raise (A := unit) e) /\
  ((st_files s' = st_files s /\ w_repo w' = w_repo w /\ w_used w' = w_used w) \/
   exists a d, pending_at s (strip i) a /\ to_patch_diff a = Ok d /\
     git_apply (w_repo w) (PatchDiff.patch d) = Ok (w_repo w') /\
     w_used w' = artifact_key a :: w_used w /\
     (spent s' (strip i) \/ st_files s' = st_files s) /\
     forall f2 target2 req2 dec2 now2 (w2 : world R L), artifact_key a ∈ w_used w2 ->
       exists e2 s3 w3, apply_approved resolve f2 i target2 req2 dec2 now2 (s', w2) = ((s3, w3), Raise e2) /\
         st_files s3 = st_files s' /\ w_repo w3 = w_repo w2 /\ w_used w3 = w_used w2).
Proof.
  intros Hx. apply apply_approved_inv in Hx as [Hk Hx]. split; [by eapply locks_after_raise|].
  destruct Hx as [(-> & ? & ? & _)|(_ & _ & Hx)]; [by left|right].
  destruct Hx as (a & d & report & Happ & Hs).
  destruct Happ as [[Hst Hp] _ _ _ _ Hd _ _ _ Hg Hu].
  exists a, d. split_and!; try done; [destruct Hs as [[_ ?]|[? _]]; auto|].
  intros f2 target2 req2 dec2 now2 w2 Hin. destruct Hs as [[_ Hs]|[Hf _]].
  { destruct (spent_refuses resolve f2 i target2 req2 dec2 now2 s' w2 Hs)
      as (e2 & s3 & w3 & E & H1 & _ & H3 & H4). by exists e2, s3, w3. }
  destruct (apply_approved resolve f2 i target2 req2 dec2 now2 (s', w2)) as [[s3 w3] r] eqn:E.
  apply apply_approved_inv in E as [_ [(? & ? & ? & e2 & ->)|(_ & _ & b & d' & rep & Happ & _)]].
  - by exists e2, s3, w3.
  - exfalso. destruct Happ as [[Hb _] _ _ _ _ _ _ _ Hf' _ _].
    apply (stored_files s' s) in Hb; [|by rewrite Hf].
    by rewrite (stored_unique _ _ _ _ Hb Hst) in Hf'.
Qed.
End Theorems.

Section Refinement.
Context `{AH : ArtifactHost}.
Context {R L : Type} {G : GitRepo R} {AA : ApplyAudit L} {RS : RiskSources}.
Context (resolve : PurePosixPath.t -> PurePosixPath.t).
#[local] Existing Instance recorded_git.

Lemma sim_call id c (st : artifact_store * world (R * list string) L) q :
  represents id st q -> other_artifact id c ->
  exists q', astep q (event_of resolve id c st) q' /\ represents id (run_call resolve c st) q'.
Proof.
  destruct st as [s w]. intros Hq Ho.
  destruct c as [f d run trace req path report intent ttl i now|f i target req dec now
    |f i target req dec now consumed|f i now|f i| |repo log]; cbn [event_of].
  - cbn [run_call].
    destruct (persist f d run trace req path report intent ttl i now (s, w)) as [[s' w'] r] eqn:E.
    apply persist_frame in E as (-> & Hk & Hf); cbn [fst]; apply (sim_quiet id s _ w w); auto;
      [|by eapply locks_after_mono].
    destruct Hf as [->|(x & ->)]; [done|]. by rewrite lookup_insert_ne.
  - by apply sim_apply.
  - by apply sim_crash.
  - cbn [run_call]. destruct (mark_consumed f i now (s, w)) as [[s' w'] r] eqn:E.
    apply mark_consumed_inv in E as (-> & Hk & [Hf|(Hl & Hs & x & Hf)]); cbn [fst].
    + apply (sim_quiet id s s' w w); auto; [by rewrite Hf|by eapply locks_after_mono].
    + apply (sim_retire id s _ w q (strip i)); try done; [by eapply locks_after_mono|].
      intros j Hj. by rewrite Hf, lookup_insert_ne.
  - cbn [run_call]. destruct (delete_artifact f i (s, w)) as [[s' w'] r] eqn:E.
    apply delete_inv in E as (-> & Hk & [Hf|(Hl & Hf)]); cbn [fst].
    + apply (sim_quiet id s s' w w); auto; [by rewrite Hf|by eapply locks_after_mono].
    + apply (sim_retire id s _ w q (strip i)); try done; [|by eapply locks_after_mono|].
      * left. rewrite Hf. apply lookup_delete_eq.
      * intros j Hj. by rewrite Hf, lookup_delete_ne.
  - cbn [run_call]. apply (sim_forget id s s w); auto.
  - cbn [run_call]. apply (sim_quiet id s s w); auto.
Qed.

Lemma sim_calls id cs (st : artifact_store * world (R * list string) L) q :
  represents id st q -> Forall (other_artifact id) cs ->
  exists q', asteps q (events resolve id cs st) q'.
Proof.
  intros Hq Ho. revert st q Hq. induction Ho as [|c cs Hc Ho IH]; intros st q Hq; cbn [events].
  - exists q. constructor.
  - destruct (sim_call id c st q Hq Hc) as (q1 & H1 & Hq1).
    destruct (IH _ _ Hq1) as (q2 & H2). exists q2. by econstructor.
Qed.
End Refinement.

(** Without a crash no process dies. *)
Lemma events_survive {R L} `{ArtifactHost, GitRepo R, ApplyAudit L, RiskSources} resolve id
    (cs : list (@call R L)) st :
  Forall (fun c => match c with CrashInApply _ _ _ _ _ _ _ | Restart => False | _ => True end) cs ->
  Quiet true ∉ events resolve id cs st.
Proof.
  intros Hc. revert st. induction Hc as [|c cs Hc _ IH]; intros st; cbn [events];
    [apply not_elem_of_nil|]. apply not_elem_of_cons. split; [|apply IH].
  destruct c; try done. cbn [event_of]. by destruct (_ && _).
Qed.

(** *** The specification applies once *)

Lemma spent_quiet q es q' :
  asteps q es q' -> q = Spent \/ q = Stuck -> List.filter is_application es = [].
Proof.
  induction 1 as [|q e q1 es q2 Hs Ha IH]; [done|].
  intros Hq. inversion Hs; subst; try (by destruct Hq); cbn; apply IH; auto; by destruct Hq.
Qed.

Lemma used_quiet q es q' :
  asteps q es q' -> q <> Pending -> (Quiet true ∉ es) -> List.filter is_application es = [].
Proof.
  induction 1 as [|q e q1 es q2 Hs Ha IH]; [done|].
  intros Hq Hn. inversion Hs; subst; try done; cbn; apply IH; try done; try set_solver.
Qed.

Lemma applied_once q es q' :
  asteps q es q' -> Quiet true ∉ es \/ Applied false ∉ es ->
  List.length (List.filter is_application es) <= 1.
Proof.
  induction 1 as [|q e q1 es q2 Hs Ha IH]; [cbn; lia|].
  intros Hn. assert (IH' : List.length (List.filter is_application es) <= 1) by (apply IH; set_solver).
  destruct e as [safely|died]; [|done]. cbn.
  assert (List.filter is_application es = []) as ->; [|cbn; lia].
  inversion Hs; subst.
  - by eapply spent_quiet; [|left].
  - by eapply spent_quiet; [|right].
  - eapply used_quiet; [done|done|]. set_solver.
Qed.

(** *** Theorems on all sequences of calls *)

Section Sequences.
Context `{AH : ArtifactHost}.
Context {R L : Type} {G : GitRepo R} {AA : ApplyAudit L} {RS : RiskSources}.
Context (resolve : PurePosixPath.t -> PurePosixPath.t).
#[local] Existing Instance recorded_git.

(** C7 Refinement: every call on the store other than persisting an
    artifact of the same identifier is to each artifact a step of the
    specification [astep], with the event that the recorded applications of
    patches show: persisting, applying, consuming and deleting, each under any
    failures of its system calls (the lock's creation and its unlinking, the
    reads, the write before and after [os.replace], the removal), a death of
    the process under the lock, a restart, and a change of the repository or the
    log by others. *)
Theorem calls_refine_artifact_status id c (st : artifact_store * world (R * list string) L) q :
  represents id st q -> other_artifact id c ->
  exists q', astep q (event_of resolve id c st) q' /\ represents id (run_call resolve c st) q'.
Proof. apply sim_call. Qed.

(** C6 The patch of an artifact is applied at most once by a sequence of
    calls on the store, each with its own failures of the disk, of deaths under
    the lock, restarts and changes by others, under two conditions: the
    identifier is not persisted again (it is a [uuid4]), and either no process
    dies or restarts in the sequence, whatever raises after an apply, or no
    [apply_approved] raises after it applied the patch, whoever dies.  (The use
    of an approval is remembered by the process and by its log; the log is not
    relied on here.) *)
Theorem artifact_is_applied_at_most_once id cs (st : artifact_store * world (R * list string) L) q :
  represents id st q -> Forall (other_artifact id) cs ->
  Quiet true ∉ events resolve id cs st \/ Applied false ∉ events resolve id cs st ->
  List.length (List.filter is_application (events resolve id cs st)) <= 1.
Proof.
  intros Hq Ho Hn. destruct (sim_calls resolve id cs st q Hq Ho) as (q' & Ha).
  by eapply applied_once.
Qed.
End Sequences.
