(* ===== verification/ArtifactExample.v ===== *)
(** * A patch artifact from end to end

    A concrete host, a patch of a documentation file and a report, persisted,
    applied and consumed: the instances that show that the theorems of
    [ArtifactLifecycle] apply.  The digests stay symbolic; what is needed of
    them is their length, so that the artifact fits the size limit. *)

From S2P Require Export ArtifactLifecycle.

(** ** The size of a JSON text *)

(** Every string of the value has at most [n] characters. *)
Inductive short (n : nat) : json -> Prop :=
  | short_null : short n JNull
  | short_bool b : short n (JBool b)
  | short_int z : String.length (pretty z) <= n -> short n (JInt z)
  | short_str s : String.length s <= n -> short n (JStr s)
  | short_list l : Forall (short n) l -> short n (JList l)
  | short_dict d : Forall (fun kv => String.length (fst kv) <= n /\ short n (snd kv)) d ->
      short n (JDict d).

Fixpoint jnodes (v : json) : nat :=
  match v with
  | JList l => S (list_sum (List.map jnodes l))
  | JDict d => S (list_sum (List.map (fun kv => match kv with (_, x) => S (jnodes x) end) d))
  | _ => 1
  end.

Lemma escape_char_len c : (utf8_len (escape_char c) <= 6)%Z.
Proof. destruct c as [[] [] [] [] [] [] [] []]; vm_compute; discriminate. Qed.

Lemma escape_len s : (utf8_len (escape s) <= 6 * Z.of_nat (String.length s))%Z.
Proof.
  induction s as [|c s IH]; [done|]. cbn [escape]. rewrite utf8_len_app.
  pose proof (escape_char_len c). cbn [String.length]. lia.
Qed.

Lemma dumps_str_len s : (utf8_len (dumps_str s) <= 6 * Z.of_nat (String.length s) + 2)%Z.
Proof.
  unfold dumps_str. change (String quote (escape s +++ String quote ""))
    with (String quote "" +++ (escape s +++ String quote "")). rewrite !utf8_len_app.
  pose proof (escape_len s). change (utf8_len (String quote "")) with 1%Z. lia.
Qed.

Lemma utf8_len_double s : (utf8_len s <= 2 * Z.of_nat (String.length s))%Z.
Proof.
  induction s as [|c s IH]; [done|]. cbn [utf8_len String.length].
  destruct (code c <? 128)%N; lia.
Qed.

Lemma join_len sep l :
  (utf8_len (str_join sep l) <=
   foldr (fun s acc => utf8_len s + utf8_len sep + acc) 0 l)%Z.
Proof.
  pose proof (utf8_len_nonneg sep) as Hs.
  induction l as [|x [|y l] IH]; cbn [str_join foldr]; [done|lia|].
  rewrite !utf8_len_app. cbn [str_join foldr] in IH. lia.
Qed.

(** A text of [jnodes v] strings of at most [n] characters. *)
Lemma dumps_len n v : short n v ->
  (utf8_len (dumps true v) + 1 <= (6 * Z.of_nat n + 10) * Z.of_nat (jnodes v))%Z.
Proof.
  set (K := (6 * Z.of_nat n + 10)%Z).
  induction v as [| | | | |l IH|d IH] using json_nested_ind; intros Hs; inversion Hs; subst;
    cbn [dumps jnodes].
  - change (utf8_len "null") with 4%Z. lia.
  - destruct b; [change (utf8_len "true") with 4%Z|change (utf8_len "false") with 5%Z]; lia.
  - pose proof (utf8_len_double (pretty z)). lia.
  - pose proof (dumps_str_len s). lia.
  - rewrite !utf8_len_app. pose proof (join_len (item_sep true) (List.map (dumps true) l)) as Hj.
    change (utf8_len "[") with 1%Z. change (utf8_len "]") with 1%Z.
    assert (Hb : (foldr (fun s acc => utf8_len s + utf8_len (item_sep true) + acc) 0
      (List.map (dumps true) l) <= K * Z.of_nat (list_sum (List.map jnodes l)))%Z).
    { change (utf8_len (item_sep true)) with 1%Z. clear -IH H0.
      induction IH as [|x l Hx Hl IHl]; [cbn; lia|]. apply Forall_cons_1 in H0 as [H1 H2].
      specialize (Hx H1). specialize (IHl H2). cbn [List.map foldr]. rewrite list_sum_cons. lia. }
    lia.
  - rewrite !utf8_len_app.
    match goal with |- context [str_join ?sep ?l] => pose proof (join_len sep l) as Hj end.
    change (utf8_len "{") with 1%Z. change (utf8_len "}") with 1%Z.
    assert (Hb : (foldr (fun s acc => utf8_len s + utf8_len (item_sep true) + acc) 0
      (List.map (fun kv => match kv with (k, x) => dumps_str k +++ key_sep true +++ dumps true x end) d)
      <= K * Z.of_nat (list_sum (List.map (fun kv => match kv with (_, x) => S (jnodes x) end) d)))%Z).
    { change (utf8_len (item_sep true)) with 1%Z. clear -IH H0.
      induction IH as [|[k x] l Hx Hl IHl]; [cbn; lia|]. apply Forall_cons_1 in H0 as [[Hk H1] H2].
      specialize (Hx H1). specialize (IHl H2). cbn [List.map foldr snd fst] in *.
      rewrite list_sum_cons, !utf8_len_app. change (utf8_len (key_sep true)) with 1%Z.
      pose proof (dumps_str_len k). lia. }
    lia.
Qed.

Lemma compress_length st b : List.length (compress st b) <= List.length st.
Proof. unfold compress. rewrite length_map, length_combine. lia. Qed.

Lemma blocks_length fuel st ws : List.length (blocks fuel st ws) <= List.length st.
Proof.
  revert st ws. induction fuel as [|n IH]; intros st ws; cbn [blocks]; [done|].
  destruct ws; [done|]. etransitivity; [apply IH|apply compress_length].
Qed.

Lemma digest_length bytes : String.length (sha256_of_bytes bytes) <= 64.
Proof.
  unfold sha256_of_bytes. rewrite hex_length. unfold sha256_bytes.
  pose proof (blocks_length (List.length (words (pad bytes))) initial_hash (words (pad bytes))) as H.
  change (List.length initial_hash) with 8 in H.
  assert (He : forall l, List.length (flat_map (be_bytes 4) l) = 4 * List.length l)
    by (induction l as [|x l IH]; [done|]; cbn [flat_map]; rewrite length_app, IH; cbn; lia).
  rewrite He. lia.
Qed.

Lemma hex_digest_short s : String.length (sha256_hex s) <= 64.
Proof. apply digest_length. Qed.

(** ** The host *)

Fixpoint two_byte_text (bytes : list Z) : string :=
  match bytes with
  | [] => ""
  | b :: rest =>
      if (b <? 128)%Z then String (ascii_of_N (Z.to_N b)) (two_byte_text rest)
      else match rest with
           | c :: rest' =>
               String (ascii_of_N (Z.to_N ((b - 192) * 64 + (c - 128)))) (two_byte_text rest')
           | [] => ""
           end
  end.

#[global] Instance example_host : ArtifactHost := {|
  resolve_path := fun p => p;
  is_directory := fun _ => true;
  iso_parse := decimal_time;
  iso_format := fun t => pretty t;
  float_value := example_float;
  float_cast := float_of_pyval;
  decode_text := two_byte_text;
|}.

#[global] Instance example_host_laws : HostLaws.
Proof.
  constructor.
  - done.
  - intros t. cbn. unfold decimal_time. by destruct (pretty_Z_shape t) as (_ & _ & -> & _).
  - intros s. cbn [decode_text example_host]. induction s as [|c s IH]; [done|].
    cbn [utf8_bytes]. assert (Hc : (Z.of_N (code c) < 256)%Z)
      by (unfold code; pose proof (N_ascii_bounded c); lia).
    assert (Hb : ascii_of_N (Z.to_N (Z.of_N (code c))) = c)
      by (unfold code; rewrite N2Z.id; apply ascii_N_embedding).
    destruct (Z.ltb_spec (Z.of_N (code c)) 128) as [Hlt|Hge]; cbn [two_byte_text].
    + rewrite (proj2 (Z.ltb_lt _ _)) by done. by rewrite Hb, IH.
    + rewrite (proj2 (Z.ltb_ge _ _)) by (Z.div_mod_to_equations; lia). rewrite IH. f_equal.
      rewrite <- Hb at 3. do 2 f_equal. Z.div_mod_to_equations; lia.
Qed.

(** ** The report of the patch *)

Definition example_classification (sha : string) : ChangeRiskReport.t :=
  match @report_or_classify example_sources (declared_patch sha) None with
  | Ok r => r
  | Raise _ => ChangeRiskReport.mk "" "" [] []
  end.

Lemma example_classified sha :
  @report_or_classify example_sources (declared_patch sha) None = Ok (example_classification sha) /\
  canon_report (example_classification sha) = example_classification sha /\
  GuardedChangeGateDecision.blocked (gate_of_report (example_classification sha)) = false.
Proof. split_and!; vm_compute; reflexivity. Qed.

Lemma example_plain sha : plain_report float_cast (example_classification sha).
Proof.
  assert (E : exists f, example_classification sha = ChangeRiskReport.mk "abc" sha [f] [] /\
    plain_file float_cast f).
  { eexists. split; [vm_compute; reflexivity|]. split; [repeat constructor; concrete_keys|].
    intros s [= <-]. split; [done|]. by intros f [=]. }
  destruct E as (f & -> & Hf). split; cbn; [constructor|by apply Forall_singleton].
Qed.

Lemma example_summary_wf sha :
  py_wf float_value (of_dict (ChangeRiskReport.audit_summary (example_classification sha))).
Proof.
  match goal with |- py_wf _ ?v => let x := eval vm_compute in v in change (py_wf float_value x) end.
  repeat first [constructor|reflexivity].
Qed.

(** ** Persisting it *)

(** The patch with its digest [sha]. *)
Definition example_artifact (sha : string) : PatchArtifact.t :=
  new_artifact (declared_patch sha) "run_1" "trace_9" (explicit_request sha) "/srv/repo"
    (example_classification sha) [] 3600 "art_1" 2500000.

(** The same fields with other digests and another state. *)
Definition example_fields (sha repo digest state : string) (consumed : option string)
    : PatchArtifact.t :=
  PatchArtifact.mk PATCH_ARTIFACT_SCHEMA_VERSION "art_1" "run_1" "trace_9" "apr_9" "/srv/repo" repo
    "abc" "/w" (b64encode (utf8_bytes guide_text)) sha (utf8_len guide_text)
    (List.map file_payload [docs_file]) []
    (encode_dict (ChangeRiskReport.audit_summary (example_classification sha))) (encode_dict [])
    (pretty 2500000%Z) (pretty (2500000 + 3600 * 1000000)%Z) state consumed digest.

Lemma example_artifact_eq sha : example_artifact sha =
  example_fields sha (_repo_identity "/srv/repo")
    (PatchArtifact.artifact_digest (example_artifact sha)) PATCH_ARTIFACT_STATE_PENDING None.
Proof.
  unfold example_artifact, new_artifact, _with_integrity_digest.
  cbn [PatchArtifact.with_digest PatchArtifact.artifact_digest].
  generalize (_artifact_digest (PatchArtifact.to_payload (PatchArtifact.mk
    PATCH_ARTIFACT_SCHEMA_VERSION "art_1" "run_1" "trace_9"
    (ApprovalRequest.approval_id (explicit_request sha)) "/srv/repo" (_repo_identity "/srv/repo")
    (PatchDiff.baseline_commit_sha (declared_patch sha)) (PatchDiff.workspace_path (declared_patch sha))
    (b64encode (utf8_bytes (PatchDiff.patch (declared_patch sha))))
    (PatchDiff.patch_sha256 (declared_patch sha)) (PatchDiff.patch_size_bytes (declared_patch sha))
    (List.map file_payload (PatchDiff.files (declared_patch sha)))
    (List.map ignored_payload (PatchDiff.ignored_files (declared_patch sha)))
    (encode_dict (ChangeRiskReport.audit_summary (example_classification sha))) (encode_dict [])
    (iso_format 2500000%Z) (iso_format (2500000 + 3600 * 1000000)%Z)
    PATCH_ARTIFACT_STATE_PENDING None "") false)).
  intros digest. reflexivity.
Qed.

Definition fits (a : PatchArtifact.t) : Prop :=
  (utf8_len (canonical_json (JDict (PatchArtifact.to_payload a true))) <= MAX_PATCH_ARTIFACT_BYTES)%Z.

Ltac short :=
  repeat lazymatch goal with
  | |- short _ _ => constructor
  | |- Forall _ _ => constructor
  | |- _ /\ _ => split
  | |- _ <= _ => cbn [fst snd]; first [by apply Nat.leb_le; vm_compute|lia]
  end.

(** Whatever the digests are, the text is short. *)
Lemma example_fits sha repo digest state consumed :
  String.length sha <= 64 -> String.length repo <= 64 -> String.length digest <= 64 ->
  String.length state <= 64 -> match consumed with Some t => String.length t <= 64 | None => True end ->
  fits (example_fields sha repo digest state consumed).
Proof.
  intros H1 H2 H3 H4 H5.
  assert (Hs : exists v, sort_json (JDict (PatchArtifact.to_payload
    (example_fields sha repo digest state consumed) true)) = v /\ short 1000 v /\ jnodes v <= 200).
  { destruct consumed as [t|];
      (eexists; split; [vm_compute; reflexivity|]; split; [|by apply Nat.leb_le; vm_compute]);
      short. }
  destruct Hs as (v & Hv & Hs & Hn). unfold fits, canonical_json. rewrite Hv.
  pose proof (dumps_len 1000 v Hs). unfold MAX_PATCH_ARTIFACT_BYTES. nia.
Qed.

Lemma example_ids : identifier "art_1" /\ identifier "run_1" /\ identifier "trace_9" /\ identifier "apr_9".
Proof. split_and!; vm_compute; reflexivity || done. Qed.

Definition example_digest : string := sha256_of_bytes (utf8_bytes guide_text).

Lemma example_digest_eq : sha256_of_bytes (utf8_bytes guide_text) = example_digest.
Proof. unfold example_digest. reflexivity. Qed.

#[global] Opaque example_digest.

Section Example.
Context (sha : string) (Hsha : sha256_of_bytes (utf8_bytes guide_text) = sha).

Notation ewalk := (world (toy_repo * list string) (list (string * pydict))).

Lemma sha_short : String.length sha <= 64.
Proof using Hsha. rewrite <- Hsha. apply digest_length. Qed.

Lemma artifact_digest_short a : String.length (PatchArtifact.artifact_digest (_with_integrity_digest a)) <= 64.
Proof. apply hex_digest_short. Qed.

Lemma guide_length : Z.of_nat (List.length (utf8_bytes guide_text)) = utf8_len guide_text.
Proof. vm_compute. reflexivity. Qed.

Lemma example_prepare :
  prepare (declared_patch sha) "run_1" "trace_9" (explicit_request sha) "/srv/repo"
    (example_classification sha) [] 3600 "art_1" 2500000 = Ok (example_artifact sha).
Proof using Hsha.
  unfold prepare, target_is, meta_is, dict_get.
  cbn [ensure Z.leb Z.compare negb mbind result_bind is_directory example_host resolve_path
    declared_patch PatchDiff.patch_sha256 PatchDiff.patch PatchDiff.baseline_commit_sha
    PatchDiff.patch_size_bytes explicit_request ApprovalRequest.target ApprovalRequest.metadata].
  rewrite Hsha, guide_length, !py_eq_refl, String.eqb_refl, Z.eqb_refl.
  destruct example_ids as (_ & Hr & Ht & _). rewrite !require_identifier_Ok by done. reflexivity.
Qed.

Lemma example_ok : artifact_ok (example_artifact sha).
Proof using Hsha.
  destruct example_ids as (H1 & H2 & H3 & H4). by apply new_artifact_ok; try apply guide_length.
Qed.

Lemma example_wf : wf_json (JDict (PatchArtifact.to_payload (example_artifact sha) true)).
Proof.
  apply new_payload_wf; [apply example_summary_wf|]. repeat constructor.
Qed.

Lemma example_text_fits : fits (example_artifact sha).
Proof using Hsha.
  rewrite example_artifact_eq. apply example_fits; try exact I.
  - apply sha_short.
  - apply (hex_digest_short "/srv/repo").
  - apply artifact_digest_short.
  - by apply Nat.leb_le.
Qed.

Definition empty_store : artifact_store := mk_artifact_store ∅ ∅.

Definition example_store : artifact_store :=
  put_file empty_store "art_1" (RegularText (canonical_json
    (JDict (PatchArtifact.to_payload (example_artifact sha) true)))).

Lemma example_persisted {W} (w : W) :
  stored_artifact example_store "art_1" (canon_artifact (example_artifact sha)) /\
  persist no_faults (declared_patch sha) "run_1" "trace_9" (explicit_request sha) "/srv/repo"
    (example_classification sha) [] 3600 "art_1" 2500000 (empty_store, w)
  = ((example_store, w), Ok (canon_artifact (example_artifact sha))).
Proof using Hsha.
  destruct example_ids as (H1 & _).
  apply persist_succeeds; [reflexivity|apply example_prepare|exact H1|apply example_ok|reflexivity
    |apply example_wf|apply example_text_fits|reflexivity|apply not_elem_of_empty].
Qed.

Lemma example_pending : pending_at example_store "art_1" (canon_artifact (example_artifact sha)).
Proof using Hsha. split; [apply (example_persisted tt)|reflexivity]. Qed.

(** *** Applying it *)

(** A log of requests, which may be full. *)
Definition example_audit (full : bool) : ApplyAudit (list (string * pydict)) := {|
  write_audit := fun l r p m => if full then (l, Raise "No space left on device"%string)
                                else @write_audit _ toy_audit l r p m;
  policy_events := @policy_events _ toy_audit;
|}.

Context (full : bool).
#[local] Instance example_git : GitRepo (toy_repo * list string) :=
  recording (toy_git (declared_patch sha) false).
#[local] Instance example_log : ApplyAudit (list (string * pydict)) := example_audit full.
#[local] Existing Instance example_sources.

(** A clean repository, an empty log, no approval used. *)
Definition example_world : ewalk := mk_world ([], []) (Some []) [].

Lemma example_to_diff : to_patch_diff (canon_artifact (example_artifact sha)) = Ok (declared_patch sha).
Proof using Hsha. apply new_artifact_patch; [done|apply guide_length]. Qed.

Lemma example_to_report :
  to_risk_report (canon_artifact (example_artifact sha)) = Ok (example_classification sha).
Proof.
  rewrite <- (proj1 (proj2 (example_classified sha))).
  apply new_artifact_report; [apply example_summary_wf|apply example_plain].
Qed.

Lemma example_approval :
  exists d, approve_patch_request (explicit_request sha) "bob" "reviewed" None "2000000" = Ok d.
Proof. apply approve_Ok; [vm_compute; reflexivity|reflexivity]. Qed.

Lemma example_preconditions d :
  approve_patch_request (explicit_request sha) "bob" "reviewed" None "2000000" = Ok d ->
  apply_preconditions lexical_resolve decimal_time 3000000 (declared_patch sha) "/srv/repo"
    (explicit_request sha) d (Some (example_classification sha)) example_world
  = (example_world, Ok (example_classification sha)).
Proof.
  intros Ha.
  assert (Hg : assert_patch_approval_granted decimal_time (explicit_request sha) d
    (declared_patch sha) 3000000 DEFAULT_PATCH_APPROVAL_TTL_SECONDS = Ok ()).
  { eapply (approved_is_granted decimal_time _ _ _ _ _ _ _ _ 1000000 2000000 Ha);
      first [reflexivity|lia]. }
  unfold apply_preconditions.
  rewrite (a_bind_step _ _ _ example_world tt) by reflexivity.
  rewrite (a_bind_step _ _ _ example_world tt).
  2: { unfold ensure_paths, ensure_patch_paths_safe, ensure_safe.
       assert (PatchPathSafetyReport.safe (validate_patch_paths lexical_resolve
         (declared_patch sha) "/srv/repo") = true) as -> by (vm_compute; reflexivity).
       reflexivity. }
  rewrite (a_bind_step _ _ _ example_world (example_classification sha)) by reflexivity.
  cbn zeta. rewrite (a_bind_step _ _ _ example_world tt)
    by (unfold a_when; by rewrite (proj2 (proj2 (example_classified sha)))).
  rewrite (a_bind_step _ _ _ example_world tt) by (unfold a_when; by rewrite andb_false_r).
  rewrite (a_bind_step _ _ _ example_world tt) by (unfold a_lift; by rewrite Hg).
  rewrite !(a_bind_step _ _ _ example_world tt) by reflexivity. reflexivity.
Qed.

Lemma example_patch_applied d :
  approve_patch_request (explicit_request sha) "bob" "reviewed" None "2000000" = Ok d ->
  exists w' r,
    apply_approved_patch lexical_resolve decimal_time 3000000 (declared_patch sha) "/srv/repo"
      (explicit_request sha) d (Some (example_classification sha)) example_world = (w', r) /\
    w_repo w' = ([guide_text], [guide_text]) /\ w_used w' = [("apr_9", sha, "abc")]%string /\
    is_ok r = negb full.
Proof.
  intros Ha. unfold apply_approved_patch. rewrite (a_bind_step _ _ _ _ _ (example_preconditions d Ha)).
  unfold example_log. destruct full; eexists _, _; (split; [reflexivity|]; split_and!; reflexivity).
Qed.

Lemma example_inputs :
  apply_inputs (canon_artifact (example_artifact sha)) "/srv/repo" (explicit_request sha)
  = Ok (declared_patch sha, example_classification sha).
Proof using Hsha.
  unfold apply_inputs. rewrite example_to_diff, example_to_report.
  change (PatchArtifact.approval_request_id (canon_artifact (example_artifact sha))) with "apr_9".
  change (PatchArtifact.trusted_repo_identity_sha256 (canon_artifact (example_artifact sha)))
    with (_repo_identity (resolve_path "/srv/repo")).
  change (ApprovalRequest.approval_id (explicit_request sha)) with "apr_9".
  rewrite !String.eqb_refl. reflexivity.
Qed.

Lemma consumed_canon a t digest :
  PatchArtifact.with_digest (PatchArtifact.consumed (canon_artifact a) t) digest
  = canon_artifact (PatchArtifact.with_digest (PatchArtifact.consumed a t) digest).
Proof. reflexivity. Qed.

Lemma consumed_fields repo d state c t digest :
  PatchArtifact.with_digest (PatchArtifact.consumed (example_fields sha repo d state c) t) digest
  = example_fields sha repo digest PATCH_ARTIFACT_STATE_CONSUMED (Some t).
Proof. by unfold example_fields, PatchArtifact.consumed, PatchArtifact.with_digest. Qed.

Lemma example_consumed_fits : (utf8_len (consumed_text (canon_artifact (example_artifact sha)) 3000000)
  <= MAX_PATCH_ARTIFACT_BYTES)%Z.
Proof using Hsha.
  set (c := _with_integrity_digest (PatchArtifact.consumed (canon_artifact (example_artifact sha))
    (pretty 3000000%Z))).
  assert (H : forall digest, PatchArtifact.with_digest (PatchArtifact.consumed
    (canon_artifact (example_artifact sha)) (pretty 3000000%Z)) digest
    = canon_artifact (example_fields sha (_repo_identity "/srv/repo") digest
        PATCH_ARTIFACT_STATE_CONSUMED (Some (pretty 3000000%Z))))
    by (intros digest; by rewrite example_artifact_eq, consumed_canon, consumed_fields).
  assert (E : exists digest, String.length digest <= 64 /\ c = canon_artifact
    (example_fields sha (_repo_identity "/srv/repo") digest PATCH_ARTIFACT_STATE_CONSUMED
       (Some (pretty 3000000%Z)))).
  { eexists. split; cycle 1.
    - unfold c, _with_integrity_digest. rewrite H. reflexivity.
    - apply hex_digest_short. }
  destruct E as (digest & Hd & E).
  unfold consumed_text, canonical_json. change (_with_integrity_digest _) with c.
  rewrite E, canon_payload. apply example_fits.
  - apply sha_short.
  - apply (hex_digest_short "/srv/repo").
  - exact Hd.
  - by apply Nat.leb_le.
  - by apply Nat.leb_le; vm_compute.
Qed.

Lemma example_apply d :
  approve_patch_request (explicit_request sha) "bob" "reviewed" None "2000000" = Ok d ->
  exists s' w' r,
    apply_approved lexical_resolve no_faults "art_1" "/srv/repo" (explicit_request sha) d 3000000
      (example_store, example_world) = ((s', w'), r) /\
    w_repo w' = ([guide_text], [guide_text]) /\ is_ok r = negb full.
Proof using Hsha.
  intros Ha. destruct (example_patch_applied d Ha) as (w' & r & Hap & Hr & _ & Hok).
  assert (Hl : "art_1" ∉ st_locks example_store) by apply not_elem_of_empty.
  assert (Hx : expired (canon_artifact (example_artifact sha)) 3000000 = Ok false)
    by (vm_compute; reflexivity).
  pose proof (apply_approved_runs _ _ _ _ _ _ _ _ _ _ _ _ _ (proj1 example_ids) Hl
    (proj1 example_pending) (proj2 example_pending) Hx example_inputs example_consumed_fits Hap) as E.
  destruct r as [res|text].
  - exists (put_file example_store "art_1"
      (RegularText (consumed_text (canon_artifact (example_artifact sha)) 3000000))), w', (Ok res).
    split; [exact E|]. split; [exact Hr|exact Hok].
  - exists example_store, w', (Raise (apply_error text)).
    split; [exact E|]. split; [exact Hr|exact Hok].
Qed.

Lemma example_represents : represents "art_1" (example_store, example_world) Pending.
Proof using Hsha.
  exists (canon_artifact (example_artifact sha)). split; [apply example_pending|apply not_elem_of_nil].
Qed.
End Example.

(** ** The theorems at this example *)

Section Witnesses.
Notation sha := example_digest.
#[local] Instance witness_git : GitRepo (toy_repo * list string) := example_git sha.
#[local] Instance witness_log : ApplyAudit (list (string * pydict)) := example_log false.
#[local] Existing Instance example_sources.

(** The directory cannot be flushed after the text was replaced. *)
Definition flush_fails : disk_faults :=
  mk_disk_faults None None (Some (After "fsync failed")) None None None.

Lemma persisted_artifact_witness :
  exists a, to_patch_diff a = Ok (declared_patch sha) /\
    load (example_store sha) "art_1" false false 3602500000 = Ok a /\
    load (example_store sha) "art_1" false false 3602500001
      = Raise (artifact_expired "Patch artifact has expired: art_1").
Proof.
  destruct (persisted_artifact_is_the_patch no_faults (declared_patch sha) "run_1" "trace_9"
    (explicit_request sha) "/srv/repo" (example_classification sha) [] 3600
    "art_1" 2500000 empty_store tt (example_store sha) tt
    (canon_artifact (example_artifact sha))
    (proj1 example_ids) (example_plain sha) (example_summary_wf sha)
    ltac:(repeat constructor) (proj2 (example_persisted sha example_digest_eq tt)))
    as (_ & Hd & _ & _ & _ & Hl & He).
  eexists. split; [exact Hd|]. split; [apply Hl; lia|apply He; lia].
Defined.

Lemma applied_artifact_witness :
  exists d s' w' res,
    apply_approved lexical_resolve no_faults "art_1" "/srv/repo" (explicit_request sha) d 3000000
      (example_store sha, example_world) = ((s', w'), Ok res) /\
    w_repo w' = ([guide_text], [guide_text]) /\
    exists e w3, apply_approved lexical_resolve no_faults "art_1" "/srv/repo" (explicit_request sha) d
      3000000 (s', example_world) = ((s', w3), Raise e).
Proof.
  destruct (example_approval sha) as (d & Ha).
  destruct (example_apply sha example_digest_eq false d Ha) as (s' & w' & [res|e] & E & Hr & Hok);
    [|discriminate Hok].
  exists d, s', w', res. split; [exact E|]. split; [exact Hr|].
  destruct (applied_artifact_was_approved lexical_resolve no_faults "art_1" "/srv/repo" (explicit_request sha) d
    3000000 (example_store sha) example_world s' w' res E) as (_ & _ & _ & H).
  destruct (H no_faults "/srv/repo"%string (explicit_request sha) d 3000000%Z example_world)
    as (e & s3 & w3 & E3 & _ & Hs3 & _).
  exists e, w3. rewrite (Hs3 eq_refl) in E3. exact E3.
Defined.

(** The audit log is full when the patch has been applied. *)
Lemma failed_artifact_apply_witness :
  exists d s' w' e,
    @apply_approved _ _ _ _ (example_log true) _ lexical_resolve no_faults "art_1" "/srv/repo"
      (explicit_request sha) d 3000000 (example_store sha, example_world) = ((s', w'), Raise e) /\
    w_repo w' = ([guide_text], [guide_text]) /\
    locks_after no_faults "art_1" (example_store sha) s' (Raise (A := unit) e).
Proof.
  destruct (example_approval sha) as (d & Ha).
  destruct (example_apply sha example_digest_eq true d Ha) as (s' & w' & [res|e] & E & Hr & Hok);
    [discriminate Hok|].
  exists d, s', w', e. split; [exact E|]. split; [exact Hr|].
  exact (proj1 (@failed_artifact_apply _ _ _ _ (example_log true) _ lexical_resolve no_faults "art_1" "/srv/repo"
    (explicit_request sha) d 3000000 (example_store sha) example_world s' w' e E)).
Defined.

Lemma refinement_witness :
  exists d q', astep Pending
      (@event_of _ _ _ (toy_git (declared_patch sha) false) _ _ lexical_resolve "art_1"
        (Apply flush_fails "art_1" "/srv/repo" (explicit_request sha) d 3000000)
        (example_store sha, example_world)) q'.
Proof.
  destruct (example_approval sha) as (d & Ha). exists d.
  destruct (@calls_refine_artifact_status _ _ _ (toy_git (declared_patch sha) false) _ _ lexical_resolve
    "art_1" (Apply flush_fails "art_1" "/srv/repo" (explicit_request sha) d 3000000)
    (example_store sha, example_world) Pending (example_represents sha example_digest_eq) I)
    as (q' & H & _).
  exists q'. exact H.
Defined.

Lemma applied_at_most_once_witness :
  exists d, approve_patch_request (explicit_request sha) "bob" "reviewed" None "2000000" = Ok d /\
    let a := Apply flush_fails "art_1" "/srv/repo" (explicit_request sha) d 3000000 in
    List.length (List.filter is_application
      (@events _ _ _ (toy_git (declared_patch sha) false) _ _ lexical_resolve "art_1"
         [a; a; MarkConsumed no_faults "art_1" 3000000; a; Delete no_faults "art_1"; a]
         (example_store sha, example_world))) <= 1.
Proof.
  destruct (example_approval sha) as (d & Ha). exists d. split; [exact Ha|].
  apply (@artifact_is_applied_at_most_once _ _ _ (toy_git (declared_patch sha) false) _ _
    lexical_resolve "art_1" _ (example_store sha, example_world) Pending
    (example_represents sha example_digest_eq)).
  - repeat constructor.
  - left. apply events_survive. repeat constructor.
Defined.
End Witnesses.
