(* ===== verification/IntentContract.v ===== *)
(** * intent_contract.py: the data of intent governance

    The enumerations and the pydantic models, each model a record with the
    function that builds it: the length limits on the value as given, then the
    field validators, which strip, then the model validator.  A rejected value
    is a [ValidationError], which is a [ValueError]. *)

From S2P Require Export PyValue RepoPath.

(** ** Enumerations *)

Module IntentEnforcementMode.
Inductive t := DISABLED | SHADOW | ENFORCE.
Definition value (m : t) : string :=
  match m with DISABLED => "disabled" | SHADOW => "shadow" | ENFORCE => "enforce" end.
#[global] Instance IntentEnforcementMode_eq_dec : EqDecision t.
Proof. solve_decision. Defined.
End IntentEnforcementMode.

Module IntentContractSource.
Inductive t := YAML | CLI | JSON | PROMPT_DRAFT | JIT_EXPANSION.
Definition value (s : t) : string :=
  match s with
  | YAML => "yaml" | CLI => "cli" | JSON => "json" | PROMPT_DRAFT => "prompt_draft"
  | JIT_EXPANSION => "jit_expansion"
  end.
#[global] Instance IntentContractSource_eq_dec : EqDecision t.
Proof. solve_decision. Defined.
End IntentContractSource.

Module IntentOperation.
Inductive t :=
  | READ | CREATE | MODIFY | DELETE_FILE | DELETE_FOLDER | RENAME | MOVE | COMMAND
  | DEPENDENCY_CHANGE | CONFIG_CHANGE | TEST | BUILD | UNKNOWN.
Definition value (o : t) : string :=
  match o with
  | READ => "read" | CREATE => "create" | MODIFY => "modify" | DELETE_FILE => "delete_file"
  | DELETE_FOLDER => "delete_folder" | RENAME => "rename" | MOVE => "move" | COMMAND => "command"
  | DEPENDENCY_CHANGE => "dependency_change" | CONFIG_CHANGE => "config_change" | TEST => "test"
  | BUILD => "build" | UNKNOWN => "unknown"
  end.
#[global] Instance IntentOperation_eq_dec : EqDecision t.
Proof. solve_decision. Defined.
End IntentOperation.

Module ResourceScopeType.
Inductive t := EXACT_PATH | PATH_GLOB | FILE_TYPE | RESOURCE_KIND | SYMBOL.
Definition value (t : t) : string :=
  match t with
  | EXACT_PATH => "exact_path" | PATH_GLOB => "path_glob" | FILE_TYPE => "file_type"
  | RESOURCE_KIND => "resource_kind" | SYMBOL => "symbol"
  end.
#[global] Instance ResourceScopeType_eq_dec : EqDecision t.
Proof. solve_decision. Defined.
End ResourceScopeType.

Module ResourceKind.
Inductive t :=
  | FILE | DIRECTORY | PYTHON_MODULE | PYTHON_SYMBOL | RUST_MODULE | RUST_SYMBOL | CONFIG
  | DEPENDENCY_MANIFEST | LOCKFILE | CI_WORKFLOW | SENSITIVE | TEST | GENERATED
  | DATABASE_MIGRATION | POLICY | DOCUMENTATION | UNKNOWN.
Definition value (k : t) : string :=
  match k with
  | FILE => "file" | DIRECTORY => "directory" | PYTHON_MODULE => "python_module"
  | PYTHON_SYMBOL => "python_symbol" | RUST_MODULE => "rust_module" | RUST_SYMBOL => "rust_symbol"
  | CONFIG => "config" | DEPENDENCY_MANIFEST => "dependency_manifest" | LOCKFILE => "lockfile"
  | CI_WORKFLOW => "ci_workflow" | SENSITIVE => "sensitive" | TEST => "test"
  | GENERATED => "generated" | DATABASE_MIGRATION => "database_migration" | POLICY => "policy"
  | DOCUMENTATION => "documentation" | UNKNOWN => "unknown"
  end.
Definition all : list t :=
  [FILE; DIRECTORY; PYTHON_MODULE; PYTHON_SYMBOL; RUST_MODULE; RUST_SYMBOL; CONFIG;
   DEPENDENCY_MANIFEST; LOCKFILE; CI_WORKFLOW; SENSITIVE; TEST; GENERATED; DATABASE_MIGRATION;
   POLICY; DOCUMENTATION; UNKNOWN].
(** [ResourceKind(text)]; [None] is a [ValueError]. *)
Definition of_value (text : string) : option t :=
  List.find (fun k => String.eqb (value k) text) all.
#[global] Instance ResourceKind_eq_dec : EqDecision t.
Proof. solve_decision. Defined.
End ResourceKind.

Module NormalizedActionSource.
Inductive t := TOOL_CALL | PATCH | DIFF | COMMAND | FILESYSTEM | RUST_KERNEL | UNKNOWN.
Definition value (s : t) : string :=
  match s with
  | TOOL_CALL => "tool_call" | PATCH => "patch" | DIFF => "diff" | COMMAND => "command"
  | FILESYSTEM => "filesystem" | RUST_KERNEL => "rust_kernel" | UNKNOWN => "unknown"
  end.
End NormalizedActionSource.

Module IntentMatchState.
Inductive t := EXACT_MATCH | PARTIAL_MATCH | DRIFT | CONFLICT | UNKNOWN | HARD_SENSITIVE.
Definition value (s : t) : string :=
  match s with
  | EXACT_MATCH => "exact_match" | PARTIAL_MATCH => "partial_match" | DRIFT => "drift"
  | CONFLICT => "conflict" | UNKNOWN => "unknown" | HARD_SENSITIVE => "hard_sensitive"
  end.
#[global] Instance IntentMatchState_eq_dec : EqDecision t.
Proof. solve_decision. Defined.
End IntentMatchState.

Module IntentDecisionHint.
Inductive t := NONE | ALLOW | AUDIT | REQUIRE_APPROVAL | BLOCK.
Definition value (h : t) : string :=
  match h with
  | NONE => "none" | ALLOW => "allow" | AUDIT => "audit"
  | REQUIRE_APPROVAL => "require_approval" | BLOCK => "block"
  end.
#[global] Instance IntentDecisionHint_eq_dec : EqDecision t.
Proof. solve_decision. Defined.
End IntentDecisionHint.

(** ** Validation *)

Definition validation_error (text : string) : exn := mk_exn ValueError "ValidationError" text.

(** [Field(min_length=lo, max_length=hi)] on a string. *)
Definition check_length (lo : Z) (hi : option Z) (s : string) : result exn unit :=
  let n := Z.of_nat (String.length s) in
  ensure ((lo <=? n)%Z && match hi with Some h => (n <=? h)%Z | None => true end)
    (validation_error "string length").

(** A field validator that strips and rejects blank text. *)
Definition strip_nonblank (message s : string) : result exn string :=
  let normalized := strip s in
  if truthy normalized then Ok normalized else Raise (validation_error message).

(** A string field: the limits, then the validator. *)
Definition text_field (lo : Z) (hi : option Z) (message s : string) : result exn string :=
  _ ← check_length lo hi s; strip_nonblank message s.

Definition optional_field (lo : Z) (hi : option Z) (message : string) (o : option string)
    : result exn (option string) :=
  match o with
  | None => Ok None
  | Some s => t ← text_field lo hi message s; Ok (Some t)
  end.

(** A tuple of strings, stripped, none blank. *)
Definition tuple_field (message : string) (values : list string) : result exn (list string) :=
  let normalized_values := List.map strip values in
  if existsb (fun v => negb (truthy v)) normalized_values then Raise (validation_error message)
  else Ok normalized_values.

(** ** Models *)

Module ResourceScope.
Record t := mk {
  type : ResourceScopeType.t;
  value : string;
  resource_kind : option ResourceKind.t;
  metadata : pydict;
}.
End ResourceScope.

Definition make_scope (s : ResourceScope.t) : result exn ResourceScope.t :=
  value ← text_field 1 (Some 4096)%Z "Resource scope value must not be blank." (ResourceScope.value s);
  Ok (ResourceScope.mk (ResourceScope.type s) value (ResourceScope.resource_kind s)
        (ResourceScope.metadata s)).

Module IntentContract.
Record t := mk {
  contract_id : string;
  session_id : string;
  source : IntentContractSource.t;
  task_objective : string;
  human_prompt : option string;
  ai_plan : option string;
  evidence_source : option string;
  evidence_metadata : pydict;
  allowed_actions : list IntentOperation.t;
  target_scopes : list ResourceScope.t;
  excluded_scopes : list ResourceScope.t;
  risk_ceiling : Z;
  expires_at : option string;
  enforcement_mode : IntentEnforcementMode.t;
  approved_by : option string;
  metadata : pydict;
}.
End IntentContract.

Definition mutating_actions : list IntentOperation.t :=
  [IntentOperation.CREATE; IntentOperation.MODIFY; IntentOperation.DELETE_FILE;
   IntentOperation.DELETE_FOLDER; IntentOperation.RENAME; IntentOperation.MOVE;
   IntentOperation.DEPENDENCY_CHANGE; IntentOperation.CONFIG_CHANGE].

(** [x in s] for an enumeration. *)
Definition among {A} `{EqDecision A} (x : A) (s : list A) : bool := bool_decide (x ∈ s).

Definition contract_blank : string := "Intent contract string fields must not be blank.".

(** [IntentContract(...)] on the values given; the identifiers that
    [default_factory] draws are among them. *)
Definition make_contract (c : IntentContract.t) : result exn IntentContract.t :=
  contract_id ← text_field 1 (Some 128)%Z contract_blank (IntentContract.contract_id c);
  session_id ← text_field 1 (Some 128)%Z contract_blank (IntentContract.session_id c);
  task_objective ← text_field 1 (Some 4096)%Z contract_blank (IntentContract.task_objective c);
  human_prompt ← optional_field 1 (Some 16384)%Z contract_blank (IntentContract.human_prompt c);
  ai_plan ← optional_field 1 (Some 16384)%Z contract_blank (IntentContract.ai_plan c);
  evidence_source ← optional_field 1 (Some 256)%Z contract_blank (IntentContract.evidence_source c);
  _ ← ensure (negb match IntentContract.allowed_actions c with [] => true | _ => false end)
        (validation_error "Tuple should have at least 1 item");
  target_scopes ← mapR make_scope (IntentContract.target_scopes c);
  excluded_scopes ← mapR make_scope (IntentContract.excluded_scopes c);
  _ ← ensure ((0 <=? IntentContract.risk_ceiling c)%Z && (IntentContract.risk_ceiling c <=? 100)%Z)
        (validation_error "Input should be between 0 and 100");
  expires_at ← optional_field 1 (Some 128)%Z contract_blank (IntentContract.expires_at c);
  approved_by ← optional_field 1 (Some 256)%Z contract_blank (IntentContract.approved_by c);
  _ ← ensure (negb (existsb (fun a => among a mutating_actions) (IntentContract.allowed_actions c)
                    && match target_scopes with [] => true | _ => false end))
        (validation_error "Mutating intent contracts must include at least one target scope.");
  Ok (IntentContract.mk contract_id session_id (IntentContract.source c) task_objective human_prompt
        ai_plan evidence_source (IntentContract.evidence_metadata c)
        (IntentContract.allowed_actions c) target_scopes excluded_scopes
        (IntentContract.risk_ceiling c) expires_at (IntentContract.enforcement_mode c) approved_by
        (IntentContract.metadata c)).

Module NormalizedAction.
Record t := mk {
  action_id : string;
  source : NormalizedActionSource.t;
  operation : IntentOperation.t;
  affected_paths : list string;
  old_path : option string;
  new_path : option string;
  resource_kind : ResourceKind.t;
  raw_evidence : pydict;
  diff_metadata : pydict;
  reason_codes : list string;
}.
End NormalizedAction.

Definition action_blank : string := "Normalized action string fields must not be blank.".
Definition action_tuple_blank : string := "Normalized action tuple fields must not contain blank values.".

Definition make_action (a : NormalizedAction.t) : result exn NormalizedAction.t :=
  action_id ← text_field 1 None action_blank (NormalizedAction.action_id a);
  affected_paths ← tuple_field action_tuple_blank (NormalizedAction.affected_paths a);
  old_path ← optional_field 1 (Some 4096)%Z action_blank (NormalizedAction.old_path a);
  new_path ← optional_field 1 (Some 4096)%Z action_blank (NormalizedAction.new_path a);
  reason_codes ← tuple_field action_tuple_blank (NormalizedAction.reason_codes a);
  _ ← ensure (negb (bool_decide (NormalizedAction.operation a = IntentOperation.RENAME)
                    && negb (truthy_opt old_path && truthy_opt new_path)))
        (validation_error "Rename actions must include old_path and new_path.");
  Ok (NormalizedAction.mk action_id (NormalizedAction.source a) (NormalizedAction.operation a)
        affected_paths old_path new_path (NormalizedAction.resource_kind a)
        (NormalizedAction.raw_evidence a) (NormalizedAction.diff_metadata a) reason_codes).

Module IntentMatchResult.
Record t := mk {
  match_state : IntentMatchState.t;
  contract_id : option string;
  action_id : option string;
  matched_scopes : list ResourceScope.t;
  unmatched_scopes : list ResourceScope.t;
  reason_codes : list string;
  decision_hint : IntentDecisionHint.t;
  metadata : pydict;
}.
End IntentMatchResult.

Definition match_blank : string := "Intent match identifiers must not be blank.".

Definition make_match (r : IntentMatchResult.t) : result exn IntentMatchResult.t :=
  contract_id ← optional_field 1 (Some 128)%Z match_blank (IntentMatchResult.contract_id r);
  action_id ← optional_field 1 (Some 128)%Z match_blank (IntentMatchResult.action_id r);
  reason_codes ← tuple_field "Intent match reason codes must not contain blank values."
                   (IntentMatchResult.reason_codes r);
  let exact := bool_decide (IntentMatchResult.match_state r = IntentMatchState.EXACT_MATCH) in
  _ ← ensure (negb (negb exact && match reason_codes with [] => true | _ => false end))
        (validation_error "Non-exact intent match results must include reason codes.");
  _ ← ensure (negb (exact && match IntentMatchResult.unmatched_scopes r with [] => false | _ => true end))
        (validation_error "Exact intent match results must not include unmatched scopes.");
  Ok (IntentMatchResult.mk (IntentMatchResult.match_state r) contract_id action_id
        (IntentMatchResult.matched_scopes r) (IntentMatchResult.unmatched_scopes r) reason_codes
        (IntentMatchResult.decision_hint r) (IntentMatchResult.metadata r)).

(** ** [model_dump(mode="json")] *)

(** The JSON form of the values kept under [Any]: a tuple becomes a list. *)
Fixpoint json_mode (v : pyval) : pyval :=
  match v with
  | PList l | PTuple l => PList (List.map json_mode l)
  | PDict d => PDict (List.map (fun kv => match kv with (k, x) => (k, json_mode x) end) d)
  | _ => v
  end.

Definition of_strs (l : list string) : pyval := PList (List.map PStr l).

Definition dump_scope (s : ResourceScope.t) : pyval :=
  of_dict
    [("type", PStr (ResourceScopeType.value (ResourceScope.type s)));
     ("value", PStr (ResourceScope.value s));
     ("resource_kind", of_opt_str (ResourceKind.value <$> ResourceScope.resource_kind s));
     ("metadata", json_mode (of_dict (ResourceScope.metadata s)))].

Definition dump_action (a : NormalizedAction.t) : pyval :=
  of_dict
    [("action_id", PStr (NormalizedAction.action_id a));
     ("source", PStr (NormalizedActionSource.value (NormalizedAction.source a)));
     ("operation", PStr (IntentOperation.value (NormalizedAction.operation a)));
     ("affected_paths", of_strs (NormalizedAction.affected_paths a));
     ("old_path", of_opt_str (NormalizedAction.old_path a));
     ("new_path", of_opt_str (NormalizedAction.new_path a));
     ("resource_kind", PStr (ResourceKind.value (NormalizedAction.resource_kind a)));
     ("raw_evidence", json_mode (of_dict (NormalizedAction.raw_evidence a)));
     ("diff_metadata", json_mode (of_dict (NormalizedAction.diff_metadata a)));
     ("reason_codes", of_strs (NormalizedAction.reason_codes a))].

Definition dump_match (r : IntentMatchResult.t) : pyval :=
  of_dict
    [("match_state", PStr (IntentMatchState.value (IntentMatchResult.match_state r)));
     ("contract_id", of_opt_str (IntentMatchResult.contract_id r));
     ("action_id", of_opt_str (IntentMatchResult.action_id r));
     ("matched_scopes", PList (List.map dump_scope (IntentMatchResult.matched_scopes r)));
     ("unmatched_scopes", PList (List.map dump_scope (IntentMatchResult.unmatched_scopes r)));
     ("reason_codes", of_strs (IntentMatchResult.reason_codes r));
     ("decision_hint", PStr (IntentDecisionHint.value (IntentMatchResult.decision_hint r)));
     ("metadata", json_mode (of_dict (IntentMatchResult.metadata r)))].

(** [Counter(...)] and the [counts.get(k, 0) + 1] loops: the keys in order of
    first occurrence, each with the number of its occurrences. *)
Definition counts (l : list string) : list (string * Z) :=
  List.map (fun k => (k, Z.of_nat (List.length (List.filter (String.eqb k) l)))) (fromkeys l).

Definition of_counts (l : list string) : pyval :=
  of_dict (List.map (fun kv => (fst kv, PInt (snd kv))) (counts l)).

(** ** Valid objects

    What the validators establish: the text is stripped, not blank, and
    within its limit. *)

Definition text_ok (hi : option Z) (s : string) : bool :=
  truthy s && String.eqb (strip s) s &&
  match hi with Some h => (Z.of_nat (String.length s) <=? h)%Z | None => true end.

Definition optional_ok (hi : option Z) (o : option string) : bool :=
  match o with Some s => text_ok hi s | None => true end.

Definition scope_ok (s : ResourceScope.t) : bool := text_ok (Some 4096)%Z (ResourceScope.value s).

Definition contract_ok (c : IntentContract.t) : bool :=
  text_ok (Some 128)%Z (IntentContract.contract_id c) &&
  text_ok (Some 128)%Z (IntentContract.session_id c) &&
  text_ok (Some 4096)%Z (IntentContract.task_objective c) &&
  optional_ok (Some 16384)%Z (IntentContract.human_prompt c) &&
  optional_ok (Some 16384)%Z (IntentContract.ai_plan c) &&
  optional_ok (Some 256)%Z (IntentContract.evidence_source c) &&
  negb match IntentContract.allowed_actions c with [] => true | _ => false end &&
  forallb scope_ok (IntentContract.target_scopes c) &&
  forallb scope_ok (IntentContract.excluded_scopes c) &&
  ((0 <=? IntentContract.risk_ceiling c)%Z && (IntentContract.risk_ceiling c <=? 100)%Z) &&
  optional_ok (Some 128)%Z (IntentContract.expires_at c) &&
  optional_ok (Some 256)%Z (IntentContract.approved_by c) &&
  negb (existsb (fun a => among a mutating_actions) (IntentContract.allowed_actions c)
        && match IntentContract.target_scopes c with [] => true | _ => false end).

Definition action_ok (a : NormalizedAction.t) : bool :=
  text_ok None (NormalizedAction.action_id a) &&
  forallb (text_ok None) (NormalizedAction.affected_paths a) &&
  optional_ok (Some 4096)%Z (NormalizedAction.old_path a) &&
  optional_ok (Some 4096)%Z (NormalizedAction.new_path a) &&
  forallb (text_ok None) (NormalizedAction.reason_codes a) &&
  negb (bool_decide (NormalizedAction.operation a = IntentOperation.RENAME)
        && negb (truthy_opt (NormalizedAction.old_path a) && truthy_opt (NormalizedAction.new_path a))).

Definition match_ok (r : IntentMatchResult.t) : bool :=
  optional_ok (Some 128)%Z (IntentMatchResult.contract_id r) &&
  optional_ok (Some 128)%Z (IntentMatchResult.action_id r) &&
  forallb (text_ok None) (IntentMatchResult.reason_codes r) &&
  let exact := bool_decide (IntentMatchResult.match_state r = IntentMatchState.EXACT_MATCH) in
  negb (negb exact && match IntentMatchResult.reason_codes r with [] => true | _ => false end) &&
  negb (exact && match IntentMatchResult.unmatched_scopes r with [] => false | _ => true end).

(** ** Lemmas *)

Lemma text_field_Ok hi m s t : text_field 1 hi m s = Ok t -> t = strip s /\ text_ok hi t = true.
Proof.
  unfold text_field, check_length, strip_nonblank, text_ok, ensure.
  destruct (_ && _) eqn:E; cbn; [|done]. apply andb_true_iff in E as [_ E].
  destruct (truthy (strip s)) eqn:T; [|done]. intros [= <-]. split; [done|].
  rewrite T, strip_no_space_ends, String.eqb_refl. cbn. destruct hi as [h|]; [|done].
  apply Z.leb_le. apply Z.leb_le in E. pose proof (length_strip s). lia.
Qed.

Lemma text_field_id hi m s : text_ok hi s = true -> text_field 1 hi m s = Ok s.
Proof.
  unfold text_field, check_length, strip_nonblank, text_ok.
  intros [[T E%String.eqb_eq]%andb_true_iff H]%andb_true_iff. rewrite E, T, H.
  assert ((1 <=? Z.of_nat (String.length s))%Z = true) as ->; [|done].
  apply Z.leb_le. destruct s; cbn; [done|lia].
Qed.

Lemma optional_field_Ok hi m o o' :
  optional_field 1 hi m o = Ok o' -> o' = strip <$> o /\ optional_ok hi o' = true.
Proof.
  destruct o as [s|]; cbn; [|by intros [= <-]].
  intros (t & H & [= <-])%bind_Ok_inv. by apply text_field_Ok in H as [-> ?].
Qed.

Lemma optional_field_id hi m o : optional_ok hi o = true -> optional_field 1 hi m o = Ok o.
Proof. destruct o as [s|]; cbn; [|done]. intros H. by rewrite text_field_id. Qed.

Lemma tuple_field_Ok m l l' :
  tuple_field m l = Ok l' -> l' = List.map strip l /\ forallb (text_ok None) l' = true.
Proof.
  unfold tuple_field. destruct (existsb _ _) eqn:E; [done|]. intros [= <-]. split; [done|].
  apply forallb_elem_of. intros x Hx. rewrite existsb_false_elem_of in E. specialize (E x Hx).
  apply negb_false_iff in E. unfold text_ok. rewrite E.
  apply list_elem_of_In, in_map_iff in Hx as (y & <- & _).
  by rewrite strip_no_space_ends, String.eqb_refl.
Qed.

Lemma tuple_field_id m l : forallb (text_ok None) l = true -> tuple_field m l = Ok l.
Proof.
  intros H. unfold tuple_field.
  assert (List.map strip l = l) as ->.
  { induction l as [|x l IH]; [done|]. cbn in *. apply andb_true_iff in H as [H1 H2].
    rewrite IH by done. unfold text_ok in H1. apply andb_true_iff in H1 as [[_ H1]%andb_true_iff _].
    apply String.eqb_eq in H1. by rewrite H1. }
  replace (existsb _ _) with false; [done|]. symmetry. apply existsb_false_elem_of.
  intros x Hx. rewrite forallb_elem_of in H. specialize (H x Hx). unfold text_ok in H.
  by apply andb_true_iff in H as [[-> _]%andb_true_iff _].
Qed.

Lemma make_scope_Ok s s' : make_scope s = Ok s' -> scope_ok s' = true.
Proof.
  unfold make_scope. intros (v & H & [= <-])%bind_Ok_inv. by apply text_field_Ok in H as [_ ?].
Qed.

Lemma make_scope_id s : scope_ok s = true -> make_scope s = Ok s.
Proof. unfold make_scope, scope_ok. intros H. rewrite text_field_id by done. by destruct s. Qed.

Lemma make_scopes_Ok l l' : mapR make_scope l = Ok l' -> forallb scope_ok l' = true.
Proof.
  intros H%mapR_Ok_Forall2. induction H as [|x y l l' Hx _ IH]; cbn; [done|].
  by rewrite (make_scope_Ok x y Hx), IH.
Qed.

Lemma make_scopes_id l : forallb scope_ok l = true -> mapR make_scope l = Ok l.
Proof.
  intros H. apply mapR_Ok_Forall2. induction l as [|x l IH]; constructor;
    cbn in H; apply andb_true_iff in H as [? ?]; [by apply make_scope_id|auto].
Qed.

(** The fields of a built object, one validator at a time. *)
Ltac fields :=
  repeat match goal with
  | H : mbind _ _ = Ok _ |- _ => apply bind_Ok_inv in H as (? & ? & H)
  | H : text_field _ _ _ _ = Ok _ |- _ => apply text_field_Ok in H as [_ ?]
  | H : optional_field _ _ _ _ = Ok _ |- _ => apply optional_field_Ok in H as [_ ?]
  | H : tuple_field _ _ = Ok _ |- _ => apply tuple_field_Ok in H as [_ ?]
  | H : mapR make_scope _ = Ok _ |- _ => apply make_scopes_Ok in H
  | H : ensure ?b _ = Ok ?u |- _ => destruct u; apply ensure_Ok in H
  | H : Ok _ = Ok _ |- _ => injection H as H; subst
  end.

Ltac unfields :=
  repeat match goal with
  | H : _ && _ = true |- _ => apply andb_true_iff in H as [? ?]
  end;
  repeat first
    [ rewrite text_field_id by assumption | rewrite optional_field_id by assumption
    | rewrite tuple_field_id by assumption | rewrite make_scopes_id by assumption ];
  cbn [mbind result_bind].

Lemma make_contract_Ok c c' : make_contract c = Ok c' -> contract_ok c' = true.
Proof.
  unfold make_contract. intros H. fields. unfold contract_ok. cbn.
  repeat match goal with H : _ && _ = true |- _ => apply andb_true_iff in H as [? ?] end.
  repeat first [assumption | apply andb_true_iff; split].
Qed.

Lemma make_contract_id c : contract_ok c = true -> make_contract c = Ok c.
Proof.
  unfold make_contract, contract_ok. intros H.
  repeat match goal with H : _ && _ = true |- _ => apply andb_true_iff in H as [? ?] end.
  unfields. repeat match goal with H : ?b = true |- context [ensure ?b] => rewrite H end.
  repeat match goal with
  | H : ?a = true, H' : ?b = true |- context [ensure (?a && ?b)] => rewrite H, H' end.
  cbn. by destruct c.
Qed.

Lemma make_action_Ok a a' : make_action a = Ok a' -> action_ok a' = true.
Proof.
  unfold make_action. intros H. fields. unfold action_ok. cbn.
  repeat first [assumption | apply andb_true_iff; split].
Qed.

Lemma make_action_id a : action_ok a = true -> make_action a = Ok a.
Proof.
  unfold make_action, action_ok. intros H. unfields.
  match goal with H : negb _ = true |- _ => rewrite H end. cbn. by destruct a.
Qed.

Lemma make_match_Ok r r' : make_match r = Ok r' -> match_ok r' = true.
Proof.
  unfold make_match. intros H. fields. unfold match_ok. cbn.
  repeat first [assumption | apply andb_true_iff; split].
Qed.

Lemma make_match_id r : match_ok r = true -> make_match r = Ok r.
Proof.
  unfold make_match, match_ok. cbn zeta. intros H. unfields.
  repeat match goal with H : negb _ = true |- _ => rewrite H; clear H end. cbn. by destruct r.
Qed.

(** What building a match result keeps. *)
Lemma make_match_inv r r' : make_match r = Ok r' ->
  IntentMatchResult.match_state r' = IntentMatchResult.match_state r /\
  IntentMatchResult.decision_hint r' = IntentMatchResult.decision_hint r /\
  IntentMatchResult.matched_scopes r' = IntentMatchResult.matched_scopes r /\
  IntentMatchResult.unmatched_scopes r' = IntentMatchResult.unmatched_scopes r /\
  IntentMatchResult.action_id r' = strip <$> IntentMatchResult.action_id r /\
  IntentMatchResult.contract_id r' = strip <$> IntentMatchResult.contract_id r /\
  IntentMatchResult.metadata r' = IntentMatchResult.metadata r.
Proof.
  unfold make_match. intros H.
  repeat match goal with
  | H : mbind _ _ = Ok _ |- _ => apply bind_Ok_inv in H as (? & ? & H)
  | H : optional_field _ _ _ _ = Ok _ |- _ => apply optional_field_Ok in H as [-> _]
  | H : Ok _ = Ok _ |- _ => injection H as <-
  end. done.
Qed.

Lemma among_spec {A} `{EqDecision A} (x : A) s : among x s = true <-> x ∈ s.
Proof. apply bool_decide_eq_true. Qed.

(** ** Theorems *)

(** C40 The types of the intent protocol: what a constructor returns is
    accepted unchanged by the constructor again; a contract allows something,
    its risk ceiling is a percentage and it names a target scope whenever it
    allows an action that mutates; a rename has both of its paths; a match
    that is exact leaves no scope unmatched and every other match gives a
    reason. *)
Theorem built_values_are_well_formed :
  (forall c c', make_contract c = Ok c' ->
     make_contract c' = Ok c' /\ IntentContract.allowed_actions c' <> [] /\
     (0 <= IntentContract.risk_ceiling c' <= 100)%Z /\
     Forall (fun s => make_scope s = Ok s) (IntentContract.target_scopes c') /\
     (forall a, a ∈ IntentContract.allowed_actions c' -> a ∈ mutating_actions ->
        IntentContract.target_scopes c' <> [])) /\
  (forall a a', make_action a = Ok a' ->
     make_action a' = Ok a' /\
     (NormalizedAction.operation a' = IntentOperation.RENAME ->
        truthy_opt (NormalizedAction.old_path a') = true /\
        truthy_opt (NormalizedAction.new_path a') = true)) /\
  (forall r r', make_match r = Ok r' ->
     make_match r' = Ok r' /\
     (IntentMatchResult.match_state r' = IntentMatchState.EXACT_MATCH ->
        IntentMatchResult.unmatched_scopes r' = []) /\
     (IntentMatchResult.match_state r' <> IntentMatchState.EXACT_MATCH ->
        IntentMatchResult.reason_codes r' <> [])).
Proof.
  split; [|split].
  - intros c c' H%make_contract_Ok. split; [by apply make_contract_id|].
    unfold contract_ok in H.
    repeat match goal with H : _ && _ = true |- _ => apply andb_true_iff in H as [? ?] end.
    split; [by destruct (IntentContract.allowed_actions c')|].
    split; [lia|]. split.
    + apply Forall_forall. intros s Hs. apply make_scope_id.
      match goal with H : forallb scope_ok (IntentContract.target_scopes _) = true |- _ =>
        rewrite forallb_elem_of in H; by apply H end.
    + intros a Ha Hm Ht.
      match goal with H : negb (existsb _ _ && _) = true |- _ => apply negb_true_iff in H; rename H into Hx end.
      rewrite Ht, andb_true_r in Hx. rewrite existsb_false_elem_of in Hx. specialize (Hx a Ha).
      by rewrite (proj2 (among_spec a mutating_actions) Hm) in Hx.
  - intros a a' H%make_action_Ok. split; [by apply make_action_id|]. intros Ho.
    unfold action_ok in H. apply andb_true_iff in H as [_ H]. rewrite bool_decide_eq_true_2 in H by done.
    by apply negb_true_iff, negb_false_iff, andb_true_iff in H.
  - intros r r' H%make_match_Ok. split; [by apply make_match_id|].
    unfold match_ok in H. cbn zeta in H. apply andb_true_iff in H as [_ [H1 H2]%andb_true_iff].
    apply negb_true_iff in H1, H2. split; intros Hs.
    + rewrite bool_decide_eq_true_2 in H2 by done. by destruct (IntentMatchResult.unmatched_scopes r').
    + rewrite bool_decide_eq_false_2 in H1 by done. by destruct (IntentMatchResult.reason_codes r').
Qed.
