(* ===== verification/Fnmatch.v ===== *)
(** * [fnmatch.fnmatchcase]

    Shell patterns with bracket expressions, as [fnmatch.translate] reads
    them: [*], [?], [[seq]] and [[!seq]] with its treatment of hyphens, empty
    ranges and unclosed brackets.  A pattern is compiled to a list of items,
    which is matched against the whole text. *)

From S2P Require Import ChangeRisk.

Inductive glob_item :=
  | GStar
  | GAny
  | GChar (c : ascii)
  | GNever
  | GSet (negated : bool) (chunks : list string).

Definition cons_fst (c : ascii) (r : option (string * string)) : option (string * string) :=
  match r with Some (stuff, rest) => Some (String c stuff, rest) | None => None end.

(** The text up to the next closing bracket, and what follows it. *)
Fixpoint until_bracket (s : string) : option (string * string) :=
  match s with
  | EmptyString => None
  | String c s' => if Ascii.eqb c "]" then Some (EmptyString, s') else cons_fst c (until_bracket s')
  end.

(** The same with a leading [!] and a leading closing bracket taken
    literally. *)
Definition first_literal (t : string) : option (string * string) :=
  match t with
  | String c t' => if Ascii.eqb c "]" then cons_fst c (until_bracket t') else until_bracket t
  | EmptyString => None
  end.

Definition bracket_body (s : string) : option (string * string) :=
  match s with
  | String c s' => if Ascii.eqb c "!" then cons_fst c (first_literal s') else first_literal s
  | EmptyString => None
  end.

(** Split at the hyphens that make ranges: the first may stand after [wait]
    characters, each other after two more.  A hyphen at the end is literal. *)
Fixpoint split_ranges (wait : nat) (cur s : string) : list string :=
  match s with
  | EmptyString => [cur]
  | String c s' =>
      if (wait =? 0)%nat && Ascii.eqb c "-" then
        match s' with
        | EmptyString => [cur +++ "-"]
        | _ => cur :: split_ranges 2 "" s'
        end
      else split_ranges (pred wait) (cur +++ String c "") s'
  end.

Definition last_of (s : string) : option ascii := last (list_ascii_of_string s).
Definition first_of (s : string) : option ascii := head (list_ascii_of_string s).
Definition but_last (s : string) : string := String.substring 0 (pred (String.length s)) s.

(** Remove empty ranges, from the last to the first. *)
Fixpoint drop_empty_ranges (chunks : list string) : list string :=
  match chunks with
  | [] => []
  | a :: rest =>
      match drop_empty_ranges rest with
      | [] => [a]
      | b :: rest' =>
          match last_of a, first_of b with
          | Some x, Some y =>
              if (code y <? code x)%N then (but_last a +++ drop_chars 1 b) :: rest'
              else a :: b :: rest'
          | _, _ => a :: b :: rest'
          end
      end
  end.

Definition bracket_item (stuff : string) : glob_item :=
  let chunks :=
    if contains stuff "-"
    then drop_empty_ranges (split_ranges (if startswith stuff "!" then 2 else 1) "" stuff)
    else [stuff] in
  match chunks with
  | [""] => GNever
  | ["!"] => GAny
  | a :: rest => if startswith a "!" then GSet true (drop_chars 1 a :: rest) else GSet false chunks
  | [] => GNever
  end.

(** [c] in the set: a character of a chunk, or in the range between two
    chunks. *)
Fixpoint in_chunks (c : ascii) (chunks : list string) : bool :=
  match chunks with
  | [] => false
  | a :: rest =>
      existsb (Ascii.eqb c) (list_ascii_of_string a) ||
      match rest with
      | b :: _ =>
          match last_of a, first_of b with
          | Some x, Some y => in_range (code x) (code y) (code c)
          | _, _ => false
          end
      | [] => false
      end || in_chunks c rest
  end.

Fixpoint glob_items (fuel : nat) (pattern : string) : list glob_item :=
  match fuel, pattern with
  | S n, String c rest =>
      if Ascii.eqb c "*" then GStar :: glob_items n rest
      else if Ascii.eqb c "?" then GAny :: glob_items n rest
      else if Ascii.eqb c "[" then
        match bracket_body rest with
        | Some (stuff, rest') => bracket_item stuff :: glob_items n rest'
        | None => GChar c :: glob_items n rest
        end
      else GChar c :: glob_items n rest
  | _, _ => []
  end.

Definition item_matches (i : glob_item) (c : ascii) : bool :=
  match i with
  | GStar | GNever => false
  | GAny => true
  | GChar d => Ascii.eqb d c
  | GSet negated chunks => xorb negated (in_chunks c chunks)
  end.

Fixpoint glob_match (items : list glob_item) (s : string) : bool :=
  match items with
  | [] => String.eqb s ""
  | GStar :: items' => any_suffix (glob_match items') s
  | i :: items' =>
      match s with
      | String c s' => item_matches i c && glob_match items' s'
      | EmptyString => false
      end
  end.

(** [fnmatchcase(name, pattern)] *)
Definition fnmatch (name pattern : string) : bool :=
  glob_match (glob_items (String.length pattern) pattern) name.

(** ** Examples of [translate]'s corner cases *)

Example fnmatch_range : fnmatch "src/b7.py" "src/[a-c][!0-4].*" = true.
Proof. reflexivity. Qed.
Example fnmatch_literal_bracket : fnmatch "[x" "[x" = true /\ fnmatch "]" "[]]" = true.
Proof. split; reflexivity. Qed.
Example fnmatch_empty_range : fnmatch "b" "[b-a]" = false /\ fnmatch "b" "[!b-a]" = true.
Proof. split; reflexivity. Qed.
Example fnmatch_hyphens : fnmatch "-" "[a-]" = true /\ fnmatch "c" "[a-b-c]" = true
  /\ fnmatch "-" "[a-b-c]" = true /\ fnmatch "b" "[a-c]" = true.
Proof. repeat split; reflexivity. Qed.

(** ** Lemmas *)

Lemma until_bracket_length s stuff rest :
  until_bracket s = Some (stuff, rest) -> String.length rest < String.length s.
Proof.
  revert stuff. induction s as [|c s IH]; intros stuff; cbn [until_bracket]; [done|].
  destruct (Ascii.eqb c "]"); [intros [= _ <-]; cbn; lia|].
  destruct (until_bracket s) as [[t r]|]; cbn; [|done]. intros [= _ <-].
  specialize (IH t eq_refl). lia.
Qed.

Lemma cons_fst_Some c r stuff rest :
  cons_fst c r = Some (stuff, rest) -> exists stuff', r = Some (stuff', rest).
Proof. destruct r as [[t u]|]; cbn; [intros [= _ <-]; eauto|done]. Qed.

Lemma first_literal_length t stuff rest :
  first_literal t = Some (stuff, rest) -> String.length rest < String.length t.
Proof.
  destruct t as [|c t]; [done|]. unfold first_literal. destruct (Ascii.eqb c "]").
  - intros [t' H]%cons_fst_Some. apply until_bracket_length in H. cbn. lia.
  - apply until_bracket_length.
Qed.

Lemma bracket_body_length s stuff rest :
  bracket_body s = Some (stuff, rest) -> String.length rest < String.length s.
Proof.
  destruct s as [|c s]; [done|]. unfold bracket_body.
  destruct (Ascii.eqb c "!"); [|apply first_literal_length].
  intros [t' H]%cons_fst_Some. apply first_literal_length in H. cbn. lia.
Qed.

(** The fuel [fnmatch] gives is enough for every pattern. *)
Lemma glob_items_fuel n m p :
  String.length p <= n -> String.length p <= m -> glob_items n p = glob_items m p.
Proof.
  revert m p. induction n as [|n IH]; intros [|m] [|c p] Hn Hm; cbn in Hn, Hm; try done; try lia.
  cbn [glob_items].
  destruct (Ascii.eqb c "*"); [f_equal; apply IH; lia|].
  destruct (Ascii.eqb c "?"); [f_equal; apply IH; lia|].
  destruct (Ascii.eqb c "["); [|f_equal; apply IH; lia].
  destruct (bracket_body p) as [[stuff rest]|] eqn:E; [|f_equal; apply IH; lia].
  apply bracket_body_length in E. f_equal. apply IH; lia.
Qed.

Lemma any_suffix_ext f g s : (forall t, f t = g t) -> any_suffix f s = any_suffix g s.
Proof. intros H. induction s as [|c s IH]; cbn; by rewrite H, ?IH. Qed.

(** Without a bracket this is the matcher of the tables of change_risk.py. *)
Lemma fnmatch_plain p s : no_char "["%char p -> fnmatch s p = fnmatchcase p s.
Proof.
  unfold fnmatch. revert s. induction p as [|c p IH]; intros s Hp; [done|].
  apply no_char_cons in Hp as [Hc Hp]. cbn [String.length glob_items fnmatchcase].
  destruct (Ascii.eqb_spec c "*") as [->|Hs]; [by apply any_suffix_ext; intros; apply IH|].
  destruct (Ascii.eqb_spec c "?") as [->|Hq].
  - destruct s as [|d s]; [done|]. cbn [glob_match item_matches]. by rewrite IH.
  - apply Ascii.eqb_neq in Hc. rewrite Hc. destruct s as [|d s]; [done|].
    cbn [glob_match item_matches]. by rewrite IH.
Qed.
