(* ===== verification/ChangedFiles.v ===== *)
(** * ignore_rules.py, changed_files.py and the generator of patch_diff.py

    The inventory of a guarded worktree: parsing of Git's raw diff and of its
    list of untracked files, the rules that suppress generated noise, the
    report, and the patch built from it.  Git and the file system are the
    class [GitWorktree]; outputs are taken as decoded texts, whose records end
    in the null character. *)

From Stdlib Require Import Sorting.Sorted.
From S2P Require Import Fnmatch Sha256.
From S2P Require Export ChangeRisk PatchDiff.

(** ** ignore_rules.py *)

Definition DEFAULT_HEAVY_PATH_SEGMENTS : list string :=
  [".cache"; ".coverage"; ".git"; ".hg"; ".mypy_cache"; ".next"; ".nox"; ".pytest_cache";
   ".ruff_cache"; ".svn"; ".tox"; ".venv"; "__pycache__"; "build"; "coverage"; "dist";
   "node_modules"; "site-packages"; "target"; "venv"].

Definition DEFAULT_VISIBLE_BASENAMES : list string :=
  [".dockerignore"; ".env"; ".env.example"; ".env.local"; ".env.production"; ".gitattributes";
   ".gitignore"; ".gitlab-ci.yml"; ".npmrc"; ".pypirc"; "Cargo.lock"; "Cargo.toml"; "Dockerfile";
   "Gemfile"; "Gemfile.lock"; "Pipfile"; "Pipfile.lock"; "bun.lock"; "bun.lockb"; "compose.yaml";
   "compose.yml"; "docker-compose.yaml"; "docker-compose.yml"; "go.mod"; "go.sum";
   "package-lock.json"; "package.json"; "pnpm-lock.yaml"; "poetry.lock"; "pyproject.toml";
   "requirements-dev.txt"; "requirements.txt"; "uv.lock"; "yarn.lock"].

Definition DEFAULT_VISIBLE_SUFFIXES : list string := [".env"; ".env.local"; ".env.production"].
Definition DEFAULT_VISIBLE_PREFIXES : list string := [".github/workflows/"; ".gitlab/"].
Definition DEFAULT_VISIBLE_GLOBS : list string :=
  ["requirements-*.txt"; "*.lock"; "*.pem"; "*.key"; "*.p12"; "*.pfx"].

(** [PurePosixPath(path).match(pattern)]: the components are compared from the
    right, all of them when the pattern is absolute; an empty pattern is a
    [ValueError]. *)
Definition path_match (path pattern : PurePosixPath.t) : result exn bool :=
  let ps := PurePosixPath.parts pattern in
  let xs := PurePosixPath.parts path in
  match ps with
  | [] => Raise (mk_exn ValueError "ValueError" "empty pattern")
  | _ =>
      let n := List.length ps in
      Ok ((if PurePosixPath.is_absolute pattern then n =? List.length xs
           else n <=? List.length xs)%nat
          && forallb (fun xp : string * string => fnmatch (fst xp) (snd xp))
               (combine (drop (List.length xs - n) xs) ps))
  end.

Definition guarded_error (e : path_error) : exn :=
  mk_exn ValueError "ValueError"
    match e with
    | PathEmpty => "Guarded path must not be empty."
    | PathAbsolute path => "Guarded path must be repository-relative: " +++ path
    | PathTraverses path => "Guarded path must not traverse: " +++ path
    | PathNormalizesEmpty => "Guarded path must not normalize to empty."
    end.

(** [any(f(x) for x in l)] where [f] may raise. *)
Fixpoint anyR {E A} (f : A -> result E bool) (l : list A) : result E bool :=
  match l with
  | [] => Ok false
  | x :: l' =>
      match f x with Ok true => Ok true | Ok false => anyR f l' | Raise e => Raise e end
  end.

Module GuardedIgnoreDecision.
Record t := mk {
  path : string;
  ignored : bool;
  reason : option IgnoredFileReason;
  protected : bool;
}.
Definition audit_summary (d : t) : pydict :=
  [("path", PStr (path d)); ("ignored", PBool (ignored d));
   ("reason", of_opt_str (ignored_reason_value <$> reason d)); ("protected", PBool (protected d))].
End GuardedIgnoreDecision.

Module GuardedIgnoreRules.
Record t := mk {
  heavy_path_segments : list string;
  visible_basenames : list string;
  visible_suffixes : list string;
  visible_prefixes : list string;
  visible_globs : list string;
}.

Definition is_heavy_or_generated_path (r : t) (path : string) : result exn bool :=
  normalized ← map_err guarded_error (normalize_guarded_path path);
  let ignored_segments := List.map lower (heavy_path_segments r) in
  Ok (existsb (fun part => mem (lower part) ignored_segments)
        (PurePosixPath.parts (PurePosixPath.of_string normalized))).

Definition is_protected_visible_path (r : t) (path : string) : result exn bool :=
  normalized ← map_err guarded_error (normalize_guarded_path path);
  let path_obj := PurePosixPath.of_string normalized in
  let lower_path := lower normalized in
  let lower_basename := lower (PurePosixPath.name path_obj) in
  if mem lower_basename (List.map lower (visible_basenames r)) then Ok true
  else if existsb (fun suffix => endswith lower_path (lower suffix)) (visible_suffixes r) then Ok true
  else if existsb (fun prefix => startswith lower_path (lower prefix)) (visible_prefixes r) then Ok true
  else
    anyR (fun pattern =>
      b ← path_match path_obj (PurePosixPath.of_string pattern);
      if (b : bool) then Ok true
      else path_match (PurePosixPath.of_string lower_path) (PurePosixPath.of_string (lower pattern)))
      (visible_globs r).

Definition decide_untracked_path (r : t) (path : string) : result exn GuardedIgnoreDecision.t :=
  normalized ← map_err guarded_error (normalize_guarded_path path);
  visible ← is_protected_visible_path r normalized;
  if (visible : bool) then Ok (GuardedIgnoreDecision.mk normalized false None true)
  else
    heavy ← is_heavy_or_generated_path r normalized;
    Ok (if (heavy : bool)
        then GuardedIgnoreDecision.mk normalized true (Some GENERATED_OR_HEAVY_PATH) false
        else GuardedIgnoreDecision.mk normalized false None false).
End GuardedIgnoreRules.

(** [build_guarded_ignore_rules(...)], a missing argument standing for its
    default. *)
Definition build_guarded_ignore_rules
    (heavy_path_segments visible_basenames visible_suffixes visible_prefixes visible_globs
     : option (list string)) : GuardedIgnoreRules.t :=
  GuardedIgnoreRules.mk
    (default DEFAULT_HEAVY_PATH_SEGMENTS heavy_path_segments)
    (default DEFAULT_VISIBLE_BASENAMES visible_basenames)
    (default DEFAULT_VISIBLE_SUFFIXES visible_suffixes)
    (default DEFAULT_VISIBLE_PREFIXES visible_prefixes)
    (default DEFAULT_VISIBLE_GLOBS visible_globs).

Definition DEFAULT_GUARDED_IGNORE_RULES : GuardedIgnoreRules.t :=
  build_guarded_ignore_rules None None None None None.

(** ** changed_files.py *)

Module ChangedFile.
Record t := mk {
  path : string;
  kind : ChangedFileKind;
  old_path : option string;
  old_mode : option string;
  new_mode : option string;
  mode_changed : bool;
}.
End ChangedFile.

#[export] Instance ChangedFile_eq_dec : EqDecision ChangedFile.t.
Proof. solve_decision. Defined.

Definition all_kinds : list ChangedFileKind := [ADDED; MODIFIED; DELETED; RENAMED; MODE_CHANGED; UNTRACKED].

Module ChangedFileReport.
Record t := mk {
  workspace_path : string;
  baseline_commit_sha : string;
  files : list ChangedFile.t;
  ignored_files : list IgnoredChangedFile.t;
}.

Definition counts_by_kind (r : t) : list (ChangedFileKind * Z) :=
  List.map (fun k =>
    (k, Z.of_nat (List.length
          (List.filter (fun f => bool_decide (ChangedFile.kind f = k)) (files r))))) all_kinds.

Definition audit_summary (r : t) : pydict :=
  [("workspace_path", PStr (workspace_path r));
   ("baseline_commit_sha", PStr (baseline_commit_sha r));
   ("changed_file_count", PInt (Z.of_nat (List.length (files r))));
   ("ignored_file_count", PInt (Z.of_nat (List.length (ignored_files r))));
   ("counts_by_kind", of_dict (List.map (fun kc => (kind_value (fst kc), PInt (snd kc))) (counts_by_kind r)));
   ("paths", PTuple (List.map (fun f => PStr (ChangedFile.path f)) (files r)));
   ("ignored_paths", PTuple (List.map (fun f => PStr (IgnoredChangedFile.path f)) (ignored_files r)))].
End ChangedFileReport.

Definition detection_error (text : string) : exn :=
  mk_exn RuntimeError "ChangedFileDetectionError" text.
Definition changed_path_error (e : path_error) : exn :=
  mk_exn RuntimeError "ChangedFilePathError" (path_error_message e).

(** The subclasses of [ChangedFileDetectionError]. *)
Definition is_detection_error (e : exn) : bool :=
  mem (exn_name e) ["ChangedFileDetectionError"; "ChangedFilePathError"].

Definition normalize_changed (path : string) : result exn string :=
  map_err changed_path_error (normalize_repo_relative_path path).

Definition nul : ascii := ascii_of_N 0.

(** [[f for f in raw.split(b"\0") if f]] *)
Definition null_fields (raw : string) : list string := List.filter truthy (split_on nul raw).

Definition _kind_from_raw_status (status_code : string) : result exn ChangedFileKind :=
  if String.eqb status_code "A" then Ok ADDED
  else if String.eqb status_code "D" then Ok DELETED
  else if String.eqb status_code "T" then Ok MODE_CHANGED
  else if String.eqb status_code "M" then Ok MODIFIED
  else Raise (detection_error ("Unsupported Git raw status: " +++ status_code)).

(** The loop of [parse_git_raw_diff] over the remaining fields. *)
Fixpoint raw_records (fields : list string) : result exn (list ChangedFile.t) :=
  match fields with
  | [] => Ok []
  | header :: rest =>
      if negb (startswith header ":") then
        Raise (detection_error ("Invalid raw diff header: " +++ repr_str header))
      else
        match split_space header with
        | part0 :: new_mode :: _ :: _ :: status :: _ =>
            let old_mode := drop_chars 1 part0 in
            let status_code := String.substring 0 1 status in
            let mode_changed := negb (String.eqb old_mode new_mode) in
            if String.eqb status_code "R" then
              match rest with
              | old :: new :: rest' =>
                  old_path ← normalize_changed old;
                  new_path ← normalize_changed new;
                  files ← raw_records rest';
                  Ok (ChangedFile.mk new_path RENAMED (Some old_path) (Some old_mode)
                        (Some new_mode) mode_changed :: files)
              | _ => Raise (detection_error "Rename record missing path fields.")
              end
            else
              match rest with
              | raw_path :: rest' =>
                  path ← normalize_changed raw_path;
                  kind ← _kind_from_raw_status status_code;
                  files ← raw_records rest';
                  Ok (ChangedFile.mk path kind None (Some old_mode) (Some new_mode) mode_changed
                      :: files)
              | [] => Raise (detection_error "Raw diff record missing path field.")
              end
        | _ => Raise (detection_error ("Incomplete raw diff header: " +++ repr_str header))
        end
  end.

Definition parse_git_raw_diff (raw_output : string) : result exn (list ChangedFile.t) :=
  raw_records (null_fields raw_output).

Definition is_hex_digit (c : ascii) : bool :=
  let n := code c in in_range 48 57 n || in_range 65 70 n || in_range 97 102 n.

Definition normalize_baseline_commit_sha (baseline_commit_sha : string) : result exn string :=
  let baseline := strip baseline_commit_sha in
  if (String.length baseline =? 40)%nat && forallb is_hex_digit (list_ascii_of_string baseline)
  then Ok (lower baseline)
  else Raise (detection_error "Baseline commit must be a full 40-character SHA.").

Definition is_generated_or_heavy_path (path : string) : result exn bool :=
  GuardedIgnoreRules.is_heavy_or_generated_path DEFAULT_GUARDED_IGNORE_RULES path.
Definition is_protected_visible_path (path : string) : result exn bool :=
  GuardedIgnoreRules.is_protected_visible_path DEFAULT_GUARDED_IGNORE_RULES path.

Definition _resolve_ignore_rules (ignore_rules : option GuardedIgnoreRules.t)
    (generated_path_segments : option (list string)) : result exn GuardedIgnoreRules.t :=
  match ignore_rules, generated_path_segments with
  | Some _, Some _ =>
      Raise (mk_exn TypeError "TypeError"
               "Use either ignore_rules or generated_path_segments, not both.")
  | Some r, None => Ok r
  | None, Some segments => Ok (build_guarded_ignore_rules (Some segments) None None None None)
  | None, None => Ok DEFAULT_GUARDED_IGNORE_RULES
  end.

(** One field of [_classify_untracked_files]. *)
Definition classify_untracked (ignore_rules : GuardedIgnoreRules.t) (field : string)
    : result exn (ChangedFile.t + IgnoredChangedFile.t) :=
  path ← normalize_changed field;
  decision ← GuardedIgnoreRules.decide_untracked_path ignore_rules path;
  Ok (if GuardedIgnoreDecision.ignored decision
      then inr (IgnoredChangedFile.mk (GuardedIgnoreDecision.path decision)
                  (default GENERATED_OR_HEAVY_PATH (GuardedIgnoreDecision.reason decision)))
      else inl (ChangedFile.mk (GuardedIgnoreDecision.path decision) UNTRACKED None None None false)).

Definition lefts {A B} (l : list (A + B)) : list A :=
  flat_map (fun x => match x with inl a => [a] | inr _ => [] end) l.
Definition rights {A B} (l : list (A + B)) : list B :=
  flat_map (fun x => match x with inr b => [b] | inl _ => [] end) l.

Definition _classify_untracked_files (raw_output : string) (ignore_rules : GuardedIgnoreRules.t)
    : result exn (list ChangedFile.t * list IgnoredChangedFile.t) :=
  classified ← mapR (classify_untracked ignore_rules) (null_fields raw_output);
  Ok (lefts classified, rights classified).

(** [<=] on the tuples of [_changed_file_sort_key]. *)
Fixpoint key_leb (a b : list string) : bool :=
  match a, b with
  | x :: a', y :: b' => if String.eqb x y then key_leb a' b' else String.leb x y
  | [], _ => true
  | _, [] => false
  end.

Definition _changed_file_sort_key (f : ChangedFile.t) : list string :=
  [ChangedFile.path f; kind_value (ChangedFile.kind f); default "" (ChangedFile.old_path f)].

(** ** Git and the file system *)

(** [subprocess.run(["git", *args], cwd=...)]: the output, or the text of
    stderr; with [GIT_INDEX_FILE] set to a copy of the index, also the index
    afterwards. *)
Class GitWorktree (I : Type) := {
  resolve : string -> string;
  is_dir : string -> bool;
  is_file : string -> bool;
  read_index : string -> I;
  git_run : list string -> string -> result string string;
  git_run_index : I -> list string -> string -> result string (string * I);
}.

Section Detect.
Context {I : Type} `{GitWorktree I}.

Definition git_failed (args : list string) (stderr : string) : string :=
  "Git command failed: git " +++ str_join " " args +++ ": " +++ strip stderr.

Definition _run_git (args : list string) (cwd : string) : result exn string :=
  map_err (fun stderr => detection_error (git_failed args stderr)) (git_run args cwd).

Definition detect_changed_files (workspace_path baseline_commit_sha : string)
    (ignore_rules : option GuardedIgnoreRules.t) (generated_path_segments : option (list string))
    : result exn ChangedFileReport.t :=
  baseline ← normalize_baseline_commit_sha baseline_commit_sha;
  let workspace := resolve workspace_path in
  _ ← ensure (is_dir workspace)
        (detection_error ("Guarded workspace does not exist: " +++ workspace));
  raw_diff ← _run_git ["diff"; "--raw"; "-z"; "-M20%"; baseline; "--"] workspace;
  untracked_output ← _run_git ["ls-files"; "--others"; "--exclude-standard"; "-z"] workspace;
  rules ← _resolve_ignore_rules ignore_rules generated_path_segments;
  tracked_files ← parse_git_raw_diff raw_diff;
  untracked ← _classify_untracked_files untracked_output rules;
  let files :=
    sort_by (fun a b => key_leb (_changed_file_sort_key a) (_changed_file_sort_key b))
      (tracked_files ++ fst untracked) in
  let ignored :=
    sort_by (fun a b => String.leb (IgnoredChangedFile.path a) (IgnoredChangedFile.path b))
      (snd untracked) in
  Ok (ChangedFileReport.mk workspace baseline files ignored).
End Detect.

(** ** patch_diff.py: the generator *)

Definition patch_generation_error (text : string) : exn :=
  mk_exn RuntimeError "PatchDiffGenerationError" text.

Record line_stats := mk_stats {
  s_additions : option Z;
  s_deletions : option Z;
  s_binary : bool;
}.

Definition tab : ascii := ascii_of_N 9.

(** [int(raw)] on bytes: surrounding white space, a sign, digits with single
    underscores between them, at most 4300 digits. *)
Definition is_byte_space (c : ascii) : bool :=
  let n := code c in in_range 9 13 n || (n =? 32)%N.

Definition int_of_bytes (raw : string) : option Z :=
  let t := strip_by is_byte_space raw in
  let digits := drop_sign "+-" t in
  let parts := split_on "_" digits in
  if forallb some_digits parts && (String.length (str_join "" parts) <=? 4300)%nat
  then (fun n => if startswith t "-" then - Z.of_N n else Z.of_N n)%Z
         <$> parse_digits 0 (str_join "" parts)
  else None.

Definition _parse_line_count (raw_count : string) : result exn Z :=
  match int_of_bytes raw_count with
  | Some n => Ok n
  | None => Raise (patch_generation_error ("Invalid numstat line count: b" +++ repr_str raw_count))
  end.

Definition numstat_stats (additions_raw deletions_raw : string) : result exn line_stats :=
  if String.eqb additions_raw "-" || String.eqb deletions_raw "-" then Ok (mk_stats None None true)
  else
    additions ← _parse_line_count additions_raw;
    deletions ← _parse_line_count deletions_raw;
    Ok (mk_stats (Some additions) (Some deletions) false).

(** The loop of [parse_git_numstat] over the remaining fields. *)
Fixpoint numstat_records (stats : list (string * line_stats)) (fields : list string)
    : result exn (list (string * line_stats)) :=
  match fields with
  | [] => Ok stats
  | header :: rest =>
      if negb (truthy header) then numstat_records stats rest
      else
        match cut tab header with
        | Some (additions_raw, tail) =>
            match cut tab tail with
            | Some (deletions_raw, path_raw) =>
                if negb (truthy path_raw) then
                  match rest with
                  | old :: new :: rest' =>
                      _ ← normalize_changed old;
                      path ← normalize_changed new;
                      st ← numstat_stats additions_raw deletions_raw;
                      numstat_records (assoc_set stats path st) rest'
                  | _ => Raise (patch_generation_error "Rename numstat record missing paths.")
                  end
                else
                  path ← normalize_changed path_raw;
                  st ← numstat_stats additions_raw deletions_raw;
                  numstat_records (assoc_set stats path st) rest
            | None => Raise (patch_generation_error ("Invalid numstat record: b" +++ repr_str header))
            end
        | None => Raise (patch_generation_error ("Invalid numstat record: b" +++ repr_str header))
        end
  end.

Definition parse_git_numstat (raw_output : string) : result exn (list (string * line_stats)) :=
  if truthy raw_output then numstat_records [] (split_on nul raw_output) else Ok [].

(** [a or b] on optional strings. *)
Definition or_str (a b : option string) : option string := if truthy_opt a then a else b.

Definition _build_patch_file_diff (changed_file : ChangedFile.t)
    (stats_by_path : list (string * line_stats)) (mode_by_path : list (string * mode_metadata))
    : PatchFileDiff.t :=
  let path := ChangedFile.path changed_file in
  let stats := default (mk_stats (Some 0%Z) (Some 0%Z) false) (assoc_get stats_by_path path) in
  let mode := default (mk_modes None None false) (assoc_get mode_by_path path) in
  let old_mode := or_str (ChangedFile.old_mode changed_file) (m_old_mode mode) in
  let new_mode := or_str (ChangedFile.new_mode changed_file) (m_new_mode mode) in
  let mode_changed := ChangedFile.mode_changed changed_file || m_mode_changed mode in
  PatchFileDiff.mk path (ChangedFile.kind changed_file) (s_additions stats) (s_deletions stats)
    (s_binary stats) (ChangedFile.old_path changed_file) old_mode new_mode
    (mode_changed || modes_differ old_mode new_mode).

(** The exceptions of the mode parser: a path error is not converted. *)
Definition mode_error (e : patch_error) : exn :=
  match e with
  | InvalidPatchHeader line => patch_generation_error ("Invalid Git patch header: " +++ repr_str line)
  | PatchPathError e => changed_path_error e
  end.

Definition _patch_args (baseline_commit_sha : string) : list string :=
  ["diff"; "--patch"; "--binary"; "--full-index"; "--no-color"; "--no-ext-diff"; "--no-textconv";
   "--default-prefix"; "--diff-algorithm=default"; "-M20%"; baseline_commit_sha; "--"].

Definition _numstat_args (baseline_commit_sha : string) : list string :=
  ["diff"; "--numstat"; "-z"; "--no-color"; "--no-ext-diff"; "--no-textconv";
   "--diff-algorithm=default"; "-M20%"; baseline_commit_sha; "--"].

(** [except ChangedFileDetectionError as exc: raise PatchDiffGenerationError] *)
Definition as_generation_error (e : exn) : exn :=
  if is_detection_error e then patch_generation_error (exn_text e) else e.

Section Generate.
Context {I : Type} `{GitWorktree I}.

Definition patch_git_error (args : list string) (stderr : string) : exn :=
  patch_generation_error (git_failed args stderr).

Definition run_patch_git (args : list string) (cwd : string) : result exn string :=
  map_err (patch_git_error args) (git_run args cwd).

Definition run_patch_git_index (index : I) (args : list string) (cwd : string)
    : result exn (string * I) :=
  map_err (patch_git_error args) (git_run_index index args cwd).

(** [Path(index_text)], made absolute in the workspace and resolved. *)
Definition _git_index_path (workspace : string) : result exn string :=
  raw_index_path ← run_patch_git ["rev-parse"; "--git-path"; "index"] workspace;
  let index_text := strip raw_index_path in
  _ ← ensure (truthy index_text) (patch_generation_error "Git did not return an index path.");
  let index_path :=
    resolve (if PurePosixPath.is_absolute (PurePosixPath.of_string index_text) then index_text
             else workspace +++ "/" +++ index_text) in
  _ ← ensure (is_file index_path)
        (patch_generation_error ("Git index does not exist: " +++ index_path));
  Ok index_path.

Definition _generate_diff_outputs (workspace baseline_commit_sha : string)
    (report : ChangedFileReport.t) : result exn (string * string) :=
  let untracked_paths :=
    List.map ChangedFile.path
      (List.filter (fun f => bool_decide (ChangedFile.kind f = UNTRACKED))
         (ChangedFileReport.files report)) in
  match untracked_paths with
  | [] =>
      patch ← run_patch_git (_patch_args baseline_commit_sha) workspace;
      numstat ← run_patch_git (_numstat_args baseline_commit_sha) workspace;
      Ok (patch, numstat)
  | _ =>
      index_path ← _git_index_path workspace;
      added ← run_patch_git_index (read_index index_path)
                (["add"; "--intent-to-add"; "--"] ++ untracked_paths) workspace;
      patch ← run_patch_git_index (snd added) (_patch_args baseline_commit_sha) workspace;
      numstat ← run_patch_git_index (snd patch) (_numstat_args baseline_commit_sha) workspace;
      Ok (fst patch, fst numstat)
  end.

Definition generate_patch_diff_from_report (report : ChangedFileReport.t) : result exn PatchDiff.t :=
  let workspace := resolve (ChangedFileReport.workspace_path report) in
  _ ← ensure (is_dir workspace)
        (patch_generation_error ("Guarded workspace does not exist: " +++ workspace));
  baseline ← map_err as_generation_error
    (normalize_baseline_commit_sha (ChangedFileReport.baseline_commit_sha report));
  outputs ← _generate_diff_outputs workspace baseline report;
  stats_by_path ← parse_git_numstat (snd outputs);
  mode_by_path ← map_err mode_error (parse_git_patch_modes (fst outputs));
  Ok (PatchDiff.mk workspace baseline (fst outputs) (sha256_hex (fst outputs))
        (utf8_len (fst outputs))
        (List.map (fun f => _build_patch_file_diff f stats_by_path mode_by_path)
           (ChangedFileReport.files report))
        (ChangedFileReport.ignored_files report)).

Definition generate_patch_diff (workspace_path baseline_commit_sha : string)
    (generated_path_segments : list string) : result exn PatchDiff.t :=
  report ← map_err as_generation_error
    (detect_changed_files workspace_path baseline_commit_sha None (Some generated_path_segments));
  generate_patch_diff_from_report report.
End Generate.

(** ** Examples *)

(** A raw diff is the sequence of its records, each field ended by a null. *)
Definition null_text (fields : list string) : string :=
  fold_right (fun f acc => f +++ String nul acc) "" fields.

Example raw_diff_example :
  parse_git_raw_diff (null_text
    [":100644 100755 1111111 2222222 M"; "src/a.py"; ":100644 100644 1 1 R095"; "b.py"; "./c.py"])
  = Ok [ChangedFile.mk "src/a.py" MODIFIED None (Some "100644") (Some "100755") true;
        ChangedFile.mk "c.py" RENAMED (Some "b.py") (Some "100644") (Some "100644") false].
Proof. vm_compute. reflexivity. Qed.

Example numstat_example :
  parse_git_numstat (null_text
    ["3" +++ String tab ("1" +++ String tab "src/a.py"); "-" +++ String tab ("-" +++ String tab "");
     "b.bin"; "c.bin"])
  = Ok [("src/a.py", mk_stats (Some 3%Z) (Some 1%Z) false); ("c.bin", mk_stats None None true)].
Proof. vm_compute. reflexivity. Qed.

Example untracked_example :
  _classify_untracked_files (null_text ["build/x.o"; "build/.env"; "dist/key.pem"; "notes.txt"])
    DEFAULT_GUARDED_IGNORE_RULES
  = Ok ([ChangedFile.mk "build/.env" UNTRACKED None None None false;
         ChangedFile.mk "dist/key.pem" UNTRACKED None None None false;
         ChangedFile.mk "notes.txt" UNTRACKED None None None false],
        [IgnoredChangedFile.mk "build/x.o" GENERATED_OR_HEAVY_PATH]).
Proof. vm_compute. reflexivity. Qed.

(** ** Lemmas: parsing *)

(** A token of a raw header: not empty, no white space. *)
Definition token (w : string) : Prop :=
  truthy w = true /\ forallb (fun c => negb (is_space c)) (list_ascii_of_string w) = true.

Lemma split_space_token w cur s :
  token w -> split_space_go cur (w +++ s) = split_space_go (cur +++ w) s.
Proof.
  intros [_ Hw]. revert cur Hw. induction w as [|c w IH]; intros cur Hw; cbn.
  - by rewrite app_empty_r.
  - cbn in Hw. apply andb_true_iff in Hw as [Hc%negb_true_iff Hw]. rewrite Hc.
    rewrite IH by done. f_equal. by rewrite app_assoc_str.
Qed.

Lemma split_space_cons w s : token w -> split_space (w +++ String " " s) = w :: split_space s.
Proof.
  intros Hw. unfold split_space. rewrite split_space_token by done. cbn.
  destruct Hw as [Hw _]. by rewrite Hw.
Qed.

Lemma split_space_one w : token w -> split_space w = [w].
Proof.
  intros Hw. unfold split_space. rewrite <- (app_empty_r w) at 1.
  rewrite split_space_token by done. cbn. destruct Hw as [Hw _]. by rewrite Hw.
Qed.

Lemma null_fields_text fields :
  Forall (fun f => truthy f = true /\ no_char nul f) fields -> null_fields (null_text fields) = fields.
Proof.
  unfold null_fields. induction 1 as [|f fields [Hf Hn] _ IH]; [done|]. cbn [null_text fold_right].
  rewrite split_on_app_sep by done. cbn [List.filter]. rewrite Hf. f_equal. exact IH.
Qed.

(** ** The raw diff as data

    A record as Git prints it: modes, objects, and what happened to which
    path. *)

Inductive raw_change :=
  | Plain (kind : ChangedFileKind) (path : string)
  | Renamed (score old new : string).

Record raw_record := mk_raw {
  rr_old_mode : string;
  rr_new_mode : string;
  rr_old_object : string;
  rr_new_object : string;
  rr_change : raw_change;
}.

Definition status_letter (k : ChangedFileKind) : string :=
  match k with ADDED => "A" | MODIFIED => "M" | DELETED => "D" | MODE_CHANGED => "T"
  | RENAMED | UNTRACKED => "X" end.

Definition raw_header (r : raw_record) (status : string) : string :=
  ":" +++ rr_old_mode r +++ " " +++ rr_new_mode r +++ " " +++ rr_old_object r +++ " "
  +++ rr_new_object r +++ " " +++ status.

Definition raw_fields (r : raw_record) : list string :=
  match rr_change r with
  | Plain k path => [raw_header r (status_letter k); path]
  | Renamed score old new => [raw_header r ("R" +++ score); old; new]
  end.

(** The report entry a record stands for. *)
Definition file_of_record (r : raw_record) : ChangedFile.t :=
  let changed := negb (String.eqb (rr_old_mode r) (rr_new_mode r)) in
  match rr_change r with
  | Plain k path => ChangedFile.mk path k None (Some (rr_old_mode r)) (Some (rr_new_mode r)) changed
  | Renamed _ old new =>
      ChangedFile.mk new RENAMED (Some old) (Some (rr_old_mode r)) (Some (rr_new_mode r)) changed
  end.

(** A path in normal form. *)
Definition normal_path (p : string) : Prop := normalize_repo_relative_path p = Ok p /\ no_char nul p.

Definition raw_ok (r : raw_record) : Prop :=
  Forall (fun w => token w /\ no_char nul w)
    [rr_old_mode r; rr_new_mode r; rr_old_object r; rr_new_object r] /\
  match rr_change r with
  | Plain k path => normal_path path /\ k <> RENAMED /\ k <> UNTRACKED
  | Renamed score old new =>
      (token ("R" +++ score) /\ no_char nul score) /\ normal_path old /\ normal_path new
  end.

Lemma token_cons c w : is_space c = false -> token w -> token (String c w).
Proof. intros Hc [_ Hw]. split; [done|]. cbn. by rewrite Hc, Hw. Qed.

Lemma raw_header_split r status :
  Forall (fun w => token w /\ no_char nul w)
    [rr_old_mode r; rr_new_mode r; rr_old_object r; rr_new_object r] -> token status ->
  split_space (raw_header r status)
  = [String ":" (rr_old_mode r); rr_new_mode r; rr_old_object r; rr_new_object r; status].
Proof.
  rewrite !Forall_cons. intros ([? _] & [? _] & [? _] & [? _] & _) Hs. unfold raw_header.
  assert (forall x, " " +++ x = String " " x) as Hsp by done.
  change (":" +++ rr_old_mode r +++ ?x) with (String ":" (rr_old_mode r) +++ x). rewrite !Hsp.
  rewrite split_space_cons by (by apply token_cons). f_equal.
  do 3 (rewrite split_space_cons by done; f_equal). by apply split_space_one.
Qed.

Lemma raw_header_colon r status : startswith (raw_header r status) ":" = true.
Proof. exact (startswith_empty _). Qed.

Lemma normalize_normal p : normal_path p -> normalize_changed p = Ok p.
Proof. intros [H _]. unfold normalize_changed. by rewrite H. Qed.

Lemma status_of_letter k : k <> RENAMED -> k <> UNTRACKED ->
  token (status_letter k) /\ String.substring 0 1 (status_letter k) = status_letter k /\
  String.eqb (status_letter k) "R" = false /\ _kind_from_raw_status (status_letter k) = Ok k.
Proof. by destruct k. Qed.

Lemma raw_records_cons r fields :
  raw_ok r ->
  raw_records (raw_fields r ++ fields)
  = (files ← raw_records fields; Ok (file_of_record r :: files)).
Proof.
  intros [Hh Hc]. unfold raw_fields, file_of_record. destruct (rr_change r) as [k p|score old new].
  - destruct Hc as (Hp & H1 & H2). destruct (status_of_letter k H1 H2) as (Ht & Hs & HR & Hk).
    cbn [app raw_records].
    rewrite raw_header_colon. cbn [negb]. rewrite raw_header_split by done. cbn [drop_chars].
    rewrite Hs, HR, normalize_normal by done. cbn [mbind result_bind]. by rewrite Hk.
  - destruct Hc as ([Ht _] & Ho & Hn). cbn [app raw_records].
    rewrite raw_header_colon. cbn [negb]. rewrite raw_header_split by done. cbn [drop_chars].
    assert (String.substring 0 1 ("R" +++ score) = "R") as ->
      by (cbn; by destruct score).
    cbn [String.eqb Ascii.eqb Bool.eqb]. rewrite (normalize_normal old), (normalize_normal new) by done.
    done.
Qed.

Lemma normal_path_truthy p : normal_path p -> truthy p = true.
Proof. intros [H _]. destruct p; [|done]. by vm_compute in H. Qed.

Lemma raw_fields_clean r : raw_ok r -> Forall (fun f => truthy f = true /\ no_char nul f) (raw_fields r).
Proof.
  intros [Hh Hc]. rewrite !Forall_cons in Hh. destruct Hh as ([_ ?] & [_ ?] & [_ ?] & [_ ?] & _).
  assert (Hnul : forall st, no_char nul st -> no_char nul (raw_header r st)).
  { intros st Hst. unfold raw_header. by rewrite !no_char_app. }
  unfold raw_fields. destruct (rr_change r) as [k p|score old new].
  - destruct Hc as (Hp & _ & _). repeat constructor; [|by apply normal_path_truthy|apply Hp].
    apply Hnul. by destruct k.
  - destruct Hc as ([_ Hs] & Ho & Hn).
    repeat constructor; try (by apply normal_path_truthy); [|apply Ho|apply Hn].
    apply Hnul. by rewrite no_char_app.
Qed.

(** ** Lemmas: the inventory *)

Lemma key_leb_total a b : key_leb a b = true \/ key_leb b a = true.
Proof.
  revert b. induction a as [|x a IH]; intros [|y b]; cbn; auto.
  destruct (String.eqb_spec x y) as [->|Hne]; [rewrite String.eqb_refl; apply IH|].
  apply not_eq_sym, String.eqb_neq in Hne. rewrite Hne.
  destruct (leb_total x y) as [H|H]; unfold is_true in H; auto.
Qed.

Definition untracked_file (p : string) : ChangedFile.t := ChangedFile.mk p UNTRACKED None None None false.

(** What became of one untracked field. *)
Definition accounted (rules : GuardedIgnoreRules.t) (field : string)
    (x : ChangedFile.t + IgnoredChangedFile.t) : Prop :=
  exists q p, normalize_repo_relative_path field = Ok q /\ normalize_repo_relative_path q = Ok p /\
    ((x = inl (untracked_file p) /\
      (GuardedIgnoreRules.is_protected_visible_path rules p = Ok true \/
       GuardedIgnoreRules.is_heavy_or_generated_path rules p = Ok false)) \/
     (x = inr (IgnoredChangedFile.mk p GENERATED_OR_HEAVY_PATH) /\
      GuardedIgnoreRules.is_protected_visible_path rules p = Ok false /\
      GuardedIgnoreRules.is_heavy_or_generated_path rules p = Ok true)).

Lemma map_err_Ok {E F A} (f : E -> F) (m : result E A) a : map_err f m = Ok a -> m = Ok a.
Proof. by destruct m; cbn; intros [= ->]. Qed.

Lemma classify_untracked_Ok rules field x :
  classify_untracked rules field = Ok x -> accounted rules field x.
Proof.
  unfold classify_untracked, GuardedIgnoreRules.decide_untracked_path, normalize_changed.
  intros (q & Hq%map_err_Ok & (d & (p & Hp%map_err_Ok & Hd)%bind_Ok_inv & Hx)%bind_Ok_inv)%bind_Ok_inv.
  exists q, p. split; [done|]. rewrite normalize_guarded_path_eq in Hp. split; [done|].
  apply bind_Ok_inv in Hd as ([|] & Hv & Hd).
  - injection Hd as <-. injection Hx as <-. left. auto.
  - apply bind_Ok_inv in Hd as ([|] & Hh & [= <-]); injection Hx as <-; [right|left]; auto.
Qed.

Lemma elem_of_lefts {A B} (l : list (A + B)) a : a ∈ lefts l <-> inl a ∈ l.
Proof.
  unfold lefts. rewrite elem_of_flat_map. split.
  - intros ([a'|b] & Hx & Ha); [|by apply elem_of_nil in Ha].
    apply list_elem_of_singleton in Ha. by subst.
  - intros H. exists (inl a). by rewrite list_elem_of_singleton.
Qed.

Lemma elem_of_rights {A B} (l : list (A + B)) b : b ∈ rights l <-> inr b ∈ l.
Proof.
  unfold rights. rewrite elem_of_flat_map. split.
  - intros ([a|b'] & Hx & Hb); [by apply elem_of_nil in Hb|].
    apply list_elem_of_singleton in Hb. by subst.
  - intros H. exists (inr b). by rewrite list_elem_of_singleton.
Qed.

Lemma length_lefts_rights {A B} (l : list (A + B)) :
  List.length (lefts l) + List.length (rights l) = List.length l.
Proof. unfold lefts, rights. induction l as [|[a|b] l IH]; cbn; lia. Qed.

Lemma normalize_changed_relative path p : normalize_changed path = Ok p -> repo_relative p.
Proof. intros H%map_err_Ok. by eapply normalize_repo_relative. Qed.

(** The paths of tracked changes are in normal form. *)
Lemma raw_records_relative n fields files :
  List.length fields <= n -> raw_records fields = Ok files ->
  Forall (fun f => repo_relative (ChangedFile.path f)) files.
Proof.
  revert fields files. induction n as [|n IH]; intros [|h rest] files Hn; cbn in Hn;
    try (intros [= <-]; constructor); try lia.
  cbn [raw_records]. destruct (negb _); [done|].
  destruct (split_space h) as [|? [|? [|? [|? [|status ?]]]]]; try done.
  destruct (String.eqb _ "R").
  - destruct rest as [|old [|new rest]]; try done. cbn in Hn.
    intros (o & _ & (p & Hp & (fs & Hfs & [= <-])%bind_Ok_inv)%bind_Ok_inv)%bind_Ok_inv.
    constructor; [by eapply normalize_changed_relative|]. eapply IH, Hfs. lia.
  - destruct rest as [|raw rest]; [done|]. cbn in Hn.
    intros (p & Hp & (k & _ & (fs & Hfs & [= <-])%bind_Ok_inv)%bind_Ok_inv)%bind_Ok_inv.
    constructor; [by eapply normalize_changed_relative|]. eapply IH, Hfs. lia.
Qed.

(** ** Theorems *)

(** Git's raw diff is read back exactly: for every sequence of records
    with modes and objects without white space and paths in normal form,
    parsing the printed records gives the kind, the paths, the modes and the
    mode change of each, in order. *)
Theorem raw_diff_round_trip rs :
  Forall raw_ok rs ->
  parse_git_raw_diff (null_text (flat_map raw_fields rs)) = Ok (List.map file_of_record rs).
Proof.
  intros Hrs. unfold parse_git_raw_diff. rewrite null_fields_text.
  - induction Hrs as [|r rs Hr _ IH]; [done|]. cbn [flat_map].
    by rewrite raw_records_cons, IH.
  - induction Hrs as [|r rs Hr _ IH]; [constructor|]. cbn [flat_map].
    apply Forall_app. split; [by apply raw_fields_clean|done].
Qed.

(** The inventory misses nothing and invents nothing.  Every tracked
    change Git prints is in the report; every untracked file is in it too,
    under its normal form, except that it may be listed as ignored when it is
    not protected and one of its components is a generated directory; the
    counts add up; every reported path is a clean relative path; and the files
    are sorted. *)
Theorem inventory_is_complete {I} `{GitWorktree I} ws sha ignore_rules segments report :
  detect_changed_files ws sha ignore_rules segments = Ok report ->
  exists baseline raw untracked rules tracked,
    normalize_baseline_commit_sha sha = Ok baseline /\
    git_run ["diff"; "--raw"; "-z"; "-M20%"; baseline; "--"] (resolve ws) = Ok raw /\
    git_run ["ls-files"; "--others"; "--exclude-standard"; "-z"] (resolve ws) = Ok untracked /\
    _resolve_ignore_rules ignore_rules segments = Ok rules /\
    parse_git_raw_diff raw = Ok tracked /\
    (forall f, f ∈ tracked -> f ∈ ChangedFileReport.files report) /\
    (forall field, field ∈ null_fields untracked -> exists p q,
       normalize_repo_relative_path field = Ok q /\ normalize_repo_relative_path q = Ok p /\
       (untracked_file p ∈ ChangedFileReport.files report \/
        (IgnoredChangedFile.mk p GENERATED_OR_HEAVY_PATH ∈ ChangedFileReport.ignored_files report /\
         GuardedIgnoreRules.is_protected_visible_path rules p = Ok false /\
         GuardedIgnoreRules.is_heavy_or_generated_path rules p = Ok true))) /\
    List.length (ChangedFileReport.files report) + List.length (ChangedFileReport.ignored_files report)
      = List.length tracked + List.length (null_fields untracked) /\
    Forall (fun f => repo_relative (ChangedFile.path f)) (ChangedFileReport.files report) /\
    Sorted (fun a b => key_leb (_changed_file_sort_key a) (_changed_file_sort_key b) = true)
      (ChangedFileReport.files report).
Proof.
  unfold detect_changed_files, _run_git.
  intros (baseline & Hb & (u & _ & (raw & Hraw%map_err_Ok & (unt & Hunt%map_err_Ok &
    (rules & Hrules & (tracked & Htr & (cl & Hcl & [= <-])%bind_Ok_inv)%bind_Ok_inv)%bind_Ok_inv)
    %bind_Ok_inv)%bind_Ok_inv)%bind_Ok_inv)%bind_Ok_inv.
  exists baseline, raw, unt, rules, tracked. do 5 (split; [done|]). cbn [ChangedFileReport.files
    ChangedFileReport.ignored_files].
  unfold _classify_untracked_files in Hcl. apply bind_Ok_inv in Hcl as (xs & Hxs & [= <-]).
  cbn [fst snd]. apply mapR_Ok_Forall2 in Hxs.
  assert (Hacc : Forall2 (accounted rules) (null_fields unt) xs).
  { eapply Forall2_impl; [exact Hxs|]. intros f x. apply classify_untracked_Ok. }
  split_and!.
  - intros f Hf. rewrite sort_by_perm. apply elem_of_app. by left.
  - intros f Hf. apply list_elem_of_lookup in Hf as [i Hi].
    destruct (Forall2_lookup_l _ _ _ _ _ Hacc Hi) as (x & Hx & (q & p & Hq & Hp & Hcase)).
    apply list_elem_of_lookup_2 in Hx. exists p, q. split; [done|]. split; [done|].
    destruct Hcase as [[-> _]|(-> & H1 & H2)].
    + left. rewrite sort_by_perm. apply elem_of_app. right. by apply elem_of_lefts.
    + right. rewrite sort_by_perm. split; [by apply elem_of_rights|done].
  - rewrite !(Permutation_length (sort_by_perm _ _)), length_app.
    rewrite <- Nat.add_assoc, length_lefts_rights. by rewrite (Forall2_length _ _ _ Hxs).
  - rewrite sort_by_perm. apply Forall_app. split; [by eapply raw_records_relative|].
    apply Forall_forall. intros f Hf%elem_of_lefts. apply list_elem_of_lookup in Hf as [i Hi].
    destruct (Forall2_lookup_r _ _ _ _ _ Hacc Hi) as (y & _ & (q & p & _ & Hp & [[Hx _]|[Hx _]]));
      simplify_eq/=. by eapply normalize_repo_relative.
  - eapply sort_by_sorted with
      (leb := fun a b => key_leb (_changed_file_sort_key a) (_changed_file_sort_key b)).
    intros a b. exact (key_leb_total (_changed_file_sort_key a) (_changed_file_sort_key b)).
Qed.

(** The protected names of the default rules are never suppressed: wherever it
    lies, a private key, a lock file or an environment file is visible. *)
Lemma protected_is_visible rules field x :
  classify_untracked rules field = Ok x ->
  (forall p, normalize_repo_relative_path field = Ok p ->
     GuardedIgnoreRules.is_protected_visible_path rules p = Ok true) ->
  normalize_repo_relative_path field = Ok field ->
  x = inl (untracked_file field).
Proof.
  intros Hx%classify_untracked_Ok Hp Hf. destruct Hx as (q & p & Hq & Hp' & Hcase).
  rewrite Hf in Hq. injection Hq as <-. rewrite Hf in Hp'. injection Hp' as <-.
  destruct Hcase as [[-> _]|(_ & H & _)]; [done|]. by rewrite (Hp field Hf) in H.
Qed.

(** The patch describes the report: its files are the report's, in order,
    with path, kind and old path unchanged; a file whose two known modes
    differ is marked as a mode change; the digest and the size are those of
    the patch text; nothing is dropped from the ignored files. *)
Theorem patch_describes_report {I} `{GitWorktree I} report d :
  generate_patch_diff_from_report report = Ok d ->
  Forall2 (fun f p =>
      PatchFileDiff.path p = ChangedFile.path f /\ PatchFileDiff.kind p = ChangedFile.kind f /\
      PatchFileDiff.old_path p = ChangedFile.old_path f /\
      (ChangedFile.mode_changed f = true -> PatchFileDiff.mode_changed p = true) /\
      (forall m, ChangedFile.old_mode f = Some m -> m <> "" -> PatchFileDiff.old_mode p = Some m) /\
      (forall m, ChangedFile.new_mode f = Some m -> m <> "" -> PatchFileDiff.new_mode p = Some m) /\
      (forall o n, PatchFileDiff.old_mode p = Some o -> PatchFileDiff.new_mode p = Some n ->
         o <> "" -> n <> "" -> o <> n -> PatchFileDiff.mode_changed p = true))
    (ChangedFileReport.files report) (PatchDiff.files d) /\
  PatchDiff.ignored_files d = ChangedFileReport.ignored_files report /\
  PatchDiff.patch_sha256 d = sha256_hex (PatchDiff.patch d) /\
  PatchDiff.patch_size_bytes d = utf8_len (PatchDiff.patch d) /\
  PatchDiff.workspace_path d = resolve (ChangedFileReport.workspace_path report).
Proof.
  unfold generate_patch_diff_from_report.
  intros (u & _ & (b & _ & (o & _ & (st & _ & (m & _ & [= <-])%bind_Ok_inv)%bind_Ok_inv)%bind_Ok_inv)
    %bind_Ok_inv)%bind_Ok_inv.
  split; [|done]. cbn [PatchDiff.files].
  induction (ChangedFileReport.files report) as [|f fs IH]; [constructor|].
  constructor; [|exact IH]. unfold _build_patch_file_diff. cbn.
  assert (Hor : forall a b x, a = Some x -> x <> "" -> or_str a b = Some x).
  { intros a b' x -> Hx. by destruct x. }
  split_and!; try done.
  - intros ->. done.
  - intros x Hx Hne. by apply Hor.
  - intros x Hx Hne. by apply Hor.
  - intros x y Hx Hy Hnx Hny Hxy. rewrite Hx, Hy. cbn. apply orb_true_iff. right.
    apply String.eqb_neq in Hxy. rewrite Hxy. by destruct x, y.
Qed.

(** ** Witnesses: a small worktree *)

Definition example_git (args : list string) (cwd : string) : result string string :=
  if mem "--raw" args then
    Ok (null_text [":100644 100755 1111111 2222222 M"; "src/a.py"; ":100644 100644 1 1 R095"; "b.py"; "c.py"])
  else if mem "--others" args then Ok (null_text ["build/x.o"; "build/.env"; "notes.txt"])
  else if mem "--numstat" args then Ok (null_text ["3" +++ String tab ("1" +++ String tab "src/a.py")])
  else if mem "--patch" args then
    Ok (patch_text ["diff --git a/src/a.py b/src/a.py"; "old mode 100644"; "new mode 100755"])
  else if mem "rev-parse" args then Ok ".git/index"
  else Raise "unknown command".

#[export] Instance example_worktree : GitWorktree unit := {
  resolve p := p;
  is_dir p := String.eqb p "/repo";
  is_file p := String.eqb p "/repo/.git/index";
  read_index _ := ();
  git_run := example_git;
  git_run_index _ args cwd := if mem "add" args then Ok ("", ()) else out ← example_git args cwd; Ok (out, ());
}.

Definition example_sha : string := "0123456789abcdef0123456789ABCDEF01234567".

Definition example_records : list raw_record :=
  [mk_raw "100644" "100755" "1111111" "2222222" (Plain MODIFIED "src/a.py");
   mk_raw "100644" "100644" "1" "1" (Renamed "095" "b.py" "c.py")].

Lemma raw_diff_round_trip_witness :
  parse_git_raw_diff (null_text (flat_map raw_fields example_records))
  = Ok [ChangedFile.mk "src/a.py" MODIFIED None (Some "100644") (Some "100755") true;
        ChangedFile.mk "c.py" RENAMED (Some "b.py") (Some "100644") (Some "100644") false].
Proof.
  refine (raw_diff_round_trip example_records _).
  repeat constructor; try done; vm_compute; done.
Defined.

Definition example_report : ChangedFileReport.t :=
  match detect_changed_files "/repo" example_sha None None with
  | Ok r => r
  | Raise _ => ChangedFileReport.mk "" "" [] []
  end.

Lemma inventory_witness :
  detect_changed_files "/repo" example_sha None None = Ok example_report /\
  exists p, untracked_file p ∈ ChangedFileReport.files example_report.
Proof.
  assert (E : detect_changed_files "/repo" example_sha None None = Ok example_report)
    by (vm_compute; reflexivity).
  split; [exact E|].
  destruct (inventory_is_complete "/repo" example_sha None None example_report E)
    as (b & raw & unt & rules & tr & _ & _ & Hu & _ & _ & _ & H & _).
  cbv [git_run example_worktree example_git mem existsb String.eqb Ascii.eqb Bool.eqb orb] in Hu.
  injection Hu as <-.
  assert (Hn : "notes.txt" ∈ null_fields (null_text ["build/x.o"; "build/.env"; "notes.txt"])).
  { apply (list_elem_of_lookup_2 _ 2). vm_compute. reflexivity. }
  destruct (H _ Hn) as (p & q & Hq & Hp & [Hin|(Hin & _)]).
  - exists p. exact Hin.
  - exists "notes.txt". apply (list_elem_of_lookup_2 _ 2). vm_compute. reflexivity.
Defined.

Lemma patch_describes_witness :
  exists d, generate_patch_diff_from_report example_report = Ok d /\
    PatchDiff.ignored_files d = [IgnoredChangedFile.mk "build/x.o" GENERATED_OR_HEAVY_PATH].
Proof.
  assert (E : is_ok (generate_patch_diff_from_report example_report) = true)
    by (vm_compute; reflexivity).
  destruct (generate_patch_diff_from_report example_report) as [d|e] eqn:Ed; [|done].
  exists d. split; [done|]. destruct (patch_describes_report example_report d Ed) as (_ & -> & _).
  vm_compute. reflexivity.
Defined.
