(* ===== verification/ResourceGraph.v ===== *)
(** * resource_graph.py: graph facts of repository-relative paths

    Classification of a path, module names, and the graph of files and modules
    that symbol scopes are matched against.  The two dictionaries keyed by
    identifier keep the first node or edge of each ([setdefault]). *)

From S2P Require Import Sha256 Json ChangedFiles.
From S2P Require Export IntentContract.

(** ** Classification *)

Definition _PYTHON_SOURCE_ROOTS : list string := ["src"; "lib"; "tests"; "test"].
Definition _CONFIG_SUFFIXES : list string :=
  [".cfg"; ".conf"; ".ini"; ".json"; ".toml"; ".yaml"; ".yml"].
Definition _DOC_SUFFIXES : list string := [".md"; ".rst"; ".txt"].
Definition _SECRET_TOKENS : list string :=
  [".env"; "credential"; "credentials"; "id_rsa"; "private_key"; "secret"; "secrets"; "token"].
Definition _DEPENDENCY_MANIFESTS : list string :=
  ["Cargo.toml"; "Gemfile"; "go.mod"; "package.json"; "pnpm-workspace.yaml"; "poetry.lock";
   "pyproject.toml"; "requirements.txt"; "setup.cfg"; "setup.py"; "uv.toml"].
Definition _LOCKFILE_NAMES : list string :=
  ["Cargo.lock"; "Gemfile.lock"; "go.sum"; "package-lock.json"; "pnpm-lock.yaml"; "poetry.lock";
   "uv.lock"; "yarn.lock"].

(** [s.endswith((...))] *)
Definition endswith_any (s : string) (suffixes : list string) : bool :=
  existsb (endswith s) suffixes.

(** [PurePosixPath(s).name] *)
Definition path_name (s : string) : string := PurePosixPath.name (PurePosixPath.of_string s).

Definition _is_secret_path (lowered_path : string) : bool := contains_any _SECRET_TOKENS lowered_path.

Definition _is_policy_path (lowered_path : string) : bool :=
  startswith lowered_path ".rygnal/" || contains lowered_path "/policy"
  || startswith lowered_path "policies/" || endswith lowered_path "policy.yaml"
  || endswith lowered_path "policy.yml".

Definition _is_test_path (lowered_path : string) : bool :=
  startswith lowered_path "tests/" || startswith lowered_path "test/"
  || startswith (path_name lowered_path) "test_" || endswith (path_name lowered_path) "_test.py"
  || endswith (path_name lowered_path) "_test.rs".

(** The classification of a normalized path: the body of
    [classify_resource_path] after its first statement. *)
Definition resource_kind_of (normalized : string) : ResourceKind.t :=
  let lowered := lower normalized in
  let name := path_name normalized in
  if _is_secret_path lowered then ResourceKind.SENSITIVE
  else if startswith normalized ".github/workflows/" then ResourceKind.CI_WORKFLOW
  else if mem name _LOCKFILE_NAMES then ResourceKind.LOCKFILE
  else if mem name _DEPENDENCY_MANIFESTS then ResourceKind.DEPENDENCY_MANIFEST
  else if _is_policy_path lowered then ResourceKind.POLICY
  else if _is_test_path lowered then ResourceKind.TEST
  else if endswith lowered ".py" then ResourceKind.PYTHON_MODULE
  else if endswith lowered ".rs" then ResourceKind.RUST_MODULE
  else if endswith_any lowered _CONFIG_SUFFIXES then ResourceKind.CONFIG
  else if endswith_any lowered _DOC_SUFFIXES then ResourceKind.DOCUMENTATION
  else if negb (contains name ".") then ResourceKind.DIRECTORY
  else ResourceKind.FILE.

Definition classify_resource_path (path : string) : result path_error ResourceKind.t :=
  normalized ← normalize_repo_relative_path path; Ok (resource_kind_of normalized).

(** ** Module names *)

(** [s.removesuffix(suffix)] when [s] ends with it. *)
Definition remove_last (n : nat) (s : string) : string := String.substring 0 (String.length s - n) s.

Definition drop_root (roots parts : list string) : list string :=
  match parts with
  | p :: rest => if mem p roots then rest else parts
  | [] => []
  end.

Definition drop_tail (tail : string) (parts : list string) : list string :=
  match last parts with
  | Some p => if String.eqb p tail then removelast parts else parts
  | None => parts
  end.

Definition python_module_name_for_path (path : string) : result path_error (option string) :=
  normalized ← normalize_repo_relative_path path;
  Ok (if negb (endswith normalized ".py") then None
      else
        let parts := PurePosixPath.parts (PurePosixPath.of_string (remove_last 3 normalized)) in
        let parts := drop_tail "__init__" (drop_root _PYTHON_SOURCE_ROOTS parts) in
        match parts with [] => None | _ => Some (str_join "." parts) end).

Definition rust_module_name_for_path (path : string) : result path_error (option string) :=
  normalized ← normalize_repo_relative_path path;
  Ok (if negb (endswith normalized ".rs") then None
      else
        let parts := PurePosixPath.parts (PurePosixPath.of_string (remove_last 3 normalized)) in
        let parts := drop_root ["src"] parts in
        match parts with
        | [] => None
        | ["lib"] => Some "crate"
        | ["main"] => Some "crate::main"
        | _ =>
            match drop_tail "mod" parts with
            | [] => Some "crate"
            | parts => Some (str_join "::" parts)
            end
        end).

(** ** Nodes and edges *)

Module ResourceGraphEdgeKind.
Inductive t := CONTAINS | DECLARES | CONFIGURES | TRACKS.
Definition value (k : t) : string :=
  match k with
  | CONTAINS => "contains" | DECLARES => "declares" | CONFIGURES => "configures" | TRACKS => "tracks"
  end.
End ResourceGraphEdgeKind.

Module ResourceGraphNode.
Record t := mk {
  node_id : string;
  kind : ResourceKind.t;
  path : option string;
  name : option string;
  language : option string;
  metadata : pydict;
}.
Definition audit_summary (n : t) : pyval :=
  of_dict
    [("node_id", PStr (node_id n)); ("kind", PStr (ResourceKind.value (kind n)));
     ("path", of_opt_str (path n)); ("name", of_opt_str (name n));
     ("language", of_opt_str (language n)); ("metadata", of_dict (metadata n))].
End ResourceGraphNode.

Module ResourceGraphEdge.
Record t := mk {
  edge_id : string;
  kind : ResourceGraphEdgeKind.t;
  source_id : string;
  target_id : string;
  reason_codes : list string;
}.
Definition audit_summary (e : t) : pyval :=
  of_dict
    [("edge_id", PStr (edge_id e)); ("kind", PStr (ResourceGraphEdgeKind.value (kind e)));
     ("source_id", PStr (source_id e)); ("target_id", PStr (target_id e));
     ("reason_codes", PTuple (List.map PStr (reason_codes e))); ("metadata", of_dict [])].
End ResourceGraphEdge.

Module ResourceGraph.
Record t := mk {
  nodes : list ResourceGraphNode.t;
  edges : list ResourceGraphEdge.t;
}.
Definition empty : t := mk [] [].
Definition audit_summary (g : t) : pyval :=
  of_dict
    [("node_count", PInt (Z.of_nat (List.length (nodes g))));
     ("edge_count", PInt (Z.of_nat (List.length (edges g))));
     ("nodes", PTuple (List.map ResourceGraphNode.audit_summary (nodes g)));
     ("edges", PTuple (List.map ResourceGraphEdge.audit_summary (edges g)))].
Definition node_by_id (g : t) (node_id : string) : option ResourceGraphNode.t :=
  List.find (fun n => String.eqb (ResourceGraphNode.node_id n) node_id) (nodes g).
End ResourceGraph.

Definition _node_id (namespace value : string) : string :=
  "resource:" +++ namespace +++ ":" +++ value.

Definition _stable_id (payload : jdict) (prefix : string) : string :=
  "resource_" +++ prefix +++ "_" +++ String.substring 0 24 (sha256_hex (canonical_json (JDict payload))).

Definition _edge (kind : ResourceGraphEdgeKind.t) (source_id target_id : string)
    (reason_codes : list string) : ResourceGraphEdge.t :=
  ResourceGraphEdge.mk
    (_stable_id
       [("kind", JStr (ResourceGraphEdgeKind.value kind)); ("source_id", JStr source_id);
        ("target_id", JStr target_id); ("reason_codes", JList (List.map JStr reason_codes))] "edge")
    kind source_id target_id reason_codes.

Definition _file_node (path : string) : result path_error ResourceGraphNode.t :=
  normalized ← normalize_repo_relative_path path;
  kind ← classify_resource_path normalized;
  Ok (ResourceGraphNode.mk (_node_id "file" normalized) kind (Some normalized)
        (Some (path_name normalized)) None [("identifier_kind", PStr "repo_relative_path")]).

Definition module_node (namespace : string) (kind : ResourceKind.t) (language path name : string)
    : ResourceGraphNode.t :=
  ResourceGraphNode.mk (_node_id namespace name) kind (Some path) (Some name) (Some language)
    [("identifier_kind", PStr "module")].

(** [if name: nodes.append(...)] *)
Definition when_named {A} (name : option string) (f : string -> A) : list A :=
  match name with Some n => if truthy n then [f n] else [] | None => [] end.

Definition _nodes_for_path (path : string) : result path_error (list ResourceGraphNode.t) :=
  file_node ← _file_node path;
  python_module ← python_module_name_for_path path;
  rust_module ← rust_module_name_for_path path;
  Ok (file_node
      :: when_named python_module (module_node "python_module" ResourceKind.PYTHON_MODULE "python" path)
      ++ when_named rust_module (module_node "rust_module" ResourceKind.RUST_MODULE "rust" path)).

Definition configuring_kinds : list ResourceKind.t :=
  [ResourceKind.CONFIG; ResourceKind.CI_WORKFLOW; ResourceKind.DEPENDENCY_MANIFEST;
   ResourceKind.LOCKFILE; ResourceKind.POLICY; ResourceKind.SENSITIVE].

Definition _edges_for_path (path file_node_id : string) : result path_error (list ResourceGraphEdge.t) :=
  python_module ← python_module_name_for_path path;
  rust_module ← rust_module_name_for_path path;
  resource_kind ← classify_resource_path path;
  Ok (when_named python_module (fun m =>
        _edge ResourceGraphEdgeKind.DECLARES file_node_id (_node_id "python_module" m)
          ["language:python"; "declares:module"])
      ++ when_named rust_module (fun m =>
        _edge ResourceGraphEdgeKind.DECLARES file_node_id (_node_id "rust_module" m)
          ["language:rust"; "declares:module"])
      ++ (if among resource_kind configuring_kinds
          then [_edge ResourceGraphEdgeKind.CONFIGURES file_node_id file_node_id
                  ["resource_kind:" +++ ResourceKind.value resource_kind]]
          else [])).

Definition facts_of_path (raw_path : string)
    : result path_error (list ResourceGraphNode.t * list ResourceGraphEdge.t) :=
  path ← normalize_repo_relative_path raw_path;
  nodes ← _nodes_for_path path;
  file_node ← _file_node path;
  edges ← _edges_for_path path (ResourceGraphNode.node_id file_node);
  Ok (nodes, edges).

Definition build_resource_graph_from_paths (paths : list string) : result path_error ResourceGraph.t :=
  facts ← mapR facts_of_path paths;
  let by_id {A} (id : A -> string) (l : list A) :=
    sort_by (fun a b => String.leb (id a) (id b)) (dedupe_by id [] l) in
  Ok (ResourceGraph.mk
        (by_id ResourceGraphNode.node_id (flat_map fst facts))
        (by_id ResourceGraphEdge.edge_id (flat_map snd facts))).

Definition build_resource_graph_from_changed_file_report (report : ChangedFileReport.t)
    : result path_error ResourceGraph.t :=
  build_resource_graph_from_paths (List.map ChangedFile.path (ChangedFileReport.files report)).
