(* ===== verification/ActionNormalizer.v ===== *)
(** * action_normalizer.py: commands and file effects as actions

    The normalized actions of a guarded run: one for the command, one for each
    changed file, with the evidence that is recorded about them. *)

From S2P Require Import Sha256 Json Regex.
From S2P Require Export ChangedFiles.
From S2P Require Export IntentContract.

(** ** Redaction of the command line *)

Definition _SECRET_ARG_KEYS : list string :=
  ["api_key"; "apikey"; "authorization"; "bearer"; "client_secret"; "credential"; "password";
   "private_key"; "secret"; "token"].

Definition _INLINE_CODE_OPTIONS : list string := ["-c"; "--command"; "-e"; "--eval"].

Definition alnum (c : ascii) : bool := is_ascii_letter c || is_digit c.
Definition alnum_underscore (c : ascii) : bool := alnum c || Ascii.eqb c "_".

Definition _SECRET_VALUE_PATTERNS : list regex :=
  [ rseqs [RWordB; rlit "sk-"; RChar alnum;
           rrep_ge 8 (RChar (fun c => alnum c || contains "._-" (String c ""))); RWordB];
    rseqs [RWordB; rlit "ghp_"; rrep_ge 16 (RChar alnum_underscore); RWordB];
    rseqs [RWordB; rlit "github_pat_"; rrep_ge 16 (RChar alnum_underscore); RWordB] ].

Definition _redact_command_arg (arg : string) : string :=
  let lowered := lower arg in
  if existsb (fun pattern => search pattern arg) _SECRET_VALUE_PATTERNS then "[REDACTED]"
  else if contains_any _SECRET_ARG_KEYS lowered then
    match cut "=" arg with
    | Some (key, _) => key +++ "=[REDACTED]"
    | None => "[REDACTED]"
    end
  else arg.

(** The loop of [_redacted_command]; [skip] is [skip_inline_payload]. *)
Fixpoint redact_args (skip : bool) (command : list string) : list string :=
  match command with
  | [] => []
  | arg :: rest =>
      if skip then "[REDACTED_INLINE_CODE]" :: redact_args false rest
      else _redact_command_arg arg :: redact_args (mem arg _INLINE_CODE_OPTIONS) rest
  end.

Definition _redacted_command (command : list string) : list string := redact_args false command.

(** ** Paths *)

Definition _DEPENDENCY_MANIFESTS : list string :=
  ["Cargo.toml"; "Gemfile"; "go.mod"; "package.json"; "pnpm-workspace.yaml"; "poetry.lock";
   "pyproject.toml"; "requirements.txt"; "setup.cfg"; "setup.py"; "uv.toml"].
Definition _LOCKFILE_NAMES : list string :=
  ["Cargo.lock"; "Gemfile.lock"; "go.sum"; "package-lock.json"; "pnpm-lock.yaml"; "poetry.lock";
   "uv.lock"; "yarn.lock"].

Definition _looks_like_repo_path (value : string) : bool :=
  if negb (truthy value) || startswith value "-" then false
  else if contains value "://" || contains value newline
          || contains value (String (ascii_of_N 13) "") then false
  else if contains_any [" "; String tab ""; ";"; "'"; String (ascii_of_N 34) ""; "("; ")"; "{"; "}"] value
       then false
  else if contains value "=" then false
  else if mem value ["."; ".."] then false
  else
    let path := PurePosixPath.of_string value in
    if PurePosixPath.is_absolute path then false
    else
      let name := PurePosixPath.name path in
      if startswith value "./" || contains value "/" then true
      else if startswith name "." && (1 <? String.length name)%nat then true
      else if contains name "." then true
      else mem name _DEPENDENCY_MANIFESTS || mem name _LOCKFILE_NAMES.

Definition _normalize_candidate_path (value : string) : option string :=
  let parts := PurePosixPath.parts (PurePosixPath.of_string value) in
  if existsb dotdot parts then None
  else
    match List.filter clean_part parts with
    | [] => None
    | clean_parts => Some (PurePosixPath.as_posix (PurePosixPath.of_string (str_join "/" clean_parts)))
    end.

(** The loop of [_extract_repo_paths]. *)
Fixpoint candidate_paths (skip : bool) (args : list string) : list string :=
  match args with
  | [] => []
  | arg :: rest =>
      if skip then candidate_paths false rest
      else if mem arg _INLINE_CODE_OPTIONS then candidate_paths true rest
      else if negb (_looks_like_repo_path arg) then candidate_paths false rest
      else
        match _normalize_candidate_path arg with
        | None => candidate_paths false rest
        | Some normalized => normalized :: candidate_paths false rest
        end
  end.

Definition _extract_repo_paths (command : list string) : list string :=
  fromkeys (candidate_paths false (List.tl command)).

Definition _is_secret_path (lowered_path : string) : bool :=
  contains_any [".env"; "credential"; "credentials"; "id_rsa"; "private_key"; "secret"; "secrets"; "token"]
    lowered_path.

Definition _is_policy_path (lowered_path : string) : bool :=
  startswith lowered_path ".rygnal/" || contains lowered_path "/policy"
  || startswith lowered_path "policies/" || endswith lowered_path "policy.yaml"
  || endswith lowered_path "policy.yml".

Definition base_name (s : string) : string := PurePosixPath.name (PurePosixPath.of_string s).

Definition _is_test_path (lowered_path : string) : bool :=
  startswith lowered_path "tests/" || startswith lowered_path "test/"
  || startswith (base_name lowered_path) "test_" || endswith (base_name lowered_path) "_test.py"
  || endswith (base_name lowered_path) "_test.rs".

Definition _resource_kind_for_path (path : string) : ResourceKind.t :=
  let normalized := strip (replace_char backslash slash path) in
  let lowered := lower normalized in
  let name := base_name normalized in
  if _is_secret_path lowered then ResourceKind.SENSITIVE
  else if startswith normalized ".github/workflows/" then ResourceKind.CI_WORKFLOW
  else if mem name _LOCKFILE_NAMES then ResourceKind.LOCKFILE
  else if mem name _DEPENDENCY_MANIFESTS then ResourceKind.DEPENDENCY_MANIFEST
  else if _is_policy_path lowered then ResourceKind.POLICY
  else if _is_test_path lowered then ResourceKind.TEST
  else if endswith lowered ".py" then ResourceKind.PYTHON_MODULE
  else if endswith lowered ".rs" then ResourceKind.RUST_MODULE
  else if existsb (endswith lowered) [".yaml"; ".yml"; ".toml"; ".json"; ".ini"; ".cfg"; ".conf"]
       then ResourceKind.CONFIG
  else if existsb (endswith lowered) [".md"; ".rst"; ".txt"] then ResourceKind.DOCUMENTATION
  else if negb (contains name ".") then ResourceKind.DIRECTORY
  else ResourceKind.FILE.

Definition preferred_kinds : list ResourceKind.t :=
  [ResourceKind.SENSITIVE; ResourceKind.POLICY; ResourceKind.CI_WORKFLOW;
   ResourceKind.DEPENDENCY_MANIFEST; ResourceKind.LOCKFILE; ResourceKind.CONFIG;
   ResourceKind.PYTHON_MODULE; ResourceKind.RUST_MODULE; ResourceKind.TEST].

Definition _dominant_resource_kind (paths : list string) : ResourceKind.t :=
  match List.map _resource_kind_for_path paths with
  | [] => ResourceKind.UNKNOWN
  | (k :: _) as kinds => default k (List.find (fun preferred => among preferred kinds) preferred_kinds)
  end.

(** ** Operations *)

Definition _command_name (command : list string) : string :=
  match command with
  | [] => "unknown"
  | arg0 :: _ => let name := lower (base_name arg0) in if truthy name then name else "unknown"
  end.

Definition _operation_from_command (command : list string) : IntentOperation.t :=
  let executable := _command_name command in
  let args := List.map lower (List.tl command) in
  let any_arg (names : list string) := existsb (fun arg => mem arg names) args in
  let git_arg (name : string) :=
    String.eqb executable "git" && match args with a :: _ => String.eqb a name | [] => false end in
  if mem executable ["rm"; "rmdir"; "unlink"] then
    if any_arg ["-r"; "-rf"; "-fr"; "--recursive"] then IntentOperation.DELETE_FOLDER
    else IntentOperation.DELETE_FILE
  else if git_arg "rm" then IntentOperation.DELETE_FILE
  else if git_arg "mv" then IntentOperation.MOVE
  else if mem executable ["mv"; "rename"] then IntentOperation.MOVE
  else if mem executable ["cp"; "mkdir"; "touch"] then IntentOperation.CREATE
  else if mem executable ["pytest"; "tox"] then IntentOperation.TEST
  else if mem executable ["ruff"] then IntentOperation.TEST
  else if mem executable ["python"; "python3"] && existsb (fun arg => contains arg "pytest") args
       then IntentOperation.TEST
  else if mem executable ["cargo"; "make"; "mvn"; "gradle"] && mem "test" args then IntentOperation.TEST
  else if mem executable ["cargo"; "make"; "mvn"; "gradle"] && mem "build" args then IntentOperation.BUILD
  else if mem executable ["npm"; "pnpm"; "yarn"] && mem "test" args then IntentOperation.TEST
  else if mem executable ["npm"; "pnpm"; "yarn"] && mem "build" args then IntentOperation.BUILD
  else if mem executable ["npm"; "pnpm"; "yarn"] && any_arg ["install"; "add"; "remove"; "update"]
       then IntentOperation.DEPENDENCY_CHANGE
  else if mem executable ["pip"; "pip3"; "poetry"; "uv"]
          && any_arg ["install"; "add"; "remove"; "update"; "sync"] then IntentOperation.DEPENDENCY_CHANGE
  else IntentOperation.COMMAND.

Definition _operation_from_changed_file (f : ChangedFile.t) : IntentOperation.t :=
  match ChangedFile.kind f with
  | ADDED | UNTRACKED => IntentOperation.CREATE
  | MODIFIED | MODE_CHANGED => IntentOperation.MODIFY
  | DELETED => IntentOperation.DELETE_FILE
  | RENAMED => IntentOperation.RENAME
  end.

Definition is_renamed (f : ChangedFile.t) : bool := bool_decide (ChangedFile.kind f = RENAMED).

Definition _affected_paths_for_changed_file (f : ChangedFile.t) : list string :=
  match is_renamed f, ChangedFile.old_path f with
  | true, Some old_path => [old_path; ChangedFile.path f]
  | _, _ => [ChangedFile.path f]
  end.

Definition _diff_metadata (patch_file : option PatchFileDiff.t) (patch_diff : option PatchDiff.t)
    : pydict :=
  let patch_present := PBool match patch_diff with Some _ => true | None => false end in
  match patch_file with
  | None => [("patch_present", patch_present); ("file_patch_present", PBool false)]
  | Some f =>
      [("patch_present", patch_present); ("file_patch_present", PBool true);
       ("patch_sha256", of_opt_str (PatchDiff.patch_sha256 <$> patch_diff));
       ("patch_size_bytes", PatchFileDiff.of_opt_int (PatchDiff.patch_size_bytes <$> patch_diff));
       ("additions", PatchFileDiff.of_opt_int (PatchFileDiff.additions f));
       ("deletions", PatchFileDiff.of_opt_int (PatchFileDiff.deletions f));
       ("binary", PBool (PatchFileDiff.binary f));
       ("old_mode", of_opt_str (PatchFileDiff.old_mode f));
       ("new_mode", of_opt_str (PatchFileDiff.new_mode f));
       ("mode_changed", PBool (PatchFileDiff.mode_changed f))]
  end.

(** The dictionary of [_patch_files_by_key] as the list of its insertions: the
    files under their own keys, then again without the old path. *)
Definition file_key : Type := option string * string.

Definition _patch_files_by_key (patch_diff : option PatchDiff.t) : list (file_key * PatchFileDiff.t) :=
  match patch_diff with
  | None => []
  | Some d =>
      List.map (fun f => ((PatchFileDiff.old_path f, PatchFileDiff.path f), f)) (PatchDiff.files d)
      ++ List.map (fun f => ((None, PatchFileDiff.path f), f)) (PatchDiff.files d)
  end.

(** [d.get(key)]: the last insertion wins. *)
Definition get_last (d : list (file_key * PatchFileDiff.t)) (key : file_key) : option PatchFileDiff.t :=
  snd <$> List.find (fun kv => bool_decide (fst kv = key)) (rev d).

Definition _patch_lookup_key (f : ChangedFile.t) : file_key := (ChangedFile.old_path f, ChangedFile.path f).

Definition _stable_action_id (source : NormalizedActionSource.t) (operation : IntentOperation.t)
    (affected_paths : list string) (old_path new_path : option string) (metadata : pydict) : string :=
  let payload := of_dict
    [("source", PStr (NormalizedActionSource.value source));
     ("operation", PStr (IntentOperation.value operation));
     ("affected_paths", PTuple (List.map PStr affected_paths));
     ("old_path", of_opt_str old_path); ("new_path", of_opt_str new_path);
     ("metadata", of_dict metadata)] in
  "normalized_action_"
    +++ String.substring 0 24 (sha256_hex (canonical_json (default JNull (to_json payload)))).

(** ** The normalizers *)

Definition normalize_command_action (command : list string) : result exn NormalizedAction.t :=
  let executable := _command_name command in
  let operation := _operation_from_command command in
  let affected_paths := _extract_repo_paths command in
  let resource_kind := _dominant_resource_kind affected_paths in
  let raw_evidence :=
    [("kind", PStr "argv"); ("executable", PStr executable);
     ("argc", PInt (Z.of_nat (List.length command)));
     ("argv_redacted", PTuple (List.map PStr (_redacted_command command)))] in
  let reason_codes :=
    ["source:command"; "operation:" +++ IntentOperation.value operation;
     "executable:" +++ (if truthy executable then executable else "unknown");
     "resource_kind:" +++ ResourceKind.value resource_kind] in
  make_action
    (NormalizedAction.mk
       (_stable_action_id NormalizedActionSource.COMMAND operation affected_paths None None raw_evidence)
       NormalizedActionSource.COMMAND operation affected_paths None None resource_kind
       raw_evidence [] reason_codes).

Definition normalize_changed_file_action (changed_file : ChangedFile.t)
    (patch_file : option PatchFileDiff.t) (patch_diff : option PatchDiff.t)
    : result exn NormalizedAction.t :=
  let operation := _operation_from_changed_file changed_file in
  let affected_paths := _affected_paths_for_changed_file changed_file in
  let resource_kind := _dominant_resource_kind affected_paths in
  let kind := kind_value (ChangedFile.kind changed_file) in
  let old_path := if is_renamed changed_file then ChangedFile.old_path changed_file else None in
  let new_path := if is_renamed changed_file then Some (ChangedFile.path changed_file) else None in
  let raw_evidence :=
    [("kind", PStr "changed_file"); ("changed_file_kind", PStr kind);
     ("path", PStr (ChangedFile.path changed_file));
     ("old_path", of_opt_str (ChangedFile.old_path changed_file));
     ("mode_changed", PBool (ChangedFile.mode_changed changed_file));
     ("old_mode", of_opt_str (ChangedFile.old_mode changed_file));
     ("new_mode", of_opt_str (ChangedFile.new_mode changed_file))] in
  let reason_codes :=
    ["source:filesystem"; "changed_file_kind:" +++ kind;
     "operation:" +++ IntentOperation.value operation;
     "resource_kind:" +++ ResourceKind.value resource_kind;
     match patch_file with Some _ => "patch_metadata:present" | None => "patch_metadata:absent" end] in
  make_action
    (NormalizedAction.mk
       (_stable_action_id NormalizedActionSource.FILESYSTEM operation affected_paths old_path new_path
          [("changed_file_kind", PStr kind);
           ("patch_sha256", of_opt_str (PatchDiff.patch_sha256 <$> patch_diff))])
       NormalizedActionSource.FILESYSTEM operation affected_paths old_path new_path resource_kind
       raw_evidence (_diff_metadata patch_file patch_diff) reason_codes).

Definition normalize_changed_file_actions (report : ChangedFileReport.t)
    (patch_diff : option PatchDiff.t) : result exn (list NormalizedAction.t) :=
  let patch_files_by_key := _patch_files_by_key patch_diff in
  mapR (fun f =>
    normalize_changed_file_action f (get_last patch_files_by_key (_patch_lookup_key f)) patch_diff)
    (ChangedFileReport.files report).

Definition normalize_guarded_actions (command : list string) (report : option ChangedFileReport.t)
    (patch_diff : option PatchDiff.t) : result exn (list NormalizedAction.t) :=
  command_action ← normalize_command_action command;
  match report with
  | None => Ok [command_action]
  | Some r => actions ← normalize_changed_file_actions r patch_diff; Ok (command_action :: actions)
  end.

Definition normalized_actions_audit_summary (actions : list NormalizedAction.t) : pydict :=
  [("action_count", PInt (Z.of_nat (List.length actions)));
   ("operation_counts",
     of_counts (List.map (fun a => IntentOperation.value (NormalizedAction.operation a)) actions));
   ("resource_kind_counts",
     of_counts (List.map (fun a => ResourceKind.value (NormalizedAction.resource_kind a)) actions));
   ("source_counts",
     of_counts (List.map (fun a => NormalizedActionSource.value (NormalizedAction.source a)) actions));
   ("actions", PTuple (List.map dump_action actions))].

(** ** Lemmas: matches that stay left of a character *)

(** The expression consumes no [d] and does not look at the ends. *)
Fixpoint avoids (d : ascii) (r : regex) : bool :=
  match r with
  | RChar p => negb (p d)
  | RSeq a b | RAlt a b => avoids d a && avoids d b
  | RStar a => avoids d a
  | REps | RWordB => true
  | RBegin | REnd => false
  end.

(** Such a match does not depend on the text after the next [d]. *)
Lemma rmatch_local d r st st' :
  rmatch r st st' -> avoids d r = true ->
  forall s1 w, snd st = s1 +++ String d w ->
  exists s2, snd st' = s2 +++ String d w /\
    forall w', rmatch r (fst st, s1 +++ String d w') (fst st', s2 +++ String d w').
Proof.
  induction 1 as [st|p prev c s Hp|a b st1 st2 st3 _ IH1 _ IH2|a b st st' _ IH|a b st st' _ IH|a st
    |a st1 st2 st3 _ IH1 Hlt _ IH2|st Hb|s|st He]; cbn [avoids]; intros Hav s1 w Hs.
  - exists s1. split; [done|]. intros. constructor.
  - cbn in Hs. destruct s1 as [|c' s1]; cbn in Hs; injection Hs as -> ->.
    + by rewrite Hp in Hav.
    + exists s1. split; [done|]. intros. by constructor.
  - apply andb_true_iff in Hav as [Ha Hb].
    destruct (IH1 Ha _ _ Hs) as (s2 & Hs2 & M1). destruct (IH2 Hb _ _ Hs2) as (s3 & Hs3 & M2).
    exists s3. split; [done|]. intros w'. eapply m_seq; [apply M1|apply M2].
  - apply andb_true_iff in Hav as [Ha Hb]. destruct (IH Ha _ _ Hs) as (s2 & Hs2 & M).
    exists s2. split; [done|]. intros. by apply m_alt_l.
  - apply andb_true_iff in Hav as [Ha Hb]. destruct (IH Hb _ _ Hs) as (s2 & Hs2 & M).
    exists s2. split; [done|]. intros. by apply m_alt_r.
  - exists s1. split; [done|]. intros. constructor.
  - destruct (IH1 Hav _ _ Hs) as (s2 & Hs2 & M1). destruct (IH2 Hav _ _ Hs2) as (s3 & Hs3 & M2).
    exists s3. split; [done|]. intros w'. eapply m_star_step; [apply M1| |apply M2].
    unfold plen in *. rewrite Hs, Hs2 in Hlt. cbn [snd]. rewrite !slen_app in *. cbn in *. lia.
  - exists s1. split; [done|]. intros w'. destruct st as [prev s]. cbn in *. constructor.
    unfold word_boundary in *. cbn [fst snd] in *. rewrite Hs in Hb. by destruct s1.
  - done.
  - done.
Qed.

Lemma app_split a b u v :
  a +++ b = u +++ v ->
  (exists k, a = u +++ k /\ v = k +++ b) \/ (exists c k, u = a +++ String c k /\ b = String c k +++ v).
Proof.
  revert u. induction a as [|x a IH]; intros u H; cbn in H.
  - destruct u as [|c k]; [by left; exists ""|]. right. by exists c, k.
  - destruct u as [|y u]; cbn in H.
    + left. exists (String x a). by subst.
    + injection H as <- H. destruct (IH u H) as [(k & -> & ->)|(c & k & -> & ->)].
      * left. by exists k.
      * right. by exists c, k.
Qed.

Lemma last_char_app prev u c : last_char prev (u +++ String c "") = Some c.
Proof. revert prev. induction u as [|x u IH]; intros prev; cbn; [done|]. apply IH. Qed.

Lemma last_char_app2 prev u c k : last_char prev (u +++ String c k) = last_char (Some c) k.
Proof. revert prev. induction u as [|x u IH]; intros prev; cbn; [done|]. apply IH. Qed.

Lemma cut_Some sep s a b : cut sep s = Some (a, b) -> s = a +++ String sep b.
Proof.
  revert a. induction s as [|c s IH]; intros a; cbn; [done|].
  destruct (Ascii.eqb_spec c sep) as [->|]; [by intros [= <- <-]|].
  destruct (cut sep s) as [[x y]|]; [|done]. intros [= <- <-]. cbn. f_equal. by apply IH.
Qed.

(** Replacing what follows a [d] brings in no match the replacement does not
    have itself. *)
Lemma search_replace_tail d r key v w :
  avoids d r = true -> search_from r (Some d) w = false ->
  search r (key +++ String d v) = false -> search r (key +++ String d w) = false.
Proof.
  intros Hav Hw Hv. apply not_true_iff_false. intros (u & t & st & Heq & Hm)%search_spec.
  apply app_split in Heq as [(k & -> & ->)|(c & k & -> & Hk)].
  - destruct (rmatch_local d r _ _ Hm Hav k w eq_refl) as (s2 & _ & M).
    apply not_true_iff_false in Hv. apply Hv, search_spec.
    exists u, (k +++ String d v), (fst st, s2 +++ String d v).
    split; [by rewrite app_assoc_str|apply M].
  - cbn in Hk. injection Hk as <- ->. rewrite last_char_app2 in Hm.
    apply not_true_iff_false in Hw. apply Hw, search_from_spec. by exists k, t, st.
Qed.

Definition shows_credential (s : string) : bool :=
  existsb (fun pattern => search pattern s) _SECRET_VALUE_PATTERNS.

Lemma masked_assignment_hides key v :
  shows_credential (key +++ String "=" v) = false ->
  shows_credential (key +++ "=[REDACTED]") = false.
Proof.
  unfold shows_credential. rewrite !existsb_false_elem_of. intros H r Hr.
  apply (search_replace_tail "=" r key v).
  - assert (forallb (avoids "=") _SECRET_VALUE_PATTERNS = true) as Ha by reflexivity.
    rewrite forallb_elem_of in Ha. by apply Ha.
  - assert (forallb (fun r => negb (search_from r (Some "="%char) "[REDACTED]"))
              _SECRET_VALUE_PATTERNS = true) as Hs by reflexivity.
    rewrite forallb_elem_of in Hs. by apply negb_true_iff, Hs.
  - by apply H.
Qed.

(** What one recorded argument is. *)
Lemma redact_arg_spec arg :
  shows_credential (_redact_command_arg arg) = false /\
  ((_redact_command_arg arg = arg /\ contains_any _SECRET_ARG_KEYS (lower arg) = false) \/
   _redact_command_arg arg = "[REDACTED]" \/
   exists key v, arg = key +++ String "=" v /\ _redact_command_arg arg = key +++ "=[REDACTED]").
Proof.
  unfold _redact_command_arg. fold (shows_credential arg).
  destruct (shows_credential arg) eqn:Hs; [split; [reflexivity|auto]|].
  destruct (contains_any _ _) eqn:Hk; [|auto].
  destruct (cut "=" arg) as [[key v]|] eqn:Hc; [|split; [reflexivity|auto]].
  apply cut_Some in Hc as ->. split; [by eapply masked_assignment_hides|]. right. right. eauto.
Qed.

(** Position [i] holds the code given to the option before it. *)
Fixpoint payload_at (command : list string) (i : nat) : bool :=
  match i with
  | O => false
  | S j =>
      negb (payload_at command j)
      && match command !! j with Some o => mem o _INLINE_CODE_OPTIONS | None => false end
  end.

Lemma redact_args_lookup rest pre i :
  redact_args (payload_at (pre ++ rest) (List.length pre)) rest !! i
  = (fun arg => if payload_at (pre ++ rest) (List.length pre + i) then "[REDACTED_INLINE_CODE]"
                else _redact_command_arg arg) <$> rest !! i.
Proof.
  revert pre i. induction rest as [|a rest IH]; intros pre i; [done|].
  specialize (IH (pre ++ [a])). rewrite <- app_assoc in IH. cbn [app] in IH.
  rewrite length_app in IH. cbn [List.length] in IH. rewrite Nat.add_1_r in IH.
  cbn [payload_at] in IH. rewrite list_lookup_middle in IH by done.
  cbn [redact_args]. destruct (payload_at (pre ++ a :: rest) (List.length pre)) eqn:Hp.
  - destruct i as [|i]; cbn [lookup list_lookup]; [cbn; by rewrite Nat.add_0_r, Hp|].
    cbn [negb andb] in IH. rewrite IH. by rewrite Nat.add_succ_r.
  - destruct i as [|i]; cbn [lookup list_lookup]; [cbn; by rewrite Nat.add_0_r, Hp|].
    cbn [negb andb] in IH. rewrite IH. by rewrite Nat.add_succ_r.
Qed.

(** ** Theorems *)

(** What is recorded of a command line shows no credential: no recorded
    argument matches a credential pattern, the code given to an inline-code
    option is masked whole, and every other argument is recorded verbatim only
    if it names no secret, and otherwise as a mask or as its key with a masked
    value. *)
Theorem recorded_command_hides_credentials command i out :
  _redacted_command command !! i = Some out ->
  shows_credential out = false /\
  exists arg, command !! i = Some arg /\
    (if payload_at command i then out = "[REDACTED_INLINE_CODE]"
     else (out = arg /\ contains_any _SECRET_ARG_KEYS (lower arg) = false) \/
          out = "[REDACTED]" \/
          exists key v, arg = key +++ String "=" v /\ out = key +++ "=[REDACTED]").
Proof.
  unfold _redacted_command. intros H. pose proof (redact_args_lookup command [] i) as E.
  cbn [app List.length payload_at Nat.add] in E. rewrite E in H. clear E.
  destruct (command !! i) as [arg|] eqn:Ha; [|done]. cbn in H. injection H as <-.
  destruct (payload_at command i); [split; [reflexivity|by exists arg]|].
  destruct (redact_arg_spec arg) as [H1 H2]. split; [done|]. by exists arg.
Qed.

Lemma recorded_command_witness :
  shows_credential "[REDACTED_INLINE_CODE]" = false /\
  _redacted_command ["python"; "-c"; "print(1)"; "API_TOKEN=x"]
    = ["python"; "-c"; "[REDACTED_INLINE_CODE]"; "API_TOKEN=[REDACTED]"].
Proof.
  split; [|reflexivity].
  apply (recorded_command_hides_credentials ["python"; "-c"; "print(1)"] 2). reflexivity.
Defined.

(** A secret given as an argument of its own, after its option, is recorded in
    the clear. *)
Lemma separate_secret_is_recorded :
  _redacted_command ["curl"; "--password"; "hunter2"] = ["curl"; "[REDACTED]"; "hunter2"].
Proof. reflexivity. Qed.
