(* ===== verification/CapabilityMatcher.v ===== *)
(** * capability_matcher.py: actions against an intent contract

    The match of a normalized action with a contract: the order of its tests
    is the source's, each outcome with its reason codes, hint and metadata. *)

From S2P Require Import Fnmatch.
From S2P Require Export IntentContract ResourceGraph.

(** ** Definitions *)

Definition _SENSITIVE_RESOURCE_KINDS : list ResourceKind.t := [ResourceKind.SENSITIVE].
Definition _CONFIG_RESOURCE_KINDS : list ResourceKind.t :=
  [ResourceKind.CONFIG; ResourceKind.CI_WORKFLOW; ResourceKind.POLICY].
Definition _DEPENDENCY_RESOURCE_KINDS : list ResourceKind.t :=
  [ResourceKind.DEPENDENCY_MANIFEST; ResourceKind.LOCKFILE].
Definition _MUTATING_OPERATIONS : list IntentOperation.t :=
  [IntentOperation.CREATE; IntentOperation.MODIFY; IntentOperation.DELETE_FILE;
   IntentOperation.DELETE_FOLDER; IntentOperation.RENAME; IntentOperation.MOVE].

Module OperationMatch.
Record t := mk {
  allowed : bool;
  exact : bool;
  reason_codes : list string;
}.
End OperationMatch.

Definition _semantic_operation_reason (action : NormalizedAction.t) (contract : IntentContract.t)
    : option string :=
  if among IntentOperation.CONFIG_CHANGE (IntentContract.allowed_actions contract)
     && among (NormalizedAction.operation action) _MUTATING_OPERATIONS
     && among (NormalizedAction.resource_kind action) _CONFIG_RESOURCE_KINDS
  then Some "operation-semantic-match:config_change"
  else if among IntentOperation.DEPENDENCY_CHANGE (IntentContract.allowed_actions contract)
     && among (NormalizedAction.operation action) _MUTATING_OPERATIONS
     && among (NormalizedAction.resource_kind action) _DEPENDENCY_RESOURCE_KINDS
  then Some "operation-semantic-match:dependency_change"
  else None.

Definition _operation_allowed (action : NormalizedAction.t) (contract : IntentContract.t)
    : OperationMatch.t :=
  let operation := NormalizedAction.operation action in
  if among operation (IntentContract.allowed_actions contract) then
    OperationMatch.mk true true ["operation-exact:" +++ IntentOperation.value operation]
  else
    match _semantic_operation_reason action contract with
    | Some semantic_reason => OperationMatch.mk true false [semantic_reason]
    | None =>
        OperationMatch.mk false false
          ["operation-not-allowed"; "action_operation:" +++ IntentOperation.value operation;
           "allowed_actions:"
             +++ str_join "," (List.map IntentOperation.value (IntentContract.allowed_actions contract))]
    end.

(** *** Scopes *)

Definition _matches_exact_path (scope_value : string) (action_paths : list string) : bool :=
  match normalize_repo_relative_path scope_value with
  | Ok expected => mem expected action_paths
  | Raise _ => false
  end.

Definition _matches_path_glob (scope_value : string) (action_paths : list string) : bool :=
  let pattern := lstrip_by (Ascii.eqb slash) (replace_char backslash slash (strip scope_value)) in
  existsb (fun path => fnmatch path pattern) action_paths.

Definition _matches_file_type (scope_value : string) (action_paths : list string) : bool :=
  let suffix := lower (strip scope_value) in
  if negb (truthy suffix) then false
  else
    let suffix := if startswith suffix "." then suffix else "." +++ suffix in
    existsb (fun path => endswith (lower (path_name path)) suffix) action_paths.

Definition _resource_kind_matches (expected : ResourceKind.t) (action : NormalizedAction.t) : bool :=
  let kind := NormalizedAction.resource_kind action in
  bool_decide (kind = expected)
  || (bool_decide (expected = ResourceKind.CONFIG) && among kind _CONFIG_RESOURCE_KINDS)
  || (bool_decide (expected = ResourceKind.DEPENDENCY_MANIFEST) && among kind _DEPENDENCY_RESOURCE_KINDS).

Definition _matches_resource_kind_scope (scope : ResourceScope.t) (action : NormalizedAction.t) : bool :=
  match ResourceScope.resource_kind scope with
  | Some expected => _resource_kind_matches expected action
  | None =>
      match ResourceKind.of_value (lower (strip (ResourceScope.value scope))) with
      | Some expected => _resource_kind_matches expected action
      | None => false
      end
  end.

Definition symbol_kinds : list ResourceKind.t :=
  [ResourceKind.PYTHON_MODULE; ResourceKind.PYTHON_SYMBOL; ResourceKind.RUST_MODULE;
   ResourceKind.RUST_SYMBOL].

Definition _matches_symbol (scope_value : string) (graph : ResourceGraph.t) : bool :=
  let expected := strip scope_value in
  truthy expected &&
  existsb (fun node =>
    among (ResourceGraphNode.kind node) symbol_kinds
    && (bool_decide (ResourceGraphNode.name node = Some expected)
        || String.eqb (ResourceGraphNode.node_id node) expected))
    (ResourceGraph.nodes graph).

Definition _scope_matches (scope : ResourceScope.t) (action : NormalizedAction.t)
    (action_paths : list string) (graph : ResourceGraph.t) : bool :=
  let kind_ok :=
    match ResourceScope.resource_kind scope with
    | Some kind => _resource_kind_matches kind action
    | None => true
    end in
  kind_ok &&
  match ResourceScope.type scope with
  | ResourceScopeType.EXACT_PATH => _matches_exact_path (ResourceScope.value scope) action_paths
  | ResourceScopeType.PATH_GLOB => _matches_path_glob (ResourceScope.value scope) action_paths
  | ResourceScopeType.FILE_TYPE => _matches_file_type (ResourceScope.value scope) action_paths
  | ResourceScopeType.RESOURCE_KIND => _matches_resource_kind_scope scope action
  | ResourceScopeType.SYMBOL => _matches_symbol (ResourceScope.value scope) graph
  end.

Definition _matching_scopes (scopes : list ResourceScope.t) (action : NormalizedAction.t)
    (action_paths : list string) (graph : ResourceGraph.t) : list ResourceScope.t :=
  List.filter (fun scope => _scope_matches scope action action_paths graph) scopes.

(** *** Paths *)

Definition raw_action_paths (action : NormalizedAction.t) : list string :=
  NormalizedAction.affected_paths action
  ++ match NormalizedAction.old_path action with Some p => [p] | None => [] end
  ++ match NormalizedAction.new_path action with Some p => [p] | None => [] end.

(** The normalized paths without repetition, and the reason when one of them
    is not a repository-relative path. *)
Definition _normalized_action_paths (action : NormalizedAction.t) : list string * list string :=
  let normalized := List.map normalize_repo_relative_path (raw_action_paths action) in
  (fromkeys (flat_map (fun r => match r with Ok p => [p] | Raise _ => [] end) normalized),
   if existsb (fun r => negb (is_ok r)) normalized then ["invalid-action-path"] else []).

Definition _safe_graph_for_paths (paths : list string) : result path_error ResourceGraph.t :=
  match paths with [] => Ok ResourceGraph.empty | _ => build_resource_graph_from_paths paths end.

Definition _requires_path_or_graph_scope (scopes : list ResourceScope.t) : bool :=
  existsb (fun scope =>
    match ResourceScope.type scope with ResourceScopeType.RESOURCE_KIND => false | _ => true end) scopes.

Definition _action_paths_outside_target_scopes (scopes : list ResourceScope.t)
    (action : NormalizedAction.t) (action_paths : list string) (graph : ResourceGraph.t)
    : list string :=
  if match action_paths with [] => true | _ => false end
     || negb (_requires_path_or_graph_scope scopes) then []
  else
    List.filter (fun path => negb (existsb (fun scope => _scope_matches scope action [path] graph) scopes))
      action_paths.

(** [==] of two scopes. *)
Definition scope_eqb (a b : ResourceScope.t) : bool :=
  bool_decide (ResourceScope.type a = ResourceScope.type b)
  && String.eqb (ResourceScope.value a) (ResourceScope.value b)
  && bool_decide (ResourceScope.resource_kind a = ResourceScope.resource_kind b)
  && py_eq (of_dict (ResourceScope.metadata a)) (of_dict (ResourceScope.metadata b)).

(** *** The match *)

Definition matcher_path_error (e : path_error) : exn :=
  mk_exn RuntimeError "ChangedFilePathError" (ChangeRisk.path_error_message e).

Definition match_action_to_contract (action : NormalizedAction.t) (contract : IntentContract.t)
    : result exn IntentMatchResult.t :=
  let '(action_paths, path_reason_codes) := _normalized_action_paths action in
  graph ← map_err matcher_path_error (_safe_graph_for_paths action_paths);
  let kind := NormalizedAction.resource_kind action in
  let targets := IntentContract.target_scopes contract in
  let metadata :=
    [("action_operation", PStr (IntentOperation.value (NormalizedAction.operation action)));
     ("action_resource_kind", PStr (ResourceKind.value kind));
     ("affected_paths", PTuple (List.map PStr action_paths));
     ("target_scope_count", PInt (Z.of_nat (List.length targets)));
     ("excluded_scope_count", PInt (Z.of_nat (List.length (IntentContract.excluded_scopes contract))))] in
  let outcome state matched unmatched reasons hint extra :=
    make_match (IntentMatchResult.mk state (Some (IntentContract.contract_id contract))
      (Some (NormalizedAction.action_id action)) matched unmatched reasons hint
      (dict_update metadata extra)) in
  if among kind _SENSITIVE_RESOURCE_KINDS then
    outcome IntentMatchState.HARD_SENSITIVE [] []
      ["hard-sensitive-resource"; "resource_kind:" +++ ResourceKind.value kind]
      IntentDecisionHint.BLOCK []
  else if match path_reason_codes with [] => false | _ => true end then
    outcome IntentMatchState.UNKNOWN [] [] path_reason_codes IntentDecisionHint.REQUIRE_APPROVAL []
  else
    match _matching_scopes (IntentContract.excluded_scopes contract) action action_paths graph with
    | (_ :: _) as excluded_matches =>
        outcome IntentMatchState.CONFLICT excluded_matches [] ["excluded-scope-match"]
          IntentDecisionHint.REQUIRE_APPROVAL
          [("matched_excluded_scope_count", PInt (Z.of_nat (List.length excluded_matches)))]
    | [] =>
        let operation_match := _operation_allowed action contract in
        let reasons := OperationMatch.reason_codes operation_match in
        if negb (OperationMatch.allowed operation_match) then
          outcome (if decide (NormalizedAction.operation action = IntentOperation.UNKNOWN)
                   then IntentMatchState.UNKNOWN else IntentMatchState.CONFLICT) [] []
            reasons IntentDecisionHint.REQUIRE_APPROVAL []
        else
          match targets with
          | [] =>
              if OperationMatch.exact operation_match
              then outcome IntentMatchState.EXACT_MATCH [] [] [] IntentDecisionHint.ALLOW []
              else outcome IntentMatchState.PARTIAL_MATCH [] [] reasons IntentDecisionHint.AUDIT []
          | _ :: _ =>
              if match action_paths with [] => true | _ => false end
                 && _requires_path_or_graph_scope targets then
                outcome IntentMatchState.UNKNOWN [] targets ["scope-unknown:no-affected-paths"]
                  IntentDecisionHint.REQUIRE_APPROVAL []
              else
                let matched_scopes := _matching_scopes targets action action_paths graph in
                let count :=
                  ("matched_target_scope_count", PInt (Z.of_nat (List.length matched_scopes))) in
                match matched_scopes with
                | [] =>
                    outcome IntentMatchState.DRIFT [] targets ["target-scope-drift"]
                      IntentDecisionHint.REQUIRE_APPROVAL []
                | _ =>
                    match _action_paths_outside_target_scopes targets action action_paths graph with
                    | (_ :: _) as out_of_scope_paths =>
                        outcome IntentMatchState.PARTIAL_MATCH matched_scopes
                          (List.filter (fun scope => negb (existsb (scope_eqb scope) matched_scopes)) targets)
                          (fromkeys ("target-scope-partial" :: reasons)) IntentDecisionHint.AUDIT
                          [count; ("out_of_scope_paths", PTuple (List.map PStr out_of_scope_paths))]
                    | [] =>
                        if OperationMatch.exact operation_match
                        then outcome IntentMatchState.EXACT_MATCH matched_scopes [] []
                               IntentDecisionHint.ALLOW [count]
                        else outcome IntentMatchState.PARTIAL_MATCH matched_scopes [] reasons
                               IntentDecisionHint.AUDIT [count]
                    end
                end
          end
    end.

Definition match_actions_to_contract (actions : list NormalizedAction.t) (contract : IntentContract.t)
    : result exn (list IntentMatchResult.t) :=
  mapR (fun action => match_action_to_contract action contract) actions.

Definition intent_match_results_audit_summary (results : list IntentMatchResult.t) : pydict :=
  [("result_count", PInt (Z.of_nat (List.length results)));
   ("match_state_counts",
     of_counts (List.map (fun r => IntentMatchState.value (IntentMatchResult.match_state r)) results));
   ("decision_hint_counts",
     of_counts (List.map (fun r => IntentDecisionHint.value (IntentMatchResult.decision_hint r)) results));
   ("results", PTuple (List.map dump_match results))].

(** ** The specification of an authorized action *)

Definition paths_of (action : NormalizedAction.t) : list string := fst (_normalized_action_paths action).

(** Everything an exact match requires: no sensitive resource, only
    repository-relative paths, no excluded scope, an operation the contract
    names, and target scopes that cover the action and each of its paths. *)
Record authorized (action : NormalizedAction.t) (contract : IntentContract.t)
    (graph : ResourceGraph.t) : Prop := mk_authorized {
  au_kind : NormalizedAction.resource_kind action <> ResourceKind.SENSITIVE;
  au_paths : forall p, p ∈ raw_action_paths action -> is_ok (normalize_repo_relative_path p) = true;
  au_excluded : forall s, s ∈ IntentContract.excluded_scopes contract ->
    _scope_matches s action (paths_of action) graph = false;
  au_operation : NormalizedAction.operation action ∈ IntentContract.allowed_actions contract;
  au_target : IntentContract.target_scopes contract <> [] ->
    exists s, s ∈ IntentContract.target_scopes contract /\
      _scope_matches s action (paths_of action) graph = true;
  au_covered : _requires_path_or_graph_scope (IntentContract.target_scopes contract) = true ->
    paths_of action <> [] /\
    forall p, p ∈ paths_of action -> exists s, s ∈ IntentContract.target_scopes contract /\
      _scope_matches s action [p] graph = true;
}.

(** ** Lemmas *)

Lemma filter_nil_iff {A} (p : A -> bool) l :
  List.filter p l = [] <-> forall x, x ∈ l -> p x = false.
Proof.
  split.
  - intros H x Hx. apply not_true_iff_false. intros Hp.
    assert (x ∈ List.filter p l) as Hin by (by apply elem_of_lfilter).
    rewrite H in Hin. by apply elem_of_nil in Hin.
  - intros H. destruct (List.filter p l) as [|x l'] eqn:E; [done|].
    assert (x ∈ List.filter p l) as [Hx Hp]%elem_of_lfilter by (rewrite E; set_solver).
    by rewrite H in Hp.
Qed.

Lemma operation_exact action contract :
  OperationMatch.exact (_operation_allowed action contract) = true <->
  NormalizedAction.operation action ∈ IntentContract.allowed_actions contract.
Proof.
  unfold _operation_allowed. rewrite <- among_spec. destruct (among _ _); [done|].
  by destruct (_semantic_operation_reason _ _).
Qed.

Lemma operation_exact_allowed action contract :
  OperationMatch.exact (_operation_allowed action contract) = true ->
  OperationMatch.allowed (_operation_allowed action contract) = true.
Proof.
  unfold _operation_allowed. destruct (among _ _); [done|].
  by destruct (_semantic_operation_reason _ _).
Qed.

Lemma path_reasons_nil action :
  snd (_normalized_action_paths action) = [] <->
  forall p, p ∈ raw_action_paths action -> is_ok (normalize_repo_relative_path p) = true.
Proof.
  unfold _normalized_action_paths. cbn [snd]. destruct (existsb _ _) eqn:E.
  - split; [done|]. intros H. apply existsb_elem_of in E as (r & Hr & Hb).
    apply list_elem_of_In, in_map_iff in Hr as (p & <- & Hp). apply list_elem_of_In, H in Hp.
    by rewrite Hp in Hb.
  - split; [|done]. intros _ p Hp. rewrite existsb_false_elem_of in E.
    specialize (E (normalize_repo_relative_path p)). apply negb_false_iff, E.
    apply list_elem_of_In, in_map, list_elem_of_In, Hp.
Qed.

Lemma outside_nil scopes action paths graph :
  paths <> [] -> _requires_path_or_graph_scope scopes = true ->
  _action_paths_outside_target_scopes scopes action paths graph = [] <->
  forall p, p ∈ paths -> exists s, s ∈ scopes /\ _scope_matches s action [p] graph = true.
Proof.
  intros Hp Hr. unfold _action_paths_outside_target_scopes. rewrite Hr. destruct paths as [|q qs]; [done|].
  cbn [negb orb]. rewrite filter_nil_iff. setoid_rewrite negb_false_iff.
  by setoid_rewrite existsb_elem_of.
Qed.

Lemma outside_not_required scopes action paths graph :
  _requires_path_or_graph_scope scopes = false ->
  _action_paths_outside_target_scopes scopes action paths graph = [].
Proof. intros Hr. unfold _action_paths_outside_target_scopes. by rewrite Hr, orb_true_r. Qed.

(** The branch that was taken: [match_action_to_contract] is a sequence of
    tests, each with one outcome. *)
Definition verdict (action : NormalizedAction.t) (contract : IntentContract.t) (graph : ResourceGraph.t)
    : IntentMatchState.t * IntentDecisionHint.t :=
  let paths := paths_of action in
  let targets := IntentContract.target_scopes contract in
  let op := _operation_allowed action contract in
  let approval state := (state, IntentDecisionHint.REQUIRE_APPROVAL) in
  let exact := (IntentMatchState.EXACT_MATCH, IntentDecisionHint.ALLOW) in
  let partial := (IntentMatchState.PARTIAL_MATCH, IntentDecisionHint.AUDIT) in
  if among (NormalizedAction.resource_kind action) _SENSITIVE_RESOURCE_KINDS
  then (IntentMatchState.HARD_SENSITIVE, IntentDecisionHint.BLOCK)
  else if match snd (_normalized_action_paths action) with [] => false | _ => true end
  then approval IntentMatchState.UNKNOWN
  else match _matching_scopes (IntentContract.excluded_scopes contract) action paths graph with
  | _ :: _ => approval IntentMatchState.CONFLICT
  | [] =>
      if negb (OperationMatch.allowed op)
      then approval (if decide (NormalizedAction.operation action = IntentOperation.UNKNOWN)
                     then IntentMatchState.UNKNOWN else IntentMatchState.CONFLICT)
      else match targets with
      | [] => if OperationMatch.exact op then exact else partial
      | _ =>
          if match paths with [] => true | _ => false end && _requires_path_or_graph_scope targets
          then approval IntentMatchState.UNKNOWN
          else match _matching_scopes targets action paths graph with
          | [] => approval IntentMatchState.DRIFT
          | _ =>
              match _action_paths_outside_target_scopes targets action paths graph with
              | _ :: _ => partial
              | [] => if OperationMatch.exact op then exact else partial
              end
          end
      end
  end.

Lemma match_verdict action contract r :
  match_action_to_contract action contract = Ok r ->
  exists graph, _safe_graph_for_paths (paths_of action) = Ok graph /\
    (IntentMatchResult.match_state r, IntentMatchResult.decision_hint r) = verdict action contract graph.
Proof.
  unfold match_action_to_contract, verdict, paths_of.
  destruct (_normalized_action_paths action) as [paths reasons]. cbn [fst snd].
  intros (graph & Hg & H)%bind_Ok_inv. exists graph.
  split; [by destruct (_safe_graph_for_paths paths); cbn in Hg; simplify_eq|]. clear Hg.
  repeat (case_match; try (apply make_match_inv in H as (-> & -> & _); done)).
Qed.

Lemma verdict_exact action contract graph :
  fst (verdict action contract graph) = IntentMatchState.EXACT_MATCH <->
  authorized action contract graph.
Proof.
  unfold verdict. split.
  - destruct (among _ _SENSITIVE_RESOURCE_KINDS) eqn:Hk; [done|].
    assert (Hkind : NormalizedAction.resource_kind action <> ResourceKind.SENSITIVE).
    { intros E. apply not_true_iff_false in Hk. apply Hk, among_spec. rewrite E. by left. }
    destruct (snd (_normalized_action_paths action)) eqn:Hr; [|done].
    rewrite path_reasons_nil in Hr.
    destruct (_matching_scopes (IntentContract.excluded_scopes contract) _ _ _) eqn:Hex; [|done].
    unfold _matching_scopes in Hex. rewrite filter_nil_iff in Hex.
    destruct (OperationMatch.allowed _) eqn:Ha; cbn [negb]; [|by case_decide].
    destruct (IntentContract.target_scopes contract) as [|t ts] eqn:Ht.
    + destruct (OperationMatch.exact _) eqn:He; [|done]. intros _.
      apply operation_exact in He. constructor; rewrite ?Ht; auto; done.
    + destruct (match paths_of action with [] => true | _ => false end && _) eqn:Hn; [done|].
      destruct (_matching_scopes (t :: ts) _ _ _) as [|m ms] eqn:Hm; [done|].
      destruct (_action_paths_outside_target_scopes _ _ _ _) eqn:Ho; [|done].
      destruct (OperationMatch.exact _) eqn:He; [|done]. intros _. apply operation_exact in He.
      assert (m ∈ _matching_scopes (t :: ts) action (paths_of action) graph) as [Hin Hsm]%elem_of_lfilter
        by (rewrite Hm; set_solver).
      constructor; rewrite ?Ht; auto.
      * intros _. by exists m.
      * intros Hreq. rewrite Hreq, andb_true_r in Hn. destruct (paths_of action) eqn:Hp; [done|].
        split; [done|]. by apply outside_nil.
  - intros [Hk Hp Hex Hop Ht Hc].
    assert (among (NormalizedAction.resource_kind action) _SENSITIVE_RESOURCE_KINDS = false) as ->.
    { apply not_true_iff_false. rewrite among_spec. by intros ?%list_elem_of_singleton. }
    apply path_reasons_nil in Hp. rewrite Hp.
    unfold _matching_scopes at 1. apply filter_nil_iff in Hex. rewrite Hex.
    apply operation_exact in Hop. rewrite (operation_exact_allowed _ _ Hop), Hop. cbn [negb].
    destruct (IntentContract.target_scopes contract) as [|t ts] eqn:Hts; [done|].
    destruct (match paths_of action with [] => true | _ => false end && _) eqn:Hn.
    { apply andb_true_iff in Hn as [Hn Hr]. destruct (Hc Hr) as [Hne _].
      by destruct (paths_of action). }
    destruct (Ht ltac:(done)) as (s & Hs & Hm).
    destruct (_matching_scopes (t :: ts) _ _ _) eqn:E.
    { unfold _matching_scopes in E. rewrite filter_nil_iff in E. by rewrite E in Hm. }
    destruct (_requires_path_or_graph_scope (t :: ts)) eqn:Hr.
    + destruct (Hc eq_refl) as [Hne Hcov]. by rewrite (proj2 (outside_nil _ _ _ _ Hne Hr) Hcov).
    + by rewrite outside_not_required.
Qed.

Lemma verdict_hints action contract graph :
  (snd (verdict action contract graph) = IntentDecisionHint.ALLOW <->
   fst (verdict action contract graph) = IntentMatchState.EXACT_MATCH) /\
  (snd (verdict action contract graph) = IntentDecisionHint.BLOCK <->
   NormalizedAction.resource_kind action = ResourceKind.SENSITIVE) /\
  (fst (verdict action contract graph) = IntentMatchState.HARD_SENSITIVE <->
   NormalizedAction.resource_kind action = ResourceKind.SENSITIVE).
Proof.
  unfold verdict. destruct (among _ _SENSITIVE_RESOURCE_KINDS) eqn:Hk.
  - apply among_spec, list_elem_of_singleton in Hk. by rewrite Hk.
  - assert (Hkind : NormalizedAction.resource_kind action <> ResourceKind.SENSITIVE).
    { intros E. apply not_true_iff_false in Hk. apply Hk, among_spec. rewrite E. by left. }
    repeat (case_match; try (cbn; split_and!; split; done)).
Qed.

(** ** Theorems *)

(** C25 The matcher is exactly the specification: it reports an exact match, and
    the hint to allow, if and only if the action is authorized by the
    contract; it recommends a block if and only if the action touches a
    sensitive resource. *)
Theorem exact_match_iff_authorized action contract r :
  match_action_to_contract action contract = Ok r ->
  exists graph, _safe_graph_for_paths (paths_of action) = Ok graph /\
    (IntentMatchResult.match_state r = IntentMatchState.EXACT_MATCH <-> authorized action contract graph) /\
    (IntentMatchResult.decision_hint r = IntentDecisionHint.ALLOW <-> authorized action contract graph) /\
    (IntentMatchResult.decision_hint r = IntentDecisionHint.BLOCK <->
     NormalizedAction.resource_kind action = ResourceKind.SENSITIVE).
Proof.
  intros (graph & Hg & Hv)%match_verdict. exists graph. split; [done|].
  destruct (verdict_hints action contract graph) as (Ha & Hb & _).
  pose proof (verdict_exact action contract graph) as Hx. rewrite <- Hv in Ha, Hb, Hx.
  cbn [fst snd] in *. tauto.
Qed.
