(* ===== verification/IntentDecision.v ===== *)
(** * intent_fallback_policy.py, intent_evidence.py and intent_receipt.py

    The mode-aware evaluation of match results, the audit-safe summary of the
    evidence of a contract, and the receipt of a decision. *)

From S2P Require Import Sha256 Json Security.
From S2P Require AuditLog.
From S2P Require Import PatchDiff.
From S2P Require Export IntentContract.

(** ** intent_fallback_policy.py *)

Module IntentFallbackEvaluation.
Record t := mk {
  contract_id : option string;
  enforcement_mode : IntentEnforcementMode.t;
  match_state : IntentMatchState.t;
  recommended_hint : IntentDecisionHint.t;
  effective_hint : IntentDecisionHint.t;
  reason_codes : list string;
  result_count : Z;
  metadata : pydict;
}.

Definition should_block (e : t) : bool := bool_decide (effective_hint e = IntentDecisionHint.BLOCK).
Definition requires_approval (e : t) : bool :=
  bool_decide (effective_hint e = IntentDecisionHint.REQUIRE_APPROVAL).
Definition should_audit (e : t) : bool := bool_decide (effective_hint e = IntentDecisionHint.AUDIT).

Definition audit_summary (e : t) : pyval :=
  of_dict
    [("contract_id", of_opt_str (contract_id e));
     ("enforcement_mode", PStr (IntentEnforcementMode.value (enforcement_mode e)));
     ("match_state", PStr (IntentMatchState.value (match_state e)));
     ("recommended_hint", PStr (IntentDecisionHint.value (recommended_hint e)));
     ("effective_hint", PStr (IntentDecisionHint.value (effective_hint e)));
     ("reason_codes", PTuple (List.map PStr (reason_codes e)));
     ("result_count", PInt (result_count e));
     ("should_block", PBool (should_block e));
     ("requires_approval", PBool (requires_approval e));
     ("should_audit", PBool (should_audit e));
     ("metadata", of_dict (metadata e))].
End IntentFallbackEvaluation.

Definition _has_state (results : list IntentMatchResult.t) (state : IntentMatchState.t) : bool :=
  existsb (fun r => bool_decide (IntentMatchResult.match_state r = state)) results.

Definition _recommended_fallback (results : list IntentMatchResult.t)
    : IntentMatchState.t * IntentDecisionHint.t * list string :=
  match results with
  | [] => (IntentMatchState.UNKNOWN, IntentDecisionHint.REQUIRE_APPROVAL, ["fallback:no-match-results"])
  | _ =>
      if _has_state results IntentMatchState.HARD_SENSITIVE then
        (IntentMatchState.HARD_SENSITIVE, IntentDecisionHint.BLOCK, ["fallback:hard-sensitive-boundary"])
      else if _has_state results IntentMatchState.UNKNOWN then
        (IntentMatchState.UNKNOWN, IntentDecisionHint.REQUIRE_APPROVAL,
          ["fallback:unknown-resource-or-operation"])
      else if _has_state results IntentMatchState.CONFLICT then
        (IntentMatchState.CONFLICT, IntentDecisionHint.REQUIRE_APPROVAL, ["fallback:capability-conflict"])
      else if _has_state results IntentMatchState.DRIFT then
        (IntentMatchState.DRIFT, IntentDecisionHint.REQUIRE_APPROVAL, ["fallback:scope-drift"])
      else if _has_state results IntentMatchState.PARTIAL_MATCH then
        (IntentMatchState.PARTIAL_MATCH, IntentDecisionHint.AUDIT, ["fallback:partial-semantic-match"])
      else if forallb (fun r => bool_decide (IntentMatchResult.match_state r = IntentMatchState.EXACT_MATCH))
                results then
        (IntentMatchState.EXACT_MATCH, IntentDecisionHint.ALLOW, ["fallback:exact-match"])
      else (IntentMatchState.UNKNOWN, IntentDecisionHint.REQUIRE_APPROVAL,
             ["fallback:unhandled-match-state"])
  end.

Definition _effective_hint (recommended_hint : IntentDecisionHint.t)
    (enforcement_mode : IntentEnforcementMode.t) : IntentDecisionHint.t :=
  match enforcement_mode with
  | IntentEnforcementMode.DISABLED => IntentDecisionHint.NONE
  | IntentEnforcementMode.SHADOW =>
      if among recommended_hint [IntentDecisionHint.BLOCK; IntentDecisionHint.REQUIRE_APPROVAL]
      then IntentDecisionHint.AUDIT else recommended_hint
  | IntentEnforcementMode.ENFORCE => recommended_hint
  end.

Definition _reason_codes (results : list IntentMatchResult.t) (fallback_reasons : list string)
    : list string :=
  fromkeys (fallback_reasons ++ flat_map IntentMatchResult.reason_codes results).

Definition _state_counts (results : list IntentMatchResult.t) : pyval :=
  of_counts (List.map (fun r => IntentMatchState.value (IntentMatchResult.match_state r)) results).
Definition _hint_counts (results : list IntentMatchResult.t) : pyval :=
  of_counts (List.map (fun r => IntentDecisionHint.value (IntentMatchResult.decision_hint r)) results).

Definition _action_ids_for_state (results : list IntentMatchResult.t) (state : IntentMatchState.t)
    : pyval :=
  PTuple (flat_map (fun r =>
    if decide (IntentMatchResult.match_state r = state)
    then match IntentMatchResult.action_id r with Some i => [PStr i] | None => [] end
    else []) results).

Definition evaluate_intent_fallback (results : list IntentMatchResult.t) (contract : IntentContract.t)
    : IntentFallbackEvaluation.t :=
  let '(match_state, recommended_hint, fallback_reasons) := _recommended_fallback results in
  let mode := IntentContract.enforcement_mode contract in
  IntentFallbackEvaluation.mk (Some (IntentContract.contract_id contract)) mode match_state
    recommended_hint (_effective_hint recommended_hint mode) (_reason_codes results fallback_reasons)
    (Z.of_nat (List.length results))
    [("match_state_counts", _state_counts results); ("decision_hint_counts", _hint_counts results);
     ("hard_sensitive_action_ids", _action_ids_for_state results IntentMatchState.HARD_SENSITIVE);
     ("unknown_action_ids", _action_ids_for_state results IntentMatchState.UNKNOWN);
     ("drift_action_ids", _action_ids_for_state results IntentMatchState.DRIFT);
     ("conflict_action_ids", _action_ids_for_state results IntentMatchState.CONFLICT)].

Definition intent_fallback_evaluations_audit_summary (evaluations : list IntentFallbackEvaluation.t)
    : pydict :=
  [("evaluation_count", PInt (Z.of_nat (List.length evaluations)));
   ("recommended_hint_counts", of_counts (List.map (fun e =>
      IntentDecisionHint.value (IntentFallbackEvaluation.recommended_hint e)) evaluations));
   ("effective_hint_counts", of_counts (List.map (fun e =>
      IntentDecisionHint.value (IntentFallbackEvaluation.effective_hint e)) evaluations));
   ("match_state_counts", of_counts (List.map (fun e =>
      IntentMatchState.value (IntentFallbackEvaluation.match_state e)) evaluations));
   ("evaluations", PTuple (List.map IntentFallbackEvaluation.audit_summary evaluations))].

(** ** intent_evidence.py *)

Definition INTENT_EVIDENCE_SCHEMA_VERSION : string := "intent-evidence.v1".

(** [json.dumps] on a value with a key that is no string; not reached after
    redaction, which raises first. *)
Definition json_key_error : exn := mk_exn TypeError "TypeError" "keys must be str".

(** [json.dumps(redact_sensitive_value(value), sort_keys=True, ...)] as data. *)
Definition redacted_json (value : pyval) : result exn json :=
  redacted ← redact_sensitive_value value;
  match to_json redacted with
  | Some j => Ok (sort_json j)
  | None => Raise json_key_error
  end.

Definition evidence_canonical_json (value : pyval) : result exn string :=
  j ← redacted_json value; Ok (dumps true j).

Definition _safe_text_hash (value : option string) : result exn pyval :=
  match value with
  | None => Ok PNone
  | Some text =>
      redacted ← redact_sensitive_value (PStr text); Ok (PStr (sha256_hex (py_str redacted)))
  end.

Definition _byte_length (value : option string) : Z :=
  match value with None => 0%Z | Some text => utf8_len text end.

Definition _summary_hash (summary : pydict) : result exn string :=
  let payload := List.filter (fun kv => negb (String.eqb (fst kv) "combined_evidence_hash")) summary in
  text ← evidence_canonical_json (of_dict payload); Ok (sha256_hex text).

(** [sorted(l)] on strings. *)
Definition sorted_strings (l : list string) : list string := sort_by String.leb l.

Definition is_present (o : option string) : pyval := PBool match o with Some _ => true | None => false end.

Definition intent_evidence_audit_summary (contract : IntentContract.t) : result exn pydict :=
  human_prompt_hash ← _safe_text_hash (IntentContract.human_prompt contract);
  ai_plan_hash ← _safe_text_hash (IntentContract.ai_plan contract);
  let summary :=
    [("schema_version", PStr INTENT_EVIDENCE_SCHEMA_VERSION);
     ("evidence_source", of_opt_str (IntentContract.evidence_source contract));
     ("human_prompt_present", is_present (IntentContract.human_prompt contract));
     ("ai_plan_present", is_present (IntentContract.ai_plan contract));
     ("human_prompt_sha256", human_prompt_hash); ("ai_plan_sha256", ai_plan_hash);
     ("human_prompt_byte_length", PInt (_byte_length (IntentContract.human_prompt contract)));
     ("ai_plan_byte_length", PInt (_byte_length (IntentContract.ai_plan contract)));
     ("evidence_metadata_keys",
       PTuple (List.map PStr (sorted_strings (List.map fst (IntentContract.evidence_metadata contract)))))] in
  combined ← _summary_hash summary;
  Ok (dict_set summary "combined_evidence_hash" (PStr combined)).

(** ** intent_receipt.py *)

Definition INTENT_DECISION_RECEIPT_SCHEMA_VERSION : string := "intent-decision-receipt.v1".

Module IntentDecisionReceipt.
Record t := mk {
  schema_version : string;
  receipt_hash : string;
  trace_id : string;
  contract_id : string;
  session_id : string;
  enforcement_mode : string;
  match_state : string;
  recommended_hint : string;
  effective_hint : string;
  result_count : Z;
  action_ids : list string;
  reason_codes : list string;
  action_path_hashes : list string;
  evidence_hash : pyval;
  metadata : pydict;
}.
Definition audit_summary (r : t) : pydict :=
  [("schema_version", PStr (schema_version r)); ("receipt_hash", PStr (receipt_hash r));
   ("trace_id", PStr (trace_id r)); ("contract_id", PStr (contract_id r));
   ("session_id", PStr (session_id r)); ("enforcement_mode", PStr (enforcement_mode r));
   ("match_state", PStr (match_state r)); ("recommended_hint", PStr (recommended_hint r));
   ("effective_hint", PStr (effective_hint r)); ("result_count", PInt (result_count r));
   ("action_ids", PTuple (List.map PStr (action_ids r)));
   ("reason_codes", PTuple (List.map PStr (reason_codes r)));
   ("action_path_hashes", PTuple (List.map PStr (action_path_hashes r)));
   ("evidence_hash", evidence_hash r); ("metadata", of_dict (metadata r))].
End IntentDecisionReceipt.

(** [json.loads(json.dumps(redacted, sort_keys=True))] *)
Definition json_decode_error : exn := mk_exn ValueError "JSONDecodeError" "Expecting value".

Definition _stable_json_value (value : pyval) : result exn json :=
  j ← redacted_json value;
  match loads (dumps false j) with Some w => Ok w | None => Raise json_decode_error end.

Definition _canonical_json (value : pyval) : result exn string :=
  j ← _stable_json_value value; Ok (dumps true (sort_json j)).

Definition calculate_intent_decision_receipt_hash (payload : json) : result exn string :=
  text ← _canonical_json (AuditLog.of_json payload); Ok (sha256_hex text).

Definition _path_hash (path : string) : string := sha256_hex path.
Definition _path_hashes (paths : list string) : list string := List.map _path_hash paths.

Definition _receipt_reason_codes (match_results : list IntentMatchResult.t)
    (fallback_evaluation : IntentFallbackEvaluation.t) : list string :=
  fromkeys (IntentFallbackEvaluation.reason_codes fallback_evaluation
            ++ flat_map IntentMatchResult.reason_codes match_results).

Definition truthy_list (o : option string) : list string :=
  match o with Some s => if truthy s then [s] else [] | None => [] end.

Definition _action_ids (match_results : list IntentMatchResult.t)
    (normalized_actions : list NormalizedAction.t) : list string :=
  fromkeys (flat_map (fun r => truthy_list (IntentMatchResult.action_id r)) match_results
            ++ List.map NormalizedAction.action_id normalized_actions).

Definition _action_path_hashes (actions : list NormalizedAction.t) : list string :=
  fromkeys (flat_map (fun a =>
    _path_hashes (NormalizedAction.affected_paths a)
    ++ List.map _path_hash (truthy_list (NormalizedAction.old_path a))
    ++ List.map _path_hash (truthy_list (NormalizedAction.new_path a))) actions).

Definition strs (l : list string) : pyval := PTuple (List.map PStr l).
Definition count_of {A} (l : list A) : pyval := PInt (Z.of_nat (List.length l)).
Definition hash_or_none (o : option string) : pyval :=
  if truthy_opt o then of_opt_str (_path_hash <$> o) else PNone.

Definition match_payload (r : IntentMatchResult.t) : pyval :=
  of_dict
    [("match_state", PStr (IntentMatchState.value (IntentMatchResult.match_state r)));
     ("decision_hint", PStr (IntentDecisionHint.value (IntentMatchResult.decision_hint r)));
     ("action_id", of_opt_str (IntentMatchResult.action_id r));
     ("contract_id", of_opt_str (IntentMatchResult.contract_id r));
     ("reason_codes", strs (IntentMatchResult.reason_codes r));
     ("matched_scope_count", count_of (IntentMatchResult.matched_scopes r));
     ("unmatched_scope_count", count_of (IntentMatchResult.unmatched_scopes r))].

Definition action_payload (a : NormalizedAction.t) : pyval :=
  of_dict
    [("action_id", PStr (NormalizedAction.action_id a));
     ("source", PStr (NormalizedActionSource.value (NormalizedAction.source a)));
     ("operation", PStr (IntentOperation.value (NormalizedAction.operation a)));
     ("resource_kind", PStr (ResourceKind.value (NormalizedAction.resource_kind a)));
     ("affected_path_count", count_of (NormalizedAction.affected_paths a));
     ("affected_path_hashes", strs (_path_hashes (NormalizedAction.affected_paths a)));
     ("old_path_hash", hash_or_none (NormalizedAction.old_path a));
     ("new_path_hash", hash_or_none (NormalizedAction.new_path a))].

Definition intent_decision_receipt_payload (contract : IntentContract.t)
    (match_results : list IntentMatchResult.t) (fallback_evaluation : IntentFallbackEvaluation.t)
    (trace_id : string) (normalized_actions : list NormalizedAction.t) : result exn json :=
  evidence ← intent_evidence_audit_summary contract;
  _stable_json_value (of_dict
    [("schema_version", PStr INTENT_DECISION_RECEIPT_SCHEMA_VERSION);
     ("trace_id", PStr trace_id);
     ("contract", of_dict
        [("contract_id", PStr (IntentContract.contract_id contract));
         ("session_id", PStr (IntentContract.session_id contract));
         ("source", PStr (IntentContractSource.value (IntentContract.source contract)));
         ("enforcement_mode",
           PStr (IntentEnforcementMode.value (IntentContract.enforcement_mode contract)));
         ("allowed_actions",
           strs (List.map IntentOperation.value (IntentContract.allowed_actions contract)));
         ("target_scope_count", count_of (IntentContract.target_scopes contract));
         ("excluded_scope_count", count_of (IntentContract.excluded_scopes contract));
         ("risk_ceiling", PInt (IntentContract.risk_ceiling contract));
         ("intent_evidence", of_dict evidence)]);
     ("decision", of_dict
        [("match_state",
           PStr (IntentMatchState.value (IntentFallbackEvaluation.match_state fallback_evaluation)));
         ("recommended_hint",
           PStr (IntentDecisionHint.value (IntentFallbackEvaluation.recommended_hint fallback_evaluation)));
         ("effective_hint",
           PStr (IntentDecisionHint.value (IntentFallbackEvaluation.effective_hint fallback_evaluation)));
         ("result_count", count_of match_results);
         ("reason_codes", strs (_receipt_reason_codes match_results fallback_evaluation))]);
     ("matches", PTuple (List.map match_payload match_results));
     ("actions", PTuple (List.map action_payload normalized_actions))]).

Definition build_intent_decision_receipt (contract : IntentContract.t)
    (match_results : list IntentMatchResult.t) (fallback_evaluation : IntentFallbackEvaluation.t)
    (trace_id : string) (normalized_actions : list NormalizedAction.t)
    : result exn IntentDecisionReceipt.t :=
  evidence_summary ← intent_evidence_audit_summary contract;
  payload ← intent_decision_receipt_payload contract match_results fallback_evaluation trace_id
              normalized_actions;
  receipt_hash ← calculate_intent_decision_receipt_hash payload;
  Ok (IntentDecisionReceipt.mk INTENT_DECISION_RECEIPT_SCHEMA_VERSION receipt_hash trace_id
        (IntentContract.contract_id contract) (IntentContract.session_id contract)
        (IntentEnforcementMode.value (IntentContract.enforcement_mode contract))
        (IntentMatchState.value (IntentFallbackEvaluation.match_state fallback_evaluation))
        (IntentDecisionHint.value (IntentFallbackEvaluation.recommended_hint fallback_evaluation))
        (IntentDecisionHint.value (IntentFallbackEvaluation.effective_hint fallback_evaluation))
        (Z.of_nat (List.length match_results))
        (_action_ids match_results normalized_actions)
        (_receipt_reason_codes match_results fallback_evaluation)
        (_action_path_hashes normalized_actions)
        (dict_get evidence_summary "combined_evidence_hash")
        [("payload_sha256", PStr receipt_hash);
         ("target_scope_count", count_of (IntentContract.target_scopes contract));
         ("excluded_scope_count", count_of (IntentContract.excluded_scopes contract))]).
