(* ===== verification/IntentReview.v ===== *)
(** * intent_review.py: the review decision

    One audit-safe object built from the match results and the fallback
    evaluation: what a reviewer should do, the resources, and the scopes a
    person could add.  It suggests and never changes a contract. *)

From S2P Require Import Sha256 Json Security PatchDiff.
From S2P Require Export IntentDecision.

(** ** Definitions *)

Definition INTENT_REVIEW_SCHEMA_VERSION : string := "intent-review.v1".

Module IntentReviewDecisionType.
Inductive t :=
  | REVIEW_NEEDED | GROUPED_REVIEW_SUGGESTED | SCOPE_EXPANSION_SUGGESTED | POLICY_DENY
  | SILENT_PERMIT | SHADOW_ONLY_TRACE.
Definition value (d : t) : string :=
  match d with
  | REVIEW_NEEDED => "review_needed" | GROUPED_REVIEW_SUGGESTED => "grouped_review_suggested"
  | SCOPE_EXPANSION_SUGGESTED => "scope_expansion_suggested" | POLICY_DENY => "policy_deny"
  | SILENT_PERMIT => "silent_permit" | SHADOW_ONLY_TRACE => "shadow_only_trace"
  end.
End IntentReviewDecisionType.

Module IntentReviewNextAction.
Inductive t :=
  | NONE | PERMIT | REVIEW | GROUP_REVIEW | REQUEST_SCOPE_EXPANSION_APPROVAL | DENY
  | INSPECT_SHADOW_TRACE.
Definition value (a : t) : string :=
  match a with
  | NONE => "none" | PERMIT => "permit" | REVIEW => "review" | GROUP_REVIEW => "group_review"
  | REQUEST_SCOPE_EXPANSION_APPROVAL => "request_scope_expansion_approval" | DENY => "deny"
  | INSPECT_SHADOW_TRACE => "inspect_shadow_trace"
  end.
End IntentReviewNextAction.

Module IntentReviewDecision.
Record t := mk {
  schema_version : string;
  decision : IntentReviewDecisionType.t;
  action_summary : pydict;
  affected_resources : list pydict;
  current_intent_contract_id : option string;
  proposed_additional_scope : list pydict;
  reason_codes : list string;
  true_risk_level : string;
  matched_scopes : list pydict;
  unmatched_scopes : list pydict;
  recommended_next_action : IntentReviewNextAction.t;
  metadata : pydict;
}.
Definition dicts (l : list pydict) : pyval := PTuple (List.map of_dict l).
Definition audit_summary (d : t) : pydict :=
  [("schema_version", PStr (schema_version d));
   ("decision", PStr (IntentReviewDecisionType.value (decision d)));
   ("action_summary", of_dict (action_summary d));
   ("affected_resources", dicts (affected_resources d));
   ("current_intent_contract_id", of_opt_str (current_intent_contract_id d));
   ("proposed_additional_scope", dicts (proposed_additional_scope d));
   ("reason_codes", PTuple (List.map PStr (reason_codes d)));
   ("true_risk_level", PStr (true_risk_level d));
   ("matched_scopes", dicts (matched_scopes d)); ("unmatched_scopes", dicts (unmatched_scopes d));
   ("recommended_next_action", PStr (IntentReviewNextAction.value (recommended_next_action d)));
   ("metadata", of_dict (metadata d))].
End IntentReviewDecision.

Definition _SCOPE_EXPANSION_STATES : list IntentMatchState.t :=
  [IntentMatchState.DRIFT; IntentMatchState.UNKNOWN].

Definition _has_scope_expansion_candidate (match_results : list IntentMatchResult.t) : bool :=
  existsb (fun r => among (IntentMatchResult.match_state r) _SCOPE_EXPANSION_STATES) match_results.

(** The size of the set of identifiers. *)
Definition _review_action_count (match_results : list IntentMatchResult.t) : nat :=
  List.length (fromkeys (flat_map (fun r =>
    if decide (IntentMatchResult.match_state r = IntentMatchState.EXACT_MATCH) then []
    else truthy_list (IntentMatchResult.action_id r)) match_results)).

Definition _decision_type_and_next_action (match_results : list IntentMatchResult.t)
    (fallback_evaluation : IntentFallbackEvaluation.t)
    : IntentReviewDecisionType.t * IntentReviewNextAction.t :=
  let silent := (IntentReviewDecisionType.SILENT_PERMIT, IntentReviewNextAction.PERMIT) in
  let review := (IntentReviewDecisionType.REVIEW_NEEDED, IntentReviewNextAction.REVIEW) in
  let grouped :=
    (IntentReviewDecisionType.GROUPED_REVIEW_SUGGESTED, IntentReviewNextAction.GROUP_REVIEW) in
  let several := (1 <? _review_action_count match_results)%nat in
  match IntentFallbackEvaluation.enforcement_mode fallback_evaluation with
  | IntentEnforcementMode.SHADOW =>
      (IntentReviewDecisionType.SHADOW_ONLY_TRACE, IntentReviewNextAction.INSPECT_SHADOW_TRACE)
  | _ =>
      match IntentFallbackEvaluation.effective_hint fallback_evaluation with
      | IntentDecisionHint.NONE | IntentDecisionHint.ALLOW => silent
      | IntentDecisionHint.BLOCK => (IntentReviewDecisionType.POLICY_DENY, IntentReviewNextAction.DENY)
      | IntentDecisionHint.REQUIRE_APPROVAL =>
          if _has_scope_expansion_candidate match_results then
            (IntentReviewDecisionType.SCOPE_EXPANSION_SUGGESTED,
             IntentReviewNextAction.REQUEST_SCOPE_EXPANSION_APPROVAL)
          else if several then grouped else review
      | IntentDecisionHint.AUDIT =>
          if several then grouped
          else if decide (IntentFallbackEvaluation.match_state fallback_evaluation
                          = IntentMatchState.PARTIAL_MATCH) then review
          else silent
      end
  end.

Definition path_count (actions : list NormalizedAction.t) : nat :=
  list_sum (List.map (fun a =>
    List.length (NormalizedAction.affected_paths a)
    + List.length (truthy_list (NormalizedAction.old_path a))
    + List.length (truthy_list (NormalizedAction.new_path a))) actions).

Definition _action_summary (actions : list NormalizedAction.t)
    (match_results : list IntentMatchResult.t) : pydict :=
  [("action_count", count_of actions);
   ("path_count", PInt (Z.of_nat (path_count actions)));
   ("operation_counts",
     of_counts (List.map (fun a => IntentOperation.value (NormalizedAction.operation a)) actions));
   ("source_counts",
     of_counts (List.map (fun a => NormalizedActionSource.value (NormalizedAction.source a)) actions));
   ("resource_kind_counts",
     of_counts (List.map (fun a => ResourceKind.value (NormalizedAction.resource_kind a)) actions));
   ("match_state_counts",
     of_counts (List.map (fun r => IntentMatchState.value (IntentMatchResult.match_state r)) match_results));
   ("action_ids", strs (List.map NormalizedAction.action_id actions))].

Definition _resource_summary (action : NormalizedAction.t) (path role : string) : pydict :=
  [("action_id", PStr (NormalizedAction.action_id action));
   ("operation", PStr (IntentOperation.value (NormalizedAction.operation action)));
   ("resource_kind", PStr (ResourceKind.value (NormalizedAction.resource_kind action)));
   ("path", PStr (redact_sensitive_string path)); ("path_sha256", PStr (sha256_hex path));
   ("role", PStr role)].

Definition pathless_resource (action : NormalizedAction.t) : pydict :=
  [("action_id", PStr (NormalizedAction.action_id action));
   ("operation", PStr (IntentOperation.value (NormalizedAction.operation action)));
   ("resource_kind", PStr (ResourceKind.value (NormalizedAction.resource_kind action)));
   ("path", PNone); ("path_sha256", PNone); ("role", PStr "pathless_action")].

Definition resources_of (action : NormalizedAction.t) : list pydict :=
  List.map (fun path => _resource_summary action path "affected_path")
    (NormalizedAction.affected_paths action)
  ++ List.map (fun path => _resource_summary action path "old_path")
       (truthy_list (NormalizedAction.old_path action))
  ++ List.map (fun path => _resource_summary action path "new_path")
       (truthy_list (NormalizedAction.new_path action))
  ++ match NormalizedAction.affected_paths action, truthy_list (NormalizedAction.old_path action),
       truthy_list (NormalizedAction.new_path action) with
     | [], [], [] => [pathless_resource action]
     | _, _, _ => []
     end.

Definition _affected_resources (actions : list NormalizedAction.t) : list pydict :=
  flat_map resources_of actions.

(** [marker in seen] over the sorted pairs of texts. *)
Definition dict_marker (value : pydict) : list (string * string) :=
  sort_by_key (List.map (fun kv => (fst kv, py_str (snd kv))) value).

Definition _unique_dicts (values : list pydict) : list pydict := dedupe_by dict_marker [] values.

Definition _scope_expansion_summary (path : string) (result : IntentMatchResult.t)
    (resource_kind : option string) : pydict :=
  [("type", PStr "exact_path"); ("value", PStr (redact_sensitive_string path));
   ("value_sha256", PStr (sha256_hex path)); ("resource_kind", of_opt_str resource_kind);
   ("source_action_id", of_opt_str (IntentMatchResult.action_id result));
   ("source_match_state", PStr (IntentMatchState.value (IntentMatchResult.match_state result)));
   ("requires_human_approval", PBool true); ("auto_apply", PBool false)].

(** [tuple(value)] and the use of its members as texts. *)
Definition iterate_value (value : pyval) : result exn (list string) :=
  let as_text v :=
    match v with
    | PStr s => Ok s
    | _ => Raise (mk_exn AttributeError "AttributeError" "object has no attribute 'encode'")
    end in
  match value with
  | PList l | PTuple l => mapR as_text l
  | PStr s => Ok (List.map (fun c => String c "") (list_ascii_of_string s))
  | PDict d => mapR as_text (List.map fst d)
  | _ => Raise (mk_exn TypeError "TypeError" "object is not iterable")
  end.

(** [actions_by_id.get(i)]: the last action of that identifier. *)
Definition action_by_id (actions : list NormalizedAction.t) (i : string) : option NormalizedAction.t :=
  List.find (fun a => String.eqb (NormalizedAction.action_id a) i) (rev actions).

Definition expansions_of (actions : list NormalizedAction.t) (match_result : IntentMatchResult.t)
    : result exn (list pydict) :=
  if negb (among (IntentMatchResult.match_state match_result) _SCOPE_EXPANSION_STATES) then Ok []
  else
    match action_by_id actions (default "" (IntentMatchResult.action_id match_result)) with
    | None =>
        paths ← iterate_value (default (PTuple [])
                  (dict_lookup (IntentMatchResult.metadata match_result) "affected_paths"));
        Ok (List.map (fun path => _scope_expansion_summary path match_result None) paths)
    | Some action =>
        Ok (List.map (fun path =>
              _scope_expansion_summary path match_result
                (Some (ResourceKind.value (NormalizedAction.resource_kind action))))
              (NormalizedAction.affected_paths action
               ++ truthy_list (NormalizedAction.old_path action)
               ++ truthy_list (NormalizedAction.new_path action)))
    end.

Definition _proposed_additional_scope (match_results : list IntentMatchResult.t)
    (normalized_actions : list NormalizedAction.t) : result exn (list pydict) :=
  proposed ← mapR (expansions_of normalized_actions) match_results;
  Ok (_unique_dicts (concat proposed)).

Definition _scope_summary (scope : ResourceScope.t) : pydict :=
  [("type", PStr (ResourceScopeType.value (ResourceScope.type scope)));
   ("value", PStr (redact_sensitive_string (ResourceScope.value scope)));
   ("value_sha256", PStr (sha256_hex (ResourceScope.value scope)));
   ("resource_kind", of_opt_str (ResourceKind.value <$> ResourceScope.resource_kind scope));
   ("metadata_keys", strs (sorted_strings (List.map fst (ResourceScope.metadata scope))))].

Definition _scope_summaries (scopes : list ResourceScope.t) : list pydict :=
  _unique_dicts (List.map _scope_summary scopes).

Definition _fallback_risk_level (e : IntentFallbackEvaluation.t) : string :=
  match IntentFallbackEvaluation.effective_hint e with
  | IntentDecisionHint.BLOCK => "critical"
  | IntentDecisionHint.REQUIRE_APPROVAL => "high"
  | IntentDecisionHint.AUDIT => "medium"
  | _ => "low"
  end.

Definition build_intent_review_decision (contract : IntentContract.t)
    (match_results : list IntentMatchResult.t) (fallback_evaluation : IntentFallbackEvaluation.t)
    (normalized_actions : list NormalizedAction.t) (true_risk_level : option string)
    : result exn IntentReviewDecision.t :=
  let '(decision, next_action) := _decision_type_and_next_action match_results fallback_evaluation in
  proposed ← _proposed_additional_scope match_results normalized_actions;
  let hint := IntentDecisionHint.value (IntentFallbackEvaluation.recommended_hint fallback_evaluation) in
  Ok (IntentReviewDecision.mk INTENT_REVIEW_SCHEMA_VERSION decision
        (_action_summary normalized_actions match_results)
        (_affected_resources normalized_actions)
        (Some (IntentContract.contract_id contract)) proposed
        (_receipt_reason_codes match_results fallback_evaluation)
        (if truthy_opt true_risk_level then default "" true_risk_level
         else _fallback_risk_level fallback_evaluation)
        (_scope_summaries (flat_map IntentMatchResult.matched_scopes match_results))
        (_scope_summaries (flat_map IntentMatchResult.unmatched_scopes match_results))
        next_action
        [("enforcement_mode",
           PStr (IntentEnforcementMode.value (IntentFallbackEvaluation.enforcement_mode fallback_evaluation)));
         ("match_state",
           PStr (IntentMatchState.value (IntentFallbackEvaluation.match_state fallback_evaluation)));
         ("recommended_hint", PStr hint);
         ("effective_hint",
           PStr (IntentDecisionHint.value (IntentFallbackEvaluation.effective_hint fallback_evaluation)));
         ("result_count", PInt (IntentFallbackEvaluation.result_count fallback_evaluation));
         ("shadowed_recommended_hint",
           if decide (IntentFallbackEvaluation.enforcement_mode fallback_evaluation
                      = IntentEnforcementMode.SHADOW) then PStr hint else PNone);
         ("scope_auto_expanded", PBool false); ("approval_submitted", PBool false)]).
