(* ===== verification/IntentPipeline.v ===== *)
(** * The intent gate of a guarded run

    guarded_runner.py composes the parts: the actions of the run, their match
    with the contract, the evaluation, the receipt and the review
    ([_evaluate_intent_contract] and its callers).  The theorems here are about
    the composition. *)

From S2P Require Export ActionNormalizer CapabilityMatcher IntentReview.
From S2P Require Import Sha256 Json Models.

(** ** guarded_runner.py *)

Definition _evaluate_intent_contract (intent_contract : option IntentContract.t)
    (normalized_actions : list NormalizedAction.t)
    : result exn (list IntentMatchResult.t * IntentFallbackEvaluation.t) :=
  match intent_contract with
  | None => Raise (mk_exn ValueError "ValueError" "Intent contract is required for intent evaluation.")
  | Some contract =>
      match_results ← match_actions_to_contract normalized_actions contract;
      Ok (match_results, evaluate_intent_fallback match_results contract)
  end.

Definition _intent_audit_decision (e : IntentFallbackEvaluation.t) : Decision * bool * Severity :=
  match IntentFallbackEvaluation.effective_hint e with
  | IntentDecisionHint.BLOCK => (BLOCK, false, SevCritical)
  | IntentDecisionHint.REQUIRE_APPROVAL => (REQUIRE_APPROVAL, false, SevHigh)
  | IntentDecisionHint.AUDIT => (ALLOW, true, SevMedium)
  | _ => (ALLOW, true, SevLow)
  end.

Definition _intent_policy_reason (e : IntentFallbackEvaluation.t) : string :=
  "Intent contract fallback policy returned "
    +++ IntentDecisionHint.value (IntentFallbackEvaluation.effective_hint e)
    +++ " for " +++ IntentMatchState.value (IntentFallbackEvaluation.match_state e) +++ ".".

Definition _intent_true_risk_level (change_risk_report : option ChangeRiskReport.t)
    (e : IntentFallbackEvaluation.t) : string :=
  match change_risk_report with
  | Some report => risk_value (ChangeRiskReport.overall_risk_level report)
  | None =>
      if IntentFallbackEvaluation.should_block e then "critical"
      else if IntentFallbackEvaluation.requires_approval e then "high"
      else if IntentFallbackEvaluation.should_audit e then "medium"
      else "low"
  end.

Definition _intent_evidence_summary (contract : option IntentContract.t) : result exn pyval :=
  match contract with
  | None => Ok PNone
  | Some c => summary ← intent_evidence_audit_summary c; Ok (of_dict summary)
  end.

Definition _intent_contract_audit_summary (contract : option IntentContract.t) : result exn pyval :=
  match contract with
  | None => Ok PNone
  | Some c =>
      evidence ← _intent_evidence_summary (Some c);
      Ok (of_dict
        [("contract_id", PStr (IntentContract.contract_id c));
         ("session_id", PStr (IntentContract.session_id c));
         ("source", PStr (IntentContractSource.value (IntentContract.source c)));
         ("enforcement_mode", PStr (IntentEnforcementMode.value (IntentContract.enforcement_mode c)));
         ("allowed_actions", strs (List.map IntentOperation.value (IntentContract.allowed_actions c)));
         ("target_scope_count", count_of (IntentContract.target_scopes c));
         ("excluded_scope_count", count_of (IntentContract.excluded_scopes c));
         ("risk_ceiling", PInt (IntentContract.risk_ceiling c)); ("intent_evidence", evidence)])
  end.

Record intent_outcome := mk_intent_outcome {
  io_results : list IntentMatchResult.t;
  io_evaluation : IntentFallbackEvaluation.t;
  io_receipt : IntentDecisionReceipt.t;
  io_review : IntentReviewDecision.t;
}.

(** The body of the [try] block of the run: an exception fails the run closed
    before any trusted mutation. *)
Definition intent_gate (contract : IntentContract.t) (normalized_actions : list NormalizedAction.t)
    (trace_id : string) (change_risk_report : option ChangeRiskReport.t) : result exn intent_outcome :=
  evaluated ← _evaluate_intent_contract (Some contract) normalized_actions;
  let '(match_results, evaluation) := evaluated in
  receipt ← build_intent_decision_receipt contract match_results evaluation trace_id normalized_actions;
  review ← build_intent_review_decision contract match_results evaluation normalized_actions
             (Some (_intent_true_risk_level change_risk_report evaluation));
  Ok (mk_intent_outcome match_results evaluation receipt review).

(** ** Lemmas: actions *)

Lemma make_action_inv a a' : make_action a = Ok a' ->
  NormalizedAction.source a' = NormalizedAction.source a /\
  NormalizedAction.operation a' = NormalizedAction.operation a /\
  NormalizedAction.resource_kind a' = NormalizedAction.resource_kind a /\
  NormalizedAction.affected_paths a' = List.map strip (NormalizedAction.affected_paths a) /\
  NormalizedAction.old_path a' = strip <$> NormalizedAction.old_path a /\
  NormalizedAction.new_path a' = strip <$> NormalizedAction.new_path a /\
  NormalizedAction.raw_evidence a' = NormalizedAction.raw_evidence a.
Proof.
  unfold make_action. intros H.
  repeat match goal with
  | H : mbind _ _ = Ok _ |- _ => apply bind_Ok_inv in H as (? & ? & H)
  | H : optional_field _ _ _ _ = Ok _ |- _ => apply optional_field_Ok in H as [-> _]
  | H : tuple_field _ _ = Ok _ |- _ => apply tuple_field_Ok in H as [-> _]
  | H : Ok _ = Ok _ |- _ => injection H as <-
  end. done.
Qed.

(** What the normalizer says of one changed file. *)
Definition action_of_file (f : ChangedFile.t) (a : NormalizedAction.t) : Prop :=
  NormalizedAction.source a = NormalizedActionSource.FILESYSTEM /\
  NormalizedAction.operation a = _operation_from_changed_file f /\
  NormalizedAction.resource_kind a = _dominant_resource_kind (_affected_paths_for_changed_file f) /\
  NormalizedAction.affected_paths a = List.map strip (_affected_paths_for_changed_file f) /\
  action_ok a = true.

Lemma changed_file_action f p d a :
  normalize_changed_file_action f p d = Ok a -> action_of_file f a.
Proof.
  unfold normalize_changed_file_action. intros H. pose proof (make_action_Ok _ _ H) as Hok.
  apply make_action_inv in H as (H1 & H2 & H3 & H4 & _). done.
Qed.

Lemma sensitive_dominates paths p :
  p ∈ paths -> _resource_kind_for_path p = ResourceKind.SENSITIVE ->
  _dominant_resource_kind paths = ResourceKind.SENSITIVE.
Proof.
  intros Hp Hk. unfold _dominant_resource_kind.
  assert (Hin : ResourceKind.SENSITIVE ∈ List.map _resource_kind_for_path paths).
  { rewrite <- Hk. by apply list_elem_of_In, in_map, list_elem_of_In. }
  destruct (List.map _ paths) as [|k ks]; [by apply elem_of_nil in Hin|].
  unfold preferred_kinds. cbn [List.find].
  by rewrite (proj2 (among_spec ResourceKind.SENSITIVE (k :: ks)) Hin).
Qed.

(** ** Lemmas: the evaluation *)

Lemma has_state_spec results state :
  _has_state results state = true <-> exists r, r ∈ results /\ IntentMatchResult.match_state r = state.
Proof. unfold _has_state. rewrite existsb_elem_of. by setoid_rewrite bool_decide_eq_true. Qed.

Lemma match_actions_lookup actions contract results a :
  match_actions_to_contract actions contract = Ok results -> a ∈ actions ->
  exists r, r ∈ results /\ match_action_to_contract a contract = Ok r.
Proof.
  unfold match_actions_to_contract. intros H%mapR_Ok_Forall2 Ha.
  apply list_elem_of_lookup in Ha as [i Hi].
  destruct (Forall2_lookup_l _ _ _ _ _ H Hi) as (r & Hr & Hm).
  exists r. split; [by eapply list_elem_of_lookup_2|done].
Qed.

(** The severity of a state: the evaluation takes the worst. *)
Definition state_rank (s : IntentMatchState.t) : nat :=
  match s with
  | IntentMatchState.EXACT_MATCH => 0
  | IntentMatchState.PARTIAL_MATCH => 1
  | IntentMatchState.DRIFT => 2
  | IntentMatchState.CONFLICT => 3
  | IntentMatchState.UNKNOWN => 4
  | IntentMatchState.HARD_SENSITIVE => 5
  end.

Definition hint_of_state (s : IntentMatchState.t) : IntentDecisionHint.t :=
  match s with
  | IntentMatchState.EXACT_MATCH => IntentDecisionHint.ALLOW
  | IntentMatchState.PARTIAL_MATCH => IntentDecisionHint.AUDIT
  | IntentMatchState.HARD_SENSITIVE => IntentDecisionHint.BLOCK
  | _ => IntentDecisionHint.REQUIRE_APPROVAL
  end.

Definition ranks (results : list IntentMatchResult.t) : list nat :=
  List.map (fun r => state_rank (IntentMatchResult.match_state r)) results.

Lemma list_max_iff l n : l <> [] -> list_max l = n <-> n ∈ l /\ forall m, m ∈ l -> m <= n.
Proof.
  intros Hne. split.
  - intros <-. split.
    + induction l as [|x l IH]; [done|]. destruct l as [|y l].
      { cbn. rewrite Nat.max_0_r. by left. }
      change (list_max (x :: y :: l)) with (x `max` list_max (y :: l)).
      destruct (Nat.max_spec x (list_max (y :: l))) as [[_ ->]|[_ ->]]; [right; by apply IH|left].
    + intros m Hm. apply list_elem_of_In in Hm.
      pose proof (proj1 (list_max_le l (list_max l)) (le_n _)) as H.
      rewrite List.Forall_forall in H. by apply H.
  - intros [Hin Hle]. apply Nat.le_antisymm.
    + apply list_max_le, List.Forall_forall. intros x Hx. apply Hle. by apply list_elem_of_In.
    + pose proof (proj1 (list_max_le l (list_max l)) (le_n _)) as H.
      rewrite List.Forall_forall in H. apply H. by apply list_elem_of_In.
Qed.

Lemma ranks_elem results s :
  state_rank s ∈ ranks results <-> _has_state results s = true.
Proof.
  unfold ranks. rewrite has_state_spec, list_elem_of_In, in_map_iff. split.
  - intros (r & Hr & Hin). exists r. split; [by apply list_elem_of_In|].
    destruct (IntentMatchResult.match_state r), s; done.
  - intros (r & Hr & <-). exists r. split; [done|by apply list_elem_of_In].
Qed.

Lemma ranks_below results m n :
  m ∈ ranks results -> (forall s, n < state_rank s -> _has_state results s = false) -> m <= n.
Proof.
  intros Hm H. unfold ranks in Hm. apply list_elem_of_In, in_map_iff in Hm as (r & <- & Hr).
  destruct (Nat.le_gt_cases (state_rank (IntentMatchResult.match_state r)) n) as [|Hlt]; [done|].
  apply H in Hlt. apply not_true_iff_false in Hlt. exfalso. apply Hlt, has_state_spec.
  exists r. split; [by apply list_elem_of_In|done].
Qed.

(** The evaluation picks the state of greatest rank. *)
Lemma recommended_rank results :
  results <> [] ->
  let '(state, hint, _) := _recommended_fallback results in
  state_rank state = list_max (ranks results) /\ hint = hint_of_state state.
Proof.
  intros Hne. assert (Hrne : ranks results <> []) by (by destruct results).
  assert (Hpick : forall s, _has_state results s = true ->
            (forall s', state_rank s < state_rank s' -> _has_state results s' = false) ->
            state_rank s = list_max (ranks results)).
  { intros s Hs Hup. symmetry. apply list_max_iff; [done|].
    split; [by apply ranks_elem|]. intros m Hm. by eapply ranks_below. }
  unfold _recommended_fallback. destruct results as [|r0 rs]; [done|]. set (results := r0 :: rs) in *.
  destruct (_has_state results IntentMatchState.HARD_SENSITIVE) eqn:E5;
    [split; [apply Hpick; [done|intros []; cbn; lia || done]|done]|].
  destruct (_has_state results IntentMatchState.UNKNOWN) eqn:E4;
    [split; [apply Hpick; [done|intros []; cbn; try lia; done]|done]|].
  destruct (_has_state results IntentMatchState.CONFLICT) eqn:E3;
    [split; [apply Hpick; [done|intros []; cbn; try lia; done]|done]|].
  destruct (_has_state results IntentMatchState.DRIFT) eqn:E2;
    [split; [apply Hpick; [done|intros []; cbn; try lia; done]|done]|].
  destruct (_has_state results IntentMatchState.PARTIAL_MATCH) eqn:E1;
    [split; [apply Hpick; [done|intros []; cbn; try lia; done]|done]|].
  assert (E0 : _has_state results IntentMatchState.EXACT_MATCH = true).
  { apply has_state_spec. exists r0. split; [by left|].
    destruct (IntentMatchResult.match_state r0) eqn:Es; [done| | | | |];
      match goal with H : _has_state results ?s = false, Hs : _ = ?s |- _ =>
        exfalso; apply not_true_iff_false in H; apply H, has_state_spec; exists r0;
        split; [by left|done] end. }
  assert (forallb (fun r => bool_decide (IntentMatchResult.match_state r = IntentMatchState.EXACT_MATCH))
            results = true) as ->.
  { apply forallb_elem_of. intros r Hr. apply bool_decide_eq_true.
    destruct (IntentMatchResult.match_state r) eqn:Es; [done| | | | |];
      match goal with H : _has_state results ?s = false, Hs : _ = ?s |- _ =>
        exfalso; apply not_true_iff_false in H; apply H, has_state_spec; exists r; done end. }
  split; [|done]. apply Hpick; [done|]. intros []; cbn; try lia; done.
Qed.

Lemma recommended_of results contract :
  (IntentFallbackEvaluation.match_state (evaluate_intent_fallback results contract),
   IntentFallbackEvaluation.recommended_hint (evaluate_intent_fallback results contract))
  = fst (_recommended_fallback results).
Proof. unfold evaluate_intent_fallback. by destruct (_recommended_fallback results) as [[s h] rs]. Qed.

Lemma effective_of results contract :
  IntentFallbackEvaluation.effective_hint (evaluate_intent_fallback results contract)
  = _effective_hint (IntentFallbackEvaluation.recommended_hint (evaluate_intent_fallback results contract))
      (IntentContract.enforcement_mode contract) /\
  IntentFallbackEvaluation.enforcement_mode (evaluate_intent_fallback results contract)
  = IntentContract.enforcement_mode contract.
Proof. unfold evaluate_intent_fallback. by destruct (_recommended_fallback results) as [[s h] rs]. Qed.

(** ** Theorems *)

(** The evaluation is the worst of the results: its state is the state of
    greatest severity (exact, partial, drift, conflict, unknown, sensitive),
    whatever the order of the actions, and the recommended hint is the one of
    that state; without results approval is required.  The effective hint is
    the recommended one under enforcement, at most an audit in shadow mode,
    and none when the contract is disabled. *)
Theorem evaluation_is_the_worst results contract :
  let e := evaluate_intent_fallback results contract in
  (results = [] -> IntentFallbackEvaluation.recommended_hint e = IntentDecisionHint.REQUIRE_APPROVAL) /\
  (results <> [] ->
    state_rank (IntentFallbackEvaluation.match_state e) = list_max (ranks results) /\
    IntentFallbackEvaluation.recommended_hint e = hint_of_state (IntentFallbackEvaluation.match_state e)) /\
  match IntentContract.enforcement_mode contract with
  | IntentEnforcementMode.ENFORCE =>
      IntentFallbackEvaluation.effective_hint e = IntentFallbackEvaluation.recommended_hint e
  | IntentEnforcementMode.SHADOW =>
      IntentFallbackEvaluation.effective_hint e = IntentDecisionHint.AUDIT \/
      (IntentFallbackEvaluation.effective_hint e = IntentDecisionHint.ALLOW /\
       IntentFallbackEvaluation.recommended_hint e = IntentDecisionHint.ALLOW)
  | IntentEnforcementMode.DISABLED =>
      IntentFallbackEvaluation.effective_hint e = IntentDecisionHint.NONE
  end.
Proof.
  cbn zeta. pose proof (recommended_of results contract) as Hr.
  destruct (effective_of results contract) as [-> _].
  destruct (decide (results = [])) as [->|Hne].
  - split; [done|]. split; [done|]. destruct (IntentContract.enforcement_mode contract); cbn; auto.
  - pose proof (recommended_rank results Hne) as Hrank.
    destruct (_recommended_fallback results) as [[s h] rs]. cbn in Hr. injection Hr as -> ->.
    destruct Hrank as [Hs ->]. split; [done|]. split; [done|].
    destruct (IntentContract.enforcement_mode contract); [done| |done]. destruct s; auto.
Qed.

(** C26 A run is allowed only when everything it did is authorized: if the
    effective hint is to allow, there is at least one action, and every action
    of the run is authorized by the contract: no sensitive resource, no
    excluded scope, a named operation, and all its paths inside the target
    scopes. *)
Theorem allowed_run_is_authorized actions contract results :
  match_actions_to_contract actions contract = Ok results ->
  IntentFallbackEvaluation.effective_hint (evaluate_intent_fallback results contract)
    = IntentDecisionHint.ALLOW ->
  actions <> [] /\
  forall a, a ∈ actions -> exists graph,
    _safe_graph_for_paths (paths_of a) = Ok graph /\ authorized a contract graph.
Proof.
  intros Hm He. destruct (effective_of results contract) as [Heff _]. rewrite Heff in He.
  pose proof (recommended_of results contract) as Hr.
  assert (Hrec : IntentFallbackEvaluation.recommended_hint (evaluate_intent_fallback results contract)
                 = IntentDecisionHint.ALLOW).
  { destruct (IntentContract.enforcement_mode contract); cbn in He; [done| |done].
    by destruct (IntentFallbackEvaluation.recommended_hint _). }
  destruct (decide (results = [])) as [->|Hne]; [by cbn in Hrec|].
  pose proof (recommended_rank results Hne) as Hrank.
  destruct (_recommended_fallback results) as [[s h] rs]. cbn in Hr. rewrite Hrec in Hr.
  injection Hr as _ <-. destruct Hrank as [Hs Hh].
  split. { intros ->. by injection Hm as <-. }
  intros a Ha. destruct (match_actions_lookup _ _ _ _ Hm Ha) as (r & Hin & Hmr).
  destruct (match_verdict a contract r Hmr) as (graph & Hg & Hv). exists graph. split; [done|].
  apply verdict_exact. rewrite <- Hv. cbn.
  assert (Hle : state_rank (IntentMatchResult.match_state r) <= state_rank s).
  { rewrite Hs. pose proof (proj1 (list_max_le (ranks results) _) (le_n _)) as H.
    rewrite List.Forall_forall in H. apply H.
    apply (in_map (fun r => state_rank (IntentMatchResult.match_state r))). by apply list_elem_of_In. }
  destruct s; try done. destruct (IntentMatchResult.match_state r); cbn in Hle; try done; lia.
Qed.

(** A change to a sensitive path cannot pass: when the run changed a file
    with a path that is classified as sensitive, wherever else it stays within
    the contract, the recommended hint is to block; under enforcement the run
    is blocked, recorded as not allowed, and the review denies it. *)
Theorem sensitive_change_is_blocked command report patch_diff contract actions results f p :
  normalize_guarded_actions command (Some report) patch_diff = Ok actions ->
  match_actions_to_contract actions contract = Ok results ->
  f ∈ ChangedFileReport.files report -> p ∈ _affected_paths_for_changed_file f ->
  _resource_kind_for_path p = ResourceKind.SENSITIVE ->
  let e := evaluate_intent_fallback results contract in
  IntentFallbackEvaluation.recommended_hint e = IntentDecisionHint.BLOCK /\
  IntentFallbackEvaluation.effective_hint e <> IntentDecisionHint.ALLOW /\
  (IntentContract.enforcement_mode contract = IntentEnforcementMode.ENFORCE ->
    IntentFallbackEvaluation.should_block e = true /\
    _intent_audit_decision e = (BLOCK, false, SevCritical) /\
    _decision_type_and_next_action results e
      = (IntentReviewDecisionType.POLICY_DENY, IntentReviewNextAction.DENY)).
Proof.
  intros Hn Hm Hf Hp Hk. cbn zeta.
  assert (exists a, a ∈ actions /\ NormalizedAction.resource_kind a = ResourceKind.SENSITIVE)
    as (a & Ha & Hkind).
  { unfold normalize_guarded_actions in Hn. apply bind_Ok_inv in Hn as (ca & _ & Hn).
    apply bind_Ok_inv in Hn as (fas & Hfas & [= <-]). unfold normalize_changed_file_actions in Hfas.
    apply mapR_Ok_Forall2 in Hfas. apply list_elem_of_lookup in Hf as [i Hi].
    destruct (Forall2_lookup_l _ _ _ _ _ Hfas Hi) as (a & Hai & (_ & _ & Hka & _)%changed_file_action).
    exists a. split; [right; by eapply list_elem_of_lookup_2|].
    rewrite Hka. by eapply sensitive_dominates. }
  destruct (match_actions_lookup _ _ _ _ Hm Ha) as (r & Hin & Hmr).
  destruct (match_verdict a contract r Hmr) as (graph & _ & Hv).
  destruct (verdict_hints a contract graph) as (_ & _ & Hhs). rewrite <- Hv in Hhs. cbn in Hhs.
  assert (Hs : _has_state results IntentMatchState.HARD_SENSITIVE = true).
  { apply has_state_spec. exists r. split; [done|by apply Hhs]. }
  assert (Hrec : fst (_recommended_fallback results)
                 = (IntentMatchState.HARD_SENSITIVE, IntentDecisionHint.BLOCK)).
  { unfold _recommended_fallback. destruct results; [done|]. by rewrite Hs. }
  pose proof (recommended_of results contract) as Hr. rewrite Hrec in Hr. injection Hr as _ Hb.
  destruct (effective_of results contract) as [Heff Hmode]. rewrite Hb in Heff.
  split; [done|]. split.
  - rewrite Heff. by destruct (IntentContract.enforcement_mode contract).
  - intros He. rewrite He in Heff, Hmode. cbn in Heff.
    unfold IntentFallbackEvaluation.should_block, _intent_audit_decision, _decision_type_and_next_action.
    by rewrite Hmode, Heff.
Qed.

(** ** Lemmas: paths in normal form *)

Lemma join_length_app sep (l : list string) w :
  String.length (str_join sep l) <= String.length (str_join sep (w :: l)).
Proof.
  destruct l as [|x l]; [cbn; lia|].
  change (str_join sep (w :: x :: l)) with (w +++ sep +++ str_join sep (x :: l)).
  rewrite !slen_app. lia.
Qed.

Lemma join_length_filter sep f (l : list string) :
  String.length (str_join sep (List.filter f l)) <= String.length (str_join sep l).
Proof.
  induction l as [|w l IH]; [done|]. cbn [List.filter]. destruct (f w).
  - destruct l as [|x l]; [done|]. destruct (List.filter f (x :: l)) as [|y ys] eqn:E.
    + change (str_join sep (w :: x :: l)) with (w +++ sep +++ str_join sep (x :: l)).
      cbn [str_join]. rewrite !slen_app. lia.
    + change (str_join sep (w :: x :: l)) with (w +++ sep +++ str_join sep (x :: l)).
      change (str_join sep (w :: y :: ys)) with (w +++ sep +++ str_join sep (y :: ys)).
      rewrite !slen_app. lia.
  - etrans; [exact IH|]. apply join_length_app.
Qed.

Lemma lstrip_full p s : String.length (lstrip_by p s) = String.length s -> lstrip_by p s = s.
Proof.
  destruct s as [|c s]; [done|]. cbn. destruct (p c); [|done]. intros H.
  pose proof (length_lstrip p s). lia.
Qed.

Lemma rstrip_full p s : String.length (rstrip_by p s) = String.length s -> rstrip_by p s = s.
Proof.
  induction s as [|c s IH]; [done|]. cbn. destruct (rstrip_by p s) as [|d t] eqn:E.
  - destruct (p c); [done|]. intros H. cbn in *. destruct s; [done|cbn in H; lia].
  - intros H. cbn in H. injection H as H. f_equal. apply IH. cbn. lia.
Qed.

Lemma strip_full s : String.length (strip s) = String.length s -> strip s = s.
Proof.
  unfold strip, strip_by. intros H.
  pose proof (length_lstrip is_space s). pose proof (length_rstrip is_space (lstrip_by is_space s)).
  rewrite rstrip_full by lia. apply lstrip_full. lia.
Qed.

Lemma length_replace a b s : String.length (replace_char a b s) = String.length s.
Proof. induction s as [|c s IH]; cbn; [done|]. by rewrite IH. Qed.

Lemma replace_no_char a b s : no_char a s -> replace_char a b s = s.
Proof.
  induction s as [|c s IH]; [done|]. intros [Hc Hs]%no_char_cons. cbn.
  apply Ascii.eqb_neq in Hc. by rewrite Hc, IH.
Qed.

Lemma no_char_replace a b s : a <> b -> no_char a (replace_char a b s).
Proof.
  intros Hab. induction s as [|c s IH]; [apply no_char_empty|]. cbn. apply no_char_cons.
  destruct (Ascii.eqb_spec c a); auto.
Qed.

Lemma no_char_split sep a s w : no_char a s -> w ∈ split_on sep s -> no_char a w.
Proof.
  revert w. induction s as [|c s IH]; cbn; intros w Hs Hw.
  - apply list_elem_of_singleton in Hw as ->. apply no_char_empty.
  - apply no_char_cons in Hs as [Hc Hs]. destruct (Ascii.eqb c sep).
    + apply elem_of_cons in Hw as [->|Hw]; [apply no_char_empty|auto].
    + destruct (split_on sep s) as [|x xs] eqn:E.
      * apply list_elem_of_singleton in Hw as ->. apply no_char_cons. split; [done|apply no_char_empty].
      * apply elem_of_cons in Hw as [->|Hw]; [|apply IH; [done|by right]].
        apply no_char_cons. split; [done|]. apply IH; [done|by left].
Qed.

Lemma no_char_join a sep l :
  no_char a sep -> (forall w, w ∈ l -> no_char a w) -> no_char a (str_join sep l).
Proof.
  intros Hsep. induction l as [|w l IH]; intros H; [apply no_char_empty|].
  destruct l as [|x l]; [apply H; by left|].
  change (str_join sep (w :: x :: l)) with (w +++ sep +++ str_join sep (x :: l)).
  rewrite !no_char_app. split_and!; [apply H; by left|done|]. apply IH. intros y Hy. apply H. by right.
Qed.

(** A path that normalizes to itself has no backslash and no white space at
    its ends. *)
Lemma normal_form_inv p :
  normalize_repo_relative_path p = Ok p ->
  replace_char backslash slash p = p /\ strip p = p.
Proof.
  intros H%normalize_Ok_inv. cbn zeta in H. destruct H as (_ & _ & _ & Hp).
  set (q := replace_char backslash slash p) in *.
  assert (Hlen : String.length p <= String.length (strip q)).
  { rewrite Hp at 1. unfold PurePosixPath.of_string. cbn [PurePosixPath.comps].
    etrans; [apply join_length_filter|]. change "/"%string with (String slash "").
    by rewrite join_split_on. }
  assert (Hq : String.length q = String.length p) by apply length_replace.
  pose proof (length_strip q) as Hsq.
  assert (Hstrip : strip q = q) by (apply strip_full; lia).
  assert (Hnb : no_char backslash p).
  { rewrite Hp. apply no_char_join; [done|]. rewrite Hstrip. intros w Hw.
    unfold PurePosixPath.of_string in Hw. cbn [PurePosixPath.comps] in Hw.
    apply elem_of_lfilter in Hw as [Hw _]. eapply no_char_split; [|exact Hw].
    by apply no_char_replace. }
  assert (Heq : q = p) by (by apply replace_no_char). split; [done|]. by rewrite Heq in Hstrip.
Qed.

(** The two classifiers agree: on a path in normal form the normalizer of
    actions and the resource graph give one and the same resource kind. *)
Theorem classifiers_agree p :
  normalize_repo_relative_path p = Ok p ->
  classify_resource_path p = Ok (_resource_kind_for_path p).
Proof.
  intros H. unfold classify_resource_path. rewrite H. cbn [mbind result_bind]. f_equal.
  destruct (normal_form_inv p H) as [Hr Hs]. unfold _resource_kind_for_path. rewrite Hr, Hs.
  unfold resource_kind_of. cbn zeta.
  change (ResourceGraph._is_secret_path (lower p)) with (ActionNormalizer._is_secret_path (lower p)).
  change (ResourceGraph._is_policy_path (lower p)) with (ActionNormalizer._is_policy_path (lower p)).
  change (ResourceGraph._is_test_path (lower p)) with (ActionNormalizer._is_test_path (lower p)).
  change (path_name p) with (base_name p).
  change ResourceGraph._LOCKFILE_NAMES with ActionNormalizer._LOCKFILE_NAMES.
  change ResourceGraph._DEPENDENCY_MANIFESTS with ActionNormalizer._DEPENDENCY_MANIFESTS.
  repeat (case_match; [done|]).
  assert (endswith_any (lower p) _CONFIG_SUFFIXES
          = existsb (endswith (lower p)) [".yaml"; ".yml"; ".toml"; ".json"; ".ini"; ".cfg"; ".conf"]) as ->.
  { unfold endswith_any, _CONFIG_SUFFIXES. cbn [existsb].
    repeat match goal with |- context [endswith (lower p) ?s] => destruct (endswith (lower p) s) end;
      done. }
  done.
Qed.

Lemma classifiers_agree_witness : classify_resource_path "src/.env" = Ok ResourceKind.SENSITIVE.
Proof. rewrite (classifiers_agree "src/.env" eq_refl). reflexivity. Defined.

(** ** Lemmas: the gate returns *)

Definition no_space (s : string) : bool := forallb (fun c => negb (is_space c)) (list_ascii_of_string s).

Lemma lstrip_no_space s : no_space s = true -> lstrip_by is_space s = s.
Proof. destruct s as [|c s]; [done|]. cbn. intros [Hc%negb_true_iff _]%andb_true_iff. by rewrite Hc. Qed.

Lemma rstrip_no_space s : no_space s = true -> rstrip_by is_space s = s.
Proof.
  induction s as [|c s IH]; [done|]. cbn. intros [Hc%negb_true_iff Hs]%andb_true_iff.
  rewrite IH by done. destruct s; [by rewrite Hc|done].
Qed.

Lemma strip_no_space s : no_space s = true -> strip s = s.
Proof. intros H. unfold strip, strip_by. by rewrite lstrip_no_space, rstrip_no_space. Qed.

Lemma no_space_app a b : no_space (a +++ b) = no_space a && no_space b.
Proof. unfold no_space. induction a as [|c a IH]; cbn; [done|]. by rewrite IH, andb_assoc. Qed.

Lemma no_space_substring n s : no_space s = true -> no_space (String.substring 0 n s) = true.
Proof.
  revert s. induction n as [|n IH]; intros [|c s]; cbn; try done.
  intros [-> Hs]%andb_true_iff. by apply IH.
Qed.

Lemma length_substring n s : String.length (String.substring 0 n s) <= n.
Proof. revert s. induction n as [|n IH]; intros [|c s]; cbn; try lia. specialize (IH s). lia. Qed.

Lemma hex_digit_no_space n : (n < 16)%N -> is_space (hex_digit n) = false.
Proof. intros Hn. destruct n as [|p]; [done|]. do 4 (destruct p as [p|p|]; try done); lia. Qed.

Lemma be_bytes_range n x : Forall (fun b => 0 <= b < 256)%Z (be_bytes n x).
Proof.
  revert x. induction n as [|n IH]; intros x; cbn; [constructor|]. apply Forall_app. split; [apply IH|].
  constructor; [|constructor]. by apply Z.mod_pos_bound.
Qed.

Lemma hex_no_space bytes : Forall (fun b => 0 <= b < 256)%Z bytes -> no_space (hex bytes) = true.
Proof.
  induction 1 as [|b bs Hb _ IH]; [done|]. cbn [hex].
  change (no_space (String ?c (String ?d ?s)))
    with (negb (is_space c) && (negb (is_space d) && no_space s)).
  rewrite !hex_digit_no_space, IH; [done| |].
  - apply N2Z.inj_lt. rewrite Z2N.id by (by apply Z.mod_pos_bound).
    pose proof (Z.mod_pos_bound b 16 ltac:(lia)). lia.
  - apply N2Z.inj_lt. assert (0 <= b / 16 < 16)%Z.
    { split; [apply Z.div_pos; lia|apply Z.div_lt_upper_bound; lia]. }
    rewrite Z2N.id by lia. lia.
Qed.

Lemma sha256_hex_no_space s : no_space (sha256_hex s) = true.
Proof.
  unfold sha256_hex, sha256_bytes. apply hex_no_space.
  induction (blocks _ _ _) as [|w ws IH]; cbn [flat_map]; [constructor|].
  apply Forall_app. split; [apply be_bytes_range|exact IH].
Qed.

Lemma text_ok_no_space h s :
  truthy s = true -> no_space s = true -> (Z.of_nat (String.length s) <= h)%Z -> text_ok (Some h) s = true.
Proof.
  intros Ht Hn Hl. unfold text_ok. rewrite Ht, strip_no_space, String.eqb_refl by done. by apply Z.leb_le.
Qed.

Lemma text_ok_weaken hi s : text_ok hi s = true -> text_ok None s = true.
Proof. unfold text_ok. intros [-> _]%andb_true_iff. done. Qed.

Lemma stable_action_id_ok source operation paths old new metadata :
  text_ok (Some 128)%Z (_stable_action_id source operation paths old new metadata) = true.
Proof.
  unfold _stable_action_id. apply text_ok_no_space; [done| |].
  - rewrite no_space_app. apply no_space_substring, sha256_hex_no_space.
  - rewrite slen_app. pose proof (length_substring 24 (sha256_hex
      (canonical_json (default JNull (to_json (of_dict
    [("source", PStr (NormalizedActionSource.value source));
     ("operation", PStr (IntentOperation.value operation));
     ("affected_paths", PTuple (List.map PStr paths));
     ("old_path", of_opt_str old); ("new_path", of_opt_str new);
     ("metadata", of_dict metadata)])))))) as H.
    change (String.length "normalized_action_") with 18. lia.
Qed.

(** A file of an inventory whose paths can be matched: in normal form, not
    longer than the limit of the models, and a rename has both paths. *)
Definition matchable (p : string) : Prop :=
  normalize_repo_relative_path p = Ok p /\ (Z.of_nat (String.length p) <= 4096)%Z.

Definition matchable_file (f : ChangedFile.t) : Prop :=
  matchable (ChangedFile.path f) /\
  match ChangedFile.old_path f with
  | Some old => matchable old
  | None => ChangedFile.kind f <> RENAMED
  end.

Lemma matchable_ok p : matchable p -> text_ok (Some 4096)%Z p = true.
Proof.
  intros [H Hl]. destruct (normal_form_inv p H) as [_ Hs]. unfold text_ok.
  rewrite Hs, String.eqb_refl. apply Z.leb_le in Hl. rewrite Hl. by destruct p.
Qed.

Lemma changed_file_action_total f p d :
  matchable_file f -> exists a, normalize_changed_file_action f p d = Ok a /\
    text_ok (Some 128)%Z (NormalizedAction.action_id a) = true /\
    forall q, q ∈ raw_action_paths a -> normalize_repo_relative_path q = Ok q.
Proof.
  intros [Hp Ho]. unfold normalize_changed_file_action. eexists. split; [apply make_action_id|].
  - unfold action_ok. cbn [NormalizedAction.action_id NormalizedAction.affected_paths
      NormalizedAction.old_path NormalizedAction.new_path NormalizedAction.reason_codes
      NormalizedAction.operation].
    pose proof (matchable_ok _ Hp) as Hpok. pose proof (text_ok_weaken _ _ Hpok) as Hpn.
    pose proof (text_ok_weaken _ _ (stable_action_id_ok NormalizedActionSource.FILESYSTEM
      (_operation_from_changed_file f) (_affected_paths_for_changed_file f)
      (if is_renamed f then ChangedFile.old_path f else None)
      (if is_renamed f then Some (ChangedFile.path f) else None)
      [("changed_file_kind", PStr (kind_value (ChangedFile.kind f)));
       ("patch_sha256", of_opt_str (PatchDiff.patch_sha256 <$> d))])) as Hid.
    rewrite Hid. unfold _affected_paths_for_changed_file, _operation_from_changed_file, is_renamed in *.
    destruct (ChangedFile.old_path f) as [old|] eqn:Eo.
    + pose proof (matchable_ok _ Ho) as Hook. pose proof (text_ok_weaken _ _ Hook) as Hon.
      destruct old as [|c old]; [done|]. destruct (ChangedFile.path f) as [|c' pth]; [done|].
      clear Hid. destruct (ChangedFile.kind f);
        repeat first [rewrite bool_decide_false by done | rewrite bool_decide_true by done];
        cbn -[text_ok _dominant_resource_kind ResourceKind.value];
        rewrite ?Hpok, ?Hpn, ?Hook, ?Hon; destruct (_dominant_resource_kind _), p; reflexivity.
    + clear Hid. destruct (ChangedFile.kind f); try done;
        repeat first [rewrite bool_decide_false by done | rewrite bool_decide_true by done];
        cbn -[text_ok _dominant_resource_kind ResourceKind.value];
        rewrite ?Hpok, ?Hpn; destruct (_dominant_resource_kind _), p; reflexivity.
  - cbn [NormalizedAction.action_id]. split; [apply stable_action_id_ok|]. intros q. unfold raw_action_paths.
    cbn [NormalizedAction.affected_paths NormalizedAction.old_path NormalizedAction.new_path].
    unfold _affected_paths_for_changed_file.
    destruct Hp as [Hp _]. destruct (ChangedFile.old_path f) as [old|]; [destruct Ho as [Ho _]|];
      destruct (is_renamed f); rewrite ?elem_of_app, ?elem_of_cons, ?elem_of_nil; naive_solver.
Qed.

Lemma strip_head c s : is_space c = false -> truthy (strip (String c s)) = true.
Proof.
  intros Hc. unfold strip, strip_by. cbn. rewrite Hc. cbn. destruct (rstrip_by is_space s); [by rewrite Hc|done].
Qed.

(** A reason code whose first character is no white space passes the
    validator. *)
Definition headed (s : string) : bool :=
  match s with String c _ => negb (is_space c) | EmptyString => false end.

Lemma tuple_field_headed m l : forallb headed l = true -> tuple_field m l = Ok (List.map strip l).
Proof.
  intros H. unfold tuple_field.
  assert (existsb (fun v => negb (truthy v)) (List.map strip l) = false) as ->; [|done].
  apply existsb_false_elem_of. intros x Hx. apply list_elem_of_In, in_map_iff in Hx as (s & <- & Hs).
  rewrite forallb_forall in H. specialize (H s Hs). destruct s as [|c s]; [done|].
  cbn in H. apply negb_true_iff in H. by rewrite strip_head.
Qed.

Lemma forallb_fromkeys (f : string -> bool) l : forallb f l = true -> forallb f (fromkeys l) = true.
Proof.
  rewrite !forallb_elem_of. intros H x Hx. apply H. by apply fromkeys_elem_of.
Qed.

Lemma make_match_total r :
  optional_ok (Some 128)%Z (IntentMatchResult.contract_id r) = true ->
  optional_ok (Some 128)%Z (IntentMatchResult.action_id r) = true ->
  forallb headed (IntentMatchResult.reason_codes r) = true ->
  (if decide (IntentMatchResult.match_state r = IntentMatchState.EXACT_MATCH)
   then IntentMatchResult.unmatched_scopes r = [] else IntentMatchResult.reason_codes r <> []) ->
  exists r', make_match r = Ok r'.
Proof.
  intros Hc Ha Hr Hs. unfold make_match.
  rewrite optional_field_id by done. cbn [mbind result_bind].
  rewrite optional_field_id by done. cbn [mbind result_bind].
  rewrite tuple_field_headed by done. cbn [mbind result_bind].
  destruct (decide (IntentMatchResult.match_state r = IntentMatchState.EXACT_MATCH)) as [E|E].
  - rewrite bool_decide_true, Hs by done. cbn. eauto.
  - rewrite bool_decide_false by done. destruct (IntentMatchResult.reason_codes r); [done|]. cbn. eauto.
Qed.

Lemma facts_total q : normalize_repo_relative_path q = Ok q -> exists x, facts_of_path q = Ok x.
Proof.
  intros Hq. unfold facts_of_path, _nodes_for_path, _edges_for_path, _file_node,
    python_module_name_for_path, rust_module_name_for_path, classify_resource_path.
  repeat (rewrite Hq; cbn [mbind result_bind]). eauto.
Qed.

Lemma graph_total paths :
  (forall p, p ∈ paths -> normalize_repo_relative_path p = Ok p) ->
  exists g, _safe_graph_for_paths paths = Ok g.
Proof.
  intros H. unfold _safe_graph_for_paths. destruct paths as [|p ps]; [eauto|].
  unfold build_resource_graph_from_paths.
  assert (exists facts, mapR facts_of_path (p :: ps) = Ok facts) as [facts ->]; [|eauto].
  induction (p :: ps) as [|q qs IH]; [by exists []|].
  destruct IH as [fs Hfs]; [intros; apply H; by right|]. assert (Hq : normalize_repo_relative_path q = Ok q)
    by (apply H; by left).
  destruct (facts_total q Hq) as [x Hx]. cbn [mapR]. rewrite Hx, Hfs. cbn. eauto.
Qed.

Lemma paths_of_normal action :
  (forall q, q ∈ raw_action_paths action -> normalize_repo_relative_path q = Ok q) ->
  forall p, p ∈ paths_of action -> normalize_repo_relative_path p = Ok p.
Proof.
  intros H p. unfold paths_of, _normalized_action_paths. cbn [fst]. rewrite fromkeys_elem_of.
  intros (r & Hr & Hp)%elem_of_flat_map. apply list_elem_of_In, in_map_iff in Hr as (q & <- & Hq).
  apply list_elem_of_In, H in Hq as Hqn. rewrite Hqn in Hp. apply list_elem_of_singleton in Hp as ->. done.
Qed.

Lemma operation_reasons action contract :
  forallb headed (OperationMatch.reason_codes (_operation_allowed action contract)) = true /\
  OperationMatch.reason_codes (_operation_allowed action contract) <> [].
Proof.
  unfold _operation_allowed, _semantic_operation_reason. destruct (among _ _); [done|].
  destruct (_ && _ && _); [done|]. destruct (_ && _ && _); done.
Qed.

Lemma match_total action contract :
  text_ok (Some 128)%Z (IntentContract.contract_id contract) = true ->
  text_ok (Some 128)%Z (NormalizedAction.action_id action) = true ->
  (forall q, q ∈ raw_action_paths action -> normalize_repo_relative_path q = Ok q) ->
  exists r, match_action_to_contract action contract = Ok r.
Proof.
  intros Hc Ha Hp. destruct (graph_total (paths_of action) (paths_of_normal action Hp)) as [g Hg].
  unfold paths_of in Hg. destruct (operation_reasons action contract) as [Hr1 Hr2].
  assert (Hreasons : forallb headed (snd (_normalized_action_paths action)) = true)
    by (unfold _normalized_action_paths; cbn [snd]; destruct (existsb _ _); done).
  unfold match_action_to_contract. destruct (_normalized_action_paths action) as [paths reasons].
  cbn [fst snd] in *. rewrite Hg. cbn [map_err mbind result_bind].
  repeat case_match; apply make_match_total; cbn [IntentMatchResult.contract_id
    IntentMatchResult.action_id IntentMatchResult.reason_codes IntentMatchResult.match_state
    IntentMatchResult.unmatched_scopes optional_ok]; try done; try (by case_decide);
    try (apply forallb_fromkeys; done).
Qed.

(** The gate does not fail on an inventory: for a valid contract and a
    report whose paths are in normal form and within the limits, every changed
    file gets an action and every action a match result, in order. *)
Theorem gate_returns_on_inventory report patch_diff contract :
  contract_ok contract = true ->
  Forall matchable_file (ChangedFileReport.files report) ->
  exists actions results,
    normalize_changed_file_actions report patch_diff = Ok actions /\
    match_actions_to_contract actions contract = Ok results /\
    List.length results = List.length (ChangedFileReport.files report) /\
    Forall2 action_of_file (ChangedFileReport.files report) actions.
Proof.
  intros Hc Hf. assert (Hid : text_ok (Some 128)%Z (IntentContract.contract_id contract) = true).
  { unfold contract_ok in Hc. by destruct (text_ok (Some 128)%Z (IntentContract.contract_id contract)). }
  unfold normalize_changed_file_actions, match_actions_to_contract.
  induction Hf as [|f fs Hf _ IH]; [by exists [], []|].
  destruct IH as (actions & results & Ha & Hr & Hlen & Hfa).
  destruct (changed_file_action_total f (get_last (_patch_files_by_key patch_diff) (_patch_lookup_key f))
    patch_diff Hf) as (a & Hfa' & Hida & Hpa).
  destruct (match_total a contract Hid Hida Hpa) as [r Hm].
  exists (a :: actions), (r :: results). cbn [mapR]. rewrite Hfa', Ha, Hm, Hr.
  cbn [mbind result_bind List.length]. rewrite Hlen. do 3 (split; [done|]). constructor; [|done].
  by eapply changed_file_action.
Qed.

(** ** Examples and witnesses *)

Definition scope_of (type : ResourceScopeType.t) (value : string) : ResourceScope.t :=
  ResourceScope.mk type value None [].

Definition example_contract (mode : IntentEnforcementMode.t) (targets : list ResourceScope.t)
    : IntentContract.t :=
  IntentContract.mk "intent_1" "intent_session_1" IntentContractSource.YAML "Fix the parser" None None
    None [] [IntentOperation.MODIFY; IntentOperation.RENAME; IntentOperation.TEST] targets
    [scope_of ResourceScopeType.PATH_GLOB "src/generated/*"] 100 None mode None [].

Definition enforced : IntentContract.t :=
  example_contract IntentEnforcementMode.ENFORCE
    [scope_of ResourceScopeType.PATH_GLOB "src/*.py"; scope_of ResourceScopeType.PATH_GLOB "tests/*"].

Definition modified (path : string) : ChangedFile.t :=
  ChangedFile.mk path MODIFIED None (Some "100644") (Some "100644") false.

Definition report_of (files : list ChangedFile.t) : ChangedFileReport.t :=
  ChangedFileReport.mk "/repo" "0123456789abcdef0123456789abcdef01234567" files [].

Definition example_command : list string := ["pytest"; "tests/test_a.py"].

Definition ok_or_nil {A} (r : result exn (list A)) : list A := match r with Ok l => l | Raise _ => [] end.

Definition actions_for (files : list ChangedFile.t) : list NormalizedAction.t :=
  ok_or_nil (normalize_guarded_actions example_command (Some (report_of files)) None).

Definition results_for (files : list ChangedFile.t) (contract : IntentContract.t)
    : list IntentMatchResult.t :=
  ok_or_nil (match_actions_to_contract (actions_for files) contract).

Example command_kinds :
  List.map _operation_from_command
    [["rm"; "-RF"; "x"]; ["/usr/bin/git"; "mv"; "a"; "b"]; ["python3"; "-m"; "pytest"]; ["npm"; "add"; "x"];
     ["cargo"; "build"]; ["ls"]; []]
  = [IntentOperation.DELETE_FOLDER; IntentOperation.MOVE; IntentOperation.TEST;
     IntentOperation.DEPENDENCY_CHANGE; IntentOperation.BUILD; IntentOperation.COMMAND;
     IntentOperation.COMMAND].
Proof. reflexivity. Qed.

Example extracted_paths :
  _extract_repo_paths ["python"; "./src/a.py"; "-c"; "b.py"; "src/a.py"; "/etc/passwd"; "../x.py"; "x=1.py"]
  = ["src/a.py"].
Proof. vm_compute. reflexivity. Qed.

Example dominant_kinds :
  (_dominant_resource_kind ["docs/a.md"; "src/a.py"], _dominant_resource_kind ["src/a.py"; "conf/.env"],
   _dominant_resource_kind []) = (ResourceKind.PYTHON_MODULE, ResourceKind.SENSITIVE, ResourceKind.UNKNOWN).
Proof. vm_compute. reflexivity. Qed.

Example module_names :
  (python_module_name_for_path "src/rygnal/__init__.py", rust_module_name_for_path "src/policy/mod.rs",
   rust_module_name_for_path "src/lib.rs", python_module_name_for_path "src/__init__.py")
  = (Ok (Some "rygnal"), Ok (Some "policy"), Ok (Some "crate"), Ok None).
Proof. vm_compute. reflexivity. Qed.

Definition no_match : IntentMatchResult.t :=
  IntentMatchResult.mk IntentMatchState.UNKNOWN None None [] [] [] IntentDecisionHint.NONE [].

Definition parser_action : NormalizedAction.t :=
  NormalizedAction.mk "a1" NormalizedActionSource.FILESYSTEM IntentOperation.MODIFY ["src/parser.py"]
    None None ResourceKind.PYTHON_MODULE [] [] [].

Definition parser_match : IntentMatchResult.t :=
  match match_action_to_contract parser_action enforced with Ok r => r | Raise _ => no_match end.

Lemma exact_match_witness : exists graph, authorized parser_action enforced graph.
Proof.
  assert (E : match_action_to_contract parser_action enforced = Ok parser_match)
    by (vm_compute; reflexivity).
  destruct (exact_match_iff_authorized parser_action enforced parser_match E) as (graph & _ & Hx & _).
  exists graph. apply Hx. vm_compute. reflexivity.
Defined.

Lemma allowed_run_witness :
  exists actions, actions <> [] /\ forall a, a ∈ actions -> exists graph,
    _safe_graph_for_paths (paths_of a) = Ok graph /\ authorized a enforced graph.
Proof.
  exists (actions_for [modified "src/parser.py"; modified "tests/test_a.py"]).
  refine (allowed_run_is_authorized _ enforced
            (results_for [modified "src/parser.py"; modified "tests/test_a.py"] enforced) _ _).
  - vm_compute. reflexivity.
  - vm_compute. reflexivity.
Defined.

Lemma sensitive_change_witness :
  IntentFallbackEvaluation.recommended_hint
    (evaluate_intent_fallback (results_for [modified "src/parser.py"; modified "src/.env"] enforced) enforced)
  = IntentDecisionHint.BLOCK.
Proof.
  refine (proj1 (sensitive_change_is_blocked example_command
    (report_of [modified "src/parser.py"; modified "src/.env"]) None enforced
    (actions_for [modified "src/parser.py"; modified "src/.env"]) _ (modified "src/.env") "src/.env" _ _ _ _ _)).
  - vm_compute. reflexivity.
  - vm_compute. reflexivity.
  - by right; left.
  - by left.
  - reflexivity.
Defined.

Lemma gate_returns_witness :
  exists actions results,
    normalize_changed_file_actions (report_of [modified "src/parser.py"]) None = Ok actions /\
    match_actions_to_contract actions enforced = Ok results /\ List.length results = 1.
Proof.
  destruct (gate_returns_on_inventory (report_of [modified "src/parser.py"]) None enforced)
    as (actions & results & H1 & H2 & H3 & _).
  - vm_compute. reflexivity.
  - repeat constructor; vm_compute; done.
  - exists actions, results. split; [exact H1|]. split; [exact H2|exact H3].
Defined.

(** ** What the composition does not check *)

(** A symbol scope is matched against the graph of all paths of an action, so
    it covers paths that declare no symbol: renaming a module of the contract
    to any other place is an exact match. *)
Lemma symbol_scope_covers_any_path :
  let contract := example_contract IntentEnforcementMode.ENFORCE [scope_of ResourceScopeType.SYMBOL "parser"] in
  let f := ChangedFile.mk "deploy/release.sh" RENAMED (Some "src/parser.py") None None false in
  (a ← normalize_changed_file_action f None None;
   r ← match_action_to_contract a contract;
   Ok (IntentMatchResult.match_state r, IntentMatchResult.decision_hint r))
  = Ok (IntentMatchState.EXACT_MATCH, IntentDecisionHint.ALLOW).
Proof. vm_compute. reflexivity. Qed.

(** A path whose normal form is not itself normal is not reported as an invalid
    action path: the graph is built outside the handler, and raises. *)
Lemma renormalized_path_raises :
  match_action_to_contract
    (NormalizedAction.mk "a1" NormalizedActionSource.FILESYSTEM IntentOperation.MODIFY ["./ ../x"] None None
       ResourceKind.FILE [] [] []) enforced
  = Raise (mk_exn RuntimeError "ChangedFilePathError" "Changed file path must not traverse:  ../x").
Proof. vm_compute. reflexivity. Qed.

(** The expiry and the risk ceiling of a contract take no part in the decision. *)
Definition with_limits (c : IntentContract.t) (risk_ceiling : Z) (expires_at : option string)
    : IntentContract.t :=
  IntentContract.mk (IntentContract.contract_id c) (IntentContract.session_id c) (IntentContract.source c)
    (IntentContract.task_objective c) (IntentContract.human_prompt c) (IntentContract.ai_plan c)
    (IntentContract.evidence_source c) (IntentContract.evidence_metadata c)
    (IntentContract.allowed_actions c) (IntentContract.target_scopes c) (IntentContract.excluded_scopes c)
    risk_ceiling expires_at (IntentContract.enforcement_mode c) (IntentContract.approved_by c)
    (IntentContract.metadata c).

Lemma limits_are_not_enforced contract risk_ceiling expires_at actions :
  _evaluate_intent_contract (Some (with_limits contract risk_ceiling expires_at)) actions
  = _evaluate_intent_contract (Some contract) actions.
Proof. reflexivity. Qed.
