(* ===== verification/PatchFinalizer.v ===== *)
(** * guarded_patch_finalizer.py: the decision about a generated patch

    [finalize_guarded_patch] blocks, asks for approval, or applies.  It runs on
    the artifact directory, the world of [GuardedApply] (repository, log, used
    approvals) and the approval queue; every exception becomes a result, but an
    [OSError] of the removal of the artifact of a refused request. *)

From S2P Require Import IntentDecision ArtifactExample.
From S2P Require Export ArtifactLifecycle.

(** ** Interfaces *)

(** [ApprovalQueueWriter.submit]: the queue afterwards, and what was returned
    or raised. *)
Class ApprovalQueueWriter (Q : Type) := {
  queue_submit : Q -> ApprovalRequest.t -> Q * result exn ApprovalRequest.t;
}.

(** ** Data *)

Module GuardedPatchApplyOutcome.
Inductive t := NOT_GENERATED | NOT_APPLIED | APPLIED | PENDING_APPROVAL | APPLY_FAILED.
Definition value (o : t) : string :=
  match o with
  | NOT_GENERATED => "not_generated" | NOT_APPLIED => "not_applied" | APPLIED => "applied"
  | PENDING_APPROVAL => "pending_approval" | APPLY_FAILED => "apply_failed"
  end.
#[global] Instance apply_outcome_eq_dec : EqDecision t.
Proof. solve_decision. Defined.
End GuardedPatchApplyOutcome.

Module GuardedPatchFinalStatus.
Inductive t := COMPLETED | FAILED | TIMED_OUT | BLOCKED | APPROVAL_REQUIRED.
Definition value (s : t) : string :=
  match s with
  | COMPLETED => "completed" | FAILED => "failed" | TIMED_OUT => "timed_out" | BLOCKED => "blocked"
  | APPROVAL_REQUIRED => "approval_required"
  end.
#[global] Instance final_status_eq_dec : EqDecision t.
Proof. solve_decision. Defined.
End GuardedPatchFinalStatus.

(** An unknown status counts as failed. *)
Definition _normalize_current_status (value : string) : GuardedPatchFinalStatus.t :=
  default GuardedPatchFinalStatus.FAILED
    (List.find (fun s => String.eqb (GuardedPatchFinalStatus.value s) value)
       [GuardedPatchFinalStatus.COMPLETED; GuardedPatchFinalStatus.FAILED;
        GuardedPatchFinalStatus.TIMED_OUT; GuardedPatchFinalStatus.BLOCKED;
        GuardedPatchFinalStatus.APPROVAL_REQUIRED]).

Definition _severity_for_risk (level : RiskLevel) : Severity :=
  match level with CRITICAL => SevCritical | HIGH => SevHigh | MEDIUM => SevMedium | LOW => SevLow end.

(** The queue and the logger are part of the state. *)
Module GuardedPatchFinalizationRequest.
Record t := mk {
  current_status : string;
  run_id : string;
  trace_id : string;
  trusted_repo_path : string;
  run_root : string;
  user_id : string;
  agent_id : string;
  environment : string;
  command_exit_code : option Z;
  command_timed_out : bool;
  patch_diff : option PatchDiff.t;
  risk_report : option ChangeRiskReport.t;
  intent_fallback_evaluation : option IntentFallbackEvaluation.t;
  intent_decision_receipt : option IntentDecisionReceipt.t;
}.
End GuardedPatchFinalizationRequest.

Module GuardedPatchFinalizationResult.
Record t := mk {
  status : GuardedPatchFinalStatus.t;
  apply_outcome : GuardedPatchApplyOutcome.t;
  blocked_reason : option string;
  approval_request : option ApprovalRequest.t;
  artifact_id : option string;
  safe_apply_result : option SafePatchApplyResult;
  gate_decision : option GuardedChangeGateDecision.t;
  approval_requirement : option PatchApprovalRequirement.t;
}.
Definition applied (r : t) : bool := bool_decide (apply_outcome r = GuardedPatchApplyOutcome.APPLIED).
Definition pending_approval (r : t) : bool :=
  bool_decide (apply_outcome r = GuardedPatchApplyOutcome.PENDING_APPROVAL).
Definition of_opt_dict {A} (f : A -> pydict) (o : option A) : pyval :=
  match o with Some a => of_dict (f a) | None => PNone end.
Definition audit_summary (r : t) : pydict :=
  [("status", PStr (GuardedPatchFinalStatus.value (status r)));
   ("apply_outcome", PStr (GuardedPatchApplyOutcome.value (apply_outcome r)));
   ("applied", PBool (applied r)); ("pending_approval", PBool (pending_approval r));
   ("blocked_reason", of_opt_str (blocked_reason r)); ("artifact_id", of_opt_str (artifact_id r));
   ("approval_id", of_opt_str (ApprovalRequest.approval_id <$> approval_request r));
   ("safe_apply", of_opt_dict safe_audit_summary (safe_apply_result r));
   ("gate", of_opt_dict GuardedChangeGateDecision.audit_summary (gate_decision r));
   ("approval_requirement", of_opt_dict PatchApprovalRequirement.audit_summary (approval_requirement r))].
End GuardedPatchFinalizationResult.

Definition intent_text (e : IntentFallbackEvaluation.t) : string :=
  "match_state=" +++ IntentMatchState.value (IntentFallbackEvaluation.match_state e)
  +++ "; reasons=" +++ str_join "," (IntentFallbackEvaluation.reason_codes e).

Definition _intent_summary (request : GuardedPatchFinalizationRequest.t) : pydict :=
  match GuardedPatchFinalizationRequest.intent_fallback_evaluation request with
  | Some e =>
      [("match_state", PStr (IntentMatchState.value (IntentFallbackEvaluation.match_state e)));
       ("recommended_hint",
         PStr (IntentDecisionHint.value (IntentFallbackEvaluation.recommended_hint e)));
       ("effective_hint", PStr (IntentDecisionHint.value (IntentFallbackEvaluation.effective_hint e)));
       ("should_block", PBool (IntentFallbackEvaluation.should_block e));
       ("requires_approval", PBool (IntentFallbackEvaluation.requires_approval e));
       ("reason_codes", PTuple (List.map PStr (IntentFallbackEvaluation.reason_codes e)))]
  | None => []
  end
  ++ match GuardedPatchFinalizationRequest.intent_decision_receipt request with
     | Some r => [("receipt", of_dict (IntentDecisionReceipt.audit_summary r))]
     | None => []
     end.

(** A decision without side effect. *)
Definition decided (status : GuardedPatchFinalStatus.t) (outcome : GuardedPatchApplyOutcome.t)
    (reason : option string) : GuardedPatchFinalizationResult.t :=
  GuardedPatchFinalizationResult.mk status outcome reason None None None None None.

Definition decided_with (status : GuardedPatchFinalStatus.t) (outcome : GuardedPatchApplyOutcome.t)
    (reason : option string) (safe_apply : option SafePatchApplyResult)
    (gate : GuardedChangeGateDecision.t) (requirement : PatchApprovalRequirement.t)
    : GuardedPatchFinalizationResult.t :=
  GuardedPatchFinalizationResult.mk status outcome reason None None safe_apply (Some gate)
    (Some requirement).

Definition _forced_approval_request (fresh : Fresh.t) (request : GuardedPatchFinalizationRequest.t)
    (d : PatchDiff.t) (report : ChangeRiskReport.t) (requirement : PatchApprovalRequirement.t)
    (reason policy_id : string) : result exn ApprovalRequest.t :=
  let r := ApprovalRequest.mk (Fresh.approval_id fresh) (Fresh.created_at fresh)
    (GuardedPatchFinalizationRequest.trace_id request)
    (GuardedPatchFinalizationRequest.user_id request)
    (GuardedPatchFinalizationRequest.agent_id request)
    (GuardedPatchFinalizationRequest.environment request) "guarded_workspace"
    (Some "approve_patch_apply") (PStr (PatchDiff.patch_sha256 d)) (Some policy_id) reason
    (_severity_for_risk (ChangeRiskReport.overall_risk_level report))
    [("requirement", of_dict (PatchApprovalRequirement.audit_summary requirement));
     ("risk_report", of_dict (ChangeRiskReport.audit_summary report)); ("forced_approval", PBool true)]
    (patch_request_metadata d ++ [("forced_approval", PBool true)]) in
  if ApprovalRequest.valid r then Ok r else Raise blank_context.

(** The goals of a decision without side effect. *)
Ltac settles := left; split; [done|]; eexists; split; [reflexivity|done].

(** ** The finalizer *)

Section Finalize.
Context {R L Q : Type} `{AH : ArtifactHost} {GR : GitRepo R} {AA : ApplyAudit L} {RS : RiskSources}
  {QW : ApprovalQueueWriter Q}.
Context (resolve : PurePosixPath.t -> PurePosixPath.t).

(** What the constructor of the store makes of its directory. *)
Context (open_root : string -> result exn unit).

(** The failures of the disk while the artifact is persisted, and while it is
    removed again. *)
Context (persist_disk delete_disk : disk_faults).

(** The artifact directory, the world of the apply, and the queue if there is
    one. *)
Definition fin_world : Type := world R L * option Q.
Definition fin_state : Type := artifact_store * fin_world.

Definition submit_approval (w : fin_world) (r : ApprovalRequest.t) : fin_world * result exn unit :=
  match snd w with
  | None => (w, Ok ())
  | Some q =>
      let '(q', outcome) := queue_submit q r in
      ((fst w, Some q'), _ ← outcome; Ok ())
  end.

(** The request of the [try] block of [_persist_pending_approval]. *)
Definition pending_request (fresh : Fresh.t) (request : GuardedPatchFinalizationRequest.t)
    (d : PatchDiff.t) (report : ChangeRiskReport.t) (gate : GuardedChangeGateDecision.t)
    (requirement : PatchApprovalRequirement.t) (forced_reason forced_policy_id : option string)
    : result exn ApprovalRequest.t :=
  let or_default (o : option string) (text : string) := if truthy_opt o then default "" o else text in
  if PatchApprovalRequirement.required requirement
     && match forced_reason with None => true | Some _ => false end
  then
    create_patch_approval_request fresh d (GuardedPatchFinalizationRequest.user_id request)
      (GuardedPatchFinalizationRequest.agent_id request)
      (GuardedPatchFinalizationRequest.environment request) (Some report) (Some gate)
      (Some (GuardedPatchFinalizationRequest.trace_id request))
  else
    _forced_approval_request fresh request d report requirement
      (or_default forced_reason "Explicit approval is required before trusted apply.")
      (or_default forced_policy_id "guarded-workspace-explicit-approval").

(** [except PatchArtifactError]: the class and its subclasses. *)
Definition is_artifact_error (e : exn) : bool :=
  mem (exn_name e) ["PatchArtifactError"; "PatchArtifactNotFoundError"; "PatchArtifactTamperedError";
                    "PatchArtifactExpiredError"; "PatchArtifactConsumedError"]%string.

(** [artifact_id] and [now] are the identifier and the time [persist] draws. *)
Definition _persist_pending_approval (fresh : Fresh.t) (artifact_id : string) (now : Z)
    (request : GuardedPatchFinalizationRequest.t) (d : PatchDiff.t) (report : ChangeRiskReport.t)
    (gate : GuardedChangeGateDecision.t) (requirement : PatchApprovalRequirement.t)
    (forced_reason forced_policy_id : option string) (safe_apply : option SafePatchApplyResult)
    (st : fin_state) : fin_state * result exn GuardedPatchFinalizationResult.t :=
  let failed (e : exn) :=
    decided_with GuardedPatchFinalStatus.FAILED GuardedPatchApplyOutcome.APPLY_FAILED
      (Some ("Pending approval persistence failed closed: " +++ exn_text e)) safe_apply gate requirement in
  match (_ ← open_root (resolve_path (GuardedPatchFinalizationRequest.run_root request) +++ "/artifacts");
         pending_request fresh request d report gate requirement forced_reason forced_policy_id) with
  | Raise e => (st, Ok (failed e))
  | Ok approval_request =>
      match persist persist_disk d (GuardedPatchFinalizationRequest.run_id request)
              (GuardedPatchFinalizationRequest.trace_id request) approval_request
              (GuardedPatchFinalizationRequest.trusted_repo_path request) report
              (_intent_summary request) DEFAULT_PATCH_ARTIFACT_TTL_SECONDS artifact_id now st with
      | (st', Raise e) => (st', Ok (failed e))
      | ((s', w'), Ok artifact) =>
          let approval_request := bind_artifact_to_approval approval_request artifact in
          match submit_approval w' approval_request with
          | (w'', Raise e) =>
              match delete_artifact delete_disk (PatchArtifact.artifact_id artifact) (s', w'') with
              | (st'', Raise e') =>
                  (st'', if is_artifact_error e' then Ok (failed e) else Raise e')
              | (st'', Ok _) => (st'', Ok (failed e))
              end
          | (w'', Ok _) =>
              ((s', w''),
               Ok (GuardedPatchFinalizationResult.mk GuardedPatchFinalStatus.APPROVAL_REQUIRED
                 GuardedPatchApplyOutcome.PENDING_APPROVAL
                 (Some (ApprovalRequest.reason approval_request)) (Some approval_request)
                 (Some (PatchArtifact.artifact_id artifact)) safe_apply (Some gate) (Some requirement)))
          end
      end
  end.

(** The apply on the world, the queue aside. *)
Definition run_auto_apply (request : GuardedPatchFinalizationRequest.t) (d : PatchDiff.t)
    (report : ChangeRiskReport.t) (gate : GuardedChangeGateDecision.t) (st : fin_state)
    : fin_state * result string SafePatchApplyResult :=
  let '(s, (w, q)) := st in
  let '(w', r) :=
    auto_apply_safe_patch resolve d (GuardedPatchFinalizationRequest.trusted_repo_path request)
      (Some report) (Some gate)
      (mk_run_context (GuardedPatchFinalizationRequest.user_id request)
         (GuardedPatchFinalizationRequest.agent_id request)
         (GuardedPatchFinalizationRequest.environment request)
         (GuardedPatchFinalizationRequest.trace_id request)) w in
  ((s, (w', q)), r).

(** Nothing was generated: the run is complete, unless the intent asks for a
    review. *)
Definition no_patch (st : fin_state) (intent : option IntentFallbackEvaluation.t)
    : fin_state * result exn GuardedPatchFinalizationResult.t :=
  (st, Ok
   match intent with
   | Some e =>
       if IntentFallbackEvaluation.requires_approval e
       then decided GuardedPatchFinalStatus.APPROVAL_REQUIRED GuardedPatchApplyOutcome.NOT_GENERATED
              (Some ("Intent enforcement requires human review: " +++ intent_text e))
       else decided GuardedPatchFinalStatus.COMPLETED GuardedPatchApplyOutcome.NOT_GENERATED None
   | None => decided GuardedPatchFinalStatus.COMPLETED GuardedPatchApplyOutcome.NOT_GENERATED None
   end).

(** From the two decisions about the patch on. *)
Definition finalize_decided (fresh : Fresh.t) (artifact_id : string) (now : Z)
    (request : GuardedPatchFinalizationRequest.t) (d : PatchDiff.t) (report : ChangeRiskReport.t)
    (gate : GuardedChangeGateDecision.t) (requirement : PatchApprovalRequirement.t) (st : fin_state)
    : fin_state * result exn GuardedPatchFinalizationResult.t :=
  let persist_pending := _persist_pending_approval fresh artifact_id now request d report gate requirement in
  if GuardedChangeGateDecision.blocked gate
     || bool_decide (ChangeRiskReport.overall_risk_level report = CRITICAL)
  then
    (st, Ok (decided_with GuardedPatchFinalStatus.BLOCKED GuardedPatchApplyOutcome.NOT_APPLIED
           (Some ("Generated patch blocked before trusted mutation: " +++
                  "critical risk or a dangerous change was detected.")) None gate requirement))
  else
    let intent_requires_approval :=
      match GuardedPatchFinalizationRequest.intent_fallback_evaluation request with
      | Some e => IntentFallbackEvaluation.requires_approval e
      | None => false
      end in
    let required := PatchApprovalRequirement.required requirement in
    if required || intent_requires_approval then
      if intent_requires_approval && negb required
      then persist_pending (Some "Intent enforcement requires approval before trusted apply.")
             (Some "guarded-workspace-intent-approval") None st
      else persist_pending None None None st
    else
      match run_auto_apply request d report gate st with
      | (st', Raise e) =>
          (st', Ok (decided_with GuardedPatchFinalStatus.FAILED GuardedPatchApplyOutcome.APPLY_FAILED
                  (Some ("Automatic trusted apply failed closed: " +++ e)) None gate requirement))
      | (st', Ok safe_apply) =>
          match sr_outcome safe_apply with
          | SAFE_APPLIED =>
              (st', Ok (decided_with GuardedPatchFinalStatus.COMPLETED GuardedPatchApplyOutcome.APPLIED None
                      (Some safe_apply) gate requirement))
          | SAFE_SKIPPED =>
              let joined := str_join ", " (List.map SafePatchSkipReason.code (sr_skip_reasons safe_apply)) in
              let skip_codes := if truthy joined then joined else "unspecified-safe-apply-skip" in
              persist_pending
                (Some ("Patch passed the final block decision but is not eligible for automatic apply ("
                       +++ skip_codes +++ "); explicit approval is required."))
                (Some "guarded-workspace-non-auto-apply-approval") (Some safe_apply) st'
          end
      end.

Definition finalize_guarded_patch (fresh : Fresh.t) (artifact_id : string) (now : Z)
    (request : GuardedPatchFinalizationRequest.t) (st : fin_state)
    : fin_state * result exn GuardedPatchFinalizationResult.t :=
  let current_status :=
    _normalize_current_status (GuardedPatchFinalizationRequest.current_status request) in
  let status_is s := bool_decide (current_status = s) in
  let intent := GuardedPatchFinalizationRequest.intent_fallback_evaluation request in
  let not_applied status reason :=
    (st, Ok (decided status GuardedPatchApplyOutcome.NOT_APPLIED (Some reason))) in
  if GuardedPatchFinalizationRequest.command_timed_out request
     || status_is GuardedPatchFinalStatus.TIMED_OUT
  then not_applied GuardedPatchFinalStatus.TIMED_OUT "Timed-out commands never apply generated changes."
  else if negb match GuardedPatchFinalizationRequest.command_exit_code request with
               | None => true | Some code => (code =? 0)%Z end
          || status_is GuardedPatchFinalStatus.FAILED
  then not_applied GuardedPatchFinalStatus.FAILED "Failed commands never apply generated changes."
  else if status_is GuardedPatchFinalStatus.BLOCKED
  then not_applied GuardedPatchFinalStatus.BLOCKED "Blocked guarded runs never apply generated changes."
  else if match intent with Some e => IntentFallbackEvaluation.should_block e | None => false end
  then not_applied GuardedPatchFinalStatus.BLOCKED
         ("Intent enforcement blocked the generated action: "
          +++ match intent with Some e => intent_text e | None => "" end)
  else
    match GuardedPatchFinalizationRequest.patch_diff request with
    | Some d =>
        if (PatchDiff.changed_file_count d =? 0)%Z then no_patch st intent
        else
          match GuardedPatchFinalizationRequest.risk_report request with
          | None =>
              (st, Ok (decided GuardedPatchFinalStatus.FAILED GuardedPatchApplyOutcome.APPLY_FAILED
                     (Some "Generated patch had no verified risk report; trusted mutation failed closed.")))
          | Some report =>
              match (gate ← evaluate_guarded_change_gate d (Some report);
                     requirement ← evaluate_patch_approval_requirement d (Some report) (Some gate);
                     Ok (gate, requirement)) with
              | Raise e =>
                  (st, Ok (decided GuardedPatchFinalStatus.FAILED GuardedPatchApplyOutcome.APPLY_FAILED
                         (Some ("Patch decision evaluation failed closed: " +++ path_error_message e))))
              | Ok (gate, requirement) =>
                  finalize_decided fresh artifact_id now request d report gate requirement st
              end
          end
    | None => no_patch st intent
    end.

(** ** When a decision about the patch is reached *)

Record proceeds (request : GuardedPatchFinalizationRequest.t) (d : PatchDiff.t)
    (report : ChangeRiskReport.t) : Prop := mk_proceeds {
  pr_command : GuardedPatchFinalizationRequest.command_timed_out request = false /\
    (GuardedPatchFinalizationRequest.command_exit_code request = None \/
     GuardedPatchFinalizationRequest.command_exit_code request = Some 0%Z);
  pr_status : _normalize_current_status (GuardedPatchFinalizationRequest.current_status request)
    ∈ [GuardedPatchFinalStatus.COMPLETED; GuardedPatchFinalStatus.APPROVAL_REQUIRED];
  pr_intent : forall e, GuardedPatchFinalizationRequest.intent_fallback_evaluation request = Some e ->
    IntentFallbackEvaluation.should_block e = false;
  pr_patch : GuardedPatchFinalizationRequest.patch_diff request = Some d /\
    PatchDiff.changed_file_count d <> 0%Z;
  pr_report : GuardedPatchFinalizationRequest.risk_report request = Some report;
}.

Definition intent_requires (request : GuardedPatchFinalizationRequest.t) : bool :=
  match GuardedPatchFinalizationRequest.intent_fallback_evaluation request with
  | Some e => IntentFallbackEvaluation.requires_approval e
  | None => false
  end.

(** Nothing holds the patch back. *)
Record cleared (request : GuardedPatchFinalizationRequest.t) (d : PatchDiff.t)
    (report : ChangeRiskReport.t) : Prop := mk_cleared {
  cl_proceeds : proceeds request d report;
  cl_gate : GuardedChangeGateDecision.blocked (gate_of_report report) = false;
  cl_level : ChangeRiskReport.overall_risk_level report <> CRITICAL;
  cl_unrequired : PatchApprovalRequirement.required (requirement_of d report (gate_of_report report))
                  = false;
  cl_intent : intent_requires request = false;
}.

(** A decision that leaves everything as it was. *)
Definition settled (r : GuardedPatchFinalizationResult.t) : Prop :=
  GuardedPatchFinalizationResult.apply_outcome r <> GuardedPatchApplyOutcome.APPLIED /\
  GuardedPatchFinalizationResult.apply_outcome r <> GuardedPatchApplyOutcome.PENDING_APPROVAL.

(** ** Lemmas *)

Lemma settled_decided s o reason :
  o <> GuardedPatchApplyOutcome.APPLIED -> o <> GuardedPatchApplyOutcome.PENDING_APPROVAL ->
  settled (decided s o reason).
Proof. done. Qed.

Lemma no_patch_settled st intent st' res : no_patch st intent = (st', res) ->
  st' = st /\ exists r, res = Ok r /\ settled r.
Proof.
  unfold no_patch. intros [= <- <-]. split; [done|]. eexists. split; [reflexivity|].
  destruct intent as [e|]; [by case_match|done].
Qed.

Lemma finalize_steps fresh id now request st st' res :
  finalize_guarded_patch fresh id now request st = (st', res) ->
  (st' = st /\ exists r, res = Ok r /\ settled r) \/
  exists d report, proceeds request d report /\
    let gate := gate_of_report report in
    finalize_decided fresh id now request d report gate (requirement_of d report gate) st = (st', res).
Proof.
  unfold finalize_guarded_patch. cbv zeta.
  set (cs := _normalize_current_status _).
  destruct (GuardedPatchFinalizationRequest.command_timed_out request || _) eqn:E1;
    [intros [= <- <-]; settles|].
  destruct (negb _ || _) eqn:E2; [intros [= <- <-]; settles|].
  destruct (bool_decide_reflect (cs = GuardedPatchFinalStatus.BLOCKED)) as [|E3];
    [intros [= <- <-]; settles|].
  destruct (match GuardedPatchFinalizationRequest.intent_fallback_evaluation request with
            | Some e => IntentFallbackEvaluation.should_block e | None => false end) eqn:E4;
    [intros [= <- <-]; settles|].
  destruct (GuardedPatchFinalizationRequest.patch_diff request) as [d|] eqn:E5;
    [|intros Hx; left; by eapply no_patch_settled].
  destruct (Z.eqb_spec (PatchDiff.changed_file_count d) 0) as [|E6];
    [intros Hx; left; by eapply no_patch_settled|].
  destruct (GuardedPatchFinalizationRequest.risk_report request) as [report|] eqn:E7;
    [|intros [= <- <-]; settles].
  cbn [evaluate_guarded_change_gate report_or_classify mbind result_bind
    evaluate_patch_approval_requirement default from_option].
  intros Hx. right. exists d, report. split; [|exact Hx].
  apply orb_false_iff in E1 as [T1 T2], E2 as [X1 X2]. apply negb_false_iff in X1.
  apply bool_decide_eq_false in T2, X2.
  constructor; try done.
  - split; [done|]. destruct (GuardedPatchFinalizationRequest.command_exit_code request) as [c|]; [|by left].
    right. by apply Z.eqb_eq in X1 as ->.
  - fold cs. clear -T2 X2 E3. clearbody cs. rewrite !elem_of_cons. destruct cs; auto; congruence.
  - intros e He. by rewrite He in E4.
Qed.

(** *** The pending approval *)

Lemma pending_request_fields fresh request d report gate requirement fr fp r :
  pending_request fresh request d report gate requirement fr fp = Ok r ->
  match fp with Some p => p ∈ supported_policy_ids /\ truthy p = true | None => True end ->
  (fr = None -> fp = None) -> gate = gate_of_report report -> requirement = requirement_of d report gate ->
  ApprovalRequest.approval_id r = Fresh.approval_id fresh /\
  ApprovalRequest.target r = PStr (PatchDiff.patch_sha256 d) /\
  ApprovalRequest.tool_name r = "guarded_workspace"%string /\
  ApprovalRequest.action r = Some "approve_patch_apply"%string /\
  (exists p, ApprovalRequest.policy_id r = Some p /\ p ∈ supported_policy_ids) /\
  dict_get (ApprovalRequest.metadata r) "baseline_commit_sha" = PStr (PatchDiff.baseline_commit_sha d) /\
  (PatchApprovalRequirement.required requirement = true \/ forced_approval r = true).
Proof.
  intros Hx Hp Hfp -> ->. unfold pending_request in Hx.
  destruct (PatchApprovalRequirement.required _ && _) eqn:E.
  - apply andb_true_iff in E as [Hreq _]. unfold create_patch_approval_request in Hx.
    apply bind_Ok_inv in Hx as ([] & _ & Hx).
    cbn [evaluate_patch_approval_requirement report_or_classify mbind result_bind map_err default
      from_option] in Hx. cbv zeta in Hx.
    destruct (GuardedChangeGateDecision.blocked _); [done|].
    destruct (negb _); [done|]. destruct (ApprovalRequest.valid _); [|done].
    injection Hx as <-. split_and!; try done; [|by left].
    eexists. split; [reflexivity|]. unfold supported_policy_ids. rewrite elem_of_cons. by left.
  - unfold _forced_approval_request in Hx. destruct (ApprovalRequest.valid _); [|done].
    injection Hx as <-. split_and!; try done; [|by right].
    eexists. split; [reflexivity|].
    destruct fp as [p|]; cbn [truthy_opt default from_option]; [destruct Hp as [Hp Ht]; rewrite Ht; exact Hp|].
    unfold supported_policy_ids. rewrite !elem_of_cons. auto.
Qed.

End Finalize.

(** *** The artifact store *)

Lemma relock s id : id ∉ st_locks s -> unlock_file (lock_file s id) id = s.
Proof.
  intros H. destruct s as [files locks]. unfold unlock_file, lock_file. cbn [st_files st_locks] in *.
  assert (({[id]} ∪ locks) ∖ {[id]} = locks) as -> by (apply leibniz_equiv; set_solver). done.
Qed.

(** An artifact that was persisted had no lock in its way. *)
Lemma persist_unlocked `{AH : ArtifactHost} {W} f d run trace req path report intent ttl id now s (w : W) sw a :
  persist f d run trace req path report intent ttl id now (s, w) = (sw, Ok a) -> id ∉ st_locks s.
Proof.
  intros Hx. unfold persist, with_lock in Hx. destruct (prepare _ _ _ _ _ _ _ _ _ _); [|done].
  by destruct (bool_decide_reflect (id ∈ st_locks s)).
Qed.

(** The artifact of a refused request is removed again, if the disk lets it. *)
Lemma delete_persisted `{AH : ArtifactHost} {W} f d run trace req path report intent ttl id now s (w : W) s' w' a w2 :
  identifier id ->
  persist f d run trace req path report intent ttl id now (s, w) = ((s', w'), Ok a) ->
  delete_artifact no_faults (PatchArtifact.artifact_id a) (s', w2 : W) = ((s, w2), Ok ()).
Proof.
  intros Hid Hx. pose proof (persist_unlocked _ _ _ _ _ _ _ _ _ _ _ _ _ _ _ Hx) as Hlock.
  apply persist_inv in Hx as (art & _ & _ & Hn & Hk & Hf & _ & Hl & _).
  apply load_iff in Hl as (Hst & _); [|done]. rewrite (sa_id _ _ _ Hst).
  unfold delete_artifact, with_lock. rewrite require_identifier_Ok by done.
  rewrite bool_decide_eq_false_2 by (by rewrite Hk).
  cbn [no_faults lock_fault unlock_fault remove_fault st_files st_locks lock_file].
  rewrite Hf, lookup_insert_eq. unfold unlock_file. cbn [st_files st_locks].
  rewrite delete_insert_id by done. do 2 f_equal. destruct s as [fs ls]. cbn in *. f_equal. rewrite Hk.
  f_equal. apply leibniz_equiv. set_solver.
Qed.

Section Outcomes.
Context `{AH : ArtifactHost} {HL : HostLaws} {R L Q : Type} {GR : GitRepo R} {AA : ApplyAudit L} {RS : RiskSources}
  {QW : ApprovalQueueWriter Q}.
Context (resolve : PurePosixPath.t -> PurePosixPath.t) (open_root : string -> result exn unit).
Context (pd dd : disk_faults).

(** Without failures of the disk [persist] fails before it writes, or not at
    all. *)
Lemma persist_raise {W} d run trace req path report intent ttl id now s (w : W) st' e :
  identifier id -> identifier (ApprovalRequest.approval_id req) ->
  py_wf float_value (of_dict (ChangeRiskReport.audit_summary report)) ->
  py_wf float_value (of_dict intent) ->
  persist no_faults d run trace req path report intent ttl id now (s, w) = (st', Raise e) -> st' = (s, w).
Proof.
  intros Hid Hreq Hw Hi Hx. assert (Hx' := Hx). unfold persist in Hx.
  destruct (prepare _ _ _ _ _ _ _ _ _ _) as [a|e0] eqn:Ep; [|by injection Hx as <- _].
  destruct (bool_decide_reflect (id ∈ st_locks s)) as [Hl|Hl].
  { unfold with_lock in Hx. rewrite bool_decide_eq_true_2 in Hx by done. by injection Hx as <- _. }
  assert (Hlock : with_lock no_faults id = (fun (body : op W unit) '(s, w) =>
    if bool_decide (id ∈ st_locks s)
    then ((s, w), Raise (artifact_error ("Patch artifact is locked: " +++ id)))
    else let '((s', w'), r) := body (lock_file s id, w) in ((unlock_file s' id, w'), r))) by done.
  rewrite Hlock, bool_decide_eq_false_2 in Hx by done. cbn [st_files lock_file] in Hx.
  destruct (Z.ltb_spec MAX_PATCH_ARTIFACT_BYTES
    (utf8_len (canonical_json (JDict (PatchArtifact.to_payload a true))))) as [Hsz|Hsz].
  { unfold _atomic_write in Hx. rewrite (proj2 (Z.ltb_lt _ _)) in Hx by done.
    destruct (st_files s !! id); injection Hx as <- _; by rewrite relock. }
  destruct (st_files s !! id) eqn:Hn; [injection Hx as <- _; by rewrite relock|].
  exfalso. assert (Ha := Ep).
  apply prepare_inv in Ha as (Ht & _ & Hs & Hlen & run' & trace' & Hr & Htr & ->).
  destruct (persist_succeeds no_faults d run trace req path report intent ttl id now s w _ eq_refl Ep)
    as [_ Hok]; try done.
  - by apply new_artifact_ok.
  - by apply new_payload_wf.
  - rewrite Hok in Hx'. discriminate.
Qed.

(** What a pending approval leaves: the queue holds exactly the bound request. *)
Definition queued (q q' : option Q) (r : ApprovalRequest.t) : Prop :=
  match q with
  | None => q' = None
  | Some q0 => exists q1 x, queue_submit q0 r = (q1, Ok x) /\ q' = Some q1
  end.

Lemma persisting_never_applies fresh id now request d report gate requirement fr fp sa
    (st st' : fin_state (R := R) (L := L) (Q := Q)) r :
  _persist_pending_approval open_root pd dd fresh id now request d report gate requirement fr fp sa st
    = (st', Ok r) ->
  GuardedPatchFinalizationResult.apply_outcome r <> GuardedPatchApplyOutcome.APPLIED.
Proof.
  unfold _persist_pending_approval. cbv zeta.
  destruct (mbind _ _) as [request0|e]; [|by intros [= _ <-]].
  destruct (persist _ _ _ _ _ _ _ _ _ _ _ _) as [[s1 wq1] [a|e]]; [|by intros [= _ <-]].
  destruct (submit_approval _ _) as [w2 [u|e]]; [by intros [= _ <-]|].
  destruct (delete_artifact _ _ _) as [st2 [u|e']]; [by intros [= _ <-]|].
  by destruct (is_artifact_error e'); intros [= _ <-].
Qed.

(** What a failure of the disk may leave in the directory: a file under the
    identifier, and the lock file. *)
Definition leftover (id : string) (s s' : artifact_store) : Prop :=
  (pd <> no_faults \/ dd <> no_faults) /\
  (st_files s' = st_files s \/ exists f, st_files s' = <[id := f]> (st_files s)) /\
  (st_locks s' = st_locks s \/ st_locks s' = {[id]} ∪ st_locks s).

Lemma leftover_same id s : pd <> no_faults \/ dd <> no_faults -> leftover id s s.
Proof. intros H. split; [done|]. split; by left. Qed.

Lemma locks_after_shape {A} f id s s' (r : result exn A) :
  locks_after f id s s' r -> st_locks s' = st_locks s \/ st_locks s' = {[id]} ∪ st_locks s.
Proof. intros [?|(_ & _ & ? & _)]; auto. Qed.

(** Persisting the artifact failed: nothing changed, or the disk failed. *)
Lemma failed_persist {W} d run trace req path report intent ttl id now s (w : W) s' w' e :
  identifier id -> identifier (ApprovalRequest.approval_id req) ->
  py_wf float_value (of_dict (ChangeRiskReport.audit_summary report)) ->
  py_wf float_value (of_dict intent) ->
  persist pd d run trace req path report intent ttl id now (s, w) = ((s', w'), Raise e) ->
  w' = w /\ (s' = s \/ leftover id s s').
Proof.
  intros Hid Hreq Hw Hi Hx. assert (Hx' := Hx). apply persist_frame in Hx' as (-> & Hk & Hf).
  split; [done|]. destruct (decide (pd = no_faults)) as [Hd|Hd].
  - left. rewrite Hd in Hx. by apply persist_raise in Hx as [= ->].
  - right. split; [by left|]. split; [done|]. by eapply locks_after_shape.
Qed.

(** The artifact of a refused request was removed, or the disk failed. *)
Lemma failed_submit {W} d run trace req path report intent ttl id now s (w : W) s' w' a w2 s'' w'' r :
  identifier id ->
  persist pd d run trace req path report intent ttl id now (s, w) = ((s', w'), Ok a) ->
  delete_artifact dd (PatchArtifact.artifact_id a) (s', w2 : W) = ((s'', w''), r) ->
  w'' = w2 /\ ((s'' = s /\ r = Ok ()) \/ leftover id s s'').
Proof.
  intros Hid Hp Hx. destruct (decide (dd = no_faults)) as [Hd|Hd].
  { rewrite Hd, (delete_persisted _ _ _ _ _ _ _ _ _ _ _ _ _ _ _ _ w2 Hid Hp) in Hx.
    injection Hx as <- <- <-. auto. }
  apply delete_inv in Hx as (-> & Hk & Hf). split; [done|]. right. split; [by right|].
  apply persist_inv in Hp as (art & _ & _ & Hn & Hk1 & Hf1 & _ & Hl & _).
  apply load_iff in Hl as (Hst & _); [|done]. rewrite (sa_id _ _ _ Hst) in Hk, Hf.
  assert (strip id = id) as E by apply Hid. rewrite E in Hk, Hf.
  split; [|rewrite <- Hk1; by eapply locks_after_shape].
  destruct Hf as [->|(_ & ->)]; [right; eauto|left]. rewrite Hf1. by apply delete_insert_id.
Qed.

(** A result that neither applied nor queued, or an exception. *)
Definition nothing_done (res : result exn GuardedPatchFinalizationResult.t) : Prop :=
  match res with Ok r => settled r | Raise _ => True end.

(** Persisting the approval: it is pending, or nothing is left of it, or a
    failure of the disk left the artifact of no request. *)
Lemma pending_steps fresh id now request d report gate requirement fr fp sa s (w : world R L) q st' res :
  identifier id -> identifier (Fresh.approval_id fresh) ->
  py_wf float_value (of_dict (ChangeRiskReport.audit_summary report)) ->
  py_wf float_value (of_dict (_intent_summary request)) ->
  match fp with Some p => p ∈ supported_policy_ids /\ truthy p = true | None => True end ->
  (fr = None -> fp = None) -> gate = gate_of_report report -> requirement = requirement_of d report gate ->
  _persist_pending_approval open_root pd dd fresh id now request d report gate requirement fr fp sa (s, (w, q))
    = (st', res) ->
  fst (snd st') = w /\
  ((exists r, res = Ok r /\ settled r /\ fst st' = s) \/
   (nothing_done res /\ leftover id s (fst st')) \/
   (exists r, res = Ok r /\
    GuardedPatchFinalizationResult.apply_outcome r = GuardedPatchApplyOutcome.PENDING_APPROVAL /\
    exists request0 a,
      pending_request fresh request d report gate requirement fr fp = Ok request0 /\
      persist pd d (GuardedPatchFinalizationRequest.run_id request)
        (GuardedPatchFinalizationRequest.trace_id request) request0
        (GuardedPatchFinalizationRequest.trusted_repo_path request) report (_intent_summary request)
        DEFAULT_PATCH_ARTIFACT_TTL_SECONDS id now (s, (w, q)) = ((fst st', (w, q)), Ok a) /\
      GuardedPatchFinalizationResult.approval_request r = Some (bind_artifact_to_approval request0 a) /\
      GuardedPatchFinalizationResult.artifact_id r = Some (PatchArtifact.artifact_id a) /\
      queued q (snd (snd st')) (bind_artifact_to_approval request0 a))).
Proof.
  intros Hid Hfresh Hw Hi Hp Hfp Hg Hrq Hx. unfold _persist_pending_approval in Hx. cbv zeta in Hx.
  destruct (open_root _) as [u|e]; cbn [mbind result_bind] in Hx;
    [|injection Hx as <- <-; split; [done|left; by eexists]].
  destruct (pending_request _ _ _ _ _ _ _ _) as [request0|e] eqn:Er;
    [|injection Hx as <- <-; split; [done|left; by eexists]].
  assert (Hreq : identifier (ApprovalRequest.approval_id request0)).
  { apply pending_request_fields in Er as (-> & _); done. }
  destruct (persist _ _ _ _ _ _ _ _ _ _ _ _) as [[s1 wq1] [a|e]] eqn:Ep.
  2: { injection Hx as <- <-. apply failed_persist in Ep as (-> & [->|Hl]); try done;
       (split; [done|]); [left; by eexists|right; left; by split]. }
  assert (wq1 = (w, q)) as -> by by apply persist_inv in Ep as (? & _ & -> & _).
  destruct (submit_approval (w, q) _) as [[w2 q2] [u'|e]] eqn:Eq;
    unfold submit_approval in Eq; cbn [fst snd] in Eq.
  - injection Hx as <- <-. cbn [fst snd]. destruct q as [q0|].
    + destruct (queue_submit q0 _) as [q1 [x|e]] eqn:Es; cbn [mbind result_bind] in Eq; [|done].
      injection Eq as <- <-. split; [done|]. right; right. eexists. split; [done|]. split; [done|].
      exists request0, a. split_and!; try done. by exists q1, x.
    + injection Eq as <- <-. split; [done|]. right; right. eexists. split; [done|]. split; [done|].
      exists request0, a. by split_and!.
  - assert (w2 = w) as ->.
    { destruct q as [q0|]; [|by injection Eq as <- <-].
      destruct (queue_submit q0 _) as [q1 [x|e']]; cbn [mbind result_bind] in Eq; by injection Eq as <- <-. }
    destruct (delete_artifact _ _ _) as [[s3 wq3] r3] eqn:Ed.
    destruct (failed_submit _ _ _ _ _ _ _ _ _ _ _ _ _ _ _ _ _ _ _ Hid Ep Ed) as [-> [(-> & ->)|Hl]].
    + injection Hx as <- <-. split; [done|left; by eexists].
    + destruct r3 as [u2|e']; [|destruct (is_artifact_error e')]; injection Hx as <- <-;
        (split; [done|]); right; left; by split.
Qed.

(** *** The choice between the outcomes *)

Definition auto_apply_of (request : GuardedPatchFinalizationRequest.t) (d : PatchDiff.t)
    (report : ChangeRiskReport.t) (w : world R L) : world R L * result string SafePatchApplyResult :=
  auto_apply_safe_patch resolve d (GuardedPatchFinalizationRequest.trusted_repo_path request)
    (Some report) (Some (gate_of_report report))
    (mk_run_context (GuardedPatchFinalizationRequest.user_id request)
       (GuardedPatchFinalizationRequest.agent_id request)
       (GuardedPatchFinalizationRequest.environment request)
       (GuardedPatchFinalizationRequest.trace_id request)) w.

Lemma skipped_keeps d target rr gd ctx (w w' : world R L) r :
  auto_apply_safe_patch resolve d target rr gd ctx w = (w', Ok r) -> sr_outcome r = SAFE_SKIPPED ->
  w' = w.
Proof.
  intros Hx Hs. apply auto_apply_steps in Hx as [[_ [e [=]]]|(report & _ & Hcase)]. cbn zeta in Hcase.
  destruct Hcase as [(_ & -> & _)|[_ Hx]]; [done|].
  apply a_bind_Ok in Hx as (w1 & u1 & _ & Hx). apply a_bind_Ok in Hx as (w2 & u2 & _ & Hx).
  apply verify_and_log_steps in Hx as [(r' & [= <-] & Ho & _)|(f & w3 & _ & Hrb)]; [congruence|].
  unfold _rollback_after_failed_apply in Hrb. by destruct (a_bind _ _ w3) as [w4 [?|?]].
Qed.

Definition forced_policy_ok (fr fp : option string) : Prop :=
  match fp with Some p => p ∈ supported_policy_ids /\ truthy p = true | None => True end /\
  (fr = None -> fp = None).

Lemma decided_steps fresh id now request d report s (w : world R L) q st' res :
  proceeds request d report ->
  let gate := gate_of_report report in
  let requirement := requirement_of d report gate in
  finalize_decided resolve open_root pd dd fresh id now request d report gate requirement (s, (w, q)) = (st', res) ->
  (st' = (s, (w, q)) /\ exists r, res = Ok r /\ settled r) \/
  (GuardedChangeGateDecision.blocked gate = false /\
   ChangeRiskReport.overall_risk_level report <> CRITICAL /\
   exists fr fp sa, forced_policy_ok fr fp /\
     _persist_pending_approval open_root pd dd fresh id now request d report gate requirement fr fp sa
       (s, (w, q)) = (st', res)) \/
  (cleared request d report /\ exists w' ra r, auto_apply_of request d report w = (w', ra) /\
   st' = (s, (w', q)) /\ res = Ok r /\
   match ra with
   | Raise _ => settled r
   | Ok sa => sr_outcome sa = SAFE_APPLIED /\
       GuardedPatchFinalizationResult.apply_outcome r = GuardedPatchApplyOutcome.APPLIED
   end).
Proof.
  intros Hpr gate requirement Hx. unfold finalize_decided in Hx. fold (intent_requires request) in Hx.
  destruct (GuardedChangeGateDecision.blocked gate || _) eqn:Eb; [injection Hx as <- <-; settles|].
  apply orb_false_iff in Eb as [Hb Hc%bool_decide_eq_false]. cbv zeta in Hx.
  destruct (PatchApprovalRequirement.required requirement || intent_requires request) eqn:Er.
  - right; left. split; [done|]. split; [done|].
    destruct (intent_requires request && _); eexists _, _, _; (split; [|exact Hx]); split; try done.
    unfold supported_policy_ids. rewrite !elem_of_cons. split; [|done]. auto.
  - apply orb_false_iff in Er as [Hreq Hint]. unfold run_auto_apply in Hx.
    destruct (auto_apply_safe_patch _ _ _ _ _ _ w) as [w' [sa|e]] eqn:Ea.
    + destruct (sr_outcome sa) eqn:Eo.
      * right; right. split; [by constructor|]. injection Hx as <- <-. eexists w', (Ok sa), _. by split_and!.
      * right; left. apply skipped_keeps in Ea as ->; [|done].
        do 2 (split; [done|]). eexists _, _, _. split; [|exact Hx]. split; [|done].
        unfold supported_policy_ids. rewrite !elem_of_cons. split; [|done]. auto.
    + right; right. split; [by constructor|]. injection Hx as <- <-. eexists w', (Raise e), _. by split_and!.
Qed.

(** The converse of [finalize_steps]. *)
Lemma proceeds_runs fresh id now request d report st :
  proceeds request d report ->
  let gate := gate_of_report report in
  finalize_guarded_patch resolve open_root pd dd fresh id now request st
  = finalize_decided resolve open_root pd dd fresh id now request d report gate (requirement_of d report gate) st.
Proof.
  intros [[Ht Hx] Hs Hi [Hd Hn] Hr]. cbn zeta. unfold finalize_guarded_patch. rewrite Ht, Hd, Hr. cbv zeta.
  rewrite !elem_of_cons in Hs.
  assert (Hb : match GuardedPatchFinalizationRequest.intent_fallback_evaluation request with
            | Some e => IntentFallbackEvaluation.should_block e | None => false end = false).
  { destruct (GuardedPatchFinalizationRequest.intent_fallback_evaluation request); [by apply Hi|done]. }
  rewrite Hb, (proj2 (Z.eqb_neq _ _)) by done.
  destruct Hs as [Hs|[Hs|Hs%elem_of_nil]]; [| |done]; rewrite Hs; destruct Hx as [Hx|Hx]; by rewrite Hx.
Qed.

Lemma cleared_runs fresh id now request d report s (w : world R L) q w' res :
  cleared request d report -> auto_apply_of request d report w = (w', res) ->
  let gate := gate_of_report report in
  match res with
  | Ok sa => sr_outcome sa = SAFE_APPLIED ->
      finalize_guarded_patch resolve open_root pd dd fresh id now request (s, (w, q))
      = ((s, (w', q)), Ok (decided_with GuardedPatchFinalStatus.COMPLETED GuardedPatchApplyOutcome.APPLIED None
           (Some sa) gate (requirement_of d report gate)))
  | Raise e =>
      finalize_guarded_patch resolve open_root pd dd fresh id now request (s, (w, q))
      = ((s, (w', q)), Ok (decided_with GuardedPatchFinalStatus.FAILED GuardedPatchApplyOutcome.APPLY_FAILED
           (Some ("Automatic trusted apply failed closed: " +++ e)) None gate (requirement_of d report gate)))
  end.
Proof.
  intros [Hp Hg Hl Hq Hi] Ha. cbn zeta. unfold auto_apply_of in Ha.
  rewrite (proceeds_runs _ _ _ _ _ _ _ Hp). unfold finalize_decided.
  rewrite Hg, (bool_decide_eq_false_2 _ Hl), Hq. cbn [orb].
  unfold intent_requires in Hi. rewrite Hi. cbn [andb]. unfold run_auto_apply. rewrite Ha.
  destruct res as [sa|e]; [|done]. intros Ho. by rewrite Ho.
Qed.

(** *** What a pending approval is good for *)

Lemma bound_metadata r a k :
  k <> "artifact_id"%string -> k <> "artifact_schema_version"%string ->
  k <> "artifact_expires_at"%string ->
  dict_get (ApprovalRequest.metadata (bind_artifact_to_approval r a)) k
  = dict_get (ApprovalRequest.metadata r) k.
Proof.
  intros H1 H2 H3. unfold dict_get, bind_artifact_to_approval, dict_update.
  cbn [ApprovalRequest.metadata fold_left fst snd]. by rewrite !dict_lookup_set_ne.
Qed.

(** The artifact of a request, as the directory holds it. *)
Lemma persisted_pending {W} d run trace req path report intent ttl id now s (w : W) s' w' a :
  identifier id -> plain_report float_cast report ->
  py_wf float_value (of_dict (ChangeRiskReport.audit_summary report)) ->
  py_wf float_value (of_dict intent) ->
  persist pd d run trace req path report intent ttl id now (s, w) = ((s', w'), Ok a) ->
  pending_at s' id a /\ to_patch_diff a = Ok d /\ to_risk_report a = Ok (canon_report report) /\
  artifact_key a = _approval_use_key req d /\ exists f, s' = put_file s id f.
Proof.
  intros Hid Hp Hw Hi Hx. assert (Hfr := Hx).
  apply persist_inv in Hx as (art & Ha & _ & Hn & Hk & Hf & Hmax & Hl & _).
  apply prepare_inv in Ha as (_ & Ht & Hs & Hlen & run' & trace' & _ & _ & ->).
  apply load_iff in Hl as (Hst & _); [|done].
  eapply written_stored in Hst as E; [|by rewrite Hf; apply lookup_insert_eq|by apply new_payload_wf].
  subst a. split; [by split|]. split; [by apply new_artifact_patch|].
  split; [by apply new_artifact_report|]. split; [done|].
  eexists. destruct s' as [fs ls]. cbn in Hf, Hk. rewrite Hf, Hk. reflexivity.
Qed.

(** What the approval service finds: the artifact of the bound request is the
    patch, and the request passes every check of [apply_approved_patch] that
    reads it. *)
Record applicable (s : artifact_store) (id : string) (d : PatchDiff.t) (req : ApprovalRequest.t)
    : Prop := mk_applicable {
  ap_artifact : exists a report, pending_at s id a /\ to_patch_diff a = Ok d /\
    to_risk_report a = Ok report /\
    GuardedChangeGateDecision.blocked (gate_of_report report) = false /\
    (PatchApprovalRequirement.required (requirement_of d report (gate_of_report report)) = true \/
     forced_approval req = true) /\
    artifact_key a = _approval_use_key req d /\
    dict_get (ApprovalRequest.metadata req) "artifact_id" = PStr id;
  ap_target : ApprovalRequest.target req = PStr (PatchDiff.patch_sha256 d);
  ap_baseline : dict_get (ApprovalRequest.metadata req) "baseline_commit_sha"
                = PStr (PatchDiff.baseline_commit_sha d);
  ap_request : forall w : world R L, _validate_request_for_apply req w = (w, Ok ());
}.

Lemma pending_applicable fresh id now request d report fr fp s (w : world R L) (q : option Q) s' request0 a :
  identifier id -> plain_report float_cast report ->
  py_wf float_value (of_dict (ChangeRiskReport.audit_summary report)) ->
  py_wf float_value (of_dict (_intent_summary request)) ->
  GuardedChangeGateDecision.blocked (gate_of_report report) = false ->
  forced_policy_ok fr fp ->
  pending_request fresh request d report (gate_of_report report)
    (requirement_of d report (gate_of_report report)) fr fp = Ok request0 ->
  persist pd d (GuardedPatchFinalizationRequest.run_id request)
    (GuardedPatchFinalizationRequest.trace_id request) request0
    (GuardedPatchFinalizationRequest.trusted_repo_path request) report (_intent_summary request)
    DEFAULT_PATCH_ARTIFACT_TTL_SECONDS id now (s, (w, q)) = ((s', (w, q)), Ok a) ->
  applicable s' id d (bind_artifact_to_approval request0 a).
Proof.
  intros Hid Hplain Hw Hi Hgate [Hp Hfp] Hr Hx.
  apply pending_request_fields in Hr as (_ & Ht & Htool & Hact & (p & Hpol & Hin) & Hbase & Hneed);
    [|done..].
  apply persisted_pending in Hx as (Hpend & Hd & Hrep & Hkey & _); [|done..].
  constructor; [|done| |].
  - exists a, (canon_report report). split; [done|]. split; [done|]. split; [done|].
    rewrite canon_blocked. split; [done|]. split.
    + rewrite canon_required. destruct Hneed as [?|Hf]; [by left|right].
      unfold forced_approval. rewrite bound_metadata by done. exact Hf.
    + split; [exact Hkey|]. destruct Hpend as [Hst _]. rewrite <- (sa_id _ _ _ Hst).
      unfold dict_get, bind_artifact_to_approval, dict_update.
      cbn [ApprovalRequest.metadata fold_left fst snd]. rewrite !dict_lookup_set_ne by done.
      clear. induction (ApprovalRequest.metadata request0) as [|[k v] m IH]; cbn; [done|].
      destruct (String.eqb k "artifact_id") eqn:E; cbn; by rewrite E.
  - rewrite bound_metadata by done. exact Hbase.
  - intros w0. unfold _validate_request_for_apply, a_bind, a_when.
    cbn [bind_artifact_to_approval ApprovalRequest.tool_name ApprovalRequest.action
      ApprovalRequest.policy_id]. rewrite Htool, Hact, Hpol, bool_decide_eq_true_2 by done.
    cbn [negb String.eqb]. rewrite (proj2 (mem_spec _ _) Hin). reflexivity.
Qed.
End Outcomes.

(** *** An example: the guide, with the host and the repository of the other files *)

Lemma a_bind_ext {W A B} (m : action W A) (f g : A -> action W B) w :
  (forall a w1, f a w1 = g a w1) -> a_bind m f w = a_bind m g w.
Proof. intros H. unfold a_bind. destruct (m w) as [w1 [a|e]]; [apply H|done]. Qed.

(** Giving the report and the gate that would be computed changes nothing. *)
Lemma auto_apply_given {R L} `{GitRepo R, ApplyAudit L, RiskSources} resolve d target report ctx
    (w : world R L) :
  report_or_classify d None = Ok report ->
  auto_apply_safe_patch resolve d target (Some report) (Some (gate_of_report report)) ctx w
  = auto_apply_safe_patch resolve d target None None ctx w.
Proof.
  intros Hr. unfold auto_apply_safe_patch. do 5 (apply a_bind_ext; intros ? ?).
  unfold classify_action, a_bind, a_lift. by rewrite Hr.
Qed.

Definition toy_queue : ApprovalQueueWriter (list ApprovalRequest.t) := {|
  queue_submit := fun q r => (r :: q, Ok r);
|}.

Definition guide_report : ChangeRiskReport.t :=
  match @report_or_classify example_sources guide_patch None with
  | Ok r => r
  | Raise _ => ChangeRiskReport.mk "" "" [] []
  end.

Lemma guide_classified :
  @report_or_classify example_sources guide_patch None = Ok guide_report /\
  GuardedChangeGateDecision.blocked (gate_of_report guide_report) = false /\
  ChangeRiskReport.overall_risk_level guide_report = LOW /\
  PatchApprovalRequirement.required
    (requirement_of guide_patch guide_report (gate_of_report guide_report)) = false.
Proof.
  assert (H : match @report_or_classify example_sources guide_patch None with
    | Ok r => (GuardedChangeGateDecision.blocked (gate_of_report r),
        ChangeRiskReport.overall_risk_level r,
        PatchApprovalRequirement.required (requirement_of guide_patch r (gate_of_report r)))
    | Raise _ => (true, CRITICAL, true)
    end = (false, LOW, false)) by (vm_compute; reflexivity).
  unfold guide_report.
  destruct (@report_or_classify example_sources guide_patch None) as [r|e]; [|done].
  by injection H as -> -> ->.
Qed.

Lemma guide_report_wf report : Some guide_report = Some report ->
  py_wf float_value (of_dict (ChangeRiskReport.audit_summary report)).
Proof.
  intros [= <-].
  match goal with |- py_wf _ ?v => let x := eval vm_compute in v in change (py_wf float_value x) end.
  repeat first [constructor|reflexivity].
Qed.

#[global] Opaque guide_report.

Definition guide_request (d : PatchDiff.t) (report : ChangeRiskReport.t)
    (intent : option IntentFallbackEvaluation.t) : GuardedPatchFinalizationRequest.t :=
  GuardedPatchFinalizationRequest.mk "completed" "run_1" "trace_7" "/srv/repo" "/runs/run_1"
    "alice" "agent-7" "local" (Some 0%Z) false (Some d) (Some report) intent None.

Definition guide_fresh : Fresh.t := Fresh.mk "apr_9" "1000000" "trace_9" "1000000".

Lemma guide_cleared : cleared (guide_request guide_patch guide_report None) guide_patch guide_report.
Proof.
  destruct guide_classified as (_ & Hb & Hl & Hq).
  constructor; [|done|by rewrite Hl|done|done].
  constructor; [by split; [|right]|by left|done|by split|done].
Qed.

(** The run on the toy repository, whose verification may be broken. *)
Notation guide_run broken :=
  (@finalize_guarded_patch toy_repo (list (string * pydict)) (list ApprovalRequest.t) example_host
    (toy_git guide_patch broken) toy_audit example_sources toy_queue lexical_resolve (fun _ => Ok ())
    no_faults no_faults guide_fresh "art_1" 2500000 (guide_request guide_patch guide_report None)
    (ArtifactExample.empty_store, (toy_world, Some []))).

Lemma guide_auto broken :
  @auto_apply_of toy_repo (list (string * pydict)) (toy_git guide_patch broken) toy_audit example_sources
    lexical_resolve (guide_request guide_patch guide_report None) guide_patch guide_report toy_world
  = toy_run broken.
Proof. apply auto_apply_given. apply guide_classified. Qed.

Lemma guide_run_applies :
  exists w' r, guide_run false = ((ArtifactExample.empty_store, (w', Some [])), Ok r) /\
    GuardedPatchFinalizationResult.applied r = true /\ w_repo w' = [guide_text].
Proof.
  destruct toy_run_applies as (w' & sa & E & Ho & Hw). rewrite <- guide_auto in E.
  exists w'. eexists. split; [|split; [|exact Hw]].
  - exact (cleared_runs lexical_resolve (fun _ => Ok ()) no_faults no_faults guide_fresh "art_1" 2500000 _ _ _ ArtifactExample.empty_store
      toy_world (Some []) w' (Ok sa) guide_cleared E Ho).
  - reflexivity.
Qed.

Lemma guide_run_rolls_back :
  exists w' r, guide_run true = ((ArtifactExample.empty_store, (w', Some [])), Ok r) /\
    GuardedPatchFinalizationResult.blocked_reason r
      = Some ("Automatic trusted apply failed closed: " +++ (rolled_back_prefix +++ "git diff failed")) /\
    GuardedPatchFinalizationResult.applied r = false /\
    GuardedPatchFinalizationResult.pending_approval r = false.
Proof.
  destruct toy_run_rolls_back as (w' & E). rewrite <- guide_auto in E.
  exists w'. eexists. split.
  - exact (cleared_runs lexical_resolve (fun _ => Ok ()) no_faults no_faults guide_fresh "art_1" 2500000 _ _ _ ArtifactExample.empty_store
      toy_world (Some []) w' (Raise _) guide_cleared E).
  - split; [reflexivity|]. split; reflexivity.
Qed.

(** *** The same patch, sent to a review by the intent *)

Definition review_intent : IntentFallbackEvaluation.t :=
  IntentFallbackEvaluation.mk (Some "intent_1"%string) IntentEnforcementMode.ENFORCE
    IntentMatchState.PARTIAL_MATCH IntentDecisionHint.REQUIRE_APPROVAL IntentDecisionHint.REQUIRE_APPROVAL
    ["outside_scope"%string] 1 [].

Section Review.
#[local] Existing Instance example_sources.
#[local] Existing Instance toy_audit.
#[local] Existing Instance toy_queue.
Context (sha : string) (Hsha : sha256_of_bytes (utf8_bytes guide_text) = sha).

Definition review_request : GuardedPatchFinalizationRequest.t :=
  guide_request (declared_patch sha) (example_classification sha) (Some review_intent).

Definition review_approval : ApprovalRequest.t :=
  match pending_request (RS := example_sources) guide_fresh review_request (declared_patch sha)
          (example_classification sha) (gate_of_report (example_classification sha))
          (requirement_of (declared_patch sha) (example_classification sha)
             (gate_of_report (example_classification sha)))
          (Some "Intent enforcement requires approval before trusted apply."%string)
          (Some "guarded-workspace-intent-approval"%string) with
  | Ok r => r
  | Raise _ => explicit_request sha
  end.

Definition review_artifact : PatchArtifact.t :=
  new_artifact (declared_patch sha) "run_1" "trace_7" review_approval "/srv/repo"
    (example_classification sha) (_intent_summary review_request) DEFAULT_PATCH_ARTIFACT_TTL_SECONDS
    "art_1" 2500000.

Definition review_fields (repo digest : string) : PatchArtifact.t :=
  PatchArtifact.mk PATCH_ARTIFACT_SCHEMA_VERSION "art_1" "run_1" "trace_7" "apr_9" "/srv/repo" repo
    "abc" "/w" (b64encode (utf8_bytes guide_text)) sha (utf8_len guide_text)
    (List.map file_payload [docs_file]) []
    (encode_dict (ChangeRiskReport.audit_summary (example_classification sha)))
    (encode_dict (_intent_summary review_request))
    (pretty 2500000%Z) (pretty (2500000 + DEFAULT_PATCH_ARTIFACT_TTL_SECONDS * 1000000)%Z)
    PATCH_ARTIFACT_STATE_PENDING None digest.

Lemma review_fits repo digest :
  String.length repo <= 64 -> String.length digest <= 64 -> fits (review_fields repo digest).
Proof using Hsha.
  intros H1 H2. pose proof (sha_short sha Hsha) as H3. clear Hsha.
  assert (Hs : exists v, sort_json (JDict (PatchArtifact.to_payload (review_fields repo digest) true)) = v
    /\ short 1000 v /\ jnodes v <= 200).
  { eexists; split; [vm_compute; reflexivity|]; split; [|by apply Nat.leb_le; vm_compute]. short. }
  destruct Hs as (v & Hv & Hs & Hn). unfold fits, canonical_json. rewrite Hv.
  pose proof (dumps_len 1000 v Hs). unfold MAX_PATCH_ARTIFACT_BYTES. nia.
Qed.

Lemma review_pending : pending_request (RS := example_sources) guide_fresh review_request
    (declared_patch sha)
    (example_classification sha) (gate_of_report (example_classification sha))
    (requirement_of (declared_patch sha) (example_classification sha)
       (gate_of_report (example_classification sha)))
    (Some "Intent enforcement requires approval before trusted apply."%string)
    (Some "guarded-workspace-intent-approval"%string) = Ok review_approval /\
  PatchApprovalRequirement.required (requirement_of (declared_patch sha) (example_classification sha)
    (gate_of_report (example_classification sha))) = false /\
  ChangeRiskReport.overall_risk_level (example_classification sha) = LOW.
Proof. split_and!; vm_compute; reflexivity. Qed.
Lemma review_artifact_eq : review_artifact =
  review_fields (_repo_identity "/srv/repo") (PatchArtifact.artifact_digest review_artifact).
Proof.
  unfold review_artifact, new_artifact, _with_integrity_digest.
  cbn [PatchArtifact.with_digest PatchArtifact.artifact_digest].
  match goal with |- context [_artifact_digest ?p] => generalize (_artifact_digest p) end.
  intros digest. reflexivity.
Qed.

Lemma review_summary_wf : py_wf float_value (of_dict (_intent_summary review_request)).
Proof.
  match goal with |- py_wf _ ?v => let x := eval vm_compute in v in change (py_wf float_value x) end.
  repeat first [constructor|reflexivity].
Qed.

Lemma review_prepare :
  prepare (declared_patch sha) "run_1" "trace_7" review_approval "/srv/repo"
    (example_classification sha) (_intent_summary review_request) DEFAULT_PATCH_ARTIFACT_TTL_SECONDS
    "art_1" 2500000 = Ok review_artifact.
Proof using Hsha.
  unfold prepare, target_is, meta_is, dict_get.
  cbn [ensure Z.leb Z.compare negb mbind result_bind is_directory example_host resolve_path
    declared_patch PatchDiff.patch_sha256 PatchDiff.patch PatchDiff.baseline_commit_sha
    PatchDiff.patch_size_bytes].
  assert (Ht : ApprovalRequest.target review_approval = PStr sha) by (vm_compute; reflexivity).
  assert (Hb : dict_lookup (ApprovalRequest.metadata review_approval) "baseline_commit_sha"
    = Some (PStr "abc")) by (vm_compute; reflexivity).
  rewrite Ht, Hb, Hsha, guide_length. cbn [default from_option].
  rewrite !py_eq_refl, String.eqb_refl, Z.eqb_refl.
  rewrite (require_identifier_Ok "run_1"), (require_identifier_Ok "trace_7")
    by (split_and!; vm_compute; reflexivity || done).
  reflexivity.
Qed.

Lemma review_persisted {W} (w : W) :
  exists s', persist no_faults (declared_patch sha) "run_1" "trace_7" review_approval "/srv/repo"
    (example_classification sha) (_intent_summary review_request) DEFAULT_PATCH_ARTIFACT_TTL_SECONDS
    "art_1" 2500000 (ArtifactExample.empty_store, w) = ((s', w), Ok (canon_artifact review_artifact)).
Proof using Hsha.
  destruct example_ids as (H1 & H2 & _ & H4). eexists.
  apply persist_succeeds; [reflexivity|apply review_prepare|exact H1| |reflexivity| | |reflexivity
    |apply not_elem_of_empty].
  - apply new_artifact_ok; [exact H1|exact H2|split_and!; vm_compute; reflexivity || done|exact H4
      |reflexivity|exact Hsha|apply guide_length].
  - apply new_payload_wf; [apply example_summary_wf|apply review_summary_wf].
  - rewrite review_artifact_eq.
    apply review_fits; [apply (hex_digest_short "/srv/repo")|apply artifact_digest_short].
Qed.
Lemma review_proceeds : proceeds review_request (declared_patch sha) (example_classification sha).
Proof.
  constructor; [by split; [|right]|by left| |by split|done]. by intros e [= <-].
Qed.

(** The repository and the log are not used. *)
Notation review_run disk :=
  (@finalize_guarded_patch toy_repo (list (string * pydict)) (list ApprovalRequest.t) example_host
    (toy_git (declared_patch sha) false) toy_audit example_sources toy_queue lexical_resolve
    (fun _ => Ok ()) disk no_faults guide_fresh "art_1" 2500000 review_request
    (ArtifactExample.empty_store, (toy_world, Some []))).

(** The run up to the artifact. *)
Lemma review_run_steps disk :
  review_run disk =
  match persist disk (declared_patch sha) "run_1" "trace_7" review_approval "/srv/repo"
          (example_classification sha) (_intent_summary review_request) DEFAULT_PATCH_ARTIFACT_TTL_SECONDS
          "art_1" 2500000 (ArtifactExample.empty_store, (toy_world, Some [])) with
  | (st', Raise e) =>
      (st', Ok (decided_with GuardedPatchFinalStatus.FAILED GuardedPatchApplyOutcome.APPLY_FAILED
        (Some ("Pending approval persistence failed closed: " +++ exn_text e)) None
        (gate_of_report (example_classification sha))
        (requirement_of (declared_patch sha) (example_classification sha)
           (gate_of_report (example_classification sha)))))
  | ((s', w'), Ok artifact) =>
      ((s', (fst w', cons (bind_artifact_to_approval review_approval artifact) <$> snd w')),
       Ok (GuardedPatchFinalizationResult.mk GuardedPatchFinalStatus.APPROVAL_REQUIRED
         GuardedPatchApplyOutcome.PENDING_APPROVAL
         (Some (ApprovalRequest.reason (bind_artifact_to_approval review_approval artifact)))
         (Some (bind_artifact_to_approval review_approval artifact))
         (Some (PatchArtifact.artifact_id artifact)) None
         (Some (gate_of_report (example_classification sha)))
         (Some (requirement_of (declared_patch sha) (example_classification sha)
           (gate_of_report (example_classification sha))))))
  end.
Proof using Hsha.
  destruct (example_classified sha) as (_ & _ & Hb).
  destruct review_pending as (Hp & Hq & Hl).
  rewrite (proceeds_runs (GR := toy_git (declared_patch sha) false) lexical_resolve
    (fun _ => Ok ()) disk no_faults guide_fresh "art_1" 2500000 _ _ _ _ review_proceeds).
  unfold finalize_decided. rewrite Hb, Hl, Hq. cbn [orb negb andb review_request guide_request
    GuardedPatchFinalizationRequest.intent_fallback_evaluation].
  change (IntentFallbackEvaluation.requires_approval review_intent) with true.
  rewrite bool_decide_eq_false_2 by done. cbn [orb negb andb].
  unfold _persist_pending_approval. fold review_request. cbn [mbind result_bind]. rewrite Hp.
  unfold fin_world in *.
  change (GuardedPatchFinalizationRequest.run_id review_request) with "run_1"%string.
  change (GuardedPatchFinalizationRequest.trace_id review_request) with "trace_7"%string.
  change (GuardedPatchFinalizationRequest.trusted_repo_path review_request) with "/srv/repo"%string.
  destruct (persist _ _ _ _ _ _ _ _ _ _ _ _) as [[s1 [w1 [q1|]]] [a|e]]; reflexivity.
Qed.

Lemma review_run_pending :
  exists s' q' r, review_run no_faults = ((s', (toy_world, q')), Ok r) /\
    GuardedPatchFinalizationResult.pending_approval r = true.
Proof using Hsha.
  destruct (review_persisted (toy_world, Some ([] : list ApprovalRequest.t))) as (s' & Hs).
  rewrite review_run_steps.
  rewrite Hs. eexists _, _, _. split; reflexivity.
Qed.

(** The directory cannot be flushed after the artifact has its name: the run
    reports that the persistence failed, no request is queued, and the artifact
    stays in the directory. *)
Lemma unflushed_artifact_stays :
  exists s' r, review_run flush_fails = ((s', (toy_world, Some [])), Ok r) /\
    GuardedPatchFinalizationResult.status r = GuardedPatchFinalStatus.FAILED /\
    st_files s' !! "art_1"%string = Some (RegularText (canonical_json
      (JDict (PatchArtifact.to_payload review_artifact true)))).
Proof using Hsha.
  rewrite review_run_steps. unfold persist. rewrite review_prepare.
  unfold with_lock. rewrite bool_decide_eq_false_2 by apply not_elem_of_empty.
  cbn [flush_fails lock_fault unlock_fault st_files lock_file ArtifactExample.empty_store].
  rewrite lookup_empty. unfold _atomic_write. cbn [write_fault flush_fails].
  assert (Hmax : (utf8_len (canonical_json (JDict (PatchArtifact.to_payload review_artifact true)))
    <= MAX_PATCH_ARTIFACT_BYTES)%Z).
  { rewrite review_artifact_eq.
    apply review_fits; [apply (hex_digest_short "/srv/repo")|apply artifact_digest_short]. }
  rewrite (proj2 (Z.ltb_ge _ _)) by done. clear Hmax.
  generalize (canonical_json (JDict (PatchArtifact.to_payload review_artifact true))). intros text.
  eexists _, _. split; [reflexivity|]. split; [reflexivity|].
  cbn [st_files unlock_file put_file]. apply lookup_insert_eq.
Qed.
End Review.

(** ** Theorems *)

Section Theorems.
Context `{AH : ArtifactHost} {HL : HostLaws} {R L Q : Type} {GR : GitRepo R} {AA : ApplyAudit L} {RS : RiskSources}
  {QW : ApprovalQueueWriter Q}.
Context (resolve : PurePosixPath.t -> PurePosixPath.t) (open_root : string -> result exn unit).
Context (pd dd : disk_faults).

(** C24 The finalizer applies a patch of a run whose command succeeded, that
    the intent neither blocks nor sends to a review, with a risk report
    whose gate does not block and that needs no approval: the state afterwards
    is [git apply] of the text, which has its declared digest, on a clean
    repository at the baseline, and the diff found there is the patch; the
    artifact directory and the queue are as they were. *)
Theorem applied_patch_was_cleared fresh id now request s (w : world R L) q s' w' q' r :
  finalize_guarded_patch resolve open_root pd dd fresh id now request (s, (w, q)) = ((s', (w', q')), Ok r) ->
  GuardedPatchFinalizationResult.applied r = true ->
  s' = s /\ q' = q /\
  exists d report, cleared request d report /\
    git_apply (w_repo w) (PatchDiff.patch d) = Ok (w_repo w') /\ verified (w_repo w') d /\
    sha256_hex (PatchDiff.patch d) = PatchDiff.patch_sha256 d /\
    (exists out, status_porcelain (w_repo w) = Ok out /\ truthy (strip out) = false) /\
    (exists out, rev_parse_head (w_repo w) = Ok out /\ strip out = PatchDiff.baseline_commit_sha d) /\
    PatchPathSafetyReport.safe (validate_patch_paths resolve d
      (GuardedPatchFinalizationRequest.trusted_repo_path request)) = true /\
    _auto_apply_skip_reasons d report (gate_of_report report) = [].
Proof.
  intros Hx Happ%bool_decide_eq_true.
  apply finalize_steps in Hx as [[_ (r0 & [= <-] & [H _])]|(d & report & Hpr & Hx)]; [done|].
  apply decided_steps in Hx as [[_ (r0 & [= <-] & [H _])]|[(_ & _ & fr & fp & sa & [Hp1 Hp2] & Hx)|
    (Hc & w1 & res & r0 & Ha & [= -> -> ->] & [= <-] & Hr)]]; [done| | |done].
  { by apply persisting_never_applies in Hx. }
  split; [done|]. split; [done|]. destruct res as [sa|e]; [|by destruct Hr]. destruct Hr as [Ho _].
  exists d, report. split; [done|].
  unfold auto_apply_of in Ha. apply auto_apply_steps in Ha as [[_ [e [=]]]|(report' & Hpre & Hcase)].
  assert (report' = report) as -> by (destruct Hpre as [_ [= ->] _ _ _ _]; done).
  cbn [default from_option Datatypes.id] in Hcase. destruct Hcase as [(_ & _ & [= ->])|[Hskip Hrun]]; [done|].
  apply a_bind_Ok in Hrun as (w2 & u1 & [-> _]%a_lift_Ok & Hrun).
  apply a_bind_Ok in Hrun as (w3 & u2 & (repo & Hap & ->)%git_step_Ok & Hrun).
  apply verify_and_log_steps in Hrun as [(r' & _ & _ & Hv & Hwr)|(f & w4 & _ & Hrb)].
  - cbn [w_repo set_repo] in Hv, Hwr. rewrite Hwr. destruct Hpre. by split_and!.
  - unfold _rollback_after_failed_apply in Hrb. by destruct (a_bind _ _ w4) as [w5 [?|?]].
Qed.

(** C27 Finalizing has one effect at most, provided reversing a patch undoes
    [git apply], whatever the disk does to the artifact: the patch is applied to
    the repository and the directory is untouched; or one artifact is added for
    a pending approval and the repository is untouched; or neither changes, be
    it for a failed command, a block, a failed check, a rolled back apply or a
    queue that refuses the request; or, and only when a system call on the
    artifact failed while it was persisted or removed, the run neither applied
    nor has a pending approval, the repository is untouched, and the directory
    holds at most one more file and one more lock, under the identifier of the
    artifact.  Without such a failure the finalizer returns a result. *)
Theorem finalization_is_all_or_nothing fresh id now request s (w : world R L) q s' w' q' res :
  reverse_restores -> identifier id -> identifier (Fresh.approval_id fresh) ->
  (forall report, GuardedPatchFinalizationRequest.risk_report request = Some report ->
     py_wf float_value (of_dict (ChangeRiskReport.audit_summary report))) ->
  py_wf float_value (of_dict (_intent_summary request)) ->
  finalize_guarded_patch resolve open_root pd dd fresh id now request (s, (w, q))
    = ((s', (w', q')), res) ->
  (exists r, res = Ok r /\
    ((GuardedPatchFinalizationResult.applied r = true /\ s' = s /\
       exists d, GuardedPatchFinalizationRequest.patch_diff request = Some d /\
         git_apply (w_repo w) (PatchDiff.patch d) = Ok (w_repo w')) \/
     (GuardedPatchFinalizationResult.pending_approval r = true /\ w' = w /\
       exists f, s' = put_file s id f) \/
     (GuardedPatchFinalizationResult.applied r = false /\
      GuardedPatchFinalizationResult.pending_approval r = false /\ s' = s /\ w_repo w' = w_repo w))) \/
  ((pd <> no_faults \/ dd <> no_faults) /\
   (forall r, res = Ok r -> GuardedPatchFinalizationResult.applied r = false /\
      GuardedPatchFinalizationResult.pending_approval r = false) /\
   w_repo w' = w_repo w /\
   (st_files s' = st_files s \/ exists f, st_files s' = <[id := f]> (st_files s)) /\
   (st_locks s' = st_locks s \/ st_locks s' = {[id]} ∪ st_locks s)).
Proof.
  intros Hrev Hid Hf Hw Hi Hx.
  assert (Hset : forall r, settled r -> GuardedPatchFinalizationResult.applied r = false /\
    GuardedPatchFinalizationResult.pending_approval r = false)
    by (intros r [H1 H2]; split; by apply bool_decide_eq_false).
  apply finalize_steps in Hx as [[[= -> -> ->] (r & -> & H%Hset)]|(d & report & Hpr & Hx)];
    [left; exists r; split; [done|]; right; right; by destruct H|].
  apply decided_steps in Hx as [[[= -> -> ->] (r & -> & H%Hset)]|[(_ & _ & fr & fp & sa & [Hp1 Hp2] & Hx)|
    (Hc & w1 & ra & r & Ha & [= -> -> ->] & -> & Hr)]];
    [left; exists r; split; [done|]; right; right; by destruct H| | |done].
  - apply pending_steps in Hx as [Hww [(r & -> & H%Hset & Hs)|[(Hn & Hlim & Hfs & Hls)|
      (r & -> & H & request0 & a & _ & Hpers & _)]]]; try done;
      [| | |by apply Hw, Hpr]; cbn [fst snd] in *; subst w'.
    + left. exists r. split; [done|]. right; right. subst s'. by destruct H.
    + right. split; [done|]. split; [intros r ->; by apply Hset|]. by split_and!.
    + left. exists r. split; [done|]. right; left. split; [by apply bool_decide_eq_true|]. split; [done|].
      apply persist_inv in Hpers as (art & _ & _ & _ & Hk & Hfiles & _).
      eexists. destruct s' as [fs ls]. cbn in Hk, Hfiles. rewrite Hk, Hfiles. reflexivity.
  - left. exists r. split; [done|]. unfold auto_apply_of in Ha.
    apply auto_apply_steps in Ha as [[Hw1 [e ->]]|(report' & [_ _ _ Hcl Hh _] & Hcase)];
      [by right; right; destruct (Hset _ Hr)|].
    cbn zeta in Hcase. destruct Hcase as [(_ & -> & ->)|[_ Hrun]]; [by destruct Hr|].
    apply keeps_step in Hrun as [[Hw1 [e ->]]|(w2 & u1 & [-> _]%a_lift_Ok & Hrun)];
      [by right; right; destruct (Hset _ Hr)| |apply keeps_lift].
    unfold a_bind, git_step in Hrun.
    destruct (git_apply (w_repo w) (PatchDiff.patch d)) as [repo|e] eqn:Ea;
      [|injection Hrun as <- <-; by right; right; destruct (Hset _ Hr)].
    apply verify_and_log_steps in Hrun as [(sa & -> & Ho & _ & Hw1)|(f & w3 & Hw1 & Hrb)];
      cbn [w_repo set_repo] in Hw1.
    + destruct Hr as [_ Hr]. left. split; [by apply bool_decide_eq_true|]. split; [done|].
      exists d. rewrite Hw1. split; [apply Hpr|done].
    + destruct (rollback_restores d f w3 w1 (w_repo w) ra Hrev) as [Hr1 ->]; try done;
        [by rewrite Hw1|]. by right; right; destruct (Hset _ Hr).
Qed.

(** A pending approval can be carried out: the directory holds a pending
    artifact with the patch, its report and the request it is bound to; the
    request names the artifact, the digest and the baseline, is of the kind,
    action and policy that [apply_approved_patch] accepts, and the patch is
    either in need of an approval or marked as forced, so that no check but
    the state of the repository and of the log remains; exactly this request
    is what the queue accepted. *)
Theorem pending_patch_is_applicable fresh id now request s (w : world R L) q s' w' q' r :
  identifier id -> identifier (Fresh.approval_id fresh) ->
  (forall report, GuardedPatchFinalizationRequest.risk_report request = Some report ->
     plain_report float_cast report /\
     py_wf float_value (of_dict (ChangeRiskReport.audit_summary report))) ->
  py_wf float_value (of_dict (_intent_summary request)) ->
  finalize_guarded_patch resolve open_root pd dd fresh id now request (s, (w, q)) = ((s', (w', q')), Ok r) ->
  GuardedPatchFinalizationResult.pending_approval r = true ->
  exists d req, GuardedPatchFinalizationRequest.patch_diff request = Some d /\
    GuardedPatchFinalizationResult.approval_request r = Some req /\
    GuardedPatchFinalizationResult.artifact_id r = Some id /\ w' = w /\
    applicable (R := R) (L := L) s' id d req /\ queued q q' req.
Proof.
  intros Hid Hf Hw Hi Hx Hpend%bool_decide_eq_true.
  apply finalize_steps in Hx as [[_ (r0 & [= <-] & [_ H])]|(d & report & Hpr & Hx)]; [done|].
  destruct (Hw report) as [Hplain Hwf]; [apply Hpr|].
  apply decided_steps in Hx as [[_ (r0 & [= <-] & [_ H])]|[(Hb & _ & fr & fp & sa & Hpol & Hx)|
    (_ & w1 & res & r0 & _ & _ & [= <-] & Hr)]]; [done| | |done].
  - assert (Hpol' := Hpol). destruct Hpol' as [Hp1 Hp2].
    apply pending_steps in Hx as [Hww [(r0 & [= <-] & [_ H] & _)|[([_ H] & _)|
      (r0 & [= <-] & _ & request0 & a & Hreq & Hpers & Har & Hai & Hq)]]]; try done. cbn [fst snd] in *. subst w'.
    eapply pending_applicable in Hpers as Happ; [|done..].
    exists d, (bind_artifact_to_approval request0 a). split_and!; try done; [apply Hpr|].
    rewrite Hai. apply persisted_pending in Hpers as ([Hst _] & _); [|done..].
    by rewrite (sa_id _ _ _ Hst).
  - destruct res; [destruct Hr; congruence|by destruct Hr].
Qed.
End Theorems.

Section Witnesses.
Notation sha := example_digest.
#[local] Existing Instance example_sources.
#[local] Existing Instance toy_audit.
#[local] Existing Instance toy_queue.

Lemma cleared_patch_witness :
  exists w' r report,
    guide_run false = ((ArtifactExample.empty_store, (w', Some [])), Ok r) /\
    _auto_apply_skip_reasons guide_patch report (gate_of_report report) = [] /\
    sha256_hex guide_text = PatchDiff.patch_sha256 guide_patch.
Proof.
  destruct guide_run_applies as (w' & r & E & Ha & _).
  destruct (applied_patch_was_cleared (GR := toy_git guide_patch false) lexical_resolve
    (fun _ => Ok ()) no_faults no_faults guide_fresh "art_1" 2500000 (guide_request guide_patch guide_report None)
    ArtifactExample.empty_store toy_world (Some []) ArtifactExample.empty_store w' (Some []) r E Ha)
    as (_ & _ & d & report & Hc & _ & _ & Hd & _ & _ & _ & Hs).
  destruct (pr_patch _ _ _ (cl_proceeds _ _ _ Hc)) as [[= <-] _].
  exists w', r, report. split; [exact E|]. split; [exact Hs|exact Hd].
Defined.

Lemma all_or_nothing_witness :
  exists w' r, guide_run true = ((ArtifactExample.empty_store, (w', Some [])), Ok r) /\
    GuardedPatchFinalizationResult.applied r = false /\ w_repo w' = [].
Proof.
  destruct guide_run_rolls_back as (w' & r & E & _ & Hna & Hnp). exists w', r. split; [exact E|].
  destruct (finalization_is_all_or_nothing (GR := toy_git guide_patch true) lexical_resolve
    (fun _ => Ok ()) no_faults no_faults guide_fresh "art_1" 2500000 (guide_request guide_patch guide_report None)
    ArtifactExample.empty_store toy_world (Some []) ArtifactExample.empty_store w' (Some []) (Ok r)
    (toy_reverse_restores guide_patch true) (proj1 example_ids) (proj2 (proj2 (proj2 example_ids)))
    guide_report_wf ltac:(repeat constructor) E)
    as [(r0 & [= <-] & [(Ha & _)|[(Hp & _)|(Ha & _ & _ & Hw)]])|([Hd|Hd] & _)].
  - rewrite Hna in Ha. discriminate Ha.
  - rewrite Hnp in Hp. discriminate Hp.
  - split; [exact Ha|exact Hw].
  - destruct (Hd eq_refl).
  - destruct (Hd eq_refl).
Defined.

Lemma pending_patch_witness :
  exists d s' req, PatchDiff.patch_sha256 d = sha /\
    applicable (R := toy_repo) (L := list (string * pydict)) s' "art_1" d req.
Proof.
  destruct (review_run_pending sha example_digest_eq) as (s' & q' & r & E & Hp).
  destruct (pending_patch_is_applicable (GR := toy_git (declared_patch sha) false)
    lexical_resolve (fun _ => Ok ()) no_faults no_faults guide_fresh "art_1" 2500000 (review_request sha)
    ArtifactExample.empty_store toy_world (Some []) s' toy_world q' r (proj1 example_ids)
    (proj2 (proj2 (proj2 example_ids)))
    (fun report Hr => match Hr in _ = o return match o with Some x => plain_report float_cast x /\
        py_wf float_value (of_dict (ChangeRiskReport.audit_summary x)) | None => True end with
      | eq_refl => conj (example_plain sha) (example_summary_wf sha) end)
    (review_summary_wf sha) E Hp) as (d & req & Hd & _ & _ & _ & Happ & _).
  exists d, s', req. injection Hd as <-. split; [reflexivity|exact Happ].
Defined.
End Witnesses.
