(* ===== verification/Double.v ===== *)
(** * Non-negative doubles

    Python's [float] on the values the sources compute with: finite, not
    negative, far from overflow.  A double is an integer count of units of
    [2^-1074]; an operation is the exact rational result rounded to 53
    significant bits, ties to even.  Rounding is monotone, which is what the
    bounds of the confidence scores rest on. *)

From S2P Require Export ChangeRisk.

Local Open Scope Z_scope.

(** ** Definitions *)

Definition double : Type := Z.

(** [p / q] to the nearest integer, ties to even, for [0 < q]. *)
Definition rdiv (p q : Z) : Z :=
  let n := p / q in
  let r := p mod q in
  if 2 * r <? q then n
  else if q <? 2 * r then n + 1
  else if Z.even n then n else n + 1.

(** The weight of the last of the 53 bits of [p / q]. *)
Definition ulp (p q : Z) : Z := 2 ^ Z.max 0 (Z.log2 (p / q) - 52).

(** The double nearest to [p / q] units. *)
Definition rnd (p q : Z) : double := rdiv p (q * ulp p q) * ulp p q.

Definition fone : double := 2 ^ 1074.

Definition dadd (a b : double) : double := rnd (a + b) 1.
Definition dsub (a b : double) : double := rnd (a - b) 1.
Definition dmul (a b : double) : double := rnd (a * b) fone.
Definition ddiv (a b : double) : double := rnd (a * fone) b.

(** The literal [n / 10^k], and [n] itself. *)
Definition of_decimal (n k : Z) : double := rnd (n * fone) (10 ^ k).
Definition of_int (n : Z) : double := of_decimal n 0.

(** [round(x, k)], as the integer whose decimal literal it is. *)
Definition round_decimal (x : double) (k : Z) : Z := rdiv (x * 10 ^ k) fone.

(** [math.isclose(a, b)] with its default tolerances. *)
Definition isclose (a b : double) : bool :=
  let diff := dsub (Z.max a b) (Z.min a b) in
  (diff <=? dmul (of_decimal 1 9) b) || (diff <=? dmul (of_decimal 1 9) a).

(** [sum(l)]: one addition after the other. *)
Definition dsum (l : list double) : double := fold_left dadd l 0.

(** [repr] of the literal [n / 10^k] with at most 15 digits: its digits
    without trailing zeros, one digit after the point at least. *)
Fixpoint fraction_digits (k : nat) (n : Z) : string :=
  match k with
  | O => ""
  | S k' => fraction_digits k' (n / 10) +++ pretty (n mod 10)
  end.

Definition decimal_text (n k : Z) : string :=
  let fraction :=
    rstrip_by (Ascii.eqb "0") (fraction_digits (Z.to_nat k) (n mod 10 ^ k)) in
  pretty (n / 10 ^ k) +++ "." +++ (if truthy fraction then fraction else "0").

(** The value as an odd mantissa and an exponent, and back. *)
Fixpoint odd_part (p : positive) : Z * Z :=
  match p with
  | xO p' => let '(m, e) := odd_part p' in (m, e + 1)
  | _ => (Zpos p, 0)
  end.

Definition decimal_float (n k : Z) : pyfloat :=
  match of_decimal n k with
  | Zpos p => let '(m, e) := odd_part p in mk_float m (e - 1074) (decimal_text n k)
  | _ => mk_float 0 0 "0.0"
  end.

Definition double_of (f : pyfloat) : double := Z.shiftl (f_mantissa f) (f_exponent f + 1074).

(** ** Lemmas *)

Lemma rdiv_spec p q : 0 < q ->
  2 * rdiv p q * q <= 2 * p + q /\ 2 * p <= 2 * rdiv p q * q + q /\
  (2 * rdiv p q * q = 2 * p + q -> Z.even (rdiv p q) = true) /\
  (2 * p = 2 * rdiv p q * q + q -> Z.even (rdiv p q) = true).
Proof.
  intros Hq. unfold rdiv. pose proof (Z.div_mod p q ltac:(lia)) as Hd.
  pose proof (Z.mod_pos_bound p q Hq) as Hm.
  set (n := p / q) in *. set (r := p mod q) in *. clearbody n r.
  destruct (Z.ltb_spec (2 * r) q); [split_and!; [nia|nia|nia|nia]|].
  destruct (Z.ltb_spec q (2 * r)); [split_and!; nia|].
  assert (2 * r = q) by lia.
  destruct (Z.even n) eqn:E; split_and!; try nia; try done; intros _.
  by rewrite Z.add_1_r, Z.even_succ, <- Z.negb_even, E.
Qed.

(** Rounding to an integer is monotone in the quotient. *)
Lemma rdiv_mono p q p' q' : 0 < q -> 0 < q' -> p * q' <= p' * q -> rdiv p q <= rdiv p' q'.
Proof.
  intros Hq Hq' Hle.
  destruct (rdiv_spec p q Hq) as (A1 & A2 & A3 & A4).
  destruct (rdiv_spec p' q' Hq') as (B1 & B2 & B3 & B4).
  set (n := rdiv p q) in *. set (n' := rdiv p' q') in *. clearbody n n'.
  apply Z.nlt_ge. intros Hlt.
  assert (H1 : (2 * n * q) * q' <= (2 * p + q) * q') by nia.
  assert (H2 : (2 * p') * q <= (2 * n' * q' + q') * q) by nia.
  assert (Hn : n = n' + 1) by nia. subst n.
  assert (E1 : 2 * (n' + 1) * q = 2 * p + q) by nia.
  assert (E2 : 2 * p' = 2 * n' * q' + q') by nia.
  specialize (A3 E1). specialize (B4 E2).
  by rewrite Z.add_1_r, Z.even_succ, <- Z.negb_even, B4 in A3.
Qed.

Lemma rdiv_exact n q : 0 < q -> rdiv (n * q) q = n.
Proof.
  intros Hq. unfold rdiv. rewrite Z.div_mul, Z.mod_mul by lia.
  by rewrite (proj2 (Z.ltb_lt _ _)) by lia.
Qed.

Lemma rdiv_0 q : 0 < q -> rdiv 0 q = 0.
Proof. apply (rdiv_exact 0). Qed.

Lemma ulp_pos p q : 0 < ulp p q.
Proof. unfold ulp. apply Z.pow_pos_nonneg; lia. Qed.

(** A power of two no smaller than the unit bounds the rounded value as it
    bounds the quotient. *)
Lemma rnd_le_pow p q b : 0 < q -> Z.max 0 (Z.log2 (p / q) - 52) <= b -> p <= 2 ^ b * q ->
  rnd p q <= 2 ^ b.
Proof.
  intros Hq Hb Hp. unfold rnd, ulp. set (x := Z.max 0 (Z.log2 (p / q) - 52)) in *.
  assert (Hx : 0 <= x) by lia.
  assert (E : 2 ^ b = 2 ^ (b - x) * 2 ^ x) by (rewrite <- Z.pow_add_r by lia; f_equal; lia).
  assert (Hu : 0 < 2 ^ x) by (apply Z.pow_pos_nonneg; lia).
  rewrite E in Hp |- *. apply Z.mul_le_mono_nonneg_r; [lia|].
  rewrite <- (rdiv_exact (2 ^ (b - x)) (q * 2 ^ x)) by nia.
  apply rdiv_mono; [nia|nia|]. nia.
Qed.

Lemma pow_le_rnd p q b : 0 < q -> Z.max 0 (Z.log2 (p / q) - 52) <= b -> 2 ^ b * q <= p ->
  2 ^ b <= rnd p q.
Proof.
  intros Hq Hb Hp. unfold rnd, ulp. set (x := Z.max 0 (Z.log2 (p / q) - 52)) in *.
  assert (Hx : 0 <= x) by lia.
  assert (E : 2 ^ b = 2 ^ (b - x) * 2 ^ x) by (rewrite <- Z.pow_add_r by lia; f_equal; lia).
  assert (Hu : 0 < 2 ^ x) by (apply Z.pow_pos_nonneg; lia).
  rewrite E in Hp |- *. apply Z.mul_le_mono_nonneg_r; [lia|].
  rewrite <- (rdiv_exact (2 ^ (b - x)) (q * 2 ^ x)) at 1 by nia.
  apply rdiv_mono; [nia|nia|]. nia.
Qed.

Lemma rnd_mono p q p' q' :
  0 <= p -> 0 < q -> 0 < q' -> p * q' <= p' * q -> rnd p q <= rnd p' q'.
Proof.
  intros Hp Hq Hq' Hle.
  assert (Hn : p / q <= p' / q').
  { apply Z.div_le_lower_bound; [lia|]. pose proof (Z.mul_div_le p q Hq).
    assert (q' * (p / q) * q <= p' * q) by nia. nia. }
  pose proof (Z.log2_le_mono _ _ Hn) as Hlog.
  destruct (Z.eq_dec (Z.max 0 (Z.log2 (p / q) - 52)) (Z.max 0 (Z.log2 (p' / q') - 52))) as [E|E].
  - unfold rnd, ulp. rewrite <- E. set (u := 2 ^ _).
    assert (Hu : 0 < u) by (apply Z.pow_pos_nonneg; lia).
    apply Z.mul_le_mono_nonneg_r; [lia|]. apply rdiv_mono; nia.
  - assert (Hb : Z.log2 (p / q) < Z.log2 (p' / q')) by lia.
    assert (H1 : 1 < p' / q').
    { apply Z.nle_gt. intros H1%Z.log2_null. pose proof (Z.log2_nonneg (p / q)). lia. }
    etrans; [apply (rnd_le_pow _ _ (Z.log2 (p' / q')))|apply pow_le_rnd]; try lia.
    + assert (Hx : p / q < 2 ^ Z.succ (Z.log2 (p / q))).
      { destruct (Z.eq_dec (p / q) 0) as [->|Hz]; [done|]. apply Z.log2_spec.
        pose proof (Z.div_pos p q ltac:(lia) ltac:(lia)). lia. }
      assert (2 ^ Z.succ (Z.log2 (p / q)) <= 2 ^ Z.log2 (p' / q')) by (apply Z.pow_le_mono_r; lia).
      pose proof (Z.mul_succ_div_gt p q Hq). nia.
    + assert (2 ^ Z.log2 (p' / q') <= p' / q') by (apply Z.log2_spec; lia).
      pose proof (Z.mul_div_le p' q' Hq'). nia.
Qed.

Lemma rnd_nonneg p q : 0 <= p -> 0 < q -> 0 <= rnd p q.
Proof.
  intros Hp Hq. etrans; [|apply (rnd_mono 0 q); lia].
  unfold rnd. pose proof (ulp_pos 0 q). by rewrite rdiv_0 by nia.
Qed.

(** A double is its own rounding. *)
Definition is_double (d : double) : Prop := 0 <= d /\ (ulp d 1 | d).

Lemma ulp_scaled d k : 0 < k -> ulp (d * k) k = ulp d 1.
Proof. intros Hk. unfold ulp. by rewrite Z.div_mul, Z.div_1_r by lia. Qed.

Lemma rnd_id d k : is_double d -> 0 < k -> rnd (d * k) k = d.
Proof.
  intros [_ [m Hm]] Hk. unfold rnd. rewrite ulp_scaled by done. pose proof (ulp_pos d 1) as Hu.
  rewrite Hm at 1. replace (m * ulp d 1 * k) with (m * (k * ulp d 1)) by ring.
  by rewrite rdiv_exact by nia.
Qed.

Lemma rnd_double p q : 0 <= p -> 0 < q -> is_double (rnd p q).
Proof.
  intros Hp Hq. split; [by apply rnd_nonneg|].
  unfold rnd at 2. set (u := ulp p q). set (m := rdiv p (q * u)).
  assert (Hu : 0 < u) by apply ulp_pos.
  assert (Hrnd : rnd p q = m * u) by done.
  set (x := Z.max 0 (Z.log2 (p / q) - 52)) in *.
  assert (Ex : u = 2 ^ x) by done. assert (Hx : 0 <= x) by lia.
  assert (Hn0 : 0 <= p / q) by (apply Z.div_pos; lia).
  assert (Hm : m <= 2 ^ 53).
  { unfold m. rewrite <- (rdiv_exact (2 ^ 53) (q * u)) by nia. apply rdiv_mono; [nia|nia|].
    assert (Hlt : p / q < 2 ^ (x + 53)).
    { destruct (Z.eq_dec (p / q) 0) as [->|Hz]; [apply Z.pow_pos_nonneg; lia|].
      eapply Z.lt_le_trans; [apply Z.log2_spec; lia|]. apply Z.pow_le_mono_r; lia. }
    rewrite Z.pow_add_r, <- Ex in Hlt by lia.
    pose proof (Z.mul_succ_div_gt p q Hq). 
    assert (p < 2 ^ 53 * (q * u)).
    { eapply Z.lt_le_trans; [done|]. replace (2 ^ 53 * (q * u)) with (q * (u * 2 ^ 53)) by ring.
      apply Z.mul_le_mono_nonneg_l; lia. }
    assert (0 < q * u) by nia. generalize dependent (q * u). intros y Hy1 Hy2. nia. }
  assert (Hm0 : 0 <= m) by (unfold m; rewrite <- (rdiv_0 (q * u)) by nia; apply rdiv_mono; nia).
  rewrite Hrnd. unfold ulp. rewrite Z.div_1_r.
  destruct (Z.eq_dec m (2 ^ 53)) as [->|Hne].
  - rewrite Ex, <- Z.pow_add_r, Z.log2_pow2 by lia. rewrite Z.max_r by lia.
    exists (2 ^ 52). rewrite <- Z.pow_add_r by lia. f_equal. lia.
  - exists (m * 2 ^ (x - Z.max 0 (Z.log2 (m * u) - 52))).
    assert (Hl : Z.max 0 (Z.log2 (m * u) - 52) <= x).
    { apply Z.max_lub; [lia|]. destruct (Z.eq_dec m 0) as [->|Hz].
      { rewrite Z.mul_0_l. change (Z.log2 0) with 0. lia. }
      rewrite Ex, Z.log2_mul_pow2 by lia.
      assert (Z.log2 m < 53) by (apply Z.log2_lt_pow2; lia). lia. }
    rewrite <- Z.mul_assoc, <- Z.pow_add_r by lia. rewrite Ex. do 2 f_equal. lia.
Qed.

Lemma of_decimal_mono n k n' k' :
  0 <= n -> 0 <= k -> 0 <= k' -> n * 10 ^ k' <= n' * 10 ^ k -> of_decimal n k <= of_decimal n' k'.
Proof.
  intros Hn Hk Hk' H. unfold of_decimal. assert (Ho : 0 < fone) by done.
  assert (0 < 10 ^ k) by (apply Z.pow_pos_nonneg; lia).
  assert (0 < 10 ^ k') by (apply Z.pow_pos_nonneg; lia). revert Ho. generalize fone. intros o Ho.
  apply rnd_mono; [nia|lia..|]. replace (n * o * 10 ^ k') with (n * 10 ^ k' * o) by ring.
  replace (n' * o * 10 ^ k) with (n' * 10 ^ k * o) by ring.
  apply Z.mul_le_mono_nonneg_r; lia.
Qed.

Lemma round_decimal_mono x y k : 0 <= k -> x <= y -> round_decimal x k <= round_decimal y k.
Proof.
  intros Hk H. unfold round_decimal. assert (Ho : 0 < fone) by done.
  assert (0 < 10 ^ k) by (apply Z.pow_pos_nonneg; lia). revert Ho. generalize fone. intros o Ho.
  apply rdiv_mono; [lia..|]. do 2 (apply Z.mul_le_mono_nonneg_r; [lia|]). lia.
Qed.

Lemma round_decimal_nonneg x k : 0 <= k -> 0 <= x -> 0 <= round_decimal x k.
Proof.
  intros Hk H. etrans; [|by apply (round_decimal_mono 0)].
  unfold round_decimal. by rewrite Z.mul_0_l, rdiv_0.
Qed.

Lemma rnd_one : rnd fone 1 = fone.
Proof. vm_compute. reflexivity. Qed.

(** [x <= 1] survives rounding. *)
Lemma rnd_le_one p q : 0 <= p -> 0 < q -> p <= fone * q -> rnd p q <= fone.
Proof.
  intros Hp Hq H. etrans; [apply (rnd_mono p q fone 1)|by rewrite rnd_one]; try done.
  by rewrite Z.mul_1_r.
Qed.

Lemma round_decimal_le_one x k : 0 <= k -> 0 <= x <= fone -> 0 <= round_decimal x k <= 10 ^ k.
Proof.
  intros Hk [H1 H2]. split; [by apply round_decimal_nonneg|].
  assert (E : 10 ^ k = round_decimal fone k).
  { unfold round_decimal. rewrite (Z.mul_comm fone). by rewrite rdiv_exact. }
  rewrite E. by apply round_decimal_mono.
Qed.

Lemma dmul_le a b : is_double a -> 0 <= b <= fone -> dmul a b <= a.
Proof.
  intros Ha Hb. assert (Ho : 0 < fone) by done. unfold dmul.
  rewrite <- (rnd_id a fone Ha Ho) at 2. revert Hb Ho. generalize fone. intros o Hb Ho.
  destruct Ha as [Ha _]. apply rnd_mono; nia.
Qed.

Lemma dmul_mono a b c : 0 <= a -> 0 <= b -> b <= c -> dmul a b <= dmul a c.
Proof.
  intros Ha Hb Hc. unfold dmul. assert (Ho : 0 < fone) by done. revert Ho. generalize fone. intros o Ho.
  apply rnd_mono; [nia|lia|lia|]. apply Z.mul_le_mono_nonneg_r; [lia|].
  by apply Z.mul_le_mono_nonneg_l.
Qed.

Lemma dmul_double a b : 0 <= a -> 0 <= b -> is_double (dmul a b).
Proof. intros. apply rnd_double; [nia|done]. Qed.

Lemma one_double : is_double fone.
Proof. rewrite <- rnd_one. by apply rnd_double. Qed.

Lemma dsub_mono a b c : b <= c <= a -> dsub a c <= dsub a b.
Proof. intros. apply rnd_mono; lia. Qed.

Lemma dsub_one_range b : 0 <= b <= fone -> 0 <= dsub fone b <= fone.
Proof. intros. split; [apply rnd_nonneg; lia|]. apply rnd_le_one; lia. Qed.

(** Closer to [b] from below is close when something is. *)
Lemma isclose_mono x y b : 0 <= x -> x <= y <= b -> isclose x b = true -> isclose y b = true.
Proof.
  intros Hx Hy. unfold isclose. rewrite !Z.max_r, !Z.min_l by lia.
  assert (H1 : dsub b y <= dsub b x) by (apply dsub_mono; lia).
  assert (H2 : dmul (of_decimal 1 9) x <= dmul (of_decimal 1 9) y)
    by (apply dmul_mono; [by apply rnd_nonneg|lia|lia]).
  rewrite !orb_true_iff, !Z.leb_le. lia.
Qed.

Lemma odd_part_spec p : let '(m, e) := odd_part p in 0 <= e /\ Zpos p = m * 2 ^ e.
Proof.
  induction p as [p IH|p IH|]; cbn [odd_part]; [lia| |lia].
  destruct (odd_part p) as [m e]. destruct IH as [He IH]. split; [lia|].
  rewrite Z.pow_add_r by lia. rewrite (Pos2Z.inj_xO p), IH. change (2 ^ 1) with 2. ring.
Qed.

Lemma of_decimal_nonneg n k : 0 <= n -> 0 <= k -> 0 <= of_decimal n k.
Proof.
  intros Hn Hk. assert (Ho : 0 < fone) by done. apply rnd_nonneg; [|by apply Z.pow_pos_nonneg].
  revert Ho. generalize fone. intros o Ho. nia.
Qed.

Lemma double_of_decimal n k : 0 <= n -> 0 <= k -> double_of (decimal_float n k) = of_decimal n k.
Proof.
  intros Hn Hk. pose proof (of_decimal_nonneg n k Hn Hk) as H.
  unfold decimal_float. destruct (of_decimal n k) as [|p|p]; [done| |lia].
  pose proof (odd_part_spec p) as Hp. destruct (odd_part p) as [m e]. destruct Hp as [He ->].
  unfold double_of. cbn [f_mantissa f_exponent]. rewrite Z.shiftl_mul_pow2 by lia. do 2 f_equal. lia.
Qed.

(** A literal of [k] decimals between 0 and 1 is a double between 0 and 1. *)
Lemma unit_decimal n k : 0 <= k -> 0 <= n <= 10 ^ k -> 0 <= of_decimal n k <= fone.
Proof.
  intros Hk Hn. split; [apply of_decimal_nonneg; lia|].
  etrans; [apply (of_decimal_mono n k 1 0); lia|]. vm_compute. discriminate.
Qed.

(** *** Averages *)

(** Whole numbers up to [2^53] are doubles. *)
Lemma count_double m : 0 <= m <= 2 ^ 53 -> is_double (m * fone).
Proof.
  intros Hm. split; [apply Z.mul_nonneg_nonneg; [lia|done]|].
  destruct (Z.eq_dec m (2 ^ 53)) as [->|Hne]; [by apply Z.mod_divide; vm_compute|].
  destruct (Z.eq_dec m 0) as [->|Hz]; [by exists 0|].
  unfold ulp. rewrite Z.div_1_r. unfold fone at 1. rewrite Z.log2_mul_pow2 by lia.
  assert (Hl : Z.log2 m < 53) by (apply Z.log2_lt_pow2; lia).
  pose proof (Z.log2_nonneg m). set (x := Z.max 0 (1074 + Z.log2 m - 52)).
  exists (m * 2 ^ (1074 - x)). unfold fone. rewrite <- Z.mul_assoc, <- Z.pow_add_r by lia.
  do 2 f_equal. lia.
Qed.

Lemma rnd_above_counts : rnd ((2 ^ 53 + 1) * fone) 1 = 2 ^ 53 * fone.
Proof. vm_compute. reflexivity. Qed.

Definition unit_double (x : double) : Prop := 0 <= x <= fone.

Lemma dadd_count total x k :
  0 <= k -> 0 <= total <= Z.min k (2 ^ 53) * fone -> unit_double x ->
  0 <= dadd total x <= Z.min (k + 1) (2 ^ 53) * fone.
Proof.
  intros Hk Ht [Hx0 Hx]. unfold dadd. split; [apply rnd_nonneg; lia|].
  assert (Hs : total + x <= (Z.min k (2 ^ 53) + 1) * fone) by lia.
  etrans; [apply (rnd_mono _ 1 ((Z.min k (2 ^ 53) + 1) * fone) 1); lia|].
  destruct (Z.le_gt_cases (2 ^ 53) k).
  - rewrite !Z.min_r by lia. by rewrite rnd_above_counts.
  - rewrite !Z.min_l by lia. rewrite <- (Z.mul_1_r ((k + 1) * fone)) at 1.
    rewrite rnd_id; [done|apply count_double; lia|done].
Qed.

Lemma dsum_range l :
  Forall unit_double l -> 0 <= dsum l <= Z.min (Z.of_nat (length l)) (2 ^ 53) * fone.
Proof.
  unfold dsum. assert (H : forall total k, 0 <= k -> 0 <= total <= Z.min k (2 ^ 53) * fone ->
    Forall unit_double l ->
    0 <= fold_left dadd l total <= Z.min (k + Z.of_nat (length l)) (2 ^ 53) * fone).
  { induction l as [|x l IH]; intros total k Hk Ht Hl; cbn [fold_left length].
    - by rewrite Z.add_0_r.
    - apply Forall_cons_1 in Hl as [Hx Hl].
      replace (k + Z.of_nat (S (length l))) with (k + 1 + Z.of_nat (length l)) by lia.
      apply IH; [lia| |done]. by apply dadd_count. }
  intros Hl. by apply (H 0 0).
Qed.

(** The average of doubles between 0 and 1 is between 0 and 1, however many
    roundings there are. *)
Lemma average_unit l :
  l <> [] -> Forall unit_double l -> unit_double (ddiv (dsum l) (of_int (Z.of_nat (length l)))).
Proof.
  intros Hne Hl. apply dsum_range in Hl as [H0 H1].
  assert (Hn : 1 <= Z.of_nat (length l)) by (destruct l; [done|cbn; lia]).
  set (n := Z.of_nat (length l)) in *. set (s := dsum l) in *.
  assert (Ho : 0 < fone) by done.
  assert (Hc : s <= of_int n).
  { etrans; [exact H1|]. rewrite <- (rnd_id (Z.min n (2 ^ 53) * fone) 1);
      [|apply count_double; lia|done].
    unfold of_int, of_decimal. apply rnd_mono; [nia|done|done|].
    rewrite !Z.mul_1_r. apply Z.mul_le_mono_nonneg_r; lia. }
  assert (Hp : 0 < of_int n).
  { apply Z.lt_le_trans with (of_int 1); [done|]. apply of_decimal_mono; lia. }
  unfold ddiv. split.
  - apply rnd_nonneg; [|done]. by apply Z.mul_nonneg_nonneg.
  - apply rnd_le_one; [by apply Z.mul_nonneg_nonneg; lia|done|].
    rewrite (Z.mul_comm s). by apply Z.mul_le_mono_nonneg_l; lia.
Qed.
