(* ===== verification/ActionIntent.v ===== *)
(** * action_intent.py: what a command, a set of paths or added lines do

    Evidence is collected in buckets, one per intent code; each bucket becomes
    an intent whose confidence is the noisy-or of the weights of its evidence,
    and whose severity and recommendation are those of its code.  The tables
    are in the order of the source; sets are lists. *)

From S2P Require Import Fnmatch.
From S2P Require Export Double ChangeGate.

Local Open Scope string_scope.
Local Open Scope list_scope.

Module Intent.

(** ** Data *)

Inductive ActionIntentCode :=
  | READ_ONLY_INSPECTION
  | TEST_OR_BUILD
  | SOURCE_CODE_CHANGE
  | DEPENDENCY_CHANGE
  | SECRET_OR_CREDENTIAL_ACCESS
  | NETWORK_ACCESS
  | EXTERNAL_DOWNLOAD
  | FILESYSTEM_DESTRUCTIVE
  | DEPLOYMENT_OR_CI_CHANGE
  | CONTAINER_OR_INFRA_CHANGE
  | AUTH_OR_PERMISSION_CHANGE
  | PRIVILEGE_ESCALATION
  | AUDIT_OR_APPROVAL_CHANGE
  | APPROVAL_BYPASS_ATTEMPT
  | UNKNOWN_OR_AMBIGUOUS.

Definition code_value (c : ActionIntentCode) : string :=
  match c with
  | READ_ONLY_INSPECTION => "read_only_inspection"
  | TEST_OR_BUILD => "test_or_build"
  | SOURCE_CODE_CHANGE => "source_code_change"
  | DEPENDENCY_CHANGE => "dependency_change"
  | SECRET_OR_CREDENTIAL_ACCESS => "secret_or_credential_access"
  | NETWORK_ACCESS => "network_access"
  | EXTERNAL_DOWNLOAD => "external_download"
  | FILESYSTEM_DESTRUCTIVE => "filesystem_destructive"
  | DEPLOYMENT_OR_CI_CHANGE => "deployment_or_ci_change"
  | CONTAINER_OR_INFRA_CHANGE => "container_or_infra_change"
  | AUTH_OR_PERMISSION_CHANGE => "auth_or_permission_change"
  | PRIVILEGE_ESCALATION => "privilege_escalation"
  | AUDIT_OR_APPROVAL_CHANGE => "audit_or_approval_change"
  | APPROVAL_BYPASS_ATTEMPT => "approval_bypass_attempt"
  | UNKNOWN_OR_AMBIGUOUS => "unknown_or_ambiguous"
  end.

#[global] Instance ActionIntentCode_eq_dec : EqDecision ActionIntentCode.
Proof. solve_decision. Defined.

(** [ActionIntentSeverity] has the values and the order of [RiskLevel]. *)
Definition _SEVERITY_ORDER : RiskLevel -> Z := RISK_LEVEL_ORDER.

Inductive ActionIntentRecommendation := ALLOW | AUDIT | REQUIRE_APPROVAL | BLOCK.

Definition recommendation_value (r : ActionIntentRecommendation) : string :=
  match r with
  | ALLOW => "allow" | AUDIT => "audit" | REQUIRE_APPROVAL => "require_approval" | BLOCK => "block"
  end.

Definition _RECOMMENDATION_ORDER (r : ActionIntentRecommendation) : Z :=
  match r with ALLOW => 0 | AUDIT => 1 | REQUIRE_APPROVAL => 2 | BLOCK => 3 end.

#[global] Instance ActionIntentRecommendation_eq_dec : EqDecision ActionIntentRecommendation.
Proof. solve_decision. Defined.

Inductive ActionIntentEvidenceSource := COMMAND | PATH | DIFF | CONTEXT.

Definition source_value (s : ActionIntentEvidenceSource) : string :=
  match s with COMMAND => "command" | PATH => "path" | DIFF => "diff" | CONTEXT => "context" end.

(** [ActionIntent] with its enumerations; [ChangeRisk] sees their values. *)
Record t := mk {
  code : ActionIntentCode;
  severity : RiskLevel;
  confidence : pyfloat;
  recommendation : ActionIntentRecommendation;
  reason : string;
  evidence : list ActionIntentEvidence;
}.

Record _IntentProfile := profile {
  p_severity : RiskLevel;
  p_recommendation : ActionIntentRecommendation;
  p_reason : string;
}.

Definition _INTENT_PROFILES (c : ActionIntentCode) : _IntentProfile :=
  match c with
  | READ_ONLY_INSPECTION => profile LOW ALLOW
      "Action appears to inspect repository or runtime context without mutation."
  | TEST_OR_BUILD => profile LOW ALLOW
      "Action appears to run tests, linting, formatting, or build validation."
  | SOURCE_CODE_CHANGE => profile MEDIUM AUDIT
      "Action changes source code or application behavior."
  | DEPENDENCY_CHANGE => profile HIGH REQUIRE_APPROVAL
      "Action changes dependency manifests, lockfiles, or package manager state."
  | SECRET_OR_CREDENTIAL_ACCESS => profile CRITICAL BLOCK
      "Action touches credentials, secrets, environment files, or private key material."
  | NETWORK_ACCESS => profile HIGH REQUIRE_APPROVAL
      "Action opens network access, remote transfer, or external communication."
  | EXTERNAL_DOWNLOAD => profile HIGH REQUIRE_APPROVAL
      "Action downloads or installs content from an external source."
  | FILESYSTEM_DESTRUCTIVE => profile CRITICAL BLOCK
      "Action can delete, overwrite, or irreversibly destroy filesystem state."
  | DEPLOYMENT_OR_CI_CHANGE => profile HIGH REQUIRE_APPROVAL
      "Action changes CI/CD, release, deployment, or automation behavior."
  | CONTAINER_OR_INFRA_CHANGE => profile HIGH REQUIRE_APPROVAL
      "Action changes container, infrastructure, runtime, or environment configuration."
  | AUTH_OR_PERMISSION_CHANGE => profile HIGH REQUIRE_APPROVAL
      "Action changes authentication, authorization, identity, or permission behavior."
  | PRIVILEGE_ESCALATION => profile CRITICAL BLOCK
      "Action attempts to elevate privileges or weaken least-privilege boundaries."
  | AUDIT_OR_APPROVAL_CHANGE => profile HIGH REQUIRE_APPROVAL
      "Action changes audit, approval, policy, or governance controls."
  | APPROVAL_BYPASS_ATTEMPT => profile CRITICAL BLOCK
      "Action appears to weaken, bypass, or disable approval or audit controls."
  | UNKNOWN_OR_AMBIGUOUS => profile MEDIUM REQUIRE_APPROVAL
      "Action contains ambiguous or unsupported signals that require review."
  end.

(** ** Tables *)

Definition _READ_ONLY_COMMANDS : list string :=
  ["awk"; "cat"; "cut"; "find"; "git"; "grep"; "head"; "jq"; "less"; "ls"; "rg"; "sed"; "tail";
   "tree"; "wc"].

Definition _TEST_BUILD_COMMANDS : list string :=
  ["cargo"; "go"; "gradle"; "make"; "mvn"; "npm"; "pnpm"; "poetry"; "pytest"; "python"; "ruff";
   "tox"; "uv"; "yarn"].

Definition _NETWORK_COMMANDS : list string :=
  ["curl"; "ftp"; "gh"; "git"; "nc"; "netcat"; "nmap"; "scp"; "sftp"; "ssh"; "telnet"; "wget"].

Definition _DOWNLOAD_COMMANDS : list string :=
  ["curl"; "pip"; "poetry"; "pnpm"; "npm"; "uv"; "wget"; "yarn"].

Definition _DESTRUCTIVE_COMMANDS : list string :=
  ["dd"; "docker"; "git"; "kubectl"; "rm"; "rmdir"; "shred"; "terraform"].

Definition _SECRET_COMMANDS : list string :=
  ["env"; "gpg"; "openssl"; "pass"; "printenv"; "security"; "ssh"].

Definition _PRIVILEGE_COMMANDS : list string :=
  ["chmod"; "chown"; "doas"; "runas"; "setcap"; "su"; "sudo"].

Definition _DEPENDENCY_COMMANDS : list string :=
  ["bundle"; "cargo"; "composer"; "gem"; "go"; "gradle"; "mvn"; "npm"; "pip"; "pnpm"; "poetry";
   "uv"; "yarn"].

Definition _TEST_BUILD_SUBCOMMANDS : list string :=
  ["build"; "check"; "compile"; "fmt"; "format"; "lint"; "mypy"; "pytest"; "ruff"; "test";
   "typecheck"].

Definition _DEPENDENCY_SUBCOMMANDS : list string :=
  ["add"; "install"; "lock"; "remove"; "sync"; "update"; "upgrade"].

Definition _NETWORK_SUBCOMMANDS : list string :=
  ["clone"; "fetch"; "pull"; "push"; "remote"; "submodule"].

Definition _DESTRUCTIVE_SUBCOMMANDS : list string :=
  ["clean"; "delete"; "destroy"; "drop"; "prune"; "remove"; "rm"].

Definition _DEPENDENCY_FILE_NAMES : list string :=
  ["build.gradle"; "cargo.lock"; "cargo.toml"; "composer.json"; "composer.lock"; "gemfile";
   "gemfile.lock"; "go.mod"; "go.sum"; "gradle.lockfile"; "package-lock.json"; "package.json";
   "pipfile"; "pipfile.lock"; "pnpm-lock.yaml"; "poetry.lock"; "pom.xml"; "pubspec.lock";
   "pubspec.yaml"; "pyproject.toml"; "requirements.txt"; "uv.lock"; "yarn.lock"].

Definition _DEPENDENCY_NAME_PATTERNS : list string :=
  ["requirements-*.txt"; "requirements_*.txt"; "requirements*.in"; "requirements*.txt"].

Definition _CI_PATH_PATTERNS : list string :=
  [".circleci/*"; ".github/actions/*"; ".github/workflows/*"; ".gitlab-ci.yml";
   "azure-pipelines.yml"; "bitbucket-pipelines.yml"; "buildkite.yml"; "jenkinsfile"].

Definition _INFRA_PATH_PATTERNS : list string :=
  [".dockerignore"; "docker-compose*.yaml"; "docker-compose*.yml"; "dockerfile"; "helm/*";
   "k8s/*"; "kubernetes/*"; "terraform/*"; "*.tf"].

Definition _SECRET_PATH_PATTERNS : list string :=
  [".aws/*"; ".aws/credentials"; ".azure/*"; ".config/gcloud/*"; ".docker/config.json"; ".env";
   ".env.*"; ".gnupg/*"; ".netrc"; ".npmrc"; ".pypirc"; ".ssh/*"; ".ssh/config"; ".ssh/id_*";
   "*/.aws/*"; "*/.aws/credentials"; "*/.azure/*"; "*/.config/gcloud/*"; "*/.docker/config.json";
   "*/.env"; "*/.env.*"; "*/.gnupg/*"; "*/.netrc"; "*/.npmrc"; "*/.pypirc"; "*/.ssh/*"].

Definition _AUTH_SECURITY_PATH_SEGMENTS : list string :=
  ["auth"; "authentication"; "authorization"; "identity"; "iam"; "oauth"; "permission";
   "permissions"; "rbac"; "security"; "session"; "token"].

Definition _SOURCE_EXTENSIONS : list string :=
  [".c"; ".cc"; ".cpp"; ".cs"; ".css"; ".go"; ".html"; ".java"; ".js"; ".jsx"; ".kt"; ".mjs";
   ".php"; ".py"; ".rb"; ".rs"; ".scala"; ".swift"; ".ts"; ".tsx"].

Definition _DOC_EXTENSIONS : list string :=
  [".adoc"; ".md"; ".rst"; ".txt"].

Definition _DOC_FILE_NAMES : list string :=
  ["changelog"; "code_of_conduct"; "contributing"; "license"; "readme"; "security"].

(** ** Regular expressions *)

Definition white : regex := RChar is_space.
Definition not_newline : regex := RChar (fun c => negb (PyStr.code c =? 10)%N).

(** [\b(...)\b] *)
Definition word_bounded (l : list regex) : regex := rseqs [RWordB; ralts l; RWordB].

(** [first[_-]?second] *)
Definition hyphenated (first second : string) : regex :=
  rseqs [ilit first; dash_or_underscore; ilit second].

Definition _SECRET_LITERAL_RE : regex :=
  word_bounded
    [hyphenated "api" "key"; hyphenated "access" "token"; hyphenated "auth" "token";
     hyphenated "client" "secret"; ilit "password"; hyphenated "private" "key"; ilit "secret";
     RSeq (ilit "sk-") (rplus (RChar (fun c =>
       in_range 97 122 (PyStr.code (lower_char c)) || is_digit c || Ascii.eqb c "_" || Ascii.eqb c "-")))].

Definition _NETWORK_LITERAL_RE : regex :=
  RSeq RWordB
    (ralts [rseqs [ilit "http"; ropt (ichar "s"); ilit "://"]; ilit "ssh://"; ilit "git@";
            ilit "scp://"; ilit "ftp://"]).

Definition _APPROVAL_BYPASS_RE : regex :=
  word_bounded
    (List.map ilit ["bypass approval"; "skip approval"; "disable approval"; "auto approve";
       "self approval"; "approval bypass"; "disable audit"; "skip audit"; "audit bypass"; "fail open"]).

Definition _DESTRUCTIVE_LITERAL_RE : regex :=
  word_bounded
    [rseqs [ilit "rm"; rplus white; ilit "-"; RStar not_newline; ilit "r"; RStar not_newline; ilit "f"];
     rseqs [ilit "terraform"; rplus white; ilit "destroy"];
     rseqs [ilit "kubectl"; rplus white; ilit "delete"];
     rseqs [ilit "drop"; rplus white; ilit "database"];
     rseqs [ilit "truncate"; rplus white; ilit "table"]].

Definition octal : regex := RChar (fun c => in_range 48 55 (PyStr.code c)).

Definition _PRIVILEGE_ESCALATION_RE : regex :=
  word_bounded
    [ilit "sudo"; ilit "doas"; ilit "runas"; rseqs [ilit "su"; rplus white; ilit "-"];
     rseqs [ilit "chmod"; rplus white;
            ralts [ilit "+s"; rseqs [RStar octal; RChar (fun c => contains "467" (String c "")); octal; octal]]];
     rseqs [ilit "chown"; rplus white; ilit "root"]; ilit "setcap"; ilit "assume-role"; ilit "iam:passrole"].

Definition _ENCODED_EXECUTION_RE : regex :=
  rseqs
    [word_bounded
       [rseqs [ilit "base64"; rplus white; ralts [ilit "-d"; ilit "--decode"]];
        rseqs [ilit "xxd"; rplus white; ilit "-r"]; rseqs [ilit "openssl"; rplus white; ilit "enc"]];
     RStar not_newline;
     ralts [rseqs [ilit "|"; RStar white;
              ralts (List.map ilit ["sh"; "bash"; "zsh"; "python"; "perl"; "ruby"; "node"]); RWordB];
            RSeq (ilit "eval") RWordB; RSeq (ilit "exec") RWordB]].

Definition _DYNAMIC_EXECUTION_RE : regex :=
  word_bounded
    (List.map ilit ["eval"; "exec"; "os.system"; "subprocess."; "child_process."; "Runtime.getRuntime"]).

(** ** Paths *)

(** [while value.startswith("./"): value = value[2:]] *)
Fixpoint drop_dot_slash (value : string) : string :=
  match value with
  | String "." (String "/" rest) => drop_dot_slash rest
  | _ => value
  end.

Definition _normalize_path (raw_path : string) : string :=
  lstrip_by (Ascii.eqb slash) (drop_dot_slash (replace_char backslash slash (strip raw_path))).

Definition _path_name (path : string) : string :=
  lower (PurePosixPath.name (PurePosixPath.of_string path)).

Definition _extension (path : string) : string :=
  lower (PurePosixPath.suffix (PurePosixPath.of_string path)).

(** The non-empty pieces of [re.split(r"[^a-z0-9]+", s)]. *)
Definition lower_alnum (c : ascii) : bool := in_range 97 122 (PyStr.code c) || is_digit c.

Fixpoint blank_others (s : string) : string :=
  match s with
  | EmptyString => ""
  | String c s' => String (if lower_alnum c then c else " ") (blank_others s')
  end.

Definition alnum_tokens (s : string) : list string :=
  List.filter truthy (split_on " " (blank_others s)).

Definition _segments (path : string) : list string :=
  flat_map (fun part =>
    if mem part [""; "."] then [] else lower part :: alnum_tokens (lower part))
    (PurePosixPath.parts (PurePosixPath.of_string path)).

(** [PurePosixPath(path).match(pattern)]: component by component from the
    right; a rooted pattern must match every component. *)
Definition path_matches (path pattern : string) : bool :=
  let p := PurePosixPath.of_string pattern in
  let path_parts := List.rev (PurePosixPath.parts (PurePosixPath.of_string path)) in
  let pattern_parts := List.rev (PurePosixPath.parts p) in
  (if PurePosixPath.is_absolute p then List.length path_parts =? List.length pattern_parts
   else List.length pattern_parts <=? List.length path_parts)%nat
  && forallb (fun xy => fnmatch (fst xy) (snd xy)) (combine path_parts pattern_parts).

Definition _matches (path pattern : string) : bool :=
  let pattern := lower pattern in String.eqb path pattern || path_matches path pattern.

Definition _matches_any (path : string) (patterns : list string) : bool :=
  existsb (_matches path) patterns.

Definition _has_any_token (tokens expected : list string) : bool :=
  existsb (fun token => mem token expected) tokens.

Definition _has_any_segment (path : string) (segments : list string) : bool :=
  _has_any_token (_segments path) segments.

Definition _is_dependency_path (path : string) : bool :=
  let name := _path_name path in
  mem name _DEPENDENCY_FILE_NAMES || existsb (path_matches name) _DEPENDENCY_NAME_PATTERNS.

Definition _is_secret_like_path (path : string) : bool := _matches_any path _SECRET_PATH_PATTERNS.

(** [PurePosixPath(normalized).parts] without empty parts and dots. *)
Definition normalized_parts (path : string) : list string :=
  List.filter (fun part => negb (mem part [""; "."]))
    (PurePosixPath.parts (PurePosixPath.of_string (_normalize_path path))).

Definition document_roots : list string :=
  ["doc"; "docs"; "documentation"; "example"; "examples"; "sample"; "samples"].

Definition _AUDIT_APPROVAL_PATH_SEGMENTS : list string :=
  ["approval"; "approvals"; "audit"; "auditing"; "governance"; "policy"; "policies"].

Definition _is_audit_approval_control_path (path : string) (segments : list string) : bool :=
  if negb (_has_any_token segments _AUDIT_APPROVAL_PATH_SEGMENTS) then false
  else
    match normalized_parts path with
    | [] => false
    | first :: _ =>
        if mem first document_roots then false
        else if mem first [".github"; "config"; "configs"; "infra"; "k8s"; "policy"; "policies"; "scripts";
                           "src"; "terraform"] then true
        else mem (_extension (_normalize_path path))
               [".py"; ".js"; ".ts"; ".tsx"; ".jsx"; ".go"; ".rs"; ".java"; ".yaml"; ".yml"; ".toml"]
    end.

Definition _is_non_source_document_or_output_path (path : string) : bool :=
  match normalized_parts path with
  | [] => false
  | first :: _ =>
      mem first document_roots || mem (_extension (_normalize_path path)) [".md"; ".rst"; ".txt"]
  end.

Definition _is_source_path (path : string) : bool :=
  if _is_non_source_document_or_output_path path then false
  else
    let name := lower (PurePosixPath.stem (PurePosixPath.of_string path)) in
    mem (_extension path) _SOURCE_EXTENSIONS
    || (mem (_extension path) _DOC_EXTENSIONS && negb (mem name _DOC_FILE_NAMES)).

(** ** Commands *)

Definition _command_has_mutation_tokens (tokens : list string) : bool :=
  _has_any_token tokens
    [">"; ">>"; "--delete"; "--force"; "-d"; "-f"; "-i"; "-rf"; "-fr"; "apply"; "clean"; "delete";
     "destroy"; "fetch"; "install"; "merge"; "move"; "pull"; "push"; "rebase"; "reset"; "restore";
     "stash"; "switch"; "mv"; "patch"; "remove"; "rm"; "write"].

Definition _is_test_or_build_command (executable : string) (tokens : list string) : bool :=
  if mem executable ["pytest"; "ruff"; "tox"] then true
  else
    match tokens with
    | _ :: second :: third :: _ =>
        if String.eqb executable "python" && String.eqb second "-m"
        then mem third ["pytest"; "ruff"; "mypy"; "compileall"]
        else mem executable _TEST_BUILD_COMMANDS && _has_any_token (tl tokens) _TEST_BUILD_SUBCOMMANDS
    | _ => mem executable _TEST_BUILD_COMMANDS && _has_any_token (tl tokens) _TEST_BUILD_SUBCOMMANDS
    end.

Definition _is_dependency_command (executable : string) (tokens : list string) : bool :=
  mem executable _DEPENDENCY_COMMANDS && _has_any_token (tl tokens) _DEPENDENCY_SUBCOMMANDS.

Definition _is_network_command (executable : string) (tokens : list string) : bool :=
  if mem executable (List.filter (fun c => negb (String.eqb c "git")) _NETWORK_COMMANDS) then true
  else if String.eqb executable "git" then _has_any_token (tl tokens) _NETWORK_SUBCOMMANDS
  else false.

Definition _is_destructive_command (executable : string) (tokens : list string) (command_text : string)
    : bool :=
  if String.eqb executable "rm" then
    _has_any_token (tl tokens) ["-r"; "-f"; "-rf"; "-fr"; "--recursive"; "--force"]
  else if mem executable _DESTRUCTIVE_COMMANDS && _has_any_token (tl tokens) _DESTRUCTIVE_SUBCOMMANDS
  then true
  else search _DESTRUCTIVE_LITERAL_RE command_text.

(** ** Confidence *)

(** [1.0 - min(max(weight, 0.0), 1.0)] *)
Definition doubt (weight : pyfloat) : double :=
  dsub fone (Z.min (Z.max (double_of weight) 0) fone).

Definition doubts (weights : list pyfloat) : double :=
  fold_left (fun product weight => dmul product (doubt weight)) weights fone.

(** The result is [1.0] or a decimal of four digits; this is it times [10^4]. *)
Definition noisy_or_decimal (weights : list pyfloat) : Z :=
  let confidence := dsub fone (doubts weights) in
  if isclose confidence fone then 10000 else round_decimal confidence 4.

Definition _noisy_or (weights : list pyfloat) : pyfloat := decimal_float (noisy_or_decimal weights) 4.

(** ** Evidence *)

Definition bucket : Type := ActionIntentCode * list ActionIntentEvidence.

(** [buckets.setdefault(code, []).append(evidence)] *)
Fixpoint _add (buckets : list bucket) (c : ActionIntentCode) (e : ActionIntentEvidence) : list bucket :=
  match buckets with
  | [] => [(c, [e])]
  | (c', es) :: rest => if decide (c' = c) then (c', es ++ [e]) :: rest else (c', es) :: _add rest c e
  end.

Definition add_all (buckets : list bucket) (found : list (ActionIntentCode * ActionIntentEvidence))
    : list bucket :=
  fold_left (fun acc ce => _add acc (fst ce) (snd ce)) found buckets.

(** [if condition: _add(buckets, code, ActionIntentEvidence(...))]; the weight
    is a decimal of two digits. *)
Definition found_if (condition : bool) (c : ActionIntentCode) (source : ActionIntentEvidenceSource)
    (signal subject detail : string) (weight : Z) : list (ActionIntentCode * ActionIntentEvidence) :=
  if condition
  then [(c, mk_intent_evidence (source_value source) signal subject detail (decimal_float weight 2))]
  else [].

(** [PurePosixPath(normalized[0]).name.lower()] of the tokens that are not
    blank, stripped. *)
Definition stripped_tokens (command : list string) : list string :=
  List.filter truthy (List.map strip command).

Definition executable_of (normalized : list string) : string :=
  _path_name (default "" (head normalized)).

Definition command_evidence (executable : string) (lowered : list string) (command_text : string)
    : list (ActionIntentCode * ActionIntentEvidence) :=
  found_if (mem executable _READ_ONLY_COMMANDS && negb (_command_has_mutation_tokens lowered))
    READ_ONLY_INSPECTION COMMAND "read-only-command" executable
    "Command family is commonly used for inspection." 65
  ++ found_if (_is_test_or_build_command executable lowered) TEST_OR_BUILD COMMAND "test-build-command"
       executable "Command appears to run test, lint, format, or build validation." 80
  ++ found_if (_is_dependency_command executable lowered) DEPENDENCY_CHANGE COMMAND "dependency-command"
       executable "Package manager command can change dependency state." 85
  ++ found_if (_is_network_command executable lowered) NETWORK_ACCESS COMMAND "network-command"
       executable "Command family or subcommand can access remote systems." 80
  ++ found_if (mem executable _DOWNLOAD_COMMANDS
               && (mem executable ["curl"; "wget"] || _has_any_token lowered _DEPENDENCY_SUBCOMMANDS))
       EXTERNAL_DOWNLOAD COMMAND "external-download-command" executable
       "Command can download or install external content." 80
  ++ found_if (_is_destructive_command executable lowered command_text) FILESYSTEM_DESTRUCTIVE COMMAND
       "destructive-command" executable
       "Command can delete, destroy, prune, or irreversibly modify state." 95
  ++ found_if (mem executable _SECRET_COMMANDS || existsb _is_secret_like_path lowered)
       SECRET_OR_CREDENTIAL_ACCESS COMMAND "secret-access-command" executable
       "Command or argument references credential, secret, or environment material." 90
  ++ found_if (search _PRIVILEGE_ESCALATION_RE command_text || mem executable _PRIVILEGE_COMMANDS)
       PRIVILEGE_ESCALATION COMMAND "privilege-escalation-command" executable
       "Command can elevate privileges or modify privileged ownership/capabilities." 95
  ++ found_if (search _APPROVAL_BYPASS_RE command_text) APPROVAL_BYPASS_ATTEMPT COMMAND
       "approval-bypass-phrase" executable
       "Command text references bypassing approval or audit controls." 95
  ++ found_if (search _ENCODED_EXECUTION_RE command_text) APPROVAL_BYPASS_ATTEMPT COMMAND
       "encoded-execution-wrapper" executable
       "Command decodes or transforms content before dynamic execution." 95.

Definition signal_if (condition : bool) (signal : string) : list string :=
  if condition then [signal] else [].

Definition command_signals (executable : string) (lowered : list string) (command_text : string)
    : list string :=
  signal_if (search _ENCODED_EXECUTION_RE command_text) (executable +++ ":encoded-dynamic-execution")
  ++ signal_if (search _DYNAMIC_EXECUTION_RE command_text) (executable +++ ":dynamic-execution")
  ++ signal_if (mem executable ["bash"; "sh"; "zsh"; "python"; "python3"; "node"; "ruby"; "perl"]
                && _has_any_token lowered ["-c"; "--eval"; "-e"]) (executable +++ ":inline-execution").

(** What is added to the buckets, and the unknown signals. *)
Definition _collect_command_evidence (command : list string)
    : list (ActionIntentCode * ActionIntentEvidence) * list string :=
  match stripped_tokens command with
  | [] => ([], [])
  | normalized =>
      let executable := executable_of normalized in
      let lowered := List.map lower normalized in
      let command_text := str_join " " normalized in
      (command_evidence executable lowered command_text, command_signals executable lowered command_text)
  end.

Definition _collect_path_evidence (raw_path : string) : list (ActionIntentCode * ActionIntentEvidence) :=
  let path := _normalize_path raw_path in
  let lower_path := lower path in
  found_if (_is_secret_like_path lower_path) SECRET_OR_CREDENTIAL_ACCESS PATH "secret-sensitive-path" path
    "Path indicates credential, key, token, or environment material." 95
  ++ found_if (_is_dependency_path lower_path) DEPENDENCY_CHANGE PATH "dependency-path" path
       "Path is a dependency manifest, lockfile, or package manager file." 90
  ++ found_if (_matches_any lower_path _CI_PATH_PATTERNS) DEPLOYMENT_OR_CI_CHANGE PATH "ci-cd-path" path
       "Path is CI/CD workflow or pipeline configuration." 90
  ++ found_if (_matches_any lower_path _INFRA_PATH_PATTERNS) CONTAINER_OR_INFRA_CHANGE PATH
       "infra-container-path" path
       "Path is container, infrastructure, or deployment configuration." 90
  ++ found_if (_has_any_segment lower_path _AUTH_SECURITY_PATH_SEGMENTS) AUTH_OR_PERMISSION_CHANGE PATH
       "auth-security-path" path
       "Path indicates authentication, authorization, session, or permission code." 85
  ++ found_if (_is_audit_approval_control_path lower_path (_segments lower_path)) AUDIT_OR_APPROVAL_CHANGE
       PATH "audit-approval-policy-path" path
       "Path indicates audit, approval, governance, or policy controls." 85
  ++ found_if (_is_source_path lower_path) SOURCE_CODE_CHANGE PATH "source-code-path" path
       "Path is source code or executable application logic." 65.

Definition newline : string := String (ascii_of_N 10) "".

Definition _collect_diff_evidence (raw_path : string) (added_lines : list string)
    : list (ActionIntentCode * ActionIntentEvidence) :=
  let path := _normalize_path raw_path in
  let joined := str_join newline added_lines in
  if negb (truthy joined) then []
  else
    found_if (search _SECRET_LITERAL_RE joined) SECRET_OR_CREDENTIAL_ACCESS DIFF
      "secret-like-added-content" path
      "Added lines contain secret, token, password, or private key indicators." 90
    ++ found_if (search _NETWORK_LITERAL_RE joined) NETWORK_ACCESS DIFF "network-endpoint-added" path
         "Added lines reference external network endpoints or remote transports." 75
    ++ found_if (search _DESTRUCTIVE_LITERAL_RE joined) FILESYSTEM_DESTRUCTIVE DIFF
         "destructive-operation-added" path
         ("Added lines include destructive filesystem, database, " +++ "or infrastructure operations.") 90
    ++ found_if (search _APPROVAL_BYPASS_RE joined) APPROVAL_BYPASS_ATTEMPT DIFF
         "approval-bypass-content" path "Added lines reference bypassing approval or audit controls." 95
    ++ found_if (search _ENCODED_EXECUTION_RE joined) APPROVAL_BYPASS_ATTEMPT DIFF
         "encoded-execution-added" path
         "Added lines decode or transform content before dynamic execution." 95
    ++ found_if (search _ENCODED_EXECUTION_RE joined) UNKNOWN_OR_AMBIGUOUS DIFF
         "encoded-dynamic-execution-added" path "Added encoded dynamic execution requires review." 70
    ++ found_if (search _DYNAMIC_EXECUTION_RE joined) UNKNOWN_OR_AMBIGUOUS DIFF
         "dynamic-execution-added" path "Added dynamic execution primitive requires review." 70.

Definition _unknown_signal_evidence (unknown_signals : list string) : list ActionIntentEvidence :=
  List.map (fun signal =>
    mk_intent_evidence (source_value CONTEXT) "unknown-signal" signal
      "Signal could not be confidently mapped to a fully supported intent." (decimal_float 5 1))
    unknown_signals.

(** ** The report *)

Definition _build_intent (c : ActionIntentCode) (es : list ActionIntentEvidence) : t :=
  let profile := _INTENT_PROFILES c in
  mk c (p_severity profile) (_noisy_or (List.map ie_confidence_weight es)) (p_recommendation profile)
    (p_reason profile) es.

Record ActionIntentReport := report {
  intents : list t;
  unknown_signals : list string;
}.

(** [sorted(buckets.items(), key=lambda item: item[0].value)] *)
Definition sorted_buckets (buckets : list bucket) : list bucket :=
  sort_by (fun a b => String.leb (code_value (fst a)) (code_value (fst b))) buckets.

(** All that is added to the buckets, in order. *)
Definition found_evidence (command changed_paths : list string)
    (added_lines_by_path : list (string * list string)) : list (ActionIntentCode * ActionIntentEvidence) :=
  fst (_collect_command_evidence command)
  ++ flat_map _collect_path_evidence changed_paths
  ++ flat_map (fun pl => _collect_diff_evidence (fst pl) (snd pl)) added_lines_by_path.

Definition classify_action_intent (command changed_paths : list string)
    (added_lines_by_path : list (string * list string)) : ActionIntentReport :=
  let buckets := add_all [] (found_evidence command changed_paths added_lines_by_path) in
  let unknown := snd (_collect_command_evidence command) in
  let built := List.map (fun b => _build_intent (fst b) (snd b)) (sorted_buckets buckets) in
  report
    (match unknown with
     | [] => built
     | _ => built ++ [_build_intent UNKNOWN_OR_AMBIGUOUS (_unknown_signal_evidence unknown)]
     end) unknown.

Definition classify_command_intent (command : list string) : ActionIntentReport :=
  classify_action_intent command [] [].
Definition classify_path_intent (paths : list string) : ActionIntentReport :=
  classify_action_intent [] paths [].
Definition classify_diff_intent (added_lines_by_path : list (string * list string)) : ActionIntentReport :=
  classify_action_intent [] [] added_lines_by_path.

(** *** Properties of the report *)

(** Python's [max]: the first of the largest. *)
Definition max_by {A} (lt : A -> A -> bool) (l : list A) : option A :=
  match l with
  | [] => None
  | x :: rest => Some (fold_left (fun best y => if lt best y then y else best) rest x)
  end.

(** [<] on [(severity, recommendation, confidence, code)]. *)
Definition intent_key_lt (a b : t) : bool :=
  let sa := _SEVERITY_ORDER (severity a) in let sb := _SEVERITY_ORDER (severity b) in
  let ra := _RECOMMENDATION_ORDER (recommendation a) in
  let rb := _RECOMMENDATION_ORDER (recommendation b) in
  let ca := double_of (confidence a) in let cb := double_of (confidence b) in
  if (sa =? sb)%Z then
    if (ra =? rb)%Z then
      if (ca =? cb)%Z then String.ltb (code_value (code a)) (code_value (code b)) else (ca <? cb)%Z
    else (ra <? rb)%Z
  else (sa <? sb)%Z.

Definition primary_intent (r : ActionIntentReport) : option t := max_by intent_key_lt (intents r).

Definition max_severity (r : ActionIntentReport) : RiskLevel :=
  match primary_intent r with Some i => severity i | None => LOW end.

Definition recommended_action (r : ActionIntentReport) : ActionIntentRecommendation :=
  default ALLOW
    (max_by (fun a b => (_RECOMMENDATION_ORDER a <? _RECOMMENDATION_ORDER b)%Z)
       (List.map recommendation (intents r))).

Definition intent_codes (r : ActionIntentReport) : list string :=
  List.map (fun i => code_value (code i)) (intents r).

Definition dump_evidence (e : ActionIntentEvidence) : pyval :=
  of_dict [("source", PStr (ie_source e)); ("signal", PStr (ie_signal e));
           ("subject", PStr (ie_subject e)); ("detail", PStr (ie_detail e));
           ("confidence_weight", of_float (ie_confidence_weight e))].

Definition to_audit_metadata (r : ActionIntentReport) : pydict :=
  [("intent_codes", PTuple (List.map PStr (intent_codes r)));
   ("max_severity", PStr (risk_value (max_severity r)));
   ("recommended_action", PStr (recommendation_value (recommended_action r)));
   ("unknown_signals", PTuple (List.map PStr (unknown_signals r)));
   ("intents", PTuple (List.map (fun i =>
      of_dict [("code", PStr (code_value (code i))); ("severity", PStr (risk_value (severity i)));
               ("confidence", of_float (confidence i));
               ("recommendation", PStr (recommendation_value (recommendation i)));
               ("reason", PStr (reason i)); ("evidence", PTuple (List.map dump_evidence (evidence i)))])
      (intents r)))].

(** ** The classifier of [ChangeRisk] *)

(** [_action_intent_reasons_for_patch] passes paths and added lines. *)
Definition as_seen (i : t) : ActionIntent :=
  mk_intent (code_value (code i)) (severity i) (confidence i) (recommendation_value (recommendation i))
    (reason i) (evidence i).

Definition with_classifier (sources : RiskSources) : RiskSources := {|
  _baseline_file_size := @_baseline_file_size sources;
  _workspace_file_size := @_workspace_file_size sources;
  _read_baseline_file_text := @_read_baseline_file_text sources;
  _read_workspace_file_text := @_read_workspace_file_text sources;
  toml_keys := @toml_keys sources;
  evaluate_criticality := @evaluate_criticality sources;
  ChangeRisk.classify_action_intent := fun paths added =>
    List.map as_seen (intents (classify_action_intent [] paths added));
|}.

(** ** Lemmas: confidence *)

Lemma doubt_range w : (0 <= doubt w <= fone)%Z.
Proof. unfold doubt. apply dsub_one_range. assert (0 <= fone)%Z by done. lia. Qed.

Lemma doubts_snoc ws w : doubts (ws ++ [w]) = dmul (doubts ws) (doubt w).
Proof. unfold doubts. by rewrite fold_left_app. Qed.

Lemma doubts_range ws : is_double (doubts ws) /\ (0 <= doubts ws <= fone)%Z.
Proof.
  induction ws as [|w ws [Hd [H1 H2]]] using rev_ind; [split; [apply one_double|done]|].
  rewrite doubts_snoc. pose proof (doubt_range w) as Hw.
  assert (Hm : is_double (dmul (doubts ws) (doubt w))) by (apply dmul_double; [done|apply Hw]).
  split; [done|]. split; [apply Hm|]. etrans; [by apply dmul_le|done].
Qed.

(** One more piece of evidence never lowers the doubt's complement. *)
Lemma noisy_or_grows ws w : (noisy_or_decimal ws <= noisy_or_decimal (ws ++ [w]))%Z.
Proof.
  unfold noisy_or_decimal. cbv zeta. destruct (doubts_range ws) as [Hd H].
  destruct (doubts_range (ws ++ [w])) as [_ H'].
  assert (Hle : (doubts (ws ++ [w]) <= doubts ws)%Z).
  { rewrite doubts_snoc. by apply dmul_le, doubt_range. }
  assert (Hc : (dsub fone (doubts ws) <= dsub fone (doubts (ws ++ [w])))%Z) by (apply dsub_mono; lia).
  pose proof (dsub_one_range _ H) as R. pose proof (dsub_one_range _ H') as R'.
  destruct (isclose (dsub fone (doubts ws)) fone) eqn:E.
  - rewrite (isclose_mono (dsub fone (doubts ws)) (dsub fone (doubts (ws ++ [w]))) fone);
      [done|apply R|split; [done|apply R']|done].
  - destruct (isclose (dsub fone (doubts (ws ++ [w]))) fone).
    + apply (round_decimal_le_one _ 4); [done|lia].
    + by apply round_decimal_mono.
Qed.

Lemma noisy_or_range ws : (0 <= noisy_or_decimal ws <= 10000)%Z.
Proof.
  unfold noisy_or_decimal. cbv zeta. destruct (doubts_range ws) as [_ H].
  destruct (isclose _ _); [done|]. apply (round_decimal_le_one _ 4); [done|]. by apply dsub_one_range.
Qed.

Lemma noisy_or_value ws : double_of (_noisy_or ws) = of_decimal (noisy_or_decimal ws) 4.
Proof. apply double_of_decimal; [apply noisy_or_range|done]. Qed.

(** ** Lemmas: buckets *)

Definition evidence_of (c : ActionIntentCode) (found : list (ActionIntentCode * ActionIntentEvidence))
    : list ActionIntentEvidence :=
  List.map snd (List.filter (fun ce => bool_decide (fst ce = c)) found).

Fixpoint bucket_of (buckets : list bucket) (c : ActionIntentCode) : list ActionIntentEvidence :=
  match buckets with
  | [] => []
  | (c', es) :: rest => if decide (c' = c) then es else bucket_of rest c
  end.

Lemma bucket_of_add bs c e c' :
  bucket_of (_add bs c e) c' = bucket_of bs c' ++ (if decide (c = c') then [e] else []).
Proof.
  induction bs as [|[k es] bs IH]; cbn; [by destruct (decide (c = c'))|].
  destruct (decide (k = c)) as [->|Hk]; cbn.
  - destruct (decide (c = c')) as [->|]; [done|]. by rewrite app_nil_r.
  - rewrite IH. destruct (decide (k = c')) as [->|]; [|done].
    by rewrite decide_False, app_nil_r by congruence.
Qed.

Lemma keys_add bs c e k : k ∈ (_add bs c e).*1 <-> k = c \/ k ∈ bs.*1.
Proof.
  induction bs as [|[k' es] bs IH]; cbn; [by rewrite list_elem_of_singleton, elem_of_nil; naive_solver|].
  destruct (decide (k' = c)) as [->|Hk]; cbn; rewrite !elem_of_cons; [naive_solver|].
  rewrite IH. naive_solver.
Qed.

Lemma keys_add_NoDup bs c e : NoDup (bs.*1) -> NoDup ((_add bs c e).*1).
Proof.
  induction bs as [|[k' es] bs IH]; cbn; [intros _; apply NoDup_singleton|].
  destruct (decide (k' = c)) as [->|Hk]; cbn; [done|]. rewrite !NoDup_cons, keys_add. naive_solver.
Qed.

Lemma evidence_of_snoc c found ce :
  evidence_of c (found ++ [ce]) = evidence_of c found ++ (if decide (fst ce = c) then [snd ce] else []).
Proof.
  unfold evidence_of. rewrite List.filter_app, List.map_app. cbn.
  by destruct (decide (fst ce = c)); [rewrite bool_decide_eq_true_2|rewrite bool_decide_eq_false_2].
Qed.

Lemma add_all_spec found :
  NoDup ((add_all [] found).*1) /\
  (forall c, bucket_of (add_all [] found) c = evidence_of c found) /\
  (forall c, c ∈ (add_all [] found).*1 <-> evidence_of c found <> []).
Proof.
  induction found as [|ce found (H1 & H2 & H3)] using rev_ind.
  { split_and!; [constructor|done|]. intros c. cbn. rewrite elem_of_nil. naive_solver. }
  unfold add_all in *. rewrite fold_left_app. cbn [fold_left]. split_and!.
  - by apply keys_add_NoDup.
  - intros c. by rewrite bucket_of_add, H2, evidence_of_snoc.
  - intros c. rewrite keys_add, H3, evidence_of_snoc. destruct (decide (fst ce = c)) as [->|Hne].
    + split; [by destruct (evidence_of c found)|auto].
    + rewrite app_nil_r. naive_solver.
Qed.

Lemma elem_of_buckets bs c es : NoDup (bs.*1) ->
  (c, es) ∈ bs <-> c ∈ bs.*1 /\ es = bucket_of bs c.
Proof.
  induction bs as [|[k l] bs IH]; cbn; [rewrite !elem_of_nil; naive_solver|].
  rewrite NoDup_cons, !elem_of_cons. intros [Hk Hn]. rewrite (IH Hn).
  destruct (decide (k = c)) as [->|Hne]; naive_solver.
Qed.

Lemma elem_of_opt_snoc {A B} (i x : A) built (us : list B) P : (i ∈ built <-> P) ->
  i ∈ match us with [] => built | _ => built ++ [x] end <-> P \/ (us <> [] /\ i = x).
Proof. intros H. destruct us; [naive_solver|]. rewrite elem_of_app, list_elem_of_singleton. naive_solver. Qed.

Lemma elem_of_intents command paths added i :
  let found := found_evidence command paths added in
  let unknown := snd (_collect_command_evidence command) in
  i ∈ intents (classify_action_intent command paths added) <->
  (exists c, evidence_of c found <> [] /\ i = _build_intent c (evidence_of c found)) \/
  (unknown <> [] /\ i = _build_intent UNKNOWN_OR_AMBIGUOUS (_unknown_signal_evidence unknown)).
Proof.
  intros found unknown. destruct (add_all_spec found) as (Hn & Hb & Hk).
  assert (Hbuilt : i ∈ List.map (fun b => _build_intent (fst b) (snd b)) (sorted_buckets (add_all [] found))
    <-> exists c, evidence_of c found <> [] /\ i = _build_intent c (evidence_of c found)).
  { rewrite list_elem_of_fmap. setoid_rewrite (sort_by_perm _ _). split.
    - intros ([c es] & -> & [Hc ->]%elem_of_buckets); [|done]. exists c. by rewrite <- Hk, Hb.
    - intros (c & Hc & ->). exists (c, evidence_of c found). split; [done|].
      apply elem_of_buckets; [done|]. by rewrite Hk, Hb. }
  by apply elem_of_opt_snoc.
Qed.

(** ** Lemmas: the largest intent *)

Lemma max_by_ge {A} (f : A -> Z) lt (l : list A) m :
  (forall a b, lt a b = true -> (f a <= f b)%Z) -> (forall a b, lt a b = false -> (f b <= f a)%Z) ->
  max_by lt l = Some m -> m ∈ l /\ forall x, x ∈ l -> (f x <= f m)%Z.
Proof.
  intros Ht Hf. destruct l as [|x0 l]; [done|]. cbn. intros [= <-].
  enough (H : forall best, let m := fold_left (fun best y => if lt best y then y else best) l best in
    (m = best \/ m ∈ l) /\ (f best <= f m)%Z /\ forall x, x ∈ l -> (f x <= f m)%Z).
  { destruct (H x0) as (Hm & Hb & Hx). rewrite elem_of_cons. split; [naive_solver|].
    intros x [->|Hin]%elem_of_cons; auto. }
  induction l as [|y l IH]; intros best; cbn.
  { split_and!; [by left|lia|by intros x ?%elem_of_nil]. }
  destruct (IH (if lt best y then y else best)) as (Hm & Hb & Hx). cbv zeta in *.
  assert (Hstep : (f best <= f (if lt best y then y else best))%Z /\
                  (f y <= f (if lt best y then y else best))%Z).
  { destruct (lt best y) eqn:E; [by split; [apply Ht|]|split; [done|by apply Hf]]. }
  destruct Hstep as [S1 S2]. split_and!.
  - rewrite elem_of_cons. destruct Hm as [->|Hm]; [|auto]. destruct (lt best y); auto.
  - lia.
  - intros x [->|Hin]%elem_of_cons; [lia|auto].
Qed.

Lemma max_by_Some {A} lt (l : list A) : l <> [] -> exists m, max_by lt l = Some m.
Proof. destruct l; [done|]. by eexists. Qed.

Lemma intent_key_lt_severity a b :
  (intent_key_lt a b = true -> _SEVERITY_ORDER (severity a) <= _SEVERITY_ORDER (severity b))%Z /\
  (intent_key_lt a b = false -> _SEVERITY_ORDER (severity b) <= _SEVERITY_ORDER (severity a))%Z.
Proof.
  unfold intent_key_lt. cbv zeta.
  destruct (Z.eqb_spec (_SEVERITY_ORDER (severity a)) (_SEVERITY_ORDER (severity b))) as [->|]; [done|].
  rewrite Z.ltb_lt, Z.ltb_ge. lia.
Qed.

(** The severity of a report is the largest of its intents, [LOW] without one. *)
Lemma max_severity_spec r :
  (forall i, i ∈ intents r -> (_SEVERITY_ORDER (severity i) <= _SEVERITY_ORDER (max_severity r))%Z) /\
  (max_severity r = LOW \/ exists i, i ∈ intents r /\ max_severity r = severity i).
Proof.
  unfold max_severity, primary_intent. destruct (max_by intent_key_lt (intents r)) as [m|] eqn:E.
  - apply (max_by_ge (fun i => _SEVERITY_ORDER (severity i))) in E as [Hm Hx];
      [|intros a b; apply intent_key_lt_severity..]. split; [done|]. right. eauto.
  - split; [|by left]. by destruct (intents r); [intros i ?%elem_of_nil|].
Qed.

Lemma recommended_action_spec r :
  (forall i, i ∈ intents r ->
     (_RECOMMENDATION_ORDER (recommendation i) <= _RECOMMENDATION_ORDER (recommended_action r))%Z) /\
  (recommended_action r = ALLOW \/ exists i, i ∈ intents r /\ recommended_action r = recommendation i).
Proof.
  unfold recommended_action. destruct (max_by _ _) as [m|] eqn:E; cbn.
  - apply (max_by_ge _RECOMMENDATION_ORDER) in E as [Hm Hx].
    + apply list_elem_of_fmap in Hm as (i & -> & Hi). split; [|right; eauto].
      intros j Hj. by apply Hx, list_elem_of_fmap_2.
    + intros a b ?%Z.ltb_lt. lia.
    + intros a b ?%Z.ltb_ge. lia.
  - split; [|by left]. by destruct (intents r); [intros i ?%elem_of_nil|].
Qed.

Lemma evidence_of_ne c found : evidence_of c found <> [] <-> exists e, (c, e) ∈ found.
Proof.
  unfold evidence_of. split.
  - intros H. destruct (List.filter _ found) as [|[c' e] l] eqn:E; [done|].
    assert (Hin : In (c', e) (List.filter (fun ce => bool_decide (fst ce = c)) found))
      by (rewrite E; by left).
    apply filter_In in Hin as [Hin Hc%bool_decide_eq_true]. cbn in Hc. subst. exists e.
    by apply list_elem_of_In.
  - intros (e & Hin%list_elem_of_In) Hnil.
    assert (Hf : In (c, e) (List.filter (fun ce => bool_decide (fst ce = c)) found))
      by (apply filter_In; split; [done|by apply bool_decide_eq_true]).
    apply (in_map snd) in Hf. by rewrite Hnil in Hf.
Qed.

(** The codes of a report decide its severity and its recommendation. *)
Lemma intents_mono command paths added paths' added' i :
  (forall p, p ∈ paths -> p ∈ paths') -> (forall pl, pl ∈ added -> pl ∈ added') ->
  i ∈ intents (classify_action_intent command paths added) ->
  exists j, j ∈ intents (classify_action_intent command paths' added') /\
    severity j = severity i /\ recommendation j = recommendation i.
Proof.
  intros Hp Ha Hi. apply elem_of_intents in Hi as [(c & [e He]%evidence_of_ne & ->)|[Hu ->]].
  - exists (_build_intent c (evidence_of c (found_evidence command paths' added'))).
    split; [|done]. apply elem_of_intents. left. exists c. split; [|done].
    apply evidence_of_ne. exists e. unfold found_evidence in *. rewrite !elem_of_app in *.
    rewrite !list_elem_of_In, !in_flat_map in *. setoid_rewrite <- list_elem_of_In.
    setoid_rewrite <- list_elem_of_In in He. naive_solver.
  - eexists. split; [apply elem_of_intents; right; split; [exact Hu|reflexivity]|done].
Qed.

Lemma reasons_of_intents i (l : list t) : i ∈ l -> severity i = CRITICAL ->
  exists x, x ∈ _action_intent_report_reasons (List.map as_seen l) /\
    ChangeRiskReason.risk_level x = CRITICAL.
Proof.
  intros Hi Hs. unfold _action_intent_report_reasons. eexists. split.
  - apply list_elem_of_In, in_flat_map. exists (as_seen i). split.
    + by apply in_map, list_elem_of_In.
    + cbn [as_seen in_severity]. rewrite Hs. cbn. left. reflexivity.
  - reflexivity.
Qed.

(** ** Theorems *)

(** C36 Confidence is a probability: the confidence of every intent lies
    between 0 and 1, whatever evidence there is, and one more piece of
    evidence never lowers it. *)
Theorem confidence_is_a_probability :
  (forall command paths added i, i ∈ intents (classify_action_intent command paths added) ->
     (0 <= double_of (confidence i) <= fone)%Z) /\
  (forall weights w,
     (double_of (_noisy_or weights) <= double_of (_noisy_or (weights ++ [w])))%Z).
Proof.
  split.
  - intros command paths added i Hi.
    assert (exists ws, confidence i = _noisy_or ws) as [ws ->].
    { apply elem_of_intents in Hi as [(c & _ & ->)|[_ ->]]; by eexists. }
    rewrite noisy_or_value. apply unit_decimal; [done|]. apply noisy_or_range.
  - intros ws w. rewrite !noisy_or_value. pose proof (noisy_or_range ws). pose proof (noisy_or_grows ws w).
    apply of_decimal_mono; lia.
Qed.

(** A report holds an intent for exactly the codes that some evidence
    supports, with all the evidence for the code in the order it was found,
    and an ambiguous intent for the unknown signals if there are any;
    severity, recommendation and reason are those of the code. *)
Theorem intents_collect_the_evidence command paths added i :
  let found := found_evidence command paths added in
  let unknown := snd (_collect_command_evidence command) in
  i ∈ intents (classify_action_intent command paths added) <->
  exists c es,
    i = mk c (p_severity (_INTENT_PROFILES c)) (_noisy_or (List.map ie_confidence_weight es))
          (p_recommendation (_INTENT_PROFILES c)) (p_reason (_INTENT_PROFILES c)) es /\
    es <> [] /\
    ((es = evidence_of c found) \/
     (c = UNKNOWN_OR_AMBIGUOUS /\ es = _unknown_signal_evidence unknown)).
Proof.
  cbv zeta. rewrite elem_of_intents. cbv zeta. split.
  - intros [(c & Hc & ->)|[Hu ->]]; eexists _, _; (split; [reflexivity|]); [auto|].
    split; [|by right]. by destruct (snd (_collect_command_evidence command)).
  - intros (c & es & -> & Hne & [->|[-> ->]]); [left; by exists c|right].
    split; [|done]. by intros Hx; rewrite Hx in Hne.
Qed.

(** Doing more is never safer: with more changed paths or more added
    lines, the severity of the report and the recommended action stay or grow. *)
Theorem doing_more_is_never_safer command paths added paths' added' :
  (forall p, p ∈ paths -> p ∈ paths') -> (forall pl, pl ∈ added -> pl ∈ added') ->
  let r := classify_action_intent command paths added in
  let r' := classify_action_intent command paths' added' in
  (_SEVERITY_ORDER (max_severity r) <= _SEVERITY_ORDER (max_severity r'))%Z /\
  (_RECOMMENDATION_ORDER (recommended_action r) <= _RECOMMENDATION_ORDER (recommended_action r'))%Z.
Proof.
  intros Hp Ha. cbv zeta. split.
  - destruct (max_severity_spec (classify_action_intent command paths added)) as [_ [->|(i & Hi & ->)]].
    + by destruct (max_severity (classify_action_intent command paths' added')).
    + apply (intents_mono _ _ _ _ _ _ Hp Ha) in Hi as (j & Hj & <- & _). by apply max_severity_spec.
  - destruct (recommended_action_spec (classify_action_intent command paths added))
      as [_ [->|(i & Hi & ->)]].
    + by destruct (recommended_action (classify_action_intent command paths' added')).
    + apply (intents_mono _ _ _ _ _ _ Hp Ha) in Hi as (j & Hj & _ & <-). by apply recommended_action_spec.
Qed.

(** A patch that changes a file with a secret-like path is blocked before
    it is applied, whatever the change is: with the classifier of this file,
    the report of the patch has a critical reason and the gate blocks. *)
Theorem secret_path_is_blocked (sources : RiskSources) d vr policy report f :
  @classify_patch_risk (with_classifier sources) d vr policy = Ok report ->
  f ∈ PatchDiff.files d -> _is_secret_like_path (lower (_normalize_path (PatchFileDiff.path f))) = true ->
  GuardedChangeGateDecision.blocked (gate_of_report report) = true.
Proof.
  intros Hc Hf Hs. apply blocked_gate_of.
  apply classify_patch_risk_Ok in Hc as (added & _ & _ & Hr & _).
  set (paths := List.map PatchFileDiff.path (PatchDiff.files d)) in *.
  set (e := mk_intent_evidence (source_value PATH) "secret-sensitive-path"
    (_normalize_path (PatchFileDiff.path f))
    "Path indicates credential, key, token, or environment material." (decimal_float 95 2)).
  assert (Hev : evidence_of SECRET_OR_CREDENTIAL_ACCESS (found_evidence [] paths added) <> []).
  { apply evidence_of_ne. exists e. unfold found_evidence. rewrite !elem_of_app. right. left.
    apply list_elem_of_In, in_flat_map. exists (PatchFileDiff.path f).
    split; [by apply in_map, list_elem_of_In|]. unfold _collect_path_evidence. rewrite Hs.
    apply in_or_app. left. by left. }
  destruct (reasons_of_intents
    (_build_intent SECRET_OR_CREDENTIAL_ACCESS
       (evidence_of SECRET_OR_CREDENTIAL_ACCESS (found_evidence [] paths added)))
    (intents (classify_action_intent [] paths added))) as (x & Hx & Hl);
    [apply elem_of_intents; left; by eexists|reflexivity|].
  exists x. split; [|done]. unfold all_reasons. rewrite Hr, !elem_of_app. auto.
Qed.
End Intent.

(** *** Witnesses *)

Lemma doing_more_witness :
  (forall p : string, p ∈ ["docs/a.md"] -> p ∈ ["docs/a.md"; "home/.ssh/id_rsa"]) /\
  (Intent._SEVERITY_ORDER (Intent.max_severity (Intent.classify_path_intent ["docs/a.md"]))
   <= Intent._SEVERITY_ORDER (Intent.max_severity
        (Intent.classify_path_intent ["docs/a.md"; "home/.ssh/id_rsa"])))%Z /\
  Intent.max_severity (Intent.classify_path_intent ["docs/a.md"; "home/.ssh/id_rsa"]) = CRITICAL.
Proof.
  assert (H : forall p : string, p ∈ ["docs/a.md"] -> p ∈ ["docs/a.md"; "home/.ssh/id_rsa"]).
  { intros p ->%list_elem_of_singleton. left. }
  split; [exact H|]. split; [|vm_compute; reflexivity].
  exact (proj1 (Intent.doing_more_is_never_safer [] ["docs/a.md"] [] ["docs/a.md"; "home/.ssh/id_rsa"] []
    H (fun _ Hx => Hx))).
Defined.

Definition env_patch : PatchDiff.t :=
  PatchDiff.mk "/w" "abc" (patch_text (section_lines (docs_section ["x"]))) "d1gest" 120
    [PatchFileDiff.mk "services/.env" MODIFIED (Some 1%Z) (Some 0%Z) false None (Some "100644") (Some "100644") false] [].

Lemma secret_path_witness :
  exists report,
    @classify_patch_risk (Intent.with_classifier example_sources) env_patch [] DEFAULT_DIFF_LIMIT_POLICY
      = Ok report /\
    GuardedChangeGateDecision.blocked (gate_of_report report) = true.
Proof.
  destruct (@classify_patch_risk (Intent.with_classifier example_sources) env_patch []
    DEFAULT_DIFF_LIMIT_POLICY) as [report|e] eqn:E; [|exfalso; vm_compute in E; discriminate E].
  exists report. split; [reflexivity|].
  apply (Intent.secret_path_is_blocked example_sources env_patch [] DEFAULT_DIFF_LIMIT_POLICY report _ E
    (list_elem_of_here _ _)). vm_compute. reflexivity.
Defined.

(** ** Defects *)

(** For [rm] only the listed spellings of its options count, and the pattern
    that would find others is not tried: a forced recursive removal whose
    options are written together in another order has no intent at all. *)
Lemma rm_rvf_has_no_intent :
  Intent.intents (Intent.classify_command_intent ["rm"; "-rvf"; "/"]) = [] /\
  search Intent._DESTRUCTIVE_LITERAL_RE "rm -rvf /" = true /\
  Intent.recommended_action (Intent.classify_command_intent ["rm"; "-rf"; "/"]) = Intent.BLOCK.
Proof. split_and!; vm_compute; reflexivity. Qed.
