(* ===== verification/Url.v ===== *)
(** * URLs and IP addresses

    The parts of [urllib.parse.urlsplit] and of [ipaddress] the sources use:
    the scheme and the host name of a URL, and the address classes of a host.
    On them, the URL checks of security.py ([validate_http_url]) and of
    risk_engine.py ([extract_urls], [classify_risky_destination]).  The
    address tables are those of Python 3.11, the version the project runs on. *)

From S2P Require Export Regex Security.

Local Open Scope string_scope.
Local Open Scope list_scope.
Local Open Scope py_scope.

(** ** Definitions *)

Definition value_error (text : string) : exn := mk_exn ValueError "ValueError" text.

(** *** Text *)

(** [s.partition(sep)]; the flag tells whether [sep] was found. *)
Fixpoint partition_char (sep : ascii) (s : string) : string * bool * string :=
  match s with
  | EmptyString => ("", false, "")
  | String c s' =>
      if Ascii.eqb c sep then ("", true, s')
      else let '(a, found, b) := partition_char sep s' in (String c a, found, b)
  end.

(** [s.rpartition(sep)[2]] *)
Definition after_last (sep : ascii) (s : string) : string := default s (last (split_on sep s)).

Fixpoint all_chars (p : ascii -> bool) (s : string) : bool :=
  match s with EmptyString => true | String c s' => p c && all_chars p s' end.

Fixpoint keep_chars (p : ascii -> bool) (s : string) : string :=
  match s with
  | EmptyString => EmptyString
  | String c s' => if p c then String c (keep_chars p s') else keep_chars p s'
  end.

(** The longest prefix whose characters satisfy [p]. *)
Fixpoint take_while (p : ascii -> bool) (s : string) : string :=
  match s with
  | EmptyString => EmptyString
  | String c s' => if p c then String c (take_while p s') else EmptyString
  end.

Definition is_hex (c : ascii) : bool :=
  is_digit c || in_range 65 70 (code c) || in_range 97 102 (code c).

Definition digit_value (c : ascii) : Z :=
  let n := Z.of_N (code c) in
  (if is_digit c then n - 48 else if n <=? 70 then n - 55 else n - 87)%Z.

(** [int(s, base)] of digits. *)
Fixpoint digits_value (base acc : Z) (s : string) : Z :=
  match s with
  | EmptyString => acc
  | String c s' => digits_value base (acc * base + digit_value c)%Z s'
  end.

(** *** Addresses *)

Inductive ip := V4 (n : Z) | V6 (n : Z).

#[export] Instance ip_eq_dec : EqDecision ip.
Proof. solve_decision. Defined.

Definition parse_octet (s : string) : option Z :=
  let n := digits_value 10 0 s in
  if truthy s && all_chars is_digit s && (String.length s <=? 3)%nat
     && (String.eqb s "0" || negb (startswith s "0")) && (n <=? 255)%Z
  then Some n else None.

Definition parse_ipv4 (s : string) : option Z :=
  match split_on "." s with
  | [s1; s2; s3; s4] =>
      a ← parse_octet s1; b ← parse_octet s2; c ← parse_octet s3; d ← parse_octet s4;
      Some (((a * 256 + b) * 256 + c) * 256 + d)%Z
  | _ => None
  end.

(** A part of an IPv6 address between two colons. *)
Inductive hextet := Blank | Bad | Hex (n : Z).

#[export] Instance hextet_eq_dec : EqDecision hextet.
Proof. solve_decision. Defined.

Definition parse_hextet (s : string) : hextet :=
  if negb (truthy s) then Blank
  else if all_chars is_hex s && (String.length s <=? 4)%nat then Hex (digits_value 16 0 s)
  else Bad.

Fixpoint hextets_value (acc : Z) (l : list hextet) : option Z :=
  match l with
  | [] => Some acc
  | Hex n :: l' => hextets_value (acc * 65536 + n)%Z l'
  | _ => None
  end.

(** The parts; a dotted last part counts as two. *)
Definition ipv6_parts (s : string) : option (list hextet) :=
  let texts := split_on ":" s in
  let final := default "" (last texts) in
  if (List.length texts <? 3)%nat then None
  else if contains final "." then
    n ← parse_ipv4 final;
    Some (List.map parse_hextet (removelast texts) ++ [Hex (n / 65536)%Z; Hex (n mod 65536)%Z])
  else Some (List.map parse_hextet texts).

(** What a blank at the edge leaves: it must belong to the [::]. *)
Definition edge (l : list hextet) (blank : bool) : option (list hextet) :=
  if blank then (match l with [_] => Some [] | _ => None end) else Some l.

Definition parse_ipv6_value (s : string) : option Z :=
  parts ← ipv6_parts s;
  let n := List.length parts in
  let is_blank i := bool_decide (parts !! i = Some Blank) in
  if (9 <? n)%nat then None
  else
    match List.filter is_blank (seq 1 (n - 2)) with
    | [] => if (n =? 8)%nat then hextets_value 0 parts else None
    | [i] =>
        hi ← edge (firstn i parts) (is_blank 0%nat);
        lo ← edge (skipn (S i) parts) (is_blank (n - 1)%nat);
        let skipped := (8 - (Z.of_nat (List.length hi) + Z.of_nat (List.length lo)))%Z in
        if (skipped <? 1)%Z then None
        else
          high ← hextets_value 0 hi;
          hextets_value (high * 65536 ^ skipped)%Z lo
    | _ => None
    end.

(** With the check of the zone of [IPv6Address._split_scope_id]. *)
Definition parse_ipv6 (s : string) : option Z :=
  let '(address, scoped, zone) := partition_char "%" s in
  if contains s "/" then None
  else if scoped && (negb (truthy zone) || contains zone "%") then None
  else parse_ipv6_value address.

(** [ipaddress.ip_address(s)]; [None] is its [ValueError]. *)
Definition ip_address (s : string) : option ip :=
  match parse_ipv4 s with
  | Some n => Some (V4 n)
  | None => V6 <$> parse_ipv6 s
  end.

(** [address in network] for the first address of the network and its length. *)
Definition in_network (bits n : Z) (network : Z * Z) : bool :=
  (Z.shiftr n (bits - snd network) =? Z.shiftr (fst network) (bits - snd network))%Z.

Definition quad (a b c d : Z)   : Z := (((a * 256 + b) * 256 + c) * 256 + d)%Z.

Definition PRIVATE_V4 : list (Z * Z) :=
  [(quad 0 0 0 0, 8); (quad 10 0 0 0, 8); (quad 127 0 0 0, 8); (quad 169 254 0 0, 16);
   (quad 172 16 0 0, 12); (quad 192 0 0 0, 24); (quad 192 0 0 170, 31); (quad 192 0 2 0, 24);
   (quad 192 168 0 0, 16); (quad 198 18 0 0, 15); (quad 198 51 100 0, 24); (quad 203 0 113 0, 24);
   (quad 240 0 0 0, 4); (quad 255 255 255 255, 32)]%Z.

Definition PUBLIC_V4 : list (Z * Z) := [(quad 192 0 0 9, 32); (quad 192 0 0 10, 32)]%Z.

(** An IPv6 network by its first hextets. *)
Definition prefix6 (l : list Z) : Z :=
  Z.shiftl (fold_left (fun acc h => acc * 65536 + h)%Z l 0%Z) (128 - 16 * Z.of_nat (List.length l))%Z.

Definition PRIVATE_V6 : list (Z * Z) :=
  [(1, 128); (0, 128); (prefix6 [0; 0; 0; 0; 0; 0xffff], 96); (prefix6 [0x64; 0xff9b; 1], 48);
   (prefix6 [0x100], 64); (prefix6 [0x2001], 23); (prefix6 [0x2001; 0xdb8], 32);
   (prefix6 [0x2002], 16); (prefix6 [0xfc00], 7); (prefix6 [0xfe80], 10)]%Z.

Definition PUBLIC_V6 : list (Z * Z) :=
  [(prefix6 [0x2001; 1] + 1, 128); (prefix6 [0x2001; 1] + 2, 128); (prefix6 [0x2001; 3], 32);
   (prefix6 [0x2001; 4; 0x112], 48); (prefix6 [0x2001; 0x20], 28); (prefix6 [0x2001; 0x30], 28)]%Z.

Definition private_v4 (n : Z) : bool :=
  existsb (in_network 32 n) PRIVATE_V4 && negb (existsb (in_network 32 n) PUBLIC_V4).

Definition is_private (a : ip) : bool :=
  match a with
  | V4 n => private_v4 n
  | V6 n =>
      if (Z.shiftr n 32 =? 0xffff)%Z then private_v4 (n mod 2 ^ 32)
      else existsb (in_network 128 n) PRIVATE_V6 && negb (existsb (in_network 128 n) PUBLIC_V6)
  end.

Definition is_loopback (a : ip) : bool :=
  match a with V4 n => in_network 32 n (quad 127 0 0 0, 8)%Z | V6 n => (n =? 1)%Z end.

Definition is_link_local (a : ip) : bool :=
  match a with
  | V4 n => in_network 32 n (quad 169 254 0 0, 16)%Z
  | V6 n => in_network 128 n (prefix6 [0xfe80], 10)%Z
  end.

Definition is_unspecified (a : ip) : bool :=
  match a with V4 n => (n =? 0)%Z | V6 n => (n =? 0)%Z end.

(** [str(IPv4Address(n))] *)
Definition ipv4_text (n : Z) : string :=
  str_join "." [pretty (n / 16777216)%Z; pretty ((n / 65536) mod 256)%Z; pretty ((n / 256) mod 256)%Z;
                pretty (n mod 256)%Z].

(** *** urlsplit *)

Record SplitResult := mk_split { scheme : string; netloc : string }.

Definition is_scheme_char (c : ascii) : bool :=
  is_ascii_letter c || is_digit c || one_of "+-." c.

Definition rmatch_all (r : regex) (s : string) : bool :=
  existsb (fun st => negb (truthy (snd st))) (runs r (None, s)).

Definition ip_future : regex :=
  rseqs [rchar "v"; rplus (RChar is_hex); rchar "."; rplus (RChar (fun _ => true))].

Definition _check_bracketed_host (hostname : string) : result exn () :=
  if startswith hostname "v" then
    ensure (rmatch_all ip_future hostname) (value_error "IPvFuture address is invalid")
  else
    match ip_address hostname with
    | None => Raise (value_error (repr_str hostname +++ " does not appear to be an IPv4 or IPv6 address"))
    | Some (V4 _) => Raise (value_error "An IPv4 address cannot be in brackets")
    | Some (V6 _) => Ok ()
    end.

Definition _check_bracketed_netloc (netloc : string) : result exn () :=
  let hostname_and_port := after_last "@" netloc in
  let '(before_bracket, have_open, bracketed) := partition_char "[" hostname_and_port in
  if have_open then
    let '(hostname, _, port) := partition_char "]" bracketed in
    if truthy before_bracket || (truthy port && negb (startswith port ":"))
    then Raise (value_error "Invalid IPv6 URL")
    else _check_bracketed_host hostname
  else
    let '(hostname, _, _) := partition_char ":" hostname_and_port in
    _check_bracketed_host hostname.

(** Leading control characters and blanks, and tabs and line ends anywhere. *)
Definition clean_url (url : string) : string :=
  keep_chars (fun c => negb (one_of (String (ascii_of_N 9) (String (ascii_of_N 10)
                                     (String (ascii_of_N 13) ""))) c))
    (lstrip_by (fun c => (code c <=? 32)%N) url).

Definition split_scheme (url : string) : string * string :=
  match partition_char ":" url with
  | (String c head, true, rest) =>
      if is_ascii_letter c && all_chars is_scheme_char head
      then (lower (String c head), rest) else ("", url)
  | _ => ("", url)
  end.

Definition urlsplit (url : string) : result exn SplitResult :=
  let '(scheme, rest) := split_scheme (clean_url url) in
  if startswith rest "//" then
    let netloc := take_while (fun c => negb (one_of "/?#" c)) (drop_chars 2 rest) in
    if xorb (contains netloc "[") (contains netloc "]") then Raise (value_error "Invalid IPv6 URL")
    else if contains netloc "[" then
      _ ← _check_bracketed_netloc netloc; Ok (mk_split scheme netloc)
    else Ok (mk_split scheme netloc)
  else Ok (mk_split scheme "").

(** [.hostname]; [None] stands for an empty host. *)
Definition hostname (u : SplitResult) : option string :=
  let hostinfo := after_last "@" (netloc u) in
  let '(_, have_open, bracketed) := partition_char "[" hostinfo in
  let name := if have_open then fst (fst (partition_char "]" bracketed))
              else fst (fst (partition_char ":" hostinfo)) in
  if truthy name then
    let '(address, scoped, zone) := partition_char "%" name in
    Some (lower address +++ (if scoped then "%" +++ zone else ""))
  else None.

(** ** security.py *)

Definition DEFAULT_ALLOWED_HTTP_HOSTS : list string := ["example.com"; "api.example.com"].

(** [SecurityViolation] by its message, and the [ValueError] of [urlsplit]. *)
Inductive url_error :=
  | HttpsRequired | HostnameRequired | HostNotAllowed (hostname : string) | PrivateHost
  | MalformedUrl (e : exn).

Definition _is_private_or_local_host (hostname : string) : bool :=
  if mem hostname ["localhost"; "127.0.0.1"] then true
  else
    match ip_address hostname with
    | None => false
    | Some a => is_private a || is_loopback a || is_link_local a || is_unspecified a
    end.

Definition validate_http_url (url : string) (allowed_hosts : option (list string))
    : result url_error string :=
  let allowed :=
    match allowed_hosts with None | Some [] => DEFAULT_ALLOWED_HTTP_HOSTS | Some l => l end in
  match urlsplit url with
  | Raise e => Raise (MalformedUrl e)
  | Ok parsed =>
      if negb (String.eqb (scheme parsed) "https") then Raise HttpsRequired
      else
        match hostname parsed with
        | None => Raise HostnameRequired
        | Some name =>
            let name := lower name in
            if negb (mem name allowed) then Raise (HostNotAllowed name)
            else if _is_private_or_local_host name then Raise PrivateHost
            else Ok url
        end
  end.

(** ** risk_engine.py *)

(** [https?://] and then characters that are no white space, quote, angle
    bracket, closing brace or comma. *)
Definition url_pattern : regex :=
  rseqs [rlit "http"; ropt (rchar "s"); rlit "://";
         rplus (RChar (fun c => negb (is_space c || Ascii.eqb c (ascii_of_N 34) || one_of "'<>}," c)))].

Definition extract_urls (value : string) : list string := findall url_pattern value.

Definition classify_risky_destination (url : string) : result exn (option string) :=
  parsed ← urlsplit url;
  let name := lower (default "" (hostname parsed)) in
  if negb (String.eqb (scheme parsed) "https") then Ok (Some "non-https")
  else if String.eqb name "localhost" then Ok (Some "local-network")
  else
    match ip_address name with
    | None => Ok None
    | Some host_ip =>
        Ok (if bool_decide (host_ip = V4 (quad 169 254 169 254)) then Some "cloud-metadata"
            else if is_unspecified host_ip then Some "local-network"
            else if is_loopback host_ip || is_private host_ip || is_link_local host_ip
            then Some "private-network"
            else None)
    end.

(** ** Lemmas *)

Lemma all_chars_app p a b : all_chars p (a +++ b) = all_chars p a && all_chars p b.
Proof. induction a as [|c a IH]; [done|]. cbn. by rewrite IH, andb_assoc. Qed.

Lemma all_chars_impl (p q : ascii -> bool) s :
  (forall c, p c = true -> q c = true) -> all_chars p s = true -> all_chars q s = true.
Proof.
  intros H. induction s as [|c s IH]; [done|]. cbn. rewrite !andb_true_iff. naive_solver.
Qed.

(** A separator that does not occur. *)
Lemma partition_char_absent p sep s :
  all_chars p s = true -> p sep = false -> partition_char sep s = (s, false, "").
Proof.
  intros Hs Hp. induction s as [|c s IH]; [done|]. cbn in *.
  apply andb_true_iff in Hs as [Hc Hs]. rewrite IH by done.
  destruct (Ascii.eqb_spec c sep) as [->|_]; [congruence|done].
Qed.

Lemma all_chars_no_char p sep s : all_chars p s = true -> p sep = false -> no_char sep s.
Proof.
  intros Hs Hp. induction s as [|c s IH]; [apply no_char_empty|].
  cbn in Hs. apply andb_true_iff in Hs as [Hc Hs]. apply no_char_cons.
  split; [intros ->; congruence|auto].
Qed.

Lemma keep_chars_app p a b : keep_chars p (a +++ b) = keep_chars p a +++ keep_chars p b.
Proof. induction a as [|c a IH]; [done|]. cbn. rewrite IH. by destruct (p c). Qed.

Lemma keep_chars_id p s : all_chars p s = true -> keep_chars p s = s.
Proof.
  induction s as [|c s IH]; [done|]. cbn. intros [Hc Hs]%andb_true_iff. by rewrite Hc, IH.
Qed.

Lemma take_while_app p a b :
  all_chars p a = true -> match b with "" => True | String c _ => p c = false end ->
  take_while p (a +++ b) = a.
Proof.
  intros Ha Hb. induction a as [|c a IH]; cbn.
  - destruct b as [|c b]; [done|]. cbn. by rewrite Hb.
  - cbn in Ha. apply andb_true_iff in Ha as [Hc Ha]. by rewrite Hc, IH.
Qed.

(** *** Dotted quads *)

Definition quad_char (c : ascii) : bool := is_digit c || Ascii.eqb c ".".

Definition octet_ok (z : Z) : bool :=
  all_chars is_digit (pretty z) && bool_decide (parse_octet (pretty z) = Some z).

Lemma octet_text z : (0 <= z < 256)%Z ->
  all_chars is_digit (pretty z) = true /\ parse_octet (pretty z) = Some z.
Proof.
  intros Hz. assert (H : forallb octet_ok (seqZ 0 256) = true) by (vm_compute; reflexivity).
  rewrite forallb_elem_of in H. specialize (H z ltac:(apply elem_of_seqZ; lia)).
  unfold octet_ok in H. by rewrite andb_true_iff, bool_decide_eq_true in H.
Qed.

Lemma octets n : (0 <= n < 2 ^ 32)%Z ->
  (0 <= n / 16777216 < 256 /\ 0 <= (n / 65536) mod 256 < 256 /\ 0 <= (n / 256) mod 256 < 256 /\
   0 <= n mod 256 < 256)%Z.
Proof.
  intros Hn. split_and!; try (apply Z.mod_pos_bound; lia); [apply Z.div_pos; lia|].
  apply Z.div_lt_upper_bound; lia.
Qed.

(** Parsing the text of an address gives the address. *)
Lemma parse_ipv4_text n : (0 <= n < 2 ^ 32)%Z -> parse_ipv4 (ipv4_text n) = Some n.
Proof.
  intros Hn. destruct (octets n Hn) as (Ha & Hb & Hc & Hd).
  apply octet_text in Ha as [Ha1 Ha2]. apply octet_text in Hb as [Hb1 Hb2].
  apply octet_text in Hc as [Hc1 Hc2]. apply octet_text in Hd as [Hd1 Hd2].
  unfold parse_ipv4, ipv4_text.
  rewrite (split_on_join "."); [|done|].
  - rewrite Ha2, Hb2, Hc2, Hd2. cbn [mbind option_bind]. f_equal.
    change 16777216%Z with (256 * 256 * 256)%Z. change 65536%Z with (256 * 256)%Z.
    rewrite <- !Z.div_div by lia. set (q := (n / 256)%Z). set (r := (q / 256)%Z).
    pose proof (Z.div_mod n 256 ltac:(lia)). pose proof (Z.div_mod q 256 ltac:(lia)).
    pose proof (Z.div_mod r 256 ltac:(lia)). lia.
  - repeat (apply Forall_cons; split; [by eapply all_chars_no_char|]). apply Forall_nil; done.
Qed.

Lemma ipv4_text_chars n : (0 <= n < 2 ^ 32)%Z -> all_chars quad_char (ipv4_text n) = true.
Proof.
  intros Hn. destruct (octets n Hn) as (Ha & Hb & Hc & Hd).
  assert (H : forall z, (0 <= z < 256)%Z -> all_chars quad_char (pretty z) = true).
  { intros z Hz%octet_text. apply (all_chars_impl is_digit); [|easy].
    intros c Hc'. unfold quad_char. by rewrite Hc'. }
  unfold ipv4_text. cbn [str_join]. rewrite !all_chars_app. cbn [all_chars].
  by rewrite !H by lia.
Qed.

(** *** A URL with a dotted quad as its host *)

Definition host_end (rest : string) : Prop :=
  match rest with "" => True | String c _ => one_of "/?#" c = true end.

Lemma clean_app_end rest :
  host_end rest ->
  match keep_chars (fun c => negb (one_of (String (ascii_of_N 9) (String (ascii_of_N 10)
                                           (String (ascii_of_N 13) ""))) c)) rest with
  | "" => True
  | String c _ => negb (one_of "/?#" c) = false
  end.
Proof.
  destruct rest as [|c rest]; [done|]. intros Hc. cbn [keep_chars]. cbn in Hc.
  assert (negb (one_of (String (ascii_of_N 9) (String (ascii_of_N 10)
    (String (ascii_of_N 13) ""))) c) = true) as ->; [|by rewrite negb_false_iff].
  revert Hc. destruct c as [[] [] [] [] [] [] [] []]; vm_compute; congruence.
Qed.

Lemma urlsplit_host t rest :
  all_chars quad_char t = true -> host_end rest ->
  urlsplit ("https://" +++ t +++ rest) = Ok (mk_split "https" t).
Proof.
  intros Ht Hr%clean_app_end. unfold urlsplit, clean_url.
  change (lstrip_by _ ("https://" +++ t +++ rest)) with ("https://" +++ t +++ rest).
  rewrite !keep_chars_app. set (r := keep_chars _ rest) in *. rewrite (keep_chars_id _ t).
  2:{ eapply all_chars_impl; [|exact Ht]. intros c Hc. revert Hc.
      destruct c as [[] [] [] [] [] [] [] []]; vm_compute; congruence. }
  change (keep_chars _ "https://") with "https://".
  change (split_scheme ("https://" +++ t +++ r)) with ("https", "//" +++ t +++ r).
  cbv beta iota. change (startswith ("//" +++ t +++ r) "//") with (startswith (t +++ r) "").
  assert (startswith (t +++ r) "" = true) as -> by (by destruct (t +++ r)).
  change (drop_chars 2 ("//" +++ t +++ r)) with (t +++ r).
  rewrite take_while_app; [| |done].
  2:{ eapply all_chars_impl; [|exact Ht]. intros c Hc. revert Hc.
      destruct c as [[] [] [] [] [] [] [] []]; vm_compute; congruence. }
  assert (contains t "[" = false) as -> by exact (all_chars_no_char _ "[" _ Ht eq_refl).
  assert (contains t "]" = false) as -> by exact (all_chars_no_char _ "]" _ Ht eq_refl).
  done.
Qed.

Lemma lower_quad t : all_chars quad_char t = true -> lower t = t.
Proof.
  induction t as [|c t IH]; [done|]. cbn [all_chars lower]. intros [Hc Ht]%andb_true_iff.
  rewrite IH by done. f_equal. revert Hc. destruct c as [[] [] [] [] [] [] [] []]; vm_compute; congruence.
Qed.

Lemma hostname_quad s t :
  all_chars quad_char t = true -> truthy t = true -> hostname (mk_split s t) = Some t.
Proof.
  intros Ht Hne. unfold hostname, after_last. cbn [netloc].
  rewrite split_on_no_char by exact (all_chars_no_char _ "@" _ Ht eq_refl). cbn [last].
  change (default t (Some t)) with t.
  rewrite !(partition_char_absent quad_char) by done.
  change (id t) with t. cbv beta iota zeta delta [fst]. by rewrite Hne, app_empty_r, lower_quad.
Qed.

(** ** Theorems *)

(** A URL whose host is a dotted quad of a private, loopback, link-local or
    unspecified network is risky whatever follows the host, and
    [validate_http_url] refuses it even when the address is on the allowlist. *)
Theorem private_quad_is_risky n rest allowed :
  (0 <= n < 2 ^ 32)%Z -> host_end rest ->
  is_private (V4 n) || is_loopback (V4 n) || is_link_local (V4 n) || is_unspecified (V4 n) = true ->
  let url := "https://" +++ ipv4_text n +++ rest in
  (exists c, classify_risky_destination url = Ok (Some c)) /\
  is_ok (validate_http_url url allowed) = false.
Proof.
  intros Hn Hr Hp url. pose proof (ipv4_text_chars n Hn) as Hc.
  assert (Ht : truthy (ipv4_text n) = true).
  { pose proof (parse_ipv4_text n Hn) as Hx. by destruct (ipv4_text n). }
  assert (Hip : ip_address (ipv4_text n) = Some (V4 n)).
  { unfold ip_address. by rewrite parse_ipv4_text. }
  split.
  - unfold classify_risky_destination, url. rewrite urlsplit_host by done. cbn [mbind result_bind].
    rewrite hostname_quad by done. change (default "" (Some (ipv4_text n))) with (ipv4_text n).
    cbn [scheme]. rewrite lower_quad by done.
    assert (String.eqb (ipv4_text n) "localhost" = false) as ->.
    { apply String.eqb_neq. intros Hx. by rewrite Hx in Hc. }
    rewrite Hip. cbn [negb String.eqb].
    case_bool_decide; [by eexists|]. destruct (is_unspecified (V4 n)) eqn:Hu; [by eexists|].
    rewrite orb_false_r in Hp. rewrite (orb_comm (is_loopback _)), Hp. by eexists.
  - unfold validate_http_url, url. rewrite urlsplit_host by done. cbn [scheme].
    rewrite hostname_quad by done. rewrite lower_quad by done. cbn [String.eqb negb].
    unfold _is_private_or_local_host. rewrite Hip, Hp.
    destruct (mem (ipv4_text n) ["localhost"; "127.0.0.1"]);
      by destruct (negb (mem _ _)).
Qed.

Lemma private_quad_witness :
  (0 <= quad 169 254 169 254 < 2 ^ 32)%Z /\
  is_ok (validate_http_url "https://169.254.169.254/latest/meta-data" (Some ["169.254.169.254"])) = false.
Proof.
  assert (H : (0 <= quad 169 254 169 254 < 2 ^ 32)%Z) by (vm_compute; split; congruence).
  split; [exact H|].
  exact (proj2 (private_quad_is_risky (quad 169 254 169 254) "/latest/meta-data"
    (Some ["169.254.169.254"]) H eq_refl eq_refl)).
Defined.

(** The classes of some other hosts. *)
Example url_samples :
  classify_risky_destination "https://169.254.169.254/latest" = Ok (Some "cloud-metadata") /\
  classify_risky_destination "https://u@[::ffff:10.0.0.1]:80/" = Ok (Some "private-network") /\
  classify_risky_destination "https://[fe80::1%25eth0]/x" = Ok (Some "private-network") /\
  classify_risky_destination "https://[::]/" = Ok (Some "local-network") /\
  classify_risky_destination "https://Example.com:8080/a?b" = Ok None /\
  classify_risky_destination "http://example.com" = Ok (Some "non-https") /\
  classify_risky_destination "https://[2001:db8::1]" = Ok (Some "private-network") /\
  classify_risky_destination "https://[2606:4700::1111]" = Ok None /\
  extract_urls "curl https://a.b/c?d=1 and {'u': 'http://x.y'}" = ["https://a.b/c?d=1"; "http://x.y"].
Proof. split_and!; vm_compute; reflexivity. Qed.

(** ** Defects *)

(** [ip_address] is called under a handler, [urlparse] is not: a text with an
    unclosed bracket after [https://] makes the classification raise. *)
Lemma bracketed_url_raises :
  extract_urls "see https://[host]/path" = ["https://[host]/path"] /\
  is_ok (classify_risky_destination "https://[host]/path") = false.
Proof. split; vm_compute; reflexivity. Qed.
