(* ===== verification/RiskEngine.v ===== *)
(** * risk_engine.py: the risk score of a tool request

    The context of a request, the signal detectors, the registry, and the
    engine with its score history per trace.  Detectors and [assess] are
    fallible because [urlparse] is; confidences are IEEE doubles, summed one
    after the other as Python 3.11 does.  [normalize_shell_command] calls
    itself on the argument of [sh -c]; its fuel is the length of the text. *)

From S2P Require Export Url Double Models.

Local Open Scope string_scope.
Local Open Scope list_scope.
Local Open Scope py_scope.

Module Risk.

(** ** Data *)

Inductive RiskSignalCategory :=
  BASELINE | CAPABILITY | ACTION | ASSET | DATA | DESTINATION | ENVIRONMENT | COMMAND.

Definition category_value (c : RiskSignalCategory) : string :=
  match c with
  | BASELINE => "baseline" | CAPABILITY => "capability" | ACTION => "action" | ASSET => "asset"
  | DATA => "data" | DESTINATION => "destination" | ENVIRONMENT => "environment"
  | COMMAND => "command"
  end.

(** [RiskContext] *)
Record RiskContext := mk_context {
  tool_name : string;
  action : option string;
  target : option string;
  input : pyval;
  user_id : string;
  agent_id : string;
  environment : string;
  metadata : pydict;
  tool_name_normalized : string;
  target_text : string;
  input_text : string;
}.

(** [RiskSignal] *)
Record RiskSignal := mk_signal {
  code : string;
  category : RiskSignalCategory;
  severity : RiskLevel;
  score : Z;
  confidence : pyfloat;
  reason : string;
  evidence : pydict;
  reversible : option bool;
}.

(** [RiskAssessment] *)
Record RiskAssessment := mk_assessment {
  risk_score : Z;
  risk_level : RiskLevel;
  reasons : list string;
  signals : list RiskSignal;
  assessment_confidence : pyfloat;
  explanation : string;
}.

(** [RiskScoringProfile] *)
Record RiskScoringProfile := mk_profile {
  medium_threshold : Z;
  high_threshold : Z;
  critical_threshold : Z;
}.

Definition default_profile : RiskScoringProfile := mk_profile 30 60 85.

Definition level_from_score (p : RiskScoringProfile) (s : Z) : RiskLevel :=
  if (critical_threshold p <=? s)%Z then CRITICAL
  else if (high_threshold p <=? s)%Z then HIGH
  else if (medium_threshold p <=? s)%Z then MEDIUM
  else LOW.

(** The default confidence. *)
Definition certain : pyfloat := decimal_float 1 0.

Definition stringify_value (value : pyval) : string :=
  match value with PNone => "" | PStr s => s | v => py_str v end.

Definition from_request (r : ToolRequest.t) : RiskContext :=
  mk_context (ToolRequest.tool_name r) (ToolRequest.action r) (ToolRequest.target r)
    (ToolRequest.input r) (ToolRequest.user_id r) (ToolRequest.agent_id r)
    (ToolRequest.environment r) (ToolRequest.metadata r) (lower (ToolRequest.tool_name r))
    (lower (default "" (ToolRequest.target r))) (stringify_value (ToolRequest.input r)).

(** ** Text *)

(** [" ".join(command.strip().lower().split())] *)
Definition collapse (command : string) : string := str_join " " (split_space (lower (strip command))).

(** [shlex.split(s)], or [s.split()] when it raises. *)
Definition shell_tokens (s : string) : list string := default (split_space s) (shlex_split s).

Fixpoint normalize_fuel (fuel : nat) (command : string) : option string :=
  match fuel with
  | O => None
  | S n =>
      if negb (truthy command) then Some ""
      else
        let tokens := shell_tokens (collapse command) in
        match tokens with
        | t0 :: t1 :: t2 :: _ =>
            if mem t0 ["sh"; "bash"] && String.eqb t1 "-c" then normalize_fuel n t2
            else Some (str_join " " tokens)
        | _ => Some (str_join " " tokens)
        end
  end.

Definition normalize_shell_command (command : string) : string :=
  default "" (normalize_fuel (S (String.length command)) command).

Definition drop_sudo (tokens : list string) : list string :=
  match tokens with t :: rest => if String.eqb t "sudo" then rest else tokens | [] => [] end.

(** The letters of the options. *)
Definition option_flags (tokens : list string) : string :=
  str_join "" (List.map (lstrip_by (Ascii.eqb "-")) (List.filter (fun t => startswith t "-") tokens)).

Definition is_recursive_force_remove (normalized_command : string) : bool :=
  match drop_sudo (shell_tokens normalized_command) with
  | t :: args =>
      String.eqb t "rm" && contains (option_flags args) "r" && contains (option_flags args) "f"
  | [] => false
  end.

Definition classify_sensitive_path (target : string) : option string :=
  let normalized_target := lower (replace_char backslash slash (strip target)) in
  if negb (truthy normalized_target) then None
  else if startswith normalized_target "/etc/" then Some "system-config"
  else if startswith normalized_target "~/.ssh/" || contains normalized_target "/.ssh/"
  then Some "ssh-credential"
  else if contains normalized_target "../"
          && contains_any ["secret"; ".env"; "credential"; "token"; "key"] normalized_target
  then Some "traversal-sensitive-target"
  else None.

Definition normalized_identifier (value : option string) : string :=
  replace_char "-" "_" (lower (strip (default "" value))).

Definition destructive_prefixes : list string :=
  ["delete"; "remove"; "destroy"; "wipe"; "truncate"; "drop"].

Definition is_destructive_identifier (identifier : string) : bool :=
  existsb (fun prefix => startswith identifier prefix
                         || contains ("_" +++ identifier +++ "_") ("_" +++ prefix +++ "_"))
    destructive_prefixes.

Definition is_destructive_action_variant (c : RiskContext) : bool :=
  existsb is_destructive_identifier
    [normalized_identifier (Some (tool_name c)); normalized_identifier (action c)].

Definition contains_sensitive_business_target (target : string) : bool :=
  contains_any ["customer"; "user"; "payment"; "invoice"] (lower target).

(** *** InputSensitivityDetector.SECRET_PATTERNS *)

Definition not_space : regex := RChar (fun c => negb (is_space c)).
Definition some_spaces : regex := rplus (RChar is_space).
Definition dash_or_underscore : regex := ropt (RChar (one_of "_-")).

(** [(?i)\bkey\b\s*[:=]\s*\S+] *)
Definition secret_assignment (key : regex) : regex :=
  rseqs [RWordB; key; RWordB; spaces; RChar (one_of ":="); spaces; rplus not_space].

Definition SECRET_PATTERNS : list regex :=
  [secret_assignment (rseqs [ilit "api"; dash_or_underscore; ilit "key"]);
   secret_assignment (ilit "token");
   secret_assignment (ilit "secret");
   secret_assignment (ilit "password");
   rseqs [RWordB; ilit "private"; dash_or_underscore; ilit "key"; RWordB];
   rseqs [RWordB; ilit "aws_access_key_id"; RWordB];
   rseqs [RWordB; ilit "aws_secret_access_key"; RWordB];
   RSeq (ilit "sk-") (rrep_ge 12 (RChar (key_char true)))].

Definition DANGEROUS_SHELL_PATTERNS : list regex :=
  [rseqs [rlit "rm"; some_spaces; rlit "-rf"];
   rseqs [rlit "sudo"; some_spaces];
   rseqs [rlit "chmod"; some_spaces; rlit "777"];
   rseqs [rlit "curl"; some_spaces];
   rseqs [rlit "wget"; some_spaces];
   rseqs [rlit "nc"; some_spaces];
   rseqs [rlit "bash"; some_spaces; rlit "-c"];
   rseqs [rlit "sh"; some_spaces; rlit "-c"];
   rseqs [rlit ">"; spaces; rlit "/etc/"]].

Definition contains_secret_like_input (value : string) : bool :=
  truthy value && existsb (fun p => search p value) SECRET_PATTERNS.

Definition EXTERNAL_TOOLS : list string :=
  ["external_api_send"; "http_request"; "webhook_send"; "api_call"].

Definition is_external_data_movement (c : RiskContext) : bool :=
  if mem (tool_name_normalized c) EXTERNAL_TOOLS then true
  else if mem (normalized_identifier (action c)) ["send_data"; "post"; "put"; "upload"; "exfiltrate"]
  then true
  else match extract_urls (input_text c) with [] => false | _ => true end.

(** [None] when no key of the metadata holds a text that is not blank. *)
Definition trace_identity (c : RiskContext) : option string :=
  let value key :=
    match dict_get (metadata c) key with
    | PStr s => if truthy (strip s) then Some (strip s) else None
    | _ => None
    end in
  head (List.concat (List.map (fun key => match value key with Some v => [v] | None => [] end)
    ["trace_id"; "request_id"; "session_id"; "run_id"])).

(** ** Detectors *)

Definition detector : Type := RiskContext -> result exn (list RiskSignal).

Definition when (condition : bool) (s : RiskSignal) : list RiskSignal :=
  if condition then [s] else [].

Definition of_tool (c : RiskContext) : pydict := [("tool_name", PStr (tool_name c))].
Definition of_target (c : RiskContext) : pydict := [("target", of_opt_str (target c))].
Definition of_environment (c : RiskContext) : pydict := [("environment", PStr (environment c))].
Definition action_text (c : RiskContext) : string := default "" (action c).

Definition ToolCapabilityDetector : detector := fun c =>
  let name := tool_name_normalized c in
  Ok (when (mem name ["file_delete"; "delete_file"])
        (mk_signal "file-delete" CAPABILITY HIGH 75 certain "Agent requested file deletion."
           (of_tool c) (Some false))
   ++ when (mem name ["shell_command"; "terminal"; "exec"; "run_command"])
        (mk_signal "shell-execution" CAPABILITY HIGH 70 certain
           "Agent requested shell or terminal execution." (of_tool c) None)
   ++ when (mem name EXTERNAL_TOOLS)
        (mk_signal "external-data-send" DESTINATION HIGH 65 certain
           "Agent requested sending data to an external destination." (of_tool c) (Some false))
   ++ when (mem name ["database_write"; "database_delete"; "db_write"; "db_delete"; "sql_execute"])
        (mk_signal "database-mutation" CAPABILITY HIGH 80 certain
           "Agent requested database modification." (of_tool c) (Some false))
   ++ when (mem name ["database_read"; "db_read"; "sql_query"])
        (mk_signal "database-read" CAPABILITY MEDIUM 45 certain
           "Agent requested database read access." (of_tool c) (Some true))).

Definition SENSITIVE_TARGET_PATTERNS : list string :=
  [".env"; ".env.backup"; "secrets.yaml"; "secrets.yml"; "credentials.json"; "credential.json";
   ".npmrc"; ".pypirc"; "id_rsa"; "id_dsa"; "private.key"; "private.pem"; "service-account.json";
   "service_account.json"; "database.yml"; "database.yaml"; "db.yml"; "db.yaml"].

Definition TargetSensitivityDetector : detector := fun c =>
  let target := target_text c in
  if negb (truthy target) then Ok []
  else
    Ok (when (contains target ".env" || endswith target "env")
          (mk_signal "env-file-access" ASSET CRITICAL 95 certain
             "Agent targeted an environment secret file." (of_target c) (Some true))
     ++ when (contains_any SENSITIVE_TARGET_PATTERNS target)
          (mk_signal "sensitive-config-target" ASSET CRITICAL 90 certain
             "Agent targeted a sensitive configuration, credential, or key file."
             (of_target c) (Some true))
     ++ when (contains_any ["secret"; "credential"; "private_key"; "token"] target)
          (mk_signal "sensitive-target" ASSET HIGH 70 certain
             "Agent targeted a path or object that appears sensitive." (of_target c) (Some true))
     ++ when (contains_any ["customer"; "user"; "payment"; "invoice"] target)
          (mk_signal "sensitive-business-data" DATA MEDIUM 45 certain
             "Agent targeted possible sensitive business or customer data."
             (of_target c) (Some true))).

Definition input_detected : pydict := [("input_detected", PBool true)].

Definition InputSensitivityDetector : detector := fun c =>
  let raw_input := input_text c in
  if negb (truthy raw_input) then Ok []
  else
    Ok (when (existsb (fun p => search p raw_input) SECRET_PATTERNS)
          (mk_signal "secret-in-input" DATA CRITICAL 95 certain
             "Agent input appears to contain a secret or credential." input_detected (Some false))
     ++ when (existsb (fun p => search p raw_input) DANGEROUS_SHELL_PATTERNS)
          (mk_signal "dangerous-shell-pattern" COMMAND CRITICAL 90 certain
             "Agent input contains a dangerous shell command pattern." input_detected (Some false))).

Definition NormalizedCommandRiskDetector : detector := fun c =>
  let normalized_command := normalize_shell_command (input_text c) in
  Ok (when (truthy normalized_command && is_recursive_force_remove normalized_command)
        (mk_signal "dangerous-shell-pattern" COMMAND CRITICAL 90 (decimal_float 95 2)
           "Agent command contains recursive forced deletion after normalization."
           [("normalized_command", PStr normalized_command);
            ("pattern", PStr "rm-recursive-force")] (Some false))).

Definition SensitivePathRiskDetector : detector := fun c =>
  match classify_sensitive_path (target_text c) with
  | None => Ok []
  | Some classification =>
      Ok [mk_signal "sensitive-path-target" ASSET CRITICAL 90 (decimal_float 95 2)
            ("Agent targeted sensitive path class: " +++ classification +++ ".")
            [("target", PStr (target_text c)); ("classification", PStr classification)]
            (Some false)]
  end.

Definition destination_signal (url classification : string) : RiskSignal :=
  mk_signal "risky-destination" DESTINATION HIGH 40 (decimal_float 9 1)
    ("Agent targeted risky network destination: " +++ classification +++ ".")
    [("url", PStr url); ("classification", PStr classification)] (Some false).

Definition RiskyDestinationDetector : detector := fun c =>
  found ← mapR (fun url =>
            classification ← classify_risky_destination url;
            Ok (match classification with
                | None => []
                | Some x => [destination_signal url x]
                end)) (extract_urls (input_text c));
  Ok (List.concat found).

Definition CredentialExfiltrationCorrelationDetector : detector := fun c =>
  Ok (when (is_external_data_movement c && contains_secret_like_input (input_text c))
        (mk_signal "credential-exfiltration-attempt" DESTINATION CRITICAL 35 (decimal_float 95 2)
           "Agent appears to send secret-like input to an external destination."
           [("sensitive_input_present", PBool true); ("external_destination", PBool true);
            ("url_count", PInt (Z.of_nat (List.length (extract_urls (input_text c)))));
            ("tool_name", PStr (tool_name c))] (Some false))).

Definition DestructiveActionVariantDetector : detector := fun c =>
  Ok (when (is_destructive_action_variant c)
        (mk_signal "destructive-action" CAPABILITY HIGH 60 (decimal_float 9 1)
           "Agent requested a destructive action variant."
           [("tool_name", PStr (tool_name c)); ("action", PStr (action_text c))] (Some false))).

Definition CompoundRiskCorrelationDetector : detector := fun c =>
  Ok (when (String.eqb (lower (environment c)) "production" && is_destructive_action_variant c
            && contains_sensitive_business_target (target_text c))
        (mk_signal "compound-risk-escalation" ENVIRONMENT CRITICAL 40 (decimal_float 95 2)
           "Production destructive action targets sensitive business data."
           [("environment", PStr (environment c)); ("action", PStr (action_text c));
            ("target", PStr (target_text c))] (Some false))).

Definition NON_LOCAL_ENVIRONMENTS : list string := ["ci"; "shared"; "staging"; "prod"; "production"].

Definition EnvironmentDetector : detector := fun c =>
  let env := lower (strip (environment c)) in
  Ok (when (mem env ["production"; "prod"])
        (mk_signal "production-environment" ENVIRONMENT MEDIUM 25 certain
           "Agent action is running in a production environment." (of_environment c) None)
   ++ when (mem env NON_LOCAL_ENVIRONMENTS)
        (mk_signal "non-local-environment" ENVIRONMENT MEDIUM 30 (decimal_float 9 1)
           "Agent action is running outside a purely local environment." (of_environment c) None)).

(** ** RiskSignalRegistry *)

Definition RiskSignalRegistry : Type := list detector.

Definition default_registry : RiskSignalRegistry :=
  [ToolCapabilityDetector; TargetSensitivityDetector; NormalizedCommandRiskDetector;
   SensitivePathRiskDetector; RiskyDestinationDetector; CredentialExfiltrationCorrelationDetector;
   DestructiveActionVariantDetector; CompoundRiskCorrelationDetector; InputSensitivityDetector;
   EnvironmentDetector].

Definition detect (registry : RiskSignalRegistry) (c : RiskContext) : result exn (list RiskSignal) :=
  found ← mapR (fun d : detector => d c) registry; Ok (List.concat found).

(** ** RiskEngine *)

Record RiskEngine := mk_engine {
  registry : RiskSignalRegistry;
  scoring_profile : RiskScoringProfile;
  trace_history_limit : Z;
  _trace_risk_history : gmap string (list Z);
}.

Definition make_risk_engine (registry : option RiskSignalRegistry)
    (scoring_profile : option RiskScoringProfile) (trace_history_limit : Z) : RiskEngine :=
  mk_engine (default default_registry registry) (default default_profile scoring_profile)
    trace_history_limit ∅.

Definition _score (signals : list RiskSignal) : Z :=
  Z.min (fold_left (fun total s => total + score s)%Z signals 0%Z) 100.

(** [self._trace_risk_history.get(trace_id, [])] *)
Definition history (e : RiskEngine) (trace_id : string) : list Z :=
  default [] (_trace_risk_history e !! trace_id).

Definition risky_events (p : RiskScoringProfile) (scores : list Z) : nat :=
  List.length (List.filter (fun s => (medium_threshold p <=? s)%Z) scores).

Definition cumulative_signal (level : RiskLevel) (amount : Z) (conf : pyfloat) (reason : string)
    (previous size : nat) : RiskSignal :=
  mk_signal "cumulative-trace-risk" BASELINE level amount conf reason
    [("trace_id_present", PBool true); ("previous_risky_events", PInt (Z.of_nat previous));
     ("history_size", PInt (Z.of_nat size))] None.

Definition _cumulative_trace_signal (e : RiskEngine) (c : RiskContext) (current_score : Z)
    : option RiskSignal :=
  match trace_identity c with
  | None => None
  | Some trace_id =>
      if (current_score <? medium_threshold (scoring_profile e))%Z then None
      else
        let scores := history e trace_id in
        let previous := risky_events (scoring_profile e) scores in
        if (2 <=? previous)%nat then
          Some (cumulative_signal CRITICAL 45 (decimal_float 9 1)
                  "Multiple risky actions occurred in the same trace." previous (List.length scores))
        else if (1 <=? previous)%nat then
          Some (cumulative_signal HIGH 20 (decimal_float 85 2)
                  "Repeated risky actions are accumulating in the same trace." previous
                  (List.length scores))
        else None
  end.

(** What stays of a list when [del l[: len(l) - limit]] runs if it is longer. *)
Definition truncate (limit : Z) (l : list Z) : list Z :=
  drop (Z.to_nat (Z.of_nat (List.length l) - limit)) l.

Definition _record_trace_risk (e : RiskEngine) (c : RiskContext) (risk_score : Z) : RiskEngine :=
  match trace_identity c with
  | None => e
  | Some trace_id =>
      mk_engine (registry e) (scoring_profile e) (trace_history_limit e)
        (<[trace_id := truncate (trace_history_limit e) (history e trace_id ++ [risk_score])]>
           (_trace_risk_history e))
  end.

(** [sum(...)] of the confidences. *)
Definition sum_confidence (signals : list RiskSignal) : double :=
  dsum (List.map (fun s => double_of (confidence s)) signals).

(** The result is [0.0] or a decimal of two digits; this is it times 100. *)
Definition confidence_decimal (signals : list RiskSignal) : Z :=
  match signals with
  | [] => 0
  | _ => round_decimal (ddiv (sum_confidence signals) (of_int (Z.of_nat (List.length signals)))) 2
  end.

Definition _confidence (signals : list RiskSignal) : pyfloat :=
  decimal_float (confidence_decimal signals) 2.

Definition _explanation (risk_score : Z) (level : RiskLevel) (signals : list RiskSignal) : string :=
  "Risk score " +++ pretty risk_score +++ " mapped to " +++ risk_value level +++ " based on: "
  +++ str_join ", " (List.map code signals) +++ ".".

(** The bounds that [RiskAssessment] validates. *)
Definition validated (a : RiskAssessment) : result exn RiskAssessment :=
  if ((0 <=? risk_score a) && (risk_score a <=? 100) &&
      (0 <=? double_of (assessment_confidence a)) &&
      (double_of (assessment_confidence a) <=? fone))%Z
  then Ok a
  else Raise (mk_exn ValueError "ValidationError" "validation error for RiskAssessment").

Definition baseline_signal (r : ToolRequest.t) : RiskSignal :=
  mk_signal "baseline-low-risk" BASELINE LOW 10 (decimal_float 8 1)
    "No risky tool, target, or input pattern detected."
    [("tool_name", PStr (ToolRequest.tool_name r))] (Some true).

(** The signals of a request before the history is consulted. *)
Definition request_signals (e : RiskEngine) (r : ToolRequest.t) : result exn (list RiskSignal) :=
  found ← detect (registry e) (from_request r);
  Ok (match found with [] => [baseline_signal r] | _ => found end).

Definition assess (e : RiskEngine) (r : ToolRequest.t) : result exn RiskAssessment * RiskEngine :=
  let context := from_request r in
  match request_signals e r with
  | Raise exc => (Raise exc, e)
  | Ok found =>
      let all := found ++ match _cumulative_trace_signal e context (_score found) with
                          | Some s => [s] | None => []
                          end in
      let risk_score := _score all in
      let level := level_from_score (scoring_profile e) risk_score in
      (validated (mk_assessment risk_score level (List.map reason all) all (_confidence all)
                    (_explanation risk_score level all)),
       _record_trace_risk e context risk_score)
  end.

(** ** Lemmas: normalization *)

Local Notation total_length := (sum_list_with String.length).

(** A character a backslash is waiting for counts as read. *)
Definition pending (st : shlex_state) : nat := match st with InEscape _ => 1 | _ => 0 end.

Lemma total_length_emit tok q rest :
  (total_length (emit tok q rest) <= String.length tok + total_length rest)%nat.
Proof. unfold emit. destruct (truthy tok || q); cbn; lia. Qed.

Lemma shlex_go_length s st tok q toks :
  shlex_go st tok q s = Some toks ->
  (total_length toks <= String.length tok + String.length s + pending st)%nat.
Proof.
  revert st tok q toks. induction s as [|c s IH]; intros st tok q toks; cbn [shlex_go String.length].
  - destruct st; [| |done|done]; intros [= <-];
      (etrans; [apply total_length_emit|cbn; lia]).
  - assert (Hgo : forall st' tok' q' k, shlex_go st' tok' q' s = Some toks ->
      (String.length tok' + pending st' <= k)%nat -> (total_length toks <= k + String.length s)%nat).
    { intros st' tok' q' k Hg Hk. apply IH in Hg. lia. }
    destruct st as [| |r|[r|]]; cbn [pending];
      repeat case_match; intros Hg;
      try (eapply Hgo in Hg; [|rewrite ?length_append; cbn [String.length pending]; reflexivity]; lia).
    all: destruct (shlex_go InSpace "" false s) as [l|] eqn:E; [|done];
      injection Hg as <-; apply IH in E; cbn in E;
      (etrans; [apply total_length_emit|lia]).
Qed.

Lemma split_space_length cur s :
  (total_length (split_space_go cur s) <= String.length cur + String.length s)%nat.
Proof.
  revert cur. induction s as [|c s IH]; intros cur; cbn [split_space_go String.length].
  - destruct (truthy cur); cbn; lia.
  - destruct (is_space c); [|specialize (IH (cur +++ String c "")); rewrite length_append in IH; cbn in IH; lia].
    specialize (IH ""). cbn in IH. destruct (truthy cur); cbn; lia.
Qed.

Lemma join_split_space_length cur s :
  (String.length (str_join " " (split_space_go cur s)) <= String.length cur + String.length s)%nat.
Proof.
  revert cur. induction s as [|c s IH]; intros cur; cbn [split_space_go String.length].
  - destruct (truthy cur); cbn; lia.
  - destruct (is_space c); [|specialize (IH (cur +++ String c "")); rewrite length_append in IH; cbn in IH; lia].
    specialize (IH ""). cbn [String.length Nat.add] in IH. destruct (truthy cur); cbn [app]; [|lia].
    destruct (split_space_go "" s) as [|w l]; [cbn; lia|].
    change (str_join " " (cur :: w :: l)) with (cur +++ String " " (str_join " " (w :: l))).
    rewrite length_append. cbn [String.length] in *. lia.
Qed.

Lemma shell_tokens_length s : (total_length (shell_tokens s) <= String.length s)%nat.
Proof.
  unfold shell_tokens, shlex_split. destruct (shlex_go InSpace "" false s) as [l|] eqn:E; cbn.
  - apply shlex_go_length in E. cbn in E. lia.
  - apply (split_space_length "").
Qed.

Lemma collapse_length c : (String.length (collapse c) <= String.length c)%nat.
Proof.
  unfold collapse. etrans; [apply (join_split_space_length "")|]. cbn.
  rewrite length_lower. apply length_strip.
Qed.

(** The argument of [sh -c] is shorter than the command. *)
Lemma nested_command_shorter c t0 t1 t2 rest :
  shell_tokens (collapse c) = t0 :: t1 :: t2 :: rest ->
  mem t0 ["sh"; "bash"] && String.eqb t1 "-c" = true ->
  (String.length t2 < String.length c)%nat.
Proof.
  intros Ht [Hm ->%String.eqb_eq]%andb_true_iff.
  pose proof (shell_tokens_length (collapse c)) as Hl. pose proof (collapse_length c) as Hc.
  rewrite Ht in Hl. cbn in Hl. lia.
Qed.

Lemma normalize_fuel_total n c : (String.length c < n)%nat -> is_Some (normalize_fuel n c).
Proof.
  revert c. induction n as [|n IH]; intros c Hn; [lia|]. cbn [normalize_fuel].
  destruct (negb (truthy c)); [by eexists|].
  destruct (shell_tokens (collapse c)) as [|t0 [|t1 [|t2 rest]]] eqn:E; try by eexists.
  destruct (_ && _) eqn:Hb; [|by eexists].
  apply IH. pose proof (nested_command_shorter _ _ _ _ _ E Hb). lia.
Qed.

Lemma normalize_fuel_mono n m c r :
  (n <= m)%nat -> normalize_fuel n c = Some r -> normalize_fuel m c = Some r.
Proof.
  revert m c. induction n as [|n IH]; intros [|m] c Hm; try done; [lia|]. cbn [normalize_fuel].
  destruct (negb (truthy c)); [done|].
  destruct (shell_tokens (collapse c)) as [|t0 [|t1 [|t2 rest]]]; try done.
  destruct (_ && _); [|done]. apply IH. lia.
Qed.

(** ** Lemmas: signals *)

Lemma mapR_elem_of {E A B} (f : A -> result E B) l l' y :
  mapR f l = Ok l' -> y ∈ l' -> exists x, x ∈ l /\ f x = Ok y.
Proof.
  rewrite mapR_Ok_Forall2. induction 1 as [|x z l l' Hf _ IH]; [by intros ?%not_elem_of_nil|].
  intros [->|Hy]%elem_of_cons; [exists x; split; [left|done]|].
  destruct (IH Hy) as (w & Hw & ?). exists w. split; [by right|done].
Qed.

Definition valid_signal (s : RiskSignal) : Prop :=
  (0 <= score s <= 100)%Z /\ unit_double (double_of (confidence s)).

(** A detector reports signals that pass the validation of [RiskSignal]. *)
Definition valid_detector (d : detector) : Prop :=
  forall c found, d c = Ok found -> Forall valid_signal found.

Lemma valid_when b s : valid_signal s -> Forall valid_signal (when b s).
Proof. intros H. destruct b; cbn; repeat constructor; apply H. Qed.

(** The literals of the detectors. *)
Lemma valid_literal c cat sev sc n k r ev rev :
  (0 <=? sc)%Z && (sc <=? 100)%Z && (0 <=? k)%Z && (0 <=? n)%Z && (n <=? 10 ^ k)%Z = true ->
  valid_signal (mk_signal c cat sev sc (decimal_float n k) r ev rev).
Proof.
  rewrite !andb_true_iff, !Z.leb_le. intros ((((H1 & H2) & H3) & H4) & H5).
  split; [done|]. cbn [confidence]. rewrite double_of_decimal by done. by apply unit_decimal.
Qed.

Create HintDb risk.
#[local] Hint Resolve valid_when : risk.
#[local] Hint Extern 1 (valid_signal _) => (apply valid_literal; reflexivity) : risk.
#[local] Hint Resolve Forall_nil_2 : risk.

Ltac valid_signals :=
  repeat match goal with
  | H : Ok _ = Ok _ |- _ => injection H as <-
  | |- Forall _ (_ ++ _) => apply Forall_app; split
  | |- Forall _ [_] => apply Forall_singleton
  | |- context [if ?b then _ else _] => destruct b
  end; auto with risk.

Lemma default_registry_valid d : d ∈ default_registry -> valid_detector d.
Proof.
  intros Hd c found. unfold default_registry in Hd.
  repeat (apply elem_of_cons in Hd as [->|Hd]); [..|by apply not_elem_of_nil in Hd].
  - unfold ToolCapabilityDetector. intros H. valid_signals.
  - unfold TargetSensitivityDetector. destruct (negb _); intros H; valid_signals.
  - unfold NormalizedCommandRiskDetector. intros H. valid_signals.
  - unfold SensitivePathRiskDetector. destruct (classify_sensitive_path _); intros H; valid_signals.
  - unfold RiskyDestinationDetector. intros (groups & Hg & [= <-])%bind_Ok_inv.
    apply Forall_concat, Forall_forall. intros g Hin.
    destruct (mapR_elem_of _ _ _ _ Hg Hin) as (u & _ & Hu).
    apply bind_Ok_inv in Hu as (cl & _ & [= <-]). destruct cl; valid_signals.
  - unfold CredentialExfiltrationCorrelationDetector. intros H. valid_signals.
  - unfold DestructiveActionVariantDetector. intros H. valid_signals.
  - unfold CompoundRiskCorrelationDetector. intros H. valid_signals.
  - unfold InputSensitivityDetector. destruct (negb _); intros H; valid_signals.
  - unfold EnvironmentDetector. intros H. valid_signals.
Qed.

(** ** Lemmas: scores *)

Definition raw_score (l : list RiskSignal) : Z := fold_left (fun total s => total + score s)%Z l 0%Z.

Lemma fold_score l k :
  fold_left (fun total s => total + score s)%Z l k = (k + raw_score l)%Z.
Proof.
  unfold raw_score. revert k. induction l as [|x l IH]; intros k; cbn [fold_left]; [lia|].
  rewrite IH, (IH (0 + score x)%Z). lia.
Qed.

Lemma raw_score_app l l' : raw_score (l ++ l') = (raw_score l + raw_score l')%Z.
Proof. unfold raw_score at 1. by rewrite fold_left_app, fold_score. Qed.

Lemma raw_score_nonneg l : Forall valid_signal l -> (0 <= raw_score l)%Z.
Proof.
  induction 1 as [|x l [Hx _] _ IH]; [done|].
  change (x :: l) with ([x] ++ l). rewrite raw_score_app. cbn. lia.
Qed.

Lemma raw_score_elem s l : Forall valid_signal l -> s ∈ l -> (score s <= raw_score l)%Z.
Proof.
  intros Hl (l1 & l2 & ->)%list_elem_of_split. apply Forall_app in Hl as [H1 [_ H2]%Forall_cons_1].
  change (s :: l2) with ([s] ++ l2). rewrite !raw_score_app.
  apply raw_score_nonneg in H1, H2. cbn. lia.
Qed.

Lemma score_range l : Forall valid_signal l -> (0 <= _score l <= 100)%Z.
Proof. intros Hl%raw_score_nonneg. unfold _score. fold (raw_score l). lia. Qed.

Lemma score_snoc l s :
  (0 <= score s)%Z -> _score (l ++ [s]) = Z.min (_score l + score s) 100.
Proof.
  intros Hs. unfold _score. fold (raw_score (l ++ [s])) (raw_score l). rewrite raw_score_app. cbn. lia.
Qed.

Lemma confidence_range l : Forall valid_signal l -> unit_double (double_of (_confidence l)).
Proof.
  intros Hl. unfold _confidence, confidence_decimal. destruct l as [|x l']; [split; done|].
  set (l := x :: l') in *.
  assert (H : unit_double (ddiv (sum_confidence l) (of_int (Z.of_nat (List.length l))))).
  { unfold sum_confidence. rewrite <- (length_map (fun s => double_of (confidence s)) l).
    apply average_unit; [done|]. apply Forall_map. eapply Forall_impl; [exact Hl|]. by intros s [_ ?]. }
  apply (round_decimal_le_one _ 2) in H as [H0 H1]; [|done].
  rewrite double_of_decimal by done. by apply unit_decimal.
Qed.

(** ** Lemmas: assess *)

Definition valid_registry (r : RiskSignalRegistry) : Prop := forall d, d ∈ r -> valid_detector d.

Lemma baseline_valid r : valid_signal (baseline_signal r).
Proof. by apply valid_literal. Qed.

Lemma request_signals_valid e r found :
  valid_registry (registry e) -> request_signals e r = Ok found -> Forall valid_signal found.
Proof.
  intros Hv (all & (groups & Hg & [= <-])%bind_Ok_inv & H)%bind_Ok_inv. injection H as <-.
  assert (Ha : Forall valid_signal (List.concat groups)).
  { apply Forall_concat, Forall_forall. intros g Hin.
    destruct (mapR_elem_of _ _ _ _ Hg Hin) as (d & Hd & Hg'). by apply (Hv d Hd) in Hg'. }
  destruct (List.concat groups); [|done]. apply Forall_singleton, baseline_valid.
Qed.

(** What a detector of the registry reports is among the signals. *)
Lemma request_signals_in e r found d g s :
  request_signals e r = Ok found -> d ∈ registry e -> d (from_request r) = Ok g -> s ∈ g -> s ∈ found.
Proof.
  intros (all & (groups & Hg & [= <-])%bind_Ok_inv & H)%bind_Ok_inv Hd Hdg Hs. injection H as <-.
  assert (Hin : s ∈ List.concat groups).
  { apply list_elem_of_In, in_concat. exists g. split; [|by apply list_elem_of_In].
    apply list_elem_of_In. apply mapR_Ok_Forall2 in Hg. clear -Hg Hd Hdg.
    induction Hg as [|x y l l' Hx _ IH]; [by apply not_elem_of_nil in Hd|].
    apply elem_of_cons in Hd as [->|Hd]; [|right; auto]. rewrite Hdg in Hx. injection Hx as ->. left. }
  destruct (List.concat groups); [by apply not_elem_of_nil in Hin|done].
Qed.

Lemma cumulative_valid e c k s : _cumulative_trace_signal e c k = Some s -> valid_signal s.
Proof.
  unfold _cumulative_trace_signal, cumulative_signal. intros H.
  repeat case_match; try done; injection H as <-; by apply valid_literal.
Qed.

(** The signals of an assessment. *)
Definition all_signals (e : RiskEngine) (r : ToolRequest.t) (found : list RiskSignal) : list RiskSignal :=
  found ++ match _cumulative_trace_signal e (from_request r) (_score found) with
           | Some s => [s] | None => [] end.

Lemma all_signals_valid e r found :
  Forall valid_signal found -> Forall valid_signal (all_signals e r found).
Proof.
  intros H. unfold all_signals. apply Forall_app. split; [done|].
  destruct (_cumulative_trace_signal _ _ _) eqn:E; [|constructor].
  apply Forall_singleton. by eapply cumulative_valid.
Qed.

(** [RiskAssessment] accepts what the engine computed. *)
Lemma assess_Ok e r found :
  valid_registry (registry e) -> request_signals e r = Ok found ->
  let all := all_signals e r found in
  let level := level_from_score (scoring_profile e) (_score all) in
  assess e r =
    (Ok (mk_assessment (_score all) level (List.map reason all) all (_confidence all)
           (_explanation (_score all) level all)),
     _record_trace_risk e (from_request r) (_score all)).
Proof.
  intros Hv Hf. cbv zeta. unfold assess. rewrite Hf. fold (all_signals e r found).
  pose proof (all_signals_valid e r found (request_signals_valid _ _ _ Hv Hf)) as Ha.
  set (all := all_signals e r found) in *. f_equal. unfold validated. cbn [risk_score assessment_confidence].
  apply score_range in Ha as Hs. apply confidence_range in Ha as [Hc1 Hc2].
  generalize dependent (double_of (_confidence all)). intros x Hx1 Hx2.
  by rewrite !(proj2 (Z.leb_le _ _)) by first [exact Hx1|exact Hx2|lia].
Qed.

Lemma assess_inv e r a e' :
  valid_registry (registry e) -> assess e r = (Ok a, e') ->
  exists found, request_signals e r = Ok found /\ signals a = all_signals e r found /\
    risk_score a = _score (signals a) /\
    risk_level a = level_from_score (scoring_profile e) (risk_score a) /\
    assessment_confidence a = _confidence (signals a) /\
    Forall valid_signal (signals a) /\
    e' = _record_trace_risk e (from_request r) (risk_score a).
Proof.
  intros Hv H. destruct (request_signals e r) as [found|exc] eqn:Hf; [|by unfold assess in H; rewrite Hf in H].
  rewrite (assess_Ok _ _ _ Hv Hf) in H. injection H as <- <-. exists found. split_and!; try done.
  apply all_signals_valid. by eapply request_signals_valid.
Qed.

Lemma assess_Raise e r exc e' :
  valid_registry (registry e) -> assess e r = (Raise exc, e') ->
  e' = e /\ exists d, d ∈ registry e /\ d (from_request r) = Raise exc.
Proof.
  intros Hv H. destruct (request_signals e r) as [found|exc'] eqn:Hf; [by rewrite (assess_Ok _ _ _ Hv Hf) in H|].
  unfold assess in H. rewrite Hf in H. injection H as <- <-. split; [done|].
  apply bind_Raise_inv in Hf as [Hf|(all & _ & [=])].
  apply bind_Raise_inv in Hf as [Hf|(all & _ & [=])].
  induction (registry e) as [|d l IH]; [done|]. cbn in Hf.
  apply bind_Raise_inv in Hf as [Hf|(y & _ & Hf)]; [exists d; split; [left|done]|].
  apply bind_Raise_inv in Hf as [Hf|(ys & _ & [=])].
  destruct IH as (d' & Hd' & ?); [intros x Hx; apply Hv; by right|done|]. exists d'. split; [by right|done].
Qed.

(** ** Lemmas: the history of a trace *)

Fixpoint run (e : RiskEngine) (rs : list ToolRequest.t) : list (result exn RiskAssessment) * RiskEngine :=
  match rs with
  | [] => ([], e)
  | r :: rest =>
      let '(out, e') := assess e r in let '(outs, e'') := run e' rest in (out :: outs, e'')
  end.

(** The scores of the assessments of a trace, in order. *)
Definition scores_of (trace_id : string) (rs : list ToolRequest.t)
    (outs : list (result exn RiskAssessment)) : list Z :=
  List.concat (List.map (fun ro =>
    match snd ro with
    | Ok a => if bool_decide (trace_identity (from_request (fst ro)) = Some trace_id)
              then [risk_score a] else []
    | Raise _ => []
    end) (combine rs outs)).

Lemma truncate_app limit x y : truncate limit (truncate limit x ++ y) = truncate limit (x ++ y).
Proof.
  unfold truncate. set (k := Z.to_nat (Z.of_nat (List.length x) - limit)).
  destruct (Nat.le_gt_cases k (List.length x)) as [Hk|Hk].
  - rewrite <- drop_app_le by done. rewrite drop_drop, length_drop, !length_app. f_equal. lia.
  - rewrite (drop_ge x) by lia. cbn [app]. rewrite length_app.
    rewrite !drop_ge by (rewrite ?length_app; lia). done.
Qed.

Lemma truncate_length limit l : (List.length (truncate limit l) <= Z.to_nat limit)%nat.
Proof. unfold truncate. rewrite length_drop. lia. Qed.

Lemma elem_of_truncate limit l x : x ∈ truncate limit l -> x ∈ l.
Proof. unfold truncate. intros H. rewrite <- (take_drop (Z.to_nat (Z.of_nat (List.length l) - limit)) l). set_solver. Qed.

(** The configuration of the engine does not change. *)
Lemma assess_config e r out e' :
  assess e r = (out, e') ->
  registry e' = registry e /\ scoring_profile e' = scoring_profile e /\
  trace_history_limit e' = trace_history_limit e.
Proof.
  unfold assess. destruct (request_signals e r); intros [= <- <-]; [|done].
  unfold _record_trace_risk. by destruct (trace_identity _).
Qed.

Lemma history_record e c k t :
  history (_record_trace_risk e c k) t =
  (if bool_decide (trace_identity c = Some t) then truncate (trace_history_limit e) (history e t ++ [k])
   else history e t).
Proof.
  unfold _record_trace_risk. case_bool_decide as H.
  - rewrite H. unfold history at 1. cbn. by rewrite lookup_insert_eq.
  - destruct (trace_identity c) as [t'|] eqn:E; [|done]. unfold history. cbn.
    rewrite lookup_insert_ne; [done|]. intros ->. by apply H.
Qed.

Lemma run_history e rs outs e' t :
  valid_registry (registry e) -> run e rs = (outs, e') ->
  truncate (trace_history_limit e) (history e t) = history e t ->
  history e' t = truncate (trace_history_limit e) (history e t ++ scores_of t rs outs) /\
  registry e' = registry e /\ scoring_profile e' = scoring_profile e /\
  trace_history_limit e' = trace_history_limit e.
Proof.
  intros Hv. revert e outs Hv. induction rs as [|r rs IH]; intros e outs Hv H Ht; cbn in H.
  - injection H as <- <-. by rewrite app_nil_r.
  - destruct (assess e r) as [out e1] eqn:E. destruct (run e1 rs) as [outs1 e2] eqn:E1.
    injection H as <- <-. destruct (assess_config _ _ _ _ E) as (Hr & Hp & Hl).
    assert (Hstep : history e1 t = truncate (trace_history_limit e) (history e t ++ scores_of t [r] [out])).
    { unfold scores_of. cbn [combine List.map List.concat snd fst].
      destruct out as [a|exc].
      - apply assess_inv in E as (_ & _ & _ & _ & _ & _ & _ & ->); [|done].
        rewrite history_record. case_bool_decide; cbn [app]; by rewrite ?app_nil_r.
      - apply assess_Raise in E as [-> _]; [|done]. by rewrite !app_nil_r. }
    destruct (IH e1 outs1) as (Hh & Hr' & Hp' & Hl'); [by rewrite Hr|done| |].
    { rewrite Hl, Hstep. pose proof (truncate_app (trace_history_limit e) (history e t ++ scores_of t [r] [out]) []) as Hx.
      by rewrite !app_nil_r in Hx. }
    rewrite Hh, Hr', Hp', Hl', Hl, Hstep, truncate_app, <- app_assoc. split_and!; try done.
    do 2 f_equal. unfold scores_of. cbn [combine List.map List.concat]. by rewrite app_nil_r.
Qed.

Lemma run_new_engine reg profile limit rs outs e t :
  valid_registry (default default_registry reg) ->
  run (make_risk_engine reg profile limit) rs = (outs, e) ->
  history e t = truncate limit (scores_of t rs outs) /\
  valid_registry (registry e) /\ scoring_profile e = default default_profile profile.
Proof.
  intros Hv H. set (e0 := make_risk_engine reg profile limit) in *.
  destruct (run_history e0 rs outs e t Hv H) as (Hh & Hr & Hp & _).
  { unfold truncate. apply drop_nil. }
  split_and!; [exact Hh|by rewrite Hr|exact Hp].
Qed.

(** ** Lemmas: requests of a critical score *)

(** Some detector reports a signal whose score alone reaches the critical level
    of the default profile; the severity of the signal plays no part. *)
Definition critical_score (reg : RiskSignalRegistry) (r : ToolRequest.t) : Prop :=
  exists d found s, d ∈ reg /\ d (from_request r) = Ok found /\ s ∈ found /\ (85 <= score s)%Z.

Lemma critical_score_level e r a e' :
  valid_registry (registry e) -> scoring_profile e = default_profile ->
  critical_score (registry e) r -> assess e r = (Ok a, e') -> risk_level a = CRITICAL.
Proof.
  intros Hv Hp (d & g & s & Hd & Hg & Hs & Hk) H.
  apply assess_inv in H as (found & Hf & Hsig & Hsc & -> & _ & Ha & _); [|done].
  assert (Hin : s ∈ signals a).
  { rewrite Hsig. unfold all_signals. apply elem_of_app. left.
    by apply (request_signals_in _ _ _ _ _ _ Hf Hd Hg). }
  pose proof (raw_score_elem s _ Ha Hin) as Hr.
  assert (Hge : (85 <= risk_score a)%Z).
  { rewrite Hsc. unfold _score. fold (raw_score (signals a)). lia. }
  unfold level_from_score. rewrite Hp. cbn [critical_threshold default_profile].
  by rewrite (proj2 (Z.leb_le _ _) Hge).
Qed.

(** The words of a forced recursive removal: [rm], perhaps after [sudo], with
    an option that has an [r] and one that has an [f]. *)
Definition has_flag (flag : string) (args : list string) : bool :=
  existsb (fun t => startswith t "-" && contains t flag) args.

Definition removal_words (ws : list string) : bool :=
  forallb (fun w => plain_word w && truthy w) ws &&
  match ws with
  | "sudo" :: "rm" :: args => has_flag "r" args && has_flag "f" args
  | "rm" :: args => has_flag "r" args && has_flag "f" args
  | _ => false
  end.

Lemma contains_join l w sub : w ∈ l -> contains w sub = true -> contains (str_join "" l) sub = true.
Proof.
  intros Hw (a & b & ->)%contains_spec. apply contains_spec.
  induction l as [|x l IH]; [by apply not_elem_of_nil in Hw|].
  assert (E : str_join "" (x :: l) = x +++ str_join "" l).
  { destruct l; [by rewrite app_empty_r|done]. }
  rewrite E. apply elem_of_cons in Hw as [<-|Hw].
  - exists a, (b +++ str_join "" l). by rewrite !app_assoc_str.
  - destruct (IH Hw) as (a' & b' & ->). exists (x +++ a'), b'. by rewrite !app_assoc_str.
Qed.

Lemma contains_lstrip c w :
  c <> "-"%char -> contains w (String c "") = true -> contains (lstrip_by (Ascii.eqb "-") w) (String c "") = true.
Proof.
  intros Hc. induction w as [|d w IH]; [done|]. intros H. cbn [lstrip_by].
  destruct (Ascii.eqb_spec "-" d) as [<-|_]; [|exact H]. apply IH. revert H. cbn [contains startswith].
  by destruct (Ascii.eqb_spec c "-").
Qed.

Lemma flags_contain c args :
  c <> "-"%char -> has_flag (String c "") args = true -> contains (option_flags args) (String c "") = true.
Proof.
  intros Hc Hf. unfold has_flag in Hf. apply existsb_elem_of in Hf as (t & Ht & Hp).
  apply andb_true_iff in Hp as [Hd Ht'].
  apply contains_join with (lstrip_by (Ascii.eqb "-") t); [|by apply contains_lstrip].
  apply list_elem_of_In, in_map, list_elem_of_In, elem_of_lfilter. done.
Qed.

(** The text of such a command: in any case and spacing, with or without
    [sudo], with the options together or apart, or as the argument of
    [sh -c] to any depth. *)
Inductive runs_removal : string -> Prop :=
  | direct_removal c : removal_words (split_space (lower (strip c))) = true -> runs_removal c
  | nested_removal c t0 t2 rest :
      shell_tokens (collapse c) = t0 :: "-c" :: t2 :: rest -> mem t0 ["sh"; "bash"] = true ->
      runs_removal t2 -> runs_removal c.

Lemma shell_tokens_join ws :
  forallb (fun w => plain_word w && truthy w) ws = true -> shell_tokens (str_join " " ws) = ws.
Proof.
  intros H. unfold shell_tokens. rewrite shlex_split_join; [done|].
  apply Forall_forall. intros w Hw. rewrite forallb_elem_of in H.
  specialize (H w Hw). apply andb_true_iff in H as [H1 H2]. split; [done|]. by intros ->.
Qed.

Lemma normalize_step c n :
  (String.length c < n)%nat -> normalize_fuel n c = Some (normalize_shell_command c).
Proof.
  intros Hn. unfold normalize_shell_command.
  destruct (normalize_fuel_total (S (String.length c)) c) as [r Hr]; [lia|]. rewrite Hr.
  eapply normalize_fuel_mono; [|exact Hr]. lia.
Qed.

(** The recursion of the code. *)
Lemma normalize_shell_command_eq c :
  normalize_shell_command c =
    (if negb (truthy c) then ""
     else match shell_tokens (collapse c) with
          | t0 :: t1 :: t2 :: rest =>
              if mem t0 ["sh"; "bash"] && String.eqb t1 "-c" then normalize_shell_command t2
              else str_join " " (t0 :: t1 :: t2 :: rest)
          | tokens => str_join " " tokens
          end).
Proof.
  apply (inj Some). rewrite <- (normalize_step c (S (String.length c))) by lia. cbn [normalize_fuel].
  destruct (negb (truthy c)); [done|].
  destruct (shell_tokens (collapse c)) as [|t0 [|t1 [|t2 rest]]] eqn:E; try done.
  destruct (_ && _) eqn:Hb; [|done]. apply normalize_step.
  apply (nested_command_shorter _ _ _ _ _ E Hb).
Qed.

Lemma runs_removal_detected c :
  runs_removal c ->
  truthy (normalize_shell_command c) && is_recursive_force_remove (normalize_shell_command c) = true.
Proof.
  induction 1 as [c Hw|c t0 t2 rest Ht Hm _ IH].
  - set (ws := split_space (lower (strip c))) in *.
    unfold removal_words in Hw. apply andb_true_iff in Hw as [Hp Hr].
    assert (Hw : exists args, drop_sudo ws = "rm" :: args /\
      (ws = "rm" :: args \/ ws = "sudo" :: "rm" :: args) /\ has_flag "r" args && has_flag "f" args = true).
    { revert Hr. repeat case_match; try done; intros Hr; eexists; (split; [|split; [|exact Hr]]); auto. }
    destruct Hw as (args & Hd & Hws & [Hfr Hff]%andb_true_iff).
    assert (Hn : normalize_shell_command c = str_join " " ws).
    { rewrite normalize_shell_command_eq. change (collapse c) with (str_join " " ws).
      rewrite shell_tokens_join by done.
      destruct c as [|c0 c]; [by destruct Hws|]. cbn [negb truthy].
      destruct Hws as [->| ->]; [destruct args as [|x [|y l]]|destruct args as [|y l]]; done. }
    rewrite Hn. apply andb_true_iff. split.
    + destruct Hws as [->| ->]; by destruct args.
    + unfold is_recursive_force_remove. rewrite shell_tokens_join by done. rewrite Hd.
      by rewrite !flags_contain.
  - rewrite normalize_shell_command_eq, Ht, Hm. cbn [String.eqb andb].
    destruct c as [|c0 c]; [by vm_compute in Ht|]. exact IH.
Qed.

(** ** Theorems *)

(** C37 Normalizing a command terminates: with more fuel than the command has
    characters there is a result, the same for every such fuel, and it is
    given by the recursion of the code through the arguments of [sh -c]. *)
Theorem normalization_terminates command fuel :
  (String.length command < fuel)%nat ->
  normalize_fuel fuel command = Some (normalize_shell_command command) /\
  normalize_shell_command command =
    (if negb (truthy command) then ""
     else match shell_tokens (collapse command) with
          | t0 :: t1 :: t2 :: rest =>
              if mem t0 ["sh"; "bash"] && String.eqb t1 "-c" then normalize_shell_command t2
              else str_join " " (t0 :: t1 :: t2 :: rest)
          | tokens => str_join " " tokens
          end).
Proof. intros Hf. split; [by apply normalize_step|apply normalize_shell_command_eq]. Qed.

(** An assessment is within its bounds: with detectors that report valid
    signals, [assess] raises only what a detector raises; otherwise the score
    lies between 0 and 100, the level is that of the score, and the confidence,
    an average in double precision, between 0 and 1. *)
Theorem assessment_is_bounded e r out e' :
  valid_registry (registry e) -> assess e r = (out, e') ->
  match out with
  | Ok a =>
      (0 <= risk_score a <= 100)%Z /\
      risk_level a = level_from_score (scoring_profile e) (risk_score a) /\
      (0 <= double_of (assessment_confidence a) <= fone)%Z
  | Raise exc => e' = e /\ exists d, d ∈ registry e /\ d (from_request r) = Raise exc
  end.
Proof.
  intros Hv H. destruct out as [a|exc]; [|by eapply assess_Raise].
  apply assess_inv in H as (found & _ & _ & Hs & Hl & Hc & Ha & _); [|done].
  rewrite Hc, Hl, Hs. split_and!; try done; by first [apply score_range|apply confidence_range].
Qed.

(** The history of a trace is what the code means it to be: after any
    sequence of requests to a new engine it holds the scores of the last
    assessments of the trace, in order, at most [trace_history_limit] of them,
    all between 0 and 100. *)
Theorem history_is_recent_scores reg profile limit rs outs e t :
  valid_registry (default default_registry reg) ->
  run (make_risk_engine reg profile limit) rs = (outs, e) ->
  history e t = truncate limit (scores_of t rs outs) /\
  (List.length (history e t) <= Z.to_nat limit)%nat /\
  (forall k, k ∈ history e t -> (0 <= k <= 100)%Z).
Proof.
  intros Hv H. destruct (run_new_engine _ _ _ _ _ _ t Hv H) as (Hh & _). rewrite Hh. split_and!; [done|apply truncate_length|].
  intros k Hk%elem_of_truncate. clear Hh. set (e0 := make_risk_engine reg profile limit) in *.
  change (valid_registry (registry e0)) in Hv. clearbody e0.
  revert e0 outs Hv H Hk. induction rs as [|r rs IH]; intros e0 outs Hv H Hk; cbn in H.
  - injection H as <- <-. by apply not_elem_of_nil in Hk.
  - destruct (assess e0 r) as [out e1] eqn:E. destruct (run e1 rs) as [outs1 e2] eqn:E1.
    injection H as <- <-. unfold scores_of in Hk. cbn in Hk. apply elem_of_app in Hk as [Hk|Hk].
    + destruct out as [a|]; [|by apply not_elem_of_nil in Hk].
      case_bool_decide; [|by apply not_elem_of_nil in Hk]. apply list_elem_of_singleton in Hk as ->.
      apply assess_inv in E as (_ & _ & _ & -> & _ & _ & Ha & _); [|done]. by apply score_range.
    + eapply (IH e1); [|done|exact Hk]. destruct (assess_config _ _ _ _ E) as (-> & _). done.
Qed.

(** Repeated risk escalates: after any requests to a new engine, the score
    of a request in a trace is the score of its own signals, plus 20 when it
    is risky itself and one of the remembered assessments of the trace was,
    plus 45 when two were, at most 100. *)
Theorem repeated_risk_escalates reg profile limit rs outs e r a e' t found :
  valid_registry (default default_registry reg) ->
  run (make_risk_engine reg profile limit) rs = (outs, e) ->
  request_signals e r = Ok found -> trace_identity (from_request r) = Some t ->
  assess e r = (Ok a, e') ->
  let p := default default_profile profile in
  let previous := risky_events p (truncate limit (scores_of t rs outs)) in
  risk_score a =
    (if (_score found <? medium_threshold p)%Z then _score found
     else Z.min (_score found + match previous with O => 0 | 1%nat => 20 | _ => 45 end) 100).
Proof.
  intros Hv H Hf Ht Ha. cbv zeta.
  destruct (run_new_engine _ _ _ _ _ _ t Hv H) as (Hh & Hve & Hp).
  apply assess_inv in Ha as (found' & Hf' & Hs & -> & _); [|done].
  rewrite Hf in Hf'. injection Hf' as <-. rewrite Hs. unfold all_signals, _cumulative_trace_signal.
  rewrite Ht, Hh, Hp. pose proof (request_signals_valid _ _ _ Hve Hf) as Hfv.
  apply score_range in Hfv. destruct (_ <? _)%Z; [by rewrite app_nil_r|].
  destruct (risky_events _ _) as [|[|n]]; cbn [Nat.leb];
    [rewrite app_nil_r; lia|by rewrite score_snoc by done..].
Qed.

(** A forced recursive removal is critical however it is written, in every
    trace and environment: in any case and spacing, with the options together
    or apart, under [sudo], or inside [sh -c] to any depth. *)
Theorem forced_removal_is_critical e r a e' :
  registry e = default_registry -> scoring_profile e = default_profile ->
  runs_removal (stringify_value (ToolRequest.input r)) ->
  assess e r = (Ok a, e') -> risk_level a = CRITICAL.
Proof.
  intros Hr Hp Hc%runs_removal_detected. apply critical_score_level; [|done|].
  - rewrite Hr. exact default_registry_valid.
  - rewrite Hr. exists NormalizedCommandRiskDetector. do 2 eexists. split_and!.
    + unfold default_registry. set_solver.
    + unfold NormalizedCommandRiskDetector. cbn [from_request input_text]. by rewrite Hc.
    + left.
    + done.
Qed.

End Risk.

(** *** Witnesses *)

Definition removal_text : string := "bash -c " +++ String dquote ("sudo  RM -R --force /srv" +++ String dquote "").

Definition removal_request : ToolRequest.t :=
  ToolRequest.mk "notes" None None (PStr removal_text) "alice" "agent" "local" [].

Definition read_request : ToolRequest.t :=
  ToolRequest.mk "database_read" None (Some "orders") PNone "alice" "agent" "local"
    [("trace_id", PStr "t1")].

Definition new_engine : Risk.RiskEngine := Risk.make_risk_engine None None 20.

Lemma normalization_witness :
  (String.length removal_text < 40)%nat /\
  Risk.normalize_fuel 40 removal_text = Some "sudo rm -r --force /srv".
Proof.
  assert (H : (String.length removal_text < 40)%nat) by (vm_compute; lia).
  split; [exact H|]. rewrite (proj1 (Risk.normalization_terminates removal_text 40 H)).
  vm_compute. reflexivity.
Defined.

Lemma removal_assessed : is_ok (fst (Risk.assess new_engine removal_request)) = true.
Proof. vm_compute. reflexivity. Qed.

Lemma assessment_bounded_witness :
  exists a e', Risk.assess new_engine removal_request = (Ok a, e') /\
    (0 <= Risk.risk_score a <= 100)%Z /\
    (0 <= double_of (Risk.assessment_confidence a) <= fone)%Z.
Proof.
  pose proof removal_assessed as Hok.
  destruct (Risk.assess new_engine removal_request) as [[a|exc] e'] eqn:E; [|discriminate Hok].
  exists a, e'. split; [reflexivity|].
  pose proof (Risk.assessment_is_bounded new_engine removal_request (Ok a) e'
    Risk.default_registry_valid E) as (H1 & _ & H2). exact (conj H1 H2).
Defined.

Lemma history_witness :
  exists outs e, Risk.run new_engine [read_request; removal_request; read_request] = (outs, e) /\
    Risk.history e "t1" = [45; 65]%Z.
Proof.
  destruct (Risk.run new_engine [read_request; removal_request; read_request]) as [outs e] eqn:E.
  exists outs, e. split; [reflexivity|].
  rewrite (proj1 (Risk.history_is_recent_scores None None 20 _ outs e "t1"
    Risk.default_registry_valid E)).
  apply (f_equal fst) in E. cbn [fst] in E. rewrite <- E. vm_compute. reflexivity.
Defined.

Lemma escalation_witness :
  let run := Risk.run new_engine [read_request; read_request] in
  exists a e', Risk.assess (snd run) read_request = (Ok a, e') /\ Risk.risk_score a = 90%Z.
Proof.
  cbv zeta. set (run := Risk.run new_engine [read_request; read_request]).
  assert (Hok : is_ok (fst (Risk.assess (snd run) read_request)) = true) by (vm_compute; reflexivity).
  assert (Hs : match Risk.request_signals (snd run) read_request with
               | Ok l => Risk._score l = 45%Z | Raise _ => False end) by (vm_compute; reflexivity).
  destruct (Risk.request_signals (snd run) read_request) as [found|x] eqn:F; [|destruct Hs].
  destruct (Risk.assess (snd run) read_request) as [[a|x] e'] eqn:A; [|discriminate Hok].
  exists a, e'. split; [reflexivity|].
  rewrite (Risk.repeated_risk_escalates None None 20 _ (fst run) (snd run) read_request a e' "t1" found
    Risk.default_registry_valid (surjective_pairing run) F eq_refl A).
  rewrite Hs. vm_compute. reflexivity.
Defined.

Lemma forced_removal_witness :
  exists a e', Risk.assess new_engine removal_request = (Ok a, e') /\ Risk.risk_level a = CRITICAL.
Proof.
  pose proof removal_assessed as Hok.
  destruct (Risk.assess new_engine removal_request) as [[a|exc] e'] eqn:E; [|discriminate Hok].
  exists a, e'. split; [reflexivity|].
  apply (Risk.forced_removal_is_critical new_engine removal_request a e' eq_refl eq_refl); [|exact E].
  apply (Risk.nested_removal _ "bash" "sudo rm -r --force /srv" []); [vm_compute; reflexivity|reflexivity|].
  apply Risk.direct_removal. vm_compute. reflexivity.
Defined.

(** ** Defects *)

(** A bracketed host that is no IPv6 address makes the whole assessment raise
    a [ValueError], although the detectors mean an unparsable host to be no
    risky destination. *)
Lemma bracketed_url_stops_assessment :
  let r := ToolRequest.mk "notes" None None (PStr "see https://[host]/path") "alice" "agent" "local" [] in
  is_ok (fst (Risk.assess new_engine r)) = false.
Proof. vm_compute. reflexivity. Qed.

(** The removal is looked for at the start of the command only: behind a
    [cd] the flags in another order are not found, nor by the patterns. *)
Lemma removal_after_cd_is_low :
  let r := ToolRequest.mk "notes" None None (PStr "cd /srv && rm -fr *") "alice" "agent" "local" [] in
  match fst (Risk.assess new_engine r) with
  | Ok a => Risk.risk_level a = LOW | Raise _ => False
  end.
Proof. vm_compute. reflexivity. Qed.
