(* ===== verification/RiskGate.v ===== *)
(** * The risk engine behind the interceptor

    The risk engine as the [RiskAssessor] of the interceptor, the policy
    shipped for production (resources/policies/production_safe_policy.yaml),
    and what they guarantee together: a request with a signal of critical score is
    blocked, in every state of the engine and of the audit log. *)

From S2P Require Export Interceptor RiskEngine.

Local Open Scope string_scope.
Local Open Scope list_scope.
Local Open Scope py_scope.

(** ** Definitions *)

(** [model_dump(mode="json")] *)
Definition dump_signal (s : Risk.RiskSignal) : pyval :=
  of_dict
    [("code", PStr (Risk.code s)); ("severity", PStr (risk_value (Risk.severity s)));
     ("score", PInt (Risk.score s)); ("reason", PStr (Risk.reason s));
     ("category", PStr (Risk.category_value (Risk.category s)));
     ("confidence", of_float (Risk.confidence s));
     ("evidence", of_dict (Risk.evidence s));
     ("reversible", match Risk.reversible s with Some b => PBool b | None => PNone end)].

Definition dump_assessment (a : Risk.RiskAssessment) : pydict :=
  [("risk_score", PInt (Risk.risk_score a));
   ("risk_level", PStr (risk_value (Risk.risk_level a)));
   ("reasons", of_strs (Risk.reasons a));
   ("signals", PList (List.map dump_signal (Risk.signals a)));
   ("confidence", of_float (Risk.assessment_confidence a));
   ("explanation", PStr (Risk.explanation a))].

(** The assessor of an interceptor whose engine is in a given state. *)
Definition risk_assessor (e : Risk.RiskEngine) : RiskAssessor :=
  fun r => a ← fst (Risk.assess e r); Ok (dump_assessment a).

Definition plain_rule (id : string) (d : Decision) (sev : Severity) (reason : string) (priority : Z)
    (tool_name target_contains input_contains risk_level : option string)
    (risk_score_min : option (Z * Z)) : PolicyRule.t :=
  PolicyRule.mk id d sev reason priority tool_name None None None target_contains None None None
    input_contains [] [] risk_level risk_score_min.

Definition shipped_production_policy : PolicySchema.t :=
  PolicySchema.mk "policy.v2" REQUIRE_APPROVAL
    [plain_rule "block-critical-risk" BLOCK SevCritical
       "Critical-risk actions are blocked in production-safe mode." 5
       None None None (Some "critical") None;
     plain_rule "block-high-risk-score" BLOCK SevCritical
       "High risk-score actions are blocked in production-safe mode." 10
       None None None None (Some (85, 0)%Z);
     plain_rule "block-env-read" BLOCK SevHigh
       "Reading environment secret files is not allowed." 20
       (Some "file_read") (Some ".env") None None None;
     plain_rule "block-dangerous-shell" BLOCK SevCritical "Dangerous shell command detected." 30
       (Some "shell_command") None (Some "rm -rf") None None;
     plain_rule "require-approval-for-file-delete" REQUIRE_APPROVAL SevHigh
       "File deletion requires human approval in production-safe mode." 40
       (Some "file_delete") None None None None;
     plain_rule "simulate-external-api-send" SIMULATE SevMedium
       "External API sends are simulated in production-safe mode." 50
       (Some "external_api_send") None None None None;
     plain_rule "production-safe-terminal-approval" REQUIRE_APPROVAL SevHigh
       "Unknown or unmatched actions require human approval in production-safe mode." 1000
       None None None None None].

Definition production_engine : PolicyEngine :=
  make_engine (PolicySchema.rules shipped_production_policy)
    (PolicySchema.policy_version shipped_production_policy)
    (PolicySchema.default_decision shipped_production_policy).

(** ** Lemmas *)

(** The shipped policy loads under the production-safe profile. *)
Lemma shipped_policy_loads re_compiles pattern_limit :
  engine_of_schema re_compiles pattern_limit shipped_production_policy
    (Some PRODUCTION_SAFE_POLICY_PROFILE) = Ok production_engine.
Proof. vm_compute. reflexivity. Qed.

Lemma critical_level_is_blocked re_search target_limit r a :
  Risk.risk_level a = CRITICAL ->
  exists d, evaluate re_search target_limit production_engine r (dump_assessment a) = Ok d /\
    PolicyDecision.decision d = BLOCK /\
    PolicyDecision.policy_id d = Some "block-critical-risk".
Proof.
  intros Ha. unfold evaluate, production_engine.
  change (rules (make_engine _ _ _)) with (PolicySchema.rules shipped_production_policy).
  unfold shipped_production_policy. cbn [PolicySchema.rules evaluate_rules].
  assert (Hm : forall rule, rule = plain_rule "block-critical-risk" BLOCK SevCritical
    "Critical-risk actions are blocked in production-safe mode." 5 None None None (Some "critical") None ->
    _matches re_search target_limit rule r (dump_assessment a) = Ok true).
  { intros rule ->. unfold _matches, dump_assessment. rewrite Ha. reflexivity. }
  rewrite (Hm _ eq_refl). eexists. split; [reflexivity|]. by split.
Qed.

(** ** Theorems *)

(** C28 A critical score blocks: behind the shipped production policy and the
    default scoring profile, a request about which some detector reports a signal
    of score 85 or more (whatever its severity) reaches no tool handler, whatever
    the history of the engine, the mode and the approvals; the decision of a
    returned result is to block. *)
Theorem critical_request_is_blocked {S : Type} `{AuditSink S} re_search target_limit
    (e : Risk.RiskEngine) (x : ToolExecutor.t) (w : option Workflow.t) (mode : RuntimeMode)
    (s s' : S) ef fresh r out calls :
  Risk.valid_registry (Risk.registry e) -> Risk.scoring_profile e = Risk.default_profile ->
  Risk.critical_score (Risk.registry e) r ->
  @intercept (risk_assessor e) (engine_decider re_search target_limit production_engine) S _
    x w mode s ef fresh r = (out, s', calls) ->
  calls = [] /\
  forall res, out = Ok res ->
    PolicyDecision.decision (InterceptorResult.policy_decision res) = BLOCK /\
    ToolExecutionResult.executed (InterceptorResult.execution res) = false.
Proof.
  intros Hv Hp Hc. unfold intercept, assess, risk_assessor, decide_policy, engine_decider.
  destruct (Risk.assess e r) as [[a|exc] e'] eqn:Ha; cbn [fst mbind result_bind].
  - pose proof (Risk.critical_score_level e r a e' Hv Hp Hc Ha) as Hl.
    destruct (critical_level_is_blocked re_search target_limit r a Hl) as (d & -> & Hd & _).
    cbn [map_err]. rewrite Hd. cbn [bool_decide decide_rel]. rewrite bool_decide_eq_false_2 by done.
    unfold audit_and_execute, _execute_with_decision. rewrite Hd.
    destruct (log_event _ _ _ _ _) as [[s1 event]|exc].
    + destruct mode; intros [= <- <- <-]; (split; [done|]); by intros res [= <-].
    + by intros [= <- <- <-].
  - destruct (is_fail_closed exc); [|by intros [= <- <- <-]].
    intros Hf. pose proof (fail_closed_no_calls mode s ef r "risk_assessment_failed" exc [] []) as [H1 H2].
    rewrite Hf in H1, H2. split; [exact H1|]. intros res ->. by apply (H2 res s').
Qed.

(** *** Witness *)

Definition secret_request : ToolRequest.t :=
  ToolRequest.mk "shell" None (Some "config/.env") (PStr "cat") "alice" "agent" "local" [].

Lemma critical_request_witness :
  exists out s',
    @intercept (risk_assessor new_engine) (engine_decider no_search 4096 production_engine) store
      audit_log_sink echo_executor None ENFORCE (empty_store false) example_event_fresh example_fresh
      secret_request = (out, s', []) /\
    Risk.critical_score (Risk.registry new_engine) secret_request.
Proof.
  assert (Hc : Risk.critical_score (Risk.registry new_engine) secret_request).
  { exists Risk.TargetSensitivityDetector. do 2 eexists. split; [right; left|].
    split; [vm_compute; reflexivity|]. split; [left|]. vm_compute. discriminate. }
  destruct (@intercept (risk_assessor new_engine) (engine_decider no_search 4096 production_engine) store
      audit_log_sink echo_executor None ENFORCE (empty_store false) example_event_fresh example_fresh
      secret_request) as [[out s'] calls] eqn:E.
  destruct (critical_request_is_blocked no_search 4096 new_engine echo_executor None ENFORCE
    (empty_store false) s' example_event_fresh example_fresh secret_request out calls
    Risk.default_registry_valid eq_refl Hc E) as [-> _].
  exists out, s'. split; [reflexivity|exact Hc].
Defined.
