(* ===== verification/ApprovalService.v ===== *)
(** * approval_service.py: approvals and durable artifacts together

    [ApprovalArtifactService] over the approval queue (the class
    [ApprovalQueueOps], with the in-memory and the SQLite queue as instances),
    the artifact store, the audit log and the optional operation store.  An
    operation passes the four states on and keeps them when it raises. *)

From S2P Require Import OperationStore.
From S2P Require Export ApprovalQueue ArtifactLifecycle.

Local Open Scope string_scope.
Local Open Scope list_scope.
Local Open Scope py_scope.

Module Service.

(** ** Interfaces *)

(** What the service calls of a queue. *)
Class ApprovalQueueOps (Q : Type) := {
  queue_list : Q -> option ApprovalStatus -> result queue_error (list Queued.t);
  queue_get : Q -> string -> result queue_error Queued.t;
  queue_record : Q -> string -> ApprovalDecision.t -> Q * result queue_error Queued.t;
}.

Definition memory_queue (e : AuthorizationEngine.t) : ApprovalQueueOps items := {|
  queue_list := fun l st => Ok (mem_list l st);
  queue_get := mem_get;
  queue_record := fun l id d =>
    match mem_record_decision e l id d with
    | Ok (l', q) => (l', Ok q)
    | Raise x => (l, Raise x)
    end;
|}.

Definition sqlite_queue (load_request : json -> result exn ApprovalRequest.t)
    (load_decision : json -> result exn ApprovalDecision.t) (e : AuthorizationEngine.t) (now : string)
    : ApprovalQueueOps (list qrow) := {|
  queue_list := sql_list load_request load_decision;
  queue_get := sql_get load_request load_decision;
  queue_record := fun rows id d => sql_record_decision load_request load_decision e rows id d now;
|}.

(** ** Data *)

Inductive service_error :=
  | ApprovalOperationError (text : string)
  | ApprovalArtifactBindingError (text : string)
  | ApprovalOperationStateError (text : string)
  | QueueFailure (e : queue_error)       (* escapes from the queue *)
  | StoreFailure (e : OperationStore.op_error)          (* escapes from the operation store *)
  | Escaped (e : exn)
  | AuditFailure (text : string).

(** [ApprovalArtifactView] *)
Record ApprovalArtifactView := mk_view {
  v_approval_id : string;
  v_approval_status : string;
  v_approval_created_at : string;
  v_requested_by : string;
  v_severity : string;
  v_reason : string;
  v_artifact_id : string;
  v_artifact_state : string;
  v_artifact_expired : bool;
  v_artifact_created_at : string;
  v_artifact_expires_at : string;
  v_patch_sha256 : string;
  v_patch_size_bytes : Z;
  v_baseline_commit_sha : string;
  v_changed_file_count : Z;
  v_decision_status : option string;
  v_decided_by : option string;
  v_decided_at : option string;
  v_decision_reason : option string;
}.

Definition view_payload (v : ApprovalArtifactView) : pydict :=
  [("approval", of_dict
      [("approval_id", PStr (v_approval_id v)); ("status", PStr (v_approval_status v));
       ("created_at", PStr (v_approval_created_at v)); ("requested_by", PStr (v_requested_by v));
       ("severity", PStr (v_severity v)); ("reason", PStr (v_reason v));
       ("decision", of_dict
          [("status", of_opt_str (v_decision_status v)); ("decided_by", of_opt_str (v_decided_by v));
           ("decided_at", of_opt_str (v_decided_at v));
           ("reason", of_opt_str (v_decision_reason v))])]);
   ("artifact", of_dict
      [("artifact_id", PStr (v_artifact_id v)); ("state", PStr (v_artifact_state v));
       ("expired", PBool (v_artifact_expired v)); ("created_at", PStr (v_artifact_created_at v));
       ("expires_at", PStr (v_artifact_expires_at v)); ("patch_sha256", PStr (v_patch_sha256 v));
       ("patch_size_bytes", PInt (v_patch_size_bytes v));
       ("baseline_commit_sha", PStr (v_baseline_commit_sha v));
       ("changed_file_count", PInt (v_changed_file_count v))])].

Definition to_dict (v : ApprovalArtifactView) : result exn pydict := redact_dict (view_payload v).

(** [str(exc)] of a queue error. *)
Definition queue_error_text (e : queue_error) : string :=
  match e with
  | ApprovalNotFoundError id => "Approval request '" +++ id +++ "' was not found."
  | ApprovalDeniedError reason => reason
  | ApprovalStateConflictError reason => reason
  | ApprovalQueueError text => text
  | QueueExn e => exn_text e
  end.

(** [except (ApprovalQueueError, PatchApprovalError)] *)
Definition wrap_queue_error (e : queue_error) : service_error :=
  match e with
  | QueueExn x => if is_patch_approval_error x then ApprovalOperationError (exn_text x) else Escaped x
  | _ => ApprovalOperationError (queue_error_text e)
  end.

Definition wrap_approval_error (e : exn) : service_error :=
  if is_patch_approval_error e then ApprovalOperationError (exn_text e) else Escaped e.

(** [except PatchArtifactError] *)
Definition is_artifact_error (e : exn) : bool :=
  mem (exn_name e) ["PatchArtifactError"; "PatchArtifactNotFoundError"; "PatchArtifactTamperedError";
                    "PatchArtifactExpiredError"; "PatchArtifactConsumedError"].

Definition wrap_artifact_error (e : exn) : service_error :=
  if is_artifact_error e then ApprovalOperationError (exn_text e) else Escaped e.

Definition _artifact_id_from_request (q : Queued.t) : option string :=
  match dict_get (ApprovalRequest.metadata (Queued.request q)) "artifact_id" with
  | PStr value => if truthy (strip value) then Some value else None
  | _ => None
  end.

Definition _required_decision (q : Queued.t) : result service_error ApprovalDecision.t :=
  match Queued.decision q with
  | Some d => Ok d
  | None => Raise (ApprovalOperationStateError "Approval queue item has no persisted decision.")
  end.

Section Service.
Context `{AH : ArtifactHost}.
Context {Q R L : Type} {QO : ApprovalQueueOps Q} {GR : GitRepo R} {AA : ApplyAudit L} {RS : RiskSources}.
Context (resolve : PurePosixPath.t -> PurePosixPath.t).
Context (active : Z -> string -> bool)
  (inspect : string -> result OperationStore.op_error (string * bool)).

(** The states of the four components; [ops] when an operation store is
    configured. *)
Record services := mk_services {
  queue : Q;
  files : artifact_store;
  trusted : world R L;
  ops : option OperationStore.db;
}.

(** What a call meets in its surroundings: the clock, the process, and the
    failures of the disk while an artifact is applied. *)
Record clock := mk_clock {
  now : Z;
  now_text : string;
  process : OperationStore.owner;
  disk : disk_faults;
}.

Definition op (A : Type) : Type := services -> services * result service_error A.

Definition with_queue (s : services) (q : Q) : services := mk_services q (files s) (trusted s) (ops s).
Definition with_trusted (s : services) (w : world R L) : services :=
  mk_services (queue s) (files s) w (ops s).
Definition with_ops (s : services) (o : OperationStore.db) : services :=
  mk_services (queue s) (files s) (trusted s) (Some o).

Definition list_queued (s : services) (st : option ApprovalStatus) : result service_error (list Queued.t) :=
  map_err QueueFailure (queue_list (queue s) st).

Definition _queued_for_artifact (s : services) (artifact_id : string) : result service_error Queued.t :=
  items ← list_queued s None;
  match List.filter (fun q => bool_decide (_artifact_id_from_request q = Some artifact_id)) items with
  | [] => Raise (ApprovalArtifactBindingError
                   ("No approval is bound to patch artifact: " +++ artifact_id))
  | [q] => Ok q
  | _ => Raise (ApprovalArtifactBindingError
                  "Multiple approvals are bound to the same patch artifact.")
  end.

(** [metadata.get("patch_sha256", request.target)] *)
Definition request_patch_sha (r : ApprovalRequest.t) : pyval :=
  default (ApprovalRequest.target r) (dict_lookup (ApprovalRequest.metadata r) "patch_sha256").

Definition request_baseline_is (r : ApprovalRequest.t) (baseline : string) : bool :=
  match dict_get (ApprovalRequest.metadata r) "baseline_commit_sha" with
  | PNone => true
  | v => py_eq v (PStr baseline)
  end.

Definition _load_bound_artifact (s : services) (t : Z) (q : Queued.t) (allow_expired allow_consumed : bool)
    : result service_error PatchArtifact.t :=
  match _artifact_id_from_request q with
  | None => Raise (ApprovalArtifactBindingError
                     "Approval request has no durable patch artifact binding.")
  | Some artifact_id =>
      artifact ← map_err wrap_artifact_error (load (files s) artifact_id allow_expired allow_consumed t);
      _ ← ensure (String.eqb (PatchArtifact.approval_request_id artifact) (Queued.approval_id q))
            (ApprovalArtifactBindingError
               "Patch artifact is bound to a different approval request.");
      _ ← ensure (py_eq (request_patch_sha (Queued.request q)) (PStr (PatchArtifact.patch_sha256 artifact)))
            (ApprovalArtifactBindingError
               "Approval patch digest does not match its durable artifact.");
      _ ← ensure (request_baseline_is (Queued.request q) (PatchArtifact.baseline_commit_sha artifact))
            (ApprovalArtifactBindingError "Approval baseline does not match its durable artifact.");
      Ok artifact
  end.

Definition _view_for_queued (s : services) (t : Z) (q : Queued.t)
    : result service_error ApprovalArtifactView :=
  artifact ← _load_bound_artifact s t q true true;
  patch_diff ← map_err Escaped (to_patch_diff artifact);
  is_expired ← map_err Escaped (expired artifact t);
  let r := Queued.request q in
  let d := Queued.decision q in
  Ok (mk_view (Queued.approval_id q) (approval_status_value (Queued.status q))
        (ApprovalRequest.created_at r) (ApprovalRequest.requested_by r)
        (severity_value (ApprovalRequest.severity r)) (ApprovalRequest.reason r)
        (PatchArtifact.artifact_id artifact) (PatchArtifact.state artifact) is_expired
        (PatchArtifact.created_at artifact) (PatchArtifact.expires_at artifact)
        (PatchArtifact.patch_sha256 artifact) (PatchArtifact.patch_size_bytes artifact)
        (PatchArtifact.baseline_commit_sha artifact)
        (Z.of_nat (List.length (PatchDiff.files patch_diff)))
        ((fun x => approval_status_value (ApprovalDecision.status x)) <$> d)
        (x ← d; ApprovalDecision.decided_by x) (x ← d; ApprovalDecision.decided_at x)
        (ApprovalDecision.reason <$> d)).

Definition list_views (s : services) (t : Z) (st : option ApprovalStatus)
    : result service_error (list ApprovalArtifactView) :=
  items ← list_queued s st;
  mapR (_view_for_queued s t)
    (List.filter (fun q => negb (bool_decide (_artifact_id_from_request q = None))) items).

Definition inspect_approval (s : services) (t : Z) (approval_id : string)
    : result service_error ApprovalArtifactView :=
  q ← map_err QueueFailure (queue_get (queue s) approval_id); _view_for_queued s t q.

Definition inspect_artifact (s : services) (t : Z) (artifact_id : string)
    : result service_error ApprovalArtifactView :=
  q ← _queued_for_artifact s artifact_id; _view_for_queued s t q.

(** *** Decisions *)

(** The recording of a decision, its audit event, and the view returned. *)
Definition record_and_view (t : Z) (approval_id : string) (decision : ApprovalDecision.t)
    : op ApprovalArtifactView := fun s =>
  match queue_record (queue s) approval_id decision with
  | (q', Raise e) => (with_queue s q', Raise (wrap_queue_error e))
  | (q', Ok updated) =>
      let s1 := with_queue s q' in
      match _required_decision updated with
      | Raise e => (s1, Raise e)
      | Ok d =>
          let '(request, policy_decision, payload) := decision_event (Queued.request updated) d in
          match log_event request policy_decision payload (trusted s1) with
          | (w', Raise text) => (with_trusted s1 w', Raise (AuditFailure text))
          | (w', Ok _) => let s2 := with_trusted s1 w' in (s2, _view_for_queued s2 t updated)
          end
      end
  end.

Definition decide_with (c : clock) (approval_id : string) (allow : bool)
    (decision_of : Queued.t -> PatchArtifact.t -> result exn ApprovalDecision.t)
    : op ApprovalArtifactView := fun s =>
  match (q ← map_err QueueFailure (queue_get (queue s) approval_id);
         artifact ← _load_bound_artifact s (now c) q allow allow;
         map_err wrap_approval_error (decision_of q artifact)) with
  | Raise e => (s, Raise e)
  | Ok decision => record_and_view (now c) approval_id decision s
  end.

Definition approve (c : clock) (approval_id decided_by reason : string) : op ApprovalArtifactView :=
  decide_with c approval_id false (fun q artifact =>
    approve_patch_request (Queued.request q) decided_by reason
      (Some (PatchArtifact.patch_sha256 artifact)) (now_text c)).

Definition reject (c : clock) (approval_id decided_by reason : string) : op ApprovalArtifactView :=
  decide_with c approval_id true (fun q artifact =>
    reject_patch_request (Queued.request q) decided_by reason
      (Some (PatchArtifact.patch_sha256 artifact)) (now_text c)).

(** *** Applying *)

(** [artifact_store.apply_approved(...)] on the states of the service. *)
Definition run_apply (c : clock) (artifact_id target : string) (request : ApprovalRequest.t)
    (decision : ApprovalDecision.t) (s : services) : services * result exn ApprovedPatchApplyResult :=
  let '((f', w'), r) := apply_approved resolve (disk c) artifact_id target request decision (now c)
                          (files s, trusted s) in
  (mk_services (queue s) f' w' (ops s), r).

(** [result.get(key, default)] of the stored result, as text. *)
Definition result_text (stored : option json) (key : string) (dflt : string) : string :=
  match stored with
  | Some (JDict d) => match jget d key with Some v => json_str v | None => dflt end
  | _ => dflt
  end.

Definition _replayed_apply_result (artifact : PatchArtifact.t) (q : Queued.t) (stored : option json)
    (target : string) : result service_error ApprovedPatchApplyResult :=
  decision ← _required_decision q;
  d ← map_err Escaped (to_patch_diff artifact);
  report ← map_err Escaped (to_risk_report artifact);
  Ok (mk_approved_result (result_text stored "target_repo_path" (resolve_path target))
        (PatchArtifact.patch_sha256 artifact) (PatchArtifact.baseline_commit_sha artifact)
        (Queued.approval_id q)
        (Some (result_text stored "approved_by"
                 (py_str (of_opt_str (ApprovalDecision.decided_by decision)))))
        (List.map PatchFileDiff.path (PatchDiff.files d)) report).

(** [except (ApprovedPatchApplyError, PatchArtifactError)] *)
Definition is_apply_error (e : exn) : bool :=
  String.eqb (exn_name e) "ApprovedPatchApplyError" || is_artifact_error e.

(** ... [, OSError, RuntimeError)] *)
Definition is_runtime_failure (e : exn) : bool :=
  is_apply_error e || bool_decide (exn_base e ∈ [OSError; RuntimeError]).

Definition wrap_reserve_error (e : OperationStore.op_error) : service_error :=
  match e with
  | OperationStore.OpIntegrityError => StoreFailure e
  | _ => ApprovalOperationStateError (OperationStore.error_message e)
  end.

Definition apply_args_of (artifact : PatchArtifact.t) (q : Queued.t) (target : string)
    : OperationStore.apply_args :=
  OperationStore.mk_args (PatchArtifact.artifact_id artifact) (Queued.approval_id q)
    (PatchArtifact.patch_sha256 artifact) (PatchArtifact.baseline_commit_sha artifact)
    (resolve_path target).

(** The failure of the apply with a reservation in the state applying. *)
Definition handle_failure (c : clock) (reservation : OperationStore.reservation)
    (o : OperationStore.db) (e : exn) : op ApprovedPatchApplyResult := fun s =>
  match OperationStore.fail_or_preserve_ambiguous inspect o reservation
          (OperationStore.o_now (process c)) (exn_text e) with
  | Raise OperationStore.OpIntegrityError => (s, Raise (StoreFailure OperationStore.OpIntegrityError))
  | Raise _ =>
      (s, Raise (ApprovalOperationError
             ("Artifact application failed and its durable operation state could " +++
              "not be finalized safely.")))
  | Ok (o', true) => (with_ops s o', Raise (ApprovalOperationError (exn_text e)))
  | Ok (o', false) =>
      (with_ops s o', Raise (ApprovalOperationStateError
             ("Artifact application may have mutated the trusted repository, but durable " +++
              "completion was not established. Run crash recovery before continuing.")))
  end.

(** The apply with a reservation in the state applying. *)
Definition apply_reserved (c : clock) (reservation : OperationStore.reservation) (o : OperationStore.db)
    (artifact_id target : string) (q : Queued.t) (decision : ApprovalDecision.t)
    : op ApprovedPatchApplyResult := fun s =>
  match run_apply c artifact_id target (Queued.request q) decision s with
  | (s1, Raise e) => if is_runtime_failure e then handle_failure c reservation o e s1 else (s1, Raise (Escaped e))
  | (s1, Ok result) =>
      let stored := default JNull (to_json (of_dict (approved_audit_summary result))) in
      match OperationStore.mark_applied o reservation (OperationStore.o_now (process c)) stored with
      | Raise OperationStore.OpIntegrityError => (s1, Raise (StoreFailure OperationStore.OpIntegrityError))
      | Raise _ =>
          (s1, Raise (ApprovalOperationStateError
                  ("Patch applied, but durable operation completion could not be recorded. " +++
                   "Run crash recovery before continuing.")))
      | Ok (o', _) => (with_ops s1 o', Ok result)
      end
  end.

(** What [apply_artifact] reads before it changes anything. *)
Definition apply_context (s : services) (t : Z) (artifact_id : string)
    : result service_error (Queued.t * ApprovalDecision.t * PatchArtifact.t) :=
  q ← _queued_for_artifact s artifact_id;
  _ ← ensure (bool_decide (Queued.status q = APPROVED))
        (ApprovalOperationStateError
           ("Patch artifact cannot be applied because its approval status is '" +++
            approval_status_value (Queued.status q) +++ "'."));
  decision ← _required_decision q;
  artifact ← _load_bound_artifact s t q true true;
  Ok (q, decision, artifact).

Definition apply_artifact (c : clock) (artifact_id target : string) : op ApprovedPatchApplyResult := fun s =>
  match apply_context s (now c) artifact_id with
  | Raise e => (s, Raise e)
  | Ok (q, decision, artifact) =>
      match ops s with
      | None =>
          let '(s1, r) := run_apply c artifact_id target (Queued.request q) decision s in
          (s1, map_err (fun e => if is_apply_error e then ApprovalOperationError (exn_text e)
                                 else Escaped e) r)
      | Some o =>
          match OperationStore.reserve_artifact_apply active o (apply_args_of artifact q target)
                  (process c) with
          | Raise e => (s, Raise (wrap_reserve_error e))
          | Ok (o1, reservation) =>
              let s1 := with_ops s o1 in
              if OperationStore.replayed reservation then
                (s1, _replayed_apply_result artifact q
                       (OperationStore.row_result (OperationStore.record reservation)) target)
              else
                match OperationStore.mark_applying o1 reservation (OperationStore.o_now (process c)) with
                | Raise e => (s1, Raise (StoreFailure e))
                | Ok (o2, applying) =>
                    apply_reserved c (OperationStore.mk_reservation applying true false) o2
                      artifact_id target q decision (with_ops s o2)
                end
          end
      end
  end.
End Service.

#[global] Arguments services : clear implicits.
#[global] Arguments mk_services {Q R L} queue files trusted ops.

(** ** Lemmas *)

Section Facts.
Context `{AH : ArtifactHost}.
Context {Q R L : Type} {QO : ApprovalQueueOps Q} {GR : GitRepo R} {AA : ApplyAudit L} {RS : RiskSources}.
Context (resolve : PurePosixPath.t -> PurePosixPath.t).
Context (active : Z -> string -> bool)
  (inspect : string -> result OperationStore.op_error (string * bool)).
Local Notation services := (services Q R L).

Local Opaque sha256_hex.

Lemma require_identifier_strip id label :
  _require_identifier (strip id) label = _require_identifier id label.
Proof. unfold _require_identifier. by rewrite strip_no_space_ends. Qed.

(** An identifier is read up to the blanks around it. *)
Lemma load_strip s id ae ac t a :
  load s id ae ac t = Ok a <-> identifier (strip id) /\ load s (strip id) ae ac t = Ok a.
Proof.
  unfold load. rewrite require_identifier_strip.
  destruct (_require_identifier id "artifact ID") as [n|e] eqn:E; cbn [mbind result_bind];
    [|by split; [|intros [_ ?]]].
  apply require_identifier_inv in E as [Hn E]. rewrite <- Hn.
  assert (Hand : forall P : Prop, identifier n /\ P <-> P)
    by (intros P; split; [intros [_ H]|intros H; split]; assumption).
  rewrite Hand.
  destruct (st_files s !! n) as [[text|m|]|]; [| |done|done].
  2: { by destruct (ensure _ _). }
  destruct (ensure _ _); cbn [mbind result_bind]; [|done].
  destruct (loads text) as [payload|]; [|done].
  destruct (_artifact_from_payload payload) as [x|]; cbn [mbind result_bind]; [|done].
  destruct (_verify_artifact x) as [[]|]; cbn [mbind result_bind]; [|done].
  destruct (String.eqb _ n); cbn [ensure mbind result_bind]; [|done].
  destruct (negb (_ && _)); cbn [ensure mbind result_bind]; [|by split].
  destruct (expired x t) as [y|]; cbn [mbind result_bind]; [|done].
  destruct (negb (_ && _)); [done|by split].
Qed.

(** The binding of an approval to its stored artifact. *)
Record bound (s : services) (q : Queued.t) (id : string) (a : PatchArtifact.t) : Prop := mk_bound {
  b_named : _artifact_id_from_request q = Some id;
  b_identifier : identifier (strip id);
  b_stored : stored_artifact (files s) (strip id) a;
  b_approval : PatchArtifact.approval_request_id a = Queued.approval_id q;
  b_digest : py_eq (request_patch_sha (Queued.request q)) (PStr (PatchArtifact.patch_sha256 a)) = true;
  b_baseline : request_baseline_is (Queued.request q) (PatchArtifact.baseline_commit_sha a) = true;
}.

Lemma map_err_Ok_inv {E F A} (f : E -> F) (m : result E A) a : map_err f m = Ok a -> m = Ok a.
Proof. by destruct m as [x|e]; intros [= ->]. Qed.

Lemma load_bound_inv s t q ae ac a :
  _load_bound_artifact s t q ae ac = Ok a -> exists id, bound s q id a.
Proof.
  unfold _load_bound_artifact. destruct (_artifact_id_from_request q) as [id|] eqn:E; [|done].
  intros (x & Hl%map_err_Ok_inv & H)%bind_Ok_inv.
  apply bind_Ok_inv in H as ([] & H1%ensure_Ok & H). apply bind_Ok_inv in H as ([] & H2%ensure_Ok & H).
  apply bind_Ok_inv in H as ([] & H3%ensure_Ok & [= ->]). apply String.eqb_eq in H1.
  apply load_strip in Hl as [Hid Hl]. apply load_iff in Hl as [Hst _]; [|done]. by exists id.
Qed.

(** An artifact in any state can be loaded for its approval. *)
Lemma load_bound_Ok s t q id a :
  bound s q id a -> _load_bound_artifact s t q true true = Ok a.
Proof.
  intros [Hn Hid Hst Ha Hd Hb]. unfold _load_bound_artifact. rewrite Hn.
  assert (Hl : load (files s) (strip id) true true t = Ok a).
  { apply load_iff; [done|]. split; [done|]. split; [done|].
    destruct (ok_times _ (stored_ok _ _ _ Hst)) as (cr & ex & _ & He & _).
    exists (ex <? t)%Z. split; [|done]. unfold expired. by rewrite He. }
  assert (Hl' : load (files s) id true true t = Ok a).
  { by apply load_strip. }
  rewrite Hl'. cbn [map_err mbind result_bind]. rewrite Ha, String.eqb_refl, Hd, Hb. done.
Qed.

Lemma queued_inv (s : services) id q :
  _queued_for_artifact s id = Ok q -> _artifact_id_from_request q = Some id.
Proof.
  unfold _queued_for_artifact. intros (items & _ & H)%bind_Ok_inv.
  destruct (List.filter _ items) as [|x [|y l]] eqn:E; [done| |done]. injection H as ->.
  assert (Hin : In q (List.filter
    (fun q => bool_decide (_artifact_id_from_request q = Some id)) items)) by (rewrite E; by left).
  apply filter_In in Hin as [_ Hin]. by apply bool_decide_eq_true in Hin.
Qed.

Lemma context_inv (s : services) t id q dec a :
  apply_context s t id = Ok (q, dec, a) ->
  _queued_for_artifact s id = Ok q /\ Queued.status q = APPROVED /\
  Queued.decision q = Some dec /\ bound s q id a.
Proof.
  unfold apply_context. intros (x & Hq & H)%bind_Ok_inv.
  apply bind_Ok_inv in H as ([] & Hs%ensure_Ok & H). apply bool_decide_eq_true in Hs.
  apply bind_Ok_inv in H as (d & Hd & H). unfold _required_decision in Hd.
  destruct (Queued.decision x) as [d'|] eqn:E; [|done]. injection Hd as ->.
  apply bind_Ok_inv in H as (b & [id' Hb]%load_bound_inv & [= -> -> ->]).
  split_and!; try done. pose proof (queued_inv _ _ _ Hq) as Hn.
  assert (id' = id) as -> by (pose proof (b_named _ _ _ _ Hb); congruence). done.
Qed.

(** The key of the operation that applies the artifact. *)
Definition operation_of (a : PatchArtifact.t) (q : Queued.t) (target : string) : string :=
  OperationStore.artifact_apply_operation_key (apply_args_of a q target).

Definition applied_in (o : option OperationStore.db) (key : string) : Prop :=
  exists d row, o = Some d /\ OperationStore.operations d !! key = Some row /\
    OperationStore.state row = OperationStore.APPLIED.

(** The repository and the used approvals are as before. *)
Definition unpatched (w w' : world R L) : Prop := w_repo w' = w_repo w /\ w_used w' = w_used w.

(** The operation cannot be reserved again, or its repository was found clean
    at the baseline. *)
Definition held_in (o : option OperationStore.db) (key path baseline : string) : Prop :=
  exists d row, o = Some d /\ OperationStore.operations d !! key = Some row /\
    (OperationStore.state row = OperationStore.APPLYING \/
     (OperationStore.state row = OperationStore.OP_FAILED /\
      exists hc, inspect path = Ok hc /\ fst hc = lower baseline /\ snd hc = true)).

(** The patch was applied now. *)
Record applied_now (c : clock) (s s' : services) (q : Queued.t) (dec : ApprovalDecision.t)
    (id target : string) (a : PatchArtifact.t) : Prop := mk_applied_now {
  an_application : exists d report,
    application resolve (files s) (strip id) target (Queued.request q) dec (now c)
      (trusted s) (trusted s') a d report;
  an_files : files s' = put_file (files s) (strip id) (RegularText (consumed_text a (now c)));
  an_spent : spent (files s') (strip id);
  an_queue : queue s' = queue s;
}.

Lemma run_apply_inv c id target q dec a (s s1 : services) res :
  run_apply resolve c id target (Queued.request q) dec s = (s1, Ok res) -> bound s q id a ->
  applied_now c s s1 q dec id target a /\ ops s1 = ops s.
Proof.
  unfold run_apply. destruct (apply_approved _ _ _ _ _ _ _ _) as [[f' w'] r] eqn:E.
  intros [= <- ->] Hb.
  apply apply_approved_inv in E as [Hk [(_ & _ & _ & e & ?)|(_ & _ & a' & d & report & Ha & H)]]; [done|].
  destruct H as [(Hf & Hs)|(_ & e & ?)]; [|done]. apply locks_after_Ok in Hk.
  assert (a' = a) as ->.
  { eapply stored_unique; [exact (proj1 (ap_stored _ _ _ _ _ _ _ _ _ _ _ _ Ha))|apply Hb]. }
  split; [|done]. constructor; cbn [files trusted queue]; [by exists d, report| |done|done].
  destruct f' as [fs ls]. cbn in Hf, Hk. by rewrite Hf, Hk.
Qed.

Lemma apply_reserved_inv c rsv o id target q dec a (s s' : services) res :
  apply_reserved resolve inspect c rsv o id target q dec s = (s', Ok res) -> bound s q id a ->
  applied_now c s s' q dec id target a /\
  applied_in (ops s') (OperationStore.operation_key (OperationStore.record rsv)).
Proof.
  unfold apply_reserved. destruct (run_apply _ _ _ _ _ _ _) as [s1 [result|e]] eqn:E; intros H Hb.
  2: { destruct (is_runtime_failure e); [|done]. unfold handle_failure in H.
       by destruct (OperationStore.fail_or_preserve_ambiguous _ _ _ _ _) as [[o' []]|[]]. }
  apply run_apply_inv with (a := a) in E as [[Ha Hf Hs Hq] _]; [|done].
  destruct (OperationStore.mark_applied _ _ _ _) as [[o' row]|[]] eqn:Em; [|done..].
  injection H as <- _. split; [by constructor|].
  apply OperationStore.owned_transition_Ok in Em as (r & Hr & _ & _ & -> & Ho).
  exists o'. eexists. split; [done|]. rewrite Ho. split; [apply lookup_insert_eq|done].
Qed.

(** The two ways an apply returns. *)
Lemma apply_artifact_inv c id target (s s' : services) res :
  apply_artifact resolve active inspect c id target s = (s', Ok res) ->
  exists q dec a,
    _queued_for_artifact s id = Ok q /\ Queued.status q = APPROVED /\
    Queued.decision q = Some dec /\ bound s q id a /\
    ((s' = s /\ applied_in (ops s) (operation_of a q target)) \/
     (applied_now c s s' q dec id target a /\
      (ops s = None \/ applied_in (ops s') (operation_of a q target)))).
Proof.
  unfold apply_artifact. destruct (apply_context s (now c) id) as [[[q dec] a]|e] eqn:E; [|done].
  apply context_inv in E as (Hq & Hs & Hd & Hb). intros H. exists q, dec, a. split_and!; try done.
  destruct (ops s) as [o|] eqn:Eo.
  2: { destruct (run_apply _ _ _ _ _ _ _) as [s1 [r|e]] eqn:E; [|done]. injection H as <- _.
       apply run_apply_inv with (a := a) in E as [Ha _]; [|done]. right. auto. }
  destruct (OperationStore.reserve_artifact_apply _ _ _ _) as [[o1 rsv]|e] eqn:Er; [|done].
  apply OperationStore.reserve_Ok in Er as [(-> & _ & Hrep & Hrow & Hst)|(o0 & _ & Hacq & _)].
  { rewrite Hrep in H. injection H as <- _. left. split; [by destruct s; cbn in Eo |- *; subst|].
    exists o, (OperationStore.record rsv). done. }
  apply OperationStore.acquire_Ok in Hacq as (_ & _ & _ & -> & ->).
  cbn [OperationStore.replayed] in H.
  destruct (OperationStore.mark_applying _ _ _) as [[o2 applying]|e] eqn:Ea; [|done].
  apply OperationStore.owned_transition_Ok in Ea as (r & Hr & _ & _ & -> & _).
  cbn [OperationStore.record OperationStore.operations] in Hr. rewrite lookup_insert_eq in Hr.
  injection Hr as <-.
  apply apply_reserved_inv with (a := a) in H as [[Ha Hf Hsp Hqu] Hk].
  2: { destruct Hb. by constructor. }
  right. split; [by constructor|]. right. exact Hk.
Qed.

(** After the application the stored artifact is the one applied, consumed. *)
Lemma bound_after c (s s' s2 : services) q dec id target a :
  applied_now c s s' q dec id target a -> bound s q id a -> files s2 = files s' ->
  bound s2 q id (canon_artifact (_with_integrity_digest (PatchArtifact.consumed a (iso_format (now c))))).
Proof.
  intros Ha Hb Hf. assert (Hfile : st_files (files s2) !! strip id
    = Some (RegularText (consumed_text a (now c)))).
  { rewrite Hf, (an_files _ _ _ _ _ _ _ _ Ha). cbn [put_file st_files]. by rewrite lookup_insert_eq. }
  destruct (an_spent _ _ _ _ _ _ _ _ Ha) as [Hn|(b & Hst & _)]; rewrite <- Hf in *; [congruence|].
  assert (b = canon_artifact (_with_integrity_digest (PatchArtifact.consumed a (iso_format (now c)))))
    as -> by (eapply written_stored; [exact Hfile|eapply consumed_wf, Hb|exact Hst]).
  destruct Hb as [H1 H2 H3 H4 H5 H6]. by constructor.
Qed.

Lemma context_Ok (s : services) t id q dec a :
  _queued_for_artifact s id = Ok q -> Queued.status q = APPROVED -> Queued.decision q = Some dec ->
  bound s q id a -> apply_context s t id = Ok (q, dec, a).
Proof.
  intros Hq Hs Hd Hb. unfold apply_context.
  rewrite Hq. cbn [mbind result_bind]. rewrite Hs. cbn [ensure mbind result_bind].
  rewrite bool_decide_eq_true_2 by done. cbn [ensure mbind result_bind].
  unfold _required_decision. rewrite Hd. cbn [mbind result_bind].
  by rewrite (load_bound_Ok _ _ _ _ _ Hb).
Qed.

(** An operation that is applied is only replayed. *)
Lemma applied_replays c (s : services) q dec a o row id target :
  _queued_for_artifact s id = Ok q -> Queued.status q = APPROVED -> Queued.decision q = Some dec ->
  bound s q id a -> ops s = Some o ->
  OperationStore.operations o !! operation_of a q target = Some row ->
  OperationStore.state row = OperationStore.APPLIED ->
  apply_artifact resolve active inspect c id target s
  = (s, _replayed_apply_result a q (OperationStore.row_result row) target).
Proof.
  intros Hq Hs Hd Hb Ho Hrow Hst. unfold apply_artifact.
  rewrite (context_Ok _ _ _ _ _ _ Hq Hs Hd Hb), Ho.
  unfold OperationStore.reserve_artifact_apply. unfold operation_of in Hrow. rewrite Hrow, Hst.
  cbn [OperationStore.replayed OperationStore.record].
  assert (with_ops s o = s) as -> by (destruct s; cbn in Ho |- *; by subst). done.
Qed.

Lemma run_apply_failed c id target q dec a (s s1 : services) e :
  run_apply resolve c id target (Queued.request q) dec s = (s1, Raise e) -> bound s q id a ->
  ops s1 = ops s /\
  (unpatched (trusted s) (trusted s1) \/ artifact_key a ∈ w_used (trusted s1)).
Proof.
  unfold run_apply. destruct (apply_approved _ _ _ _ _ _ _ _) as [[f' w'] r] eqn:E.
  intros [= <- ->] Hb. split; [done|]. cbn [trusted].
  apply apply_approved_inv in E as [_ [(_ & Hr & Hu & _)|(_ & _ & a' & d & report & Ha & _)]]; [by left|].
  right. rewrite (ap_used _ _ _ _ _ _ _ _ _ _ _ _ Ha).
  assert (a' = a) as ->; [|by left].
  eapply stored_unique; [exact (proj1 (ap_stored _ _ _ _ _ _ _ _ _ _ _ _ Ha))|apply Hb].
Qed.

(** The reservation after a failure: still applying, or released because the
    repository was found unmodified. *)
Lemma handle_failure_inv c rsv o e (s s' : services) r row :
  handle_failure inspect c rsv o e s = (s', r) -> ops s = Some o ->
  OperationStore.operations o !! OperationStore.operation_key (OperationStore.record rsv) = Some row ->
  OperationStore.state row = OperationStore.APPLYING ->
  trusted s' = trusted s /\
  held_in (ops s') (OperationStore.operation_key (OperationStore.record rsv))
    (OperationStore.target_repo_path row) (OperationStore.baseline_commit_sha row).
Proof.
  intros H Ho Hrow Hst. unfold handle_failure in H.
  assert (Hsame : held_in (ops s) (OperationStore.operation_key (OperationStore.record rsv))
    (OperationStore.target_repo_path row) (OperationStore.baseline_commit_sha row)).
  { exists o, row. auto. }
  destruct (OperationStore.fail_or_preserve_ambiguous _ _ _ _ _) as [[o' b]|x] eqn:E.
  2: { destruct x; injection H as <- _; done. }
  unfold OperationStore.fail_or_preserve_ambiguous in E. rewrite Hrow in E.
  apply bind_Ok_inv in E as (hc & Hi & E).
  destruct (OperationStore.unmodified row hc) eqn:Eu.
  2: { injection E as <- <-. injection H as <- _. split; [done|]. exists o, row. auto. }
  apply bind_Ok_inv in E as ([o2 r2] & E & [= <- <-]). injection H as <- _. split; [done|].
  apply OperationStore.owned_transition_Ok in E as (r1 & Hr1 & _ & _ & -> & Ho2).
  exists o2. eexists. split; [done|]. rewrite Ho2. split; [apply lookup_insert_eq|]. right.
  split; [done|]. apply andb_true_iff in Eu as [Eh Ec]. apply String.eqb_eq in Eh.
  exists hc. auto.
Qed.

Lemma apply_reserved_failed c rsv o row id target q dec a (s s' : services) e :
  apply_reserved resolve inspect c rsv o id target q dec s = (s', Raise e) -> bound s q id a ->
  ops s = Some o ->
  OperationStore.operations o !! OperationStore.operation_key (OperationStore.record rsv) = Some row ->
  OperationStore.state row = OperationStore.APPLYING ->
  unpatched (trusted s) (trusted s') \/
  (artifact_key a ∈ w_used (trusted s') /\
   held_in (ops s') (OperationStore.operation_key (OperationStore.record rsv))
     (OperationStore.target_repo_path row) (OperationStore.baseline_commit_sha row)).
Proof.
  unfold apply_reserved. intros H Hb Ho Hrow Hst.
  destruct (run_apply _ _ _ _ _ _ _) as [s1 [result|x]] eqn:E.
  - apply run_apply_inv with (a := a) in E as [[(d & report & Ha) _ _ _] Ho1]; [|done]. right.
    assert (trusted s' = trusted s1 /\ ops s' = Some o) as [-> ->].
    { destruct (OperationStore.mark_applied _ _ _ _) as [[o' r']|y]; [done|].
      destruct y; injection H as <- _; rewrite Ho1; done. }
    rewrite (ap_used _ _ _ _ _ _ _ _ _ _ _ _ Ha). split; [by left|]. exists o, row. auto.
  - apply run_apply_failed with (a := a) in E as [Ho1 Hu]; [|done]. rewrite <- Ho1 in Ho.
    assert (trusted s' = trusted s1 /\
      held_in (ops s') (OperationStore.operation_key (OperationStore.record rsv))
        (OperationStore.target_repo_path row) (OperationStore.baseline_commit_sha row)) as [-> Hh].
    { destruct (is_runtime_failure x); [by eapply handle_failure_inv|]. injection H as <- _.
      split; [done|]. exists o, row. auto. }
    destruct Hu as [Hu|Hu]; [by left|by right].
Qed.
(** An apply that no operation precedes is the apply of the store. *)
Lemma fresh_apply c (s : services) id target q dec a f' w' r :
  _queued_for_artifact s id = Ok q -> Queued.status q = APPROVED -> Queued.decision q = Some dec ->
  bound s q id a -> ops s = Some (OperationStore.mk_db ∅ ∅) ->
  apply_approved resolve (disk c) id target (Queued.request q) dec (now c) (files s, trusted s) = ((f', w'), r) ->
  exists s' r', apply_artifact resolve active inspect c id target s = (s', r') /\
    trusted s' = w' /\ is_ok r' = is_ok r.
Proof.
  intros Hq Hs Hd Hb Ho E. unfold apply_artifact.
  rewrite (context_Ok _ _ _ _ _ _ Hq Hs Hd Hb), Ho, OperationStore.reserve_on_empty.
  cbn [OperationStore.replayed].
  unfold OperationStore.mark_applying, OperationStore._owned_transition.
  cbn [OperationStore.record OperationStore.operations]. rewrite lookup_singleton_eq.
  cbn [OperationStore.new_row OperationStore.state OperationStore.owner_token].
  rewrite bool_decide_eq_true_2, String.eqb_refl by done. cbn [andb].
  unfold apply_reserved, run_apply. cbn [files trusted with_ops queue ops]. rewrite E.
  destruct r as [res|e].
  - destruct (OperationStore.mark_applied _ _ _ _) as [[o' r']|y] eqn:Em; [by eexists _, _|].
    exfalso. revert Em. unfold OperationStore.mark_applied, OperationStore._owned_transition.
    cbn [OperationStore.record OperationStore.operations OperationStore.update_row
      OperationStore.operation_key OperationStore.new_row].
    rewrite lookup_insert_eq. cbn [OperationStore.state OperationStore.owner_token].
    rewrite bool_decide_eq_true_2, String.eqb_refl by done. done.
  - destruct (is_runtime_failure e); [|by eexists _, _].
    unfold handle_failure.
    destruct (OperationStore.fail_or_preserve_ambiguous _ _ _ _ _) as [[o' []]|[]]; by eexists _, _.
Qed.
End Facts.

(** ** Theorems *)

Section Theorems.
Context `{AH : ArtifactHost}.
Context {Q R L : Type} {QO : ApprovalQueueOps Q} {GR : GitRepo R} {AA : ApplyAudit L} {RS : RiskSources}.
Context (resolve : PurePosixPath.t -> PurePosixPath.t).
Context (active : Z -> string -> bool)
  (inspect : string -> result OperationStore.op_error (string * bool)).
Local Notation services := (services Q R L).

(** C20 An apply through the service that returns was for the one queued approval
    that names the artifact, approved and decided and bound to the stored
    artifact in identifier, digest and baseline; either the operation had been
    applied before and nothing changed, or the store applied that patch now,
    under all the preconditions of an approved apply, the artifact is spent,
    and, when the service has an operation store, the operation is recorded as
    applied there. *)
Theorem service_applies_the_bound_approval c id target (s s' : services) res :
  apply_artifact resolve active inspect c id target s = (s', Ok res) ->
  exists q dec a,
    _queued_for_artifact s id = Ok q /\ Queued.status q = APPROVED /\
    Queued.decision q = Some dec /\ bound s q id a /\
    ((s' = s /\ applied_in (ops s) (operation_of a q target)) \/
     (applied_now resolve c s s' q dec id target a /\
      (ops s = None \/ applied_in (ops s') (operation_of a q target)))).
Proof. apply apply_artifact_inv. Qed.

(** C21 Retrying an apply that succeeded is a replay: whatever happened to the
    trusted repository, the audit log and the clock since, while the queue, the
    artifacts and the operations are as the apply left them, the second call
    changes no state and answers from the operation record and the same
    patch. *)
Theorem retried_apply_is_a_replay c c2 id target (s s' s2 : services) res :
  apply_artifact resolve active inspect c id target s = (s', Ok res) -> ops s <> None ->
  queue s2 = queue s' -> files s2 = files s' -> ops s2 = ops s' ->
  exists q a a2 o row,
    _queued_for_artifact s id = Ok q /\ bound s q id a /\ bound s2 q id a2 /\
    PatchArtifact.patch_base64 a2 = PatchArtifact.patch_base64 a /\
    PatchArtifact.patch_sha256 a2 = PatchArtifact.patch_sha256 a /\
    PatchArtifact.baseline_commit_sha a2 = PatchArtifact.baseline_commit_sha a /\
    ops s2 = Some o /\ OperationStore.operations o !! operation_of a q target = Some row /\
    OperationStore.state row = OperationStore.APPLIED /\
    apply_artifact resolve active inspect c2 id target s2
    = (s2, _replayed_apply_result a2 q (OperationStore.row_result row) target).
Proof.
  intros (q & dec & a & Hq & Hs & Hd & Hb & H)%apply_artifact_inv Hops Eq Ef Eo.
  assert (Hq2 : _queued_for_artifact s2 id = Ok q).
  { rewrite <- Hq. unfold _queued_for_artifact, list_queued. rewrite Eq.
    by destruct H as [(-> & _)|([_ _ _ ->] & _)]. }
  destruct H as [(-> & o & row & Ho & Hrow & Hst)|(Hnow & [?|(o & row & Ho & Hrow & Hst)])]; [|done|].
  - assert (Hb2 : bound s2 q id a).
    { destruct Hb as [? ? ? ? ? ?]. constructor; try done. by rewrite Ef. }
    exists q, a, a, o, row. rewrite Eo. split_and!; try done.
    eapply applied_replays; try done. by rewrite Eo.
  - pose proof (bound_after _ _ _ _ _ _ _ _ _ _ Hnow Hb Ef) as Hb2.
    eexists q, a, _, o, row. rewrite Eo. split_and!; try done.
    eapply applied_replays; try done. by rewrite Eo.
Qed.

(** C22 An apply that raises has left the repository and the used approvals as
    they were, or the approval is used up and its operation is still applying
    or was released because the repository was found clean at the baseline. *)
Theorem failed_service_apply c id target (s s' : services) e :
  apply_artifact resolve active inspect c id target s = (s', Raise e) ->
  unpatched (trusted s) (trusted s') \/
  exists q a, _queued_for_artifact s id = Ok q /\ bound s q id a /\
    artifact_key a ∈ w_used (trusted s') /\
    (ops s = None \/ held_in inspect (ops s') (operation_of a q target) (resolve_path target)
                       (PatchArtifact.baseline_commit_sha a)).
Proof.
  unfold apply_artifact. destruct (apply_context s (now c) id) as [[[q dec] a]|x] eqn:E;
    [|by intros [= <- _]; left].
  apply context_inv in E as (Hq & _ & _ & Hb). intros H.
  destruct (ops s) as [o|] eqn:Eo.
  2: { destruct (run_apply _ _ _ _ _ _ _) as [s1 [r|x]] eqn:E; injection H as <-; [done|].
       apply run_apply_failed with (a := a) in E as [_ [Hu|Hu]]; [by left|right|done].
       exists q, a. auto. }
  destruct (OperationStore.reserve_artifact_apply _ _ _ _) as [[o1 rsv]|x] eqn:Er;
    [|by injection H as <- _; left].
  apply OperationStore.reserve_Ok in Er as [(-> & _ & Hrep & _)|(o0 & _ & Hacq & _)].
  { rewrite Hrep in H. injection H as <- _. by left. }
  apply OperationStore.acquire_Ok in Hacq as (_ & _ & _ & -> & ->).
  cbn [OperationStore.replayed] in H.
  destruct (OperationStore.mark_applying _ _ _) as [[o2 applying]|x] eqn:Ea;
    [|by injection H as <- _; left].
  apply OperationStore.owned_transition_Ok in Ea as (r & Hr & _ & _ & -> & Ho2).
  cbn [OperationStore.record OperationStore.operations] in Hr. rewrite lookup_insert_eq in Hr.
  injection Hr as <-.
  eapply apply_reserved_failed with (a := a) in H;
    [|destruct Hb; by constructor|reflexivity|cbn [OperationStore.record]; rewrite Ho2;
      apply lookup_insert_eq|reflexivity].
  destruct H as [H|[Hu Hh]]; [by left|right]. exists q, a. auto.
Qed.
End Theorems.
End Service.
