(* ===== verification/ServiceExample.v ===== *)
(** * The approval service on the example artifact

    The artifact of [ArtifactExample], its approved request in the in-memory
    queue and an empty operation store: one apply that succeeds and one whose
    audit log is full. *)

From S2P Require Export ApprovalService ArtifactExample.

Local Open Scope string_scope.
Local Open Scope list_scope.
Local Open Scope py_scope.

Module ServiceExample.
Import Service.

Notation sha := example_digest.
Notation artifact := (canon_artifact (example_artifact sha)).

#[local] Instance queue_ops : ApprovalQueueOps items := memory_queue no_permissions.
#[local] Instance git : GitRepo (toy_repo * list string) := example_git sha.
#[local] Existing Instance example_sources.

Definition example_queue (d : ApprovalDecision.t) : items :=
  [("apr_9", Queued.mk (explicit_request sha) APPROVED (Some d))].

Definition example_services (d : ApprovalDecision.t)
    : services items (toy_repo * list string) (list (string * pydict)) :=
  mk_services (example_queue d) (example_store sha) example_world
    (Some (OperationStore.mk_db ∅ ∅)).

Definition example_clock : clock := mk_clock 3000000 "3000000" OperationStore.example_owner no_faults.

(** The repository is not clean. *)
Definition dirty (path : string) : result OperationStore.op_error (string * bool) := Ok ("abc", false).

Notation run full := (@apply_artifact _ _ _ _ _ _ (example_log full) _ lexical_resolve
  OperationStore.all_dead dirty example_clock "art_1" "/srv/repo").

Lemma example_bound d :
  bound (example_services d) (Queued.mk (explicit_request sha) APPROVED (Some d)) "art_1" artifact.
Proof.
  constructor; try reflexivity.
  - apply example_ids.
  - apply (example_persisted sha example_digest_eq tt).
Qed.

(** The apply of the service is that of the store between two transitions. *)
Lemma example_run full d :
  approve_patch_request (explicit_request sha) "bob" "reviewed" None "2000000" = Ok d ->
  exists s' r, run full (example_services d) = (s', r) /\
    w_repo (trusted s') = ([guide_text], [guide_text]) /\ is_ok r = negb full.
Proof.
  intros Ha. destruct (example_apply sha example_digest_eq full d Ha) as (f' & w' & r & E & Hr & Hok).
  destruct (@fresh_apply _ _ _ _ queue_ops _ (example_log full) _ lexical_resolve
    OperationStore.all_dead dirty example_clock (example_services d) "art_1" "/srv/repo"
    (Queued.mk (explicit_request sha) APPROVED (Some d)) d artifact f' w' r) as (s' & r' & H & <- & Hr');
    [reflexivity|reflexivity|reflexivity|apply example_bound|reflexivity|exact E|].
  exists s', r'. rewrite Hr', Hok. auto.
Qed.

(** at the example: the patch is in the repository and the operation is recorded. *)
Lemma service_applies_witness :
  exists d s' res, run false (example_services d) = (s', Ok res) /\
    w_repo (trusted s') = ([guide_text], [guide_text]) /\
    exists q dec a, _queued_for_artifact (example_services d) "art_1" = Ok q /\
      Queued.status q = APPROVED /\ Queued.decision q = Some dec /\
      bound (example_services d) q "art_1" a.
Proof.
  destruct (example_approval sha) as (d & Ha).
  destruct (example_run false d Ha) as (s' & [res|e] & H & Hr & Hok); [|discriminate Hok].
  exists d, s', res. split; [exact H|]. split; [exact Hr|].
  destruct (@service_applies_the_bound_approval _ _ _ _ queue_ops _ (example_log false) _ lexical_resolve
    OperationStore.all_dead dirty example_clock "art_1" "/srv/repo" (example_services d) s' res H)
    as (q & dec & a & Hq & Hs & Hd & Hb & _).
  exists q, dec, a. auto.
Defined.

Lemma retried_apply_witness :
  exists d s' res r, run false (example_services d) = (s', Ok res) /\ run false s' = (s', r).
Proof.
  destruct (example_approval sha) as (d & Ha).
  destruct (example_run false d Ha) as (s' & [res|e] & H & Hr & Hok); [|discriminate Hok].
  destruct (@retried_apply_is_a_replay _ _ _ _ queue_ops _ (example_log false) _ lexical_resolve
    OperationStore.all_dead dirty example_clock example_clock "art_1" "/srv/repo" (example_services d)
    s' s' res H ltac:(discriminate) eq_refl eq_refl eq_refl)
    as (q & a & a2 & o & row & _ & _ & _ & _ & _ & _ & _ & _ & _ & H2).
  eexists d, s', res, _. split; [exact H|exact H2].
Defined.

(** The audit log is full: the patch is there, the operation is not retried. *)
Lemma failed_service_apply_witness :
  exists d s' e, run true (example_services d) = (s', Raise e) /\
    w_repo (trusted s') = ([guide_text], [guide_text]) /\
    exists o, ops s' = Some o /\ map_Exists (fun _ row =>
      OperationStore.state row = OperationStore.APPLYING) (OperationStore.operations o).
Proof.
  destruct (example_approval sha) as (d & Ha).
  destruct (example_run true d Ha) as (s' & [res|e] & H & Hr & Hok); [discriminate Hok|].
  exists d, s', e. split; [exact H|]. split; [exact Hr|].
  destruct (@failed_service_apply _ _ _ _ queue_ops _ (example_log true) _ lexical_resolve
    OperationStore.all_dead dirty example_clock "art_1" "/srv/repo" (example_services d) s' e H)
    as [[Hw _]|(q & a & _ & _ & _ & [Hn|(o & row & Ho & Hrow & Hst)])].
  - exfalso. rewrite Hr in Hw. discriminate Hw.
  - discriminate Hn.
  - exists o. split; [exact Ho|]. exists (operation_of a q "/srv/repo"), row. split; [exact Hrow|].
    destruct Hst as [Hst|(_ & hc & Hi & _ & Hc)]; [exact Hst|].
    injection Hi as <-. discriminate Hc.
Defined.
End ServiceExample.
