(* ===== verification/Containment.v ===== *)
(** * Back ends and containment

    execution_backend.py (which back end may run a command),
    process_containment.py (what a back end contains), workspace_mounts.py (the
    mounts of the sandbox) and repo_state.py (the state of the repository).
    The processes a probe starts are the class [ProbeHost]. *)

From Stdlib Require Import Sorting.Sorted.
From S2P Require Export Models PatchDiff.

Local Open Scope string_scope.
Local Open Scope list_scope.
Local Open Scope py_scope.

(** The host as the probes see it. *)
Class ProbeHost := {
  platform_system : string;
  which : string -> option string;
  (** The exit code and the output of a command; [None] when it could not be
      started or timed out. *)
  run_command : list string -> option (Z * string);
}.

(** ** execution_backend.py *)

Module ExecutionBackendName.
Inductive t :=
  LINUX_BUBBLEWRAP | LINUX_BUBBLEWRAP_HELPER | LINUX_SYSTEMD_USER | CONFIGURED_CONTAINER | UNSAFE_LOCAL.
Definition value (n : t) : string :=
  match n with
  | LINUX_BUBBLEWRAP => "linux_bubblewrap" | LINUX_BUBBLEWRAP_HELPER => "linux_bubblewrap_helper"
  | LINUX_SYSTEMD_USER => "linux_systemd_user" | CONFIGURED_CONTAINER => "configured_container"
  | UNSAFE_LOCAL => "unsafe_local"
  end.
#[global] Instance backend_name_eq_dec : EqDecision t.
Proof. solve_decision. Defined.
End ExecutionBackendName.

Definition selection_error (text : string) : exn :=
  mk_exn RuntimeError "ExecutionBackendSelectionError" text.

Module ExecutionBackendSelection.
Record t := mk {
  name : ExecutionBackendName.t;
  safe_by_default : bool;
  reason : string;
  warning : option string;
}.
End ExecutionBackendSelection.

Definition env_get (env : list (string * string)) (k : string) : option string :=
  snd <$> List.find (fun kv => String.eqb (fst kv) k) env.

(** The overrides of the constructor; what was not given comes from the
    environment or from a probe. *)
Module HostBackendCapabilities.
Record t := mk {
  env : list (string * string);
  os_name_override : option string;
  has_bwrap_override : option bool;
  bwrap_namespace_probe_override : option bool;
  official_rygnal_ci_image_override : option bool;
  signed_sandbox_helper_probe_override : option bool;
  has_systemd_run_override : option bool;
  configured_container_backend_override : option string;
  verified_rootless_container_override : option bool;
  unsafe_local_requested_override : option bool;
}.

Section Capabilities.
Context `{PH : ProbeHost}.

Definition os_name (c : t) : string :=
  lower (if truthy_opt (os_name_override c) then default "" (os_name_override c) else platform_system).

Definition official_rygnal_ci_image (c : t) : bool :=
  default (bool_decide (env_get (env c) "RYGNAL_OFFICIAL_CI_IMAGE" = Some "1"))
    (official_rygnal_ci_image_override c).

Definition configured_container_backend (c : t) : option string :=
  match configured_container_backend_override c with
  | Some b => Some b
  | None => env_get (env c) "RYGNAL_CONFIGURED_CONTAINER_BACKEND"
  end.

Definition unsafe_local_requested (c : t) : bool :=
  default (bool_decide (env_get (env c) "RYGNAL_UNSAFE_LOCAL" = Some "1"))
    (unsafe_local_requested_override c).

Definition has_bwrap (c : t) : bool :=
  default (bool_decide (is_Some (which "bwrap"))) (has_bwrap_override c).

(** A probe passes when its command ends with exit code 0. *)
Definition exits_zero (argv : list string) : bool :=
  match run_command argv with Some (code, _) => (code =? 0)%Z | None => false end.

Definition _probe_bubblewrap_namespaces : bool :=
  match which "bwrap" with
  | None => false
  | Some bwrap_path =>
      exits_zero [bwrap_path; "--unshare-user"; "--unshare-pid"; "--ro-bind"; "/"; "/"; "--proc";
                  "/proc"; "true"]
  end.

Definition bwrap_namespace_probe_passed (c : t) : bool :=
  default (if negb (String.eqb (os_name c) "linux") || negb (has_bwrap c) then false
           else _probe_bubblewrap_namespaces)
    (bwrap_namespace_probe_override c).

Definition _probe_sandbox_helper : bool :=
  match which "rygnal-sandbox-helper" with
  | None => false
  | Some helper_path => exits_zero [helper_path; "probe"]
  end.

Definition signed_sandbox_helper_probe_passed (c : t) : bool :=
  default _probe_sandbox_helper (signed_sandbox_helper_probe_override c).

Definition has_systemd_run (c : t) : bool :=
  default (bool_decide (is_Some (which "systemd-run"))) (has_systemd_run_override c).

Definition _probe_podman_rootless : bool :=
  match which "podman" with
  | None => false
  | Some podman_path =>
      match run_command [podman_path; "info"; "--format"; "{{.Host.Security.Rootless}}"] with
      | Some (code, stdout) => (code =? 0)%Z && String.eqb (lower (strip stdout)) "true"
      | None => false
      end
  end.

Definition _probe_docker_rootless : bool :=
  match which "docker" with
  | None => false
  | Some docker_path =>
      match run_command [docker_path; "info"; "--format"; "{{json .SecurityOptions}}"] with
      | Some (code, stdout) =>
          (code =? 0)%Z
          && match loads stdout with
             | Some (JList security_options) =>
                 existsb (fun o => match o with JStr s => String.eqb s "name=rootless" | _ => false end)
                   security_options
             | _ => false
             end
      | None => false
      end
  end.

Definition _probe_verified_rootless_container (backend_name : option string) : bool :=
  if bool_decide (backend_name = Some "podman") then _probe_podman_rootless
  else if bool_decide (backend_name = Some "docker") then _probe_docker_rootless
  else false.

Definition verified_rootless_container_available (c : t) : bool :=
  default (_probe_verified_rootless_container (configured_container_backend c))
    (verified_rootless_container_override c).
End Capabilities.
End HostBackendCapabilities.

Section Select.
Context `{PH : ProbeHost}.
Import HostBackendCapabilities.

Definition detect_host_backend_capabilities (env : list (string * string)) : HostBackendCapabilities.t :=
  HostBackendCapabilities.mk env None None None None None None None None None.

Definition safe_backend (name : ExecutionBackendName.t) (reason : string)
    : result exn ExecutionBackendSelection.t :=
  Ok (ExecutionBackendSelection.mk name true reason None).

Definition select_execution_backend (c : HostBackendCapabilities.t)
    : result exn ExecutionBackendSelection.t :=
  let linux := String.eqb (os_name c) "linux" in
  if unsafe_local_requested c then
    Ok (ExecutionBackendSelection.mk ExecutionBackendName.UNSAFE_LOCAL false
          "Unsafe local execution was explicitly requested."
          (Some ("Unsafe local execution is not a containment backend and must never " +++
                 "be selected by default.")))
  else if linux && (official_rygnal_ci_image c && bwrap_namespace_probe_passed c) then
    safe_backend ExecutionBackendName.LINUX_BUBBLEWRAP
      "Official Rygnal CI image provides verified Bubblewrap support."
  else if linux && bwrap_namespace_probe_passed c then
    safe_backend ExecutionBackendName.LINUX_BUBBLEWRAP "Bubblewrap active namespace probe passed."
  else if linux && signed_sandbox_helper_probe_passed c then
    safe_backend ExecutionBackendName.LINUX_BUBBLEWRAP_HELPER
      "Signed sandbox helper probe passed for helper-backed Bubblewrap."
  else if linux && has_systemd_run c then
    safe_backend ExecutionBackendName.LINUX_SYSTEMD_USER
      "systemd-run --user is available as an optional Linux backend."
  else if verified_rootless_container_available c then
    safe_backend ExecutionBackendName.CONFIGURED_CONTAINER
      ("Verified rootless container backend is available: "
       +++ py_str (of_opt_str (configured_container_backend c)) +++ ".")
  else if String.eqb (os_name c) "darwin" then
    Raise (selection_error
      ("macOS is recognized, but Seatbelt containment is planned and not yet " +++
       "active. Configure a verified rootless container backend before guarded " +++
       "execution, for example RYGNAL_CONFIGURED_CONTAINER_BACKEND=docker " +++
       "or RYGNAL_CONFIGURED_CONTAINER_BACKEND=podman with rootless container " +++
       "support enabled. Alternatively run on a supported Linux backend with " +++
       "Bubblewrap. Use --unsafe-local only as an explicit non-contained " +++
       "development/test escape hatch."))
  else if String.eqb (os_name c) "windows" then
    Raise (selection_error
      ("Windows is recognized, but native Windows containment is not supported. " +++
       "Run Rygnal inside a supported WSL2/Linux backend or configure a " +++
       "verified rootless container backend."))
  else
    Raise (selection_error
      ("No verified containment backend is available for guarded execution. " +++
       "Install Bubblewrap or configure a supported backend; Rygnal will not " +++
       "silently degrade to unsafe local execution.")).
End Select.

(** ** process_containment.py *)

Inductive ContainmentLevel := STRONG | BEST_EFFORT | UNSUPPORTED.
Inductive CleanupGuarantee := ATOMIC_TREE_KILL | POSIX_PROCESS_GROUP | NO_CLEANUP.
Inductive LifecycleEvent :=
  | STARTED | LIFECYCLE_COMPLETED | LIFECYCLE_TIMED_OUT | CANCELLED | CLEANUP_ATTEMPTED.

Definition cleanup_guarantee_value (g : CleanupGuarantee) : string :=
  match g with
  | ATOMIC_TREE_KILL => "atomic_tree_kill" | POSIX_PROCESS_GROUP => "posix_process_group"
  | NO_CLEANUP => "none"
  end.

Definition lifecycle_event_value (e : LifecycleEvent) : string :=
  match e with
  | STARTED => "started" | LIFECYCLE_COMPLETED => "completed" | LIFECYCLE_TIMED_OUT => "timed_out"
  | CANCELLED => "cancelled" | CLEANUP_ATTEMPTED => "cleanup_attempted"
  end.

Module ProcessContainmentCapabilities.
Record t := mk {
  backend_name : ExecutionBackendName.t;
  level : ContainmentLevel;
  cleanup_guarantee : CleanupGuarantee;
  supports_pid_namespace : bool;
  supports_atomic_tree_kill : bool;
  unsafe_local : bool;
  limitations : list string;
  network_isolated : bool;
  ipc_namespace : bool;
  uts_namespace : bool;
  tmpfs_isolated : bool;
  var_tmpfs_isolated : bool;
  dev_sandboxed : bool;
  identity_masked : bool;
  host_environment_cleared : bool;
  workspace_only_writable : bool;
}.

Definition isolation_features (c : t) : list (string * bool) :=
  [("network_isolated", network_isolated c); ("pid_namespace", supports_pid_namespace c);
   ("ipc_namespace", ipc_namespace c); ("uts_namespace", uts_namespace c);
   ("tmpfs_isolated", tmpfs_isolated c); ("var_tmpfs_isolated", var_tmpfs_isolated c);
   ("dev_sandboxed", dev_sandboxed c); ("identity_masked", identity_masked c);
   ("host_environment_cleared", host_environment_cleared c);
   ("workspace_only_writable", workspace_only_writable c);
   ("atomic_tree_kill", supports_atomic_tree_kill c)].
End ProcessContainmentCapabilities.

Module ProcessContainmentResult.
Record t := mk {
  event : LifecycleEvent;
  containment_verified : bool;
  cleanup_guarantee : CleanupGuarantee;
  limitations : list string;
  audit_message : string;
}.
End ProcessContainmentResult.

Definition evaluate_containment_capabilities (backend : ExecutionBackendName.t)
    : ProcessContainmentCapabilities.t :=
  match backend with
  | ExecutionBackendName.LINUX_BUBBLEWRAP | ExecutionBackendName.LINUX_BUBBLEWRAP_HELPER =>
      ProcessContainmentCapabilities.mk backend STRONG ATOMIC_TREE_KILL true true false []
        true true true true true true true true true
  | ExecutionBackendName.LINUX_SYSTEMD_USER =>
      ProcessContainmentCapabilities.mk backend STRONG ATOMIC_TREE_KILL false true false []
        false false false false false false false false false
  | ExecutionBackendName.UNSAFE_LOCAL =>
      ProcessContainmentCapabilities.mk backend BEST_EFFORT POSIX_PROCESS_GROUP false false true
        ["POSIX process groups are not a security boundary.";
         "Detached children (double-fork, setsid, nohup) may survive " +++ "timeout or cancellation.";
         "Parent exit code 0 does not guarantee child processes are terminated.";
         "Manual /proc PID-tree scanning is race-prone and disabled " +++ "for security enforcement."]
        false false false false false false false false false
  | ExecutionBackendName.CONFIGURED_CONTAINER =>
      ProcessContainmentCapabilities.mk backend UNSUPPORTED NO_CLEANUP false false false
        ["Full process-tree containment is unverified or unavailable for this backend.";
         "Execution must fail closed unless explicitly overridden."]
        false false false false false false false false false
  end.

Definition build_lifecycle_result (c : ProcessContainmentCapabilities.t) (event : LifecycleEvent)
    : ProcessContainmentResult.t :=
  let verified := ProcessContainmentCapabilities.supports_atomic_tree_kill c in
  let audit :=
    if verified
    then "Process " +++ lifecycle_event_value event +++ " with verified containment (Atomic Tree Kill)."
    else "Process " +++ lifecycle_event_value event +++ " with unverified containment. " +++
         "Cleanup is best-effort (" +++
         cleanup_guarantee_value (ProcessContainmentCapabilities.cleanup_guarantee c) +++ ")." in
  ProcessContainmentResult.mk event verified (ProcessContainmentCapabilities.cleanup_guarantee c)
    (ProcessContainmentCapabilities.limitations c) audit.

(** ** workspace_mounts.py *)

Inductive MountKind := READ_ONLY_BIND | WRITABLE_BIND | EPHEMERAL_TMPFS | MASKED_PATH.

Definition mount_kind_value (k : MountKind) : string :=
  match k with
  | READ_ONLY_BIND => "read_only_bind" | WRITABLE_BIND => "writable_bind"
  | EPHEMERAL_TMPFS => "ephemeral_tmpfs" | MASKED_PATH => "masked_path"
  end.

#[export] Instance mount_kind_eq_dec : EqDecision MountKind.
Proof. solve_decision. Defined.

Definition mount_error (text : string) : exn := mk_exn ValueError "MountSecurityError" text.

Definition SANDBOX_ROOT : PurePosixPath.t := PurePosixPath.of_string "/workspace".

(** [p / other] *)
Definition join_path (p other : PurePosixPath.t) : PurePosixPath.t :=
  if PurePosixPath.is_absolute other then other
  else PurePosixPath.mk (PurePosixPath.root p) (PurePosixPath.comps p ++ PurePosixPath.comps other).

Definition _is_within_or_equal (path parent : PurePosixPath.t) : bool :=
  let path_parts := PurePosixPath.parts path in
  let parent_parts := PurePosixPath.parts parent in
  bool_decide (path_parts = parent_parts)
  || bool_decide (take (List.length parent_parts) path_parts = parent_parts).

Definition traverses (p : PurePosixPath.t) : bool := mem ".." (PurePosixPath.parts p).

Definition normalize_sandbox_path (sandbox_path : string) (sandbox_root : PurePosixPath.t)
    : result exn string :=
  let root := PurePosixPath.of_string
                (replace_char backslash slash (PurePosixPath.as_posix sandbox_root)) in
  _ ← ensure (PurePosixPath.is_absolute root)
        (mount_error ("Sandbox root must be absolute: " +++ PurePosixPath.as_posix sandbox_root));
  let raw_path := strip (replace_char backslash slash sandbox_path) in
  _ ← ensure (truthy raw_path) (mount_error "Sandbox mount path must not be empty.");
  let candidate := PurePosixPath.of_string raw_path in
  let must_not_traverse := mount_error ("Sandbox path must not traverse: " +++ sandbox_path) in
  _ ← ensure (negb (traverses candidate)) must_not_traverse;
  let candidate := if PurePosixPath.is_absolute candidate then candidate else join_path root candidate in
  _ ← ensure (negb (traverses candidate)) must_not_traverse;
  _ ← ensure (_is_within_or_equal candidate root)
        (mount_error ("Sandbox path must stay under " +++ PurePosixPath.as_posix root +++ ": "
                      +++ sandbox_path));
  Ok (PurePosixPath.as_posix candidate).

Module MountContract.
Record t := mk { sandbox_path : string; kind : MountKind; host_source : option string }.
End MountContract.

(** [MountContract(...)] *)
Definition make_mount (sandbox_path : string) (kind : MountKind) (host_source : option string)
    : result exn MountContract.t :=
  normalized_path ← normalize_sandbox_path sandbox_path SANDBOX_ROOT;
  match kind with
  | READ_ONLY_BIND | WRITABLE_BIND =>
      _ ← ensure (match host_source with Some s => truthy (strip s) | None => false end)
            (mount_error (mount_kind_value kind +++ " mounts require host_source."));
      Ok (MountContract.mk normalized_path kind host_source)
  | EPHEMERAL_TMPFS | MASKED_PATH =>
      _ ← ensure (bool_decide (host_source = None))
            (mount_error (mount_kind_value kind +++ " mounts must not define host_source."));
      Ok (MountContract.mk normalized_path kind host_source)
  end.

(** [_mount_sort_key], compared as a pair. *)
Definition mount_leb (a b : MountContract.t) : bool :=
  let depth m := List.length (PurePosixPath.parts
                                (PurePosixPath.of_string (MountContract.sandbox_path m))) in
  (depth a <? depth b)%nat
  || (depth a =? depth b)%nat && String.leb (MountContract.sandbox_path a) (MountContract.sandbox_path b).

Fixpoint check_duplicates (seen : list string) (mounts : list MountContract.t) : result exn () :=
  match mounts with
  | [] => Ok ()
  | m :: mounts' =>
      _ ← ensure (negb (mem (MountContract.sandbox_path m) seen))
            (mount_error ("Duplicate sandbox mount path: " +++ MountContract.sandbox_path m));
      check_duplicates (MountContract.sandbox_path m :: seen) mounts'
  end.

(** [WorkspaceMountPlan(mounts=...)] *)
Definition make_plan (mounts : list MountContract.t) : result exn (list MountContract.t) :=
  _ ← check_duplicates [] mounts; Ok (sort_by mount_leb mounts).

(** ** repo_state.py *)

Module RepoChanges.
Record t := mk { staged : list string; unstaged : list string; untracked : list string }.
Definition empty : t := mk [] [] [].
Definition is_clean (c : t) : bool :=
  match staged c, unstaged c, untracked c with [], [], [] => true | _, _, _ => false end.
End RepoChanges.

(** One line of git status, after those before it. *)
Definition status_line (c : RepoChanges.t) (line : string) : RepoChanges.t :=
  match line with
  | String x (String y (String _ path)) =>
      if (String.length line <? 4)%nat then c
      else if Ascii.eqb x "?" && Ascii.eqb y "?" then
        RepoChanges.mk (RepoChanges.staged c) (RepoChanges.unstaged c) (RepoChanges.untracked c ++ [path])
      else
        let other ch := negb (Ascii.eqb ch " " || Ascii.eqb ch "?") in
        RepoChanges.mk
          (if other x then RepoChanges.staged c ++ [path] else RepoChanges.staged c)
          (if other y then RepoChanges.unstaged c ++ [path] else RepoChanges.unstaged c)
          (RepoChanges.untracked c)
  | _ => c
  end.

(** The changes in the output of git status --porcelain. *)
Definition parse_status (output : string) : RepoChanges.t :=
  if negb (truthy (strip output)) then RepoChanges.empty
  else fold_left status_line (splitlines output) RepoChanges.empty.

(** Git in a repository: the output, or the error text. *)
Definition get_uncommitted_changes (git : list string -> string -> result string string)
    (repo_path : string) : result exn RepoChanges.t :=
  output ← map_err (fun error => mk_exn RuntimeError "RuntimeError" ("Git operation failed: " +++ error))
             (git ["status"; "--porcelain"] repo_path);
  Ok (parse_status output).

Definition dirty_repository (lines : list string) : exn :=
  mk_exn OtherError "DirtyRepositoryError" (str_join (String (ascii_of_N 10) "") lines).

Definition count_line (what : string) (l : list string) : list string :=
  match l with [] => [] | _ => ["  " +++ what +++ ": " +++ pretty (List.length l) +++ " files"] end.

Definition verify_repo_is_clean (git : list string -> string -> result string string)
    (repo_path : string) (allow_dirty_override : bool) : result exn () :=
  changes ← get_uncommitted_changes git repo_path;
  if RepoChanges.is_clean changes || allow_dirty_override then Ok ()
  else Raise (dirty_repository
    (["Uncommitted changes detected in trusted repository:"]
     ++ count_line "Staged" (RepoChanges.staged changes)
     ++ count_line "Unstaged" (RepoChanges.unstaged changes)
     ++ count_line "Untracked" (RepoChanges.untracked changes)
     ++ [String (ascii_of_N 10) "Rygnal guarded execution blocked to prevent data loss.";
         "Please commit your changes, or pass allow_dirty_override=True."])).

(** ** Lemmas *)

(** What [of_string] builds. *)
Record wf_path (p : PurePosixPath.t) : Prop := mk_wf_path {
  wp_root : PurePosixPath.root p ∈ [""; "/"; "//"];
  wp_comps : Forall (fun w => PurePosixPath.keep w = true /\ no_char slash w) (PurePosixPath.comps p);
}.

Lemma of_string_wf s : wf_path (PurePosixPath.of_string s).
Proof.
  constructor; cbn.
  - unfold PurePosixPath.parse_root. destruct (_ && _); [set_solver|].
    destruct (startswith s "/"); set_solver.
  - apply Forall_forall. intros w [Hw Hk]%list_elem_of_In%filter_In. split; [done|].
    eapply split_on_no_sep, list_elem_of_In, Hw.
Qed.

Lemma join_path_wf p q : wf_path p -> wf_path q -> wf_path (join_path p q).
Proof.
  intros [Hr Hp] [Hr' Hq]. unfold join_path. destruct (PurePosixPath.is_absolute q); [done|].
  constructor; cbn; [done|]. by apply Forall_app.
Qed.

Lemma startswith_cons c s a p :
  startswith (String c s) (String a p) = Ascii.eqb a c && startswith s p.
Proof. reflexivity. Qed.

Lemma startswith_nil s : startswith s "" = true.
Proof. by destruct s. Qed.

Lemma keep_first w : PurePosixPath.keep w = true -> no_char slash w -> startswith w "/" = false.
Proof.
  intros Hk Hw. destruct w as [|c w]; [done|]. apply no_char_cons in Hw as [Hc _].
  rewrite startswith_cons. destruct (Ascii.eqb_spec "/" c) as [<-|]; [by destruct Hc|done].
Qed.

Lemma startswith_join w ws : PurePosixPath.keep w = true -> no_char slash w ->
  startswith (str_join "/" (w :: ws)) "/" = false.
Proof.
  intros Hk Hw. pose proof (keep_first w Hk Hw) as H. destruct w as [|c w]; [done|].
  destruct ws as [|w' ws]; [done|].
  change (str_join "/" (String c w :: w' :: ws)) with (String c (w +++ "/" +++ str_join "/" (w' :: ws))).
  revert H. by rewrite !startswith_cons, !startswith_nil.
Qed.

(** Printing a path and parsing it again gives the path. *)
Lemma of_string_as_posix p : wf_path p -> PurePosixPath.of_string (PurePosixPath.as_posix p) = p.
Proof.
  destruct p as [r cs]. intros [Hr Hcs]. cbn in Hr, Hcs.
  assert (Hkeep : List.filter PurePosixPath.keep cs = cs).
  { apply filter_id, forallb_elem_of. intros w Hw. rewrite Forall_forall in Hcs. by apply Hcs. }
  assert (Hno : Forall (no_char slash) cs) by (eapply Forall_impl; [exact Hcs|]; by intros w [_ ?]).
  assert (Hjoin : cs <> [] -> split_on slash (str_join "/" cs) = cs)
    by (intros; by apply (split_on_join slash)).
  assert (Hstart : startswith (str_join "/" cs) "/" = false).
  { destruct cs as [|w ws]; [done|]. apply Forall_cons_1 in Hcs as [[Hk Hw] _]. by apply startswith_join. }
  assert (Hsplit : List.filter PurePosixPath.keep (split_on slash (str_join "/" cs)) = cs).
  { destruct cs as [|w ws]; [done|]. by rewrite Hjoin. }
  unfold PurePosixPath.of_string, PurePosixPath.parse_root.
  apply elem_of_cons in Hr as [->|Hr]; [|apply elem_of_cons in Hr as [->|Hr]].
  - destruct cs as [|w ws]; [done|].
    change (PurePosixPath.as_posix (PurePosixPath.mk "" (w :: ws))) with (str_join "/" (w :: ws)).
    rewrite Hstart, Hsplit. destruct (str_join "/" (w :: ws)) as [|c s]; [done|].
    revert Hstart. rewrite !startswith_cons, startswith_nil, andb_true_r. by intros ->.
  - change (PurePosixPath.as_posix (PurePosixPath.mk "/" cs)) with (String "/" (str_join "/" cs)).
    cbn [split_on]. change (Ascii.eqb "/" slash) with true. cbn iota. cbn [List.filter].
    change (PurePosixPath.keep "") with false. cbn iota. rewrite Hsplit. f_equal.
    destruct (str_join "/" cs) as [|c s]; [done|]. revert Hstart.
    rewrite !startswith_cons, !startswith_nil, !andb_true_r. by intros ->.
  - apply list_elem_of_singleton in Hr as ->.
    change (PurePosixPath.as_posix (PurePosixPath.mk "//" cs)) with
      (String "/" (String "/" (str_join "/" cs))).
    cbn [split_on]. change (Ascii.eqb "/" slash) with true. cbn iota. cbn [List.filter].
    change (PurePosixPath.keep "") with false. cbn iota. rewrite Hsplit. f_equal.
    destruct (str_join "/" cs) as [|c s]; [done|]. revert Hstart.
    rewrite !startswith_cons, !startswith_nil, !andb_true_r. by intros ->.
Qed.

Lemma within_iff p q :
  _is_within_or_equal p q = true <-> exists rest, PurePosixPath.parts p = PurePosixPath.parts q ++ rest.
Proof.
  unfold _is_within_or_equal. rewrite orb_true_iff, !bool_decide_eq_true. split.
  - intros [->|H]; [exists []; by rewrite app_nil_r|].
    exists (drop (List.length (PurePosixPath.parts q)) (PurePosixPath.parts p)).
    by rewrite <- H at 1; rewrite take_drop.
  - intros [rest ->]. right. by rewrite take_app_length.
Qed.

Lemma check_duplicates_Ok seen mounts :
  check_duplicates seen mounts = Ok () ->
  NoDup (List.map MountContract.sandbox_path mounts) /\
  Forall (fun m => MountContract.sandbox_path m ∉ seen) mounts.
Proof.
  revert seen. induction mounts as [|m mounts IH]; intros seen; cbn [check_duplicates List.map].
  - intros _. split; constructor.
  - intros ([] & Hm%ensure_Ok & H)%bind_Ok_inv. apply negb_true_iff in Hm.
    assert (Hn : MountContract.sandbox_path m ∉ seen).
    { intros Hin%mem_spec. congruence. }
    apply IH in H as [Hnd Hall]. split.
    + constructor; [|done]. intros (m' & Heq & Hin)%list_elem_of_fmap.
      rewrite Forall_forall in Hall. apply (Hall m' Hin). rewrite <- Heq. by left.
    + constructor; [done|]. eapply Forall_impl; [exact Hall|]. intros m' Hm' Hin. apply Hm'. by right.
Qed.

Lemma leb_total a b : String.leb a b = true \/ String.leb b a = true.
Proof. destruct (String.leb_total a b); auto. Qed.

Lemma mount_leb_total a b : mount_leb a b = true \/ mount_leb b a = true.
Proof.
  unfold mount_leb. set (x := List.length _). set (y := List.length _).
  rewrite !orb_true_iff, !andb_true_iff, !Nat.ltb_lt, !Nat.eqb_eq.
  destruct (leb_total (MountContract.sandbox_path a) (MountContract.sandbox_path b)), (Nat.lt_trichotomy x y)
    as [|[|]]; auto.
Qed.

(** ** Theorems *)

(** A back end is selected for what was observed: unsafe local execution only
    on request and never as safe by default, the others only after their probe
    passed. *)
Theorem selection_is_probed `{PH : ProbeHost} c s :
  select_execution_backend c = Ok s ->
  let linux := HostBackendCapabilities.os_name c = "linux" in
  ExecutionBackendSelection.safe_by_default s
    = negb (bool_decide (ExecutionBackendSelection.name s = ExecutionBackendName.UNSAFE_LOCAL)) /\
  match ExecutionBackendSelection.name s with
  | ExecutionBackendName.UNSAFE_LOCAL => HostBackendCapabilities.unsafe_local_requested c = true
  | ExecutionBackendName.LINUX_BUBBLEWRAP =>
      linux /\ HostBackendCapabilities.bwrap_namespace_probe_passed c = true
  | ExecutionBackendName.LINUX_BUBBLEWRAP_HELPER =>
      linux /\ HostBackendCapabilities.signed_sandbox_helper_probe_passed c = true
  | ExecutionBackendName.LINUX_SYSTEMD_USER => linux /\ HostBackendCapabilities.has_systemd_run c = true
  | ExecutionBackendName.CONFIGURED_CONTAINER =>
      HostBackendCapabilities.verified_rootless_container_available c = true
  end /\
  (HostBackendCapabilities.unsafe_local_requested c = true ->
     ExecutionBackendSelection.name s = ExecutionBackendName.UNSAFE_LOCAL).
Proof.
  unfold select_execution_backend, safe_backend. cbn zeta.
  destruct (HostBackendCapabilities.unsafe_local_requested c) eqn:Eu; [by intros [= <-]|].
  destruct (String.eqb_spec (HostBackendCapabilities.os_name c) "linux") as [Hl|Hl]; cbn [andb].
  - destruct (HostBackendCapabilities.bwrap_namespace_probe_passed c) eqn:E1;
      [destruct (HostBackendCapabilities.official_rygnal_ci_image c); cbn [andb]; by intros [= <-]|].
    rewrite andb_false_r.
    destruct (HostBackendCapabilities.signed_sandbox_helper_probe_passed c) eqn:E2; [by intros [= <-]|].
    destruct (HostBackendCapabilities.has_systemd_run c) eqn:E3; [by intros [= <-]|].
    destruct (HostBackendCapabilities.verified_rootless_container_available c) eqn:E4; [by intros [= <-]|].
    by repeat case_match.
  - destruct (HostBackendCapabilities.verified_rootless_container_available c) eqn:E4; [by intros [= <-]|].
    by repeat case_match.
Qed.

(** A mount path that is accepted names, when it is parsed again, a path at or
    under the root of the sandbox without any parent reference. *)
Theorem mount_path_is_inside path root r :
  normalize_sandbox_path path root = Ok r ->
  (exists rest, PurePosixPath.parts (PurePosixPath.of_string r)
     = PurePosixPath.parts (PurePosixPath.of_string
         (replace_char backslash slash (PurePosixPath.as_posix root))) ++ rest) /\
  ".." ∉ PurePosixPath.parts (PurePosixPath.of_string r).
Proof.
  unfold normalize_sandbox_path. cbn zeta.
  set (rt := PurePosixPath.of_string (replace_char _ _ (PurePosixPath.as_posix root))).
  intros ([] & _ & H)%bind_Ok_inv. apply bind_Ok_inv in H as ([] & _ & H).
  apply bind_Ok_inv in H as ([] & _ & H). apply bind_Ok_inv in H as ([] & Ht%ensure_Ok & H).
  apply bind_Ok_inv in H as ([] & Hin%ensure_Ok & [= <-]).
  set (cand := PurePosixPath.of_string (strip _)) in *.
  assert (Hwf : wf_path (if PurePosixPath.is_absolute cand then cand else join_path rt cand)).
  { destruct (PurePosixPath.is_absolute cand); [apply of_string_wf|].
    apply join_path_wf; apply of_string_wf. }
  rewrite (of_string_as_posix _ Hwf). split; [by apply within_iff|].
  apply negb_true_iff in Ht. intros Hm%mem_spec. unfold traverses in Ht. congruence.
Qed.

(** The plan keeps the mounts, no path twice, parents before their children. *)
Theorem plan_is_ordered mounts plan :
  make_plan mounts = Ok plan ->
  Permutation plan mounts /\ NoDup (List.map MountContract.sandbox_path plan) /\
  StronglySorted (fun a b =>
    (List.length (PurePosixPath.parts (PurePosixPath.of_string (MountContract.sandbox_path a)))
     <= List.length (PurePosixPath.parts (PurePosixPath.of_string (MountContract.sandbox_path b))))%nat)
    plan.
Proof.
  unfold make_plan. intros ([] & [Hnd _]%check_duplicates_Ok & [= <-])%bind_Ok_inv.
  pose proof (sort_by_perm mount_leb mounts) as Hp. split_and!; [done| |].
  - eapply NoDup_Permutation_proper; [|exact Hnd]. by apply Permutation_map.
  - apply Sorted_StronglySorted; [by intros a b c ? ?; eapply Nat.le_trans|].
    pose proof (sort_by_sorted mount_leb mounts mount_leb_total) as Hs. clear -Hs.
    induction Hs as [|m ms Hs IH Hhd]; constructor; [done|].
    destruct Hhd as [|b l Hb]; constructor. unfold mount_leb in Hb.
    apply orb_true_iff in Hb as [Hb|[Hb _]%andb_true_iff];
      [apply Nat.ltb_lt in Hb|apply Nat.eqb_eq in Hb]; lia.
Qed.
