(* ===== verification/Production.v ===== *)
(** * production_containment.py: whether Bubblewrap may be trusted

    [verify_production_bubblewrap] and what it decides from: the executable, its
    version and options, and a self test inside a sandbox.  The host is the
    class [ProductionHost]; the process supervision of [run_bounded_process] is
    left to the operating system and not modelled, its limits, its launcher
    command and the messages about its output are. *)

From S2P Require Export Containment Regex Double.

Local Open Scope string_scope.
Local Open Scope list_scope.
Local Open Scope py_scope.

Module Production.

(** ** Constants and data *)

Definition MINIMUM_BUBBLEWRAP_VERSION : Z * Z * Z := (0, 8, 0)%Z.

Definition REQUIRED_BUBBLEWRAP_FLAGS : list string :=
  ["--die-with-parent"; "--new-session"; "--unshare-user"; "--unshare-pid"; "--unshare-ipc";
   "--unshare-uts"; "--unshare-net"; "--unshare-cgroup"; "--cap-drop"; "--clearenv"; "--proc"; "--dev";
   "--tmpfs"; "--ro-bind"; "--bind"; "--setenv"; "--chdir"].

Definition PRODUCTION_BUBBLEWRAP_HARDENING_FLAGS : list string :=
  ["--die-with-parent"; "--new-session"; "--unshare-cgroup"; "--cap-drop"; "ALL"].

Definition production_bubblewrap_hardening_flags : list string := PRODUCTION_BUBBLEWRAP_HARDENING_FLAGS.

Definition _ALLOWED_PROBE_ENVIRONMENT : list string :=
  ["HOME"; "LANG"; "LC_ALL"; "LOGNAME"; "PATH"; "PWD"; "RYGNAL_HOST_SECRET"; "RYGNAL_PROBE"; "TMPDIR";
   "USER"].

Definition _NAMESPACE_NAMES : list string := ["user"; "pid"; "ipc"; "uts"; "net"; "cgroup"].

Inductive ExecutionSecurityMode := DEVELOPMENT | PRODUCTION.

Definition security_mode_value (m : ExecutionSecurityMode) : string :=
  match m with DEVELOPMENT => "development" | PRODUCTION => "production" end.

#[export] Instance security_mode_eq_dec : EqDecision ExecutionSecurityMode.
Proof. solve_decision. Defined.

Definition execution_security_mode (environment : string) : ExecutionSecurityMode :=
  if String.eqb (lower (strip environment)) "production" then PRODUCTION else DEVELOPMENT.

(** [ProductionContainmentLimits]; the grace period is a finite double. *)
Record limits := mk_limits {
  cpu_seconds : Z;
  address_space_bytes : Z;
  file_size_bytes : Z;
  open_files : Z;
  processes : Z;
  max_output_bytes : Z;
  termination_grace_seconds : double;
}.

Definition default_limits : limits :=
  mk_limits 120 (2 * 1024 ^ 3) (64 * 1024 ^ 2) 256 128 (1024 ^ 2) fone.

Definition value_error (text : string) : exn := mk_exn ValueError "ValueError" text.

(** [__post_init__] *)
Definition check_limits (l : limits) : result exn limits :=
  let positive (name : string) (z : Z) := ensure (0 <? z)%Z (value_error (name +++ " must be a positive integer.")) in
  _ ← positive "cpu_seconds" (cpu_seconds l);
  _ ← positive "address_space_bytes" (address_space_bytes l);
  _ ← positive "file_size_bytes" (file_size_bytes l);
  _ ← positive "open_files" (open_files l);
  _ ← positive "processes" (processes l);
  _ ← positive "max_output_bytes" (max_output_bytes l);
  _ ← ensure (0 <? termination_grace_seconds l)%Z
        (value_error "termination_grace_seconds must be positive and finite.");
  _ ← ensure (max_output_bytes l <=? file_size_bytes l)%Z
        (value_error "max_output_bytes cannot exceed file_size_bytes.");
  Ok l.

Module BubblewrapVerification.
Record t := mk {
  eligible : bool;
  platform_name : string;
  executable_path : option string;
  executable_sha256 : option string;
  version : option string;
  reasons : list string;
  features : list (string * bool);
}.
Definition reason (v : t) : string :=
  if eligible v then "Bubblewrap passed production containment verification."
  else let joined := str_join "; " (reasons v) in
       if truthy joined then joined else "Production containment verification failed.".
End BubblewrapVerification.

(** What [stat] and [access] say of the resolved executable. *)
Record executable := mk_executable {
  ex_path : string;
  ex_regular : bool;
  ex_executable : bool;
  ex_group_or_world_writable : bool;
  ex_owner : Z;
}.

Record probe_output := mk_probe { returncode : Z; stdout : string; stderr : string }.

(** The rest of the host: the executable behind a path, the user, digests, a
    command with its environment and time limit, and the namespaces and paths of
    this process.  An [OSError] or an expired time limit is its text. *)
Class ProductionHost := {
  stat_executable : string -> result string executable;
  getuid : Z;
  sha256_file : string -> string;
  run_probe : list string -> list (string * string) -> Z -> result string probe_output;
  read_namespace : string -> option string;
  path_exists : string -> bool;
  realpath : string -> string;
  secret_path : string;
}.

Definition minimal_launcher_environment : list (string * string) :=
  [("HOME", "/nonexistent"); ("LANG", "C.UTF-8"); ("LC_ALL", "C.UTF-8"); ("LOGNAME", "rygnal");
   ("PATH", "/usr/bin:/bin"); ("TMPDIR", "/tmp"); ("USER", "rygnal")].

(** ** Reading what the probes print *)

(** [_parse_bubblewrap_version] *)
Definition version_pattern : regex :=
  rseqs [RWordB; ilit "bubblewrap"; rplus (RChar is_space); rplus (RChar is_digit); rchar ".";
         rplus (RChar is_digit); rchar "."; rplus (RChar is_digit); RWordB].

(** The three numbers of the text that matched. *)
Definition version_numbers (matched : string) : option (Z * Z * Z) :=
  match List.map parse_int
          (split_on "." (lstrip_by is_space (drop_chars 10 matched))) with
  | [Some a; Some b; Some c] => Some (a, b, c)
  | _ => None
  end.

Definition _parse_bubblewrap_version (output : string) : option (Z * Z * Z) :=
  match findall version_pattern output with
  | matched :: _ => version_numbers matched
  | [] => None
  end.

Definition _format_version (v : option (Z * Z * Z)) : string :=
  match v with
  | None => "unknown"
  | Some (a, b, c) => str_join "." [pretty a; pretty b; pretty c]
  end.

(** The order of tuples. *)
Definition version_ltb (v w : Z * Z * Z) : bool :=
  let '(a, b, c) := v in
  let '(d, e, f) := w in
  (a <? d)%Z || (a =? d)%Z && ((b <? e)%Z || (b =? e)%Z && (c <? f)%Z).

(** The dictionary of [_parse_probe_output]: the two containers, and the other
    keys, which may hide a container. *)
Record parsed := mk_parsed {
  namespaces : list (string * string);
  environment : list string;
  values : list (string * string);
  in_environment : bool;
}.

Definition parse_line (p : parsed) (raw_line : string) : parsed :=
  let line := strip raw_line in
  if String.eqb line "ENV_BEGIN"
  then mk_parsed (namespaces p) (environment p) (values p) true
  else if String.eqb line "ENV_END"
  then mk_parsed (namespaces p) (environment p) (values p) false
  else if in_environment p
  then mk_parsed (namespaces p) (environment p ++ [line]) (values p) true
  else if startswith line "ns:" then
    match cut "=" (drop_chars 3 line) with
    | Some (key, value) => mk_parsed (assoc_set (namespaces p) key value) (environment p) (values p) false
    | None => p
    end
  else
    match cut "=" line with
    | Some (key, value) => mk_parsed (namespaces p) (environment p) (assoc_set (values p) key value) false
    | None => p
    end.

Definition _parse_probe_output (output : string) : parsed :=
  fold_left parse_line (splitlines output) (mk_parsed [] [] [] false).

(** ** The self test *)

Section Verify.
Context `{PH : ProbeHost} {PR : ProductionHost}.

(** A command that cannot run counts as exit code 127. *)
Definition _run_probe_command (command : list string) (environment : option (list (string * string)))
    (timeout_seconds : Z) : probe_output :=
  match run_probe command (default minimal_launcher_environment environment) timeout_seconds with
  | Ok out => out
  | Raise text => mk_probe 127 "" text
  end.

Definition _first_existing (paths : list string) : option string :=
  realpath <$> List.find path_exists paths.

Definition read_only_mount (path : string) : list string :=
  if path_exists path then ["--ro-bind"; path; path] else [].

Definition _runtime_read_only_mounts : list string :=
  flat_map read_only_mount ["/usr"; "/bin"; "/lib"; "/lib64"; "/lib32"]
  ++ flat_map read_only_mount ["/etc/ld.so.cache"; "/etc/ld.so.conf"; "/etc/ld.so.conf.d"].

Definition dquote : string := String (ascii_of_N 34) "".

(** A text in double quotes. *)
Definition quoted (text : string) : string := dquote +++ text +++ dquote.

Definition unlines (lines : list string) : string :=
  fold_right (fun line rest => line +++ newline +++ rest) "" lines.

Definition probe_script (readlink_path env_path awk_path : string) : string :=
  unlines
    ["set -eu";
     "for ns in " +++ str_join " " _NAMESPACE_NAMES +++ "; do";
     "  printf 'ns:%s=%s\n' " +++ quoted "$ns" +++ " " +++
       quoted ("$(" +++ readlink_path +++ " /proc/self/ns/$ns)");
     "done";
     awk_path +++ " '/^CapEff:/ {print " +++ quoted "cap_eff=" +++ " $2} " +++
       "/^NoNewPrivs:/ " +++ "{print " +++ quoted "no_new_privs=" +++ " $2}' " +++ "/proc/self/status";
     "if [ -e " +++ quoted "$RYGNAL_HOST_SECRET" +++ " ]; then";
     "  echo 'secret_visible=yes'";
     "else";
     "  echo 'secret_visible=no'";
     "fi";
     "echo 'ENV_BEGIN'";
     env_path;
     "echo 'ENV_END'"].

Definition probe_command (executable_path shell_path script : string) : list string :=
  [executable_path; "--die-with-parent"; "--new-session"; "--unshare-user"; "--unshare-pid";
   "--unshare-ipc"; "--unshare-uts"; "--unshare-net"; "--unshare-cgroup"; "--cap-drop"; "ALL";
   "--clearenv"; "--proc"; "/proc"; "--dev"; "/dev"; "--tmpfs"; "/tmp"; "--dir"; "/var"; "--tmpfs";
   "/var/tmp"; "--tmpfs"; "/run"; "--dir"; "/etc"; "--setenv"; "PATH"; "/usr/bin:/bin"; "--setenv";
   "HOME"; "/nonexistent"; "--setenv"; "TMPDIR"; "/tmp"; "--setenv"; "USER"; "rygnal"; "--setenv";
   "LOGNAME"; "rygnal"; "--setenv"; "LANG"; "C.UTF-8"; "--setenv"; "LC_ALL"; "C.UTF-8"; "--setenv";
   "RYGNAL_PROBE"; "1"; "--setenv"; "RYGNAL_HOST_SECRET"; secret_path]
  ++ _runtime_read_only_mounts ++ ["--"; shell_path; "-c"; script].

(** The features of the self test before it runs. *)
Definition untested_features : list (string * bool) :=
  List.map (fun name => (name, false))
    ["behavioral_self_test"; "user_namespace"; "pid_namespace"; "ipc_namespace"; "uts_namespace";
     "net_namespace"; "cgroup_namespace"; "capabilities_dropped"; "no_new_privileges";
     "host_environment_cleared"; "host_tmp_hidden"].

Definition note (b : bool) (reason : string) : list string := if b then [] else [reason].

(** A value that a line of the output may have replaced by text. *)
Definition hidden_by (p : parsed) (key : string) : option string := assoc_get (values p) key.

Definition no_get_error : exn :=
  mk_exn AttributeError "AttributeError" "'str' object has no attribute 'get'".

(** The characters of a text, as an iteration gives them. *)
Fixpoint chars_of (s : string) : list string :=
  match s with EmptyString => [] | String c s' => String c "" :: chars_of s' end.

(** The names before the first equals sign of every item that has one. *)
Definition environment_names (items : list string) : list string :=
  omap (fun item => fst <$> cut "=" item) items.

Definition all_zeros (s : string) : bool :=
  truthy s && forallb (fun c => String.eqb c "0") (chars_of s).

(** What the output of the self test shows; [set_text] prints a set. *)
Definition evaluate_probe (set_text : list string -> string) (host_namespaces : list (string * string))
    (output : string) : result exn (list (string * bool) * list string) :=
  let p := _parse_probe_output output in
  namespace_values ← match hidden_by p "namespaces" with
                     | None => Ok (namespaces p) | Some _ => Raise no_get_error end;
  let isolated name :=
    negb (bool_decide (assoc_get namespace_values name = assoc_get host_namespaces name)) in
  let cap_eff := lower (default "" (assoc_get (values p) "cap_eff")) in
  let dropped := all_zeros cap_eff in
  let no_new_privs := bool_decide (assoc_get (values p) "no_new_privs" = Some "1") in
  let names := environment_names (match hidden_by p "environment" with
                                  | None => environment p | Some text => chars_of text end) in
  let leaked := mem "RYGNAL_SHOULD_NOT_LEAK" names in
  let unexpected := List.filter (fun n => negb (mem n _ALLOWED_PROBE_ENVIRONMENT)) names in
  let cleared := negb leaked && match unexpected with [] => true | _ => false end in
  let hidden := bool_decide (assoc_get (values p) "secret_visible" = Some "no") in
  let reasons :=
    flat_map (fun name => note (isolated name)
                ("Bubblewrap did not isolate the " +++ name +++ " namespace.")) _NAMESPACE_NAMES
    ++ note dropped "Effective Linux capabilities were not empty."
    ++ note no_new_privs "NoNewPrivs was not enabled inside Bubblewrap."
    ++ note cleared
         ("Host environment variables leaked into the Bubblewrap self-test. " +++
          "Unexpected: " +++ set_text unexpected +++ ", RYGNAL_SHOULD_NOT_LEAK in env: " +++
          (if leaked then "True" else "False"))
    ++ note hidden "Host temporary files remained visible." in
  Ok ([("behavioral_self_test", match reasons with [] => true | _ => false end)]
      ++ List.map (fun name => (name +++ "_namespace", isolated name)) _NAMESPACE_NAMES
      ++ [("capabilities_dropped", dropped); ("no_new_privileges", no_new_privs);
          ("host_environment_cleared", cleared); ("host_tmp_hidden", hidden)],
      reasons).

Definition host_namespaces : list (string * string) :=
  omap (fun name => pair name <$> read_namespace name) _NAMESPACE_NAMES.

Definition namespace_reasons : list string :=
  flat_map (fun name => note (bool_decide (is_Some (read_namespace name)))
              ("Host " +++ name +++ " namespace identity could not be inspected.")) _NAMESPACE_NAMES.

Definition missing_tools (tools : list (string * option string)) : list string :=
  omap (fun t => match snd t with None => Some (fst t) | Some _ => None end) tools.

Definition first_chars (n : nat) (s : string) : string := substring 0 n s.

Definition _run_behavioral_probe (set_text : list string -> string) (executable_path : string)
    : result exn (list (string * bool) * list string) :=
  if negb (match namespace_reasons with [] => true | _ => false end)
  then Ok (untested_features, namespace_reasons)
  else
    let shell := _first_existing ["/bin/sh"; "/usr/bin/sh"] in
    let readlink := _first_existing ["/usr/bin/readlink"; "/bin/readlink"] in
    let env := _first_existing ["/usr/bin/env"; "/bin/env"] in
    let awk := _first_existing ["/usr/bin/awk"; "/bin/awk"] in
    match shell, readlink, env, awk with
    | Some shell_path, Some readlink_path, Some env_path, Some awk_path =>
        let result :=
          _run_probe_command
            (probe_command executable_path shell_path (probe_script readlink_path env_path awk_path))
            (Some (assoc_set minimal_launcher_environment "RYGNAL_SHOULD_NOT_LEAK" "host-secret-value"))
            8 in
        if (returncode result =? 0)%Z then evaluate_probe set_text host_namespaces (stdout result)
        else
          let detail := if truthy (strip (stderr result)) then strip (stderr result)
                        else if truthy (strip (stdout result)) then strip (stdout result)
                        else "unknown Bubblewrap probe failure" in
          Ok (untested_features,
              ["Bubblewrap behavioral self-test failed: " +++ first_chars 500 detail])
    | _, _, _, _ =>
        Ok (untested_features,
            ["Production self-test tools are unavailable: " +++
             str_join ", " (missing_tools [("shell", shell); ("readlink", readlink); ("env", env);
                                           ("awk", awk)])])
    end.

(** ** The verification *)

Definition os_error (text : string) : exn := mk_exn OSError "OSError" text.

Definition _validate_executable (path : string) : result exn string :=
  metadata ← map_err os_error (stat_executable path);
  _ ← ensure (ex_regular metadata) (os_error "Bubblewrap path is not a regular file.");
  _ ← ensure (ex_executable metadata) (os_error "Bubblewrap path is not executable.");
  _ ← ensure (negb (ex_group_or_world_writable metadata))
        (os_error "Bubblewrap executable is group- or world-writable.");
  _ ← ensure ((ex_owner metadata =? 0)%Z || (ex_owner metadata =? getuid)%Z)
        (os_error "Bubblewrap executable has an untrusted owner.");
  Ok (ex_path metadata).

Definition initial_features (linux : bool) : list (string * bool) :=
  [("production_mode", true); ("linux_host", linux); ("secure_executable", false);
   ("version_verified", false); ("required_flags_verified", false); ("behavioral_self_test", false);
   ("user_namespace", false); ("pid_namespace", false); ("ipc_namespace", false);
   ("uts_namespace", false); ("net_namespace", false); ("cgroup_namespace", false);
   ("capabilities_dropped", false); ("no_new_privileges", false); ("host_environment_cleared", false);
   ("host_tmp_hidden", false); ("resource_limits_enforced", true); ("output_bounded", true);
   ("inherited_fds_closed", true)].

Definition required_features : list string :=
  ["secure_executable"; "version_verified"; "required_flags_verified"; "behavioral_self_test";
   "user_namespace"; "pid_namespace"; "ipc_namespace"; "uts_namespace"; "net_namespace";
   "cgroup_namespace"; "capabilities_dropped"; "no_new_privileges"; "host_environment_cleared";
   "host_tmp_hidden"; "resource_limits_enforced"; "output_bounded"; "inherited_fds_closed"].

(** [features.update(other)] *)
Definition update_features (features other : list (string * bool)) : list (string * bool) :=
  fold_left (fun f kv => assoc_set f (fst kv) (snd kv)) other features.

Definition ineligible (platform : string) (path : option string) (reason : string)
    (features : list (string * bool)) : BubblewrapVerification.t :=
  BubblewrapVerification.mk false platform path None None [reason] features.

(** The version that was found and what is wrong with it. *)
Definition check_version (result : probe_output) : option (Z * Z * Z) * list string :=
  if negb (returncode result =? 0)%Z then (None, ["Bubblewrap version probe failed."])
  else
    match _parse_bubblewrap_version
            (if truthy (stdout result) then stdout result else stderr result) with
    | None => (None, ["Bubblewrap version output was not recognized."])
    | Some v =>
        (Some v, note (negb (version_ltb v MINIMUM_BUBBLEWRAP_VERSION))
                   ("Bubblewrap is older than Rygnal's required version " +++
                    _format_version (Some MINIMUM_BUBBLEWRAP_VERSION) +++ "."))
    end.

Definition check_flags (result : probe_output) : list string :=
  let help_text := stdout result +++ newline +++ stderr result in
  let missing_flags := List.filter (fun flag => negb (contains help_text flag)) REQUIRED_BUBBLEWRAP_FLAGS in
  if negb (returncode result =? 0)%Z then ["Bubblewrap help probe failed."]
  else match missing_flags with
       | [] => []
       | _ => ["Bubblewrap lacks required production flags: " +++ str_join ", " missing_flags]
       end.

(** From the validated executable on. *)
Definition verify_executable (set_text : list string -> string) (path : string)
    : result exn BubblewrapVerification.t :=
  let is_nil (l : list string) := match l with [] => true | _ => false end in
  let '(version, version_reasons) := check_version (_run_probe_command [path; "--version"] None 5) in
  let version_ok := is_nil version_reasons in
  let flag_reasons := check_flags (_run_probe_command [path; "--help"] None 5) in
  let flags_ok := is_nil flag_reasons in
  let features := assoc_set (assoc_set (assoc_set (initial_features true) "secure_executable" true)
                    "version_verified" version_ok) "required_flags_verified" flags_ok in
  probe ← (if version_ok && flags_ok then _run_behavioral_probe set_text path else Ok ([], []));
  let features := update_features features (fst probe) in
  let reasons := version_reasons ++ flag_reasons ++ snd probe in
  Ok (BubblewrapVerification.mk
        (is_nil reasons && forallb (fun name => default false (assoc_get features name)) required_features)
        "linux" (Some path) (Some (sha256_file path))
        (match version with Some v => Some (_format_version (Some v)) | None => None end)
        reasons features).

(** [_verify_production_bubblewrap] with the executable found on the path. *)
Definition _verify_production_bubblewrap (set_text : list string -> string) (platform_name : string)
    (executable_path : option string) : result exn BubblewrapVerification.t :=
  let normalized_platform := lower (strip platform_name) in
  if negb (String.eqb normalized_platform "linux") then
    Ok (ineligible normalized_platform None
          "Production guarded execution is supported only on verified Linux hosts."
          (initial_features false))
  else
    match (match executable_path with Some p => Some p | None => which "bwrap" end) with
    | None => Ok (ineligible normalized_platform None "Bubblewrap executable was not found."
                    (initial_features true))
    | Some raw_path =>
        match _validate_executable raw_path with
        | Raise e => Ok (ineligible normalized_platform
                           (Some (PurePosixPath.as_posix (PurePosixPath.of_string raw_path)))
                           (exn_text e) (initial_features true))
        | Ok path => verify_executable set_text path
        end
    end.

Definition verify_production_bubblewrap (set_text : list string -> string)
    : result exn BubblewrapVerification.t :=
  _verify_production_bubblewrap set_text platform_system None.

End Verify.

(** ** Running a command within the limits *)

Definition launcher_payload (l : limits) : json :=
  JDict [("address_space_bytes", JInt (address_space_bytes l)); ("core_bytes", JInt 0);
         ("cpu_seconds", JInt (cpu_seconds l)); ("file_size_bytes", JInt (file_size_bytes l));
         ("open_files", JInt (open_files l)); ("processes", JInt (processes l))].

(** On POSIX; [launcher] is the resolved path of resource_limited_exec.py, if it
    is a regular file, and [python] the interpreter. *)
Definition _resource_limited_launcher_command (python : string) (launcher : option string)
    (command : list string) (l : limits) : result exn (list string) :=
  match launcher with
  | None => Raise (mk_exn RuntimeError "RuntimeError" "Resource-limit launcher is unavailable or unsafe.")
  | Some path => Ok ([python; path; canonical_json (launcher_payload l); "--"] ++ command)
  end.

(** [_StreamCapture] *)
Record stream_capture := mk_capture { retained : string; total_bytes : Z; truncated : bool }.

Definition empty_capture : stream_capture := mk_capture "" 0 false.

(** One chunk of [_capture_stream]. *)
Definition capture_chunk (maximum_bytes : Z) (c : stream_capture) (chunk : string) : stream_capture :=
  let total := (total_bytes c + Z.of_nat (String.length chunk))%Z in
  let remaining := (maximum_bytes - Z.of_nat (String.length (retained c)))%Z in
  mk_capture
    (if (0 <? remaining)%Z then retained c +++ substring 0 (Z.to_nat remaining) chunk else retained c)
    total
    (if (maximum_bytes <? total)%Z then true else truncated c).

(** The chunks until the stream ends or fails. *)
Definition _capture_stream (maximum_bytes : Z) (chunks : list string) : stream_capture :=
  fold_left (capture_chunk maximum_bytes) chunks empty_capture.

Definition _looks_like_bubblewrap_setup_failure (stderr : string) : bool :=
  let lowered := lower stderr in
  contains lowered "rygnal_resource_setup_failed:"
  || (contains lowered "bwrap:"
      && contains_any ["creating new namespace"; "operation not permitted"; "permission denied";
                       "unknown option"; "failed to"; "cannot"; "no such file"] lowered).

Definition _append_message (value message : string) : string :=
  if negb (truthy message) then value
  else if negb (truthy value) then message +++ newline
  else value +++ (if endswith value newline then "" else newline) +++ message +++ newline.

(** [BoundedProcessResult] *)
Record bounded_result := mk_bounded {
  b_exit_code : option Z;
  b_stdout : string;
  b_stderr : string;
  b_timed_out : bool;
  b_duration_ms : Z;
  b_output_truncated : bool;
  b_sandbox_setup_failed : bool;
}.

(** The result of [run_bounded_process] from what the process left behind;
    [decode] is the decoding of bytes. *)
Definition bounded_of (decode : string -> string) (l : limits) (out err : stream_capture) (exit_code : option Z) (timed_out : bool)
    (cleanup_messages : list string) (duration_ms : Z) : bounded_result :=
  let trunc := truncated out || truncated err in
  let stderr0 :=
    if trunc then _append_message (decode (retained err))
                    ("Rygnal truncated command output at " +++ pretty (max_output_bytes l) +++
                     " bytes per stream.")
    else decode (retained err) in
  let stderr := fold_left _append_message cleanup_messages stderr0 in
  mk_bounded (if timed_out then None else exit_code) (decode (retained out)) stderr timed_out duration_ms trunc
    (negb timed_out && match exit_code with Some c => negb (c =? 0)%Z | None => false end
     && _looks_like_bubblewrap_setup_failure stderr).

(** ** Lemmas *)

Lemma substring_all n s : (String.length s <= n)%nat -> substring 0 n s = s.
Proof.
  revert n. induction s as [|c s IH]; intros n Hn; [by destruct n|].
  destruct n as [|n]; cbn in Hn |- *; [lia|]. f_equal. apply IH. lia.
Qed.

Lemma substring_app_l n a b : (n <= String.length a)%nat -> substring 0 n (a +++ b) = substring 0 n a.
Proof.
  revert n. induction a as [|c a IH]; intros n Hn; cbn in Hn.
  - assert (n = 0)%nat as -> by lia. by destruct b.
  - destruct n as [|n]; [done|]. cbn. f_equal. apply IH. lia.
Qed.

Lemma substring_app_r n a b :
  (String.length a <= n)%nat -> substring 0 n (a +++ b) = a +++ substring 0 (n - String.length a) b.
Proof.
  revert n. induction a as [|c a IH]; intros n Hn; cbn in Hn; [by rewrite Nat.sub_0_r|].
  destruct n as [|n]; [lia|]. cbn. f_equal. apply IH. lia.
Qed.

Lemma substring_length n s : String.length (substring 0 n s) = Nat.min n (String.length s).
Proof.
  revert n. induction s as [|c s IH]; intros n; [by destruct n|]. destruct n as [|n]; cbn; [done|].
  by rewrite IH.
Qed.

Fixpoint concat_text (l : list string) : string :=
  match l with [] => "" | s :: l' => s +++ concat_text l' end.

Lemma concat_text_snoc l s : concat_text (l ++ [s]) = concat_text l +++ s.
Proof.
  induction l as [|x l IH]; cbn; [by rewrite app_empty_r|]. by rewrite IH, app_assoc_str.
Qed.

Lemma is_nil_true {A} (l : list A) : match l with [] => true | _ => false end = true <-> l = [].
Proof. by destruct l. Qed.

Lemma note_nil b r : note b r = [] <-> b = true.
Proof. by destruct b. Qed.

Lemma assoc_set_other {A} (d : list (string * A)) k k' v :
  k <> k' -> assoc_get (assoc_set d k v) k' = assoc_get d k'.
Proof.
  intros Hne. induction d as [|[j w] d IH]; cbn.
  - by destruct (String.eqb_spec k k').
  - destruct (String.eqb_spec j k) as [->|]; cbn.
    + by destruct (String.eqb_spec k k').
    + by rewrite IH.
Qed.

(** ** What eligibility rests on *)

Section Theorems.
Context `{PH : ProbeHost} {PR : ProductionHost}.

(** The executable on the path is a regular executable file of root or the
    caller, whose own mode lets neither group nor others write it; who may write
    its directory is not looked at. *)
Record trusted_executable (raw path : string) : Prop := mk_trusted {
  te_found : which "bwrap" = Some raw;
  te_stat : exists m, stat_executable raw = Ok m /\ ex_path m = path /\ ex_regular m = true /\
    ex_executable m = true /\ ex_group_or_world_writable m = false /\
    (ex_owner m = 0%Z \/ ex_owner m = getuid);
}.

(** The names of variables the self test is taken to have printed: a line
    [environment=text] hides the real ones behind the characters of its text. *)
Definition printed_names (p : parsed) : list string :=
  environment_names (match hidden_by p "environment" with
                     | None => environment p | Some text => chars_of text end).

(** The self test ran its script, and its output betrays no missing isolation:
    none of the namespaces is reported to be the host's (a namespace that is not
    reported passes), and the other properties are reported as required. *)
Record isolated_run (path output : string) : Prop := mk_isolated {
  ir_ran : exists shell readlink env awk out,
    _first_existing ["/bin/sh"; "/usr/bin/sh"] = Some shell /\
    _first_existing ["/usr/bin/readlink"; "/bin/readlink"] = Some readlink /\
    _first_existing ["/usr/bin/env"; "/bin/env"] = Some env /\
    _first_existing ["/usr/bin/awk"; "/bin/awk"] = Some awk /\
    run_probe (probe_command path shell (probe_script readlink env awk))
      (assoc_set minimal_launcher_environment "RYGNAL_SHOULD_NOT_LEAK" "host-secret-value") 8 = Ok out /\
    returncode out = 0%Z /\ stdout out = output;
  ir_namespaces : forall name, name ∈ _NAMESPACE_NAMES ->
    is_Some (read_namespace name) /\
    assoc_get (namespaces (_parse_probe_output output)) name <> read_namespace name;
  ir_capabilities : exists caps,
    assoc_get (values (_parse_probe_output output)) "cap_eff" = Some caps /\
    all_zeros (lower caps) = true;
  ir_no_new_privs : assoc_get (values (_parse_probe_output output)) "no_new_privs" = Some "1";
  ir_environment : forall name, name ∈ printed_names (_parse_probe_output output) ->
    name ∈ _ALLOWED_PROBE_ENVIRONMENT;
  ir_secret : assoc_get (values (_parse_probe_output output)) "secret_visible" = Some "no";
}.

Lemma host_namespace_get name :
  name ∈ _NAMESPACE_NAMES -> assoc_get host_namespaces name = read_namespace name.
Proof.
  unfold host_namespaces, _NAMESPACE_NAMES. intros Hn.
  repeat (apply elem_of_cons in Hn as [->|Hn]; [cbn;
    repeat match goal with |- context [read_namespace ?n] => destruct (read_namespace n) end; reflexivity|]).
  by apply elem_of_nil in Hn.
Qed.

Lemma isolated_names_nil (f : string -> bool) (r : string -> string) l :
  flat_map (fun name => note (f name) (r name)) l = [] -> forall name, name ∈ l -> f name = true.
Proof.
  induction l as [|x l IH]; cbn; [by intros _ ? ?%elem_of_nil|].
  intros [H1 H2]%app_eq_nil name [->|Hn]%elem_of_cons; [by apply note_nil in H1|by apply IH].
Qed.

Lemma Ok_pair_inv {A B E} (a a' : A) (b b' : B) :
  (Ok (a, b) : result E (A * B)) = Ok (a', b') -> a = a' /\ b = b'.
Proof. by intros [= -> ->]. Qed.

(** A self test without a complaint. *)
Lemma evaluate_probe_clean set_text host output fs :
  evaluate_probe set_text host output = Ok (fs, []) ->
  let p := _parse_probe_output output in
  hidden_by p "namespaces" = None /\
  (forall name, name ∈ _NAMESPACE_NAMES -> assoc_get (namespaces p) name <> assoc_get host name) /\
  (exists caps, assoc_get (values p) "cap_eff" = Some caps /\ all_zeros (lower caps) = true) /\
  assoc_get (values p) "no_new_privs" = Some "1" /\
  (forall name, name ∈ printed_names p -> name ∈ _ALLOWED_PROBE_ENVIRONMENT) /\
  assoc_get (values p) "secret_visible" = Some "no".
Proof.
  unfold evaluate_probe. cbn zeta. set (p := _parse_probe_output output). clearbody p.
  destruct (hidden_by p "namespaces") as [t|]; [done|]. cbn [mbind result_bind]. intros H.
  apply Ok_pair_inv in H as [_ H]. apply app_eq_nil in H as [Hn H]. apply app_eq_nil in H as [Hc%note_nil H].
  apply app_eq_nil in H as [Hp%note_nil H]. apply app_eq_nil in H as [He%note_nil Hs%note_nil].
  split_and!; [done| | |by apply bool_decide_eq_true in Hp| |by apply bool_decide_eq_true in Hs].
  - intros name Hin. pose proof (isolated_names_nil _ _ _ Hn name Hin) as Hi.
    by apply negb_true_iff, bool_decide_eq_false in Hi.
  - destruct (assoc_get (values p) "cap_eff") as [caps|]; [by exists caps|]. by vm_compute in Hc.
  - intros name Hin. apply andb_true_iff in He as [_ He].
    apply is_nil_true in He. destruct (mem name _ALLOWED_PROBE_ENVIRONMENT) eqn:Em; [by apply mem_spec|].
    assert (Hx : name ∈ List.filter (fun n => negb (mem n _ALLOWED_PROBE_ENVIRONMENT))
      (printed_names p)).
    { apply list_elem_of_In, filter_In. split; [by apply list_elem_of_In|by rewrite Em]. }
    unfold printed_names in Hx. rewrite He in Hx. by apply elem_of_nil in Hx.
Qed.

Lemma behavioral_probe_clean set_text path fs :
  _run_behavioral_probe set_text path = Ok (fs, []) -> exists output, isolated_run path output.
Proof.
  unfold _run_behavioral_probe. destruct namespace_reasons as [|r rs] eqn:En; cbn [negb];
    [|by intros [= _ ?]].
  destruct (_first_existing ["/bin/sh"; _]) as [shell|] eqn:Eshell; [|done].
  destruct (_first_existing ["/usr/bin/readlink"; _]) as [readlink|] eqn:Ereadlink; [|done].
  destruct (_first_existing ["/usr/bin/env"; _]) as [env|] eqn:Eenv; [|done].
  destruct (_first_existing ["/usr/bin/awk"; _]) as [awk|] eqn:Eawk; [|done].
  unfold _run_probe_command. cbn [default].
  destruct (run_probe _ _ _) as [out|e] eqn:Er; [|done].
  destruct (Z.eqb_spec (returncode out) 0) as [Hz|]; [|done].
  intros (_ & Hn & Hc & Hp & He & Hs)%evaluate_probe_clean. exists (stdout out). constructor; try done.
  - by exists shell, readlink, env, awk, out.
  - intros name Hin. split.
    + pose proof (isolated_names_nil _ _ _ En name Hin) as Hi. by apply bool_decide_eq_true in Hi.
    + rewrite <- host_namespace_get by done. by apply Hn.
Qed.

Lemma check_version_clean result v :
  check_version result = (v, []) ->
  returncode result = 0%Z /\ exists w, v = Some w /\ version_ltb w MINIMUM_BUBBLEWRAP_VERSION = false /\
    _parse_bubblewrap_version (if truthy (stdout result) then stdout result else stderr result) = Some w.
Proof.
  unfold check_version. destruct (Z.eqb_spec (returncode result) 0) as [Hz|]; cbn [negb]; [|done].
  destruct (_parse_bubblewrap_version _) as [w|]; [|done]. intros [= <- Hn%note_nil].
  split; [done|]. exists w. by apply negb_true_iff in Hn.
Qed.

Lemma check_flags_clean result :
  check_flags result = [] ->
  returncode result = 0%Z /\ forall flag, flag ∈ REQUIRED_BUBBLEWRAP_FLAGS ->
    contains (stdout result +++ newline +++ stderr result) flag = true.
Proof.
  unfold check_flags. cbn zeta. destruct (Z.eqb_spec (returncode result) 0) as [Hz|]; cbn [negb]; [|done].
  destruct (List.filter _ _) as [|f fs] eqn:Ef; [|done]. intros _. split; [done|]. intros flag Hin.
  destruct (contains _ flag) eqn:Ec; [done|].
  assert (Hx : flag ∈ []); [|by apply elem_of_nil in Hx].
  rewrite <- Ef. apply list_elem_of_In, filter_In. split; [by apply list_elem_of_In|by rewrite Ec].
Qed.

Lemma validate_executable_inv raw path :
  which "bwrap" = Some raw -> _validate_executable raw = Ok path -> trusted_executable raw path.
Proof.
  intros Hw. unfold _validate_executable. intros (m & Hm & H)%bind_Ok_inv.
  apply bind_Ok_inv in H as ([] & H1%ensure_Ok & H). apply bind_Ok_inv in H as ([] & H2%ensure_Ok & H).
  apply bind_Ok_inv in H as ([] & H3%ensure_Ok & H). apply bind_Ok_inv in H as ([] & H4%ensure_Ok & [= Hp]).
  constructor; [done|]. exists m. destruct (stat_executable raw) as [m'|]; [|done]. injection Hm as ->.
  apply negb_true_iff in H3. apply orb_true_iff in H4. rewrite !Z.eqb_eq in H4. done.
Qed.

(** C30 Production mode is only offered on evidence: the platform is Linux; the
    Bubblewrap found on the path is a regular file of root or the caller whose
    own mode lets neither group nor others write it; it reports at least the
    minimal version and names every required option in its help; and the self
    test, the script of the code run in that Bubblewrap with a variable that
    must not leak, ended with code 0 and printed no namespace that is the
    host's, no capability, no new privileges, no variable but the allowed ones,
    and that the host file is not visible.  A namespace that the output does not
    mention passes, and a line [environment=] replaces the variables. *)
Theorem eligible_is_verified set_text v :
  verify_production_bubblewrap set_text = Ok v -> BubblewrapVerification.eligible v = true ->
  lower (strip platform_system) = "linux" /\
  exists raw path version help output,
    BubblewrapVerification.executable_path v = Some path /\ trusted_executable raw path /\
    (let r := _run_probe_command [path; "--version"] None 5 in
     returncode r = 0%Z /\
     _parse_bubblewrap_version (if truthy (stdout r) then stdout r else stderr r) = Some version) /\
    version_ltb version MINIMUM_BUBBLEWRAP_VERSION = false /\
    (let r := _run_probe_command [path; "--help"] None 5 in
     returncode r = 0%Z /\ help = stdout r +++ newline +++ stderr r) /\
    (forall flag, flag ∈ REQUIRED_BUBBLEWRAP_FLAGS -> contains help flag = true) /\
    isolated_run path output.
Proof.
  unfold verify_production_bubblewrap, _verify_production_bubblewrap. cbn zeta.
  destruct (String.eqb_spec (lower (strip platform_system)) "linux") as [Hl|]; cbn [negb];
    [|by intros [= <-]].
  destruct (which "bwrap") as [raw|] eqn:Ew; [|by intros [= <-]].
  destruct (_validate_executable raw) as [path|e] eqn:Ev; [|by intros [= <-]].
  unfold verify_executable. cbn zeta. pose proof (validate_executable_inv _ _ Ew Ev) as Ht.
  destruct (check_version _) as [version vr] eqn:Ecv. destruct (check_flags _) as [|fr frs] eqn:Ecf.
  2: { intros (pr & _ & [= <-])%bind_Ok_inv He. cbn in He. by destruct vr. }
  destruct vr as [|vr vrs]; cbn [andb].
  2: { intros (pr & _ & [= <-])%bind_Ok_inv He. by cbn in He. }
  intros ([fs rs] & Hp & [= <-])%bind_Ok_inv He. cbn [BubblewrapVerification.eligible app snd] in He.
  apply andb_true_iff in He as [->%is_nil_true _].
  apply check_version_clean in Ecv as (Hz & w & -> & Hge & Hw).
  apply check_flags_clean in Ecf as [Hz' Hf]. apply behavioral_probe_clean in Hp as [output Ho].
  split; [done|]. eexists raw, path, w, _, output. split_and!; try done.
Qed.

(** Output of a contained command is kept up to the limit: exactly the
    prefix of that many bytes, whatever the chunks, and the flag tells whether
    there was more. *)
Theorem capture_is_a_prefix max chunks :
  (0 <= max)%Z ->
  let c := _capture_stream max chunks in
  let all := concat_text chunks in
  retained c = substring 0 (Z.to_nat max) all /\
  (Z.of_nat (String.length (retained c)) <= max)%Z /\
  total_bytes c = Z.of_nat (String.length all) /\
  truncated c = (max <? Z.of_nat (String.length all))%Z.
Proof.
  intros Hmax. cbn zeta. unfold _capture_stream.
  induction chunks as [|s chunks (IH1 & IH2 & IH3 & IH4)] using rev_ind.
  - cbn. split_and!; [by destruct (Z.to_nat max)|lia|done|]. symmetry. apply Z.ltb_ge. lia.
  - rewrite fold_left_app, concat_text_snoc. cbn [fold_left]. unfold capture_chunk. cbn zeta.
    set (c := fold_left _ chunks _) in *. set (all := concat_text chunks) in *.
    assert (Hr : (if (0 <? max - Z.of_nat (String.length (retained c)))%Z
                  then retained c +++ substring 0 (Z.to_nat (max - Z.of_nat (String.length (retained c)))) s
                  else retained c) = substring 0 (Z.to_nat max) (all +++ s)).
    { rewrite IH1, substring_length.
      destruct (Z.ltb_spec 0 (max - Z.of_nat (Nat.min (Z.to_nat max) (String.length all)))) as [Hlt|Hge].
      - rewrite substring_app_r, (substring_all _ all) by lia. do 2 f_equal. lia.
      - by rewrite substring_app_l by lia. }
    cbn [retained total_bytes truncated]. rewrite Hr, IH3, IH4, length_append, substring_length, length_append.
    split_and!; [done|lia|lia|].
    destruct (Z.ltb_spec max (Z.of_nat (String.length all) + Z.of_nat (String.length s))),
      (Z.ltb_spec max (Z.of_nat (String.length all))),
      (Z.ltb_spec max (Z.of_nat (String.length all + String.length s))); lia || done.
Qed.
End Theorems.
End Production.

(** ** Examples *)

Module ProductionExample.
Import Production.

Definition bwrap := "/usr/bin/bwrap".

Definition ns_text (side name : string) : string := name +++ ":[" +++ side +++ "]".

Definition good_output : string :=
  unlines (List.map (fun n => "ns:" +++ n +++ "=" +++ ns_text "2" n) _NAMESPACE_NAMES
    ++ ["cap_eff=0000000000000000"; "no_new_privs=1"; "secret_visible=no"; "ENV_BEGIN";
        "PATH=/usr/bin:/bin"; "HOME=/nonexistent"; "ENV_END"]).

(** The same output without the namespace lines. *)
Definition silent_output : string :=
  unlines ["cap_eff=0000000000000000"; "no_new_privs=1"; "secret_visible=no"; "ENV_BEGIN";
           "PATH=/usr/bin:/bin"; "HOME=/nonexistent"; "ENV_END"].

Definition linux : ProbeHost := {|
  platform_system := "Linux";
  which tool := if String.eqb tool "bwrap" then Some bwrap else None;
  run_command _ := None;
|}.

(** A host on which the self test prints [output]. *)
Definition host_printing (output : string) : ProductionHost := {|
  stat_executable path := Ok (mk_executable path true true false 0);
  getuid := 1000;
  sha256_file _ := "sha256:bwrap";
  run_probe command _ _ :=
    Ok (if bool_decide (command = [bwrap; "--version"]) then mk_probe 0 "bubblewrap 0.11.2" ""
        else if bool_decide (command = [bwrap; "--help"])
        then mk_probe 0 (str_join " " REQUIRED_BUBBLEWRAP_FLAGS) ""
        else mk_probe 0 output "");
  read_namespace name := Some (ns_text "1" name);
  path_exists _ := true;
  realpath path := path;
  secret_path := "/tmp/secret";
|}.

Definition is_eligible (output : string) : bool :=
  match verify_production_bubblewrap (PH := linux) (PR := host_printing output) (str_join ", ") with
  | Ok v => BubblewrapVerification.eligible v
  | Raise _ => false
  end.

Example isolated_host_is_eligible : is_eligible good_output = true.
Proof. vm_compute. reflexivity. Qed.

(** A leaked variable or a kept capability is noticed. *)
Example leak_is_noticed :
  is_eligible (good_output +++ unlines ["ENV_BEGIN"; "RYGNAL_SHOULD_NOT_LEAK=host-secret-value"]) = false /\
  is_eligible (good_output +++ unlines ["cap_eff=00000000000000ff"]) = false /\
  is_eligible (good_output +++ unlines ["ns:net=" +++ ns_text "1" "net"]) = false.
Proof. vm_compute. done. Qed.

(** A self test that says nothing of the namespaces counts as isolation. *)
Example silent_self_test_is_eligible : is_eligible silent_output = true.
Proof. vm_compute. reflexivity. Qed.

Lemma eligible_witness :
  is_eligible good_output = true /\
  exists path output, trusted_executable (PH := linux) (PR := host_printing good_output) bwrap path /\
    isolated_run (PR := host_printing good_output) path output.
Proof.
  assert (He : is_eligible good_output = true) by (vm_compute; reflexivity).
  split; [exact He|]. unfold is_eligible in He.
  destruct (verify_production_bubblewrap _) as [v|] eqn:Ev; [|discriminate].
  destruct (eligible_is_verified (PH := linux) (PR := host_printing good_output) _ v Ev He)
    as (_ & raw & path & w & help & output & _ & Ht & _ & _ & _ & _ & Hi).
  exists path, output. split; [|exact Hi].
  pose proof (te_found _ _ Ht) as Hw. injection Hw as <-. exact Ht.
Defined.

Lemma capture_witness :
  let c := _capture_stream 5 ["abc"; "defg"; "h"] in
  retained c = "abcde" /\ truncated c = true /\ total_bytes c = 8%Z.
Proof.
  destruct (capture_is_a_prefix 5 ["abc"; "defg"; "h"]) as (Hr & _ & Ht & Hb); [lia|].
  cbn zeta. rewrite Hr, Ht, Hb. vm_compute. done.
Defined.
End ProductionExample.
