(* ===== verification/Effects.v ===== *)
(** * Code that changes state and raises

    [eff M A] is a Python computation on a state [M]: it ends in a new state and
    returns or raises; a raise keeps the state reached so far.  [catch] is
    [try ... except], [finally] is [try ... finally].  [keeps P c] says that the
    computation preserves a predicate; the database [eff] proves it along the
    structure of the code.  [triple P c Q E] is a Hoare triple with a
    postcondition for a return and one for a raise. *)

From S2P Require Export PyValue.

Definition eff (M A : Type) : Type := M -> M * result exn A.

#[export] Instance eff_ret M : MRet (eff M) := fun A a m => (m, Ok a).
#[export] Instance eff_bind M : MBind (eff M) := fun A B f c m =>
  match c m with
  | (m', Ok a) => f a m'
  | (m', Raise e) => (m', Raise e)
  end.

Section Combinators.
Context {M : Type}.

(** A computation without effect, and one that only reads. *)
Definition lift {A} (r : result exn A) : eff M A := fun m => (m, r).
Definition asks {A} (f : M -> A) : eff M A := fun m => (m, Ok (f m)).
Definition raise {A} (e : exn) : eff M A := lift (Raise e).
Definition require (b : bool) (e : exn) : eff M () := lift (ensure b e).
Definition whenever (b : bool) (c : eff M ()) : eff M () := if b then c else mret ().

(** [except]: the handler picks the exceptions it is for. *)
Definition catch {A} (c : eff M A) (handler : exn -> option (eff M A)) : eff M A := fun m =>
  match c m with
  | (m', Raise e) => match handler e with Some h => h m' | None => (m', Raise e) end
  | ok => ok
  end.

(** The exception, if there is one, as a value. *)
Definition attempt {A} (c : eff M A) : eff M (result exn A) := fun m =>
  let '(m', r) := c m in (m', Ok r).

(** [finally]: an exception of the last block replaces the outcome. *)
Definition finally {A} (c : eff M A) (last : eff M ()) : eff M A :=
  r ← attempt c; _ ← last; lift r.

(** [try: ... except: pass] *)
Definition ignoring (p : exn -> bool) (c : eff M ()) : eff M () :=
  catch c (fun e => if p e then Some (mret ()) else None).

Definition keeps {A} (P : M -> Prop) (c : eff M A) : Prop := forall m, P m -> P (fst (c m)).

(** ** Lemmas *)

Lemma lift_keeps {A} P (r : result exn A) : keeps P (lift r).
Proof. intros m Hm. exact Hm. Qed.

Lemma ret_keeps {A} P (a : A) : keeps P (mret a).
Proof. intros m Hm. exact Hm. Qed.

Lemma asks_keeps {A} P (f : M -> A) : keeps P (asks f).
Proof. intros m Hm. exact Hm. Qed.

Lemma raise_keeps {A} P e : keeps P (raise (A:=A) e).
Proof. intros m Hm. exact Hm. Qed.

Lemma require_keeps P b e : keeps P (require b e).
Proof. intros m Hm. exact Hm. Qed.

Lemma bind_keeps {A B} P (c : eff M A) (f : A -> eff M B) :
  keeps P c -> (forall a, keeps P (f a)) -> keeps P (c ≫= f).
Proof.
  intros Hc Hf m Hm. unfold mbind, eff_bind. specialize (Hc m Hm).
  destruct (c m) as [m' [a|e]]; cbn in *; [by apply Hf|done].
Qed.

Lemma whenever_keeps P b c : keeps P c -> keeps P (whenever b c).
Proof. intros H. destruct b; [done|apply ret_keeps]. Qed.

Lemma catch_keeps {A} P (c : eff M A) h :
  keeps P c -> (forall e k, h e = Some k -> keeps P k) -> keeps P (catch c h).
Proof.
  intros Hc Hh m Hm. unfold catch. specialize (Hc m Hm).
  destruct (c m) as [m' [a|e]]; cbn in *; [done|].
  destruct (h e) as [k|] eqn:E; [by eapply Hh|done].
Qed.

Lemma attempt_keeps {A} P (c : eff M A) : keeps P c -> keeps P (attempt c).
Proof. intros Hc m Hm. unfold attempt. specialize (Hc m Hm). by destruct (c m). Qed.

Lemma finally_keeps {A} P (c : eff M A) last : keeps P c -> keeps P last -> keeps P (finally c last).
Proof.
  intros Hc Hl. apply bind_keeps; [by apply attempt_keeps|]. intros r.
  apply bind_keeps; [done|]. intros _. apply lift_keeps.
Qed.

Lemma ignoring_keeps P p c : keeps P c -> keeps P (ignoring p c).
Proof.
  intros Hc. apply catch_keeps; [done|]. intros e k. destruct (p e); [|done].
  intros [= <-]. apply ret_keeps.
Qed.

Lemma bind_run {A B} (c : eff M A) (f : A -> eff M B) m m' b :
  (c ≫= f) m = (m', Ok b) <-> exists m1 a, c m = (m1, Ok a) /\ f a m1 = (m', Ok b).
Proof.
  unfold mbind, eff_bind. split.
  - destruct (c m) as [m1 [a|e]]; [eauto|by intros [= _ ?]].
  - intros (m1 & a & -> & H). exact H.
Qed.

Lemma bind_run_raise {A B} (c : eff M A) (f : A -> eff M B) m m' e :
  (c ≫= f) m = (m', Raise e) <->
  c m = (m', Raise e) \/ exists m1 a, c m = (m1, Ok a) /\ f a m1 = (m', Raise e).
Proof.
  unfold mbind, eff_bind. split.
  - destruct (c m) as [m1 [a|e1]]; [eauto|]. intros [= -> ->]. by left.
  - intros [->|(m1 & a & -> & H)]; [done|exact H].
Qed.

Lemma lift_run {A} (r : result exn A) m m' a : lift r m = (m', Ok a) <-> m' = m /\ r = Ok a.
Proof. unfold lift. split; [by intros [= -> ->]|by intros [-> ->]]. Qed.

Lemma asks_run {A} (f : M -> A) m m' a : asks f m = (m', Ok a) <-> m' = m /\ a = f m.
Proof. unfold asks. split; [by intros [= -> ->]|by intros [-> ->]]. Qed.

Lemma ret_run {A} (x : A) (m m' : M) a : (mret x : eff M A) m = (m', Ok a) <-> m' = m /\ a = x.
Proof. unfold mret, eff_ret. split; [by intros [= -> ->]|by intros [-> ->]]. Qed.

Lemma require_run b e m m' (u : ()) : require b e m = (m', Ok u) <-> m' = m /\ b = true.
Proof. unfold require. rewrite lift_run. destruct b, u; cbn; naive_solver. Qed.

(** ** Triples *)

Definition triple {A} (P : M -> Prop) (c : eff M A) (Q : A -> M -> Prop) (E : M -> Prop) : Prop :=
  forall m, P m -> match c m with (m', Ok a) => Q a m' | (m', Raise _) => E m' end.

Lemma triple_run {A} P (c : eff M A) Q E m m' a : triple P c Q E -> P m -> c m = (m', Ok a) -> Q a m'.
Proof. intros H Hm Hc. specialize (H m Hm). by rewrite Hc in H. Qed.

Lemma triple_any {A} P (c : eff M A) R m : triple P c (fun _ => R) R -> P m -> R (fst (c m)).
Proof. intros H Hm. specialize (H m Hm). by destruct (c m) as [m' [a|e]]. Qed.

Lemma triple_weaken {A} (P P' : M -> Prop) (c : eff M A) (Q Q' : A -> M -> Prop) (E E' : M -> Prop) :
  triple P c Q E -> (forall m, P' m -> P m) -> (forall a m, Q a m -> Q' a m) -> (forall m, E m -> E' m) ->
  triple P' c Q' E'.
Proof.
  intros H HP HQ HE m Hm. specialize (H m (HP m Hm)). destruct (c m) as [m' [a|e]]; auto.
Qed.

Lemma triple_keeps {A} P (c : eff M A) : keeps P c -> triple P c (fun _ => P) P.
Proof. intros H m Hm. specialize (H m Hm). by destruct (c m) as [m' [a|e]]. Qed.

Lemma triple_and {A} (P P' : M -> Prop) (c : eff M A) Q Q' (E E' : M -> Prop) :
  triple P c Q E -> triple P' c Q' E' ->
  triple (fun m => P m /\ P' m) c (fun a m => Q a m /\ Q' a m) (fun m => E m /\ E' m).
Proof. intros H H' m [Hm Hm']. specialize (H m Hm). specialize (H' m Hm'). by destruct (c m) as [m' [a|e]]. Qed.

(** A fact that does not depend on the state is a hypothesis. *)
Lemma triple_pure {A} P (phi : Prop) (c : eff M A) Q E :
  (phi -> triple P c Q E) -> triple (fun m => P m /\ phi) c Q E.
Proof. intros H m [Hm Hphi]. by apply H. Qed.

Lemma triple_bind {A B} P (c : eff M A) (f : A -> eff M B) R Q E :
  triple P c R E -> (forall a, triple (R a) (f a) Q E) -> triple P (c ≫= f) Q E.
Proof.
  intros Hc Hf m Hm. unfold mbind, eff_bind. specialize (Hc m Hm).
  destruct (c m) as [m' [a|e]]; [by apply Hf|done].
Qed.

(** The first part keeps what holds, the rest starts from it. *)
Lemma triple_after {A B} P (c : eff M A) (f : A -> eff M B) Q (E : M -> Prop) :
  keeps P c -> (forall m, P m -> E m) -> (forall a, triple P (f a) Q E) -> triple P (c ≫= f) Q E.
Proof.
  intros Hc He Hf. eapply triple_bind; [|exact Hf].
  eapply triple_weaken; [by apply triple_keeps|auto..].
Qed.

Lemma triple_ret {A} (P : M -> Prop) (x : A) Q E : (forall m, P m -> Q x m) -> triple P (mret x) Q E.
Proof. intros H m Hm. by apply H. Qed.

Lemma triple_lift {A} (P : M -> Prop) (r : result exn A) (Q : A -> M -> Prop) (E : M -> Prop) :
  (forall a m, r = Ok a -> P m -> Q a m) -> (forall m, P m -> E m) -> triple P (lift r) Q E.
Proof. intros H HE m Hm. unfold lift. destruct r; auto. Qed.

Lemma triple_lift_eq {A} (P : M -> Prop) (r : result exn A) :
  triple P (lift r) (fun a m => P m /\ r = Ok a) P.
Proof. by apply triple_lift. Qed.

Lemma triple_asks {A} (P : M -> Prop) (f : M -> A) (Q : A -> M -> Prop) E :
  (forall m, P m -> Q (f m) m) -> triple P (asks f) Q E.
Proof. intros H m Hm. by apply H. Qed.

Lemma triple_catch {A} P (c : eff M A) h Q (E E' : M -> Prop) :
  triple P c Q E' -> (forall e k, h e = Some k -> triple E' k Q E) -> (forall m, E' m -> E m) ->
  triple P (catch c h) Q E.
Proof.
  intros Hc Hh HE m Hm. unfold catch. specialize (Hc m Hm).
  destruct (c m) as [m' [a|e]]; [done|]. destruct (h e) as [k|] eqn:Ek; [by eapply Hh|auto].
Qed.

(** The last block runs from either outcome. *)
Lemma triple_finally {A} P (c : eff M A) last (J R : M -> Prop) :
  triple P c (fun _ => J) J -> triple J last (fun _ => R) R -> triple P (finally c last) (fun _ => R) R.
Proof.
  intros Hc Hl m Hm. specialize (Hc m Hm). unfold finally, attempt, mbind, eff_bind, lift.
  destruct (c m) as [m1 [a|e]]; specialize (Hl m1 Hc); destruct (last m1) as [m2 [u|e2]]; done.
Qed.

Lemma triple_finally_each {A} P (c : eff M A) last Q (E : M -> Prop) :
  triple P c Q E -> (forall a, triple (Q a) last (fun _ => Q a) E) -> triple E last (fun _ => E) E ->
  triple P (finally c last) Q E.
Proof.
  intros Hc Hq He m Hm. specialize (Hc m Hm). unfold finally, attempt, mbind, eff_bind, lift.
  destruct (c m) as [m1 [a|e]]; [specialize (Hq a m1 Hc)|specialize (He m1 Hc)];
    destruct (last m1) as [m2 [u|e2]]; done.
Qed.

Lemma finally_run {A} (c : eff M A) last m m' r : finally c last m = (m', r) -> exists m1 r1 o,
  c m = (m1, r1) /\ last m1 = (m', o) /\ r = match o with Ok _ => r1 | Raise e => Raise e end.
Proof.
  unfold finally, attempt, mbind, eff_bind, lift. destruct (c m) as [m1 r1]. intros H. exists m1, r1.
  destruct (last m1) as [m2 [u|e]]; injection H as <- <-; by eexists.
Qed.
End Combinators.

Create HintDb eff.
#[export] Hint Resolve lift_keeps ret_keeps asks_keeps raise_keeps require_keeps bind_keeps whenever_keeps
  attempt_keeps finally_keeps ignoring_keeps : eff.

(** Prove [keeps] along the code: binds, branches, and the lemmas of [eff]. *)
Ltac keeps_step :=
  match goal with
  | |- keeps _ (_ ≫= _) => apply bind_keeps; [|intros ?]
  | |- keeps _ (finally _ _) => apply finally_keeps
  | |- keeps _ (ignoring _ _) => apply ignoring_keeps
  | |- keeps _ (attempt _) => apply attempt_keeps
  | |- keeps _ (whenever _ _) => apply whenever_keeps
  | |- keeps _ (match ?x with _ => _ end) => destruct x
  | |- keeps _ (let _ := _ in _) => cbv zeta
  | _ => solve [auto with eff]
  end.
Ltac keeps := repeat keeps_step.

(** Invert a computation that returned. *)
Ltac inv_eff :=
  repeat match goal with
  | H : (_ ≫= _) _ = (_, Ok _) |- _ => apply bind_run in H as (? & ? & ? & H)
  | H : require _ _ _ = (_, Ok _) |- _ => apply require_run in H as [-> H]
  | H : lift _ _ = (_, Ok _) |- _ => apply lift_run in H as [-> H]
  | H : asks _ _ = (_, Ok _) |- _ => apply asks_run in H as [-> H]; try (injection H as H); try subst
  | H : mret _ _ = (_, Ok _) |- _ => apply ret_run in H as [-> H]; try (injection H as H); try subst
  | H : raise _ _ = (_, Ok _) |- _ => apply lift_run in H as [_ H]; discriminate H
  | H : Ok _ = Ok _ |- _ => injection H as <-
  end.
