(* ===== verification/RecoverySession.v ===== *)
(** * recovery_session.py and untracked_files.py

    The disposable worktree of a guarded run: how it is created at the trusted
    commit, and how it is removed or moved aside once its ownership is proved;
    and the policy for untracked files of the trusted repository.  Git and the
    file system are the class [WorktreeHost] over the state of the machine. *)

From S2P Require Import Fnmatch.
From S2P Require Export Effects Containment Security ChangeGate.

Local Open Scope string_scope.
Local Open Scope list_scope.
Local Open Scope py_scope.

(** ** The machine *)

(** A Git command: its output, its two streams when it exits with another code,
    or the error of starting it. *)
Inductive git_failure := GitExit (stderr stdout : string) | GitOSError (text : string).

(** What the module asks of the operating system and of Git.  A failed call is
    the text of its [OSError].  [fs_mkdir] makes the parents and accepts an
    existing directory if the flag is set, [fs_create] opens with O_EXCL, and
    [fs_unlink] accepts a missing file. *)
Class WorktreeHost (M : Type) := {
  git : list string -> PurePosixPath.t -> M -> M * result git_failure string;
  resolve : M -> PurePosixPath.t -> PurePosixPath.t;
  expanduser : PurePosixPath.t -> PurePosixPath.t;
  tempdir : PurePosixPath.t;
  exists_path : M -> PurePosixPath.t -> bool;
  is_dir : M -> PurePosixPath.t -> bool;
  is_file : M -> PurePosixPath.t -> bool;
  is_symlink : M -> PurePosixPath.t -> bool;
  iterdir : M -> PurePosixPath.t -> result string (list PurePosixPath.t);
  read_text : M -> PurePosixPath.t -> result string string;
  fs_mkdir : PurePosixPath.t -> bool -> M -> M * result string ();
  fs_chmod : PurePosixPath.t -> Z -> M -> M * result string ();
  fs_create : PurePosixPath.t -> M -> M * result string ();
  fs_write : PurePosixPath.t -> string -> M -> M * result string ();
  fs_unlink : PurePosixPath.t -> M -> M * result string ();
  fs_rmdir : PurePosixPath.t -> M -> M * result string ();
  fs_replace : PurePosixPath.t -> PurePosixPath.t -> M -> M * result string ();
}.

Module UntrackedFilePolicy.
Inductive t := BLOCK | PRESERVE_AND_WARN.
Definition value (p : t) : string :=
  match p with BLOCK => "block" | PRESERVE_AND_WARN => "preserve_and_warn" end.
#[global] Instance untracked_policy_eq_dec : EqDecision t.
Proof. solve_decision. Defined.
End UntrackedFilePolicy.

Module Recovery.

Definition RecoverySessionError (text : string) : exn :=
  mk_exn OtherError "RecoverySessionError" text.

Definition is_session_error (e : exn) : bool := String.eqb (exn_name e) "RecoverySessionError".

Definition os_error (text : string) : exn := mk_exn OSError "OSError" text.

Definition is_os_error (e : exn) : bool := bool_decide (exn_base e = OSError).

Module RecoverySessionConfig.
Record t := mk {
  trusted_repo_path : PurePosixPath.t;
  untracked_policy : UntrackedFilePolicy.t;
  rygnal_run_root : option PurePosixPath.t;
}.
End RecoverySessionConfig.

Module RecoverySession.
Record t := mk {
  run_id : string;
  trusted_repo_path : PurePosixPath.t;
  execution_path : PurePosixPath.t;
  baseline_commit_sha : string;
  timeline_dir : PurePosixPath.t;
  owner_marker_path : option PurePosixPath.t;
  run_root : option PurePosixPath.t;
}.
Definition workspace_path (s : t) : PurePosixPath.t := execution_path s.
End RecoverySession.

(** [RESET_SUCCESS] is an alias of [CLEANED_GIT]. *)
Module CleanupStatus.
Inductive t := CLEANED_GIT | CLEANED_FALLBACK | CLEANUP_FAILED.
Definition RESET_SUCCESS : t := CLEANED_GIT.
Definition value (s : t) : string :=
  match s with
  | CLEANED_GIT => "worktree_removed" | CLEANED_FALLBACK => "worktree_quarantined"
  | CLEANUP_FAILED => "cleanup_failed"
  end.
#[global] Instance cleanup_status_eq_dec : EqDecision t.
Proof. solve_decision. Defined.
End CleanupStatus.

Module CleanupResult.
Record t := mk {
  status : CleanupStatus.t;
  message : string;
  prune_attempted : bool;
  quarantined : bool;
  workspace_path : option string;
  quarantine_path : option string;
}.
End CleanupResult.

(** 0o700 and 0o600. *)
Definition mode_700 : Z := 448.
Definition mode_600 : Z := 384.

(** A path in a text. *)
Definition show (p : PurePosixPath.t) : string := PurePosixPath.as_posix p.

Definition joinpath (p : PurePosixPath.t) (name : string) : PurePosixPath.t :=
  join_path p (PurePosixPath.of_string name).

Definition _strict_descendant (path root : PurePosixPath.t) : bool :=
  _is_within_or_equal path root && negb (bool_decide (path = root)).

Definition _is_sensitive_untracked_path (path : string) : bool :=
  let name := PurePosixPath.name (PurePosixPath.of_string path) in
  mem name [".env"; ".env.local"; ".env.development"; ".env.production"; ".npmrc"; ".pypirc"]
  || contains (lower name) "secret".

(** The first five, and how many more. *)
Definition listed (paths : list string) : string :=
  str_join ", " (take 5 paths)
  +++ (if (List.length paths <=? 5)%nat then ""
       else ", and " +++ pretty (List.length paths - 5)%nat +++ " more").

(** A hexadecimal digit. *)
Definition is_hex (c : ascii) : bool := contains "0123456789abcdefABCDEF" (String c "").

Definition all_hex (s : string) : bool := forallb is_hex (list_ascii_of_string s).

Definition valid_sha (s : string) : bool := (String.length s =? 40)%nat && all_hex s.

Definition _owner_marker_payload (run_id : string) (trusted_repo_path : PurePosixPath.t)
    (baseline_commit_sha : string) (workspace_path : PurePosixPath.t) : string :=
  str_join (String (ascii_of_N 10) "")
    ["schema=rygnal-worktree-owner.v1"; "run_id=" +++ run_id;
     "trusted_repo_path=" +++ show trusted_repo_path;
     "baseline_commit_sha=" +++ baseline_commit_sha; "workspace_path=" +++ show workspace_path; ""].

Definition _expected_owner_marker (s : RecoverySession.t) : string :=
  _owner_marker_payload (RecoverySession.run_id s) (RecoverySession.trusted_repo_path s)
    (RecoverySession.baseline_commit_sha s) (RecoverySession.workspace_path s).

Section Session.
Context {M : Type} {WH : WorktreeHost M}.
Implicit Types (p : PurePosixPath.t).

(** A system call. *)
Definition sys {A} (call : M -> M * result string A) : eff M A := fun m =>
  let '(m', r) := call m in (m', map_err os_error r).

Definition _run_git (args : list string) (cwd : PurePosixPath.t) : eff M string := fun m =>
  match git args cwd m with
  | (m', Ok stdout) => (m', Ok (strip stdout))
  | (m', Raise (GitExit stderr stdout)) =>
      (m', Raise (RecoverySessionError
                    ("Git operation failed: " +++
                     (if truthy (strip stderr) then strip stderr else strip stdout))))
  | (m', Raise (GitOSError text)) => (m', Raise (os_error text))
  end.

(** [except RecoverySessionError as exc: raise RecoverySessionError(text)] *)
Definition or_session_error {A} (c : eff M A) (text : string) : eff M A :=
  catch c (fun e => if is_session_error e then Some (raise (RecoverySessionError text)) else None).

Definition detect_trusted_repo_root (cwd : PurePosixPath.t) : eff M PurePosixPath.t :=
  target ← asks (fun m => resolve m cwd);
  root_str ← or_session_error (_run_git ["rev-parse"; "--show-toplevel"] target)
               ("Directory is not a valid Git repository: " +++ show target);
  asks (fun m => resolve m (PurePosixPath.of_string root_str)).

Definition _untracked_paths (repo_root : PurePosixPath.t) : eff M (list string) :=
  status ← _run_git ["status"; "--porcelain"; "--untracked-files=normal"] repo_root;
  mret (List.map (fun line => strip (drop_chars 3 line))
          (List.filter (fun line => startswith line "?? ") (splitlines status))).

Definition _default_run_root (m : M) : PurePosixPath.t := resolve m (joinpath tempdir "rygnal-runs").

Definition run_root_of (config : RecoverySessionConfig.t) (m : M) : PurePosixPath.t :=
  resolve m match RecoverySessionConfig.rygnal_run_root config with
            | Some p => expanduser p
            | None => _default_run_root m
            end.

Definition _resolved_run_root (config : RecoverySessionConfig.t) : eff M PurePosixPath.t :=
  asks (run_root_of config).

Definition _ensure_private_directory p : eff M PurePosixPath.t :=
  _ ← sys (fs_mkdir p true);
  link ← asks (fun m => is_symlink m p);
  _ ← require (negb link)
        (RecoverySessionError ("Refusing to use a symlink as a Rygnal directory: " +++ show p));
  dir ← asks (fun m => is_dir m p);
  _ ← require dir (RecoverySessionError ("Rygnal path is not a directory: " +++ show p));
  _ ← catch (sys (fs_chmod p mode_700)) (fun e => if is_os_error e
        then Some (raise (RecoverySessionError
                            ("Unable to secure Rygnal directory permissions: " +++ show p)))
        else None);
  asks (fun m => resolve m p).

Definition _assert_roots_do_not_overlap (repo_root run_root : PurePosixPath.t) : result exn () :=
  _ ← ensure (negb (bool_decide (repo_root = run_root)))
        (RecoverySessionError "Rygnal run root must not be the trusted repository.");
  _ ← ensure (negb (_strict_descendant run_root repo_root))
        (RecoverySessionError "Rygnal run root must not be inside the trusted repository.");
  ensure (negb (_strict_descendant repo_root run_root))
    (RecoverySessionError "Trusted repository must not be inside the Rygnal run root.").

(** [line.partition("\t")] with a separator, and a gitlink before it. *)
Definition submodule_of (line : string) : option string :=
  match cut (ascii_of_N 9) line with
  | Some (metadata, path) => if startswith metadata "160000 commit " then Some path else None
  | None => None
  end.

Definition _submodule_paths (repo_root : PurePosixPath.t) (baseline_sha : string)
    : eff M (list string) :=
  output ← _run_git ["ls-tree"; "-r"; "--full-tree"; baseline_sha] repo_root;
  mret (omap submodule_of (splitlines output)).

Definition _write_owner_marker (marker_path : PurePosixPath.t) (payload : string) : eff M () :=
  _ ← catch (sys (fs_create marker_path)) (fun e => if is_os_error e
        then Some (raise (RecoverySessionError
                            ("Unable to create Rygnal ownership marker: " +++ show marker_path)))
        else None);
  catch (sys (fs_write marker_path payload)) (fun e =>
    Some (_ ← ignoring is_os_error (sys (fs_unlink marker_path)); raise e)).

(** The path of a [worktree] line that names one. *)
Definition worktree_of_line (m : M) (line : string) : option PurePosixPath.t :=
  if startswith line "worktree " then
    let raw_path := strip (drop_chars 9 line) in
    if truthy raw_path then Some (resolve m (PurePosixPath.of_string raw_path)) else None
  else None.

Definition _registered_worktree_paths (repo_root : PurePosixPath.t) : eff M (list PurePosixPath.t) :=
  output ← _run_git ["worktree"; "list"; "--porcelain"] repo_root;
  asks (fun m => omap (worktree_of_line m) (splitlines output)).

(** [git symbolic-ref -q HEAD] exits with 0. *)
Definition on_a_branch (workspace_path : PurePosixPath.t) : eff M bool := fun m =>
  match git ["symbolic-ref"; "-q"; "HEAD"] workspace_path m with
  | (m', Ok _) => (m', Ok true)
  | (m', Raise (GitExit _ _)) => (m', Ok false)
  | (m', Raise (GitOSError text)) => (m', Raise (os_error text))
  end.

Definition _validate_created_worktree (repo_root workspace_path : PurePosixPath.t)
    (baseline_sha : string) : eff M () :=
  _ ← require (negb (bool_decide (workspace_path = repo_root)))
        (RecoverySessionError "Disposable workspace resolved to the trusted repository.");
  workspace_root ← detect_trusted_repo_root workspace_path;
  _ ← require (bool_decide (workspace_root = workspace_path))
        (RecoverySessionError "Disposable worktree root does not match its execution path.");
  workspace_head ← _run_git ["rev-parse"; "HEAD"] workspace_path;
  _ ← require (String.eqb workspace_head baseline_sha)
        (RecoverySessionError "Disposable worktree HEAD does not match the captured baseline.");
  branch ← on_a_branch workspace_path;
  _ ← require (negb branch) (RecoverySessionError "Disposable worktree must use detached HEAD.");
  registered ← _registered_worktree_paths repo_root;
  require (bool_decide (workspace_path ∈ registered))
    (RecoverySessionError "Disposable workspace is not registered as a Git worktree.").

(** ** Creation *)

(** Before anything is created: the trusted root and the baseline. *)
Definition check_repository (config : RecoverySessionConfig.t)
    : eff M (PurePosixPath.t * string) :=
  repo_root ← asks (fun m => resolve m (expanduser (RecoverySessionConfig.trusted_repo_path config)));
  dir ← asks (fun m => is_dir m repo_root);
  _ ← require dir (RecoverySessionError ("Trusted repository path does not exist: " +++ show repo_root));
  is_bare ← or_session_error (_run_git ["rev-parse"; "--is-bare-repository"] repo_root)
              ("Trusted repository not found or invalid at: " +++ show repo_root);
  _ ← require (negb (String.eqb is_bare "true"))
        (RecoverySessionError "Bare repositories are not supported for recovery sessions.");
  top ← detect_trusted_repo_root repo_root;
  _ ← require (bool_decide (top = repo_root))
        (RecoverySessionError "Trusted repository path must be the Git repository root.");
  _ ← match RecoverySessionConfig.untracked_policy config with
      | UntrackedFilePolicy.BLOCK =>
          untracked_paths ← _untracked_paths repo_root;
          require (match untracked_paths with [] => true | _ => false end)
            (RecoverySessionError ("untracked files must be committed, ignored, or explicitly " +++
               "preserved before running Rygnal: " +++ listed untracked_paths))
      | UntrackedFilePolicy.PRESERVE_AND_WARN => mret ()
      end;
  untracked_paths ← _untracked_paths repo_root;
  let sensitive := List.filter _is_sensitive_untracked_path untracked_paths in
  _ ← require (match sensitive with [] => true | _ => false end)
        (RecoverySessionError ("untracked sensitive files must be committed, ignored, or " +++
           "removed before running Rygnal: " +++ listed sensitive));
  baseline_sha ← _run_git ["rev-parse"; "HEAD"] repo_root;
  _ ← require (valid_sha baseline_sha)
        (RecoverySessionError ("Failed to capture valid baseline commit SHA: " +++ baseline_sha));
  submodules ← _submodule_paths repo_root baseline_sha;
  _ ← require (match submodules with [] => true | _ => false end)
        (RecoverySessionError ("Repositories containing Git submodules are blocked until " +++
           "Rygnal has an explicit offline submodule materialization " +++
           "policy: " +++ listed submodules));
  mret (repo_root, baseline_sha).

(** The private directories of the run root, once it is apart from the
    repository: the root, the workspaces and the timelines. *)
Definition prepare_roots (config : RecoverySessionConfig.t) (repo_root : PurePosixPath.t)
    : eff M (PurePosixPath.t * PurePosixPath.t * PurePosixPath.t) :=
  run_root ← _resolved_run_root config;
  _ ← lift (_assert_roots_do_not_overlap repo_root run_root);
  _ ← _ensure_private_directory run_root;
  workspaces_root ← _ensure_private_directory (joinpath run_root "workspaces");
  timelines_root ← _ensure_private_directory (joinpath run_root "timelines");
  _ ← _ensure_private_directory (joinpath run_root "quarantine");
  mret (run_root, workspaces_root, timelines_root).

(** The handler of a failed [git worktree add] or validation. *)
Definition undo_creation (repo_root session_root workspace_path marker_path : PurePosixPath.t) (e : exn)
    : eff M () :=
  _ ← ignoring (fun _ => true)
        (there ← asks (fun m => exists_path m workspace_path);
         whenever there
           (_ ← _run_git ["worktree"; "remove"; "--force"; show workspace_path] repo_root; mret ()));
  _ ← ignoring is_os_error
        (_ ← sys (fs_unlink marker_path); sys (fs_rmdir session_root));
  raise (if is_session_error e then e
         else RecoverySessionError ("Failed to create disposable Git worktree: " +++ exn_text e)).

(** [uuid4().hex] is an argument. *)
Definition create_recovery_session (run_id : string) (config : RecoverySessionConfig.t)
    : eff M RecoverySession.t :=
  checked ← check_repository config;
  let '(repo_root, baseline_sha) := checked in
  roots ← prepare_roots config repo_root;
  let '(run_root, workspaces_root, timelines_root) := roots in
  let session_root := joinpath workspaces_root run_id in
  let workspace_path := joinpath session_root "workspace" in
  let timeline_dir := joinpath timelines_root run_id in
  let marker_path := joinpath session_root ".rygnal-owner" in
  taken ← asks (fun m => exists_path m workspace_path || exists_path m session_root);
  _ ← require (negb taken)
        (RecoverySessionError ("Rygnal run path already exists unexpectedly: " +++ show session_root));
  _ ← sys (fs_mkdir session_root false);
  _ ← sys (fs_chmod session_root mode_700);
  _ ← require (_strict_descendant workspace_path workspaces_root)
        (RecoverySessionError "Disposable workspace escaped the controlled workspaces root.");
  _ ← _write_owner_marker marker_path
        (_owner_marker_payload run_id repo_root baseline_sha workspace_path);
  _ ← catch
        (_ ← _run_git ["worktree"; "add"; "--detach"; show workspace_path; baseline_sha] repo_root;
         _ ← sys (fs_chmod workspace_path mode_700);
         resolved ← asks (fun m => resolve m workspace_path);
         _validate_created_worktree repo_root resolved baseline_sha)
        (fun e => Some (undo_creation repo_root session_root workspace_path marker_path e));
  execution_path ← asks (fun m => resolve m workspace_path);
  owner_marker_path ← asks (fun m => resolve m marker_path);
  mret (RecoverySession.mk run_id repo_root execution_path (lower baseline_sha) timeline_dir
          (Some owner_marker_path) (Some run_root)).

(** ** Cleanup *)

Definition _validate_cleanup_ownership (s : RecoverySession.t) (config : RecoverySessionConfig.t)
    : eff M (PurePosixPath.t * PurePosixPath.t * PurePosixPath.t) :=
  repo_root ← asks (fun m => resolve m (RecoverySession.trusted_repo_path s));
  workspace ← asks (fun m => resolve m (RecoverySession.workspace_path s));
  run_root ← _resolved_run_root config;
  workspaces_root ← asks (fun m => resolve m (joinpath run_root "workspaces"));
  expected_session_root ← asks (fun m => resolve m (joinpath workspaces_root (RecoverySession.run_id s)));
  expected_workspace ← asks (fun m => resolve m (joinpath expected_session_root "workspace"));
  let marker_path := joinpath expected_session_root ".rygnal-owner" in
  let refuse text := RecoverySessionError ("Refusing cleanup " +++ text) in
  _ ← require (negb (bool_decide (workspace = repo_root)))
        (refuse "because workspace equals trusted repository.");
  _ ← require (_strict_descendant workspace workspaces_root)
        (refuse "outside the controlled Rygnal workspaces root.");
  _ ← require (bool_decide (workspace = expected_workspace))
        (refuse "because workspace path does not match run identity.");
  links ← asks (fun m => is_symlink m expected_session_root || is_symlink m workspace);
  _ ← require (negb links) (refuse "through a symlinked Rygnal workspace path.");
  marked ← asks (fun m => is_file m marker_path && negb (is_symlink m marker_path));
  _ ← require marked (refuse "because the Rygnal ownership marker is missing.");
  marker_payload ← sys (fun m => (m, read_text m marker_path));
  _ ← require (String.eqb marker_payload (_expected_owner_marker s))
        (refuse "because the ownership marker is invalid.");
  registered_paths ← _registered_worktree_paths repo_root;
  _ ← require (bool_decide (workspace ∈ registered_paths))
        (refuse "because Git does not register the workspace.");
  mret (run_root, expected_session_root, marker_path).

Definition cleanup_failed (message : string) (quarantined : bool) (workspace : PurePosixPath.t)
    : CleanupResult.t :=
  CleanupResult.mk CleanupStatus.CLEANUP_FAILED message false quarantined (Some (show workspace)) None.

Definition _quarantine_worktree (s : RecoverySession.t) (run_root marker_path : PurePosixPath.t)
    (removal_error : string) : eff M CleanupResult.t :=
  repo_root ← asks (fun m => resolve m (RecoverySession.trusted_repo_path s));
  workspace ← asks (fun m => resolve m (RecoverySession.workspace_path s));
  quarantine_root ← _ensure_private_directory (joinpath run_root "quarantine");
  let quarantine_session_root := joinpath quarantine_root (RecoverySession.run_id s) in
  let quarantine_workspace := joinpath quarantine_session_root "workspace" in
  let quarantine_marker := joinpath quarantine_session_root ".rygnal-owner" in
  taken ← asks (fun m => exists_path m quarantine_session_root);
  if taken : bool then
    mret (cleanup_failed ("Worktree removal failed and quarantine destination already exists: "
                          +++ show quarantine_session_root) true workspace)
  else
    _ ← sys (fs_mkdir quarantine_session_root false);
    _ ← sys (fs_chmod quarantine_session_root mode_700);
    catch
      (_ ← _run_git ["worktree"; "move"; show workspace; show quarantine_workspace] repo_root;
       marker_payload ← sys (fun m => (m, read_text m marker_path));
       _ ← sys (fs_write quarantine_marker marker_payload);
       _ ← sys (fs_chmod quarantine_marker mode_600);
       _ ← sys (fs_unlink marker_path);
       _ ← ignoring is_os_error (sys (fs_rmdir (PurePosixPath.parent marker_path)));
       mret (CleanupResult.mk CleanupStatus.CLEANED_FALLBACK
               ("Disposable worktree removal failed; the Rygnal-owned workspace was quarantined. " +++
                "Original error: " +++ removal_error) false true (Some (show workspace))
               (Some (show quarantine_workspace))))
      (fun quarantine_error => Some
        (_ ← ignoring is_os_error (sys (fs_rmdir quarantine_session_root));
         mret (cleanup_failed ("Disposable worktree removal failed and quarantine also failed. " +++
                 "Removal error: " +++ removal_error +++ ". Quarantine error: " +++
                 exn_text quarantine_error) true workspace))).

(** Files beside the worktree are moved aside. *)
Definition quarantine_residual (s : RecoverySession.t)
    (run_root session_root workspace : PurePosixPath.t) : eff M CleanupResult.t :=
  quarantine_root ← _ensure_private_directory (joinpath run_root "quarantine");
  let quarantine_session := joinpath quarantine_root (RecoverySession.run_id s +++ "-residual") in
  taken ← asks (fun m => exists_path m quarantine_session);
  if taken : bool then
    mret (cleanup_failed ("Residual workspace data was detected, but its " +++
                          "quarantine destination already exists.") true session_root)
  else
    catch
      (_ ← sys (fs_replace session_root quarantine_session);
       mret (CleanupResult.mk CleanupStatus.CLEANED_FALLBACK
               ("The registered worktree was removed and residual " +++
                "out-of-workspace data was quarantined.") false true (Some (show workspace))
               (Some (show quarantine_session))))
      (fun e => if is_os_error e
        then Some (mret (cleanup_failed ("Disposable worktree was removed, but residual " +++
               "session data could not be quarantined: " +++ exn_text e) true session_root))
        else None).

(** The last steps, when only the marker is left. *)
Definition remove_session_root (repo_root session_root marker_path workspace : PurePosixPath.t)
    : eff M CleanupResult.t :=
  removed ← catch
    (_ ← sys (fs_unlink marker_path); _ ← sys (fs_rmdir session_root); mret None)
    (fun e => if is_os_error e then Some (mret (Some (exn_text e))) else None);
  match removed with
  | Some error =>
      mret (cleanup_failed ("Disposable worktree was removed, but Rygnal ownership " +++
              "metadata cleanup failed: " +++ error) false workspace)
  | None =>
      registered ← _registered_worktree_paths repo_root;
      if bool_decide (workspace ∈ registered) then
        mret (cleanup_failed ("Disposable workspace remains registered after cleanup: "
                              +++ show workspace) false workspace)
      else
        mret (CleanupResult.mk CleanupStatus.CLEANED_GIT
                "Verified disposable Git worktree removed successfully." false false
                (Some (show workspace)) None)
  end.

(** The cleanup of a session whose ownership is proved. *)
Definition remove_owned (s : RecoverySession.t) (run_root session_root marker_path : PurePosixPath.t)
    : eff M CleanupResult.t :=
  repo_root ← asks (fun m => resolve m (RecoverySession.trusted_repo_path s));
  workspace ← asks (fun m => resolve m (RecoverySession.workspace_path s));
  removal ← catch
    (_ ← _run_git ["worktree"; "remove"; "--force"; show workspace] repo_root; mret None)
    (fun e => if is_session_error e then Some (mret (Some (exn_text e))) else None);
  match removal with
  | Some removal_error => _quarantine_worktree s run_root marker_path removal_error
  | None =>
      still ← asks (fun m => exists_path m workspace);
      if still : bool then
        mret (cleanup_failed ("Git reported successful worktree removal, but the workspace still exists: "
                              +++ show workspace) true workspace)
      else
        entries ← sys (fun m => (m, iterdir m session_root));
        match List.filter (fun entry => negb (bool_decide (entry = marker_path))) entries with
        | [] => remove_session_root repo_root session_root marker_path workspace
        | _ => quarantine_residual s run_root session_root workspace
        end
  end.

Definition destroy_recovery_session (s : RecoverySession.t) (config : RecoverySessionConfig.t)
    : eff M CleanupResult.t :=
  owned ← catch (o ← _validate_cleanup_ownership s config; mret (Ok o))
            (fun e => if is_session_error e then Some (mret (Raise (exn_text e))) else None);
  match owned with
  | Raise text => mret (cleanup_failed text false (RecoverySession.workspace_path s))
  | Ok (run_root, session_root, marker_path) => remove_owned s run_root session_root marker_path
  end.

(** ** What is relied on and promised *)

Definition list_worktrees : list string := ["worktree"; "list"; "--porcelain"].

(** Git commands that only report. *)
Definition reporting (args : list string) : bool :=
  match args with
  | cmd :: _ => mem cmd ["rev-parse"; "status"; "ls-tree"; "symbolic-ref"] || bool_decide (args = list_worktrees)
  | [] => false
  end.

Definition git_reports_only : Prop :=
  forall args p m, reporting args = true -> fst (git args p m) = m.

Definition registered (m : M) (repo_root workspace : PurePosixPath.t) : Prop :=
  exists out, snd (git list_worktrees repo_root m) = Ok out /\
    workspace ∈ omap (worktree_of_line m) (splitlines (strip out)).

Definition workspaces_root_of (c : RecoverySessionConfig.t) (m : M) : PurePosixPath.t :=
  resolve m (joinpath (run_root_of c m) "workspaces").

Definition session_root_of (s : RecoverySession.t) (c : RecoverySessionConfig.t) (m : M)
    : PurePosixPath.t :=
  resolve m (joinpath (workspaces_root_of c m) (RecoverySession.run_id s)).

(** The worktree is the one this run made. *)
Record owned (s : RecoverySession.t) (c : RecoverySessionConfig.t) (m : M) : Prop := mk_owned {
  ow_not_repository :
    resolve m (RecoverySession.workspace_path s) <> resolve m (RecoverySession.trusted_repo_path s);
  ow_inside :
    _strict_descendant (resolve m (RecoverySession.workspace_path s)) (workspaces_root_of c m) = true;
  ow_identity :
    resolve m (RecoverySession.workspace_path s) = resolve m (joinpath (session_root_of s c m) "workspace");
  ow_no_link :
    is_symlink m (session_root_of s c m) = false /\
    is_symlink m (resolve m (RecoverySession.workspace_path s)) = false;
  ow_marker :
    let marker := joinpath (session_root_of s c m) ".rygnal-owner" in
    is_file m marker = true /\ is_symlink m marker = false /\
    read_text m marker = Ok (_expected_owner_marker s);
  ow_registered :
    registered m (resolve m (RecoverySession.trusted_repo_path s))
      (resolve m (RecoverySession.workspace_path s));
}.

(** A worktree at the commit [sha] without a branch, known to Git. *)
Record detached_worktree (repo workspace : PurePosixPath.t) (sha : string) (m : M) : Prop := mk_detached {
  dw_apart : workspace <> repo;
  dw_root : exists out, snd (git ["rev-parse"; "--show-toplevel"] (resolve m workspace) m) = Ok out /\
    resolve m (PurePosixPath.of_string (strip out)) = workspace;
  dw_head : exists out, snd (git ["rev-parse"; "HEAD"] workspace m) = Ok out /\ strip out = sha;
  dw_no_branch : exists stderr stdout,
    snd (git ["symbolic-ref"; "-q"; "HEAD"] workspace m) = Raise (GitExit stderr stdout);
  dw_registered : registered m repo workspace;
}.

(** The untracked paths in an output of git status. *)
Definition untracked_of (status : string) : list string :=
  List.map (fun line => strip (drop_chars 3 line))
    (List.filter (fun line => startswith line "?? ") (splitlines (strip status))).

(** The repository may be run on: the untracked files are handled, and the
    commit is one without submodules. *)
Record admissible (c : RecoverySessionConfig.t) (repo : PurePosixPath.t) (sha : string) (m : M)
    : Prop := mk_admissible {
  ad_untracked : exists out,
    snd (git ["status"; "--porcelain"; "--untracked-files=normal"] repo m) = Ok out /\
    (forall path, path ∈ untracked_of out -> _is_sensitive_untracked_path path = false) /\
    (RecoverySessionConfig.untracked_policy c = UntrackedFilePolicy.BLOCK -> untracked_of out = []);
  ad_head : exists out, snd (git ["rev-parse"; "HEAD"] repo m) = Ok out /\ strip out = sha;
  ad_sha : valid_sha sha = true;
  ad_submodules : exists out, snd (git ["ls-tree"; "-r"; "--full-tree"; sha] repo m) = Ok out /\
    omap submodule_of (splitlines (strip out)) = [];
}.

(** ** Lemmas *)

Lemma sys_run {A} (call : M -> M * result string A) m m' a :
  sys call m = (m', Ok a) -> call m = (m', Ok a).
Proof. unfold sys. destruct (call m) as [m1 [b|e]]; [by intros [= -> ->]|by intros [= _ ?]]. Qed.

Lemma run_git_run args p m m' out :
  _run_git args p m = (m', Ok out) -> exists raw, git args p m = (m', Ok raw) /\ out = strip raw.
Proof.
  unfold _run_git. destruct (git args p m) as [m1 [raw|[a b|t]]]; [|by intros [= _ ?]..].
  intros [= <- <-]. by exists raw.
Qed.

Lemma sys_keeps {A} P (call : M -> M * result string A) :
  (forall m, P m -> P (fst (call m))) -> keeps P (sys call).
Proof. intros H m Hm. unfold sys. specialize (H m Hm). by destruct (call m). Qed.

Lemma git_keeps P args p : (forall m, P m -> P (fst (git args p m))) -> keeps P (_run_git args p).
Proof.
  intros H m Hm. unfold _run_git. specialize (H m Hm). by destruct (git args p m) as [m' [out|[a b|t]]].
Qed.

Lemma catch_run {A} (c : eff M A) h m m' a :
  catch c h m = (m', Ok a) ->
  c m = (m', Ok a) \/ exists m1 e k, c m = (m1, Raise e) /\ h e = Some k /\ k m1 = (m', Ok a).
Proof.
  unfold catch. destruct (c m) as [m1 [b|e]]; [by left|].
  destruct (h e) as [k|] eqn:E; [|by intros [= _ ?]]. intros Hk. right. by exists m1, e, k.
Qed.

Section Reports.
Context (Hgit : git_reports_only).

Lemma report_keeps P args p : reporting args = true -> keeps P (_run_git args p).
Proof. intros H. apply git_keeps. intros m Hm. by rewrite Hgit. Qed.

Lemma or_session_error_keeps {A} P (c : eff M A) text : keeps P c -> keeps P (or_session_error c text).
Proof.
  intros H. apply catch_keeps; [done|]. intros e k. destruct (is_session_error e); [|done].
  intros [= <-]. apply raise_keeps.
Qed.

Lemma registered_keeps P p : keeps P (_registered_worktree_paths p).
Proof. unfold _registered_worktree_paths. keeps. by apply report_keeps. Qed.

Lemma validate_keeps P s c : keeps P (_validate_cleanup_ownership s c).
Proof.
  unfold _validate_cleanup_ownership, _resolved_run_root. keeps; [|apply registered_keeps].
  by apply sys_keeps.
Qed.

Lemma registered_run p m m' ws :
  _registered_worktree_paths p m = (m', Ok ws) ->
  m' = m /\ forall w, w ∈ ws <-> registered m p w.
Proof.
  unfold _registered_worktree_paths. intros H. inv_eff.
  match goal with H : _run_git _ _ _ = _ |- _ => apply run_git_run in H as (raw & Hg & ->) end.
  pose proof (Hgit list_worktrees p m eq_refl) as E. unfold list_worktrees in E. rewrite Hg in E.
  cbn in E. subst.
  split; [done|]. intros w. unfold registered, list_worktrees. rewrite Hg. cbn. split.
  - intros Hw. by exists raw.
  - by intros (out & [= <-] & Hw).
Qed.

Lemma validate_owned s c m m' r :
  _validate_cleanup_ownership s c m = (m', Ok r) ->
  m' = m /\ owned s c m /\
  r = (run_root_of c m, session_root_of s c m, joinpath (session_root_of s c m) ".rygnal-owner").
Proof.
  unfold _validate_cleanup_ownership, _resolved_run_root. intros H. inv_eff.
  repeat match goal with
  | H : sys _ _ = _ |- _ => apply sys_run in H; injection H as -> Hmark
  | H : _registered_worktree_paths _ _ = _ |- _ => apply registered_run in H as [-> Hreg]
  | H : negb _ = true |- _ => apply negb_true_iff in H
  | H : bool_decide _ = true |- _ => apply bool_decide_eq_true in H
  | H : bool_decide _ = false |- _ => apply bool_decide_eq_false in H
  | H : (_ || _) = false |- _ => apply orb_false_iff in H as [? ?]
  | H : (_ && _) = true |- _ => apply andb_true_iff in H as [? ?]
  | H : String.eqb _ _ = true |- _ => apply String.eqb_eq in H as ->
  end.
  split; [done|]. split; [|done].
  constructor; try done. by apply Hreg.
Qed.

Lemma quarantine_not_removed s run_root marker text m m' r :
  _quarantine_worktree s run_root marker text m = (m', Ok r) ->
  CleanupResult.status r <> CleanupStatus.CLEANED_GIT /\ CleanupResult.quarantined r = true.
Proof.
  unfold _quarantine_worktree. intros H. inv_eff. destruct (exists_path _ _); inv_eff; subst; [done|].
  match goal with H : catch _ _ _ = _ |- _ => apply catch_run in H as [H|(? & ? & ? & _ & [= <-] & H)] end;
    inv_eff; by subst.
Qed.

Lemma residual_not_removed s run_root session_root workspace m m' r :
  quarantine_residual s run_root session_root workspace m = (m', Ok r) ->
  CleanupResult.status r <> CleanupStatus.CLEANED_GIT /\ CleanupResult.quarantined r = true.
Proof.
  unfold quarantine_residual. intros H. inv_eff. destruct (exists_path _ _); inv_eff; subst; [done|].
  match goal with H : catch _ _ _ = _ |- _ => apply catch_run in H as [H|(? & e & k & _ & Hk & H)] end;
    [inv_eff; by subst|]. destruct (is_os_error e); [|done]. injection Hk as <-. inv_eff. by subst.
Qed.

Lemma session_root_removed repo session_root marker workspace m m' r :
  remove_session_root repo session_root marker workspace m = (m', Ok r) ->
  CleanupResult.status r = CleanupStatus.CLEANED_GIT -> ~ registered m' repo workspace.
Proof.
  unfold remove_session_root. intros H Hs. inv_eff.
  match goal with H : match ?x with _ => _ end _ = _ |- _ => destruct x end; inv_eff; [by subst|].
  match goal with H : _registered_worktree_paths _ _ = _ |- _ => apply registered_run in H as [-> Hreg] end.
  destruct (bool_decide_reflect (workspace ∈ x1)) as [|Hn]; inv_eff; subst; [done|]. by rewrite <- Hreg.
Qed.

Lemma remove_owned_removed s run_root session_root marker m m' r :
  remove_owned s run_root session_root marker m = (m', Ok r) ->
  CleanupResult.status r = CleanupStatus.CLEANED_GIT ->
  let repo := resolve m (RecoverySession.trusted_repo_path s) in
  let workspace := resolve m (RecoverySession.workspace_path s) in
  ~ registered m' repo workspace /\
  exists m1 out, git ["worktree"; "remove"; "--force"; show workspace] repo m = (m1, Ok out) /\
    exists_path m1 workspace = false.
Proof.
  unfold remove_owned. intros H Hs. inv_eff.
  match goal with H : catch _ _ _ = _ |- _ => apply catch_run in H as [H|(? & e & k & _ & Hk & H)] end.
  2: { destruct (is_session_error e); [|done]. injection Hk as <-. inv_eff. subst.
       by apply quarantine_not_removed in H as [? _]. }
  inv_eff. subst.
  match goal with H : _run_git _ _ _ = _ |- _ => apply run_git_run in H as (raw & Hg & _) end.
  match goal with H : (if ?b then _ else _) _ = _ |- _ => destruct b eqn:Eb end; inv_eff; [by subst|].
  match goal with H : sys _ _ = _ |- _ => apply sys_run in H; injection H as -> Hmark end.
  match goal with H : match ?l with _ => _ end _ = _ |- _ => destruct l end;
    [|by apply residual_not_removed in H as [? _]].
  eapply session_root_removed in H; [|done]. split; [done|]. by eexists _, raw.
Qed.

(** What is neither failed nor quarantined is removed. *)
Lemma unfailed_is_removed s c m m' r :
  destroy_recovery_session s c m = (m', Ok r) ->
  CleanupResult.status r <> CleanupStatus.CLEANUP_FAILED -> CleanupResult.quarantined r = false ->
  CleanupResult.status r = CleanupStatus.CLEANED_GIT.
Proof.
  unfold destroy_recovery_session. intros H Hs Hq. inv_eff. destruct x0 as [[[rr sr] mp]|text];
    [|inv_eff; by subst].
  unfold remove_owned in H. inv_eff.
  match goal with H : match ?x with _ => _ end _ = _ |- _ => destruct x end.
  { by apply quarantine_not_removed in H as [_ ?]; congruence. }
  inv_eff. match goal with H : (if ?b then _ else _) _ = _ |- _ => destruct b eqn:Eb end; inv_eff; [by subst|].
  match goal with H : match ?l with _ => _ end _ = _ |- _ => destruct l end;
    [|by apply residual_not_removed in H as [_ ?]; congruence].
  unfold remove_session_root in H. inv_eff.
  match goal with H : match ?x with _ => _ end _ = _ |- _ => destruct x end; inv_eff; [by subst|].
  match goal with H : (if ?b then _ else _) _ = _ |- _ => destruct b end; inv_eff; by subst.
Qed.

Lemma report_run args p m m' out : reporting args = true ->
  _run_git args p m = (m', Ok out) -> m' = m /\ exists raw, snd (git args p m) = Ok raw /\ out = strip raw.
Proof.
  intros Ha (raw & Hg & ->)%run_git_run. pose proof (Hgit args p m Ha) as E. rewrite Hg in E.
  cbn in E. subst. split; [done|]. exists raw. by rewrite Hg.
Qed.

Lemma or_session_error_run {A} (c : eff M A) text m m' a :
  or_session_error c text m = (m', Ok a) -> c m = (m', Ok a).
Proof.
  intros [H|(m1 & e & k & _ & Hk & H)]%catch_run; [done|].
  destruct (is_session_error e); [|done]. injection Hk as <-. by inv_eff.
Qed.

Lemma toplevel_run p m m' top :
  detect_trusted_repo_root p m = (m', Ok top) ->
  m' = m /\ exists out, snd (git ["rev-parse"; "--show-toplevel"] (resolve m p) m) = Ok out /\
    top = resolve m (PurePosixPath.of_string (strip out)).
Proof.
  unfold detect_trusted_repo_root. intros H. inv_eff.
  match goal with H : or_session_error _ _ _ = _ |- _ =>
    apply or_session_error_run, report_run in H as [-> (raw & Hg & ->)]; [|done] end.
  subst. split; [done|]. by exists raw.
Qed.

Lemma on_a_branch_run p m m' b :
  on_a_branch p m = (m', Ok b) ->
  m' = m /\ (b = false -> exists stderr stdout,
    snd (git ["symbolic-ref"; "-q"; "HEAD"] p m) = Raise (GitExit stderr stdout)).
Proof.
  unfold on_a_branch. pose proof (Hgit ["symbolic-ref"; "-q"; "HEAD"] p m eq_refl) as E.
  destruct (git ["symbolic-ref"; "-q"; "HEAD"] p m) as [m1 [raw|[a d|t]]]; cbn in E; intros [= <- <-];
    subst; [done|]. split; [done|]. intros _. by exists a, d.
Qed.

Lemma validated_is_detached repo workspace sha m m' u :
  _validate_created_worktree repo workspace sha m = (m', Ok u) ->
  m' = m /\ detached_worktree repo workspace sha m.
Proof.
  unfold _validate_created_worktree. intros H. inv_eff.
  repeat match goal with
  | H : detect_trusted_repo_root _ _ = _ |- _ => apply toplevel_run in H as [-> (raw & Htop & ->)]
  | H : _run_git _ _ _ = _ |- _ => apply report_run in H as [-> (raw' & Hhead & ->)]; [|done]
  | H : on_a_branch _ _ = _ |- _ => apply on_a_branch_run in H as [-> Hbranch]
  | H : _registered_worktree_paths _ _ = _ |- _ => apply registered_run in H as [-> Hreg]
  | H : negb _ = true |- _ => apply negb_true_iff in H
  | H : bool_decide _ = true |- _ => apply bool_decide_eq_true in H
  | H : bool_decide _ = false |- _ => apply bool_decide_eq_false in H
  | H : String.eqb _ _ = true |- _ => apply String.eqb_eq in H
  end.
  split; [done|]. constructor; try done.
  - by exists raw.
  - by exists raw'.
  - by apply Hbranch.
  - by apply Hreg.
Qed.

Lemma untracked_run repo m m' l :
  _untracked_paths repo m = (m', Ok l) ->
  m' = m /\ exists out,
    snd (git ["status"; "--porcelain"; "--untracked-files=normal"] repo m) = Ok out /\ l = untracked_of out.
Proof.
  unfold _untracked_paths. intros H. inv_eff. subst.
  match goal with H : _run_git _ _ _ = _ |- _ => apply report_run in H as [-> (raw & Hg & ->)]; [|done] end.
  split; [done|]. by exists raw.
Qed.

(** The test of the default policy. *)
Lemma policy_run (p : UntrackedFilePolicy.t) repo (error : list string -> exn) m m' u :
  match p with
  | UntrackedFilePolicy.BLOCK =>
      untracked_paths ← _untracked_paths repo;
      require (match untracked_paths with [] => true | _ => false end) (error untracked_paths)
  | UntrackedFilePolicy.PRESERVE_AND_WARN => mret ()
  end m = (m', Ok u) ->
  m' = m /\ (p = UntrackedFilePolicy.BLOCK -> exists out,
    snd (git ["status"; "--porcelain"; "--untracked-files=normal"] repo m) = Ok out /\
    untracked_of out = []).
Proof.
  destruct p; intros H; inv_eff; [|done].
  match goal with H : _untracked_paths _ _ = _ |- _ => apply untracked_run in H as [-> (out & Hout & ->)] end.
  split; [done|]. intros _. exists out. by case_match.
Qed.

Lemma check_repository_run c m m' repo sha :
  check_repository c m = (m', Ok (repo, sha)) -> m' = m /\ admissible c repo sha m.
Proof.
  unfold check_repository. intros H. inv_eff.
  match goal with H : match RecoverySessionConfig.untracked_policy c with _ => _ end _ = _ |- _ =>
    rename H into Hpolicy end.
  repeat match goal with
  | H : or_session_error _ _ _ = _ |- _ =>
      apply or_session_error_run, report_run in H as [-> (? & _ & ->)]; [|done]
  | H : detect_trusted_repo_root _ _ = _ |- _ => apply toplevel_run in H as [-> (? & _ & ->)]
  | H : _submodule_paths _ _ _ = _ |- _ => unfold _submodule_paths in H; inv_eff
  end.
  apply policy_run in Hpolicy as [-> Hblock].
  match goal with H : _untracked_paths _ _ = _ |- _ => apply untracked_run in H as [-> (out & Hout & ->)] end.
  repeat match goal with
  | H : _run_git _ _ _ = _ |- _ => apply report_run in H as [-> (? & ? & ->)]; [|done]
  end.
  split; [done|]. constructor; [|by eexists|done|eexists; split; [done|]; by case_match].
  exists out. split; [done|]. split; [|intros Hp; destruct (Hblock Hp) as (o & Ho & Hnil); rewrite Hout in Ho; by injection Ho as ->].
  intros path Hpath. destruct (_is_sensitive_untracked_path path) eqn:Es; [|done].
  assert (Hin : path ∈ List.filter _is_sensitive_untracked_path (untracked_of out)).
  { apply list_elem_of_In, filter_In. split; [by apply list_elem_of_In|done]. }
  by destruct (List.filter _ _); [apply elem_of_nil in Hin|].
Qed.

Lemma catch_raising_run {A} (c : eff M A) (h : exn -> eff M A) m m' a :
  (forall e m1 m2 b, h e m1 <> (m2, Ok b)) -> catch c (fun e => Some (h e)) m = (m', Ok a) -> c m = (m', Ok a).
Proof. intros Hh [H|(m1 & e & k & _ & [= <-] & H)]%catch_run; [done|]. by apply Hh in H. Qed.

Lemma undo_raises repo session_root workspace marker e m1 m2 u :
  undo_creation repo session_root workspace marker e m1 <> (m2, Ok u).
Proof. unfold undo_creation. intros H. inv_eff. Qed.

Lemma roots_apart repo run_root u :
  _assert_roots_do_not_overlap repo run_root = Ok u ->
  repo <> run_root /\ _strict_descendant run_root repo = false /\ _strict_descendant repo run_root = false.
Proof.
  unfold _assert_roots_do_not_overlap. intros H. inv_result. by bool_to_prop.
Qed.

(** C12 A session is created only for an admissible repository - untracked files
    handled, a full commit, no submodules - outside the run root, and its
    worktree is then a detached one at that commit, apart from the repository
    and registered with Git. *)
Theorem created_session_is_detached run_id c m m' s :
  create_recovery_session run_id c m = (m', Ok s) ->
  exists sha run_root,
    admissible c (RecoverySession.trusted_repo_path s) sha m /\
    RecoverySession.baseline_commit_sha s = lower sha /\ RecoverySession.run_id s = run_id /\
    RecoverySession.run_root s = Some run_root /\
    RecoverySession.trusted_repo_path s <> run_root /\
    _strict_descendant run_root (RecoverySession.trusted_repo_path s) = false /\
    _strict_descendant (RecoverySession.trusted_repo_path s) run_root = false /\
    detached_worktree (RecoverySession.trusted_repo_path s) (RecoverySession.execution_path s) sha m'.
Proof.
  unfold create_recovery_session. intros H. apply bind_run in H as (m1 & [repo sha] & Hc & H).
  apply check_repository_run in Hc as [-> Ha].
  apply bind_run in H as (m2 & [[run_root ws_root] tl_root] & Hr & H).
  unfold prepare_roots in Hr. inv_eff. subst.
  match goal with H : _assert_roots_do_not_overlap _ _ = _ |- _ => apply roots_apart in H as (? & ? & ?) end.
  match goal with H : catch _ _ _ = _ |- _ => apply catch_raising_run in H; [|apply undo_raises] end.
  inv_eff. subst.
  match goal with H : _validate_created_worktree _ _ _ _ = _ |- _ => apply validated_is_detached in H as [-> Hd] end.
  exists sha. eexists. cbn. split_and!; try done.
Qed.

(** Cleanup acts on a worktree only when it is proved to be the one this run
    made: inside the run root, apart from the repository, not reached through a
    link, with the exact marker of the run and registered with Git; otherwise
    the machine stays as it was.  And it reports a worktree as removed only if
    Git removed it, nothing is left at its path, and Git no longer lists it. *)
Lemma destroy_steps s c m m' r :
  destroy_recovery_session s c m = (m', r) ->
  (m' = m /\ forall res, r = Ok res ->
     CleanupResult.status res = CleanupStatus.CLEANUP_FAILED /\ CleanupResult.quarantined res = false) \/
  (owned s c m /\ forall res, r = Ok res -> CleanupResult.status res = CleanupStatus.CLEANED_GIT ->
     let repo := resolve m (RecoverySession.trusted_repo_path s) in
     let workspace := resolve m (RecoverySession.workspace_path s) in
     ~ registered m' repo workspace /\
     exists m1 out, git ["worktree"; "remove"; "--force"; show workspace] repo m = (m1, Ok out) /\
       exists_path m1 workspace = false).
Proof.
  unfold destroy_recovery_session. intros H.
  pose proof (validate_keeps (fun x => x = m) s c m eq_refl) as Hkeep.
  unfold mbind, eff_bind, catch in H.
  destruct (_validate_cleanup_ownership s c m) as [m1 [[[rr sr] mp]|e]] eqn:E; cbn in Hkeep; subst m1.
  - cbn in H. right. apply validate_owned in E as (_ & Ho & [= -> -> ->]). split; [done|].
    intros res ->. intros Hs. by eapply remove_owned_removed in H.
  - left. destruct (is_session_error e); cbn in H; injection H as <- <-; (split; [done|]); [|done].
    by intros res [= <-].
Qed.
End Reports.
End Session.
End Recovery.

(** ** untracked_files.py *)

Module Untracked.

Module UntrackedFileDecision.
Inductive t := BLOCK | PRESERVE_IN_TRUSTED_REPO.
Definition value (d : t) : string :=
  match d with BLOCK => "block" | PRESERVE_IN_TRUSTED_REPO => "preserve_in_trusted_repo" end.
#[global] Instance untracked_decision_eq_dec : EqDecision t.
Proof. solve_decision. Defined.
End UntrackedFileDecision.

Module UntrackedFile.
Record t := mk {
  path : string;
  decision : UntrackedFileDecision.t;
  reason : string;
  sensitive : bool;
}.
Definition audit_summary (f : t) : pydict :=
  [("path", PStr (path f)); ("decision", PStr (UntrackedFileDecision.value (decision f)));
   ("reason", PStr (reason f)); ("sensitive", PBool (sensitive f))].
End UntrackedFile.

Module UntrackedFileReport.
Record t := mk {
  repo_path : string;
  policy : UntrackedFilePolicy.t;
  files : list UntrackedFile.t;
}.
Definition is_decision (d : UntrackedFileDecision.t) (f : UntrackedFile.t) : bool :=
  bool_decide (UntrackedFile.decision f = d).
Definition has_untracked_files (r : t) : bool := match files r with [] => false | _ => true end.
Definition blocked (r : t) : bool := existsb (is_decision UntrackedFileDecision.BLOCK) (files r).
Definition preserved (r : t) : list UntrackedFile.t :=
  List.filter (is_decision UntrackedFileDecision.PRESERVE_IN_TRUSTED_REPO) (files r).
Definition count (test : UntrackedFile.t -> bool) (r : t) : pyval :=
  PInt (Z.of_nat (List.length (List.filter test (files r)))).
Definition audit_summary (r : t) : pydict :=
  [("repo_path", PStr (repo_path r)); ("policy", PStr (UntrackedFilePolicy.value (policy r)));
   ("has_untracked_files", PBool (has_untracked_files r)); ("blocked", PBool (blocked r));
   ("counts", of_dict
      [("total", count (fun _ => true) r);
       ("blocked", count (is_decision UntrackedFileDecision.BLOCK) r);
       ("preserved", count (is_decision UntrackedFileDecision.PRESERVE_IN_TRUSTED_REPO) r);
       ("sensitive", count UntrackedFile.sensitive r)]);
   ("files", PTuple (List.map (fun f => of_dict (UntrackedFile.audit_summary f)) (files r)))].
End UntrackedFileReport.

Definition _is_sensitive_path (path : string) : bool :=
  let basename := PurePosixPath.name (PurePosixPath.of_string (lower path)) in
  mem basename [".env"; ".netrc"; ".npmrc"; ".pypirc"; "id_rsa"; "id_dsa"; "id_ecdsa"; "id_ed25519";
                "credentials"; "credentials.json"]
  || existsb (fnmatch basename)
       [".env.*"; "*.pem"; "*.key"; "*.p12"; "*.pfx"; "*secret*"; "*token*"; "*credential*"].

Definition value_error (text : string) : exn := mk_exn ValueError "ValueError" text.

Definition _normalize_git_path (path : string) : result exn string :=
  _ ← ensure (negb (contains path null_char)) (value_error "Git path contains null byte.");
  let pure_path := PurePosixPath.of_string (replace_char backslash slash path) in
  _ ← ensure (negb (PurePosixPath.is_absolute pure_path || mem ".." (PurePosixPath.parts pure_path)))
        (value_error ("Unsafe Git path: " +++ path));
  let parts := List.filter PurePosixPath.keep (PurePosixPath.parts pure_path) in
  _ ← ensure (match parts with [] => false | _ => true end)
        (value_error "Git path is empty after normalization.");
  Ok (str_join "/" parts).

Definition _classify_untracked_path (policy : UntrackedFilePolicy.t) (path : string)
    : result exn UntrackedFile.t :=
  normalized ← _normalize_git_path path;
  Ok (if _is_sensitive_path normalized then
        UntrackedFile.mk normalized UntrackedFileDecision.BLOCK
          "Sensitive untracked file must be handled outside guarded execution." true
      else match policy with
           | UntrackedFilePolicy.PRESERVE_AND_WARN =>
               UntrackedFile.mk normalized UntrackedFileDecision.PRESERVE_IN_TRUSTED_REPO
                 ("Untracked file remains only in trusted repo and is not copied " +++
                  "to the guarded workspace.") false
           | UntrackedFilePolicy.BLOCK =>
               UntrackedFile.mk normalized UntrackedFileDecision.BLOCK
                 "Default policy blocks guarded runs when untracked files are present." false
           end).

Definition _report_severity (r : UntrackedFileReport.t) : Severity :=
  if UntrackedFileReport.blocked r then SevHigh
  else if UntrackedFileReport.has_untracked_files r then SevMedium else SevLow.

Definition _report_reason (r : UntrackedFileReport.t) : string :=
  if UntrackedFileReport.blocked r
  then "Trusted repository has untracked files that block guarded execution."
  else if UntrackedFileReport.has_untracked_files r
  then "Trusted repository untracked files are preserved outside the guarded workspace."
  else "Trusted repository has no untracked files.".

Section Detect.
Context {M : Type} {WH : WorktreeHost M}.

Definition _run_git (args : list string) (cwd : PurePosixPath.t) : eff M string := fun m =>
  match git args cwd m with
  | (m', Ok stdout) => (m', Ok stdout)
  | (m', Raise (GitExit stderr stdout)) =>
      (m', Raise (mk_exn RuntimeError "RuntimeError"
                    ("Git operation failed: " +++
                     (if truthy (strip stderr) then strip stderr else strip stdout))))
  | (m', Raise (GitOSError text)) => (m', Raise (Recovery.os_error text))
  end.

Definition _repo_root (path : PurePosixPath.t) : eff M PurePosixPath.t :=
  cwd ← asks (fun m => resolve m path);
  result ← _run_git ["rev-parse"; "--show-toplevel"] cwd;
  asks (fun m => resolve m (PurePosixPath.of_string (strip result))).

Definition _git_untracked_paths (repo_path : PurePosixPath.t) : eff M (list string) :=
  output ← _run_git ["ls-files"; "--others"; "--exclude-standard"; "--full-name"; "-z"; "--"] repo_path;
  lift (mapR _normalize_git_path (List.filter truthy (split_on (ascii_of_N 0) output))).

Definition detect_untracked_files (repo_path : PurePosixPath.t) (policy : UntrackedFilePolicy.t)
    : eff M UntrackedFileReport.t :=
  root ← _repo_root repo_path;
  paths ← _git_untracked_paths root;
  files ← lift (mapR (_classify_untracked_path policy) paths);
  mret (UntrackedFileReport.mk (PurePosixPath.as_posix root) policy files).

(** The request and the decision of the audit event; [trace_id] is given or new. *)
Definition untracked_request (r : UntrackedFileReport.t) (user_id agent_id environment trace_id : string)
    : ToolRequest.t :=
  ToolRequest.mk "guarded_workspace" (Some "handle_untracked_files")
    (Some (UntrackedFileReport.repo_path r)) (of_dict (UntrackedFileReport.audit_summary r))
    user_id agent_id environment
    [("trace_id", PStr trace_id); ("event_type", PStr "guarded_workspace.untracked_files");
     ("repo_path", PStr (UntrackedFileReport.repo_path r))].

Definition untracked_decision (r : UntrackedFileReport.t) : PolicyDecision.t :=
  PolicyDecision.mk (if UntrackedFileReport.blocked r then BLOCK else ALLOW)
    (negb (UntrackedFileReport.blocked r)) (_report_severity r) (_report_reason r)
    (Some "guarded-workspace-untracked-file-handling") None.

(** The logger, if there is one, as the computation that writes an event. *)
Definition write_untracked_file_audit_event
    (log_decision : ToolRequest.t -> PolicyDecision.t -> pydict -> eff M ())
    (r : UntrackedFileReport.t) (user_id agent_id environment trace_id : string) : eff M () :=
  log_decision (untracked_request r user_id agent_id environment trace_id) (untracked_decision r)
    (UntrackedFileReport.audit_summary r).

Definition verify_untracked_files_handled
    (logger : option (ToolRequest.t -> PolicyDecision.t -> pydict -> eff M ()))
    (repo_path : PurePosixPath.t) (policy : UntrackedFilePolicy.t)
    (user_id agent_id environment trace_id : string) : eff M UntrackedFileReport.t :=
  report ← detect_untracked_files repo_path policy;
  _ ← match logger with
      | Some log => write_untracked_file_audit_event log report user_id agent_id environment trace_id
      | None => mret ()
      end;
  _ ← require (negb (UntrackedFileReport.blocked report))
        (mk_exn RuntimeError "UntrackedFilesError" "Trusted repository has untracked files.");
  mret report.

(** What passes the check are files nobody would call sensitive, under the
    policy that preserves them, or none at all. *)
Theorem handled_files_are_harmless logger repo policy user agent env trace m m' report :
  verify_untracked_files_handled logger repo policy user agent env trace m = (m', Ok report) ->
  (forall f, f ∈ UntrackedFileReport.files report ->
     UntrackedFile.sensitive f = false /\ _is_sensitive_path (UntrackedFile.path f) = false /\
     UntrackedFile.decision f = UntrackedFileDecision.PRESERVE_IN_TRUSTED_REPO) /\
  (policy = UntrackedFilePolicy.BLOCK -> UntrackedFileReport.files report = []).
Proof.
  unfold verify_untracked_files_handled, detect_untracked_files. intros H. inv_eff.
  match goal with H : negb _ = true |- _ => apply negb_true_iff in H as Hb end.
  match goal with H : mapR (_classify_untracked_path _) _ = _ |- _ => apply mapR_Ok_Forall2 in H as Hf end.
  match goal with Hf : Forall2 _ _ ?l |- _ => rename l into found end.
  unfold UntrackedFileReport.blocked in Hb. cbn in Hb |- *.
  assert (Hall : forall f, f ∈ found -> UntrackedFile.sensitive f = false /\
    _is_sensitive_path (UntrackedFile.path f) = false /\
    UntrackedFile.decision f = UntrackedFileDecision.PRESERVE_IN_TRUSTED_REPO /\
    policy = UntrackedFilePolicy.PRESERVE_AND_WARN).
  { intros f Hin. pose proof Hin as [i Hi]%list_elem_of_lookup_1.
    destruct (Forall2_lookup_r _ _ _ _ _ Hf Hi) as (path & _ & Hc).
    assert (Hd : UntrackedFile.decision f <> UntrackedFileDecision.BLOCK).
    { intros Hd. assert (Hx : existsb (UntrackedFileReport.is_decision UntrackedFileDecision.BLOCK) found = true).
      { apply existsb_exists. exists f. split; [by apply list_elem_of_In|].
        by apply bool_decide_eq_true. }
      by rewrite Hb in Hx. }
    unfold _classify_untracked_path in Hc. apply bind_Ok_inv in Hc as (n & _ & [= <-]).
    destruct (_is_sensitive_path n) eqn:Es; [done|]. by destruct policy. }
  split; [intros f Hin; by destruct (Hall f Hin) as (? & ? & ? & _)|].
  intros ->. destruct found as [|f fs]; [done|].
  by destruct (Hall f ltac:(apply elem_of_cons; by left)) as (_ & _ & _ & ?).
Qed.
End Detect.
End Untracked.

(** ** An example: a machine with one repository *)

Module RecoveryExample.
Import Recovery.

(** Directories, files and worktrees by path; [faulty] makes Git refuse to
    remove a worktree. *)
Record machine := mk_machine {
  dirs : list string;
  files : list (string * string);
  worktrees : list string;
  status : string;
  faulty : bool;
}.

Definition sha : string := "aaaaaaaaaaaaaaaaaaaaaaaaaaaaaaaaaaaaaaaa".

Definition newline : string := String (ascii_of_N 10) "".

Definition without (p : string) (l : list string) : list string :=
  List.filter (fun q => negb (String.eqb q p)) l.

Definition without_file (p : string) (l : list (string * string)) : list (string * string) :=
  List.filter (fun kv => negb (String.eqb (fst kv) p)) l.

Definition with_dirs (m : machine) d := mk_machine d (files m) (worktrees m) (status m) (faulty m).
Definition with_files (m : machine) f := mk_machine (dirs m) f (worktrees m) (status m) (faulty m).

Definition example_git (args : list string) (cwd : PurePosixPath.t) (m : machine)
    : machine * result git_failure string :=
  match args with
  | ["rev-parse"; "--is-bare-repository"] => (m, Ok ("false" +++ newline))
  | ["rev-parse"; "--show-toplevel"] => (m, Ok (show cwd +++ newline))
  | ["rev-parse"; "HEAD"] => (m, Ok (sha +++ newline))
  | "status" :: _ => (m, Ok (status m))
  | "ls-tree" :: _ => (m, Ok "")
  | "symbolic-ref" :: _ => (m, Raise (GitExit "" ""))
  | ["worktree"; "list"; "--porcelain"] =>
      (m, Ok (str_join newline (List.map (fun p => "worktree " +++ p) ("/repo" :: worktrees m))))
  | ["worktree"; "add"; "--detach"; p; _] =>
      (mk_machine (p :: dirs m) (files m) (p :: worktrees m) (status m) (faulty m), Ok "")
  | ["worktree"; "remove"; "--force"; p] =>
      if faulty m then (m, Raise (GitExit "busy" ""))
      else (mk_machine (without p (dirs m)) (files m) (without p (worktrees m)) (status m) (faulty m), Ok "")
  | ["worktree"; "move"; p; q] =>
      (mk_machine (q :: without p (dirs m)) (files m) (q :: without p (worktrees m)) (status m) (faulty m),
       Ok "")
  | _ => (m, Raise (GitExit "unknown command" ""))
  end.

Definition has_dir (m : machine) (p : PurePosixPath.t) : bool := mem (show p) (dirs m).
Definition has_file (m : machine) (p : PurePosixPath.t) : bool := mem (show p) (List.map fst (files m)).

#[export] Instance example_host : WorktreeHost machine := {|
  git := example_git;
  resolve _ p := p;
  expanduser p := p;
  tempdir := PurePosixPath.of_string "/tmp";
  exists_path m p := has_dir m p || has_file m p;
  is_dir := has_dir;
  is_file := has_file;
  is_symlink _ _ := false;
  iterdir m p := Ok (List.filter (fun q => bool_decide (PurePosixPath.parent q = p))
    (List.map PurePosixPath.of_string (List.map fst (files m) ++ dirs m)));
  read_text m p := match assoc_get (files m) (show p) with
                   | Some text => Ok text | None => Raise "No such file or directory" end;
  fs_mkdir p exist_ok m :=
    if has_dir m p then (m, if exist_ok then Ok () else Raise "File exists")
    else (with_dirs m (show p :: dirs m), Ok ());
  fs_chmod _ _ m := (m, Ok ());
  fs_create p m := if has_file m p then (m, Raise "File exists")
                   else (with_files m ((show p, "") :: files m), Ok ());
  fs_write p text m := (with_files m ((show p, text) :: without_file (show p) (files m)), Ok ());
  fs_unlink p m := (with_files m (without_file (show p) (files m)), Ok ());
  fs_rmdir p m := (with_dirs m (without (show p) (dirs m)), Ok ());
  fs_replace p q m := (with_dirs m (show q :: without (show p) (dirs m)), Ok ());
|}.

Lemma example_reports : git_reports_only (M := machine).
Proof.
  intros args p m H. change (fst (example_git args p m) = m). unfold reporting in H.
  destruct args as [|cmd args]; [done|]. apply orb_true_iff in H as [H|H].
  - apply mem_spec in H. set_unfold in H. cbn [example_git].
    destruct H as [->|[->|[->|[->|[]]]]]; try done. by repeat (case_match; try done).
  - by apply bool_decide_eq_true in H as ->.
Qed.

Definition clean_machine (status : string) (faulty : bool) : machine :=
  mk_machine ["/repo"] [] [] status faulty.

Definition config (policy : UntrackedFilePolicy.t) : RecoverySessionConfig.t :=
  RecoverySessionConfig.mk (PurePosixPath.of_string "/repo") policy
    (Some (PurePosixPath.of_string "/runs")).

Definition created (status : string) (faulty : bool) (policy : UntrackedFilePolicy.t) :=
  create_recovery_session "run1" (config policy) (clean_machine status faulty).

Definition created_ok (status : string) (faulty : bool) (policy : UntrackedFilePolicy.t) : bool :=
  is_ok (snd (created status faulty policy)).

(** A created session, destroyed: the status, and the machine afterwards. *)
Definition cycle (faulty : bool) : option (CleanupStatus.t * machine) :=
  match created "" faulty UntrackedFilePolicy.BLOCK with
  | (m, Ok s) =>
      match destroy_recovery_session s (config UntrackedFilePolicy.BLOCK) m with
      | (m', Ok r) => Some (CleanupResult.status r, m')
      | _ => None
      end
  | _ => None
  end.

Example cycle_removes_worktree :
  cycle false = Some (CleanupStatus.CLEANED_GIT,
    mk_machine ["/runs/quarantine"; "/runs/timelines"; "/runs/workspaces"; "/runs"; "/repo"] [] [] "" false).
Proof. vm_compute. reflexivity. Qed.

Example busy_worktree_is_quarantined :
  match cycle true with
  | Some (status, m) => status = CleanupStatus.CLEANED_FALLBACK /\ worktrees m = ["/runs/quarantine/run1/workspace"]
  | None => False
  end.
Proof. vm_compute. done. Qed.

Example untracked_files_are_refused :
  created_ok "?? notes.txt" false UntrackedFilePolicy.BLOCK = false /\
  created_ok "?? notes.txt" false UntrackedFilePolicy.PRESERVE_AND_WARN = true /\
  created_ok "?? .env" false UntrackedFilePolicy.PRESERVE_AND_WARN = false.
Proof. vm_compute. done. Qed.

(** Git names an untracked directory once, and the sensitive file in it is not
    seen; untracked_files.py, which lists every file, would refuse it. *)
Example sensitive_file_in_directory_is_missed :
  created_ok "?? config/" false UntrackedFilePolicy.PRESERVE_AND_WARN = true /\
  Untracked._is_sensitive_path "config/.env" = true.
Proof. vm_compute. done. Qed.

Lemma created_session_witness :
  created_ok "" false UntrackedFilePolicy.BLOCK = true /\
  exists m s sha, created "" false UntrackedFilePolicy.BLOCK = (m, Ok s) /\
    detached_worktree (RecoverySession.trusted_repo_path s) (RecoverySession.execution_path s) sha m.
Proof.
  assert (Hok : created_ok "" false UntrackedFilePolicy.BLOCK = true) by (vm_compute; reflexivity).
  split; [exact Hok|]. unfold created_ok in Hok.
  destruct (created "" false UntrackedFilePolicy.BLOCK) as [m [s|e]] eqn:E; [|discriminate Hok].
  destruct (created_session_is_detached example_reports _ _ _ _ _ E)
    as (sha' & rr & _ & _ & _ & _ & _ & _ & _ & Hd).
  exists m, s, sha'. split; [reflexivity|exact Hd].
Defined.

(** The session of the example and the machine it was made on. *)
Definition example_session : RecoverySession.t * machine :=
  match created "" false UntrackedFilePolicy.BLOCK with
  | (m, Ok s) => (s, m)
  | (m, Raise _) => (RecoverySession.mk "" (PurePosixPath.of_string "") (PurePosixPath.of_string "") ""
                       (PurePosixPath.of_string "") None None, m)
  end.

(** The marker of another run. *)
Definition foreign_marker (m : machine) : machine :=
  with_files m [("/runs/workspaces/run1/.rygnal-owner", "run_id=other")].

Definition destroyed (change : machine -> machine) :=
  destroy_recovery_session (fst example_session) (config UntrackedFilePolicy.BLOCK)
    (change (snd example_session)).

Lemma foreign_session_is_left :
  match destroyed foreign_marker, destroyed id with
  | (m, Ok r), (_, Ok r') =>
      CleanupResult.status r = CleanupStatus.CLEANUP_FAILED /\ m = foreign_marker (snd example_session) /\
      CleanupResult.status r' = CleanupStatus.CLEANED_GIT
  | _, _ => False
  end /\ owned (fst example_session) (config UntrackedFilePolicy.BLOCK) (snd example_session).
Proof.
  split; [vm_compute; done|].
  assert (Hok : match destroyed id with
    | (_, Ok r') => CleanupResult.status r' = CleanupStatus.CLEANED_GIT | _ => False end)
    by (vm_compute; reflexivity).
  destruct (destroyed id) as [m' [r|e]] eqn:E; [|contradiction].
  destruct (destroy_steps example_reports (fst example_session)
    (config UntrackedFilePolicy.BLOCK) (snd example_session) m' (Ok r) E) as [[_ H]|[Ho _]]; [|exact Ho].
  destruct (H r eq_refl) as [Hf _]. rewrite Hok in Hf. discriminate Hf.
Defined.
End RecoveryExample.
