(* ===== verification/SubjectiveRisk.v ===== *)
(** * subjective_risk.py: human context of a changed file

    For every file of a patch the old and the new code, how recently and by whom
    it was edited, and whether someone locked it; an explicit lock is a critical
    reason of the patch.  With [classify_and_decide_patch] of guarded_runner.py,
    which adds these reasons to the deterministic ones.  Git, the file system and
    the Rust kernel are the class [SubjectiveHost]; bytes are strings. *)

From S2P Require Export Double ChangedFiles Containment ChangeGate.

Local Open Scope string_scope.
Local Open Scope list_scope.
Local Open Scope py_scope.

Module Subjective.

(** ** Constants and data *)

Definition SECONDS_PER_DAY : double := of_int 86400.
Definition BURST_WINDOW_DAYS : double := of_int 7.
Definition BURST_MIN_COMMITS : nat := 3.
Definition DEFAULT_UNKNOWN_HISTORY_DAYS : double := of_int 3650.
Definition DEFAULT_UNKNOWN_OWNERSHIP_RATIO : double := of_decimal 5 1.
Definition MAX_COLLECTED_SOURCE_BYTES : nat := 512 * 1024.

Definition DOC_EXTENSIONS : list string := [".adoc"; ".md"; ".rst"; ".txt"].
Definition DOC_FILE_NAMES : list string :=
  ["changelog"; "code_of_conduct"; "contributing"; "license"; "readme"; "security"].
Definition DOC_PATH_SEGMENTS : list string := ["doc"; "docs"; "documentation"].

Definition BOT_AUTHOR_MARKERS : list string :=
  ["[bot]"; "bot"; "github-actions"; "dependabot"; "renovate"; "copilot"; "automation"; "agent"].

Definition EXPLICIT_LOCK_MARKERS : list string :=
  ["rygnal:lock"; "@rygnal-lock"; "RYGNAL_LOCK"; "do-not-ai-edit"; "DO NOT AI EDIT";
   "DO NOT AUTONOMOUSLY EDIT"].

Definition SubjectiveRiskCollectionError (text : string) : exn :=
  mk_exn RuntimeError "SubjectiveRiskCollectionError" text.

Definition is_collection_error (e : exn) : bool :=
  String.eqb (exn_name e) "SubjectiveRiskCollectionError".

Record RustHumanContext := mk_context {
  days_since_edit : double;
  days_since_burst : double;
  line_ownership_ratio : double;
  is_explicitly_locked : bool;
}.

Record RustSubjectiveRiskInput := mk_input {
  file_path : string;
  action_type : string;
  system_risk : double;
  old_code : string;
  new_code : string;
  human_context : RustHumanContext;
}.

Record RustSubjectiveRiskAssessment := mk_assessment {
  total_criticality : pyfloat;
  judgment : string;
  assessment_reasons : list string;
  human_multiplier : pyfloat;
  destruction_penalty : pyfloat;
  semantic_metrics : RustSemanticMetrics;
}.

Record SubjectiveRiskFileAssessment := mk_file_assessment {
  assessed_path : string;
  assessment : RustSubjectiveRiskAssessment;
}.

(** Where Git is, a Git command with its exit code and two streams, files, the
    decoding of bytes, [float] of bytes (non-negative), and the kernel. *)
Class SubjectiveHost := {
  which_git : option string;
  git_bytes : list string -> PurePosixPath.t -> Z * string * string;
  resolve_path : PurePosixPath.t -> PurePosixPath.t;
  path_exists : PurePosixPath.t -> bool;
  path_is_dir : PurePosixPath.t -> bool;
  path_is_file : PurePosixPath.t -> bool;
  read_bytes : PurePosixPath.t -> result string string;
  _decode_git_output : string -> string;
  float_of_bytes : string -> option double;
  evaluate_subjective_risk : RustSubjectiveRiskInput -> result kernel_error RustSubjectiveRiskAssessment;
}.

(** ** Pure helpers *)

Definition _is_human_author (author : string) : bool :=
  let normalized := lower (strip author) in
  truthy normalized && negb (contains_any BOT_AUTHOR_MARKERS normalized).

Definition _days_since (timestamp now : double) : double :=
  if (now <? timestamp)%Z then 0%Z else ddiv (dsub now timestamp) SECONDS_PER_DAY.

(** [bytes.splitlines]: line feed, carriage return, or both. *)
Fixpoint bytes_lines_go (cur s : string) : list string :=
  match s with
  | EmptyString => if truthy cur then [cur] else []
  | String c s' =>
      if (code c =? 10)%N then cur :: bytes_lines_go "" s'
      else if (code c =? 13)%N then
        cur :: match s' with
               | String d s'' => if (code d =? 10)%N then bytes_lines_go "" s'' else bytes_lines_go "" s'
               | EmptyString => []
               end
      else bytes_lines_go (cur +++ String c "") s'
  end.
Definition bytes_lines (s : string) : list string := bytes_lines_go "" s.

(** The newest commit of the first window of three that is a burst. *)
Fixpoint recent_burst (timestamps : list double) : option double :=
  match timestamps with
  | newest :: ((_ :: oldest :: _) as rest) =>
      if (newest <? oldest)%Z || (dsub newest oldest <=? dmul BURST_WINDOW_DAYS SECONDS_PER_DAY)%Z
      then Some newest
      else recent_burst rest
  | _ => None
  end.

(** Whether the text says that the file is locked. *)
Definition has_lock_marker (text : string) : bool := contains_any EXPLICIT_LOCK_MARKERS text.

Definition _is_explicitly_locked (path old_code new_code : string) (explicitly_locked_paths : list string)
    : result exn bool :=
  locked_paths ← mapR normalize_changed explicitly_locked_paths;
  Ok (mem path locked_paths || has_lock_marker (old_code +++ newline +++ new_code)).

Definition _is_low_risk_documentation_change (path : string)
    (file_risk : option FileRiskClassification.t) : bool :=
  match file_risk with
  | Some r =>
      bool_decide (FileRiskClassification.risk_level r = LOW) &&
      let path_obj := PurePosixPath.of_string (lower path) in
      (mem (PurePosixPath.suffix path_obj) DOC_EXTENSIONS
       || mem (PurePosixPath.stem path_obj) DOC_FILE_NAMES
       || existsb (fun part => mem part DOC_PATH_SEGMENTS) (PurePosixPath.parts path_obj))
  | None => false
  end.

Definition _safe_git_object_path (path : string) : result exn string :=
  normalized_path ← normalize_changed path;
  _ ← ensure (negb (contains normalized_path ":" || contains normalized_path null_char))
        (SubjectiveRiskCollectionError ("Unsafe Git object path: " +++ path));
  Ok normalized_path.

Definition locked_file_change_to_reason (file_path : string) : ChangeRiskReason.t :=
  ChangeRiskReason.mk "subjective-human-context-risk" CRITICAL
    ("Explicit Rygnal lock marker raised guarded patch risk for " +++ file_path +++ ".")
    [("path", PStr file_path); ("judgment", PStr "block");
     ("total_criticality", of_float (decimal_float 100 1));
     ("human_multiplier", of_float (decimal_float 10 1));
     ("destruction_penalty", of_float (decimal_float 0 1));
     ("semantic_survival_ratio", of_float (decimal_float 10 1));
     ("explicitly_locked", PBool true); ("fallback", PStr "deterministic-lock-marker")].

(** [round(x, 4)] *)
Definition round4 (f : pyfloat) : pyval := of_float (decimal_float (round_decimal (double_of f) 4) 4).

Definition subjective_assessment_to_reason (result : SubjectiveRiskFileAssessment) (critical_block : bool)
    : option ChangeRiskReason.t :=
  let a := assessment result in
  if String.eqb (judgment a) "allow" then None
  else Some (ChangeRiskReason.mk "subjective-human-context-risk"
    (if String.eqb (judgment a) "block" && critical_block then CRITICAL else HIGH)
    ("Human-context and semantic-survival analysis raised guarded patch risk for "
     +++ assessed_path result +++ ".")
    [("path", PStr (assessed_path result)); ("judgment", PStr (judgment a));
     ("total_criticality", round4 (total_criticality a));
     ("human_multiplier", round4 (human_multiplier a));
     ("destruction_penalty", round4 (destruction_penalty a));
     ("semantic_survival_ratio", round4 (survival_ratio (semantic_metrics a)))]).

Definition kernel_error_text (e : kernel_error) : string :=
  match e with
  | KernelUnavailable t | KernelError t | UnexpectedError t => t
  | EvaluationError _ reason => reason
  end.

(** ** Collecting the context *)

Section Collect.
Context `{SH : SubjectiveHost}.

Definition _git_executable : result exn string :=
  match which_git with
  | Some p => Ok p
  | None => Raise (SubjectiveRiskCollectionError "Git executable was not found on PATH.")
  end.

Definition _run_git (args : list string) (cwd : PurePosixPath.t) (allow_missing : bool)
    : result exn string :=
  git ← _git_executable;
  let '(returncode, stdout, stderr) := git_bytes (git :: args) cwd in
  if (returncode =? 0)%Z then Ok stdout
  else if allow_missing then Ok ""
  else Raise (SubjectiveRiskCollectionError
                ("Git command failed: git " +++ str_join " " args +++ ": "
                 +++ strip (_decode_git_output stderr))).

Definition _decode_limited (raw : string) : string :=
  _decode_git_output (substring 0 MAX_COLLECTED_SOURCE_BYTES raw).

Definition _read_old_code (workspace : PurePosixPath.t) (baseline_commit_sha path : string)
    (kind : ChangedFileKind) : result exn string :=
  match kind with
  | ADDED | UNTRACKED => Ok ""
  | _ =>
      object_path ← _safe_git_object_path path;
      output ← _run_git ["show"; baseline_commit_sha +++ ":" +++ object_path] workspace
                 (bool_decide (kind = DELETED));
      Ok (_decode_limited output)
  end.

Definition _safe_workspace_file_path (workspace : PurePosixPath.t) (path : string)
    : result exn PurePosixPath.t :=
  normalized_path ← normalize_changed path;
  let candidate := resolve_path (join_path workspace (PurePosixPath.of_string normalized_path)) in
  _ ← ensure (_is_within_or_equal candidate workspace)
        (SubjectiveRiskCollectionError ("Changed file escapes workspace: " +++ path));
  Ok candidate.

Definition _read_new_code (workspace : PurePosixPath.t) (path : string) (kind : ChangedFileKind)
    : result exn string :=
  match kind with
  | DELETED => Ok ""
  | _ =>
      file_path ← _safe_workspace_file_path workspace path;
      _ ← ensure (path_exists file_path)
            (SubjectiveRiskCollectionError ("Changed file does not exist in workspace: " +++ path));
      _ ← ensure (path_is_file file_path)
            (SubjectiveRiskCollectionError ("Changed path is not a regular file: " +++ path));
      raw ← map_err (mk_exn OSError "OSError") (read_bytes file_path);
      Ok (_decode_limited raw)
  end.

Definition _days_since_last_edit (workspace : PurePosixPath.t) (baseline_commit_sha path : string)
    (now : double) : result exn double :=
  output ← _run_git ["log"; "-1"; "--format=%ct"; baseline_commit_sha; "--"; path] workspace true;
  let output := strip_by is_byte_space output in
  Ok (if truthy output then
        match float_of_bytes output with
        | Some timestamp => _days_since timestamp now
        | None => DEFAULT_UNKNOWN_HISTORY_DAYS
        end
      else DEFAULT_UNKNOWN_HISTORY_DAYS).

Definition _days_since_recent_burst (workspace : PurePosixPath.t) (baseline_commit_sha path : string)
    (now fallback_days_since_edit : double) : result exn double :=
  output ← _run_git ["log"; "--format=%ct"; "--max-count=20"; baseline_commit_sha; "--"; path]
             workspace true;
  let timestamps :=
    omap (fun line => float_of_bytes (strip_by is_byte_space line)) (bytes_lines output) in
  Ok match recent_burst timestamps with
     | Some newest => _days_since newest now
     | None => fallback_days_since_edit
     end.

(** The authors of the lines, in the output of git blame. *)
Definition blame_authors (output : string) : list string :=
  List.map (fun line => strip (_decode_git_output (drop_chars 7 line)))
    (List.filter (fun line => startswith line "author ") (bytes_lines output)).

Definition _line_ownership_ratio (workspace : PurePosixPath.t) (baseline_commit_sha path : string)
    : result exn double :=
  output ← _run_git ["blame"; "--line-porcelain"; baseline_commit_sha; "--"; path] workspace true;
  Ok match blame_authors output with
     | [] => DEFAULT_UNKNOWN_OWNERSHIP_RATIO
     | authors =>
         let count l := of_int (Z.of_nat (List.length (A:=string) l)) in
         Z.max 0 (Z.min fone (ddiv (count (List.filter _is_human_author authors)) (count authors)))
     end.

Definition collect_subjective_risk_input (workspace_path : string) (baseline_commit_sha : string)
    (file_diff : PatchFileDiff.t) (system_risk now : double) (explicitly_locked_paths : list string)
    : result exn RustSubjectiveRiskInput :=
  let workspace := resolve_path (PurePosixPath.of_string workspace_path) in
  let kind := PatchFileDiff.kind file_diff in
  _ ← ensure (path_exists workspace && path_is_dir workspace)
        (SubjectiveRiskCollectionError
           ("Guarded workspace does not exist: " +++ PurePosixPath.as_posix workspace));
  path ← normalize_changed (PatchFileDiff.path file_diff);
  old_path ← normalize_changed
               (if truthy_opt (PatchFileDiff.old_path file_diff)
                then default "" (PatchFileDiff.old_path file_diff) else PatchFileDiff.path file_diff);
  old_code ← _read_old_code workspace baseline_commit_sha old_path kind;
  new_code ← _read_new_code workspace path kind;
  days_since_edit ← _days_since_last_edit workspace baseline_commit_sha old_path now;
  days_since_burst ← _days_since_recent_burst workspace baseline_commit_sha old_path now days_since_edit;
  line_ownership_ratio ← _line_ownership_ratio workspace baseline_commit_sha old_path;
  is_explicitly_locked ← _is_explicitly_locked path old_code new_code explicitly_locked_paths;
  Ok (mk_input path (kind_value kind) system_risk old_code new_code
        (mk_context days_since_edit days_since_burst line_ownership_ratio is_explicitly_locked)).

(** A kernel error that is neither "unavailable" nor of the kernel propagates. *)
Definition kernel_exn (e : kernel_error) : exn :=
  match e with
  | UnexpectedError t => mk_exn OtherError "Exception" t
  | _ => SubjectiveRiskCollectionError (kernel_error_text e)
  end.

Definition evaluate_subjective_patch_file (workspace_path baseline_commit_sha : string)
    (file_diff : PatchFileDiff.t) (system_risk now : double) (explicitly_locked_paths : list string)
    : result exn (option SubjectiveRiskFileAssessment) :=
  risk_input ← collect_subjective_risk_input workspace_path baseline_commit_sha file_diff system_risk now
                 explicitly_locked_paths;
  match evaluate_subjective_risk risk_input with
  | Ok a => Ok (Some (mk_file_assessment (file_path risk_input) a))
  | Raise (KernelUnavailable _) => Ok None
  | Raise e => Raise (kernel_exn e)
  end.

(** One file of [collect_subjective_patch_reasons]. *)
Definition file_reasons (workspace_path baseline_commit_sha : string)
    (system_risk_by_path : list (string * double))
    (file_risk_by_path : list (string * FileRiskClassification.t)) (now : double)
    (explicitly_locked_paths : list string) (file_diff : PatchFileDiff.t)
    : result exn (list ChangeRiskReason.t) :=
  normalized_path ← normalize_changed (PatchFileDiff.path file_diff);
  risk_input ← collect_subjective_risk_input workspace_path baseline_commit_sha file_diff
                 (default 0%Z (assoc_get system_risk_by_path normalized_path)) now
                 explicitly_locked_paths;
  if is_explicitly_locked (human_context risk_input)
  then Ok [locked_file_change_to_reason (file_path risk_input)]
  else
    if match assoc_get file_risk_by_path normalized_path with
       | Some r => bool_decide (FileRiskClassification.risk_level r = LOW)
       | None => false
       end
    then Ok []
    else
      match evaluate_subjective_risk risk_input with
      | Ok a => Ok (option_list (subjective_assessment_to_reason
                                   (mk_file_assessment (file_path risk_input) a) false))
      | Raise (KernelUnavailable _) => Ok []
      | Raise e => Raise (kernel_exn e)
      end.

Definition collect_subjective_patch_reasons (workspace_path baseline_commit_sha : string)
    (files : list PatchFileDiff.t) (system_risk_by_path : list (string * double))
    (file_risk_by_path : list (string * FileRiskClassification.t)) (now : double)
    (explicitly_locked_paths : list string) : result exn (list ChangeRiskReason.t) :=
  reasons ← mapR (file_reasons workspace_path baseline_commit_sha system_risk_by_path file_risk_by_path
                    now explicitly_locked_paths) files;
  Ok (concat reasons).

(** ** The decision about a patch *)

Definition _system_risk_score_for_level (level : RiskLevel) : double :=
  match level with
  | CRITICAL => of_decimal 85 1 | HIGH => of_decimal 65 1 | MEDIUM => of_int 4 | LOW => of_int 2
  end.

(** A dictionary by path: a later file replaces an earlier one. *)
Definition by_path {A} (value : FileRiskClassification.t -> A) (files : list FileRiskClassification.t)
    : list (string * A) :=
  fold_left (fun d f => assoc_set d (FileRiskClassification.path f) (value f)) files [].

Definition collection_failed (e : exn) : ChangeRiskReason.t :=
  ChangeRiskReason.mk "subjective-risk-collection-failed" HIGH
    ("Subjective human-context analysis could not complete; " +++
     "guarded patch requires human approval.") [("error", PStr (exn_text e))].

Definition _collect_subjective_validation_reasons (now : double) (d : PatchDiff.t)
    (report : ChangeRiskReport.t) : result exn (list ChangeRiskReason.t) :=
  let files := ChangeRiskReport.files report in
  match collect_subjective_patch_reasons (PatchDiff.workspace_path d) (PatchDiff.baseline_commit_sha d)
          (PatchDiff.files d)
          (by_path (fun f => _system_risk_score_for_level (FileRiskClassification.risk_level f)) files)
          (by_path id files) now [] with
  | Ok reasons => Ok reasons
  | Raise e => if is_collection_error e then Ok [collection_failed e] else Raise e
  end.

Record PatchRiskDecision := mk_decision {
  allowed : bool;
  risk_level : RiskLevel;
  reason : string;
  report : ChangeRiskReport.t;
}.

Definition audit_summary (p : PatchRiskDecision) : pydict :=
  [("allowed", PBool (allowed p)); ("risk_level", PStr (risk_value (risk_level p)));
   ("reason", PStr (reason p)); ("report", of_dict (ChangeRiskReport.audit_summary (report p)))].

Definition decide_report (report : ChangeRiskReport.t) : PatchRiskDecision :=
  let level := ChangeRiskReport.overall_risk_level report in
  match level with
  | CRITICAL => mk_decision false level
      "Guarded patch blocked before completion: critical risk change detected." report
  | HIGH => mk_decision false level
      "Guarded patch requires approval before completion: high risk change detected." report
  | _ => mk_decision true level "Guarded patch accepted by deterministic patch-risk gate." report
  end.

Context `{RS : RiskSources}.

Definition classify_and_decide_patch (now : double) (d : PatchDiff.t) : result exn PatchRiskDecision :=
  report ← map_err changed_path_error (classify_patch_risk d [] DEFAULT_DIFF_LIMIT_POLICY);
  subjective_reasons ← _collect_subjective_validation_reasons now d report;
  report ← match subjective_reasons with
           | [] => Ok report
           | _ => map_err changed_path_error
                    (classify_patch_risk d subjective_reasons DEFAULT_DIFF_LIMIT_POLICY)
           end;
  Ok (decide_report report).

(** ** Lemmas *)

(** The lock of an input depends on its two texts only. *)
Lemma collected_lock ws sha f sr now i :
  collect_subjective_risk_input ws sha f sr now [] = Ok i ->
  is_explicitly_locked (human_context i) = has_lock_marker (old_code i +++ newline +++ new_code i) /\
  normalize_changed (PatchFileDiff.path f) = Ok (file_path i).
Proof.
  unfold collect_subjective_risk_input, _is_explicitly_locked. cbn zeta. cbn [mapR]. intros H.
  repeat (apply bind_Ok_inv in H as (? & ? & H)). injection H as <-.
  match goal with H : Ok [] ≫= _ = Ok _ |- _ => injection H as <- end.
  cbn [human_context is_explicitly_locked old_code new_code file_path]. split; [|done].
  by destruct (has_lock_marker _).
Qed.

(** The texts do not depend on the system risk. *)
Lemma collected_again ws sha f sr sr' now i :
  collect_subjective_risk_input ws sha f sr now [] = Ok i ->
  exists i', collect_subjective_risk_input ws sha f sr' now [] = Ok i' /\
    old_code i' = old_code i /\ new_code i' = new_code i.
Proof.
  unfold collect_subjective_risk_input. cbn zeta. intros H.
  repeat match type of H with
  | mbind _ _ = Ok _ => let E := fresh "E" in apply bind_Ok_inv in H as (? & E & H); rewrite E; cbn
  end.
  injection H as <-. eexists. split; [reflexivity|done].
Qed.

Lemma locked_file_reason ws sha srs frs now f i sr :
  collect_subjective_risk_input ws sha f sr now [] = Ok i ->
  has_lock_marker (old_code i +++ newline +++ new_code i) = true ->
  file_reasons ws sha srs frs now [] f = Ok [locked_file_change_to_reason (file_path i)].
Proof.
  intros H Hl. unfold file_reasons. destruct (collected_lock _ _ _ _ _ _ H) as [_ Hp]. rewrite Hp. cbn.
  destruct (collected_again _ _ _ _ (default 0%Z (assoc_get srs (file_path i))) _ _ H) as (i' & H' & Ho & Hn).
  rewrite H'. cbn. destruct (collected_lock _ _ _ _ _ _ H') as [-> Hp'].
  rewrite Ho, Hn, Hl. rewrite Hp in Hp'. by injection Hp' as ->.
Qed.

Lemma decide_report_level r :
  risk_level (decide_report r) = ChangeRiskReport.overall_risk_level r /\ report (decide_report r) = r /\
  (allowed (decide_report r) = true <->
   ChangeRiskReport.overall_risk_level r = LOW \/ ChangeRiskReport.overall_risk_level r = MEDIUM).
Proof.
  unfold decide_report. destruct (ChangeRiskReport.overall_risk_level r) eqn:E; cbn; rewrite ?E; naive_solver.
Qed.

Lemma overall_reason r x : x ∈ ChangeRiskReport.report_reasons r ->
  risk_le (ChangeRiskReason.risk_level x) (ChangeRiskReport.overall_risk_level r).
Proof.
  intros H. apply highest_risk_upper, elem_of_app. right. by apply list_elem_of_fmap_2.
Qed.

(** The two passes of the classifier. *)
Lemma classify_and_decide_inv now d p :
  classify_and_decide_patch now d = Ok p ->
  exists r0 reasons, classify_patch_risk d [] DEFAULT_DIFF_LIMIT_POLICY = Ok r0 /\
    _collect_subjective_validation_reasons now d r0 = Ok reasons /\
    classify_patch_risk d reasons DEFAULT_DIFF_LIMIT_POLICY = Ok (report p) /\ p = decide_report (report p).
Proof.
  unfold classify_and_decide_patch. intros (r0 & H0 & H)%bind_Ok_inv.
  apply bind_Ok_inv in H as (reasons & Hr & H). apply bind_Ok_inv in H as (r & H1 & [= <-]).
  destruct (classify_patch_risk d [] DEFAULT_DIFF_LIMIT_POLICY) as [r0'|e] eqn:E0; [|done].
  injection H0 as ->. exists r0, reasons. rewrite (proj1 (proj2 (decide_report_level r))).
  split_and!; try done. destruct reasons as [|x xs]; [by injection H1 as ->|].
  destruct (classify_patch_risk d (x :: xs) DEFAULT_DIFF_LIMIT_POLICY) as [r'|e]; [|done].
  by injection H1 as ->.
Qed.

Lemma mapR_elem {A B} (f : A -> result exn B) l l' x y :
  mapR f l = Ok l' -> x ∈ l -> f x = Ok y -> y ∈ l'.
Proof.
  intros H%mapR_Ok_Forall2 [k Hk]%list_elem_of_lookup_1 Hy.
  destruct (Forall2_lookup_l _ _ _ _ _ H Hk) as (y' & Hy' & He). rewrite Hy in He. injection He as <-.
  by eapply list_elem_of_lookup_2.
Qed.

(** ** Theorems *)

(** C29 A patch that touches a file with an explicit lock, in the old text or in
    the new one, is never accepted; the decision is critical unless the context
    of some file could not be collected, which the report then says. *)
Theorem locked_change_is_blocked now d p f sr i :
  f ∈ PatchDiff.files d ->
  collect_subjective_risk_input (PatchDiff.workspace_path d) (PatchDiff.baseline_commit_sha d) f sr now []
    = Ok i ->
  has_lock_marker (old_code i +++ newline +++ new_code i) = true ->
  classify_and_decide_patch now d = Ok p ->
  allowed p = false /\
  (risk_level p = CRITICAL \/
   exists e, is_collection_error e = true /\
     collection_failed e ∈ ChangeRiskReport.report_reasons (report p)).
Proof.
  intros Hf Hi Hl Hp. apply classify_and_decide_inv in Hp as (r0 & reasons & _ & Hr & Hc & ->).
  destruct (decide_report_level (report p)) as (-> & Hrep & Hal). rewrite Hrep.
  set (r := report p) in *. clearbody r.
  assert (Hin : forall x, x ∈ reasons -> x ∈ ChangeRiskReport.report_reasons r).
  { intros x Hx. unfold classify_patch_risk in Hc. apply bind_Ok_inv in Hc as (? & _ & Hc).
    apply bind_Ok_inv in Hc as (? & _ & [= <-]). cbn. apply elem_of_app. by left. }
  unfold _collect_subjective_validation_reasons in Hr.
  destruct (collect_subjective_patch_reasons _ _ _ _ _ _ _) as [l|e] eqn:El.
  - injection Hr as ->. unfold collect_subjective_patch_reasons in El.
    apply bind_Ok_inv in El as (ls & Hls & [= <-]).
    pose proof (mapR_elem _ _ _ _ _ Hls Hf (locked_file_reason _ _ _ _ _ _ _ _ Hi Hl)) as Hx.
    assert (Hlock : locked_file_change_to_reason (file_path i) ∈ ChangeRiskReport.report_reasons r).
    { apply Hin, list_elem_of_In, in_concat. eexists. split; [by apply list_elem_of_In|by left]. }
    apply overall_reason in Hlock. cbn in Hlock.
    assert (Hcrit : ChangeRiskReport.overall_risk_level r = CRITICAL)
      by (destruct (ChangeRiskReport.overall_risk_level r); unfold risk_le in Hlock; cbn in Hlock; [lia..|done]).
    split; [|by left]. destruct (allowed (decide_report r)); [|done].
    destruct (proj1 Hal eq_refl); congruence.
  - destruct (is_collection_error e) eqn:Ee; [|done]. injection Hr as <-.
    assert (Hx : collection_failed e ∈ ChangeRiskReport.report_reasons r)
      by (apply Hin, elem_of_cons; by left).
    pose proof (overall_reason _ _ Hx) as Hle. cbn in Hle.
    split; [|right; by exists e]. destruct (allowed (decide_report r)); [|done].
    destruct (proj1 Hal eq_refl) as [E|E]; rewrite E in Hle; unfold risk_le in Hle; cbn in Hle; lia.
Qed.

Lemma reasons_extend d vr policy r0 r :
  classify_patch_risk d [] policy = Ok r0 -> classify_patch_risk d vr policy = Ok r ->
  ChangeRiskReport.files r = ChangeRiskReport.files r0 /\
  ChangeRiskReport.report_reasons r = vr ++ ChangeRiskReport.report_reasons r0.
Proof.
  unfold classify_patch_risk. intros (a & Ha & H)%bind_Ok_inv. rewrite Ha.
  apply bind_Ok_inv in H as (fs & Hf & [= <-]).
  intros (a' & [= <-] & H)%bind_Ok_inv. rewrite Hf in H. by injection H as <-.
Qed.

Lemma overall_max r x : ChangeRiskReport.overall_risk_level r = x ->
  x = LOW \/ (exists f, f ∈ ChangeRiskReport.files r /\ FileRiskClassification.risk_level f = x) \/
  (exists y, y ∈ ChangeRiskReport.report_reasons r /\ ChangeRiskReason.risk_level y = x).
Proof.
  intros <-. unfold ChangeRiskReport.overall_risk_level.
  destruct (highest_risk_reached (List.map FileRiskClassification.risk_level (ChangeRiskReport.files r)
    ++ List.map ChangeRiskReason.risk_level (ChangeRiskReport.report_reasons r))) as [E|E]; [by left|right].
  apply elem_of_app in E as [E|E]; apply list_elem_of_fmap in E as (y & -> & Hy); [left|right]; by exists y.
Qed.

(** The human context only adds to the deterministic classification: every
    reason of the classifier stays, the files are classified the same, and the
    level of the decision is not below the one without it. *)
Theorem subjective_never_downgrades now d p r0 :
  classify_and_decide_patch now d = Ok p ->
  classify_patch_risk d [] DEFAULT_DIFF_LIMIT_POLICY = Ok r0 ->
  risk_le (ChangeRiskReport.overall_risk_level r0) (risk_level p) /\
  ChangeRiskReport.files (report p) = ChangeRiskReport.files r0 /\
  exists added, ChangeRiskReport.report_reasons (report p) = added ++ ChangeRiskReport.report_reasons r0.
Proof.
  intros (r0' & reasons & H0 & _ & Hc & ->)%classify_and_decide_inv H0'.
  rewrite H0 in H0'. injection H0' as ->. destruct (decide_report_level (report p)) as (-> & -> & _).
  destruct (reasons_extend _ _ _ _ _ H0 Hc) as [Hf Hr]. split; [|split; [done|by exists reasons]].
  destruct (overall_max r0 _ eq_refl) as [E|[(f & Hin & E)|(y & Hin & E)]].
  - rewrite E. destruct (ChangeRiskReport.overall_risk_level (report p)); unfold risk_le; cbn; lia.
  - rewrite <- E. apply highest_risk_upper, elem_of_app. left. rewrite Hf. by apply list_elem_of_fmap_2.
  - rewrite <- E. apply overall_reason. rewrite Hr. apply elem_of_app. by right.
Qed.
End Collect.
End Subjective.

(** ** Examples *)

Module SubjectiveExample.
Import Subjective.

(** A workspace in which every file has the given text; Git knows no history,
    and no kernel is installed. *)
Definition workspace_of (text : string) : SubjectiveHost := {|
  which_git := Some "git";
  git_bytes args _ :=
    if existsb (String.eqb "show") args then (0%Z, text, "") else (128%Z, "", "no history");
  resolve_path p := p;
  path_exists _ := true;
  path_is_dir _ := true;
  path_is_file _ := true;
  read_bytes _ := Ok text;
  _decode_git_output s := s;
  float_of_bytes s := match int_of_bytes s with Some z => Some (of_int z) | None => None end;
  evaluate_subjective_risk _ := Raise (KernelUnavailable "not installed");
|}.

Definition file (path : string) : PatchFileDiff.t :=
  PatchFileDiff.mk path MODIFIED (Some 1%Z) (Some 0%Z) false None (Some "100644") (Some "100644") false.

Definition patch_of (paths : list string) : PatchDiff.t :=
  PatchDiff.mk "/w" "abc" "" "d1gest" 120 (List.map file paths) [].

Definition decide_on (text : string) (paths : list string) : option (bool * RiskLevel) :=
  match classify_and_decide_patch (SH := workspace_of text) (RS := example_sources) 0%Z (patch_of paths) with
  | Ok p => Some (allowed p, risk_level p)
  | Raise _ => None
  end.

Example unlocked_is_allowed : decide_on "notes" ["docs/guide.md"] = Some (true, LOW).
Proof. vm_compute. reflexivity. Qed.

(** A path that [git show] cannot be given hides the lock of another file: the
    decision is no longer to block but to ask for approval. *)
Example lock_is_lost_beside_odd_path :
  decide_on "# rygnal:lock" ["docs/guide.md"] = Some (false, CRITICAL) /\
  decide_on "# rygnal:lock" ["docs/guide.md"; "docs/a:b.md"] = Some (false, HIGH).
Proof. vm_compute. done. Qed.

(** A name that contains a marker counts as a bot. *)
Example abbott_is_a_bot : _is_human_author "Ann Abbott" = false /\ _is_human_author "Ann Cole" = true.
Proof. vm_compute. done. Qed.

Definition day (n : Z) : double := of_int (n * 86400)%Z.

Example three_commits_in_a_week :
  recent_burst [day 40; day 30; day 29; day 28] = Some (day 30) /\
  _days_since (day 30) (day 32) = of_int 2.
Proof. vm_compute. done. Qed.

Definition locked_decision :=
  classify_and_decide_patch (SH := workspace_of "# rygnal:lock") (RS := example_sources) 0%Z
    (patch_of ["docs/guide.md"]).

Lemma locked_change_witness :
  match locked_decision with Ok p => allowed p = false | Raise _ => False end.
Proof.
  assert (Hok : is_ok locked_decision = true) by (vm_compute; reflexivity).
  assert (Hin : is_ok (collect_subjective_risk_input (SH := workspace_of "# rygnal:lock") "/w" "abc"
    (file "docs/guide.md") 0%Z 0%Z []) = true) by (vm_compute; reflexivity).
  assert (Hl : match collect_subjective_risk_input (SH := workspace_of "# rygnal:lock") "/w" "abc"
    (file "docs/guide.md") 0%Z 0%Z [] with
    | Ok i => has_lock_marker (old_code i +++ newline +++ new_code i) | Raise _ => false end = true)
    by (vm_compute; reflexivity).
  destruct locked_decision as [p|e] eqn:Ep; [|discriminate Hok].
  destruct (collect_subjective_risk_input (SH := workspace_of "# rygnal:lock") "/w" "abc"
    (file "docs/guide.md") 0%Z 0%Z []) as [i|e] eqn:Ei; [|discriminate Hin].
  exact (proj1 (locked_change_is_blocked (SH := workspace_of "# rygnal:lock") (RS := example_sources) 0%Z
    (patch_of ["docs/guide.md"]) p (file "docs/guide.md") 0%Z i (list_elem_of_here _ _) Ei Hl Ep)).
Defined.

Lemma never_downgrades_witness :
  match locked_decision, classify_patch_risk (H := example_sources) (patch_of ["docs/guide.md"]) []
          DEFAULT_DIFF_LIMIT_POLICY with
  | Ok p, Ok r0 => risk_le (ChangeRiskReport.overall_risk_level r0) (risk_level p)
  | _, _ => False
  end.
Proof.
  assert (Hok : is_ok locked_decision = true) by (vm_compute; reflexivity).
  assert (H0 : is_ok (classify_patch_risk (H := example_sources) (patch_of ["docs/guide.md"]) []
    DEFAULT_DIFF_LIMIT_POLICY) = true) by (vm_compute; reflexivity).
  destruct locked_decision as [p|e] eqn:Ep; [|discriminate Hok].
  destruct (classify_patch_risk _ _ _) as [r0|e] eqn:E0; [|discriminate H0].
  exact (proj1 (subjective_never_downgrades (SH := workspace_of "# rygnal:lock") (RS := example_sources) 0%Z
    (patch_of ["docs/guide.md"]) p r0 Ep E0)).
Defined.
End SubjectiveExample.
