(* ===== verification/GuardedBackend.v ===== *)
(** * guarded_runner.py: commands, back ends and the sandbox

    The parts of the guarded runner around a command: its validation, what of it
    is logged, the choice of a back end, the Bubblewrap command line and the
    identity files, the supervision of the process and its termination, and the
    data of the run's lock file.  [GuardedRunner] puts them together. *)

From S2P Require Export Production RecoverySession.
From S2P Require Import ReportSummary.

Local Open Scope string_scope.
Local Open Scope list_scope.
Local Open Scope py_scope.

Module Backend.

Definition UNSAFE_LOCAL_WARNING : string := "Unsafe local execution is not a containment backend.".

Definition _IMPLEMENTED_COMMAND_BACKENDS : list ExecutionBackendName.t :=
  [ExecutionBackendName.LINUX_BUBBLEWRAP; ExecutionBackendName.UNSAFE_LOCAL].

Definition GuardedCommandExecutionError (text : string) : exn :=
  mk_exn RuntimeError "GuardedCommandExecutionError" text.

Definition value_error (text : string) : exn := mk_exn ValueError "ValueError" text.

Module GuardedRunStatus.
Inductive t := COMPLETED | FAILED | TIMED_OUT | BLOCKED | APPROVAL_REQUIRED | CLEANUP_FAILED.
Definition value (s : t) : string :=
  match s with
  | COMPLETED => "completed" | FAILED => "failed" | TIMED_OUT => "timed_out" | BLOCKED => "blocked"
  | APPROVAL_REQUIRED => "approval_required" | CLEANUP_FAILED => "cleanup_failed"
  end.
#[global] Instance run_status_eq_dec : EqDecision t.
Proof. solve_decision. Defined.
End GuardedRunStatus.

Module GuardedCommandResult.
Record t := mk {
  command : list string;
  exit_code : option Z;
  stdout : string;
  stderr : string;
  timed_out : bool;
  duration_ms : Z;
  sandbox_setup_failed : bool;
  output_truncated : bool;
}.
End GuardedCommandResult.

(** ** The command *)

(** [tuple(value)], unless the value cannot be iterated. *)
Definition py_items (v : pyval) : option (list pyval) :=
  match v with
  | PList l | PTuple l => Some l
  | PDict d => Some (List.map fst d)
  | PStr s => Some (List.map PStr (Production.chars_of s))
  | _ => None
  end.

Definition is_str (v : pyval) : bool := match v with PStr _ => true | _ => false end.

Definition strings_of (l : list pyval) : list string := omap as_str l.

Definition _validate_command (command : pyval) : result exn (list string) :=
  _ ← ensure (negb (is_str command)) (value_error "Command must be argv-style, not a shell string.");
  items ← match py_items command with
          | Some l => Ok l
          | None => Raise (value_error "Command must be an argv-style iterable of strings.")
          end;
  _ ← ensure (match items with [] => false | _ => true end) (value_error "Command must not be empty.");
  _ ← ensure (forallb is_str items) (value_error "Every command item must be a string.");
  _ ← ensure (forallb truthy (strings_of items))
        (value_error "Command items must not be empty strings.");
  Ok (strings_of items).

Definition _validate_timeout (timeout_seconds : Z) : result exn () :=
  ensure (0 <? timeout_seconds)%Z (value_error "Timeout must be a positive number of seconds.").

(** What is logged of a command: no argument in clear. *)
Definition _command_audit_summary (command : pyval) : pydict :=
  let items := match command with
               | PStr s => [s]
               | _ => match py_items command with
                      | Some l => List.map py_str l
                      | None => [py_repr command]
                      end
               end in
  [("argc", PInt (Z.of_nat (List.length items)));
   ("executable", match items with
                  | item :: _ => PStr (PurePosixPath.name (PurePosixPath.of_string item))
                  | [] => PNone
                  end);
   ("argv_sha256", PStr (sha256_hex (str_join null_char items)))].

Definition _stream_metadata (value : string) : pydict :=
  [("byte_length", PInt (utf8_len value)); ("sha256", PStr (sha256_hex value))].

Definition _command_metadata (r : GuardedCommandResult.t) : pydict :=
  [("command", of_dict (_command_audit_summary
                          (PTuple (List.map PStr (GuardedCommandResult.command r)))));
   ("exit_code", match GuardedCommandResult.exit_code r with Some c => PInt c | None => PNone end);
   ("timed_out", PBool (GuardedCommandResult.timed_out r));
   ("duration_ms", PInt (GuardedCommandResult.duration_ms r));
   ("sandbox_setup_failed", PBool (GuardedCommandResult.sandbox_setup_failed r));
   ("output_truncated", PBool (GuardedCommandResult.output_truncated r));
   ("stdout", of_dict (_stream_metadata (GuardedCommandResult.stdout r)));
   ("stderr", of_dict (_stream_metadata (GuardedCommandResult.stderr r)))].

Definition _worktree_metadata (worktree : Recovery.RecoverySession.t) (backend_name : option string)
    (containment_verified : bool) : pydict :=
  [("run_id", PStr (Recovery.RecoverySession.run_id worktree));
   ("trusted_repo_path", PStr (Recovery.show (Recovery.RecoverySession.trusted_repo_path worktree)));
   ("workspace_path", PStr (Recovery.show (Recovery.RecoverySession.workspace_path worktree)));
   ("baseline_commit_sha", PStr (Recovery.RecoverySession.baseline_commit_sha worktree));
   ("backend_name", of_opt_str backend_name);
   ("containment_verified", PBool containment_verified)].

(** ** The trusted repository before the run *)

Definition tracked_dirty (changes : RepoChanges.t) : bool :=
  negb (match RepoChanges.staged changes, RepoChanges.unstaged changes with [], [] => true | _, _ => false end).

(** The warnings of [_verify_trusted_repo_state]; [git] is Git in the repository. *)
Definition _verify_trusted_repo_state (git : list string -> string -> result string string)
    (trusted_repo : string) (allow_dirty_override : bool) : result exn (list string) :=
  changes ← get_uncommitted_changes git trusted_repo;
  if negb (tracked_dirty changes) then Ok []
  else if allow_dirty_override then Ok ["Dirty trusted repository override was explicitly enabled."]
  else Raise (dirty_repository
    (["Tracked uncommitted changes detected in trusted repository:"]
     ++ count_line "Staged" (RepoChanges.staged changes)
     ++ count_line "Unstaged" (RepoChanges.unstaged changes)
     ++ [String (ascii_of_N 10) "Rygnal guarded execution blocked to prevent data loss.";
         "Commit or stash tracked changes, or pass allow_dirty_override=True."])).

(** ** The back end *)

(** The command back ends; the limits and the verification of Bubblewrap. *)
Inductive CommandBackend :=
  | UnsafeLocalCommandBackend
  | BubblewrapCommandBackend (production_verification : option Production.BubblewrapVerification.t)
      (limits : Production.limits)
  | UnsupportedCommandBackend (reason : string).

Definition _unsupported_command_backend_reason (backend_name : ExecutionBackendName.t) : string :=
  "Backend " +++ ExecutionBackendName.value backend_name +++ " was selected but command execution is not " +++
  "implemented for the guarded runner.".

Section Select.
Context {PH : ProbeHost} {PR : Production.ProductionHost} (set_text : list string -> string).

(** [os.environ] with the variable of the unsafe back end set or removed. *)
Definition backend_environment (environ : list (string * string)) (unsafe_local_requested : bool)
    : list (string * string) :=
  let others := List.filter (fun kv => negb (String.eqb (fst kv) "RYGNAL_UNSAFE_LOCAL")) environ in
  if unsafe_local_requested then ("RYGNAL_UNSAFE_LOCAL", "1") :: others else others.

Definition _select_backend (environ : list (string * string)) (environment : string)
    (unsafe_local_requested : bool) : result exn ExecutionBackendSelection.t :=
  match Production.execution_security_mode environment with
  | Production.PRODUCTION =>
      _ ← ensure (negb unsafe_local_requested)
            (selection_error "Unsafe local execution is prohibited in production mode.");
      verification ← Production.verify_production_bubblewrap set_text;
      _ ← ensure (Production.BubblewrapVerification.eligible verification)
            (selection_error ("Production containment unavailable: " +++
                              Production.BubblewrapVerification.reason verification));
      Ok (ExecutionBackendSelection.mk ExecutionBackendName.LINUX_BUBBLEWRAP true
            ("Bubblewrap passed Rygnal production behavioral verification" +++
             (if truthy_opt (Production.BubblewrapVerification.version verification)
              then " at version " +++ default "" (Production.BubblewrapVerification.version verification) +++ "."
              else ".")) None)
  | Production.DEVELOPMENT =>
      select_execution_backend
        (detect_host_backend_capabilities (backend_environment environ unsafe_local_requested))
  end.

Definition _command_backend_for (backend_name : ExecutionBackendName.t) (environment : string)
    (limits : Production.limits) : result exn CommandBackend :=
  match backend_name with
  | ExecutionBackendName.LINUX_BUBBLEWRAP =>
      verification ← match Production.execution_security_mode environment with
                     | Production.PRODUCTION =>
                         v ← Production.verify_production_bubblewrap set_text; Ok (Some v)
                     | Production.DEVELOPMENT => Ok None
                     end;
      Ok (BubblewrapCommandBackend verification limits)
  | ExecutionBackendName.UNSAFE_LOCAL => Ok UnsafeLocalCommandBackend
  | _ => Ok (UnsupportedCommandBackend (_unsupported_command_backend_reason backend_name))
  end.
End Select.

(** ** The Bubblewrap command line *)

Definition _SANDBOX_WORKSPACE : string := "/workspace".
Definition _SANDBOX_TMP : string := "/tmp".

Definition _bubblewrap_workspace_mount_args (workspace : string) : result exn (list string) :=
  mount ← make_mount _SANDBOX_WORKSPACE WRITABLE_BIND (Some workspace);
  plan ← make_plan [mount];
  args ← mapR (fun m =>
    match MountContract.kind m, MountContract.host_source m with
    | WRITABLE_BIND, Some source => Ok ["--bind"; source; MountContract.sandbox_path m]
    | _, _ => Raise (GuardedCommandExecutionError
                       "Workspace mount plan must contain only writable workspace bind mounts.")
    end) plan;
  Ok (concat args).

(** The options before the mounts of the runtime. *)
Definition base_options (passwd_file group_file : string) : list string :=
  ["--unshare-user"; "--unshare-pid"; "--unshare-ipc"; "--unshare-uts"; "--unshare-net";
   "--die-with-parent"; "--proc"; "/proc"; "--dev"; "/dev"; "--dir"; "/etc"; "--dir"; "/var";
   "--tmpfs"; _SANDBOX_TMP; "--tmpfs"; "/var/tmp"; "--dir"; "/run"; "--clearenv"; "--setenv"; "PATH";
   "/usr/local/bin:/usr/bin:/bin"; "--setenv"; "HOME"; _SANDBOX_TMP; "--setenv"; "TMPDIR"; _SANDBOX_TMP;
   "--setenv"; "PWD"; _SANDBOX_WORKSPACE; "--ro-bind"; passwd_file; "/etc/passwd"; "--ro-bind"; group_file;
   "/etc/group"].

(** The paths that exist, bound read-only. *)
Definition runtime_mounts (exists_path : string -> bool) : list string :=
  flat_map (fun p => if exists_path p then ["--ro-bind"; p; p] else [])
    (["/usr"; "/bin"; "/lib"; "/lib64"; "/opt"] ++ ["/etc/nsswitch.conf"; "/etc/ld.so.cache"]).

Definition bubblewrap_options (exists_path : string -> bool) (passwd_file group_file : string)
    (production : bool) (mounts : list string) : list string :=
  (if production then Production.production_bubblewrap_hardening_flags else [])
  ++ base_options passwd_file group_file ++ runtime_mounts exists_path ++ mounts
  ++ ["--chdir"; _SANDBOX_WORKSPACE].

(** The joiner is the Python literal with an escaped backslash: backslash and n,
    not a line feed. *)
Definition identity_files (uid gid : Z) : string * string :=
  (str_join "\n" ["root:x:0:0:root:/root:/usr/sbin/nologin";
                  "rygnal:x:" +++ pretty uid +++ ":" +++ pretty gid
                    +++ ":Rygnal Sandbox User:/tmp:/usr/sbin/nologin";
                  "nobody:x:65534:65534:nobody:/nonexistent:/usr/sbin/nologin"; ""],
   str_join "\n" ["root:x:0:"; "rygnal:x:" +++ pretty gid +++ ":"; "nogroup:x:65534:"; ""]).

(** ** Running the process *)

Inductive stream := SText (s : string) | SBytes (s : string).

(** The outcome of a signal, and of [communicate] with a time limit. *)
Inductive signal_outcome := Delivered | NoSuchProcess | SignalError (text : string).

Inductive communicated :=
  | Finished (returncode : Z) (stdout stderr : string)
  | Expired (stdout stderr : option stream)
  | CommunicateError (e : exn).

(** A child process by its number; whether POSIX process groups exist; the
    milliseconds between two states; and the whole of [run_bounded_process],
    whose supervision is left to production_containment.py. *)
Class ProcessHost (M : Type) := {
  popen : list string -> PurePosixPath.t -> bool -> M -> M * result exn Z;
  communicate : Z -> Z -> M -> M * communicated;
  poll : Z -> M -> M * option Z;
  wait_ms : Z -> Z -> M -> M * bool;
  getpgid : Z -> M -> result signal_outcome Z;
  killpg : Z -> Z -> M -> M * signal_outcome;
  send_signal : Z -> Z -> M -> M * signal_outcome;
  close_stream : Z -> M -> M;
  posix_process_groups : bool;
  decode_replace : string -> string;
  elapsed_ms : M -> M -> Z;
  run_bounded_process : list string -> PurePosixPath.t -> Z -> Production.limits -> M ->
    M * result exn Production.bounded_result;
  getgid : Z;
}.

Definition SIGTERM : Z := 15.
Definition SIGKILL : Z := 9.
Definition _PROCESS_GROUP_TERMINATION_GRACE_MS : Z := 1000.
Definition _PROCESS_OUTPUT_DRAIN_GRACE_MS : Z := 1000.

Definition _append_cleanup_warnings (stderr : string) (warnings : list string) : string :=
  match warnings with
  | [] => stderr
  | _ =>
      let warning_text := str_join newline (List.map (fun w => "[rygnal cleanup] " +++ w) warnings) in
      if truthy stderr then rstrip_by is_space stderr +++ newline +++ warning_text +++ newline
      else warning_text +++ newline
  end.

Section Process.
Context {M : Type} {SP : ProcessHost M}.

(** A call that does not raise. *)
Definition calls {A} (f : M -> M * A) : eff M A := fun m => let '(m', a) := f m in (m', Ok a).

Definition _stream_to_text (value : option stream) : string :=
  match value with Some (SText s) => s | Some (SBytes s) => decode_replace s | None => "" end.

Definition _guarded_process_group_id (pid : Z) : eff M (option Z * option string) :=
  if posix_process_groups then
    asks (fun m => match getpgid pid m with
                   | Ok pgid => (Some pgid, None)
                   | Raise (SignalError text) =>
                       (None, Some ("Failed to inspect guarded process group: " +++ text))
                   | Raise _ => (None, None)
                   end)
  else mret (None, None).

Definition _signal_guarded_process_group_id (pgid signal_number : Z) (action : string)
    : eff M (list string) :=
  outcome ← calls (killpg pgid signal_number);
  mret match outcome with
       | SignalError text => ["Failed to signal guarded process group during " +++ action +++ ": " +++ text]
       | _ => []
       end.

Definition _signal_direct_process (pid signal_number : Z) (action fallback_message : string)
    : eff M (list string) :=
  exited ← calls (poll pid);
  match exited with
  | Some _ => mret []
  | None =>
      outcome ← calls (send_signal pid signal_number);
      mret match outcome with
           | Delivered => [fallback_message]
           | NoSuchProcess => []
           | SignalError text => ["Failed to signal guarded process during " +++ action +++ ": " +++ text]
           end
  end.

Definition _terminate_guarded_process (pid : Z) (process_group_id : option Z) : eff M (list string) :=
  match process_group_id with
  | Some pgid => _signal_guarded_process_group_id pgid SIGTERM "terminate"
  | None => _signal_direct_process pid SIGTERM "terminate"
              "POSIX process groups unavailable; terminated direct process only."
  end.

Definition _force_kill_guarded_process (pid : Z) (process_group_id : option Z) : eff M (list string) :=
  match process_group_id with
  | Some pgid => _signal_guarded_process_group_id pgid SIGKILL "force-kill"
  | None =>
      exited ← calls (poll pid);
      match exited with
      | Some _ => mret []
      | None =>
          outcome ← calls (send_signal pid SIGKILL);
          mret match outcome with
               | Delivered => ["POSIX process groups unavailable; force-killed direct process only."]
               | NoSuchProcess => []
               | SignalError text => ["Failed to force-kill guarded process: " +++ text]
               end
      end
  end.

(** The gentle part: while the process still runs. *)
Definition terminate_gently (pid : Z) (process_group_id : option Z) : eff M (list string) :=
  exited ← calls (poll pid);
  match exited with
  | Some _ => mret []
  | None =>
      warnings ← _terminate_guarded_process pid process_group_id;
      _ ← calls (wait_ms pid _PROCESS_GROUP_TERMINATION_GRACE_MS);
      mret warnings
  end.

Definition _terminate_guarded_process_tree (pid : Z) : eff M (list string) :=
  group ← _guarded_process_group_id pid;
  let '(process_group_id, group_warning) := group in
  gentle ← terminate_gently pid process_group_id;
  forced ← _force_kill_guarded_process pid process_group_id;
  exited ← calls (wait_ms pid _PROCESS_GROUP_TERMINATION_GRACE_MS);
  mret (option_list (if truthy_opt group_warning then group_warning else None) ++ gentle ++ forced
        ++ (if exited : bool then []
            else ["Guarded command did not exit after forced cleanup; output may be partial."])).

Definition _drain_guarded_process_output (pid : Z) (timed_out_stdout timed_out_stderr : option stream)
    : eff M (string * string * option string) :=
  outcome ← calls (communicate pid _PROCESS_OUTPUT_DRAIN_GRACE_MS);
  match outcome with
  | Finished _ stdout stderr => mret (stdout, stderr, None)
  | Expired stdout stderr =>
      _ ← calls (fun m => (close_stream pid m, ()));
      let or_text a b := if truthy (_stream_to_text a) then _stream_to_text a else _stream_to_text b in
      mret (or_text stdout timed_out_stdout, or_text stderr timed_out_stderr,
            Some ("Guarded command output pipes did not close after cleanup; " +++
                  "stdout/stderr may be partial."))
  | CommunicateError e => raise e
  end.

(** The supervision without the temporary signal handlers, which act only when
    the run itself is interrupted. *)
Definition supervise (command : list string) (pid timeout_seconds : Z) (started : M)
    : eff M GuardedCommandResult.t :=
  outcome ← calls (communicate pid (timeout_seconds * 1000));
  match outcome with
  | Finished returncode stdout stderr =>
      duration ← asks (fun m => elapsed_ms started m);
      mret (GuardedCommandResult.mk command (Some returncode) stdout stderr false duration false false)
  | Expired out err =>
      cleanup_warnings ← _terminate_guarded_process_tree pid;
      drained ← _drain_guarded_process_output pid out err;
      let '(stdout, stderr, drain_warning) := drained in
      duration ← asks (fun m => elapsed_ms started m);
      mret (GuardedCommandResult.mk command None stdout
              (_append_cleanup_warnings stderr (cleanup_warnings ++ option_list drain_warning))
              true duration false false)
  | CommunicateError e => raise e
  end.

Definition _run_subprocess (command : list string) (cwd : PurePosixPath.t) (timeout_seconds : Z)
    : eff M GuardedCommandResult.t :=
  catch
    (started ← asks id;
     pid ← popen command cwd posix_process_groups;
     supervise command pid timeout_seconds started)
    (fun e => if Recovery.is_os_error e
       then Some (raise (GuardedCommandExecutionError ("Failed to start guarded command: " +++ exn_text e)))
       else None).

(** ** The back ends *)

Context {WH : WorktreeHost M} {PH : ProbeHost} {PR : Production.ProductionHost}.

Definition _write_synthetic_identity_files (workspace : PurePosixPath.t)
    : eff M (PurePosixPath.t * PurePosixPath.t) :=
  let identity_dir := Recovery.joinpath (PurePosixPath.parent workspace) ".rygnal-sandbox-identity" in
  let passwd_file := Recovery.joinpath identity_dir "passwd" in
  let group_file := Recovery.joinpath identity_dir "group" in
  let '(passwd, group) := identity_files Production.getuid getgid in
  _ ← Recovery.sys (fs_mkdir identity_dir true);
  _ ← Recovery.sys (fs_write passwd_file passwd);
  _ ← Recovery.sys (fs_write group_file group);
  _ ← Recovery.sys (fs_chmod passwd_file 420);
  _ ← Recovery.sys (fs_chmod group_file 420);
  mret (passwd_file, group_file).

Definition _build_bubblewrap_command (command : list string) (workspace_path : PurePosixPath.t)
    (production : bool) : eff M (list string) :=
  bwrap_path ← lift match which "bwrap" with
                    | Some p => Ok p
                    | None => Raise (GuardedCommandExecutionError
                                       "Bubblewrap backend selected but bwrap was not found.")
                    end;
  workspace ← asks (fun m => resolve m workspace_path);
  files ← _write_synthetic_identity_files workspace;
  existing ← asks (fun m p => exists_path m (PurePosixPath.of_string p));
  mounts ← lift (_bubblewrap_workspace_mount_args (Recovery.show workspace));
  mret (bwrap_path
        :: bubblewrap_options existing (Recovery.show (fst files)) (Recovery.show (snd files))
             production mounts
        ++ ["--"] ++ command).

Definition bounded_command_result (command : list string) (b : Production.bounded_result)
    : GuardedCommandResult.t :=
  GuardedCommandResult.mk command (Production.b_exit_code b) (Production.b_stdout b)
    (Production.b_stderr b) (Production.b_timed_out b) (Production.b_duration_ms b)
    (Production.b_sandbox_setup_failed b) (Production.b_output_truncated b).

(** [backend.run] *)
Definition run_backend (backend : CommandBackend) (command : list string) (cwd : PurePosixPath.t)
    (timeout_seconds : Z) : eff M GuardedCommandResult.t :=
  match backend with
  | UnsafeLocalCommandBackend => _run_subprocess command cwd timeout_seconds
  | UnsupportedCommandBackend reason => raise (GuardedCommandExecutionError reason)
  | BubblewrapCommandBackend None _ =>
      bwrap_command ← _build_bubblewrap_command command cwd false;
      _run_subprocess bwrap_command cwd timeout_seconds
  | BubblewrapCommandBackend (Some verification) limits =>
      bwrap_command ← _build_bubblewrap_command command cwd true;
      _ ← require (Production.BubblewrapVerification.eligible verification)
            (GuardedCommandExecutionError "Production Bubblewrap backend was not behaviorally verified.");
      bounded ← run_bounded_process bwrap_command cwd timeout_seconds limits;
      mret (bounded_command_result command bounded)
  end.

(** ** How Bubblewrap reads a command line *)

(** As its manual documents it: the options are read from left to right; the
    root of the sandbox is an empty private file system; an option that mounts
    something does so over what the options before it made, so that a path
    shows the last mount that covers it.  A [--tmpfs] is fresh and writable, and
    no part of the host. *)
Inductive mount_op :=
  | WritableBind (source destination : string)
  | ReadOnlyBind (source destination : string)
  | FreshTmpfs (destination : string)
  | ProcFs (destination : string)
  | DevFs (destination : string)
  | MakeDir (destination : string).

Inductive option_kind :=
  | Flag | Setting (arguments : nat) | Mount1 (m : string -> mount_op) | Mount2 (m : string -> string -> mount_op)
  | EndOfOptions.

Definition option_kind_of (o : string) : option option_kind :=
  if String.eqb o "--" then Some EndOfOptions
  else if mem o ["--unshare-user"; "--unshare-pid"; "--unshare-ipc"; "--unshare-uts"; "--unshare-net";
                 "--unshare-cgroup"; "--die-with-parent"; "--new-session"; "--clearenv"] then Some Flag
  else if mem o ["--chdir"; "--cap-drop"] then Some (Setting 1)
  else if String.eqb o "--setenv" then Some (Setting 2)
  else if String.eqb o "--proc" then Some (Mount1 ProcFs)
  else if String.eqb o "--dev" then Some (Mount1 DevFs)
  else if String.eqb o "--dir" then Some (Mount1 MakeDir)
  else if String.eqb o "--tmpfs" then Some (Mount1 FreshTmpfs)
  else if String.eqb o "--bind" then Some (Mount2 WritableBind)
  else if String.eqb o "--ro-bind" then Some (Mount2 ReadOnlyBind)
  else None.

(** The flags, the settings and the mounts, each in their order, and the
    command. *)
Record sandbox := mk_sandbox {
  sb_flags : list string;
  sb_settings : list (list string);
  sb_mounts : list mount_op;
  sb_command : list string;
}.

Definition add_flags (l : list string) (s : sandbox) : sandbox :=
  mk_sandbox (l ++ sb_flags s) (sb_settings s) (sb_mounts s) (sb_command s).
Definition add_settings (l : list (list string)) (s : sandbox) : sandbox :=
  mk_sandbox (sb_flags s) (l ++ sb_settings s) (sb_mounts s) (sb_command s).
Definition add_mounts (l : list mount_op) (s : sandbox) : sandbox :=
  mk_sandbox (sb_flags s) (sb_settings s) (l ++ sb_mounts s) (sb_command s).

(** The options, in order, and the command after them. *)
Fixpoint parse_options (args : list string) : option sandbox :=
  match args with
  | [] => None
  | o :: rest =>
      match option_kind_of o, rest with
      | Some EndOfOptions, _ => Some (mk_sandbox [] [] [] rest)
      | Some Flag, _ => add_flags [o] <$> parse_options rest
      | Some (Setting 1), a :: rest' => add_settings [[o; a]] <$> parse_options rest'
      | Some (Setting 2), a :: b :: rest' => add_settings [[o; a; b]] <$> parse_options rest'
      | Some (Mount1 m), a :: rest' => add_mounts [m a] <$> parse_options rest'
      | Some (Mount2 m), a :: b :: rest' => add_mounts [m a b] <$> parse_options rest'
      | _, _ => None
      end
  end.

(** Whether a path of the sandbox is [destination] or below it. *)
Definition covers (destination path : string) : bool := startswith (path +++ "/") (destination +++ "/").

(** Where a mount shows; a directory that is only made shows nothing. *)
Definition destination (m : mount_op) : option string :=
  match m with
  | WritableBind _ d | ReadOnlyBind _ d | FreshTmpfs d | ProcFs d | DevFs d => Some d
  | MakeDir _ => None
  end.

Definition shows_at (path : string) (m : mount_op) : bool :=
  match destination m with Some d => covers d path | None => false end.

(** What a path shows: the last mount that covers it, or the private root. *)
Definition mounted_at (mounts : list mount_op) (path : string) : option mount_op :=
  List.find (shows_at path) (rev mounts).

Definition isolation_flags : list string :=
  ["--unshare-user"; "--unshare-pid"; "--unshare-ipc"; "--unshare-uts"; "--unshare-net"; "--die-with-parent";
   "--clearenv"].

Definition runtime_paths : list string :=
  ["/usr"; "/bin"; "/lib"; "/lib64"; "/opt"; "/etc/nsswitch.conf"; "/etc/ld.so.cache"].

(** The mounts a sandbox may show: the workspace, writable; the identity files
    and the runtime of the host, read-only; the fresh file systems. *)
Definition mount_allowed (workspace : string) (m : mount_op) : Prop :=
  match m with
  | WritableBind src dst => src = workspace /\ dst = _SANDBOX_WORKSPACE
  | ReadOnlyBind src dst =>
      dst = "/etc/passwd" \/ dst = "/etc/group" \/ src = dst /\ src ∈ runtime_paths
  | FreshTmpfs dst => dst = _SANDBOX_TMP \/ dst = "/var/tmp"
  | ProcFs dst => dst = "/proc"
  | DevFs dst => dst = "/dev"
  | MakeDir dst => False
  end.

(** The sandbox of a guarded command. *)
Record guarded_sandbox (command : list string) (workspace : string) (production : bool) (s : sandbox)
    : Prop := mk_guarded_sandbox {
  gs_command : sb_command s = command;
  gs_workspace : forall path, covers _SANDBOX_WORKSPACE path = true ->
    mounted_at (sb_mounts s) path = Some (WritableBind workspace _SANDBOX_WORKSPACE);
  gs_tmp : forall dir path, dir ∈ [_SANDBOX_TMP; "/var/tmp"] -> covers dir path = true ->
    mounted_at (sb_mounts s) path = Some (FreshTmpfs dir);
  gs_mounts : forall path m, mounted_at (sb_mounts s) path = Some m -> mount_allowed workspace m;
  gs_flags : forall flag, flag ∈ isolation_flags -> flag ∈ sb_flags s;
  gs_hardened : production = true ->
    "--new-session" ∈ sb_flags s /\ "--unshare-cgroup" ∈ sb_flags s /\ ["--cap-drop"; "ALL"] ∈ sb_settings s;
  gs_chdir : ["--chdir"; _SANDBOX_WORKSPACE] ∈ sb_settings s;
}.

(** ** Lemmas *)

Lemma parse_read_only_mounts (existing : string -> bool) paths rest :
  parse_options (flat_map (fun p => if existing p then ["--ro-bind"; p; p] else []) paths ++ rest)
  = add_mounts (List.map (fun p => ReadOnlyBind p p) (List.filter existing paths)) <$> parse_options rest.
Proof.
  induction paths as [|p paths IH]; cbn [flat_map List.filter List.map app].
  - by destruct (parse_options rest) as [[]|].
  - destruct (existing p); cbn [app]; [|exact IH].
    change (parse_options ("--ro-bind" :: p :: p ::
      flat_map (fun p => if existing p then ["--ro-bind"; p; p] else []) paths ++ rest)) with
      (add_mounts [ReadOnlyBind p p] <$>
       parse_options (flat_map (fun p => if existing p then ["--ro-bind"; p; p] else []) paths ++ rest)).
    rewrite IH. by destruct (parse_options rest).
Qed.

Lemma workspace_mount_run workspace args :
  _bubblewrap_workspace_mount_args workspace = Ok args -> args = ["--bind"; workspace; _SANDBOX_WORKSPACE].
Proof.
  unfold _bubblewrap_workspace_mount_args, make_mount.
  assert (Hn : normalize_sandbox_path _SANDBOX_WORKSPACE SANDBOX_ROOT = Ok _SANDBOX_WORKSPACE)
    by (vm_compute; reflexivity).
  rewrite Hn. cbn [mbind result_bind]. destruct (truthy (strip workspace)); [|done].
  cbn. by intros [= <-].
Qed.

Lemma parse_flag o rest : option_kind_of o = Some Flag ->
  parse_options (o :: rest) = add_flags [o] <$> parse_options rest.
Proof. intros H. cbn [parse_options]. by rewrite H. Qed.

Lemma parse_setting1 o a rest : option_kind_of o = Some (Setting 1) ->
  parse_options (o :: a :: rest) = add_settings [[o; a]] <$> parse_options rest.
Proof. intros H. cbn [parse_options]. by rewrite H. Qed.

Lemma parse_setting2 o a b rest : option_kind_of o = Some (Setting 2) ->
  parse_options (o :: a :: b :: rest) = add_settings [[o; a; b]] <$> parse_options rest.
Proof. intros H. cbn [parse_options]. by rewrite H. Qed.

Lemma parse_mount1 o m a rest : option_kind_of o = Some (Mount1 m) ->
  parse_options (o :: a :: rest) = add_mounts [m a] <$> parse_options rest.
Proof. intros H. cbn [parse_options]. by rewrite H. Qed.

Lemma parse_mount2 o m a b rest : option_kind_of o = Some (Mount2 m) ->
  parse_options (o :: a :: b :: rest) = add_mounts [m a b] <$> parse_options rest.
Proof. intros H. cbn [parse_options]. by rewrite H. Qed.

Ltac parse_step :=
  first [rewrite parse_flag by reflexivity | rewrite parse_setting1 by reflexivity
        | rewrite parse_setting2 by reflexivity | erewrite parse_mount1 by reflexivity
        | erewrite parse_mount2 by reflexivity].

Definition base_settings : list (list string) :=
  [["--setenv"; "PATH"; "/usr/local/bin:/usr/bin:/bin"];
   ["--setenv"; "HOME"; _SANDBOX_TMP]; ["--setenv"; "TMPDIR"; _SANDBOX_TMP];
   ["--setenv"; "PWD"; _SANDBOX_WORKSPACE]].

Definition base_mounts (passwd group : string) : list mount_op :=
  [ProcFs "/proc"; DevFs "/dev"; MakeDir "/etc"; MakeDir "/var"; FreshTmpfs _SANDBOX_TMP;
   FreshTmpfs "/var/tmp"; MakeDir "/run"; ReadOnlyBind passwd "/etc/passwd"; ReadOnlyBind group "/etc/group"].

Definition with_base (passwd group : string) (s : sandbox) : sandbox :=
  mk_sandbox (isolation_flags ++ sb_flags s) (base_settings ++ sb_settings s)
    (base_mounts passwd group ++ sb_mounts s) (sb_command s).

Lemma parse_base passwd group rest :
  parse_options (base_options passwd group ++ rest) = with_base passwd group <$> parse_options rest.
Proof.
  unfold base_options. cbn [app]. repeat parse_step. by destruct (parse_options rest) as [[]|].
Qed.

Definition hardened (s : sandbox) : sandbox :=
  mk_sandbox (["--die-with-parent"; "--new-session"; "--unshare-cgroup"] ++ sb_flags s)
    (["--cap-drop"; "ALL"] :: sb_settings s) (sb_mounts s) (sb_command s).

Lemma parse_hardening rest :
  parse_options (Production.production_bubblewrap_hardening_flags ++ rest) = hardened <$> parse_options rest.
Proof.
  unfold Production.production_bubblewrap_hardening_flags, Production.PRODUCTION_BUBBLEWRAP_HARDENING_FLAGS.
  cbn [app]. repeat parse_step. by destruct (parse_options rest) as [[]|].
Qed.

(** The mounts of the options, in order: the workspace is the last. *)
Definition described_mounts (existing : string -> bool) (passwd group workspace : string) : list mount_op :=
  base_mounts passwd group
  ++ List.map (fun p => ReadOnlyBind p p) (List.filter existing runtime_paths)
  ++ [WritableBind workspace _SANDBOX_WORKSPACE].

(** The sandbox of the options. *)
Definition described (existing : string -> bool) (passwd group : string) (production : bool)
    (workspace : string) (command : list string) : sandbox :=
  (if production then hardened else id)
    (mk_sandbox isolation_flags (base_settings ++ [["--chdir"; _SANDBOX_WORKSPACE]])
       (described_mounts existing passwd group workspace) command).

Lemma parse_bubblewrap existing passwd group production workspace command :
  parse_options (bubblewrap_options existing passwd group production
                   ["--bind"; workspace; _SANDBOX_WORKSPACE] ++ ["--"] ++ command)
  = Some (described existing passwd group production workspace command).
Proof.
  unfold bubblewrap_options, described, described_mounts. rewrite <- !app_assoc.
  destruct production; cbn [app]; rewrite ?parse_hardening, parse_base; unfold runtime_mounts;
    rewrite parse_read_only_mounts; reflexivity.
Qed.

(** *** What the paths of the sandbox show *)

Lemma startswith_comparable s a b :
  startswith s a = true -> startswith s b = true -> startswith b a = true \/ startswith a b = true.
Proof.
  revert a b. induction s as [|c s IH]; intros [|x a] [|y b]; cbn; auto; try done.
  intros [->%Ascii.eqb_eq Ha]%andb_true_iff [->%Ascii.eqb_eq Hb]%andb_true_iff.
  rewrite Ascii.eqb_refl. by apply IH.
Qed.

Lemma find_none_all {A} (f : A -> bool) l : (forall x, In x l -> f x = false) -> List.find f l = None.
Proof.
  induction l as [|x l IH]; intros H; cbn; [done|]. rewrite H by by left. apply IH.
  intros y Hy. apply H. by right.
Qed.

Lemma find_app {A} (f : A -> bool) l k :
  List.find f (l ++ k) = match List.find f l with Some x => Some x | None => List.find f k end.
Proof. induction l as [|x l IH]; cbn; [done|]. by destruct (f x). Qed.

(** Two directories that cover one path cover each other in one direction. *)
Lemma covers_comparable a b path :
  covers a path = true -> covers b path = true -> covers a b = true \/ covers b a = true.
Proof. unfold covers. apply startswith_comparable. Qed.

Definition apart (a b : string) : bool := negb (covers a b) && negb (covers b a).

Lemma covers_apart a b path : covers a path = true -> apart a b = true -> covers b path = false.
Proof.
  intros Ha Hab. unfold apart in Hab. apply andb_true_iff in Hab as [H1%negb_true_iff H2%negb_true_iff].
  destruct (covers b path) eqn:Hb; [|done].
  destruct (covers_comparable _ _ _ Ha Hb); congruence.
Qed.

Lemma runtime_apart (existing : string -> bool) dir path :
  covers dir path = true -> forallb (apart dir) runtime_paths = true ->
  List.find (shows_at path)
    (rev (List.map (fun p => ReadOnlyBind p p) (List.filter existing runtime_paths))) = None.
Proof.
  intros Hd Hall. apply find_none_all. intros m Hm. apply in_rev, in_map_iff in Hm as (p & <- & Hp).
  apply filter_In in Hp as [Hp _]. rewrite forallb_forall in Hall. cbn.
  by apply (covers_apart dir), Hall.
Qed.

Lemma described_rev existing passwd group workspace :
  rev (described_mounts existing passwd group workspace)
  = WritableBind workspace _SANDBOX_WORKSPACE
      :: rev (List.map (fun p => ReadOnlyBind p p) (List.filter existing runtime_paths))
      ++ rev (base_mounts passwd group).
Proof. unfold described_mounts. by rewrite !rev_app_distr. Qed.

Lemma described_tmp existing passwd group workspace dir path :
  dir ∈ [_SANDBOX_TMP; "/var/tmp"] -> covers dir path = true ->
  mounted_at (described_mounts existing passwd group workspace) path = Some (FreshTmpfs dir).
Proof.
  intros Hdir Hc. unfold mounted_at. rewrite described_rev.
  assert (Hap : apart dir _SANDBOX_WORKSPACE = true /\ forallb (apart dir) runtime_paths = true /\
    apart dir "/etc/passwd" = true /\ apart dir "/etc/group" = true /\
    (dir = "/var/tmp" \/ apart dir "/var/tmp" = true)).
  { rewrite !elem_of_cons in Hdir. destruct Hdir as [->|[->|Hn%elem_of_nil]]; [..|done];
      split_and!; try (vm_compute; reflexivity); [right|left]; vm_compute; reflexivity. }
  destruct Hap as (H1 & H2 & H3 & H4 & H5).
  cbn [List.find shows_at destination]. rewrite (covers_apart _ _ _ Hc H1).
  rewrite find_app, (runtime_apart _ _ _ Hc H2). cbn [base_mounts rev app List.find shows_at destination].
  rewrite (covers_apart _ _ _ Hc H4), (covers_apart _ _ _ Hc H3).
  destruct H5 as [->|H5]; [by rewrite Hc|]. rewrite (covers_apart _ _ _ Hc H5).
  rewrite !elem_of_cons in Hdir. destruct Hdir as [->|[->|Hn%elem_of_nil]]; [by rewrite Hc| |done].
  by vm_compute in H5.
Qed.

Lemma described_allowed existing passwd group workspace path m :
  mounted_at (described_mounts existing passwd group workspace) path = Some m -> mount_allowed workspace m.
Proof.
  intros [Hin Hs]%find_some. rewrite described_rev in Hin.
  destruct Hin as [<-|Hin]; [done|]. apply in_app_iff in Hin as [Hin|Hin].
  - apply in_rev, in_map_iff in Hin as (p & <- & Hp). apply filter_In in Hp as [Hp _].
    right; right. split; [done|]. by apply list_elem_of_In.
  - cbn in Hin. repeat destruct Hin as [<-|Hin]; try done; cbn; auto.
Qed.

Lemma described_guarded existing passwd group production workspace command :
  guarded_sandbox command workspace production
    (described existing passwd group production workspace command).
Proof.
  unfold described. constructor.
  - by destruct production.
  - intros path Hp. assert (mounted_at (described_mounts existing passwd group workspace) path
      = Some (WritableBind workspace _SANDBOX_WORKSPACE)); [|by destruct production].
    unfold mounted_at. rewrite described_rev. cbn [List.find shows_at destination]. by rewrite Hp.
  - intros dir path Hd Hp. pose proof (described_tmp existing passwd group workspace _ _ Hd Hp).
    by destruct production.
  - intros path m Hm. apply (described_allowed existing passwd group workspace path).
    by destruct production.
  - intros flag Hf. destruct production; [apply elem_of_app; by right|exact Hf].
  - intros ->. cbn. set_solver.
  - assert (Hb : ["--chdir"; _SANDBOX_WORKSPACE] ∈ base_settings ++ [["--chdir"; _SANDBOX_WORKSPACE]])
      by (apply elem_of_app; right; apply list_elem_of_here).
    destruct production; [apply elem_of_cons; by right|exact Hb].
Qed.


(** The group of a command that ran out of time is killed, also when the
    command itself has already exited. *)
Theorem expired_group_is_killed pid m m' warnings pgid :
  posix_process_groups = true -> (forall x, getpgid pid x = Ok pgid) ->
  _terminate_guarded_process_tree pid m = (m', Ok warnings) ->
  exists m1, m' = fst (wait_ms pid _PROCESS_GROUP_TERMINATION_GRACE_MS (fst (killpg pgid SIGKILL m1))).
Proof.
  intros Hp Hg. unfold _terminate_guarded_process_tree, _guarded_process_group_id. rewrite Hp. intros H.
  apply bind_run in H as (m1 & [g w] & Hgroup & H). apply asks_run in Hgroup as [-> Hgroup].
  rewrite Hg in Hgroup. injection Hgroup as -> ->.
  unfold _force_kill_guarded_process, _signal_guarded_process_group_id, calls in H. inv_eff.
  repeat match goal with H : (let '(_, _) := ?c in _) = _ |- _ => destruct c eqn:?; injection H as <- <- end.
  match goal with H : killpg _ _ ?x = _ |- _ => exists x; by rewrite H; cbn; rewrite Heqp end.
Qed.
End Process.

(** ** The lock file of a run *)

Definition _GUARDED_RUN_LOCK_DIR_NAME : string := ".rygnal-locks".
Definition _GUARDED_RUN_CONCURRENCY_REASON_CODE : string := "guarded_run_concurrency_conflict".

(** The digest that names the lock of a repository and a run root. *)
Definition lock_identity_of (trusted_repo run_root : PurePosixPath.t) : string :=
  sha256_hex (Recovery.show trusted_repo +++ null_char +++ Recovery.show run_root).

Definition _guarded_run_concurrency_lock_path (trusted_repo run_root : PurePosixPath.t)
    : PurePosixPath.t :=
  Recovery.joinpath (Recovery.joinpath run_root _GUARDED_RUN_LOCK_DIR_NAME)
    (lock_identity_of trusted_repo run_root +++ ".lock").

(** What [read_text(encoding="utf-8")] finds in a lock file that it can read. *)
Inductive lock_contents := LockText (text : string) | LockNotText.

(** The lines of the lock file; an [OSError] of the read, [None], counts as an
    empty file; the [UnicodeDecodeError] of a file that is no UTF-8 is not
    caught. *)
Definition _read_guarded_run_lock_metadata (contents : option lock_contents)
    : result exn (list (string * string)) :=
  match contents with
  | None => Ok []
  | Some LockNotText => Raise (mk_exn ValueError "UnicodeDecodeError" "'utf-8' codec can't decode the lock file")
  | Some (LockText t) =>
      Ok (fold_left (fun d line => match cut "=" line with
                                   | Some (key, value) => assoc_set d (strip key) (strip value)
                                   | None => d
                                   end) (splitlines t) [])
  end.

Definition _parse_lock_pid (raw_pid : option string) : option Z :=
  raw_pid ≫= int_of_text.

Definition lock_text (pid : Z) (trace_id : string) (trusted_repo : PurePosixPath.t) (lock_identity created_at : string)
    : string :=
  "pid=" +++ pretty pid +++ newline +++ "trace_id=" +++ trace_id +++ newline +++
  "trusted_repo_path=" +++ Recovery.show trusted_repo +++ newline +++
  "lock_identity=" +++ lock_identity +++ newline +++ "created_at_unix=" +++ created_at +++ newline.

(** The process number in a lock file. *)
Definition lock_pid (contents : option lock_contents) : result exn (option Z) :=
  metadata ← _read_guarded_run_lock_metadata contents;
  Ok (_parse_lock_pid (assoc_get metadata "pid")).

(** ** Which back end runs *)

Section Selected.
Context {PH : ProbeHost} {PR : Production.ProductionHost} (set_text : list string -> string).

Lemma environment_unsafe environ unsafe :
  env_get (backend_environment environ unsafe) "RYGNAL_UNSAFE_LOCAL" = Some "1" -> unsafe = true.
Proof.
  unfold backend_environment, env_get. destruct unsafe; [done|]. intros H.
  destruct (List.find _ _) as [[k v]|] eqn:E; [|done]. apply find_some in E as [Hin Hk].
  apply filter_In in Hin as [_ Hn]. cbn in Hk, Hn. by rewrite Hk in Hn.
Qed.

(** In production only a verified Bubblewrap is selected; elsewhere the unsafe
    back end only if it was asked for. *)
Lemma selected_backend environ environment unsafe s :
  _select_backend set_text environ environment unsafe = Ok s ->
  (Production.execution_security_mode environment = Production.PRODUCTION /\ unsafe = false /\
   ExecutionBackendSelection.name s = ExecutionBackendName.LINUX_BUBBLEWRAP /\
   exists v, Production.verify_production_bubblewrap set_text = Ok v /\
     Production.BubblewrapVerification.eligible v = true) \/
  (Production.execution_security_mode environment = Production.DEVELOPMENT /\
   (ExecutionBackendSelection.name s = ExecutionBackendName.UNSAFE_LOCAL -> unsafe = true)).
Proof.
  unfold _select_backend. destruct (Production.execution_security_mode environment).
  - intros Hs. right. split; [done|]. intros Hn.
    destruct (selection_is_probed _ _ Hs) as (_ & H & _). rewrite Hn in H.
    unfold HostBackendCapabilities.unsafe_local_requested in H. cbn [default from_option] in H.
    apply bool_decide_eq_true in H. unfold detect_host_backend_capabilities in H.
    cbn [HostBackendCapabilities.env HostBackendCapabilities.unsafe_local_requested_override] in H.
    apply environment_unsafe in H. by destruct unsafe.
  - intros H. left. apply bind_Ok_inv in H as ([] & Hu%ensure_Ok & H). apply negb_true_iff in Hu.
    apply bind_Ok_inv in H as (v & Hv & H). apply bind_Ok_inv in H as ([] & He%ensure_Ok & [= <-]).
    split_and!; try done. by exists v.
Qed.
End Selected.
End Backend.
