(* ===== verification/GuardedRunner.v ===== *)
(** * guarded_runner.py: a guarded run

    [run_guarded] as one computation: the checks before the run, the choice of
    the back end, the lock, the disposable worktree, the command, the patch and
    its classification, the intent, the finalizer, and the cleanup.  The state is
    the machine, the world of the finalizer (artifacts, trusted repository, log,
    queue) and the local variables of the function, which its [except] and
    [finally] blocks read. *)

From S2P Require Import IntentDecision.
From S2P Require Export IntentPipeline PatchFinalizer ActionIntent SubjectiveRisk GuardedBackend.

Local Open Scope string_scope.
Local Open Scope list_scope.
Local Open Scope py_scope.

Module Runner.
Import Backend.

(** ** Data *)

Module GuardedRunConfig.
Record t := mk {
  trusted_repo_path : PurePosixPath.t;
  command : pyval;
  timeout_seconds : Z;
  rygnal_run_root : PurePosixPath.t;
  allow_dirty_override : bool;
  untracked_policy : UntrackedFilePolicy.t;
  preserve_workspace : bool;
  unsafe_local_requested : bool;
  environment : string;
  user_id : string;
  agent_id : string;
  trace_id : option string;
  intent_contract : option IntentContract.t;
  containment_limits : Production.limits;
}.
End GuardedRunConfig.

Module GuardedRunResult.
Record t := mk {
  status : GuardedRunStatus.t;
  run_id : option string;
  trusted_repo_path : string;
  workspace_path : option string;
  baseline_commit_sha : option string;
  backend_name : option string;
  backend_safe_by_default : bool;
  containment_verified : bool;
  cleanup_performed : bool;
  cleanup_status : option string;
  command_result : option GuardedCommandResult.t;
  changed_file_report : option ChangedFileReport.t;
  patch_diff : option PatchDiff.t;
  change_risk_report : option ChangeRiskReport.t;
  blocked_reason : option string;
  warnings : list string;
  normalized_actions : list NormalizedAction.t;
  intent_match_results : list IntentMatchResult.t;
  intent_fallback_evaluation : option IntentFallbackEvaluation.t;
  intent_decision_receipt : option IntentDecisionReceipt.t;
  intent_review_decision : option IntentReviewDecision.t;
  approval_request : option ApprovalRequest.t;
  containment_features : list (string * bool);
  patch_apply_outcome : option string;
  patch_artifact_id : option string;
  workspace_quarantined : bool;
}.
End GuardedRunResult.

Module GuardedRunConcurrencyState.
Record t := mk {
  lock_path : PurePosixPath.t;
  lock_identity : string;
  blocked_reason : option string;
  active_lock_pid : option Z;
  recovered_stale_lock : bool;
  stale_lock_pid : option Z;
}.
End GuardedRunConcurrencyState.

(** What the run draws: identifiers, times, the environment. *)
Record run_fresh := mk_run_fresh {
  rf_trace : string;
  rf_run : string;
  rf_approval : Fresh.t;
  rf_artifact : string;
  rf_now : Z;
  rf_seconds : double;
  rf_created : string;
  rf_environ : list (string * string);
}.

(** The local variables: those the finalizer reads, the intent, and what the
    result reports of the end. *)
Record progress := mk_progress {
  v_status : GuardedRunStatus.t;
  v_warnings : list string;
  v_blocked_reason : option string;
}.

Record findings := mk_findings {
  v_command_result : option GuardedCommandResult.t;
  v_changed_file_report : option ChangedFileReport.t;
  v_patch_diff : option PatchDiff.t;
  v_change_risk_report : option ChangeRiskReport.t;
}.

Record intent_vars := mk_intent_vars {
  v_match_results : list IntentMatchResult.t;
  v_fallback_evaluation : option IntentFallbackEvaluation.t;
  v_receipt : option IntentDecisionReceipt.t;
  v_review : option IntentReviewDecision.t;
}.

Record ending := mk_ending {
  v_approval_request : option ApprovalRequest.t;
  v_patch_apply_outcome : option string;
  v_patch_artifact_id : option string;
  v_cleanup_result : option Recovery.CleanupResult.t;
  v_cleanup_performed : bool;
  v_cleanup_status : option string;
  v_workspace_quarantined : bool;
}.

Record run_vars := mk_vars {
  v_progress : progress;
  v_findings : findings;
  v_intent : intent_vars;
  v_ending : ending;
  v_actions : list NormalizedAction.t;
}.

Definition initial_vars : run_vars :=
  mk_vars (mk_progress GuardedRunStatus.FAILED [] None) (mk_findings None None None None)
    (mk_intent_vars [] None None None) (mk_ending None None None None false None false) [].

(** A phase of the run: an early return, or what the next phase starts from. *)
Inductive phase (A : Type) := Return (r : GuardedRunResult.t) | Go (a : A).
Arguments Return {A} r.
Arguments Go {A} a.

(** A system call on the lock file. *)
Inductive lock_call := LockDone | LockExists | LockMissing | LockError (text : string).

(** [os.kill(pid, 0)] *)
Inductive kill_outcome := KillDone | ProcessLookup | PermissionDenied | KillError.

(** The lock directory and file, and the processes of the machine. *)
Class LockHost (M : Type) := {
  lock_mkdir : PurePosixPath.t -> M -> M * lock_call;
  lock_open : PurePosixPath.t -> M -> M * lock_call;
  lock_write : PurePosixPath.t -> string -> M -> M * result string ();
  lock_unlink : PurePosixPath.t -> M -> M * lock_call;
  lock_read : M -> PurePosixPath.t -> option lock_contents;
  kill_zero : M -> Z -> kill_outcome;
  own_pid : Z;
}.

(** The views of the machine that the classifiers read, the directory of the
    artifacts, the failures of its disk while an artifact is persisted and while
    it is removed, and what a command did to the trusted repository. *)
Class RunViews (M I R : Type) := {
  worktree_view : M -> GitWorktree I;
  sources_view : M -> RiskSources;
  context_view : M -> Subjective.SubjectiveHost;
  open_root : M -> string -> result exn unit;
  artifact_disk : M -> disk_faults * disk_faults;
  command_touches : CommandBackend -> list string -> M -> R -> R;
}.

Section Run.
Context {M I R L Q : Type} {WH : WorktreeHost M} {SP : ProcessHost M} {LH : LockHost M} {RV : RunViews M I R}
  {PH : ProbeHost} {PR : Production.ProductionHost} {AH : ArtifactHost} {GR : GitRepo R} {AA : ApplyAudit L}
  {QW : ApprovalQueueWriter Q}.
Context (set_text : list string -> string).

Local Notation fin_state := (fin_state (R := R) (L := L) (Q := Q)).

Record run_state := mk_state { machine : M; fin : fin_state; vars : run_vars }.

Local Notation T := run_state.

(** *** Access to the parts *)

Definition on_machine {A} (c : eff M A) : eff T A := fun t =>
  let '(m', r) := c (machine t) in (mk_state m' (fin t) (vars t), r).

Definition on_fin {A} (c : eff fin_state A) : eff T A := fun t =>
  let '(f', r) := c (fin t) in (mk_state (machine t) f' (vars t), r).

Definition modify (f : run_vars -> run_vars) : eff T () := fun t =>
  (mk_state (machine t) (fin t) (f (vars t)), Ok ()).

Definition set_progress (f : progress -> progress) : eff T () :=
  modify (fun v => mk_vars (f (v_progress v)) (v_findings v) (v_intent v) (v_ending v) (v_actions v)).
Definition set_findings (f : findings -> findings) : eff T () :=
  modify (fun v => mk_vars (v_progress v) (f (v_findings v)) (v_intent v) (v_ending v) (v_actions v)).
Definition set_intent (i : intent_vars) : eff T () :=
  modify (fun v => mk_vars (v_progress v) (v_findings v) i (v_ending v) (v_actions v)).
Definition set_ending (f : ending -> ending) : eff T () :=
  modify (fun v => mk_vars (v_progress v) (v_findings v) (v_intent v) (f (v_ending v)) (v_actions v)).
Definition set_actions (l : list NormalizedAction.t) : eff T () :=
  modify (fun v => mk_vars (v_progress v) (v_findings v) (v_intent v) (v_ending v) l).

Definition set_status (s : GuardedRunStatus.t) : eff T () :=
  set_progress (fun p => mk_progress s (v_warnings p) (v_blocked_reason p)).
Definition warn (texts : list string) : eff T () :=
  set_progress (fun p => mk_progress (v_status p) (v_warnings p ++ texts) (v_blocked_reason p)).
Definition set_blocked_reason (reason : string) : eff T () :=
  set_progress (fun p => mk_progress (v_status p) (v_warnings p) (Some reason)).

Definition warnings : eff T (list string) := asks (fun t => v_warnings (v_progress (vars t))).

(** *** The audit log *)

Definition audit_error (text : string) : exn := mk_exn OtherError "AuditError" text.

Definition run_trace (config : GuardedRunConfig.t) (fresh : run_fresh) : string :=
  if truthy_opt (GuardedRunConfig.trace_id config) then default "" (GuardedRunConfig.trace_id config)
  else rf_trace fresh.

Section Configured.
Context (config : GuardedRunConfig.t) (fresh : run_fresh).

Let trace_id : string := run_trace config fresh.

Definition audit_request (event_type : string) : ToolRequest.t :=
  ToolRequest.mk "guarded_runner" (Some event_type)
    (Some (Recovery.show (GuardedRunConfig.trusted_repo_path config)))
    (of_dict [("command", of_dict (_command_audit_summary (GuardedRunConfig.command config)))])
    (GuardedRunConfig.user_id config) (GuardedRunConfig.agent_id config)
    (GuardedRunConfig.environment config) [("trace_id", PStr trace_id)].

Definition _audit (event_type : string) (decision : Models.Decision) (allowed : bool) (severity : Severity)
    (reason : string) (metadata : pydict) : eff T () :=
  on_fin (fun '(s, (w, q)) =>
    let '(w', r) := log_event (audit_request event_type)
      (PolicyDecision.mk decision allowed severity reason (Some "guarded-runner") None)
      ([("event_type", PStr event_type); ("trace_id", PStr trace_id)] ++ metadata) w in
    ((s, (w', q)), map_err audit_error r)).

(** An event that only reports. *)
Definition note (event_type reason : string) (metadata : pydict) : eff T () :=
  _audit event_type ALLOW true SevLow reason metadata.

Definition _audit_normalized_actions (event_type reason : string) (actions : list NormalizedAction.t)
    (metadata : pydict) : eff T () :=
  note event_type reason
    (metadata ++ [("normalized_actions", of_dict (normalized_actions_audit_summary actions))]).

Definition _severity_for_action_intent (s : RiskLevel) : Severity :=
  match s with CRITICAL => SevCritical | HIGH => SevHigh | MEDIUM => SevMedium | LOW => SevLow end.

Definition _audit_command_intent (command : list string) : eff T () :=
  let report := Intent.classify_command_intent command in
  _audit "guarded_run.command_intent_classified" ALLOW true
    (_severity_for_action_intent (Intent.max_severity report))
    "Guarded command intent classified before execution."
    ([("command", of_dict (_command_audit_summary (PTuple (List.map PStr command))))]
     ++ Intent.to_audit_metadata report).

Definition features_value (features : list (string * bool)) : pyval :=
  of_dict (List.map (fun kv => (fst kv, PBool (snd kv))) features).

Definition strings_value (l : list string) : pyval := PTuple (List.map PStr l).

(** *** A blocked run *)

Definition _safe_normalized_command_actions (command : pyval) : result exn (list NormalizedAction.t) :=
  match (if is_str command then None else py_items command) with
  | Some (item :: items) =>
      if forallb is_str (item :: items) then
        match normalize_command_action (strings_of (item :: items)) with
        | Ok a => Ok [a]
        | Raise e => if bool_decide (exn_base e = TypeError \/ exn_base e = ValueError)
                     then Ok [] else Raise e
        end
      else Ok []
  | _ => Ok []
  end.

(** The actions given, or those of the command. *)
Definition actions_or_command (actions : list NormalizedAction.t) : result exn (list NormalizedAction.t) :=
  match actions with
  | [] => _safe_normalized_command_actions (GuardedRunConfig.command config)
  | _ => Ok actions
  end.

(** What is known of the back end when a run is blocked. *)
Record backend_facts := mk_facts {
  bf_name : option string;
  bf_safe : bool;
  bf_verified : bool;
  bf_features : list (string * bool);
}.

Definition no_backend : backend_facts := mk_facts None false false [].

Definition blocked_record (trusted_repo_path reason : string) (warnings : list string)
    (facts : backend_facts) (actions : list NormalizedAction.t) : GuardedRunResult.t :=
  GuardedRunResult.mk GuardedRunStatus.BLOCKED None trusted_repo_path None None (bf_name facts)
    (bf_safe facts) (bf_verified facts) false None None None None None (Some reason) warnings actions
    [] None None None None (bf_features facts) None None false.

Definition _blocked_result (trusted_repo_path reason : string) (facts : backend_facts)
    (actions : list NormalizedAction.t) (event_type : string) : eff T GuardedRunResult.t :=
  actions ← lift (actions_or_command actions);
  ws ← warnings;
  _ ← _audit event_type BLOCK false SevHigh reason
        [("backend_name", of_opt_str (bf_name facts)); ("backend_safe_by_default", PBool (bf_safe facts));
         ("containment_verified", PBool (bf_verified facts));
         ("containment_features", features_value (bf_features facts)); ("blocked_reason", PStr reason);
         ("warnings", strings_value ws);
         ("command", of_dict (_command_audit_summary (GuardedRunConfig.command config)));
         ("normalized_actions", of_dict (normalized_actions_audit_summary actions))];
  mret (blocked_record trusted_repo_path reason ws facts actions).

(** *** Early returns *)

Definition and_then {A} (c : eff T (phase A)) (k : A -> eff T GuardedRunResult.t)
    : eff T GuardedRunResult.t :=
  p ← c; match p with Return r => mret r | Go a => k a end.

(** [except <errors> as exc: return _blocked_result(str(exc))] *)
Definition blocking {A} (errors : exn -> bool) (block : string -> eff T GuardedRunResult.t) (c : eff T A)
    : eff T (phase A) :=
  catch (a ← c; mret (Go a))
    (fun e => if errors e then Some (r ← block (exn_text e); mret (Return r)) else None).

(** ** Before the run *)

Definition _validate_trusted_repo_path (p : PurePosixPath.t) : eff M PurePosixPath.t :=
  let trusted_path := expanduser p in
  there ← asks (fun m => exists_path m trusted_path);
  _ ← require there (Backend.value_error ("Trusted repository path does not exist: " +++ Recovery.show trusted_path));
  dir ← asks (fun m => RecoverySession.is_dir m trusted_path);
  _ ← require dir (Backend.value_error ("Trusted repository path is not a directory: " +++ Recovery.show trusted_path));
  asks (fun m => RecoverySession.resolve m trusted_path).

Definition is_value_error (e : exn) : bool := bool_decide (exn_base e = ValueError).

Definition validate_input : eff T (phase (list string * PurePosixPath.t)) :=
  normalized_actions ← lift (_safe_normalized_command_actions (GuardedRunConfig.command config));
  blocking is_value_error
    (fun reason => _blocked_result (Recovery.show (GuardedRunConfig.trusted_repo_path config)) reason
                     no_backend normalized_actions "guarded_run.blocked")
    (command ← lift (_validate_command (GuardedRunConfig.command config));
     _ ← lift (_validate_timeout (GuardedRunConfig.timeout_seconds config));
     trusted_repo_input ← on_machine (_validate_trusted_repo_path (GuardedRunConfig.trusted_repo_path config));
     mret (command, trusted_repo_input)).

(** The three events before anything is looked at. *)
Definition announce (command : list string) : eff T () :=
  action ← lift (normalize_command_action command);
  _ ← set_actions [action];
  evidence ← lift (_intent_evidence_summary (GuardedRunConfig.intent_contract config));
  _ ← note "guarded_run.requested" "Guarded run requested."
        [("command", of_dict (_command_audit_summary (PTuple (List.map PStr command))));
         ("timeout_seconds", PInt (GuardedRunConfig.timeout_seconds config));
         ("preserve_workspace", PBool (GuardedRunConfig.preserve_workspace config));
         ("unsafe_local_requested", PBool (GuardedRunConfig.unsafe_local_requested config));
         ("execution_security_mode", PStr (Production.security_mode_value
            (Production.execution_security_mode (GuardedRunConfig.environment config))));
         ("intent_evidence", evidence)];
  _ ← _audit_normalized_actions "guarded_run.normalized_command_prepared"
        "Guarded command normalized before execution." [action] [("phase", PStr "pre_execution")];
  _audit_command_intent command.

(** [git status] in the trusted repository; an error of starting Git is an
    [OSError], any other a [RuntimeError]. *)
Definition verify_trusted_repo_state (trusted_repo : PurePosixPath.t) : eff M (list string) := fun m =>
  match git ["status"; "--porcelain"] trusted_repo m with
  | (m', Raise (GitOSError text)) => (m', Raise (Recovery.os_error text))
  | (m', Raise (GitExit stderr stdout)) =>
      (m', _verify_trusted_repo_state
             (fun _ _ => Raise (if truthy (strip stderr) then strip stderr else strip stdout))
             (Recovery.show trusted_repo) (GuardedRunConfig.allow_dirty_override config))
  | (m', Ok output) =>
      (m', _verify_trusted_repo_state (fun _ _ => Ok output) (Recovery.show trusted_repo)
             (GuardedRunConfig.allow_dirty_override config))
  end.

Definition repository_errors (e : exn) : bool :=
  mem (exn_name e) ["RecoverySessionError"; "DirtyRepositoryError"]
  || bool_decide (exn_base e = RuntimeError \/ exn_base e = OSError).

Definition check_repository (trusted_repo_input : PurePosixPath.t) : eff T (phase PurePosixPath.t) :=
  actions ← asks (fun t => v_actions (vars t));
  blocking repository_errors
    (fun reason => _blocked_result (Recovery.show trusted_repo_input) reason no_backend actions
                     "guarded_run.blocked")
    (trusted_repo ← on_machine (Recovery.detect_trusted_repo_root trusted_repo_input);
     ws ← on_machine (verify_trusted_repo_state trusted_repo);
     _ ← warn ws;
     mret trusted_repo).

(** ** The back end *)

Record chosen := mk_chosen {
  ch_backend : CommandBackend;
  ch_name : string;
  ch_safe : bool;
  ch_verified : bool;
  ch_features : list (string * bool);
}.

Definition chosen_facts (c : chosen) : backend_facts :=
  mk_facts (Some (ch_name c)) (ch_safe c) (ch_verified c) (ch_features c).

(** [{**a, **b}] *)
Definition merge_features (a b : list (string * bool)) : list (string * bool) :=
  fold_left (fun d kv => assoc_set d (fst kv) (snd kv)) b a.

(** Whether containment is verified, and the features that are reported. *)
Definition containment_facts (containment : ProcessContainmentCapabilities.t)
    : result exn (bool * list (string * bool)) :=
  let verified := ProcessContainmentResult.containment_verified (build_lifecycle_result containment STARTED) in
  let features := ProcessContainmentCapabilities.isolation_features containment in
  match Production.execution_security_mode (GuardedRunConfig.environment config) with
  | Production.PRODUCTION =>
      verification ← Production.verify_production_bubblewrap set_text;
      Ok (verified && Production.BubblewrapVerification.eligible verification,
          merge_features features (Production.BubblewrapVerification.features verification))
  | Production.DEVELOPMENT =>
      Ok (verified, merge_features features
                      [("production_mode", false); ("resource_limits_enforced", false);
                       ("output_bounded", false); ("behavioral_self_test", false)])
  end.

Definition is_selection_error (e : exn) : bool :=
  String.eqb (exn_name e) "ExecutionBackendSelectionError".

Definition returning {A} (c : eff T GuardedRunResult.t) : eff T (phase A) := r ← c; mret (Return r).

Definition select_backend_body (trusted_repo : PurePosixPath.t) : eff T (phase chosen) :=
  selection ← lift (_select_backend set_text (rf_environ fresh) (GuardedRunConfig.environment config)
                      (GuardedRunConfig.unsafe_local_requested config));
  let name := ExecutionBackendSelection.name selection in
  let containment := evaluate_containment_capabilities name in
  facts ← lift (containment_facts containment);
  let '(verified, features) := facts in
  _ ← warn (option_list (if truthy_opt (ExecutionBackendSelection.warning selection)
                         then ExecutionBackendSelection.warning selection else None));
  _ ← warn (ProcessContainmentCapabilities.limitations containment);
  let unsafe_local := ProcessContainmentCapabilities.unsafe_local containment in
  _ ← warn (if unsafe_local then [UNSAFE_LOCAL_WARNING] else []);
  command_backend ← lift (_command_backend_for set_text name (GuardedRunConfig.environment config)
                            (GuardedRunConfig.containment_limits config));
  let c := mk_chosen command_backend (ExecutionBackendName.value name)
             (ExecutionBackendSelection.safe_by_default selection) verified features in
  let blocked reason event_type :=
    returning (_blocked_result (Recovery.show trusted_repo) reason (chosen_facts c) [] event_type) in
  match command_backend with
  | UnsupportedCommandBackend reason => blocked reason "guarded_run.backend_blocked"
  | _ =>
      if unsafe_local && negb (GuardedRunConfig.unsafe_local_requested config)
      then blocked "Unsafe local execution was not explicitly requested." "guarded_run.blocked"
      else if negb verified && negb unsafe_local
      then blocked "Selected backend does not provide verified containment." "guarded_run.blocked"
      else
        ws ← warnings;
        _ ← note "guarded_run.backend_selected" "Execution backend selected."
              [("backend_name", PStr (ch_name c)); ("backend_safe_by_default", PBool (ch_safe c));
               ("containment_verified", PBool verified); ("containment_features", features_value features);
               ("selection_reason", PStr (ExecutionBackendSelection.reason selection));
               ("warnings", strings_value ws)];
        mret (Go c)
  end.

Definition select_backend (trusted_repo : PurePosixPath.t) : eff T (phase chosen) :=
  catch (select_backend_body trusted_repo)
    (fun e => if is_selection_error e
       then Some (returning (_blocked_result (Recovery.show trusted_repo) (exn_text e) no_backend []
                               "guarded_run.backend_blocked"))
       else None).

(** ** The lock *)

(** [_process_is_alive]: a number that does not fit a C int is an error. *)
Definition _process_is_alive (m : M) (pid : option Z) : result exn bool :=
  match pid with
  | None => Ok false
  | Some p =>
      if (p <=? 0)%Z then Ok false
      else if (2 ^ 31 <=? p)%Z
      then Raise (mk_exn OtherError "OverflowError" "signed integer is greater than maximum")
      else Ok match kill_zero m p with KillDone | PermissionDenied => true | _ => false end
  end.

(** The loop is still running. *)
Definition lock_loop : exn := mk_exn OtherError "Running" "the lock is contended".

Definition lock_unavailable (lock_path : PurePosixPath.t) (what text : string) : string :=
  "guarded_run_concurrency_lock_unavailable: failed to " +++ what +++ " guarded run lock at "
  +++ Recovery.show lock_path +++ ": " +++ text.

Definition lock_error_text (c : lock_call) : string :=
  match c with
  | LockError text => text | LockMissing => "No such file or directory" | LockExists => "File exists"
  | LockDone => ""
  end.

(** Making the directory and creating the file, in one [try]. *)
Definition create_lock (lock_path : PurePosixPath.t) : eff M lock_call :=
  made ← calls (lock_mkdir (PurePosixPath.parent lock_path));
  match made with
  | LockDone => calls (lock_open lock_path)
  | failed => mret failed
  end.

Fixpoint acquire_lock (fuel : nat) (trusted_repo lock_path : PurePosixPath.t) (identity : string)
    (recovered : bool) (stale_lock_pid : option Z) : eff M GuardedRunConcurrencyState.t :=
  match fuel with
  | O => raise lock_loop
  | S fuel =>
      let state reason pid := GuardedRunConcurrencyState.mk lock_path identity (Some reason) pid false None in
      opened ← create_lock lock_path;
      match opened with
      | LockDone =>
          mret (GuardedRunConcurrencyState.mk lock_path identity None None recovered stale_lock_pid)
      | LockExists =>
          active_lock_pid ← (fun m => (m, lock_pid (lock_read m lock_path)));
          alive ← (fun m => (m, _process_is_alive m active_lock_pid));
          if alive : bool then
            mret (state (_GUARDED_RUN_CONCURRENCY_REASON_CODE
                         +++ ": guarded run already active for trusted repository "
                         +++ Recovery.show trusted_repo +++ ".") active_lock_pid)
          else
            removed ← calls (lock_unlink lock_path);
            match removed with
            | LockDone | LockMissing =>
                acquire_lock fuel trusted_repo lock_path identity true active_lock_pid
            | failed => mret (state (lock_unavailable lock_path "remove stale" (lock_error_text failed))
                                active_lock_pid)
            end
      | failed => mret (state (lock_unavailable lock_path "acquire" (lock_error_text failed)) None)
      end
  end.

(** The guard of a run, with its lock path; [body] is the [with] block.  The
    text is written before the [try] of the generator, the file removed in its
    [finally]. *)
Definition release_lock (lock_path : PurePosixPath.t) : eff M () :=
  removed ← calls (lock_unlink lock_path);
  match removed with
  | LockDone | LockMissing => mret ()
  | failed => raise (Recovery.os_error (lock_error_text failed))
  end.

Definition lock_path_of (m : M) (trusted_repo : PurePosixPath.t) : PurePosixPath.t :=
  _guarded_run_concurrency_lock_path (RecoverySession.resolve m (expanduser trusted_repo))
    (RecoverySession.resolve m (expanduser (GuardedRunConfig.rygnal_run_root config))).

Definition _guarded_run_concurrency_guard (fuel : nat) (trusted_repo_path : PurePosixPath.t)
    (body : GuardedRunConcurrencyState.t -> eff T GuardedRunResult.t) : eff T GuardedRunResult.t :=
  lock_path ← on_machine (asks (fun m => lock_path_of m trusted_repo_path));
  trusted_repo ← on_machine (asks (fun m => RecoverySession.resolve m (expanduser trusted_repo_path)));
  let lock_identity := PurePosixPath.stem lock_path in
  state ← on_machine (acquire_lock fuel trusted_repo lock_path lock_identity false None);
  match GuardedRunConcurrencyState.blocked_reason state with
  | Some _ => body state
  | None =>
      _ ← on_machine (Recovery.sys (lock_write lock_path
            (lock_text own_pid trace_id trusted_repo lock_identity (rf_created fresh))));
      finally (body state) (on_machine (release_lock lock_path))
  end.

Definition of_opt_int (o : option Z) : pyval := match o with Some z => PInt z | None => PNone end.

Definition lock_details (state : GuardedRunConcurrencyState.t) (trusted_repo : PurePosixPath.t)
    (key : string) (pid : option Z) : eff T pydict :=
  run_root ← on_machine (asks (fun m => RecoverySession.resolve m (GuardedRunConfig.rygnal_run_root config)));
  mret [("lock_path", PStr (Recovery.show (GuardedRunConcurrencyState.lock_path state)));
        ("lock_identity", PStr (GuardedRunConcurrencyState.lock_identity state)); (key, of_opt_int pid);
        ("trusted_repo_path", PStr (Recovery.show trusted_repo)); ("run_root", PStr (Recovery.show run_root))].

(** ** The command and the patch *)

Section Session.
Context (c : chosen) (command : list string) (worktree : Recovery.RecoverySession.t).

Definition where_ : pydict := _worktree_metadata worktree (Some (ch_name c)) (ch_verified c).

(** The machine runs the command; the trusted repository is what the command
    left of it. *)
Definition touch_repo (f : R -> R) (st : fin_state) : fin_state :=
  let '(s, (w, q)) := st in (s, (mk_world (f (w_repo w)) (w_log w) (w_used w), q)).

Definition execute : eff T GuardedCommandResult.t := fun t =>
  let '(m', r) := run_backend (ch_backend c) command (Recovery.RecoverySession.workspace_path worktree)
                    (GuardedRunConfig.timeout_seconds config) (machine t) in
  (mk_state m' (touch_repo (command_touches (ch_backend c) command (machine t)) (fin t)) (vars t), r).

Record command_event := mk_event {
  ev_status : GuardedRunStatus.t;
  ev_type : string;
  ev_reason : string;
  ev_severity : Severity;
  ev_decision : Models.Decision;
  ev_allowed : bool;
}.

Definition event_of (r : GuardedCommandResult.t) : command_event :=
  if GuardedCommandResult.sandbox_setup_failed r then
    mk_event GuardedRunStatus.BLOCKED "guarded_run.sandbox_setup_failed" "Production sandbox setup failed."
      SevCritical BLOCK false
  else if GuardedCommandResult.timed_out r then
    mk_event GuardedRunStatus.TIMED_OUT "guarded_run.command_timed_out" "Guarded command timed out."
      SevHigh BLOCK false
  else if bool_decide (GuardedCommandResult.exit_code r = Some 0%Z) then
    mk_event GuardedRunStatus.COMPLETED "guarded_run.command_completed"
      "Guarded command completed successfully." SevLow ALLOW true
  else
    mk_event GuardedRunStatus.FAILED "guarded_run.command_failed"
      "Guarded command exited with a non-zero status." SevMedium BLOCK false.

(** The result of the command and the status that follows from it. *)
Definition record_command (r : GuardedCommandResult.t) : eff T () :=
  modify (fun v =>
    mk_vars (mk_progress (ev_status (event_of r)) (v_warnings (v_progress v)) (v_blocked_reason (v_progress v)))
      (mk_findings (Some r) (v_changed_file_report (v_findings v)) (v_patch_diff (v_findings v))
         (v_change_risk_report (v_findings v))) (v_intent v) (v_ending v) (v_actions v)).

Definition run_command : eff T () :=
  _ ← note "guarded_run.workspace_created" "Guarded workspace created." where_;
  _ ← note "guarded_run.command_started" "Guarded command started."
        (where_ ++ [("command", of_dict (_command_audit_summary (PTuple (List.map PStr command))));
                    ("timeout_seconds", PInt (GuardedRunConfig.timeout_seconds config))]);
  command_result ← execute;
  _ ← record_command command_result;
  let e := event_of command_result in
  _audit (ev_type e) (ev_decision e) (ev_allowed e) (ev_severity e) (ev_reason e)
    (where_ ++ _command_metadata command_result).

(** [classify_and_decide_patch] on the machine at this point. *)
Definition classify (d : PatchDiff.t) : eff T Subjective.PatchRiskDecision :=
  on_machine (fun m =>
    (m, Subjective.classify_and_decide_patch (SH := context_view m) (RS := sources_view m)
          (rf_seconds fresh) d)).

Definition classify_patch (report : ChangedFileReport.t) : eff T () :=
  d ← on_machine (fun m => (m, generate_patch_diff_from_report (H := worktree_view m) report));
  _ ← set_findings (fun f => mk_findings (v_command_result f) (v_changed_file_report f) (Some d)
                               (v_change_risk_report f));
  decision ← classify d;
  _ ← set_findings (fun f => mk_findings (v_command_result f) (v_changed_file_report f) (v_patch_diff f)
                               (Some (Subjective.report decision)));
  _audit "guarded_run.patch_classified" (if Subjective.allowed decision then ALLOW else BLOCK)
    (Subjective.allowed decision) (_severity_for_risk (Subjective.risk_level decision))
    (Subjective.reason decision)
    (where_ ++ [("patch_risk", of_dict (Subjective.audit_summary decision))]).

Definition detect_changes : eff T () :=
  report ← on_machine (fun m =>
    (m, detect_changed_files (H := worktree_view m)
          (Recovery.show (Recovery.RecoverySession.workspace_path worktree))
          (Recovery.RecoverySession.baseline_commit_sha worktree) None None));
  _ ← set_findings (fun f => mk_findings (v_command_result f) (Some report) (v_patch_diff f)
                               (v_change_risk_report f));
  _ ← note "guarded_run.changed_files_detected" "Guarded workspace changed files detected."
        (where_ ++ [("changed_file_count", count_of (ChangedFileReport.files report));
                    ("ignored_file_count", count_of (ChangedFileReport.ignored_files report));
                    ("changed_paths", strings_value (List.map ChangedFile.path (ChangedFileReport.files report)));
                    ("ignored_paths", strings_value
                       (List.map IgnoredChangedFile.path (ChangedFileReport.ignored_files report)))]);
  _ ← match ChangedFileReport.files report with [] => mret () | _ => classify_patch report end;
  patch_diff ← asks (fun t => v_patch_diff (v_findings (vars t)));
  note "guarded_run.patch_generated" "Guarded workspace patch metadata generated."
    (where_ ++ [("patch_generated", PBool (match patch_diff with Some _ => true | None => false end));
                ("patch", match patch_diff with
                          | Some d => of_dict (PatchDiff.audit_summary d) | None => PNone end)]).

(** *** The handlers of the body *)

Definition is_command_error (e : exn) : bool :=
  mem (exn_name e) ["RecoverySessionError"; "GuardedCommandExecutionError"].

Definition is_patch_error (e : exn) : bool :=
  mem (exn_name e) ["ChangedFileDetectionError"; "ChangedFilePathError"; "PatchDiffGenerationError";
                    "ChangeRiskClassificationError"].

(** The status, the reason and the warning of a step that failed closed. *)
Definition fail_closed (reason : string) : eff T () :=
  _ ← set_blocked_reason reason;
  _ ← set_status GuardedRunStatus.FAILED;
  warn [reason].

Definition body_failed (event_type reason : string) : eff T () :=
  _ ← fail_closed reason;
  _audit event_type BLOCK false SevHigh reason
    [("backend_name", PStr (ch_name c)); ("containment_verified", PBool (ch_verified c));
     ("workspace_path", PStr (Recovery.show (Recovery.RecoverySession.workspace_path worktree)));
     ("baseline_commit_sha", PStr (Recovery.RecoverySession.baseline_commit_sha worktree))].

Definition run_body : eff T () :=
  catch (_ ← run_command; detect_changes)
    (fun e => if is_command_error e then Some (body_failed "guarded_run.command_failed" (exn_text e))
              else if is_patch_error e then Some (body_failed "guarded_run.patch_generated" (exn_text e))
              else None).

(** ** After the command *)

Definition opt_some {A} (o : option A) : pyval := PBool (match o with Some _ => true | None => false end).

Definition record_actions : eff T () :=
  f ← asks (fun t => v_findings (vars t));
  actions ← lift (normalize_guarded_actions command (v_changed_file_report f) (v_patch_diff f));
  _ ← set_actions actions;
  status ← asks (fun t => v_status (v_progress (vars t)));
  _audit_normalized_actions "guarded_run.normalized_actions_recorded"
    "Guarded run normalized action telemetry recorded." actions
    (where_ ++ [("run_status", PStr (GuardedRunStatus.value status));
                ("changed_files_detected", opt_some (v_changed_file_report f));
                ("patch_generated", opt_some (v_patch_diff f))]).

(** *** The intent *)

Definition _audit_intent_evaluation (contract : IntentContract.t) (results : list IntentMatchResult.t)
    (evaluation : IntentFallbackEvaluation.t) (receipt : IntentDecisionReceipt.t)
    (review : IntentReviewDecision.t) : eff T () :=
  contract_summary ← lift (_intent_contract_audit_summary (Some contract));
  let '(decision, allowed, severity) := _intent_audit_decision evaluation in
  _audit "guarded_run.intent_evaluated" decision allowed severity (_intent_policy_reason evaluation)
    (where_ ++ [("intent_contract", contract_summary);
                ("intent_receipt", of_dict (IntentDecisionReceipt.audit_summary receipt));
                ("intent_matches", of_dict (intent_match_results_audit_summary results));
                ("intent_fallback", IntentFallbackEvaluation.audit_summary evaluation);
                ("intent_review", of_dict (IntentReviewDecision.audit_summary review))]).

(** The body of the [try]: each variable is assigned as soon as it is known. *)
Definition evaluate_intent (contract : IntentContract.t) : eff T () :=
  actions ← asks (fun t => v_actions (vars t));
  report ← asks (fun t => v_change_risk_report (v_findings (vars t)));
  evaluated ← lift (_evaluate_intent_contract (Some contract) actions);
  let '(results, evaluation) := evaluated in
  _ ← set_intent (mk_intent_vars results (Some evaluation) None None);
  receipt ← lift (build_intent_decision_receipt contract results evaluation trace_id actions);
  _ ← set_intent (mk_intent_vars results (Some evaluation) (Some receipt) None);
  review ← lift (build_intent_review_decision contract results evaluation actions
                   (Some (_intent_true_risk_level report evaluation)));
  _ ← set_intent (mk_intent_vars results (Some evaluation) (Some receipt) (Some review));
  _audit_intent_evaluation contract results evaluation receipt review.

Definition intent_step : eff T () :=
  match GuardedRunConfig.intent_contract config with
  | None => mret ()
  | Some contract =>
      catch (evaluate_intent contract)
        (fun e =>
          let reason := "Intent evaluation failed closed before trusted mutation: " +++ exn_text e in
          Some (_ ← fail_closed reason;
                _audit "guarded_run.intent_evaluation_failed" BLOCK false SevHigh reason
                  (where_ ++ [("exception_type", PStr (exn_name e))])))
  end.

(** *** The finalizer *)

Context (trusted_repo : PurePosixPath.t).

Definition finalization_request (v : run_vars) : GuardedPatchFinalizationRequest.t :=
  let r := v_command_result (v_findings v) in
  GuardedPatchFinalizationRequest.mk (GuardedRunStatus.value (v_status (v_progress v)))
    (Recovery.RecoverySession.run_id worktree) trace_id (Recovery.show trusted_repo)
    (Recovery.show (GuardedRunConfig.rygnal_run_root config)) (GuardedRunConfig.user_id config)
    (GuardedRunConfig.agent_id config) (GuardedRunConfig.environment config)
    (r ≫= GuardedCommandResult.exit_code)
    (match r with Some r => GuardedCommandResult.timed_out r | None => false end)
    (v_patch_diff (v_findings v)) (v_change_risk_report (v_findings v))
    (v_fallback_evaluation (v_intent v)) (v_receipt (v_intent v)).

(** The text of a path, resolved on the machine. *)
Definition finalize : eff T GuardedPatchFinalizationResult.t := fun t =>
  let m := machine t in
  let '(f', r) := finalize_guarded_patch (RS := sources_view m)
    (fun p => RecoverySession.resolve m p) (open_root m) (fst (artifact_disk m)) (snd (artifact_disk m))
    (rf_approval fresh) (rf_artifact fresh) (rf_now fresh) (finalization_request (vars t)) (fin t) in
  (mk_state m f' (vars t), r).

(** [GuardedRunStatus(finalization.status.value)] *)
Definition run_status_of (s : GuardedPatchFinalStatus.t) : GuardedRunStatus.t :=
  match s with
  | GuardedPatchFinalStatus.COMPLETED => GuardedRunStatus.COMPLETED
  | GuardedPatchFinalStatus.FAILED => GuardedRunStatus.FAILED
  | GuardedPatchFinalStatus.TIMED_OUT => GuardedRunStatus.TIMED_OUT
  | GuardedPatchFinalStatus.BLOCKED => GuardedRunStatus.BLOCKED
  | GuardedPatchFinalStatus.APPROVAL_REQUIRED => GuardedRunStatus.APPROVAL_REQUIRED
  end.

Definition set_outcome (outcome : string) : eff T () :=
  set_ending (fun e => mk_ending (v_approval_request e) (Some outcome) (v_patch_artifact_id e)
    (v_cleanup_result e) (v_cleanup_performed e) (v_cleanup_status e) (v_workspace_quarantined e)).

Definition record_finalization (r : GuardedPatchFinalizationResult.t) : eff T () :=
  let status := run_status_of (GuardedPatchFinalizationResult.status r) in
  _ ← set_status status;
  _ ← set_ending (fun e => mk_ending (GuardedPatchFinalizationResult.approval_request r)
        (Some (GuardedPatchApplyOutcome.value (GuardedPatchFinalizationResult.apply_outcome r)))
        (GuardedPatchFinalizationResult.artifact_id r)
        (v_cleanup_result e) (v_cleanup_performed e) (v_cleanup_status e) (v_workspace_quarantined e));
  match GuardedPatchFinalizationResult.blocked_reason r with
  | Some reason =>
      if truthy reason then
        _ ← set_blocked_reason reason;
        ws ← warnings;
        whenever (negb (bool_decide (status = GuardedRunStatus.COMPLETED)) && negb (mem reason ws))
          (warn [reason])
      else mret ()
  | None => mret ()
  end.

(** The event, the decision, whether it is allowed, and the severity. *)
Definition final_event (r : GuardedPatchFinalizationResult.t) : string * Models.Decision * bool * Severity :=
  let outcome_is o := bool_decide (GuardedPatchFinalizationResult.apply_outcome r = o) in
  let status_is s := bool_decide (GuardedPatchFinalizationResult.status r = s) in
  if outcome_is GuardedPatchApplyOutcome.PENDING_APPROVAL then
    ("guarded_run.patch_approval_required", REQUIRE_APPROVAL, false, SevHigh)
  else if status_is GuardedPatchFinalStatus.BLOCKED then
    ("guarded_run.patch_blocked", BLOCK, false, SevCritical)
  else if outcome_is GuardedPatchApplyOutcome.APPLIED then
    ("guarded_run.patch_applied", ALLOW, true, SevLow)
  else if outcome_is GuardedPatchApplyOutcome.APPLY_FAILED then
    ("guarded_run.patch_apply_failed", BLOCK, false, SevHigh)
  else if status_is GuardedPatchFinalStatus.COMPLETED then
    ("guarded_run.patch_finalized", ALLOW, true, SevLow)
  else ("guarded_run.patch_finalized", BLOCK, false, SevMedium).

Definition audit_finalization (r : GuardedPatchFinalizationResult.t) : eff T () :=
  let '(event_type, decision, allowed, severity) := final_event r in
  let reason := GuardedPatchFinalizationResult.blocked_reason r in
  _audit event_type decision allowed severity
    (if truthy_opt reason then default "" reason else "Guarded patch finalization completed.")
    (where_ ++ [("finalization", of_dict (GuardedPatchFinalizationResult.audit_summary r))]).

Definition finalize_step : eff T () :=
  catch (r ← finalize; _ ← record_finalization r; audit_finalization r)
    (fun e =>
      let reason := "Authoritative patch finalization failed closed: " +++ exn_text e in
      Some (_ ← fail_closed reason;
            _ ← set_outcome (GuardedPatchApplyOutcome.value GuardedPatchApplyOutcome.APPLY_FAILED);
            _audit "guarded_run.patch_apply_failed" BLOCK false SevHigh reason
              (where_ ++ [("exception_type", PStr (exn_name e))]))).

(** ** The cleanup *)

Definition worktree_config : Recovery.RecoverySessionConfig.t :=
  Recovery.RecoverySessionConfig.mk trusted_repo (GuardedRunConfig.untracked_policy config)
    (Some (GuardedRunConfig.rygnal_run_root config)).

Definition set_cleanup (result : option Recovery.CleanupResult.t) (performed : bool) (status : option string)
    (quarantined : bool) : eff T () :=
  set_ending (fun e => mk_ending (v_approval_request e) (v_patch_apply_outcome e) (v_patch_artifact_id e)
    result performed status quarantined).

Definition cleanup_failed (r : Recovery.CleanupResult.t) : bool :=
  bool_decide (Recovery.CleanupResult.status r = Recovery.CleanupStatus.CLEANUP_FAILED)
  || Recovery.CleanupResult.quarantined r.

Definition preserve_workspace : eff T () :=
  _ ← warn ["Disposable guarded workspace was preserved by explicit configuration."];
  _ ← set_cleanup None false (Some "preserved") false;
  note "guarded_run.cleanup_completed" "Disposable guarded workspace preserved by explicit configuration."
    (where_ ++ [("cleanup_performed", PBool false); ("cleanup_status", PStr "preserved");
                ("workspace_quarantined", PBool false)]).

Definition remove_workspace : eff T () :=
  _ ← set_cleanup None true None false;
  _ ← note "guarded_run.cleanup_started" "Guarded workspace cleanup started." where_;
  result ← on_machine (Recovery.destroy_recovery_session worktree worktree_config);
  let status := Recovery.CleanupStatus.value (Recovery.CleanupResult.status result) in
  let message := Recovery.CleanupResult.message result in
  let details := where_ ++ [("cleanup_status", PStr status); ("cleanup_message", PStr message)] in
  _ ← set_cleanup (Some result) true (Some status) (Recovery.CleanupResult.quarantined result);
  if cleanup_failed result then
    _ ← set_status GuardedRunStatus.CLEANUP_FAILED;
    _ ← warn [message];
    _audit "guarded_run.cleanup_failed" BLOCK false SevHigh message details
  else note "guarded_run.cleanup_completed" message details.

Definition cleanup_step : eff T () :=
  if GuardedRunConfig.preserve_workspace config then preserve_workspace else remove_workspace.

(** The [finally] block of the run. *)
Definition finish : eff T () :=
  _ ← record_actions;
  _ ← intent_step;
  _ ← finalize_step;
  cleanup_step.

(** ** The result *)

Definition returned_workspace_path (cleanup : option Recovery.CleanupResult.t) : string :=
  let workspace := Recovery.show (Recovery.RecoverySession.workspace_path worktree) in
  match cleanup with
  | Some r => if Recovery.CleanupResult.quarantined r && truthy_opt (Recovery.CleanupResult.quarantine_path r)
              then default workspace (Recovery.CleanupResult.quarantine_path r) else workspace
  | None => workspace
  end.

Definition result_of (v : run_vars) (actions : list NormalizedAction.t) : GuardedRunResult.t :=
  let p := v_progress v in let f := v_findings v in let i := v_intent v in let e := v_ending v in
  GuardedRunResult.mk (v_status p) (Some (Recovery.RecoverySession.run_id worktree))
    (Recovery.show trusted_repo) (Some (returned_workspace_path (v_cleanup_result e)))
    (Some (Recovery.RecoverySession.baseline_commit_sha worktree)) (Some (ch_name c)) (ch_safe c)
    (ch_verified c) (v_cleanup_performed e) (v_cleanup_status e) (v_command_result f)
    (v_changed_file_report f) (v_patch_diff f) (v_change_risk_report f) (v_blocked_reason p) (v_warnings p)
    actions (v_match_results i) (v_fallback_evaluation i) (v_receipt i) (v_review i)
    (v_approval_request e) (ch_features c) (v_patch_apply_outcome e) (v_patch_artifact_id e)
    (v_workspace_quarantined e).

Definition run_result : eff T GuardedRunResult.t :=
  v ← asks vars;
  actions ← lift (actions_or_command (v_actions v));
  mret (result_of v actions).

(** A run in its worktree. *)
Definition run_session : eff T GuardedRunResult.t :=
  _ ← finally run_body finish;
  run_result.
End Session.

(** ** The run *)

Definition create_session (c : chosen) (trusted_repo : PurePosixPath.t)
    : eff T (phase Recovery.RecoverySession.t) :=
  blocking Recovery.is_session_error
    (fun reason => _blocked_result (Recovery.show trusted_repo) reason
       (mk_facts (Some (ch_name c)) (ch_safe c) (ch_verified c) []) [] "guarded_run.blocked")
    (on_machine (Recovery.create_recovery_session (rf_run fresh) (worktree_config trusted_repo))).

(** The [with] block. *)
Definition locked_run (c : chosen) (command : list string) (trusted_repo : PurePosixPath.t)
    (state : GuardedRunConcurrencyState.t) : eff T GuardedRunResult.t :=
  _ ← whenever (GuardedRunConcurrencyState.recovered_stale_lock state)
        (details ← lock_details state trusted_repo "stale_lock_pid"
                     (GuardedRunConcurrencyState.stale_lock_pid state);
         _audit "guarded_run.stale_lock_recovered" ALLOW true SevMedium
           "Recovered stale guarded run concurrency lock." details);
  match GuardedRunConcurrencyState.blocked_reason state with
  | Some reason =>
      details ← lock_details state trusted_repo "active_lock_pid"
                  (GuardedRunConcurrencyState.active_lock_pid state);
      _ ← _audit "guarded_run.concurrency_blocked" BLOCK false SevHigh reason details;
      _blocked_result (Recovery.show trusted_repo) reason (chosen_facts c) [] "guarded_run.blocked"
  | None => and_then (create_session c trusted_repo) (fun worktree => run_session c command worktree trusted_repo)
  end.

(** [fuel] bounds the attempts at the lock; the local variables start anew. *)
Definition run_guarded (fuel : nat) : eff T GuardedRunResult.t :=
  _ ← modify (fun _ => initial_vars);
  and_then validate_input (fun input =>
    let '(command, trusted_repo_input) := input in
    _ ← announce command;
    and_then (check_repository trusted_repo_input) (fun trusted_repo =>
      and_then (select_backend trusted_repo) (fun c =>
        _guarded_run_concurrency_guard fuel trusted_repo (locked_run c command trusted_repo)))).
End Configured.
End Run.
End Runner.
