(* ===== verification/RunSafety.v ===== *)
(** * What a guarded run promises

    The theorems about [GuardedRunner]: what a run does to the trusted
    repository, which commands it executes, its lock, and its cleanup.  They
    follow the code with the triples of [Effects]. *)

From S2P Require Export GuardedRunner.

Local Open Scope string_scope.
Local Open Scope list_scope.
Local Open Scope py_scope.

Module RunSafety.
Import Backend Runner.

Section Facts.
Context {M I R L Q : Type} {WH : WorktreeHost M} {SP : ProcessHost M} {LH : LockHost M} {RV : RunViews M I R}
  {PH : ProbeHost} {PR : Production.ProductionHost} {AH : ArtifactHost} {GR : GitRepo R} {AA : ApplyAudit L}
  {QW : ApprovalQueueWriter Q}.
Context (set_text : list string -> string) (config : GuardedRunConfig.t) (fresh : run_fresh).

Local Notation T := (run_state (M := M) (R := R) (L := L) (Q := Q)).

(** ** Definitions *)

Definition repo_of (t : T) : R := w_repo (fst (snd (fin t))).

(** Another text of the log. *)
Definition relog (l : option L) (t : T) : T :=
  let '(s, (w, q)) := fin t in
  mk_state (machine t) (s, (mk_world (w_repo w) l (w_used w), q)) (vars t).

(** Other warnings and actions. *)
Definition revars (ws : list string) (actions : list NormalizedAction.t) (t : T) : T :=
  let v := vars t in let p := v_progress v in
  mk_state (machine t) (fin t)
    (mk_vars (mk_progress (v_status p) ws (v_blocked_reason p)) (v_findings v) (v_intent v) (v_ending v) actions).

(** What the steps before and around a session leave alone. *)
Record stable (P : T -> Prop) : Prop := mk_stable {
  stable_log : forall t l, P t -> P (relog l t);
  stable_machine : forall t m, P t -> P (mk_state m (fin t) (vars t));
  stable_vars : forall t ws actions, P t -> P (revars ws actions t);
}.

(** The command ran to its end and succeeded. *)
Definition passed (r : GuardedCommandResult.t) : Prop :=
  GuardedCommandResult.sandbox_setup_failed r = false /\ GuardedCommandResult.timed_out r = false /\
  GuardedCommandResult.exit_code r = Some 0%Z.

(** The back end of a run: a verified sandbox, or the unsafe one on request
    outside production. *)
Definition admitted (c : chosen) : Prop :=
  (exists verification limits, ch_backend c = BubblewrapCommandBackend verification limits /\
     ch_name c = "linux_bubblewrap" /\ ch_verified c = true /\
     (Production.execution_security_mode (GuardedRunConfig.environment config) = Production.PRODUCTION ->
      exists v, Production.verify_production_bubblewrap set_text = Ok v /\
        Production.BubblewrapVerification.eligible v = true /\ verification = Some v)) \/
  (ch_backend c = UnsafeLocalCommandBackend /\ ch_name c = "unsafe_local" /\
   GuardedRunConfig.unsafe_local_requested config = true /\
   Production.execution_security_mode (GuardedRunConfig.environment config) = Production.DEVELOPMENT).

(** A patch that a run may apply to the repository [r0], with the result [r1]. *)
Record justified (c : chosen) (command : list string) (worktree : Recovery.RecoverySession.t) (r0 r1 : R)
    (d : PatchDiff.t) : Prop := mk_justified {
  ju_command : exists m m' result,
    run_backend (ch_backend c) command (Recovery.RecoverySession.workspace_path worktree)
      (GuardedRunConfig.timeout_seconds config) m = (m', Ok result) /\ passed result;
  ju_risk : exists m decision,
    Subjective.classify_and_decide_patch (SH := context_view m) (RS := sources_view m)
      (rf_seconds fresh) d = Ok decision /\
    let report := Subjective.report decision in
    ChangeRiskReport.overall_risk_level report <> CRITICAL /\
    GuardedChangeGateDecision.blocked (gate_of_report report) = false /\
    PatchApprovalRequirement.required (requirement_of d report (gate_of_report report)) = false;
  ju_intent : forall contract, GuardedRunConfig.intent_contract config = Some contract ->
    exists files actions results,
      normalize_guarded_actions command files (Some d) = Ok actions /\
      match_actions_to_contract actions contract = Ok results /\
      let evaluation := evaluate_intent_fallback results contract in
      IntentFallbackEvaluation.should_block evaluation = false /\
      IntentFallbackEvaluation.requires_approval evaluation = false;
  ju_apply : git_apply r0 (PatchDiff.patch d) = Ok r1 /\ verified r1 d /\
    sha256_hex (PatchDiff.patch d) = PatchDiff.patch_sha256 d /\
    (exists out, status_porcelain r0 = Ok out /\ truthy (strip out) = false) /\
    (exists out, rev_parse_head r0 = Ok out /\ strip out = PatchDiff.baseline_commit_sha d);
}.

(** ** Steps that leave a stable predicate alone *)

Lemma on_machine_keeps {A} (P : T -> Prop) (c : eff M A) :
  (forall t m, P t -> P (mk_state m (fin t) (vars t))) -> keeps P (on_machine c).
Proof. intros H t Ht. unfold on_machine. destruct (c (machine t)) as [m' r]. by apply H. Qed.

Lemma audit_run event decision allowed severity reason metadata (t : T) :
  exists l, fst (_audit config fresh event decision allowed severity reason metadata t) = relog l t.
Proof.
  unfold _audit, on_fin, relog. destruct t as [m [s [w q]] v]. cbn [fin machine vars].
  unfold log_event. destruct w as [r [l|] u]; cbn [w_log w_repo w_used]; [|by exists None].
  destruct (write_audit l _ _ _) as [l' o]. by exists (Some l').
Qed.

Lemma audit_keeps (P : T -> Prop) event decision allowed severity reason metadata :
  (forall t l, P t -> P (relog l t)) ->
  keeps P (_audit config fresh event decision allowed severity reason metadata).
Proof.
  intros H t Ht. destruct (audit_run event decision allowed severity reason metadata t) as [l ->]. by apply H.
Qed.

Section Stable.
Context (P : T -> Prop) (HP : stable P).

Lemma stable_audit event decision allowed severity reason metadata :
  keeps P (_audit config fresh event decision allowed severity reason metadata).
Proof. apply audit_keeps, HP. Qed.

Lemma stable_note event reason metadata : keeps P (note config fresh event reason metadata).
Proof. apply stable_audit. Qed.

Lemma stable_on_machine {A} (c : eff M A) : keeps P (on_machine c).
Proof. apply on_machine_keeps, HP. Qed.

Lemma stable_warn texts : keeps P (warn texts).
Proof.
  intros [m f [[s ws r] fi i e a]] Ht. exact (stable_vars P HP _ (ws ++ texts) a Ht).
Qed.

Lemma stable_set_actions actions : keeps P (set_actions actions).
Proof.
  intros [m f [[s ws r] fi i e a]] Ht. exact (stable_vars P HP _ ws actions Ht).
Qed.

Lemma stable_warnings : keeps P warnings.
Proof. apply asks_keeps. Qed.

Hint Resolve stable_audit stable_note stable_on_machine stable_warn stable_set_actions stable_warnings : eff.

Lemma stable_blocked label reason facts actions event :
  keeps P (_blocked_result config fresh label reason facts actions event).
Proof. unfold _blocked_result. keeps. Qed.
Hint Resolve stable_blocked : eff.

Lemma stable_blocking {A} errors block (c : eff T A) :
  keeps P c -> (forall text, keeps P (block text)) -> keeps P (blocking errors block c).
Proof.
  intros Hc Hb. apply catch_keeps; [keeps|]. intros e k.
  destruct (errors e); [|done]. intros [= <-]. keeps.
Qed.

Lemma stable_validate_input : keeps P (validate_input config fresh).
Proof. unfold validate_input. keeps. apply stable_blocking; [keeps|intros; keeps]. Qed.

Lemma stable_announce command : keeps P (announce config fresh command).
Proof. unfold announce, _audit_normalized_actions, _audit_command_intent. keeps. Qed.

Lemma stable_check_repository path : keeps P (check_repository config fresh path).
Proof. unfold check_repository. keeps. apply stable_blocking; [keeps|intros; keeps]. Qed.

Lemma stable_select_backend path : keeps P (select_backend set_text config fresh path).
Proof.
  unfold select_backend. apply catch_keeps.
  - unfold select_backend_body, returning. keeps.
  - intros e k. destruct (is_selection_error e); [|done]. intros [= <-]. unfold returning. keeps.
Qed.

Lemma stable_create_session c path : keeps P (create_session config fresh c path).
Proof. unfold create_session. apply stable_blocking; [keeps|intros; keeps]. Qed.

Lemma stable_lock_details state path key pid : keeps P (lock_details config state path key pid).
Proof. unfold lock_details. keeps. Qed.
End Stable.

(** ** The finalizer and the repository *)

Lemma persisting_keeps_world `{RS : RiskSources} open pd dd fresh' id now request d report gate requirement fr fp sa
    (st st' : fin_state (R := R) (L := L) (Q := Q)) r :
  _persist_pending_approval open pd dd fresh' id now request d report gate requirement fr fp sa st = (st', r) ->
  fst (snd st') = fst (snd st).
Proof.
  unfold _persist_pending_approval. cbv zeta.
  destruct (mbind _ _) as [request0|e]; [|by intros [= <- _]].
  destruct (persist _ _ _ _ _ _ _ _ _ _ _ st) as [[s1 wq] a] eqn:Ep.
  destruct st as [s0 wq0]. apply persist_frame in Ep as [-> _].
  destruct a as [a|e]; [|by intros [= <- _]].
  unfold submit_approval. destruct wq0 as [w [q|]]; cbn [fst snd].
  - destruct (queue_submit q _) as [q' [x|e]]; cbn [mbind result_bind]; [by intros [= <- _]|].
    match goal with |- context [delete_artifact ?f ?a ?b] =>
      destruct (delete_artifact f a b) as [[s2 w2] rr] eqn:Ed end.
    apply delete_inv in Ed as [-> _]. destruct rr; by intros [= <- _].
  - by intros [= <- _].
Qed.

(** Finalizing changes the repository by applying a cleared patch, or not at
    all. *)
Lemma finalized_repo `{RS : RiskSources} resolve open pd dd fresh' id now request (st st' : fin_state) r :
  reverse_restores ->
  finalize_guarded_patch resolve open pd dd fresh' id now request st = (st', r) ->
  w_repo (fst (snd st')) = w_repo (fst (snd st)) \/
  exists d report, cleared request d report /\
    let r0 := w_repo (fst (snd st)) in let r1 := w_repo (fst (snd st')) in
    git_apply r0 (PatchDiff.patch d) = Ok r1 /\ verified r1 d /\
    sha256_hex (PatchDiff.patch d) = PatchDiff.patch_sha256 d /\
    (exists out, status_porcelain r0 = Ok out /\ truthy (strip out) = false) /\
    (exists out, rev_parse_head r0 = Ok out /\ strip out = PatchDiff.baseline_commit_sha d).
Proof.
  intros Hrev Hx. destruct st as [s [w q]].
  apply finalize_steps in Hx as [[-> _]|(d & report & Hpr & Hx)]; [by left|].
  apply decided_steps in Hx as [[-> _]|[(_ & _ & fr & fp & sa & _ & Hx)|(Hc & w1 & res & r' & Ha & -> & _)]];
    [by left| | |done].
  { left. by apply persisting_keeps_world in Hx as ->. }
  cbn [fst snd]. unfold auto_apply_of in Ha.
  apply auto_apply_steps in Ha as [[Hw1 _]|(report' & [_ Hr' _ Hcl Hh Hd] & Hcase)]; [by left|].
  cbn zeta in Hcase. destruct Hcase as [(_ & -> & _)|[_ Hrun]]; [by left|].
  apply keeps_step in Hrun as [[Hw1 _]|(w2 & u1 & [-> _]%a_lift_Ok & Hrun)]; [by left| |apply keeps_lift].
  unfold a_bind, git_step in Hrun.
  destruct (git_apply (w_repo w) (PatchDiff.patch d)) as [repo|e] eqn:Ea; [|left; by injection Hrun as <- _].
  apply verify_and_log_steps in Hrun as [(sa & _ & _ & Hv & Hw1)|(f & w3 & Hw1 & Hrb)];
    cbn [w_repo set_repo] in *.
  - right. exists d, report. split; [done|]. cbn zeta. rewrite Hw1. by split_and!.
  - left. destruct (rollback_restores d f w3 w1 (w_repo w) res Hrev) as [Hr1 _]; try done. by rewrite Hw1.
Qed.

(** ** A session *)

Section Session.
Context (c : chosen) (command : list string) (worktree : Recovery.RecoverySession.t)
  (trusted_repo : PurePosixPath.t) (r0 : R).
Context (Hrev : reverse_restores) (Htouch : forall cmd m r, command_touches (ch_backend c) cmd m r = r).

Definition fresh_vars (v : run_vars) : Prop :=
  v_status (v_progress v) = GuardedRunStatus.FAILED /\ v_findings v = mk_findings None None None None /\
  v_fallback_evaluation (v_intent v) = None.

Definition start (t : T) : Prop := repo_of t = r0 /\ fresh_vars (vars t).

(** Either the run has failed in some way, or its command passed. *)
Definition command_evidence (v : run_vars) : Prop :=
  v_status (v_progress v) ∈ [GuardedRunStatus.FAILED; GuardedRunStatus.BLOCKED; GuardedRunStatus.TIMED_OUT] \/
  v_status (v_progress v) = GuardedRunStatus.COMPLETED /\
  exists m m' result, v_command_result (v_findings v) = Some result /\
    run_backend (ch_backend c) command (Recovery.RecoverySession.workspace_path worktree)
      (GuardedRunConfig.timeout_seconds config) m = (m', Ok result) /\ passed result.

(** A report is the classification of the patch. *)
Definition patch_evidence (v : run_vars) : Prop :=
  forall report, v_change_risk_report (v_findings v) = Some report ->
  exists d m decision, v_patch_diff (v_findings v) = Some d /\
    Subjective.classify_and_decide_patch (SH := context_view m) (RS := sources_view m)
      (rf_seconds fresh) d = Ok decision /\ Subjective.report decision = report.

Definition gathered (t : T) : Prop :=
  repo_of t = r0 /\ command_evidence (vars t) /\ patch_evidence (vars t) /\
  v_fallback_evaluation (v_intent (vars t)) = None.

Definition unclassified (t : T) : Prop :=
  gathered t /\ v_change_risk_report (v_findings (vars t)) = None.

Lemma start_stable : stable start.
Proof.
  constructor; [|done|done]. intros [m [s [w q]] v] l H. exact H.
Qed.

Lemma gathered_stable : stable gathered.
Proof. constructor; [|done|done]. intros [m [s [w q]] v] l H. exact H. Qed.

Lemma unclassified_stable : stable unclassified.
Proof. constructor; [|done|done]. intros [m [s [w q]] v] l H. exact H. Qed.

Lemma start_unclassified t : start t -> unclassified t.
Proof.
  intros (Hr & Hs & Hf & Hi). unfold unclassified, gathered, command_evidence, patch_evidence. rewrite Hs, Hf.
  split_and!; try done. left. apply list_elem_of_here.
Qed.

Lemma start_gathered t : start t -> gathered t.
Proof. intros H. apply start_unclassified in H. apply H. Qed.

(** The command leaves the repository, and its result is its evidence. *)
Lemma execute_triple : triple start (execute config c command worktree)
  (fun result t => start t /\ exists m m',
     run_backend (ch_backend c) command (Recovery.RecoverySession.workspace_path worktree)
       (GuardedRunConfig.timeout_seconds config) m = (m', Ok result)) start.
Proof.
  intros [m [s [w q]] v] [Hr Hv]. unfold execute. cbn [machine fin vars].
  destruct (run_backend _ _ _ _ m) as [m' r] eqn:E.
  assert (start (mk_state m' (touch_repo (command_touches (ch_backend c) command m) (s, (w, q))) v)).
  { split; [|exact Hv]. unfold repo_of, touch_repo. cbn. by rewrite Htouch. }
  destruct r as [result|e]; [|done]. split; [done|]. by exists m, m'.
Qed.

Lemma event_status r : ev_status (event_of r) ∈
    [GuardedRunStatus.FAILED; GuardedRunStatus.BLOCKED; GuardedRunStatus.TIMED_OUT] \/
  ev_status (event_of r) = GuardedRunStatus.COMPLETED /\ passed r.
Proof.
  unfold event_of, passed. destruct (GuardedCommandResult.sandbox_setup_failed r) eqn:E1; cbn; [left; set_solver|].
  destruct (GuardedCommandResult.timed_out r) eqn:E2; cbn; [left; set_solver|].
  destruct (bool_decide_reflect (GuardedCommandResult.exit_code r = Some 0%Z)); cbn; [by right|left; set_solver].
Qed.

Lemma run_command_triple : triple start (run_command config fresh c command worktree)
  (fun _ => unclassified) unclassified.
Proof.
  unfold run_command.
  apply triple_after; [apply stable_note, start_stable|apply start_unclassified|intros _].
  apply triple_after; [apply stable_note, start_stable|apply start_unclassified|intros _].
  eapply triple_bind; [eapply triple_weaken; [apply execute_triple|done|done|apply start_unclassified]|].
  intros r. eapply (triple_bind _ _ _ (fun _ => unclassified)).
  - intros [m [s [w q]] v] [(Hr & Hs & Hf & Hi) (m1 & m2 & Hrun)].
    unfold unclassified, gathered, command_evidence, patch_evidence, record_command, modify. cbn.
    cbn in Hf, Hr, Hi. rewrite Hf. cbn. split_and!; try done.
    destruct (event_status r) as [H|[H Hp]]; [by left|right]. split; [done|]. by exists m1, m2, r.
  - intros _. apply triple_keeps, stable_audit, unclassified_stable.
Qed.

(** What the findings beside the patch and its report are does not matter. *)
Lemma set_report_keeps report : keeps unclassified
  (set_findings (R := R) (M := M) (L := L) (Q := Q)
     (fun f => mk_findings (v_command_result f) (Some report) (v_patch_diff f) (v_change_risk_report f))).
Proof. intros [m f [p [cr cf pd rr] i e a]] H. exact H. Qed.

Lemma set_patch_keeps d : keeps unclassified
  (set_findings (R := R) (M := M) (L := L) (Q := Q)
     (fun f => mk_findings (v_command_result f) (v_changed_file_report f) (Some d) (v_change_risk_report f))).
Proof.
  intros [m f [p [cr cf pd rr] i e a]] [(Hr & Hc & Hp & Hi) Hn]. cbn in Hn. subst rr.
  by split_and!.
Qed.

Lemma unclassified_gathered t : unclassified t -> gathered t.
Proof. by intros [H _]. Qed.

Lemma classify_patch_triple report : triple unclassified (classify_patch config fresh c worktree report)
  (fun _ => gathered) gathered.
Proof.
  unfold classify_patch. pose proof unclassified_stable as Hu.
  apply triple_after; [by apply stable_on_machine|apply unclassified_gathered|intros d].
  eapply (triple_bind _ _ _ (fun _ t => unclassified t /\ v_patch_diff (v_findings (vars t)) = Some d)).
  { intros t Ht. pose proof (set_patch_keeps d t Ht) as H. unfold set_findings, modify in *. cbn in *. done. }
  intros _. eapply (triple_bind _ _ _ (fun decision t => (unclassified t /\
    v_patch_diff (v_findings (vars t)) = Some d) /\ exists m,
    Subjective.classify_and_decide_patch (SH := context_view m) (RS := sources_view m)
      (rf_seconds fresh) d = Ok decision)).
  { intros t [Ht Hd]. unfold classify, on_machine.
    destruct (Subjective.classify_and_decide_patch _ d) as [decision|e] eqn:E; [|apply Ht].
    split; [done|]. by exists (machine t). }
  intros decision. eapply (triple_bind _ _ _ (fun _ => gathered)).
  { intros [m f [p [cr cf pd rr] i e a]] [[[(Hr & Hc & Hp & Hi) _] Hd] [m0 Hm]].
    unfold set_findings, modify, gathered, patch_evidence. cbn in Hd |- *. subst pd.
    split_and!; try done. intros rep [= <-]. by exists d, m0, decision. }
  intros _. apply triple_keeps, stable_audit, gathered_stable.
Qed.

Lemma detect_changes_triple : triple unclassified (detect_changes config fresh c worktree)
  (fun _ => gathered) gathered.
Proof.
  unfold detect_changes. pose proof unclassified_stable as Hu. pose proof gathered_stable as Hg.
  apply triple_after; [by apply stable_on_machine|apply unclassified_gathered|intros report].
  apply triple_after; [apply set_report_keeps|apply unclassified_gathered|intros _].
  apply triple_after; [by apply stable_note|apply unclassified_gathered|intros _].
  eapply (triple_bind _ _ _ (fun _ => gathered)).
  - destruct (ChangedFileReport.files report); [|apply classify_patch_triple].
    apply triple_ret, unclassified_gathered.
  - intros _. apply triple_keeps, bind_keeps; [apply asks_keeps|intros d; by apply stable_note].
Qed.

Lemma fail_closed_keeps reason : keeps gathered (fail_closed (M := M) (R := R) (L := L) (Q := Q) reason).
Proof.
  intros [m f [[st ws br] fi i e a]] (Hr & Hc & Hp & Hi). split_and!; try done.
  left. apply list_elem_of_here.
Qed.

Lemma run_body_triple : triple start (run_body config fresh c command worktree)
  (fun _ => gathered) gathered.
Proof.
  unfold run_body. apply (triple_catch _ _ _ _ _ gathered); [| |done].
  - apply (triple_bind _ _ _ (fun _ => unclassified)); [|intros _; apply detect_changes_triple].
    eapply triple_weaken; [apply run_command_triple|done|done|apply unclassified_gathered].
  - assert (Hk : forall event reason, triple gathered (body_failed config fresh c worktree event reason)
      (fun _ => gathered) gathered).
    { intros event reason. apply triple_keeps, bind_keeps; [apply fail_closed_keeps|intros _].
      apply stable_audit, gathered_stable. }
    intros e k. destruct (is_command_error e); [by intros [= <-]|].
    destruct (is_patch_error e); [by intros [= <-]|done].
Qed.

(** *** The [finally] block *)

(** The actions are those of the run, and if there is a contract, a run that has
    not failed was evaluated on them. *)
Definition recorded (t : T) : Prop :=
  gathered t /\ let v := vars t in
  normalize_guarded_actions command (v_changed_file_report (v_findings v)) (v_patch_diff (v_findings v))
  = Ok (v_actions v).

Definition intent_evidence (v : run_vars) : Prop :=
  match GuardedRunConfig.intent_contract config with
  | None => v_fallback_evaluation (v_intent v) = None
  | Some contract => v_status (v_progress v) = GuardedRunStatus.COMPLETED ->
      exists actions results,
        normalize_guarded_actions command (v_changed_file_report (v_findings v)) (v_patch_diff (v_findings v))
          = Ok actions /\
        match_actions_to_contract actions contract = Ok results /\
        v_fallback_evaluation (v_intent v) = Some (evaluate_intent_fallback results contract)
  end.

Definition evaluated (t : T) : Prop :=
  repo_of t = r0 /\ command_evidence (vars t) /\ patch_evidence (vars t) /\ intent_evidence (vars t).

Lemma evaluated_log t l : evaluated t -> evaluated (relog l t).
Proof. destruct t as [m [s [w q]] v]. exact id. Qed.

Lemma recorded_log t l : recorded t -> recorded (relog l t).
Proof. destruct t as [m [s [w q]] v]. exact id. Qed.

Lemma record_actions_triple : triple gathered (record_actions config fresh c command worktree)
  (fun _ => recorded) gathered.
Proof.
  unfold record_actions. eapply triple_bind; [apply (triple_asks _ _ (fun f t => gathered t /\
    f = v_findings (vars t))); by intros|intros f].
  eapply triple_bind; [apply (triple_lift _ _ (fun a t => (gathered t /\ f = v_findings (vars t)) /\
    normalize_guarded_actions command (v_changed_file_report f) (v_patch_diff f) = Ok a));
    [by intros a t -> H|by intros t [H _]]|intros actions].
  eapply (triple_bind _ _ _ (fun _ => recorded)).
  { intros [m g [p fi i e a]] [[(Hr & Hc & Hp & Hi) ->] Ha]. by split_and!. }
  intros _. apply (triple_weaken recorded _ _ (fun _ => recorded) _ recorded); [|done|done|by intros t []].
  apply triple_keeps, bind_keeps; [apply asks_keeps|intros st].
  unfold _audit_normalized_actions. apply audit_keeps, recorded_log.
Qed.

Lemma recorded_evaluated t : GuardedRunConfig.intent_contract config = None -> recorded t -> evaluated t.
Proof. intros Hn [(Hr & Hc & Hp & Hi) _]. unfold evaluated, intent_evidence. by rewrite Hn. Qed.

Definition evaluating (contract : IntentContract.t) (results : list IntentMatchResult.t) (t : T) : Prop :=
  repo_of t = r0 /\ command_evidence (vars t) /\ patch_evidence (vars t) /\
  normalize_guarded_actions command (v_changed_file_report (v_findings (vars t)))
    (v_patch_diff (v_findings (vars t))) = Ok (v_actions (vars t)) /\
  match_actions_to_contract (v_actions (vars t)) contract = Ok results.

Lemma set_intent_triple contract results receipt review :
  GuardedRunConfig.intent_contract config = Some contract ->
  triple (evaluating contract results)
    (set_intent (mk_intent_vars results (Some (evaluate_intent_fallback results contract)) receipt review))
    (fun _ t => evaluating contract results t /\ evaluated t) evaluated.
Proof.
  intros Hc [m f [p fi i e a]] (Hr & Hcmd & Hp & Ha & Hm). unfold set_intent, modify. cbn in *.
  split; [by split_and!|]. unfold evaluated, intent_evidence. rewrite Hc. cbn. split_and!; try done.
  intros _. by eexists _, _.
Qed.

Definition unchanged (t : T) : Prop := repo_of t = r0.

Definition doubtful (t : T) : Prop := unchanged t /\ patch_evidence (vars t).

Lemma evaluated_doubtful t : evaluated t -> doubtful t.
Proof. by intros (Hr & _ & Hp & _). Qed.

Lemma unchanged_stable : stable unchanged.
Proof. constructor; [|done|done]. intros [m [s [w q]] v] l H. exact H. Qed.

(** A failed run is in order without an evaluation. *)
Lemma fail_closed_triple contract reason : GuardedRunConfig.intent_contract config = Some contract ->
  triple doubtful (fail_closed (M := M) (R := R) (L := L) (Q := Q) reason) (fun _ => evaluated) evaluated.
Proof.
  intros Hc [m f [[st ws br] fi i e a]] [Hr Hp]. cbn. unfold evaluated, intent_evidence. rewrite Hc.
  split_and!; try done. left. apply list_elem_of_here.
Qed.

Lemma set_then contract results receipt review (k : eff T ()) :
  GuardedRunConfig.intent_contract config = Some contract ->
  triple (fun t => evaluating contract results t /\ evaluated t) k (fun _ => evaluated) doubtful ->
  triple (evaluating contract results)
    (_ ← set_intent (mk_intent_vars results (Some (evaluate_intent_fallback results contract)) receipt review);
     k) (fun _ => evaluated) doubtful.
Proof.
  intros Hc Hk. eapply triple_bind; [|intros u; exact Hk].
  eapply triple_weaken; [by apply set_intent_triple|done|done|apply evaluated_doubtful].
Qed.

Lemma evaluate_intent_triple contract : GuardedRunConfig.intent_contract config = Some contract ->
  triple recorded (evaluate_intent config fresh c worktree contract) (fun _ => evaluated) doubtful.
Proof.
  intros Hc. unfold evaluate_intent, _audit_intent_evaluation.
  assert (Hrec : forall t, recorded t -> doubtful t) by (by intros t [(Hr & _ & Hp & _) _]).
  eapply triple_bind; [apply (triple_asks _ _ (fun a t => recorded t /\ a = v_actions (vars t))); by intros|].
  intros actions. apply triple_after; [apply asks_keeps|intros t [H _]; by apply Hrec|intros report].
  eapply triple_bind; [apply (triple_lift _ _ (fun x t => evaluating contract (fst x) t /\
    snd x = evaluate_intent_fallback (fst x) contract))| ].
  { intros [results evaluation] t He [[(Hr & Hcmd & Hp & _) Ha] ->].
    apply bind_Ok_inv in He as (rs & Hm & [= <- <-]). by split_and!. }
  { intros t [H _]. by apply Hrec. }
  intros [results evaluation]. cbn [fst snd].
  apply triple_pure. intros ->.
  apply set_then; [done|]. eapply triple_bind; [apply triple_lift; [|by intros t [_ H%evaluated_doubtful]]|].
  { intros receipt t _ H. exact (proj1 H). }
  intros receipt. apply set_then; [done|].
  eapply triple_bind; [apply triple_lift; [|by intros t [_ H%evaluated_doubtful]]|].
  { intros review t _ H. exact (proj1 H). }
  intros review. apply set_then; [done|]. unfold _audit_intent_evaluation.
  eapply triple_bind; [apply triple_lift; [|by intros t [_ H%evaluated_doubtful]]|].
  { intros summary t _ H. exact (proj2 H). }
  intros summary. destruct (_intent_audit_decision _) as [[decision allowed] severity].
  eapply triple_weaken; [apply (triple_keeps evaluated), audit_keeps, evaluated_log|done|done|].
  apply evaluated_doubtful.
Qed.

Lemma intent_step_triple : triple recorded (intent_step config fresh c worktree) (fun _ => evaluated) unchanged.
Proof.
  unfold intent_step. destruct (GuardedRunConfig.intent_contract config) as [contract|] eqn:Hc.
  - apply (triple_catch _ _ _ _ _ doubtful); [by apply evaluate_intent_triple| |by intros t []].
    intros e k [= <-].
    apply (triple_bind _ _ _ (fun _ => evaluated)).
    + eapply triple_weaken; [by eapply fail_closed_triple|done|done|by intros t []].
    + intros u. eapply triple_weaken; [apply (triple_keeps evaluated), audit_keeps, evaluated_log|done|done|].
      by intros t [].
  - apply triple_ret. intros t Ht. by apply recorded_evaluated.
Qed.

(** *** After the finalizer *)

Definition outcome (t : T) : Prop :=
  repo_of t = r0 \/ exists d, justified c command worktree r0 (repo_of t) d.

Lemma outcome_stable : stable outcome.
Proof. constructor; [|done|done]. intros [m [s [w q]] v] l H. exact H. Qed.

Lemma outcome_modify f : keeps outcome (modify f).
Proof. intros t H. exact H. Qed.

(** A cleared patch of an evaluated run is justified. *)
Lemma cleared_justified (t : T) d report r1 :
  evaluated t ->
  cleared (finalization_request config fresh worktree trusted_repo (vars t)) d report ->
  git_apply r0 (PatchDiff.patch d) = Ok r1 /\ verified r1 d /\
    sha256_hex (PatchDiff.patch d) = PatchDiff.patch_sha256 d /\
    (exists out, status_porcelain r0 = Ok out /\ truthy (strip out) = false) /\
    (exists out, rev_parse_head r0 = Ok out /\ strip out = PatchDiff.baseline_commit_sha d) ->
  justified c command worktree r0 r1 d.
Proof.
  intros (Hr & Hcmd & Hp & Hi) [[_ Hst Hblock [Hd _] Hrep] Hg Hl Hu Hin] Happ.
  unfold finalization_request in Hst, Hblock, Hd, Hrep, Hin. cbn in Hblock, Hd, Hrep.
  cbn [GuardedPatchFinalizationRequest.current_status] in Hst.
  unfold intent_requires in Hin. cbn in Hin.
  assert (Hcomplete : v_status (v_progress (vars t)) = GuardedRunStatus.COMPLETED /\
    exists m m' result, v_command_result (v_findings (vars t)) = Some result /\
      run_backend (ch_backend c) command (Recovery.RecoverySession.workspace_path worktree)
        (GuardedRunConfig.timeout_seconds config) m = (m', Ok result) /\ passed result).
  { destruct Hcmd as [Hf|H]; [|done]. exfalso. rewrite !elem_of_cons in Hf. rewrite !elem_of_cons in Hst.
    destruct Hf as [E|[E|[E|E%elem_of_nil]]]; [..|done]; rewrite E in Hst; cbn in Hst;
      destruct Hst as [?|[?|?%elem_of_nil]]; done. }
  destruct Hcomplete as [Hc (m & m' & result & _ & Hrun)].
  constructor; [by exists m, m', result| | |exact Happ].
  - destruct (Hp report Hrep) as (d' & m1 & decision & Hd' & Hcl & <-). assert (d' = d) as -> by congruence.
    by exists m1, decision.
  - intros contract Hco. unfold intent_evidence in Hi. rewrite Hco in Hi.
    destruct (Hi Hc) as (actions & results & Ha & Hm & He). rewrite Hd in Ha. rewrite He in Hin.
    exists (v_changed_file_report (v_findings (vars t))), actions, results. cbn zeta. split_and!; try done. by apply Hblock.
Qed.

Lemma finalize_triple : triple evaluated (finalize config fresh worktree trusted_repo)
  (fun _ => outcome) outcome.
Proof.
  intros t Ht. unfold finalize.
  destruct (finalize_guarded_patch _ _ _ _ _ _ _ _ (fin t)) as [f' r] eqn:E.
  apply (finalized_repo (RS := sources_view (machine t))) in E; [|done].
  assert (Hr : w_repo (fst (snd (fin t))) = r0) by apply Ht. cbn zeta in E. rewrite Hr in E.
  assert (Ho : outcome (mk_state (machine t) f' (vars t))); [|by destruct r].
  destruct E as [E|(d & report & Hcl & Happ)]; [by left|right].
  exists d. by eapply cleared_justified.
Qed.

Lemma finalize_step_triple : triple evaluated (finalize_step config fresh c worktree trusted_repo)
  (fun _ => outcome) outcome.
Proof.
  pose proof outcome_stable as Ho. unfold finalize_step. apply (triple_catch _ _ _ _ _ outcome); [| |done].
  - eapply triple_bind; [apply finalize_triple|intros r]. apply triple_keeps, bind_keeps; [|intros u].
    + unfold record_finalization, set_status, set_ending, set_blocked_reason, set_progress, warn.
      keeps; try apply outcome_modify. by apply stable_warnings.
    + unfold audit_finalization. destruct (final_event r) as [[[ev de] al] se]. by apply stable_audit.
  - intros e k [= <-]. apply triple_keeps. unfold fail_closed, set_outcome, set_status, set_ending,
      set_blocked_reason, set_progress, warn. keeps; try apply outcome_modify. by apply stable_audit.
Qed.

Lemma cleanup_step_keeps : keeps outcome (cleanup_step config fresh c worktree trusted_repo).
Proof.
  pose proof outcome_stable as Ho. unfold cleanup_step, preserve_workspace, remove_workspace, note, set_cleanup,
    set_status, set_ending, set_progress, warn.
  destruct (GuardedRunConfig.preserve_workspace config); keeps;
    first [apply outcome_modify|by apply stable_audit|by apply stable_on_machine].
Qed.

Lemma unchanged_outcome t : unchanged t -> outcome t.
Proof. by left. Qed.

(** A session changes the repository by a justified patch, or not at all. *)
Lemma run_session_triple : triple start (run_session config fresh c command worktree trusted_repo)
  (fun _ => outcome) outcome.
Proof.
  unfold run_session. apply (triple_bind _ _ _ (fun _ => outcome)).
  - eapply triple_finally; [apply run_body_triple|]. unfold finish.
    apply (triple_bind _ _ _ (fun _ => recorded)).
    { eapply triple_weaken; [apply record_actions_triple|done|done|]. intros t (Hr & _). by left. }
    intros _. apply (triple_bind _ _ _ (fun _ => evaluated)).
    { eapply triple_weaken; [apply intent_step_triple|done|done|apply unchanged_outcome]. }
    intros _. apply (triple_bind _ _ _ (fun _ => outcome)); [apply finalize_step_triple|intros _].
    apply triple_keeps, cleanup_step_keeps.
  - intros u. apply triple_keeps. unfold run_result. keeps.
Qed.
End Session.

(** ** The steps before a session *)

(** A result without a session, and so without a command. *)
Definition idle (r : GuardedRunResult.t) : Prop :=
  GuardedRunResult.command_result r = None /\ GuardedRunResult.run_id r = None.

(** The phase goes on with a fact, or returns the result of a run that executed
    nothing. *)
Definition phased {A} (P : T -> Prop) (phi : A -> Prop) (p : phase A) (t : T) : Prop :=
  P t /\ match p with
         | Return r => idle r
         | Go a => phi a
         end.

Lemma and_then_triple {A} P (phi : A -> Prop) (p : eff T (phase A)) (k : A -> eff T GuardedRunResult.t) Post E :
  triple P p (phased P phi) E ->
  (forall r t, idle r -> P t -> Post r t) ->
  (forall a, phi a -> triple P (k a) Post E) -> triple P (and_then p k) Post E.
Proof.
  intros Hp Hr Hk. unfold and_then. eapply triple_bind; [exact Hp|].
  intros [r|a]; unfold phased; apply triple_pure; intros H; [|by apply Hk].
  apply triple_ret. intros t Ht. by apply Hr.
Qed.

Section Phases.
Context (P : T -> Prop) (HP : stable P).

Lemma blocked_triple label reason facts actions event :
  triple P (_blocked_result config fresh label reason facts actions event)
    (fun r t => P t /\ idle r) P.
Proof.
  unfold _blocked_result.
  apply triple_after; [apply lift_keeps|done|intros l]. apply triple_after; [apply asks_keeps|done|intros ws].
  apply triple_after; [by apply stable_audit|done|intros u]. by apply triple_ret.
Qed.

Lemma blocking_triple {A} errors block (p : eff T A) (phi : A -> Prop) :
  triple P p (fun a t => P t /\ phi a) P ->
  (forall text, triple P (block text) (fun r t => P t /\ idle r) P) ->
  triple P (blocking errors block p) (phased P phi) P.
Proof.
  intros Hp Hb. apply (triple_catch _ _ _ _ _ P); [| |done].
  - eapply triple_bind; [exact Hp|]. intros a. apply triple_ret. by intros t H.
  - intros e k. destruct (errors e); [|done]. intros [= <-].
    eapply triple_bind; [apply Hb|]. intros r. apply triple_ret. by intros t H.
Qed.

Lemma plainly {A} (p : eff T A) : keeps P p -> triple P p (fun _ t => P t /\ True) P.
Proof. intros H. eapply triple_weaken; [by apply triple_keeps|done|done|done]. Qed.

Lemma returning_triple {A} (r : eff T GuardedRunResult.t) (phi : A -> Prop) :
  triple P r (fun r t => P t /\ idle r) P ->
  triple P (returning r) (phased P phi) P.
Proof.
  intros Hr. eapply triple_bind; [exact Hr|]. intros x. apply triple_ret. by intros t H.
Qed.

Lemma validate_input_triple : triple P (validate_input config fresh) (phased P (fun _ => True)) P.
Proof.
  unfold validate_input. apply triple_after; [apply lift_keeps|done|intros l].
  apply blocking_triple; [|intros; apply blocked_triple]. apply plainly.
  pose proof (@stable_on_machine P HP). keeps.
Qed.

Lemma check_repository_triple path :
  triple P (check_repository config fresh path) (phased P (fun _ => True)) P.
Proof.
  unfold check_repository. apply triple_after; [apply asks_keeps|done|intros l].
  apply blocking_triple; [|intros; apply blocked_triple]. apply plainly.
  pose proof (@stable_on_machine P HP). pose proof (@stable_warn P HP). keeps.
Qed.

Lemma create_session_triple c path :
  triple P (create_session config fresh c path) (phased P (fun _ => True)) P.
Proof.
  apply blocking_triple; [|intros; apply blocked_triple]. by apply plainly, stable_on_machine.
Qed.

(** *** The choice of the back end *)

Lemma containment_facts_verified name verified features :
  containment_facts set_text config (evaluate_containment_capabilities name) = Ok (verified, features) ->
  verified = true ->
  Production.execution_security_mode (GuardedRunConfig.environment config) = Production.PRODUCTION ->
  exists v, Production.verify_production_bubblewrap set_text = Ok v /\
    Production.BubblewrapVerification.eligible v = true.
Proof.
  unfold containment_facts. intros Hf -> Hm. rewrite Hm in Hf.
  apply bind_Ok_inv in Hf as (v & Hv & [= He _]). apply andb_true_iff in He as [_ He]. by exists v.
Qed.

Lemma chosen_admitted selection verified features backend :
  let name := ExecutionBackendSelection.name selection in
  let unsafe := ProcessContainmentCapabilities.unsafe_local (evaluate_containment_capabilities name) in
  _select_backend set_text (rf_environ fresh) (GuardedRunConfig.environment config)
    (GuardedRunConfig.unsafe_local_requested config) = Ok selection ->
  containment_facts set_text config (evaluate_containment_capabilities name) = Ok (verified, features) ->
  _command_backend_for set_text name (GuardedRunConfig.environment config)
    (GuardedRunConfig.containment_limits config) = Ok backend ->
  (forall reason, backend <> UnsupportedCommandBackend reason) ->
  unsafe && negb (GuardedRunConfig.unsafe_local_requested config) = false ->
  negb verified && negb unsafe = false ->
  admitted (mk_chosen backend (ExecutionBackendName.value name)
              (ExecutionBackendSelection.safe_by_default selection) verified features).
Proof.
  cbn zeta. intros Hs Hf Hb Hu H1 H2.
  apply selected_backend in Hs. destruct (ExecutionBackendSelection.name selection) eqn:En;
    cbn in Hb, H1, H2; try (injection Hb as <-; by destruct (Hu _ eq_refl)).
  - left. apply bind_Ok_inv in Hb as (verification & Hv & [= <-]). destruct verified; [|done].
    eexists _, _. split_and!; [done..|]. intros Hm. rewrite Hm in Hv.
    apply bind_Ok_inv in Hv as (v & Hv & [= <-]).
    destruct (containment_facts_verified _ _ _ Hf eq_refl Hm) as (v' & Hv' & He).
    assert (v' = v) as -> by congruence. by exists v.
  - right. injection Hb as <-. rewrite ?andb_true_l in H1. apply negb_false_iff in H1.
    split_and!; try done. by destruct Hs as [(_ & Hn & _)|[Hm _]]; [congruence|].
Qed.

Lemma select_backend_triple path :
  triple P (select_backend set_text config fresh path) (phased P admitted) P.
Proof.
  pose proof (@stable_warn P HP) as Hwarn.
  pose proof (@stable_note P HP) as Hnote.
  unfold select_backend. apply (triple_catch _ _ _ _ _ P); [| |done].
  - unfold select_backend_body.
    eapply triple_bind; [apply triple_lift_eq|intros selection].
    apply triple_pure. intros Hs. cbv zeta.
    eapply triple_bind; [apply triple_lift_eq|].
    intros [verified features]. apply triple_pure. intros Hf.
    do 3 (apply triple_after; [apply Hwarn|done|intros ?]).
    eapply triple_bind; [apply triple_lift_eq|intros backend].
    apply triple_pure. intros Hb.
    destruct backend as [|v l|reason] eqn:Eb; [| |by apply returning_triple, blocked_triple].
    all: destruct (_ && negb (GuardedRunConfig.unsafe_local_requested config)) eqn:H1;
      [by apply returning_triple, blocked_triple|].
    all: destruct (negb verified && _) eqn:H2; [by apply returning_triple, blocked_triple|].
    all: apply triple_after; [apply stable_warnings|done|intros ws].
    all: apply triple_after; [apply Hnote|done|intros u].
    all: apply triple_ret; intros t Ht; split; [done|].
    all: by eapply chosen_admitted.
  - intros e k. destruct (is_selection_error e); [|done]. intros [= <-].
    by apply returning_triple, blocked_triple.
Qed.
End Phases.

(** ** The whole run *)

Section Whole.
Context (P : T -> Prop) (Post : GuardedRunResult.t -> T -> Prop) (E : T -> Prop).
Context (HP : stable P) (HPost : forall r, stable (Post r)) (HE : stable E)
  (HPE : forall t, P t -> E t) (HPostE : forall r t, Post r t -> E t)
  (Hnone : forall r t, idle r -> P t -> Post r t).

Lemma guard_triple fuel path body :
  (forall state, triple P (body state) Post E) ->
  triple P (_guarded_run_concurrency_guard config fresh fuel path body) Post E.
Proof.
  intros Hbody. unfold _guarded_run_concurrency_guard. pose proof (@stable_on_machine P HP) as Hm.
  apply triple_after; [apply Hm|done|intros lock_path]. apply triple_after; [apply Hm|done|intros repo].
  apply triple_after; [apply Hm|done|intros state].
  destruct (GuardedRunConcurrencyState.blocked_reason state); [apply Hbody|].
  apply triple_after; [apply Hm|done|intros u]. apply triple_finally_each; [apply Hbody| |].
  - intros r. apply (triple_weaken (Post r) _ _ (fun _ => Post r) _ (Post r)); [|done|done|by apply HPostE].
    by apply triple_keeps, stable_on_machine.
  - by apply triple_keeps, stable_on_machine.
Qed.

Lemma locked_run_triple c command path state :
  (forall worktree, triple P (run_session config fresh c command worktree path) Post E) ->
  triple P (locked_run config fresh c command path state) Post E.
Proof.
  intros Hs. unfold locked_run.
  assert (Hd : forall key pid, keeps P (lock_details config state path key pid)) by (intros; by apply stable_lock_details).
  assert (Ha : forall event decision allowed severity reason metadata,
    keeps P (_audit config fresh event decision allowed severity reason metadata)) by (intros; by apply stable_audit).
  apply triple_after; [unfold whenever; keeps; auto|done|intros u].
  destruct (GuardedRunConcurrencyState.blocked_reason state) as [reason|].
  - apply triple_after; [keeps|done|intros details]. apply triple_after; [keeps|done|intros u'].
    eapply triple_weaken; [by apply (blocked_triple P)|done| |done]. intros r t [Ht Hr]. by apply Hnone.
  - apply (and_then_triple P (fun _ => True)); [|done|intros worktree _; apply Hs].
    eapply triple_weaken; [by apply (create_session_triple P)|done|done|done].
Qed.

(** From the local variables on, phase by phase. *)
Lemma run_guarded_triple fuel :
  (forall c command worktree path, admitted c ->
     triple P (run_session config fresh c command worktree path) Post E) ->
  triple (fun t => P (mk_state (machine t) (fin t) initial_vars)) (run_guarded set_text config fresh fuel) Post E.
Proof.
  intros Hs. unfold run_guarded. apply (triple_bind _ _ _ (fun _ => P)); [by intros t Ht|intros u].
  apply (and_then_triple P (fun _ => True)); [|exact Hnone|].
  { eapply triple_weaken; [by apply (validate_input_triple P)|done|done|done]. }
  intros [command input] _. apply triple_after; [by apply stable_announce|done|intros u'].
  apply (and_then_triple P (fun _ => True)); [|exact Hnone|].
  { eapply triple_weaken; [by apply (check_repository_triple P)|done|done|done]. }
  intros repo _. apply (and_then_triple P admitted); [|exact Hnone|].
  { eapply triple_weaken; [by apply (select_backend_triple P)|done|done|done]. }
  intros c Hc. apply guard_triple. intros state. apply locked_run_triple. intros worktree. by apply Hs.
Qed.
End Whole.

Lemma stable_const (phi : Prop) : stable (fun _ => phi).
Proof. by constructor. Qed.

Lemma run_session_names c command worktree path :
  triple (fun _ => True) (run_session config fresh c command worktree path)
    (fun r _ => GuardedRunResult.backend_name r = Some (ch_name c) /\
       GuardedRunResult.containment_verified r = ch_verified c) (fun _ => True).
Proof.
  unfold run_session, run_result.
  apply triple_after; [done|done|intros u]. apply triple_after; [done|done|intros v].
  apply triple_after; [done|done|intros l]. by apply triple_ret.
Qed.

(** A run that returned had no session, or ended with its session and the
    release of the lock. *)
Lemma and_then_run {A} (phi : A -> Prop) (p : eff T (phase A)) k t t' r :
  triple (fun _ => True) p (phased (fun _ => True) phi) (fun _ => True) -> and_then p k t = (t', Ok r) ->
  idle r \/ exists t1 a, phi a /\ p t = (t1, Ok (Go a)) /\ k a t1 = (t', Ok r).
Proof.
  intros Hp H. unfold and_then in H. apply bind_run in H as (t1 & a & H1 & H).
  destruct (triple_run _ _ _ _ _ _ _ Hp Logic.I H1) as [_ Ha].
  destruct a as [x|a]; [apply ret_run in H as [_ ->]; by left|right]. by exists t1, a.
Qed.

Lemma release_run lock_path m m' o : release_lock lock_path m = (m', o) -> exists call,
  lock_unlink lock_path m = (m', call) /\
  (o = Ok () <-> call = LockDone \/ call = LockMissing).
Proof.
  unfold release_lock, Backend.calls, mbind, eff_bind. destruct (lock_unlink lock_path m) as [m1 call].
  intros H. exists call. destruct call; injection H as <- <-; (split; [done|]); split; auto; try done;
    by intros [?|?].
Qed.

Lemma guard_run fuel path body (t t' : T) r :
  _guarded_run_concurrency_guard config fresh fuel path body t = (t', Ok r) ->
  exists state t1, (GuardedRunConcurrencyState.blocked_reason state <> None /\ body state t1 = (t', Ok r)) \/
    (GuardedRunConcurrencyState.blocked_reason state = None /\ exists t2 call, body state t1 = (t2, Ok r) /\
      lock_unlink (lock_path_of config (machine t) path) (machine t2) = (machine t', call)).
Proof.
  unfold _guarded_run_concurrency_guard. intros H.
  apply bind_run in H as (t1 & lock_path & [= <- <-] & H). apply bind_run in H as (t2 & repo & [= <- <-] & H).
  apply bind_run in H as (t3 & state & _ & H). exists state.
  destruct (GuardedRunConcurrencyState.blocked_reason state); [by exists t3; left|].
  apply bind_run in H as (t4 & u & _ & H). exists t4. right. split; [done|].
  apply finally_run in H as (t5 & r5 & o & Hb & Hl & Hr). unfold on_machine in Hl.
  destruct (release_lock _ (machine t5)) as [m6 o6] eqn:E.
  apply release_run in E as (call & Hc & _). injection Hl as <- <-. destruct o6; [subst r5|done]. by exists t5, call.
Qed.

(** A run that returned had no session, or ended in one, in its lock. *)
Lemma run_guarded_run fuel t t' r :
  run_guarded set_text config fresh fuel t = (t', Ok r) ->
  idle r \/ exists c command path worktree t1 t2 lock_path call, admitted c /\
    run_session config fresh c command worktree path t1 = (t2, Ok r) /\
    lock_unlink lock_path (machine t2) = (machine t', call).
Proof.
  pose proof (stable_const True) as HT. unfold run_guarded. intros H. apply bind_run in H as (t0 & u & _ & H).
  apply (and_then_run (fun _ => True)) in H as [?|(t1 & [command input] & _ & _ & H)];
    [by left| |by apply validate_input_triple].
  apply bind_run in H as (t2 & u2 & _ & H).
  apply (and_then_run (fun _ => True)) in H as [?|(t3 & repo & _ & _ & H)];
    [by left| |by apply check_repository_triple].
  apply (and_then_run admitted) in H as [?|(t4 & c & Hc & _ & H)]; [by left| |by apply select_backend_triple].
  apply guard_run in H as (state & t5 & [(Hb & H)|(Hb & t6 & call & H & Hl)]); unfold locked_run in H;
    apply bind_run in H as (t7 & u7 & _ & H).
  - destruct (GuardedRunConcurrencyState.blocked_reason state) as [reason|]; [|done]. left.
    apply bind_run in H as (t8 & d & _ & H). apply bind_run in H as (t9 & u9 & _ & H).
    by destruct (triple_run _ _ _ _ _ _ _ (blocked_triple _ HT _ _ _ _ _) Logic.I H).
  - rewrite Hb in H.
    apply (and_then_run (fun _ => True)) in H as [?|(t8 & worktree & _ & _ & H)];
      [by left| |by apply create_session_triple].
    right. by exists c, command, repo, worktree, t8, t6, (lock_path_of config (machine t4) repo), call.
Qed.

(** *** The end of a session *)

Lemma audit_machine event decision allowed severity reason metadata (t t' : T) o :
  _audit config fresh event decision allowed severity reason metadata t = (t', o) ->
  machine t' = machine t /\ vars t' = vars t.
Proof.
  intros H. destruct (audit_run event decision allowed severity reason metadata t) as [l Hl].
  rewrite H in Hl. cbn in Hl. subst t'. by destruct t as [m [s [w q]] v].
Qed.

(** A removal that returned: what the cleanup found, and what is reported. *)
Lemma remove_workspace_run c worktree path (t t' : T) u :
  remove_workspace config fresh c worktree path t = (t', Ok u) ->
  exists m0 result, Recovery.destroy_recovery_session worktree (worktree_config config path) m0
      = (machine t', Ok result) /\
    v_cleanup_performed (v_ending (vars t')) = true /\ v_cleanup_result (v_ending (vars t')) = Some result /\
    (v_status (v_progress (vars t')) <> GuardedRunStatus.CLEANUP_FAILED -> cleanup_failed result = false).
Proof.
  unfold remove_workspace, note. intros H.
  apply bind_run in H as (t1 & u1 & _ & H). apply bind_run in H as (t2 & u2 & _ & H).
  apply bind_run in H as (t3 & result & Hd & H). unfold on_machine in Hd.
  destruct (Recovery.destroy_recovery_session worktree _ (machine t2)) as [m' o] eqn:E.
  injection Hd as <- ->. exists (machine t2), result. rewrite E.
  apply bind_run in H as (t4 & u4 & [= <- _] & H). destruct (cleanup_failed result) eqn:Ec.
  - apply bind_run in H as (t5 & u5 & [= <- _] & H). apply bind_run in H as (t6 & u6 & [= <- _] & H).
    apply audit_machine in H as [-> ->]. cbn. by split_and!.
  - apply audit_machine in H as [-> ->]. cbn. by split_and!.
Qed.

Lemma run_session_cleanup c command worktree path (t t' : T) r :
  GuardedRunConfig.preserve_workspace config = false ->
  run_session config fresh c command worktree path t = (t', Ok r) ->
  exists m0 result, Recovery.destroy_recovery_session worktree (worktree_config config path) m0
      = (machine t', Ok result) /\ GuardedRunResult.cleanup_performed r = true /\
    GuardedRunResult.workspace_path r = Some (returned_workspace_path worktree (Some result)) /\
    (GuardedRunResult.status r <> GuardedRunStatus.CLEANUP_FAILED -> cleanup_failed result = false).
Proof.
  intros Hp H. unfold run_session in H. apply bind_run in H as (t1 & u & Hf & H).
  apply finally_run in Hf as (t2 & r2 & o & _ & Hl & Ho). destruct o as [u2|e]; [|done]. unfold finish in Hl.
  apply bind_run in Hl as (t3 & u3 & _ & Hl). apply bind_run in Hl as (t4 & u4 & _ & Hl).
  apply bind_run in Hl as (t5 & u5 & _ & Hl). unfold cleanup_step in Hl. rewrite Hp in Hl.
  apply remove_workspace_run in Hl as (m0 & result & Hd & Hperf & Hres & Hst).
  unfold run_result in H. apply bind_run in H as (t6 & v & [= <- <-] & H).
  apply bind_run in H as (t7 & l & [-> _]%lift_run & H). apply ret_run in H as [-> ->].
  exists m0, result. cbn. rewrite Hres, Hperf. by split_and!.
Qed.

(** ** Theorems *)

(** C8 A run that did not ask for the unsafe local back end changes the trusted
    repository only by applying a patch that it has justified: the command of the run ended with code 0 in its back end, the
    patch was classified below critical with an open gate and without need of an
    approval, the contract, if there is one, allows the actions of this patch
    without a review, and [git apply] of the text with its declared digest on
    the clean repository at the baseline gave the repository that the patch
    describes.  This holds whether the run returns or raises, under two
    assumptions: a reverse apply restores the repository, and a command inside
    Bubblewrap does not write to it. *)
Theorem repository_changes_are_justified fuel t t' r :
  reverse_restores ->
  (forall verification limits command m repo,
     command_touches (BubblewrapCommandBackend verification limits) command m repo = repo) ->
  GuardedRunConfig.unsafe_local_requested config = false ->
  run_guarded set_text config fresh fuel t = (t', r) ->
  repo_of t' = repo_of t \/
  exists c command worktree d, admitted c /\ justified c command worktree (repo_of t) (repo_of t') d.
Proof.
  intros Hrev Htouch Hsafe Hrun.
  set (E := fun x => repo_of x = repo_of t \/
    exists c command worktree d, admitted c /\ justified c command worktree (repo_of t) (repo_of x) d).
  assert (HE : stable E) by (constructor; [|done|done]; intros [m [s [w q]] v] l H; exact H).
  change (E t'). replace t' with (fst (run_guarded set_text config fresh fuel t)) by (by rewrite Hrun).
  eapply triple_any; [eapply (run_guarded_triple (start (repo_of t)) (fun _ => E) E)|]; try done.
  - apply start_stable.
  - by intros x [H _]; left.
  - by intros x y _ [H _]; left.
  - intros c command worktree path Hc.
    assert (Ht : forall cmd m repo, command_touches (ch_backend c) cmd m repo = repo).
    { destruct Hc as [(v & l & -> & _)|(_ & _ & Hu & _)]; [apply Htouch|congruence]. }
    assert (Hout : forall x, outcome c command worktree (repo_of t) x -> E x).
    { intros x [H|[d H]]; [by left|right]. by exists c, command, worktree, d. }
    eapply triple_weaken; [by apply run_session_triple|done|intros u|]; apply Hout.
Qed.

(** C9 The result of a run that executed a command names its back end: a
    verified Bubblewrap, in production one that passed the behavioral test, or
    the unsafe back end, only if it was asked for and not in production. *)
Theorem executed_command_was_admitted fuel t t' r result :
  run_guarded set_text config fresh fuel t = (t', Ok r) ->
  GuardedRunResult.command_result r = Some result ->
  let mode := Production.execution_security_mode (GuardedRunConfig.environment config) in
  (GuardedRunResult.backend_name r = Some "linux_bubblewrap" /\
   GuardedRunResult.containment_verified r = true /\
   (mode = Production.PRODUCTION -> exists v, Production.verify_production_bubblewrap set_text = Ok v /\
      Production.BubblewrapVerification.eligible v = true)) \/
  (GuardedRunResult.backend_name r = Some "unsafe_local" /\
   GuardedRunConfig.unsafe_local_requested config = true /\ mode = Production.DEVELOPMENT).
Proof.
  intros Hrun Hres. apply run_guarded_run in Hrun as [[Hn _]|
    (c & command' & path & worktree & t1 & t2 & lock & call & Hc & Hs & _)]; [congruence|].
  destruct (triple_run _ _ _ _ _ _ _ (run_session_names _ _ _ _) Logic.I Hs) as [-> ->].
  destruct Hc as [(v & l & _ & -> & -> & Hm)|(_ & -> & Hu & Hm)]; [left|by right].
  split_and!; try done. intros Hprod. destruct (Hm Hprod) as (v' & ? & ? & _). by exists v'.
Qed.

(** C11 A run that returns from a session has cleaned up, unless it was told to
    preserve the workspace: it reports a failed cleanup, or the worktree was
    proved to be its own, Git removed it, nothing was left at its path, and Git
    no longer lists it; after that only the lock was removed. *)
Theorem returned_session_is_cleaned_up fuel t t' r :
  Recovery.git_reports_only (M := M) -> GuardedRunConfig.preserve_workspace config = false ->
  run_guarded set_text config fresh fuel t = (t', Ok r) -> GuardedRunResult.run_id r <> None ->
  GuardedRunResult.cleanup_performed r = true /\
  (GuardedRunResult.status r = GuardedRunStatus.CLEANUP_FAILED \/
   exists worktree path m0 m1 lock_path call,
     let repo := RecoverySession.resolve m0 (Recovery.RecoverySession.trusted_repo_path worktree) in
     let workspace := RecoverySession.resolve m0 (Recovery.RecoverySession.workspace_path worktree) in
     GuardedRunResult.workspace_path r
       = Some (Recovery.show (Recovery.RecoverySession.workspace_path worktree)) /\
     Recovery.owned worktree (worktree_config config path) m0 /\ ~ Recovery.registered m1 repo workspace /\
     (exists m2 out, git ["worktree"; "remove"; "--force"; Recovery.show workspace] repo m0 = (m2, Ok out) /\
        exists_path m2 workspace = false) /\
     lock_unlink lock_path m1 = (machine t', call)).
Proof.
  intros Hgit Hp Hrun Hid. apply run_guarded_run in Hrun as [[_ Hn]|
    (c & command & path & worktree & t1 & t2 & lock & call & _ & Hs & Hl)]; [done|].
  apply run_session_cleanup in Hs as (m0 & result & Hd & Hperf & Hws & Hst); [|done].
  split; [done|]. destruct (decide (GuardedRunResult.status r = GuardedRunStatus.CLEANUP_FAILED)) as [|Hf];
    [by left|right]. specialize (Hst Hf). unfold cleanup_failed in Hst.
  apply orb_false_iff in Hst as [Hs1%bool_decide_eq_false Hq].
  assert (Hclean := Recovery.unfailed_is_removed _ _ _ _ _ Hd Hs1 Hq).
  apply (Recovery.destroy_steps Hgit) in Hd as [[_ Hd]|[Ho Hd]].
  { by destruct (Hd _ eq_refl). }
  destruct (Hd _ eq_refl Hclean) as [Hreg Hgone].
  exists worktree, path, m0, (machine t2), lock, call. cbn zeta. split_and!; try done.
  rewrite Hws. unfold returned_workspace_path. by rewrite Hq.
Qed.

(** C14 The lock of a run is removed on every outcome of what it protects,
    returns and raises alike; the outcome of the run is then that of the
    protected part, unless the removal itself fails. *)
Theorem lock_is_released fuel path (body : GuardedRunConcurrencyState.t -> eff T GuardedRunResult.t)
    (t : T) m1 m2 state t' r :
  (forall lock_path m m' call, lock_unlink lock_path m = (m', call) -> call = LockDone \/ call = LockMissing ->
     lock_read m' lock_path = None) ->
  let lock_path := lock_path_of config (machine t) path in
  let repo := RecoverySession.resolve (machine t) (expanduser path) in
  let identity := PurePosixPath.stem lock_path in
  acquire_lock fuel repo lock_path identity false None (machine t) = (m1, Ok state) ->
  GuardedRunConcurrencyState.blocked_reason state = None ->
  lock_write lock_path (lock_text own_pid (run_trace config fresh) repo identity (rf_created fresh)) m1
    = (m2, Ok ()) ->
  _guarded_run_concurrency_guard config fresh fuel path body t = (t', r) ->
  exists t1 r1, body state (mk_state m2 (fin t) (vars t)) = (t1, r1) /\ fin t' = fin t1 /\
    ((r = r1 /\ lock_read (machine t') lock_path = None) \/
     exists text, r = Raise (Recovery.os_error text)).
Proof.
  cbn zeta. intros Hlaw Ha Hb Hw H. unfold _guarded_run_concurrency_guard in H.
  set (lock := lock_path_of config (machine t) path) in *.
  unfold mbind, eff_bind, on_machine at 1, asks at 1 in H. cbn [machine fin vars] in H. fold lock in H.
  unfold on_machine at 1, asks in H. cbn [machine fin vars] in H.
  unfold on_machine at 1 in H. cbn [machine fin vars] in H. rewrite Ha in H. rewrite Hb in H.
  unfold on_machine at 1, Recovery.sys in H. cbn [machine fin vars] in H. rewrite Hw in H. cbn in H.
  apply finally_run in H as (t1 & r1 & o & Hbody & Hl & ->). exists t1, r1. split; [exact Hbody|].
  unfold on_machine in Hl. destruct (release_lock lock (machine t1)) as [m3 o3] eqn:E.
  injection Hl as <- <-. split; [done|]. assert (Hrel := E). apply release_run in E as (call & Hc & Ho).
  destruct o3 as [[]|e]; [left; split; [done|]; eapply Hlaw, Ho; [exact Hc|done]|right].
  unfold release_lock, Backend.calls, mbind, eff_bind, raise, lift in Hrel. rewrite Hc in Hrel.
  destruct call; try done; injection Hrel as <-; by eexists.
Qed.

(** Nobody else creates the lock right after this run removed a stale one. *)
Definition no_contention : Prop := forall lock_path m m' call,
  lock_unlink lock_path m = (m', call) -> call = LockDone \/ call = LockMissing ->
  snd (create_lock lock_path m') <> Ok LockExists.

Lemma create_lock_total lock_path (m : M) : exists m' call, create_lock lock_path m = (m', Ok call).
Proof.
  unfold create_lock, Backend.calls, mbind, eff_bind. destruct (lock_mkdir _ m) as [m1 [| | |text]]; cbn; eauto.
  destruct (lock_open lock_path m1) as [m2 call]. eauto.
Qed.

(** C15 A lock keeps a run back only while its process is alive: without a
    contender the attempts end after two rounds, and the lock is acquired, or
    the file names a live process, or the operating system refused a call.  Two
    contents of the file make the attempt raise instead: a number that is no
    process number, and bytes that are no UTF-8. *)
Theorem lock_blocks_only_while_alive fuel repo lock_path identity m m' r :
  no_contention ->
  acquire_lock (S (S fuel)) repo lock_path identity false None m = (m', r) ->
  match r with
  | Ok state =>
      GuardedRunConcurrencyState.blocked_reason state = None \/
      (exists m1 pid, GuardedRunConcurrencyState.active_lock_pid state = Some pid /\
         lock_pid (lock_read m1 lock_path) = Ok (Some pid) /\ _process_is_alive m1 (Some pid) = Ok true) \/
      exists what text, GuardedRunConcurrencyState.blocked_reason state
        = Some (lock_unavailable lock_path what text)
  | Raise e =>
      (exn_name e = "OverflowError" /\
       exists m1 pid, lock_pid (lock_read m1 lock_path) = Ok (Some pid) /\ (2 ^ 31 <= pid)%Z) \/
      (exn_name e = "UnicodeDecodeError" /\ exists m1, lock_read m1 lock_path = Some LockNotText)
  end.
Proof.
  intros Hlaw H. cbn [acquire_lock] in H. unfold mbind, eff_bind, mret, eff_ret in H.
  destruct (create_lock_total lock_path m) as (m1 & call & E). rewrite E in H.
  destruct call as [| | |text];
    try (injection H as <- <-; by (left; reflexivity) || (right; right; eexists _, _; reflexivity)).
  destruct (lock_pid (lock_read m1 lock_path)) as [o|e] eqn:Ep; cbn beta iota in H.
  2: { injection H as <- <-. right. unfold lock_pid, _read_guarded_run_lock_metadata in Ep.
       destruct (lock_read m1 lock_path) as [[text|]|] eqn:El; cbn in Ep; [done| |done].
       injection Ep as <-. split; [done|]. by exists m1. }
  destruct (_process_is_alive m1 o) as [[]|e] eqn:Ea.
  - injection H as <- <-. right; left. cbn. unfold _process_is_alive in Ea.
    destruct o as [pid|]; [|done]. by exists m1, pid.
  - unfold Backend.calls in H at 1. destruct (lock_unlink lock_path m1) as [m2 call] eqn:Eu.
    destruct (create_lock_total lock_path m2) as (m3 & call3 & E3). cbn beta iota in H.
    destruct call as [| | |text]; try (injection H as <- <-; right; right; eexists _, _; reflexivity);
      rewrite E3 in H; (assert (Hx : call3 <> LockExists) by
        (intros ->; eapply (Hlaw lock_path m1); [exact Eu|auto|by rewrite E3]));
      destruct call3 as [| | |text]; try done; injection H as <- <-;
      by (left; reflexivity) || (right; right; eexists _, _; reflexivity).
  - injection H as <- <-. left. unfold _process_is_alive in Ea.
    destruct o as [pid|]; [|done]. destruct (pid <=? 0)%Z; [done|].
    destruct (Z.leb_spec (2 ^ 31) pid) as [Hle|]; [injection Ea as <-|done]. split; [done|]. by exists m1, pid.
Qed.

(** A run that finds the lock taken is blocked: after the attempt at the lock
    nothing happens to the machine, the repository, the artifacts or the queue,
    and what is returned is a blocked result with the reason and without a
    command. *)
Theorem taken_lock_blocks fuel path c command (t : T) m1 state reason t' r :
  acquire_lock fuel (RecoverySession.resolve (machine t) (expanduser path)) (lock_path_of config (machine t) path)
    (PurePosixPath.stem (lock_path_of config (machine t) path)) false None (machine t) = (m1, Ok state) ->
  GuardedRunConcurrencyState.blocked_reason state = Some reason ->
  _guarded_run_concurrency_guard config fresh fuel path (locked_run config fresh c command path) t = (t', r) ->
  machine t' = m1 /\ (exists l, fin t' = fin (relog l t)) /\
  forall result, r = Ok result -> GuardedRunResult.status result = GuardedRunStatus.BLOCKED /\
    GuardedRunResult.blocked_reason result = Some reason /\ idle result.
Proof.
  intros Ha Hb H. unfold _guarded_run_concurrency_guard in H.
  set (lock := lock_path_of config (machine t) path) in *.
  unfold mbind, eff_bind, on_machine at 1, asks at 1 in H. cbn [machine fin vars] in H. fold lock in H.
  unfold on_machine at 1, asks in H. cbn [machine fin vars] in H.
  unfold on_machine at 1 in H. cbn [machine fin vars] in H. rewrite Ha in H. rewrite Hb in H.
  set (t1 := mk_state m1 (fin t) (vars t)) in *.
  set (P := fun x : T => machine x = m1 /\ exists l, fin x = fin (relog l t)).
  assert (Hlog : forall x l, P x -> P (relog l x)).
  { intros x l [Hm [l0 Hf]]. split; [by destruct x as [? [? [? ?]] ?]|]. exists l.
    destruct x as [mx [sx [wx qx]] vx], t as [mt [st [wt qt]] vt]. cbn in *. by injection Hf as -> -> ->. }
  assert (HP : P t1).
  { split; [done|]. exists (w_log (fst (snd (fin t)))). by destruct t as [? [? [[? ? ?] ?]] ?]. }
  assert (Hdet : forall key pid, keeps P (lock_details config state path key pid)) by (intros key pid x Hx; exact Hx).
  assert (Ha' : forall event decision allowed severity reason metadata,
    keeps P (_audit config fresh event decision allowed severity reason metadata))
    by (intros; by apply audit_keeps).
  assert (Hrun : triple P (locked_run config fresh c command path state)
    (fun x y => P y /\ (GuardedRunResult.status x = GuardedRunStatus.BLOCKED /\
       GuardedRunResult.blocked_reason x = Some reason /\ idle x)) P).
  { unfold locked_run. apply triple_after; [unfold whenever; keeps; auto|done|intros u]. rewrite Hb.
    apply triple_after; [apply Hdet|done|intros d]. apply triple_after; [apply Ha'|done|intros u2].
    unfold _blocked_result. apply triple_after; [apply lift_keeps|done|intros l].
    apply triple_after; [apply asks_keeps|done|intros ws]. apply triple_after; [apply Ha'|done|intros u3].
    by apply triple_ret. }
  specialize (Hrun t1 HP). rewrite H in Hrun. destruct r as [result|e].
  - destruct Hrun as [[Hm Hf] Hres]. split_and!; try done. by intros x [= <-].
  - destruct Hrun as [Hm Hf]. by split_and!.
Qed.
End Facts.
End RunSafety.
