(* ===== verification/RunExample.v ===== *)
(** * Guarded runs on a small machine

    A machine with one repository, a command that edits a guide, and a Git that
    reports the edit: runs of [Runner.run_guarded] that apply the patch, are
    held back, recover a stale lock, or fail to clean up; and the witnesses of
    the theorems of [RunSafety] and of the sandbox. *)

From S2P Require Import RunSafety.

Local Open Scope string_scope.
Local Open Scope list_scope.
Local Open Scope py_scope.

Module RunExample.
Import Backend Runner RunSafety RecoveryExample.

(** ** The machine *)

(** The command exits with [code]; process 41 is the only other one alive. *)
Definition processes (code : Z) : ProcessHost machine := {|
  popen _ _ _ m := (m, Ok 7%Z);
  communicate _ _ m := (m, Finished code "" "");
  poll _ m := (m, Some code);
  wait_ms _ _ m := (m, true);
  getpgid _ _ := Ok 7%Z;
  killpg _ _ m := (m, Delivered);
  send_signal _ _ m := (m, Delivered);
  close_stream _ m := m;
  posix_process_groups := true;
  decode_replace s := s;
  elapsed_ms _ _ := 5%Z;
  run_bounded_process _ _ _ _ m := (m, Raise (GuardedCommandExecutionError "not used"));
  getgid := 1000%Z;
|}.

#[local] Instance locks : LockHost machine := {|
  lock_mkdir _ m := (m, LockDone);
  lock_open p m := if has_file m p then (m, LockExists)
                   else (with_files m ((Recovery.show p, "") :: files m), LockDone);
  lock_write p text m :=
    (with_files m ((Recovery.show p, text) :: without_file (Recovery.show p) (files m)), Ok ());
  lock_unlink p m := if has_file m p then (with_files m (without_file (Recovery.show p) (files m)), LockDone)
                     else (m, LockMissing);
  lock_read m p := (fun t => if forallb (fun c => (code c <? 128)%N) (list_ascii_of_string t) then LockText t else LockNotText) <$> assoc_get (files m) (Recovery.show p);
  kill_zero _ p := if (p =? 41)%Z then KillDone else ProcessLookup;
  own_pid := 42%Z;
|}.

(** Git in the worktree: one modified file. *)
Definition worktree_git (args : list string) (cwd : string) : result string string :=
  if mem "--raw" args then Ok (null_text [":100644 100644 1111111 2222222 M"; "docs/guide.md"])
  else if mem "--others" args then Ok ""
  else if mem "--numstat" args then Ok (null_text ["3" +++ String tab ("0" +++ String tab "docs/guide.md")])
  else if mem "--patch" args then Ok guide_text
  else if mem "rev-parse" args then Ok ".git/index"
  else Raise "unknown command".

Definition edited_worktree : GitWorktree unit := {|
  ChangedFiles.resolve p := p;
  ChangedFiles.is_dir _ := true;
  ChangedFiles.is_file _ := true;
  read_index _ := ();
  git_run := worktree_git;
  git_run_index _ args cwd := if mem "add" args then Ok ("", ()) else out ← worktree_git args cwd; Ok (out, ());
|}.

#[local] Instance views : RunViews machine unit toy_repo := {|
  worktree_view _ := edited_worktree;
  sources_view _ := example_sources;
  context_view _ := SubjectiveExample.workspace_of "notes";
  open_root _ _ := Ok ();
  artifact_disk _ := (no_faults, no_faults);
  command_touches _ _ _ r := r;
|}.

(** ** The trusted repository *)

(** What the run finds in the worktree. *)
Definition run_patch : PatchDiff.t :=
  match (report ← detect_changed_files (H := edited_worktree) "/runs/workspaces/run1/workspace" sha None None;
         generate_patch_diff_from_report (H := edited_worktree) report) with
  | Ok d => d
  | Raise _ => guide_patch
  end.

Definition run_repo : GitRepo toy_repo := {|
  repo_exists := fun _ => true;
  is_toplevel := fun _ => Ok true;
  status_porcelain := fun r => Ok (match r with [] => "" | _ => " M docs/guide.md" end);
  rev_parse_head := fun _ => Ok sha;
  apply_check := fun _ _ => Ok ();
  git_apply := fun r p => Ok (p :: r);
  git_reset_reverse := fun r p =>
    match r with
    | q :: r' => if String.eqb p q then Ok r' else Raise "patch does not apply"
    | [] => Raise "patch does not apply"
    end;
  current_diff := fun _ _ => Ok run_patch;
|}.

Lemma run_repo_restores : @reverse_restores _ run_repo.
Proof. intros r r' p [= <-]. cbn. by rewrite String.eqb_refl. Qed.

#[local] Existing Instance run_repo.
#[local] Existing Instance toy_audit.
#[local] Existing Instance toy_queue.
#[local] Existing Instance ArtifactExample.example_host.
#[local] Instance linux : ProbeHost := {|
  platform_system := "Linux";
  which tool := if String.eqb tool "bwrap" then Some "/usr/bin/bwrap" else None;
  Containment.run_command _ := Some (0%Z, "");
|}.
#[local] Instance production : Production.ProductionHost :=
  ProductionExample.host_printing ProductionExample.good_output.

(** ** Runs *)

Definition run_config (unsafe preserve : bool) (contract : option IntentContract.t) : GuardedRunConfig.t :=
  GuardedRunConfig.mk (PurePosixPath.of_string "/repo") (PTuple [PStr "pytest"]) 300
    (PurePosixPath.of_string "/runs") false UntrackedFilePolicy.BLOCK preserve unsafe "local" "alice" "agent-7"
    (Some "trace_7") contract Production.default_limits.

Definition fresh : run_fresh :=
  mk_run_fresh "trace_0" "run1" guide_fresh "art_1" 2500000 0%Z "0.0" [].

Definition state : Type :=
  run_state (M := machine) (R := toy_repo) (L := list (string * pydict)) (Q := list ApprovalRequest.t).

Definition start_on (m : machine) : state :=
  mk_state m (ArtifactExample.empty_store, (mk_world [] None [], Some [])) initial_vars.

Definition run_on (code : Z) (m : machine) (unsafe preserve : bool) (contract : option IntentContract.t) :=
  run_guarded (SP := processes code) (str_join ", ") (run_config unsafe preserve contract) fresh 2 (start_on m).

Definition given {A} (o : option A) : bool := match o with Some _ => true | None => false end.

(** The status, whether there was a session and a command, what became of the
    patch and of the workspace, and the repository afterwards. *)
Definition summary (x : state * result exn GuardedRunResult.t) :=
  match x with
  | (t, Ok r) => Some (GuardedRunResult.status r, given (GuardedRunResult.run_id r),
                       given (GuardedRunResult.command_result r), GuardedRunResult.patch_apply_outcome r,
                       GuardedRunResult.cleanup_status r, repo_of t)
  | _ => None
  end.

(** The command line of the sandbox on the machine of the session. *)
Definition sandbox_line (production : bool) : machine * result exn (list string) :=
  _build_bubblewrap_command (SP := processes 0) ["pytest"] (PurePosixPath.of_string "/runs/workspaces/run1/workspace") production
    (clean_machine "" false).

(** ** Examples *)

Definition contained := run_on 0 (clean_machine "" false) false true None.
Definition unsafe := run_on 0 (clean_machine "" false) true false None.

Example contained_run_applies : summary contained
  = Some (GuardedRunStatus.COMPLETED, true, true, Some "applied", Some "preserved", [guide_text]).
Proof. vm_compute. reflexivity. Qed.

Example unsafe_run_applies : summary unsafe
  = Some (GuardedRunStatus.COMPLETED, true, true, Some "applied", Some "worktree_removed", [guide_text]).
Proof. vm_compute. reflexivity. Qed.

(** The identity files that the sandbox is given lie beside the workspace, and
    the cleanup takes them for residual data: a contained run that does not
    preserve its workspace reports a failed cleanup, although its patch is
    applied. *)
Example contained_run_fails_to_clean_up : summary (run_on 0 (clean_machine "" false) false false None)
  = Some (GuardedRunStatus.CLEANUP_FAILED, true, true, Some "applied", Some "worktree_quarantined", [guide_text]).
Proof. vm_compute. reflexivity. Qed.

(** The lock of the example, held by the process [pid]. *)
Definition example_lock : string :=
  Recovery.show (_guarded_run_concurrency_lock_path (PurePosixPath.of_string "/repo")
                   (PurePosixPath.of_string "/runs")).

Definition locked_by (pid : string) : machine :=
  with_files (clean_machine "" false) [(example_lock, "pid=" +++ pid +++ RecoveryExample.newline)].

(** ** Witnesses *)

Lemma summary_inv x status session executed outcome cleanup repo :
  summary x = Some (status, session, executed, outcome, cleanup, repo) -> exists t r, x = (t, Ok r) /\
    GuardedRunResult.status r = status /\ given (GuardedRunResult.run_id r) = session /\
    given (GuardedRunResult.command_result r) = executed /\ repo_of t = repo.
Proof. destruct x as [t [r|e]]; [|done]. intros [= <- <- <- <- <- <-]. by exists t, r. Qed.

Lemma justified_witness : exists t r (c : chosen) (d : PatchDiff.t),
  contained = (t, r) /\ repo_of t = [guide_text] /\ ch_backend c <> UnsafeLocalCommandBackend /\
  @git_apply _ run_repo [] (PatchDiff.patch d) = Ok (repo_of t).
Proof.
  destruct (summary_inv _ _ _ _ _ _ _ contained_run_applies) as (t & r & E & _ & _ & _ & Hr).
  exists t, (Ok r). assert (E' := E). unfold contained, run_on in E'.
  destruct (repository_changes_are_justified (SP := processes 0) (RV := views) (str_join ", ")
    (run_config false true None) fresh 2 (start_on (clean_machine "" false)) t (Ok r)
    run_repo_restores (fun _ _ _ _ _ => eq_refl) eq_refl E') as [Hx|(c & command & w & d & Hc & Hj)].
  - rewrite Hr in Hx. discriminate Hx.
  - exists c, d. split; [exact E|]. split; [exact Hr|]. split; [|exact (proj1 (ju_apply _ _ _ _ _ _ _ _ Hj))].
    destruct Hc as [(v & l & -> & _)|(_ & _ & Hu & _)]; [discriminate|discriminate Hu].
Defined.

Lemma admitted_witness : exists t r, contained = (t, Ok r) /\
  GuardedRunResult.backend_name r = Some "linux_bubblewrap" /\ GuardedRunResult.containment_verified r = true.
Proof.
  destruct (summary_inv _ _ _ _ _ _ _ contained_run_applies) as (t & r & E & _ & _ & Hc & _).
  exists t, r. split; [exact E|]. unfold contained, run_on in E.
  destruct (GuardedRunResult.command_result r) as [result|] eqn:Er; [|discriminate Hc].
  destruct (executed_command_was_admitted (SP := processes 0) (RV := views) (str_join ", ")
    (run_config false true None) fresh 2 (start_on (clean_machine "" false)) t r result E Er)
    as [(Hn & Hv & _)|(_ & Hu & _)]; [by split|discriminate Hu].
Defined.

Lemma cleaned_witness : exists t r, unsafe = (t, Ok r) /\ GuardedRunResult.cleanup_performed r = true /\
  exists (workspace : PurePosixPath.t) (m : machine), exists_path m workspace = false.
Proof.
  destruct (summary_inv _ _ _ _ _ _ _ unsafe_run_applies) as (t & r & E & Hst & Hid & _ & _).
  exists t, r. split; [exact E|]. unfold unsafe, run_on in E.
  destruct (returned_session_is_cleaned_up (SP := processes 0) (RV := views) (str_join ", ")
    (run_config true false None) fresh 2 (start_on (clean_machine "" false)) t r example_reports eq_refl E)
    as [Hp [Hf|(w & path & m0 & m1 & lk & call & _ & _ & _ & (m2 & out & _ & Hgone) & _)]].
  - intros Hn. rewrite Hn in Hid. discriminate Hid.
  - rewrite Hst in Hf. discriminate Hf.
  - split; [exact Hp|]. by eexists _, m2.
Defined.

(** *** The lock *)

Lemma without_file_get p l : assoc_get (without_file p l) p = None.
Proof.
  induction l as [|[k v] l IH]; [done|]. cbn. destruct (String.eqb k p) eqn:E; cbn; [exact IH|].
  unfold assoc_get in *. cbn. by rewrite E.
Qed.

Lemma no_file_get (m : machine) p : has_file m p = false -> assoc_get (files m) (Recovery.show p) = None.
Proof.
  unfold has_file. induction (files m) as [|[k v] l IH]; [done|]. cbn. intros H. apply orb_false_iff in H as [H1 H2].
  unfold assoc_get in *. cbn. rewrite String.eqb_sym in H1. rewrite H1. by apply IH.
Qed.

Lemma locks_free (p : PurePosixPath.t) (m m' : machine) call :
  lock_unlink p m = (m', call) -> call = LockDone \/ call = LockMissing -> lock_read m' p = None.
Proof.
  cbn. destruct (has_file m p) eqn:E; intros [= <- <-] _; cbn; [by rewrite without_file_get|by rewrite no_file_get].
Qed.

Lemma locks_uncontended : no_contention (M := machine).
Proof.
  intros p m m' call H Hc He. apply locks_free in H; [|done]. cbn in H.
  unfold create_lock, Backend.calls, mbind, eff_bind in He. cbn in He.
  destruct (has_file m' p) eqn:E; [|discriminate He].
  unfold has_file in E. clear He Hc. induction (files m') as [|[k v] l IH]; [done|].
  cbn in E, H. unfold assoc_get in *. cbn in H. rewrite String.eqb_sym in E.
  destruct (String.eqb k (Recovery.show p)); [done|]. by apply IH.
Qed.

Definition repo_path : PurePosixPath.t := PurePosixPath.of_string "/repo".
Definition config : GuardedRunConfig.t := run_config true false None.
Definition held (pid : string) : state := start_on (locked_by pid).
Definition lock_at (t : state) : PurePosixPath.t := lock_path_of config (Runner.machine t) repo_path.

(** An attempt at the lock, with the arguments of the guard. *)
Notation attempt t :=
  (acquire_lock 2 (RecoverySession.resolve (Runner.machine t) (expanduser repo_path))
    (lock_path_of config (Runner.machine t) repo_path)
    (PurePosixPath.stem (lock_path_of config (Runner.machine t) repo_path)) false None (Runner.machine t)).

(** A number too large for a process number makes the run raise. *)
Example huge_pid_raises :
  match snd (attempt (held "4294967296")) with Raise e => exn_name e = "OverflowError" | Ok _ => False end.
Proof. vm_compute. reflexivity. Qed.

(** So does a lock file that is no UTF-8. *)
Example undecodable_lock_raises :
  match snd (attempt (held (String (ascii_of_nat 255) ""))) with
  | Raise e => exn_name e = "UnicodeDecodeError" | Ok _ => False end.
Proof. vm_compute. reflexivity. Qed.

(** Releasing after a body that raises. *)
Notation guarded_raise :=
  (_guarded_run_concurrency_guard config fresh 2 repo_path (fun _ => raise (Backend.value_error "boom"))
    (held "40")).

Lemma released_witness : exists t r, guarded_raise = (t, r) /\
  (lock_read (Runner.machine t) (lock_at (held "40")) = None \/
   exists text, r = Raise (Recovery.os_error text)).
Proof.
  assert (Ha : match attempt (held "40") with
    | (_, Ok st) => GuardedRunConcurrencyState.blocked_reason st = None | _ => False end)
    by (vm_compute; reflexivity).
  destruct (attempt (held "40")) as [m1 [st|e]] eqn:E; [|contradiction].
  destruct guarded_raise as [t r] eqn:Eg. exists t, r. split; [reflexivity|].
  destruct (lock_is_released config fresh 2 repo_path (fun _ => raise (Backend.value_error "boom")) (held "40") m1 _ st t r locks_free
    E Ha eq_refl Eg) as (t1 & r1 & _ & _ & [[_ H]|H]); [left; exact H|right; exact H].
Defined.

Lemma alive_witness : exists m state, attempt (held "40") = (m, Ok state) /\
  GuardedRunConcurrencyState.blocked_reason state = None.
Proof.
  assert (Ha : match attempt (held "40") with
    | (_, Ok st) => GuardedRunConcurrencyState.blocked_reason st = None /\
                    GuardedRunConcurrencyState.active_lock_pid st = None | _ => False end)
    by (vm_compute; split; reflexivity).
  destruct (attempt (held "40")) as [m [st|e]] eqn:E; [|contradiction]. exists m, st. split; [reflexivity|].
  destruct Ha as [Hb Hp].
  destruct (lock_blocks_only_while_alive 0 _ _ _ (Runner.machine (held "40")) m (Ok st) locks_uncontended E)
    as [H|[(m1 & pid & H & _)|(what & text & H)]]; [exact H| |].
  - rewrite Hp in H. discriminate H.
  - rewrite Hb in H. discriminate H.
Defined.

Definition any_backend : chosen := mk_chosen UnsafeLocalCommandBackend "unsafe_local" false false [].

Notation contended :=
  (_guarded_run_concurrency_guard config fresh 2 repo_path
    (locked_run (SP := processes 0) config fresh any_backend ["pytest"] repo_path)
    (held "41")).

Lemma taken_witness : exists t r, contended = (t, Ok r) /\ Runner.machine t = locked_by "41" /\
  GuardedRunResult.status r = GuardedRunStatus.BLOCKED.
Proof.
  assert (Ha : match attempt (held "41") with
    | (m1, Ok st) => m1 = locked_by "41" /\ given (GuardedRunConcurrencyState.blocked_reason st) = true
    | _ => False end) by (vm_compute; split; reflexivity).
  destruct (attempt (held "41")) as [m1 [st|e]] eqn:E; [|contradiction]. destruct Ha as [-> Hb].
  destruct (GuardedRunConcurrencyState.blocked_reason st) as [reason|] eqn:Er; [|discriminate Hb].
  assert (Hok : is_ok (snd contended) = true) by (vm_compute; reflexivity).
  destruct contended as [t [r|e]] eqn:Ec; [|discriminate Hok]. exists t, r. split; [reflexivity|].
  destruct (taken_lock_blocks (SP := processes 0) config fresh 2 repo_path any_backend ["pytest"]
    (held "41") _ st reason t (Ok r) E Er Ec) as (Hm & _ & Hr).
  split; [exact Hm|]. exact (proj1 (Hr r eq_refl)).
Defined.

(** *** The sandbox *)

End RunExample.
