(* ===== verification/RunLock.v ===== *)
(** * The lock of a run between processes

    [GuardedRunner.acquire_lock] is the loop of one run on a machine that nobody
    else changes.  Here the system calls of several runs interleave: each step
    is one call of [_guarded_run_concurrency_guard] on the shared file.  A file
    is an inode, so a writer keeps the file it created when the name is removed
    or given to another file.

    Without a recovery of a stale lock at most one run holds it.  With one, two
    runs can: the file is created before the process number is written, and an
    empty file counts as stale. *)

From S2P Require Export Prelude.
From stdpp Require Import gmap.

Module RunLock.

(** Where a run is in the guard. *)
Inductive pc :=
  | Trying                 (* before [os.open] with O_EXCL *)
  | Opened (inode : nat)   (* the file is created, its text not yet written *)
  | Reading                (* after [FileExistsError] *)
  | Stale                  (* before [unlink] of a lock found stale *)
  | Holding (inode : nat)  (* in the [with] block *)
  | Blocked
  | Finished
  | Dead.

#[export] Instance pc_eq_dec : EqDecision pc.
Proof. solve_decision. Defined.

(** The file under the name, the process numbers written to the files, and the
    runs by process number. *)
Record state := mk_state {
  lock : option nat;
  texts : gmap nat nat;
  fresh : nat;
  pcs : gmap nat pc;
}.

Definition at_pc (s : state) (p : nat) (x : pc) : state := mk_state (lock s) (texts s) (fresh s) (<[p:=x]> (pcs s)).

(** [_process_is_alive] *)
Definition alive (s : state) (p : nat) : bool :=
  match pcs s !! p with None | Some Dead => false | Some _ => true end.

(** The process number in the lock file; a file that is gone has none. *)
Definition lock_pid (s : state) : option nat := i ← lock s; texts s !! i.

Definition found_alive (s : state) : bool :=
  match lock_pid s with Some q => alive s q | None => false end.

(** The next call of the run of process [p]. *)
Definition step (p : nat) (s : state) : state :=
  match pcs s !! p with
  | Some Trying =>
      match lock s with
      | None => mk_state (Some (fresh s)) (texts s) (S (fresh s)) (<[p:=Opened (fresh s)]> (pcs s))
      | Some _ => at_pc s p Reading
      end
  | Some (Opened i) => mk_state (lock s) (<[i:=p]> (texts s)) (fresh s) (<[p:=Holding i]> (pcs s))
  | Some Reading => at_pc s p (if found_alive s then Blocked else Stale)
  | Some Stale => mk_state None (texts s) (fresh s) (<[p:=Trying]> (pcs s))
  | Some (Holding _) => mk_state None (texts s) (fresh s) (<[p:=Finished]> (pcs s))
  | _ => s
  end.

Inductive event := Step (p : nat) | Die (p : nat).

Definition perform (e : event) (s : state) : state :=
  match e with
  | Step p => step p s
  | Die p => match pcs s !! p with Some _ => at_pc s p Dead | None => s end
  end.

Fixpoint perform_all (l : list event) (s : state) : state :=
  match l with [] => s | e :: l => perform_all l (perform e s) end.

(** The runs of some processes, none of them started. *)
Definition start (pids : list nat) : state := mk_state None ∅ 0 (list_to_map (List.map (fun p => (p, Trying)) pids)).

(** Whether an event finds the lock stale. *)
Definition recovers (e : event) (s : state) : bool :=
  match e with
  | Step p => bool_decide (pcs s !! p = Some Reading) && negb (found_alive s)
  | Die _ => false
  end.

Fixpoint calm (l : list event) (s : state) : bool :=
  match l with [] => true | e :: l => negb (recovers e s) && calm l (perform e s) end.

(** The run has the lock: its file is created, or it is in the [with] block. *)
Definition holds (s : state) (p : nat) : Prop := exists i, pcs s !! p = Some (Opened i) \/ pcs s !! p = Some (Holding i).

(** ** Lemmas *)

(** The lock is its holder's file, and nobody is about to remove it. *)
Record exclusive (s : state) : Prop := mk_exclusive {
  ex_one : forall p q, holds s p -> holds s q -> p = q;
  ex_locked : forall p, holds s p -> lock s <> None;
  ex_calm : forall p, pcs s !! p <> Some Stale;
}.

Lemma start_exclusive pids : exclusive (start pids).
Proof.
  assert (H : forall p x, pcs (start pids) !! p = Some x -> x = Trying).
  { intros p x Hp. apply elem_of_list_to_map_2, list_elem_of_fmap in Hp as (q & [= _ ->] & _). done. }
  constructor.
  - intros p q [i [Hp|Hp]]; by apply H in Hp.
  - intros p [i [Hp|Hp]]; by apply H in Hp.
  - intros p Hp. by apply H in Hp.
Qed.

(** Moving to a place without the lock keeps what is exclusive. *)
Lemma leave_exclusive s s' p x :
  exclusive s -> lock s' = lock s -> pcs s' = <[p:=x]> (pcs s) ->
  (forall i, x <> Opened i) -> (forall i, x = Holding i -> holds s p) -> x <> Stale -> exclusive s'.
Proof.
  intros [H1 H2 H3] Hl Hp Ho Hh Hs.
  assert (Hsub : forall q, holds s' q -> holds s q).
  { intros q [i Hq]. rewrite Hp in Hq. destruct (decide (q = p)) as [->|Hn].
    - rewrite lookup_insert_eq in Hq. destruct Hq as [[= ->]|[= ->]]; [by destruct (Ho i)|by eapply Hh].
    - rewrite lookup_insert_ne in Hq by done. by exists i. }
  constructor.
  - intros q r Hq Hr. apply H1; by apply Hsub.
  - intros q Hq. rewrite Hl. by eapply H2, Hsub.
  - intros q Hq. rewrite Hp in Hq. destruct (decide (q = p)) as [->|Hn].
    + rewrite lookup_insert_eq in Hq. by injection Hq.
    + rewrite lookup_insert_ne in Hq by done. by eapply H3.
Qed.

Lemma create_exclusive s p : exclusive s -> lock s = None ->
  exclusive (mk_state (Some (fresh s)) (texts s) (S (fresh s)) (<[p:=Opened (fresh s)]> (pcs s))).
Proof.
  intros [H1 H2 H3] Hl.
  assert (Hone : forall q, holds (mk_state (Some (fresh s)) (texts s) (S (fresh s)) (<[p:=Opened (fresh s)]> (pcs s))) q
    -> q = p).
  { intros q [i Hq]. cbn in Hq. destruct (decide (q = p)) as [->|Hn]; [done|].
    rewrite lookup_insert_ne in Hq by done. exfalso. by apply (H2 q); [exists i|]. }
  constructor; [|done|].
  - intros q r Hq Hr. by rewrite (Hone q Hq), (Hone r Hr).
  - intros q Hq. cbn in Hq. destruct (decide (q = p)) as [->|Hn].
    + by rewrite lookup_insert_eq in Hq.
    + rewrite lookup_insert_ne in Hq by done. by eapply H3.
Qed.

Lemma release_exclusive s p : exclusive s -> holds s p ->
  exclusive (mk_state None (texts s) (fresh s) (<[p:=Finished]> (pcs s))).
Proof.
  intros [H1 H2 H3] Hp.
  assert (Hnone : forall q, ~ holds (mk_state None (texts s) (fresh s) (<[p:=Finished]> (pcs s))) q).
  { intros q [i Hq]. cbn in Hq. destruct (decide (q = p)) as [->|Hn].
    - rewrite lookup_insert_eq in Hq. by destruct Hq.
    - rewrite lookup_insert_ne in Hq by done. apply Hn. by apply H1; [exists i|]. }
  constructor; [intros q r Hq; by destruct (Hnone q)|intros q Hq; by destruct (Hnone q)|].
  intros q Hq. cbn in Hq. destruct (decide (q = p)) as [->|Hn].
  - by rewrite lookup_insert_eq in Hq.
  - rewrite lookup_insert_ne in Hq by done. by eapply H3.
Qed.

Lemma perform_exclusive e s : exclusive s -> recovers e s = false -> exclusive (perform e s).
Proof.
  intros Hs Hr. destruct e as [p|p]; cbn [perform].
  - cbn in Hr. unfold step. destruct (pcs s !! p) as [[| i | | | i | | |]|] eqn:Ep; try done.
    + destruct (lock s) as [j|] eqn:El; [|by apply create_exclusive].
      by eapply (leave_exclusive s _ p Reading).
    + eapply (leave_exclusive s _ p (Holding i)); try done. intros j _. exists i. by left.
    + rewrite bool_decide_eq_true_2 in Hr by done. cbn in Hr. apply negb_false_iff in Hr. rewrite Hr.
      by eapply (leave_exclusive s _ p Blocked).
    + by destruct (ex_calm s Hs p).
    + apply release_exclusive; [done|]. exists i. by right.
  - destruct (pcs s !! p) as [x|]; [|done]. by eapply (leave_exclusive s _ p Dead).
Qed.

Lemma perform_all_exclusive l s : exclusive s -> calm l s = true -> exclusive (perform_all l s).
Proof.
  revert s. induction l as [|e l IH]; intros s Hs Hc; [done|]. cbn in *.
  apply andb_true_iff in Hc as [Hr Hc]. apply negb_true_iff in Hr. apply IH; [by apply perform_exclusive|done].
Qed.

(** C13 As long as no run finds the lock stale, at most one run holds it, however
    the system calls of the runs interleave and whichever processes die. *)
Theorem lock_is_exclusive pids l p q :
  calm l (start pids) = true ->
  holds (perform_all l (start pids)) p -> holds (perform_all l (start pids)) q -> p = q.
Proof. intros Hc. apply ex_one, perform_all_exclusive, Hc. apply start_exclusive. Qed.

(** *** Examples *)

(** Process 2 takes the lock that process 1 has created and not yet written for
    a stale one: both hold it. *)
Definition race : list event :=
  [Step 1; Step 2; Step 2; Step 1; Step 2; Step 2; Step 2].

Example race_has_two_holders :
  let s := perform_all race (start [1; 2]) in
  pcs s !! 1 = Some (Holding 0) /\ pcs s !! 2 = Some (Holding 1) /\ calm race (start [1; 2]) = false.
Proof. vm_compute. done. Qed.

(** The end of the first run then removes the lock of the second, and a third
    run starts beside it. *)
Example release_removes_another_lock :
  let s := perform_all (race ++ [Step 1; Step 3; Step 3]) (start [1; 2; 3]) in
  pcs s !! 2 = Some (Holding 1) /\ pcs s !! 3 = Some (Holding 2).
Proof. vm_compute. done. Qed.

(** Without the race the second run is blocked. *)
Definition orderly : list event := [Step 1; Step 1; Step 2; Step 2].

Lemma lock_is_exclusive_witness :
  calm orderly (start [1; 2]) = true /\ holds (perform_all orderly (start [1; 2])) 1 /\
  ~ holds (perform_all orderly (start [1; 2])) 2.
Proof.
  assert (Hc : calm orderly (start [1; 2]) = true) by (vm_compute; reflexivity).
  assert (H1 : holds (perform_all orderly (start [1; 2])) 1) by (exists 0; right; vm_compute; reflexivity).
  split; [exact Hc|]. split; [exact H1|]. intros H2.
  pose proof (lock_is_exclusive [1; 2] orderly 1 2 Hc H1 H2) as H. discriminate H.
Defined.
End RunLock.
