(* ===== verification/Reconciler.v ===== *)
(** * recovery_reconciler.py: recovery after a crash

    One pass over what interrupted runs left behind: workspaces, the locks of
    guarded runs and of artifacts, the operation store, and the artifacts with
    their approvals.  The state is the machine (files, Git, processes) and the
    state of the approval service, whose audit log is the reconciler's too, as
    local_runtime.py builds it.  The artifact directory is the map of
    [PatchArtifact]; its lock files are on the machine. *)

From S2P Require Import OperationStore ReportSummary Fnmatch.
From S2P Require Export ApprovalService GuardedRunner.

Local Open Scope string_scope.
Local Open Scope list_scope.
Local Open Scope py_scope.

Module Reconciler.
Import Recovery.

(** ** Data *)

Definition OWNER_MARKER_SCHEMA : string := "rygnal-worktree-owner.v1".
Definition ARTIFACT_LOCK_SCHEMA : string := "rygnal-artifact-lock.v1".
Definition RECOVERY_POLICY_ID : string := "rygnal-local-recovery-reconciliation".
Definition MAX_RECOVERY_METADATA_BYTES : Z := 16 * 1024.
Definition MAX_LOCK_FUTURE_SKEW_SECONDS : Z := 300.

Definition RecoveryReconciliationError (text : string) : exn :=
  mk_exn RuntimeError "RecoveryReconciliationError" text.

Definition is_reconciliation_error (e : exn) : bool :=
  String.eqb (exn_name e) "RecoveryReconciliationError".

Module RecoveryFindingStatus.
Inductive t :=
  | RECOVERED | QUARANTINED | MARKED_CONSUMED | EXPIRED_REJECTED | ACTIVE | COHERENT | UNRESOLVED.
Definition value (s : t) : string :=
  match s with
  | RECOVERED => "recovered" | QUARANTINED => "quarantined" | MARKED_CONSUMED => "marked_consumed"
  | EXPIRED_REJECTED => "expired_rejected" | ACTIVE => "active" | COHERENT => "coherent"
  | UNRESOLVED => "unresolved"
  end.
#[global] Instance finding_status_eq_dec : EqDecision t.
Proof. solve_decision. Defined.
End RecoveryFindingStatus.

Definition _MUTATING_STATUSES : list RecoveryFindingStatus.t :=
  [RecoveryFindingStatus.RECOVERED; RecoveryFindingStatus.QUARANTINED;
   RecoveryFindingStatus.MARKED_CONSUMED; RecoveryFindingStatus.EXPIRED_REJECTED].

Module RecoveryFinding.
Record t := mk {
  kind : string;
  identifier : string;
  status : RecoveryFindingStatus.t;
  message : string;
  path : option string;
  metadata : pydict;
}.
Definition mutated (f : t) : bool := bool_decide (status f ∈ _MUTATING_STATUSES).
Definition has_status (s : RecoveryFindingStatus.t) (f : t) : bool := bool_decide (status f = s).
Definition to_dict (f : t) : pydict :=
  [("kind", PStr (kind f)); ("identifier", PStr (identifier f));
   ("status", PStr (RecoveryFindingStatus.value (status f))); ("message", PStr (message f));
   ("path", of_opt_str (path f)); ("mutated", PBool (mutated f)); ("metadata", of_dict (metadata f))].
End RecoveryFinding.

Module RecoveryReport.
Record t := mk {
  trace_id : string;
  findings : list RecoveryFinding.t;
  scanned_workspaces : nat;
  scanned_guarded_locks : nat;
  scanned_artifact_locks : nat;
  scanned_artifacts : nat;
}.
Definition count (test : RecoveryFinding.t -> bool) (r : t) : nat :=
  List.length (List.filter test (findings r)).
Definition mutated_count (r : t) : nat := count RecoveryFinding.mutated r.
Definition unresolved_count (r : t) : nat :=
  count (RecoveryFinding.has_status RecoveryFindingStatus.UNRESOLVED) r.
Definition active_count (r : t) : nat :=
  count (RecoveryFinding.has_status RecoveryFindingStatus.ACTIVE) r.
Definition coherent_count (r : t) : nat :=
  count (RecoveryFinding.has_status RecoveryFindingStatus.COHERENT) r.
Definition successful (r : t) : bool := (unresolved_count r =? 0)%nat.
Definition to_dict (r : t) : pydict :=
  let int n := PInt (Z.of_nat n) in
  [("trace_id", PStr (trace_id r)); ("successful", PBool (successful r));
   ("mutated_count", int (mutated_count r)); ("unresolved_count", int (unresolved_count r));
   ("active_count", int (active_count r)); ("coherent_count", int (coherent_count r));
   ("scanned", of_dict
      [("workspaces", int (scanned_workspaces r)); ("guarded_locks", int (scanned_guarded_locks r));
       ("artifact_locks", int (scanned_artifact_locks r)); ("artifacts", int (scanned_artifacts r))]);
   ("findings", PTuple (List.map (fun f => of_dict (RecoveryFinding.to_dict f)) (findings r)))].
End RecoveryReport.

(** ** The machine *)

Record stat := mk_stat {
  st_regular : bool; st_dev : Z; st_ino : Z; st_size : Z; st_mtime_ns : Z;
}.

(** A file opened without following a link: [fstat], what [read] returns at
    most, [fstat] again. *)
Record opened := mk_opened { before : stat; contents : string; after : stat }.

(** [float(text)]: a [ValueError], an infinity or NaN, or a number. *)
Inductive parsed_float := NoFloat | NotFinite | Finite (d : double).

(** Beside files and Git: opening a file, decoding, the clock in seconds,
    [os.replace] of an artifact into a directory of the machine, and the
    failures of the disk while an artifact is marked consumed. *)
Class RecoveryHost (M : Type) := {
  open_nofollow : M -> PurePosixPath.t -> result string opened;
  utf8_decode : string -> option string;
  parse_float : string -> parsed_float;
  clock_seconds : M -> double;
  move_artifact : string -> fs_entry -> PurePosixPath.t -> M -> M * result string ();
  consume_faults : M -> string -> disk_faults;
}.

(** [sorted(paths)] of paths with one parent. *)
Definition sort_paths (l : list PurePosixPath.t) : list PurePosixPath.t :=
  sort_by (fun a b => String.leb (PurePosixPath.name a) (PurePosixPath.name b)) l.

Definition identifier_ok (s : string) : bool :=
  let n := String.length s in
  (1 <=? n)%nat && (n <=? 200)%nat
  && forallb (fun c => let k := code c in in_range 97 122 k || in_range 65 90 k || in_range 48 57 k
                       || contains "_.-" (String c "")) (list_ascii_of_string s).

Definition _strict_descendant (candidate root : PurePosixPath.t) : bool :=
  negb (bool_decide (candidate = root)) && _is_within_or_equal candidate root.

(** The fields of the lines [key=value]. *)
Fixpoint key_values (lines : list string) (values : list (string * string))
    : result exn (list (string * string)) :=
  match lines with
  | [] => Ok values
  | line :: lines =>
      match cut "=" line with
      | None => Raise (RecoveryReconciliationError "Recovery metadata contains a malformed line.")
      | Some (key, value) =>
          _ ← ensure (truthy key && negb (mem key (List.map fst values)))
                (RecoveryReconciliationError "Recovery metadata contains an invalid or duplicate field.");
          key_values lines (values ++ [(key, value)])
      end
  end.

(** [set(values) == required] *)
Definition has_fields (values : list (string * string)) (required : list string) : bool :=
  forallb (fun k => mem k required) (List.map fst values)
  && forallb (fun k => mem k (List.map fst values)) required.

Definition _parse_positive_pid (raw : option string) : result exn Z :=
  match int_of_text (default "" raw) with
  | None => Raise (RecoveryReconciliationError "Lock metadata contains an invalid PID.")
  | Some pid =>
      _ ← ensure (negb (pid <=? 0)%Z) (RecoveryReconciliationError "Lock PID must be positive.");
      Ok pid
  end.

Section Machine.
Context {M : Type} {WH : WorktreeHost M} {LH : Runner.LockHost M} {RH : RecoveryHost M}.
Implicit Types (p : PurePosixPath.t).

(** A look at the machine that can fail. *)
Definition reads {A} (f : M -> result exn A) : eff M A := fun m => (m, f m).

(** Git in the repository; the text of a failure is what Git says. *)
Definition _run_git (repo : PurePosixPath.t) (args : list string) : eff M string := fun m =>
  match git args repo m with
  | (m', Ok stdout) => (m', Ok (strip stdout))
  | (m', Raise (GitExit stderr stdout)) =>
      (m', Raise (RecoveryReconciliationError
         (if truthy (strip stderr) then strip stderr
          else if truthy (strip stdout) then strip stdout
          else "git " +++ str_join " " args +++ " failed")))
  | (m', Raise (GitOSError text)) => (m', Raise (os_error text))
  end.

Definition _registered_worktrees (trusted_repo : PurePosixPath.t) : eff M (list PurePosixPath.t) :=
  output ← _run_git trusted_repo ["worktree"; "list"; "--porcelain"];
  asks (fun m => omap (fun line =>
    if startswith line "worktree "
    then Some (resolve m (PurePosixPath.of_string (strip (drop_chars 9 line)))) else None)
    (splitlines output)).

Definition _ensure_private_directory p : eff M PurePosixPath.t :=
  link ← asks (fun m => is_symlink m p);
  _ ← require (negb link)
        (RecoveryReconciliationError ("Refusing symlinked recovery directory: " +++ show p));
  _ ← sys (fs_mkdir p true);
  dir ← asks (fun m => is_dir m p);
  _ ← require dir (RecoveryReconciliationError ("Recovery path is not a directory: " +++ show p));
  _ ← catch (sys (fs_chmod p mode_700)) (fun e => if is_os_error e
        then Some (raise (RecoveryReconciliationError ("Unable to secure recovery directory: " +++ show p)))
        else None);
  asks (fun m => resolve m p).

(** [path.unlink()] *)
Definition unlink_file p : eff M () :=
  removed ← Backend.calls (Runner.lock_unlink p);
  match removed with
  | Runner.LockDone => mret ()
  | failed => raise (os_error (Runner.lock_error_text failed))
  end.

(** ** Metadata files *)

(** The text of a small regular file that did not change while it was read. *)
Definition read_bounded p : eff M string :=
  link ← asks (fun m => is_symlink m p);
  _ ← require (negb link) (RecoveryReconciliationError "Recovery metadata must not be a symlink.");
  file ← reads (fun m => map_err (fun text => RecoveryReconciliationError
                                       ("Could not open recovery metadata: " +++ text)) (open_nofollow m p));
  let size := st_size (before file) in
  let raw := String.substring 0 (Z.to_nat (MAX_RECOVERY_METADATA_BYTES + 1)) (contents file) in
  let length := Z.of_nat (String.length raw) in
  _ ← require (st_regular (before file))
        (RecoveryReconciliationError "Recovery metadata must be a regular file.");
  _ ← require (negb ((size <=? 0)%Z || (MAX_RECOVERY_METADATA_BYTES <? size)%Z))
        (RecoveryReconciliationError "Recovery metadata has an invalid or excessive size.");
  _ ← require (negb (MAX_RECOVERY_METADATA_BYTES <? length)%Z)
        (RecoveryReconciliationError "Recovery metadata exceeds the size limit.");
  _ ← require (length =? size)%Z
        (RecoveryReconciliationError "Recovery metadata changed while being read.");
  _ ← require ((st_dev (before file) =? st_dev (after file))%Z && (st_ino (before file) =? st_ino (after file))%Z
               && (size =? st_size (after file))%Z
               && (st_mtime_ns (before file) =? st_mtime_ns (after file))%Z)
        (RecoveryReconciliationError "Recovery metadata changed during inspection.");
  lift match utf8_decode raw with
       | Some text => Ok text
       | None => Raise (RecoveryReconciliationError "Recovery metadata is not valid UTF-8.")
       end.

Definition _read_key_value_file p : eff M (list (string * string)) :=
  text ← read_bounded p;
  values ← lift (key_values (splitlines text) []);
  _ ← require (match values with [] => false | _ => true end)
        (RecoveryReconciliationError "Recovery metadata is empty.");
  mret values.

(** The value of a field that is there. *)
Definition field (values : list (string * string)) (key : string) : string :=
  default "" (assoc_get values key).

Definition _read_owner_marker marker_path : eff M (list (string * string)) :=
  marked ← asks (fun m => negb (is_symlink m marker_path) && is_file m marker_path);
  _ ← require marked
        (RecoveryReconciliationError "Verified workspace ownership marker is missing.");
  marker ← _read_key_value_file marker_path;
  _ ← require (has_fields marker ["schema"; "run_id"; "trusted_repo_path"; "baseline_commit_sha";
                                  "workspace_path"])
        (RecoveryReconciliationError "Ownership marker fields are incomplete or unsupported.");
  _ ← require (String.eqb (field marker "schema") OWNER_MARKER_SCHEMA)
        (RecoveryReconciliationError "Ownership marker schema is unsupported.");
  mret marker.

(** ** Locks *)

(** A kind of lock: its directory, the pattern of its files, its fields, and
    the identity a file name stands for. *)
Record lock_kind := mk_lock_kind {
  lk_root : PurePosixPath.t;
  lk_pattern : string;
  lk_kind : string;
  lk_schema : option string;
  lk_identity_field : string;
  lk_required : list string;
  lk_identity : PurePosixPath.t -> string;
}.

Definition guarded_run_lock (run_root : PurePosixPath.t) : lock_kind :=
  mk_lock_kind (joinpath run_root Backend._GUARDED_RUN_LOCK_DIR_NAME) "*.lock" "guarded_run_lock" None
    "lock_identity" ["pid"; "trace_id"; "trusted_repo_path"; "lock_identity"; "created_at_unix"]
    PurePosixPath.stem.

(** [path.name[1:-5]] *)
Definition artifact_lock (artifact_root : PurePosixPath.t) : lock_kind :=
  mk_lock_kind artifact_root ".*.lock" "artifact_lock" (Some ARTIFACT_LOCK_SCHEMA) "artifact_id"
    ["schema"; "pid"; "artifact_id"; "created_at_unix"]
    (fun p => let n := PurePosixPath.name p in String.substring 1 (String.length n - 6) n).

(** [sorted(root.glob(pattern))]: a directory that cannot be read is empty. *)
Definition lock_paths (m : M) (k : lock_kind) : list PurePosixPath.t :=
  match iterdir m (lk_root k) with
  | Ok l => sort_paths (List.filter (fun p => fnmatch (PurePosixPath.name p) (lk_pattern k)) l)
  | Raise _ => []
  end.

Definition plain_directory (m : M) p : bool := negb (is_symlink m p) && is_dir m p.
Definition plain_file (m : M) p : bool := negb (is_symlink m p) && is_file m p.

Definition _process_is_alive (pid : Z) : eff M bool :=
  reads (fun m => Runner._process_is_alive m (Some pid)).

Definition _parse_lock_created_at (raw : option string) : eff M double :=
  now ← asks clock_seconds;
  match parse_float (default "" raw) with
  | NoFloat => raise (RecoveryReconciliationError "Lock creation time is invalid.")
  | NotFinite => raise (RecoveryReconciliationError
                          "Lock creation time must be a finite positive timestamp.")
  | Finite created_at =>
      _ ← require (negb (created_at <=? 0)%Z)
            (RecoveryReconciliationError "Lock creation time must be a finite positive timestamp.");
      _ ← require (negb (dadd now (of_int MAX_LOCK_FUTURE_SKEW_SECONDS) <? created_at)%Z)
            (RecoveryReconciliationError "Lock creation time is unreasonably far in the future.");
      mret created_at
  end.

Definition _validate_guarded_lock_repository (value : string) : eff M PurePosixPath.t :=
  let candidate := expanduser (PurePosixPath.of_string value) in
  _ ← require (PurePosixPath.is_absolute candidate)
        (RecoveryReconciliationError "Guarded-run lock repository path must be absolute.");
  resolved ← asks (fun m => resolve m candidate);
  detected ← catch (detect_trusted_repo_root resolved) (fun e => if is_os_error e || is_session_error e
        then Some (raise (RecoveryReconciliationError
                            "Guarded-run lock repository identity could not be verified."))
        else None);
  _ ← require (bool_decide (detected = resolved))
        (RecoveryReconciliationError "Guarded-run lock path is not the trusted Git repository root.");
  mret resolved.

Definition _validate_lock_metadata (metadata : list (string * string)) (k : lock_kind)
    (expected_identity : string) : eff M Z :=
  _ ← require (has_fields metadata (lk_required k))
        (RecoveryReconciliationError "Lock fields are incomplete or unsupported.");
  _ ← require (bool_decide (assoc_get metadata (lk_identity_field k) = Some expected_identity))
        (RecoveryReconciliationError "Lock identity does not match its filename.");
  _ ← require (match lk_schema k with
               | Some schema => bool_decide (assoc_get metadata "schema" = Some schema)
               | None => true
               end) (RecoveryReconciliationError "Lock schema is missing or unsupported.");
  pid ← lift (_parse_positive_pid (assoc_get metadata "pid"));
  _ ← _parse_lock_created_at (assoc_get metadata "created_at_unix");
  _ ← whenever (String.eqb (lk_kind k) "guarded_run_lock")
        (_ ← _validate_guarded_lock_repository (field metadata "trusted_repo_path"); mret ());
  mret pid.

(** The process number of a lock whose contents are verified. *)
Definition verified_pid (k : lock_kind) p : eff M Z :=
  metadata ← _read_key_value_file p;
  _validate_lock_metadata metadata k (lk_identity k p).

(** The reason of the first lock that is active or cannot be verified. *)
Fixpoint first_block (k : lock_kind) (paths : list PurePosixPath.t) : eff M (option string) :=
  match paths with
  | [] => mret None
  | p :: paths =>
      plain ← asks (fun m => plain_file m p);
      if negb plain then mret (Some "uncertain: A lock path is not a regular non-symlink file.")
      else
        pid ← catch (pid ← verified_pid k p; mret (Ok pid)) (fun e => if is_reconciliation_error e
               then Some (mret (Raise (exn_text e))) else None);
        match pid with
        | Raise text =>
            mret (Some ("uncertain: Lock ownership could not be verified: " +++ text))
        | Ok pid =>
            alive ← _process_is_alive pid;
            if alive : bool
            then mret (Some "active: An active process lock protects this recovery category.")
            else first_block k paths
        end
  end.

Definition _lock_root_block_reason (k : lock_kind) : eff M (option string) :=
  there ← asks (fun m => exists_path m (lk_root k));
  if negb there then mret None
  else
    plain ← asks (fun m => plain_directory m (lk_root k));
    if negb plain then mret (Some "uncertain: Lock root is not a regular non-symlink directory.")
    else paths ← asks (fun m => lock_paths m k); first_block k paths.

(** One lock: a finding, unless the file is gone. *)
Definition reconcile_lock (k : lock_kind) p : eff M (option RecoveryFinding.t) :=
  let finding status message metadata :=
    Some (RecoveryFinding.mk (lk_kind k) (lk_identity k p) status message (Some (show p)) metadata) in
  plain ← asks (fun m => plain_file m p);
  if negb plain then
    mret (finding RecoveryFindingStatus.UNRESOLVED
            "Refusing to modify a non-regular or symlinked lock path." [])
  else
    pid ← catch (pid ← verified_pid k p; mret (Ok pid)) (fun e => if is_reconciliation_error e
           then Some (mret (Raise (exn_text e))) else None);
    match pid with
    | Raise text => mret (finding RecoveryFindingStatus.UNRESOLVED text [])
    | Ok pid =>
        alive ← _process_is_alive pid;
        if alive : bool then
          mret (finding RecoveryFindingStatus.ACTIVE
                  "Lock owner process is still active; the lock was retained." [("pid", PInt pid)])
        else
          removed ← Backend.calls (Runner.lock_unlink p);
          mret match removed with
               | Runner.LockMissing => None
               | Runner.LockDone => finding RecoveryFindingStatus.RECOVERED
                                      "Removed a verified stale process lock." [("stale_pid", PInt pid)]
               | failed => finding RecoveryFindingStatus.UNRESOLVED
                             ("Failed to remove a verified stale lock: " +++ Runner.lock_error_text failed)
                             [("pid", PInt pid)]
               end
    end.

(** ** Workspaces *)

Context (run_root : PurePosixPath.t).

Definition _session_from_marker (session_root : PurePosixPath.t) (marker : list (string * string))
    : eff M RecoverySession.t :=
  let run_id := field marker "run_id" in
  let baseline := field marker "baseline_commit_sha" in
  _ ← require (String.eqb run_id (PurePosixPath.name session_root))
        (RecoveryReconciliationError "Ownership marker run ID does not match the workspace directory.");
  _ ← require (identifier_ok run_id)
        (RecoveryReconciliationError "Ownership marker contains an invalid run ID.");
  _ ← require (valid_sha baseline)
        (RecoveryReconciliationError "Ownership marker contains an invalid baseline.");
  let given_repo := expanduser (PurePosixPath.of_string (field marker "trusted_repo_path")) in
  let given_workspace := expanduser (PurePosixPath.of_string (field marker "workspace_path")) in
  _ ← require (PurePosixPath.is_absolute given_repo && PurePosixPath.is_absolute given_workspace)
        (RecoveryReconciliationError "Ownership marker paths must be absolute.");
  trusted_repo ← asks (fun m => resolve m given_repo);
  workspace ← asks (fun m => resolve m given_workspace);
  expected_workspace ← asks (fun m => resolve m (joinpath session_root "workspace"));
  _ ← require (bool_decide (workspace = expected_workspace))
        (RecoveryReconciliationError
           "Ownership marker workspace does not match its controlled session path.");
  workspaces_root ← asks (fun m => resolve m (joinpath run_root "workspaces"));
  resolved_root ← asks (fun m => resolve m session_root);
  _ ← require (_strict_descendant resolved_root workspaces_root)
        (RecoveryReconciliationError
           "Workspace session escaped the configured Rygnal workspaces root.");
  _ ← require (negb (bool_decide (workspace = trusted_repo)))
        (RecoveryReconciliationError "Workspace marker resolves to the trusted repository.");
  detected_root ← detect_trusted_repo_root trusted_repo;
  _ ← require (bool_decide (detected_root = trusted_repo))
        (RecoveryReconciliationError "Ownership marker trusted path is not the Git repository root.");
  mret (RecoverySession.mk run_id trusted_repo workspace (lower baseline)
          (joinpath (joinpath run_root "timelines") run_id) None None).

Definition _quarantine_owned_session (session_root : PurePosixPath.t) (run_id : string)
    : eff M PurePosixPath.t :=
  quarantine_root ← _ensure_private_directory (joinpath run_root "quarantine");
  let destination := joinpath quarantine_root ("recovered-" +++ run_id) in
  taken ← asks (fun m => exists_path m destination);
  _ ← require (negb taken)
        (RecoveryReconciliationError "Workspace quarantine destination already exists.");
  _ ← sys (fs_replace session_root destination);
  mret destination.

Definition workspace_finding (identifier : string) (status : RecoveryFindingStatus.t) (message : string)
    (path : option string) (metadata : pydict) : RecoveryFinding.t :=
  RecoveryFinding.mk "workspace" identifier status message path metadata.

(** [except <errors> as exc: return RecoveryFinding(UNRESOLVED, str(exc))] *)
Definition or_unresolved {A} (errors : exn -> bool) (finding : string -> RecoveryFinding.t) (c : eff M A)
    : eff M (result RecoveryFinding.t A) :=
  catch (a ← c; mret (Ok a))
    (fun e => if errors e then Some (mret (Raise (finding (exn_text e)))) else None).

(** A workspace that is there but not registered with Git. *)
Definition quarantine_unregistered (session_root : PurePosixPath.t) (session : RecoverySession.t)
    : eff M RecoveryFinding.t :=
  let run_id := RecoverySession.run_id session in
  moved ← or_unresolved is_reconciliation_error
    (fun text => workspace_finding run_id RecoveryFindingStatus.UNRESOLVED text (Some (show session_root)) [])
    (_quarantine_owned_session session_root run_id);
  mret match moved with
       | Raise f => f
       | Ok quarantine =>
           workspace_finding run_id RecoveryFindingStatus.QUARANTINED
             ("Verified Rygnal workspace was no longer registered and was moved to quarantine.")
             (Some (show quarantine))
             [("trusted_repo_path", PStr (show (RecoverySession.trusted_repo_path session)));
              ("baseline_commit_sha", PStr (RecoverySession.baseline_commit_sha session))]
       end.

(** The body of the [try] for a workspace that is gone: what is left is
    quarantined, or the marker and the directory are removed. *)
Definition prune_missing (session_root marker_path : PurePosixPath.t) (session : RecoverySession.t)
    : eff M (option PurePosixPath.t) :=
  _ ← _run_git (RecoverySession.trusted_repo_path session) ["worktree"; "prune"; "--expire"; "now"];
  entries ← sys (fun m => (m, iterdir m session_root));
  match List.filter (fun entry => negb (bool_decide (entry = marker_path))) entries with
  | _ :: _ =>
      quarantine ← _quarantine_owned_session session_root (RecoverySession.run_id session);
      mret (Some quarantine)
  | [] => _ ← unlink_file marker_path; _ ← sys (fs_rmdir session_root); mret None
  end.

Definition recover_missing (session_root marker_path : PurePosixPath.t) (session : RecoverySession.t)
    : eff M RecoveryFinding.t :=
  let run_id := RecoverySession.run_id session in
  pruned ← or_unresolved (fun e => is_os_error e || is_reconciliation_error e)
    (fun text => workspace_finding run_id RecoveryFindingStatus.UNRESOLVED
       ("Failed to reconcile a missing owned workspace: " +++ text) (Some (show session_root)) [])
    (prune_missing session_root marker_path session);
  mret match pruned with
       | Raise f => f
       | Ok (Some quarantine) =>
           workspace_finding run_id RecoveryFindingStatus.QUARANTINED
             ("Missing worktree registration was pruned and residual owned state was quarantined.")
             (Some (show quarantine)) []
       | Ok None =>
           workspace_finding run_id RecoveryFindingStatus.RECOVERED
             "Pruned stale worktree metadata and removed verified empty ownership metadata."
             (Some (show session_root)) []
       end.

(** [path or other] of optional paths. *)
Definition or_path (a b : option string) : option string := if truthy_opt a then a else b.

Definition cleanup_finding (run_id : string) (cleanup : CleanupResult.t) : RecoveryFinding.t :=
  match CleanupResult.status cleanup with
  | CleanupStatus.CLEANED_GIT =>
      workspace_finding run_id RecoveryFindingStatus.RECOVERED (CleanupResult.message cleanup)
        (CleanupResult.workspace_path cleanup) []
  | CleanupStatus.CLEANED_FALLBACK =>
      workspace_finding run_id RecoveryFindingStatus.QUARANTINED (CleanupResult.message cleanup)
        (or_path (CleanupResult.quarantine_path cleanup) (CleanupResult.workspace_path cleanup)) []
  | CleanupStatus.CLEANUP_FAILED =>
      workspace_finding run_id RecoveryFindingStatus.UNRESOLVED (CleanupResult.message cleanup)
        (CleanupResult.workspace_path cleanup) []
  end.

(** The session a directory stands for, proved by its marker. *)
Definition marked_session (session_root : PurePosixPath.t) : eff M RecoverySession.t :=
  marker ← _read_owner_marker (joinpath session_root ".rygnal-owner");
  _session_from_marker session_root marker.

(** What is done with a session whose ownership is proved. *)
Definition recover_session (session_root : PurePosixPath.t) (session : RecoverySession.t)
    : eff M RecoveryFinding.t :=
  let workspace := RecoverySession.workspace_path session in
  let trusted_repo := RecoverySession.trusted_repo_path session in
  registered ← or_unresolved is_reconciliation_error
    (fun text => workspace_finding (RecoverySession.run_id session) RecoveryFindingStatus.UNRESOLVED text
                   (Some (show workspace)) [])
    (_registered_worktrees trusted_repo);
  match registered with
  | Raise f => mret f
  | Ok registered =>
      there ← asks (fun m => exists_path m workspace);
      if negb there then recover_missing session_root (joinpath session_root ".rygnal-owner") session
      else if negb (bool_decide (workspace ∈ registered)) then quarantine_unregistered session_root session
      else
        cleanup ← destroy_recovery_session session
          (RecoverySessionConfig.mk trusted_repo UntrackedFilePolicy.BLOCK (Some run_root));
        mret (cleanup_finding (RecoverySession.run_id session) cleanup)
  end.

Definition _recover_workspace (session_root : PurePosixPath.t) : eff M RecoveryFinding.t :=
  plain ← asks (fun m => plain_directory m session_root);
  let unresolved text := workspace_finding (PurePosixPath.name session_root)
    RecoveryFindingStatus.UNRESOLVED text (Some (show session_root)) [] in
  if negb plain then
    mret (unresolved "Refusing recovery for a non-directory or symlinked workspace session.")
  else
    session ← or_unresolved is_reconciliation_error unresolved (marked_session session_root);
    match session with
    | Raise f => mret f
    | Ok session => recover_session session_root session
    end.
End Machine.

(** ** The pass *)

Definition queue_exn (e : queue_error) : exn :=
  match e with
  | QueueExn e => e
  | _ => mk_exn RuntimeError "ApprovalQueueError" (Service.queue_error_text e)
  end.

(** What a call of the approval service raises. *)
Definition service_exn (e : Service.service_error) : exn :=
  match e with
  | Service.ApprovalOperationError text => mk_exn RuntimeError "ApprovalOperationError" text
  | Service.ApprovalArtifactBindingError text => mk_exn RuntimeError "ApprovalArtifactBindingError" text
  | Service.ApprovalOperationStateError text => mk_exn RuntimeError "ApprovalOperationStateError" text
  | Service.QueueFailure e => queue_exn e
  | Service.StoreFailure e => mk_exn RuntimeError "OperationStoreError" (OperationStore.error_message e)
  | Service.Escaped e => e
  | Service.AuditFailure text => Runner.audit_error text
  end.

(** [except ApprovalOperationError]: the class and its two subclasses. *)
Definition is_operation_error (e : exn) : bool :=
  mem (exn_name e) ["ApprovalOperationError"; "ApprovalArtifactBindingError"; "ApprovalOperationStateError"].

(** The findings of a loop over [l], in order; an exception ends it. *)
Fixpoint each {T A B} (f : A -> eff T B) (l : list A) : eff T (list B) :=
  match l with
  | [] => mret []
  | a :: l => b ← f a; bs ← each f l; mret (b :: bs)
  end.

(** The metadata of a stored apply names the approval, the patch and the
    baseline. *)
Definition event_matches (approval_id patch_sha256 baseline_commit_sha : string) (metadata : pydict) : bool :=
  py_eq (dict_get metadata "approval_id") (PStr approval_id)
  && py_eq (dict_get metadata "patch_sha256") (PStr patch_sha256)
  && py_eq (dict_get metadata "baseline_commit_sha") (PStr baseline_commit_sha).

Definition artifact_evidence (events : list pydict) (a : PatchArtifact.t) : bool :=
  existsb (event_matches (PatchArtifact.approval_request_id a) (PatchArtifact.patch_sha256 a)
             (PatchArtifact.baseline_commit_sha a)) events.

Definition _operation_has_apply_evidence (events : list pydict) (o : OperationStore.op_row) : bool :=
  existsb (event_matches (OperationStore.approval_id o) (OperationStore.patch_sha256 o)
             (OperationStore.baseline_commit_sha o)) events.

(** [metadata.get("artifact_id")], if it is a text. *)
Definition bound_artifact (q : Queued.t) : option string :=
  match dict_get (ApprovalRequest.metadata (Queued.request q)) "artifact_id" with
  | PStr id => Some id
  | _ => None
  end.

Definition _validate_artifact_binding (a : PatchArtifact.t) (q : Queued.t) : result exn () :=
  let request := Queued.request q in
  _ ← ensure (String.eqb (PatchArtifact.approval_request_id a) (Queued.approval_id q))
        (RecoveryReconciliationError "Artifact is bound to a different approval.");
  _ ← ensure (py_eq (ApprovalRequest.target request) (PStr (PatchArtifact.patch_sha256 a)))
        (RecoveryReconciliationError "Approval target does not match artifact digest.");
  ensure (match dict_get (ApprovalRequest.metadata request) "baseline_commit_sha" with
          | PNone => true
          | baseline => py_eq baseline (PStr (PatchArtifact.baseline_commit_sha a))
          end) (RecoveryReconciliationError "Approval baseline does not match artifact.").

Section Pass.
Context {M Q R L : Type} {WH : WorktreeHost M} {LH : Runner.LockHost M} {RH : RecoveryHost M}
  {AH : ArtifactHost} {QO : Service.ApprovalQueueOps Q} {AA : ApplyAudit L}.
Context (active : Z -> string -> bool)
  (inspect : string -> result OperationStore.op_error (string * bool)).
Context (run_root artifact_root : PurePosixPath.t) (c : Service.clock).

Notation services := (Service.services Q R L).

Record recon := mk_recon { r_machine : M; r_services : services }.

Definition on_machine {A} (f : eff M A) : eff recon A := fun t =>
  let '(m', r) := f (r_machine t) in (mk_recon m' (r_services t), r).

(** A call of the approval service. *)
Definition on_services {A} (f : Service.op A) : eff recon A := fun t =>
  let '(s', r) := f (r_services t) in (mk_recon (r_machine t) s', map_err service_exn r).

Definition artifacts (t : recon) : artifact_store := Service.files (r_services t).

Definition with_artifacts (t : recon) (m : M) (files : gmap string fs_entry) : recon :=
  let s := r_services t in
  mk_recon m (Service.mk_services (Service.queue s) (mk_artifact_store files (st_locks (Service.files s)))
                (Service.trusted s) (Service.ops s)).

(** *** The audit log *)

Definition log_decision (request : ToolRequest.t) (decision : PolicyDecision.t) (metadata : pydict)
    : eff recon () := fun t =>
  let s := r_services t in
  let '(w', r) := log_event request decision metadata (Service.trusted s) in
  (mk_recon (r_machine t) (Service.with_trusted s w'), map_err Runner.audit_error r).

Definition _write_finding_audit (trace_id : string) (f : RecoveryFinding.t) : eff recon () :=
  let unresolved := RecoveryFinding.has_status RecoveryFindingStatus.UNRESOLVED f in
  log_decision
    (ToolRequest.mk "rygnal_recovery" (Some ("reconcile_" +++ RecoveryFinding.kind f))
       (Some (RecoveryFinding.identifier f)) (of_dict (RecoveryFinding.to_dict f)) "local_operator"
       "rygnal_recovery" "local"
       [("trace_id", PStr trace_id); ("event_type", PStr "recovery.reconciliation_item")])
    (PolicyDecision.mk (if unresolved then BLOCK else ALLOW) (negb unresolved)
       (if unresolved then SevHigh else SevMedium) (RecoveryFinding.message f) (Some RECOVERY_POLICY_ID) None)
    (RecoveryFinding.to_dict f).

Definition _write_summary_audit (report : RecoveryReport.t) : eff recon () :=
  let ok := RecoveryReport.successful report in
  log_decision
    (ToolRequest.mk "rygnal_recovery" (Some "reconcile_local_state") (Some (show run_root))
       (of_dict [("mutated_count", PInt (Z.of_nat (RecoveryReport.mutated_count report)));
                 ("unresolved_count", PInt (Z.of_nat (RecoveryReport.unresolved_count report)))])
       "local_operator" "rygnal_recovery" "local"
       [("trace_id", PStr (RecoveryReport.trace_id report));
        ("event_type", PStr "recovery.reconciliation_completed")])
    (PolicyDecision.mk (if ok then ALLOW else BLOCK) ok (if ok then SevLow else SevHigh)
       (if ok then "Local Rygnal state reconciliation completed successfully."
        else "Local Rygnal state reconciliation completed with unresolved items.")
       (Some RECOVERY_POLICY_ID) None)
    (RecoveryReport.to_dict report).

(** Which findings of a loop are logged: changes and unresolved items. *)
Definition noteworthy (f : RecoveryFinding.t) : bool :=
  RecoveryFinding.mutated f || RecoveryFinding.has_status RecoveryFindingStatus.UNRESOLVED f.

(** Metadata of the stored events of the approved applies; the reader raises
    what the log raises. *)
Definition apply_events : eff recon (list pydict) := fun t =>
  (t, match w_log (Service.trusted (r_services t)) with
      | None => Ok []
      | Some log => map_err Runner.audit_error (policy_events log APPROVED_PATCH_APPLY_POLICY_ID)
      end).

Section Traced.
Context (trace_id : string).

Definition audited (f : RecoveryFinding.t) : eff recon RecoveryFinding.t :=
  _ ← whenever (noteworthy f) (_write_finding_audit trace_id f); mret f.

(** *** Deferred recovery *)

(** The finding of a category that a lock protects; the reason starts with
    "active:" or "uncertain:". *)
Definition deferred (kind identifier path reason : string) : RecoveryFinding.t :=
  RecoveryFinding.mk kind identifier
    (if startswith reason "active:" then RecoveryFindingStatus.ACTIVE else RecoveryFindingStatus.UNRESOLVED)
    (strip match cut ":" reason with Some (_, text) => text | None => reason end) (Some path) [].

Definition _reconcile_workspaces (blocked_reason : option string)
    : eff recon (list RecoveryFinding.t * nat) :=
  let workspaces_root := joinpath run_root "workspaces" in
  match blocked_reason with
  | Some reason =>
      f ← audited (deferred "workspace_recovery" "workspaces" (show workspaces_root) reason);
      mret ([f], O)
  | None =>
      there ← on_machine (asks (fun m => exists_path m workspaces_root));
      if negb there then mret ([], O)
      else
        plain ← on_machine (asks (fun m => plain_directory m workspaces_root));
        if negb plain then
          f ← audited (RecoveryFinding.mk "workspace_root" "workspaces" RecoveryFindingStatus.UNRESOLVED
                 "Workspace root is not a regular non-symlink directory." (Some (show workspaces_root)) []);
          mret ([f], 1%nat)
        else
          entries ← on_machine (sys (fun m => (m, iterdir m workspaces_root)));
          findings ← each (fun session_root =>
                        f ← on_machine (_recover_workspace run_root session_root); audited f)
                       (sort_paths entries);
          mret (findings, List.length entries)
  end.

Definition _reconcile_pid_locks (k : lock_kind) : eff recon (list RecoveryFinding.t * nat) :=
  there ← on_machine (asks (fun m => exists_path m (lk_root k)));
  if negb there then mret ([], O)
  else
    plain ← on_machine (asks (fun m => plain_directory m (lk_root k)));
    if negb plain then
      f ← audited (RecoveryFinding.mk (lk_kind k) (PurePosixPath.name (lk_root k))
             RecoveryFindingStatus.UNRESOLVED "Lock root is not a regular non-symlink directory."
             (Some (show (lk_root k))) []);
      mret ([f], 1%nat)
    else
      paths ← on_machine (asks (fun m => lock_paths m k));
      findings ← each (fun p =>
                    f ← on_machine (reconcile_lock k p);
                    match f with Some f => f ← audited f; mret (Some f) | None => mret None end) paths;
      mret (omap id findings, List.length paths).

(** *** Operations *)

Definition operation_finding (r : OperationStore.recovery) : RecoveryFinding.t :=
  RecoveryFinding.mk "artifact_apply_operation" (OperationStore.rec_operation_key r)
    match OperationStore.rec_status r with
    | OperationStore.ACTIVE => RecoveryFindingStatus.ACTIVE
    | OperationStore.UNRESOLVED => RecoveryFindingStatus.UNRESOLVED
    | _ => RecoveryFindingStatus.RECOVERED
    end (OperationStore.rec_message r) (Some (OperationStore.rec_target_repo_path r))
    [("artifact_id", PStr (OperationStore.rec_artifact_id r));
     ("operation_status", PStr match OperationStore.rec_status r with
        | OperationStore.ACTIVE => "active" | OperationStore.RELEASED => "released"
        | OperationStore.APPLIED_RECOVERED => "applied_recovered"
        | OperationStore.UNRESOLVED => "unresolved" end)].

(** An incomplete operation whose owner is gone makes the store ask for
    evidence. *)
Definition asks_evidence (db : OperationStore.db) : bool :=
  existsb (fun r => negb (OperationStore.owner_record_is_active active r)) (OperationStore.list_incomplete db).

(** [reconcile_incomplete] of the operation store; the events are read when
    evidence is first asked for. *)
Definition run_store (db : OperationStore.db) (events : list pydict)
    : eff recon (result OperationStore.op_error (list OperationStore.recovery)) := fun t =>
  match OperationStore.reconcile_incomplete active inspect (_operation_has_apply_evidence events)
          (Service.now c) db with
  | Raise e => (t, Ok (Raise e))
  | Ok (db', results) =>
      (mk_recon (r_machine t) (Service.with_ops (r_services t) db'), Ok (Ok results))
  end.

Definition reconcile_store (db : OperationStore.db)
    : eff recon (result OperationStore.op_error (list OperationStore.recovery)) :=
  events ← (if asks_evidence db then apply_events else mret []); run_store db events.

Definition _reconcile_operations : eff recon (list RecoveryFinding.t) :=
  store ← asks (fun t => Service.ops (r_services t));
  match store with
  | None => mret []
  | Some db =>
      results ← reconcile_store db;
      match results with
      | Raise OperationStore.OpIntegrityError =>
          raise (service_exn (Service.StoreFailure OperationStore.OpIntegrityError))
      | Raise e =>
          f ← audited (RecoveryFinding.mk "operation_store" "operations" RecoveryFindingStatus.UNRESOLVED
                         (OperationStore.error_message e) None []);
          mret [f]
      | Ok results => each (fun r => audited (operation_finding r)) results
      end
  end.

(** *** Artifacts *)

Definition artifact_path (id : string) : PurePosixPath.t := joinpath artifact_root (id +++ ".json").

Definition artifact_finding (id : string) (status : RecoveryFindingStatus.t) (message : string)
    (path : PurePosixPath.t) (metadata : pydict) : RecoveryFinding.t :=
  RecoveryFinding.mk "artifact" id status message (Some (show path)) metadata.

Definition unresolved_artifact (id message : string) : RecoveryFinding.t :=
  artifact_finding id RecoveryFindingStatus.UNRESOLVED message (artifact_path id) [].

(** [os.replace] of an artifact out of the directory. *)
Definition replace_artifact (id : string) (file : fs_entry) (destination : PurePosixPath.t) : eff recon () :=
  fun t =>
    match move_artifact id file destination (r_machine t) with
    | (m', Raise text) => (mk_recon m' (r_services t), Raise (os_error text))
    | (m', Ok _) => (with_artifacts t m' (delete id (st_files (artifacts t))), Ok ())
    end.

(** The move of an artifact without an approval into the quarantine. *)
Definition _quarantine_orphan_artifact (id : string) : eff recon PurePosixPath.t :=
  entry ← asks (fun t => st_files (artifacts t) !! id);
  file ← lift match entry with
              | None | Some NotRegular => Raise (RecoveryReconciliationError
                                            "Refusing to quarantine a non-regular artifact path.")
              | Some file => Ok file
              end;
  quarantine_root ← on_machine (_ensure_private_directory (joinpath artifact_root "quarantine"));
  let destination := joinpath quarantine_root (id +++ ".json") in
  taken ← on_machine (asks (fun m => exists_path m destination));
  _ ← require (negb taken)
        (RecoveryReconciliationError "Artifact quarantine destination already exists.");
  _ ← replace_artifact id file destination;
  mret destination.

(** The identifiers whose lock file is on the machine. *)
Definition locked_artifacts (m : M) : gset string :=
  list_to_set (List.map (lk_identity (artifact_lock artifact_root))
                 (lock_paths m (artifact_lock artifact_root))).

(** [artifact_store.mark_consumed] with the lock files of the machine, on
    which its own lock is not recorded: that it can be unlinked is assumed. *)
Definition consume_artifact (id : string) : eff recon PatchArtifact.t := fun t =>
  let f := consume_faults (r_machine t) id in
  let f := mk_disk_faults (lock_fault f) (first_fault f) (write_fault f) (reload_fault f) None None in
  let store := mk_artifact_store (st_files (artifacts t)) (locked_artifacts (r_machine t)) in
  let '((store', _), r) := mark_consumed f id (Service.now c) (store, ()) in
  (with_artifacts t (r_machine t) (st_files store'), r).

(** [except <errors> as exc: finding] *)
Definition or_finding {A} (errors : exn -> bool) (finding : string -> RecoveryFinding.t) (b : eff recon A)
    : eff recon (result RecoveryFinding.t A) :=
  catch (a ← b; mret (Ok a))
    (fun e => if errors e then Some (mret (Raise (finding (exn_text e)))) else None).

(** The finding of a step, or of its failure. *)
Definition settled {A} (finding : A -> RecoveryFinding.t) (r : result RecoveryFinding.t A)
    : RecoveryFinding.t :=
  match r with Ok a => finding a | Raise f => f end.

Definition quarantine_finding (id : string) : eff recon RecoveryFinding.t :=
  r ← or_finding is_reconciliation_error (unresolved_artifact id) (_quarantine_orphan_artifact id);
  mret (settled (fun quarantine => artifact_finding id RecoveryFindingStatus.QUARANTINED
          "Artifact had no authoritative approval binding and was quarantined." quarantine []) r).

Definition consume_finding (id : string) (a : PatchArtifact.t) : eff recon RecoveryFinding.t :=
  r ← or_finding Service.is_artifact_error
        (fun text => unresolved_artifact id
           ("Durable approved-apply evidence exists, but artifact consumption failed: " +++ text))
        (consume_artifact id);
  mret (settled (fun _ => artifact_finding id RecoveryFindingStatus.MARKED_CONSUMED
          "Recovered an interrupted approved apply by marking its artifact consumed." (artifact_path id)
          [("approval_id", PStr (PatchArtifact.approval_request_id a));
           ("patch_sha256", PStr (PatchArtifact.patch_sha256 a));
           ("baseline_commit_sha", PStr (PatchArtifact.baseline_commit_sha a))]) r).

Definition reject_finding (id : string) (q : Queued.t) : eff recon RecoveryFinding.t :=
  r ← or_finding is_operation_error
        (fun text => unresolved_artifact id ("Expired artifact could not be rejected safely: " +++ text))
        (on_services (Service.reject c (Queued.approval_id q) "rygnal_recovery"
           "Expired durable patch artifact rejected during crash recovery."));
  mret (settled (fun _ => artifact_finding id RecoveryFindingStatus.EXPIRED_REJECTED
          "Rejected a pending approval whose durable artifact had expired." (artifact_path id)
          [("approval_id", PStr (Queued.approval_id q))]) r).

(** The lifecycle of an artifact and of the approval bound to it. *)
Definition reconcile_bound (id : string) (a : PatchArtifact.t) (q : Queued.t) : eff recon RecoveryFinding.t :=
  events ← apply_events;
  let applied_evidence := artifact_evidence events a in
  let pending := String.eqb (PatchArtifact.state a) PATCH_ARTIFACT_STATE_PENDING in
  let consumed := String.eqb (PatchArtifact.state a) PATCH_ARTIFACT_STATE_CONSUMED in
  if pending && applied_evidence then consume_finding id a
  else if consumed && negb applied_evidence then
    mret (unresolved_artifact id
            "Consumed artifact has no matching durable approved-apply audit evidence.")
  else
    is_expired ← lift (expired a (Service.now c));
    if pending && is_expired && bool_decide (Queued.status q = PENDING) then reject_finding id q
    else if pending && is_expired && bool_decide (Queued.status q = APPROVED) then
      mret (artifact_finding id RecoveryFindingStatus.UNRESOLVED
              ("Approved artifact expired before trusted application and requires explicit operator " +++
               "resolution.") (artifact_path id) [("approval_id", PStr (Queued.approval_id q))])
    else
      mret (artifact_finding id RecoveryFindingStatus.COHERENT
              "Artifact and approval lifecycle state are coherent." (artifact_path id)
              [("artifact_state", PStr (PatchArtifact.state a));
               ("approval_status", PStr (approval_status_value (Queued.status q)));
               ("expired", PBool is_expired); ("applied_evidence", PBool applied_evidence)]).

Definition load_artifact (id : string) : eff recon PatchArtifact.t := fun t =>
  (t, load (artifacts t) id true true (Service.now c)).

(** A readable artifact against the approvals that name it. *)
Definition reconcile_loaded (queue_items : list Queued.t) (id : string) (a : PatchArtifact.t)
    : eff recon RecoveryFinding.t :=
  match List.filter (fun q => bool_decide (bound_artifact q = Some id)) queue_items with
  | [] => quarantine_finding id
  | [q] =>
      match _validate_artifact_binding a q with
      | Raise e => mret (unresolved_artifact id (exn_text e))
      | Ok _ => reconcile_bound id a q
      end
  | _ => mret (unresolved_artifact id "Multiple approvals reference the same durable artifact.")
  end.

Definition reconcile_artifact (queue_items : list Queued.t) (id : string) : eff recon RecoveryFinding.t :=
  entry ← asks (fun t => st_files (artifacts t) !! id);
  match entry with
  | None | Some NotRegular =>
      mret (unresolved_artifact id "Artifact path is not a regular non-symlink file.")
  | Some _ =>
      loaded ← or_finding Service.is_artifact_error (unresolved_artifact id) (load_artifact id);
      match loaded with
      | Raise f => mret f
      | Ok a => reconcile_loaded queue_items id a
      end
  end.

(** [root.glob("*.json")], sorted. *)
Definition artifact_ids (t : recon) : list string :=
  sort_by (fun a b => String.leb (a +++ ".json") (b +++ ".json")) (fst <$> map_to_list (st_files (artifacts t))).

(** An approval whose artifact is not in the directory. *)
Definition missing_artifact (ids : list string) (q : Queued.t) : option RecoveryFinding.t :=
  match bound_artifact q with
  | Some id =>
      if mem id ids then None
      else Some (RecoveryFinding.mk "approval" (Queued.approval_id q) RecoveryFindingStatus.UNRESOLVED
                   "Approval references a missing durable patch artifact." None
                   [("artifact_id", PStr id);
                    ("approval_status", PStr (approval_status_value (Queued.status q)))])
  | None => None
  end.

Definition list_queue : eff recon (list Queued.t) := fun t =>
  (t, map_err queue_exn (Service.queue_list (Service.queue (r_services t)) None)).

Definition _reconcile_artifacts (blocked_reason : option string)
    : eff recon (list RecoveryFinding.t * nat) :=
  match blocked_reason with
  | Some reason =>
      f ← audited (deferred "artifact_recovery" "artifacts" (show artifact_root) reason);
      mret ([f], O)
  | None =>
      ids ← asks artifact_ids;
      queue_items ← list_queue;
      operations ← _reconcile_operations;
      found ← each (fun id => f ← reconcile_artifact queue_items id; audited f) ids;
      missing ← each audited (omap (missing_artifact ids) queue_items);
      mret (operations ++ found ++ missing, List.length ids)
  end.

(** *** One pass *)

Definition _reconcile_without_lock_gate (workspace_block artifact_block : option string)
    : eff recon RecoveryReport.t :=
  workspaces ← _reconcile_workspaces workspace_block;
  guarded_locks ← _reconcile_pid_locks (guarded_run_lock run_root);
  artifact_locks ← _reconcile_pid_locks (artifact_lock artifact_root);
  artifacts ← _reconcile_artifacts artifact_block;
  let report := RecoveryReport.mk trace_id
    (fst workspaces ++ fst guarded_locks ++ fst artifact_locks ++ fst artifacts)
    (snd workspaces) (snd guarded_locks) (snd artifact_locks) (snd artifacts) in
  _ ← _write_summary_audit report;
  mret report.
End Traced.

(** The reasons are taken before the pass; [fresh_trace] is [new_trace_id()]. *)
Definition reconcile (trace_id : option string) (fresh_trace : string) : eff recon RecoveryReport.t :=
  workspace_block ← on_machine (_lock_root_block_reason (guarded_run_lock run_root));
  artifact_block ← on_machine (_lock_root_block_reason (artifact_lock artifact_root));
  _reconcile_without_lock_gate
    (if truthy_opt trace_id then default "" trace_id else fresh_trace) workspace_block artifact_block.
End Pass.

(** [RecoveryReconciler.__init__]: the resolved run root. *)
Definition RecoveryReconciler_init {M} {WH : WorktreeHost M} (run_root : PurePosixPath.t)
    : eff M PurePosixPath.t :=
  let candidate := expanduser run_root in
  _ ← require (PurePosixPath.is_absolute candidate)
        (RecoveryReconciliationError "Recovery run root must be absolute.");
  resolved ← asks (fun m => resolve m candidate);
  _ ← _ensure_private_directory resolved;
  mret resolved.

End Reconciler.
