(* ===== verification/ReconcilerSafety.v ===== *)
(** * What a recovery pass may change

    The recovery pass of [Reconciler] proves before it changes: the trusted
    repository and the granted approvals stay as they are, an artifact changes
    only by stored evidence of its apply or for want of an approval, a lock goes
    only with its process, and a workspace is touched only by its proved owner.
    The invariant is on the services, so every step on the machine keeps it. *)

From S2P Require Import OperationStore.
From S2P Require Export Reconciler.

Local Open Scope string_scope.
Local Open Scope list_scope.
Local Open Scope py_scope.

Module ReconcilerSafety.
Import Recovery Reconciler.

Section Services.
Context {M Q R L : Type} {WH : WorktreeHost M} {LH : Runner.LockHost M} {RH : RecoveryHost M}
  {AH : ArtifactHost} {QO : Service.ApprovalQueueOps Q} {AA : ApplyAudit L}.
Context (active : Z -> string -> bool)
  (inspect : string -> result OperationStore.op_error (string * bool)).
Context (run_root artifact_root : PurePosixPath.t) (c : Service.clock).

Notation recon := (recon (M:=M) (Q:=Q) (R:=R) (L:=L)).

(** ** What is relied on and promised *)

Definition trusted_of (t : recon) : world R L := Service.trusted (r_services t).

(** The log holds an event of an approved apply of this patch. *)
Definition evidence (log : option L) (approval_id patch_sha256 baseline : string) : Prop :=
  exists l events, log = Some l /\ policy_events l APPROVED_PATCH_APPLY_POLICY_ID = Ok events /\
    existsb (event_matches approval_id patch_sha256 baseline) events = true.

(** An event of another policy, or one that names no approval, is no evidence:
    the reader filters by the policy and returns the metadata as it was
    written. *)
Definition honest_log : Prop := forall l request decision metadata approval_id patch_sha256 baseline,
  PolicyDecision.policy_id decision <> Some APPROVED_PATCH_APPLY_POLICY_ID \/
    dict_get metadata "approval_id" = PNone ->
  evidence (Some (fst (write_audit l request decision metadata))) approval_id patch_sha256 baseline ->
  evidence (Some l) approval_id patch_sha256 baseline.

(** A decision that does not approve is recorded. *)
Definition reject_step (q q' : Q) : Prop :=
  exists id d, ApprovalDecision.approved d = false /\ q' = fst (Service.queue_record q id d).

(** The operations are those the operation store recovers from evidence of the
    log, and no others. *)
Definition operations_settled (t0 : recon) (o : option OperationStore.db) : Prop :=
  o = Service.ops (r_services t0) \/
  exists db db' results has_evidence, Service.ops (r_services t0) = Some db /\ o = Some db' /\
    OperationStore.reconcile_incomplete active inspect has_evidence (Service.now c) db = Ok (db', results) /\
    forall r, has_evidence r = true ->
      evidence (w_log (trusted_of t0)) (OperationStore.approval_id r) (OperationStore.patch_sha256 r)
        (OperationStore.baseline_commit_sha r).

(** An artifact is unchanged; or it was pending, its apply is in the log, and
    now it is consumed; or it was readable, no approval was bound to it, and
    its file is gone. *)
Definition artifact_settled (t0 : recon) (files : artifact_store) (id : string) : Prop :=
  st_files files !! id = st_files (artifacts t0) !! id \/
  (exists a a', load (artifacts t0) id true true (Service.now c) = Ok a /\
     PatchArtifact.state a = PATCH_ARTIFACT_STATE_PENDING /\
     evidence (w_log (trusted_of t0)) (PatchArtifact.approval_request_id a) (PatchArtifact.patch_sha256 a)
       (PatchArtifact.baseline_commit_sha a) /\
     stored_artifact files id a' /\ PatchArtifact.state a' = PATCH_ARTIFACT_STATE_CONSUMED) \/
  (st_files files !! id = None /\ (exists a, load (artifacts t0) id true true (Service.now c) = Ok a) /\
   exists items, Service.queue_list (Service.queue (r_services t0)) None = Ok items /\
     forall q, q ∈ items -> bound_artifact q <> Some id).

(** A pass leaves the trusted repository, grants no approval, and settles
    artifacts and operations by evidence of the log it found. *)
Record conservative (t0 t : recon) : Prop := mk_conservative {
  cv_repo : w_repo (trusted_of t) = w_repo (trusted_of t0);
  cv_used : w_used (trusted_of t) = w_used (trusted_of t0);
  cv_queue : rtc reject_step (Service.queue (r_services t0)) (Service.queue (r_services t));
  cv_artifacts : forall id, artifact_settled t0 (artifacts t) id;
  cv_operations : operations_settled t0 (Service.ops (r_services t));
}.

(** ** The invariant *)

(** The world of the log: repository and used approvals as before, and no new
    evidence. *)
Record kept (w0 w : world R L) : Prop := mk_kept {
  k_repo : w_repo w = w_repo w0;
  k_used : w_used w = w_used w0;
  k_log : forall approval_id patch_sha256 baseline,
    evidence (w_log w) approval_id patch_sha256 baseline ->
    evidence (w_log w0) approval_id patch_sha256 baseline;
}.

Context (t0 : recon) (honest : honest_log).

Definition inv (X : Q -> artifact_store -> option OperationStore.db -> Prop) (t : recon) : Prop :=
  kept (trusted_of t0) (trusted_of t) /\
  X (Service.queue (r_services t)) (artifacts t) (Service.ops (r_services t)).

(** Before the artifacts, after the operations, and in between. *)
Definition untouched (q : Q) (f : artifact_store) (o : option OperationStore.db) : Prop :=
  q = Service.queue (r_services t0) /\ f = artifacts t0 /\ o = Service.ops (r_services t0).
Definition reconciled (q : Q) (f : artifact_store) (o : option OperationStore.db) : Prop :=
  q = Service.queue (r_services t0) /\ f = artifacts t0 /\ operations_settled t0 o.
Definition settling (q : Q) (f : artifact_store) (o : option OperationStore.db) : Prop :=
  rtc reject_step (Service.queue (r_services t0)) q /\ (forall id, artifact_settled t0 f id) /\
  operations_settled t0 o.

Lemma untouched_reconciled t : inv untouched t -> inv reconciled t.
Proof. intros [Hk (Hq & Hf & Ho)]. split; [done|]. split_and!; [done..|by left]. Qed.

Lemma reconciled_settling t : inv reconciled t -> inv settling t.
Proof.
  intros [Hk (Hq & Hf & Ho)]. split; [done|]. rewrite Hq, Hf. split_and!; [apply rtc_refl|by left|done].
Qed.

Lemma settling_conservative t : inv settling t -> conservative t0 t.
Proof. intros [[Hr Hu _] (Hq & Hf & Ho)]. by constructor. Qed.

Lemma machine_keeps {A} X (f : eff M A) : keeps (inv X) (on_machine f).
Proof. intros [m s] H. unfold on_machine. cbn. destruct (f m) as [m' r]. exact H. Qed.

Lemma log_event_kept request decision metadata w w' r :
  PolicyDecision.policy_id decision <> Some APPROVED_PATCH_APPLY_POLICY_ID \/
    dict_get metadata "approval_id" = PNone ->
  kept (trusted_of t0) w -> log_event request decision metadata w = (w', r) -> kept (trusted_of t0) w'.
Proof.
  intros Hd [Hr Hu Hl] H. unfold log_event in H. destruct (w_log w) as [l|] eqn:El.
  - destruct (write_audit l request decision metadata) as [l' r'] eqn:Ew. injection H as <- <-.
    constructor; [done..|]. intros x y z He. cbn [w_log] in He. apply Hl, (honest l request decision metadata);
      [done|]. by rewrite Ew.
  - injection H as <- <-. constructor; [done..|]. by rewrite El.
Qed.

Lemma decision_keeps X request decision metadata :
  PolicyDecision.policy_id decision = Some RECOVERY_POLICY_ID ->
  keeps (inv X) (Reconciler.log_decision request decision metadata).
Proof.
  intros Hp [m s] [Hk HX]. unfold Reconciler.log_decision. cbn [r_services].
  destruct (log_event request decision metadata (Service.trusted s)) as [w' r] eqn:E. cbn [fst].
  split; [|exact HX]. eapply log_event_kept; [|exact Hk|exact E]. left. by rewrite Hp.
Qed.

Lemma audited_keeps X trace f : keeps (inv X) (audited trace f).
Proof.
  apply bind_keeps; [|intros _; apply ret_keeps]. apply whenever_keeps. by apply decision_keeps.
Qed.

Lemma each_keeps {T A B} (P : T -> Prop) (f : A -> eff T B) l :
  (forall a, keeps P (f a)) -> keeps P (each f l).
Proof.
  intros Hf. induction l as [|a l IH]; cbn; [apply ret_keeps|].
  apply bind_keeps; [done|]. intros b. apply bind_keeps; [done|]. intros bs. apply ret_keeps.
Qed.

(** *** Workspaces and locks *)

Hint Resolve machine_keeps audited_keeps each_keeps : eff.

Lemma workspaces_keep X trace block : keeps (inv X) (_reconcile_workspaces run_root trace block).
Proof. unfold _reconcile_workspaces. keeps. Qed.

Lemma locks_keep X trace k : keeps (inv X) (_reconcile_pid_locks trace k).
Proof. unfold _reconcile_pid_locks. keeps. apply each_keeps. intros p. keeps. Qed.

(** *** Operations *)

Lemma evidence_of_events t events ap sha base :
  inv untouched t -> apply_events t = (t, Ok events) ->
  existsb (event_matches ap sha base) events = true ->
  evidence (w_log (trusted_of t0)) ap sha base.
Proof.
  intros [Hk _] H He. apply (k_log _ _ Hk). unfold apply_events in H. unfold trusted_of.
  destruct (w_log (Service.trusted (r_services t))) as [l|]; [|injection H as <-; done].
  destruct (policy_events l _) as [ev|e] eqn:E; [injection H as ->; by exists l, events|done].
Qed.

Lemma run_store_settles db events :
  Service.ops (r_services t0) = Some db ->
  (forall ap sha base, existsb (event_matches ap sha base) events = true ->
     evidence (w_log (trusted_of t0)) ap sha base) ->
  triple (inv untouched) (run_store active inspect c db events) (fun _ => inv reconciled) (inv reconciled).
Proof.
  intros Hdb He t Ht. unfold run_store.
  destruct (OperationStore.reconcile_incomplete active inspect (_operation_has_apply_evidence events)
              (Service.now c) db) as [[db' results]|e] eqn:E; [|by apply untouched_reconciled].
  destruct Ht as [Hk (Hq & Hf & _)]. split; [exact Hk|]. split_and!; [done..|]. right.
  exists db, db', results, (_operation_has_apply_evidence events). split_and!; try done.
  intros r Hr. by apply He.
Qed.

Lemma operations_settle trace :
  triple (inv untouched) (_reconcile_operations active inspect c trace) (fun _ => inv reconciled)
    (inv reconciled).
Proof.
  unfold _reconcile_operations.
  apply (triple_bind _ _ _ (fun o t => inv untouched t /\ o = Service.ops (r_services t0))).
  { apply triple_asks. intros t Ht. split; [done|]. apply Ht. }
  intros [db|]; apply triple_pure; intros Ho; [|by apply triple_ret, untouched_reconciled].
  apply (triple_bind _ _ _ (fun _ => inv reconciled)).
  - unfold reconcile_store.
    apply (triple_bind _ _ _ (fun events t => inv untouched t /\ forall ap sha base,
      existsb (event_matches ap sha base) events = true -> evidence (w_log (trusted_of t0)) ap sha base)).
    + intros t Ht. destruct (asks_evidence active db); [|split; [exact Ht|intros; done]].
      destruct (apply_events t) as [t' [events|e]] eqn:E.
      * assert (t' = t) as -> by (unfold apply_events in E; by injection E).
        split; [done|]. intros ap sha base. by eapply evidence_of_events.
      * unfold apply_events in E. injection E as <- _. by apply untouched_reconciled.
    + intros events. apply triple_pure. intros He. by apply run_store_settles.
  - intros [results|e].
    + apply triple_keeps. auto with eff.
    + apply triple_keeps. destruct e; auto with eff; keeps.
Qed.

(** *** Artifacts *)

Lemma settled_files f f' id :
  st_files f' !! id = st_files f !! id -> artifact_settled t0 f id -> artifact_settled t0 f' id.
Proof.
  intros E [H|[(a & a' & Ha & Hp & He & Hs & Hc)|[H Hb]]].
  - left. by rewrite E.
  - right; left. exists a, a'. split_and!; try done. by eapply stored_files.
  - right; right. by rewrite E.
Qed.

(** What is read now was there before the pass, and a pending artifact is as
    it was. *)
Lemma loaded_before f id a :
  artifact_settled t0 f (strip id) -> load f id true true (Service.now c) = Ok a ->
  (exists a0, load (artifacts t0) id true true (Service.now c) = Ok a0) /\
  (PatchArtifact.state a = PATCH_ARTIFACT_STATE_PENDING ->
   load (artifacts t0) id true true (Service.now c) = Ok a).
Proof.
  intros Hs H. apply Service.load_strip in H as [Hid H]. rewrite Service.load_strip.
  pose proof H as Hl. apply load_iff in Hl as (Hst & Hco & Hex); [|done].
  destruct Hs as [E|[(a0 & a' & Ha & _ & _ & Hs & Hc)|[En _]]].
  - assert (Hl0 : load (artifacts t0) (strip id) true true (Service.now c) = Ok a).
    { apply load_iff; [done|]. split_and!; try done. by eapply stored_files. }
    split; [|by intros _]. exists a. by rewrite Service.load_strip.
  - split; [exists a0; by rewrite Service.load_strip|].
    rewrite (stored_unique _ _ _ _ Hst Hs), Hc. done.
  - destruct (sa_file _ _ _ Hst) as (? & ? & ? & _). congruence.
Qed.

Lemma consume_keeps id a :
  load (artifacts t0) id true true (Service.now c) = Ok a ->
  PatchArtifact.state a = PATCH_ARTIFACT_STATE_PENDING ->
  evidence (w_log (trusted_of t0)) (PatchArtifact.approval_request_id a) (PatchArtifact.patch_sha256 a)
    (PatchArtifact.baseline_commit_sha a) ->
  keeps (inv settling) (consume_artifact artifact_root c id).
Proof.
  intros Hl Hp He t (Hk & Hq & Hf & Ho). unfold consume_artifact.
  destruct (mark_consumed _ id _ _) as [[store' u] r] eqn:E. cbn [fst].
  split; [exact Hk|]. split_and!; [exact Hq| |exact Ho]. intros id'. cbn.
  apply mark_consumed_inv in E as (_ & _ & [Hst|(_ & Hsp & f & Hst)]); cbn [st_files] in Hst.
  - eapply settled_files, Hf. cbn. by rewrite Hst.
  - destruct (decide (id' = strip id)) as [->|Hn].
    + apply Service.load_strip in Hl as [_ Hl]. right; left.
      destruct Hsp as [Hn|(a' & Ha' & Hc)].
      { by rewrite Hst, lookup_insert_eq in Hn. }
      exists a, a'. split_and!; try done. eapply stored_files, Ha'. done.
    + eapply settled_files, Hf. cbn. rewrite Hst, lookup_insert_ne; [done|congruence].
Qed.

Lemma reject_keeps id by_ reason :
  keeps (inv settling) (on_services (M:=M) (Service.reject c id by_ reason)).
Proof.
  intros [m s] (Hk & Hq & Hf & Ho). unfold on_services. cbn [r_services r_machine].
  assert (Hsame : inv settling (mk_recon m s)) by (split; [exact Hk|by split_and!]).
  unfold Service.reject, Service.decide_with.
  destruct (map_err _ _ ≫= _) as [d|e] eqn:Ed; [|exact Hsame].
  apply bind_Ok_inv in Ed as (q & _ & Ed). apply bind_Ok_inv in Ed as (a & _ & Ed).
  assert (Hd : ApprovalDecision.approved d = false).
  { destruct (reject_patch_request _ _ _ _ _) as [d'|] eqn:Er; [|done]. injection Ed as <-.
    unfold reject_patch_request in Er. by apply bind_Ok_inv in Er as ([] & _ & [= <-]). }
  unfold Service.record_and_view.
  destruct (Service.queue_record (Service.queue s) id d) as [q' r'] eqn:Er.
  assert (Hq' : rtc reject_step (Service.queue (r_services t0)) q').
  { eapply rtc_r; [exact Hq|]. exists id, d. split; [done|]. cbn. by rewrite Er. }
  destruct r' as [updated|e]; [|split; [exact Hk|by split_and!]].
  destruct (Service._required_decision updated) as [d'|e]; [|split; [exact Hk|by split_and!]].
  unfold decision_event.
  destruct (log_event _ _ _ _) as [w' [u|text]] eqn:El;
    (split; [refine (log_event_kept _ _ _ _ _ _ _ Hk El); by right|by split_and!]).
Qed.

Section Bound.
Context (items : list Queued.t).
Hypothesis Hitems : Service.queue_list (Service.queue (r_services t0)) None = Ok items.

Lemma or_finding_keeps {A} P errors finding (b : eff recon A) : keeps P b -> keeps P (or_finding errors finding b).
Proof.
  intros Hb. apply catch_keeps; [keeps|]. intros e k. destruct (errors e); [|done].
  intros [= <-]. apply ret_keeps.
Qed.

Lemma replace_keeps id file destination :
  (exists a, load (artifacts t0) id true true (Service.now c) = Ok a) ->
  (forall q, q ∈ items -> bound_artifact q <> Some id) ->
  keeps (inv settling) (replace_artifact (M:=M) (Q:=Q) (L:=L) (R:=R) id file destination).
Proof.
  intros Hl Hn t (Hk & Hq & Hf & Ho). unfold replace_artifact.
  destruct (move_artifact _ _ _ _) as [m' [u|text]]; (split; [exact Hk|]); [|by split_and!].
  split_and!; [exact Hq| |exact Ho]. intros id'. cbn.
  destruct (decide (id' = id)) as [->|Hne].
  - right; right. split_and!; [cbn; by rewrite lookup_delete_eq|done|by exists items].
  - eapply settled_files, Hf. cbn. rewrite lookup_delete_ne; [done|congruence].
Qed.

Lemma quarantine_keeps id :
  (exists a, load (artifacts t0) id true true (Service.now c) = Ok a) ->
  (forall q, q ∈ items -> bound_artifact q <> Some id) ->
  keeps (inv settling) (quarantine_finding artifact_root id).
Proof.
  intros Hl Hn. unfold quarantine_finding, _quarantine_orphan_artifact.
  apply bind_keeps; [apply or_finding_keeps|intros; keeps]. pose proof (replace_keeps id) as Hr.
  keeps. all: auto.
Qed.

(** The evidence read during the pass was there before it. *)
Lemma events_settling t t' events ap sha base :
  inv settling t -> apply_events t = (t', Ok events) ->
  existsb (event_matches ap sha base) events = true -> evidence (w_log (trusted_of t0)) ap sha base.
Proof.
  intros [Hk _] H He. apply (k_log _ _ Hk). unfold apply_events in H. unfold trusted_of.
  destruct (w_log (Service.trusted (r_services t))) as [l|]; [|injection H as _ <-; done].
  destruct (policy_events l _) as [ev|e] eqn:E; [injection H as _ ->; by exists l, events|done].
Qed.

Lemma bound_settles id a q :
  (PatchArtifact.state a = PATCH_ARTIFACT_STATE_PENDING ->
   load (artifacts t0) id true true (Service.now c) = Ok a) ->
  triple (inv settling) (reconcile_bound artifact_root c id a q) (fun _ => inv settling) (inv settling).
Proof.
  intros Hl. unfold reconcile_bound.
  apply (triple_bind _ _ _ (fun events t => inv settling t /\
    (artifact_evidence events a = true -> evidence (w_log (trusted_of t0))
       (PatchArtifact.approval_request_id a) (PatchArtifact.patch_sha256 a) (PatchArtifact.baseline_commit_sha a)))).
  { intros t Ht. destruct (apply_events t) as [t' [events|e]] eqn:E;
      assert (t' = t) as -> by (unfold apply_events in E; by injection E); [|done].
    split; [done|]. intros He. by eapply events_settling. }
  intros events. apply triple_pure. intros He. apply triple_keeps.
  destruct (String.eqb_spec (PatchArtifact.state a) PATCH_ARTIFACT_STATE_PENDING) as [Hp|Hp];
    destruct (artifact_evidence events a) eqn:Ee; cbn [andb negb];
    pose proof reject_keeps as Hrej; pose proof (@or_finding_keeps) as Hof; keeps.
  all: unfold consume_finding, reject_finding; apply bind_keeps; [apply or_finding_keeps|intros; keeps]; auto.
  apply (consume_keeps id a); auto.
Qed.

Lemma loaded_settles id a :
  (exists a0, load (artifacts t0) id true true (Service.now c) = Ok a0) ->
  (PatchArtifact.state a = PATCH_ARTIFACT_STATE_PENDING ->
   load (artifacts t0) id true true (Service.now c) = Ok a) ->
  triple (inv settling) (reconcile_loaded artifact_root c items id a) (fun _ => inv settling) (inv settling).
Proof.
  intros Hsome Hp. unfold reconcile_loaded.
  destruct (List.filter _ items) as [|q [|q' qs]] eqn:Ef.
  - apply triple_keeps, quarantine_keeps; [done|]. intros q Hq Hb.
    assert (Hin : In q (List.filter (fun q => bool_decide (bound_artifact q = Some id)) items)).
    { apply filter_In. split; [by apply list_elem_of_In|]. by apply bool_decide_eq_true. }
    rewrite Ef in Hin. destruct Hin.
  - destruct (_validate_artifact_binding a q); [by apply bound_settles|by apply triple_ret].
  - by apply triple_ret.
Qed.

Lemma load_settles id :
  triple (inv settling)
    (or_finding Service.is_artifact_error (unresolved_artifact artifact_root id)
       (load_artifact (M:=M) (Q:=Q) (R:=R) (L:=L) c id))
    (fun loaded t => inv settling t /\ forall a, loaded = Ok a ->
       (exists a0, load (artifacts t0) id true true (Service.now c) = Ok a0) /\
       (PatchArtifact.state a = PATCH_ARTIFACT_STATE_PENDING ->
        load (artifacts t0) id true true (Service.now c) = Ok a)) (inv settling).
Proof.
  intros t Ht. pose proof (loaded_before (artifacts t) id) as Hl.
  assert (Hf : artifact_settled t0 (artifacts t) (strip id)) by apply Ht.
  unfold or_finding, catch, mbind, eff_bind, load_artifact.
  destruct (load (artifacts t) id true true (Service.now c)) as [a|e].
  - split; [exact Ht|]. intros a' [= <-]. by apply Hl.
  - destruct (Service.is_artifact_error e); [split; [exact Ht|done]|exact Ht].
Qed.

Lemma artifact_settles id :
  triple (inv settling) (reconcile_artifact artifact_root c items id) (fun _ => inv settling) (inv settling).
Proof.
  unfold reconcile_artifact. apply triple_after; [keeps|done|].
  intros [[| |]|]; try by apply triple_ret.
  all: eapply triple_bind; [apply load_settles|]; intros [a|f]; apply triple_pure; intros Ha;
    [|by apply triple_ret].
  all: destruct (Ha a eq_refl) as [Hsome Hp]; by apply loaded_settles.
Qed.

Lemma artifacts_settle trace ids :
  keeps (inv settling)
    (each (fun id => f ← reconcile_artifact artifact_root c items id; audited trace f) ids).
Proof.
  apply each_keeps. intros id. apply bind_keeps; [|intros f; apply audited_keeps].
  intros t Ht. pose proof (artifact_settles id t Ht) as H.
  by destruct (reconcile_artifact artifact_root c items id t) as [t' [f|e]].
Qed.
End Bound.

Lemma pass_settles trace block :
  triple (inv untouched) (_reconcile_artifacts active inspect artifact_root c trace block)
    (fun _ => inv settling) (inv settling).
Proof.
  unfold _reconcile_artifacts. destruct block as [reason|].
  { apply (triple_weaken (inv untouched) _ _ (fun _ => inv untouched) _ (inv untouched));
      [apply triple_keeps; keeps|done|..]; intros; by apply reconciled_settling, untouched_reconciled. }
  apply triple_after; [keeps|intros; by apply reconciled_settling, untouched_reconciled|]. intros ids.
  apply (triple_bind _ _ _ (fun items t => inv untouched t /\
    Service.queue_list (Service.queue (r_services t0)) None = Ok items)).
  { intros t Ht. unfold list_queue. destruct (Service.queue_list _ None) as [items|e] eqn:E.
    - split; [done|]. destruct Ht as [_ [<- _]]. exact E.
    - by apply reconciled_settling, untouched_reconciled. }
  intros items. apply triple_pure. intros Hitems.
  apply (triple_bind _ _ _ (fun _ => inv settling)).
  { eapply triple_weaken; [apply operations_settle|done|..]; intros; by apply reconciled_settling. }
  intros operations. apply triple_keeps. apply bind_keeps; [by apply artifacts_settle|].
  intros found. keeps.
Qed.

(** ** The theorem *)

(** C16 A recovery pass, whether it returns or raises, leaves the trusted repository
    and the used approvals, records no approval, consumes only pending artifacts
    whose apply the log held before the pass, removes only artifacts no approval
    was bound to, and recovers operations only by evidence of that log. *)
Theorem recovery_settles_by_evidence trace fresh t r :
  reconcile active inspect run_root artifact_root c trace fresh t0 = (t, r) -> conservative t0 t.
Proof.
  intros H. apply settling_conservative.
  assert (H0 : inv untouched t0) by (split; [by constructor|by split_and!]).
  revert H0. change t with (fst (t, r)). rewrite <- H. apply triple_any. unfold reconcile.
  assert (Hs : forall t, inv untouched t -> inv settling t)
    by (intros; by apply reconciled_settling, untouched_reconciled).
  apply triple_after; [keeps|done|]. intros workspace_block.
  apply triple_after; [keeps|done|]. intros artifact_block. unfold _reconcile_without_lock_gate.
  apply triple_after; [apply workspaces_keep|done|]. intros workspaces.
  apply triple_after; [apply locks_keep|done|]. intros guarded.
  apply triple_after; [apply locks_keep|done|]. intros locks.
  eapply triple_bind; [apply pass_settles|]. intros found.
  apply triple_keeps, bind_keeps; [by apply decision_keeps|]. intros u. keeps.
Qed.
End Services.

(** ** The machine *)

Section Machine.
Context {M : Type} {WH : WorktreeHost M} {LH : Runner.LockHost M} {RH : RecoveryHost M}.
Hypothesis Hgit : git_reports_only (M := M).
Implicit Types (p : PurePosixPath.t) (m : M).

(** The verified contents of the lock: its fields, its identity, its process. *)
Definition lock_of m (k : lock_kind) p (pid : Z) : Prop :=
  exists metadata, snd (_read_key_value_file p m) = Ok metadata /\
    has_fields metadata (lk_required k) = true /\
    assoc_get metadata (lk_identity_field k) = Some (lk_identity k p) /\
    _parse_positive_pid (assoc_get metadata "pid") = Ok pid.

Definition process_alive m (pid : Z) : Prop :=
  Runner.kill_zero m pid = Runner.KillDone \/ Runner.kill_zero m pid = Runner.PermissionDenied.

Lemma reads_run {A} (f : M -> result exn A) m m' a : reads f m = (m', Ok a) <-> m' = m /\ f m = Ok a.
Proof. unfold reads. split; [by intros [= -> ->]|by intros [-> ->]]. Qed.

Lemma reads_keeps {A} P (f : M -> result exn A) : keeps P (reads f).
Proof. intros m Hm. exact Hm. Qed.

Hint Resolve reads_keeps sys_keeps : eff.

Lemma metadata_keeps P p : keeps P (_read_key_value_file p).
Proof. unfold _read_key_value_file, read_bounded. keeps. Qed.

Lemma toplevel_keeps P p : keeps P (detect_trusted_repo_root p).
Proof.
  unfold detect_trusted_repo_root. keeps. apply or_session_error_keeps. by apply report_keeps.
Qed.

Lemma lock_metadata_keeps P metadata k identity : keeps P (_validate_lock_metadata metadata k identity).
Proof.
  unfold _validate_lock_metadata, _parse_lock_created_at, _validate_guarded_lock_repository. keeps.
  all: try (apply catch_keeps; [apply toplevel_keeps|]; intros e h; destruct (_ || _); [|done];
            intros [= <-]; apply raise_keeps).
Qed.

Lemma verified_keeps P k p : keeps P (verified_pid k p).
Proof. apply bind_keeps; [apply metadata_keeps|intros; apply lock_metadata_keeps]. Qed.

Lemma verified_run k p m m' pid : verified_pid k p m = (m', Ok pid) -> lock_of m k p pid.
Proof.
  unfold verified_pid. intros H. apply bind_run in H as (m1 & metadata & Hr & H).
  pose proof (metadata_keeps (eq m) p m eq_refl) as Hm. rewrite Hr in Hm. cbn in Hm. subst m1.
  exists metadata. rewrite Hr. unfold _validate_lock_metadata in H. inv_eff.
  repeat match goal with H : bool_decide _ = true |- _ => apply bool_decide_eq_true in H end. done.
Qed.

(** A [try] around a computation that only reads. *)
Lemma quiet_try {A B} (b : eff M A) (errors : exn -> bool) (f : string -> B) m m' x :
  keeps (eq m) b ->
  catch (a ← b; mret (Ok a)) (fun e => if errors e then Some (mret (Raise (f (exn_text e)))) else None) m
    = (m', x) ->
  m' = m /\ forall a, x = Ok (Ok a) -> b m = (m, Ok a).
Proof.
  intros Hk H. unfold catch, mbind, eff_bind, mret, eff_ret in H. specialize (Hk m eq_refl).
  destruct (b m) as [m1 [a|e]]; cbn in Hk; subst m1.
  - injection H as <- <-. split; [done|]. by intros a' [= <-].
  - destruct (errors e); injection H as <- <-; done.
Qed.

Lemma positive_pid raw pid : _parse_positive_pid raw = Ok pid -> (0 < pid)%Z.
Proof.
  unfold _parse_positive_pid. destruct (int_of_text _) as [z|]; [|done].
  intros ([] & Hz%ensure_Ok & [= <-])%bind_Ok_inv. apply negb_true_iff, Z.leb_gt in Hz. lia.
Qed.

Lemma not_alive m k p pid b :
  lock_of m k p pid -> Runner._process_is_alive m (Some pid) = Ok b -> b = true <-> process_alive m pid.
Proof.
  intros (? & _ & _ & _ & Hp%positive_pid) H. unfold Runner._process_is_alive in H. unfold process_alive.
  destruct (Z.leb_spec pid 0); [lia|]. destruct (2 ^ 31 <=? pid)%Z; [done|].
  injection H as <-. destruct (Runner.kill_zero m pid); naive_solver.
Qed.

Lemma lock_steps k p m m' r :
  reconcile_lock k p m = (m', r) ->
  m' = m \/
  (plain_file m p = true /\ (exists pid, lock_of m k p pid /\ ~ process_alive m pid) /\
   m' = fst (Runner.lock_unlink p m)).
Proof.
  unfold reconcile_lock. unfold mbind at 1, eff_bind at 1, asks. intros H.
  destruct (plain_file m p) eqn:Ep; cbn [negb] in H; [|injection H as <- _; by left].
  unfold mbind at 1, eff_bind at 1 in H.
  destruct (catch _ _ m) as [m1 x] eqn:Et.
  apply (quiet_try _ is_reconciliation_error (fun s => s)) in Et as [-> Hv]; [|apply verified_keeps].
  destruct x as [[pid|text]|e]; [|injection H as <- _; by left..].
  specialize (Hv pid eq_refl). apply verified_run in Hv.
  unfold mbind at 1, eff_bind at 1, _process_is_alive, reads in H.
  destruct (Runner._process_is_alive m (Some pid)) as [b|e] eqn:Ea; [|injection H as <- _; by left].
  pose proof (not_alive _ _ _ _ _ Hv Ea) as Hb.
  destruct b; [injection H as <- _; by left|]. right. split_and!; [done| |].
  - exists pid. split; [done|]. rewrite <- Hb. done.
  - unfold mbind, eff_bind, Backend.calls in H. destruct (Runner.lock_unlink p m) as [m2 call].
    by injection H as <- _.
Qed.

(** A verified lock of a process that is gone is removed. *)
Definition stale_removed (k : lock_kind) m m' : Prop := exists p pid,
  plain_file m p = true /\ lock_of m k p pid /\ ~ process_alive m pid /\ m' = fst (Runner.lock_unlink p m).

Lemma stale_locks k p m0 : keeps (rtc (stale_removed k) m0) (reconcile_lock k p).
Proof.
  intros m Hm. destruct (reconcile_lock k p m) as [m' r] eqn:E.
  apply lock_steps in E as [->|(Hp & (pid & Hl & Ha) & ->)]; [done|].
  eapply rtc_r; [exact Hm|]. by exists p, pid.
Qed.

(** *** A live lock *)

Definition held m (k : lock_kind) p : Prop :=
  plain_file m p = true /\ exists pid, verified_pid k p m = (m, Ok pid) /\ process_alive m pid.

Lemma first_block_held k paths p m m' x :
  p ∈ paths -> held m k p -> first_block k paths m = (m', x) ->
  m' = m /\ x <> Ok None.
Proof.
  intros Hin Hh. induction paths as [|q paths IH]; [by apply elem_of_nil in Hin|].
  cbn [first_block]. unfold mbind at 1, eff_bind at 1, asks. intros H.
  destruct (plain_file m q) eqn:Ep; cbn [negb] in H; [|injection H as <- <-; done].
  unfold mbind at 1, eff_bind at 1 in H. destruct (catch _ _ m) as [m1 y] eqn:Et.
  pose proof Et as Hq. apply (quiet_try _ is_reconciliation_error (fun s => s)) in Hq as [-> Hv];
    [|apply verified_keeps].
  destruct y as [[pid|text]|e]; [|injection H as <- <-; done..].
  specialize (Hv pid eq_refl). pose proof (verified_run _ _ _ _ _ Hv) as Hl.
  unfold mbind, eff_bind, _process_is_alive, reads in H.
  destruct (Runner._process_is_alive m (Some pid)) as [[]|e] eqn:Ea;
    [injection H as <- <-; done| |by injection H as <- <-].
  apply elem_of_cons in Hin as [->|Hin]; [|by apply IH].
  destruct Hh as [_ (pid' & Hv' & Ha)]. rewrite Hv in Hv'. injection Hv' as <-.
  apply (not_alive _ _ _ _ _ Hl Ea) in Ha. done.
Qed.
(** *** Workspaces *)

(** The contents of a metadata file, as [_read_key_value_file] accepts them: a
    regular file, opened without following a link, whose size is bounded and
    that was the same file, of the same size and time, after it was read. *)
Record metadata_file m p (values : list (string * string)) : Prop := mk_metadata_file {
  mf_link : is_symlink m p = false;
  mf_read : exists file text,
    open_nofollow m p = Ok file /\ st_regular (before file) = true /\
    (0 < st_size (before file) <= MAX_RECOVERY_METADATA_BYTES)%Z /\
    st_dev (before file) = st_dev (after file) /\ st_ino (before file) = st_ino (after file) /\
    st_size (before file) = st_size (after file) /\ st_mtime_ns (before file) = st_mtime_ns (after file) /\
    let raw := String.substring 0 (Z.to_nat (MAX_RECOVERY_METADATA_BYTES + 1)) (contents file) in
    Z.of_nat (String.length raw) = st_size (before file) /\ utf8_decode raw = Some text /\
    key_values (splitlines text) [] = Ok values;
}.

Lemma read_values_run p m m' values :
  _read_key_value_file p m = (m', Ok values) -> m' = m /\ metadata_file m p values.
Proof.
  unfold _read_key_value_file, read_bounded. intros H. inv_eff.
  match goal with H : reads _ _ = _ |- _ => apply reads_run in H as [-> Hf] end.
  match goal with H : match utf8_decode ?x with _ => _ end = Ok _ |- _ =>
    destruct (utf8_decode x) as [text|] eqn:Ed; [injection H as <-|done] end.
  match type of Hf with map_err _ (open_nofollow m p) = Ok ?file =>
    destruct (open_nofollow m p) as [file'|] eqn:Eo; [injection Hf as ->|done];
    split; [done|]; constructor; [by apply negb_true_iff|exists file, text] end.
  repeat match goal with
  | H : _ && _ = true |- _ => apply andb_true_iff in H as [? ?]
  | H : negb _ = true |- _ => apply negb_true_iff in H
  | H : _ || _ = false |- _ => apply orb_false_iff in H as [? ?]
  | H : (_ =? _)%Z = true |- _ => apply Z.eqb_eq in H
  | H : (_ <=? _)%Z = false |- _ => apply Z.leb_gt in H
  | H : (_ <? _)%Z = false |- _ => apply Z.ltb_ge in H
  end.
  cbn zeta. split_and!; done || lia.
Qed.

(** The ownership marker of a session directory: such a file, not a link, with
    exactly the fields of the schema. *)
Record owner_marker m (root : PurePosixPath.t) (marker : list (string * string)) : Prop := mk_owner_marker {
  om_plain : plain_file m (joinpath root ".rygnal-owner") = true;
  om_file : metadata_file m (joinpath root ".rygnal-owner") marker;
  om_fields : has_fields marker ["schema"; "run_id"; "trusted_repo_path"; "baseline_commit_sha";
                                 "workspace_path"] = true;
  om_schema : field marker "schema" = OWNER_MARKER_SCHEMA;
}.

(** The marker in the directory proves whose it is: the run, the repository, the
    workspace and the baseline are those it names, the run is named as the
    directory, its workspace is the directory's, inside the workspaces root and
    apart from the trusted repository, which is the root of a Git repository. *)
Record proved_owner (run_root : PurePosixPath.t) m (root : PurePosixPath.t) (s : RecoverySession.t) : Prop :=
  mk_proved_owner {
  ow_plain : plain_directory m root = true;
  ow_marker : exists marker, owner_marker m root marker /\
    RecoverySession.run_id s = field marker "run_id" /\
    (let repo := expanduser (PurePosixPath.of_string (field marker "trusted_repo_path")) in
     PurePosixPath.is_absolute repo = true /\ RecoverySession.trusted_repo_path s = resolve m repo) /\
    (let workspace := expanduser (PurePosixPath.of_string (field marker "workspace_path")) in
     PurePosixPath.is_absolute workspace = true /\ RecoverySession.workspace_path s = resolve m workspace) /\
    valid_sha (field marker "baseline_commit_sha") = true /\
    RecoverySession.baseline_commit_sha s = lower (field marker "baseline_commit_sha");
  ow_name : RecoverySession.run_id s = PurePosixPath.name root;
  ow_id : identifier_ok (RecoverySession.run_id s) = true;
  ow_workspace : RecoverySession.workspace_path s = resolve m (joinpath root "workspace");
  ow_inside : _strict_descendant (resolve m root) (resolve m (joinpath run_root "workspaces")) = true;
  ow_apart : RecoverySession.workspace_path s <> RecoverySession.trusted_repo_path s;
  ow_repo : snd (detect_trusted_repo_root (RecoverySession.trusted_repo_path s) m)
            = Ok (RecoverySession.trusted_repo_path s);
}.

Lemma marked_keeps P run_root root : keeps P (marked_session run_root root).
Proof.
  unfold marked_session, _read_owner_marker, _session_from_marker. keeps.
  all: try apply metadata_keeps. all: apply toplevel_keeps.
Qed.

Lemma marker_run root m m' marker :
  _read_owner_marker (joinpath root ".rygnal-owner") m = (m', Ok marker) ->
  m' = m /\ owner_marker m root marker.
Proof.
  unfold _read_owner_marker. intros H. inv_eff.
  match goal with H : _read_key_value_file _ _ = _ |- _ => apply read_values_run in H as [-> Hv] end.
  split; [done|]. constructor; [done|by subst|by subst|].
  subst. by match goal with H : String.eqb _ _ = true |- _ => apply String.eqb_eq in H end.
Qed.

Lemma marked_owned run_root root m s :
  plain_directory m root = true -> marked_session run_root root m = (m, Ok s) -> proved_owner run_root m root s.
Proof.
  unfold marked_session. intros Hp H. apply bind_run in H as (m1 & marker & Hr & H).
  apply marker_run in Hr as [-> Hmark].
  unfold _session_from_marker in H. inv_eff.
  repeat match goal with
  | H : _ && _ = true |- _ => apply andb_true_iff in H as [? ?]
  | H : String.eqb _ _ = true |- _ => apply String.eqb_eq in H
  | H : negb _ = true |- _ => apply negb_true_iff in H
  | H : bool_decide _ = true |- _ => apply bool_decide_eq_true in H
  | H : bool_decide _ = false |- _ => apply bool_decide_eq_false in H
  end.
  constructor; cbn; try done; subst.
  - exists marker. cbn zeta. by split_and!.
  - match goal with H : detect_trusted_repo_root _ _ = _ |- _ => by rewrite H end.
Qed.

(** C17 Recovery leaves a workspace directory alone, or the ownership marker in
    it, a bounded regular file that is no link, unchanged while it was read and
    with exactly the fields of its schema, names the session: its run is the
    directory's name, its workspace the directory's own, its repository the
    root of a Git repository apart from it; and that session is recovered. *)
Theorem recovered_workspace_was_owned run_root root m m' r :
  _recover_workspace run_root root m = (m', r) ->
  m' = m \/ exists s, proved_owner run_root m root s /\ recover_session run_root root s m = (m', r).
Proof.
  unfold _recover_workspace. unfold mbind at 1, eff_bind at 1, asks. intros H.
  destruct (plain_directory m root) eqn:Ep; cbn [negb] in H; [|injection H as <- _; by left].
  unfold mbind at 1, eff_bind at 1 in H. destruct (or_unresolved _ _ _ m) as [m1 x] eqn:Et.
  apply quiet_try in Et as [-> Hv]; [|apply marked_keeps].
  destruct x as [[s|f]|e]; [|injection H as <- _; by left..].
  right. exists s. split; [by apply marked_owned, Hv|done].
Qed.

(** *** A pass beside a live run *)

(** What a pass does on the machine while a verified guarded-run lock is held
    by a live process: stale locks go, the artifact quarantine is made, and
    artifacts are moved into it. *)
Inductive spared (artifact_root : PurePosixPath.t) : M -> M -> Prop :=
  | stale_lock k p pid m : lock_of m k p pid -> ~ process_alive m pid ->
      spared artifact_root m (fst (Runner.lock_unlink p m))
  | quarantine_made m :
      spared artifact_root m (fst (fs_mkdir (joinpath artifact_root "quarantine") true m))
  | quarantine_secured m :
      spared artifact_root m (fst (fs_chmod (joinpath artifact_root "quarantine") mode_700 m))
  | artifact_moved id file destination m :
      spared artifact_root m (fst (move_artifact id file destination m)).

Definition live_lock m (k : lock_kind) p : Prop :=
  exists_path m (lk_root k) = true /\ plain_directory m (lk_root k) = true /\ p ∈ lock_paths m k /\ held m k p.

Lemma live_lock_blocks k p m m' x :
  live_lock m k p -> _lock_root_block_reason k m = (m', x) -> m' = m /\ x <> Ok None.
Proof.
  intros (Hex & Hpl & Hin & Hh). unfold _lock_root_block_reason. unfold mbind at 1, eff_bind at 1, asks.
  rewrite Hex. cbn [negb]. unfold mbind at 1, eff_bind at 1. rewrite Hpl. cbn [negb].
  unfold mbind at 1, eff_bind at 1. by apply first_block_held with p.
Qed.

Lemma first_block_keeps P k paths : keeps P (first_block k paths).
Proof.
  induction paths as [|q paths IH]; cbn [first_block]; keeps;
    [|unfold _process_is_alive; apply reads_keeps].
  apply catch_keeps; [keeps; apply verified_keeps|]. intros e h. destruct (is_reconciliation_error e); [|done].
  intros [= <-]. keeps.
Qed.

Lemma block_reason_keeps P k : keeps P (_lock_root_block_reason k).
Proof. unfold _lock_root_block_reason. keeps. apply first_block_keeps. Qed.

Lemma spared_lock artifact_root m0 k p : keeps (rtc (spared artifact_root) m0) (reconcile_lock k p).
Proof.
  intros m Hm. destruct (reconcile_lock k p m) as [m' r] eqn:E.
  apply lock_steps in E as [->|(_ & (pid & Hl & Ha) & ->)]; [done|].
  eapply rtc_r; [exact Hm|]. by apply stale_lock with k pid.
Qed.

Lemma spared_quarantine artifact_root m0 :
  keeps (rtc (spared artifact_root) m0) (_ensure_private_directory (joinpath artifact_root "quarantine")).
Proof.
  unfold _ensure_private_directory. keeps.
  - apply sys_keeps. intros m Hm. eapply rtc_r; [exact Hm|apply quarantine_made].
  - apply catch_keeps; [apply sys_keeps; intros m Hm; eapply rtc_r; [exact Hm|apply quarantine_secured]|].
    intros e h. destruct (is_os_error e); [|done]. intros [= <-]. apply raise_keeps.
Qed.
End Machine.

Section Live.
Context {M Q R L : Type} {WH : WorktreeHost M} {LH : Runner.LockHost M} {RH : RecoveryHost M}
  {AH : ArtifactHost} {QO : Service.ApprovalQueueOps Q} {AA : ApplyAudit L}.
Context (active : Z -> string -> bool)
  (inspect : string -> result OperationStore.op_error (string * bool)).
Context (run_root artifact_root : PurePosixPath.t) (c : Service.clock) (m0 : M).
Hypothesis Hgit : git_reports_only (M := M).

Notation recon := (recon (M:=M) (Q:=Q) (R:=R) (L:=L)).

(** What holds of the machine. *)
Definition of_machine (P : M -> Prop) (t : recon) : Prop := P (r_machine t).

Lemma machine_lifts {A} P (f : eff M A) : keeps P f -> keeps (of_machine P) (on_machine f).
Proof. intros Hf [m s] H. unfold on_machine. specialize (Hf m H). cbn. by destruct (f m). Qed.

(** What does not touch the machine. *)
Definition off_machine {A} (f : eff recon A) : Prop := forall t, r_machine (fst (f t)) = r_machine t.

Lemma off_machine_keeps {A} P (f : eff recon A) : off_machine f -> keeps (of_machine P) f.
Proof. intros H t Ht. unfold of_machine. by rewrite H. Qed.

Lemma decision_off request decision metadata :
  off_machine (Reconciler.log_decision request decision metadata).
Proof. intros t. unfold Reconciler.log_decision. by destruct (log_event _ _ _ _). Qed.

Lemma services_off {A} (f : Service.op A) : off_machine (on_services (M:=M) f).
Proof. intros t. unfold on_services. by destruct (f _). Qed.

Lemma run_store_off db events : off_machine (run_store active inspect c db events).
Proof. intros t. unfold run_store. by destruct (OperationStore.reconcile_incomplete _ _ _ _ _) as [[]|]. Qed.

Lemma consume_off id : off_machine (consume_artifact artifact_root c id).
Proof. intros t. unfold consume_artifact. by destruct (mark_consumed _ _ _ _) as [[] ]. Qed.

Lemma asked_lifts {A} P (f : M -> A) : keeps (of_machine P) (on_machine (asks f)).
Proof. apply machine_lifts, asks_keeps. Qed.

Lemma audited_lifts P trace f : keeps (of_machine P) (audited trace f).
Proof. unfold audited. keeps. apply off_machine_keeps, decision_off. Qed.

Hint Resolve asked_lifts audited_lifts each_keeps or_finding_keeps : eff.

Lemma locks_lift P trace k :
  (forall p, keeps P (reconcile_lock k p)) -> keeps (of_machine P) (_reconcile_pid_locks trace k).
Proof.
  intros Hl. unfold _reconcile_pid_locks. keeps. apply each_keeps. intros p. keeps. by apply machine_lifts.
Qed.

(** C18 What a pass does about a directory of locks is to remove, one after
    another, plain files with exactly the fields of their kind, the identity of
    their name and a process that is gone. *)
Theorem removed_locks_were_stale trace k (t t' : recon) r :
  _reconcile_pid_locks trace k t = (t', r) -> rtc (stale_removed k) (r_machine t) (r_machine t').
Proof.
  intros H. pose proof (locks_lift (rtc (stale_removed k) (r_machine t)) trace k) as Hk.
  specialize (Hk (fun p => stale_locks Hgit k p _) t (rtc_refl _ _)). by rewrite H in Hk.
Qed.

(** *** Beside a live run *)

Notation beside := (of_machine (rtc (spared artifact_root) m0)).

Lemma replace_spared id file destination :
  keeps beside (replace_artifact (M:=M) (Q:=Q) (L:=L) (R:=R) id file destination).
Proof.
  intros t Ht. unfold replace_artifact, of_machine.
  pose proof (artifact_moved artifact_root id file destination (r_machine t)) as Hs.
  destruct (move_artifact _ _ _ _) as [m' [u|text]]; cbn in *; by apply rtc_r with (r_machine t).
Qed.

Lemma locks_spared trace k : keeps beside (_reconcile_pid_locks trace k).
Proof. apply locks_lift. intros p. by apply spared_lock. Qed.

Lemma queue_spared : keeps beside (list_queue (M:=M) (Q:=Q) (R:=R) (L:=L)).
Proof. by apply off_machine_keeps. Qed.

Lemma events_spared : keeps beside (apply_events (M:=M) (Q:=Q) (R:=R) (L:=L)).
Proof. by apply off_machine_keeps. Qed.

Lemma operations_spared trace : keeps beside (_reconcile_operations active inspect c trace).
Proof.
  unfold _reconcile_operations, reconcile_store. pose proof events_spared as He.
  pose proof (fun db events => off_machine_keeps (rtc (spared artifact_root) m0) _ (run_store_off db events)) as Hr.
  keeps.
Qed.

Lemma quarantine_spared id : keeps beside (quarantine_finding artifact_root id).
Proof.
  unfold quarantine_finding, _quarantine_orphan_artifact. pose proof replace_spared as Hr.
  apply bind_keeps; [apply or_finding_keeps|intros; keeps]. keeps.
  apply machine_lifts, spared_quarantine.
Qed.

Lemma artifact_spared items id : keeps beside (reconcile_artifact artifact_root c items id).
Proof.
  pose proof quarantine_spared as Hq. pose proof events_spared as He.
  pose proof (fun id => off_machine_keeps (rtc (spared artifact_root) m0) _ (consume_off id)) as Hc.
  pose proof (fun A (f : Service.op A) => off_machine_keeps (rtc (spared artifact_root) m0) _ (services_off f)) as Hs.
  assert (Hl : keeps beside (load_artifact (M:=M) (Q:=Q) (R:=R) (L:=L) c id)) by by apply off_machine_keeps.
  unfold reconcile_artifact, reconcile_loaded, reconcile_bound, consume_finding, reject_finding. keeps.
Qed.

Lemma artifacts_spared trace block :
  keeps beside (_reconcile_artifacts active inspect artifact_root c trace block).
Proof.
  unfold _reconcile_artifacts. pose proof operations_spared as Ho. pose proof queue_spared as Hq.
  pose proof artifact_spared as Ha. keeps.
Qed.

(** C19 While the lock of a guarded run is in place, verified and its process alive,
    a recovery pass changes the machine only by removing verified stale locks
    and by quarantining artifacts: no workspace is moved, cleaned up or pruned. *)
Theorem live_run_keeps_its_workspace p trace fresh (t0 t : recon) r :
  r_machine t0 = m0 -> live_lock m0 (guarded_run_lock run_root) p ->
  reconcile active inspect run_root artifact_root c trace fresh t0 = (t, r) ->
  rtc (spared artifact_root) m0 (r_machine t).
Proof.
  intros Hm Hl H. unfold reconcile in H. unfold mbind at 1, eff_bind at 1, on_machine at 1 in H.
  rewrite Hm in H. destruct (_lock_root_block_reason _ m0) as [m1 x] eqn:Eb.
  apply (live_lock_blocks Hgit _ _ _ _ _ Hl) in Eb as [-> Hx].
  assert (H0 : beside (mk_recon m0 (r_services t0))) by apply rtc_refl.
  destruct x as [[reason|]|e]; [|done|by injection H as <- _].
  match type of H with ?f ?t = _ => enough (Hk : keeps beside f) by
    (specialize (Hk t H0); rewrite H in Hk; exact Hk) end.
  apply bind_keeps; [by apply machine_lifts, block_reason_keeps|]. intros artifact_block.
  unfold _reconcile_without_lock_gate, _reconcile_workspaces, _write_summary_audit.
  pose proof locks_spared as Hlocks. pose proof artifacts_spared as Harts.
  pose proof (fun q d m => off_machine_keeps (rtc (spared artifact_root) m0) _ (decision_off q d m)) as Hd.
  keeps.
Qed.
End Live.
End ReconcilerSafety.
