(* ===== verification/ReconcilerExample.v ===== *)
(** * Recovery passes on a small machine

    The machine of [RecoveryExample] after a crash: a session, locks, a queue
    and an artifact; the passes that clean it up, that leave a live run alone,
    and that fail; and the witnesses of the theorems of [ReconcilerSafety]. *)

From S2P Require Import ReconcilerSafety RunExample ServiceExample.

Local Open Scope string_scope.
Local Open Scope list_scope.
Local Open Scope py_scope.

Module ReconcilerExample.
Import Recovery Reconciler ReconcilerSafety RecoveryExample.

#[local] Existing Instance RunExample.locks.
#[local] Existing Instance toy_audit.
#[local] Existing Instance ArtifactExample.example_host.
#[local] Existing Instance ServiceExample.queue_ops.

(** Files are read as they are stored; the time is 2000000000. *)
#[local] Instance opening : RecoveryHost machine := {|
  open_nofollow m p :=
    match assoc_get (files m) (Recovery.show p) with
    | Some text => let s := mk_stat true 1 7 (Z.of_nat (String.length text)) 0 in Ok (mk_opened s text s)
    | None => Raise "No such file or directory"
    end;
  utf8_decode s := Some s;
  parse_float s := match int_of_text s with Some z => Finite (of_int z) | None => NoFloat end;
  clock_seconds _ := of_int 2000000000;
  move_artifact _ file destination m :=
    (with_files m ((Recovery.show destination,
                    match file with RegularText text => text | _ => "" end) :: files m), Ok ());
  consume_faults _ _ := no_faults;
|}.

Definition path : string -> PurePosixPath.t := PurePosixPath.of_string.

Definition lock_name : string := "/runs/.rygnal-locks/repo.lock".

(** The lock of a run of the process [pid]. *)
Definition lock_text (pid : string) : string :=
  str_join newline ["pid=" +++ pid; "trace_id=trace_7"; "trusted_repo_path=/repo"; "lock_identity=repo";
                    "created_at_unix=1999999000"; ""].

(** A crash: the session of the example is left, and the lock of [pid]. *)
Definition crashed (pid : string) : machine :=
  let m := snd example_session in
  mk_machine ("/runs/.rygnal-locks" :: dirs m) ((lock_name, lock_text pid) :: files m) (worktrees m) "" false.

(** The trusted repository of the session is a directory without Git. *)
Definition orphaned : machine :=
  with_files (snd example_session)
    [("/runs/workspaces/run1/.rygnal-owner",
      str_join newline ["schema=rygnal-worktree-owner.v1"; "run_id=run1"; "trusted_repo_path=/gone";
        "baseline_commit_sha=" +++ sha; "workspace_path=/runs/workspaces/run1/workspace"; ""])].

Definition services (q : items) (files : artifact_store) :=
  Service.mk_services q files ArtifactExample.example_world (Some (OperationStore.mk_db ∅ ∅)).

(** An approval of an artifact that is not in the directory. *)
Definition waiting : items :=
  [("apr_9", Queued.mk (explicit_request ArtifactExample.example_digest) PENDING None)].

Definition state : Type :=
  recon (M := machine) (Q := items) (R := toy_repo * list string) (L := list (string * pydict)).

Definition started (m : machine) (q : items) (files : artifact_store) : state :=
  mk_recon m (services q files).

Notation pass m q files :=
  (reconcile OperationStore.all_dead ServiceExample.dirty (path "/runs") (path "/artifacts")
     ServiceExample.example_clock None "trace_0" (started m q files)).

Definition outcome (x : state * result exn RecoveryReport.t) :=
  let '(t, r) := x in
  (dirs (r_machine t), List.map fst (files (r_machine t)),
   match r with
   | Ok r => Ok (List.map (fun f => (RecoveryFinding.kind f, RecoveryFinding.status f)) (RecoveryReport.findings r))
   | Raise e => Raise (exn_text e)
   end).

(** The session and the stale lock go; the approval is reported. *)
Example crash_is_cleaned_up : outcome (pass (crashed "40") waiting ArtifactExample.empty_store)
  = (["/runs/.rygnal-locks"; "/runs/quarantine"; "/runs/timelines"; "/runs/workspaces"; "/runs"; "/repo"], [],
     Ok [("workspace", RecoveryFindingStatus.RECOVERED); ("guarded_run_lock", RecoveryFindingStatus.RECOVERED);
         ("approval", RecoveryFindingStatus.UNRESOLVED)]).
Proof. vm_compute. reflexivity. Qed.

Example live_run_is_left_alone :
  outcome (pass (crashed "41") [] ArtifactExample.empty_store)
  = (dirs (crashed "41"), List.map fst (files (crashed "41")),
     Ok [("workspace_recovery", RecoveryFindingStatus.ACTIVE); ("guarded_run_lock", RecoveryFindingStatus.ACTIVE)]).
Proof. vm_compute. reflexivity. Qed.

(** The same machine, whose directory "/gone" has no repository. *)
Definition git_is_gone : WorktreeHost machine := {|
  git args p m := if String.eqb (Recovery.show p) "/gone"
                  then (m, Raise (GitExit "fatal: not a git repository" "")) else example_git args p m;
  resolve := @resolve _ example_host; expanduser := @expanduser _ example_host;
  tempdir := @tempdir _ example_host; exists_path := @exists_path _ example_host;
  is_dir := @is_dir _ example_host; is_file := @is_file _ example_host;
  is_symlink := @is_symlink _ example_host; iterdir := @iterdir _ example_host;
  read_text := @read_text _ example_host; fs_mkdir := @fs_mkdir _ example_host;
  fs_chmod := @fs_chmod _ example_host; fs_create := @fs_create _ example_host;
  fs_write := @fs_write _ example_host; fs_unlink := @fs_unlink _ example_host;
  fs_rmdir := @fs_rmdir _ example_host; fs_replace := @fs_replace _ example_host;
|}.

(** The trusted repository of one session is gone: Git fails in it, which
    nothing in the pass handles, and the pass ends without a report. *)
Example missing_repository_ends_the_pass :
  snd (reconcile (WH := git_is_gone) OperationStore.all_dead ServiceExample.dirty (path "/runs")
         (path "/artifacts") ServiceExample.example_clock None "trace_0"
         (started orphaned waiting ArtifactExample.empty_store))
  = Raise (RecoverySessionError "Directory is not a valid Git repository: /gone").
Proof. vm_compute. reflexivity. Qed.

(** ** An artifact between its storage and its approval *)

Notation artifact := (canon_artifact (example_artifact ArtifactExample.example_digest)).

Lemma artifact_loads :
  load (ArtifactExample.example_store ArtifactExample.example_digest) "art_1" true true
    (Service.now ServiceExample.example_clock) = Ok artifact.
Proof.
  apply load_iff; [apply ArtifactExample.example_ids|]. split_and!.
  - apply (ArtifactExample.example_persisted _ ArtifactExample.example_digest_eq tt).
  - done.
  - exists false. split; [vm_compute; reflexivity|done].
Qed.

(** A run stores its artifact before it submits the approval.  The lock of the
    run does not cover artifacts: a pass in between quarantines it. *)
Example artifact_of_a_live_run_is_quarantined :
  exists t f, reconcile_artifact (path "/artifacts") ServiceExample.example_clock [] "art_1"
    (started (crashed "41") [] (ArtifactExample.example_store ArtifactExample.example_digest)) = (t, Ok f) /\
  RecoveryFinding.status f = RecoveryFindingStatus.QUARANTINED /\
  st_files (artifacts t) !! "art_1" = None /\
  snd (_lock_root_block_reason (guarded_run_lock (path "/runs")) (crashed "41"))
    = Ok (Some "active: An active process lock protects this recovery category.").
Proof.
  pose proof artifact_loads as Hl. unfold ArtifactExample.example_store in *.
  generalize dependent (canonical_json (JDict (PatchArtifact.to_payload
    (example_artifact ArtifactExample.example_digest) true))). intros text Hl.
  revert Hl. generalize artifact. intros a Hl.
  assert (Hf : st_files (put_file ArtifactExample.empty_store "art_1" (RegularText text)) !! "art_1"
               = Some (RegularText text)) by (vm_compute; reflexivity).
  unfold reconcile_artifact, load_artifact, or_finding, catch, mbind, eff_bind, asks, started, artifacts.
  cbn [r_services services Service.files]. rewrite Hf.
  cbn [r_services services Service.files]. rewrite Hl. cbn [mret eff_ret].
  eexists _, _. split; [vm_compute; reflexivity|]. by split_and!; [vm_compute..].
Qed.

(** ** Witnesses *)

Lemma toy_log_is_honest : honest_log (L := list (string * pydict)).
Proof.
  intros l request decision metadata approval_id patch_sha256 baseline Hd (l' & events & [= <-] & [= <-] & He).
  exists l. eexists. split; [reflexivity|]. split; [reflexivity|].
  rewrite List.filter_app, List.map_app, List.existsb_app in He. apply orb_true_iff in He as [He|He]; [exact He|].
  exfalso. cbn [List.filter fst] in He.
  destruct (String.eqb_spec (default "" (PolicyDecision.policy_id decision)) APPROVED_PATCH_APPLY_POLICY_ID) as [E|E];
    [|discriminate He].
  destruct Hd as [Hd|Hd].
  - destruct (PolicyDecision.policy_id decision) as [x|]; cbn in E; [by subst|discriminate E].
  - cbn in He. unfold event_matches in He. rewrite Hd in He. discriminate He.
Qed.

Lemma settles_witness : exists t r,
  pass (crashed "40") waiting ArtifactExample.empty_store = (t, r) /\
  files (r_machine t) = [] /\ w_repo (trusted_of t) = ([], []) /\
  rtc reject_step waiting (Service.queue (r_services t)).
Proof.
  assert (Hf : files (r_machine (fst (pass (crashed "40") waiting ArtifactExample.empty_store))) = [])
    by (vm_compute; reflexivity).
  destruct (pass (crashed "40") waiting ArtifactExample.empty_store) as [t r] eqn:E.
  exists t, r. split; [reflexivity|]. split; [exact Hf|].
  destruct (recovery_settles_by_evidence _ _ _ _ _ _ toy_log_is_honest _ _ _ _ E) as [Hr _ Hq _ _].
  split; [exact Hr|exact Hq].
Defined.

Lemma stale_lock_witness : exists m,
  rtc (stale_removed (guarded_run_lock (path "/runs"))) (crashed "40") m /\
  assoc_get (files (crashed "40")) lock_name <> None /\ assoc_get (files m) lock_name = None.
Proof.
  assert (Hf : assoc_get (files (r_machine (fst (_reconcile_pid_locks "trace_0" (guarded_run_lock (path "/runs"))
                 (started (crashed "40") waiting ArtifactExample.empty_store))))) lock_name = None)
    by (vm_compute; reflexivity).
  destruct (_reconcile_pid_locks "trace_0" (guarded_run_lock (path "/runs"))
              (started (crashed "40") waiting ArtifactExample.empty_store)) as [t r] eqn:E.
  exists (r_machine t). split; [|split; [discriminate|exact Hf]].
  exact (removed_locks_were_stale example_reports _ _ _ _ _ E).
Defined.

Lemma owned_workspace_witness : exists s m r,
  proved_owner (path "/runs") (crashed "40") (path "/runs/workspaces/run1") s /\
  recover_session (path "/runs") (path "/runs/workspaces/run1") s (crashed "40") = (m, r) /\
  worktrees m = [].
Proof.
  assert (Hw : worktrees (fst (_recover_workspace (path "/runs") (path "/runs/workspaces/run1") (crashed "40"))) = [])
    by (vm_compute; reflexivity).
  destruct (_recover_workspace (path "/runs") (path "/runs/workspaces/run1") (crashed "40")) as [m r] eqn:E.
  destruct (recovered_workspace_was_owned example_reports _ _ _ _ _ E) as [->|(s & Ho & Hr)].
  - exfalso. vm_compute in Hw. discriminate Hw.
  - exists s, m, r. split; [exact Ho|]. split; [exact Hr|exact Hw].
Defined.

Lemma crashed_lock_is_live : live_lock (crashed "41") (guarded_run_lock (path "/runs")) (path lock_name).
Proof.
  split; [vm_compute; reflexivity|]. split; [vm_compute; reflexivity|]. split.
  - apply list_elem_of_In. vm_compute. left. reflexivity.
  - split; [vm_compute; reflexivity|]. exists 41%Z. split; [vm_compute; reflexivity|]. left. reflexivity.
Qed.

Lemma live_run_witness : exists t r,
  pass (crashed "41") waiting ArtifactExample.empty_store = (t, r) /\
  rtc (spared (path "/artifacts")) (crashed "41") (r_machine t).
Proof.
  destruct (pass (crashed "41") waiting ArtifactExample.empty_store) as [t r] eqn:E.
  exists t, r. split; [reflexivity|].
  exact (live_run_keeps_its_workspace OperationStore.all_dead ServiceExample.dirty (path "/runs")
           (path "/artifacts") ServiceExample.example_clock (crashed "41") example_reports _ None "trace_0"
           (started (crashed "41") waiting ArtifactExample.empty_store) t r eq_refl crashed_lock_is_live E).
Defined.
End ReconcilerExample.
